(* ===== verification/_CoqProject ===== *)
-Q . S2P
Prelude.v
Crc.v
Bytes.v
X86.v
Buddy.v
Frames.v
Disk.v
DiskSched.v
FatIo.v
Swap.v
Vmm.v
Signal.v
Task.v
Gs.v
Cpu.v
Gdt.v
Sched.v
Reaper.v
Security.v
Console.v
Fat.v
Records.v
Vfs.v
Mount.v
Loader.v
Sync.v
Heap.v
Ipc.v
PingPong.v
Syscall.v
Interrupts.v
Boot.v
Children.v
User.v
Init.v
UserTest.v
Tests.v
Main.v
