(* ===== verification/Prelude.v ===== *)
(** * AlaphiOS kernel: verification development

    AlaphiOS is a single-processor x86-64 kernel.  This library models the parts
    of it that have state and algorithms of their own, and proves what makes
    them correct.  Paths below are under [src/kernel/src], except [init.S], the
    program in [src/user/init], and [build.rs] in [src/kernel].

    ** Parts and how they interact

    At boot [memory::init] takes the usable physical frames, maps the heap and
    leaves the rest to a frame free list; the heap is a buddy allocator.  A RAM
    disk holds a FAT volume, and a second one the swap area.  Every user task
    has an address space described by areas and filled on page faults, with
    copy-on-write and swapping; a reaper task evicts pages by second chance
    when free frames run low.  Tasks are switched by a multi-level feedback
    queue scheduler driven by the timer; mutexes, condition variables and pipes
    block and wake tasks through it.  System calls enter through an assembly
    stub that saves the registers in a trap frame, and signals are delivered on
    the way back.  Files are reached through a logical file system with open
    file tables and permission overlays.  [main.rs] brings the services up in
    order, runs a self-test of each, the last by loading the program [init.S] and
    running it in user mode, and starts the reaper and two tasks that hand a
    turn to each other through a monitor.

    ** Files

    - [Prelude]: results and panics, the state and error monad, machine
      integers, tactics and generic lemmas.  [Bytes]: little-endian encodings
      and byte memory.
    - [X86], [Fat]: classes for what the kernel uses of the crates [x86_64]
      and [fatfs], with their documented behaviour as laws and an instance of
      each that has them.
    - [Crc] ([io/crc.rs]), [Disk] ([io/disk.rs]), [DiskSched]
      ([io/scheduler.rs]), [FatIo] ([fs/fat.rs]): the storage stack.  The
      traits [DiskDevice] and [RequestScheduler] are classes with laws.
    - [Buddy] ([memory/buddy_allocator.rs]), [Frames]
      ([memory/frame_allocator.rs], [free_list.rs], [heap.rs], [mod.rs]),
      [Swap] and [Vmm] ([memory/swap.rs], [vmm.rs], [arch/paging.rs]): memory.
      [Reaper] is the rest of [memory/swap.rs]: the sweep over the pages of all
      tasks and the eviction of victims.  [Heap] is the buddy allocator behind
      its lock, as the global allocator.
    - [Signal] ([process/signal.rs]), [Task] ([process/task.rs], [pid.rs],
      [arch/context.rs], [usermode.rs], [syscall.rs]), [Sched]
      ([scheduler/mlfq.rs], [scheduler/mod.rs], [process/table.rs],
      [lifecycle.rs]): tasks.  The record [Sched.kernel] is the task store, the
      table, the scheduler and the preemption counter.  [Gdt] ([arch/gdt.rs]
      and the registers set by [arch/syscall.rs]) is the segment table.  [Gs]
      follows GS and KERNEL_GS_BASE through [arch/context.rs] and
      [arch/syscall.rs], which find the kernel stack of a task by them.
    - [Sync] ([sync/*.rs]) and [Ipc] ([ipc/*.rs]): locks, condition variables,
      the user mutex, pipes and message queues, over [Sched.kernel].
    - [Security] ([security/mod.rs]), [Console] ([io/console.rs], [device.rs],
      and the scancode ring of [arch/interrupts.rs]), [Records] ([fs/overlay.rs],
      [fs/system_domain.rs]), [Vfs] ([fs/vfs.rs], [fcb.rs], [fd_table.rs],
      [stat.rs]), [Mount] (formatting and mounting, of [fs/fat.rs]).
    - [Loader] ([process/loader.rs], [clone_kernel_half] of
      [arch/paging.rs]): new address spaces and programs.
    - [Syscall] ([syscall/dispatch.rs], [numbers.rs], [arch/idt.rs]): the
      handlers, composed from all of the above over the record [Syscall.sys].
      [Interrupts] ([arch/idt.rs], [interrupts.rs], [arch/mod.rs]) is the
      descriptor table, its handlers and the interrupt controllers, the last
      through a class with a model of the two chips as instance.
    - [PingPong] and [Boot] ([main.rs]): the two monitor tasks, and the start
      of the services and the self-tests over the record [Boot.machine], which
      is [Syscall.sys] with the page table, the frame pool, the next free
      RAM-disk address, the swap area and the recorded top-level entries.
      [Children] adds the self-tests that clone or fork a child and join it, as
      a step system of the boot task, the child and the timer.
    - [Cpu] ([init.S], [build.rs]): the instructions the program uses, their
      encodings, the program as the source has it and the bytes of its binary.
      [User] ([arch/syscall.rs], [process/task.rs]): a user task at work,
      fetching and decoding bytes of its address space, taking page faults and
      calling [Syscall]'s handlers.  [Init]: the run of the program, point by
      point.  [UserTest] ([main.rs]): the self-test that loads and runs it, as
      a step system like those of [Children]; [Tests] puts the self-tests in
      order, and [Main] is the end of [kernel_main].

    ** Conventions

    A function of the source is a function here, with the state it changes as
    argument and result.  Machine integers are [Z], with wrap-around, or with
    overflow as a panic where the build checks it.  [None] is a panic or
    undefined behaviour; errors are [Err].  Raw memory is explicit: links kept
    in free memory, stacks and user buffers are read and written as bytes.  A
    shared object ([Arc<Spinlock<Task>>]) is an address in a store, so aliases
    see each other's updates.  System calls run with interrupts masked, so
    each handler is one step; an operation that gives up the processor is
    split there, and interleavings are sequences of such steps.  The memory of
    [Syscall.sys] holds what the running address space shows: the pages of the
    one user program appear in it when they are first mapped ([User]).

    ** What the theorems show

    - Memory: [Buddy] proves that blocks handed out are aligned, disjoint and
      inside the heap in every reachable state, that freeing terminates and
      that an idle heap serves every request it can hold, and [Heap] that all
      this holds of the locked allocator, which leaves the preemption counter
      as it was; [Frames] that boot
      divides the frames between the heap's pages, their page tables and the
      free list, and that the free list conserves them; [Swap] that the
      swap area is a map from slots to pages; [Vmm] that eviction followed by a
      fault restores a page and changes nothing else, and what zero-fill, fork
      and [mprotect] change; [Reaper] that reaping terminates, frees what it
      counts and loses no page, which page the second-chance policy takes, and
      which pages lose their accessed bit for it.
    - Storage: [Crc] proves the table equal to bit-serial division and which
      corruptions it detects; [Disk] that reads return the last write;
      [DiskSched] that draining serves each request once, in order; [FatIo]
      that a cursor over any lawful device is a flat byte array.
    - Tasks: [Task] proves the round trip of the context switch, the path of a
      new task to ring 3 and that system calls preserve registers; [Signal]
      that a handled signal is transparent; [Loader] that a loaded program's
      address space is the program; [Sched] the invariant of the
      scheduler in every state its operations reach, a bound on waiting, and that exit
      codes reach their joiner.  [Gdt] proves that the segments loaded by
      [syscall] and [sysret] are the ones the table describes, [Gs] that a
      single user task always finds its own kernel stack, and [Interrupts] that
      every timer and keyboard interrupt reaches its handler, is counted or
      queued, and is acknowledged.
    - Synchronisation: [Sync] proves mutual exclusion of the user mutex and
      [Ipc] that a pipe carries the bytes of each sender in order, under every
      interleaving; [PingPong] that the two tasks take strict turns, that the
      condition queue holds those that wait, and that neither is lost in it.
    - Files and rights: [Vfs] proves exclusive opening of paths in every
      reachable state, that data access follows the permission bits and that written
      data is read back, also by path after closing; [Records] that the
      password and permission files survive an unclean shutdown; [Security]
      that grants and revokes are those of an access matrix and never amplify
      rights; [Console] that reads implement a line discipline.
    - The whole: [Boot] proves that every service starts from power-on without
      a panic and that the self-tests that run in the boot task then pass, for
      every lawful file system, paging and hash, unless the volume refuses to
      be formatted or to store a file.  [Children] proves that the
      clone and fork tests never panic or fail an assertion under any timer
      interrupts, and that they can always still finish unless an interrupt
      fell inside [exit].  [Cpu] proves that decoding is the inverse of encoding,
      [Init] that every step of the program goes from one point of its source to
      the next, through the calls, page faults and the signal it makes, and
      [UserTest] that the user-mode test passes and can always still finish.
      [Tests] puts them together: from the state the services leave, and with a
      volume that takes the files of the tests, all the self-tests pass in order
      under timer interrupts.  [Main] proves that the tasks started last all
      get to run.
    - Defects: theorems named for what goes wrong show that a copy-on-write
      fault copies from the wrong address ([Vmm]), that fork drops swapped
      pages ([Vmm]), that evicting a page shared by fork frees a frame that is
      still mapped ([Vmm]), that a timer interrupt inside [exit] leaves the
      joining task waiting for ever ([Children]), that byte writes leave stale
      checksums ([Disk]), that an out-of-range priority panics ([Sched]), that a
      program longer than one read cannot be loaded ([Loader]), that unread
      console lines are lost ([Console]), that a condition-variable wait can
      queue the running task ([Sync]), that a second slash opens a file once more
      ([Vfs]), that pipe calls hang, that logging out
      grants root and that a cloned thread runs an address of the caller's choice
      in the kernel ([Syscall]), that two user tasks switched inside system calls
      get each other's kernel stack ([Gs]), and that a timer interrupt that finds
      the scheduler's lock held never returns ([Interrupts]).

    ** Bounds and fuel

    Loops that are not structural take fuel and give [None] when it runs out;
    each is proved to have enough.  Buddy splitting and coalescing run at most
    once per order; page walks take [Vmm.page_steps] steps, the pages of the
    range; the console drains at most 256 scancodes, the size of the ring; a
    pipe's send loop takes one turn per byte at most, since each turn that
    does not return or wait sends one; record files are read with one turn per
    record.  Reaping takes its target as fuel, since every round but the last
    frees a frame.  [Boot] asks for 65536 + 4096 + 64 free frames: mapping a
    page takes at most four frames, the boot disk has 16384 pages and the swap
    area 1024, and the rest is for the self-tests.  The 2298 interrupts of
    [Children] are three times 766, the longest wait of a queued task beside
    two others: for the boot task, for the child, and for the boot task again;
    they serve for [UserTest] too, whose program needs 45 steps and 13 frames.
    The 9192 of [Tests] are these for each of its three tests that start tasks,
    766 for the boot task to go on after the first two, and 766 for its turn
    to run the other eight.
    [Vfs.remove_dir_recursive] takes the depth of the tree below the directory,
    which the volume bounds; its theorems hold for every fuel.  In [Syscall] the
    fuel of the pipe calls is the number of turns watched: the theorem is that
    no number is enough.

    ** Not modelled

    The serial port and the bootloader are reached through crates, and the host
    tool that builds the disk image is not part of the kernel; what the code
    prints is left out.  [exit] and the joins are split where [Children] says;
    interrupts inside the other steps of kernel tasks are not modelled (the
    eight self-tests that need one task are one step each, a task of [PingPong]
    makes one step from disabling preemption to releasing the lock), nor is
    more than one user address space at a time running instructions.  [Cpu] has
    the instructions of [init.S] and of the signal trampoline, not the whole
    instruction set, and a system call that would wait ends the run of [User].
    The self-tests assume that the kernel has nothing in the two top-level slots
    of the program's code and stack, which the bootloader decides.  Page tables
    are seen through the classes [X86.PageTables] and [Loader.TopLevel], not as
    hardware entries in memory; reading CR3 and flushing the TLB are left out.
    The lock of the scancode ring is always free, since only system calls, which
    run with interrupts off, and the keyboard handler take it.
    SHA-256, Unicode case folding and lossy decoding are parameters. *)

From stdpp Require Export base prelude list gmap strings sorting.
From Stdlib Require Export ZArith Lia.

#[global] Open Scope Z_scope.

(** ** Results and panics

    Rust's [Result] is [result]; a computation that can also panic (a failed
    [expect], an index out of range, an arithmetic overflow, all of which abort
    this kernel) returns an [option] of it, [None] being the panic. *)

Inductive result (E A : Type) : Type :=
  | Ok (a : A)
  | Err (e : E).
Arguments Ok {E A} a.
Arguments Err {E A} e.

#[export] Instance result_eq_dec {E A} `{EqDecision E, EqDecision A} : EqDecision (result E A).
Proof. solve_decision. Defined.

Definition is_ok {E A} (r : result E A) : bool :=
  match r with Ok _ => true | Err _ => false end.

Definition ok_or {E A} (e : E) (o : option A) : result E A :=
  match o with Some a => Ok a | None => Err e end.

(** A state and error monad for methods taking [&mut self] and returning a
    [Result]: the state survives an error return, as it does in Rust. *)
Definition kmon (S E A : Type) : Type := S -> option (result E A * S).

Definition kret {S E A} (a : A) : kmon S E A := fun s => Some (Ok a, s).
Definition kerr {S E A} (e : E) : kmon S E A := fun s => Some (Err e, s).
Definition kpanic {S E A} : kmon S E A := fun _ => None.
Definition kget {S E} : kmon S E S := fun s => Some (Ok s, s).
Definition kput {S E} (s' : S) : kmon S E unit := fun _ => Some (Ok tt, s').
Definition kbind {S E A B} (m : kmon S E A) (f : A -> kmon S E B) : kmon S E B :=
  fun s => match m s with
           | Some (Ok a, s') => f a s'
           | Some (Err e, s') => Some (Err e, s')
           | None => None
           end.
(** [lift r]: the [?] operator applied to a pure [Result]. *)
Definition klift {S E A} (r : result E A) : kmon S E A := fun s => Some (r, s).

Declare Scope kernel_scope.
Delimit Scope kernel_scope with kernel.
Notation "'let!' x := m 'in' k" := (kbind m (fun x => k))
  (at level 10, x pattern, m at level 100, k at level 200) : kernel_scope.
Notation "m ';;;' k" := (kbind m (fun _ => k))
  (at level 199, right associativity) : kernel_scope.
#[global] Open Scope kernel_scope.

(** ** Machine integers

    A [w]-bit unsigned integer is a [Z] in [[0, 2^w)].  The kernel is built
    with the [dev] profile ([cargo build], [cargo run]), so plain arithmetic
    panics on overflow: [uadd], [usub] and [umul] return [None] there. *)

Definition fits (w z : Z) : Prop := 0 <= z < 2 ^ w.
#[export] Instance fits_dec w z : Decision (fits w z).
Proof. unfold fits. apply _. Defined.

Definition uchk (w z : Z) : option Z :=
  if (0 <=? z) && (z <? 2 ^ w) then Some z else None.
Definition uadd (w a b : Z) : option Z := uchk w (a + b).
Definition usub (w a b : Z) : option Z := uchk w (a - b).
Definition umul (w a b : Z) : option Z := uchk w (a * b).
Definition wrap (w z : Z) : Z := z mod 2 ^ w.
(** [as iN] on a [w]-bit pattern. *)
Definition as_signed (w z : Z) : Z :=
  let z := wrap w z in if z <? 2 ^ (w - 1) then z else z - 2 ^ w.
(** Checked subtraction of [w]-bit signed integers. *)
Definition isub (w a b : Z) : option Z :=
  let d := a - b in if (- 2 ^ (w - 1) <=? d) && (d <? 2 ^ (w - 1)) then Some d else None.

Abbreviation u8 := (fits 8).
Abbreviation u32 := (fits 32).
Abbreviation u64 := (fits 64).

Lemma uchk_Some w z r : uchk w z = Some r <-> r = z /\ fits w z.
Proof.
  unfold uchk, fits. destruct (Z.leb_spec 0 z), (Z.ltb_spec z (2 ^ w)); simpl;
    (split; [intros [= <-] || discriminate | intros [-> ?]]); auto; lia.
Qed.

Lemma uchk_fits w z : fits w z -> uchk w z = Some z.
Proof. intros. by apply uchk_Some. Qed.

Lemma wrap_small w z : fits w z -> wrap w z = z.
Proof. unfold fits, wrap. intros. by apply Z.mod_small. Qed.

Lemma wrap_fits w z : 0 <= w -> fits w (wrap w z).
Proof. intros. unfold fits, wrap. apply Z.mod_pos_bound. lia. Qed.

Lemma as_signed_small w z : 0 < w -> 0 <= z < 2 ^ (w - 1) -> as_signed w z = z.
Proof.
  intros Hw Hz. unfold as_signed. assert (2 ^ (w - 1) < 2 ^ w) by (apply Z.pow_lt_mono_r; lia).
  rewrite wrap_small by (unfold fits; lia). by rewrite (proj2 (Z.ltb_lt _ _)) by lia.
Qed.

Lemma isub_ok w a b : - 2 ^ (w - 1) <= a - b < 2 ^ (w - 1) -> isub w a b = Some (a - b).
Proof. intros Hd. unfold isub. by rewrite (proj2 (Z.leb_le _ _)), (proj2 (Z.ltb_lt _ _)) by lia. Qed.

Lemma fits_testbit w z i : 0 <= w -> fits w z -> w <= i -> Z.testbit z i = false.
Proof.
  intros Hw [H0 H1] Hi. destruct (decide (z = 0)) as [->|]; [apply Z.testbit_0_l|].
  apply Z.bits_above_log2; [lia|]. apply Z.log2_lt_pow2; [lia|].
  eapply Z.lt_le_trans; [done|]. by apply Z.pow_le_mono_r.
Qed.

Lemma fits_of_testbit w z :
  0 <= w -> 0 <= z -> (forall i, w <= i -> Z.testbit z i = false) -> fits w z.
Proof.
  intros Hw Hz H. split; [done|].
  destruct (decide (z = 0)) as [->|]; [lia|].
  destruct (Z.lt_ge_cases z (2 ^ w)) as [|Hge]; [done|].
  assert (Z.log2 z >= w) by (apply Z.le_ge, Z.log2_le_pow2; lia).
  assert (Z.testbit z (Z.log2 z) = true) by (apply Z.bit_log2; lia).
  rewrite H in *; [done|lia].
Qed.

Lemma lxor_fits w a b : 0 <= w -> fits w a -> fits w b -> fits w (Z.lxor a b).
Proof.
  intros Hw Ha Hb. apply fits_of_testbit; [done|apply Z.lxor_nonneg; unfold fits in *; tauto|].
  intros i Hi. rewrite Z.lxor_spec. by rewrite !(fits_testbit w).
Qed.

Lemma shiftr_fits w a n : 0 <= w -> 0 <= n -> fits w a -> fits w (Z.shiftr a n).
Proof.
  intros Hw Hn Ha. apply fits_of_testbit; [done|apply Z.shiftr_nonneg; unfold fits in *; lia|].
  intros i Hi. rewrite Z.shiftr_spec by lia. apply (fits_testbit w); [done..|lia].
Qed.

Lemma land_fits w a b : 0 <= w -> 0 <= a -> fits w b -> fits w (Z.land a b).
Proof.
  intros Hw Ha Hb. apply fits_of_testbit; [done|apply Z.land_nonneg; lia|].
  intros i Hi. rewrite Z.land_spec. rewrite (fits_testbit w b) by done. apply andb_false_r.
Qed.

(** ** Lists *)

Lemma NoDup_submseteq_l {A} (l k : list A) : l ⊆+ k -> NoDup k -> NoDup l.
Proof.
  intros Hs Hk. apply submseteq_Permutation in Hs as [r Hp]. rewrite Hp in Hk. by apply NoDup_app in Hk as (? & _).
Qed.

Create HintDb kernel.
#[export] Hint Resolve lxor_fits shiftr_fits land_fits wrap_fits : kernel.
#[export] Hint Extern 1 (0 <= _) => lia : kernel.
#[export] Hint Extern 1 (_ < _) => lia : kernel.

(** [bool_to_prop] turns boolean comparisons of the code into propositions. *)
Ltac bool_to_prop :=
  repeat match goal with
  | H : (_ && _) = true |- _ => apply andb_true_iff in H as [? ?]
  | H : (_ || _) = false |- _ => apply orb_false_iff in H as [? ?]
  | H : (_ <=? _) = true |- _ => apply Z.leb_le in H
  | H : (_ <=? _) = false |- _ => apply Z.leb_gt in H
  | H : (_ <? _) = true |- _ => apply Z.ltb_lt in H
  | H : (_ <? _) = false |- _ => apply Z.ltb_ge in H
  | H : (_ =? _) = true |- _ => apply Z.eqb_eq in H
  | H : (_ =? _) = false |- _ => apply Z.eqb_neq in H
  | H : negb _ = true |- _ => apply negb_true_iff in H
  | H : negb _ = false |- _ => apply negb_false_iff in H
  end.

(** Bitwise equality of integers, bit by bit. *)
Ltac bitwise i Hi := apply Z.bits_inj'; intros i Hi.

(** A list of words each of which is bounded, by hypothesis or by arithmetic. *)
Ltac all_fit := repeat (apply Forall_cons; split; [first [assumption | unfold fits; cbn; lia]|]); apply Forall_nil; exact I.
