(* ===== verification/Crc.v ===== *)
(** CRC-32 of the RAM disk sectors ([kernel/src/io/crc.rs]).

    The checksum is modelled on 32-bit patterns held in [Z].  Bytes are [Z]
    values in [[0, 256)].  The theorems relate the table-driven routine to the
    bit-serial division it optimises, and show which corruptions it detects. *)

From S2P Require Import Prelude.

(* io/crc.rs:2-2 CRC32_POLY *)
Definition CRC32_POLY : Z := 0xEDB88320.

(* io/crc.rs:11-15 build_table (body of the inner loop) *)
Definition crc_shift (crc : Z) : Z :=
  if Z.land crc 1 =? 0 then Z.shiftr crc 1 else Z.lxor (Z.shiftr crc 1) CRC32_POLY.

(* io/crc.rs:8-17 build_table (inner loop) *)
Definition table_entry (i : Z) : Z := Nat.iter 8 crc_shift i.

(* io/crc.rs:4-22 build_table *)
Definition build_table : list Z := (fun i => table_entry (Z.of_nat i)) <$> seq 0 256.

(* io/crc.rs:24-24 TABLE *)
Definition TABLE : list Z := Eval vm_compute in build_table.

(* io/crc.rs:29-29 crc32 (loop body) *)
Definition crc_step (crc b : Z) : Z :=
  Z.lxor (Z.shiftr crc 8) (TABLE !!! Z.to_nat (Z.land (Z.lxor crc b) 0xFF)).

(* io/crc.rs:26-32 crc32 *)
Definition crc32 (data : list Z) : Z :=
  Z.lxor (2 ^ 32 - 1) (foldl crc_step (2 ^ 32 - 1) data).

(** Reference: bit-serial division, eight shifts per byte. *)
Definition crc_bitwise (data : list Z) : Z :=
  Z.lxor (2 ^ 32 - 1)
    (foldl (fun crc b => Nat.iter 8 crc_shift (Z.lxor crc b)) (2 ^ 32 - 1) data).

(** The check value of the CRC-32 catalogue, on the ASCII digits 1 to 9. *)
Example crc32_check :
  crc32 [0x31; 0x32; 0x33; 0x34; 0x35; 0x36; 0x37; 0x38; 0x39] = 0xCBF43926.
Proof. reflexivity. Qed.

(** ** Arithmetic of one step *)

Lemma crc_table_eq : TABLE = build_table.
Proof. vm_compute. reflexivity. Qed.

Lemma crc_shift_testbit0 crc : (Z.land crc 1 =? 0) = negb (Z.testbit crc 0).
Proof.
  rewrite Z.bit0_odd. change 1 with (Z.ones 1).
  rewrite Z.land_ones by lia. change (2 ^ 1) with 2. rewrite Zmod_odd. by destruct (Z.odd crc).
Qed.

Lemma crc_shift_lxor a b : crc_shift (Z.lxor a b) = Z.lxor (crc_shift a) (crc_shift b).
Proof.
  unfold crc_shift. rewrite !crc_shift_testbit0, Z.lxor_spec, Z.shiftr_lxor.
  destruct (Z.testbit a 0), (Z.testbit b 0); simpl; bitwise i Hi;
    rewrite !Z.lxor_spec;
    destruct (Z.testbit (Z.shiftr a 1) i), (Z.testbit (Z.shiftr b 1) i), (Z.testbit CRC32_POLY i);
    reflexivity.
Qed.

Lemma crc_iter_lxor n a b :
  Nat.iter n crc_shift (Z.lxor a b) = Z.lxor (Nat.iter n crc_shift a) (Nat.iter n crc_shift b).
Proof. induction n as [|n IH]; simpl; [done|]. by rewrite IH, crc_shift_lxor. Qed.

(** Low zero bits are shifted out without touching the polynomial. *)
Lemma crc_iter_shiftl n a : Nat.iter n crc_shift (Z.shiftl a (Z.of_nat n)) = a.
Proof.
  revert a. induction n as [|n IH]; intros a; [by rewrite Z.shiftl_0_r|].
  rewrite Nat.iter_succ_r. unfold crc_shift at 2.
  rewrite crc_shift_testbit0, Z.shiftl_spec_low by lia. simpl.
  rewrite <- (IH a) at 2. f_equal.
  rewrite Z.shiftr_shiftl_l by lia. f_equal. lia.
Qed.

Lemma crc_split_byte x : x = Z.lxor (Z.shiftl (Z.shiftr x 8) 8) (Z.land x 0xFF).
Proof.
  change 0xFF with (Z.ones 8). bitwise i Hi. rewrite Z.lxor_spec, Z.land_spec.
  destruct (Z.lt_ge_cases i 8).
  - rewrite Z.shiftl_spec_low, Z.ones_spec_low, andb_true_r by lia. done.
  - rewrite Z.shiftl_spec, Z.shiftr_spec, Z.ones_spec_high, andb_false_r, xorb_false_r by lia.
    f_equal. lia.
Qed.

Lemma crc_land_byte x : 0 <= Z.land x 0xFF < 256.
Proof. change 0xFF with (Z.ones 8). rewrite Z.land_ones by lia. apply Z.mod_pos_bound. lia. Qed.

Lemma crc_table_lookup i : 0 <= i < 256 -> TABLE !!! Z.to_nat i = table_entry i.
Proof.
  intros Hi. rewrite crc_table_eq. unfold build_table. apply list_lookup_total_correct.
  rewrite list_lookup_fmap, lookup_seq_lt by lia. simpl. f_equal. f_equal. lia.
Qed.

Lemma crc_step_bitwise crc b : u8 b -> crc_step crc b = Nat.iter 8 crc_shift (Z.lxor crc b).
Proof.
  intros Hb. unfold crc_step. rewrite crc_table_lookup by apply crc_land_byte.
  rewrite (crc_split_byte (Z.lxor crc b)) at 2. rewrite crc_iter_lxor.
  rewrite (crc_iter_shiftl 8). unfold table_entry. f_equal.
  rewrite Z.shiftr_lxor. rewrite (Z.shiftr_div_pow2 b) by lia.
  rewrite (Z.div_small b) by (unfold fits in Hb; lia). by rewrite Z.lxor_0_r.
Qed.

(** ** Detection of corruptions *)

Lemma crc_table_top_inj i j :
  0 <= i < 256 -> 0 <= j < 256 ->
  Z.shiftr (TABLE !!! Z.to_nat i) 24 = Z.shiftr (TABLE !!! Z.to_nat j) 24 -> i = j.
Proof.
  intros Hi Hj H.
  assert (NoDup ((fun t => Z.shiftr t 24) <$> TABLE)) as Hnd by (refine (bool_decide_eq_true_1 _ _); vm_compute; reflexivity).
  assert (Hlk : forall k, 0 <= k < 256 ->
    ((fun t => Z.shiftr t 24) <$> TABLE) !! Z.to_nat k = Some (Z.shiftr (TABLE !!! Z.to_nat k) 24)).
  { intros k Hk. rewrite list_lookup_fmap, list_lookup_lookup_total_lt; [done|].
    change (length TABLE) with 256%nat. lia. }
  apply Z2Nat.inj; [lia..|]. eapply NoDup_lookup; [exact Hnd|by apply Hlk|]. rewrite H. by apply Hlk.
Qed.

Lemma crc_table_fits i : 0 <= i < 256 -> u32 (TABLE !!! Z.to_nat i).
Proof.
  intros Hi.
  assert (Forall (fits 32) TABLE) as HF by (refine (bool_decide_eq_true_1 _ _); vm_compute; reflexivity).
  rewrite Forall_forall in HF. apply HF. apply list_elem_of_lookup_total_2.
  change (length TABLE) with 256%nat. lia.
Qed.

Lemma crc_step_fits s b : u32 s -> u32 (crc_step s b).
Proof. intros. unfold crc_step. auto using crc_table_fits, crc_land_byte with kernel. Qed.

Lemma crc_foldl_fits s l : u32 s -> u32 (foldl crc_step s l).
Proof. revert s. induction l; simpl; auto using crc_step_fits. Qed.

Definition crc_index (s b : Z) : Z := Z.land (Z.lxor s b) 0xFF.

(** Equal high parts after a step force the same table index and equal higher
    parts before it. *)
Lemma crc_step_back k s s' b b' :
  0 <= k <= 3 -> u32 s -> u32 s' ->
  Z.shiftr (crc_step s b) (8 * k) = Z.shiftr (crc_step s' b') (8 * k) ->
  crc_index s b = crc_index s' b' /\ Z.shiftr s (8 * (k + 1)) = Z.shiftr s' (8 * (k + 1)).
Proof.
  intros Hk Hs Hs' Heq.
  assert (Htop : forall t c, u32 t -> Z.shiftr (crc_step t c) 24 = Z.shiftr (TABLE !!! Z.to_nat (crc_index t c)) 24).
  { intros t c Ht. unfold crc_step. rewrite Z.shiftr_lxor, Z.shiftr_shiftr by lia.
    rewrite (Z.shiftr_div_pow2 t) by lia. rewrite Z.div_small by exact Ht. apply Z.lxor_0_l. }
  assert (crc_index s b = crc_index s' b') as Hidx.
  { apply crc_table_top_inj; [apply crc_land_byte..|]. rewrite <- !Htop by done.
    replace 24 with (8 * k + (24 - 8 * k)) by lia.
    rewrite <- !(Z.shiftr_shiftr _ _ (24 - 8 * k)) by lia. by rewrite Heq. }
  split; [done|].
  unfold crc_step in Heq. fold (crc_index s b) (crc_index s' b') in Heq. rewrite Hidx in Heq.
  rewrite !Z.shiftr_lxor, !Z.shiftr_shiftr in Heq by lia.
  replace (8 * (k + 1)) with (8 + 8 * k) by lia.
  apply (f_equal (fun z => Z.lxor z (Z.shiftr (TABLE !!! Z.to_nat (crc_index s' b')) (8 * k)))) in Heq.
  by rewrite !Z.lxor_assoc, !Z.lxor_nilpotent, !Z.lxor_0_r in Heq.
Qed.

Lemma crc_index_byte s b b' : u8 b -> u8 b' -> crc_index s b = crc_index s b' -> b = b'.
Proof.
  unfold crc_index. intros Hb Hb' H. change 0xFF with (Z.ones 8) in H.
  bitwise i Hi. destruct (Z.lt_ge_cases i 8).
  - apply (f_equal (fun z => Z.testbit z i)) in H.
    rewrite !Z.land_spec, !Z.lxor_spec, !Z.ones_spec_low, !andb_true_r in H by lia.
    by destruct (Z.testbit s i), (Z.testbit b i), (Z.testbit b' i).
  - by rewrite !(fits_testbit 8).
Qed.

Lemma crc_index_state s s' b :
  crc_index s b = crc_index s' b -> Z.shiftr s 8 = Z.shiftr s' 8 -> s = s'.
Proof.
  unfold crc_index. intros H Hs. rewrite (crc_split_byte s), (crc_split_byte s'), Hs. f_equal.
  change 0xFF with (Z.ones 8) in *. bitwise i Hi.
  apply (f_equal (fun z => Z.testbit z i)) in H. rewrite !Z.land_spec, !Z.lxor_spec in *.
  by destruct (Z.testbit s i), (Z.testbit s' i), (Z.testbit b i), (Z.testbit (Z.ones 8) i).
Qed.

Lemma crc_foldl_inj q s s' :
  u32 s -> u32 s' -> foldl crc_step s q = foldl crc_step s' q -> s = s'.
Proof.
  revert s s'. induction q as [|b q IH]; simpl; intros s s' Hs Hs' H; [done|].
  apply IH in H; [|by apply crc_step_fits..].
  destruct (crc_step_back 0 s s' b b) as [Hi Hh]; [lia|done|done|by rewrite H|].
  by apply crc_index_state in Hi.
Qed.

Lemma crc_burst_back u v s s' k :
  length u = length v -> 0 <= k -> Z.of_nat (length u) + k <= 4 -> u32 s -> u32 s' ->
  Forall u8 u -> Forall u8 v ->
  Z.shiftr (foldl crc_step s u) (8 * k) = Z.shiftr (foldl crc_step s' v) (8 * k) ->
  Z.shiftr s (8 * (k + Z.of_nat (length u))) = Z.shiftr s' (8 * (k + Z.of_nat (length u)))
  /\ (s = s' -> u = v).
Proof.
  revert v k. induction u as [|b u IH] using rev_ind; intros v k Hlen Hk Hle Hs Hs' Hu Hv H.
  { destruct v; [|done]. simpl in *. by rewrite Z.add_0_r. }
  destruct v as [|b' v _] using rev_ind; rewrite !length_app in *; simpl in *; [lia|].
  rewrite !foldl_app in H. simpl in H.
  apply Forall_app in Hu as [Hu Hb]. apply Forall_app in Hv as [Hv Hb'].
  apply Forall_cons in Hb as [Hb _]. apply Forall_cons in Hb' as [Hb' _].
  destruct (crc_step_back k (foldl crc_step s u) (foldl crc_step s' v) b b') as [Hi Hh];
    [lia|by apply crc_foldl_fits..|done|].
  destruct (IH v (k + 1)) as [IH1 IH2]; [lia..|done|done|done|done|done|].
  split; [by replace (k + Z.of_nat (length u + 1)) with (k + 1 + Z.of_nat (length u)) by lia|].
  intros ->. rewrite IH2 in * by done. f_equal. f_equal. eapply crc_index_byte; eauto.
Qed.

Lemma crc32_burst_ne (p u v q : list Z) :
  length u = length v -> (length u <= 4)%nat ->
  Forall u8 u -> Forall u8 v -> u <> v ->
  crc32 (p ++ u ++ q) <> crc32 (p ++ v ++ q).
Proof.
  intros Hlen Hle Hu Hv Hne H. apply Hne. unfold crc32 in H.
  apply (f_equal (Z.lxor (2 ^ 32 - 1))) in H. rewrite <- !Z.lxor_assoc, Z.lxor_nilpotent, !Z.lxor_0_l in H.
  rewrite !foldl_app in H.
  assert (u32 (foldl crc_step (2 ^ 32 - 1) p)) as Hs by (apply crc_foldl_fits; done).
  apply crc_foldl_inj in H; [|by apply crc_foldl_fits..].
  destruct (crc_burst_back u v _ _ 0 Hlen ltac:(lia) ltac:(lia) Hs Hs Hu Hv) as [_ ?]; [by rewrite H|auto].
Qed.

(** C32. The table-driven checksum computes the bit-serial CRC-32 of every byte
    string: the 256-entry table and the byte-wise update are an optimisation of
    dividing by the polynomial one bit at a time. *)
Theorem crc32_table_refines_bitwise (data : list Z) :
  Forall u8 data -> crc32 data = crc_bitwise data.
Proof.
  intros HF. unfold crc32, crc_bitwise. f_equal. generalize (2 ^ 32 - 1).
  induction HF as [|b data Hb _ IH]; intros s; simpl; [done|].
  by rewrite crc_step_bitwise, IH.
Qed.

Lemma crc32_table_refines_bitwise_witness : crc32 [1; 2; 255] = crc_bitwise [1; 2; 255].
Proof. apply crc32_table_refines_bitwise. repeat constructor; done. Defined.

(** Any corruption confined to a window of at most four consecutive bytes
    changes the checksum, whatever surrounds the window. *)
Theorem crc32_detects_burst (p u v q : list Z) :
  length u = length v -> (length u <= 4)%nat ->
  Forall u8 u -> Forall u8 v -> u <> v ->
  crc32 (p ++ u ++ q) <> crc32 (p ++ v ++ q).
Proof. apply crc32_burst_ne. Qed.

Lemma crc32_detects_burst_witness : crc32 ([7; 7] ++ [1; 2] ++ [9]) <> crc32 ([7; 7] ++ [1; 3] ++ [9]).
Proof. apply crc32_detects_burst; simpl; [lia|lia|repeat constructor; done..|done]. Defined.
