(* ===== verification/Bytes.v ===== *)
(** Bytes and byte-addressed memory: little-endian encodings ([to_le_bytes],
    [from_le_bytes]) and a memory of bytes with the raw reads and writes the
    kernel does through pointers ([ptr::read], [ptr::write], [write_bytes],
    [copy_nonoverlapping]).  Unwritten bytes read as 0. *)

From S2P Require Import Prelude.

(** ** Little-endian integers *)

Fixpoint le_encode (n : nat) (v : Z) : list Z :=
  match n with
  | O => []
  | S n => v mod 256 :: le_encode n (v / 256)
  end.

Fixpoint le_decode (bs : list Z) : Z :=
  match bs with
  | [] => 0
  | b :: bs => b + 256 * le_decode bs
  end.

Lemma le_encode_length n v : length (le_encode n v) = n.
Proof. revert v. induction n; simpl; auto. Qed.

Lemma le_encode_bytes n v : Forall (fits 8) (le_encode n v).
Proof. revert v. induction n; simpl; constructor; auto. unfold fits. apply Z.mod_pos_bound. lia. Qed.

Lemma le_decode_encode n v : 0 <= v < 256 ^ Z.of_nat n -> le_decode (le_encode n v) = v.
Proof.
  revert v. induction n as [|n IH]; intros v Hv; simpl; [simpl in Hv; lia|].
  rewrite Nat2Z.inj_succ, Z.pow_succ_r in Hv by lia. rewrite IH.
  - pose proof (Z.div_mod v 256). lia.
  - split; [apply Z.div_pos; lia|apply Z.div_lt_upper_bound; lia].
Qed.

Lemma le_decode_bounds bs : Forall (fits 8) bs -> 0 <= le_decode bs < 256 ^ Z.of_nat (length bs).
Proof.
  induction 1 as [|b bs Hb _ IH]; [simpl; lia|]. cbn [le_decode length].
  rewrite Nat2Z.inj_succ, Z.pow_succ_r by lia. unfold fits in Hb. lia.
Qed.

Lemma le_encode_decode bs : Forall (fits 8) bs -> le_encode (length bs) (le_decode bs) = bs.
Proof.
  induction 1 as [|b bs Hb _ IH]; [done|]. cbn [le_encode le_decode length]. unfold fits in Hb.
  rewrite (Z.mul_comm 256), Z.mod_add, Z.mod_small, Z.div_add, Z.div_small, Z.add_0_l, IH by lia. done.
Qed.

Lemma le_decode_zeros n : le_decode (replicate n 0) = 0.
Proof. induction n; simpl; lia. Qed.

(** ** Memory *)

Abbreviation memory := (gmap Z Z).

Definition get (m : memory) (a : Z) : Z := default 0 (m !! a).

Fixpoint read_bytes (m : memory) (a : Z) (n : nat) : list Z :=
  match n with
  | O => []
  | S n => get m a :: read_bytes m (a + 1) n
  end.

Fixpoint write_bytes (m : memory) (a : Z) (bs : list Z) : memory :=
  match bs with
  | [] => m
  | b :: bs => write_bytes (<[a := b]> m) (a + 1) bs
  end.

Definition read_u64 (m : memory) (a : Z) : Z := le_decode (read_bytes m a 8).
Definition write_u64 (m : memory) (a v : Z) : memory := write_bytes m a (le_encode 8 v).
(** [copy_nonoverlapping(src, dst, n)]. *)
Definition copy_bytes (m : memory) (src dst : Z) (n : nat) : memory :=
  write_bytes m dst (read_bytes m src n).

(** Two memories that agree outside [[a, a + n)]. *)
Definition same_outside (a n : Z) (m m' : memory) : Prop :=
  forall x, x < a \/ a + n <= x -> get m' x = get m x.

Lemma get_insert_eq m a b : get (<[a := b]> m) a = b.
Proof. unfold get. by rewrite lookup_insert_eq. Qed.

Lemma get_insert_ne m a b x : x <> a -> get (<[a := b]> m) x = get m x.
Proof. intros. unfold get. by rewrite lookup_insert_ne. Qed.

Lemma get_write_bytes_out m a bs x :
  x < a \/ a + Z.of_nat (length bs) <= x -> get (write_bytes m a bs) x = get m x.
Proof.
  revert m a. induction bs as [|b bs IH]; intros m a Hx; [done|]. simpl in *.
  rewrite IH by lia. apply get_insert_ne. lia.
Qed.

Lemma get_write_bytes_in m a bs i b :
  bs !! i = Some b -> get (write_bytes m a bs) (a + Z.of_nat i) = b.
Proof.
  revert m a i. induction bs as [|c bs IH]; intros m a i Hi; [done|]. destruct i as [|i]; simpl in *.
  - injection Hi as ->. rewrite Z.add_0_r, get_write_bytes_out by lia. apply get_insert_eq.
  - replace (a + Z.of_nat (S i)) with (a + 1 + Z.of_nat i) by lia. by apply IH.
Qed.

Lemma read_bytes_length m a n : length (read_bytes m a n) = n.
Proof. revert a. induction n; simpl; auto. Qed.

Lemma read_bytes_lookup m a n i : (i < n)%nat -> read_bytes m a n !! i = Some (get m (a + Z.of_nat i)).
Proof.
  revert a i. induction n as [|n IH]; intros a i Hi; [lia|]. destruct i as [|i]; simpl.
  - by rewrite Z.add_0_r.
  - rewrite IH by lia. do 2 f_equal. lia.
Qed.

Lemma read_bytes_app m a n k :
  read_bytes m a (n + k) = read_bytes m a n ++ read_bytes m (a + Z.of_nat n) k.
Proof.
  revert a. induction n as [|n IH]; intros a; simpl; [by rewrite Z.add_0_r|]. rewrite IH. do 3 f_equal. lia.
Qed.

(** Reading [n] consecutive chunks of [k] bytes. *)
Lemma read_bytes_chunks m a n k :
  concat ((fun j => read_bytes m (a + Z.of_nat j * Z.of_nat k) k) <$> seq 0 n) = read_bytes m a (n * k).
Proof.
  induction n as [|n IH]; [done|]. rewrite seq_S, fmap_app, concat_app, IH. simpl. rewrite app_nil_r, (Nat.add_comm k), read_bytes_app.
  do 2 f_equal. lia.
Qed.

Lemma read_bytes_ext m m' a n :
  (forall x, a <= x < a + Z.of_nat n -> get m' x = get m x) -> read_bytes m' a n = read_bytes m a n.
Proof. revert a. induction n as [|n IH]; intros a H; simpl; [done|]. f_equal; [apply H; lia|apply IH; intros; apply H; lia]. Qed.

Lemma read_write_bytes m a bs : read_bytes (write_bytes m a bs) a (length bs) = bs.
Proof.
  apply list_eq. intros i. destruct (decide (i < length bs)%nat) as [Hi|Hi].
  - rewrite read_bytes_lookup by done. destruct (lookup_lt_is_Some_2 bs i Hi) as [b Hb].
    rewrite Hb. f_equal. by apply get_write_bytes_in.
  - rewrite !lookup_ge_None_2; [done|lia|rewrite read_bytes_length; lia].
Qed.

Lemma write_bytes_outside m a bs : same_outside a (Z.of_nat (length bs)) m (write_bytes m a bs).
Proof. intros x Hx. by apply get_write_bytes_out. Qed.

Lemma read_write_u64 m a v : fits 64 v -> read_u64 (write_u64 m a v) a = v.
Proof.
  intros Hv. unfold read_u64, write_u64. rewrite <- (le_encode_length 8 v) at 2.
  rewrite read_write_bytes. apply le_decode_encode. exact Hv.
Qed.

Lemma write_u64_outside m a v : same_outside a 8 m (write_u64 m a v).
Proof. intros x Hx. apply get_write_bytes_out. rewrite le_encode_length. lia. Qed.

Lemma read_u64_ext m m' a :
  (forall x, a <= x < a + 8 -> get m' x = get m x) -> read_u64 m' a = read_u64 m a.
Proof. intros H. unfold read_u64. f_equal. apply read_bytes_ext. intros. apply H. lia. Qed.

Lemma read_u64_write_other m a v b : b + 8 <= a \/ a + 8 <= b -> read_u64 (write_u64 m a v) b = read_u64 m b.
Proof. intros. apply read_u64_ext. intros x Hx. apply write_u64_outside. lia. Qed.

#[export] Hint Resolve le_encode_bytes : kernel.
