(* ===== verification/X86.v ===== *)
(** What the kernel relies on of the [x86_64] crate: physical and virtual
    addresses, 4 KiB frames and pages, and the page-table walker
    [OffsetPageTable].  The crate is not part of the repository, so its
    operations are class members and the documented behaviour the kernel uses
    is stated as laws; [None] is a panic inside the crate.

    An instance of each class, with page tables as finite maps, shows that the
    laws can hold together and is what the examples are evaluated with. *)

From S2P Require Import Prelude.

(** Physical and virtual addresses are 64-bit integers; a frame or page is
    identified with its start address. *)
Class X86Addr := {
  PhysAddr_new : Z -> option Z;
  PhysAddr_add : Z -> Z -> option Z;
  VirtAddr_new : Z -> option Z;
  VirtAddr_add : Z -> Z -> option Z;
  containing_address : Z -> Z;
  PhysAddr_new_ok a : 0 <= a < 2 ^ 52 -> PhysAddr_new a = Some a;
  PhysAddr_add_ok a n : 0 <= a -> 0 <= n -> a + n < 2 ^ 52 -> PhysAddr_add a n = Some (a + n);
  (** Within one canonical half, adding never crosses the hole. *)
  VirtAddr_add_low a n : 0 <= a -> 0 <= n -> a + n < 2 ^ 47 -> VirtAddr_add a n = Some (a + n);
  VirtAddr_add_high a n :
    2 ^ 64 - 2 ^ 47 <= a -> 0 <= n -> a + n < 2 ^ 64 -> VirtAddr_add a n = Some (a + n);
  containing_address_spec a : containing_address a = a / 4096 * 4096;
  VirtAddr_new_low a : 0 <= a < 2 ^ 47 -> VirtAddr_new a = Some a;
  VirtAddr_new_high a : 2 ^ 64 - 2 ^ 47 <= a < 2 ^ 64 -> VirtAddr_new a = Some a;
  VirtAddr_new_hole a : 2 ^ 47 <= a < 2 ^ 64 - 2 ^ 47 -> VirtAddr_new a = None
}.

(** An allocator as the walker sees it: [None] when it panics, [Some (None, _)]
    when it is out of frames. *)
Definition frame_source (A : Type) : Type := A -> option (option Z * A).

(** [drawn alloc a fs a']: [a'] is [a] after successful allocations of [fs]. *)
Inductive drawn {A} (alloc : frame_source A) : A -> list Z -> A -> Prop :=
  | drawn_nil a : drawn alloc a [] a
  | drawn_cons a f a1 fs a2 :
      alloc a = Some (Some f, a1) -> drawn alloc a1 fs a2 -> drawn alloc a (f :: fs) a2.

Inductive MapError := FrameAllocationFailed | PageAlreadyMapped | PageNotMapped.

(** The page-table walker.  [entry t p] is the leaf entry of page [p]: the frame
    it maps to and the flags. *)
Class PageTables (T : Type) := {
  entry : T -> Z -> option (Z * Z);
  empty_table : T;
  map_to : forall {A}, frame_source A -> T -> Z -> Z -> Z -> A -> option (result MapError T * A);
  unmap : T -> Z -> result MapError (Z * T);
  (** The physical address of a virtual one, and the flags of its page. *)
  translate : T -> Z -> option (Z * Z);
  update_flags : T -> Z -> Z -> result MapError T;
  entry_empty p : entry empty_table p = None;
  translate_spec t v : translate t v = (fun e => (e.1 + v mod 4096, e.2)) <$> entry t (v / 4096 * 4096);
  (** [map_to] refuses a mapped page, and otherwise installs exactly the
      requested entry, drawing at most three frames for intermediate tables. *)
  map_to_mapped A (al : frame_source A) t p f fl a :
    entry t p <> None -> exists a' fs, map_to al t p f fl a = Some (Err PageAlreadyMapped, a') /\ drawn al a fs a';
  map_to_ok A (al : frame_source A) t p f fl a r a' :
    entry t p = None -> map_to al t p f fl a = Some (r, a') ->
    (exists t' fs, r = Ok t' /\ drawn al a fs a' /\ (length fs <= 3)%nat /\
       entry t' p = Some (f, fl) /\ forall q, q <> p -> entry t' q = entry t q) \/
    (exists a1 fs, r = Err FrameAllocationFailed /\ drawn al a fs a1 /\ al a1 = Some (None, a'));
  (** Three available frames are always enough. *)
  map_to_succeeds A (al : frame_source A) t p f fl a fs a3 :
    entry t p = None -> drawn al a fs a3 -> length fs = 3%nat ->
    exists t' a', map_to al t p f fl a = Some (Ok t', a');
  unmap_ok t p f fl : entry t p = Some (f, fl) ->
    exists t', unmap t p = Ok (f, t') /\ entry t' p = None /\ forall q, q <> p -> entry t' q = entry t q;
  unmap_absent t p : entry t p = None -> unmap t p = Err PageNotMapped;
  update_flags_ok t p f fl fl' : entry t p = Some (f, fl) ->
    exists t', update_flags t p fl' = Ok t' /\ entry t' p = Some (f, fl') /\
      forall q, q <> p -> entry t' q = entry t q;
  update_flags_absent t p fl' : entry t p = None -> update_flags t p fl' = Err PageNotMapped
}.

(** ** Instances *)

Definition canonical (a : Z) : bool := (0 <=? a) && (a <? 2 ^ 64) && ((a <? 2 ^ 47) || (2 ^ 64 - 2 ^ 47 <=? a)).

#[global] Program Instance plain_addr : X86Addr := {
  PhysAddr_new a := uchk 52 a;
  PhysAddr_add a n := uchk 52 (a + n);
  VirtAddr_new a := if canonical a then Some a else None;
  VirtAddr_add a n := if canonical (a + n) then Some (a + n) else None;
  containing_address a := a / 4096 * 4096
}.
Next Obligation. intros. by apply uchk_fits. Qed.
Next Obligation. intros. apply uchk_fits. unfold fits. lia. Qed.
Next Obligation.
  intros a n ???. unfold canonical. by rewrite (proj2 (Z.leb_le 0 _)), (proj2 (Z.ltb_lt _ (2 ^ 64))), (proj2 (Z.ltb_lt _ (2 ^ 47))) by lia.
Qed.
Next Obligation.
  intros a n ???. unfold canonical.
  by rewrite (proj2 (Z.leb_le 0 _)), (proj2 (Z.ltb_lt _ (2 ^ 64))), (proj2 (Z.leb_le (2 ^ 64 - 2 ^ 47) _)), orb_true_r by lia.
Qed.
Next Obligation. done. Qed.
Next Obligation.
  intros a ?. unfold canonical. by rewrite (proj2 (Z.leb_le 0 _)), (proj2 (Z.ltb_lt _ (2 ^ 64))), (proj2 (Z.ltb_lt _ (2 ^ 47))) by lia.
Qed.
Next Obligation.
  intros a ?. unfold canonical. by rewrite (proj2 (Z.leb_le 0 _)), (proj2 (Z.ltb_lt _ (2 ^ 64))), (proj2 (Z.leb_le (2 ^ 64 - 2 ^ 47) _)), orb_true_r by lia.
Qed.
Next Obligation.
  intros a ?. unfold canonical. by rewrite (proj2 (Z.ltb_ge a (2 ^ 47))), (proj2 (Z.leb_gt (2 ^ 64 - 2 ^ 47) a)), andb_false_r by lia.
Qed.

(** Page tables as finite maps; intermediate tables are not materialised, so
    mapping draws no frame. *)
#[global] Program Instance map_tables : PageTables (gmap Z (Z * Z)) := {
  entry (t : gmap Z (Z * Z)) p := t !! p;
  empty_table := ∅;
  map_to := fun A al (t : gmap Z (Z * Z)) p f fl a =>
    match (t !! p : option (Z * Z)) with
    | Some _ => Some (Err PageAlreadyMapped, a)
    | None => Some (Ok (<[p := (f, fl)]> t), a)
    end;
  translate (t : gmap Z (Z * Z)) v := (fun e : Z * Z => (e.1 + v mod 4096, e.2)) <$> t !! (v / 4096 * 4096);
  unmap (t : gmap Z (Z * Z)) p := match (t !! p : option (Z * Z)) with Some (f, _) => Ok (f, delete p t) | None => Err PageNotMapped end;
  update_flags (t : gmap Z (Z * Z)) p fl := match (t !! p : option (Z * Z)) with Some (f, _) => Ok (<[p := (f, fl)]> t) | None => Err PageNotMapped end
}.
Next Obligation. intros. apply lookup_empty. Qed.
Next Obligation. done. Qed.
Next Obligation. intros A al t p f fl a H. simpl in *. destruct (t !! p); [|done]. exists a, []. split; [done|constructor]. Qed.
Next Obligation.
  intros A al t p f fl a r a' H E. simpl in *. rewrite H in E. injection E as <- <-. left. exists (<[p := (f, fl)]> t), [].
  split_and!; [done|constructor|simpl; lia|apply lookup_insert_eq|]. intros q Hq. by apply lookup_insert_ne.
Qed.
Next Obligation. intros A al t p f fl a fs a3 H _ _. simpl in *. rewrite H. eauto. Qed.
Next Obligation.
  intros t p f fl H. simpl in *. rewrite H. exists (delete p t). split_and!; [done|apply lookup_delete_eq|].
  intros q Hq. by apply lookup_delete_ne.
Qed.
Next Obligation. intros t p H. simpl in *. by rewrite H. Qed.
Next Obligation.
  intros t p f fl fl' H. simpl in *. rewrite H. exists (<[p := (f, fl')]> t). split_and!; [done|apply lookup_insert_eq|].
  intros q Hq. by apply lookup_insert_ne.
Qed.
Next Obligation. intros t p fl' H. simpl in *. by rewrite H. Qed.
