(* ===== verification/Buddy.v ===== *)
(** The kernel heap: the buddy allocator of [kernel/src/memory/buddy_allocator.rs].

    The free lists are intrusive, so the model keeps the memory they live in:
    [heap_state] pairs the allocator record with a word memory, and the list
    operations read and write next pointers through it.  A null pointer is 0.
    Sizes and addresses are [usize] values held in [Z]; [init] computes its
    additions with overflow checks.

    The invariant is stated on 32-byte granules: the granules of the free
    blocks and those of the blocks handed out partition the arena. *)

From S2P Require Import Prelude.

(* memory/buddy_allocator.rs:8-8 MAX_ORDER *)
Definition MAX_ORDER : nat := 18.
(* memory/buddy_allocator.rs:9-9 MIN_BLOCK_SIZE *)
Definition MIN_BLOCK_SIZE : Z := 32.

(** [MIN_BLOCK_SIZE << ord]. *)
Definition block_size (ord : nat) : Z := Z.shiftl MIN_BLOCK_SIZE (Z.of_nat ord).

(** [core::alloc::Layout]. *)
Record Layout := mkLayout { layout_size : Z; layout_align : Z }.

(* memory/buddy_allocator.rs:12-17 BuddyAllocator *)
Record BuddyAllocator := mkBuddy {
  free_lists : list Z;
  heap_start : Z;
  heap_size : Z
}.

(** The allocator together with the memory its free lists are threaded through. *)
Record heap_state := mkHeap { h_mem : gmap Z Z; h_buddy : BuddyAllocator }.

Definition ptr_read (m : gmap Z Z) (a : Z) : Z := default 0 (m !! a).
Definition set_free_list (b : BuddyAllocator) (ord : nat) (p : Z) : BuddyAllocator :=
  mkBuddy (<[ord := p]> (free_lists b)) (heap_start b) (heap_size b).

(* memory/buddy_allocator.rs:25-31 BuddyAllocator::empty *)
Definition buddy_empty : BuddyAllocator := mkBuddy (replicate (S MAX_ORDER) 0) 0 0.

(* memory/buddy_allocator.rs:120-123 add_to_free_list *)
Definition add_to_free_list (st : heap_state) (ptr : Z) (order : nat) : heap_state :=
  mkHeap (<[ptr := free_lists (h_buddy st) !!! order]> (h_mem st))
         (set_free_list (h_buddy st) order ptr).

(* memory/buddy_allocator.rs:43-48 init (inner loop choosing the order) *)
Fixpoint init_order (ord : nat) (curr end_ : Z) : option nat :=
  match ord with
  | O => Some O
  | S o =>
      match uadd 64 curr (block_size ord) with
      | None => None
      | Some next =>
          if (next <=? end_) && (Z.land curr (block_size ord - 1) =? 0) then Some ord
          else init_order o curr end_
      end
  end.

(* memory/buddy_allocator.rs:42-55 init (outer loop) *)
Fixpoint init_loop (fuel : nat) (st : heap_state) (curr end_ : Z) : option heap_state :=
  match fuel with
  | O => None
  | S f =>
      if curr <? end_ then
        match init_order MAX_ORDER curr end_ with
        | None => None
        | Some ord =>
            match uadd 64 curr (block_size ord) with
            | None => None
            | Some next =>
                if end_ <? next then Some st
                else init_loop f (add_to_free_list st curr ord) next end_
            end
        end
      else Some st
  end.

(* memory/buddy_allocator.rs:35-56 init *)
Definition buddy_init (st : heap_state) (start size : Z) : option heap_state :=
  let b := mkBuddy (free_lists (h_buddy st)) start size in
  match uadd 64 start size with
  | None => None
  | Some end_ => init_loop (S (Z.to_nat (size / MIN_BLOCK_SIZE))) (mkHeap (h_mem st) b) start end_
  end.

(* memory/buddy_allocator.rs:60-60 alloc_inner (size computation) *)
Definition request_size (l : Layout) : Z :=
  Z.max (Z.max (layout_size l) (layout_align l)) MIN_BLOCK_SIZE.

(* memory/buddy_allocator.rs:62-63 alloc_inner (order loop) *)
Fixpoint order_loop (left ord : nat) (size : Z) : nat :=
  match left with
  | O => ord
  | S k => if block_size ord <? size then order_loop k (S ord) size else ord
  end.
Definition order_for (size : Z) : nat := order_loop MAX_ORDER 0 size.

(* memory/buddy_allocator.rs:67-68 alloc_inner (search loop) *)
Fixpoint find_free (left found_ord : nat) (heads : list Z) : nat :=
  match left with
  | O => found_ord
  | S k => if (heads !!! found_ord) =? 0 then find_free k (S found_ord) heads else found_ord
  end.

(* memory/buddy_allocator.rs:75-79 alloc_inner (split loop) *)
Fixpoint split_loop (n : nat) (st : heap_state) (block : Z) (ord : nat) : heap_state :=
  match n with
  | O => st
  | S k => split_loop k (add_to_free_list st (block + block_size (ord + k)) (ord + k)) block ord
  end.

(* memory/buddy_allocator.rs:59-82 alloc_inner *)
Definition alloc_inner (st : heap_state) (layout : Layout) : Z * heap_state :=
  let size := request_size layout in
  let ord := order_for size in
  if block_size ord <? size then (0, st)
  else
    let found_ord := find_free (S MAX_ORDER - ord) ord (free_lists (h_buddy st)) in
    if (MAX_ORDER <? found_ord)%nat then (0, st)
    else
      let block := free_lists (h_buddy st) !!! found_ord in
      let st := mkHeap (h_mem st) (set_free_list (h_buddy st) found_ord (ptr_read (h_mem st) block)) in
      (block, split_loop (found_ord - ord) st block ord).

(** The location a list walk may overwrite: a list head or a node. *)
Inductive node_slot := HeadSlot | NodeSlot (a : Z).

Definition slot_read (st : heap_state) (ord : nat) (s : node_slot) : Z :=
  match s with
  | HeadSlot => free_lists (h_buddy st) !!! ord
  | NodeSlot a => ptr_read (h_mem st) a
  end.
Definition slot_write (st : heap_state) (ord : nat) (s : node_slot) (v : Z) : heap_state :=
  match s with
  | HeadSlot => mkHeap (h_mem st) (set_free_list (h_buddy st) ord v)
  | NodeSlot a => mkHeap (<[a := v]> (h_mem st)) (h_buddy st)
  end.

(* memory/buddy_allocator.rs:96-106 dealloc_inner (list walk) *)
Fixpoint unlink_buddy (fuel : nat) (st : heap_state) (ord : nat) (ptr_to_node : node_slot)
    (buddy : Z) : option (bool * heap_state) :=
  match fuel with
  | O => None
  | S f =>
      let node := slot_read st ord ptr_to_node in
      if node =? 0 then Some (false, st)
      else if node =? buddy then
        Some (true, slot_write st ord ptr_to_node (ptr_read (h_mem st) node))
      else unlink_buddy f st ord (NodeSlot node) buddy
  end.

(* memory/buddy_allocator.rs:93-114 dealloc_inner (merge loop) *)
Fixpoint merge_loop (left : nat) (fuel : nat) (st : heap_state) (ord : nat) (current_ptr : Z)
    : option (nat * Z * heap_state) :=
  match left with
  | O => Some (ord, current_ptr, st)
  | S k =>
      let buddy := Z.lxor current_ptr (block_size ord) in
      match unlink_buddy fuel st ord HeadSlot buddy with
      | None => None
      | Some (true, st') => merge_loop k fuel st' (S ord) (Z.min current_ptr buddy)
      | Some (false, st') => Some (ord, current_ptr, st')
      end
  end.

(* memory/buddy_allocator.rs:85-117 dealloc_inner *)
Definition dealloc_inner (st : heap_state) (ptr : Z) (layout : Layout) : option heap_state :=
  let ord := order_for (request_size layout) in
  let fuel := S (Z.to_nat (heap_size (h_buddy st) / MIN_BLOCK_SIZE)) in
  match merge_loop (MAX_ORDER - ord) fuel st ord ptr with
  | None => None
  | Some (o, p, st') => Some (add_to_free_list st' p o)
  end.

(** ** Sizes, alignment and the buddy computation *)

Lemma block_size_pow o : block_size o = 32 * 2 ^ Z.of_nat o.
Proof. unfold block_size, MIN_BLOCK_SIZE. by rewrite Z.shiftl_mul_pow2 by lia. Qed.

Lemma block_size_pow2 o : block_size o = 2 ^ (Z.of_nat o + 5).
Proof. rewrite block_size_pow, Z.pow_add_r by lia. lia. Qed.

Lemma block_size_S o : block_size (S o) = 2 * block_size o.
Proof. rewrite !block_size_pow, Nat2Z.inj_succ, Z.pow_succ_r by lia. lia. Qed.

Lemma block_size_pos o : 32 <= block_size o.
Proof. rewrite block_size_pow. assert (0 < 2 ^ Z.of_nat o) by (apply Z.pow_pos_nonneg; lia). lia. Qed.

Lemma block_size_mono o o' : (o <= o')%nat -> block_size o <= block_size o'.
Proof. intros. rewrite !block_size_pow2. apply Z.pow_le_mono_r; lia. Qed.

Lemma block_size_divide o o' : (o <= o')%nat -> (block_size o | block_size o').
Proof.
  intros. rewrite !block_size_pow2. exists (2 ^ (Z.of_nat o' - Z.of_nat o)).
  rewrite <- Z.pow_add_r by lia. f_equal. lia.
Qed.

Lemma aligned_mask a o : Z.land a (block_size o - 1) = 0 <-> (block_size o | a).
Proof.
  rewrite block_size_pow2.
  replace (2 ^ (Z.of_nat o + 5) - 1) with (Z.ones (Z.of_nat o + 5)) by (rewrite Z.ones_equiv; lia).
  rewrite Z.land_ones by lia. rewrite Z.mod_divide; [done|]. apply Z.pow_nonzero; lia.
Qed.

Lemma lxor_one q : Z.lxor q 1 = if Z.even q then q + 1 else q - 1.
Proof.
  assert (Hland : forall h, Z.land (2 * h) 1 = 0).
  { intros h. change 1 with (Z.ones 1). rewrite Z.land_ones by lia.
    change (2 ^ 1) with 2. rewrite Z.mul_comm. apply Z.mod_mul. lia. }
  destruct (Z.even q) eqn:E.
  - apply Z.even_spec in E as [h ->]. symmetry. by apply Z.add_nocarry_lxor.
  - assert (Z.odd q = true) as Ho by (rewrite <- Z.negb_even, E; done).
    apply Z.odd_spec in Ho as [h ->].
    rewrite (Z.add_nocarry_lxor (2 * h) 1) by done.
    rewrite Z.lxor_assoc, Z.lxor_nilpotent, Z.lxor_0_r.
    rewrite <- Z.add_nocarry_lxor by done. lia.
Qed.

(** The buddy of an aligned block is the other half of the enclosing block. *)
Lemma buddy_cases a o :
  (block_size o | a) ->
  let b := Z.lxor a (block_size o) in
  (block_size (S o) | Z.min a b) /\
  ((a = Z.min a b /\ b = a + block_size o) \/ (b = Z.min a b /\ a = b + block_size o)).
Proof.
  intros [q ->]. simpl. pose proof (block_size_pos o) as Hp.
  assert (Z.lxor (q * block_size o) (block_size o) = block_size o * Z.lxor q 1) as ->.
  { rewrite block_size_pow2. rewrite (Z.mul_comm q), !(Z.mul_comm (2 ^ _)), <- !Z.shiftl_mul_pow2 by lia.
    rewrite Z.shiftl_lxor. f_equal. rewrite Z.shiftl_mul_pow2 by lia. lia. }
  rewrite lxor_one, block_size_S. destruct (Z.even q) eqn:E.
  - apply Z.even_spec in E as [h ->]. rewrite Z.min_l by lia. split; [exists h; lia|left; lia].
  - assert (Z.odd q = true) as Ho by (rewrite <- Z.negb_even, E; done).
    apply Z.odd_spec in Ho as [h ->]. rewrite Z.min_r by lia. split; [exists h; lia|right; lia].
Qed.

(** ** Blocks and granules *)

(** A block is an order with an address; its granules are its 32-byte units. *)
Definition gran (b : nat * Z) : list Z := seqZ (b.2 / 32) (2 ^ Z.of_nat b.1).
Definition granules (bs : list (nat * Z)) : list Z := bs ≫= gran.

Fixpoint blocks_from (o : nat) (fl : list (list Z)) : list (nat * Z) :=
  match fl with
  | [] => []
  | l :: fl' => ((fun a => (o, a)) <$> l) ++ blocks_from (S o) fl'
  end.
(** The free blocks recorded by the abstract free lists. *)
Definition blocks (fl : list (list Z)) : list (nat * Z) := blocks_from 0 fl.

Definition wf_block (lo hi : Z) (b : nat * Z) : Prop :=
  (b.1 <= MAX_ORDER)%nat /\ (block_size b.1 | b.2) /\ 0 < lo <= b.2 /\ b.2 + block_size b.1 <= hi.

Lemma granules_cons b bs : granules (b :: bs) = gran b ++ granules bs.
Proof. done. Qed.

Lemma granules_app bs bs' : granules (bs ++ bs') = granules bs ++ granules bs'.
Proof. unfold granules. apply bind_app. Qed.

#[export] Instance granules_proper : Proper ((≡ₚ) ==> (≡ₚ)) granules.
Proof. intros ?? H. unfold granules. by rewrite H. Qed.

Lemma gran_head b : b.2 / 32 ∈ gran b.
Proof.
  unfold gran. apply elem_of_seqZ.
  assert (0 < 2 ^ Z.of_nat b.1) by (apply Z.pow_pos_nonneg; lia). lia.
Qed.

Lemma gran_split o a :
  (block_size (S o) | a) -> gran (S o, a) = gran (o, a) ++ gran (o, a + block_size o).
Proof.
  intros _. unfold gran; simpl. rewrite block_size_pow, (Z.mul_comm 32), Z.div_add by lia.
  rewrite <- seqZ_app by (apply Z.pow_nonneg; lia). f_equal. rewrite Nat2Z.inj_succ, Z.pow_succ_r by lia. lia.
Qed.

Lemma blocks_from_insert o fl i l :
  fl !! i = Some l ->
  exists rest, blocks_from o fl ≡ₚ ((fun a => ((o + i)%nat, a)) <$> l) ++ rest /\
    forall l', blocks_from o (<[i := l']> fl) ≡ₚ ((fun a => ((o + i)%nat, a)) <$> l') ++ rest.
Proof.
  revert o i. induction fl as [|k fl IH]; intros o [|i] H; simplify_eq/=.
  - exists (blocks_from (S o) fl). rewrite Nat.add_0_r. auto.
  - destruct (IH (S o) i H) as (rest & H1 & H2).
    exists (((fun a => (o, a)) <$> k) ++ rest). replace (o + S i)%nat with (S o + i)%nat by lia.
    split; [rewrite H1|intros l'; rewrite H2]; by rewrite !(assoc_L (++)), (Permutation_app_comm (_ <$> k)).
Qed.

Lemma blocks_insert fl i l :
  fl !! i = Some l ->
  exists rest, blocks fl ≡ₚ ((fun a => (i, a)) <$> l) ++ rest /\
    forall l', blocks (<[i := l']> fl) ≡ₚ ((fun a => (i, a)) <$> l') ++ rest.
Proof. apply (blocks_from_insert 0). Qed.

Lemma blocks_push fl o l a :
  fl !! o = Some l -> blocks (<[o := a :: l]> fl) ≡ₚ (o, a) :: blocks fl.
Proof. intros H. destruct (blocks_insert fl o l H) as (r & -> & ->). done. Qed.

Lemma blocks_remove fl o l1 a l2 :
  fl !! o = Some (l1 ++ a :: l2) -> blocks fl ≡ₚ (o, a) :: blocks (<[o := l1 ++ l2]> fl).
Proof.
  intros H. destruct (blocks_insert fl o _ H) as (r & -> & ->).
  rewrite !fmap_app, fmap_cons. by rewrite <- Permutation_middle.
Qed.

Lemma elem_of_blocks fl o a l : fl !! o = Some l -> (o, a) ∈ blocks fl <-> a ∈ l.
Proof.
  intros H. unfold blocks. change o with (0 + o)%nat at 1. revert H. generalize 0%nat as k. revert o.
  induction fl as [|l0 fl IH]; intros o k H; [done|]. simpl. rewrite elem_of_app, list_elem_of_fmap.
  assert (forall k' fl' o' a', (o', a') ∈ blocks_from k' fl' -> (k' <= o')%nat) as Hlow.
  { clear. intros k' fl'. revert k'. induction fl' as [|l fl' IH]; simpl; intros k' o' a'; [set_solver|].
    rewrite elem_of_app, list_elem_of_fmap. intros [(?&?&?)|?%IH]; [simplify_eq|]; lia. }
  destruct o as [|o]; simplify_eq/=.
  - rewrite Nat.add_0_r. split; [|by eauto]. intros [(?&?&?)|?%Hlow]; [by simplify_eq|lia].
  - rewrite <- (IH o (S k) H). replace (S k + o)%nat with (k + S o)%nat by lia.
    split; [|auto]. intros [(?&?&?)|?]; [simplify_eq; lia|done].
Qed.

(** ** Representation of the free lists in memory *)

Fixpoint lseg (m : gmap Z Z) (p : Z) (l : list Z) : Prop :=
  match l with
  | [] => p = 0
  | a :: l' => p = a /\ a <> 0 /\ lseg m (ptr_read m a) l'
  end.

Lemma ptr_read_insert_ne m a b v : a <> b -> ptr_read (<[a := v]> m) b = ptr_read m b.
Proof. intros. unfold ptr_read. by rewrite lookup_insert_ne. Qed.

Lemma ptr_read_insert_eq m a v : ptr_read (<[a := v]> m) a = v.
Proof. unfold ptr_read. by rewrite lookup_insert_eq. Qed.

Lemma lseg_frame m p l a v : a ∉ l -> lseg m p l -> lseg (<[a := v]> m) p l.
Proof.
  revert p. induction l as [|b l IH]; simpl; intros p Hn H; [done|].
  destruct H as (-> & ? & ?). rewrite ptr_read_insert_ne by set_solver.
  split_and!; [done..|]. apply IH; [set_solver|done].
Qed.

(** [Rep st fl]: the memory and heads of [st] hold exactly the lists [fl]. *)
Record Rep (st : heap_state) (fl : list (list Z)) : Prop := mkRep {
  rep_heads : length (free_lists (h_buddy st)) = S MAX_ORDER;
  rep_lists : length fl = S MAX_ORDER;
  rep_lseg : forall o l, fl !! o = Some l -> lseg (h_mem st) (free_lists (h_buddy st) !!! o) l;
  rep_wf : Forall (wf_block (heap_start (h_buddy st)) (heap_start (h_buddy st) + heap_size (h_buddy st))) (blocks fl);
  rep_nodup : NoDup (granules (blocks fl))
}.

Lemma rep_lookup st fl o : Rep st fl -> (o <= MAX_ORDER)%nat -> exists l, fl !! o = Some l.
Proof. intros H Ho. apply lookup_lt_is_Some_2. rewrite (rep_lists _ _ H). lia. Qed.

(** Granules never shared: a block whose granules are disjoint from the free
    ones has an address that is on no free list. *)
Lemma gran_fresh o a bs : NoDup (gran (o, a) ++ granules bs) -> forall o', (o', a) ∉ bs.
Proof.
  intros Hnd o' Hin. apply NoDup_app in Hnd as (_ & Hd & _).
  apply (Hd (a / 32)); [apply (gran_head (o, a))|].
  apply list_elem_of_bind. exists (o', a). split; [apply (gran_head (o', a))|done].
Qed.

Lemma add_to_free_list_Rep st fl o a l :
  Rep st fl -> fl !! o = Some l ->
  wf_block (heap_start (h_buddy st)) (heap_start (h_buddy st) + heap_size (h_buddy st)) (o, a) ->
  NoDup (gran (o, a) ++ granules (blocks fl)) ->
  Rep (add_to_free_list st a o) (<[o := a :: l]> fl).
Proof.
  intros H Hl Hwf Hnd. pose proof (blocks_push fl o l a Hl) as Hp.
  assert (Ho : (o < length (free_lists (h_buddy st)))%nat).
  { rewrite (rep_heads _ _ H). destruct Hwf as [? _]. simpl in *. lia. }
  split; simpl.
  - rewrite length_insert. apply H.
  - rewrite length_insert. apply H.
  - intros o' l' Hl'. destruct (decide (o = o')) as [<-|Hne].
    + rewrite list_lookup_insert_eq in Hl' by (by apply lookup_lt_Some in Hl). injection Hl' as <-. simpl.
      rewrite list_lookup_total_insert_eq by done. destruct Hwf as (_ & _ & ? & _). simpl in *.
      rewrite ptr_read_insert_eq. split_and!; [done|lia|]. apply lseg_frame; [|by apply H].
      intros Hin. eapply (gran_fresh o a), (elem_of_blocks fl o); eauto.
    + rewrite list_lookup_insert_ne in Hl' by done. rewrite list_lookup_total_insert_ne by done.
      apply lseg_frame; [|by apply H].
      intros Hin. eapply (gran_fresh o a), (elem_of_blocks fl o'); eauto.
  - rewrite Hp. constructor; [done|apply H].
  - by rewrite Hp.
Qed.

(** The state changes that keep the allocator's bounds. *)
Lemma add_to_free_list_bounds st a o :
  heap_start (h_buddy (add_to_free_list st a o)) = heap_start (h_buddy st) /\
  heap_size (h_buddy (add_to_free_list st a o)) = heap_size (h_buddy st).
Proof. done. Qed.

(** ** Frames: what an operation leaves alone *)

(** [frame_eq G st st']: [st'] has the bounds of [st] and the same memory
    outside the granules [G]. *)
Definition frame_eq (G : list Z) (st st' : heap_state) : Prop :=
  heap_start (h_buddy st') = heap_start (h_buddy st) /\
  heap_size (h_buddy st') = heap_size (h_buddy st) /\
  forall x, x / 32 ∉ G -> ptr_read (h_mem st') x = ptr_read (h_mem st) x.

Lemma frame_eq_refl G st : frame_eq G st st.
Proof. done. Qed.

Lemma frame_eq_trans G st1 st2 st3 : frame_eq G st1 st2 -> frame_eq G st2 st3 -> frame_eq G st1 st3.
Proof. intros (?&?&H1) (?&?&H2). split_and!; [congruence..|]. intros. by rewrite H2, H1. Qed.

Lemma frame_eq_weaken G G' st st' : (forall g, g ∈ G -> g ∈ G') -> frame_eq G st st' -> frame_eq G' st st'.
Proof. intros Hs (?&?&H). split_and!; [done..|]. intros x Hx. apply H. auto. Qed.

Lemma frame_eq_add G st a o : a / 32 ∈ G -> frame_eq G st (add_to_free_list st a o).
Proof.
  intros Ha. split_and!; [done..|]. intros x Hx. simpl. rewrite ptr_read_insert_ne; [done|].
  intros ->. done.
Qed.

#[export] Hint Resolve frame_eq_refl frame_eq_trans frame_eq_add : kernel.

(** No two free blocks are buddies of each other below the top order. *)
Definition coalesced (bs : list (nat * Z)) : Prop :=
  forall o a, (o < MAX_ORDER)%nat -> (o, a) ∈ bs -> (o, Z.lxor a (block_size o)) ∉ bs.

Lemma coalesced_perm bs bs' : bs ≡ₚ bs' -> coalesced bs -> coalesced bs'.
Proof. intros Hp H o a Ho. rewrite <- Hp. by apply H. Qed.

Lemma coalesced_subset bs bs' : (forall b, b ∈ bs' -> b ∈ bs) -> coalesced bs -> coalesced bs'.
Proof. intros Hs H o a Ho Hin Hin'. apply (H o a Ho (Hs _ Hin)). auto. Qed.

Lemma coalesced_cons o a bs :
  ((o < MAX_ORDER)%nat -> (o, Z.lxor a (block_size o)) ∉ bs) -> coalesced bs -> coalesced ((o, a) :: bs).
Proof.
  intros Hn H o' a' Ho. pose proof (block_size_pos o') as Hp.
  assert (Hne : Z.lxor a' (block_size o') <> a').
  { intros E. assert (block_size o' = 0); [|lia].
    rewrite <- (Z.lxor_0_l (block_size o')), <- (Z.lxor_nilpotent a'), Z.lxor_assoc. by rewrite E, Z.lxor_nilpotent. }
  rewrite !elem_of_cons. intros [E1|Hin] [E2|Hin'].
  - injection E1 as -> ->. injection E2 as E2. by apply Hne.
  - injection E1 as -> ->. by apply Hn.
  - injection E2 as -> <-. apply Hn; [done|]. by rewrite Z.lxor_assoc, Z.lxor_nilpotent, Z.lxor_0_r.
  - by apply (H o' a' Ho).
Qed.

(** ** Allocation *)

Lemma block_size_aligned o' o a : (o <= o')%nat -> (block_size o' | a) -> (block_size o | a).
Proof. intros. eapply Z.divide_trans; [by apply block_size_divide|done]. Qed.

Lemma buddy_of_upper o a : (block_size (S o) | a) -> Z.lxor (a + block_size o) (block_size o) = a.
Proof.
  intros Ha. assert (Z.lxor a (block_size o) = a + block_size o) as <-.
  { destruct (buddy_cases a o) as [_ [[? ?]|[H1 H2]]]; [apply (block_size_aligned (S o)); auto|done|].
    exfalso. destruct (buddy_cases a o) as [[k Hk] _]; [apply (block_size_aligned (S o)); auto|].
    rewrite <- H1 in Hk. rewrite block_size_S in *. destruct Ha as [q Hq]. pose proof (block_size_pos o).
    assert (E : (2 * q - 2 * k - 1) * block_size o = 0) by lia. apply Z.mul_eq_0 in E. lia. }
  by rewrite Z.lxor_assoc, Z.lxor_nilpotent, Z.lxor_0_r.
Qed.

Lemma wf_block_halves lo hi o a :
  wf_block lo hi (S o, a) -> wf_block lo hi (o, a) /\ wf_block lo hi (o, a + block_size o).
Proof.
  intros (Ho & Ha & Hlo & Hhi). simpl in *. pose proof (block_size_pos o). rewrite block_size_S in Hhi.
  assert (block_size o | a) by (apply (block_size_aligned (S o)); auto).
  split; (split_and!; simpl; [lia| |lia..]); [done|]. apply Z.divide_add_r; [done|apply Z.divide_refl].
Qed.

(** What taking [(ord, block)] out of the free blocks [fl] yields. *)
Definition taken (G : list Z) (st : heap_state) (fl : list (list Z)) (ord : nat) (block : Z)
    (st' : heap_state) : Prop :=
  exists fl', Rep st' fl' /\
    gran (ord, block) ++ granules (blocks fl') ≡ₚ G /\
    (coalesced (blocks fl) -> coalesced (blocks fl')) /\
    frame_eq G st st'.

Lemma split_loop_taken n st fl block ord :
  Rep st fl -> (ord + n <= MAX_ORDER)%nat ->
  wf_block (heap_start (h_buddy st)) (heap_start (h_buddy st) + heap_size (h_buddy st)) ((ord + n)%nat, block) ->
  NoDup (gran ((ord + n)%nat, block) ++ granules (blocks fl)) ->
  taken (gran ((ord + n)%nat, block) ++ granules (blocks fl)) st fl ord block (split_loop n st block ord).
Proof.
  revert st fl. induction n as [|k IH]; intros st fl HR Ho Hwf Hnd; simpl.
  { rewrite Nat.add_0_r in *. exists fl. split_and!; auto with kernel. }
  rewrite Nat.add_succ_r in *. destruct (wf_block_halves _ _ _ _ Hwf) as [Hwl Hwu].
  rewrite (gran_split (ord + k)) in * by apply Hwf.
  set (up := block + block_size (ord + k)) in *.
  destruct (rep_lookup st fl (ord + k)) as [l Hl]; [done|lia|].
  assert (Hnd' : NoDup (gran ((ord + k)%nat, up) ++ granules (blocks fl))).
  { rewrite <- (assoc_L (++)) in Hnd. by apply NoDup_app in Hnd as (_ & _ & ?). }
  pose proof (add_to_free_list_Rep st fl (ord + k) up l HR Hl Hwu Hnd') as HR1.
  pose proof (blocks_push fl (ord + k) l up Hl) as Hp.
  assert (HG : gran ((ord + k)%nat, block) ++ granules (blocks (<[(ord + k)%nat := up :: l]> fl))
               ≡ₚ (gran ((ord + k)%nat, block) ++ gran ((ord + k)%nat, up)) ++ granules (blocks fl)).
  { rewrite Hp, granules_cons. by rewrite (assoc_L (++)). }
  destruct (IH _ _ HR1) as (fl' & HR' & Hperm & Hco & Hfr); [lia|done|by rewrite HG|].
  exists fl'. split_and!; [done|by rewrite Hperm| |].
  - intros Hc. apply Hco. apply (coalesced_perm ((((ord + k)%nat, up)) :: blocks fl)); [by rewrite Hp|].
    apply coalesced_cons; [|done]. intros _. unfold up. rewrite buddy_of_upper by apply Hwf.
    apply (gran_fresh (ord + k) block). rewrite <- (assoc_L (++)) in Hnd.
    apply NoDup_app in Hnd as (? & Hd & ?). apply NoDup_app in Hnd' as (? & ? & ?).
    apply NoDup_app. split_and!; [done| |done].
    intros g Hg Hg'. apply (Hd g Hg). apply elem_of_app. by right.
  - eapply frame_eq_trans; [apply frame_eq_add|eapply frame_eq_weaken, Hfr].
    + rewrite !elem_of_app. left; right. apply (gran_head ((ord + k)%nat, up)).
    + intros g. by rewrite HG.
Qed.

Lemma order_loop_spec left ord size :
  (forall o, (o < ord)%nat -> block_size o < size) ->
  let r := order_loop left ord size in
  (ord <= r <= ord + left)%nat /\ (forall o, (o < r)%nat -> block_size o < size) /\
  (size <= block_size r \/ r = (ord + left)%nat).
Proof.
  revert ord. induction left as [|k IH]; simpl; intros ord H; [split_and!; auto; lia|].
  destruct (Z.ltb_spec (block_size ord) size) as [Hlt|Hge].
  - destruct (IH (S ord)) as (? & ? & [?|?]); [|split_and!; auto; lia..].
    intros o Ho. destruct (decide (o = ord)) as [->|]; [done|apply H; lia].
  - split_and!; auto; lia.
Qed.

Lemma order_for_spec size :
  (order_for size <= MAX_ORDER)%nat /\ (forall o, (o < order_for size)%nat -> block_size o < size) /\
  (size <= block_size (order_for size) \/ order_for size = MAX_ORDER).
Proof.
  destruct (order_loop_spec MAX_ORDER 0 size) as (? & ? & ?); [lia|]. unfold order_for. split_and!; auto; lia.
Qed.

Lemma find_free_spec left f heads :
  let r := find_free left f heads in
  (f <= r <= f + left)%nat /\ (forall o, (f <= o < r)%nat -> heads !!! o = 0) /\
  ((r < f + left)%nat -> heads !!! r <> 0).
Proof.
  revert f. induction left as [|k IH]; simpl; intros f; [split_and!; intros; lia|].
  destruct (Z.eqb_spec (heads !!! f) 0) as [E|E]; [|split_and!; intros; (lia || done)].
  destruct (IH (S f)) as (H1 & H2 & H3). split_and!; [lia..| |intros; apply H3; lia].
  intros o Ho. destruct (decide (o = f)) as [->|]; [done|apply H2; lia].
Qed.

Lemma lseg_null m l : lseg m 0 l -> l = [].
Proof. destruct l; simpl; [done|]. intros (<- & ? & _). done. Qed.

Lemma pop_Rep st fl o a l :
  Rep st fl -> fl !! o = Some (a :: l) ->
  Rep (mkHeap (h_mem st) (set_free_list (h_buddy st) o (ptr_read (h_mem st) a))) (<[o := l]> fl).
Proof.
  intros H Hl. pose proof (blocks_remove fl o [] a l Hl) as Hp. simpl in Hp.
  pose proof (lookup_lt_Some _ _ _ Hl) as Hlt.
  split; simpl; rewrite ?length_insert; [apply H..| | |].
  - intros o' l' Hl'. destruct (decide (o = o')) as [<-|Hne].
    + rewrite list_lookup_insert_eq in Hl' by done. injection Hl' as <-.
      rewrite list_lookup_total_insert_eq by (rewrite (rep_heads _ _ H), <- (rep_lists _ _ H); done).
      by destruct (rep_lseg _ _ H o _ Hl) as (_ & _ & ?).
    + rewrite list_lookup_insert_ne in Hl' by done. rewrite list_lookup_total_insert_ne by done. by apply H.
  - pose proof (rep_wf _ _ H) as HF. rewrite Hp in HF. by apply Forall_cons in HF as [_ ?].
  - pose proof (rep_nodup _ _ H) as HN. rewrite Hp, granules_cons in HN. by apply NoDup_app in HN as (_ & _ & ?).
Qed.

Lemma alloc_inner_Rep st fl layout p st' :
  Rep st fl -> alloc_inner st layout = (p, st') ->
  let ord := order_for (request_size layout) in
  (p = 0 /\ st' = st /\
    (block_size ord < request_size layout \/ forall o l, (ord <= o)%nat -> fl !! o = Some l -> l = [])) \/
  (p <> 0 /\ request_size layout <= block_size ord /\
    wf_block (heap_start (h_buddy st)) (heap_start (h_buddy st) + heap_size (h_buddy st)) (ord, p) /\
    taken (granules (blocks fl)) st fl ord p st').
Proof.
  intros HR Ha ord. unfold alloc_inner in Ha. fold ord in Ha.
  destruct (order_for_spec (request_size layout)) as (Hord & _ & _). fold ord in Hord.
  destruct (Z.ltb_spec (block_size ord) (request_size layout)) as [Hlt|Hge]; [injection Ha as <- <-; auto|].
  set (f := find_free _ _ _) in Ha.
  destruct (find_free_spec (S MAX_ORDER - ord) ord (free_lists (h_buddy st))) as (Hf1 & Hf2 & Hf3).
  fold f in Hf1, Hf2, Hf3. clearbody f.
  assert (exists n, f = ord + n)%nat as [n ->] by (exists (f - ord)%nat; lia).
  replace (ord + n - ord)%nat with n in Ha by lia.
  destruct (Nat.ltb_spec MAX_ORDER (ord + n)) as [Hlt|Hle].
  { injection Ha as <- <-. left. split_and!; [done..|]. right. intros o l Ho Hl.
    pose proof (lookup_lt_Some _ _ _ Hl) as Hlen. rewrite (rep_lists _ _ HR) in Hlen.
    eapply lseg_null. rewrite <- (Hf2 o) by lia. by apply (rep_lseg _ _ HR). }
  injection Ha as <- <-. right. destruct (rep_lookup st fl _ HR Hle) as [l Hl].
  pose proof (rep_lseg _ _ HR _ l Hl) as Hs.
  assert (Hnz : free_lists (h_buddy st) !!! (ord + n)%nat <> 0) by (apply Hf3; lia).
  destruct l as [|a l]; simpl in Hs; [done|]. destruct Hs as (Ea & _ & _). rewrite Ea in *.
  pose proof (blocks_remove fl _ [] a l Hl) as Hp. simpl in Hp.
  assert (Hwf : wf_block (heap_start (h_buddy st)) (heap_start (h_buddy st) + heap_size (h_buddy st)) ((ord + n)%nat, a)).
  { pose proof (rep_wf _ _ HR) as HF. rewrite Hp in HF. by apply Forall_cons in HF as [? _]. }
  destruct (split_loop_taken n _ _ a ord (pop_Rep st fl _ a l HR Hl)) as (fl' & HR' & Hperm & Hco & Hfr);
    [lia|done|..].
  { rewrite <- granules_cons, <- Hp. apply HR. }
  split_and!; [done..| |].
  - destruct Hwf as (? & ? & ? & ?). simpl in *. split_and!; simpl; [lia| |lia|lia|].
    + eapply block_size_aligned; [|done]. lia.
    + pose proof (block_size_mono ord (ord + n)). lia.
  - assert (HG : gran ((ord + n)%nat, a) ++ granules (blocks (<[(ord + n)%nat := l]> fl)) ≡ₚ granules (blocks fl)).
    { rewrite <- granules_cons. by rewrite <- Hp. }
    exists fl'. split_and!; [done|by rewrite Hperm| |].
    + intros Hc. apply Hco. eapply coalesced_subset; [|exact Hc]. intros b Hb. rewrite Hp. apply elem_of_cons. by right.
    + eapply frame_eq_weaken; [|exact Hfr]. intros g. by rewrite HG.
Qed.

(** ** Deallocation *)

Definition last_slot (s : node_slot) (k : list Z) : node_slot :=
  match last k with Some a => NodeSlot a | None => s end.

Lemma last_slot_cons s b k : last_slot s (b :: k) = last_slot (NodeSlot b) k.
Proof. unfold last_slot. rewrite last_cons. by destruct (last k). Qed.

Lemma unlink_buddy_walk l fuel st ord s buddy :
  lseg (h_mem st) (slot_read st ord s) l -> (length l < fuel)%nat ->
  ((buddy ∉ l) /\ unlink_buddy fuel st ord s buddy = Some (false, st)) \/
  (exists k1 k2, l = k1 ++ buddy :: k2 /\
    unlink_buddy fuel st ord s buddy =
      Some (true, slot_write st ord (last_slot s k1) (ptr_read (h_mem st) buddy))).
Proof.
  revert fuel s. induction l as [|b l IH]; intros [|fuel] s Hs Hf; simpl in *; try lia.
  { rewrite Hs. simpl. left. split; [apply not_elem_of_nil|done]. }
  destruct Hs as (Eb & Hb & Hs). rewrite Eb.
  destruct (Z.eqb_spec b 0); [done|]. destruct (Z.eqb_spec b buddy) as [->|Hne].
  { right. exists [], l. done. }
  destruct (IH fuel (NodeSlot b) Hs) as [[Hn ->]|(k1 & k2 & -> & ->)]; [lia|left|right].
  - split; [|done]. apply not_elem_of_cons. auto.
  - exists (b :: k1), k2. by rewrite last_slot_cons.
Qed.

Lemma lseg_unlink m p k a b k2 :
  NoDup (k ++ a :: b :: k2) -> lseg m p (k ++ a :: b :: k2) ->
  lseg (<[a := ptr_read m b]> m) p (k ++ a :: k2).
Proof.
  revert p. induction k as [|c k IH]; simpl; intros p Hnd Hs.
  - destruct Hs as (-> & ? & ? & ? & Hs). apply NoDup_cons in Hnd as [Hn _].
    rewrite ptr_read_insert_eq. split_and!; [done..|]. apply lseg_frame; [set_solver|done].
  - destruct Hs as (-> & ? & Hs). apply NoDup_cons in Hnd as [Hn Hnd].
    rewrite ptr_read_insert_ne by set_solver. split_and!; auto.
Qed.

Lemma NoDup_granules bs : NoDup (granules bs) -> NoDup bs.
Proof.
  induction bs as [|b bs IH]; [constructor|]. rewrite granules_cons. intros Hnd.
  constructor; [|apply IH; by apply NoDup_app in Hnd as (_&_&?)].
  destruct b as [o a]. by apply (gran_fresh o a).
Qed.

Lemma length_granules bs : (length bs <= length (granules bs))%nat.
Proof.
  induction bs as [|b bs IH]; [simpl; lia|]. rewrite granules_cons, length_app. simpl.
  assert (length (gran b) <> 0)%nat; [|lia]. intros E. apply nil_length_inv in E.
  pose proof (gran_head b) as Hh. rewrite E in Hh. by apply not_elem_of_nil in Hh.
Qed.

(** Addresses are on at most one list, once. *)
Lemma Rep_list_NoDup st fl o l : Rep st fl -> fl !! o = Some l -> NoDup l.
Proof.
  intros H Hl. pose proof (NoDup_granules _ (rep_nodup _ _ H)) as Hn.
  destruct (blocks_insert fl o l Hl) as (r & Hp & _). rewrite Hp in Hn.
  apply NoDup_app in Hn as (Hn & _ & _). by apply NoDup_fmap_1 in Hn.
Qed.

Lemma Rep_other_list st fl o o' l l' a :
  Rep st fl -> fl !! o = Some l -> fl !! o' = Some l' -> o <> o' -> a ∈ l -> a ∉ l'.
Proof.
  intros H Hl Hl' Hne Ha Ha'. apply (elem_of_blocks fl o a l Hl) in Ha.
  apply (elem_of_blocks fl o' a l' Hl') in Ha'.
  apply elem_of_Permutation in Ha as [r Hr]. rewrite Hr, elem_of_cons in Ha'.
  destruct Ha' as [?|Ha']; [congruence|]. revert Ha'.
  apply (gran_fresh o a). rewrite <- granules_cons, <- Hr. apply H.
Qed.

Lemma unlink_Rep st fl o k1 b k2 :
  Rep st fl -> fl !! o = Some (k1 ++ b :: k2) ->
  let st' := slot_write st o (last_slot HeadSlot k1) (ptr_read (h_mem st) b) in
  Rep st' (<[o := k1 ++ k2]> fl) /\ frame_eq (granules (blocks fl)) st st'.
Proof.
  intros H Hl. destruct k1 as [|a k _] using rev_ind.
  { split; [by apply pop_Rep|done]. }
  assert (Hin : (o, a) ∈ blocks fl) by (eapply elem_of_blocks; [done|set_solver]).
  unfold last_slot. rewrite last_snoc. simpl. rewrite <- (assoc_L (++)) in Hl. simpl in Hl.
  pose proof (Rep_list_NoDup _ _ _ _ H Hl) as Hnd. split.
  - pose proof (blocks_remove fl o (k ++ [a]) b k2) as Hp. rewrite <- !(assoc_L (++)) in Hp. simpl in Hp.
    specialize (Hp Hl). rewrite <- (assoc_L (++)). simpl.
    split; simpl; rewrite ?length_insert; [apply H..| | |].
    + intros o' l' Hl'. destruct (decide (o = o')) as [<-|Hne].
      * rewrite list_lookup_insert_eq in Hl' by (by apply lookup_lt_Some in Hl). injection Hl' as <-.
        apply lseg_unlink; [done|by apply H].
      * rewrite list_lookup_insert_ne in Hl' by done. apply lseg_frame; [|by apply H].
        apply (Rep_other_list st fl o o' _ _ a H Hl Hl'); [done|set_solver].
    + pose proof (rep_wf _ _ H) as HF. rewrite Hp in HF. by apply Forall_cons in HF as [_ ?].
    + pose proof (rep_nodup _ _ H) as HN. rewrite Hp, granules_cons in HN. by apply NoDup_app in HN as (_ & _ & ?).
  - split_and!; [done..|]. intros x Hx. simpl. apply ptr_read_insert_ne. intros ->. apply Hx.
    apply list_elem_of_bind. exists (o, x). split; [apply (gran_head (o, x))|done].
Qed.

Lemma gran_merge o a :
  (block_size o | a) ->
  gran (o, a) ++ gran (o, Z.lxor a (block_size o)) ≡ₚ gran (S o, Z.min a (Z.lxor a (block_size o))).
Proof.
  intros Ha. destruct (buddy_cases a o Ha) as [Hal Hc]. rewrite gran_split by done.
  destruct Hc as [[E1 E2]|[E1 E2]].
  - rewrite <- E1, E2. done.
  - rewrite <- E1. rewrite E2 at 1. apply Permutation_app_comm.
Qed.

Lemma merge_loop_spec left fuel st fl ord p :
  Rep st fl -> (ord + left = MAX_ORDER)%nat ->
  wf_block (heap_start (h_buddy st)) (heap_start (h_buddy st) + heap_size (h_buddy st)) (ord, p) ->
  NoDup (gran (ord, p) ++ granules (blocks fl)) ->
  (length (granules (blocks fl)) < fuel)%nat ->
  exists o' p' st' fl', merge_loop left fuel st ord p = Some (o', p', st') /\ Rep st' fl' /\
    wf_block (heap_start (h_buddy st)) (heap_start (h_buddy st) + heap_size (h_buddy st)) (o', p') /\
    gran (o', p') ++ granules (blocks fl') ≡ₚ gran (ord, p) ++ granules (blocks fl) /\
    (coalesced (blocks fl) -> coalesced ((o', p') :: blocks fl')) /\
    frame_eq (granules (blocks fl)) st st'.
Proof.
  revert st fl ord p. induction left as [|k IH]; intros st fl ord p HR Ho Hwf Hnd Hf; simpl.
  { exists ord, p, st, fl. split_and!; [done..| |apply frame_eq_refl].
    intros Hc. apply coalesced_cons; [lia|done]. }
  destruct (rep_lookup st fl ord HR) as [l Hl]; [lia|].
  set (buddy := Z.lxor p (block_size ord)).
  assert (Hfuel : (length l < fuel)%nat).
  { destruct (blocks_insert fl ord l Hl) as (r & Hp & _). pose proof (length_granules (blocks fl)) as Hg.
    rewrite Hp in Hg at 1. rewrite length_app, length_fmap in Hg. lia. }
  destruct (unlink_buddy_walk l fuel st ord HeadSlot buddy (rep_lseg _ _ HR ord l Hl) Hfuel)
    as [[Hn ->]|(k1 & k2 & -> & ->)].
  { exists ord, p, st, fl. split_and!; [done..| |apply frame_eq_refl].
    intros Hc. apply coalesced_cons; [|done]. intros _. by rewrite (elem_of_blocks fl ord _ l). }
  destruct (unlink_Rep st fl ord k1 buddy k2 HR Hl) as [HR1 Hfr1].
  set (st1 := slot_write _ _ _ _) in *. set (fl1 := <[ord := k1 ++ k2]> fl) in *.
  pose proof (blocks_remove fl ord k1 buddy k2 Hl) as Hp. fold fl1 in Hp.
  assert (Hwfb : wf_block (heap_start (h_buddy st)) (heap_start (h_buddy st) + heap_size (h_buddy st)) (ord, buddy)).
  { pose proof (rep_wf _ _ HR) as HF. rewrite Hp in HF. by apply Forall_cons in HF as [? _]. }
  destruct (buddy_cases p ord) as [Hal Hcs]; [apply Hwf|]. fold buddy in Hal, Hcs.
  assert (HG : gran (S ord, Z.min p buddy) ++ granules (blocks fl1) ≡ₚ gran (ord, p) ++ granules (blocks fl)).
  { rewrite Hp, granules_cons, (assoc_L (++)). unfold buddy at 2. rewrite gran_merge by apply Hwf. done. }
  destruct Hfr1 as (Hb1 & Hb2 & Hmem).
  destruct (IH st1 fl1 (S ord) (Z.min p buddy)) as (o' & p' & st' & fl' & E & HR' & Hwf' & Hperm & Hco & Hfr).
  - done.
  - lia.
  - rewrite Hb1, Hb2. destruct Hwf as (?&?&?&?), Hwfb as (?&?&?&?). simpl in *.
    split_and!; simpl; [lia|done|lia|lia|]. rewrite block_size_S. lia.
  - by rewrite HG.
  - rewrite Hp, granules_cons, length_app in Hf. lia.
  - exists o', p', st', fl'. rewrite Hb1, Hb2 in Hwf'. split_and!; [done..|by rewrite Hperm| |].
    + intros Hc. apply Hco. eapply coalesced_subset; [|exact Hc]. intros b Hb. rewrite Hp. apply elem_of_cons. by right.
    + eapply frame_eq_trans; [|eapply frame_eq_weaken, Hfr]; [done|].
      intros g Hg. rewrite Hp, granules_cons. apply elem_of_app. by right.
Qed.

Lemma dealloc_inner_Rep st fl p layout :
  let ord := order_for (request_size layout) in
  Rep st fl ->
  wf_block (heap_start (h_buddy st)) (heap_start (h_buddy st) + heap_size (h_buddy st)) (ord, p) ->
  NoDup (gran (ord, p) ++ granules (blocks fl)) ->
  (length (granules (blocks fl)) <= Z.to_nat (heap_size (h_buddy st) / MIN_BLOCK_SIZE))%nat ->
  exists st' fl', dealloc_inner st p layout = Some st' /\ Rep st' fl' /\
    granules (blocks fl') ≡ₚ gran (ord, p) ++ granules (blocks fl) /\
    (coalesced (blocks fl) -> coalesced (blocks fl')) /\
    frame_eq (gran (ord, p) ++ granules (blocks fl)) st st'.
Proof.
  intros ord HR Hwf Hnd Hlen. unfold dealloc_inner. fold ord.
  destruct (order_for_spec (request_size layout)) as (Hord & _ & _). fold ord in Hord.
  destruct (merge_loop_spec (MAX_ORDER - ord) (S (Z.to_nat (heap_size (h_buddy st) / MIN_BLOCK_SIZE))) st fl ord p)
    as (o' & p' & st' & fl' & -> & HR' & Hwf' & Hperm & Hco & Hb1 & Hb2 & Hmem); [done|lia|done|done|lia|].
  destruct (rep_lookup st' fl' o' HR') as [l Hl]; [apply Hwf'|].
  rewrite <- Hb1, <- Hb2 in Hwf'.
  assert (Hnd' : NoDup (gran (o', p') ++ granules (blocks fl'))) by (by rewrite Hperm).
  pose proof (blocks_push fl' o' l p' Hl) as Hp.
  exists (add_to_free_list st' p' o'), (<[o' := p' :: l]> fl'). split_and!; [done| | | |].
  - by apply add_to_free_list_Rep.
  - by rewrite Hp, granules_cons, Hperm.
  - intros Hc. eapply coalesced_perm; [symmetry; exact Hp|auto].
  - eapply frame_eq_trans; [|apply frame_eq_add].
    + split_and!; [done..|]. intros x Hx. apply Hmem. intros Hx'. apply Hx, elem_of_app. by right.
    + rewrite <- Hperm. apply elem_of_app. left. apply (gran_head (o', p')).
Qed.

(** ** Initialisation *)

Lemma init_order_spec ord curr end_ :
  0 <= curr -> curr + block_size ord < 2 ^ 64 ->
  exists o, init_order ord curr end_ = Some o /\ (o <= ord)%nat /\
    (o <> O -> curr + block_size o <= end_ /\ (block_size o | curr)) /\
    (forall o', (o < o' <= ord)%nat -> (block_size o' | curr) -> end_ < curr + block_size o').
Proof.
  intros Hc. induction ord as [|k IH]; intros Hov; cbn [init_order].
  { exists O. split_and!; [done|lia|done|lia]. }
  pose proof (block_size_pos (S k)). pose proof (block_size_mono k (S k)).
  unfold uadd. rewrite uchk_fits by (unfold fits; lia).
  destruct (Z.leb_spec (curr + block_size (S k)) end_) as [Hle|Hgt]; cbn [andb].
  - destruct (Z.eqb_spec (Z.land curr (block_size (S k) - 1)) 0) as [Hal|Hna].
    + exists (S k). apply aligned_mask in Hal. split_and!; auto; intros; lia.
    + destruct IH as (o & E & ? & ? & Hmax); [lia|]. exists o. split_and!; [done|lia|done|].
      intros o' Ho Hd. destruct (decide (o' = S k)) as [->|]; [|apply Hmax; [lia|done]].
      by apply aligned_mask in Hd.
  - destruct IH as (o & E & ? & ? & Hmax); [lia|]. exists o. split_and!; [done|lia|done|].
    intros o' Ho Hd. destruct (decide (o' = S k)) as [->|]; [lia|apply Hmax; [lia|done]].
Qed.

(** Each free block of the fresh heap is the largest aligned one that fits. *)
Definition greedy (end_ : Z) (bs : list (nat * Z)) : Prop :=
  forall o a, (o < MAX_ORDER)%nat -> (o, a) ∈ bs -> (block_size (S o) | a) -> end_ < a + block_size (S o).

Record init_inv (st : heap_state) (fl : list (list Z)) (curr end_ : Z) : Prop := mkInitInv {
  ii_rep : Rep st fl;
  ii_end : end_ = heap_start (h_buddy st) + heap_size (h_buddy st);
  ii_curr : heap_start (h_buddy st) <= curr <= end_;
  ii_start : 0 < heap_start (h_buddy st);
  ii_align : (32 | heap_start (h_buddy st)) /\ (32 | curr);
  ii_cover : granules (blocks fl) ≡ₚ
               seqZ (heap_start (h_buddy st) / 32) ((curr - heap_start (h_buddy st)) / 32);
  ii_coal : coalesced (blocks fl);
  ii_greedy : greedy end_ (blocks fl)
}.

Lemma init_inv_not_beyond st fl curr end_ o a :
  init_inv st fl curr end_ -> (o, a) ∈ blocks fl -> a < curr.
Proof.
  intros H Hin. destruct (ii_align _ _ _ _ H) as [[k Hk] [j Hj]].
  assert (a / 32 ∈ granules (blocks fl)) as Hg.
  { apply list_elem_of_bind. exists (o, a). split; [apply (gran_head (o, a))|done]. }
  rewrite (ii_cover _ _ _ _ H), elem_of_seqZ in Hg.
  assert ((curr - heap_start (h_buddy st)) / 32 = j - k) as E.
  { rewrite Hj, Hk, <- Z.mul_sub_distr_r. by apply Z.div_mul. }
  rewrite E, Hk, Z.div_mul in Hg by lia. pose proof (Z.div_mod a 32). pose proof (Z.mod_pos_bound a 32). lia.
Qed.

Lemma init_inv_step st fl curr end_ o :
  init_inv st fl curr end_ -> (o <= MAX_ORDER)%nat -> (block_size o | curr) -> curr + block_size o <= end_ ->
  (forall o', (o < o' <= MAX_ORDER)%nat -> (block_size o' | curr) -> end_ < curr + block_size o') ->
  exists fl', init_inv (add_to_free_list st curr o) fl' (curr + block_size o) end_.
Proof.
  intros H Ho Hal Hfit Hmax. pose proof (block_size_pos o) as Hpos.
  pose proof H as [HR Hend Hcur Hst [[k Hk] [j Hj]] Hcov Hcoal Hgr].
  destruct (rep_lookup st fl o HR Ho) as [l Hl]. pose proof (blocks_push fl o l curr Hl) as Hp.
  assert (E1 : (curr - heap_start (h_buddy st)) / 32 = j - k).
  { rewrite Hj, Hk, <- Z.mul_sub_distr_r. by apply Z.div_mul. }
  assert (E2 : (curr + block_size o - heap_start (h_buddy st)) / 32 = (j - k) + 2 ^ Z.of_nat o).
  { rewrite block_size_pow, Hj, Hk.
    replace (j * 32 + 32 * 2 ^ Z.of_nat o - k * 32) with ((j - k + 2 ^ Z.of_nat o) * 32) by lia. by apply Z.div_mul. }
  assert (Hpw : 0 < 2 ^ Z.of_nat o) by (apply Z.pow_pos_nonneg; lia).
  assert (Hgran : granules (blocks fl) ++ gran (o, curr) ≡ₚ
            seqZ (heap_start (h_buddy st) / 32) ((curr + block_size o - heap_start (h_buddy st)) / 32)).
  { rewrite Hcov, E1, E2. unfold gran; simpl. rewrite seqZ_app by lia. f_equiv.
    replace (curr / 32) with (heap_start (h_buddy st) / 32 + (j - k)); [done|].
    rewrite Hj, Hk, !Z.div_mul by lia. lia. }
  exists (<[o := curr :: l]> fl). split; simpl; rewrite ?Hp.
  - apply add_to_free_list_Rep; [done..| |].
    + split_and!; simpl; [done|done|done|lia|lia].
    + rewrite Permutation_app_comm, Hgran. apply NoDup_seqZ.
  - done.
  - lia.
  - done.
  - split; [by exists k|]. rewrite Hj, block_size_pow. exists (j + 2 ^ Z.of_nat o). lia.
  - by rewrite granules_cons, Permutation_app_comm.
  - eapply coalesced_perm; [symmetry; exact Hp|]. apply coalesced_cons; [|done]. intros Hlt Hin.
    destruct (buddy_cases curr o Hal) as [Hd [[_ Eb]|[Em Eb]]].
    + apply (init_inv_not_beyond _ _ _ _ _ _ H) in Hin. lia.
    + rewrite <- Em in Hd. pose proof (Hgr o _ Hlt Hin Hd) as Hlt'. rewrite block_size_S in Hlt'. lia.
  - intros o' a' Ho'. rewrite Hp, elem_of_cons. intros [[= -> ->]|Hin]; [intros; apply Hmax; [lia|done]|by apply Hgr].
Qed.

Lemma init_loop_inv fuel st fl curr end_ :
  init_inv st fl curr end_ -> end_ + block_size MAX_ORDER < 2 ^ 64 ->
  (Z.to_nat ((end_ - curr) / 32) < fuel)%nat ->
  exists st' fl' curr', init_loop fuel st curr end_ = Some st' /\ init_inv st' fl' curr' end_ /\ end_ - curr' < 32
    /\ heap_start (h_buddy st') = heap_start (h_buddy st) /\ heap_size (h_buddy st') = heap_size (h_buddy st).
Proof.
  revert st fl curr. induction fuel as [|f IH]; intros st fl curr H Hov Hf; [lia|]. cbn [init_loop].
  pose proof (ii_curr _ _ _ _ H) as Hcur. pose proof (ii_start _ _ _ _ H) as Hst.
  destruct (Z.ltb_spec curr end_) as [Hlt|Hge].
  2: { exists st, fl, curr. split_and!; auto; lia. }
  destruct (init_order_spec MAX_ORDER curr end_) as (o & -> & Ho & Hfit & Hmax); [lia|lia|].
  pose proof (block_size_mono o MAX_ORDER Ho). pose proof (block_size_pos o).
  unfold uadd. rewrite uchk_fits by (unfold fits; lia).
  destruct (Z.ltb_spec end_ (curr + block_size o)) as [Hgt|Hle].
  { exists st, fl, curr. split_and!; auto. destruct (decide (o = O)) as [->|Hne].
    - change (block_size 0) with 32 in Hgt. lia.
    - apply Hfit in Hne. lia. }
  destruct (init_inv_step st fl curr end_ o H Ho) as [fl' H']; [|done|done|].
  { destruct (decide (o = O)) as [->|Hne]; [apply (ii_align _ _ _ _ H)|by apply Hfit]. }
  destruct (IH _ _ _ H' Hov) as (st' & fl'' & curr' & E & ? & ? & ? & ?).
  { assert (Hd : (end_ - (curr + block_size o)) / 32 <= (end_ - curr) / 32 - 1).
    { replace ((end_ - curr) / 32 - 1) with ((end_ - curr - 32) / 32)
        by (replace (end_ - curr - 32) with (end_ - curr + (-1) * 32) by lia; rewrite Z.div_add by lia; lia).
      apply Z.div_le_mono; lia. }
    assert (0 <= (end_ - (curr + block_size o)) / 32) by (apply Z.div_pos; lia). lia. }
  exists st', fl'', curr'. auto.
Qed.

(** ** Traces of the heap *)

(** The kernel heap with the allocations its clients hold (a ghost list). *)
Record world := mkWorld { w_heap : heap_state; w_live : list (Layout * Z) }.

Definition live_block (x : Layout * Z) : nat * Z := (order_for (request_size x.1), x.2).
Definition live_blocks (w : world) : list (nat * Z) := live_block <$> w_live w.

(** A client may store anywhere in a block it holds. *)
Inductive heap_step : world -> world -> Prop :=
  | step_alloc st live layout p st' :
      alloc_inner st layout = (p, st') -> p <> 0 ->
      heap_step (mkWorld st live) (mkWorld st' ((layout, p) :: live))
  | step_alloc_null st live layout st' :
      alloc_inner st layout = (0, st') -> heap_step (mkWorld st live) (mkWorld st' live)
  | step_dealloc st live1 live2 layout p st' :
      dealloc_inner st p layout = Some st' ->
      heap_step (mkWorld st (live1 ++ (layout, p) :: live2)) (mkWorld st' (live1 ++ live2))
  | step_store st live layout p x v :
      (layout, p) ∈ live -> p <= x < p + request_size layout ->
      heap_step (mkWorld st live) (mkWorld (mkHeap (<[x := v]> (h_mem st)) (h_buddy st)) live).

Definition heap_inv (w : world) : Prop :=
  let b := h_buddy (w_heap w) in
  0 < heap_start b /\ (32 | heap_start b) /\
  exists fl, Rep (w_heap w) fl /\
    Forall (wf_block (heap_start b) (heap_start b + heap_size b)) (live_blocks w) /\
    Forall (fun x => request_size x.1 <= block_size (live_block x).1) (w_live w) /\
    granules (blocks fl) ++ granules (live_blocks w) ≡ₚ seqZ (heap_start b / 32) (heap_size b / 32) /\
    coalesced (blocks fl).

(** A heap set up by [init] over the range [start, start + size), run for any
    number of steps. *)
Definition fresh_heap (start size : Z) (w : world) : Prop :=
  0 < start /\ (32 | start) /\ 0 <= size /\ start + size + block_size MAX_ORDER < 2 ^ 64 /\
  w_live w = [] /\ exists m, buddy_init (mkHeap m buddy_empty) start size = Some (w_heap w).
Definition heap_reachable (start size : Z) (w : world) : Prop :=
  exists w0, fresh_heap start size w0 /\ rtc heap_step w0 w.

Lemma blocks_replicate_nil n o : blocks_from o (replicate n []) = [].
Proof. revert o. induction n; simpl; auto. Qed.

Lemma init_heap_inv m start size :
  0 < start -> (32 | start) -> 0 <= size -> start + size + block_size MAX_ORDER < 2 ^ 64 ->
  exists st, buddy_init (mkHeap m buddy_empty) start size = Some st /\ heap_inv (mkWorld st []) /\
    heap_start (h_buddy st) = start /\ heap_size (h_buddy st) = size.
Proof.
  intros Hs Hal Hsz Hov. unfold buddy_init. pose proof (block_size_pos MAX_ORDER) as Hbs.
  unfold uadd. rewrite uchk_fits by (unfold fits; lia). cbn [h_buddy h_mem free_lists buddy_empty].
  set (st0 := mkHeap m _).
  assert (init_inv st0 (replicate (S MAX_ORDER) []) start (start + size)) as H0.
  { assert (E : blocks (replicate (S MAX_ORDER) []) = []) by apply blocks_replicate_nil.
    split; rewrite ?E; simpl; [|done|lia|done|done| |intros ????; set_solver|intros ????; set_solver].
    - split; rewrite ?E; try done; [|constructor]. intros o l Hl.
      apply (lookup_replicate (S MAX_ORDER) (@nil Z)) in Hl as [-> Ho].
      apply (lookup_total_replicate_2 (S MAX_ORDER) 0 o Ho).
    - by rewrite Z.sub_diag. }
  destruct (init_loop_inv (S (Z.to_nat (size / MIN_BLOCK_SIZE))) st0 _ start (start + size) H0 Hov)
    as (st & fl & curr & -> & H & Hend & Hb1 & Hb2).
  { replace (start + size - start) with size by lia. unfold MIN_BLOCK_SIZE. lia. }
  exists st. split_and!; [done| |done|done]. pose proof (ii_align _ _ _ _ H) as [[k Hk] [j Hj]].
  split_and!; [apply H..|]. exists fl. split_and!; [apply H|constructor|constructor| |apply H].
  cbn [live_blocks w_live fmap list_fmap granules mbind list_bind]. rewrite app_nil_r, (ii_cover _ _ _ _ H).
  cbn [w_heap]. pose proof (ii_curr _ _ _ _ H) as Hc. pose proof (ii_end _ _ _ _ H) as He.
  replace ((curr - heap_start (h_buddy st)) / 32) with (heap_size (h_buddy st) / 32); [done|].
  rewrite Hb1, Hb2 in *. rewrite Hj, Hk, <- Z.mul_sub_distr_r, Z.div_mul by lia.
  symmetry. apply (Z.div_unique_pos _ _ _ (start + size - curr)); lia.
Qed.

Lemma range_gran o p x : (32 | p) -> p <= x < p + block_size o -> x / 32 ∈ gran (o, p).
Proof.
  intros [q ->] Hx. unfold gran; simpl. apply elem_of_seqZ. rewrite Z.div_mul by lia. rewrite block_size_pow in Hx.
  split; [apply Z.div_le_lower_bound; lia|apply Z.div_lt_upper_bound; lia].
Qed.

Lemma wf_block_32 lo hi b : wf_block lo hi b -> (32 | b.2).
Proof. intros (_ & H & _). apply (block_size_aligned b.1 0); [lia|done]. Qed.

Lemma Rep_store st fl x v :
  Rep st fl -> x / 32 ∉ granules (blocks fl) -> Rep (mkHeap (<[x := v]> (h_mem st)) (h_buddy st)) fl.
Proof.
  intros H Hx. split; try apply H. intros o l Hl. simpl. apply lseg_frame; [|by apply H].
  intros Hin. apply Hx, list_elem_of_bind. exists (o, x). split; [apply (gran_head (o, x))|].
  by apply (elem_of_blocks fl o x l).
Qed.

Lemma heap_step_bounds w w' : heap_inv w -> heap_step w w' ->
  heap_start (h_buddy (w_heap w')) = heap_start (h_buddy (w_heap w)) /\
  heap_size (h_buddy (w_heap w')) = heap_size (h_buddy (w_heap w)) /\ heap_inv w'.
Proof.
  intros (Hpos & Hal & fl & HR & Hwf & Hsz & Hperm & Hco) Hstep.
  assert (Hnd : NoDup (granules (blocks fl) ++ granules (live_blocks w))) by (rewrite Hperm; apply NoDup_seqZ).
  destruct Hstep as [st live layout p st' Ha Hp|st live layout st' Ha|st live1 live2 layout p st' Hd|st live layout p x v Hin Hx];
    cbn [w_heap w_live] in *.
  - destruct (alloc_inner_Rep st fl layout p st' HR Ha) as [(? & _)|(_ & Hr & Hw & fl' & HR' & Hg & Hc & Hb1 & Hb2 & _)]; [done|].
    split_and!; [done..|]. unfold heap_inv. cbn [w_heap w_live live_blocks fmap list_fmap]. rewrite Hb1, Hb2.
    split_and!; [done..|]. exists fl'. split_and!; [done|by constructor|by constructor| |auto].
    rewrite granules_cons. cbn [live_block fst snd]. rewrite <- Hperm, <- Hg.
    rewrite !(assoc_L (++)). apply Permutation_app_tail, Permutation_app_comm.
  - destruct (alloc_inner_Rep st fl layout 0 st' HR Ha) as [(_ & -> & _)|(? & _)]; [|done].
    split_and!; [done..|]. split_and!; [done..|]. exists fl. auto.
  - assert (Hlp : live_blocks (mkWorld st (live1 ++ (layout, p) :: live2)) ≡ₚ
                 live_block (layout, p) :: live_blocks (mkWorld st (live1 ++ live2))).
    { unfold live_blocks; simpl. rewrite !fmap_app, fmap_cons. by rewrite Permutation_middle. }
    rewrite Hlp in Hwf. apply Forall_cons in Hwf as [Hw1 Hwf]. rewrite Hlp, granules_cons in Hnd, Hperm.
    apply Forall_app in Hsz as [Hs1 Hs2]. apply Forall_cons in Hs2 as [_ Hs2].
    assert (Hnd' : NoDup (gran (live_block (layout, p)) ++ granules (blocks fl))).
    { rewrite (assoc_L (++)) in Hnd. apply NoDup_app in Hnd as (Hnd & _). by rewrite Permutation_app_comm. }
    destruct (dealloc_inner_Rep st fl p layout HR Hw1 Hnd') as (st1 & fl' & E & HR' & Hg & Hc & Hb1 & Hb2 & _).
    { apply Permutation_length in Hperm. rewrite !length_app, length_seqZ in Hperm. unfold MIN_BLOCK_SIZE. lia. }
    rewrite E in Hd. injection Hd as <-. split_and!; [done..|]. unfold heap_inv. cbn [w_heap w_live]. rewrite Hb1, Hb2.
    split_and!; [done..|]. exists fl'. split_and!; [done|done|by apply Forall_app| |auto].
    rewrite Hg, <- Hperm, !(assoc_L (++)). apply Permutation_app_tail, Permutation_app_comm.
  - split_and!; [done..|]. split_and!; [done..|]. exists fl. split_and!; [|done..]. apply Rep_store; [done|]. intros Hg.
    apply NoDup_app in Hnd as (_ & Hd & _). apply (Hd _ Hg). apply list_elem_of_bind.
    exists (live_block (layout, p)).
    assert (Hlb : live_block (layout, p) ∈ live_blocks (mkWorld st live)) by (by apply list_elem_of_fmap_2).
    split; [|done]. rewrite Forall_forall in Hwf. rewrite Forall_forall in Hsz. apply range_gran; [by apply (wf_block_32 _ _ _ (Hwf _ Hlb))|].
    specialize (Hsz _ Hin). simpl in *. lia.
Qed.

Lemma heap_reachable_inv start size w :
  heap_reachable start size w ->
  heap_inv w /\ heap_start (h_buddy (w_heap w)) = start /\ heap_size (h_buddy (w_heap w)) = size.
Proof.
  intros (w0 & (H1 & H2 & H3 & H4 & H5 & m & H6) & Hsteps).
  destruct (init_heap_inv m start size) as (st & E & Hi & Hb1 & Hb2); [done..|].
  assert (heap_inv w0 /\ heap_start (h_buddy (w_heap w0)) = start /\ heap_size (h_buddy (w_heap w0)) = size) as H0.
  { destruct w0 as [h l]; simpl in *. rewrite H6 in E. injection E as ->. subst l. auto. }
  clear - Hsteps H0. induction Hsteps as [|w1 w2 w3 Hs _ IH]; [done|].
  destruct H0 as (Hi & <- & <-). apply IH. destruct (heap_step_bounds _ _ Hi Hs) as (? & ? & ?). auto.
Qed.

(** ** Coverage of a fully coalesced heap *)

Lemma coalesced_covers lo size bs :
  (32 | lo) -> Forall (wf_block lo (lo + size)) bs -> coalesced bs ->
  granules bs ≡ₚ seqZ (lo / 32) (size / 32) ->
  forall o a, (o <= MAX_ORDER)%nat -> (block_size o | a) -> lo <= a -> a + block_size o <= lo + size ->
  exists o' a', (o', a') ∈ bs /\ (o <= o')%nat /\ a' <= a /\ a + block_size o <= a' + block_size o'.
Proof.
  intros [k Hk] Hwf Hco Hcov. rewrite Forall_forall in Hwf. induction o as [|o IH]; intros a Ho Hal Hlo Hhi.
  - change (block_size 0) with 32 in *. destruct Hal as [q Hq].
    assert (q ∈ granules bs) as Hin.
    { rewrite Hcov, elem_of_seqZ, Hk, Z.div_mul by lia.
      assert (q + 1 - k <= size / 32) by (apply Z.div_le_lower_bound; lia). lia. }
    apply list_elem_of_bind in Hin as ([o' a'] & Hg & Hin). unfold gran in Hg; simpl in Hg.
    rewrite elem_of_seqZ in Hg. destruct (wf_block_32 _ _ _ (Hwf _ Hin)) as [q' Hq']; simpl in *. subst a'.
    rewrite Z.div_mul in Hg by lia. exists o', (q' * 32). rewrite block_size_pow. split_and!; auto; lia.
  - pose proof (block_size_pos o) as Hpos. pose proof (block_size_S o) as HS.
    assert (Halo : (block_size o | a)) by (apply (block_size_aligned (S o)); auto).
    destruct (IH a) as (o1 & a1 & Hin1 & Ho1 & Hle1 & Hge1); [lia|done|lia|lia|].
    destruct (IH (a + block_size o)) as (o2 & a2 & Hin2 & Ho2 & Hle2 & Hge2);
      [lia|apply Z.divide_add_r; [done|apply Z.divide_refl]|lia|lia|].
    destruct Hal as [q Hq].
    assert (Hdiv : forall o' a', (o', a') ∈ bs -> (S o <= o')%nat ->
              exists x y, a' = x * (2 * block_size o) /\ block_size o' = y * (2 * block_size o)).
    { intros o' a' Hin Hle. rewrite <- HS. pose proof (Hwf _ Hin) as (_ & Hd & _). simpl in Hd.
      destruct (block_size_aligned o' (S o) a' Hle Hd) as [x ->]. destruct (block_size_divide (S o) o' Hle) as [y ->]. eauto. }
    assert (Hr : forall n, n * (2 * block_size o) <= 0 \/ 2 * block_size o <= n * (2 * block_size o)).
    { intros n. destruct (Z.le_gt_cases n 0); [left; nia|right]. rewrite <- (Z.mul_1_l (2 * block_size o)) at 1.
      apply Z.mul_le_mono_nonneg_r; lia. }
    destruct (decide (S o <= o1)%nat) as [Hb|Hs].
    { exists o1, a1. destruct (Hdiv _ _ Hin1 Hb) as (x & y & Ex & Ey). rewrite Ey, HS in *.
      split_and!; auto. specialize (Hr (x + y - q)). lia. }
    destruct (decide (S o <= o2)%nat) as [Hb|Hs'].
    { exists o2, a2. destruct (Hdiv _ _ Hin2 Hb) as (x & y & Ex & Ey). rewrite Ey, HS in *.
      split_and!; auto; [specialize (Hr (x - q))|specialize (Hr (x + y - q))]; lia. }
    assert (o1 = o) as -> by lia. assert (o2 = o) as -> by lia.
    assert (a1 = a) as -> by lia. assert (a2 = a + block_size o) as -> by lia.
    exfalso. apply (Hco o (a + block_size o)); [lia|done|]. rewrite buddy_of_upper; [done|]. exists q. done.
Qed.

(** ** Theorems *)

(** [init] terminates without overflow on any 32-byte aligned range, whatever
    the memory holds, and yields a heap whose free blocks are aligned, pairwise
    disjoint, fully coalesced and cover the whole range. *)
Theorem buddy_init_correct (m : gmap Z Z) (start size : Z) :
  0 < start -> (32 | start) -> 0 <= size -> start + size + block_size MAX_ORDER < 2 ^ 64 ->
  exists st fl, buddy_init (mkHeap m buddy_empty) start size = Some st /\ Rep st fl /\
    granules (blocks fl) ≡ₚ seqZ (start / 32) (size / 32) /\ coalesced (blocks fl) /\
    heap_start (h_buddy st) = start /\ heap_size (h_buddy st) = size.
Proof.
  intros H1 H2 H3 H4. destruct (init_heap_inv m start size H1 H2 H3 H4) as (st & E & Hi & Hb1 & Hb2).
  destruct Hi as (_ & _ & fl & HR & _ & _ & Hp & Hc). exists st, fl. simpl in Hp.
  rewrite Hb1, Hb2, app_nil_r in Hp. auto 10.
Qed.

(** The kernel's own heap range ([HEAP_START], [HEAP_SIZE] of heap.rs). *)
Lemma buddy_init_correct_witness :
  exists st fl, buddy_init (mkHeap ∅ buddy_empty) 0xFFFFC00000000000 (96 * 1024 * 1024) = Some st /\ Rep st fl /\
    granules (blocks fl) ≡ₚ seqZ (0xFFFFC00000000000 / 32) (96 * 1024 * 1024 / 32) /\ coalesced (blocks fl) /\
    heap_start (h_buddy st) = 0xFFFFC00000000000 /\ heap_size (h_buddy st) = 96 * 1024 * 1024.
Proof. apply buddy_init_correct; [lia|by exists 0x7FFFE0000000000|lia|by vm_compute]. Defined.

Lemma two_lookups {A} (l : list A) i j x y :
  i <> j -> l !! i = Some x -> l !! j = Some y -> exists rest, l ≡ₚ x :: y :: rest.
Proof.
  intros Hne Hi Hj. assert (y ∈ delete i l) as Hin.
  { apply list_elem_of_lookup. destruct (decide (j < i)%nat).
    - exists j. rewrite list_lookup_delete_lt by lia. done.
    - exists (j - 1)%nat. rewrite list_lookup_delete_ge by lia. by replace (S (j - 1)) with j by lia. }
  apply elem_of_Permutation in Hin as [rest Hr]. exists rest. rewrite <- Hr. by apply delete_Permutation.
Qed.

Lemma live_range_gran w layout p x :
  heap_inv w -> (layout, p) ∈ w_live w -> p <= x < p + request_size layout ->
  x / 32 ∈ gran (live_block (layout, p)).
Proof.
  intros (_ & _ & fl & _ & Hwf & Hsz & _ & _) Hin Hx.
  rewrite Forall_forall in Hwf. rewrite Forall_forall in Hsz. specialize (Hsz _ Hin). simpl in Hsz.
  assert (Hlb : live_block (layout, p) ∈ live_blocks w) by (by apply list_elem_of_fmap_2).
  apply range_gran; [apply (wf_block_32 _ _ _ (Hwf _ Hlb))|simpl; lia].
Qed.

Lemma request_size_bounds l :
  layout_size l <= request_size l /\ layout_align l <= request_size l /\ 32 <= request_size l.
Proof. unfold request_size, MIN_BLOCK_SIZE. lia. Qed.

Lemma live_not_free w fl layout p x :
  heap_inv w -> granules (blocks fl) ++ granules (live_blocks w) ≡ₚ
    seqZ (heap_start (h_buddy (w_heap w)) / 32) (heap_size (h_buddy (w_heap w)) / 32) ->
  (layout, p) ∈ w_live w -> p <= x < p + request_size layout -> x / 32 ∉ granules (blocks fl).
Proof.
  intros Hi Hp Hin Hx Hg. assert (Hnd : NoDup (granules (blocks fl) ++ granules (live_blocks w))) by (rewrite Hp; apply NoDup_seqZ).
  apply NoDup_app in Hnd as (_ & Hd & _). apply (Hd _ Hg), list_elem_of_bind.
  exists (live_block (layout, p)). split; [by apply (live_range_gran w)|by apply list_elem_of_fmap_2].
Qed.

(** C1. In every heap reached by any sequence of allocations, deallocations of
    held blocks and client stores, the blocks held by clients lie inside the
    heap, are large enough and aligned for their layouts, and do not overlap. *)
Theorem buddy_live_blocks_sound (start size : Z) (w : world) :
  heap_reachable start size w ->
  (forall layout p, (layout, p) ∈ w_live w ->
     start <= p /\ p + layout_size layout <= start + size /\
     ((exists k, 0 <= k /\ layout_align layout = 2 ^ k) -> (layout_align layout | p))) /\
  (forall i j l1 p1 l2 p2, i <> j -> w_live w !! i = Some (l1, p1) -> w_live w !! j = Some (l2, p2) ->
     p1 + request_size l1 <= p2 \/ p2 + request_size l2 <= p1).
Proof.
  intros Hr. destruct (heap_reachable_inv _ _ _ Hr) as (Hinv & <- & <-).
  pose proof Hinv as (_ & _ & fl & _ & Hwf & Hsz & Hperm & _).
  rewrite Forall_forall in Hwf. rewrite Forall_forall in Hsz. split.
  - intros layout p Hin. specialize (Hsz _ Hin). simpl in Hsz.
    assert (Hlb : live_block (layout, p) ∈ live_blocks w) by (by apply list_elem_of_fmap_2).
    destruct (Hwf _ Hlb) as (_ & Hal & ? & ?). simpl in *. destruct (request_size_bounds layout) as (? & Hle & _).
    split_and!; [lia..|]. intros (k & Hk & Ek). rewrite Ek in *. eapply Z.divide_trans; [|exact Hal].
    rewrite block_size_pow2 in *. set (n := Z.of_nat _ + 5) in *. exists (2 ^ (n - k)). rewrite <- Z.pow_add_r; [f_equal; lia| |lia].
    destruct (Z.le_gt_cases k n); [lia|]. exfalso. assert (2 ^ n < 2 ^ k) by (apply Z.pow_lt_mono_r; lia). lia.
  - intros i j l1 p1 l2 p2 Hne Hi Hj. destruct (Z.le_gt_cases (p1 + request_size l1) p2) as [|H1]; [auto|].
    destruct (Z.le_gt_cases (p2 + request_size l2) p1) as [|H2]; [auto|]. exfalso.
    destruct (two_lookups _ i j _ _ Hne Hi Hj) as [rest Hp].
    assert (NoDup (granules (live_blocks w))) as Hnd.
    { assert (NoDup (granules (blocks fl) ++ granules (live_blocks w))) as Hn by (rewrite Hperm; apply NoDup_seqZ).
      by apply NoDup_app in Hn as (_ & _ & ?). }
    unfold live_blocks in Hnd. rewrite Hp, !fmap_cons, !granules_cons in Hnd.
    apply NoDup_app in Hnd as (_ & Hd & _). destruct (request_size_bounds l1) as (_ & _ & ?), (request_size_bounds l2) as (_ & _ & ?).
    apply (Hd (Z.max p1 p2 / 32)); [|apply elem_of_app; left];
      (apply (live_range_gran w); [done| |lia]); rewrite Hp, ?elem_of_cons; auto.
Qed.

(** A small heap used by the witnesses: 4 KiB at address 4096, then one and two
    blocks handed out. *)
Definition sample_heap : heap_state :=
  default (mkHeap ∅ buddy_empty) (buddy_init (mkHeap ∅ buddy_empty) 4096 4096).
Definition sample_layout : Layout := mkLayout 40 64.
Definition sample_world1 : world :=
  let r := alloc_inner sample_heap sample_layout in mkWorld r.2 [(sample_layout, r.1)].
Definition sample_world2 : world :=
  let r := alloc_inner (w_heap sample_world1) sample_layout in
  mkWorld r.2 ((sample_layout, r.1) :: w_live sample_world1).

Lemma sample_heap_reachable : heap_reachable 4096 4096 (mkWorld sample_heap []).
Proof.
  exists (mkWorld sample_heap []). split; [|constructor].
  split_and!; [lia|by exists 128|lia|by vm_compute|done|]. exists ∅. vm_compute. reflexivity.
Qed.

Lemma sample_worlds_reachable :
  heap_reachable 4096 4096 sample_world1 /\ heap_reachable 4096 4096 sample_world2.
Proof.
  destruct sample_heap_reachable as (w0 & Hf & Hs).
  assert (H1 : heap_step (mkWorld sample_heap []) sample_world1).
  { unfold sample_world1. apply step_alloc; [apply surjective_pairing|]. intros H. vm_compute in H. discriminate H. }
  assert (H2 : heap_step sample_world1 sample_world2).
  { unfold sample_world2. apply (step_alloc (w_heap sample_world1) (w_live sample_world1)); [apply surjective_pairing|].
    intros H. vm_compute in H. discriminate H. }
  split; exists w0; (split; [done|]).
  - by apply rtc_r with (mkWorld sample_heap []).
  - apply rtc_r with sample_world1; [by apply rtc_r with (mkWorld sample_heap [])|done].
Qed.

Lemma buddy_live_blocks_sound_witness :
  (forall layout p, (layout, p) ∈ w_live sample_world2 ->
     4096 <= p /\ p + layout_size layout <= 4096 + 4096 /\
     ((exists k, 0 <= k /\ layout_align layout = 2 ^ k) -> (layout_align layout | p))) /\
  (forall i j l1 p1 l2 p2, i <> j -> w_live sample_world2 !! i = Some (l1, p1) ->
     w_live sample_world2 !! j = Some (l2, p2) ->
     p1 + request_size l1 <= p2 \/ p2 + request_size l2 <= p1).
Proof. apply buddy_live_blocks_sound. apply sample_worlds_reachable. Defined.

(** Returning a held block always succeeds: the free-list walk and the merge
    loop end, and neither the call nor an allocation changes a byte of any
    block another client holds. *)
Theorem buddy_dealloc_total (start size : Z) (st : heap_state) live1 layout p live2 :
  heap_reachable start size (mkWorld st (live1 ++ (layout, p) :: live2)) ->
  exists st', dealloc_inner st p layout = Some st' /\
    (forall l q x, (l, q) ∈ live1 ++ live2 -> q <= x < q + request_size l ->
       ptr_read (h_mem st') x = ptr_read (h_mem st) x) /\
    forall layout' p' st'', alloc_inner st layout' = (p', st'') ->
      forall l q x, (l, q) ∈ live1 ++ (layout, p) :: live2 -> q <= x < q + request_size l ->
        ptr_read (h_mem st'') x = ptr_read (h_mem st) x.
Proof.
  set (w := mkWorld _ _). intros Hr. destruct (heap_reachable_inv _ _ _ Hr) as (Hinv & _ & _).
  pose proof Hinv as (_ & _ & fl & HR & Hwf & _ & Hperm & _).
  assert (Hnd : NoDup (granules (blocks fl) ++ granules (live_blocks w))) by (rewrite Hperm; apply NoDup_seqZ).
  assert (Hlp : live_blocks w ≡ₚ live_block (layout, p) :: live_blocks (mkWorld st (live1 ++ live2))).
  { unfold live_blocks; simpl. rewrite !fmap_app, fmap_cons. by rewrite Permutation_middle. }
  pose proof Hperm as Hlen. apply Permutation_length in Hlen. rewrite length_app, length_seqZ in Hlen.
  pose proof Hwf as Hwf'. rewrite Hlp in Hwf'. apply Forall_cons in Hwf' as [Hw1 _]. rewrite Hlp, granules_cons in Hnd.
  assert (Hnd' : NoDup (gran (live_block (layout, p)) ++ granules (blocks fl))).
  { rewrite (assoc_L (++)) in Hnd. apply NoDup_app in Hnd as (Hnd & _). by rewrite Permutation_app_comm. }
  destruct (dealloc_inner_Rep st fl p layout HR Hw1 Hnd') as (st' & fl' & E & _ & _ & _ & _ & _ & Hframe).
  { unfold MIN_BLOCK_SIZE, w in *. simpl in *. lia. }
  exists st'. split_and!; [done| |].
  - intros l q x Hin Hx. apply Hframe. intros Hg. rewrite Permutation_app_comm in Hg. rewrite (assoc_L (++)) in Hnd.
    apply NoDup_app in Hnd as (_ & Hd & _). apply (Hd _ Hg). apply list_elem_of_bind. exists (live_block (l, q)).
    split; [apply (live_range_gran w); [done| |done]|by apply list_elem_of_fmap_2].
    simpl. rewrite elem_of_app, elem_of_cons. apply elem_of_app in Hin as [|]; auto.
  - intros layout' p' st'' Ha l q x Hin Hx.
    destruct (alloc_inner_Rep st fl layout' p' st'' HR Ha) as [(_ & -> & _)|(_ & _ & _ & fl2 & _ & _ & _ & _ & _ & Hf)]; [done|].
    apply Hf. by apply (live_not_free w fl l q).
Qed.

Lemma buddy_dealloc_total_witness :
  exists st', dealloc_inner (w_heap sample_world2) 4096 sample_layout = Some st' /\
    (forall l q x, (l, q) ∈ [(sample_layout, 4160)] ++ [] -> q <= x < q + request_size l ->
       ptr_read (h_mem st') x = ptr_read (h_mem (w_heap sample_world2)) x) /\
    forall layout' p' st'', alloc_inner (w_heap sample_world2) layout' = (p', st'') ->
      forall l q x, (l, q) ∈ [(sample_layout, 4160)] ++ [(sample_layout, 4096)] -> q <= x < q + request_size l ->
        ptr_read (h_mem st'') x = ptr_read (h_mem (w_heap sample_world2)) x.
Proof. apply (buddy_dealloc_total 4096 4096). apply sample_worlds_reachable. Defined.

(** C27. No fragmentation survives: once every client has returned its blocks,
    whatever the history, a request is served whenever the heap range holds an
    aligned block of its order. *)
Theorem buddy_idle_heap_serves (start size : Z) (w : world) (layout : Layout) (a : Z) :
  heap_reachable start size w -> w_live w = [] ->
  request_size layout <= block_size MAX_ORDER ->
  (block_size (order_for (request_size layout)) | a) -> start <= a ->
  a + block_size (order_for (request_size layout)) <= start + size ->
  (alloc_inner (w_heap w) layout).1 <> 0.
Proof.
  intros Hr Hl Hsz Hal Hlo Hhi. destruct (heap_reachable_inv _ _ _ Hr) as (Hinv & <- & <-).
  destruct Hinv as (_ & H32 & fl & HR & _ & _ & Hperm & Hco).
  unfold live_blocks in Hperm. rewrite Hl in Hperm. simpl in Hperm. rewrite app_nil_r in Hperm.
  destruct (order_for_spec (request_size layout)) as (Hord & _ & Hfit).
  destruct (coalesced_covers _ _ _ H32 (rep_wf _ _ HR) Hco Hperm _ a Hord Hal Hlo Hhi) as (o' & a' & Hin & Ho & _).
  destruct (alloc_inner (w_heap w) layout) as [p st'] eqn:Ha. simpl. intros ->.
  destruct (alloc_inner_Rep _ _ _ _ _ HR Ha) as [(_ & _ & Hnone)|(? & _)]; [|done].
  destruct Hnone as [Hbig|Hnone]; [destruct Hfit as [|Hfit]; [|rewrite Hfit in *]; lia|].
  assert (Hwf := rep_wf _ _ HR). rewrite Forall_forall in Hwf. destruct (Hwf _ Hin) as (Hmax & _). simpl in Hmax.
  destruct (rep_lookup _ _ o' HR Hmax) as [l' Hl']. apply (elem_of_blocks _ _ _ _ Hl') in Hin.
  rewrite (Hnone _ _ Ho Hl') in Hin. by apply not_elem_of_nil in Hin.
Qed.

Lemma buddy_idle_heap_serves_witness :
  (alloc_inner (w_heap (mkWorld sample_heap [])) (mkLayout 3000 4096)).1 <> 0.
Proof.
  apply (buddy_idle_heap_serves 4096 4096 _ _ 4096); [apply sample_heap_reachable|done|by vm_compute| |lia|by vm_compute].
  by exists 1.
Defined.
