(* ===== verification/Frames.v ===== *)
(** Physical frames and boot-time memory set-up: the boot allocator
    ([memory/frame_allocator.rs]), the free-list allocator
    ([memory/free_list.rs]), the mapping of the kernel heap ([memory/heap.rs])
    and [memory::init], which runs them in order.

    A frame is its start address.  The free list is threaded through the frames
    it holds, so its state is the allocator record together with the byte
    memory seen through the physical-memory window. *)

From S2P Require Import Prelude Bytes X86 Buddy.

(** [bootloader_api::info::MemoryRegion]; the code only asks whether the kind
    is [Usable]. *)
Record MemoryRegion := mkRegion { region_start : Z; region_end : Z; region_usable : bool }.

(* memory/frame_allocator.rs:16-21 BootFrameAllocator *)
Record BootFrameAllocator := mkBoot {
  regions : list MemoryRegion;
  region_idx : nat;
  cursor : option Z;
  frames_consumed : Z
}.

(* memory/free_list.rs:7-11 FreeListAllocator *)
Record FreeListAllocator := mkFreeList {
  head : option Z;
  free_count : Z;
  phys_offset : Z
}.
(* memory/free_list.rs:15-21 empty *)
Definition fl_empty : FreeListAllocator := mkFreeList None 0 0.

(** The allocator and the memory its links live in. *)
Record frame_pool := mkPool { p_mem : memory; p_fl : FreeListAllocator }.

(* memory/heap.rs:9-10 HEAP_START *)
Definition HEAP_START : Z := 0xFFFFC00000000000.
Definition HEAP_SIZE : Z := 96 * 1024 * 1024.

Definition PRESENT : Z := 1.
Definition WRITABLE : Z := 2.

(** The trait [FrameAlloc], with the panics of its implementations explicit. *)
(* memory/frame_allocator.rs:7-11 FrameAlloc *)
Class FrameAlloc (A : Type) := {
  allocate : A -> option (option Z * A);
  deallocate : A -> Z -> option A
}.

Section operations.
Context `{X86Addr}.

(* memory/frame_allocator.rs:38-57 seek_to_first_usable_frame *)
Fixpoint seek_loop (fuel : nat) (a : BootFrameAllocator) : option BootFrameAllocator :=
  match regions a !! region_idx a with
  | None => Some (mkBoot (regions a) (region_idx a) None (frames_consumed a))
  | Some region =>
      match fuel with
      | O => None
      | S fuel =>
          let next := seek_loop fuel (mkBoot (regions a) (S (region_idx a)) None (frames_consumed a)) in
          if region_usable region then
            s ← PhysAddr_new (region_start region);
            last ← usub 64 (region_end region) 1;
            e ← PhysAddr_new last;
            let candidate := default (containing_address s) (cursor a) in
            if candidate <=? containing_address e
            then Some (mkBoot (regions a) (region_idx a) (Some candidate) (frames_consumed a))
            else next
          else next
      end
  end.

(** Every iteration but the last moves to the next region. *)
Definition seek_to_first_usable_frame (a : BootFrameAllocator) : option BootFrameAllocator :=
  seek_loop (length (regions a)) a.

(* memory/frame_allocator.rs:27-36 new *)
Definition boot_new (rs : list MemoryRegion) : option BootFrameAllocator :=
  seek_to_first_usable_frame (mkBoot rs 0 None 0).

(* memory/frame_allocator.rs:66-74 allocate *)
Definition boot_allocate (a : BootFrameAllocator) : option (option Z * BootFrameAllocator) :=
  match cursor a with
  | None => Some (None, a)
  | Some frame =>
      next ← PhysAddr_add frame 4096;
      consumed ← uadd 64 (frames_consumed a) 1;
      a' ← seek_to_first_usable_frame (mkBoot (regions a) (region_idx a) (Some next) consumed);
      Some (Some frame, a')
  end.

(* memory/frame_allocator.rs:76-78 deallocate *)
Definition boot_deallocate (a : BootFrameAllocator) (frame : Z) : option BootFrameAllocator := Some a.

(* memory/frame_allocator.rs:65-86 FrameAlloc *)
#[export] Instance boot_frame_alloc : FrameAlloc BootFrameAllocator :=
  {| allocate := boot_allocate; deallocate := boot_deallocate |}.

(* memory/free_list.rs:51-53 frame_to_virt *)
Definition frame_to_virt (a : FreeListAllocator) (frame : Z) : option Z := uadd 64 (phys_offset a) frame.

(* memory/free_list.rs:58-70 allocate *)
Definition fl_allocate (p : frame_pool) : option (option Z * frame_pool) :=
  match head (p_fl p) with
  | None => Some (None, p)
  | Some head_phys =>
      head_virt ← uadd 64 (phys_offset (p_fl p)) head_phys;
      let next_phys := read_u64 (p_mem p) head_virt in
      head' ← (if next_phys =? 0 then Some None else n ← PhysAddr_new next_phys; Some (Some n));
      count ← usub 64 (free_count (p_fl p)) 1;
      Some (Some (containing_address head_phys),
            mkPool (p_mem p) (mkFreeList head' count (phys_offset (p_fl p))))
  end.

(* memory/free_list.rs:72-80 deallocate *)
Definition fl_deallocate (p : frame_pool) (frame : Z) : option frame_pool :=
  virt ← frame_to_virt (p_fl p) frame;
  let old_head := default 0 (head (p_fl p)) in
  count ← uadd 64 (free_count (p_fl p)) 1;
  Some (mkPool (write_u64 (p_mem p) virt old_head) (mkFreeList (Some frame) count (phys_offset (p_fl p)))).

(* memory/free_list.rs:57-88 FrameAlloc *)
#[export] Instance free_list_alloc : FrameAlloc frame_pool :=
  {| allocate := fl_allocate; deallocate := fl_deallocate |}.

(* memory/free_list.rs:35-43 init *)
Fixpoint fl_region_loop (fuel : nat) (p : frame_pool) (addr end_ skip : Z) : option (frame_pool * Z) :=
  match fuel with
  | O => None
  | S fuel =>
      next ← PhysAddr_add addr 4096;
      if next <=? end_ then
        '(p, skip) ← (if 0 <? skip then Some (p, skip - 1)
                      else p ← fl_deallocate p (containing_address addr); Some (p, skip));
        fl_region_loop fuel p next end_ skip
      else Some (p, skip)
  end.

(* memory/free_list.rs:26-45 init *)
Fixpoint fl_regions_loop (p : frame_pool) (rs : list MemoryRegion) (skip : Z) : option frame_pool :=
  match rs with
  | [] => Some p
  | region :: rs =>
      if region_usable region then
        start ← PhysAddr_new (region_start region);
        end_ ← PhysAddr_new (region_end region);
        '(p, skip) ← fl_region_loop (S (Z.to_nat ((end_ - start) / 4096))) p start end_ skip;
        fl_regions_loop p rs skip
      else fl_regions_loop p rs skip
  end.

(* memory/free_list.rs:24-45 init *)
Definition fl_init (p : frame_pool) (rs : list MemoryRegion) (offset skip : Z) : option frame_pool :=
  fl_regions_loop (mkPool (p_mem p) (mkFreeList (head (p_fl p)) (free_count (p_fl p)) offset)) rs skip.

Context {T : Type} `{PageTables T}.

(* arch/paging.rs:48-52 map_page *)
Definition map_page {A} `{FrameAlloc A} (t : T) (page frame flags : Z) (a : A) : option (T * A) :=
  match map_to allocate t page frame flags a with
  | Some (Ok t', a') => Some (t', a')
  | _ => None
  end.

(* memory/heap.rs:21-26 init *)
Fixpoint heap_map_loop {A} `{FrameAlloc A} (pages : list Z) (t : T) (a : A) : option (T * A) :=
  match pages with
  | [] => Some (t, a)
  | page :: pages =>
      '(frame, a) ← allocate a;
      frame ← frame;
      '(t, a) ← map_page t page frame (Z.lor PRESENT WRITABLE) a;
      heap_map_loop pages t a
  end.

(** [Page::range_inclusive(start_page, end_page)]. *)
Definition heap_pages : list Z :=
  let start_page := containing_address HEAP_START in
  let end_page := containing_address (HEAP_START + HEAP_SIZE - 1) in
  (fun i => start_page + 4096 * i) <$> seqZ 0 ((end_page - start_page) / 4096 + 1).

(* memory/heap.rs:16-31 init *)
Definition heap_init {A} `{FrameAlloc A} (t : T) (a : A) (heap : heap_state) : option (T * A * heap_state) :=
  '(t, a) ← heap_map_loop heap_pages t a;
  heap ← buddy_init heap HEAP_START HEAP_SIZE;
  Some (t, a, heap).

(** The kernel after [memory::init]: the active page table, the heap and the
    frame pool. *)
(* memory/mod.rs:21-36 init *)
Definition memory_init (rs : list MemoryRegion) (offset : Z) (t : T) (mem : memory) (heap : heap_state)
    : option (T * heap_state * frame_pool) :=
  boot_alloc ← boot_new rs;
  '(t, boot_alloc, heap) ← heap_init t boot_alloc heap;
  let skip := frames_consumed boot_alloc in
  pool ← fl_init (mkPool mem fl_empty) rs offset skip;
  Some (t, heap, pool).

End operations.

(** ** Specification: the usable frames of the memory map, in order *)

Definition frames_between (lo hi : Z) : list Z := (fun i => i * 4096) <$> seqZ (lo / 4096) ((hi - lo) / 4096).

Definition region_frames (r : MemoryRegion) : list Z :=
  if region_usable r then frames_between (region_start r) (region_end r) else [].

Definition usable_frames (rs : list MemoryRegion) : list Z := rs ≫= region_frames.

(** What the code assumes of the memory map: usable regions are page aligned
    and below the architectural limit. *)
Definition good_region (r : MemoryRegion) : Prop :=
  region_usable r = true ->
  0 <= region_start r <= region_end r /\ 0 < region_end r /\ region_end r < 2 ^ 52 - 4096 /\
  (4096 | region_start r) /\ (4096 | region_end r).

Lemma frames_between_nil lo hi : hi <= lo -> (4096 | lo) -> (4096 | hi) -> frames_between lo hi = [].
Proof.
  intros Hle [a ->] [b ->]. unfold frames_between. rewrite <- Z.mul_sub_distr_r, !Z.div_mul by lia.
  rewrite seqZ_nil by lia. done.
Qed.

Lemma frames_between_cons lo hi :
  lo < hi -> (4096 | lo) -> (4096 | hi) -> frames_between lo hi = lo :: frames_between (lo + 4096) hi.
Proof.
  intros Hlt [a ->] [b ->]. unfold frames_between.
  replace (a * 4096 + 4096) with ((a + 1) * 4096) by lia.
  rewrite <- !Z.mul_sub_distr_r, !Z.div_mul by lia. rewrite seqZ_cons by lia. simpl. f_equal. do 2 f_equal; lia.
Qed.

Lemma elem_of_frames_between lo hi f :
  (4096 | lo) -> (4096 | hi) -> f ∈ frames_between lo hi <-> (4096 | f) /\ lo <= f < hi.
Proof.
  intros [a ->] [b ->]. unfold frames_between. rewrite <- Z.mul_sub_distr_r, !Z.div_mul by lia.
  rewrite list_elem_of_fmap. setoid_rewrite elem_of_seqZ. split.
  - intros (i & -> & Hi). split; [by exists i|lia].
  - intros [[i ->] Hi]. exists i. lia.
Qed.

Lemma length_frames_between lo hi : length (frames_between lo hi) = Z.to_nat ((hi - lo) / 4096).
Proof. unfold frames_between. by rewrite length_fmap, length_seqZ. Qed.

Lemma usable_frames_cons r rs : usable_frames (r :: rs) = region_frames r ++ usable_frames rs.
Proof. done. Qed.

Lemma usable_frame_bounds rs f :
  Forall good_region rs -> f ∈ usable_frames rs -> (4096 | f) /\ 0 <= f < 2 ^ 52 - 4096.
Proof.
  intros Hrs Hf. apply list_elem_of_bind in Hf as (r & Hf & Hr). rewrite Forall_forall in Hrs.
  specialize (Hrs _ Hr). unfold region_frames in Hf. destruct (region_usable r) eqn:Hu; [|by apply not_elem_of_nil in Hf].
  destruct (Hrs Hu) as (? & ? & ? & ? & ?). apply elem_of_frames_between in Hf as [? ?]; [|done..]. split; [done|lia].
Qed.

Section lemmas.
Context `{X86Addr}.

Lemma containing_aligned a : (4096 | a) -> containing_address a = a.
Proof. intros [k ->]. rewrite containing_address_spec, Z.div_mul by lia. done. Qed.

(** ** The boot allocator enumerates the usable frames *)

(** Frames not yet handed out, for a state between [seek]s. *)
Definition pending (a : BootFrameAllocator) : list Z :=
  match regions a !! region_idx a with
  | None => []
  | Some r =>
      (if region_usable r then frames_between (default (region_start r) (cursor a)) (region_end r) else []) ++
      usable_frames (drop (S (region_idx a)) (regions a))
  end.

Definition boot_ok (a : BootFrameAllocator) : Prop :=
  Forall good_region (regions a) /\
  forall c r, cursor a = Some c -> regions a !! region_idx a = Some r -> (4096 | c) /\ 0 <= c < 2 ^ 52.

(** After a seek the cursor is the next frame, or there is none. *)
Definition boot_ready (a : BootFrameAllocator) : Prop :=
  boot_ok a /\ cursor a = list.head (pending a) /\
  frames_consumed a + Z.of_nat (length (pending a)) < 2 ^ 64 /\ 0 <= frames_consumed a /\
  (forall c, cursor a = Some c ->
     exists r, regions a !! region_idx a = Some r /\ region_usable r = true /\ c < region_end r).

Lemma pending_next rs i c n :
  (forall r, rs !! i = Some r -> region_usable r = true ->
     frames_between (default (region_start r) c) (region_end r) = []) ->
  (i < length rs)%nat -> pending (mkBoot rs (S i) None n) = pending (mkBoot rs i c n).
Proof.
  intros Hnil Hi. unfold pending. simpl. destruct (lookup_lt_is_Some_2 rs i Hi) as [r Hr]. rewrite Hr.
  replace (if region_usable r then _ else _) with (@nil Z)
    by (destruct (region_usable r) eqn:Hu; [by rewrite Hnil|done]). simpl.
  destruct (rs !! S i) as [r'|] eqn:Hr'.
  - by rewrite (drop_S rs r' (S i) Hr').
  - apply lookup_ge_None in Hr'. by rewrite drop_ge.
Qed.

Lemma seek_loop_spec fuel a :
  boot_ok a -> (length (regions a) - region_idx a <= fuel)%nat ->
  0 <= frames_consumed a -> frames_consumed a + Z.of_nat (length (pending a)) < 2 ^ 64 ->
  exists a', seek_loop fuel a = Some a' /\ boot_ready a' /\ pending a' = pending a /\
    regions a' = regions a /\ frames_consumed a' = frames_consumed a.
Proof.
  revert a. induction fuel as [|fuel IH]; intros [rs i c n] [Hrs Hc] Hfuel Hn Hn2; simpl in *;
    destruct (rs !! i) as [r|] eqn:Hr.
  - apply lookup_lt_Some in Hr. lia.
  - eexists. split_and!; [done| | |done..]; unfold boot_ready, boot_ok, pending in *; simpl in *; rewrite ?Hr in *; simpl in *; auto.
    split_and!; auto; done.
  - assert (Hi : (i < length rs)%nat) by (by apply lookup_lt_Some in Hr).
    assert (Hgr : good_region r) by (rewrite Forall_forall in Hrs; apply Hrs; by eapply list_elem_of_lookup_2).
    assert (Hnext : forall c, (region_usable r = true -> frames_between (default (region_start r) c) (region_end r) = []) ->
       pending (mkBoot rs (S i) None n) = pending (mkBoot rs i c n)).
    { intros c' Hnil. apply pending_next; [|done]. intros r' Hr'. by simplify_eq. }
    destruct (region_usable r) eqn:Hu.
    + destruct (Hgr Hu) as (? & ? & ? & Hs & He).
      rewrite PhysAddr_new_ok by lia. cbn [mbind option_bind]. unfold usub. rewrite uchk_fits by (unfold fits; lia).
      cbn [mbind option_bind]. rewrite PhysAddr_new_ok by lia. cbn [mbind option_bind]. rewrite (containing_aligned _ Hs).
      set (cand := default _ c).
      assert (Hcand : (4096 | cand) /\ 0 <= cand < 2 ^ 52).
      { unfold cand. destruct c as [c|]; simpl; [by apply (Hc c r)|split; [done|lia]]. }
      assert (Hlast : containing_address (region_end r - 1) = region_end r - 4096).
      { rewrite containing_address_spec. destruct He as [k ->].
        replace (k * 4096 - 1) with (4095 + (k - 1) * 4096) by lia. rewrite Z.div_add by lia. change (4095 / 4096) with 0. lia. }
      rewrite Hlast. destruct (Z.leb_spec cand (region_end r - 4096)).
      * eexists. split_and!; [done| |..]; unfold boot_ready, boot_ok, pending in *; simpl in *; rewrite ?Hr, ?Hu in *; simpl in *; auto.
        fold cand in Hn2. split_and!; auto.
        -- intros c' r' [= <-] _. done.
        -- rewrite frames_between_cons; [done|lia|tauto|done].
        -- intros c' [= <-]. exists r. split_and!; [done..|lia].
      * assert (Hnil : frames_between cand (region_end r) = []).
        { apply frames_between_nil; [|tauto|done]. destruct Hcand as [[x Hx] _], He as [y Hy]. clearbody cand. lia. }
        destruct (IH (mkBoot rs (S i) None n)) as (a' & Ha & Hrdy & Hp & Hre & Hcons); simpl.
        -- split; [done|]. done.
        -- lia.
        -- lia.
        -- rewrite (Hnext c) by done. done.
        -- exists a'. rewrite <- (Hnext c) by done. auto.
    + destruct (IH (mkBoot rs (S i) None n)) as (a' & Ha & Hrdy & Hp & Hre & Hcons); simpl.
      * split; done.
      * lia.
      * lia.
      * rewrite (Hnext c) by done. done.
      * exists a'. rewrite <- (Hnext c) by done. auto.
  - eexists. split_and!; [done| | |done..]; unfold boot_ready, boot_ok, pending in *; simpl in *; rewrite ?Hr in *; simpl in *; auto.
    split_and!; auto; done.
Qed.

Lemma boot_new_spec rs :
  Forall good_region rs -> Z.of_nat (length (usable_frames rs)) < 2 ^ 64 ->
  exists a, boot_new rs = Some a /\ boot_ready a /\ pending a = usable_frames rs /\
    regions a = rs /\ frames_consumed a = 0.
Proof.
  intros Hrs Hlen. assert (E : pending (mkBoot rs 0 None 0) = usable_frames rs) by (by destruct rs as [|r rs]).
  destruct (seek_loop_spec (length rs) (mkBoot rs 0 None 0)) as (a & Ha & Hr & Hp & Hre & Hc).
  - by split.
  - simpl. lia.
  - simpl. lia.
  - rewrite E. simpl. lia.
  - exists a. rewrite Hp. auto.
Qed.

Lemma boot_allocate_spec a :
  boot_ready a ->
  match pending a with
  | [] => boot_allocate a = Some (None, a)
  | f :: fs => exists a', boot_allocate a = Some (Some f, a') /\ boot_ready a' /\ pending a' = fs /\
                 frames_consumed a' = frames_consumed a + 1
  end.
Proof.
  intros ([Hrs Hok] & Hcur & Hlen & Hn & Hreg). unfold boot_allocate. destruct (pending a) as [|f fs] eqn:Hp; simpl in Hcur.
  { by rewrite Hcur. }
  rewrite Hcur. destruct (Hreg f Hcur) as (r & Hr & Hu & Hlt). destruct (Hok f r Hcur Hr) as [Hal Hb].
  assert (Hgr : good_region r) by (rewrite Forall_forall in Hrs; apply Hrs; by eapply list_elem_of_lookup_2).
  destruct (Hgr Hu) as (? & ? & ? & Hs & He).
  rewrite PhysAddr_add_ok by lia. cbn [mbind option_bind]. simpl in Hlen.
  unfold uadd. rewrite uchk_fits by (unfold fits; lia). cbn [mbind option_bind].
  set (a1 := mkBoot _ _ _ _).
  assert (Hp1 : pending a1 = fs).
  { unfold pending in *. simpl. rewrite Hr, Hu in *. rewrite Hcur in Hp. simpl in *.
    rewrite frames_between_cons in Hp by done. by injection Hp. }
  destruct (seek_loop_spec (length (regions a)) a1) as (a' & Ha & Hrd & Hp' & Hre & Hc).
  - split; [done|]. intros c r' [= <-] _. split; [by apply Z.divide_add_r; [|exists 1]|lia].
  - simpl. lia.
  - simpl. lia.
  - rewrite Hp1. simpl. lia.
  - unfold seek_to_first_usable_frame. simpl. rewrite Ha. simpl. exists a'. rewrite Hp'. auto.
Qed.

(** ** The free list *)

Definition next_word (l : list Z) : Z := match l with [] => 0 | f :: _ => f end.

Fixpoint links (off : Z) (m : memory) (l : list Z) : Prop :=
  match l with
  | [] => True
  | f :: l => read_u64 m (off + f) = next_word l /\ links off m l
  end.

(** A frame that can be on the list: its link is inside the address space. *)
Definition linkable (off f : Z) : Prop := (4096 | f) /\ 0 < f < 2 ^ 52 /\ off + f < 2 ^ 64.

(** [free_list p l]: the list threaded through memory from the head is [l].
    Frame 0 cannot be on it: a link of 0 is the end of the list. *)
Record free_list (p : frame_pool) (l : list Z) : Prop := mkFreeListRep {
  flr_head : head (p_fl p) = list.head l;
  flr_links : links (phys_offset (p_fl p)) (p_mem p) l;
  flr_count : free_count (p_fl p) = Z.of_nat (length l);
  flr_frames : Forall (linkable (phys_offset (p_fl p))) l;
  flr_off : 0 <= phys_offset (p_fl p);
  flr_nodup : NoDup l
}.

Lemma links_frame off m m' l :
  (forall f, f ∈ l -> read_u64 m' (off + f) = read_u64 m (off + f)) -> links off m l -> links off m' l.
Proof.
  induction l as [|f l IH]; intros Hf Hl; simpl in *; [done|]. destruct Hl as [Hh Ht].
  split; [rewrite Hf by constructor; done|]. apply IH; [|done]. intros g Hg. apply Hf. by constructor.
Qed.

Lemma fl_allocate_spec p l :
  free_list p l ->
  match l with
  | [] => fl_allocate p = Some (None, p)
  | f :: l' => exists p', fl_allocate p = Some (Some f, p') /\ free_list p' l' /\ p_mem p' = p_mem p /\
      phys_offset (p_fl p') = phys_offset (p_fl p)
  end.
Proof.
  intros [Hh Hl Hc Hf Ho Hnd]. unfold fl_allocate. destruct l as [|f l]; simpl in *; rewrite Hh; [done|].
  apply Forall_cons in Hf as [(Hal & Hfb & Hfo) Hf]. destruct Hl as [Hlink Hl]. apply NoDup_cons in Hnd as [_ Hnd].
  unfold uadd, usub. rewrite (uchk_fits 64 (phys_offset _ + f)) by (unfold fits; lia). cbn [mbind option_bind]. rewrite Hlink.
  assert (Hlen : Z.of_nat (length l) < 2 ^ 64).
  { apply Z.le_lt_trans with (2 ^ 52); [|lia].
    assert (Hsub : (length l <= length (seqZ 0 (2 ^ 52)))%nat).
    { apply submseteq_length, NoDup_submseteq; [done|]. intros g Hg. apply elem_of_seqZ.
      rewrite Forall_forall in Hf. destruct (Hf _ Hg) as (_ & ? & _). lia. }
    rewrite length_seqZ in Hsub. lia. }
  assert (E : (if next_word l =? 0 then Some None else n ← PhysAddr_new (next_word l); Some (Some n)) = Some (list.head l)).
  { destruct l as [|g l]; [done|]. simpl. apply Forall_cons in Hf as [(_ & Hg & _) _].
    rewrite (proj2 (Z.eqb_neq _ _)) by lia. rewrite PhysAddr_new_ok by lia. done. }
  rewrite E. cbn [mbind option_bind]. rewrite Hc, uchk_fits by (unfold fits; lia). cbn [mbind option_bind].
  rewrite (containing_aligned _ Hal). eexists. split_and!; [done| |done|done]. split; simpl; try done. lia.
Qed.

Lemma fl_deallocate_spec p l f :
  free_list p l -> linkable (phys_offset (p_fl p)) f -> f ∉ l -> Z.of_nat (length l) + 1 < 2 ^ 64 ->
  exists p', fl_deallocate p f = Some p' /\ free_list p' (f :: l) /\
    phys_offset (p_fl p') = phys_offset (p_fl p) /\
    same_outside (phys_offset (p_fl p) + f) 8 (p_mem p) (p_mem p').
Proof.
  intros [Hh Hl Hc Hf Ho Hnd] Hlk Hnin Hlen. pose proof Hlk as (Hal & Hfb & Hfo). unfold fl_deallocate, frame_to_virt, uadd.
  rewrite uchk_fits by (unfold fits; lia). cbn [mbind option_bind]. rewrite Hc, uchk_fits by (unfold fits; lia).
  cbn [mbind option_bind]. eexists. split_and!; [done| |done|apply write_u64_outside].
  assert (Hw : default 0 (head (p_fl p)) = next_word l) by (rewrite Hh; by destruct l).
  split; simpl; [done| |lia| | |by constructor].
  - rewrite Hw. split.
    + apply read_write_u64. destruct l as [|g l]; simpl; unfold fits; [lia|]. apply Forall_cons in Hf as [(_ & ? & _) _]. lia.
    + apply links_frame with (p_mem p); [|done]. intros g Hg. apply read_u64_write_other.
      rewrite Forall_forall in Hf. destruct (Hf _ Hg) as [[x Hx] _], Hal as [y Hy].
      assert (f <> g) by congruence. lia.
  - by constructor.
  - done.
Qed.

Lemma frames_between_aligned lo hi f : (4096 | lo) -> (4096 | hi) -> f ∈ frames_between lo hi -> (4096 | f).
Proof. intros Hl Hh Hf. apply elem_of_frames_between in Hf; tauto. Qed.

Lemma fl_region_loop_spec fuel p l addr end_ skip :
  free_list p l -> (4096 | addr) -> (4096 | end_) -> 0 <= addr -> end_ < 2 ^ 52 - 4096 ->
  phys_offset (p_fl p) + end_ <= 2 ^ 64 ->
  addr <= end_ -> 0 <= skip -> ((end_ - addr) / 4096 < Z.of_nat fuel) ->
  NoDup (frames_between addr end_ ++ l) -> 0 ∉ frames_between addr end_ ->
  Z.of_nat (length l + length (frames_between addr end_)) < 2 ^ 64 ->
  exists p', fl_region_loop fuel p addr end_ skip =
      Some (p', Z.max 0 (skip - Z.of_nat (length (frames_between addr end_)))) /\
    free_list p' (reverse (drop (Z.to_nat skip) (frames_between addr end_)) ++ l) /\
    phys_offset (p_fl p') = phys_offset (p_fl p).
Proof.
  revert p l addr skip. induction fuel as [|fuel IH]; intros p l addr skip HR Ha He H0 Hend Hoe Hle Hsk Hfuel Hnd Hz Hlen.
  { assert (0 <= (end_ - addr) / 4096) by (apply Z.div_pos; lia). lia. }
  cbn [fl_region_loop]. rewrite PhysAddr_add_ok by lia. cbn [mbind option_bind].
  destruct (Z.leb_spec (addr + 4096) end_) as [Hmore|Hdone].
  2:{ assert (addr = end_) as -> by (destruct Ha as [x ->], He as [y ->]; lia).
      rewrite frames_between_nil by (done || lia). exists p. rewrite drop_nil. simpl. split_and!; [|done..]. do 2 f_equal. lia. }
  rewrite frames_between_cons in * by (done || lia). simpl in Hnd, Hlen. apply NoDup_cons in Hnd as [Hnin Hnd].
  rewrite not_elem_of_cons in Hz. destruct Hz as [Hz1 Hz2]. rewrite not_elem_of_app in Hnin. destruct Hnin as [Hn1 Hn2].
  assert (Ha' : (4096 | addr + 4096)) by (apply Z.divide_add_r; [done|by exists 1]).
  assert (Hf' : (end_ - (addr + 4096)) / 4096 < Z.of_nat fuel).
  { replace (end_ - (addr + 4096)) with (end_ - addr + (-1) * 4096) by lia. rewrite Z.div_add by lia. lia. }
  destruct (Z.ltb_spec 0 skip) as [Hs|Hs].
  - cbn [mbind option_bind]. destruct (IH p l (addr + 4096) (skip - 1)) as (p' & E & HR' & Ho); try done; try lia.
    exists p'. rewrite E. split_and!; [do 2 f_equal; simpl length; lia| |done].
    replace (Z.to_nat skip) with (S (Z.to_nat (skip - 1))) by lia. done.
  - assert (skip = 0) as -> by lia. cbn [mbind option_bind]. rewrite (containing_aligned _ Ha).
    destruct (fl_deallocate_spec p l addr) as (p1 & E1 & HR1 & Ho1 & _); [done|split_and!; [done|lia|lia|lia]|done|lia|].
    rewrite E1. cbn [mbind option_bind].
    destruct (IH p1 (addr :: l) (addr + 4096) 0) as (p' & E & HR' & Ho); try done; try lia; [|simpl; lia|].
    { rewrite <- Permutation_middle. constructor; [|done]. rewrite not_elem_of_app. done. }
    exists p'. rewrite E. split_and!; [do 2 f_equal; simpl length; lia| |congruence].
    simpl in *. rewrite drop_0 in *. rewrite reverse_cons, <- (assoc_L (++)). done.
Qed.

Lemma fl_regions_loop_spec p l rs skip :
  free_list p l -> Forall good_region rs -> Forall (fun r => phys_offset (p_fl p) + region_end r <= 2 ^ 64) rs -> 0 <= skip ->
  NoDup (usable_frames rs ++ l) -> 0 ∉ usable_frames rs ->
  Z.of_nat (length l + length (usable_frames rs)) < 2 ^ 64 ->
  exists p', fl_regions_loop p rs skip = Some p' /\
    free_list p' (reverse (drop (Z.to_nat skip) (usable_frames rs)) ++ l) /\
    phys_offset (p_fl p') = phys_offset (p_fl p).
Proof.
  revert p l skip. induction rs as [|r rs IH]; intros p l skip HR Hrs Hro Hsk Hnd Hz Hlen.
  { exists p. unfold usable_frames; simpl. by rewrite drop_nil. }
  apply Forall_cons in Hrs as [Hr Hrs]. apply Forall_cons in Hro as [Hro1 Hro]. rewrite usable_frames_cons in *. cbn [fl_regions_loop]. unfold region_frames in *.
  destruct (region_usable r) eqn:Hu; [|by apply IH].
  destruct (Hr Hu) as (? & ? & ? & Hs & He). rewrite (PhysAddr_new_ok (region_start r)) by lia. cbn [mbind option_bind].
  rewrite PhysAddr_new_ok by lia. cbn [mbind option_bind]. rewrite length_app in Hlen. rewrite not_elem_of_app in Hz. destruct Hz as [Hz1 Hz2].
  set (fs := frames_between _ _) in *.
  rewrite <- (assoc_L (++)) in Hnd.
  assert (Hnd1 : NoDup (fs ++ l)).
  { apply NoDup_app in Hnd as (Hn1 & Hd & Hn2). apply NoDup_app in Hn2 as (_ & _ & Hn3). apply NoDup_app. split_and!; [done| |done].
    intros x Hx Hxl. apply (Hd x Hx). apply elem_of_app. by right. }
  destruct (fl_region_loop_spec (S (Z.to_nat ((region_end r - region_start r) / 4096))) p l (region_start r) (region_end r) skip)
    as (p1 & E & HR1 & Ho1); try done; try lia.
  { fold fs. lia. }
  fold fs in E, HR1. rewrite E. cbn [mbind option_bind].
  assert (Hperm : usable_frames rs ++ reverse (drop (Z.to_nat skip) fs) ++ l ⊆+ fs ++ usable_frames rs ++ l).
  { rewrite reverse_Permutation. rewrite (Permutation_app_swap_app (usable_frames rs)). apply submseteq_app; [|done].
    apply sublist_submseteq, sublist_drop. }
  destruct (IH p1 (reverse (drop (Z.to_nat skip) fs) ++ l) (Z.max 0 (skip - Z.of_nat (length fs)))) as (p' & E' & HR' & Ho'); try done; try lia.
  { by rewrite Ho1. }
  { eapply NoDup_submseteq_l; done. }
  { apply submseteq_length in Hperm. rewrite !length_app in *. lia. }
  exists p'. split_and!; [done| |congruence]. rewrite drop_app. rewrite reverse_app, <- (assoc_L (++)).
  replace (Z.to_nat (Z.max 0 (skip - Z.of_nat (length fs)))) with (Z.to_nat skip - length fs)%nat in HR' by lia. done.
Qed.

End lemmas.

(** ** The interface clients rely on

    [pool a l]: the allocator in state [a] will hand out exactly the frames [l],
    in order.  Both allocators satisfy it. *)
Class FramePool (A : Type) `{FrameAlloc A} := {
  pool : A -> list Z -> Prop;
  pool_allocate a l : pool a l ->
    match l with
    | [] => allocate a = Some (None, a)
    | f :: l' => exists a', allocate a = Some (Some f, a') /\ pool a' l'
    end
}.

#[global] Program Instance boot_pool `{X86Addr} : FramePool BootFrameAllocator := {
  pool a l := boot_ready a /\ pending a = l
}.
Next Obligation.
  intros ? a l [Hr <-]. pose proof (boot_allocate_spec a Hr) as Hs. simpl. destruct (pending a); [done|].
  destruct Hs as (a' & E & ? & ? & _). eauto.
Qed.

#[global] Program Instance free_list_pool `{X86Addr} : FramePool frame_pool := { pool := free_list }.
Next Obligation.
  intros ? p l Hl. pose proof (fl_allocate_spec p l Hl) as Hs. simpl. destruct l; [done|].
  destruct Hs as (p' & E & ? & _). eauto.
Qed.

Section clients.
Context {A : Type} `{FramePool A}.

Lemma drawn_app (a a1 a2 : A) fs gs :
  drawn allocate a fs a1 -> drawn allocate a1 gs a2 -> drawn allocate a (fs ++ gs) a2.
Proof. induction 1; simpl; [done|]. intros. econstructor; [done|auto]. Qed.

Lemma pool_drawn a l fs a' : pool a l -> drawn allocate a fs a' -> exists l', l = fs ++ l' /\ pool a' l'.
Proof.
  intros Hp Hd. revert l Hp. induction Hd as [a|a f a1 fs a2 Ha _ IH]; intros l Hp; [by exists l|].
  pose proof (pool_allocate a l Hp) as Hs. destruct l as [|g l]; [congruence|].
  destruct Hs as (a'' & E & Hp'). rewrite Ha in E. injection E as <- <-. destruct (IH l Hp') as (l' & -> & ?). by exists l'.
Qed.

Lemma pool_can_draw a fs l : pool a (fs ++ l) -> exists a', drawn allocate a fs a' /\ pool a' l.
Proof.
  revert a. induction fs as [|f fs IH]; intros a Hp; [exists a; split; [constructor|done]|].
  destruct (pool_allocate a _ Hp) as (a1 & E & Hp1). destruct (IH a1 Hp1) as (a' & ? & ?).
  exists a'. split; [by econstructor|done].
Qed.

Context {T : Type} `{PageTables T}.

Lemma map_page_spec t a l page frame flags :
  pool a l -> (3 <= length l)%nat -> entry t page = None ->
  exists t' a' fs l', map_page t page frame flags a = Some (t', a') /\ drawn allocate a fs a' /\ pool a' l' /\ l = fs ++ l' /\
    (length fs <= 3)%nat /\ entry t' page = Some (frame, flags) /\ forall q, q <> page -> entry t' q = entry t q.
Proof.
  intros Hp Hl Hn. rewrite <- (take_drop 3 l) in Hp. destruct (pool_can_draw a _ _ Hp) as (a3 & Hd & _).
  destruct (map_to_succeeds A allocate t page frame flags a _ a3 Hn Hd) as (t' & a' & E); [rewrite length_take; lia|].
  unfold map_page. rewrite E.
  destruct (map_to_ok A allocate t page frame flags a _ a' Hn E) as [(t2 & fs & Ht & Hd' & Hfs & He & Ho)|(? & ? & ? & _)]; [|done].
  injection Ht as <-. rewrite (take_drop 3 l) in Hp. destruct (pool_drawn a l fs a' Hp Hd') as (l' & Hl' & Hp').
  by exists t', a', fs, l'.
Qed.

(** What mapping one page of the heap draws: the frame the page is mapped to,
    then the frames of the page tables created on the way to it. *)
Definition heap_draw : Type := Z * list Z.

Definition draw_frames (ds : list heap_draw) : list Z := ds ≫= (fun d => d.1 :: d.2).

Definition heap_page_drawn (t : T) (page : Z) (d : heap_draw) : Prop :=
  entry t page = Some (d.1, Z.lor PRESENT WRITABLE) /\ (length d.2 <= 3)%nat.

Lemma length_draw_frames t pages ds :
  Forall2 (heap_page_drawn t) pages ds -> (length (draw_frames ds) <= 4 * length pages)%nat.
Proof. induction 1 as [|p d pages ds [_ Hd] _ IH]; cbn; [lia|]. rewrite length_app. unfold draw_frames in IH. lia. Qed.

Lemma draw_frames_pages ds : ds.*1 `sublist_of` draw_frames ds.
Proof. induction ds as [|d ds IH]; cbn; [constructor|]. apply sublist_skip. by apply sublist_inserts_l. Qed.

(** Mapping the heap: each page gets a frame of its own, no other page changes,
    and the frames drawn are those of the pages and of their tables. *)
Lemma heap_map_loop_spec (pages : list Z) (t : T) (a : A) (l : list Z) :
  pool a l -> (4 * length pages <= length l)%nat -> NoDup pages -> Forall (fun p => entry t p = None) pages ->
  exists (t' : T) (a' : A) ds (l' : list Z), heap_map_loop pages t a = Some (t', a') /\ drawn allocate a (draw_frames ds) a' /\ l = draw_frames ds ++ l' /\
    pool a' l' /\ Forall2 (heap_page_drawn t') pages ds /\ forall q, q ∉ pages -> entry t' q = entry t q.
Proof.
  revert t a l. induction pages as [|page pages IH]; intros t a l Hp Hlen Hnd Hun.
  { exists t, a, [], l. split_and!; try done; constructor. }
  apply NoDup_cons in Hnd as [Hnin Hnd]. apply Forall_cons in Hun as [Hu Hun]. simpl in Hlen.
  destruct l as [|f l]; [simpl in Hlen; lia|]. destruct (pool_allocate a _ Hp) as (a1 & E1 & Hp1).
  cbn [heap_map_loop]. rewrite E1. cbn [mbind option_bind]. simpl in Hlen.
  destruct (map_page_spec t a1 l page f (Z.lor PRESENT WRITABLE)) as (t2 & a2 & fs & l2 & E2 & Hd2 & Hp2 & -> & Hfs & He & Ho); [done|lia|done|].
  rewrite E2. cbn [mbind option_bind]. rewrite length_app in Hlen.
  destruct (IH t2 a2 l2) as (t' & a' & ds & l' & E & Hd' & -> & Hp' & Hm & Ho'); [done|lia|done| |].
  { rewrite Forall_forall in *. intros q Hq. rewrite Ho by (intros ->; done). by apply Hun. }
  exists t', a', ((f, fs) :: ds), l'. rewrite E. cbn. split_and!; try done.
  - econstructor; [done|]. by eapply drawn_app.
  - by rewrite (assoc_L (++)).
  - constructor; [|done]. split; [|done]. by rewrite Ho'.
  - intros q Hq. rewrite not_elem_of_cons in Hq. destruct Hq as [? ?]. rewrite Ho' by done. by apply Ho.
Qed.

End clients.

Section boot.
Context `{X86Addr} {T : Type} `{PageTables T}.

Lemma boot_drawn_count a fs a' :
  boot_ready a -> drawn allocate a fs a' -> frames_consumed a' = frames_consumed a + Z.of_nat (length fs).
Proof.
  intros Hr Hd. induction Hd as [a|a f a1 fs a2 Ha _ IH]; [simpl; lia|].
  pose proof (boot_allocate_spec a Hr) as Hs. change (allocate a) with (boot_allocate a) in Ha. destruct (pending a) as [|g l]; [congruence|].
  destruct Hs as (a'' & E & Hr' & _ & Hc). rewrite Ha in E. injection E as <- <-. rewrite IH by done. simpl. lia.
Qed.

Lemma heap_pages_spec p : p ∈ heap_pages <-> (4096 | p) /\ HEAP_START <= p < HEAP_START + HEAP_SIZE.
Proof.
  unfold heap_pages. rewrite !containing_address_spec. rewrite list_elem_of_fmap. setoid_rewrite elem_of_seqZ.
  replace (HEAP_START / 4096 * 4096) with HEAP_START by done. set (n := _ / 4096 + 1).
  assert (n = 24576) as -> by done. change (HEAP_START) with (4096 * 0xFFFFC00000000) in *. change HEAP_SIZE with (4096 * 24576). split.
  - intros (i & -> & Hi). split; [exists (0xFFFFC00000000 + i); lia|lia].
  - intros [[i ->] Hi]. exists (i - 0xFFFFC00000000). lia.
Qed.

Lemma heap_pages_NoDup : NoDup heap_pages.
Proof. unfold heap_pages. apply NoDup_fmap_2_strong; [|apply NoDup_seqZ]. intros. lia. Qed.

Lemma heap_pages_length : Z.of_nat (length heap_pages) = 24576.
Proof.
  unfold heap_pages. rewrite !containing_address_spec, length_fmap, length_seqZ. rewrite Z2Nat.id; [reflexivity|done].
Qed.

Lemma fl_init_spec mem rs offset skip :
  Forall good_region rs -> NoDup (usable_frames rs) -> 0 ∉ usable_frames rs ->
  Z.of_nat (length (usable_frames rs)) < 2 ^ 52 -> 0 <= offset -> Forall (fun r => offset + region_end r <= 2 ^ 64) rs -> 0 <= skip ->
  exists p, fl_init (mkPool mem fl_empty) rs offset skip = Some p /\
    free_list p (reverse (drop (Z.to_nat skip) (usable_frames rs))) /\ phys_offset (p_fl p) = offset.
Proof.
  intros Hrs Hnd Hz Hn Ho1 Ho2 Hs. unfold fl_init.
  destruct (fl_regions_loop_spec (mkPool mem (mkFreeList None 0 offset)) [] rs skip) as (p & Ep & HR & Hoff); try done; try lia.
  - split; simpl; try done. constructor.
  - by rewrite app_nil_r.
  - simpl. lia.
  - exists p. rewrite app_nil_r in HR. done.
Qed.

(** C4. Booting partitions physical memory: [memory::init] succeeds on any
    page-aligned memory map with enough usable frames.  The frames its boot
    allocator hands out are, for each page of the kernel heap in turn, the
    frame that page is mapped to (writable, no two pages sharing one) and the
    at most three page tables drawn for it; they are the first usable frames
    of the map, and the free list holds all the others, so no usable frame is
    lost and none is both in use and free.  Every other page keeps its
    mapping. *)
Theorem memory_init_partitions_frames (rs : list MemoryRegion) (offset : Z) (t : T) (mem : memory) (m : gmap Z Z) :
  Forall good_region rs -> NoDup (usable_frames rs) -> 0 ∉ usable_frames rs ->
  4 * 24576 <= Z.of_nat (length (usable_frames rs)) < 2 ^ 52 ->
  0 <= offset -> Forall (fun r => offset + region_end r <= 2 ^ 64) rs ->
  (forall p, HEAP_START <= p < HEAP_START + HEAP_SIZE -> entry t p = None) ->
  exists t' heap' p boot boot' ds l,
    memory_init rs offset t mem (mkHeap m buddy_empty) = Some (t', heap', p) /\
    boot_new rs = Some boot /\ heap_init t boot (mkHeap m buddy_empty) = Some (t', boot', heap') /\
    drawn boot_allocate boot (draw_frames ds) boot' /\ Forall2 (heap_page_drawn t') heap_pages ds /\ NoDup ds.*1 /\
    (forall q, q ∉ heap_pages -> entry t' q = entry t q) /\
    usable_frames rs = draw_frames ds ++ l /\ free_list p (reverse l) /\ phys_offset (p_fl p) = offset.
Proof.
  intros Hrs Hnd Hz Hn Ho1 Ho2 Hun. destruct (boot_new_spec rs Hrs) as (b & Eb & Hb & Hp & _ & Hc0); [lia|].
  unfold memory_init. rewrite Eb. cbn [mbind option_bind]. unfold heap_init.
  destruct (heap_map_loop_spec heap_pages t b (usable_frames rs)) as (t' & b' & ds & l & E & Hd & Hl & Hp' & Hm & Hoth).
  { by split. } { pose proof heap_pages_length. lia. } { apply heap_pages_NoDup. }
  { apply Forall_forall. intros p Hin. apply heap_pages_spec in Hin as [_ Hin]. by apply Hun. }
  rewrite E. cbn [mbind option_bind].
  destruct (init_heap_inv m HEAP_START HEAP_SIZE) as (heap' & Eh & _); [by vm_compute|by exists 0x7FFFE0000000000|by vm_compute|by vm_compute|].
  rewrite Eh. cbn [mbind option_bind]. rewrite (boot_drawn_count b _ b' Hb Hd), Hc0.
  destruct (fl_init_spec mem rs offset (Z.of_nat (length (draw_frames ds))) Hrs Hnd Hz) as (p & Ep & HR & Hoff); [lia|done|done|lia|].
  rewrite Z.add_0_l, Ep. cbn [mbind option_bind]. exists t', heap', p, b, b', ds, l.
  split; [reflexivity|]. split; [reflexivity|]. rewrite E. cbn [mbind option_bind].
  split; [reflexivity|]. split; [exact Hd|]. split; [exact Hm|]. split; [|split; [exact Hoth|split; [exact Hl|split; [|exact Hoff]]]].
  - apply (NoDup_submseteq_l _ _ (sublist_submseteq _ _ (draw_frames_pages ds))). rewrite Hl in Hnd. by apply NoDup_app in Hnd as (? & _).
  - rewrite Hl, Nat2Z.id, drop_app_length in HR. exact HR.
Qed.

End boot.

(** A machine with one usable region of 512 MiB at 1 MiB. *)
Lemma memory_init_partitions_frames_witness :
  let rs := [mkRegion 0x100000 0x20100000 true; mkRegion 0x20100000 0x20200000 false] in
  let t := (∅ : gmap Z (Z * Z)) in
  exists t' heap' p boot boot' ds l,
    memory_init rs 0xFFFF800000000000 t ∅ (mkHeap ∅ buddy_empty) = Some (t', heap', p) /\
    boot_new rs = Some boot /\ heap_init t boot (mkHeap ∅ buddy_empty) = Some (t', boot', heap') /\
    drawn boot_allocate boot (draw_frames ds) boot' /\ Forall2 (heap_page_drawn t') heap_pages ds /\ NoDup ds.*1 /\
    (forall q, q ∉ heap_pages -> entry t' q = entry t q) /\
    usable_frames rs = draw_frames ds ++ l /\ free_list p (reverse l) /\ phys_offset (p_fl p) = 0xFFFF800000000000.
Proof.
  intros rs t.
  assert (E : usable_frames rs = frames_between 0x100000 0x20100000) by (unfold rs; rewrite !usable_frames_cons; unfold region_frames; cbn [region_usable region_start region_end app]; apply app_nil_r).
  apply memory_init_partitions_frames.
  - unfold rs. constructor; [|constructor; [|constructor]]; [|intros [=]]. intros _. cbn [region_start region_end].
    split_and!; [lia|lia|lia|lia|exists 0x100; lia|exists 0x20100; lia].
  - rewrite E. unfold frames_between. apply NoDup_fmap_2_strong; [|apply NoDup_seqZ]. intros. lia.
  - rewrite E. intros Hin. apply elem_of_frames_between in Hin as [_ ?]; [lia|exists 0x100; lia|exists 0x20100; lia].
  - rewrite E, length_frames_between. change ((0x20100000 - 0x100000) / 4096) with 131072. lia.
  - lia.
  - unfold rs. repeat constructor; cbn [region_end]; lia.
  - intros. apply lookup_empty.
Defined.

(** ** Running the frame pool

    Clients hold frames; they take one, give one back, or store into one they
    hold (through the physical-memory window). *)
Inductive pool_step `{X86Addr} : frame_pool * list Z -> frame_pool * list Z -> Prop :=
  | ps_allocate p held f p' :
      fl_allocate p = Some (Some f, p') -> pool_step (p, held) (p', f :: held)
  | ps_deallocate p held1 f held2 p' :
      fl_deallocate p f = Some p' -> pool_step (p, held1 ++ f :: held2) (p', held1 ++ held2)
  | ps_store p held f x v :
      f ∈ held -> phys_offset (p_fl p) + f <= x < phys_offset (p_fl p) + f + 4096 ->
      pool_step (p, held) (mkPool (<[x := v]> (p_mem p)) (p_fl p), held).

Section running.
Context `{X86Addr}.

Lemma free_list_store p l x v :
  free_list p l -> (forall f, f ∈ l -> x < phys_offset (p_fl p) + f \/ phys_offset (p_fl p) + f + 4096 <= x) ->
  free_list (mkPool (<[x := v]> (p_mem p)) (p_fl p)) l.
Proof.
  intros [Hh Hl Hc Hf Ho Hnd] Hx. split; try done. simpl. apply links_frame with (p_mem p); [|done].
  intros f Hin. apply read_u64_ext. intros y Hy. apply get_insert_ne. specialize (Hx f Hin). lia.
Qed.

Lemma free_list_total_bound off l : Forall (linkable off) l -> NoDup l -> Z.of_nat (length l) <= 2 ^ 52.
Proof.
  intros Hf Hnd. assert (Hsub : (length l <= length (seqZ 0 (2 ^ 52)))%nat).
  { apply submseteq_length, NoDup_submseteq; [done|]. intros g Hg. apply elem_of_seqZ.
    rewrite Forall_forall in Hf. destruct (Hf _ Hg) as (_ & ? & _). lia. }
  rewrite length_seqZ in Hsub. lia.
Qed.

Definition pool_inv (off : Z) (total : list Z) (s : frame_pool * list Z) : Prop :=
  exists l, free_list s.1 l /\ phys_offset (p_fl s.1) = off /\ l ++ s.2 ≡ₚ total.

Lemma pool_inv_dealloc off total p held1 f held2 :
  Forall (linkable off) total -> NoDup total -> pool_inv off total (p, held1 ++ f :: held2) ->
  exists p', fl_deallocate p f = Some p' /\ pool_inv off total (p', held1 ++ held2).
Proof.
  intros Hf Hnd (l & Hl & Ho & Hp). simpl in *.
  assert (Hp2 : l ++ f :: held1 ++ held2 ≡ₚ total) by (rewrite <- Hp; apply Permutation_app_head, Permutation_middle).
  rewrite <- Hp2 in Hnd. pose proof Hf as Hf2. rewrite <- Hp2 in Hf2. apply Forall_app in Hf2 as [_ Hf2]. apply Forall_cons in Hf2 as [Hlk _].
  destruct (fl_deallocate_spec p l f Hl) as (p' & E & Hl' & Ho' & _).
  { by rewrite Ho. }
  { intros Hin. apply NoDup_app in Hnd as (_ & Hd & _). apply (Hd f Hin). constructor. }
  { pose proof (free_list_total_bound _ l (flr_frames _ _ Hl) (flr_nodup _ _ Hl)). lia. }
  exists p'. split; [done|]. exists (f :: l). split_and!; [done|simpl; congruence|]. simpl. rewrite <- Hp2. by rewrite Permutation_middle.
Qed.

Lemma pool_inv_step off total s s' :
  Forall (linkable off) total -> NoDup total -> pool_inv off total s -> pool_step s s' -> pool_inv off total s'.
Proof.
  intros Hf Hnd Hi Hs. destruct Hs as [p held f p' Ha|p h1 f h2 p' Hd|p held f x v Hin Hx].
  - destruct Hi as (l & Hl & Ho & Hp). simpl in *. pose proof (fl_allocate_spec p l Hl) as Hspec.
    destruct l as [|g l]; [congruence|]. destruct Hspec as (p2 & E & Hl' & _ & Ho'). rewrite Ha in E. injection E as <- <-.
    exists l. split_and!; [done|simpl; congruence|]. simpl. rewrite <- Hp. simpl. by rewrite Permutation_middle.
  - destruct (pool_inv_dealloc off total p h1 f h2 Hf Hnd Hi) as (p2 & E & ?). rewrite Hd in E. by injection E as ->.
  - destruct Hi as (l & Hl & Ho & Hp). simpl in *. exists l. split_and!; [|done|done]. apply free_list_store; [done|].
    intros g Hg. assert (Hne : f <> g).
    { intros ->. rewrite <- Hp in Hnd. apply NoDup_app in Hnd as (_ & Hd & _). by apply (Hd g). }
    rewrite Forall_forall in Hf. destruct (Hf f) as [[a Ha] _]; [rewrite <- Hp; apply elem_of_app; by right|].
    destruct (Hf g) as [[b Hb] _]; [rewrite <- Hp; apply elem_of_app; by left|]. lia.
Qed.

(** Whatever sequence of allocations, frees and stores to held frames runs,
    no frame is ever lost or held twice: free and held frames together stay a
    permutation of the initial pool, an allocation succeeds while a frame is
    free and returns one nobody holds, and returning a held frame succeeds. *)
Theorem frame_pool_conserves_frames (p0 : frame_pool) (total : list Z) (p : frame_pool) (held : list Z) :
  free_list p0 total -> rtc pool_step (p0, []) (p, held) ->
  exists l, free_list p l /\ l ++ held ≡ₚ total /\ NoDup (l ++ held) /\
    (l <> [] -> exists f p', fl_allocate p = Some (Some f, p') /\ f ∉ held) /\
    (forall f, f ∈ held -> exists p', fl_deallocate p f = Some p').
Proof.
  intros H0 Hsteps. assert (Hi : pool_inv (phys_offset (p_fl p0)) total (p, held)).
  { assert (Hi0 : pool_inv (phys_offset (p_fl p0)) total (p0, [])) by (exists total; simpl; by rewrite app_nil_r).
    revert Hi0. generalize (p0, @nil Z) (p, held) Hsteps. clear Hsteps. induction 1 as [|s1 s2 s3 Hs _ IH]; [done|].
    intros Hi. apply IH. by apply (pool_inv_step _ total s1 s2 (flr_frames _ _ H0) (flr_nodup _ _ H0)). }
  pose proof Hi as (l & Hl & _ & Hp). simpl in *. assert (Hnd : NoDup (l ++ held)) by (rewrite Hp; apply (flr_nodup _ _ H0)).
  exists l. split_and!; [done..| |].
  - intros Hne. pose proof (fl_allocate_spec p l Hl) as Hspec. destruct l as [|f l]; [done|].
    destruct Hspec as (p' & E & _). exists f, p'. split; [done|]. intros Hin. apply NoDup_app in Hnd as (_ & Hd & _).
    apply (Hd f); [constructor|done].
  - intros f Hin. apply list_elem_of_split in Hin as (h1 & h2 & ->).
    destruct (pool_inv_dealloc _ total p h1 f h2 (flr_frames _ _ H0) (flr_nodup _ _ H0) Hi) as (p' & ? & _). eauto.
Qed.

End running.

(** Two frames freed at boot, one of them taken. *)
Definition sample_pool : frame_pool :=
  default (mkPool ∅ fl_empty) (fl_init (mkPool ∅ fl_empty) [mkRegion 0x1000 0x3000 true] 0xFFFF800000000000 0).
Definition sample_pool1 : frame_pool := default sample_pool (snd <$> fl_allocate sample_pool).

Lemma sample_pool_free : free_list sample_pool [0x2000; 0x1000].
Proof.
  split; [vm_compute; reflexivity|vm_compute; auto|vm_compute; reflexivity| | |].
  - change (phys_offset (p_fl sample_pool)) with 0xFFFF800000000000. repeat constructor; try lia; [by exists 2|by exists 1].
  - vm_compute; discriminate.
  - refine (bool_decide_eq_true_1 _ _). reflexivity.
Qed.

Lemma frame_pool_conserves_frames_witness :
  exists l, free_list sample_pool1 l /\ l ++ [0x2000] ≡ₚ [0x2000; 0x1000] /\ NoDup (l ++ [0x2000]) /\
    (l <> [] -> exists f p', fl_allocate sample_pool1 = Some (Some f, p') /\ f ∉ [0x2000]) /\
    (forall f, f ∈ [0x2000] -> exists p', fl_deallocate sample_pool1 f = Some p').
Proof.
  apply (frame_pool_conserves_frames sample_pool); [apply sample_pool_free|].
  apply rtc_once, ps_allocate. vm_compute. reflexivity.
Defined.
