(* ===== verification/Disk.v ===== *)
(** The RAM disk ([kernel/src/io/disk.rs]): a run of mapped pages used as an
    array of sectors, with a CRC-32 kept for each sector.

    The bytes of the region [[base, base + byte_len)], which only the disk
    accesses, are the list [bytes].  Buffers are byte lists; a raw copy that
    would run past the end of a buffer is undefined behaviour and modelled, like
    a panic, by [None].  [DiskDevice] is the trait, [DiskLaws] what its clients
    (the file system and the swap area) may rely on. *)

From S2P Require Import Prelude Crc Bytes X86 Frames.

(* io/disk.rs:20-25 DiskError *)
Inductive DiskError := OutOfBounds | IoError | CrcMismatch.

(* io/disk.rs:11-16 DiskDevice *)
Class DiskDevice (D : Type) := {
  sector_size : D -> Z;
  sector_count : D -> Z;
  read_sector : D -> Z -> list Z -> option (result DiskError unit * list Z * D);
  write_sector : D -> Z -> list Z -> option (result DiskError unit * D)
}.

(** ** Slices *)

Definition slice {A} (off n : nat) (l : list A) : list A := take n (drop off l).
(** [l[off..off + bs.len()].copy_from_slice(bs)] *)
Definition splice {A} (l : list A) (off : nat) (bs : list A) : list A :=
  take off l ++ bs ++ drop (off + length bs) l.

(* io/disk.rs:28-30 RAMDISK_VIRT_REGION_BASE *)
Definition RAMDISK_VIRT_REGION_BASE : Z := 0xFFFFD00000000000.
Definition PAGE_SIZE : Z := 4096.

(** [fetch_add] wraps. *)
(* io/disk.rs:32-36 claim_virt_range *)
Definition claim_virt_range `{X86Addr} (cursor byte_len : Z) : option (Z * Z) :=
  page_aligned_len ← umul 64 ((byte_len + PAGE_SIZE - 1) / PAGE_SIZE) PAGE_SIZE;
  base ← VirtAddr_new cursor;
  Some (base, wrap 64 (cursor + page_aligned_len)).

(* io/disk.rs:39-48 RamDisk *)
Record RamDisk := mkDisk {
  base : Z;
  byte_len : Z;
  rd_sector_size : Z;
  rd_cursor : Z;
  crcs : list Z;
  frames : list Z;
  bytes : list Z
}.

Section ramdisk_new.
Context `{X86Addr} {T : Type} `{PageTables T} {A : Type} `{FrameAlloc A}.

(* io/disk.rs:66-70 new *)
Fixpoint map_disk_loop (pages : list Z) (t : T) (a : A) : option (T * A * list Z) :=
  match pages with
  | [] => Some (t, a, [])
  | page :: pages =>
      '(frame, a) ← allocate a;
      frame ← frame;
      '(t, a) ← map_page t page frame (Z.lor PRESENT WRITABLE) a;
      '(t, a, fs) ← map_disk_loop pages t a;
      Some (t, a, frame :: fs)
  end.

(* io/disk.rs:52-81 new *)
Definition ramdisk_new (virt_cursor : Z) (t : T) (a : A) (count size : Z) : option (RamDisk * Z * T * A) :=
  len ← umul 64 count size;
  '(base, virt_cursor) ← claim_virt_range virt_cursor len;
  len1 ← usub 64 len 1;
  last ← VirtAddr_add base len1;
  let start_page := containing_address base in
  let end_page := containing_address last in
  let pages := (fun i => start_page + 4096 * i) <$> seqZ 0 ((end_page - start_page) / 4096 + 1) in
  '(t, a, fs) ← map_disk_loop pages t a;
  let zero_crc := crc32 (replicate (Z.to_nat size) 0) in
  Some (mkDisk base len size 0 (replicate (Z.to_nat count) zero_crc) fs (replicate (Z.to_nat len) 0),
        virt_cursor, t, a).
End ramdisk_new.

(** Start of sector [lba] in the region, with the code's bounds check. *)
Definition sector_start (d : RamDisk) (lba : Z) : option (option Z) :=
  start ← umul 64 lba (rd_sector_size d);
  end_ ← uadd 64 start (rd_sector_size d);
  Some (if byte_len d <? end_ then None else Some start).

(* io/disk.rs:97-113 read_sector *)
Definition ramdisk_read_sector (d : RamDisk) (lba : Z) (buf : list Z)
    : option (result DiskError unit * list Z * RamDisk) :=
  start ← sector_start d lba;
  match start with
  | None => Some (Err OutOfBounds, buf, d)
  | Some start =>
      let n := Z.to_nat (rd_sector_size d) in
      if (length buf <? n)%nat then None
      else
        let buf := splice buf 0 (slice (Z.to_nat start) n (bytes d)) in
        crc ← crcs d !! Z.to_nat lba;
        Some (if crc32 buf =? crc then Ok tt else Err CrcMismatch, buf, d)
  end.

(* io/disk.rs:115-129 write_sector *)
Definition ramdisk_write_sector (d : RamDisk) (lba : Z) (buf : list Z)
    : option (result DiskError unit * RamDisk) :=
  start ← sector_start d lba;
  match start with
  | None => Some (Err OutOfBounds, d)
  | Some start =>
      let n := Z.to_nat (rd_sector_size d) in
      _ ← crcs d !! Z.to_nat lba;
      if (length buf <? n)%nat then None
      else Some (Ok tt, mkDisk (base d) (byte_len d) (rd_sector_size d) (rd_cursor d)
                   (<[Z.to_nat lba := crc32 buf]> (crcs d)) (frames d)
                   (splice (bytes d) (Z.to_nat start) (take n buf)))
  end.

(* io/disk.rs:88-130 DiskDevice *)
#[global] Instance ramdisk_device : DiskDevice RamDisk := {|
  sector_size := rd_sector_size;
  sector_count d := byte_len d / rd_sector_size d;
  read_sector := ramdisk_read_sector;
  write_sector := ramdisk_write_sector
|}.

(** The byte-stream view ([BlockDevice]). *)
Definition set_cursor (d : RamDisk) (c : Z) : RamDisk :=
  mkDisk (base d) (byte_len d) (rd_sector_size d) c (crcs d) (frames d) (bytes d).

(* io/disk.rs:134-148 read *)
Definition block_read (d : RamDisk) (buf : list Z) : option (Z * list Z * RamDisk) :=
  let offset := rd_cursor d in
  let avail := Z.max 0 (byte_len d - offset) in
  let n := Z.min (Z.of_nat (length buf)) avail in
  if n =? 0 then Some (0, buf, d)
  else
    cursor ← uadd 64 (rd_cursor d) n;
    Some (n, splice buf 0 (slice (Z.to_nat offset) (Z.to_nat n) (bytes d)), set_cursor d cursor).

(* io/disk.rs:150-164 write *)
Definition block_write (d : RamDisk) (buf : list Z) : option (Z * RamDisk) :=
  let offset := rd_cursor d in
  let avail := Z.max 0 (byte_len d - offset) in
  let n := Z.min (Z.of_nat (length buf)) avail in
  if n =? 0 then Some (0, d)
  else
    cursor ← uadd 64 (rd_cursor d) n;
    Some (n, mkDisk (base d) (byte_len d) (rd_sector_size d) cursor (crcs d) (frames d)
               (splice (bytes d) (Z.to_nat offset) (take (Z.to_nat n) buf))).

(* io/disk.rs:166-168 seek *)
Definition block_seek (d : RamDisk) (offset : Z) : RamDisk := set_cursor d offset.

(** ** What clients rely on

    [disk_rep d ss]: the device holds the sectors [ss], all of the same size. *)
Class DiskLaws (D : Type) `{DiskDevice D} := {
  disk_rep : D -> list (list Z) -> Prop;
  rep_size d ss : disk_rep d ss ->
    0 < sector_size d /\ sector_count d = Z.of_nat (length ss) /\
    Forall (fun s => Z.of_nat (length s) = sector_size d) ss /\
    Z.of_nat (length ss) * sector_size d < 2 ^ 64;
  rep_read d ss lba buf : disk_rep d ss -> Z.of_nat (length buf) = sector_size d ->
    0 <= lba -> (lba + 1) * sector_size d < 2 ^ 64 ->
    read_sector d lba buf = Some (match ss !! Z.to_nat lba with
                                  | Some s => (Ok tt, s, d)
                                  | None => (Err OutOfBounds, buf, d)
                                  end);
  rep_write d ss lba buf : disk_rep d ss -> Z.of_nat (length buf) = sector_size d ->
    0 <= lba -> (lba + 1) * sector_size d < 2 ^ 64 ->
    exists d', write_sector d lba buf = Some (if decide (lba < Z.of_nat (length ss)) then Ok tt else Err OutOfBounds, d') /\
      disk_rep d' (<[Z.to_nat lba := buf]> ss) /\ sector_size d' = sector_size d
}.

(** ** Slices of equal-size sectors *)

Lemma slice_length {A} off n (l : list A) : (off + n <= length l)%nat -> length (slice off n l) = n.
Proof. intros. unfold slice. rewrite length_take, length_drop. lia. Qed.

Lemma splice_length {A} (l : list A) off bs : (off + length bs <= length l)%nat -> length (splice l off bs) = length l.
Proof. intros. unfold splice. rewrite !length_app, length_take, length_drop. lia. Qed.

Lemma slice_skip {A} (p l : list A) off n : slice (length p + off) n (p ++ l) = slice off n l.
Proof. unfold slice. by rewrite drop_app_add. Qed.

Lemma slice_prefix {A} (l r : list A) off n : (off + n <= length l)%nat -> slice off n (l ++ r) = slice off n l.
Proof. intros. unfold slice. rewrite drop_app_le by lia. rewrite take_app_le; [done|rewrite length_drop; lia]. Qed.

Lemma splice_skip {A} (p l : list A) off bs : splice (p ++ l) (length p + off) bs = p ++ splice l off bs.
Proof.
  unfold splice. rewrite take_app_add, <- (assoc_L (++)). do 3 f_equal.
  replace (length p + off + length bs)%nat with (length p + (off + length bs))%nat by lia. by rewrite drop_app_add.
Qed.

Lemma splice_prefix {A} (l r : list A) off bs :
  (off + length bs <= length l)%nat -> splice (l ++ r) off bs = splice l off bs ++ r.
Proof. intros. unfold splice. rewrite take_app_le, drop_app_le by lia. by rewrite <- !(assoc_L (++)). Qed.

Lemma splice_all {A} (l bs : list A) : length bs = length l -> splice l 0 bs = bs.
Proof. intros E. unfold splice. simpl. rewrite drop_ge by lia. by rewrite app_nil_r. Qed.

Lemma slice_all {A} (l : list A) n : n = length l -> slice 0 n l = l.
Proof. intros ->. unfold slice. rewrite drop_0. by rewrite take_ge. Qed.

Lemma slice_app_split {A} (l : list A) off n m : slice off (n + m) l = slice off n l ++ slice (off + n) m l.
Proof. unfold slice. rewrite <- drop_drop. by rewrite take_take_drop. Qed.

Lemma splice_app_split {A} (l : list A) off bs cs :
  (off + length bs <= length l)%nat -> splice l off (bs ++ cs) = splice (splice l off bs) (off + length bs) cs.
Proof.
  intros Hle. assert (E : length (take off l ++ bs) = (off + length bs)%nat) by (rewrite length_app, length_take; lia).
  pose proof (splice_skip (take off l ++ bs) (drop (off + length bs) l) 0 cs) as H.
  rewrite E, Nat.add_0_r, <- (assoc_L (++)) in H. change (take off l ++ bs ++ drop (off + length bs) l) with (splice l off bs) in H.
  rewrite H. unfold splice. simpl. rewrite length_app, drop_drop, <- !(assoc_L (++)). do 4 f_equal. lia.
Qed.

Lemma splice_slice {A} (l : list A) off bs : (off + length bs <= length l)%nat -> slice off (length bs) (splice l off bs) = bs.
Proof.
  intros Hle. assert (E : length (take off l) = off) by (rewrite length_take; lia). unfold splice.
  rewrite <- E at 1. rewrite <- (Nat.add_0_r (length (take off l))), slice_skip.
  rewrite slice_prefix by lia. by apply slice_all.
Qed.

(** Reading outside a spliced range sees the old contents. *)
Lemma slice_splice_after {A} (l : list A) off bs o n :
  (off + length bs <= length l)%nat -> (off + length bs <= o)%nat -> slice o n (splice l off bs) = slice o n l.
Proof.
  intros Hle Ho. assert (E : length (take off l ++ bs) = (off + length bs)%nat) by (rewrite length_app, length_take; lia).
  unfold slice. f_equal. unfold splice. rewrite (assoc_L (++)), drop_app_ge by lia. rewrite E, drop_drop. f_equal. lia.
Qed.

Lemma concat_length_uniform {A} (k : nat) (ss : list (list A)) :
  Forall (fun s => length s = k) ss -> length (concat ss) = (length ss * k)%nat.
Proof. induction 1 as [|s l Hs _ IH]; [done|]. simpl. rewrite length_app, IH, Hs. done. Qed.

Lemma concat_take_length {A} (k : nat) (ss : list (list A)) i :
  Forall (fun s => length s = k) ss -> (i <= length ss)%nat -> length (concat (take i ss)) = (i * k)%nat.
Proof.
  intros Hk Hi. rewrite (concat_length_uniform k); [rewrite length_take; f_equal; lia|by apply Forall_take].
Qed.

Section uniform.
Context {A : Type} (k : nat) (ss : list (list A)).
Hypothesis Hk : Forall (fun s => length s = k) ss.

Lemma concat_slice i s off n :
  ss !! i = Some s -> (off + n <= k)%nat -> slice (i * k + off) n (concat ss) = slice off n s.
Proof.
  intros Hi Hn. assert (Hl : length s = k) by (rewrite Forall_forall in Hk; apply Hk; by eapply list_elem_of_lookup_2).
  rewrite <- (take_drop_middle ss i s Hi), concat_app. simpl.
  rewrite <- (concat_take_length k ss i) by (done || apply lookup_lt_Some in Hi; lia). rewrite slice_skip. apply slice_prefix. lia.
Qed.

Lemma concat_splice i s off bs :
  ss !! i = Some s -> (off + length bs <= k)%nat ->
  concat (<[i := splice s off bs]> ss) = splice (concat ss) (i * k + off) bs.
Proof.
  intros Hi Hn. assert (Hl : length s = k) by (rewrite Forall_forall in Hk; apply Hk; by eapply list_elem_of_lookup_2).
  pose proof (lookup_lt_Some _ _ _ Hi). rewrite insert_take_drop by done.
  rewrite <- (take_drop_middle ss i s Hi) at 3. rewrite !concat_app. simpl.
  rewrite <- (concat_take_length k ss i) by (done || lia). rewrite splice_skip, splice_prefix by lia. done.
Qed.
End uniform.

(** ** The RAM disk implements the interface *)

Record disk_ok (d : RamDisk) (ss : list (list Z)) : Prop := mkDiskOk {
  ok_size : 0 < rd_sector_size d;
  ok_len : byte_len d = Z.of_nat (length ss) * rd_sector_size d;
  ok_max : byte_len d < 2 ^ 64;
  ok_bytes : bytes d = concat ss;
  ok_sectors : Forall (fun s => length s = Z.to_nat (rd_sector_size d)) ss;
  ok_crcs : crcs d = crc32 <$> ss
}.

Lemma sector_start_spec d ss lba :
  disk_ok d ss -> 0 <= lba -> (lba + 1) * rd_sector_size d < 2 ^ 64 ->
  sector_start d lba = Some (if decide (lba < Z.of_nat (length ss)) then Some (lba * rd_sector_size d) else None).
Proof.
  intros [Hs Hl Hm _ _ _] H0 Hb. unfold sector_start, umul, uadd. rewrite uchk_fits by (unfold fits; nia).
  cbn [mbind option_bind]. rewrite uchk_fits by (unfold fits; nia). cbn [mbind option_bind]. f_equal.
  destruct (Z.ltb_spec (byte_len d) (lba * rd_sector_size d + rd_sector_size d)); rewrite Hl in *; destruct (decide _); try done; nia.
Qed.

#[global] Program Instance ramdisk_laws : DiskLaws RamDisk := { disk_rep := disk_ok }.
Next Obligation.
  intros d ss H. pose proof H as [Hs Hl Hm Hb Hk Hc]. simpl. split_and!; [done| | |lia].
  - rewrite Hl. by rewrite Z.div_mul by lia.
  - apply (Forall_impl _ _ _ Hk). lia.
Qed.
Next Obligation.
  intros d ss lba buf H Hbuf H0 Hb. simpl in *. unfold ramdisk_read_sector. rewrite (sector_start_spec d ss) by done.
  pose proof H as [Hs Hl Hm Hby Hk Hc]. cbn [mbind option_bind]. destruct (decide _) as [Hlt|Hge].
  - destruct (lookup_lt_is_Some_2 ss (Z.to_nat lba)) as [s Es]; [lia|]. rewrite Es.
    assert (Hsl : length s = Z.to_nat (rd_sector_size d)) by (rewrite Forall_forall in Hk; apply Hk; by eapply list_elem_of_lookup_2).
    destruct (Nat.ltb_spec (length buf) (Z.to_nat (rd_sector_size d))); [lia|].
    rewrite Hc, list_lookup_fmap, Es. simpl. rewrite Hby.
    replace (Z.to_nat (lba * rd_sector_size d)) with (Z.to_nat lba * Z.to_nat (rd_sector_size d) + 0)%nat by nia.
    rewrite (concat_slice _ _ Hk _ s) by (done || lia). rewrite slice_all by done. rewrite splice_all by lia.
    by rewrite Z.eqb_refl.
  - rewrite lookup_ge_None_2 by lia. done.
Qed.
Next Obligation.
  intros d ss lba buf H Hbuf H0 Hb. simpl in *. unfold ramdisk_write_sector. rewrite (sector_start_spec d ss) by done.
  pose proof H as [Hs Hl Hm Hby Hk Hc]. cbn [mbind option_bind]. destruct (decide _) as [Hlt|Hge].
  2:{ exists d. split_and!; [done| |done]. by rewrite list_insert_ge by lia. }
  destruct (lookup_lt_is_Some_2 ss (Z.to_nat lba)) as [s Es]; [lia|].
  assert (Hsl : length s = Z.to_nat (rd_sector_size d)) by (rewrite Forall_forall in Hk; apply Hk; by eapply list_elem_of_lookup_2).
  rewrite Hc, list_lookup_fmap, Es. simpl. destruct (Nat.ltb_spec (length buf) (Z.to_nat (rd_sector_size d))); [lia|].
  eexists. split_and!; [done| |done]. rewrite take_ge by lia. split; simpl; try done.
  - by rewrite length_insert.
  - rewrite Hby. replace (Z.to_nat (lba * rd_sector_size d)) with (Z.to_nat lba * Z.to_nat (rd_sector_size d) + 0)%nat by nia.
    rewrite <- (concat_splice _ _ Hk _ s) by (done || lia). by rewrite splice_all by lia.
  - apply Forall_insert; [done|lia].
  - by rewrite list_fmap_insert.
Qed.

(** ** Creating a disk *)

Section new.
Context `{X86Addr} {T : Type} `{PageTables T} {A : Type} `{FramePool A}.

Lemma map_disk_loop_heap pages (t : T) (a : A) t' a' :
  heap_map_loop pages t a = Some (t', a') ->
  exists fs, map_disk_loop pages t a = Some (t', a', fs) /\ length fs = length pages.
Proof.
  revert t a. induction pages as [|p pages IH]; intros t a E; simpl in *.
  { injection E as <- <-. by exists []. }
  destruct (allocate a) as [[[f|] a1]|] eqn:Ea; simpl in *; try done.
  destruct (map_page t p f (Z.lor PRESENT WRITABLE) a1) as [[t1 a2]|]; simpl in *; [|done].
  destruct (IH _ _ E) as (fs & -> & Hf). exists (f :: fs). simpl. by rewrite Hf.
Qed.

Definition disk_pages (start len : Z) : list Z :=
  (fun i => start + 4096 * i) <$> seqZ 0 ((containing_address (start + (len - 1)) - start) / 4096 + 1).

Lemma disk_pages_length start len :
  (4096 | start) -> 0 < len -> Z.of_nat (length (disk_pages start len)) = (len + 4095) / 4096.
Proof.
  intros [k ->] Hl. unfold disk_pages. rewrite length_fmap, length_seqZ, containing_address_spec.
  replace (k * 4096 + (len - 1)) with (len - 1 + k * 4096) by lia. rewrite Z.div_add by lia.
  replace (((len - 1) / 4096 + k) * 4096 - k * 4096) with ((len - 1) / 4096 * 4096) by lia. rewrite Z.div_mul by lia.
  replace (len + 4095) with (len - 1 + 1 * 4096) by lia. rewrite Z.div_add by lia.
  assert (0 <= (len - 1) / 4096) by (apply Z.div_pos; lia). lia.
Qed.

(** A new disk: zero sectors with matching checksums, the cursor of the region
    past it, the frames taken from the front of the pool, at most four for each
    page, and no other page's mapping changed. *)
Lemma ramdisk_new_full cursor (t : T) (a : A) l count size :
  (4096 | cursor) -> 2 ^ 64 - 2 ^ 47 <= cursor -> 0 < count -> 0 < size ->
  cursor + count * size + 4096 < 2 ^ 64 ->
  pool a l -> 4 * ((count * size + 4095) / 4096) <= Z.of_nat (length l) ->
  Forall (fun p => entry t p = None) (disk_pages cursor (count * size)) ->
  exists d t' a' used l', ramdisk_new cursor t a count size = Some (d, cursor + (count * size + 4095) / 4096 * 4096, t', a') /\
    disk_ok d (replicate (Z.to_nat count) (replicate (Z.to_nat size) 0)) /\ rd_sector_size d = size /\
    drawn allocate a used a' /\ l = used ++ l' /\ pool a' l' /\ Z.of_nat (length used) <= 4 * ((count * size + 4095) / 4096) /\
    forall q, q ∉ disk_pages cursor (count * size) -> entry t' q = entry t q.
Proof.
  intros Hal Hc Hcnt Hsz0 Hov Hp Hl Hun. unfold ramdisk_new, claim_virt_range, umul, usub, PAGE_SIZE.
  assert (Hpos : 0 < count * size) by nia.
  assert (Hup : 0 <= (count * size + 4095) / 4096 * 4096 <= count * size + 4095).
  { split; [apply Z.mul_nonneg_nonneg; [apply Z.div_pos; lia|lia]|]. rewrite Z.mul_comm. apply Z.mul_div_le. lia. }
  rewrite (uchk_fits 64 (count * size)) by (unfold fits; lia). cbn [mbind option_bind].
  replace (count * size + 4096 - 1) with (count * size + 4095) by lia.
  rewrite (uchk_fits 64 ((count * size + 4095) / 4096 * 4096)) by (unfold fits; lia). cbn [mbind option_bind]. rewrite VirtAddr_new_high by lia. cbn [mbind option_bind]. rewrite uchk_fits by (unfold fits; lia). cbn [mbind option_bind].
  rewrite VirtAddr_add_high by lia. cbn [mbind option_bind]. rewrite (containing_aligned cursor) by done.
  fold (disk_pages cursor (count * size)). pose proof (disk_pages_length cursor (count * size) Hal Hpos) as Hlen.
  destruct (heap_map_loop_spec (disk_pages cursor (count * size)) t a l) as (t' & a' & ds & l' & E & Hd & Hu & Hp' & Hm & Ho); [done|lia| |done|].
  2: pose proof (length_draw_frames _ _ _ Hm) as Hul.
  { unfold disk_pages. apply NoDup_fmap_2_strong; [|apply NoDup_seqZ]. intros. lia. }
  destruct (map_disk_loop_heap _ _ _ _ _ E) as (fs & -> & _). cbn [mbind option_bind]. rewrite wrap_small by (unfold fits; lia).
  do 3 eexists. exists (draw_frames ds), l'. split; [reflexivity|]. split_and!; try done; [|lia]. split; simpl; try done.
  - rewrite length_replicate. lia.
  - lia.
  - replace (Z.to_nat (count * size)) with (Z.to_nat count * Z.to_nat size)%nat by nia.
    induction (Z.to_nat count) as [|n IHn]; [done|]. simpl. by rewrite replicate_add, IHn.
  - by apply Forall_replicate, length_replicate.
  - by rewrite fmap_replicate.
Qed.

Lemma ramdisk_new_spec cursor (t : T) (a : A) l count size :
  (4096 | cursor) -> 2 ^ 64 - 2 ^ 47 <= cursor -> 0 < count -> 0 < size ->
  cursor + count * size + 4096 < 2 ^ 64 ->
  pool a l -> 4 * ((count * size + 4095) / 4096) <= Z.of_nat (length l) ->
  Forall (fun p => entry t p = None) (disk_pages cursor (count * size)) ->
  exists d cursor' t' a', ramdisk_new cursor t a count size = Some (d, cursor', t', a') /\
    disk_ok d (replicate (Z.to_nat count) (replicate (Z.to_nat size) 0)) /\ rd_sector_size d = size.
Proof.
  intros. destruct (ramdisk_new_full cursor t a l count size) as (d & t' & a' & used & l' & E & Hd & Hs & _); try done. by do 4 eexists.
Qed.

(** Sector writes applied in order, results ignored. *)
Fixpoint apply_writes (d : RamDisk) (ws : list (Z * list Z)) : option RamDisk :=
  match ws with
  | [] => Some d
  | (lba, buf) :: ws => '(_, d) ← write_sector d lba buf; apply_writes d ws
  end.

Definition last_write (init : list Z) (ws : list (Z * list Z)) (lba : Z) : list Z :=
  foldl (fun s w => if w.1 =? lba then w.2 else s) init ws.

Lemma apply_writes_rep d ss ws :
  disk_ok d ss -> Forall (fun w => 0 <= w.1 < Z.of_nat (length ss) /\ Z.of_nat (length w.2) = rd_sector_size d) ws ->
  exists d' ss', apply_writes d ws = Some d' /\ disk_ok d' ss' /\ length ss' = length ss /\
    rd_sector_size d' = rd_sector_size d /\
    forall i s, ss !! i = Some s -> ss' !! i = Some (last_write s ws (Z.of_nat i)).
Proof.
  revert d ss. induction ws as [|[lba buf] ws IH]; intros d ss Hd Hws.
  { exists d, ss. split_and!; auto. }
  apply Forall_cons in Hws as [[Hlba Hbuf] Hws]. simpl in Hlba, Hbuf. cbn [apply_writes].
  pose proof (ok_len _ _ Hd). pose proof (ok_max _ _ Hd). pose proof (ok_size _ _ Hd).
  destruct (@rep_write RamDisk _ ramdisk_laws d ss lba buf Hd Hbuf) as (d1 & E & Hd1 & Hs1); [lia|simpl; nia|].
  rewrite E. cbn [mbind option_bind]. destruct (IH d1 _ Hd1) as (d' & ss' & E' & Hd' & Hl' & Hs' & Hv).
  { rewrite length_insert. apply (Forall_impl _ _ _ Hws). simpl in *. rewrite Hs1. done. }
  exists d', ss'. rewrite length_insert in Hl'. simpl in *. split_and!; [done|done|done|congruence|]. intros i s Hi.
  assert (Hil := lookup_lt_Some _ _ _ Hi).
  destruct (Z.eqb_spec lba (Z.of_nat i)) as [->|Hne].
  - rewrite Nat2Z.id in Hv. apply Hv. by apply list_lookup_insert_eq.
  - apply Hv. rewrite list_lookup_insert_ne by lia. done.
Qed.

(** A RAM disk is an array of sectors: on a freshly created disk, after any
    in-range sector writes, reading a sector passes the checksum test and
    returns the last data written to it (zeros if none was). *)
Theorem ramdisk_reads_last_write cursor (t : T) (a : A) l count size ws buf lba :
  (4096 | cursor) -> 2 ^ 64 - 2 ^ 47 <= cursor -> 0 < count -> 0 < size ->
  cursor + count * size + 4096 < 2 ^ 64 ->
  pool a l -> 4 * ((count * size + 4095) / 4096) <= Z.of_nat (length l) ->
  Forall (fun p => entry t p = None) (disk_pages cursor (count * size)) ->
  Forall (fun w => 0 <= w.1 < count /\ Z.of_nat (length w.2) = size) ws ->
  0 <= lba < count -> Z.of_nat (length buf) = size ->
  exists d cursor' t' a' d', ramdisk_new cursor t a count size = Some (d, cursor', t', a') /\
    apply_writes d ws = Some d' /\
    read_sector d' lba buf = Some (Ok tt, last_write (replicate (Z.to_nat size) 0) ws lba, d').
Proof.
  intros Hal Hc Hcnt Hsz0 Hov Hp Hl Hun Hws Hlba Hbuf.
  destruct (ramdisk_new_spec cursor t a l count size) as (d & c' & t' & a' & E & Hd & Hsz); try done.
  destruct (apply_writes_rep d _ ws Hd) as (d' & ss' & E' & Hd' & Hl' & Hs' & Hv).
  { rewrite length_replicate, Hsz. apply (Forall_impl _ _ _ Hws). lia. }
  exists d, c', t', a', d'. split_and!; [done..|]. rewrite length_replicate in Hl'.
  pose proof (ok_len _ _ Hd'). pose proof (ok_max _ _ Hd').
  rewrite (@rep_read RamDisk _ ramdisk_laws d' ss' lba buf Hd') by (simpl; nia).
  rewrite (Hv (Z.to_nat lba) (replicate (Z.to_nat size) 0)); [by rewrite Z2Nat.id by lia|].
  apply lookup_replicate_2. lia.
Qed.

End new.

Definition sample_boot : BootFrameAllocator :=
  default (mkBoot [] 0 None 0) (boot_new [mkRegion 0x1000 0x6000 true]).

Lemma ramdisk_reads_last_write_witness :
  exists d cursor' t' a' d',
    ramdisk_new RAMDISK_VIRT_REGION_BASE (∅ : gmap Z (Z * Z)) sample_boot 3 2 = Some (d, cursor', t', a') /\
    apply_writes d [(0, [1; 2]); (1, [3; 4]); (0, [5; 6])] = Some d' /\
    read_sector d' 0 [0; 0] = Some (Ok tt, last_write (replicate 2 0) [(0, [1; 2]); (1, [3; 4]); (0, [5; 6])] 0, d').
Proof.
  apply (ramdisk_reads_last_write _ _ _ (usable_frames [mkRegion 0x1000 0x6000 true]) 3 2);
    [by exists 0xFFFFD00000000|by vm_compute|lia|lia|by vm_compute| |by vm_compute| |repeat constructor; simpl; lia|lia|done].
  - destruct (boot_new_spec [mkRegion 0x1000 0x6000 true]) as (a & E & Hr & Hp & _); [|by vm_compute|].
    + constructor; [|constructor]. intros _. simpl. split_and!; [lia|lia|lia|lia|by exists 1|by exists 6].
    + unfold sample_boot. rewrite E. done.
  - apply Forall_forall. intros. apply lookup_empty.
Defined.

(** The byte-stream view does not maintain the checksums: after storing one
    changed byte through [BlockDevice::write], reading the sector through
    [DiskDevice::read_sector] reports a checksum mismatch. *)
Theorem block_write_leaves_stale_crc (d : RamDisk) ss i s o old b buf :
  disk_ok d ss -> ss !! i = Some s -> s !! o = Some old -> u8 old -> u8 b -> b <> old ->
  Z.of_nat (length buf) = rd_sector_size d ->
  exists d' buf', block_write (block_seek d (Z.of_nat i * rd_sector_size d + Z.of_nat o)) [b] = Some (1, d') /\
    read_sector d' (Z.of_nat i) buf = Some (Err CrcMismatch, buf', d').
Proof.
  intros Hd Hi Ho Hold Hb Hne Hbuf. pose proof Hd as [Hs Hl Hm Hby Hk Hc]. pose proof (lookup_lt_Some _ _ _ Hi) as Hil.
  pose proof (lookup_lt_Some _ _ _ Ho) as Hol.
  assert (Hsl : length s = Z.to_nat (rd_sector_size d)) by (rewrite Forall_forall in Hk; apply Hk; by eapply list_elem_of_lookup_2).
  unfold block_write, block_seek. simpl. set (off := Z.of_nat i * rd_sector_size d + Z.of_nat o).
  assert (Hoff : 0 <= off /\ off + 1 <= byte_len d /\ (Z.of_nat i + 1) * rd_sector_size d <= byte_len d) by (unfold off; rewrite Hl; nia).
  replace (Z.min (Z.of_nat 1) (Z.max 0 (byte_len d - off))) with 1 by lia. simpl. unfold uadd. rewrite uchk_fits by (unfold fits; lia).
  cbn [mbind option_bind]. set (d' := mkDisk _ _ _ _ _ _ _).
  exists d', (splice buf 0 (splice s o [b])). split; [done|]. simpl. unfold ramdisk_read_sector, sector_start, umul, uadd. simpl.
  rewrite uchk_fits by (unfold fits; nia). cbn [mbind option_bind]. rewrite uchk_fits by (unfold fits; nia). cbn [mbind option_bind].
  destruct (Z.ltb_spec (byte_len d) (Z.of_nat i * rd_sector_size d + rd_sector_size d)); [lia|].
  destruct (Nat.ltb_spec (length buf) (Z.to_nat (rd_sector_size d))); [lia|]. rewrite Hc, list_lookup_fmap, Nat2Z.id, Hi. simpl.
  replace (Z.to_nat off) with (i * Z.to_nat (rd_sector_size d) + o)%nat by (unfold off; nia).
  rewrite Hby, <- (concat_splice _ _ Hk i s) by (done || simpl; lia).
  replace (Z.to_nat (Z.of_nat i * rd_sector_size d)) with (i * Z.to_nat (rd_sector_size d) + 0)%nat by nia.
  assert (Hk' : Forall (fun s => length s = Z.to_nat (rd_sector_size d)) (<[i := splice s o [b]]> ss)).
  { apply Forall_insert; [done|]. rewrite splice_length; [done|simpl; lia]. }
  rewrite (concat_slice _ _ Hk' i (splice s o [b])) by (lia || by apply list_lookup_insert_eq).
  rewrite slice_all by (rewrite splice_length; [done|simpl; lia]). rewrite (splice_all buf) by (rewrite splice_length by (simpl; lia); lia).
  destruct (Z.eqb_spec (crc32 (splice s o [b])) (crc32 s)) as [E|E]; [|done]. exfalso. revert E.
  rewrite <- (take_drop_middle s o old Ho) at 2. unfold splice. simpl. rewrite Nat.add_1_r.
  apply (crc32_burst_ne (take o s) [b] [old]); [done|simpl; lia|by repeat constructor; apply Hb|by repeat constructor; apply Hold|congruence].
Qed.

(** One zeroed two-byte sector. *)
Lemma block_write_leaves_stale_crc_witness :
  exists d' buf', block_write (block_seek (mkDisk RAMDISK_VIRT_REGION_BASE 2 2 0 [crc32 [0; 0]] [] [0; 0])
      (Z.of_nat 0 * 2 + Z.of_nat 1)) [7] = Some (1, d') /\
    read_sector d' (Z.of_nat 0) [9; 9] = Some (Err CrcMismatch, buf', d').
Proof.
  apply (block_write_leaves_stale_crc _ [[0; 0]] 0 [0; 0] 1 0); [|done..].
  split; simpl; try done. by repeat constructor.
Defined.
