(* ===== verification/DiskSched.v ===== *)
(** Disk request scheduling ([kernel/src/io/scheduler.rs]): the C-SCAN elevator
    and the first-come-first-served queue that merges adjacent writes.  The
    trait [RequestScheduler] is the class below; [drain] returns [None] where
    an addition overflows.  [sort_by_key] is the standard library's stable sort,
    written as an insertion sort. *)

From S2P Require Import Prelude.

(* io/scheduler.rs:4-8 DiskRequest *)
Record DiskRequest := mkReq { lba : Z; count : Z; is_write : bool }.

(* io/scheduler.rs:11-14 RequestScheduler *)
Class RequestScheduler (S : Type) := {
  submit : S -> DiskRequest -> S;
  drain : S -> option (list DiskRequest * S)
}.

(* io/scheduler.rs:18-21 CscanScheduler *)
Record CscanScheduler := mkCscan { cs_pending : list DiskRequest; cs_head : Z }.
(* io/scheduler.rs:24-26 new *)
Definition cscan_new : CscanScheduler := mkCscan [] 0.
(* io/scheduler.rs:54-56 FcfsScheduler *)
Record FcfsScheduler := mkFcfs { ff_pending : list DiskRequest }.
(* io/scheduler.rs:59-61 new *)
Definition fcfs_new : FcfsScheduler := mkFcfs [].

(** A new request goes before the first one with a larger key, so sorting the
    list from its end keeps equal keys in order. *)
Fixpoint insert_by_lba (r : DiskRequest) (l : list DiskRequest) : list DiskRequest :=
  match l with
  | [] => [r]
  | x :: l => if lba r <=? lba x then r :: x :: l else x :: insert_by_lba r l
  end.
Fixpoint sort_by_lba (l : list DiskRequest) : list DiskRequest :=
  match l with
  | [] => []
  | r :: l => insert_by_lba r (sort_by_lba l)
  end.

(** [iter().position(p).unwrap_or(len)] *)
Fixpoint position {A} (p : A -> bool) (l : list A) : nat :=
  match l with
  | [] => 0
  | x :: l => if p x then 0 else S (position p l)
  end.

(* io/scheduler.rs:30-32 submit *)
Definition cscan_submit (s : CscanScheduler) (req : DiskRequest) : CscanScheduler :=
  mkCscan (cs_pending s ++ [req]) (cs_head s).

(* io/scheduler.rs:34-49 drain *)
Definition cscan_drain (s : CscanScheduler) : option (list DiskRequest * CscanScheduler) :=
  let h := cs_head s in
  let above := sort_by_lba (cs_pending s) in
  let split := position (fun r => h <=? lba r) above in
  let below := take split above in
  let above := drop split above ++ below in
  match last above with
  | Some l => head ← uadd 64 (lba l) (count l); Some (above, mkCscan [] head)
  | None => Some (above, mkCscan [] h)
  end.

(* io/scheduler.rs:65-67 submit *)
Definition fcfs_submit (s : FcfsScheduler) (req : DiskRequest) : FcfsScheduler :=
  mkFcfs (ff_pending s ++ [req]).

(** One iteration: [merged] is kept with its last element apart. *)
(* io/scheduler.rs:73-83 drain *)
Definition merge_step (merged : list DiskRequest) (req : DiskRequest) : option (list DiskRequest) :=
  if is_write req then
    match last merged with
    | Some l =>
        if is_write l then
          e ← uadd 64 (lba l) (count l);
          if lba req =? e then
            c ← uadd 64 (count l) (count req);
            Some (<[(length merged - 1)%nat := mkReq (lba l) c true]> merged)
          else Some (merged ++ [req])
        else Some (merged ++ [req])
    | None => Some (merged ++ [req])
    end
  else Some (merged ++ [req]).

Fixpoint merge_loop_reqs (merged batch : list DiskRequest) : option (list DiskRequest) :=
  match batch with
  | [] => Some merged
  | req :: batch => merged ← merge_step merged req; merge_loop_reqs merged batch
  end.

(* io/scheduler.rs:69-86 drain *)
Definition fcfs_drain (s : FcfsScheduler) : option (list DiskRequest * FcfsScheduler) :=
  merged ← merge_loop_reqs [] (ff_pending s); Some (merged, mkFcfs []).

(* io/scheduler.rs:29-50 RequestScheduler *)
#[global] Instance cscan_sched : RequestScheduler CscanScheduler := {| submit := cscan_submit; drain := cscan_drain |}.
(* io/scheduler.rs:64-87 RequestScheduler *)
#[global] Instance fcfs_sched : RequestScheduler FcfsScheduler := {| submit := fcfs_submit; drain := fcfs_drain |}.

(** ** Lemmas on the sort *)

Definition by_lba (a b : DiskRequest) : Prop := lba a <= lba b.

Lemma insert_perm r l : insert_by_lba r l ≡ₚ r :: l.
Proof. induction l as [|x l IH]; simpl; [done|]. destruct (_ <=? _); [done|]. rewrite IH. constructor. Qed.

Lemma sort_perm l : sort_by_lba l ≡ₚ l.
Proof. induction l as [|r l IH]; simpl; [done|]. by rewrite insert_perm, IH. Qed.

Lemma insert_sorted r l : StronglySorted by_lba l -> StronglySorted by_lba (insert_by_lba r l).
Proof.
  induction 1 as [|x l Hs IH Hx]; simpl; [by repeat constructor|].
  destruct (Z.leb_spec (lba r) (lba x)) as [Hle|Hgt].
  - constructor; [by constructor|]. constructor; [done|]. apply (Forall_impl _ _ _ Hx). unfold by_lba. lia.
  - constructor; [done|]. rewrite insert_perm. constructor; [unfold by_lba; lia|done].
Qed.

Lemma sort_sorted l : StronglySorted by_lba (sort_by_lba l).
Proof. induction l; simpl; [constructor|by apply insert_sorted]. Qed.

(** Requests for the same sector keep their submission order. *)
Lemma insert_stable k r l :
  StronglySorted by_lba l ->
  filter (fun x => lba x = k) (insert_by_lba r l) = filter (fun x => lba x = k) (r :: l).
Proof.
  induction 1 as [|x l Hs IH Hx]; simpl; [done|]. destruct (Z.leb_spec (lba r) (lba x)); [done|].
  rewrite filter_cons, IH, !filter_cons. destruct (decide (lba x = k)), (decide (lba r = k)); try done. lia.
Qed.

Lemma sort_stable k l : filter (fun x => lba x = k) (sort_by_lba l) = filter (fun x => lba x = k) l.
Proof.
  induction l as [|r l IH]; simpl; [done|]. rewrite insert_stable by apply sort_sorted.
  rewrite !filter_cons, IH. done.
Qed.

Lemma position_split h l :
  StronglySorted by_lba l ->
  Forall (fun r => lba r < h) (take (position (fun r => h <=? lba r) l) l) /\
  Forall (fun r => h <= lba r) (drop (position (fun r => h <=? lba r) l) l).
Proof.
  induction 1 as [|x l Hs [IH1 IH2] Hx]; simpl; [auto|]. destruct (Z.leb_spec h (lba x)); simpl.
  - split; [done|]. constructor; [done|]. apply (Forall_impl _ _ _ Hx). unfold by_lba. lia.
  - split; [by constructor|done].
Qed.

(** C31. A C-SCAN drain serves every pending request exactly once: first those at
    or above the head in increasing order, then, wrapping, those below it in
    increasing order, and requests for the same sector in submission order; the
    queue is left empty and the head after the last request served. *)
Theorem cscan_drain_correct (s : CscanScheduler) :
  Forall (fun r => 0 <= lba r /\ 0 <= count r /\ lba r + count r < 2 ^ 64) (cs_pending s) ->
  exists up down s', drain s = Some (up ++ down, s') /\
    up ++ down ≡ₚ cs_pending s /\ cs_pending s' = [] /\
    StronglySorted by_lba up /\ Forall (fun r => cs_head s <= lba r) up /\
    StronglySorted by_lba down /\ Forall (fun r => lba r < cs_head s) down /\
    (forall k, filter (fun r => lba r = k) (up ++ down) = filter (fun r => lba r = k) (cs_pending s)) /\
    cs_head s' = match last (up ++ down) with Some r => lba r + count r | None => cs_head s end.
Proof.
  intros Hb. cbn [drain cscan_sched]. unfold cscan_drain. set (l := sort_by_lba (cs_pending s)). set (n := position _ l).
  assert (Hs : StronglySorted by_lba l) by apply sort_sorted. destruct (position_split (cs_head s) l Hs) as [Hd Hu].
  fold n in Hd, Hu. pose proof Hs as Hs2. rewrite <- (take_drop n l) in Hs2. apply StronglySorted_app in Hs2 as (_ & Hs_d & Hs_u).
  assert (Hp : drop n l ++ take n l ≡ₚ cs_pending s).
  { rewrite (Permutation_app_comm (drop n l)), take_drop. apply sort_perm. }
  assert (Hfilt : forall k, filter (fun r => lba r = k) (drop n l ++ take n l) = filter (fun r => lba r = k) (cs_pending s)).
  { intros k. rewrite <- (sort_stable k (cs_pending s)). fold l. rewrite <- (take_drop n l) at 3. rewrite !filter_app.
    assert (Hone : forall u (P Q : DiskRequest -> Prop), Forall P u -> (forall r, P r -> lba r = k -> False) ->
              filter (fun r => lba r = k) u = []).
    { intros u P Q HF Himp. induction HF as [|x u Hx _ IHu]; [done|]. rewrite filter_cons. destruct (decide _); [exfalso; eauto|done]. }
    destruct (Z.lt_ge_cases k (cs_head s)).
    - rewrite (Hone (drop n l) _ (fun _ => True) Hu) by (intros; lia). by rewrite app_nil_r.
    - rewrite (Hone (take n l) _ (fun _ => True) Hd) by (intros; lia). by rewrite app_nil_r. }
  destruct (last (drop n l ++ take n l)) as [r|] eqn:Hlast.
  - assert (Hr : r ∈ cs_pending s) by (rewrite <- Hp; by apply last_Some_elem_of).
    rewrite Forall_forall in Hb. specialize (Hb r Hr). unfold uadd. rewrite uchk_fits by (unfold fits; lia). cbn [mbind option_bind].
    exists (drop n l), (take n l), (mkCscan [] (lba r + count r)). rewrite Hlast. split_and!; done.
  - exists (drop n l), (take n l), (mkCscan [] (cs_head s)). rewrite Hlast. split_and!; done.
Qed.

Lemma cscan_drain_correct_witness :
  exists up down s', drain (mkCscan [mkReq 8 1 true; mkReq 2 1 false; mkReq 5 2 true] 5) = Some (up ++ down, s') /\
    up ++ down ≡ₚ [mkReq 8 1 true; mkReq 2 1 false; mkReq 5 2 true] /\ cs_pending s' = [] /\
    StronglySorted by_lba up /\ Forall (fun r => 5 <= lba r) up /\
    StronglySorted by_lba down /\ Forall (fun r => lba r < 5) down /\
    (forall k, filter (fun r => lba r = k) (up ++ down) =
       filter (fun r => lba r = k) [mkReq 8 1 true; mkReq 2 1 false; mkReq 5 2 true]) /\
    cs_head s' = match last (up ++ down) with Some r => lba r + count r | None => 5 end.
Proof. apply (cscan_drain_correct (mkCscan [mkReq 8 1 true; mkReq 2 1 false; mkReq 5 2 true] 5)). repeat constructor; done. Defined.

(** ** Write merging *)

(** The sector accesses a request stands for, in order. *)
Definition accesses (r : DiskRequest) : list (bool * Z) := (fun i => (is_write r, i)) <$> seqZ (lba r) (count r).

Definition good_req (r : DiskRequest) : Prop := 0 <= lba r /\ 0 <= count r /\ lba r + count r < 2 ^ 64.

(** No two neighbours are writes that could still be merged. *)
Definition fully_merged (l : list DiskRequest) : Prop :=
  forall i a b, l !! i = Some a -> l !! S i = Some b -> is_write a = true -> is_write b = true ->
    lba b <> lba a + count a.

Lemma fully_merged_snoc l r :
  fully_merged l ->
  (forall a, last l = Some a -> is_write a = true -> is_write r = true -> lba r <> lba a + count a) ->
  fully_merged (l ++ [r]).
Proof.
  intros Hl Hr i a b Ha Hb Hwa Hwb. destruct (decide (S i < length l)%nat) as [Hi|Hi].
  - rewrite lookup_app_l in Ha, Hb by lia. eauto.
  - assert (S i = length l) as Hlen.
    { apply lookup_lt_Some in Hb. rewrite length_app in Hb. simpl in Hb. lia. }
    rewrite lookup_app_l in Ha by lia. rewrite lookup_app_r in Hb by lia. rewrite Hlen, Nat.sub_diag in Hb. injection Hb as <-.
    apply Hr; [|done..]. rewrite last_lookup, <- Hlen. done.
Qed.

Lemma fully_merged_prefix l r : fully_merged (l ++ [r]) -> fully_merged l.
Proof. intros H i a b Ha Hb. apply (H i); by apply lookup_app_l_Some. Qed.

Lemma accesses_merge a r :
  good_req a -> good_req r -> is_write a = true -> is_write r = true -> lba r = lba a + count a ->
  accesses (mkReq (lba a) (count a + count r) true) = accesses a ++ accesses r.
Proof.
  intros (? & ? & ?) (? & ? & ?) Ha Hr E. unfold accesses. simpl. rewrite Ha, Hr, seqZ_app, fmap_app by lia.
  by rewrite <- E.
Qed.

Lemma merge_step_spec merged req :
  Forall good_req merged -> good_req req -> fully_merged merged ->
  exists merged', merge_step merged req = Some merged' /\ Forall good_req merged' /\ fully_merged merged' /\
    merged' ≫= accesses = (merged ≫= accesses) ++ accesses req.
Proof.
  intros Hm Hr Hf. unfold merge_step.
  assert (Hpush : (forall a, last merged = Some a -> is_write a = true -> is_write req = true -> lba req <> lba a + count a) ->
    Forall good_req (merged ++ [req]) /\ fully_merged (merged ++ [req]) /\
    (merged ++ [req]) ≫= accesses = (merged ≫= accesses) ++ accesses req).
  { intros Hno. split_and!; [apply Forall_app; split; [done|by constructor]|by apply fully_merged_snoc|].
    rewrite bind_app. simpl. by rewrite app_nil_r. }
  destruct (is_write req) eqn:Hw; [|eexists; split; [done|]; apply Hpush; done].
  destruct (last merged) as [l|] eqn:Hlast; [|eexists; split; [done|]; apply Hpush; done].
  destruct (is_write l) eqn:Hwl; [|eexists; split; [done|]; apply Hpush; intros ? [= <-] ?; congruence].
  apply last_Some in Hlast as [m ->]. apply Forall_app in Hm as [Hm Hl]. apply Forall_cons in Hl as [Hl _].
  destruct Hl as (? & ? & ?), Hr as (? & ? & ?). unfold uadd. rewrite (uchk_fits 64 (lba l + count l)) by (unfold fits; lia). cbn [mbind option_bind].
  destruct (Z.eqb_spec (lba req) (lba l + count l)) as [E|E].
  - rewrite uchk_fits by (unfold fits; lia). cbn [mbind option_bind]. eexists. split; [done|].
    rewrite length_app, Nat.add_sub, insert_app_r_alt, Nat.sub_diag by lia. simpl. split_and!.
    + apply Forall_app. split; [done|]. repeat constructor; simpl; lia.
    + apply fully_merged_snoc; [by eapply fully_merged_prefix|]. intros a Ha Hwa _. simpl.
      apply (Hf (length m - 1)%nat a l); [|rewrite lookup_app_r|done..].
      * rewrite last_lookup in Ha. apply lookup_app_l_Some. rewrite <- Ha. f_equal. lia.
      * destruct m as [|x m]; [done|]. simpl. by rewrite Nat.sub_0_r, Nat.sub_diag.
      * destruct m as [|x m]; [done|]. simpl. lia.
    + rewrite !bind_app. simpl. rewrite !app_nil_r, accesses_merge by done. by rewrite (assoc_L (++)).
  - eexists. split; [done|]. apply Hpush. by intros a [= <-] _ _.
Qed.

Lemma merge_loop_reqs_spec merged batch :
  Forall good_req merged -> Forall good_req batch -> fully_merged merged ->
  exists merged', merge_loop_reqs merged batch = Some merged' /\ fully_merged merged' /\
    merged' ≫= accesses = (merged ≫= accesses) ++ (batch ≫= accesses).
Proof.
  intros Hm Hb. revert merged Hm. induction Hb as [|r batch Hr _ IH]; intros merged Hm Hf; simpl.
  - exists merged. by rewrite app_nil_r.
  - destruct (merge_step_spec merged r Hm Hr Hf) as (m1 & -> & Hm1 & Hf1 & E1). cbn [mbind option_bind].
    destruct (IH m1 Hm1 Hf1) as (m2 & -> & Hf2 & E2). exists m2. split_and!; [done..|].
    by rewrite E2, E1, (assoc_L (++)).
Qed.

(** Draining the first-come-first-served queue performs exactly the sector
    accesses submitted, in the order submitted, with every run of adjacent
    writes merged into one request; it never overflows on requests that end
    within the 64-bit sector space. *)
Theorem fcfs_drain_preserves_accesses (s : FcfsScheduler) :
  Forall good_req (ff_pending s) ->
  exists merged s', drain s = Some (merged, s') /\ ff_pending s' = [] /\
    merged ≫= accesses = ff_pending s ≫= accesses /\ fully_merged merged.
Proof.
  intros Hb. destruct (merge_loop_reqs_spec [] (ff_pending s)) as (m & E & Hf & Ha); [constructor|done|done|].
  exists m, (mkFcfs []). cbn [drain fcfs_sched]. unfold fcfs_drain. rewrite E. done.
Qed.

Lemma fcfs_drain_preserves_accesses_witness :
  exists merged s', drain (mkFcfs [mkReq 5 1 true; mkReq 6 1 true; mkReq 3 1 false; mkReq 4 2 true]) = Some (merged, s') /\
    ff_pending s' = [] /\
    merged ≫= accesses = [mkReq 5 1 true; mkReq 6 1 true; mkReq 3 1 false; mkReq 4 2 true] ≫= accesses /\ fully_merged merged.
Proof. apply (fcfs_drain_preserves_accesses (mkFcfs _)). repeat constructor; done. Defined.
