(* ===== verification/FatIo.v ===== *)
(** The byte cursor the FAT driver runs on ([DiskIo] of
    [kernel/src/fs/fat.rs]): reads and writes at arbitrary byte positions on top
    of a [DiskDevice], which only moves whole sectors.  The FAT implementation
    itself is the external crate [fatfs] and is not modelled here.

    The theorems are proved against the laws of the device, not the RAM disk:
    a [DiskIo] is a flat array of bytes with a position. *)

From S2P Require Import Prelude Crc Disk.

(* fs/fat.rs:28-28 FatIoError *)
Inductive FatIoError := mkFatIoError.

(* fs/fat.rs:9-13 DiskIo *)
Record DiskIo (D : Type) := mkIo { dev : D; io_pos : Z; sector_buf : list Z }.
Arguments mkIo {D}.
Arguments dev {D}.
Arguments io_pos {D}.
Arguments sector_buf {D}.

Inductive SeekFrom := SeekStart (n : Z) | SeekEnd (n : Z) | SeekCurrent (n : Z).

Section operations.
Context {D : Type} `{DiskDevice D}.

(* fs/fat.rs:16-23 new *)
Definition io_new (d : D) : DiskIo D := mkIo d 0 (replicate (Z.to_nat (sector_size d)) 0).

(* fs/fat.rs:48-60 read *)
Fixpoint io_read_loop (fuel : nat) (io : DiskIo D) (buf : list Z) (bytes_read : nat)
    : option (result FatIoError Z * list Z * DiskIo D) :=
  if (bytes_read <? length buf)%nat then
    match fuel with
    | O => None
    | S fuel =>
        let size := sector_size (dev io) in
        if size =? 0 then None else
        let lba := io_pos io / size in
        let offset_in_sector := Z.to_nat (io_pos io mod size) in
        '(r, sb, d) ← read_sector (dev io) lba (sector_buf io);
        match r with
        | Err _ => Some (Err mkFatIoError, buf, mkIo d (io_pos io) sb)
        | Ok _ =>
            let available := (Z.to_nat size - offset_in_sector)%nat in
            let to_copy := Nat.min available (length buf - bytes_read) in
            if (length sb <? offset_in_sector + to_copy)%nat then None else
            let buf := splice buf bytes_read (slice offset_in_sector to_copy sb) in
            pos ← uadd 64 (io_pos io) (Z.of_nat to_copy);
            io_read_loop fuel (mkIo d pos sb) buf (bytes_read + to_copy)
        end
    end
  else Some (Ok (Z.of_nat bytes_read), buf, io).

(** Each iteration copies at least one byte. *)
(* fs/fat.rs:44-63 read *)
Definition io_read (io : DiskIo D) (buf : list Z) : option (result FatIoError Z * list Z * DiskIo D) :=
  io_read_loop (length buf) io buf 0.

(* fs/fat.rs:72-92 write *)
Fixpoint io_write_loop (fuel : nat) (io : DiskIo D) (buf : list Z) (bytes_written : nat)
    : option (result FatIoError Z * DiskIo D) :=
  if (bytes_written <? length buf)%nat then
    match fuel with
    | O => None
    | S fuel =>
        let size := sector_size (dev io) in
        if size =? 0 then None else
        let lba := io_pos io / size in
        let offset_in_sector := Z.to_nat (io_pos io mod size) in
        let available := (Z.to_nat size - offset_in_sector)%nat in
        let to_copy := Nat.min available (length buf - bytes_written) in
        let whole_sector := ((offset_in_sector =? 0) && (to_copy =? Z.to_nat size))%nat in
        '(r, io) ←
          (if whole_sector then
             '(r, d) ← write_sector (dev io) lba (slice bytes_written to_copy buf);
             Some (r, mkIo d (io_pos io) (sector_buf io))
           else
             '(r, sb, d) ← read_sector (dev io) lba (sector_buf io);
             match r with
             | Err e => Some (Err e, mkIo d (io_pos io) sb)
             | Ok _ =>
                 if (length sb <? offset_in_sector + to_copy)%nat then None else
                 let sb := splice sb offset_in_sector (slice bytes_written to_copy buf) in
                 '(r, d) ← write_sector d lba sb;
                 Some (r, mkIo d (io_pos io) sb)
             end);
        match r with
        | Err _ => Some (Err mkFatIoError, io)
        | Ok _ =>
            pos ← uadd 64 (io_pos io) (Z.of_nat to_copy);
            io_write_loop fuel (mkIo (dev io) pos (sector_buf io)) buf (bytes_written + to_copy)
        end
    end
  else Some (Ok (Z.of_nat bytes_written), io).

(* fs/fat.rs:68-95 write *)
Definition io_write (io : DiskIo D) (buf : list Z) : option (result FatIoError Z * DiskIo D) :=
  io_write_loop (length buf) io buf 0.

(* fs/fat.rs:97-100 flush *)
Definition io_flush (io : DiskIo D) : result FatIoError unit * DiskIo D := (Ok tt, io).

(** [i64] addition panics on overflow; the casts reinterpret the bits. *)
Definition i64_add_as_u64 (a n : Z) : option Z :=
  let s := as_signed 64 a + n in
  if (- 2 ^ 63 <=? s) && (s <? 2 ^ 63) then Some (wrap 64 s) else None.

(* fs/fat.rs:105-113 seek *)
Definition io_seek (io : DiskIo D) (p : SeekFrom) : option (result FatIoError Z * DiskIo D) :=
  total ← umul 64 (sector_count (dev io)) (sector_size (dev io));
  pos ← match p with
        | SeekStart n => Some n
        | SeekEnd n => i64_add_as_u64 total n
        | SeekCurrent n => i64_add_as_u64 (io_pos io) n
        end;
  Some (Ok pos, mkIo (dev io) pos (sector_buf io)).

End operations.

(** ** The cursor as a flat byte array *)

Section refinement.
Context {D : Type} `{DiskLaws D}.

(** [io_rep io flat]: the device holds the bytes [flat], and the position is in
    the 64-bit range. *)
Definition io_rep (io : DiskIo D) (flat : list Z) : Prop :=
  exists ss, disk_rep (dev io) ss /\ flat = concat ss /\
    Z.of_nat (length (sector_buf io)) = sector_size (dev io) /\ 0 <= io_pos io.

Lemma io_rep_sectors io flat ss :
  disk_rep (dev io) ss -> flat = concat ss ->
  Forall (fun s => length s = Z.to_nat (sector_size (dev io))) ss /\
  length flat = (length ss * Z.to_nat (sector_size (dev io)))%nat.
Proof.
  intros Hd ->. destruct (rep_size _ _ Hd) as (? & _ & Hk & _).
  assert (Hk' : Forall (fun s => length s = Z.to_nat (sector_size (dev io))) ss) by (apply (Forall_impl _ _ _ Hk); lia).
  split; [done|]. by apply concat_length_uniform.
Qed.

(** The sector under the cursor. *)
Lemma io_locate io ss :
  disk_rep (dev io) ss -> 0 <= io_pos io -> io_pos io < Z.of_nat (length (concat ss)) ->
  exists s, let size := sector_size (dev io) in
    let i := Z.to_nat (io_pos io / size) in let off := Z.to_nat (io_pos io mod size) in
    ss !! i = Some s /\ length s = Z.to_nat size /\ (off < Z.to_nat size)%nat /\
    Z.to_nat (io_pos io) = (i * Z.to_nat size + off)%nat /\ 0 <= io_pos io / size /\
    (io_pos io / size + 1) * size < 2 ^ 64.
Proof.
  intros Hd Hp Hlt. destruct (rep_size _ _ Hd) as (Hs & Hc & _ & Hmax). destruct (io_rep_sectors io _ ss Hd eq_refl) as [Hk Hl].
  set (size := sector_size (dev io)) in *. pose proof (Z.div_mod (io_pos io) size) as Hdm. pose proof (Z.mod_pos_bound (io_pos io) size).
  assert (0 <= io_pos io / size) by (apply Z.div_pos; lia).
  assert (io_pos io / size < Z.of_nat (length ss)) by (apply Z.div_lt_upper_bound; nia).
  destruct (lookup_lt_is_Some_2 ss (Z.to_nat (io_pos io / size))) as [s Es]; [lia|]. exists s.
  split_and!; [done| |lia|nia|done|nia]. rewrite Forall_forall in Hk. apply Hk. by eapply list_elem_of_lookup_2.
Qed.

Lemma io_read_loop_spec fuel io ss buf br :
  disk_rep (dev io) ss -> Z.of_nat (length (sector_buf io)) = sector_size (dev io) -> 0 <= io_pos io ->
  (br <= length buf)%nat -> (length buf - br <= fuel)%nat ->
  io_pos io + Z.of_nat (length buf - br) <= Z.of_nat (length (concat ss)) ->
  exists sb, length sb = length (sector_buf io) /\ io_read_loop fuel io buf br =
    Some (Ok (Z.of_nat (length buf)), splice buf br (slice (Z.to_nat (io_pos io)) (length buf - br) (concat ss)),
          mkIo (dev io) (io_pos io + Z.of_nat (length buf - br)) sb).
Proof.
  revert io buf br. induction fuel as [|fuel IH]; intros [d p sb0] buf br Hd Hsb Hp Hbr Hfuel Hin; simpl in *.
  all: destruct (Nat.ltb_spec br (length buf)) as [Hlt|Hge]; [try lia|].
  1,3: exists sb0; replace br with (length buf) by lia; split; [done|]; rewrite Nat.sub_diag; unfold splice, slice; simpl;
    rewrite firstn_all, drop_ge, app_nil_r, Z.add_0_r by lia; done.
  destruct (io_locate (mkIo d p sb0) ss Hd Hp) as (s & Es & Hsl & Hoff & Epos & Hl0 & Hlmax); [simpl; lia|]. simpl in *.
  destruct (rep_size _ _ Hd) as (Hs & _ & _ & Hmax). destruct (io_rep_sectors (mkIo d p sb0) _ ss Hd eq_refl) as [Hk Hflat]. simpl in *.
  destruct (Z.eqb_spec (sector_size d) 0); [lia|]. rewrite (rep_read d ss _ sb0 Hd Hsb Hl0 Hlmax), Es. cbn [mbind option_bind].
  set (off := Z.to_nat (p mod sector_size d)) in *. set (c := Nat.min _ _).
  assert (Hc : (0 < c /\ c <= length buf - br /\ off + c <= Z.to_nat (sector_size d))%nat) by (unfold c; lia).
  destruct (Nat.ltb_spec (length s) (off + c)); [lia|]. unfold uadd. rewrite uchk_fits by (unfold fits; lia). cbn [mbind option_bind].
  rewrite <- (concat_slice _ _ Hk _ s off c Es), <- Epos by lia.
  set (chunk := slice (Z.to_nat p) c (concat ss)). assert (Hcl : length chunk = c) by (apply slice_length; lia).
  set (buf1 := splice buf br chunk). assert (Hb1 : length buf1 = length buf) by (apply splice_length; lia).
  destruct (IH (mkIo d (p + Z.of_nat c) s) buf1 (br + c)%nat Hd) as (sb & Hsbl & E); simpl; [lia..|].
  exists sb. simpl in *. split; [lia|]. rewrite E, Hb1. f_equal. f_equal; [f_equal|f_equal; lia].
  unfold buf1. rewrite <- Hcl at 1. rewrite <- splice_app_split by lia. f_equal. unfold chunk.
  replace (Z.to_nat (p + Z.of_nat c)) with (Z.to_nat p + c)%nat by lia. rewrite <- slice_app_split. f_equal. lia.
Qed.

Lemma io_write_loop_spec fuel io ss buf bw :
  disk_rep (dev io) ss -> Z.of_nat (length (sector_buf io)) = sector_size (dev io) -> 0 <= io_pos io ->
  (bw <= length buf)%nat -> (length buf - bw <= fuel)%nat ->
  io_pos io + Z.of_nat (length buf - bw) <= Z.of_nat (length (concat ss)) ->
  exists io' ss', io_write_loop fuel io buf bw = Some (Ok (Z.of_nat (length buf)), io') /\
    disk_rep (dev io') ss' /\ concat ss' = splice (concat ss) (Z.to_nat (io_pos io)) (drop bw buf) /\
    Z.of_nat (length (sector_buf io')) = sector_size (dev io') /\ sector_size (dev io') = sector_size (dev io) /\
    io_pos io' = io_pos io + Z.of_nat (length buf - bw).
Proof.
  revert io ss bw. induction fuel as [|fuel IH]; intros [d p sb0] ss bw Hd Hsb Hp Hbw Hfuel Hin; simpl in *.
  all: destruct (Nat.ltb_spec bw (length buf)) as [Hlt|Hge]; [try lia|].
  1,3: exists (mkIo d p sb0), ss; replace bw with (length buf) by lia; rewrite Nat.sub_diag, drop_ge by lia;
    unfold splice; simpl; rewrite Nat.add_0_r, take_drop, Z.add_0_r; done.
  destruct (io_locate (mkIo d p sb0) ss Hd Hp) as (s & Es & Hsl & Hoff & Epos & Hl0 & Hlmax); [simpl; lia|]. simpl in *.
  destruct (rep_size _ _ Hd) as (Hs & _ & _ & Hmax). destruct (io_rep_sectors (mkIo d p sb0) _ ss Hd eq_refl) as [Hk Hflat]. simpl in *.
  destruct (Z.eqb_spec (sector_size d) 0); [lia|].
  set (off := Z.to_nat (p mod sector_size d)) in *. set (c := Nat.min _ _). set (i := Z.to_nat (p / sector_size d)) in *.
  assert (Hc : (0 < c /\ c <= length buf - bw /\ off + c <= Z.to_nat (sector_size d))%nat) by (unfold c; lia).
  set (chunk := slice bw c buf). assert (Hcl : length chunk = c) by (apply slice_length; lia).
  assert (Hi : p / sector_size d < Z.of_nat (length ss)) by (apply lookup_lt_Some in Es; lia).
  set (upd := if _ : bool then _ else _).
  assert (exists d1 sb1, upd = Some (Ok tt, mkIo d1 p sb1) /\ disk_rep d1 (<[i := splice s off chunk]> ss) /\
            Z.of_nat (length sb1) = sector_size d /\ sector_size d1 = sector_size d) as (d1 & sb1 & -> & Hd1 & Hsb1 & Hs1).
  { unfold upd. destruct ((off =? 0) && (c =? Z.to_nat (sector_size d)))%nat eqn:Hw.
    - apply andb_true_iff in Hw as [E0%Nat.eqb_eq Ec%Nat.eqb_eq].
      destruct (rep_write d ss _ chunk Hd ltac:(lia) Hl0 Hlmax) as (d1 & -> & Hd1 & Hs1). rewrite decide_True by done. simpl.
      exists d1, sb0. fold i in Hd1. rewrite E0, splice_all by lia. done.
    - rewrite (rep_read d ss _ sb0 Hd Hsb Hl0 Hlmax). fold i. rewrite Es. simpl. destruct (Nat.ltb_spec (length s) (off + c)); [lia|].
      assert (Hnl : length (splice s off chunk) = length s) by (apply splice_length; lia).
      destruct (rep_write d ss _ (splice s off chunk) Hd ltac:(lia) Hl0 Hlmax) as (d1 & -> & Hd1 & Hs1). rewrite decide_True by done. simpl.
      eexists d1, _. split_and!; [done|done|lia|done]. }
  cbn [mbind option_bind io_pos dev sector_buf]. unfold uadd. rewrite uchk_fits by (unfold fits; lia). cbn [mbind option_bind].
  pose proof (concat_splice _ _ Hk i s off chunk Es ltac:(lia)) as Hflat1. rewrite <- Epos in Hflat1.
  destruct (IH (mkIo d1 (p + Z.of_nat c) sb1) _ (bw + c)%nat Hd1) as (io' & ss' & E & Hd' & Hf & Hsb' & Hs' & Hp'); simpl in *; [lia..| |].
  { rewrite Hflat1, splice_length by lia. lia. }
  exists io', ss'. rewrite E. split_and!; [done|done| |lia|congruence|lia].
  rewrite Hf, Hflat1. replace (Z.to_nat (p + Z.of_nat c)) with (Z.to_nat p + length chunk)%nat by lia.
  rewrite <- splice_app_split by lia. f_equal. unfold chunk, slice. rewrite <- (take_drop c (drop bw buf)) at 2. by rewrite drop_drop.
Qed.


Lemma io_seek_start io flat p :
  io_rep io flat -> io_seek io (SeekStart p) = Some (Ok p, mkIo (dev io) p (sector_buf io)).
Proof.
  intros (ss & Hd & _). destruct (rep_size _ _ Hd) as (? & Hc & _ & ?). unfold io_seek, umul.
  rewrite Hc, uchk_fits by (unfold fits; lia). done.
Qed.

(** C5. Writing bytes at any position inside the volume succeeds and changes
    exactly those bytes, whatever their alignment to sectors, and reading the
    same range back returns them: the cursor refines a flat byte array. *)
Theorem diskio_write_read_round_trip (io : DiskIo D) flat p data buf :
  io_rep io flat -> 0 <= p -> p + Z.of_nat (length data) <= Z.of_nat (length flat) -> length buf = length data ->
  exists io1 io2 io3 io4,
    io_seek io (SeekStart p) = Some (Ok p, io1) /\
    io_write io1 data = Some (Ok (Z.of_nat (length data)), io2) /\
    io_rep io2 (splice flat (Z.to_nat p) data) /\
    io_seek io2 (SeekStart p) = Some (Ok p, io3) /\
    io_read io3 buf = Some (Ok (Z.of_nat (length data)), data, io4) /\
    io_rep io4 (splice flat (Z.to_nat p) data).
Proof.
  intros Hrep Hp Hle Hbuf. pose proof Hrep as (ss & Hd & -> & Hsb & _).
  destruct (io_write_loop_spec (length data) (mkIo (dev io) p (sector_buf io)) ss data 0) as (io2 & ss2 & E2 & Hd2 & Hf2 & Hsb2 & Hs2 & Hp2);
    simpl in *; try lia; try done.
  rewrite drop_0 in Hf2. assert (Hfl : length (concat ss2) = length (concat ss)) by (rewrite Hf2; apply splice_length; lia).
  destruct (io_read_loop_spec (length buf) (mkIo (dev io2) p (sector_buf io2)) ss2 buf 0) as (sb & Hsbl & E4); simpl in *; try lia; try done.
  assert (Hrep2 : io_rep io2 (splice (concat ss) (Z.to_nat p) data)) by (exists ss2; rewrite Hf2; split_and!; [done|done|lia|lia]).
  exists (mkIo (dev io) p (sector_buf io)), io2, (mkIo (dev io2) p (sector_buf io2)), (mkIo (dev io2) (p + Z.of_nat (length data)) sb).
  split_and!; [by apply (io_seek_start _ (concat ss))|exact E2|done|by eapply io_seek_start| |].
  - unfold io_read. rewrite E4, Nat.sub_0_r, Hbuf, Hf2, splice_slice by lia. by rewrite splice_all by lia.
  - exists ss2. rewrite Hf2. simpl. split_and!; [done|done|lia|lia].
Qed.

End refinement.

(** Four two-byte sectors; three bytes written across a sector boundary. *)
Lemma diskio_write_read_round_trip_witness :
  let d := mkDisk RAMDISK_VIRT_REGION_BASE 8 2 0 (replicate 4 (crc32 [0; 0])) [] (replicate 8 0) in
  exists io1 io2 io3 io4,
    io_seek (io_new d) (SeekStart 1) = Some (Ok 1, io1) /\
    io_write io1 [7; 8; 9] = Some (Ok 3, io2) /\
    io_rep io2 (splice (replicate 8 0) 1 [7; 8; 9]) /\
    io_seek io2 (SeekStart 1) = Some (Ok 1, io3) /\
    io_read io3 [0; 0; 0] = Some (Ok 3, [7; 8; 9], io4) /\
    io_rep io4 (splice (replicate 8 0) 1 [7; 8; 9]).
Proof.
  intros d. apply (diskio_write_read_round_trip (io_new d) (replicate 8 0) 1 [7; 8; 9] [0; 0; 0]); [|lia|done|done].
  exists (replicate 4 [0; 0]). split_and!; [|done..]. split; try done. by repeat constructor.
Defined.
