(* ===== verification/Swap.v ===== *)
(** The swap area ([SwapPartition] of [kernel/src/memory/swap.rs]): page slots on
    a RAM disk of their own.  Frames are read and written through the
    physical-memory window at [PHYS_MEM_OFFSET].  The page-fault side and
    the eviction of one page are in [Vmm]. *)

From S2P Require Import Prelude Crc Bytes X86 Frames Disk.

(* arch/paging.rs:9-9 PHYS_MEM_OFFSET *)
Definition PHYS_MEM_OFFSET : Z := 0xFFFF800000000000.

(* memory/swap.rs:16-19 SECTOR_SIZE *)
Definition SECTOR_SIZE : Z := 512.
Definition SECTORS_PER_PAGE : Z := PAGE_SIZE / SECTOR_SIZE.
Definition SWAP_PAGES : Z := 1024.

(* memory/swap.rs:32-36 SwapPartition *)
Record SwapPartition := mkSwap {
  sw_disk : RamDisk;
  sw_free : list bool;
  sw_cursor : nat
}.

Section new.
Context `{X86Addr} {T : Type} `{PageTables T} {A : Type} `{FrameAlloc A}.
(* memory/swap.rs:39-42 new *)
Definition swap_new (virt_cursor : Z) (t : T) (a : A) (pages : Z) : option (SwapPartition * Z * T * A) :=
  sectors ← umul 64 pages SECTORS_PER_PAGE;
  '(disk, virt_cursor, t, a) ← ramdisk_new virt_cursor t a sectors SECTOR_SIZE;
  Some (mkSwap disk (replicate (Z.to_nat pages) true) 0, virt_cursor, t, a).
(** The global swap area after start-up. *)
(* memory/swap.rs:91-94 init *)
Definition swap_init (virt_cursor : Z) (t : T) (a : A) : option (option SwapPartition * Z * T * A) :=
  '(part, virt_cursor, t, a) ← swap_new virt_cursor t a SWAP_PAGES;
  Some (Some part, virt_cursor, t, a).
End new.

(* memory/swap.rs:46-53 alloc_slot *)
Fixpoint alloc_slot_loop (ks : list nat) (p : SwapPartition) : option nat * SwapPartition :=
  match ks with
  | [] => (None, p)
  | i :: ks =>
      let n := length (sw_free p) in
      let idx := ((sw_cursor p + i) mod n)%nat in
      if default false (sw_free p !! idx)
      then (Some idx, mkSwap (sw_disk p) (<[idx := false]> (sw_free p)) ((idx + 1) mod n))
      else alloc_slot_loop ks p
  end.

(* memory/swap.rs:44-55 alloc_slot *)
Definition alloc_slot (p : SwapPartition) : option nat * SwapPartition :=
  alloc_slot_loop (seq 0 (length (sw_free p))) p.

(** [true]: all sectors written; [false]: a write failed. *)
(* memory/swap.rs:62-66 swap_out *)
Fixpoint swap_out_loop (ks : list Z) (d : RamDisk) (m : memory) (base slot : Z) : option (bool * RamDisk) :=
  match ks with
  | [] => Some (true, d)
  | i :: ks =>
      s0 ← umul 64 slot SECTORS_PER_PAGE;
      lba ← uadd 64 s0 i;
      '(r, d) ← write_sector d lba (read_bytes m (base + i * SECTOR_SIZE) (Z.to_nat SECTOR_SIZE));
      if is_ok r then swap_out_loop ks d m base slot else Some (false, d)
  end.

(* memory/swap.rs:59-68 swap_out *)
Definition part_swap_out (p : SwapPartition) (m : memory) (frame : Z) : option (option Z * SwapPartition) :=
  match alloc_slot p with
  | (None, p) => Some (None, p)
  | (Some slot, p) =>
      base ← uadd 64 PHYS_MEM_OFFSET frame;
      '(ok, d) ← swap_out_loop (seqZ 0 SECTORS_PER_PAGE) (sw_disk p) m base (Z.of_nat slot);
      let p := mkSwap d (sw_free p) (sw_cursor p) in
      Some (if (ok : bool) then Some (Z.of_nat slot) else None, p)
  end.

(* memory/swap.rs:80-84 free_slot *)
Definition free_slot (p : SwapPartition) (slot : Z) : SwapPartition :=
  mkSwap (sw_disk p) (<[Z.to_nat slot := true]> (sw_free p)) (sw_cursor p).

(* memory/swap.rs:72-76 swap_in *)
Fixpoint swap_in_loop (ks : list Z) (d : RamDisk) (m : memory) (base slot : Z) : option (memory * RamDisk) :=
  match ks with
  | [] => Some (m, d)
  | i :: ks =>
      s0 ← umul 64 slot SECTORS_PER_PAGE;
      lba ← uadd 64 s0 i;
      let a := base + i * SECTOR_SIZE in
      '(r, buf, d) ← read_sector d lba (read_bytes m a (Z.to_nat SECTOR_SIZE));
      if is_ok r then swap_in_loop ks d (write_bytes m a buf) base slot else None
  end.

(* memory/swap.rs:70-78 swap_in *)
Definition part_swap_in (p : SwapPartition) (m : memory) (slot frame : Z) : option (memory * SwapPartition) :=
  base ← uadd 64 PHYS_MEM_OFFSET frame;
  '(m, d) ← swap_in_loop (seqZ 0 SECTORS_PER_PAGE) (sw_disk p) m base slot;
  Some (m, free_slot (mkSwap d (sw_free p) (sw_cursor p)) slot).

(** On the global swap area; [None] when it is not initialised. *)
(* memory/swap.rs:96-98 swap_in *)
Definition swap_in (swap : option SwapPartition) (m : memory) (slot frame : Z) : option (memory * option SwapPartition) :=
  sw ← swap;
  '(m, sw) ← part_swap_in sw m slot frame;
  Some (m, Some sw).

(** The contents of a page slot. *)
Definition slot_page (ss : list (list Z)) (slot : nat) : list Z := concat (slice (8 * slot) 8 ss).

(** [swap_rep p pages]: the slots in use are those of [pages], holding its pages. *)
Record swap_rep (p : SwapPartition) (pages : gmap nat (list Z)) : Prop := mkSwapRep {
  sr_disk : exists ss, disk_ok (sw_disk p) ss /\ length ss = (8 * length (sw_free p))%nat /\
    forall slot pg, pages !! slot = Some pg -> slot_page ss slot = pg;
  sr_size : rd_sector_size (sw_disk p) = 512;
  sr_used : forall slot, sw_free p !! slot = Some false <-> is_Some (pages !! slot);
  sr_dom : forall slot, is_Some (pages !! slot) -> (slot < length (sw_free p))%nat;
  sr_cursor : sw_free p <> [] -> (sw_cursor p < length (sw_free p))%nat
}.

(** ** Slots *)

Lemma alloc_slot_loop_spec ks p :
  (forall i, i ∈ ks -> (i < length (sw_free p))%nat) ->
  (exists idx, alloc_slot_loop ks p =
      (Some idx, mkSwap (sw_disk p) (<[idx := false]> (sw_free p)) ((idx + 1) mod length (sw_free p))) /\
      sw_free p !! idx = Some true) \/
  (alloc_slot_loop ks p = (None, p) /\
   forall i, i ∈ ks -> sw_free p !! ((sw_cursor p + i) mod length (sw_free p))%nat = Some false).
Proof.
  induction ks as [|i ks IH]; intros Hi; simpl.
  { right. split; [done|]. intros i Hin. by apply not_elem_of_nil in Hin. }
  assert (Hn : (0 < length (sw_free p))%nat) by (specialize (Hi i ltac:(constructor)); lia).
  set (idx := ((sw_cursor p + i) mod length (sw_free p))%nat).
  destruct (lookup_lt_is_Some_2 (sw_free p) idx) as [b Hb]; [apply Nat.mod_upper_bound; lia|]. rewrite Hb. destruct b; simpl.
  - left. eauto.
  - destruct IH as [IH|[IH1 IH2]]; [intros j Hj; apply Hi; by constructor|by left|]. right. split; [done|].
    intros j Hj. apply elem_of_cons in Hj as [->|Hj]; auto.
Qed.

(** Scanning the slots circularly from the cursor misses none. *)
Lemma circular_scan (c n idx : nat) : (c < n)%nat -> (idx < n)%nat -> exists i, (i < n)%nat /\ ((c + i) mod n)%nat = idx.
Proof.
  intros Hc Hi. destruct (decide (c <= idx)%nat).
  - exists (idx - c)%nat. split; [lia|]. replace (c + (idx - c))%nat with idx by lia. by apply Nat.mod_small.
  - exists (n - c + idx)%nat. split; [lia|]. replace (c + (n - c + idx))%nat with (idx + 1 * n)%nat by lia.
    rewrite Nat.Div0.mod_add. by apply Nat.mod_small.
Qed.

Lemma alloc_slot_spec p :
  (sw_free p <> [] -> (sw_cursor p < length (sw_free p))%nat) ->
  (exists idx, alloc_slot p =
      (Some idx, mkSwap (sw_disk p) (<[idx := false]> (sw_free p)) ((idx + 1) mod length (sw_free p))) /\
      sw_free p !! idx = Some true) \/
  (alloc_slot p = (None, p) /\ Forall (fun b => b = false) (sw_free p)).
Proof.
  intros Hc. unfold alloc_slot. destruct (alloc_slot_loop_spec (seq 0 (length (sw_free p))) p) as [?|[E Hall]]; [|by left|right].
  { intros i Hi. apply elem_of_seq in Hi. lia. }
  split; [done|]. apply Forall_lookup. intros idx b Hb. pose proof (lookup_lt_Some _ _ _ Hb) as Hlt.
  destruct (circular_scan (sw_cursor p) (length (sw_free p)) idx) as (i & Hi & Emod); [apply Hc; by intros E0; rewrite E0 in Hlt; simpl in Hlt; lia|done|].
  specialize (Hall i). rewrite Emod in Hall. rewrite Hall in Hb by (apply elem_of_seq; lia). congruence.
Qed.

(** ** Moving a page *)

Lemma list_fmap_seq_eq {A} (l : list A) (f : nat -> A) n :
  length l = n -> (forall i, (i < n)%nat -> l !! i = Some (f i)) -> l = f <$> seq 0 n.
Proof.
  intros Hl Hf. apply list_eq. intros i. destruct (decide (i < n)%nat) as [Hi|Hi].
  - rewrite Hf, list_lookup_fmap by done. rewrite lookup_seq_lt by done. done.
  - rewrite !lookup_ge_None_2; [done|rewrite length_fmap, length_seq; lia|lia].
Qed.

Lemma swap_out_loop_spec n i d ss m base slot :
  disk_ok d ss -> rd_sector_size d = 512 -> 0 <= i -> (8 * slot + 8 <= length ss)%nat -> i + Z.of_nat n = 8 ->
  exists d' ss', swap_out_loop (seqZ i (Z.of_nat n)) d m base (Z.of_nat slot) = Some (true, d') /\
    disk_ok d' ss' /\ length ss' = length ss /\ rd_sector_size d' = 512 /\
    forall j, ss' !! j = if decide (8 * Z.of_nat slot + i <= Z.of_nat j < 8 * Z.of_nat slot + 8)
                         then Some (read_bytes m (base + (Z.of_nat j - 8 * Z.of_nat slot) * 512) 512) else ss !! j.
Proof.
  revert i d ss. induction n as [|n IH]; intros i d ss Hd Hs Hi Hlen Hn.
  { exists d, ss. rewrite seqZ_nil by lia. split_and!; try done. intros j. by rewrite decide_False by lia. }
  rewrite seqZ_cons by lia. replace (Z.pred (Z.of_nat (S n))) with (Z.of_nat n) by lia. cbn [swap_out_loop].
  pose proof (ok_len _ _ Hd) as Hbl. pose proof (ok_max _ _ Hd). unfold umul, uadd. change SECTORS_PER_PAGE with 8.
  rewrite (uchk_fits 64 (Z.of_nat slot * 8)) by (unfold fits; lia). cbn [mbind option_bind].
  rewrite uchk_fits by (unfold fits; lia). cbn [mbind option_bind]. change (Z.to_nat SECTOR_SIZE) with 512%nat. change SECTOR_SIZE with 512.
  set (buf := read_bytes _ _ _). assert (Hbuf : length buf = 512%nat) by apply read_bytes_length.
  destruct (@rep_write RamDisk _ ramdisk_laws d ss (Z.of_nat slot * 8 + i) buf Hd) as (d1 & E & Hd1 & Hs1);
    [cbn; lia|lia|cbn; lia|]. rewrite E, decide_True by lia. cbn [mbind option_bind is_ok].
  destruct (IH (i + 1) d1 (<[Z.to_nat (Z.of_nat slot * 8 + i) := buf]> ss)) as (d' & ss' & E' & Hd' & Hl' & Hs' & Hv);
    [done|cbn in Hs1; lia|lia|rewrite length_insert; lia|lia|]. rewrite length_insert in Hl'.
  exists d', ss'. replace (Z.succ i) with (i + 1) by lia. split_and!; [done|done|done|done|].
  intros j. rewrite Hv. destruct (decide (8 * Z.of_nat slot + i <= Z.of_nat j < 8 * Z.of_nat slot + 8)).
  - destruct (decide (Z.of_nat j = 8 * Z.of_nat slot + i)) as [Ej|Nj].
    + rewrite decide_False by lia. replace (Z.to_nat (Z.of_nat slot * 8 + i)) with j by lia.
      rewrite list_lookup_insert_eq by lia. unfold buf. do 3 f_equal. lia.
    + by rewrite decide_True by lia.
  - rewrite decide_False by lia. apply list_lookup_insert_ne. lia.
Qed.

Lemma swap_in_loop_spec n i d ss m base slot :
  disk_ok d ss -> rd_sector_size d = 512 -> 0 <= i -> (8 * slot + 8 <= length ss)%nat -> i + Z.of_nat n = 8 ->
  exists m', swap_in_loop (seqZ i (Z.of_nat n)) d m base (Z.of_nat slot) = Some (m', d) /\
    same_outside (base + i * 512) (Z.of_nat n * 512) m m' /\
    forall j s, i <= j < 8 -> ss !! Z.to_nat (8 * Z.of_nat slot + j) = Some s -> read_bytes m' (base + j * 512) 512 = s.
Proof.
  revert i m. induction n as [|n IH]; intros i m Hd Hs Hi Hlen Hn.
  { exists m. rewrite seqZ_nil by lia. split_and!; [done|done|lia]. }
  rewrite seqZ_cons by lia. replace (Z.pred (Z.of_nat (S n))) with (Z.of_nat n) by lia. cbn [swap_in_loop].
  pose proof (ok_len _ _ Hd) as Hbl. pose proof (ok_max _ _ Hd). unfold umul, uadd. change SECTORS_PER_PAGE with 8.
  rewrite (uchk_fits 64 (Z.of_nat slot * 8)) by (unfold fits; lia). cbn [mbind option_bind].
  rewrite uchk_fits by (unfold fits; lia). cbn [mbind option_bind]. change (Z.to_nat SECTOR_SIZE) with 512%nat. change SECTOR_SIZE with 512.
  destruct (lookup_lt_is_Some_2 ss (Z.to_nat (Z.of_nat slot * 8 + i))) as [s Es]; [lia|].
  assert (Hsl : length s = 512%nat).
  { pose proof (ok_sectors _ _ Hd) as Hk. rewrite Hs, Forall_forall in Hk. apply Hk. by eapply list_elem_of_lookup_2. }
  rewrite (@rep_read RamDisk _ ramdisk_laws d ss); [|done|rewrite read_bytes_length; cbn; lia|lia|cbn; lia].
  rewrite Es. cbn [mbind option_bind is_ok]. set (m1 := write_bytes _ _ s).
  destruct (IH (i + 1) m1 Hd Hs) as (m' & E & Hout & Hv); [lia..|]. exists m'. replace (Z.succ i) with (i + 1) by lia. split_and!; [done| |].
  - intros x Hx. rewrite Hout by lia. apply get_write_bytes_out. rewrite Hsl. lia.
  - intros j s' Hj Es'. destruct (decide (j = i)) as [->|Hne]; [|apply Hv; [lia|done]].
    rewrite (read_bytes_ext m1 m') by (intros x Hx; apply Hout; lia).
    replace (8 * Z.of_nat slot + i) with (Z.of_nat slot * 8 + i) in Es' by lia. assert (s' = s) as -> by congruence.
    unfold m1. rewrite <- Hsl. apply read_write_bytes.
Qed.

(** ** The swap area as a finite map from slots to pages *)

Lemma slot_page_reads ss slot m base :
  (8 * slot + 8 <= length ss)%nat ->
  (forall j s, 0 <= j < 8 -> ss !! Z.to_nat (8 * Z.of_nat slot + j) = Some s -> read_bytes m (base + j * 512) 512 = s) ->
  slot_page ss slot = read_bytes m base (8 * 512).
Proof.
  intros Hlen Hv. unfold slot_page. rewrite <- read_bytes_chunks. f_equal. apply list_fmap_seq_eq.
  - apply slice_length. lia.
  - intros i Hi. unfold slice. rewrite lookup_take_lt by done. rewrite lookup_drop.
    destruct (lookup_lt_is_Some_2 ss (8 * slot + i)%nat) as [s Es]; [lia|]. rewrite Es. f_equal. symmetry.
    apply (Hv (Z.of_nat i)); [lia|]. rewrite <- Es. f_equal. lia.
Qed.

Lemma slot_page_ext ss ss' slot :
  (forall j, (8 * slot <= j < 8 * slot + 8)%nat -> ss' !! j = ss !! j) -> slot_page ss' slot = slot_page ss slot.
Proof.
  intros Hj. unfold slot_page, slice. f_equal. apply list_eq. intros i. destruct (decide (i < 8)%nat).
  - rewrite !lookup_take_lt, !lookup_drop by done. apply Hj. lia.
  - rewrite !lookup_take_ge by lia. done.
Qed.

(** Swapping out stores the frame's page in an unused slot, or reports that
    every slot is used. *)
Lemma part_swap_out_spec p pages m frame :
  swap_rep p pages -> 0 <= frame < 2 ^ 46 ->
  (exists slot p', part_swap_out p m frame = Some (Some (Z.of_nat slot), p') /\ pages !! slot = None /\
     swap_rep p' (<[slot := read_bytes m (PHYS_MEM_OFFSET + frame) (8 * 512)]> pages)) \/
  (part_swap_out p m frame = Some (None, p) /\ forall slot, (slot < length (sw_free p))%nat -> is_Some (pages !! slot)).
Proof.
  intros [(ss & Hd & Hlen & Hpg) Hs Hu Hdom Hc] Hf. unfold part_swap_out. destruct (alloc_slot_spec p Hc) as [(slot & E & Hfree)|[E Hfull]].
  2:{ rewrite E. right. split; [done|]. intros slot Hslot. apply Hu. destruct (lookup_lt_is_Some_2 (sw_free p) slot Hslot) as [b Hb].
      rewrite Hb. f_equal. by eapply Forall_lookup in Hfull. }
  rewrite E. unfold uadd. rewrite uchk_fits by (unfold fits, PHYS_MEM_OFFSET; lia). cbn [mbind option_bind].
  pose proof (lookup_lt_Some _ _ _ Hfree) as Hslot. cbn [sw_disk].
  destruct (swap_out_loop_spec 8 0 (sw_disk p) ss m (PHYS_MEM_OFFSET + frame) slot) as (d' & ss' & El & Hd' & Hl' & Hs' & Hv); [done|done|lia|lia|lia|].
  change (seqZ 0 SECTORS_PER_PAGE) with (seqZ 0 (Z.of_nat 8)). rewrite El. cbn [mbind option_bind sw_free sw_cursor]. left. eexists slot, _. split_and!; [done| |].
  { destruct (pages !! slot) eqn:Ep; [|done]. assert (sw_free p !! slot = Some false) by (apply Hu; eauto). congruence. }
  split; cbn [sw_disk sw_free sw_cursor].
  - exists ss'. rewrite length_insert. split_and!; [done|lia|]. intros slot' pg Hpg'.
    apply lookup_insert_Some in Hpg' as [[<- <-]|[Hne Hpg']].
    + apply slot_page_reads; [lia|]. intros j s Hj Ej. rewrite Hv, decide_True in Ej by lia. apply (inj Some) in Ej as <-. f_equal. lia.
    + rewrite <- (Hpg _ _ Hpg'). apply slot_page_ext. intros j Hj. rewrite Hv, decide_False; [done|lia].
  - done.
  - intros slot'. destruct (decide (slot' = slot)) as [->|Hne].
    + rewrite list_lookup_insert_eq, lookup_insert_eq by done. split; eauto.
    + rewrite list_lookup_insert_ne, lookup_insert_ne by done. apply Hu.
  - intros slot' Hin. rewrite length_insert. destruct (decide (slot' = slot)) as [->|Hne]; [done|].
    rewrite lookup_insert_ne in Hin by done. by apply Hdom.
  - intros _. rewrite length_insert. apply Nat.mod_upper_bound. lia.
Qed.

(** Swapping in copies the page to the frame, touches no other byte of memory,
    and frees the slot. *)
Lemma part_swap_in_spec p pages m slot pg frame :
  swap_rep p pages -> pages !! slot = Some pg -> 0 <= frame < 2 ^ 46 ->
  exists m' p', part_swap_in p m (Z.of_nat slot) frame = Some (m', p') /\
    swap_rep p' (delete slot pages) /\ read_bytes m' (PHYS_MEM_OFFSET + frame) (8 * 512) = pg /\
    same_outside (PHYS_MEM_OFFSET + frame) 4096 m m'.
Proof.
  intros [(ss & Hd & Hlen & Hpg) Hs Hu Hdom Hc] Hslot Hf. unfold part_swap_in, uadd.
  rewrite uchk_fits by (unfold fits, PHYS_MEM_OFFSET; lia). cbn [mbind option_bind]. assert (Hlt := Hdom slot ltac:(eauto)).
  destruct (swap_in_loop_spec 8 0 (sw_disk p) ss m (PHYS_MEM_OFFSET + frame) slot) as (m' & El & Hout & Hv); [done|done|lia|lia|lia|].
  change (seqZ 0 SECTORS_PER_PAGE) with (seqZ 0 (Z.of_nat 8)). rewrite El. cbn [mbind option_bind].
  eexists m', _. split_and!; [done| | |].
  - split; cbn [free_slot sw_disk sw_free sw_cursor]; rewrite ?length_insert, ?Nat2Z.id.
    + exists ss. split_and!; [done|done|]. intros slot' pg' Hp'. apply lookup_delete_Some in Hp' as [_ ?]. auto.
    + done.
    + intros slot'. destruct (decide (slot' = slot)) as [->|Hne].
      * rewrite list_lookup_insert_eq, lookup_delete_eq by done. split; [done|by intros []].
      * rewrite list_lookup_insert_ne, lookup_delete_ne by done. apply Hu.
    + intros slot' [pg' Hin]. apply lookup_delete_Some in Hin as [_ Hin]. apply Hdom. by exists pg'.
    + intros _. apply Hc. by intros E0; rewrite E0 in Hlt; simpl in Hlt; lia.
  - rewrite <- (Hpg _ _ Hslot). symmetry. apply slot_page_reads; [lia|]. intros j s Hj. apply Hv. lia.
  - intros x Hx. apply Hout. lia.
Qed.

(** A freshly created partition of [n] pages. *)
Definition blank_disk (addr sectors : Z) : RamDisk :=
  mkDisk addr (sectors * 512) 512 0 (replicate (Z.to_nat sectors) (crc32 (replicate 512 0))) []
    (replicate (Z.to_nat (sectors * 512)) 0).

Lemma blank_disk_ok addr sectors :
  0 <= sectors -> sectors * 512 < 2 ^ 64 ->
  disk_ok (blank_disk addr sectors) (replicate (Z.to_nat sectors) (replicate 512 0)).
Proof.
  intros H0 Hmax. split; cbn [blank_disk rd_sector_size byte_len bytes crcs].
  - lia.
  - rewrite length_replicate. lia.
  - done.
  - replace (Z.to_nat (sectors * 512)) with (Z.to_nat sectors * 512)%nat by lia. generalize 512%nat. intros k.
    induction (Z.to_nat sectors) as [|n IHn]; [done|]. simpl. by rewrite replicate_add, IHn.
  - apply Forall_replicate, length_replicate.
  - by rewrite fmap_replicate.
Qed.

(** A partition on an empty disk, with every slot free, holds no page. *)
Lemma new_swap_rep d n :
  disk_ok d (replicate (8 * n) (replicate 512 0)) -> rd_sector_size d = 512 -> swap_rep (mkSwap d (replicate n true) 0) ∅.
Proof.
  intros Hd Hs. split; cbn [sw_disk sw_free sw_cursor].
  - eexists. split_and!; [exact Hd|rewrite !length_replicate; lia|]. intros slot pg Hp. by rewrite lookup_empty in Hp.
  - done.
  - intros slot. split.
    + intros Hl. apply (lookup_replicate n true) in Hl as [[=] _].
    + intros Hl. rewrite lookup_empty in Hl. by destruct Hl.
  - intros slot Hl. rewrite lookup_empty in Hl. by destruct Hl.
  - rewrite length_replicate. destruct n; [done|lia].
Qed.

Lemma blank_swap_rep addr n :
  (n < 1024)%nat -> swap_rep (mkSwap (blank_disk addr (8 * Z.of_nat n)) (replicate n true) 0) ∅.
Proof. intros Hn. apply new_swap_rep; [|done]. replace (8 * n)%nat with (Z.to_nat (8 * Z.of_nat n)) by lia. apply blank_disk_ok; lia. Qed.

Section start.
Context `{X86Addr} {T : Type} `{PageTables T} {A : Type} `{FramePool A}.

(** Start-up makes an empty swap area of 1024 slots. *)
Lemma swap_init_spec cursor (t : T) (a : A) l :
  (4096 | cursor) -> 2 ^ 64 - 2 ^ 47 <= cursor -> cursor + 0x401000 < 2 ^ 64 -> pool a l -> (4096 <= length l)%nat ->
  Forall (fun p => entry t p = None) (disk_pages cursor 0x400000) ->
  exists part t' a' used l', swap_init cursor t a = Some (Some part, cursor + 0x400000, t', a') /\ swap_rep part ∅ /\ length (sw_free part) = 1024%nat /\
    drawn allocate a used a' /\ l = used ++ l' /\ pool a' l' /\ (length used <= 4096)%nat /\
    forall q, q ∉ disk_pages cursor 0x400000 -> entry t' q = entry t q.
Proof.
  intros Hal Hc Hov Hp Hl Hun.
  destruct (ramdisk_new_full cursor t a l 8192 512) as (d & t' & a' & used & l' & E & Hd & Hs & Hdr & Hu & Hp' & Hul & Ho); [done|done|lia|lia|lia|done|change (4 * ((8192 * 512 + 4095) / 4096)) with 4096; lia|done|].
  change (4 * ((8192 * 512 + 4095) / 4096)) with 4096 in Hul. unfold swap_init, swap_new. change (umul 64 SWAP_PAGES SECTORS_PER_PAGE) with (Some 8192). change SECTOR_SIZE with 512. cbn [mbind option_bind]. rewrite E. cbn [mbind option_bind].
  do 3 eexists. exists used, l'. split; [reflexivity|]. split; [by apply new_swap_rep|]. split; [apply length_replicate|]. split_and!; try done; lia.
Qed.

End start.

(** The swap area behaves as a map from slots to pages: swapping out stores
    the page of the given frame in a slot that was not in use and changes no
    other slot, failing only when all slots are used; swapping in a used slot
    puts its page into the given frame, leaves every other byte of memory
    alone, passes the disk's checksum test and frees the slot. *)
Theorem swap_area_refines_page_map p pages m frame :
  swap_rep p pages -> 0 <= frame < 2 ^ 46 ->
  ((exists slot p', part_swap_out p m frame = Some (Some (Z.of_nat slot), p') /\ pages !! slot = None /\
     swap_rep p' (<[slot := read_bytes m (PHYS_MEM_OFFSET + frame) (8 * 512)]> pages)) \/
   (part_swap_out p m frame = Some (None, p) /\ forall slot, (slot < length (sw_free p))%nat -> is_Some (pages !! slot))) /\
  (forall slot pg, pages !! slot = Some pg ->
     exists m' p', part_swap_in p m (Z.of_nat slot) frame = Some (m', p') /\
       swap_rep p' (delete slot pages) /\ read_bytes m' (PHYS_MEM_OFFSET + frame) (8 * 512) = pg /\
       same_outside (PHYS_MEM_OFFSET + frame) 4096 m m').
Proof.
  intros Hp Hf. split; [by apply part_swap_out_spec|]. intros slot pg Hs. by apply (part_swap_in_spec p pages).
Qed.

Lemma swap_area_refines_page_map_witness :
  let p := mkSwap (blank_disk RAMDISK_VIRT_REGION_BASE 8) [true] 0 in
  let m := <[PHYS_MEM_OFFSET + 0x3005 := 9]> ∅ in
  ((exists slot p', part_swap_out p m 0x3000 = Some (Some (Z.of_nat slot), p') /\ (∅ : gmap nat (list Z)) !! slot = None /\
     swap_rep p' (<[slot := read_bytes m (PHYS_MEM_OFFSET + 0x3000) (8 * 512)]> ∅)) \/
   (part_swap_out p m 0x3000 = Some (None, p) /\
    forall slot, (slot < length (sw_free p))%nat -> is_Some ((∅ : gmap nat (list Z)) !! slot))) /\
  (forall slot pg, (∅ : gmap nat (list Z)) !! slot = Some pg ->
     exists m' p', part_swap_in p m (Z.of_nat slot) 0x3000 = Some (m', p') /\
       swap_rep p' (delete slot ∅) /\ read_bytes m' (PHYS_MEM_OFFSET + 0x3000) (8 * 512) = pg /\
       same_outside (PHYS_MEM_OFFSET + 0x3000) 4096 m m').
Proof.
  intros p m. apply swap_area_refines_page_map; [|lia]. apply (blank_swap_rep RAMDISK_VIRT_REGION_BASE 1). lia.
Defined.
