(* ===== verification/Vmm.v ===== *)
(** Virtual memory of one address space ([kernel/src/memory/vmm.rs],
    [evict_addr] of [memory/swap.rs] and the [PageMapper] wrappers of
    [arch/paging.rs]): areas, demand paging, copy-on-write, swap-in, heap
    resizing, protection changes and fork.

    The state of an operation is [mm]: the [Vmm] record, the page table it
    drives, the frame pool with the memory behind it, and the swap area.
    [None] is a panic of the kernel (a failed [expect], an overflow). *)

From S2P Require Import Prelude Crc Bytes X86 Frames Disk Swap.

(* memory/vmm.rs:12-14 VmAreaKind *)
Inductive VmAreaKind := Anonymous.

(* memory/vmm.rs:17-22 VmArea *)
Record VmArea := mkArea { start : Z; end_ : Z; flags : Z; kind : VmAreaKind }.

(* memory/vmm.rs:25-28 Vmm *)
Record Vmm := mkVmm { areas : list VmArea; swapped : gmap Z (Z * Z) }.

(* memory/vmm.rs:32-34 new *)
Definition vmm_new : Vmm := mkVmm [] ∅.
(* memory/vmm.rs:36-38 add_area *)
Definition add_area (v : Vmm) (a : VmArea) : Vmm := mkVmm (areas v ++ [a]) (swapped v).
(* memory/vmm.rs:44-46 record_swapped *)
Definition record_swapped (v : Vmm) (page_vaddr slot fl : Z) : Vmm :=
  mkVmm (areas v) (<[page_vaddr := (slot, fl)]> (swapped v)).

(** Page-table flag bits, [contains] and [& !f] of [PageTableFlags]. *)
Definition USER_ACCESSIBLE : Z := 4.
Definition ACCESSED : Z := 32.
Definition DIRTY : Z := 64.
Definition flag_set (fl f : Z) : bool := Z.land fl f =? f.
Definition flag_clear (fl f : Z) : Z := Z.ldiff fl f.

Definition PAGE_BYTES : nat := Z.to_nat PAGE_SIZE.

Definition in_area (addr : Z) (a : VmArea) : bool := (start a <=? addr) && (addr <? end_ a).
Definition find_area (addr : Z) (l : list VmArea) : option VmArea := List.find (in_area addr) l.

Record mm (T : Type) := mkMm {
  mm_vmm : Vmm;
  mm_table : T;
  mm_pool : frame_pool;
  mm_swap : option SwapPartition
}.
Arguments mkMm {T}.
Arguments mm_vmm {T}.
Arguments mm_table {T}.
Arguments mm_pool {T}.
Arguments mm_swap {T}.

Section operations.
Context `{X86Addr} {T : Type} `{PageTables T}.

(* arch/paging.rs:54-58 unmap_page *)
Definition unmap_page (t : T) (page : Z) : option (Z * T) :=
  match unmap t page with Ok r => Some r | Err _ => None end.
(* arch/paging.rs:60-62 translate_addr *)
Definition translate_addr (t : T) (virt : Z) : option Z := fst <$> translate t virt.
(* arch/paging.rs:102-106 remap_flags *)
Definition remap_flags (t : T) (page fl : Z) : option T :=
  match update_flags t page fl with Ok t => Some t | Err _ => None end.
(* arch/paging.rs:110-116 page_flags *)
Definition page_flags (t : T) (addr : Z) : option Z := snd <$> translate t addr.
(* arch/paging.rs:120-130 clear_accessed *)
Definition mapper_clear_accessed (t : T) (page : Z) : T :=
  match page_flags t page with
  | Some fl =>
      if flag_set fl ACCESSED
      then match update_flags t page (flag_clear fl ACCESSED) with Ok t => t | Err _ => t end
      else t
  | None => t
  end.

(* memory/vmm.rs:53-58 handle_fault *)
Definition fault_swap_in (s : mm T) (page slot fl : Z) : option (result unit unit * mm T) :=
  let v := mkVmm (areas (mm_vmm s)) (delete page (swapped (mm_vmm s))) in
  '(f, pool) ← allocate (mm_pool s);
  match f with
  | None => Some (Err tt, mkMm v (mm_table s) pool (mm_swap s))
  | Some new_frame =>
      '(m, sw) ← swap_in (mm_swap s) (p_mem pool) slot new_frame;
      '(t, pool) ← map_page (mm_table s) page new_frame fl (mkPool m (p_fl pool));
      Some (Ok tt, mkMm v t pool sw)
  end.

(* memory/vmm.rs:62-79 handle_fault *)
Definition fault_cow (s : mm T) (page phys : Z) (area : VmArea) (is_write : bool) : option (result unit unit * mm T) :=
  if negb is_write || negb (flag_set (flags area) WRITABLE) then Some (Err tt, s)
  else
    '(f, pool) ← allocate (mm_pool s);
    match f with
    | None => Some (Err tt, mkMm (mm_vmm s) (mm_table s) pool (mm_swap s))
    | Some new_frame =>
        src ← uadd 64 PHYS_MEM_OFFSET phys;
        dst ← uadd 64 PHYS_MEM_OFFSET new_frame;
        let m := copy_bytes (p_mem pool) src dst PAGE_BYTES in
        '(_, t) ← unmap_page (mm_table s) page;
        '(t, pool) ← map_page t page new_frame (flags area) (mkPool m (p_fl pool));
        Some (Ok tt, mkMm (mm_vmm s) t pool (mm_swap s))
    end.

(* memory/vmm.rs:80-87 handle_fault *)
Definition fault_zero_fill (s : mm T) (page : Z) (area : VmArea) : option (result unit unit * mm T) :=
  '(f, pool) ← allocate (mm_pool s);
  match f with
  | None => Some (Err tt, mkMm (mm_vmm s) (mm_table s) pool (mm_swap s))
  | Some new_frame =>
      dst ← uadd 64 PHYS_MEM_OFFSET new_frame;
      let m := write_bytes (p_mem pool) dst (replicate PAGE_BYTES 0) in
      '(t, pool) ← map_page (mm_table s) page new_frame (flags area) (mkPool m (p_fl pool));
      Some (Ok tt, mkMm (mm_vmm s) t pool (mm_swap s))
  end.

(* memory/vmm.rs:48-90 handle_fault *)
Definition handle_fault (s : mm T) (fault_addr : Z) (is_write : bool) : option (result unit unit * mm T) :=
  let page := containing_address fault_addr in
  match swapped (mm_vmm s) !! page with
  | Some (slot, fl) => fault_swap_in s page slot fl
  | None =>
      match find_area fault_addr (areas (mm_vmm s)) with
      | None => Some (Err tt, s)
      | Some area =>
          match translate_addr (mm_table s) fault_addr with
          | Some phys => fault_cow s page phys area is_write
          | None => fault_zero_fill s page area
          end
      end
  end.

(** With the task's table at hand, which [Reaper.evict_candidate] finds by its
    root.
    The frame allocator and the swap area are the global ones; the result is
    [false] when the page is not resident or the swap area is full. *)
(* memory/swap.rs:107-125 evict_addr *)
Definition evict_addr (s : mm T) (vaddr : Z) : option (bool * mm T) :=
  va ← VirtAddr_new vaddr;
  match translate (mm_table s) va with
  | None => Some (false, s)
  | Some (phys, fl) =>
      let fl := flag_clear fl (Z.lor ACCESSED DIRTY) in
      let frame := containing_address phys in
      sw ← mm_swap s;
      '(slot, sw) ← part_swap_out sw (p_mem (mm_pool s)) frame;
      match slot with
      | None => Some (false, mkMm (mm_vmm s) (mm_table s) (mm_pool s) (Some sw))
      | Some slot =>
          let v := record_swapped (mm_vmm s) (containing_address va) slot fl in
          '(freed, t) ← unmap_page (mm_table s) (containing_address va);
          pool ← deallocate (mm_pool s) freed;
          Some (true, mkMm v t pool (Some sw))
      end
  end.

(* memory/vmm.rs:92-98 set_heap_end *)
Definition set_heap_end (v : Vmm) (heap_start new_end fl : Z) : Vmm :=
  match list_find (fun a => start a = heap_start) (areas v) with
  | Some (i, a) => mkVmm (<[i := mkArea (start a) new_end (flags a) (kind a)]> (areas v)) (swapped v)
  | None => if heap_start <? new_end then add_area v (mkArea heap_start new_end fl Anonymous) else v
  end.

(* memory/vmm.rs:101-111 shrink_heap *)
Fixpoint shrink_loop (fuel : nat) (addr old_end : Z) (t : T) (p : frame_pool) : option (T * frame_pool) :=
  if addr <? old_end then
    match fuel with
    | O => None
    | S fuel =>
        '(t, p) ← match translate_addr t addr with
                  | Some _ =>
                      '(frame, t) ← unmap_page t (containing_address addr);
                      p ← deallocate p frame;
                      Some (t, p)
                  | None => Some (t, p)
                  end;
        next ← VirtAddr_add addr 4096;
        shrink_loop fuel next old_end t p
    end
  else Some (t, p).

(** Iterations of a page walk over [[lo, hi)]. *)
Definition page_steps (lo hi : Z) : nat := Z.to_nat ((hi - lo + 4095) / 4096).

(* memory/vmm.rs:100-114 shrink_heap *)
Definition shrink_heap (s : mm T) (heap_start new_end old_end fl : Z) : option (mm T) :=
  '(t, p) ← shrink_loop (page_steps new_end old_end) new_end old_end (mm_table s) (mm_pool s);
  Some (mkMm (set_heap_end (mm_vmm s) heap_start new_end fl) t p (mm_swap s)).

(* memory/vmm.rs:140-149 mprotect *)
Fixpoint mprotect_loop (fuel : nat) (page_addr end_addr fl : Z) (t : T) : option T :=
  if page_addr <? end_addr then
    match fuel with
    | O => None
    | S fuel =>
        t ← match translate_addr t page_addr with
            | Some _ => remap_flags t (containing_address page_addr) fl
            | None => Some t
            end;
        next ← VirtAddr_add page_addr 4096;
        mprotect_loop fuel next end_addr fl t
    end
  else Some t.

(** The pieces that replace the area: before, inside and after the range. *)
(* memory/vmm.rs:125-133 mprotect *)
Definition replacements (area : VmArea) (addr e new_flags : Z) : list VmArea :=
  (if start area <? addr then [mkArea (start area) addr (flags area) (kind area)] else []) ++
  [mkArea addr e new_flags (kind area)] ++
  (if e <? end_ area then [mkArea e (end_ area) (flags area) (kind area)] else []).

(* memory/vmm.rs:116-152 mprotect *)
Definition mprotect (v : Vmm) (t : T) (addr len new_flags : Z) : option (result unit unit * Vmm * T) :=
  e ← VirtAddr_add addr len;
  match list_find (fun a => in_area addr a = true) (areas v) with
  | None => Some (Err tt, v, t)
  | Some (idx, area) =>
      if end_ area <? e then Some (Err tt, v, t)
      else
        let v := mkVmm (take idx (areas v) ++ replacements area addr e new_flags ++ drop (S idx) (areas v)) (swapped v) in
        t ← mprotect_loop (page_steps addr e) addr e new_flags t;
        Some (Ok tt, v, t)
  end.

(* memory/vmm.rs:193-205 fork_cow *)
Fixpoint fork_cow_loop (fuel : nat) (addr e ro : Z) (parent child : T) (p : frame_pool)
    : option (T * T * frame_pool) :=
  if addr <? e then
    match fuel with
    | O => None
    | S fuel =>
        '(parent, child, p) ←
          match translate_addr parent addr with
          | Some phys =>
              let frame := containing_address phys in
              parent ← remap_flags parent (containing_address addr) ro;
              '(child, p) ← map_page child (containing_address addr) frame ro p;
              Some (parent, child, p)
          | None => Some (parent, child, p)
          end;
        next ← VirtAddr_add addr 4096;
        fork_cow_loop fuel next e ro parent child p
    end
  else Some (parent, child, p).

(* memory/vmm.rs:190-206 fork_cow *)
Fixpoint fork_cow_areas (l : list VmArea) (child_vmm : Vmm) (parent child : T) (p : frame_pool)
    : option (Vmm * T * T * frame_pool) :=
  match l with
  | [] => Some (child_vmm, parent, child, p)
  | area :: l =>
      let child_vmm := add_area child_vmm area in
      let ro := flag_clear (flags area) WRITABLE in
      '(parent, child, p) ← fork_cow_loop (page_steps (start area) (end_ area)) (start area) (end_ area) ro parent child p;
      fork_cow_areas l child_vmm parent child p
  end.

(* memory/vmm.rs:187-209 fork_cow *)
Definition fork_cow (v : Vmm) (parent child : T) (p : frame_pool) : option (Vmm * T * T * frame_pool) :=
  fork_cow_areas (areas v) vmm_new parent child p.

(* memory/vmm.rs:168-181 fork_eager *)
Fixpoint fork_eager_loop (fuel : nat) (addr e fl : Z) (parent child : T) (p : frame_pool)
    : option (result unit unit * T * frame_pool) :=
  if addr <? e then
    match fuel with
    | O => None
    | S fuel =>
        '(r, child, p) ←
          match translate_addr parent addr with
          | Some phys =>
              '(f, p) ← allocate p;
              match f with
              | None => Some (Err tt, child, p)
              | Some new_frame =>
                  src ← uadd 64 PHYS_MEM_OFFSET phys;
                  dst ← uadd 64 PHYS_MEM_OFFSET new_frame;
                  let m := copy_bytes (p_mem p) src dst PAGE_BYTES in
                  '(child, p) ← map_page child (containing_address addr) new_frame fl (mkPool m (p_fl p));
                  Some (Ok tt, child, p)
              end
          | None => Some (Ok tt, child, p)
          end;
        if is_ok r then
          next ← VirtAddr_add addr 4096;
          fork_eager_loop fuel next e fl parent child p
        else Some (r, child, p)
    end
  else Some (Ok tt, child, p).

(* memory/vmm.rs:159-182 fork_eager *)
Fixpoint fork_eager_areas (l : list VmArea) (child_vmm : Vmm) (parent child : T) (p : frame_pool)
    : option (result unit Vmm * T * frame_pool) :=
  match l with
  | [] => Some (Ok child_vmm, child, p)
  | area :: l =>
      let child_vmm := add_area child_vmm (mkArea (start area) (end_ area) (flags area) Anonymous) in
      '(r, child, p) ← fork_eager_loop (page_steps (start area) (end_ area)) (start area) (end_ area) (flags area) parent child p;
      match r with
      | Ok _ => fork_eager_areas l child_vmm parent child p
      | Err e => Some (Err e, child, p)
      end
  end.

(* memory/vmm.rs:155-185 fork_eager *)
Definition fork_eager (v : Vmm) (parent child : T) (p : frame_pool) : option (result unit Vmm * T * frame_pool) :=
  fork_eager_areas (areas v) vmm_new parent child p.

End operations.

(** ** Page faults *)

Lemma page_bytes_Z : Z.of_nat PAGE_BYTES = 4096.
Proof. reflexivity. Qed.
Lemma page_bytes_sectors : (8 * 512)%nat = PAGE_BYTES.
Proof. reflexivity. Qed.
#[global] Opaque PAGE_BYTES.

Section faults.
Context `{X86Addr} {T : Type} `{PageTables T}.

(** The frame pool holds the free frames [l], reached through the
    physical-memory window. *)
Definition pool_at (p : frame_pool) (l : list Z) : Prop :=
  free_list p l /\ phys_offset (p_fl p) = PHYS_MEM_OFFSET /\ Forall (fun f => f < 2 ^ 46) l.

Lemma free_list_new_memory p l m :
  free_list p l -> (forall f x, f ∈ l -> phys_offset (p_fl p) + f <= x < phys_offset (p_fl p) + f + 8 -> get m x = get (p_mem p) x) ->
  free_list (mkPool m (p_fl p)) l.
Proof.
  intros [Hh Hl Hc Hf Ho Hnd] Hm. split; try done. simpl. apply links_frame with (p_mem p); [|done].
  intros f Hin. apply read_u64_ext. intros x Hx. by apply (Hm f).
Qed.

Lemma fl_drawn_mem p fs p' l :
  free_list p l -> drawn fl_allocate p fs p' -> p_mem p' = p_mem p /\ phys_offset (p_fl p') = phys_offset (p_fl p).
Proof.
  intros Hl Hd. revert l Hl. induction Hd as [p|p f p1 fs p2 Ha _ IH]; intros l Hl; [done|].
  pose proof (fl_allocate_spec p l Hl) as Hs. destruct l as [|g l]; [congruence|].
  destruct Hs as (p1' & E & Hl1 & Hm & Ho). rewrite Ha in E. injection E as <- <-. destruct (IH l Hl1) as [Hm2 Ho2]. by rewrite Hm2, Ho2.
Qed.

Lemma frames_apart f g : (4096 | f) -> (4096 | g) -> f <> g -> f + 4096 <= g \/ g + 4096 <= f.
Proof. intros [a ->] [b ->] ?. lia. Qed.

(** Taking a frame, filling it, and mapping it at a free page. *)
Lemma fill_and_map_count (t : T) p f l m page fl :
  pool_at p (f :: l) -> (3 <= length l)%nat -> entry t page = None ->
  same_outside (PHYS_MEM_OFFSET + f) 4096 (p_mem p) m ->
  exists p1 t' p' l', allocate p = Some (Some f, p1) /\ p_mem p1 = p_mem p /\
    map_page t page f fl (mkPool m (p_fl p1)) = Some (t', p') /\ p_mem p' = m /\ pool_at p' l' /\ l' `suffix_of` l /\
    (length l <= length l' + 3)%nat /\
    entry t' page = Some (f, fl) /\ forall q, q <> page -> entry t' q = entry t q.
Proof.
  intros (Hl & Ho & Hf) Hlen Hent Hout. destruct (fl_allocate_spec p (f :: l) Hl) as (p1 & E1 & Hl1 & Hm1 & Ho1).
  pose proof (flr_frames _ _ Hl) as Hfr. apply Forall_cons in Hfr as [(Hfa & _) Hfr]. pose proof (flr_nodup _ _ Hl) as Hnd.
  apply NoDup_cons in Hnd as [Hnin _]. rewrite Forall_forall in Hfr. apply Forall_cons in Hf as [_ Hf].
  assert (Hl2 : free_list (mkPool m (p_fl p1)) l).
  { apply free_list_new_memory; [done|]. intros g x Hg Hx. rewrite Hm1. apply Hout.
    destruct (frames_apart f g) as [?|?]; [done|by apply Hfr|by intros ->|lia|lia]. }
  destruct (@map_page_spec frame_pool _ free_list_pool T _ t (mkPool m (p_fl p1)) l page f fl Hl2 Hlen Hent) as (t' & p' & fs & l' & Em & Hd & Hl' & -> & Hfs & He & Hoth).
  destruct (fl_drawn_mem _ _ _ _ Hl2 Hd) as [Hm' Ho'].
  exists p1, t', p', l'. split_and!; try done; [|by exists fs|rewrite length_app; lia]. split_and!; [done|simpl in *; congruence|by apply Forall_app in Hf as [_ ?]].
Qed.

Lemma fill_and_map (t : T) p f l m page fl :
  pool_at p (f :: l) -> (3 <= length l)%nat -> entry t page = None ->
  same_outside (PHYS_MEM_OFFSET + f) 4096 (p_mem p) m ->
  exists p1 t' p' l', allocate p = Some (Some f, p1) /\ p_mem p1 = p_mem p /\
    map_page t page f fl (mkPool m (p_fl p1)) = Some (t', p') /\ p_mem p' = m /\ pool_at p' l' /\ l' `suffix_of` l /\
    entry t' page = Some (f, fl) /\ forall q, q <> page -> entry t' q = entry t q.
Proof.
  intros Hp Hl He Hm. destruct (fill_and_map_count t p f l m page fl Hp Hl He Hm) as (p1 & t' & p' & l' & H1 & H2 & H3 & H4 & H5 & H6 & _ & H7 & H8).
  by exists p1, t', p', l'.
Qed.

Lemma uadd_window f : 0 <= f < 2 ^ 46 -> uadd 64 PHYS_MEM_OFFSET f = Some (PHYS_MEM_OFFSET + f).
Proof. intros. apply uchk_fits. unfold fits, PHYS_MEM_OFFSET. lia. Qed.

Lemma pool_at_head p f l : pool_at p (f :: l) -> (4096 | f) /\ 0 < f < 2 ^ 46.
Proof.
  intros (Hl & _ & Hf). apply Forall_cons in Hf as [? _]. pose proof (flr_frames _ _ Hl) as Hfr. apply Forall_cons in Hfr as [(? & ? & _) _].
  split; [done|lia].
Qed.

Lemma write_page_outside m f bs : length bs = PAGE_BYTES -> same_outside (PHYS_MEM_OFFSET + f) 4096 m (write_bytes m (PHYS_MEM_OFFSET + f) bs).
Proof. intros Hb x Hx. apply get_write_bytes_out. rewrite Hb, page_bytes_Z. lia. Qed.

Lemma fault_zero_fill_spec (s : mm T) (addr : Z) (w : bool) area f l :
  pool_at (mm_pool s) (f :: l) -> (3 <= length l)%nat ->
  swapped (mm_vmm s) !! containing_address addr = None ->
  find_area addr (areas (mm_vmm s)) = Some area -> entry (mm_table s) (containing_address addr) = None ->
  exists t' p' l', handle_fault s addr w = Some (Ok tt, mkMm (mm_vmm s) t' p' (mm_swap s)) /\
    entry t' (containing_address addr) = Some (f, flags area) /\
    (forall q, q <> containing_address addr -> entry t' q = entry (mm_table s) q) /\
    read_bytes (p_mem p') (PHYS_MEM_OFFSET + f) PAGE_BYTES = replicate PAGE_BYTES 0 /\
    same_outside (PHYS_MEM_OFFSET + f) 4096 (p_mem (mm_pool s)) (p_mem p') /\
    pool_at p' l' /\ l' `suffix_of` l /\ (length l <= length l' + 3)%nat.
Proof.
  intros Hp Hlen Hsw Ha Hent. unfold handle_fault. rewrite Hsw, Ha. unfold translate_addr. rewrite translate_spec.
  rewrite containing_address_spec in *. rewrite Hent. cbn [fmap option_fmap option_map]. unfold fault_zero_fill.
  destruct (pool_at_head _ _ _ Hp) as [_ Hfb].
  set (m := write_bytes (p_mem (mm_pool s)) (PHYS_MEM_OFFSET + f) (replicate PAGE_BYTES 0)).
  destruct (fill_and_map_count (mm_table s) (mm_pool s) f l m (addr / 4096 * 4096) (flags area)) as (p1 & t' & p' & l' & E1 & Hm1 & Em & Hmp & Hpl & Hsuf & Hcnt & He & Ho); [done..| |].
  { apply write_page_outside, length_replicate. }
  rewrite E1. cbn [mbind option_bind]. rewrite uadd_window by lia. cbn [mbind option_bind]. rewrite Hm1. fold m. rewrite Em. cbn [mbind option_bind].
  exists t', p', l'. rewrite Hmp. split; [reflexivity|]. split; [exact He|]. split; [exact Ho|]. unfold m. split; [|split; [|by split_and!]].
  - rewrite <- (length_replicate PAGE_BYTES 0) at 2. apply read_write_bytes.
  - apply write_page_outside, length_replicate.
Qed.

(** A first access to an area maps a zeroed frame: the faulting page gets a
    free frame with the area's permissions, the whole frame reads as zero, no
    other page or frame changes, and the frame leaves the free pool, with at
    most three more for the tables above it. *)
Theorem fault_zero_fills (s : mm T) (addr : Z) (w : bool) area f l :
  pool_at (mm_pool s) (f :: l) -> (3 <= length l)%nat ->
  swapped (mm_vmm s) !! containing_address addr = None ->
  find_area addr (areas (mm_vmm s)) = Some area -> entry (mm_table s) (containing_address addr) = None ->
  exists t' p' l', handle_fault s addr w = Some (Ok tt, mkMm (mm_vmm s) t' p' (mm_swap s)) /\
    entry t' (containing_address addr) = Some (f, flags area) /\
    (forall q, q <> containing_address addr -> entry t' q = entry (mm_table s) q) /\
    read_bytes (p_mem p') (PHYS_MEM_OFFSET + f) PAGE_BYTES = replicate PAGE_BYTES 0 /\
    same_outside (PHYS_MEM_OFFSET + f) 4096 (p_mem (mm_pool s)) (p_mem p') /\
    pool_at p' l' /\ l' `suffix_of` l /\ (length l <= length l' + 3)%nat.
Proof. apply fault_zero_fill_spec. Qed.

Lemma fault_cow_spec (s : mm T) (addr : Z) area old fl f l :
  pool_at (mm_pool s) (f :: l) -> (3 <= length l)%nat ->
  swapped (mm_vmm s) !! containing_address addr = None ->
  find_area addr (areas (mm_vmm s)) = Some area -> flag_set (flags area) WRITABLE = true ->
  entry (mm_table s) (containing_address addr) = Some (old, fl) -> 0 <= old -> old + 4096 < 2 ^ 46 ->
  exists t' p' l', handle_fault s addr true = Some (Ok tt, mkMm (mm_vmm s) t' p' (mm_swap s)) /\
    entry t' (containing_address addr) = Some (f, flags area) /\
    (forall q, q <> containing_address addr -> entry t' q = entry (mm_table s) q) /\
    read_bytes (p_mem p') (PHYS_MEM_OFFSET + f) PAGE_BYTES =
      read_bytes (p_mem (mm_pool s)) (PHYS_MEM_OFFSET + old + addr mod 4096) PAGE_BYTES /\
    same_outside (PHYS_MEM_OFFSET + f) 4096 (p_mem (mm_pool s)) (p_mem p') /\
    pool_at p' l' /\ l' `suffix_of` l.
Proof.
  intros Hp Hlen Hsw Ha Hw Hent Hold Hold2. unfold handle_fault. rewrite Hsw, Ha. unfold translate_addr. rewrite translate_spec.
  rewrite containing_address_spec in *. rewrite Hent. cbn [fmap option_fmap option_map fst snd]. unfold fault_cow. rewrite Hw. cbn [negb orb].
  destruct (pool_at_head _ _ _ Hp) as [_ Hfb]. pose proof (Z.mod_pos_bound addr 4096 ltac:(lia)) as Hmod.
  destruct (unmap_ok _ _ _ _ Hent) as (t1 & Eu & Hn & Hq).
  set (bs := read_bytes (p_mem (mm_pool s)) (PHYS_MEM_OFFSET + old + addr mod 4096) PAGE_BYTES).
  assert (Hbs : length bs = PAGE_BYTES) by apply read_bytes_length.
  set (m := write_bytes (p_mem (mm_pool s)) (PHYS_MEM_OFFSET + f) bs).
  destruct (fill_and_map t1 (mm_pool s) f l m (addr / 4096 * 4096) (flags area)) as (p1 & t' & p' & l' & E1 & Hm1 & Em & Hmp & Hpl & Hsuf & He & Ho); [done..| |].
  { by apply write_page_outside. }
  rewrite E1. cbn [mbind option_bind]. rewrite !uadd_window by lia. cbn [mbind option_bind]. unfold unmap_page. rewrite Eu. cbn [mbind option_bind].
  unfold copy_bytes. rewrite Hm1, Z.add_assoc. fold bs. fold m. rewrite Em. cbn [mbind option_bind].
  exists t', p', l'. rewrite Hmp. split; [reflexivity|]. split; [exact He|]. split; [intros q Hne; by rewrite Ho, Hq|]. unfold m. split; [|split; [|by split]].
  - rewrite <- Hbs at 1. apply read_write_bytes.
  - by apply write_page_outside.
Qed.

(** A write fault on a present read-only page of a writable area gives the
    page a private frame with the area's permissions; the frame receives the
    4096 bytes starting at the physical address of the fault itself, so it is
    a copy of the shared page exactly when the fault address is page aligned.
    The shared frame is not modified. *)
Theorem fault_cow_copies_from_fault_address (s : mm T) (addr : Z) area old fl f l :
  pool_at (mm_pool s) (f :: l) -> (3 <= length l)%nat ->
  swapped (mm_vmm s) !! containing_address addr = None ->
  find_area addr (areas (mm_vmm s)) = Some area -> flag_set (flags area) WRITABLE = true ->
  entry (mm_table s) (containing_address addr) = Some (old, fl) -> 0 <= old -> old + 4096 < 2 ^ 46 ->
  exists t' p' l', handle_fault s addr true = Some (Ok tt, mkMm (mm_vmm s) t' p' (mm_swap s)) /\
    entry t' (containing_address addr) = Some (f, flags area) /\
    (forall q, q <> containing_address addr -> entry t' q = entry (mm_table s) q) /\
    read_bytes (p_mem p') (PHYS_MEM_OFFSET + f) PAGE_BYTES =
      read_bytes (p_mem (mm_pool s)) (PHYS_MEM_OFFSET + old + addr mod 4096) PAGE_BYTES /\
    same_outside (PHYS_MEM_OFFSET + f) 4096 (p_mem (mm_pool s)) (p_mem p') /\
    pool_at p' l' /\ l' `suffix_of` l.
Proof. apply fault_cow_spec. Qed.

Lemma containing_idem a : containing_address (containing_address a) = containing_address a.
Proof. rewrite !containing_address_spec, Z.div_mul by lia. done. Qed.

Lemma fault_swap_in_spec (s : mm T) page slot fl pg sw pages f l :
  mm_swap s = Some sw -> swap_rep sw pages -> pages !! slot = Some pg ->
  pool_at (mm_pool s) (f :: l) -> (3 <= length l)%nat -> entry (mm_table s) page = None ->
  exists t' p' sw' l',
    fault_swap_in s page (Z.of_nat slot) fl =
      Some (Ok tt, mkMm (mkVmm (areas (mm_vmm s)) (delete page (swapped (mm_vmm s)))) t' p' (Some sw')) /\
    swap_rep sw' (delete slot pages) /\ entry t' page = Some (f, fl) /\
    (forall q, q <> page -> entry t' q = entry (mm_table s) q) /\
    read_bytes (p_mem p') (PHYS_MEM_OFFSET + f) PAGE_BYTES = pg /\
    same_outside (PHYS_MEM_OFFSET + f) 4096 (p_mem (mm_pool s)) (p_mem p') /\ pool_at p' l' /\ l' `suffix_of` l /\ (length l <= length l' + 3)%nat.
Proof.
  intros Hsw Hrep Hpg Hp Hlen Hent. unfold fault_swap_in. destruct (pool_at_head _ _ _ Hp) as [_ Hfb].
  destruct (part_swap_in_spec sw pages (p_mem (mm_pool s)) slot pg f Hrep Hpg) as (m & sw' & Ein & Hrep' & Hrd & Hout); [lia|].
  rewrite page_bytes_sectors in Hrd.
  destruct (fill_and_map_count (mm_table s) (mm_pool s) f l m page fl Hp Hlen Hent Hout) as (p1 & t' & p' & l' & E1 & Hm1 & Em & Hmp & Hpl & Hsuf & Hcnt & He & Ho).
  rewrite E1, Hsw. cbn [mbind option_bind]. unfold swap_in. cbn [mbind option_bind]. rewrite Hm1, Ein. cbn [mbind option_bind]. rewrite Em. cbn [mbind option_bind].
  exists t', p', sw', l'. rewrite Hmp. split; [reflexivity|]. split; [exact Hrep'|]. split; [exact He|]. split; [exact Ho|].
  split; [exact Hrd|]. split; [exact Hout|by split_and!].
Qed.

Lemma evict_addr_spec (s : mm T) vaddr f fl sw pages l :
  VirtAddr_new vaddr = Some vaddr ->
  mm_swap s = Some sw -> swap_rep sw pages -> pool_at (mm_pool s) l ->
  entry (mm_table s) (containing_address vaddr) = Some (f, fl) ->
  (4096 | f) -> 0 < f < 2 ^ 46 -> f ∉ l ->
  (exists slot t' p' sw',
     evict_addr s vaddr = Some (true, mkMm (record_swapped (mm_vmm s) (containing_address vaddr) (Z.of_nat slot)
                                  (flag_clear fl (Z.lor ACCESSED DIRTY))) t' p' (Some sw')) /\
     swap_rep sw' (<[slot := read_bytes (p_mem (mm_pool s)) (PHYS_MEM_OFFSET + f) PAGE_BYTES]> pages) /\ pages !! slot = None /\
     entry t' (containing_address vaddr) = None /\
     (forall q, q <> containing_address vaddr -> entry t' q = entry (mm_table s) q) /\
     same_outside (PHYS_MEM_OFFSET + f) 8 (p_mem (mm_pool s)) (p_mem p') /\ pool_at p' (f :: l)) \/
  (evict_addr s vaddr = Some (false, s) /\ forall slot, (slot < length (sw_free sw))%nat -> is_Some (pages !! slot)).
Proof.
  intros Hva Hsw Hrep Hp Hent Hfa Hfb Hnin. unfold evict_addr. rewrite Hva. cbn [mbind option_bind]. rewrite translate_spec. pose proof Hent as Hent'.
  rewrite containing_address_spec in Hent'. rewrite Hent'. cbn [fmap option_fmap option_map fst snd].
  assert (Hfr : containing_address (f + vaddr mod 4096) = f).
  { rewrite containing_address_spec. destruct Hfa as [k ->]. rewrite Z.add_comm, Z.div_add, Z.div_small; [lia|apply Z.mod_pos_bound; lia|lia]. }
  rewrite Hfr, Hsw. cbn [mbind option_bind].
  destruct (part_swap_out_spec sw pages (p_mem (mm_pool s)) f Hrep) as [(slot & sw' & Eo & Hfree & Hrep')|[Eo Hfull]]; [lia| |].
  2:{ rewrite Eo. cbn [mbind option_bind]. right. split; [|done]. rewrite <- Hsw. by destruct s. }
  rewrite Eo. cbn [mbind option_bind]. destruct (unmap_ok _ _ _ _ Hent) as (t1 & Eu & Hn & Hq). unfold unmap_page. rewrite Eu. cbn [mbind option_bind].
  destruct Hp as (Hl & Ho & Hfs). destruct (fl_deallocate_spec (mm_pool s) l f Hl) as (p' & Ed & Hl' & Ho' & Hout); [rewrite Ho; unfold PHYS_MEM_OFFSET; split_and!; [done|lia..]|done| |].
  { pose proof (free_list_total_bound _ l (flr_frames _ _ Hl) (flr_nodup _ _ Hl)). lia. }
  change (deallocate (mm_pool s) f) with (fl_deallocate (mm_pool s) f). rewrite Ed. cbn [mbind option_bind].
  left. exists slot, t1, p', sw'. rewrite page_bytes_sectors in Hrep'. split; [reflexivity|]. split; [exact Hrep'|]. split; [exact Hfree|]. split; [exact Hn|]. split; [exact Hq|].
  rewrite Ho in Hout. split; [exact Hout|]. split_and!; [done|congruence|]. constructor; [lia|done].
Qed.

(** C2. Swapping is transparent: evicting a resident page unmaps it and frees its
    frame, and then faulting on any address of it brings back exactly its 4096
    bytes with its permissions (accessed and dirty bits cleared).  Between the
    two and after both, every other page keeps its entry and every byte of
    physical memory outside the page's own frame keeps its value; the swap area
    ends as it was, and the free frames are those of before less the at most
    three that became page tables.  Eviction gives up, changing nothing, only
    when the swap area is full. *)
Theorem evict_then_fault_restores_page (s : mm T) vaddr f fl sw pages l :
  VirtAddr_new vaddr = Some vaddr ->
  mm_swap s = Some sw -> swap_rep sw pages -> pool_at (mm_pool s) l -> (3 <= length l)%nat ->
  entry (mm_table s) (containing_address vaddr) = Some (f, fl) ->
  (4096 | f) -> 0 < f < 2 ^ 46 -> f ∉ l -> swapped (mm_vmm s) !! containing_address vaddr = None ->
  (exists s1, evict_addr s vaddr = Some (true, s1) /\ entry (mm_table s1) (containing_address vaddr) = None /\
     (forall q, q <> containing_address vaddr -> entry (mm_table s1) q = entry (mm_table s) q) /\
     same_outside (PHYS_MEM_OFFSET + f) 4096 (p_mem (mm_pool s)) (p_mem (mm_pool s1)) /\ pool_at (mm_pool s1) (f :: l) /\
     forall addr w, containing_address addr = containing_address vaddr ->
       exists s2 sw2 l2, handle_fault s1 addr w = Some (Ok tt, s2) /\ mm_vmm s2 = mm_vmm s /\
         entry (mm_table s2) (containing_address vaddr) = Some (f, flag_clear fl (Z.lor ACCESSED DIRTY)) /\
         (forall q, q <> containing_address vaddr -> entry (mm_table s2) q = entry (mm_table s) q) /\
         read_bytes (p_mem (mm_pool s2)) (PHYS_MEM_OFFSET + f) PAGE_BYTES =
           read_bytes (p_mem (mm_pool s)) (PHYS_MEM_OFFSET + f) PAGE_BYTES /\
         same_outside (PHYS_MEM_OFFSET + f) 4096 (p_mem (mm_pool s)) (p_mem (mm_pool s2)) /\
         pool_at (mm_pool s2) l2 /\ l2 `suffix_of` l /\ (length l <= length l2 + 3)%nat /\
         mm_swap s2 = Some sw2 /\ swap_rep sw2 pages) \/
  (evict_addr s vaddr = Some (false, s) /\ forall slot, (slot < length (sw_free sw))%nat -> is_Some (pages !! slot)).
Proof.
  intros Hva Hsw Hrep Hp Hlen Hent Hfa Hfb Hnin Hns.
  destruct (evict_addr_spec s vaddr f fl sw pages l Hva Hsw Hrep Hp Hent Hfa Hfb Hnin)
    as [(slot & t1 & p1 & sw1 & E & Hrep1 & Hfresh & Hn & Hq & Hout & Hp1)|?]; [left|by right].
  assert (Hout1 : same_outside (PHYS_MEM_OFFSET + f) 4096 (p_mem (mm_pool s)) (p_mem p1)) by (intros x Hx; apply Hout; lia).
  eexists. split; [exact E|]. split; [exact Hn|]. split; [exact Hq|]. split; [exact Hout1|]. split; [exact Hp1|].
  intros addr w Haddr. unfold handle_fault. cbn [mm_vmm record_swapped swapped]. rewrite Haddr, lookup_insert_eq.
  destruct (fault_swap_in_spec (mkMm (record_swapped (mm_vmm s) (containing_address vaddr) (Z.of_nat slot) (flag_clear fl (Z.lor ACCESSED DIRTY))) t1 p1 (Some sw1))
    (containing_address vaddr) slot (flag_clear fl (Z.lor ACCESSED DIRTY)) _ sw1 _ f l eq_refl Hrep1 (lookup_insert_eq _ _ _) Hp1 Hlen Hn)
    as (t2 & p2 & sw2 & l2 & E2 & Hrep2 & He2 & Hq2 & Hrd & Hout2 & Hp2 & Hsuf & Hcnt).
  eexists _, sw2, l2. split; [exact E2|]. cbn [mm_vmm mm_table mm_pool mm_swap record_swapped areas swapped] in *.
  rewrite !delete_insert_id by done. rewrite delete_insert_id in Hrep2 by done.
  split; [by destruct (mm_vmm s)|]. split; [exact He2|]. split; [intros q Hne; by rewrite Hq2, Hq|]. split; [exact Hrd|].
  split; [|by split_and!]. intros x Hx. rewrite <- (Hout1 x Hx). by apply Hout2.
Qed.

End faults.

(** ** Examples *)

Definition sample_frames : frame_pool :=
  default (mkPool ∅ fl_empty) (fl_init (mkPool ∅ fl_empty) [mkRegion 0x1000 0x6000 true] PHYS_MEM_OFFSET 0).

Lemma sample_frames_pool : pool_at sample_frames [0x5000; 0x4000; 0x3000; 0x2000; 0x1000].
Proof.
  split_and!; [|vm_compute; reflexivity|repeat constructor; lia].
  split; [vm_compute; reflexivity|vm_compute; auto 10|vm_compute; reflexivity| | |].
  - change (phys_offset (p_fl sample_frames)) with PHYS_MEM_OFFSET. unfold PHYS_MEM_OFFSET.
    repeat constructor; try lia; [by exists 5|by exists 4|by exists 3|by exists 2|by exists 1].
  - vm_compute; discriminate.
  - refine (bool_decide_eq_true_1 _ _). reflexivity.
Qed.

Definition sample_area : VmArea := mkArea 0x400000 0x404000 7 Anonymous.
Definition sample_mm (t : gmap Z (Z * Z)) (p : frame_pool) : mm (gmap Z (Z * Z)) :=
  mkMm (mkVmm [sample_area] ∅) t p (Some (mkSwap (blank_disk RAMDISK_VIRT_REGION_BASE 8) [true] 0)).

Lemma fault_zero_fills_witness :
  exists t' p' l', handle_fault (sample_mm ∅ sample_frames) 0x400123 false =
      Some (Ok tt, mkMm (mm_vmm (sample_mm ∅ sample_frames)) t' p' (mm_swap (sample_mm ∅ sample_frames))) /\
    entry t' (containing_address 0x400123) = Some (0x5000, 7) /\
    (forall q, q <> containing_address 0x400123 -> entry t' q = entry (∅ : gmap Z (Z * Z)) q) /\
    read_bytes (p_mem p') (PHYS_MEM_OFFSET + 0x5000) PAGE_BYTES = replicate PAGE_BYTES 0 /\
    same_outside (PHYS_MEM_OFFSET + 0x5000) 4096 (p_mem sample_frames) (p_mem p') /\
    pool_at p' l' /\ l' `suffix_of` [0x4000; 0x3000; 0x2000; 0x1000] /\ (4 <= length l' + 3)%nat.
Proof.
  apply (fault_zero_fills (sample_mm ∅ sample_frames) 0x400123 false sample_area 0x5000 [0x4000; 0x3000; 0x2000; 0x1000]);
    [apply sample_frames_pool|simpl; lia|reflexivity..].
Defined.

Definition cow_table : gmap Z (Z * Z) := {[ 0x400000 := (0x8000, 5) ]}.

Lemma fault_cow_copies_from_fault_address_witness :
  exists t' p' l', handle_fault (sample_mm cow_table sample_frames) 0x400000 true =
      Some (Ok tt, mkMm (mm_vmm (sample_mm cow_table sample_frames)) t' p' (mm_swap (sample_mm cow_table sample_frames))) /\
    entry t' (containing_address 0x400000) = Some (0x5000, 7) /\
    (forall q, q <> containing_address 0x400000 -> entry t' q = entry cow_table q) /\
    read_bytes (p_mem p') (PHYS_MEM_OFFSET + 0x5000) PAGE_BYTES =
      read_bytes (p_mem sample_frames) (PHYS_MEM_OFFSET + 0x8000 + 0x400000 mod 4096) PAGE_BYTES /\
    same_outside (PHYS_MEM_OFFSET + 0x5000) 4096 (p_mem sample_frames) (p_mem p') /\
    pool_at p' l' /\ l' `suffix_of` [0x4000; 0x3000; 0x2000; 0x1000].
Proof.
  apply (fault_cow_copies_from_fault_address (sample_mm cow_table sample_frames) 0x400000 sample_area 0x8000 5 0x5000 [0x4000; 0x3000; 0x2000; 0x1000]);
    [apply sample_frames_pool|simpl; lia|reflexivity|reflexivity|reflexivity|vm_compute; reflexivity|lia|lia].
Defined.

Lemma evict_then_fault_restores_page_witness :
  let s := sample_mm cow_table sample_frames in
  let l := [0x5000; 0x4000; 0x3000; 0x2000; 0x1000] in
  (exists s1, evict_addr s 0x400010 = Some (true, s1) /\ entry (mm_table s1) (containing_address 0x400010) = None /\
     (forall q, q <> containing_address 0x400010 -> entry (mm_table s1) q = entry (mm_table s) q) /\
     same_outside (PHYS_MEM_OFFSET + 0x8000) 4096 (p_mem (mm_pool s)) (p_mem (mm_pool s1)) /\ pool_at (mm_pool s1) (0x8000 :: l) /\
     forall addr w, containing_address addr = containing_address 0x400010 ->
       exists s2 sw2 l2, handle_fault s1 addr w = Some (Ok tt, s2) /\ mm_vmm s2 = mm_vmm s /\
         entry (mm_table s2) (containing_address 0x400010) = Some (0x8000, flag_clear 5 (Z.lor ACCESSED DIRTY)) /\
         (forall q, q <> containing_address 0x400010 -> entry (mm_table s2) q = entry (mm_table s) q) /\
         read_bytes (p_mem (mm_pool s2)) (PHYS_MEM_OFFSET + 0x8000) PAGE_BYTES =
           read_bytes (p_mem (mm_pool s)) (PHYS_MEM_OFFSET + 0x8000) PAGE_BYTES /\
         same_outside (PHYS_MEM_OFFSET + 0x8000) 4096 (p_mem (mm_pool s)) (p_mem (mm_pool s2)) /\
         pool_at (mm_pool s2) l2 /\ l2 `suffix_of` l /\ (length l <= length l2 + 3)%nat /\
         mm_swap s2 = Some sw2 /\ swap_rep sw2 ∅) \/
  (evict_addr s 0x400010 = Some (false, s) /\
   forall slot, (slot < length (sw_free (mkSwap (blank_disk RAMDISK_VIRT_REGION_BASE 8) [true] 0)))%nat -> is_Some ((∅ : gmap nat (list Z)) !! slot)).
Proof.
  intros s l. apply (evict_then_fault_restores_page s 0x400010 0x8000 5 _ ∅ l);
    [reflexivity|reflexivity|apply (blank_swap_rep RAMDISK_VIRT_REGION_BASE 1); lia|apply sample_frames_pool|simpl; lia|vm_compute; reflexivity|by exists 8|lia| |reflexivity].
  refine (bool_decide_eq_true_1 _ _). reflexivity.
Defined.

Section cow_offset.
Context `{X86Addr} {T : Type} `{PageTables T}.


End cow_offset.

(** A shared page whose first byte is 0xAA and a write eight bytes into it. *)
Definition cow_pool (P : frame_pool) : frame_pool := mkPool (<[PHYS_MEM_OFFSET + 0x8000 := 0xAA]> (p_mem P)) (p_fl P).

Lemma cow_pool_at P : pool_at P [0x5000; 0x4000; 0x3000; 0x2000; 0x1000] -> pool_at (cow_pool P) [0x5000; 0x4000; 0x3000; 0x2000; 0x1000].
Proof.
  intros (Hl & Ho & Hf). split; [|split; [exact Ho|exact Hf]]. apply free_list_new_memory; [exact Hl|].
  intros f x Hin Hx. apply get_insert_ne. rewrite Ho in Hx. unfold PHYS_MEM_OFFSET in *.
  repeat (apply elem_of_cons in Hin as [->|Hin]; [lia|]). by apply not_elem_of_nil in Hin.
Qed.


(** ** Walking the pages of a range *)

Section walks.
Context `{X86Addr} {T : Type} `{PageTables T}.

Lemma page_steps_S lo hi : lo < hi -> page_steps lo hi = S (page_steps (lo + 4096) hi).
Proof.
  intros Hlt. unfold page_steps. replace (hi - lo + 4095) with (hi - (lo + 4096) + 4095 + 1 * 4096) by lia.
  rewrite Z.div_add by lia. assert (0 <= (hi - (lo + 4096) + 4095) / 4096) by (apply Z.div_pos; lia). lia.
Qed.

(** [lo <= q < hi] for the page [q] of a walk that starts at [lo]. *)
Definition page_in (lo hi q : Z) : bool := (lo <=? q) && (q <? hi).

Lemma page_in_step lo hi q : (4096 | lo) -> (4096 | q) -> q <> lo -> page_in lo hi q = page_in (lo + 4096) hi q.
Proof.
  intros [a ->] [b ->] Hne. unfold page_in. f_equal. destruct (Z.leb_spec (a * 4096) (b * 4096)), (Z.leb_spec (a * 4096 + 4096) (b * 4096)); try done; lia.
Qed.

Lemma translate_addr_aligned (t : T) a : (4096 | a) -> translate_addr t a = fst <$> entry t a.
Proof.
  intros [k ->]. unfold translate_addr. rewrite translate_spec, Z.div_mul, Z.mod_mul by lia.
  destruct (entry t (k * 4096)) as [[f fl]|]; [|done]. simpl. by rewrite Z.add_0_r.
Qed.

(** Changing the permissions of the mapped pages of a range. *)
Lemma mprotect_loop_spec fuel addr e fl (t : T) :
  (page_steps addr e <= fuel)%nat -> (4096 | addr) -> 0 <= addr -> e + 4096 < 2 ^ 47 ->
  exists t', mprotect_loop fuel addr e fl t = Some t' /\
    forall q, (4096 | q) -> entry t' q = if page_in addr e q then (fun x => (x.1, fl)) <$> entry t q else entry t q.
Proof.
  revert addr t. induction fuel as [|fuel IH]; intros addr t Hfuel Hal Hnn He; cbn [mprotect_loop];
    (destruct (Z.ltb_spec addr e) as [Hlt|Hge]; [rewrite page_steps_S in Hfuel by done|
      exists t; split; [done|]; intros q _; unfold page_in; destruct (Z.leb_spec addr q), (Z.ltb_spec q e); try done; lia]).
  { lia. }
  set (upd := match translate_addr t addr with Some _ => _ | None => _ end).
  assert (exists t1, upd = Some t1 /\ entry t1 addr = (fun x => (x.1, fl)) <$> entry t addr /\
            forall q, q <> addr -> entry t1 q = entry t q) as (t1 & -> & E1 & Eq1).
  { unfold upd. rewrite translate_addr_aligned by done. destruct (entry t addr) as [[f fl0]|] eqn:E; simpl.
    - rewrite containing_aligned by done. destruct (update_flags_ok t addr f fl0 fl E) as (t1 & Eu & ? & ?). unfold remap_flags. rewrite Eu. eauto.
    - exists t. rewrite E. done. }
  cbn [mbind option_bind]. rewrite VirtAddr_add_low by lia. cbn [mbind option_bind].
  assert (Hal' : (4096 | addr + 4096)) by (apply Z.divide_add_r; [done|by exists 1]).
  destruct (IH (addr + 4096) t1) as (t' & E' & Hv); [lia|done|lia|done|]. exists t'. split; [done|]. intros q Hq. rewrite Hv by done.
  destruct (decide (q = addr)) as [->|Hne]; [|by rewrite (page_in_step addr), Eq1].
  unfold page_in. rewrite (proj2 (Z.leb_gt (addr + 4096) addr)), (proj2 (Z.leb_le addr addr)), (proj2 (Z.ltb_lt addr e)) by lia. done.
Qed.

(** ** Protection changes *)

Fixpoint disjoint_areas (l : list VmArea) : Prop :=
  match l with
  | [] => True
  | a :: l => (forall b x, b ∈ l -> in_area x a = true -> in_area x b = false) /\ disjoint_areas l
  end.

Definition flags_at (v : Vmm) (x : Z) : option Z := flags <$> find_area x (areas v).

Lemma disjoint_areas_app l1 l2 :
  disjoint_areas (l1 ++ l2) <->
  disjoint_areas l1 /\ disjoint_areas l2 /\ forall a b x, a ∈ l1 -> b ∈ l2 -> in_area x a = true -> in_area x b = false.
Proof.
  induction l1 as [|a l1 IH]; simpl.
  { split; [intros; split_and!; [done|done|intros ??? Hn; by apply not_elem_of_nil in Hn]|tauto]. }
  rewrite IH. split.
  - intros (Ha & H1 & H2 & Hc). split; [|split; [done|]].
    + split; [|done]. intros b x Hb. apply Ha. apply elem_of_app. by left.
    + intros c b x Hin Hb. apply elem_of_cons in Hin as [->|Hin]; [|by apply Hc]. apply Ha. apply elem_of_app. by right.
  - intros ((Ha & H1) & H2 & Hc). split; [|split; [done|split; [done|]]].
    + intros b x Hb Hx. apply elem_of_app in Hb as [Hb|Hb]; [by apply Ha|]. by apply (Hc a); [constructor| |].
    + intros c b x Hin. apply Hc. by constructor.
Qed.

Lemma find_area_app x l1 l2 :
  find_area x (l1 ++ l2) = match find_area x l1 with Some a => Some a | None => find_area x l2 end.
Proof. unfold find_area. induction l1 as [|a l1 IH]; simpl; [done|]. by destruct (in_area x a). Qed.

Lemma find_area_none x l : (forall a, a ∈ l -> in_area x a = false) -> find_area x l = None.
Proof.
  intros Ha. unfold find_area. induction l as [|a l IH]; simpl; [done|]. rewrite Ha by constructor. apply IH. intros b Hb. apply Ha. by constructor.
Qed.

Lemma in_area_iff x a : in_area x a = true <-> start a <= x < end_ a.
Proof. unfold in_area. destruct (Z.leb_spec (start a) x), (Z.ltb_spec x (end_ a)); simpl; split; try done; lia. Qed.

Lemma in_area_false x a : in_area x a = false <-> ~ start a <= x < end_ a.
Proof. rewrite <- in_area_iff. by destruct (in_area x a). Qed.

Lemma replacements_inside area addr e fl a x :
  start area <= addr -> addr <= e -> e <= end_ area -> a ∈ replacements area addr e fl -> in_area x a = true -> in_area x area = true.
Proof.
  intros H1 H2 H3 Hin. unfold replacements in Hin. rewrite !in_area_iff. rewrite !elem_of_app in Hin.
  destruct Hin as [Hin|[Hin|Hin]].
  - destruct (_ <? _); [apply list_elem_of_singleton in Hin as ->; simpl; lia|by apply not_elem_of_nil in Hin].
  - apply list_elem_of_singleton in Hin as ->. simpl. lia.
  - destruct (_ <? _); [apply list_elem_of_singleton in Hin as ->; simpl; lia|by apply not_elem_of_nil in Hin].
Qed.

Lemma replacements_find area addr e fl x :
  start area <= addr -> addr <= e -> e <= end_ area -> in_area x area = true ->
  flags <$> find_area x (replacements area addr e fl) = Some (if page_in addr e x then fl else flags area).
Proof.
  rewrite in_area_iff. intros H1 H2 H3 Hx. unfold replacements, find_area, page_in, in_area.
  destruct (Z.ltb_spec (start area) addr), (Z.ltb_spec e (end_ area)); simpl;
    destruct (Z.leb_spec addr x), (Z.ltb_spec x addr), (Z.leb_spec e x), (Z.ltb_spec x e), (Z.leb_spec (start area) x), (Z.ltb_spec x (end_ area)); simpl; try done; lia.
Qed.

Lemma replacements_disjoint area addr e fl :
  start area <= addr -> addr <= e -> e <= end_ area -> disjoint_areas (replacements area addr e fl).
Proof.
  intros H1 H2 H3. unfold replacements. rewrite !disjoint_areas_app.
  assert (Hs : forall c (b : bool), disjoint_areas (if b then [c] else [])).
  { intros c []; simpl; [|done]. split; [|done]. intros b x Hb. by apply not_elem_of_nil in Hb. }
  split_and!; [apply Hs|apply (Hs _ true)|apply Hs| |]; intros a b x Ha Hb; rewrite in_area_iff, in_area_false.
  - apply list_elem_of_singleton in Ha as ->. destruct (_ <? _); [|by apply not_elem_of_nil in Hb]. apply list_elem_of_singleton in Hb as ->. simpl. lia.
  - destruct (_ <? _); [|by apply not_elem_of_nil in Ha]. apply list_elem_of_singleton in Ha as ->. apply elem_of_app in Hb as [Hb|Hb].
    + apply list_elem_of_singleton in Hb as ->. simpl. lia.
    + destruct (_ <? _); [|by apply not_elem_of_nil in Hb]. apply list_elem_of_singleton in Hb as ->. simpl. lia.
Qed.

(** Replacing one area of a disjoint list by its pieces. *)
Lemma replace_area_disjoint l1 area l2 addr e fl :
  start area <= addr -> addr <= e -> e <= end_ area -> disjoint_areas (l1 ++ area :: l2) ->
  disjoint_areas (l1 ++ replacements area addr e fl ++ l2).
Proof.
  intros H1 H2 H3 Hdis. apply disjoint_areas_app in Hdis as (Hd1 & [Hd2 Hd3] & Hc). apply disjoint_areas_app. split; [done|]. split.
  - apply disjoint_areas_app. split; [by apply replacements_disjoint; lia|]. split; [done|]. intros a b x Ha Hb Hx.
    apply (Hd2 b x Hb). by apply (replacements_inside area addr e fl a x); [lia..| |].
  - intros a b x Ha Hb Hx. apply elem_of_app in Hb as [Hb|Hb]; [|by apply (Hc a b x Ha); [constructor|]].
    pose proof (Hc a area x Ha ltac:(constructor) Hx) as Hno. destruct (in_area x b) eqn:Exb; [|done].
    rewrite (replacements_inside area addr e fl b x) in Hno by (lia || done). done.
Qed.

Lemma replace_area_flags l1 area l2 addr e fl x :
  start area <= addr -> addr <= e -> e <= end_ area -> disjoint_areas (l1 ++ area :: l2) ->
  flags <$> find_area x (l1 ++ replacements area addr e fl ++ l2) =
    if page_in addr e x then Some fl else flags <$> find_area x (l1 ++ area :: l2).
Proof.
  intros H1 H2 H3 Hdis. apply disjoint_areas_app in Hdis as (_ & _ & Hc).
  rewrite !find_area_app. change (area :: ?l) with ([area] ++ l). rewrite find_area_app.
  destruct (in_area x area) eqn:Exa.
  - rewrite (find_area_none x l1).
    2:{ intros a Ha. destruct (in_area x a) eqn:Ea; [|done]. specialize (Hc a area x Ha ltac:(constructor) Ea). congruence. }
    pose proof (replacements_find area addr e fl x H1 H2 H3 Exa) as Hr.
    destruct (find_area x (replacements area addr e fl)) as [r|]; simpl in Hr; [|done]. unfold find_area at 1. simpl. rewrite Exa. simpl.
    injection Hr as ->. by destruct (page_in _ _ _).
  - assert (page_in addr e x = false) as ->.
    { unfold page_in. apply in_area_false in Exa. destruct (Z.leb_spec addr x), (Z.ltb_spec x e); try done. lia. }
    destruct (find_area x l1); [done|]. rewrite (find_area_none x (replacements _ _ _ _)).
    + unfold find_area at 2. simpl. by rewrite Exa.
    + intros a Ha. destruct (in_area x a) eqn:Ea; [|done]. rewrite (replacements_inside area addr e fl a x) in Exa by (lia || done). done.
Qed.

(** C29. [mprotect] on a page-aligned range either succeeds, giving exactly the
    addresses of the range the new permissions, in the area list and in every
    mapped page, and keeping the areas disjoint; or fails and changes nothing,
    because no area holds the start of the range or the range leaves it. *)
Theorem mprotect_changes_exactly_range (v : Vmm) (t : T) addr len fl :
  disjoint_areas (areas v) -> (4096 | addr) -> 0 <= addr -> 0 <= len -> addr + len + 4096 < 2 ^ 47 ->
  (exists v' t', mprotect v t addr len fl = Some (Ok tt, v', t') /\
     disjoint_areas (areas v') /\ swapped v' = swapped v /\
     (forall x, flags_at v' x = if page_in addr (addr + len) x then Some fl else flags_at v x) /\
     (forall q, (4096 | q) -> entry t' q = if page_in addr (addr + len) q then (fun e => (e.1, fl)) <$> entry t q else entry t q)) \/
  (mprotect v t addr len fl = Some (Err tt, v, t) /\
     forall a, find_area addr (areas v) = Some a -> end_ a < addr + len).
Proof.
  intros Hdis Hal Hnn Hlen Hmax. unfold mprotect. rewrite VirtAddr_add_low by lia. cbn [mbind option_bind].
  destruct (list_find _ (areas v)) as [[idx area]|] eqn:Hf.
  2:{ right. split; [done|]. intros a Ha. apply list_find_None in Hf. unfold find_area in Ha. apply List.find_some in Ha as [Hin Hx].
      rewrite Forall_forall in Hf. exfalso. apply (Hf a); [by apply list_elem_of_In|done]. }
  apply list_find_Some in Hf as (Hidx & Hin & Hbefore). pose proof (take_drop_middle _ _ _ Hidx) as Esplit.
  assert (Hnb : find_area addr (take idx (areas v)) = None).
  { apply find_area_none. intros a Ha. apply list_elem_of_lookup in Ha as [j Hj]. apply lookup_take_Some in Hj as [Hj Hlt].
    specialize (Hbefore j a Hj Hlt). by destruct (in_area addr a). }
  assert (Hfind : find_area addr (areas v) = Some area).
  { rewrite <- Esplit, find_area_app, Hnb. unfold find_area. simpl. by rewrite Hin. }
  destruct (Z.ltb_spec (end_ area) (addr + len)) as [Hout|Hinr].
  { right. split; [done|]. intros a Ha. rewrite Hfind in Ha. by injection Ha as <-. }
  left. destruct (mprotect_loop_spec (page_steps addr (addr + len)) addr (addr + len) fl t) as (t' & Et & Hpages); [lia|done|lia|lia|].
  rewrite Et. cbn [mbind option_bind]. pose proof (proj1 (in_area_iff addr area) Hin) as Hs.
  eexists _, t'. split; [reflexivity|]. cbn [areas swapped]. pose proof Hdis as Hdis'. rewrite <- Esplit in Hdis'. split_and!; [|done| |done].
  - by apply replace_area_disjoint; [lia..|].
  - intros x. unfold flags_at. cbn [areas]. rewrite replace_area_flags by (lia || done). by rewrite Esplit.
Qed.

End walks.

Lemma mprotect_changes_exactly_range_witness :
  let v := mkVmm [sample_area] ∅ in
  (exists v' t', mprotect v cow_table 0x401000 0x1000 5 = Some (Ok tt, v', t') /\
     disjoint_areas (areas v') /\ swapped v' = swapped v /\
     (forall x, flags_at v' x = if page_in 0x401000 (0x401000 + 0x1000) x then Some 5 else flags_at v x) /\
     (forall q, (4096 | q) -> entry t' q = if page_in 0x401000 (0x401000 + 0x1000) q then (fun e => (e.1, 5)) <$> entry cow_table q else entry cow_table q)) \/
  (mprotect v cow_table 0x401000 0x1000 5 = Some (Err tt, v, cow_table) /\
     forall a, find_area 0x401000 (areas v) = Some a -> end_ a < 0x401000 + 0x1000).
Proof.
  intros v. apply mprotect_changes_exactly_range; [|by exists 0x401|lia|lia|lia].
  split; [|done]. intros b x Hb. by apply not_elem_of_nil in Hb.
Defined.

(** ** Fork *)

Section fork.
Context `{X86Addr} {T : Type} `{PageTables T}.

Definition aligned_frames (t : T) : Prop := forall q f fl, entry t q = Some (f, fl) -> (4096 | f).

(** Frames are only drawn from the pool: memory and the window stay. *)
Definition pool_drawn_from (p : frame_pool) (l : list Z) (p' : frame_pool) (l' : list Z) : Prop :=
  free_list p' l' /\ l' `suffix_of` l /\ p_mem p' = p_mem p /\ phys_offset (p_fl p') = phys_offset (p_fl p).

Lemma pool_drawn_from_refl p l : free_list p l -> pool_drawn_from p l p l.
Proof. intros Hl. unfold pool_drawn_from. by split_and!. Qed.

Lemma pool_drawn_from_trans p l p1 l1 p2 l2 : pool_drawn_from p l p1 l1 -> pool_drawn_from p1 l1 p2 l2 -> pool_drawn_from p l p2 l2.
Proof. intros (_ & Hs1 & Hm1 & Ho1) (Hf & Hs2 & Hm2 & Ho2). unfold pool_drawn_from. split_and!; [done|by etrans|congruence|congruence]. Qed.

Lemma pool_drawn_from_at p l p' l' : pool_at p l -> pool_drawn_from p l p' l' -> pool_at p' l'.
Proof. intros (_ & Ho & Hf) (Hl & [k ->] & _ & Ho'). split_and!; [done|congruence|]. by apply Forall_app in Hf as [_ ?]. Qed.

(** The entry a page of an area gets in both address spaces. *)
Definition shared_entry (t : T) (q ro : Z) : option (Z * Z) := (fun e => (e.1, ro)) <$> entry t q.

Lemma fork_cow_page_spec (parent child : T) p l addr ro :
  free_list p l -> (3 <= length l)%nat -> (4096 | addr) -> aligned_frames parent -> entry child addr = None ->
  exists parent' child' p' l',
    match translate_addr parent addr with
    | Some phys =>
        parent ← remap_flags parent (containing_address addr) ro;
        '(child, p) ← map_page child (containing_address addr) (containing_address phys) ro p;
        Some (parent, child, p)
    | None => Some (parent, child, p)
    end = Some (parent', child', p') /\
    pool_drawn_from p l p' l' /\ (length l <= length l' + 3)%nat /\
    entry parent' addr = shared_entry parent addr ro /\ entry child' addr = shared_entry parent addr ro /\
    forall q, q <> addr -> entry parent' q = entry parent q /\ entry child' q = entry child q.
Proof.
  intros Hl Hlen Hal Hfr Hc. rewrite translate_addr_aligned by done. unfold shared_entry. destruct (entry parent addr) as [[f fl]|] eqn:E; simpl.
  2:{ exists parent, child, p, l. rewrite E. split_and!; [done|by apply pool_drawn_from_refl|lia|done|done|done]. }
  rewrite (containing_aligned addr Hal), (containing_aligned f) by (by eapply Hfr).
  destruct (update_flags_ok parent addr f fl ro E) as (parent' & Eu & He & Hq). unfold remap_flags. rewrite Eu. cbn [mbind option_bind].
  destruct (@map_page_spec frame_pool _ free_list_pool T _ child p l addr f ro Hl Hlen Hc) as (child' & p' & fs & l' & Em & Hd & Hl' & -> & Hfs & He' & Hq').
  destruct (fl_drawn_mem _ _ _ _ Hl Hd) as [Hm Ho].
  rewrite Em. cbn [mbind option_bind]. exists parent', child', p', l'. rewrite length_app. split_and!; [done|unfold pool_drawn_from; split_and!; [done|by exists fs|done|done]|lia|done|done|]. intros q Hne. split; auto.
Qed.

Lemma fork_cow_loop_spec fuel addr e ro (parent child : T) p l :
  (page_steps addr e <= fuel)%nat -> (4096 | addr) -> 0 <= addr -> e + 4096 < 2 ^ 47 ->
  free_list p l -> (3 * page_steps addr e <= length l)%nat -> aligned_frames parent ->
  (forall q, (4096 | q) -> page_in addr e q = true -> entry child q = None) ->
  exists parent' child' p' l', fork_cow_loop fuel addr e ro parent child p = Some (parent', child', p') /\
    pool_drawn_from p l p' l' /\ (length l <= length l' + 3 * page_steps addr e)%nat /\ aligned_frames parent' /\
    forall q, (4096 | q) ->
      entry parent' q = (if page_in addr e q then shared_entry parent q ro else entry parent q) /\
      entry child' q = (if page_in addr e q then shared_entry parent q ro else entry child q).
Proof.
  revert addr parent child p l. induction fuel as [|fuel IH]; intros addr parent child p l Hfuel Hal Hnn He Hl Hlen Hfr Hc; cbn [fork_cow_loop];
    (destruct (Z.ltb_spec addr e) as [Hlt|Hge]; [rewrite page_steps_S in * by done|
      exists parent, child, p, l; split_and!; [done|by apply pool_drawn_from_refl|lia|done|];
      intros q _; unfold page_in; destruct (Z.leb_spec addr q), (Z.ltb_spec q e); try done; lia]).
  { lia. }
  assert (Hin : page_in addr e addr = true) by (unfold page_in; rewrite (proj2 (Z.leb_le addr addr)), (proj2 (Z.ltb_lt addr e)) by lia; done).
  destruct (fork_cow_page_spec parent child p l addr ro) as (pa1 & ch1 & p1 & l1 & E1 & Hl1 & Hlen1 & Ep & Ec & Eq); [done|lia|done|done|by apply Hc|].
  cbn zeta. rewrite E1. cbn [mbind option_bind]. rewrite VirtAddr_add_low by lia. cbn [mbind option_bind].
  assert (Hal' : (4096 | addr + 4096)) by (apply Z.divide_add_r; [done|by exists 1]).
  assert (Hfr1 : aligned_frames pa1).
  { intros q f fl Eq'. destruct (decide (q = addr)) as [->|Hne]; [|destruct (Eq q Hne) as [Eqp _]; rewrite Eqp in Eq'; by eapply Hfr].
    rewrite Ep in Eq'. unfold shared_entry in Eq'. destruct (entry parent addr) as [[f' fl']|] eqn:E; [|done]. injection Eq' as <- _. by eapply Hfr. }
  destruct (IH (addr + 4096) pa1 ch1 p1 l1) as (pa' & ch' & p' & l' & E' & Hl' & Hlen' & Hfr' & Hv); [lia|done|lia|done|apply Hl1|lia|done| |].
  { intros q Hq Hpq. destruct (decide (q = addr)) as [->|Hne].
    - unfold page_in in Hpq. rewrite (proj2 (Z.leb_gt (addr + 4096) addr)) in Hpq by lia. done.
    - destruct (Eq q Hne) as [_ ->]. apply Hc; [done|]. by rewrite (page_in_step addr). }
  exists pa', ch', p', l'. split_and!; [done|by eapply pool_drawn_from_trans|lia|done|]. intros q Hq. destruct (Hv q Hq) as [Hvp Hvc]. rewrite Hvp, Hvc.
  destruct (decide (q = addr)) as [->|Hne].
  - rewrite Hin. unfold page_in. rewrite (proj2 (Z.leb_gt (addr + 4096) addr)) by lia. simpl. by rewrite Ep, Ec.
  - rewrite (page_in_step addr e q) by done. destruct (Eq q Hne) as [Eqp Eqc]. unfold shared_entry. by rewrite Eqp, Eqc.
Qed.

Definition area_pages (l : list VmArea) : nat := sum_list_with (fun a => page_steps (start a) (end_ a)) l.

Definition low_aligned (a : VmArea) : Prop := (4096 | start a) /\ 0 <= start a /\ end_ a + 4096 < 2 ^ 47.

Lemma page_in_area a q : page_in (start a) (end_ a) q = in_area q a.
Proof. done. Qed.

Lemma fork_cow_areas_spec la cv (parent child : T) p l :
  Forall low_aligned la -> disjoint_areas la -> free_list p l -> (3 * area_pages la <= length l)%nat ->
  aligned_frames parent ->
  (forall q a, (4096 | q) -> find_area q la = Some a -> entry child q = None) ->
  exists cv' parent' child' p' l', fork_cow_areas la cv parent child p = Some (cv', parent', child', p') /\
    cv' = mkVmm (areas cv ++ la) (swapped cv) /\ pool_drawn_from p l p' l' /\ (length l <= length l' + 3 * area_pages la)%nat /\
    forall q, (4096 | q) ->
      entry parent' q = match find_area q la with Some a => shared_entry parent q (flag_clear (flags a) WRITABLE) | None => entry parent q end /\
      entry child' q = match find_area q la with Some a => shared_entry parent q (flag_clear (flags a) WRITABLE) | None => entry child q end.
Proof.
  revert cv parent child p l. induction la as [|a la IH]; intros cv parent child p l Hla Hdis Hl Hlen Hfr Hc.
  { exists cv, parent, child, p, l. rewrite app_nil_r. destruct cv. split_and!; [done|done|by apply pool_drawn_from_refl|lia|done]. }
  apply Forall_cons in Hla as [(Hal & Hnn & Hmax) Hla]. destruct Hdis as [Hd Hdis]. cbn [fork_cow_areas]. unfold area_pages in Hlen. simpl in Hlen.
  destruct (fork_cow_loop_spec (page_steps (start a) (end_ a)) (start a) (end_ a) (flag_clear (flags a) WRITABLE) parent child p l)
    as (pa1 & ch1 & p1 & l1 & E1 & Hl1 & Hlen1 & Hfr1 & Hv1); [lia|done|done|done|done|lia|done| |].
  { intros q Hq Hin. apply (Hc q a Hq). unfold find_area. simpl. rewrite page_in_area in Hin. by rewrite Hin. }
  rewrite E1. cbn [mbind option_bind].
  assert (Hother : forall q b, find_area q la = Some b -> in_area q a = false).
  { intros q b Hb. apply List.find_some in Hb as [Hbin Hqb]. destruct (in_area q a) eqn:Eqa; [|done].
    rewrite (Hd b q) in Hqb; [done|by apply list_elem_of_In|done]. }
  destruct (IH (add_area cv a) pa1 ch1 p1 l1) as (cv' & pa' & ch' & p' & l' & E' & Ecv & Hl' & Hlen' & Hv); [done|done|apply Hl1|unfold area_pages; lia|done| |].
  { intros q b Hq Hb. destruct (Hv1 q Hq) as [_ ->]. rewrite page_in_area, (Hother q b Hb). apply (Hc q b Hq). unfold find_area in *. simpl. by rewrite (Hother q b Hb). }
  exists cv', pa', ch', p', l'. split_and!; [done| |by eapply pool_drawn_from_trans|unfold area_pages in *; simpl; lia|].
  { rewrite Ecv. simpl. by rewrite <- (assoc_L (++)). }
  intros q Hq. destruct (Hv q Hq) as [Hvp Hvc]. destruct (Hv1 q Hq) as [H1p H1c]. rewrite Hvp, Hvc.
  change (find_area q (a :: la)) with (if in_area q a then Some a else find_area q la). rewrite page_in_area in H1p, H1c.
  destruct (find_area q la) as [b|] eqn:Eb.
  - rewrite (Hother q b Eb) in *. unfold shared_entry. by rewrite H1p.
  - rewrite H1p, H1c. by destruct (in_area q a).
Qed.

(** C28. [fork_cow] shares memory safely: it succeeds when the pool can back the
    page tables; the child gets the parent's areas; and every page mapped in an
    area is mapped in both address spaces to the same frame without the
    writable bit, so that neither can modify the shared frame without a fault.
    Pages outside the areas are untouched on both sides. *)
Theorem fork_cow_shares_read_only (v : Vmm) (parent child : T) p l :
  Forall low_aligned (areas v) -> disjoint_areas (areas v) -> free_list p l -> (3 * area_pages (areas v) <= length l)%nat ->
  aligned_frames parent -> (forall q a, (4096 | q) -> find_area q (areas v) = Some a -> entry child q = None) ->
  exists child_vmm parent' child' p' l', fork_cow v parent child p = Some (child_vmm, parent', child', p') /\
    areas child_vmm = areas v /\ free_list p' l' /\
    (forall q a, (4096 | q) -> find_area q (areas v) = Some a ->
       entry parent' q = entry child' q /\
       forall f fl, entry parent q = Some (f, fl) ->
         entry child' q = Some (f, flag_clear (flags a) WRITABLE) /\ flag_set (flag_clear (flags a) WRITABLE) WRITABLE = false) /\
    (forall q, (4096 | q) -> find_area q (areas v) = None -> entry parent' q = entry parent q /\ entry child' q = entry child q).
Proof.
  intros Hla Hdis Hl Hlen Hfr Hc. unfold fork_cow.
  destruct (fork_cow_areas_spec (areas v) vmm_new parent child p l Hla Hdis Hl Hlen Hfr Hc) as (cv & pa & ch & p' & l' & E & -> & Hl' & _ & Hv).
  do 5 eexists. split; [exact E|]. split_and!; [done|apply Hl'| |].
  - intros q a Hq Ha. destruct (Hv q Hq) as [Hp Hch]. rewrite Ha in Hp, Hch. split; [congruence|]. intros f fl Ef. rewrite Hch. unfold shared_entry. rewrite Ef.
    split; [done|]. unfold flag_set, flag_clear, WRITABLE. apply Z.eqb_neq. intros Eq. apply (f_equal (fun z => Z.testbit z 1)) in Eq.
    rewrite Z.land_spec, Z.ldiff_spec in Eq. simpl in Eq. by rewrite !andb_false_r in Eq.
  - intros q Hq Ha. destruct (Hv q Hq) as [Hp Hch]. by rewrite Ha in Hp, Hch.
Qed.

Lemma find_area_page addr la a :
  Forall low_aligned la -> find_area addr la = Some a -> exists a', find_area (containing_address addr) la = Some a'.
Proof.
  intros Hla Ha. apply List.find_some in Ha as [Hin Hx]. destruct (find_area (containing_address addr) la) as [a'|] eqn:E; [by exists a'|].
  pose proof (List.find_none _ _ E a Hin) as Hn. rewrite Forall_forall in Hla. apply list_elem_of_In, Hla in Hin as ([k Hk] & _ & _).
  apply in_area_iff in Hx. apply in_area_false in Hn. rewrite containing_address_spec in Hn. pose proof (Z.mul_div_le addr 4096 ltac:(lia)).
  exfalso. apply Hn. split; [|lia]. rewrite Hk. apply Z.mul_le_mono_nonneg_r; [lia|]. apply Z.div_le_lower_bound; lia.
Qed.

Lemma low_page_new vaddr la a : Forall low_aligned la -> find_area (containing_address vaddr) la = Some a -> VirtAddr_new vaddr = Some vaddr.
Proof.
  intros Hla Ha. apply List.find_some in Ha as [Hin Hx]. rewrite Forall_forall in Hla. apply list_elem_of_In, Hla in Hin as (_ & Hs & He).
  apply in_area_iff in Hx. rewrite containing_address_spec in Hx. apply VirtAddr_new_low. pose proof (Z.div_mod vaddr 4096 ltac:(lia)).
  pose proof (Z.mod_pos_bound vaddr 4096 ltac:(lia)). lia.
Qed.

End fork.

Lemma fork_cow_shares_read_only_witness :
  let v := mkVmm [mkArea 0x400000 0x401000 7 Anonymous] ∅ in
  exists child_vmm parent' child' p' l', fork_cow v cow_table ∅ sample_frames = Some (child_vmm, parent', child', p') /\
    areas child_vmm = areas v /\ free_list p' l' /\
    (forall q a, (4096 | q) -> find_area q (areas v) = Some a ->
       entry parent' q = entry child' q /\
       forall f fl, entry cow_table q = Some (f, fl) ->
         entry child' q = Some (f, flag_clear (flags a) WRITABLE) /\ flag_set (flag_clear (flags a) WRITABLE) WRITABLE = false) /\
    (forall q, (4096 | q) -> find_area q (areas v) = None -> entry parent' q = entry cow_table q /\ entry child' q = entry (∅ : gmap Z (Z * Z)) q).
Proof.
  intros v. apply (fork_cow_shares_read_only v cow_table ∅ sample_frames [0x5000; 0x4000; 0x3000; 0x2000; 0x1000]).
  - repeat constructor; simpl; try lia. by exists 0x400.
  - split; [|done]. intros b x Hb. by apply not_elem_of_nil in Hb.
  - apply sample_frames_pool.
  - vm_compute. lia.
  - intros q f fl Hq. unfold cow_table in Hq. simpl in Hq. apply lookup_singleton_Some in Hq as [_ [= <- _]]. by exists 8.
  - intros. apply lookup_empty.
Defined.

(** C39. Fork loses swapped-out pages: take a process one of whose pages is in
    the swap area, with contents [pg], and fork it into a fresh table.  The fork
    succeeds and gives the child the area the page belongs to, but no record of
    the swapped page.  When the parent next touches the page it gets [pg] back,
    with the page's permissions; the child, touching the same page, gets a
    frame of zeros, whatever [pg] was. *)
Theorem fork_cow_drops_swapped_pages `{X86Addr} {T : Type} `{PageTables T} (v : Vmm) (parent child : T) p l sw pages addr w area slot fl pg :
  Forall low_aligned (areas v) -> disjoint_areas (areas v) -> aligned_frames parent ->
  (forall q a, (4096 | q) -> find_area q (areas v) = Some a -> entry child q = None) ->
  pool_at p l -> (3 * area_pages (areas v) + 4 <= length l)%nat -> find_area addr (areas v) = Some area ->
  swap_rep sw pages -> pages !! slot = Some pg ->
  swapped v !! containing_address addr = Some (Z.of_nat slot, fl) -> entry parent (containing_address addr) = None ->
  exists cv parent' child' p', fork_cow v parent child p = Some (cv, parent', child', p') /\
    find_area addr (areas cv) = Some area /\ swapped cv !! containing_address addr = None /\
    (exists s f, handle_fault (mkMm v parent' p' (Some sw)) addr w = Some (Ok tt, s) /\
       entry (mm_table s) (containing_address addr) = Some (f, fl) /\
       read_bytes (p_mem (mm_pool s)) (PHYS_MEM_OFFSET + f) PAGE_BYTES = pg) /\
    (exists s f, handle_fault (mkMm cv child' p' (Some sw)) addr w = Some (Ok tt, s) /\
       entry (mm_table s) (containing_address addr) = Some (f, flags area) /\
       read_bytes (p_mem (mm_pool s)) (PHYS_MEM_OFFSET + f) PAGE_BYTES = replicate PAGE_BYTES 0).
Proof.
  intros Hla Hdis Hfr Hch Hp Hlen Ha Hrep Hpg Hsw Hent.
  destruct (fork_cow_areas_spec (areas v) vmm_new parent child p l Hla Hdis (proj1 Hp) ltac:(lia) Hfr Hch) as (cv & pa & ch & p' & l' & E & -> & Hl' & Hlen' & Hv).
  apply (pool_drawn_from_at _ _ _ _ Hp) in Hl'. destruct l' as [|f l']; [simpl in *; lia|]. simpl in Hlen'.
  destruct (find_area_page _ _ _ Hla Ha) as [a' Ha']. destruct (Hv (containing_address addr)) as [Epa Ech]; [rewrite containing_address_spec; by eexists|].
  rewrite Ha' in Epa, Ech. unfold shared_entry in Epa, Ech. rewrite Hent in Epa, Ech. simpl in Epa, Ech.
  do 4 eexists. split; [exact E|]. split; [exact Ha|]. split; [apply lookup_empty|]. split.
  - unfold handle_fault. cbn [mm_vmm]. rewrite Hsw.
    destruct (fault_swap_in_spec (mkMm v pa p' (Some sw)) (containing_address addr) slot fl pg sw pages f l' eq_refl Hrep Hpg Hl')
      as (t2 & p2 & sw2 & l2 & E2 & _ & He2 & _ & Hrd & _); [lia|done|]. eexists _, f. split; [exact E2|]. by split.
  - destruct (fault_zero_fill_spec (mkMm (mkVmm (areas vmm_new ++ areas v) (swapped vmm_new)) ch p' (Some sw)) addr w area f l')
      as (t2 & p2 & l2 & E2 & He2 & _ & Hrd & _); [done|lia|apply lookup_empty|done|done|]. eexists _, f. split; [exact E2|]. by split.
Qed.

Definition seven_frames : frame_pool :=
  default (mkPool ∅ fl_empty) (fl_init (mkPool ∅ fl_empty) [mkRegion 0x1000 0x8000 true] PHYS_MEM_OFFSET 0).

Lemma seven_frames_pool : pool_at seven_frames [0x7000; 0x6000; 0x5000; 0x4000; 0x3000; 0x2000; 0x1000].
Proof.
  split_and!; [|vm_compute; reflexivity|repeat constructor; lia].
  split; [vm_compute; reflexivity|vm_compute; auto 20|vm_compute; reflexivity| | |].
  - change (phys_offset (p_fl seven_frames)) with PHYS_MEM_OFFSET. unfold PHYS_MEM_OFFSET.
    repeat constructor; try lia; [by exists 7|by exists 6|by exists 5|by exists 4|by exists 3|by exists 2|by exists 1].
  - vm_compute; discriminate.
  - refine (bool_decide_eq_true_1 _ _). reflexivity.
Qed.

(** A one-page area whose page, starting with the byte 0xAA, is in swap. *)
Lemma fork_cow_drops_swapped_pages_witness :
  exists sw slot pg, pg !! 0%nat = Some 0xAA /\
  let v := mkVmm [mkArea 0x400000 0x401000 7 Anonymous] {[ 0x400000 := (Z.of_nat slot, 7) ]} in
  exists cv parent' child' p', fork_cow v (∅ : gmap Z (Z * Z)) ∅ seven_frames = Some (cv, parent', child', p') /\
    find_area 0x400010 (areas cv) = Some (mkArea 0x400000 0x401000 7 Anonymous) /\ swapped cv !! containing_address 0x400010 = None /\
    (exists s f, handle_fault (mkMm v parent' p' (Some sw)) 0x400010 false = Some (Ok tt, s) /\
       entry (mm_table s) (containing_address 0x400010) = Some (f, 7) /\
       read_bytes (p_mem (mm_pool s)) (PHYS_MEM_OFFSET + f) PAGE_BYTES = pg) /\
    (exists s f, handle_fault (mkMm cv child' p' (Some sw)) 0x400010 false = Some (Ok tt, s) /\
       entry (mm_table s) (containing_address 0x400010) = Some (f, 7) /\
       read_bytes (p_mem (mm_pool s)) (PHYS_MEM_OFFSET + f) PAGE_BYTES = replicate PAGE_BYTES 0).
Proof.
  pose proof (blank_swap_rep RAMDISK_VIRT_REGION_BASE 1 ltac:(lia)) as Hrep0.
  destruct (part_swap_out_spec _ ∅ (p_mem (cow_pool sample_frames)) 0x8000 Hrep0) as [(slot & sw & _ & _ & Hrep)|[_ Hfull]]; [lia| |].
  2:{ destruct (Hfull 0%nat) as [? Hx]; [simpl; lia|]. by rewrite lookup_empty in Hx. }
  exists sw, slot, (read_bytes (p_mem (cow_pool sample_frames)) (PHYS_MEM_OFFSET + 0x8000) (8 * 512)). split; [|intros v;
    apply (fork_cow_drops_swapped_pages v (∅ : gmap Z (Z * Z)) ∅ seven_frames [0x7000; 0x6000; 0x5000; 0x4000; 0x3000; 0x2000; 0x1000] sw
      (<[slot := read_bytes (p_mem (cow_pool sample_frames)) (PHYS_MEM_OFFSET + 0x8000) (8 * 512)]> ∅) 0x400010 false (mkArea 0x400000 0x401000 7 Anonymous) slot 7 _);
    [| | | |apply seven_frames_pool|vm_compute; lia|reflexivity|exact Hrep|apply lookup_insert_eq|apply lookup_singleton_eq|reflexivity]].
  - rewrite read_bytes_lookup by lia. rewrite Z.add_0_r. f_equal.
  - repeat constructor; simpl; try lia. by exists 0x400.
  - split; [|done]. intros b x Hb. by apply not_elem_of_nil in Hb.
  - intros q f fl Hq. change ((∅ : gmap Z (Z * Z)) !! q = Some (f, fl)) in Hq. by apply lookup_empty_Some in Hq.
  - intros. apply lookup_empty.
Defined.

(** ** Eviction and copy-on-write

    Frames have no reference count, so the assumption that no two pages share a
    frame, which eviction relies on, fails after a fork. *)

(** C40. Evicting a page that fork shares frees the frame under the child: the next
    zero-fill fault of any other address space gets the very frame the child
    still maps, clears it, and maps it a second time. *)
Theorem evict_frees_shared_frame `{X86Addr} {T : Type} `{PageTables T} v (parent child : T) p l0 cv parent' child' p' vaddr a f fl sw pages l s1
    v3 (t3 : T) addr w area :
  Forall low_aligned (areas v) -> disjoint_areas (areas v) -> free_list p l0 -> (3 * area_pages (areas v) <= length l0)%nat ->
  aligned_frames parent -> (forall q a, (4096 | q) -> find_area q (areas v) = Some a -> entry child q = None) ->
  fork_cow v parent child p = Some (cv, parent', child', p') ->
  find_area (containing_address vaddr) (areas v) = Some a -> entry parent (containing_address vaddr) = Some (f, fl) ->
  swap_rep sw pages -> pool_at p' l -> (3 <= length l)%nat -> 0 < f < 2 ^ 46 -> f ∉ l ->
  evict_addr (mkMm v parent' p' (Some sw)) vaddr = Some (true, s1) ->
  swapped v3 !! containing_address addr = None -> find_area addr (areas v3) = Some area -> entry t3 (containing_address addr) = None ->
  entry child' (containing_address vaddr) = Some (f, flag_clear (flags a) WRITABLE) /\
  exists s3, handle_fault (mkMm v3 t3 (mm_pool s1) (mm_swap s1)) addr w = Some (Ok tt, s3) /\
    entry (mm_table s3) (containing_address addr) = Some (f, flags area) /\
    read_bytes (p_mem (mm_pool s3)) (PHYS_MEM_OFFSET + f) PAGE_BYTES = replicate PAGE_BYTES 0.
Proof.
  intros Hla Hdis Hl0 Hlen0 Hfr Hch Ef Ha Hp Hrep Hpool Hlen Hb Hnin E Hs3 Ha3 Hn3.
  destruct (fork_cow_areas_spec (areas v) vmm_new parent child p l0 Hla Hdis Hl0 Hlen0 Hfr Hch) as (cv' & pa & ch & p1 & l1 & Ef' & _ & _ & _ & Hent).
  unfold fork_cow in Ef. rewrite Ef' in Ef. injection Ef as -> -> -> ->.
  destruct (Hent (containing_address vaddr)) as [Ep Ec]; [rewrite containing_address_spec; by exists (vaddr / 4096)|].
  rewrite Ha in Ep, Ec. unfold shared_entry in Ep, Ec. rewrite Hp in Ep, Ec. cbn in Ep, Ec. split; [done|].
  destruct (evict_addr_spec (mkMm v parent' p' (Some sw)) vaddr f _ sw pages l (low_page_new _ _ _ Hla Ha) eq_refl Hrep Hpool Ep (Hfr _ _ _ Hp) Hb Hnin)
    as [(slot & t1 & p2 & sw1 & E1 & _ & _ & _ & _ & _ & Hp2)|[E1 _]]; [|congruence].
  rewrite E1 in E. injection E as <-. cbn [mm_pool mm_swap].
  destruct (fault_zero_fill_spec (mkMm v3 t3 p2 (Some sw1)) addr w area f l) as (t' & p3 & l' & Ez & He & _ & Hrd & _); [done..|].
  eexists. split; [exact Ez|]. by split.
Qed.

Lemma evict_frees_shared_frame_witness :
  let v := mkVmm [mkArea 0x400000 0x401000 7 Anonymous] ∅ in
  let sw := mkSwap (blank_disk RAMDISK_VIRT_REGION_BASE 8) [true] 0 in
  let shared : gmap Z (Z * Z) := {[ 0x400000 := (0x8000, 5) ]} in
  exists s1, evict_addr (mkMm v shared sample_frames (Some sw)) 0x400000 = Some (true, s1) /\
  entry shared (containing_address 0x400000) = Some (0x8000, flag_clear 7 WRITABLE) /\
  exists s3, handle_fault (mkMm v (∅ : gmap Z (Z * Z)) (mm_pool s1) (mm_swap s1)) 0x400010 true = Some (Ok tt, s3) /\
    entry (mm_table s3) (containing_address 0x400010) = Some (0x8000, 7) /\
    read_bytes (p_mem (mm_pool s3)) (PHYS_MEM_OFFSET + 0x8000) PAGE_BYTES = replicate PAGE_BYTES 0.
Proof.
  intros v sw shared.
  assert (Ha : Forall low_aligned (areas v)) by (repeat constructor; simpl; try lia; by exists 0x400).
  assert (Hd : disjoint_areas (areas v)) by (split; [|done]; intros b x Hb; by apply not_elem_of_nil in Hb).
  assert (Hfr : aligned_frames cow_table).
  { intros q f fl Hq. unfold cow_table in Hq. simpl in Hq. apply lookup_singleton_Some in Hq as [_ [= <- _]]. by exists 8. }
  destruct (evict_addr (mkMm v shared sample_frames (Some sw)) 0x400000) as [[b s1]|] eqn:E; [|vm_compute in E; discriminate].
  destruct b; [|vm_compute in E; discriminate]. exists s1. split; [reflexivity|].
  apply (evict_frees_shared_frame v cow_table ∅ sample_frames [0x5000; 0x4000; 0x3000; 0x2000; 0x1000] v shared shared sample_frames 0x400000
    (mkArea 0x400000 0x401000 7 Anonymous) 0x8000 5 sw ∅ [0x5000; 0x4000; 0x3000; 0x2000; 0x1000] s1 v ∅ 0x400010 true (mkArea 0x400000 0x401000 7 Anonymous));
    [exact Ha|exact Hd|apply sample_frames_pool|vm_compute; lia|exact Hfr|intros; apply lookup_empty|vm_compute; reflexivity|reflexivity|reflexivity
    |apply (blank_swap_rep RAMDISK_VIRT_REGION_BASE 1); lia|apply sample_frames_pool|simpl; lia|lia
    |apply (bool_decide_eq_true_1 _); vm_compute; reflexivity|exact E|reflexivity|reflexivity|reflexivity].
Defined.
