(* ===== verification/Signal.v ===== *)
(** Signals ([kernel/src/process/signal.rs]), the trap frame of a system call
    ([kernel/src/arch/syscall.rs]) and the return from a handler
    ([SYS_SIGRETURN] of [kernel/src/syscall/dispatch.rs]).

    Delivery pushes the interrupted register state and a small trampoline on
    the user stack; the handler returns into the trampoline, which issues
    [SYS_SIGRETURN], which reads the state back.  User memory is the byte
    memory of [Bytes]. *)

From S2P Require Import Prelude Bytes.

(* process/signal.rs:5-9 MAX_SIGNALS *)
Definition MAX_SIGNALS : Z := 32.
Definition SYS_SIGRETURN_NR : Z := 54.
Definition TRAMPOLINE_PAD : Z := 16.

(* process/signal.rs:12-17 TRAMPOLINE *)
Definition TRAMPOLINE : list Z := [0xB8; SYS_SIGRETURN_NR; 0; 0; 0; 0x0F; 0x05; 0xEB; 0xFE; 0x90].

(** ** Pending signals and handlers *)

(* process/signal.rs:20-23 SignalState *)
Record SignalState := mkSignals { pending_mask : Z; handlers : list Z }.

(* process/signal.rs:26-28 new *)
Definition signals_new : SignalState := mkSignals 0 (replicate (Z.to_nat MAX_SIGNALS) 0).

(* process/signal.rs:30-34 set_pending *)
Definition set_pending (s : SignalState) (signum : Z) : SignalState :=
  if signum <? MAX_SIGNALS then mkSignals (Z.lor (pending_mask s) (Z.shiftl 1 signum)) (handlers s) else s.

(** [!] on a [u32] flips its 32 bits. *)
(* process/signal.rs:36-40 clear_pending *)
Definition clear_pending (s : SignalState) (signum : Z) : SignalState :=
  if signum <? MAX_SIGNALS
  then mkSignals (Z.land (pending_mask s) (Z.lxor (Z.shiftl 1 signum) (Z.ones 32))) (handlers s)
  else s.

(* process/signal.rs:42-46 set_handler *)
Definition set_handler (s : SignalState) (signum handler : Z) : SignalState :=
  if signum <? MAX_SIGNALS then mkSignals (pending_mask s) (<[Z.to_nat signum := handler]> (handlers s)) else s.

(** [u32::trailing_zeros]: the index of the lowest set bit, 32 for zero. *)
Fixpoint trailing_zeros_from (fuel : nat) (i m : Z) : Z :=
  match fuel with
  | O => i
  | S fuel => if Z.testbit m i then i else trailing_zeros_from fuel (i + 1) m
  end.
Definition trailing_zeros (m : Z) : Z := trailing_zeros_from 32 0 m.

(** The outer option is an index out of range. *)
(* process/signal.rs:48-52 next_pending *)
Definition next_pending (s : SignalState) : option (option (Z * Z)) :=
  if pending_mask s =? 0 then Some None
  else
    let signum := trailing_zeros (pending_mask s) in
    h ← handlers s !! Z.to_nat signum;
    Some (Some (signum, h)).

(** ** The trap frame *)

(* arch/syscall.rs:28-45 TrapFrame *)
Record TrapFrame := mkFrame {
  r15 : Z; r14 : Z; r13 : Z; r12 : Z; rbp : Z; rbx : Z; r11 : Z; r10 : Z;
  r9 : Z; r8 : Z; rdi : Z; rsi : Z; rdx : Z; rcx : Z; rax : Z; user_rsp : Z
}.

(** [repr(C)]: the sixteen words in field order. *)
Definition frame_words (f : TrapFrame) : list Z :=
  [r15 f; r14 f; r13 f; r12 f; rbp f; rbx f; r11 f; r10 f; r9 f; r8 f; rdi f; rsi f; rdx f; rcx f; rax f; user_rsp f].

Definition frame_of_words (w : nat -> Z) : TrapFrame :=
  mkFrame (w 0%nat) (w 1%nat) (w 2%nat) (w 3%nat) (w 4%nat) (w 5%nat) (w 6%nat) (w 7%nat)
          (w 8%nat) (w 9%nat) (w 10%nat) (w 11%nat) (w 12%nat) (w 13%nat) (w 14%nat) (w 15%nat).

Definition FRAME_SIZE : Z := 128.

Fixpoint write_words (m : memory) (a : Z) (ws : list Z) : memory :=
  match ws with
  | [] => m
  | w :: ws => write_words (write_u64 m a w) (a + 8) ws
  end.

Definition write_frame (m : memory) (a : Z) (f : TrapFrame) : memory := write_words m a (frame_words f).
Definition read_frame (m : memory) (a : Z) : TrapFrame :=
  frame_of_words (fun i => read_u64 m (a + 8 * Z.of_nat i)).

(** ** Delivery and return *)

(** The registers and user memory after pushing a handler frame; [None] when
    the stack pointer is too small for it. *)
(* process/signal.rs:80-106 deliver_pending_signal *)
Definition push_handler_frame (frame : TrapFrame) (m : memory) (signum handler : Z) : option (TrapFrame * memory) :=
  let old_rsp := user_rsp frame in
  s0 ← usub 64 old_rsp FRAME_SIZE;
  s1 ← usub 64 s0 TRAMPOLINE_PAD;
  s2 ← usub 64 s1 8;
  let new_rsp := Z.ldiff s2 0xF in
  tramp_addr ← uadd 64 new_rsp 8;
  s3 ← uadd 64 new_rsp 8;
  saved_addr ← uadd 64 s3 TRAMPOLINE_PAD;
  let m := write_frame m saved_addr frame in
  let m := write_bytes m tramp_addr TRAMPOLINE in
  let m := write_bytes m (tramp_addr + 10) (replicate (Z.to_nat (TRAMPOLINE_PAD - 10)) 0x90) in
  let m := write_u64 m new_rsp tramp_addr in
  Some (mkFrame (r15 frame) (r14 frame) (r13 frame) (r12 frame) (rbp frame) (rbx frame) (r11 frame) (r10 frame)
          (r9 frame) (r8 frame) signum (rsi frame) (rdx frame) handler (rax frame) new_rsp, m).

(** What happens to a task returning from a system call: no signal, death by an
    unhandled one, or a handler call. *)
Inductive delivery :=
  | NoSignal
  | Killed (code : Z) (s : SignalState)
  | Handled (frame : TrapFrame) (m : memory) (s : SignalState).

(* process/signal.rs:68-106 deliver_pending_signal *)
Definition deliver (s : SignalState) (frame : TrapFrame) (m : memory) : option delivery :=
  np ← next_pending s;
  match np with
  | None => Some NoSignal
  | Some (signum, handler) =>
      let s := clear_pending s signum in
      if handler =? 0 then Some (Killed (- signum) s)
      else '(frame, m) ← push_handler_frame frame m signum handler; Some (Handled frame m s)
  end.

(* syscall/dispatch.rs:662-667 SYS_SIGRETURN *)
Definition sigreturn (frame : TrapFrame) (m : memory) : option (TrapFrame * Z) :=
  saved_ptr ← uadd 64 (user_rsp frame) 16;
  let saved := read_frame m saved_ptr in
  Some (saved, rax saved).

(** ** Lemmas on words in memory *)

Lemma get_write_words_out m a ws x : x < a \/ a + 8 * Z.of_nat (length ws) <= x -> get (write_words m a ws) x = get m x.
Proof.
  revert m a. induction ws as [|w ws IH]; intros m a Hx; [done|]. simpl in *. rewrite IH by lia. apply write_u64_outside. lia.
Qed.

Lemma read_write_words m a ws i w :
  Forall (fits 64) ws -> ws !! i = Some w -> read_u64 (write_words m a ws) (a + 8 * Z.of_nat i) = w.
Proof.
  intros Hf. revert m a i. induction Hf as [|v ws Hv _ IH]; intros m a i Hi; [done|]. destruct i as [|i]; cbn [write_words] in *.
  - injection Hi as ->. rewrite Z.mul_0_r, Z.add_0_r. rewrite <- (read_write_u64 m a w Hv) at 2. apply read_u64_ext.
    intros x Hx. apply get_write_words_out. lia.
  - simpl in Hi. replace (a + 8 * Z.of_nat (S i)) with (a + 8 + 8 * Z.of_nat i) by lia. by apply IH.
Qed.

Definition frame_fits (f : TrapFrame) : Prop := Forall (fits 64) (frame_words f).

Lemma frame_of_words_eq f w : (forall i v, frame_words f !! i = Some v -> w i = v) -> frame_of_words w = f.
Proof.
  intros H. unfold frame_of_words.
  rewrite (H 0%nat _ eq_refl), (H 1%nat _ eq_refl), (H 2%nat _ eq_refl), (H 3%nat _ eq_refl), (H 4%nat _ eq_refl), (H 5%nat _ eq_refl),
    (H 6%nat _ eq_refl), (H 7%nat _ eq_refl), (H 8%nat _ eq_refl), (H 9%nat _ eq_refl), (H 10%nat _ eq_refl), (H 11%nat _ eq_refl),
    (H 12%nat _ eq_refl), (H 13%nat _ eq_refl), (H 14%nat _ eq_refl), (H 15%nat _ eq_refl). by destruct f.
Qed.

Lemma read_write_frame m a f : frame_fits f -> read_frame (write_frame m a f) a = f.
Proof. intros Hf. apply frame_of_words_eq. intros i v Hi. by apply read_write_words. Qed.

(** Storing a result in the RAX slot of a frame. *)
Definition set_rax (f : TrapFrame) (v : Z) : TrapFrame :=
  mkFrame (r15 f) (r14 f) (r13 f) (r12 f) (rbp f) (rbx f) (r11 f) (r10 f) (r9 f) (r8 f) (rdi f) (rsi f) (rdx f) (rcx f) v (user_rsp f).

Lemma read_frame_write_rax m a v : fits 64 v -> read_frame (write_u64 m (a + 112) v) a = set_rax (read_frame m a) v.
Proof.
  intros Hv. unfold read_frame, set_rax, frame_of_words; cbn [r15 r14 r13 r12 rbp rbx r11 r10 r9 r8 rdi rsi rdx rcx user_rsp].
  f_equal; try (apply read_u64_write_other; lia). by apply read_write_u64.
Qed.

Lemma read_frame_ext m m' a :
  (forall x, a <= x < a + FRAME_SIZE -> get m' x = get m x) -> read_frame m' a = read_frame m a.
Proof.
  intros H. unfold read_frame, frame_of_words, FRAME_SIZE in *.
  assert (E : forall i, 0 <= i < 16 -> read_u64 m' (a + 8 * i) = read_u64 m (a + 8 * i))
    by (intros i Hi; apply read_u64_ext; intros x Hx; apply H; lia).
  f_equal; apply E; lia.
Qed.

(** ** Theorems *)

Lemma ldiff_align z : Z.ldiff z 0xF = z / 16 * 16.
Proof.
  change 0xF with (Z.ones 4). rewrite Z.ldiff_ones_r, Z.shiftl_mul_pow2, Z.shiftr_div_pow2 by lia. done.
Qed.

Lemma push_handler_frame_spec f m signum handler :
  frame_fits f -> 256 <= user_rsp f ->
  exists f' m', push_handler_frame f m signum handler = Some (f', m') /\
    let rsp := user_rsp f' in
    f' = mkFrame (r15 f) (r14 f) (r13 f) (r12 f) (rbp f) (rbx f) (r11 f) (r10 f) (r9 f) (r8 f) signum (rsi f) (rdx f) handler (rax f) rsp /\
    (16 | rsp) /\ 0 < rsp /\ rsp + 24 + FRAME_SIZE <= user_rsp f /\ rsp + 24 + FRAME_SIZE < 2 ^ 64 /\
    read_u64 m' rsp = rsp + 8 /\ read_bytes m' (rsp + 8) 7 = [0xB8; 54; 0; 0; 0; 0x0F; 0x05] /\
    read_frame m' (rsp + 24) = f /\
    forall x, x < rsp \/ user_rsp f <= x -> get m' x = get m x.
Proof.
  intros Hf Hr. assert (Hu : fits 64 (user_rsp f)) by (unfold frame_fits, frame_words in Hf; rewrite Forall_forall in Hf; apply Hf; set_solver).
  unfold fits in Hu. unfold push_handler_frame, usub, uadd, TRAMPOLINE_PAD. unfold FRAME_SIZE at 1.
  rewrite (uchk_fits 64 (user_rsp f - 128)) by (unfold fits; lia). cbn [mbind option_bind].
  rewrite (uchk_fits 64 (user_rsp f - 128 - 16)) by (unfold fits; lia). cbn [mbind option_bind].
  rewrite (uchk_fits 64 (user_rsp f - 128 - 16 - 8)) by (unfold fits; lia). cbn [mbind option_bind].
  rewrite ldiff_align. set (s2 := user_rsp f - 128 - 16 - 8). set (rsp := s2 / 16 * 16).
  assert (Hrsp : s2 - 15 <= rsp <= s2) by (unfold rsp; pose proof (Z.div_mod s2 16); pose proof (Z.mod_pos_bound s2 16); lia).
  rewrite (uchk_fits 64 (rsp + 8)) by (unfold fits; lia). cbn [mbind option_bind].
  rewrite (uchk_fits 64 (rsp + 8 + 16)) by (unfold fits; lia). cbn [mbind option_bind].
  set (m1 := write_frame m (rsp + 8 + 16) f). set (m2 := write_bytes m1 (rsp + 8) TRAMPOLINE). set (m3 := write_bytes m2 _ _). set (m4 := write_u64 m3 rsp (rsp + 8)).
  assert (H34 : forall x, rsp + 8 <= x -> get m4 x = get m3 x) by (intros x Hx; apply write_u64_outside; lia).
  assert (H23 : forall x, x < rsp + 18 \/ rsp + 24 <= x -> get m3 x = get m2 x).
  { intros x Hx. apply get_write_bytes_out. rewrite length_replicate. change (Z.of_nat (Z.to_nat (16 - 10))) with 6. lia. }
  assert (H12 : forall x, x < rsp + 8 \/ rsp + 18 <= x -> get m2 x = get m1 x).
  { intros x Hx. apply get_write_bytes_out. change (Z.of_nat (length TRAMPOLINE)) with 10. lia. }
  assert (H01 : forall x, x < rsp + 24 \/ rsp + 24 + 128 <= x -> get m1 x = get m x).
  { intros x Hx. apply get_write_words_out. change (8 * Z.of_nat (length (frame_words f))) with 128. lia. }
  eexists _, m4. split; [reflexivity|]. cbn [user_rsp]. unfold FRAME_SIZE. split_and!; [done|by exists (s2 / 16)|lia|lia|lia| | | |].
  - apply read_write_u64. unfold fits. lia.
  - rewrite (read_bytes_ext m2) by (intros x Hx; rewrite H34, H23 by lia; done).
    change [0xB8; 54; 0; 0; 0; 0x0F; 0x05] with (take 7 TRAMPOLINE).
    rewrite <- (read_write_bytes m1 (rsp + 8) TRAMPOLINE). fold m2. change (length TRAMPOLINE) with (7 + 3)%nat. rewrite read_bytes_app.
    rewrite take_app_le, take_ge by (rewrite read_bytes_length; lia). done.
  - replace (rsp + 24) with (rsp + 8 + 16) by lia. rewrite (read_frame_ext m1).
    + by apply read_write_frame.
    + intros x Hx. rewrite H34, H23, H12 by lia. done.
  - intros x Hx. assert (get m4 x = get m3 x) as -> by (apply write_u64_outside; lia). rewrite H23, H12, H01 by lia. done.
Qed.

(** C17. Signal delivery is transparent: when a handled signal is pending, the
    task resumes in its handler with the signal number as argument, on a
    16-byte aligned stack below the old one whose top is the address of code
    that issues [SYS_SIGRETURN]; nothing at or above the old stack pointer is
    written; and whatever the handler does, as long as it leaves the saved
    frame alone, [SYS_SIGRETURN] issued from the trampoline restores exactly
    the interrupted registers. *)
Theorem signal_delivery_round_trip s f m signum handler :
  frame_fits f -> 256 <= user_rsp f -> next_pending s = Some (Some (signum, handler)) -> handler <> 0 ->
  exists f' m', deliver s f m = Some (Handled f' m' (clear_pending s signum)) /\
    rcx f' = handler /\ rdi f' = signum /\ (16 | user_rsp f') /\ user_rsp f' < user_rsp f /\
    read_bytes m' (read_u64 m' (user_rsp f')) 7 = [0xB8; 54; 0; 0; 0; 0x0F; 0x05] /\
    (forall x, user_rsp f <= x -> get m' x = get m x) /\
    forall f2 m2, user_rsp f2 = user_rsp f' + 8 ->
      (forall x, user_rsp f' + 24 <= x < user_rsp f' + 24 + FRAME_SIZE -> get m2 x = get m' x) ->
      sigreturn f2 m2 = Some (f, rax f).
Proof.
  intros Hf Hr Hn Hh. destruct (push_handler_frame_spec f m signum handler Hf Hr) as (f' & m' & E & Ef & Hal & Hpos & Hlt & Hmax & Htop & Hcode & Hsaved & Hout).
  exists f', m'. unfold deliver. rewrite Hn. cbn [mbind option_bind]. rewrite (proj2 (Z.eqb_neq _ _) Hh), E. cbn [mbind option_bind].
  rewrite Htop. split_and!; [done|by rewrite Ef|by rewrite Ef|done|unfold FRAME_SIZE in *; lia|done|intros x Hx; apply Hout; lia|].
  intros f2 m2 Hu Hm. unfold sigreturn, uadd. rewrite Hu, uchk_fits by (unfold fits, FRAME_SIZE in *; lia). cbn [mbind option_bind].
  replace (user_rsp f' + 8 + 16) with (user_rsp f' + 24) by lia. rewrite (read_frame_ext m') by done. by rewrite Hsaved.
Qed.

Definition sample_frame : TrapFrame := mkFrame 1 2 3 4 5 6 0x202 8 9 10 11 12 13 0x400010 7 0x7FFFFFFFE000.

Lemma signal_delivery_round_trip_witness :
  let s := set_pending (set_handler signals_new 15 0x400100) 15 in
  exists f' m', deliver s sample_frame ∅ = Some (Handled f' m' (clear_pending s 15)) /\
    rcx f' = 0x400100 /\ rdi f' = 15 /\ (16 | user_rsp f') /\ user_rsp f' < user_rsp sample_frame /\
    read_bytes m' (read_u64 m' (user_rsp f')) 7 = [0xB8; 54; 0; 0; 0; 0x0F; 0x05] /\
    (forall x, user_rsp sample_frame <= x -> get m' x = get ∅ x) /\
    forall f2 m2, user_rsp f2 = user_rsp f' + 8 ->
      (forall x, user_rsp f' + 24 <= x < user_rsp f' + 24 + FRAME_SIZE -> get m2 x = get m' x) ->
      sigreturn f2 m2 = Some (sample_frame, rax sample_frame).
Proof.
  intros s. apply signal_delivery_round_trip; [|by vm_compute|reflexivity|lia].
  unfold frame_fits. refine (bool_decide_eq_true_1 _ _). vm_compute. reflexivity.
Defined.

(** ** The pending mask as a set *)

Definition is_pending (s : SignalState) (i : Z) : bool := Z.testbit (pending_mask s) i.

Definition signals_ok (s : SignalState) : Prop := fits 32 (pending_mask s) /\ length (handlers s) = 32%nat.

Lemma trailing_zeros_from_spec n i m :
  0 <= i -> (exists j, i <= j < i + Z.of_nat n /\ Z.testbit m j = true) ->
  let r := trailing_zeros_from n i m in
  i <= r < i + Z.of_nat n /\ Z.testbit m r = true /\ forall j, i <= j < r -> Z.testbit m j = false.
Proof.
  revert i. induction n as [|n IH]; intros i Hi (j & Hj & Hb); [lia|]. cbn [trailing_zeros_from].
  destruct (Z.testbit m i) eqn:E; [split_and!; [lia|lia|done|lia]|].
  assert (j <> i) by congruence. destruct (IH (i + 1)) as (H1 & H2 & H3); [lia|exists j; split; [lia|done]|].
  split_and!; [lia|lia|done|]. intros k Hk. destruct (decide (k = i)) as [->|]; [done|]. apply H3. lia.
Qed.

Lemma mask_bit m : fits 32 m -> m <> 0 -> exists j, 0 <= j < 32 /\ Z.testbit m j = true.
Proof.
  intros [H0 H1] Hne. exists (Z.log2 m). split; [|apply Z.bit_log2; lia].
  split; [apply Z.log2_nonneg|]. apply Z.log2_lt_pow2; lia.
Qed.

Lemma one_bit n i : 0 <= n -> 0 <= i -> Z.testbit (Z.shiftl 1 n) i = (i =? n).
Proof.
  intros Hn Hi. rewrite Z.shiftl_spec by lia. destruct (Z.eqb_spec i n) as [->|Hne]; [by rewrite Z.sub_diag|].
  destruct (Z.lt_ge_cases i n); [by rewrite Z.testbit_neg_r by lia|]. apply (Z.bits_above_log2 1); simpl; lia.
Qed.

Lemma set_pending_bit s n i : 0 <= n < 32 -> 0 <= i -> is_pending (set_pending s n) i = (i =? n) || is_pending s i.
Proof.
  intros Hn Hi. unfold set_pending, is_pending, MAX_SIGNALS. rewrite (proj2 (Z.ltb_lt n 32)) by lia. simpl.
  rewrite Z.lor_spec, one_bit by lia. apply orb_comm.
Qed.

Lemma clear_pending_bit s n i : 0 <= n < 32 -> 0 <= i < 32 -> is_pending (clear_pending s n) i = negb (i =? n) && is_pending s i.
Proof.
  intros Hn Hi. unfold clear_pending, is_pending, MAX_SIGNALS. rewrite (proj2 (Z.ltb_lt n 32)) by lia. cbn [pending_mask].
  rewrite Z.land_spec, Z.lxor_spec, Z.ones_spec_low, one_bit by lia. destruct (i =? n), (Z.testbit (pending_mask s) i); done.
Qed.

Lemma set_pending_ok s n : 0 <= n -> signals_ok s -> signals_ok (set_pending s n).
Proof.
  intros Hn [Hm Hh]. unfold set_pending, MAX_SIGNALS. destruct (Z.ltb_spec n 32); [|done]. split; [|done].
  apply fits_of_testbit; [lia|apply Z.lor_nonneg; unfold fits in Hm; split; [lia|apply Z.shiftl_nonneg; lia]|].
  intros i Hi. pose proof (set_pending_bit s n i ltac:(lia) ltac:(lia)) as Hb. unfold set_pending, MAX_SIGNALS, is_pending in Hb.
  rewrite (proj2 (Z.ltb_lt n 32)) in Hb by lia. rewrite Hb, (fits_testbit 32 _ i) by (done || lia). rewrite orb_false_r. apply Z.eqb_neq. lia.
Qed.

Lemma clear_pending_ok s n : 0 <= n -> signals_ok s -> signals_ok (clear_pending s n).
Proof.
  intros Hn [Hm Hh]. unfold clear_pending, MAX_SIGNALS. destruct (Z.ltb_spec n 32); [|done]. split; [|done]. simpl.
  apply land_fits; [lia|unfold fits in Hm; lia|]. apply lxor_fits; [lia| |done].
  rewrite Z.shiftl_mul_pow2 by lia. unfold fits. split; [lia|]. rewrite Z.mul_1_l. apply Z.pow_lt_mono_r; lia.
Qed.

Lemma set_handler_ok s n h : signals_ok s -> signals_ok (set_handler s n h).
Proof. intros [Hm Hh]. unfold set_handler. destruct (_ <? _); [|done]. split; [done|]. simpl. by rewrite length_insert. Qed.

(** The pending mask is a set of signal numbers: raising and clearing a
    signal adds and removes exactly that number, numbers of 32 and above are
    ignored, and the next signal taken is the smallest one pending, with the
    handler registered for it; there is none exactly when the set is empty. *)
Theorem signal_state_refines_set (s : SignalState) (n : Z) :
  signals_ok s -> 0 <= n ->
  signals_ok (set_pending s n) /\ signals_ok (clear_pending s n) /\
  (forall i, 0 <= i < 32 -> is_pending (set_pending s n) i = (i =? n) || is_pending s i) /\
  (forall i, 0 <= i < 32 -> is_pending (clear_pending s n) i = negb (i =? n) && is_pending s i) /\
  match next_pending s with
  | Some (Some (k, h)) => 0 <= k < 32 /\ is_pending s k = true /\ handlers s !! Z.to_nat k = Some h /\
      forall j, 0 <= j < k -> is_pending s j = false
  | Some None => forall i, is_pending s i = false
  | None => False
  end.
Proof.
  intros Hok Hn. pose proof Hok as [Hm Hh]. split_and!; [by apply set_pending_ok|by apply clear_pending_ok| | |].
  - intros i Hi. destruct (Z.lt_ge_cases n 32); [apply set_pending_bit; lia|]. unfold set_pending, MAX_SIGNALS.
    rewrite (proj2 (Z.ltb_ge n 32)), (proj2 (Z.eqb_neq i n)) by lia. done.
  - intros i Hi. destruct (Z.lt_ge_cases n 32); [apply clear_pending_bit; lia|]. unfold clear_pending, MAX_SIGNALS.
    rewrite (proj2 (Z.ltb_ge n 32)), (proj2 (Z.eqb_neq i n)) by lia. done.
  - unfold next_pending. destruct (Z.eqb_spec (pending_mask s) 0) as [E|E].
    + intros i. unfold is_pending. rewrite E. apply Z.bits_0.
    + destruct (trailing_zeros_from_spec 32 0 (pending_mask s)) as (H1 & H2 & H3); [lia|by apply mask_bit|]. fold (trailing_zeros (pending_mask s)) in *.
      destruct (lookup_lt_is_Some_2 (handlers s) (Z.to_nat (trailing_zeros (pending_mask s)))) as [h Eh]; [lia|]. rewrite Eh. simpl.
      split_and!; [lia|lia|done|done|]. intros j Hj. by apply H3.
Qed.

Lemma signal_state_refines_set_witness :
  let s := set_pending (set_pending signals_new 15) 9 in
  signals_ok (set_pending s 3) /\ signals_ok (clear_pending s 3) /\
  (forall i, 0 <= i < 32 -> is_pending (set_pending s 3) i = (i =? 3) || is_pending s i) /\
  (forall i, 0 <= i < 32 -> is_pending (clear_pending s 3) i = negb (i =? 3) && is_pending s i) /\
  match next_pending s with
  | Some (Some (k, h)) => 0 <= k < 32 /\ is_pending s k = true /\ handlers s !! Z.to_nat k = Some h /\
      forall j, 0 <= j < k -> is_pending s j = false
  | Some None => forall i, is_pending s i = false
  | None => False
  end.
Proof. intros s. apply signal_state_refines_set; [|lia]. split; [by vm_compute|reflexivity]. Defined.
