(* ===== verification/Task.v ===== *)
(** Tasks ([kernel/src/process/task.rs], [process/pid.rs]), the context switch
    ([arch/context.rs]), the system-call entry stub ([arch/syscall.rs]) and the
    first entry to ring 3 ([arch/usermode.rs]).

    A [Task] has the fields of the source.  Its kernel stack lives in the
    kernel's byte memory, at the address the allocator gave for the [Vec].
    The assembly routines are functions of the registers they use, the memory
    and the task store; a push decrements the stack pointer and stores a word,
    a pop reads one and increments it. *)

From S2P Require Import Prelude Bytes Vmm Signal.

(* process/task.rs:13-15 KERNEL_STACK_SIZE *)
Definition KERNEL_STACK_SIZE : Z := 64 * 1024.
Definition GUARD_SIZE : Z := 4096.
Definition GUARD_POISON : Z := 0xDE.

(** ** Identifiers *)

(* process/pid.rs:14-15 NEXT_PID *)
Record counters := mkCounters { NEXT_PID : Z; NEXT_TID : Z }.

(** [fetch_add] wraps. *)
(* process/pid.rs:19-23 next *)
Definition pid_next (c : counters) : Z * counters := (NEXT_PID c, mkCounters (wrap 64 (NEXT_PID c + 1)) (NEXT_TID c)).
(* process/pid.rs:30-33 next *)
Definition tid_next (c : counters) : Z * counters := (NEXT_TID c, mkCounters (NEXT_PID c) (wrap 64 (NEXT_TID c + 1))).

(** ** The task *)

(* process/task.rs:35-40 TaskState *)
Inductive TaskState := Running | Ready | Blocked | Zombie.
#[export] Instance TaskState_eq_dec : EqDecision TaskState.
Proof. solve_decision. Defined.

(* arch/syscall.rs:9-12 PerCpuScratch *)
Record PerCpuScratch := mkScratch { user_rsp_scratch : Z; kernel_rsp : Z }.
(* arch/syscall.rs:15-20 new *)
Definition scratch_new (kernel_stack_top : Z) : PerCpuScratch := mkScratch 0 kernel_stack_top.

(** [kernel_stack] is the address of the buffer. *)
(* process/task.rs:43-69 Task *)
Record Task := mkTask {
  pid : Z; tid : Z; thread_group : Z; state : TaskState; rsp : Z; cr3 : Z; preempt_count : Z; priority : Z;
  parent : option Z; children : list Z; exit_code : option Z; vmm : Vmm; kernel_stack_top : Z;
  scratch : PerCpuScratch; user_entry : Z; user_stack : Z; uid : Z; gid : Z; heap_start : Z; brk : Z;
  signals : SignalState; kernel_stack : Z
}.

(** Field updates. *)
Definition with_run (t : Task) (st : TaskState) (prio : Z) (code : option Z) : Task :=
  mkTask (pid t) (tid t) (thread_group t) st (rsp t) (cr3 t) (preempt_count t) prio (parent t) (children t) code (vmm t)
    (kernel_stack_top t) (scratch t) (user_entry t) (user_stack t) (uid t) (gid t) (heap_start t) (brk t) (signals t) (kernel_stack t).
Definition with_state (t : Task) (st : TaskState) : Task := with_run t st (priority t) (exit_code t).
Definition with_priority (t : Task) (p : Z) : Task := with_run t (state t) p (exit_code t).
Definition with_rsp (t : Task) (r : Z) : Task :=
  mkTask (pid t) (tid t) (thread_group t) (state t) r (cr3 t) (preempt_count t) (priority t) (parent t) (children t) (exit_code t) (vmm t)
    (kernel_stack_top t) (scratch t) (user_entry t) (user_stack t) (uid t) (gid t) (heap_start t) (brk t) (signals t) (kernel_stack t).
Definition with_ids (t : Task) (u g : Z) : Task :=
  mkTask (pid t) (tid t) (thread_group t) (state t) (rsp t) (cr3 t) (preempt_count t) (priority t) (parent t) (children t) (exit_code t) (vmm t)
    (kernel_stack_top t) (scratch t) (user_entry t) (user_stack t) u g (heap_start t) (brk t) (signals t) (kernel_stack t).
Definition with_signals (t : Task) (s : SignalState) : Task :=
  mkTask (pid t) (tid t) (thread_group t) (state t) (rsp t) (cr3 t) (preempt_count t) (priority t) (parent t) (children t) (exit_code t) (vmm t)
    (kernel_stack_top t) (scratch t) (user_entry t) (user_stack t) (uid t) (gid t) (heap_start t) (brk t) s (kernel_stack t).
Definition with_space (t : Task) (c : Z) (v : Vmm) (h b : Z) : Task :=
  mkTask (pid t) (tid t) (thread_group t) (state t) (rsp t) c (preempt_count t) (priority t) (parent t) (children t) (exit_code t) v
    (kernel_stack_top t) (scratch t) (user_entry t) (user_stack t) (uid t) (gid t) h b (signals t) (kernel_stack t).

(** ** Kernel stacks *)

(** [base] is the address the allocator returned for the [Vec]. *)
(* process/task.rs:18-23 alloc_kernel_stack *)
Definition alloc_kernel_stack (base : Z) (m : memory) : option (memory * Z) :=
  let len := KERNEL_STACK_SIZE + GUARD_SIZE in
  let m := write_bytes m base (replicate (Z.to_nat len) 0) in
  let m := write_bytes m base (replicate (Z.to_nat GUARD_SIZE) GUARD_POISON) in
  e ← uadd 64 base len;
  Some (m, Z.ldiff e 15).

(* process/task.rs:213-218 check_stack_canary *)
Definition check_stack_canary (t : Task) (m : memory) : bool :=
  forallb (Z.eqb GUARD_POISON) (read_bytes m (kernel_stack t + GUARD_SIZE - 8) 8).

Section Tasks.

(** Addresses the linker gives to [task_trampoline] and [user_trampoline]. *)
Context (task_trampoline user_trampoline : Z).

(* process/task.rs:104-118 setup_stack *)
Definition setup_stack (m : memory) (entry top : Z) : option (memory * Z) :=
  let m := write_u64 m (top - 8 * 1) entry in
  let m := write_u64 m (top - 8 * 2) task_trampoline in
  let m := write_u64 m (top - 8 * 3) 0 in
  let m := write_u64 m (top - 8 * 4) 0 in
  let m := write_u64 m (top - 8 * 5) 0 in
  let m := write_u64 m (top - 8 * 6) 0 in
  let m := write_u64 m (top - 8 * 7) 0 in
  let m := write_u64 m (top - 8 * 8) 0 in
  r ← usub 64 top (8 * 8);
  Some (m, r).

(** [cur_cr3] is the value of CR3. *)
(* process/task.rs:73-102 new *)
Definition task_new (base cur_cr3 : Z) (m : memory) (c : counters) (entry prio : Z) (par : option Z) : option (Task * memory * counters) :=
  '(m, top) ← alloc_kernel_stack base m;
  '(m, r) ← setup_stack m entry top;
  let '(p, c) := pid_next c in
  let '(t, c) := tid_next c in
  Some (mkTask p t p Ready r cur_cr3 0 prio par [] None vmm_new top (scratch_new top) 0 0 0 0 0 0 signals_new base, m, c).

(* process/task.rs:120-148 clone_thread *)
Definition clone_thread (self : Task) (base : Z) (m : memory) (c : counters) (entry prio : Z) : option (Task * memory * counters) :=
  '(m, top) ← alloc_kernel_stack base m;
  '(m, r) ← setup_stack m entry top;
  let '(t, c) := tid_next c in
  Some (mkTask (pid self) t (thread_group self) Ready r (cr3 self) 0 prio (parent self) [] None vmm_new top (scratch_new top)
          0 0 (uid self) (gid self) 0 0 signals_new base, m, c).

(* process/task.rs:150-179 fork_kernel *)
Definition fork_kernel (self : Task) (base : Z) (m : memory) (c : counters) (entry prio : Z) : option (Task * memory * counters) :=
  '(m, top) ← alloc_kernel_stack base m;
  '(m, r) ← setup_stack m entry top;
  let '(p, c) := pid_next c in
  let '(t, c) := tid_next c in
  Some (mkTask p t p Ready r 0 0 prio (Some (pid self)) [] None vmm_new top (scratch_new top)
          0 0 (uid self) (gid self) (heap_start self) (brk self) (mkSignals 0 (handlers (signals self))) base, m, c).

(* process/task.rs:181-210 new_user *)
Definition new_user (base : Z) (m : memory) (c : counters) (entry ustack l4 : Z) (v : Vmm) (prio : Z) : option (Task * memory * counters) :=
  '(m, top) ← alloc_kernel_stack base m;
  '(m, r) ← setup_stack m user_trampoline top;
  let '(p, c) := pid_next c in
  let '(t, c) := tid_next c in
  Some (mkTask p t p Ready r l4 0 prio None [] None v top (scratch_new top) entry ustack 0 0 0 0 signals_new base, m, c).

End Tasks.

(** A new kernel stack below the middle of the address space does not overflow. *)
Lemma kernel_stack_some tramp base m entry :
  0 < base < 2 ^ 63 -> exists m1 top m2 r, alloc_kernel_stack base m = Some (m1, top) /\ setup_stack tramp m1 entry top = Some (m2, r).
Proof.
  intros Hb. unfold alloc_kernel_stack, KERNEL_STACK_SIZE, GUARD_SIZE, uadd. rewrite uchk_fits by (unfold fits; lia). cbn [mbind option_bind].
  rewrite ldiff_align. unfold setup_stack, usub. set (e := base + _). pose proof (Z.div_mod e 16). pose proof (Z.mod_pos_bound e 16).
  eexists _, _, _, _. split; [reflexivity|]. rewrite uchk_fits by (unfold fits; lia). reflexivity.
Qed.

(** ** The context switch *)

(** The registers a switch saves, the stack and instruction pointers, the page
    table root, [KERNEL_GS_BASE] and the interrupt flag. *)
Record cpu := mkCpu {
  c_rbx : Z; c_rbp : Z; c_r12 : Z; c_r13 : Z; c_r14 : Z; c_r15 : Z;
  c_rsp : Z; c_rip : Z; c_cr3 : Z; c_kernel_gs : Z; c_if : bool
}.

(** A sequence of pushes, first pushed first. *)
Fixpoint push_words (m : memory) (sp : Z) (ws : list Z) : memory * Z :=
  match ws with
  | [] => (m, sp)
  | w :: ws => let sp := wrap 64 (sp - 8) in push_words (write_u64 m sp w) sp ws
  end.

(** Tasks are at the addresses of the task store; the scratch area of a task is
    [scratch_off] bytes into it.  The routine is entered by a call, so the
    return address is on top of the stack. *)
(* arch/context.rs:7-44 switch_to *)
Definition switch_to (scratch_off : Z) (c : cpu) (m : memory) (ts : gmap Z Task) (outgoing incoming : Z) : option (cpu * memory * gmap Z Task) :=
  let '(m, sp) := push_words m (c_rsp c) [c_rbx c; c_rbp c; c_r12 c; c_r13 c; c_r14 c; c_r15 c] in
  ts ← (if outgoing =? 0 then Some ts else out ← ts !! outgoing; Some (<[outgoing := with_rsp out sp]> ts));
  inc ← ts !! incoming;
  let sp := rsp inc in
  let root := if cr3 inc =? 0 then c_cr3 c else if cr3 inc =? c_cr3 c then c_cr3 c else cr3 inc in
  let gs := wrap 64 (incoming + scratch_off) in
  Some (mkCpu (read_u64 m (wrap 64 (sp + 40))) (read_u64 m (wrap 64 (sp + 32))) (read_u64 m (wrap 64 (sp + 24)))
              (read_u64 m (wrap 64 (sp + 16))) (read_u64 m (wrap 64 (sp + 8))) (read_u64 m sp)
              (wrap 64 (sp + 56)) (read_u64 m (wrap 64 (sp + 48))) root gs (c_if c), m, ts).

(** [sti; ret]. *)
(* process/task.rs:26-32 task_trampoline *)
Definition run_task_trampoline (c : cpu) (m : memory) : cpu :=
  mkCpu (c_rbx c) (c_rbp c) (c_r12 c) (c_r13 c) (c_r14 c) (c_r15 c) (wrap 64 (c_rsp c + 8)) (read_u64 m (c_rsp c)) (c_cr3 c) (c_kernel_gs c) true.

(** ** First entry to ring 3 *)

(** What [iretq] loads: instruction pointer, code segment, flags, stack pointer
    and stack segment. *)
Record iret_frame := mkIret { i_rip : Z; i_cs : Z; i_rflags : Z; i_rsp : Z; i_ss : Z }.
Definition iretq (m : memory) (sp : Z) : iret_frame :=
  mkIret (read_u64 m sp) (read_u64 m (sp + 8)) (read_u64 m (sp + 16)) (read_u64 m (sp + 24)) (read_u64 m (sp + 32)).

(** [user_cs] and [user_ss] are the selectors of [gdt::user_selectors]. *)
(* arch/usermode.rs:6-26 enter_user_mode *)
Definition enter_user_mode (user_cs user_ss : Z) (m : memory) (sp entry ustack : Z) : iret_frame * memory :=
  let '(m, sp) := push_words m sp [user_ss; ustack; 0x202; user_cs; entry] in
  (iretq m sp, m).

(** From the task's record on; [User.user_enter] has the lookup of the running
    task before it. *)
(* process/task.rs:231-234 user_trampoline *)
Definition run_user_trampoline (user_cs user_ss : Z) (m : memory) (sp : Z) (t : Task) : iret_frame * memory :=
  enter_user_mode user_cs user_ss m sp (user_entry t) (user_stack t).

(** ** The system-call stub *)

(** [f] is the register file at the [syscall] instruction, with RCX and R11
    already holding the user's RIP and RFLAGS, as the hardware leaves them.
    [handler] and [deliver_signal] are the two calls, on the memory and the
    address of the frame.  The result is the register file [sysretq] is issued
    with. *)
(* arch/syscall.rs:89-144 syscall_entry *)
Definition syscall_entry (s : PerCpuScratch) (m : memory) (f : TrapFrame)
    (handler : Z -> memory -> Z -> memory * Z) (deliver_signal : memory -> Z -> memory) : PerCpuScratch * TrapFrame * memory :=
  let s := mkScratch (user_rsp f) (kernel_rsp s) in
  let '(m, sp) := push_words m (kernel_rsp s)
    [user_rsp_scratch s; rax f; rcx f; rdx f; rsi f; rdi f; r8 f; r9 f; r10 f; r11 f; rbx f; rbp f; r12 f; r13 f; r14 f; r15 f] in
  let '(m, result) := handler (rax f) m sp in
  let m := write_u64 m (sp + 112) result in
  let m := deliver_signal m sp in
  (s, read_frame m sp, m).

(** ** Lemmas on stacks *)

Lemma push_words_spec m sp ws m' sp' :
  push_words m sp ws = (m', sp') -> Forall (fits 64) ws -> 8 * Z.of_nat (length ws) <= sp < 2 ^ 64 ->
  sp' = sp - 8 * Z.of_nat (length ws) /\
  (forall i w, ws !! i = Some w -> read_u64 m' (sp - 8 * (Z.of_nat i + 1)) = w) /\
  (forall x, x < sp - 8 * Z.of_nat (length ws) \/ sp <= x -> get m' x = get m x).
Proof.
  revert m sp. induction ws as [|w ws IH]; intros m sp E Hf Hsp; simpl in *.
  - injection E as <- <-. split_and!; [lia|done|done].
  - rewrite wrap_small in E by (unfold fits; lia). inversion Hf as [|? ? Hw Hws]; subst.
    apply IH in E as (-> & Hr & Ho); [|done|lia]. split_and!; [lia| |].
    + intros [|i] v Hi; simpl in Hi.
      * injection Hi as <-. rewrite (read_u64_ext (write_u64 m (sp - 8) w)) by (intros x Hx; apply Ho; lia).
        replace (sp - 8 * (Z.of_nat 0 + 1)) with (sp - 8) by lia. by apply read_write_u64.
      * rewrite <- (Hr i v Hi). f_equal. lia.
    + intros x Hx. rewrite Ho by lia. apply write_u64_outside. lia.
Qed.

(** A stack prepared by [alloc_kernel_stack] and [setup_stack] occupies the
    buffer above its guard, is 16-byte aligned and holds the first frame. *)
Lemma fresh_stack base tramp entry m m1 m2 top r :
  fits 64 tramp -> fits 64 entry -> 0 < base ->
  alloc_kernel_stack base m = Some (m1, top) -> setup_stack tramp m1 entry top = Some (m2, r) ->
  r = top - 64 /\ base + GUARD_SIZE + 64 <= top <= base + KERNEL_STACK_SIZE + GUARD_SIZE /\ top < 2 ^ 64 /\ (16 | top) /\
  read_u64 m2 (top - 8) = entry /\ read_u64 m2 (top - 16) = tramp /\
  (forall i, 3 <= i <= 8 -> read_u64 m2 (top - 8 * i) = 0) /\
  read_bytes m2 (base + GUARD_SIZE - 8) 8 = replicate 8 GUARD_POISON /\
  (forall x, x < base \/ base + KERNEL_STACK_SIZE + GUARD_SIZE <= x -> get m2 x = get m x).
Proof.
  intros Ht He Hb Ha Hs. unfold alloc_kernel_stack, uadd in Ha. apply bind_Some in Ha as (e & Hu & Ha).
  apply uchk_Some in Hu as (-> & Hu). apply (inj Some) in Ha. apply pair_eq in Ha as (<- & <-).
  rewrite ldiff_align in *. unfold KERNEL_STACK_SIZE, GUARD_SIZE in *. set (e := base + _) in *.
  assert (Htop : e - 15 <= e / 16 * 16 <= e) by (pose proof (Z.div_mod e 16); pose proof (Z.mod_pos_bound e 16); lia).
  unfold fits in Hu. unfold setup_stack, usub in Hs. apply bind_Some in Hs as (r' & Hr & Hs). apply uchk_Some in Hr as (-> & _).
  apply (inj Some) in Hs. apply pair_eq in Hs as (<- & <-). set (top := e / 16 * 16) in *. set (n1 := replicate (Z.to_nat (64 * 1024 + 4096)) 0) in *. set (n2 := replicate (Z.to_nat 4096) GUARD_POISON).
  assert (L1 : Z.of_nat (length n1) = 69632) by (unfold n1; rewrite length_replicate, Z2Nat.id by lia; lia).
  assert (L2 : Z.of_nat (length n2) = 4096) by (unfold n2; rewrite length_replicate, Z2Nat.id by lia; lia).
  assert (P2 : forall i, (i < Z.to_nat 4096)%nat -> n2 !! i = Some GUARD_POISON) by (intros i Hi; unfold n2; by apply lookup_replicate_2).
  clearbody n1 n2. split_and!; [lia|lia|lia|lia|by exists (e / 16)| | | | |].
  - rewrite !read_u64_write_other by lia. by apply read_write_u64.
  - rewrite !read_u64_write_other by lia. by apply read_write_u64.
  - intros i Hi. assert (i = 3 \/ i = 4 \/ i = 5 \/ i = 6 \/ i = 7 \/ i = 8) as Hc by lia.
    destruct Hc as [->|[->|[->|[->|[->| ->]]]]].
    all: repeat (rewrite read_u64_write_other by lia).
    all: apply read_write_u64.
    all: unfold fits; lia.
  - transitivity (read_bytes (write_bytes (write_bytes m base n1) base n2) (base + 4096 - 8) 8).
    + apply read_bytes_ext. intros x Hx. rewrite !write_u64_outside by lia. done.
    + apply list_eq. intros i. destruct (decide (i < 8)%nat) as [Hi|Hi].
      * rewrite read_bytes_lookup, lookup_replicate_2 by done. f_equal.
        replace (base + 4096 - 8 + Z.of_nat i) with (base + Z.of_nat (Z.to_nat 4088 + i)) by lia.
        apply get_write_bytes_in, P2. lia.
      * rewrite !lookup_ge_None_2; [done|rewrite length_replicate; lia|rewrite read_bytes_length; lia].
  - intros x Hx. rewrite !write_u64_outside by lia. rewrite !get_write_bytes_out by lia. done.
Qed.

(** Switching to a task whose stack is fresh. *)
Lemma switch_to_fresh off c m ts out inc t base top tramp :
  out <> inc -> (out <> 0 -> is_Some (ts !! out)) -> ts !! inc = Some t ->
  0 <= inc -> fits 64 (inc + off) -> Forall (fits 64) [c_rbx c; c_rbp c; c_r12 c; c_r13 c; c_r14 c; c_r15 c] ->
  rsp t = top - 64 -> base + GUARD_SIZE + 64 <= top <= base + KERNEL_STACK_SIZE + GUARD_SIZE -> 0 < base -> top < 2 ^ 64 ->
  48 <= c_rsp c < 2 ^ 64 -> (c_rsp c <= base \/ base + KERNEL_STACK_SIZE + GUARD_SIZE <= c_rsp c - 48) ->
  read_u64 m (top - 16) = tramp -> (forall i, 3 <= i <= 8 -> read_u64 m (top - 8 * i) = 0) ->
  exists m' ts', switch_to off c m ts out inc =
    Some (mkCpu 0 0 0 0 0 0 (top - 8) tramp (if cr3 t =? 0 then c_cr3 c else cr3 t) (inc + off) (c_if c), m', ts') /\
    ts' !! inc = Some t /\
    (forall x, base <= x < base + KERNEL_STACK_SIZE + GUARD_SIZE -> get m' x = get m x).
Proof.
  intros Hne Hout Hinc Hi Hoff Hregs Hrsp Htop Hb Ht Hc Hd Htr Hz. unfold KERNEL_STACK_SIZE, GUARD_SIZE in *.
  unfold switch_to. destruct (push_words _ _ _) as [m' sp] eqn:E. apply push_words_spec in E as (-> & _ & Ho); [|done|simpl; lia]. simpl length in *.
  assert (Hsame : forall x, base <= x < base + 64 * 1024 + 4096 -> get m' x = get m x) by (intros x Hx; apply Ho; lia).
  assert (Hread : forall k, 0 <= k <= 56 -> read_u64 m' (top - 64 + k) = read_u64 m (top - 64 + k)) by (intros k Hk; apply read_u64_ext; intros x Hx; apply Hsame; lia).
  assert (exists ts', (if out =? 0 then Some ts else o ← ts !! out; Some (<[out := with_rsp o (c_rsp c - 8 * Z.of_nat 6)]> ts)) = Some ts' /\ ts' !! inc = Some t) as (ts' & -> & Hinc').
  { destruct (Z.eqb_spec out 0) as [->|Hn]; [by exists ts|]. destruct (Hout Hn) as [o Eo]. rewrite Eo. simpl. eexists. split; [done|]. by rewrite lookup_insert_ne. }
  exists m', ts'. cbn [mbind option_bind]. rewrite Hinc'. cbn [mbind option_bind]. rewrite Hrsp, !wrap_small by (done || unfold fits; lia).
  rewrite !Hread by lia. rewrite <- (Z.add_0_r (top - 64)) at 6. rewrite Hread by lia.
  assert (Hzz : forall k, 0 <= k <= 5 -> read_u64 m (top - 64 + 8 * k) = 0) by (intros k Hk; rewrite <- (Hz (8 - k)) by lia; f_equal; lia).
  rewrite (Hzz 5 ltac:(lia) : read_u64 m (top - 64 + 40) = 0), (Hzz 4 ltac:(lia) : read_u64 m (top - 64 + 32) = 0),
    (Hzz 3 ltac:(lia) : read_u64 m (top - 64 + 24) = 0), (Hzz 2 ltac:(lia) : read_u64 m (top - 64 + 16) = 0),
    (Hzz 1 ltac:(lia) : read_u64 m (top - 64 + 8) = 0), (Hzz 0 ltac:(lia) : read_u64 m (top - 64 + 0) = 0). replace (top - 64 + 48) with (top - 16) by lia. rewrite Htr.
  split_and!; [|done|done]. do 4 f_equal; [lia|]. destruct (cr3 t =? 0) eqn:E0; [done|]. destruct (Z.eqb_spec (cr3 t) (c_cr3 c)); congruence.
Qed.

(** ** Theorems *)

(** C19. A user task starts where its creator said: after [new_user], the first
    context switch to the task lands in the trampoline on the task's own
    kernel stack, which enables interrupts and falls into [user_trampoline],
    whose [iretq] loads the requested entry point and user stack with
    interrupts enabled and the user selectors; the scratch pointer is the
    task's, and the canary below the stack is intact. *)
Theorem new_user_task_enters_ring3 tramp utramp base m cs0 entry ustack l4 v prio t m1 cs1 off c ts out inc user_cs user_ss :
  fits 64 tramp -> fits 64 utramp -> fits 64 entry -> fits 64 ustack -> fits 64 user_cs -> fits 64 user_ss -> 0 < base ->
  new_user tramp utramp base m cs0 entry ustack l4 v prio = Some (t, m1, cs1) ->
  l4 <> 0 -> out <> inc -> (out <> 0 -> is_Some (ts !! out)) -> ts !! inc = Some t -> 0 <= inc -> fits 64 (inc + off) ->
  Forall (fits 64) [c_rbx c; c_rbp c; c_r12 c; c_r13 c; c_r14 c; c_r15 c] ->
  48 <= c_rsp c < 2 ^ 64 -> (c_rsp c <= base \/ base + KERNEL_STACK_SIZE + GUARD_SIZE <= c_rsp c - 48) ->
  exists c' m2 ts', switch_to off c m1 ts out inc = Some (c', m2, ts') /\
    c_rip c' = tramp /\ c_cr3 c' = l4 /\ c_kernel_gs c' = inc + off /\
    let c2 := run_task_trampoline c' m2 in
    c_rip c2 = utramp /\ c_if c2 = true /\ c_rsp c2 = kernel_stack_top t /\ (16 | c_rsp c2) /\
    (let '(i, m3) := run_user_trampoline user_cs user_ss m2 (c_rsp c2) t in
     i = mkIret entry user_cs 0x202 ustack user_ss /\ check_stack_canary t m3 = true).
Proof.
  intros Ht Hut He Hus Hcs Hss Hb Hnew Hl4 Hne Hout Hinc Hi Hoff Hregs Hc Hd.
  unfold new_user in Hnew. apply bind_Some in Hnew as ([ma top] & Ha & Hnew). apply bind_Some in Hnew as ([mb r] & Hs & Hnew).
  destruct (fresh_stack _ _ _ _ _ _ _ _ Ht Hut Hb Ha Hs) as (-> & Hr & Htop & Hal & Hent & Htr & Hz & Hcan & _).
  apply (inj Some) in Hnew. apply pair_eq in Hnew as (Hnew & _). apply pair_eq in Hnew as (<- & <-).
  destruct (switch_to_fresh off c mb ts out inc _ base top tramp Hne Hout Hinc Hi Hoff Hregs eq_refl Hr Hb Htop Hc Hd Htr Hz) as (m2 & ts' & E & _ & Hsame).
  eexists _, m2, ts'. split; [exact E|]. cbn [c_rip c_cr3 c_kernel_gs c_rsp c_if run_task_trampoline kernel_stack_top cr3]. unfold KERNEL_STACK_SIZE, GUARD_SIZE in *.
  rewrite (proj2 (Z.eqb_neq l4 0) Hl4), wrap_small by (unfold fits; lia). replace (top - 8 + 8) with top by lia.
  split_and!; [done|done|done| |done|done|done|].
  { rewrite <- Hent. apply read_u64_ext. intros x Hx. apply Hsame. lia. }
  unfold run_user_trampoline, enter_user_mode. cbn [user_entry user_stack]. destruct (push_words _ _ _) as [m3 sp] eqn:Ep.
  apply push_words_spec in Ep as (-> & Hrd & Ho); [|all_fit|simpl; lia]. simpl length in *. split.
  - unfold iretq. f_equal; [apply (Hrd 4%nat)|rewrite <- (Hrd 3%nat user_cs eq_refl)|rewrite <- (Hrd 2%nat 0x202 eq_refl)|rewrite <- (Hrd 1%nat ustack eq_refl)|rewrite <- (Hrd 0%nat user_ss eq_refl)]; try done; f_equal; lia.
  - unfold check_stack_canary. cbn [kernel_stack]. rewrite (read_bytes_ext mb) by (intros x Hx; unfold GUARD_SIZE in *; rewrite Ho, Hsame by lia; done).
    unfold GUARD_SIZE. rewrite Hcan. reflexivity.
Qed.

Definition sample_cpu : cpu := mkCpu 1 2 3 4 5 6 0x20000 0x8000 0x1000 0 true.

Lemma new_user_task_enters_ring3_witness :
  exists t m1 cs1, new_user 0x5000 0x6000 0x40000 ∅ (mkCounters 1 1) 0x400000 0x7FFFFFFFF000 0x3000 vmm_new 0 = Some (t, m1, cs1) /\
  exists c' m2 ts', switch_to 96 sample_cpu m1 {[0x70000 := t]} 0 0x70000 = Some (c', m2, ts') /\
    c_rip c' = 0x5000 /\ c_cr3 c' = 0x3000 /\ c_kernel_gs c' = 0x70000 + 96 /\
    let c2 := run_task_trampoline c' m2 in
    c_rip c2 = 0x6000 /\ c_if c2 = true /\ c_rsp c2 = kernel_stack_top t /\ (16 | c_rsp c2) /\
    (let '(i, m3) := run_user_trampoline 0x23 0x1B m2 (c_rsp c2) t in
     i = mkIret 0x400000 0x23 0x202 0x7FFFFFFFF000 0x1B /\ check_stack_canary t m3 = true).
Proof.
  assert (E : exists t m1 cs1, new_user 0x5000 0x6000 0x40000 ∅ (mkCounters 1 1) 0x400000 0x7FFFFFFFF000 0x3000 vmm_new 0 = Some (t, m1, cs1)).
  { eexists _, _, _. unfold new_user, alloc_kernel_stack. change (uadd 64 0x40000 (KERNEL_STACK_SIZE + GUARD_SIZE)) with (Some 0x51000).
    cbn [mbind option_bind]. unfold setup_stack. change (Z.ldiff 0x51000 15) with 0x51000. change (usub 64 0x51000 (8 * 8)) with (Some 0x50FC0). reflexivity. }
  destruct E as (t & m1 & cs1 & E). exists t, m1, cs1. split; [exact E|].
  eapply (new_user_task_enters_ring3 0x5000 0x6000 0x40000 ∅ (mkCounters 1 1) 0x400000 0x7FFFFFFFF000 0x3000 vmm_new 0);
    [unfold fits; lia..|lia|exact E|lia|lia|congruence|apply lookup_singleton_eq|lia|unfold fits; lia|all_fit|cbn; lia|left; cbn; lia].
Defined.

Definition saved_regs (c : cpu) : list Z := [c_rbx c; c_rbp c; c_r12 c; c_r13 c; c_r14 c; c_r15 c].

(** C16. A context switch is invisible to the task that is switched out:
    whatever the other tasks do, as long as they leave its saved stack frame
    and saved stack pointer alone, switching back to it returns from its call
    of [switch_to] with all callee-saved registers, the stack pointer and the
    return address as they were, in its own address space. *)
Theorem context_switch_round_trip off c m ts out inc o i :
  Forall (fits 64) (saved_regs c) -> 48 <= c_rsp c < 2 ^ 64 - 56 -> 0 < out -> fits 64 (out + off) -> out <> inc ->
  ts !! out = Some o -> ts !! inc = Some i ->
  exists c1 m1 ts1 o1, switch_to off c m ts out inc = Some (c1, m1, ts1) /\ ts1 !! out = Some o1 /\ ts1 !! inc = Some i /\
    (forall x, x < c_rsp c - 48 \/ c_rsp c <= x -> get m1 x = get m x) /\
    forall d m2 ts2 t out2,
      (forall x, c_rsp c - 48 <= x < c_rsp c + 8 -> get m2 x = get m1 x) ->
      ts2 !! out = Some t -> rsp t = rsp o1 -> out2 <> out -> (out2 <> 0 -> is_Some (ts2 !! out2)) ->
      Forall (fits 64) (saved_regs d) -> 48 <= c_rsp d < 2 ^ 64 -> c_rsp d <= c_rsp c - 48 \/ c_rsp c + 8 <= c_rsp d - 48 ->
      exists m3 ts3, switch_to off d m2 ts2 out2 out =
        Some (mkCpu (c_rbx c) (c_rbp c) (c_r12 c) (c_r13 c) (c_r14 c) (c_r15 c) (c_rsp c + 8) (read_u64 m (c_rsp c))
                (if cr3 t =? 0 then c_cr3 d else cr3 t) (out + off) (c_if d), m3, ts3).
Proof.
  intros Hc Hs Ho Hoff Hne Eo Ei. unfold switch_to at 1. fold (saved_regs c). destruct (push_words m (c_rsp c) (saved_regs c)) as [m1 sp] eqn:E.
  apply push_words_spec in E as (-> & Hr & Hout); [|done|simpl; lia]. change (8 * Z.of_nat (length (saved_regs c))) with 48 in *.
  rewrite (proj2 (Z.eqb_neq out 0)), Eo by lia. cbn [mbind option_bind]. rewrite lookup_insert_ne, Ei by done. cbn [mbind option_bind].
  eexists _, m1, _, _. split; [reflexivity|]. split; [apply lookup_insert_eq|]. split; [by rewrite lookup_insert_ne|]. split; [done|].
  intros d m2 ts2 t out2 Hm2 Et Hrsp Hne2 Hout2 Hd Hds Hdis. cbn [rsp with_rsp] in Hrsp. unfold switch_to. fold (saved_regs d).
  destruct (push_words m2 (c_rsp d) (saved_regs d)) as [m3 sp3] eqn:E3. apply push_words_spec in E3 as (-> & _ & Hout3); [|done|simpl; lia].
  change (8 * Z.of_nat (length (saved_regs d))) with 48 in *.
  assert (Hrd : forall k, 0 <= k <= 48 -> read_u64 m3 (c_rsp c - 48 + k) = read_u64 m1 (c_rsp c - 48 + k)).
  { intros k Hk. apply read_u64_ext. intros x Hx. rewrite Hout3, Hm2 by lia. done. }
  assert (Hreg : forall n w a, saved_regs c !! n = Some w -> (n < 6)%nat -> a = c_rsp c - 48 + (40 - 8 * Z.of_nat n) -> read_u64 m3 a = w).
  { intros n w a Hn Hlt ->. rewrite Hrd by lia. rewrite <- (Hr n w Hn). f_equal. lia. }
  assert (Hret : read_u64 m3 (c_rsp c - 48 + 48) = read_u64 m (c_rsp c)).
  { rewrite Hrd by lia. replace (c_rsp c - 48 + 48) with (c_rsp c) by lia. apply read_u64_ext. intros x Hx. apply Hout. lia. }
  assert (exists ts3, (if out2 =? 0 then Some ts2 else o2 ← ts2 !! out2; Some (<[out2 := with_rsp o2 (c_rsp d - 48)]> ts2)) = Some ts3 /\ ts3 !! out = Some t) as (ts3 & -> & Et3).
  { destruct (Z.eqb_spec out2 0) as [->|Hn]; [by exists ts2|]. destruct (Hout2 Hn) as [o2 E2]. rewrite E2. simpl. eexists. split; [done|]. by rewrite lookup_insert_ne. }
  exists m3, ts3. cbn [mbind option_bind]. rewrite Et3. cbn [mbind option_bind]. rewrite Hrsp, !wrap_small by (done || unfold fits; lia).
  rewrite Hret, (Hreg 0%nat (c_rbx c)), (Hreg 1%nat (c_rbp c)), (Hreg 2%nat (c_r12 c)), (Hreg 3%nat (c_r13 c)), (Hreg 4%nat (c_r14 c)), (Hreg 5%nat (c_r15 c)) by (done || lia).
  do 4 f_equal; [lia|]. destruct (cr3 t =? 0) eqn:E0; [done|]. destruct (Z.eqb_spec (cr3 t) (c_cr3 d)); congruence.
Qed.

Definition sample_task (id r : Z) : Task :=
  mkTask id id id Ready r 0x3000 0 0 None [] None vmm_new 0x51000 (scratch_new 0x51000) 0 0 0 0 0 0 signals_new 0x40000.

Lemma context_switch_round_trip_witness :
  let ts := <[0x100 := sample_task 1 0]> {[0x200 := sample_task 2 0x50000]} in
  exists c1 m1 (ts1 : gmap Z Task) (o1 : Task), switch_to 8 sample_cpu ∅ ts 0x100 0x200 = Some (c1, m1, ts1) /\ ts1 !! 0x100 = Some o1 /\ ts1 !! 0x200 = Some (sample_task 2 0x50000) /\
    (forall x, x < c_rsp sample_cpu - 48 \/ c_rsp sample_cpu <= x -> get m1 x = get ∅ x) /\
    forall d m2 ts2 t out2,
      (forall x, c_rsp sample_cpu - 48 <= x < c_rsp sample_cpu + 8 -> get m2 x = get m1 x) ->
      ts2 !! 0x100 = Some t -> rsp t = rsp o1 -> out2 <> 0x100 -> (out2 <> 0 -> is_Some (ts2 !! out2)) ->
      Forall (fits 64) (saved_regs d) -> 48 <= c_rsp d < 2 ^ 64 -> c_rsp d <= c_rsp sample_cpu - 48 \/ c_rsp sample_cpu + 8 <= c_rsp d - 48 ->
      exists m3 ts3, switch_to 8 d m2 ts2 out2 0x100 =
        Some (mkCpu 1 2 3 4 5 6 (c_rsp sample_cpu + 8) (read_u64 ∅ (c_rsp sample_cpu))
                (if cr3 t =? 0 then c_cr3 d else cr3 t) (0x100 + 8) (c_if d), m3, ts3).
Proof.
  intros ts. apply (context_switch_round_trip 8 sample_cpu ∅ ts 0x100 0x200 (sample_task 1 0) (sample_task 2 0x50000));
    [unfold saved_regs; all_fit|cbn; lia|lia|unfold fits; lia|lia|reflexivity|reflexivity].
Defined.

(** C18. A system call preserves the caller's registers: [syscall_entry] lays
    the sixteen registers out as the [TrapFrame] the handlers receive, at the
    top of the task's kernel stack, and when the handler and signal delivery
    leave that frame alone the call returns with every register unchanged
    except RAX, which holds the handler's result. *)
Theorem syscall_entry_preserves_registers s m f handler deliver_signal :
  frame_fits f -> 128 <= kernel_rsp s < 2 ^ 64 ->
  let fp := kernel_rsp s - 128 in
  (forall nr m', nr = rax f -> read_frame m' fp = f ->
     fits 64 (snd (handler nr m' fp)) /\ read_frame (fst (handler nr m' fp)) fp = f) ->
  (forall m', read_frame (deliver_signal m' fp) fp = read_frame m' fp) ->
  exists m1 m2, read_frame m1 fp = f /\ (forall x, x < fp \/ kernel_rsp s <= x -> get m1 x = get m x) /\
    syscall_entry s m f handler deliver_signal =
      (mkScratch (user_rsp f) (kernel_rsp s),
       set_rax f (snd (handler (rax f) m1 fp)), m2).
Proof.
  intros Hf Hk fp Hh Hd. unfold syscall_entry. cbn [kernel_rsp user_rsp_scratch].
  destruct (push_words _ _ _) as [m1 sp] eqn:E. apply push_words_spec in E as (-> & Hr & Ho); [| |cbn [length]; lia].
  2: { unfold frame_fits, frame_words in Hf. rewrite !Forall_cons in *. tauto. }
  change (8 * Z.of_nat _) with 128 in *. fold fp in Ho |- *.
  assert (Ef : read_frame m1 fp = f).
  { apply frame_of_words_eq. intros i v Hi. pose proof (lookup_lt_Some _ _ _ Hi) as Hlt. cbn [length frame_words] in Hlt.
    rewrite <- (Hr (15 - i)%nat v).
    - f_equal. unfold fp. lia.
    - rewrite <- Hi. do 16 (destruct i as [|i]; [reflexivity|]). lia. }
  destruct (Hh _ m1 eq_refl Ef) as (Hfit & Hsame). destruct (handler (rax f) m1 fp) as [mh res] eqn:Eh. simpl in *.
  exists m1, (deliver_signal (write_u64 mh (fp + 112) res) fp). split; [exact Ef|]. split; [intros x Hx; apply Ho; unfold fp in Hx; lia|].
  rewrite Eh. simpl. by rewrite Hd, read_frame_write_rax, Hsame by done.
Qed.

Lemma syscall_entry_preserves_registers_witness :
  let f := sample_frame in let s := scratch_new 0x51000 in
  let handler := fun (nr : Z) (m : memory) (fp : Z) => (m, 7) in
  exists m1 m2, read_frame m1 (0x51000 - 128) = f /\ (forall x, x < 0x51000 - 128 \/ 0x51000 <= x -> get m1 x = get ∅ x) /\
    syscall_entry s ∅ f handler (fun m _ => m) =
      (mkScratch (user_rsp f) 0x51000, set_rax f (snd (handler (rax f) m1 (0x51000 - 128))), m2).
Proof.
  intros f s handler. apply (syscall_entry_preserves_registers s ∅ f handler (fun m _ => m)).
  - unfold frame_fits, frame_words, f, sample_frame. cbn [r15 r14 r13 r12 rbp rbx r11 r10 r9 r8 rdi rsi rdx rcx rax user_rsp]. all_fit.
  - cbn. lia.
  - intros nr m' _ H. split; [unfold fits; cbn; lia|exact H].
  - intros m'. reflexivity.
Defined.
