(* ===== verification/Gs.v ===== *)
(** The per-task scratch area and the GS base registers ([swapgs] in
    [kernel/src/arch/syscall.rs], the model-specific register set by
    [kernel/src/arch/context.rs]).

    [syscall_entry] exchanges GS_BASE and KERNEL_GS_BASE and finds the kernel
    stack through GS; [switch_to] points KERNEL_GS_BASE at the incoming task.
    Tasks enter and leave system calls and are switched at any point; what the
    kernel does in between is left out. *)

From S2P Require Import Prelude Bytes Signal Task.

(** ** The registers *)

Record gs_regs := mkGs { GS_BASE : Z; KERNEL_GS_BASE : Z }.

Definition swapgs (g : gs_regs) : gs_regs := mkGs (KERNEL_GS_BASE g) (GS_BASE g).

(** The scratch areas by address, the memory that holds the kernel stacks, and for
    each task inside a system call the stack pointer it has there. *)
Record gs_state := mkGsState {
  g_regs : gs_regs;
  g_current : Z;
  g_scratch : gmap Z PerCpuScratch;
  g_mem : memory;
  g_frames : gmap Z Z
}.

Section Gs.
(** Where the scratch area is inside a [Task]. *)
Context (scratch_off : Z).

Definition scratch_of (l : Z) : Z := wrap 64 (l + scratch_off).

(** The switch changes one of the two registers. *)
(* arch/context.rs:28-32 switch_to *)
Definition switch_gs (s : gs_state) (inc : Z) : gs_state :=
  mkGsState (mkGs (GS_BASE (g_regs s)) (scratch_of inc)) inc (g_scratch s) (g_mem s) (g_frames s).

(** [f] is the register file as the [syscall] instruction leaves it. *)
(* arch/syscall.rs:91-113 syscall_entry *)
Definition enter_syscall (s : gs_state) (f : TrapFrame) : option gs_state :=
  let g := swapgs (g_regs s) in
  sc ← g_scratch s !! GS_BASE g;
  let sc := mkScratch (user_rsp f) (kernel_rsp sc) in
  let '(m, sp) := push_words (g_mem s) (kernel_rsp sc)
    [user_rsp_scratch sc; rax f; rcx f; rdx f; rsi f; rdi f; r8 f; r9 f; r10 f; r11 f; rbx f; rbp f; r12 f; r13 f; r14 f; r15 f] in
  Some (mkGsState g (g_current s) (<[GS_BASE g := sc]> (g_scratch s)) m (<[g_current s := sp]> (g_frames s))).

(** [v] is the result of the call; the frame is the one the registers are loaded
    from. *)
(* arch/syscall.rs:118-143 syscall_entry *)
Definition leave_syscall (s : gs_state) (v : Z) : option (TrapFrame * gs_state) :=
  sp ← g_frames s !! g_current s;
  let m := write_u64 (g_mem s) (sp + 112) v in
  Some (read_frame m sp, mkGsState (swapgs (g_regs s)) (g_current s) (g_scratch s) m (delete (g_current s) (g_frames s))).

(** What a task or the scheduler does. *)
Inductive gs_op := GEnter (f : TrapFrame) | GLeave (v : Z) | GSwitch (inc : Z).

Definition gs_step (s : gs_state) (op : gs_op) : option gs_state :=
  match op with
  | GEnter f => enter_syscall s f
  | GLeave v => snd <$> leave_syscall s v
  | GSwitch inc => Some (switch_gs s inc)
  end.

Fixpoint gs_run (s : gs_state) (ops : list gs_op) : option gs_state :=
  match ops with
  | [] => Some s
  | op :: ops => s ← gs_step s op; gs_run s ops
  end.

(** ** Frames on kernel stacks *)

Lemma push_frame m top f m' sp :
  push_words m top [user_rsp f; rax f; rcx f; rdx f; rsi f; rdi f; r8 f; r9 f; r10 f; r11 f; rbx f; rbp f; r12 f; r13 f; r14 f; r15 f] = (m', sp) ->
  frame_fits f -> 128 <= top < 2 ^ 64 ->
  sp = top - 128 /\ read_frame m' sp = f /\ forall x, x < top - 128 \/ top <= x -> get m' x = get m x.
Proof.
  intros E Hf Ht. apply push_words_spec in E as (-> & Hr & Ho); [| |cbn [length]; lia].
  2: { unfold frame_fits, frame_words in Hf. rewrite !Forall_cons in *. tauto. }
  change (8 * Z.of_nat _) with 128 in *. split_and!; [done| |done].
  apply frame_of_words_eq. intros i v Hi. pose proof (lookup_lt_Some _ _ _ Hi) as Hlt. cbn [length frame_words] in Hlt.
  rewrite <- (Hr (15 - i)%nat v).
  - f_equal. lia.
  - rewrite <- Hi. do 16 (destruct i as [|i]; [reflexivity|]). lia.
Qed.

(** Entering with KERNEL_GS_BASE at the scratch area of some task [o] pushes the
    frame onto that task's kernel stack, whichever task is running. *)
Lemma enter_syscall_spec s f o sc :
  KERNEL_GS_BASE (g_regs s) = scratch_of o -> g_scratch s !! scratch_of o = Some sc ->
  frame_fits f -> 128 <= kernel_rsp sc < 2 ^ 64 ->
  exists m, enter_syscall s f = Some (mkGsState (swapgs (g_regs s)) (g_current s)
      (<[scratch_of o := mkScratch (user_rsp f) (kernel_rsp sc)]> (g_scratch s)) m (<[g_current s := kernel_rsp sc - 128]> (g_frames s))) /\
    read_frame m (kernel_rsp sc - 128) = f /\
    forall x, x < kernel_rsp sc - 128 \/ kernel_rsp sc <= x -> get m x = get (g_mem s) x.
Proof.
  intros Hk Hs Hf Ht. unfold enter_syscall, swapgs. cbn [GS_BASE]. rewrite Hk, Hs. cbn [mbind option_bind user_rsp_scratch kernel_rsp].
  destruct (push_words _ _ _) as [m sp] eqn:E. apply push_frame in E as (-> & Hr & Ho); [|done|done]. by exists m.
Qed.

Lemma leave_syscall_spec s v sp f :
  g_frames s !! g_current s = Some sp -> read_frame (g_mem s) sp = f -> fits 64 v ->
  exists m, leave_syscall s v = Some (set_rax f v, mkGsState (swapgs (g_regs s)) (g_current s) (g_scratch s) m (delete (g_current s) (g_frames s))).
Proof.
  intros Hs Hr Hv. unfold leave_syscall. rewrite Hs. cbn [mbind option_bind]. rewrite read_frame_write_rax, Hr by done. by eexists.
Qed.

(** ** One user task

    The states reached when only [u] enters system calls, and the scheduler
    switches to any task at any moment. *)
Inductive one_user (u : Z) (s0 : gs_state) : gs_state -> Prop :=
  | ou_start : one_user u s0 s0
  | ou_enter s f s' : one_user u s0 s -> g_current s = u -> g_frames s !! u = None -> enter_syscall s f = Some s' -> one_user u s0 s'
  | ou_leave s v f s' : one_user u s0 s -> g_current s = u -> leave_syscall s v = Some (f, s') -> one_user u s0 s'
  | ou_switch s inc : one_user u s0 s -> one_user u s0 (switch_gs s inc).

(** [u] finds its own scratch area the next time it enters, and holds it in GS while
    it is inside. *)
Definition gs_inv (u top : Z) (s : gs_state) : Prop :=
  (g_frames s !! u = None -> g_current s = u -> KERNEL_GS_BASE (g_regs s) = scratch_of u) /\
  (is_Some (g_frames s !! u) -> GS_BASE (g_regs s) = scratch_of u) /\
  exists r, g_scratch s !! scratch_of u = Some (mkScratch r top).

Lemma one_user_inv u top s0 s : gs_inv u top s0 -> one_user u s0 s -> gs_inv u top s.
Proof.
  intros H0 H. induction H as [|s f s' H IH Hc Hn E|s v f s' H IH Hc E|s inc H IH]; [done| | |].
  - destruct IH as (Hk & _ & r & Hr). specialize (Hk Hn Hc). unfold enter_syscall, swapgs in E. cbn [GS_BASE] in E. rewrite Hk, Hr, Hc in E.
    cbn [mbind option_bind] in E. destruct (push_words _ _ _) as [m sp]. injection E as <-.
    split_and!; cbn [g_frames g_regs GS_BASE g_scratch kernel_rsp]; [by rewrite lookup_insert_eq|done|]. rewrite lookup_insert_eq. by eexists.
  - destruct IH as (_ & Hg & Hr). unfold leave_syscall in E. rewrite Hc in E. destruct (g_frames s !! u) as [sp|] eqn:Es; [|discriminate E].
    injection E as _ <-. split_and!; cbn [g_frames g_regs swapgs KERNEL_GS_BASE g_scratch]; [by intros; apply Hg|rewrite lookup_delete_eq; by intros []|done].
  - destruct IH as (_ & Hg & Hr). split_and!; [|done|done]. intros _ Hi. cbn in *. by subst.
Qed.

Lemma switches_run s ls : exists g c, gs_run s (map GSwitch ls) = Some (mkGsState g c (g_scratch s) (g_mem s) (g_frames s)).
Proof.
  revert s. induction ls as [|l ls IH]; intros s; [destruct s; by do 2 eexists|]. apply (IH (switch_gs s l)).
Qed.

(** While only one task of the machine enters user mode, the switches of the
    scheduler are harmless: whenever that task makes a system call its frame is
    pushed onto its own kernel stack, and after any sequence of switches that ends
    with it running the call returns to it with the registers it had and the
    result in [rax]. *)
Theorem one_user_task_keeps_stack u top s0 s f v :
  gs_inv u top s0 -> one_user u s0 s -> g_current s = u -> g_frames s !! u = None ->
  128 <= top < 2 ^ 64 -> frame_fits f -> fits 64 v ->
  exists s1, enter_syscall s f = Some s1 /\ g_frames s1 !! u = Some (top - 128) /\
    forall ls s2, gs_run s1 (map GSwitch ls) = Some s2 -> g_current s2 = u ->
      exists s3, leave_syscall s2 v = Some (set_rax f v, s3).
Proof.
  intros H0 H Hc Hn Ht Hf Hv. destruct (one_user_inv _ _ _ _ H0 H) as (Hk & _ & r & Hr).
  destruct (enter_syscall_spec s f u _ (Hk Hn Hc) Hr Hf Ht) as (m & -> & Hm & _). cbn [kernel_rsp] in *. eexists. split; [done|].
  rewrite Hc. cbn [g_frames]. rewrite lookup_insert_eq. split; [done|]. intros ls s2 Hrun Hc2.
  destruct (switches_run (mkGsState (swapgs (g_regs s)) u (<[scratch_of u := mkScratch (user_rsp f) top]> (g_scratch s)) m (<[u := top - 128]> (g_frames s))) ls) as (g & c & E).
  rewrite E in Hrun. injection Hrun as <-. cbn in Hc2. subst c.
  destruct (leave_syscall_spec (mkGsState g u (<[scratch_of u := mkScratch (user_rsp f) top]> (g_scratch s)) m (<[u := top - 128]> (g_frames s))) v (top - 128) f) as [m' ->]; cbn; [by rewrite lookup_insert_eq|done|done|by eexists].
Qed.

(** ** Two user tasks *)

(** C34. Two user tasks: [a] is switched out inside a system call, [b] runs, makes a
    call and is switched out inside it, and [a] returns to user mode. The second
    [swapgs] has then put [b]'s scratch area into KERNEL_GS_BASE, so the next
    system call of [a] pushes its frame onto the kernel stack of [b], over the
    frame [b] left there: [b] returns from its call with the registers of [a], its
    instruction and stack pointers included. *)
Theorem switched_syscalls_cross a b s sca scb fa fb fa' va vb :
  g_current s = a -> KERNEL_GS_BASE (g_regs s) = scratch_of a -> a <> b -> scratch_of a <> scratch_of b ->
  g_scratch s !! scratch_of a = Some sca -> g_scratch s !! scratch_of b = Some scb ->
  128 <= kernel_rsp sca < 2 ^ 64 -> 128 <= kernel_rsp scb < 2 ^ 64 -> kernel_rsp sca <= kernel_rsp scb - 128 \/ kernel_rsp scb <= kernel_rsp sca - 128 ->
  frame_fits fa -> frame_fits fb -> frame_fits fa' -> fits 64 va -> fits 64 vb ->
  exists s1 s2 s3 s4,
    gs_run s [GEnter fa; GSwitch b; GEnter fb; GSwitch a] = Some s1 /\
    leave_syscall s1 va = Some (set_rax fa va, s2) /\
    gs_run s2 [GEnter fa'; GSwitch b] = Some s3 /\
    leave_syscall s3 vb = Some (set_rax fa' vb, s4).
Proof.
  intros Hc Hk Hab Hsc Ha Hb Hta Htb Hd Hfa Hfb Hfa' Hva Hvb.
  destruct (enter_syscall_spec s fa a sca Hk Ha Hfa Hta) as (m1 & E1 & R1 & _). unfold swapgs in E1. rewrite Hk, Hc in E1.
  match type of E1 with _ = Some ?s1 => destruct (enter_syscall_spec (switch_gs s1 b) fb b scb) as (m2 & E2 & R2 & O2); [done|cbn; by rewrite lookup_insert_ne|done|done|] end.
  unfold swapgs in E2. cbn in E2, O2.
  match type of E2 with _ = Some ?s2 => destruct (leave_syscall_spec (switch_gs s2 a) va (kernel_rsp sca - 128) fa) as [m3 E3];
    [cbn; rewrite lookup_insert_ne by done; apply lookup_insert_eq|cbn; rewrite <- R1; apply read_frame_ext; unfold FRAME_SIZE; intros x Hx; apply O2; lia|done|] end.
  unfold swapgs in E3. cbn in E3.
  match type of E3 with _ = Some (_, ?s3) => destruct (enter_syscall_spec s3 fa' b (mkScratch (user_rsp fb) (kernel_rsp scb))) as (m4 & E4 & R4 & _); [done|cbn; apply lookup_insert_eq|done|done|] end.
  unfold swapgs in E4. cbn in E4.
  match type of E4 with _ = Some ?s4 => destruct (leave_syscall_spec (switch_gs s4 b) vb (kernel_rsp scb - 128) fa') as [m5 E5];
    [cbn; rewrite lookup_insert_ne, lookup_delete_ne by done; apply lookup_insert_eq|exact R4|done|] end.
  do 4 eexists. split_and!; [cbn [gs_run gs_step]; rewrite E1; cbn [mbind option_bind]; cbn [gs_step]; rewrite E2; reflexivity|exact E3|cbn [gs_run gs_step]; rewrite E4; reflexivity|exact E5].
Qed.

End Gs.

(** ** Two tasks on a machine *)

Definition entry_frame (rip rsp : Z) : TrapFrame := mkFrame 0 0 0 0 0 0 0x202 0 0 0 0 0 0 rip 1 rsp.

Definition sample_gs : gs_state :=
  mkGsState (mkGs 0 0x50060) 0x50000 {[0x50060 := mkScratch 0 0x20000; 0x60060 := mkScratch 0 0x40000]} ∅ ∅.

Lemma entry_frame_fits rip rsp : fits 64 rip -> fits 64 rsp -> frame_fits (entry_frame rip rsp).
Proof. intros. unfold frame_fits, frame_words, entry_frame; cbn. rewrite !Forall_cons. split_and!; done. Qed.

Lemma one_user_task_keeps_stack_witness :
  exists s1, enter_syscall sample_gs (entry_frame 0x400100 0x7FFFFFFFF000) = Some s1 /\ g_frames s1 !! 0x50000 = Some (0x20000 - 128) /\
    forall ls s2, gs_run 0x60 s1 (map GSwitch ls) = Some s2 -> g_current s2 = 0x50000 ->
      exists s3, leave_syscall s2 7 = Some (set_rax (entry_frame 0x400100 0x7FFFFFFFF000) 7, s3).
Proof.
  refine (one_user_task_keeps_stack 0x60 0x50000 0x20000 sample_gs sample_gs _ 7 _ (ou_start _ _ _) eq_refl eq_refl _ _ _);
    [|lia|apply entry_frame_fits; done|done].
  split_and!; [done|by intros []|by exists 0].
Defined.

Lemma switched_syscalls_cross_witness :
  exists s1 s2 s3 s4,
    gs_run 0x60 sample_gs [GEnter (entry_frame 0x400100 0x7000); GSwitch 0x60000; GEnter (entry_frame 0x400200 0x8000); GSwitch 0x50000] = Some s1 /\
    leave_syscall s1 0 = Some (set_rax (entry_frame 0x400100 0x7000) 0, s2) /\
    gs_run 0x60 s2 [GEnter (entry_frame 0x400300 0x6000); GSwitch 0x60000] = Some s3 /\
    leave_syscall s3 0 = Some (set_rax (entry_frame 0x400300 0x6000) 0, s4).
Proof.
  refine (switched_syscalls_cross 0x60 0x50000 0x60000 sample_gs (mkScratch 0 0x20000) (mkScratch 0 0x40000) _ _ _ 0 0 eq_refl eq_refl _ _ eq_refl eq_refl _ _ _ _ _ _ _ _);
    first [apply entry_frame_fits; done|cbn [kernel_rsp]; lia|done].
Defined.
