(* ===== verification/Cpu.v ===== *)
(** The user program [user/init/init.S] and the machine code it becomes.

    The instructions the program and the signal trampoline use, with their
    encoding and a decoder of the byte stream; the program as it is written,
    with its labels, and the flat binary the build makes of it.  Instructions
    do not set the arithmetic flags, which nothing here reads. *)

From S2P Require Import Prelude Bytes Signal.

(** ** Registers *)

Inductive reg := RAX | RCX | RDX | RBX | RSP | RBP | RSI | RDI | R8 | R9 | R10 | R11 | R12 | R13 | R14 | R15.
#[export] Instance reg_eq : EqDecision reg.
Proof. solve_decision. Defined.

Definition all_regs : list reg := [RAX; RCX; RDX; RBX; RSP; RBP; RSI; RDI; R8; R9; R10; R11; R12; R13; R14; R15].
(** The number an instruction names a register by. *)
Definition reg_code (r : reg) : Z :=
  match r with
  | RAX => 0 | RCX => 1 | RDX => 2 | RBX => 3 | RSP => 4 | RBP => 5 | RSI => 6 | RDI => 7
  | R8 => 8 | R9 => 9 | R10 => 10 | R11 => 11 | R12 => 12 | R13 => 13 | R14 => 14 | R15 => 15
  end.
Definition reg_of (n : Z) : option reg := all_regs !! Z.to_nat n.

(** The register file is a trap frame, whose last word is the stack pointer. *)
Definition rget (f : TrapFrame) (r : reg) : Z :=
  match r with
  | RAX => rax f | RCX => rcx f | RDX => rdx f | RBX => rbx f | RSP => user_rsp f | RBP => rbp f | RSI => rsi f | RDI => rdi f
  | R8 => r8 f | R9 => r9 f | R10 => r10 f | R11 => r11 f | R12 => r12 f | R13 => r13 f | R14 => r14 f | R15 => r15 f
  end.

Definition rset (f : TrapFrame) (r : reg) (v : Z) : TrapFrame :=
  let w (x : reg) (old : Z) := if decide (r = x) then v else old in
  mkFrame (w R15 (r15 f)) (w R14 (r14 f)) (w R13 (r13 f)) (w R12 (r12 f)) (w RBP (rbp f)) (w RBX (rbx f)) (w R11 (r11 f)) (w R10 (r10 f))
    (w R9 (r9 f)) (w R8 (r8 f)) (w RDI (rdi f)) (w RSI (rsi f)) (w RDX (rdx f)) (w RCX (rcx f)) (w RAX (rax f)) (w RSP (user_rsp f)).

Lemma rget_rset f r v x : rget (rset f r v) x = if decide (r = x) then v else rget f x.
Proof. by destruct x. Qed.

(** ** Instructions *)

(** [mov $imm, %r32]; [lea disp(%rip), %r64]; [lea disp(%b), %r64]; [mov %s, %d] of
    64 and of 32 bits; [xor %s, %d] of 32 bits; [sub $imm, %rax];
    [movl $imm, (%b)]; [syscall]; [ret]; [jmp] with an 8-bit distance; [nop]. *)
Inductive instr :=
  | MovImm (r : reg) (imm : Z)
  | LeaRip (r : reg) (disp : Z)
  | LeaDisp (r b : reg) (disp : Z)
  | Mov64 (d s : reg)
  | Mov32 (d s : reg)
  | Xor32 (d s : reg)
  | SubRax (imm : Z)
  | StoreImm (b : reg) (imm : Z)
  | SysCall
  | RetQ
  | Jmp (rel : Z)
  | Nop.

(** Two's complement in [n] bytes. *)
Definition imm_bytes (n : nat) (v : Z) : list Z := le_encode n (wrap (8 * Z.of_nat n) v).
Definition imm_signed (n : nat) (bs : list Z) : Z := as_signed (8 * Z.of_nat n) (le_decode (take n bs)).

Definition low3 (r : reg) : Z := reg_code r mod 8.
Definition ext (r : reg) : Z := reg_code r / 8.
(** The REX prefix, left out where it would say nothing. *)
Definition rex (w r b : Z) : list Z := if (w =? 0) && (r =? 0) && (b =? 0) then [] else [0x40 + 8 * w + 4 * r + b].
Definition modrm (md r b : Z) : Z := 64 * md + 8 * r + b.

Definition encode (i : instr) : list Z :=
  match i with
  | MovImm r imm => rex 0 0 (ext r) ++ [0xB8 + low3 r] ++ imm_bytes 4 imm
  | LeaRip r disp => rex 1 (ext r) 0 ++ [0x8D; modrm 0 (low3 r) 5] ++ imm_bytes 4 disp
  | LeaDisp r b disp => rex 1 (ext r) (ext b) ++ [0x8D; modrm 2 (low3 r) (low3 b)] ++ imm_bytes 4 disp
  | Mov64 d s => rex 1 (ext s) (ext d) ++ [0x89; modrm 3 (low3 s) (low3 d)]
  | Mov32 d s => rex 0 (ext s) (ext d) ++ [0x89; modrm 3 (low3 s) (low3 d)]
  | Xor32 d s => rex 0 (ext s) (ext d) ++ [0x31; modrm 3 (low3 s) (low3 d)]
  | SubRax imm => rex 1 0 0 ++ [0x2D] ++ imm_bytes 4 imm
  | StoreImm b imm => rex 0 0 (ext b) ++ [0xC7; modrm 0 0 (low3 b)] ++ imm_bytes 4 imm
  | SysCall => [0x0F; 0x05]
  | RetQ => [0xC3]
  | Jmp rel => [0xEB] ++ imm_bytes 1 rel
  | Nop => [0x90]
  end.

(** The instruction after the prefix: [w], [r] and [b] are the bits of REX.  The
    answer is the instruction and its length. *)
Definition decode_op (w r b : Z) (bs : list Z) : option (instr * nat) :=
  match bs with
  | op :: rest =>
      if (0xB8 <=? op) && (op <? 0xC0) && (w =? 0) then
        d ← reg_of (8 * b + (op - 0xB8)); Some (MovImm d (le_decode (take 4 rest)), 5%nat)
      else if (op =? 0x2D) && (w =? 1) then Some (SubRax (imm_signed 4 rest), 5%nat)
      else if op =? 0xC3 then Some (RetQ, 1%nat)
      else if op =? 0x90 then Some (Nop, 1%nat)
      else if op =? 0xEB then Some (Jmp (imm_signed 1 rest), 2%nat)
      else
        match rest with
        | m :: rest =>
            let md := m / 64 in
            if (op =? 0x0F) && (m =? 0x05) then Some (SysCall, 2%nat)
            else
              x ← reg_of (8 * r + m / 8 mod 8);
              y ← reg_of (8 * b + m mod 8);
              if (op =? 0x8D) && (w =? 1) then
                if (md =? 0) && (m mod 8 =? 5) then Some (LeaRip x (imm_signed 4 rest), 6%nat)
                else if (md =? 2) && negb (m mod 8 =? 4) then Some (LeaDisp x y (imm_signed 4 rest), 6%nat)
                else None
              else if (op =? 0x89) && (md =? 3) then Some (if w =? 1 then Mov64 y x else Mov32 y x, 2%nat)
              else if (op =? 0x31) && (md =? 3) && (w =? 0) then Some (Xor32 y x, 2%nat)
              else if (op =? 0xC7) && (md =? 0) && (m / 8 mod 8 =? 0) && (w =? 0) && negb (m mod 8 =? 4) && negb (m mod 8 =? 5) then
                Some (StoreImm y (le_decode (take 4 rest)), 6%nat)
              else None
        | [] => None
        end
  | [] => None
  end.

Definition decode (bs : list Z) : option (instr * nat) :=
  match bs with
  | p :: rest =>
      if (0x40 <=? p) && (p <? 0x50)
      then '(i, n) ← decode_op (p / 8 mod 2) (p / 4 mod 2) (p mod 2) rest; Some (i, S n)
      else decode_op 0 0 0 bs
  | [] => None
  end.

(** Operands that fit, and base registers that need no further byte. *)
Definition encodable (i : instr) : bool :=
  match i with
  | MovImm _ imm | StoreImm _ imm => (0 <=? imm) && (imm <? 2 ^ 32)
  | LeaRip _ v | LeaDisp _ _ v | SubRax v => (- 2 ^ 31 <=? v) && (v <? 2 ^ 31)
  | Jmp v => (- 128 <=? v) && (v <? 128)
  | _ => true
  end &&
  match i with
  | LeaDisp _ b _ => negb (low3 b =? 4)
  | StoreImm b _ => negb (low3 b =? 4) && negb (low3 b =? 5)
  | _ => true
  end.

(** ** Decoding what was encoded *)

Lemma imm_bytes_length n v : length (imm_bytes n v) = n.
Proof. apply le_encode_length. Qed.

Lemma imm_unsigned_encoded n v rest : 0 <= v < 256 ^ Z.of_nat n -> le_decode (take n (imm_bytes n v ++ rest)) = v.
Proof.
  intros Hv. rewrite take_app_le, take_ge by (rewrite imm_bytes_length; lia). unfold imm_bytes.
  assert (E : 2 ^ (8 * Z.of_nat n) = 256 ^ Z.of_nat n) by (rewrite Z.pow_mul_r by lia; done).
  rewrite wrap_small by (unfold fits; by rewrite E). by apply le_decode_encode.
Qed.

Lemma imm_signed_encoded n v rest : (0 < n)%nat -> - 2 ^ (8 * Z.of_nat n - 1) <= v < 2 ^ (8 * Z.of_nat n - 1) -> imm_signed n (imm_bytes n v ++ rest) = v.
Proof.
  intros Hn Hv. unfold imm_signed. rewrite take_app_le, take_ge by (rewrite imm_bytes_length; lia). unfold imm_bytes.
  assert (E : 2 ^ (8 * Z.of_nat n) = 256 ^ Z.of_nat n) by (rewrite Z.pow_mul_r by lia; done).
  assert (E2 : 2 ^ (8 * Z.of_nat n) = 2 * 2 ^ (8 * Z.of_nat n - 1)) by (rewrite <- Z.pow_succ_r by lia; f_equal; lia).
  rewrite le_decode_encode by (rewrite <- E; apply wrap_fits; lia). unfold as_signed. rewrite (wrap_small _ (wrap _ v)) by (apply wrap_fits; lia).
  unfold wrap. rewrite E2. set (h := 2 ^ (8 * Z.of_nat n - 1)) in *. destruct (Z.lt_ge_cases v 0).
  - rewrite <- (Z.mod_add v 1), Z.mod_small by lia. rewrite (proj2 (Z.ltb_ge _ _)); lia.
  - rewrite Z.mod_small by lia. rewrite (proj2 (Z.ltb_lt _ _)); lia.
Qed.

Ltac closed_bytes :=
  repeat match goal with
  | |- context [rex ?a ?b ?c] => let t := eval vm_compute in (rex a b c) in change (rex a b c) with t
  | |- context [modrm ?a ?b ?c] => let t := eval vm_compute in (modrm a b c) in change (modrm a b c) with t
  | |- context [0xB8 + low3 ?r] => let t := eval vm_compute in (0xB8 + low3 r) in change (0xB8 + low3 r) with t
  end.

(** The decoder reads back every instruction that was encoded, whatever bytes
    follow it, and finds where the next one begins. *)
Lemma decode_encoded i rest : encodable i = true -> decode (encode i ++ rest) = Some (i, length (encode i)).
Proof.
  intros He.
  assert (Hu : forall v, (0 <=? v) && (v <? 2 ^ 32) = true -> forall r, le_decode (take 4 (imm_bytes 4 v ++ r)) = v).
  { intros v Hv r. apply imm_unsigned_encoded. change (256 ^ Z.of_nat 4) with (2 ^ 32). lia. }
  assert (Hs : forall v, (- 2 ^ 31 <=? v) && (v <? 2 ^ 31) = true -> forall r, imm_signed 4 (imm_bytes 4 v ++ r) = v).
  { intros v Hv r. apply imm_signed_encoded; [lia|]. change (8 * Z.of_nat 4 - 1) with 31. lia. }
  assert (Hb : forall v, (- 128 <=? v) && (v <? 128) = true -> forall r, imm_signed 1 (imm_bytes 1 v ++ r) = v).
  { intros v Hv r. apply imm_signed_encoded; [lia|]. change (2 ^ (8 * Z.of_nat 1 - 1)) with 128. lia. }
  pose proof (imm_bytes_length 4) as Hl4. pose proof (imm_bytes_length 1) as Hl1.
  unfold encodable in He. apply andb_true_iff in He as [He1 He2].
  destruct i as [r v|r v|r b v|d s|d s|d s|v|b v| | |v|]; try destruct r; try destruct b; try destruct d; try destruct s; try discriminate He2;
    unfold encode; closed_bytes; cbn [app length]; rewrite ?Hl4, ?Hl1;
    lazy -[imm_bytes imm_signed le_decode take app]; rewrite ?Hu, ?Hs, ?Hb by exact He1; reflexivity.
Qed.

(** ** The program *)

Inductive label := sig_handler | password | devname.
#[export] Instance label_eq : EqDecision label.
Proof. solve_decision. Defined.

(** A line of the source: an instruction, one that names a label, a label, or
    characters. *)
Inductive line := Ins (i : instr) | LeaLabel (l : label) (r : reg) | Label (l : label) | Ascii (bs : list Z).

Definition line_size (x : line) : Z :=
  match x with
  | Ins i => Z.of_nat (length (encode i))
  | LeaLabel _ r => Z.of_nat (length (encode (LeaRip r 0)))
  | Label _ => 0
  | Ascii bs => Z.of_nat (length bs)
  end.

(** Where a label is, from the start of the program. *)
Fixpoint label_at (l : label) (at_ : Z) (p : list line) : Z :=
  match p with
  | [] => 0
  | x :: p => match x with Label l' => if decide (l = l') then at_ else label_at l at_ p | _ => label_at l (at_ + line_size x) p end
  end.

Fixpoint assemble_from (whole : list line) (at_ : Z) (p : list line) : list Z :=
  match p with
  | [] => []
  | x :: p =>
      let next := at_ + line_size x in
      match x with
      | Ins i => encode i
      | LeaLabel l r => encode (LeaRip r (label_at l 0 whole - next))
      | Label _ => []
      | Ascii bs => bs
      end ++ assemble_from whole next p
  end.
Definition assemble (p : list line) : list Z := assemble_from p 0 p.

(** [jmp .] *)
Definition jmp_self : instr := Jmp (-2).

(* init.S:2-69 _start *)
Definition init_S : list line := [
  Ins (MovImm RDI 1); LeaLabel password RSI; Ins (MovImm RDX 4); Ins (MovImm RAX 48); Ins SysCall;
  LeaLabel devname RDI; Ins (MovImm RSI 7); Ins (MovImm RAX 22); Ins SysCall; Ins (Mov64 R13 RAX);
  Ins (Mov64 RDI R13); Ins (MovImm RSI 1); Ins (Xor32 RDX RDX); Ins (MovImm RAX 21); Ins SysCall;
  Ins (Mov64 RDI R13); Ins (MovImm RAX 23); Ins SysCall;
  Ins (Xor32 RDI RDI); Ins (MovImm RAX 17); Ins SysCall;
  Ins (LeaDisp RDI RAX 0x1000); Ins (MovImm RAX 17); Ins SysCall; Ins (SubRax 0x1000); Ins (StoreImm RAX 0xCAFEBABE);
  Ins (MovImm RDI 10); LeaLabel sig_handler RSI; Ins (MovImm RAX 55); Ins SysCall;
  Ins (MovImm RAX 3); Ins SysCall; Ins (Mov32 R12 RAX);
  Ins (Mov32 RDI R12); Ins (MovImm RSI 10); Ins (MovImm RAX 53); Ins SysCall;
  Ins (Mov32 RDI R12); Ins (MovImm RAX 1); Ins SysCall; Ins jmp_self;
  Label sig_handler; Ins RetQ;
  Label password; Ascii [116; 101; 115; 116];
  Label devname; Ascii [99; 111; 110; 115; 111; 108; 101] ].

(** The flat binary the build assembles, links and extracts. *)
(* build.rs:13-25 main *)
Definition init_bin : list Z := assemble init_S.

(** What the GNU assembler and linker produce for it. *)
Lemma init_bin_bytes : init_bin = [
  0xbf;0x01;0;0;0;0x48;0x8d;0x35;0x99;0;0;0;0xba;4;0;0;0;0xb8;0x30;0;0;0;0x0f;0x05;
  0x48;0x8d;0x3d;0x8a;0;0;0;0xbe;7;0;0;0;0xb8;0x16;0;0;0;0x0f;0x05;0x49;0x89;0xc5;
  0x4c;0x89;0xef;0xbe;1;0;0;0;0x31;0xd2;0xb8;0x15;0;0;0;0x0f;0x05;
  0x4c;0x89;0xef;0xb8;0x17;0;0;0;0x0f;0x05;
  0x31;0xff;0xb8;0x11;0;0;0;0x0f;0x05;0x48;0x8d;0xb8;0;0x10;0;0;0xb8;0x11;0;0;0;0x0f;0x05;0x48;0x2d;0;0x10;0;0;0xc7;0;0xbe;0xba;0xfe;0xca;
  0xbf;0x0a;0;0;0;0x48;0x8d;0x35;0x2c;0;0;0;0xb8;0x37;0;0;0;0x0f;0x05;
  0xb8;3;0;0;0;0x0f;0x05;0x41;0x89;0xc4;
  0x44;0x89;0xe7;0xbe;0x0a;0;0;0;0xb8;0x35;0;0;0;0x0f;0x05;
  0x44;0x89;0xe7;0xb8;1;0;0;0;0x0f;0x05;0xeb;0xfe;
  0xc3;116;101;115;116;99;111;110;115;111;108;101 ].
Proof. vm_compute. reflexivity. Qed.

(** The trampoline of the signals in this instruction set. *)
Lemma trampoline_code : TRAMPOLINE = encode (MovImm RAX SYS_SIGRETURN_NR) ++ encode SysCall ++ encode jmp_self ++ encode Nop.
Proof. vm_compute. reflexivity. Qed.
