(* ===== verification/Gdt.v ===== *)
(** Segments and the system-call registers ([kernel/src/arch/gdt.rs], [init] of
    [arch/syscall.rs]): the descriptor table and its selectors, the task-state
    segment, and the model-specific registers that [syscall] and [sysret]
    take their segments, target and flag mask from.

    The [GlobalDescriptorTable] of the [x86_64] crate is a class with its
    documented behaviour; the reading the processor gives to the registers is
    that of the architecture manual. *)

From S2P Require Import Prelude Bytes X86 Vmm Signal Task.

(** The descriptors the kernel builds: their privilege level and the entries of
    the table they take. *)
Inductive SegDescriptor := KernelCode | KernelData | UserData | UserCode | TssSegment.

Definition seg_dpl (d : SegDescriptor) : Z := match d with UserData | UserCode => 3 | _ => 0 end.
Definition seg_slots (d : SegDescriptor) : Z := match d with TssSegment => 2 | _ => 1 end.

(** [append] gives the selector of the first entry it fills, with the privilege
    level of the descriptor, and panics when the eight entries do not suffice.
    Entry 0 is the null descriptor. *)
Class SegmentTable (G : Type) := {
  gdt_new : G;
  gdt_append : G -> SegDescriptor -> option (Z * G);
  gdt_entries : G -> Z;
  gdt_entries_new : gdt_entries gdt_new = 1;
  gdt_append_ok g d : gdt_entries g + seg_slots d <= 8 ->
    exists g', gdt_append g d = Some (8 * gdt_entries g + seg_dpl d, g') /\ gdt_entries g' = gdt_entries g + seg_slots d
}.

(* arch/gdt.rs:14-20 Selectors *)
Record Selectors := mkSelectors { kernel_code : Z; kernel_data : Z; user_code : Z; user_data : Z; tss_sel : Z }.

(** The stacks of the task-state segment: one per privilege level, and the
    interrupt stacks. *)
Record TaskStateSegment := mkTss { privilege_stack_table : list Z; interrupt_stack_table : list Z }.

(* arch/gdt.rs:10-10 DOUBLE_FAULT_IST_INDEX *)
Definition DOUBLE_FAULT_IST_INDEX : nat := 0.

(** [stack] is the address of the static [STACK]. *)
(* arch/gdt.rs:24-33 TSS *)
Definition TSS `{X86Addr} (stack : Z) : option TaskStateSegment :=
  top ← VirtAddr_add stack 8192;
  Some (mkTss (replicate 3 0) (<[DOUBLE_FAULT_IST_INDEX := top]> (replicate 7 0))).

(* arch/gdt.rs:72-75 set_kernel_stack *)
Definition set_kernel_stack (tss : TaskStateSegment) (stack_top : Z) : TaskStateSegment :=
  mkTss (<[0%nat := stack_top]> (privilege_stack_table tss)) (interrupt_stack_table tss).

(* arch/gdt.rs:35-43 GDT *)
Definition GDT {G} `{SegmentTable G} : option (G * Selectors) :=
  let gdt := gdt_new in
  '(kc, gdt) ← gdt_append gdt KernelCode;
  '(kd, gdt) ← gdt_append gdt KernelData;
  '(ud, gdt) ← gdt_append gdt UserData;
  '(uc, gdt) ← gdt_append gdt UserCode;
  '(ts, gdt) ← gdt_append gdt TssSegment;
  Some (gdt, mkSelectors kc kd uc ud ts).

(* arch/gdt.rs:62-64 syscall_selectors *)
Definition syscall_selectors (s : Selectors) : Z * Z := (kernel_code s, user_code s).
(* arch/gdt.rs:67-69 user_selectors *)
Definition user_selectors (s : Selectors) : Z * Z := (Z.lor (user_code s) 3, Z.lor (user_data s) 3).

(** The segment registers and the model-specific registers the kernel sets. *)
Record segment_regs := mkSegs {
  cs : Z; ss : Z; tr : Z; kernel_gs_base : Z;
  efer : Z; star : Z; lstar : Z; sfmask : Z
}.

(** [boot_scratch] is the address of [BOOT_SCRATCH]. *)
(* arch/gdt.rs:46-59 init *)
Definition gdt_init (sel : Selectors) (boot_scratch : Z) (r : segment_regs) : segment_regs :=
  mkSegs (kernel_code sel) (kernel_data sel) (tss_sel sel) boot_scratch (efer r) (star r) (lstar r) (sfmask r).

Definition SYSTEM_CALL_EXTENSIONS : Z := 1.
Definition INTERRUPT_FLAG : Z := 512.

(** The halves of a 64-bit register as [wrmsr] takes them. *)
Definition wrmsr (eax edx : Z) : Z := Z.lor (Z.shiftl edx 32) eax.

(** [None] is the underflow of the subtraction. *)
(* arch/syscall.rs:51-68 init *)
Definition star_value (kernel_cs user_cs : Z) : option Z :=
  base ← usub 16 user_cs 16;
  let user_base := Z.lor base 3 in
  let msr_val := Z.lor (Z.shiftl user_base 48) (Z.shiftl kernel_cs 32) in
  Some (wrmsr (Z.land msr_val 0xFFFFFFFF) (Z.shiftr msr_val 32)).

(* arch/syscall.rs:48-74 init *)
Definition syscall_init (entry : Z) (sel : Selectors) (r : segment_regs) : option segment_regs :=
  let '(kernel_cs, user_cs) := syscall_selectors sel in
  v ← star_value kernel_cs user_cs;
  Some (mkSegs (cs r) (ss r) (tr r) (kernel_gs_base r) (Z.lor (efer r) SYSTEM_CALL_EXTENSIONS) v entry INTERRUPT_FLAG).

(** ** What the processor does with them *)

(** [syscall]: code and stack segment, the target and the flags in ring 0.
    [sysretq]: code and stack segment in ring 3. *)
Definition syscall_cs (r : segment_regs) : Z := Z.ldiff (Z.land (Z.shiftr (star r) 32) 0xFFFF) 3.
Definition syscall_ss (r : segment_regs) : Z := syscall_cs r + 8.
Definition syscall_rflags (r : segment_regs) (rflags : Z) : Z := Z.ldiff rflags (sfmask r).
Definition sysret_cs (r : segment_regs) : Z := Z.lor (Z.land (Z.shiftr (star r) 48) 0xFFFF + 16) 3.
Definition sysret_ss (r : segment_regs) : Z := Z.lor (Z.land (Z.shiftr (star r) 48) 0xFFFF + 8) 3.

Lemma gdt_layout {G} `{SegmentTable G} : exists g, GDT (G := G) = Some (g, mkSelectors 0x8 0x10 0x23 0x1B 0x28).
Proof.
  unfold GDT. pose proof gdt_entries_new as E0.
  destruct (gdt_append_ok gdt_new KernelCode) as (g1 & -> & E1); [rewrite E0; cbn; lia|]. cbn [mbind option_bind]. rewrite E0 in *.
  destruct (gdt_append_ok g1 KernelData) as (g2 & -> & E2); [rewrite E1; cbn; lia|]. cbn [mbind option_bind]. rewrite E1 in *.
  destruct (gdt_append_ok g2 UserData) as (g3 & -> & E3); [rewrite E2; cbn; lia|]. cbn [mbind option_bind]. rewrite E2 in *.
  destruct (gdt_append_ok g3 UserCode) as (g4 & -> & E4); [rewrite E3; cbn; lia|]. cbn [mbind option_bind]. rewrite E3 in *.
  destruct (gdt_append_ok g4 TssSegment) as (g5 & -> & E5); [rewrite E4; cbn; lia|]. cbn [mbind option_bind]. rewrite E4 in *. by eexists.
Qed.

(** Entering and leaving the kernel use the segments of the descriptor table:
    after start-up [syscall] loads the kernel's code and data segments, masks
    interrupts and leaves the other flags alone, and [sysretq] loads exactly
    the user segments, of privilege 3, that the first entry to ring 3 by
    [iretq] uses; the table has room for all descriptors and no subtraction
    underflows. *)
Theorem syscall_segments_agree {G} `{SegmentTable G} (boot_scratch entry : Z) (r0 : segment_regs) :
  exists g sel r, GDT (G := G) = Some (g, sel) /\ syscall_init entry sel (gdt_init sel boot_scratch r0) = Some r /\
    cs r = kernel_code sel /\ ss r = kernel_data sel /\ lstar r = entry /\
    syscall_cs r = kernel_code sel /\ syscall_ss r = kernel_data sel /\ kernel_code sel mod 4 = 0 /\
    (forall rflags i, 0 <= i -> Z.testbit (syscall_rflags r rflags) i = Z.testbit rflags i && negb (i =? 9)) /\
    (sysret_cs r, sysret_ss r) = user_selectors sel /\ sysret_cs r mod 4 = 3 /\ sysret_ss r mod 4 = 3 /\
    forall m sp rip rsp, Forall (fits 64) [rsp; rip] -> 40 <= sp < 2 ^ 64 ->
      let f := fst (enter_user_mode (fst (user_selectors sel)) (snd (user_selectors sel)) m sp rip rsp) in
      i_cs f = sysret_cs r /\ i_ss f = sysret_ss r.
Proof.
  destruct (gdt_layout (G := G)) as (g & E). exists g, (mkSelectors 0x8 0x10 0x23 0x1B 0x28). eexists. split; [exact E|]. split; [reflexivity|].
  do 6 (split; [reflexivity|]). split.
  { intros rflags i Hi. unfold syscall_rflags. cbn [sfmask]. rewrite Z.ldiff_spec. f_equal. f_equal. change INTERRUPT_FLAG with (2 ^ 9).
    destruct (Z.eqb_spec i 9) as [->|Hne]; [reflexivity|]. apply Z.pow2_bits_false. congruence. }
  do 3 (split; [reflexivity|]). intros m sp rip rsp0 Hf Hsp f. apply Forall_cons in Hf as [Hr Hf]. apply Forall_cons in Hf as [Hi _].
  unfold f, enter_user_mode. cbn [fst snd user_selectors user_code user_data]. change (Z.lor 35 3) with 35. change (Z.lor 27 3) with 27.
  destruct (push_words _ _ _) as [m' sp'] eqn:Ep. destruct (push_words_spec _ _ _ _ _ Ep) as (-> & Hw & _); [all_fit|cbn [length]; lia|]. cbn [fst iretq i_cs i_ss length] in *.
  split; [etransitivity; [|apply (Hw 3%nat _ eq_refl)]|etransitivity; [|apply (Hw 0%nat _ eq_refl)]]; f_equal; cbn; lia.
Qed.

(** ** Example *)

(** A table that only counts its entries. *)
#[export, refine] Instance counting_table : SegmentTable Z := {
  gdt_new := 1;
  gdt_append n d := if n + seg_slots d <=? 8 then Some (8 * n + seg_dpl d, n + seg_slots d) else None;
  gdt_entries n := n
}.
Proof. - done. - intros n d Hn. rewrite (proj2 (Z.leb_le _ _) Hn). by eexists. Defined.

Lemma gdt_example : GDT (G := Z) = Some (7, mkSelectors 0x8 0x10 0x23 0x1B 0x28).
Proof. reflexivity. Qed.
