(* ===== verification/Sched.v ===== *)
(** The multi-level feedback queue scheduler ([kernel/src/scheduler/mlfq.rs],
    [scheduler/mod.rs]), the task table ([process/table.rs]), task lifecycle
    ([process/lifecycle.rs]) and the timer interrupt ([arch/idt.rs]).

    An [Arc<Spinlock<Task>>] is the address of the task in a store of tasks
    shared by the queues, the current-task slot and the table, so an update
    through one reference is seen through all of them.  An address stays with
    its task for good.  [None] is a panic.  A switch is the pair of addresses
    given to [switch_to] (see [Task.switch_to]). *)

From S2P Require Import Prelude Bytes Vmm Signal Task.

Abbreviation tasks := (gmap Z Task).

(* scheduler/mlfq.rs:8-9 NUM_QUEUES *)
Definition NUM_QUEUES : nat := 8.
Definition BOOST_PERIOD : Z := 100.
(* scheduler/mlfq.rs:10-19 TIME_SLICES *)
Definition TIME_SLICES : list Z := (fun i => let x := Z.of_nat i + 1 in x * x) <$> seq 0 NUM_QUEUES.

(* scheduler/mlfq.rs:22-28 MlfqScheduler *)
Record MlfqScheduler := mkSched {
  queues : list (list Z);
  current : option Z;
  ticks_remaining : Z;
  total_ticks : Z;
  needs_reschedule : bool
}.

(* scheduler/mlfq.rs:31-39 new *)
Definition mlfq_new : MlfqScheduler := mkSched (replicate NUM_QUEUES []) None 1 0 false.

(** ** Operations of the scheduler *)

(* scheduler/mlfq.rs:54-63 set_current *)
Definition set_current (ts : tasks) (s : MlfqScheduler) (l : Z) : option (tasks * MlfqScheduler) :=
  t ← ts !! l;
  let ts := <[l := with_state t Running]> ts in
  slice ← TIME_SLICES !! Z.to_nat (priority t);
  Some (ts, mkSched (queues s) (Some l) slice (total_ticks s) (needs_reschedule s)).

(* scheduler/mlfq.rs:65-71 remove_current *)
Definition mlfq_remove_current (s : MlfqScheduler) : MlfqScheduler :=
  match current s with
  | Some _ => mkSched (queues s) None 0 (total_ticks s) true
  | None => s
  end.

Definition push_back (qs : list (list Z)) (i : nat) (l : Z) : list (list Z) := alter (fun q => q ++ [l]) i qs.

(* scheduler/mlfq.rs:73-84 push *)
Definition push (ts : tasks) (s : MlfqScheduler) (l : Z) : option MlfqScheduler :=
  t ← ts !! l;
  let i := if priority t <? Z.of_nat NUM_QUEUES then Z.to_nat (priority t) else (NUM_QUEUES - 1)%nat in
  Some (mkSched (push_back (queues s) i l) (current s) (ticks_remaining s) (total_ticks s) (needs_reschedule s)).

(** [for task in q: task.priority = p]. *)
Fixpoint set_priorities (ts : tasks) (q : list Z) (p : Z) : option tasks :=
  match q with
  | [] => Some ts
  | l :: q => t ← ts !! l; set_priorities (<[l := with_priority t p]> ts) q p
  end.

(** The two loops of [boost_priorities], over the given indices. *)
Fixpoint boost_take (idx : list nat) (ts : tasks) (qs promoted : list (list Z)) : option (tasks * list (list Z) * list (list Z)) :=
  match idx with
  | [] => Some (ts, qs, promoted)
  | i :: idx =>
      q ← qs !! i;
      ts ← set_priorities ts q (Z.of_nat (i - 1));
      boost_take idx ts (<[i := []]> qs) (alter (fun p => p ++ q) (i - 1)%nat promoted)
  end.
Definition boost_append (idx : list nat) (qs promoted : list (list Z)) : list (list Z) :=
  foldl (fun qs i => alter (fun q => q ++ default [] (promoted !! i)) i qs) qs idx.

(* scheduler/mlfq.rs:176-195 boost_priorities *)
Definition boost_priorities (ts : tasks) (s : MlfqScheduler) : option (tasks * MlfqScheduler) :=
  '(ts, qs, promoted) ← boost_take (seq 1 (NUM_QUEUES - 1)) ts (queues s) (replicate NUM_QUEUES []);
  Some (ts, mkSched (boost_append (seq 0 (NUM_QUEUES - 1)) qs promoted) (current s) (ticks_remaining s) (total_ticks s) (needs_reschedule s)).

(* scheduler/mlfq.rs:86-102 tick *)
Definition mlfq_tick (ts : tasks) (s : MlfqScheduler) : option (tasks * MlfqScheduler) :=
  n ← uadd 32 (total_ticks s) 1;
  let s := mkSched (queues s) (current s) (ticks_remaining s) n (needs_reschedule s) in
  '(ts, s) ← (if total_ticks s mod BOOST_PERIOD =? 0 then boost_priorities ts s else Some (ts, s));
  match current s with
  | Some _ =>
      let r := if 0 <? ticks_remaining s then ticks_remaining s - 1 else ticks_remaining s in
      Some (ts, mkSched (queues s) (current s) r (total_ticks s) (if r =? 0 then true else needs_reschedule s))
  | None => Some (ts, s)
  end.

(* scheduler/mlfq.rs:110-112 force_reschedule *)
Definition force_reschedule (s : MlfqScheduler) : MlfqScheduler := mkSched (queues s) (current s) (ticks_remaining s) (total_ticks s) true.

(* scheduler/mlfq.rs:114-121 should_reschedule *)
Definition should_reschedule (ts : tasks) (s : MlfqScheduler) : option MlfqScheduler :=
  match current s with
  | Some l =>
      t ← ts !! l;
      Some (match state t with
            | Blocked | Zombie => mkSched (queues s) (current s) (ticks_remaining s) (total_ticks s) true
            | _ => s
            end)
  | None => Some s
  end.

(* scheduler/mlfq.rs:166-174 pick_next *)
Fixpoint pick_next (qs : list (list Z)) : option (Z * list (list Z)) :=
  match qs with
  | [] => None
  | [] :: qs => '(l, qs) ← pick_next qs; Some (l, [] :: qs)
  | (l :: q) :: qs => Some (l, q :: qs)
  end.

(** The addresses are 0 for a null pointer. *)
(* scheduler/mlfq.rs:123-164 prepare_switch *)
Definition prepare_switch (ts : tasks) (s : MlfqScheduler) : option (tasks * MlfqScheduler * option (Z * Z)) :=
  if negb (needs_reschedule s) then Some (ts, s, None)
  else
    match pick_next (queues s) with
    | None => Some (ts, mkSched (queues s) (current s) (ticks_remaining s) (total_ticks s) false, None)
    | Some (arc_in, qs) =>
        '(ts, qs, out_ptr) ←
          match current s with
          | Some arc_out =>
              t ← ts !! arc_out;
              p1 ← uadd 8 (priority t) 1;
              let p := Z.min p1 (Z.of_nat NUM_QUEUES - 1) in
              let ts := <[arc_out := with_run t Ready p (exit_code t)]> ts in
              Some (ts, push_back qs (Z.to_nat p) arc_out, arc_out)
          | None => Some (ts, qs, 0)
          end;
        t ← ts !! arc_in;
        let ts := <[arc_in := with_state t Running]> ts in
        slice ← TIME_SLICES !! Z.to_nat (priority t);
        Some (ts, mkSched qs (Some arc_in) slice (total_ticks s) false, Some (out_ptr, arc_in))
    end.

(** ** The kernel's task state *)

(** The task store, [TASK_TABLE], [SCHEDULER], [PREEMPT_COUNT], the ring-0 stack
    of the TSS and [TICKS]. *)
Record kernel := mkKernel {
  k_tasks : tasks;
  k_table : gmap Z Z;
  k_sched : MlfqScheduler;
  k_preempt : Z;
  k_rsp0 : Z;
  k_ticks : Z
}.

Definition set_tasks (k : kernel) (ts : tasks) : kernel := mkKernel ts (k_table k) (k_sched k) (k_preempt k) (k_rsp0 k) (k_ticks k).
Definition set_sched (k : kernel) (ts : tasks) (s : MlfqScheduler) : kernel := mkKernel ts (k_table k) s (k_preempt k) (k_rsp0 k) (k_ticks k).

(* process/table.rs:27-30 insert *)
Definition table_insert (k : kernel) (l : Z) : option kernel :=
  t ← k_tasks k !! l;
  Some (mkKernel (k_tasks k) (<[tid t := l]> (k_table k)) (k_sched k) (k_preempt k) (k_rsp0 k) (k_ticks k)).
(* process/table.rs:34-36 remove *)
Definition table_remove (k : kernel) (id : Z) : kernel :=
  mkKernel (k_tasks k) (delete id (k_table k)) (k_sched k) (k_preempt k) (k_rsp0 k) (k_ticks k).
(** The keys of a [BTreeMap], in order. *)
(* process/table.rs:37-39 all_tids *)
Definition all_tids (k : kernel) : list Z := merge_sort Z.le (elements (dom (k_table k))).

(* scheduler/mlfq.rs:49-51 current_tid *)
Definition current_tid (k : kernel) : option Z := l ← current (k_sched k); t ← k_tasks k !! l; Some (tid t).
(* scheduler/mlfq.rs:41-43 current_pid *)
Definition current_pid (k : kernel) : option Z := l ← current (k_sched k); t ← k_tasks k !! l; Some (pid t).
(** The outer option is the lookup of the store. *)
(* scheduler/mlfq.rs:45-47 current_ppid *)
Definition current_ppid (k : kernel) : option (option Z) :=
  match current (k_sched k) with
  | Some l => t ← k_tasks k !! l; Some (parent t)
  | None => Some None
  end.

(* scheduler/mod.rs:34-38 spawn *)
Definition spawn (k : kernel) (l : Z) (t : Task) : option kernel :=
  let k := set_tasks k (<[l := t]> (k_tasks k)) in
  k ← table_insert k l;
  s ← push (k_tasks k) (k_sched k) l;
  Some (set_sched k (k_tasks k) s).

(* scheduler/mod.rs:41-43 tick *)
Definition sched_tick (k : kernel) : option kernel := '(ts, s) ← mlfq_tick (k_tasks k) (k_sched k); Some (set_sched k ts s).

(* scheduler/mod.rs:46-58 schedule *)
Definition schedule (k : kernel) : option (kernel * option (Z * Z)) :=
  if 0 <? k_preempt k then Some (k, None)
  else
    s ← should_reschedule (k_tasks k) (k_sched k);
    '(ts, s, sw) ← prepare_switch (k_tasks k) s;
    let k := set_sched k ts s in
    match sw with
    | Some (_, inc) =>
        t ← ts !! inc;
        Some (mkKernel (k_tasks k) (k_table k) (k_sched k) (k_preempt k) (kernel_stack_top t) (k_ticks k), sw)
    | None => Some (k, None)
    end.

(* arch/idt.rs:80-85 timer_handler *)
Definition timer_handler (k : kernel) : option (kernel * option (Z * Z)) :=
  let k := mkKernel (k_tasks k) (k_table k) (k_sched k) (k_preempt k) (k_rsp0 k) (wrap 64 (k_ticks k + 1)) in
  k ← sched_tick k;
  schedule k.

(* scheduler/mod.rs:87-99 unblock_tid *)
Definition unblock_tid (k : kernel) (id : Z) : option kernel :=
  match k_table k !! id with
  | None => Some k
  | Some l =>
      t ← k_tasks k !! l;
      match state t with
      | Blocked =>
          let ts := <[l := with_state t Ready]> (k_tasks k) in
          s ← push ts (k_sched k) l;
          Some (set_sched k ts s)
      | _ => Some k
      end
  end.

(** The first task of the table with a given process identifier. *)
Definition has_pid (k : kernel) (p id : Z) : bool :=
  match k_table k !! id ≫= (fun l => k_tasks k !! l) with Some t => pid t =? p | None => false end.
Definition find_pid (k : kernel) (p : Z) : option Z := List.find (has_pid k p) (all_tids k).

(* scheduler/mod.rs:103-114 unblock_pid *)
Definition unblock_pid (k : kernel) (p : Z) : option kernel :=
  match find_pid k p with
  | Some id => unblock_tid k id
  | None => Some k
  end.

(** The two halves of [exit]: the task marks itself, and then wakes its parent and
    leaves.  Kernel tasks run with interrupts enabled, so the timer can come
    between them. *)
(* process/lifecycle.rs:8-19 exit *)
Definition exit_mark (k : kernel) (code : Z) : option (kernel * option Z) :=
  id ← current_tid k;
  match k_table k !! id with
  | Some l =>
      t ← k_tasks k !! l;
      Some (set_tasks k (<[l := with_run t Zombie (priority t) (Some code)]> (k_tasks k)), parent t)
  | None => Some (k, None)
  end.
(* process/lifecycle.rs:21-28 exit *)
Definition exit_leave (k : kernel) (parent_pid : option Z) : option (kernel * option (Z * Z)) :=
  k ← match parent_pid with Some p => unblock_pid k p | None => Some k end;
  schedule (set_sched k (k_tasks k) (mlfq_remove_current (k_sched k))).
(* process/lifecycle.rs:7-29 exit *)
Definition exit (k : kernel) (code : Z) : option (kernel * option (Z * Z)) :=
  '(k, parent_pid) ← exit_mark k code;
  exit_leave k parent_pid.

(** Taking the exit code of a zombie; [None] inside when it still runs. *)
Definition reap_zombie (k : kernel) (id l : Z) : option (option Z * kernel) :=
  t ← k_tasks k !! l;
  match state t with
  | Zombie => Some (Some (default (-1) (exit_code t)), table_remove k id)
  | _ => Some (None, k)
  end.

(** Marking the caller blocked and giving up the processor. *)
(* sync/resource.rs:120-125 mark_blocked *)
Definition mark_blocked (k : kernel) (id : Z) : option kernel :=
  match k_table k !! id with
  | Some l => t ← k_tasks k !! l; Some (set_tasks k (<[l := with_state t Blocked]> (k_tasks k)))
  | None => Some k
  end.

(** One iteration of the loop of [wait]: the exit code, or a switch to another
    task after which the loop starts again. *)
(* process/lifecycle.rs:33-67 wait *)
Definition wait_iter (k : kernel) (child_pid : Z) : option (option Z * kernel * option (Z * Z)) :=
  id ← current_tid k;
  '(result, k) ←
    match find_pid k child_pid with
    | None => Some (Some (-1), k)
    | Some ct => l ← k_table k !! ct; reap_zombie k ct l
    end;
  match result with
  | Some code => Some (Some code, k, None)
  | None => k ← mark_blocked k id; '(k, sw) ← schedule k; Some (None, k, sw)
  end.

(* process/lifecycle.rs:71-101 wait_tid *)
Definition wait_tid_iter (k : kernel) (target : Z) : option (option Z * kernel * option (Z * Z)) :=
  id ← current_tid k;
  '(result, k) ←
    match k_table k !! target with
    | None => Some (Some (-1), k)
    | Some l => reap_zombie k target l
    end;
  match result with
  | Some code => Some (Some code, k, None)
  | None => k ← mark_blocked k id; '(k, sw) ← schedule k; Some (None, k, sw)
  end.

(** The state of the statics at power-on. *)
Definition kernel_new : kernel := mkKernel ∅ ∅ mlfq_new 0 0 0.

(** The boot task becomes current and an idle task is queued at the lowest
    level.  [l0], [l1] are the addresses of the two tasks, [base0], [base1] of
    their stacks; [k] is what the interrupts since power-on have left. *)
(* scheduler/mod.rs:18-31 init *)
Definition sched_init (tramp idle_task base0 base1 cur_cr3 l0 l1 : Z) (k : kernel) (m : memory) (c : counters) : option (kernel * memory * counters) :=
  '(t0, m, c) ← task_new tramp base0 cur_cr3 m c idle_task 0 None;
  let k := set_tasks k (<[l0 := t0]> (k_tasks k)) in
  k ← table_insert k l0;
  '(ts, s) ← set_current (k_tasks k) (k_sched k) l0;
  let k := set_sched k ts s in
  '(t1, m, c) ← task_new tramp base1 cur_cr3 m c idle_task (Z.of_nat NUM_QUEUES - 1) None;
  k ← spawn k l1 t1;
  Some (k, m, c).

(** ** The scheduler's invariant *)

Definition runnable (s : MlfqScheduler) : list Z := option_list (current s) ++ concat (queues s).

(** No task is in two places, the level of a queued task is its priority, and
    the slices are those of the levels. *)
Record mlfq_ok (ts : tasks) (s : MlfqScheduler) : Prop := mkMlfqOk {
  ok_len : length (queues s) = NUM_QUEUES;
  ok_nodup : NoDup (runnable s);
  ok_queued : forall i q l, queues s !! i = Some q -> l ∈ q ->
    exists t, ts !! l = Some t /\ priority t = Z.of_nat i /\ state t = Ready;
  ok_current : forall l, current s = Some l -> exists t, ts !! l = Some t /\ 0 <= priority t < 8;
  ok_ticks : 0 <= ticks_remaining s <= 64
}.

(** *** Queues as lists of lists *)

Lemma concat_insert (qs : list (list Z)) i q q' :
  qs !! i = Some q -> q ++ concat (<[i := q']> qs) ≡ₚ q' ++ concat qs.
Proof.
  revert i. induction qs as [|r qs IH]; intros i Hi; [done|]. destruct i as [|i]; simpl in *.
  - injection Hi as ->. rewrite !(app_assoc _ _ (concat qs)). f_equiv. apply Permutation_app_comm.
  - rewrite (Permutation_app_swap_app q r), (Permutation_app_swap_app q' r). f_equiv. by apply IH.
Qed.

Lemma concat_pop (qs : list (list Z)) i l q : qs !! i = Some (l :: q) -> concat qs ≡ₚ l :: concat (<[i := q]> qs).
Proof.
  intros Hi. apply (Permutation_app_inv_l q). rewrite <- (concat_insert qs i (l :: q) q Hi). simpl. by rewrite Permutation_middle.
Qed.

Lemma concat_push_back (qs : list (list Z)) i l : (i < length qs)%nat -> concat (push_back qs i l) ≡ₚ l :: concat qs.
Proof.
  intros Hi. destruct (lookup_lt_is_Some_2 qs i Hi) as [q Hq]. unfold push_back.
  assert (alter (fun q => q ++ [l]) i qs = <[i := q ++ [l]]> qs) as ->.
  { apply list_eq. intros j. destruct (decide (j = i)) as [->|Hne].
    - by rewrite list_lookup_alter_eq, list_lookup_insert_eq, Hq.
    - by rewrite list_lookup_alter_ne, list_lookup_insert_ne. }
  apply (Permutation_app_inv_l q). rewrite concat_insert by done. by rewrite <- app_assoc.
Qed.

Lemma elem_of_concat (qs : list (list Z)) l : l ∈ concat qs <-> exists i q, qs !! i = Some q /\ l ∈ q.
Proof.
  rewrite list_elem_of_In, in_concat. setoid_rewrite <- list_elem_of_In. split.
  - intros (q & Hq & Hl). apply list_elem_of_lookup in Hq as [i Hi]. eauto.
  - intros (i & q & Hi & Hl). exists q. split; [|done]. by eapply list_elem_of_lookup_2.
Qed.

Lemma pick_next_Some qs l qs' :
  pick_next qs = Some (l, qs') ->
  exists i q, qs !! i = Some (l :: q) /\ qs' = <[i := q]> qs /\ forall j, (j < i)%nat -> qs !! j = Some [].
Proof.
  revert qs'. induction qs as [|[|x r] qs IH]; intros qs' E; simpl in E; [done| |].
  - destruct (pick_next qs) as [[l' qs1]|]; [|done]. injection E as -> <-. destruct (IH _ eq_refl) as (i & q & H1 & -> & H3).
    exists (S i), q. split_and!; [done|done|]. intros [|j] Hj; [done|]. apply H3. lia.
  - injection E as <- <-. exists 0%nat, r. split_and!; [done|done|lia].
Qed.

Lemma pick_next_None qs : pick_next qs = None -> concat qs = [].
Proof. induction qs as [|[|x r] qs IH]; simpl; [done| |done]. by destruct (pick_next qs) as [[? ?]|]; [|auto]. Qed.

Lemma push_back_lookup qs i l j q :
  push_back qs i l !! j = Some q -> exists q0, qs !! j = Some q0 /\ q = if decide (j = i) then q0 ++ [l] else q0.
Proof.
  unfold push_back. destruct (decide (j = i)) as [->|Hne].
  - rewrite list_lookup_alter_eq. destruct (qs !! i); [|done]. intros [= <-]. eauto.
  - rewrite list_lookup_alter_ne by done. eauto.
Qed.

Lemma slice_Some p : 0 <= p < 8 -> TIME_SLICES !! Z.to_nat p = Some ((p + 1) * (p + 1)).
Proof.
  intros Hp. assert (p = 0 \/ p = 1 \/ p = 2 \/ p = 3 \/ p = 4 \/ p = 5 \/ p = 6 \/ p = 7) as H by lia.
  destruct H as [->|[->|[->|[->|[->|[->|[->| ->]]]]]]]; reflexivity.
Qed.

(** *** Queueing *)

Lemma not_runnable_queued s l i q : l ∉ runnable s -> queues s !! i = Some q -> l ∉ q.
Proof. intros Hl Hi Hq. apply Hl. unfold runnable. apply elem_of_app. right. apply elem_of_concat. eauto. Qed.

Lemma mlfq_ok_insert ts s l t : mlfq_ok ts s -> l ∉ runnable s -> mlfq_ok (<[l := t]> ts) s.
Proof.
  intros [H1 H2 H3 H4 H5] Hl. split; [done|done| | |done].
  - intros i q x Hi Hx. rewrite lookup_insert_ne; [eauto|]. intros ->. by eapply not_runnable_queued.
  - intros x Hx. rewrite lookup_insert_ne; [eauto|]. intros ->. apply Hl. unfold runnable. rewrite Hx. simpl. left.
Qed.

Lemma push_ok ts s l t :
  mlfq_ok ts s -> ts !! l = Some t -> 0 <= priority t < 8 -> state t = Ready -> l ∉ runnable s ->
  exists s', push ts s l = Some s' /\ mlfq_ok ts s' /\ runnable s' ≡ₚ l :: runnable s /\ current s' = current s /\
    s' = mkSched (push_back (queues s) (Z.to_nat (priority t)) l) (current s) (ticks_remaining s) (total_ticks s) (needs_reschedule s).
Proof.
  intros Hok Ht Hp Hst Hl. pose proof Hok as [H1 H2 H3 H4 H5]. unfold push. rewrite Ht. cbn [mbind option_bind].
  rewrite (proj2 (Z.ltb_lt (priority t) (Z.of_nat NUM_QUEUES))) by (unfold NUM_QUEUES; lia).
  assert (Hr : option_list (current s) ++ concat (push_back (queues s) (Z.to_nat (priority t)) l) ≡ₚ l :: runnable s).
  { rewrite concat_push_back by (rewrite H1; unfold NUM_QUEUES; lia). unfold runnable. by rewrite Permutation_middle. }
  eexists. split; [reflexivity|]. split; [|by repeat split]. split; unfold runnable; cbn [queues current ticks_remaining]; [| | |done|done].
  - unfold push_back. by rewrite length_alter.
  - rewrite Hr. by apply NoDup_cons.
  - intros i q x Hi Hx. apply push_back_lookup in Hi as (q0 & Hi & ->). destruct (decide (i = _)) as [->|]; [|eauto].
    apply elem_of_app in Hx as [Hx|Hx]; [eauto|]. apply list_elem_of_singleton in Hx as ->. exists t. split_and!; [done|lia|done].
Qed.

(** *** Priority boost *)

Lemma set_priorities_spec ts q p :
  (forall l, l ∈ q -> is_Some (ts !! l)) ->
  exists ts', set_priorities ts q p = Some ts' /\
    forall l, ts' !! l = if decide (l ∈ q) then (fun t => with_priority t p) <$> ts !! l else ts !! l.
Proof.
  revert ts. induction q as [|x q IH]; intros ts Hq; cbn [set_priorities].
  - exists ts. split; [done|]. intros l. by rewrite decide_False by apply not_elem_of_nil.
  - destruct (Hq x) as [t Ht]; [left|]. rewrite Ht. simpl. destruct (IH (<[x := with_priority t p]> ts)) as (ts' & E & Hts).
    { intros l Hl. destruct (decide (l = x)) as [->|]; [rewrite lookup_insert_eq; eauto|]. rewrite lookup_insert_ne by done. apply Hq. by right. }
    exists ts'. split; [done|]. intros l. rewrite Hts. destruct (decide (l = x)) as [->|Hne].
    + rewrite lookup_insert_eq, Ht. destruct (decide (x ∈ x :: q)) as [_|Hn]; [|exfalso; apply Hn; left]. by destruct (decide (x ∈ q)).
    + rewrite lookup_insert_ne by done. destruct (decide (l ∈ q)) as [Hl|Hl].
      * by rewrite decide_True by (right; done).
      * rewrite decide_False; [done|]. rewrite elem_of_cons. tauto.
Qed.

(** What the boost does to the queues. *)
Fixpoint boost_queues (idx : list nat) (qs promoted : list (list Z)) : list (list Z) * list (list Z) :=
  match idx with
  | [] => (qs, promoted)
  | i :: idx => boost_queues idx (<[i := []]> qs) (alter (fun p => p ++ default [] (qs !! i)) (i - 1)%nat promoted)
  end.

(** And to the tasks: the ones queued at the given levels get the level above. *)
Lemma boost_take_spec idx ts qs promoted :
  NoDup idx -> NoDup (concat qs) -> (forall i, i ∈ idx -> (i < length qs)%nat) ->
  (forall i q l, i ∈ idx -> qs !! i = Some q -> l ∈ q -> is_Some (ts !! l)) ->
  exists ts', boost_take idx ts qs promoted = Some (ts', (boost_queues idx qs promoted).1, (boost_queues idx qs promoted).2) /\
    (forall l, (forall i q, i ∈ idx -> qs !! i = Some q -> l ∉ q) -> ts' !! l = ts !! l) /\
    (forall i q l t, i ∈ idx -> qs !! i = Some q -> l ∈ q -> ts !! l = Some t -> ts' !! l = Some (with_priority t (Z.of_nat (i - 1)))).
Proof.
  revert ts qs promoted. induction idx as [|i idx IH]; intros ts qs pr Hnd Hqs Hlen Hts.
  { exists ts. split_and!; [done|done|]. intros i q l t Hi. by apply not_elem_of_nil in Hi. }
  apply NoDup_cons in Hnd as [Hi Hnd]. destruct (lookup_lt_is_Some_2 qs i) as [q Hq]; [apply Hlen; left|]. simpl. rewrite Hq. simpl.
  destruct (set_priorities_spec ts q (Z.of_nat (i - 1))) as (ts1 & -> & H1). { intros l Hl. eapply Hts; [left|done|done]. } simpl.
  assert (Hlk : forall j, j ∈ idx -> <[i := []]> qs !! j = qs !! j) by (intros j Hj; apply list_lookup_insert_ne; congruence).
  assert (Hdis : forall j q' l, j ∈ idx -> qs !! j = Some q' -> l ∈ q -> l ∈ q' -> False).
  { intros j q' l Hj Hq' Hl Hl'. assert (Hij : j <> i) by congruence. pose proof (concat_insert qs i q [] Hq) as Hp. simpl in Hp. rewrite <- Hp in Hqs.
    apply NoDup_app in Hqs as (_ & Hd & _). apply (Hd l Hl). apply elem_of_concat. exists j, q'. by rewrite Hlk. }
  destruct (IH ts1 (<[i := []]> qs) (alter (fun p => p ++ q) (i - 1)%nat pr)) as (ts' & E & Hsame & Hup); [done| | | |].
  - pose proof (concat_insert qs i q [] Hq) as Hp. simpl in Hp. rewrite <- Hp in Hqs. by apply NoDup_app in Hqs as (_ & _ & Hqs).
  - intros j Hj. rewrite length_insert. apply Hlen. by right.
  - intros j q' l Hj Hq' Hl. rewrite Hlk in Hq' by done. rewrite H1. destruct (Hts j q' l) as [t Ht]; [by right|done|done|]. rewrite Ht.
    destruct (decide _); eauto.
  - exists ts'. split_and!; [done| |].
    + intros l Hl. rewrite Hsame, H1, decide_False; [done| |].
      * apply (Hl i); [left|done].
      * intros j q' Hj Hq'. rewrite Hlk in Hq' by done. apply (Hl j); [by right|done].
    + intros j q' l t Hj Hq' Hl Ht. apply elem_of_cons in Hj as [->|Hj].
      * rewrite Hq in Hq'. injection Hq' as <-. rewrite Hsame, H1, decide_True, Ht; [done|done|].
        intros j' q' Hj' Hq'. rewrite Hlk in Hq' by done. intros Hl'. by eapply Hdis.
      * apply (Hup j q'); [done|by rewrite Hlk|done|]. rewrite H1, decide_False; [done|]. intros Hl'. by eapply Hdis.
Qed.

(** Every level moves up by one; the second joins the first. *)
Definition boosted (qs : list (list Z)) : list (list Z) :=
  match qs with
  | q0 :: q1 :: qs => (q0 ++ q1) :: qs ++ [[]]
  | qs => qs
  end.

Lemma boost_queues_eq qs :
  length qs = NUM_QUEUES ->
  let '(a, b) := boost_queues (seq 1 (NUM_QUEUES - 1)) qs (replicate NUM_QUEUES []) in boost_append (seq 0 (NUM_QUEUES - 1)) a b = boosted qs.
Proof.
  unfold NUM_QUEUES. intros H. do 8 (destruct qs as [|? qs]; [discriminate|]). destruct qs; [|discriminate].
  cbn. by rewrite ?app_nil_r.
Qed.

Lemma concat_boosted qs : concat (boosted qs) = concat qs.
Proof. destruct qs as [|q0 [|q1 qs]]; [done|done|]. simpl. rewrite concat_app. simpl. by rewrite app_nil_r, app_assoc. Qed.

Lemma boosted_lookup_S qs i q : length qs = NUM_QUEUES -> boosted qs !! S i = Some q -> qs !! S (S i) = Some q \/ q = [].
Proof.
  intros H. destruct qs as [|q0 [|q1 qs]]; [discriminate|discriminate|]. simpl. intros Hi. apply lookup_app_Some in Hi as [Hi|[_ Hi]]; [by left|].
  right. by apply list_lookup_singleton_Some in Hi as [_ <-].
Qed.

Lemma boost_ok ts s :
  mlfq_ok ts s ->
  exists ts', boost_priorities ts s = Some (ts', mkSched (boosted (queues s)) (current s) (ticks_remaining s) (total_ticks s) (needs_reschedule s)) /\
    mlfq_ok ts' (mkSched (boosted (queues s)) (current s) (ticks_remaining s) (total_ticks s) (needs_reschedule s)) /\
    (forall l, l ∉ concat (queues s) -> ts' !! l = ts !! l) /\
    (forall l t, ts !! l = Some t -> exists p, ts' !! l = Some (with_priority t p)).
Proof.
  intros [H1 H2 H3 H4 H5]. unfold boost_priorities. pose proof H2 as Hnd. unfold runnable in Hnd. apply NoDup_app in Hnd as (_ & Hcur & Hnd).
  assert (Hidx : forall i, i ∈ seq 1 (NUM_QUEUES - 1) -> (1 <= i < length (queues s))%nat) by (intros i Hi; apply elem_of_seq in Hi; rewrite H1; unfold NUM_QUEUES in *; lia).
  destruct (boost_take_spec (seq 1 (NUM_QUEUES - 1)) ts (queues s) (replicate NUM_QUEUES [])) as (ts' & E & Hsame & Hup);
    [apply NoDup_seq|done|intros i Hi; apply Hidx in Hi; lia|intros i q l _ Hq Hl; destruct (H3 i q l Hq Hl) as (t & -> & _); eauto|].
  rewrite E. cbn [mbind option_bind]. pose proof (boost_queues_eq (queues s) H1) as Eq. destruct (boost_queues _ _ _) as [a b]. cbn [fst snd]. rewrite Eq. clear E Eq.
  assert (Hlow : forall l, l ∉ concat (queues s) -> ts' !! l = ts !! l).
  { intros l Hl. apply Hsame. intros i q _ Hq Hx. apply Hl. apply elem_of_concat. eauto. }
  assert (Hdis : forall i j q q' l, queues s !! i = Some q -> queues s !! j = Some q' -> l ∈ q -> l ∈ q' -> i = j).
  { intros i j q q' l Hi Hj Hl Hl'. destruct (H3 i q l Hi Hl) as (t & Ht & Hp & _). destruct (H3 j q' l Hj Hl') as (t' & Ht' & Hp' & _). rewrite Ht in Ht'. injection Ht' as <-. lia. }
  assert (Hq0 : forall q l, queues s !! 0%nat = Some q -> l ∈ q -> ts' !! l = ts !! l).
  { intros q l Hq Hl. apply Hsame. intros i q' Hi Hq' Hl'. pose proof (Hdis 0%nat i q q' l Hq Hq' Hl Hl'). apply Hidx in Hi. lia. }
  assert (Hqs : forall i q l, queues s !! S i = Some q -> l ∈ q -> exists t, ts' !! l = Some t /\ priority t = Z.of_nat i /\ state t = Ready).
  { intros i q l Hq Hl. destruct (H3 _ _ _ Hq Hl) as (t & Ht & _ & Hs). pose proof (lookup_lt_Some _ _ _ Hq).
    exists (with_priority t (Z.of_nat i)). split; [|done]. replace i with (S i - 1)%nat by lia. apply (Hup (S i) q); [|done|done|done]. apply elem_of_seq. rewrite H1 in *. unfold NUM_QUEUES in *. lia. }
  exists ts'. split; [done|]. split; [split; unfold runnable; cbn [queues current ticks_remaining]|split]; [| | | |done|done|].
  - destruct (queues s) as [|q0 [|q1 qs]]; [done|done|]. simpl in *. rewrite length_app. simpl. unfold NUM_QUEUES in *. lia.
  - by rewrite concat_boosted.
  - intros [|i] q l Hi Hl.
    + destruct (queues s) as [|q0 [|q1 qs]] eqn:Eqs; [discriminate|discriminate|]. simpl in Hi. injection Hi as <-. apply elem_of_app in Hl as [Hl|Hl].
      * destruct (H3 0%nat q0 l eq_refl Hl) as (t & Ht & Hp & Hs). exists t. by rewrite (Hq0 q0 l).
      * by apply (Hqs 0%nat q1 l).
    + apply boosted_lookup_S in Hi as [Hi| ->]; [|by apply not_elem_of_nil in Hl|done]. by apply (Hqs (S i) q l).
  - intros l Hl. rewrite Hlow; [by apply H4|]. apply Hcur. rewrite Hl. simpl. left.
  - intros l t Ht. destruct (decide (l ∈ concat (queues s))) as [Hl|Hl].
    + apply elem_of_concat in Hl as ([|i] & q & Hq & Hl).
      * exists (priority t). rewrite (Hq0 q l), Ht by done. by destruct t.
      * pose proof (lookup_lt_Some _ _ _ Hq). exists (Z.of_nat (S i - 1)). apply (Hup (S i) q); [apply elem_of_seq; rewrite H1 in *; unfold NUM_QUEUES in *; lia|done..].
    + exists (priority t). rewrite Hlow, Ht by done. by destruct t.
Qed.

(** *** Timer ticks *)

Lemma tick_ok ts s c :
  mlfq_ok ts s -> current s = Some c -> 0 <= total_ticks s -> total_ticks s + 1 < 2 ^ 32 ->
  exists ts' s', mlfq_tick ts s = Some (ts', s') /\ mlfq_ok ts' s' /\
    queues s' = (if (total_ticks s + 1) mod BOOST_PERIOD =? 0 then boosted (queues s) else queues s) /\
    current s' = Some c /\ ticks_remaining s' = Z.max 0 (ticks_remaining s - 1) /\ total_ticks s' = total_ticks s + 1 /\
    needs_reschedule s' = (ticks_remaining s <=? 1) || needs_reschedule s /\
    (forall l, l ∉ concat (queues s) -> ts' !! l = ts !! l) /\
    (forall l t, ts !! l = Some t -> exists p, ts' !! l = Some (with_priority t p)) /\ runnable s' ≡ₚ runnable s.
Proof.
  intros Hok Hc Hn0 Hn. unfold mlfq_tick, uadd. rewrite uchk_fits by (unfold fits; lia). cbn [mbind option_bind total_ticks].
  set (s1 := mkSched (queues s) (current s) (ticks_remaining s) (total_ticks s + 1) (needs_reschedule s)).
  assert (Hok1 : mlfq_ok ts s1) by (by destruct Hok).
  assert (exists ts1 s2, (if total_ticks s1 mod BOOST_PERIOD =? 0 then boost_priorities ts s1 else Some (ts, s1)) = Some (ts1, s2) /\
    s2 = mkSched (if (total_ticks s + 1) mod BOOST_PERIOD =? 0 then boosted (queues s) else queues s) (current s) (ticks_remaining s) (total_ticks s + 1) (needs_reschedule s) /\ mlfq_ok ts1 s2 /\
    (forall l, l ∉ concat (queues s) -> ts1 !! l = ts !! l) /\ (forall l t, ts !! l = Some t -> exists p, ts1 !! l = Some (with_priority t p))) as (ts1 & s2 & E & -> & Hok2 & Hsame & Hp).
  { change (total_ticks s1) with (total_ticks s + 1). destruct ((total_ticks s + 1) mod BOOST_PERIOD =? 0).
    2: { exists ts, s1. split_and!; [done|done|done|done|]. intros l t Ht. exists (priority t). rewrite Ht. by destruct t. }
    destruct (boost_ok ts s1 Hok1) as (ts1 & E & H1 & H2 & H3). eexists _, _. split_and!; [exact E|done|done|done|done]. }
  cbn [total_ticks s1] in E. change (total_ticks s1) with (total_ticks s + 1) in E. rewrite E. cbn [mbind option_bind current queues ticks_remaining total_ticks needs_reschedule]. rewrite Hc.
  pose proof (ok_ticks _ _ Hok) as Ht. eexists ts1, _. split; [reflexivity|]. cbn [queues current ticks_remaining total_ticks needs_reschedule].
  assert (Er : (if 0 <? ticks_remaining s then ticks_remaining s - 1 else ticks_remaining s) = Z.max 0 (ticks_remaining s - 1)) by (destruct (Z.ltb_spec 0 (ticks_remaining s)); lia).
  rewrite Er. split_and!; try done.
  - destruct Hok2 as [A1 A2 A3 A4 A5]. cbn in *. rewrite Hc in *. split; cbn; try done. lia.
  - destruct (Z.eqb_spec (Z.max 0 (ticks_remaining s - 1)) 0), (Z.leb_spec (ticks_remaining s) 1); try done; lia.
  - unfold runnable. cbn. rewrite Hc. destruct (_ =? 0); [|done]. by rewrite concat_boosted.
Qed.

(** *** Switching *)

Lemma pop_ok qs i l q j r x : qs !! i = Some (l :: q) -> (<[i := q]> qs : list (list Z)) !! j = Some r -> x ∈ r -> exists r', qs !! j = Some r' /\ x ∈ r'.
Proof.
  intros Hi Hj Hx. destruct (decide (j = i)) as [->|Hne].
  - rewrite list_lookup_insert_eq in Hj by eauto using lookup_lt_Some. injection Hj as ->. exists (l :: r). split; [done|]. by right.
  - rewrite list_lookup_insert_ne in Hj by done. eauto.
Qed.

(** Switching from the running task to the first of the highest level. *)
Lemma switch_ok ts s c tc :
  mlfq_ok ts s -> current s = Some c -> ts !! c = Some tc -> needs_reschedule s = true -> concat (queues s) <> [] ->
  exists l i q tl, queues s !! i = Some (l :: q) /\ (forall j, (j < i)%nat -> queues s !! j = Some []) /\ ts !! l = Some tl /\ l <> c /\
    let p := Z.min (priority tc + 1) 7 in
    let ts' := <[l := with_state tl Running]> (<[c := with_run tc Ready p (exit_code tc)]> ts) in
    let s' := mkSched (push_back (<[i := q]> (queues s)) (Z.to_nat p) c) (Some l) ((Z.of_nat i + 1) * (Z.of_nat i + 1)) (total_ticks s) false in
    prepare_switch ts s = Some (ts', s', Some (c, l)) /\ mlfq_ok ts' s' /\ runnable s' ≡ₚ runnable s.
Proof.
  intros Hok Hc Htc Hn Hne. pose proof Hok as [H1 H2 H3 H4 H5].
  destruct (pick_next (queues s)) as [[l qs']|] eqn:E; [|by apply pick_next_None in E].
  destruct (pick_next_Some _ _ _ E) as (i & q & Hi & -> & Hj). destruct (H3 i (l :: q) l Hi ltac:(left)) as (tl & Htl & Hpl & Hsl).
  pose proof (lookup_lt_Some _ _ _ Hi) as Hlt. rewrite H1 in Hlt. unfold NUM_QUEUES in Hlt.
  destruct (H4 c Hc) as (? & Htc' & Hpc). rewrite Htc in Htc'. injection Htc' as <-.
  assert (Hnd : NoDup (c :: l :: concat (<[i := q]> (queues s)))).
  { rewrite <- (concat_pop (queues s) i l q Hi). unfold runnable in H2. by rewrite Hc in H2. }
  apply NoDup_cons in Hnd as [Hcl Hnd]. assert (Hlc : l <> c) by (intros ->; apply Hcl; left).
  exists l, i, q, tl. do 4 (split; [done|]). intros p ts' s'. unfold prepare_switch. rewrite Hn, E, Hc, Htc. cbn [negb]. cbn [mbind option_bind].
  unfold uadd. rewrite uchk_fits by (unfold fits; lia). cbn [mbind option_bind]. change (Z.of_nat NUM_QUEUES - 1) with 7. fold p.
  rewrite lookup_insert_ne, Htl by done. cbn [mbind option_bind]. rewrite Hpl, slice_Some by lia. cbn [mbind option_bind].
  assert (Hpb : runnable s' ≡ₚ runnable s).
  { unfold s', runnable. cbn [current queues]. rewrite concat_push_back by (rewrite length_insert, H1; unfold NUM_QUEUES, p; lia).
    rewrite Hc. simpl. rewrite (concat_pop (queues s) i l q Hi). apply perm_swap. }
  split; [done|]. split; [|done]. split; cbn [queues current ticks_remaining s'].
  - unfold push_back. by rewrite length_alter, length_insert.
  - by rewrite Hpb.
  - intros j r x Hjr Hx. apply push_back_lookup in Hjr as (r0 & Hr0 & ->).
    assert (Hx' : x ∈ r0 \/ (x = c /\ j = Z.to_nat p)). { destruct (decide (j = Z.to_nat p)); [|by left]. apply elem_of_app in Hx as [Hx|Hx]; [by left|]. right. by apply list_elem_of_singleton in Hx. }
    destruct Hx' as [Hx'|[-> ->]].
    + assert (Hin : x ∈ concat (<[i := q]> (queues s))) by (apply elem_of_concat; eauto). unfold ts'.
      rewrite !lookup_insert_ne.
      * destruct (pop_ok _ _ _ _ _ _ _ Hi Hr0 Hx') as (r' & Hr' & Hxr). by apply (H3 j r').
      * intros ->. apply Hcl. by right.
      * intros ->. by apply NoDup_cons in Hnd as [].
    + unfold ts'. rewrite lookup_insert_ne, lookup_insert_eq by done. eexists. split; [done|]. cbn. split; [unfold p; lia|done].
  - intros x [= <-]. unfold ts'. rewrite lookup_insert_eq. eexists. split; [done|]. cbn. lia.
  - nia.
Qed.

(** The same when there is no running task. *)
Lemma switch_in_ok ts s :
  mlfq_ok ts s -> current s = None -> needs_reschedule s = true -> concat (queues s) <> [] ->
  exists l i q tl, queues s !! i = Some (l :: q) /\ ts !! l = Some tl /\
    let ts' := <[l := with_state tl Running]> ts in
    let s' := mkSched (<[i := q]> (queues s)) (Some l) ((Z.of_nat i + 1) * (Z.of_nat i + 1)) (total_ticks s) false in
    prepare_switch ts s = Some (ts', s', Some (0, l)) /\ mlfq_ok ts' s' /\ runnable s' ≡ₚ runnable s.
Proof.
  intros Hok Hc Hn Hne. pose proof Hok as [H1 H2 H3 H4 H5].
  destruct (pick_next (queues s)) as [[l qs']|] eqn:E; [|by apply pick_next_None in E].
  destruct (pick_next_Some _ _ _ E) as (i & q & Hi & -> & Hj). destruct (H3 i (l :: q) l Hi ltac:(left)) as (tl & Htl & Hpl & Hsl).
  pose proof (lookup_lt_Some _ _ _ Hi) as Hlt. rewrite H1 in Hlt. unfold NUM_QUEUES in Hlt.
  exists l, i, q, tl. do 2 (split; [done|]). intros ts' s'. unfold prepare_switch. rewrite Hn, E, Hc. cbn [negb]. cbn [mbind option_bind]. rewrite Htl. cbn [mbind option_bind].
  rewrite Hpl, slice_Some by lia. cbn [mbind option_bind].
  assert (Hpb : runnable s' ≡ₚ runnable s). { unfold s', runnable. rewrite Hc. cbn. by rewrite (concat_pop (queues s) i l q Hi). }
  assert (Hnd : NoDup (l :: concat (<[i := q]> (queues s)))). { rewrite <- (concat_pop (queues s) i l q Hi). unfold runnable in H2. by rewrite Hc in H2. }
  apply NoDup_cons in Hnd as [Hl Hnd]. split; [done|]. split; [|done]. split; cbn [queues current ticks_remaining s'].
  - by rewrite length_insert.
  - by rewrite Hpb.
  - intros j r x Hjr Hx. unfold ts'. rewrite lookup_insert_ne.
    + destruct (pop_ok _ _ _ _ _ _ _ Hi Hjr Hx) as (r' & Hr' & Hxr). by apply (H3 j r').
    + intros ->. apply Hl. apply elem_of_concat. eauto.
  - intros x [= <-]. unfold ts'. rewrite lookup_insert_eq. eexists. split; [done|]. cbn. lia.
  - nia.
Qed.

(** ** The kernel's invariant *)

(** The task table against the store, for a given list of runnable tasks:
    entries are filed under their identifier, every runnable task is
    registered, and a task that is not runnable is blocked or dead. *)
Record registry_ok (ts : tasks) (tb : gmap Z Z) (run : list Z) : Prop := mkRegistryOk {
  rg_table : forall id l, tb !! id = Some l -> exists t, ts !! l = Some t /\ tid t = id;
  rg_run : forall l t, ts !! l = Some t -> l ∈ run -> tb !! tid t = Some l;
  rg_parked : forall l t, ts !! l = Some t -> 0 <= priority t < 8 /\ (l ∉ run -> state t = Blocked \/ state t = Zombie)
}.

(** The state in which the running task may just have stopped being runnable. *)
Record kernel_pre (idle : Z) (k : kernel) : Prop := mkKernelPre {
  kp_sched : mlfq_ok (k_tasks k) (k_sched k);
  kp_current : match current (k_sched k) with
               | Some c => exists t, k_tasks k !! c = Some t /\ (state t = Running \/ c <> idle /\ (state t = Blocked \/ state t = Zombie))
               | None => needs_reschedule (k_sched k) = true
               end;
  kp_idle : idle ∈ runnable (k_sched k);
  kp_registry : registry_ok (k_tasks k) (k_table k) (runnable (k_sched k));
  kp_preempt : k_preempt k = 0;
  kp_total : 0 <= total_ticks (k_sched k)
}.

Definition running (k : kernel) : Prop :=
  exists c t, current (k_sched k) = Some c /\ k_tasks k !! c = Some t /\ state t = Running.

Definition kernel_ok (idle : Z) (k : kernel) : Prop := kernel_pre idle k /\ running k.

Lemma registry_update ts tb run run' l t t' :
  registry_ok ts tb run -> ts !! l = Some t -> tid t' = tid t -> 0 <= priority t' < 8 ->
  (l ∈ run' -> tb !! tid t = Some l) -> (l ∉ run' -> state t' = Blocked \/ state t' = Zombie) ->
  (forall x, x <> l -> x ∈ run' <-> x ∈ run) -> registry_ok (<[l := t']> ts) tb run'.
Proof.
  intros [H1 H2 H3] Hl Htid Hp Hin Hout Hrun. split.
  - intros id x Hx. destruct (H1 id x Hx) as (u & Hu & <-). destruct (decide (x = l)) as [->|Hne].
    + rewrite lookup_insert_eq. rewrite Hl in Hu. injection Hu as ->. eauto.
    + rewrite lookup_insert_ne by done. eauto.
  - intros x u Hu Hx. destruct (decide (x = l)) as [->|Hne].
    + rewrite lookup_insert_eq in Hu. injection Hu as <-. rewrite Htid. auto.
    + rewrite lookup_insert_ne in Hu by done. apply H2; [done|]. by apply Hrun.
  - intros x u Hu. destruct (decide (x = l)) as [->|Hne].
    + rewrite lookup_insert_eq in Hu. injection Hu as <-. auto.
    + rewrite lookup_insert_ne in Hu by done. destruct (H3 x u Hu) as [Hp' Hs]. split; [done|]. intros Hx. apply Hs. by rewrite <- Hrun.
Qed.

Lemma registry_perm ts tb run run' : run' ≡ₚ run -> registry_ok ts tb run -> registry_ok ts tb run'.
Proof. intros Hp [H1 H2 H3]. split; [done|..]; setoid_rewrite Hp; done. Qed.

(** Updating a task that stays where it is. *)
Lemma registry_touch ts tb run l t t' :
  registry_ok ts tb run -> ts !! l = Some t -> l ∈ run -> tid t' = tid t -> 0 <= priority t' < 8 -> registry_ok (<[l := t']> ts) tb run.
Proof. intros H Hl Hr Ht Hp. eapply registry_update; try done. - intros _. by apply (rg_run _ _ _ H). Qed.

Lemma current_runnable s c : current s = Some c -> c ∈ runnable s.
Proof. intros Hc. unfold runnable. rewrite Hc. simpl. left. Qed.

Lemma queued_runnable s i q l : queues s !! i = Some q -> l ∈ q -> l ∈ runnable s.
Proof. intros Hi Hl. unfold runnable. apply elem_of_app. right. apply elem_of_concat. eauto. Qed.

Lemma idle_queued s idle : idle ∈ runnable s -> current s <> Some idle -> concat (queues s) <> [].
Proof.
  unfold runnable. intros Hi Hc He. rewrite He, app_nil_r in Hi. destruct (current s) as [c|]; simpl in Hi.
  - apply list_elem_of_singleton in Hi. congruence.
  - by apply not_elem_of_nil in Hi.
Qed.

(** Setting the reschedule flag changes nothing else. *)
Lemma mlfq_ok_needs ts s b : mlfq_ok ts s -> mlfq_ok ts (mkSched (queues s) (current s) (ticks_remaining s) (total_ticks s) b).
Proof. by intros []. Qed.

Lemma prepare_pre idle k c t :
  kernel_pre idle k -> current (k_sched k) = Some c -> k_tasks k !! c = Some t -> needs_reschedule (k_sched k) = true ->
  concat (queues (k_sched k)) <> [] ->
  exists ts s l, prepare_switch (k_tasks k) (k_sched k) = Some (ts, s, Some (c, l)) /\ is_Some (ts !! l) /\
    forall r0 tk, kernel_ok idle (mkKernel ts (k_table k) s (k_preempt k) r0 tk).
Proof.
  intros [H1 H2 H3 H4 H5 H6] Hc Ht Hn Hne. destruct (switch_ok _ _ _ _ H1 Hc Ht Hn Hne) as (l & i & q & tl & Hi & _ & Htl & Hlc & E & Hok & Hp).
  destruct (ok_current _ _ H1 c Hc) as (t' & Et' & Hpc). rewrite Ht in Et'. injection Et' as <-.
  destruct (ok_queued _ _ H1 i (l :: q) l Hi ltac:(left)) as (tl' & Etl' & Hpl & _). rewrite Htl in Etl'. injection Etl' as <-.
  pose proof (lookup_lt_Some _ _ _ Hi) as Hlt. rewrite (ok_len _ _ H1) in Hlt. unfold NUM_QUEUES in Hlt.
  eexists _, _, l. split; [exact E|]. split; [rewrite lookup_insert_eq; eauto|]. intros r0 tk. split.
  - split; cbn [k_tasks k_table k_sched k_preempt]; [exact Hok| |by rewrite Hp| |done|done].
    + cbn [current]. rewrite lookup_insert_eq. eexists. split; [done|by left].
    + apply (registry_perm _ _ _ _ Hp). eapply registry_touch with (t := tl); [|by rewrite lookup_insert_ne|eapply queued_runnable; [done|left]|done|cbn; lia].
      eapply registry_touch with (t := t); [done|done|by apply current_runnable|done|cbn; lia].
  - exists l. eexists. split; [done|]. cbn [k_tasks]. rewrite lookup_insert_eq. by split.
Qed.

Lemma prepare_pre_none idle k :
  kernel_pre idle k -> current (k_sched k) = None ->
  exists ts s l, prepare_switch (k_tasks k) (k_sched k) = Some (ts, s, Some (0, l)) /\ is_Some (ts !! l) /\
    forall r0 tk, kernel_ok idle (mkKernel ts (k_table k) s (k_preempt k) r0 tk).
Proof.
  intros [H1 H2 H3 H4 H5 H6] Hc. rewrite Hc in H2. assert (Hne : concat (queues (k_sched k)) <> []) by (apply (idle_queued _ idle); [done|by rewrite Hc]).
  destruct (switch_in_ok _ _ H1 Hc H2 Hne) as (l & i & q & tl & Hi & Htl & E & Hok & Hp).
  destruct (ok_queued _ _ H1 i (l :: q) l Hi ltac:(left)) as (tl' & Etl' & Hpl & _). rewrite Htl in Etl'. injection Etl' as <-.
  pose proof (lookup_lt_Some _ _ _ Hi) as Hlt. rewrite (ok_len _ _ H1) in Hlt. unfold NUM_QUEUES in Hlt.
  eexists _, _, l. split; [exact E|]. split; [rewrite lookup_insert_eq; eauto|]. intros r0 tk. split.
  - split; cbn [k_tasks k_table k_sched k_preempt]; [exact Hok| |by rewrite Hp| |done|done].
    + cbn [current]. rewrite lookup_insert_eq. eexists. split; [done|by left].
    + apply (registry_perm _ _ _ _ Hp). eapply registry_touch with (t := tl); [done|done|eapply queued_runnable; [done|left]|done|cbn; lia].
  - exists l. eexists. split; [done|]. cbn [k_tasks]. rewrite lookup_insert_eq. by split.
Qed.

(** [schedule] restores the invariant. *)
Lemma schedule_ok idle k : kernel_pre idle k -> exists k' sw, schedule k = Some (k', sw) /\ kernel_ok idle k'.
Proof.
  intros Hpre. pose proof Hpre as [H1 H2 H3 H4 H5 H6]. unfold schedule. rewrite H5. cbn [Z.ltb Z.compare]. unfold should_reschedule.
  destruct (current (k_sched k)) as [c|] eqn:Hc; cbn [mbind option_bind].
  2: { destruct (prepare_pre_none idle k Hpre Hc) as (ts & s & l & -> & [t Ht] & Hok). cbn. rewrite Ht. cbn. eauto. }
  destruct H2 as (t & Ht & Hst). rewrite Ht. cbn [mbind option_bind]. set (s1 := match state t with Blocked | Zombie => _ | _ => _ end).
  assert (Hs1 : exists b, s1 = mkSched (queues (k_sched k)) (current (k_sched k)) (ticks_remaining (k_sched k)) (total_ticks (k_sched k)) b /\ (state t <> Running -> b = true)).
  { exists (needs_reschedule s1). subst s1. destruct (k_sched k), Hst as [E|[_ [E|E]]]; rewrite E; split; cbn in *; congruence. }
  destruct Hs1 as (b & E1 & Hb). clearbody s1. subst s1. set (s1 := mkSched _ _ _ _ b). set (k1 := set_sched k (k_tasks k) s1).
  assert (Hpre1 : kernel_pre idle k1).
  { split; cbn [k1 set_sched k_tasks k_sched k_table k_preempt]; [by apply mlfq_ok_needs| |done|done|done|done]. cbn. rewrite Hc. eauto. }
  destruct b.
  - destruct (decide (concat (queues s1) = [])) as [He|Hne].
    + destruct Hst as [Hrun|[Hni _]].
      2: { exfalso. apply (idle_queued (k_sched k) idle); [done|congruence|done]. }
      unfold prepare_switch. cbn [needs_reschedule s1 negb]. destruct (pick_next (queues s1)) as [[l qs]|] eqn:Ep.
      { exfalso. apply pick_next_Some in Ep as (i & q & Hi & _). assert (l ∈ concat (queues s1)) as Hl by (apply elem_of_concat; eexists _, _; split; [done|left]). rewrite He in Hl. by apply not_elem_of_nil in Hl. }
      cbn. eexists _, _. split; [reflexivity|]. split; [|by exists c, t].
      split; cbn; [by apply mlfq_ok_needs| |done|done|done|done]. rewrite Hc. eauto.
    + destruct (prepare_pre idle k1 c t Hpre1) as (ts & s & l & E & [tl Htl] & Hok); [done|done|done|done|].
      change (prepare_switch (k_tasks k) s1 = Some (ts, s, Some (c, l))) in E. rewrite E. cbn. rewrite Htl. cbn. eexists _, _. split; [reflexivity|]. apply Hok.
  - unfold prepare_switch. cbn. eexists _, _. split; [reflexivity|]. split; [exact Hpre1|]. exists c, t.
    split_and!; [done|done|]. destruct (decide (state t = Running)) as [|Hn]; [done|]. by specialize (Hb Hn).
Qed.

(** *** Operations preserve it *)

Lemma registry_priorities ts ts' tb run :
  (forall l t, ts !! l = Some t -> exists p, ts' !! l = Some (with_priority t p)) ->
  (forall l t', ts' !! l = Some t' -> is_Some (ts !! l) /\ 0 <= priority t' < 8) ->
  registry_ok ts tb run -> registry_ok ts' tb run.
Proof.
  intros Hp Hd [H1 H2 H3].
  assert (Hback : forall l t', ts' !! l = Some t' -> exists t, ts !! l = Some t /\ tid t' = tid t /\ state t' = state t).
  { intros l t' Ht'. destruct (Hd l t' Ht') as [[t Ht] _]. destruct (Hp l t Ht) as [p E]. exists t. rewrite E in Ht'. by injection Ht' as <-. }
  split.
  - intros id l Hl. destruct (H1 id l Hl) as (t & Ht & <-). destruct (Hp l t Ht) as [p E]. eauto.
  - intros l t' Ht' Hl. destruct (Hback l t' Ht') as (t & Ht & -> & _). auto.
  - intros l t' Ht'. destruct (Hback l t' Ht') as (t & Ht & _ & ->). split; [by destruct (Hd l t' Ht')|]. by apply H3.
Qed.

Lemma sched_tick_pre idle k c :
  kernel_pre idle k -> current (k_sched k) = Some c -> total_ticks (k_sched k) + 1 < 2 ^ 32 ->
  exists k', sched_tick k = Some k' /\ kernel_pre idle k'.
Proof.
  intros [H1 H2 H3 H4 H5 H6] Hc Hn. rewrite Hc in H2. destruct H2 as (t & Ht & Hst). unfold sched_tick.
  destruct (tick_ok _ _ c H1 Hc H6 Hn) as (ts & s & -> & Hok & _ & Hc' & _ & Htot & _ & Hsame & Hp & Hrun). cbn [mbind option_bind].
  assert (Hcs : ts !! c = Some t).
  { rewrite Hsame; [done|]. pose proof (ok_nodup _ _ H1) as Hnd. unfold runnable in Hnd. rewrite Hc in Hnd. by apply NoDup_cons in Hnd as []. }
  eexists. split; [reflexivity|]. split; cbn [set_sched k_tasks k_sched k_table k_preempt]; [done| |by rewrite Hrun| |done|lia].
  - rewrite Hc'. eauto.
  - apply (registry_perm _ _ _ _ Hrun). eapply registry_priorities; [exact Hp| |exact H4]. intros l t' Ht'.
    destruct (decide (l ∈ concat (queues (k_sched k)))) as [Hl|Hl].
    + apply elem_of_concat in Hl as (i & q & Hi & Hl). destruct (ok_queued _ _ H1 i q l Hi Hl) as (u & Hu & _). split; [eauto|].
      assert (Hr : l ∈ runnable s) by (rewrite Hrun; by eapply queued_runnable). unfold runnable in Hr. rewrite Hc' in Hr. apply elem_of_app in Hr as [Hr|Hr].
      * apply list_elem_of_singleton in Hr as ->. destruct (ok_current _ _ Hok c Hc') as (u' & Hu' & ?). congruence.
      * apply elem_of_concat in Hr as (j & q' & Hj & Hl'). destruct (ok_queued _ _ Hok j q' l Hj Hl') as (u' & Hu' & Hpu & _). rewrite Ht' in Hu'. injection Hu' as <-.
        pose proof (lookup_lt_Some _ _ _ Hj) as Hlt. rewrite (ok_len _ _ Hok) in Hlt. unfold NUM_QUEUES in Hlt. lia.
    + rewrite Hsame in Ht' by done. split; [eauto|]. by apply (rg_parked _ _ _ H4 l t').
Qed.

(** A timer interrupt, also when it finds the running task marked as stopped. *)
Lemma timer_pre idle k c :
  kernel_pre idle k -> current (k_sched k) = Some c -> total_ticks (k_sched k) + 1 < 2 ^ 32 ->
  exists k' sw, timer_handler k = Some (k', sw) /\ kernel_ok idle k'.
Proof.
  intros Hpre Hc Hn. unfold timer_handler. set (k1 := mkKernel _ _ _ _ _ _).
  destruct (sched_tick_pre idle k1 c) as (k2 & -> & Hpre2); [by destruct Hpre; split|done|done|]. by apply schedule_ok.
Qed.

Lemma timer_ok idle k :
  kernel_ok idle k -> total_ticks (k_sched k) + 1 < 2 ^ 32 -> exists k' sw, timer_handler k = Some (k', sw) /\ kernel_ok idle k'.
Proof. intros [Hpre (c & t & Hc & _)]. by apply timer_pre with c. Qed.

Lemma spawn_ok idle k l t :
  kernel_ok idle k -> k_tasks k !! l = None -> k_table k !! tid t = None -> 0 <= priority t < 8 -> state t = Ready ->
  exists k', spawn k l t = Some k' /\ kernel_ok idle k'.
Proof.
  intros [[H1 H2 H3 H4 H5 H6] (c & tc & Hc & Htc & Hst)] Hl Htb Hp Hs. unfold spawn, table_insert. cbn [set_tasks k_tasks k_sched k_table].
  rewrite lookup_insert_eq. cbn [mbind option_bind k_tasks k_sched].
  assert (Hnr : l ∉ runnable (k_sched k)).
  { intros Hr. unfold runnable in Hr. apply elem_of_app in Hr as [Hr|Hr].
    - rewrite Hc in Hr. apply list_elem_of_singleton in Hr as ->. congruence.
    - apply elem_of_concat in Hr as (i & q & Hi & Hq). destruct (ok_queued _ _ H1 i q l Hi Hq) as (u & Hu & _). congruence. }
  destruct (push_ok (<[l := t]> (k_tasks k)) (k_sched k) l t) as (s & -> & Hok & Hrun & Hcur & Es); [by apply mlfq_ok_insert|apply lookup_insert_eq|done|done|done|].
  cbn [mbind option_bind]. eexists. split; [reflexivity|]. assert (Hcl : c <> l) by congruence. split.
  - split; cbn [set_sched k_tasks k_sched k_table k_preempt]; [done| |rewrite Hrun; by right| |done|by rewrite Es].
    + rewrite Es. cbn [current needs_reschedule]. rewrite Hc. exists tc. rewrite lookup_insert_ne by done. eauto.
    + apply (registry_perm _ _ _ _ Hrun). destruct H4 as [R1 R2 R3]. split.
      * intros id x Hx. destruct (decide (id = tid t)) as [->|Hne].
        { rewrite lookup_insert_eq in Hx. injection Hx as <-. rewrite lookup_insert_eq. eauto. }
        rewrite lookup_insert_ne in Hx by done. destruct (R1 id x Hx) as (u & Hu & ?). rewrite lookup_insert_ne by congruence. eauto.
      * intros x u Hu Hx. destruct (decide (x = l)) as [->|Hne].
        { rewrite lookup_insert_eq in Hu. injection Hu as <-. by rewrite lookup_insert_eq. }
        rewrite lookup_insert_ne in Hu by done. apply elem_of_cons in Hx as [?|Hx]; [done|]. pose proof (R2 x u Hu Hx). rewrite lookup_insert_ne by congruence. done.
      * intros x u Hu. destruct (decide (x = l)) as [->|Hne].
        { rewrite lookup_insert_eq in Hu. injection Hu as <-. split; [done|]. intros Hx. exfalso. apply Hx. left. }
        rewrite lookup_insert_ne in Hu by done. destruct (R3 x u Hu) as [? Hx]. split; [done|]. intros Hn. apply Hx. intros Hr. apply Hn. by right.
  - exists c, tc. cbn [set_sched k_tasks k_sched]. rewrite Es. cbn [current]. rewrite lookup_insert_ne by done. done.
Qed.

(** What [spawn] changes. *)
Lemma spawn_effect k l t k' :
  mlfq_ok (k_tasks k) (k_sched k) -> 0 <= priority t < 8 -> spawn k l t = Some k' ->
  k_tasks k' = <[l := t]> (k_tasks k) /\ k_table k' = <[tid t := l]> (k_table k) /\ k_preempt k' = k_preempt k /\
  current (k_sched k') = current (k_sched k) /\ total_ticks (k_sched k') = total_ticks (k_sched k) /\ runnable (k_sched k') ≡ₚ l :: runnable (k_sched k).
Proof.
  intros Hok Hp E. unfold spawn, table_insert in E. cbn [set_tasks k_tasks k_sched k_table] in E. rewrite lookup_insert_eq in E. cbn [mbind option_bind k_tasks k_sched] in E.
  unfold push in E. rewrite lookup_insert_eq in E. cbn [mbind option_bind] in E. rewrite (proj2 (Z.ltb_lt (priority t) (Z.of_nat NUM_QUEUES))) in E by (unfold NUM_QUEUES; lia).
  injection E as <-. split_and!; try done. unfold runnable. cbn [set_sched k_sched queues current].
  rewrite concat_push_back by (rewrite (ok_len _ _ Hok); unfold NUM_QUEUES; lia). by rewrite Permutation_middle.
Qed.

(** Waking a task, when the running task is not itself marked blocked. *)
Lemma unblock_ok idle k id :
  kernel_pre idle k -> (forall c t, current (k_sched k) = Some c -> k_tasks k !! c = Some t -> state t <> Blocked) ->
  exists k', unblock_tid k id = Some k' /\ kernel_pre idle k' /\ current (k_sched k') = current (k_sched k) /\
    (forall l t, k_tasks k !! l = Some t -> state t <> Blocked -> k_tasks k' !! l = Some t) /\ k_table k' = k_table k.
Proof.
  intros Hpre Hcb. pose proof Hpre as [H1 H2 H3 H4 H5 H6]. unfold unblock_tid. destruct (k_table k !! id) as [l|] eqn:El; [|by exists k].
  destruct (rg_table _ _ _ H4 id l El) as (t & Ht & <-). rewrite Ht. cbn [mbind option_bind].
  destruct (decide (state t = Blocked)) as [Hb|Hb]; [|exists k; by destruct (state t)]. rewrite Hb.
  assert (Hnr : l ∉ runnable (k_sched k)).
  { intros Hr. unfold runnable in Hr. apply elem_of_app in Hr as [Hr|Hr].
    - destruct (current (k_sched k)) as [c|] eqn:Hc; [|by apply not_elem_of_nil in Hr]. apply list_elem_of_singleton in Hr as ->. by apply (Hcb c t).
    - apply elem_of_concat in Hr as (i & q & Hi & Hq). destruct (ok_queued _ _ H1 i q l Hi Hq) as (u & Hu & _ & Hs). congruence. }
  destruct (rg_parked _ _ _ H4 l t Ht) as [Hp _].
  destruct (push_ok (<[l := with_state t Ready]> (k_tasks k)) (k_sched k) l (with_state t Ready)) as (s & -> & Hok & Hrun & Hcur & Es);
    [by apply mlfq_ok_insert|apply lookup_insert_eq|done|done|done|]. cbn [mbind option_bind]. eexists. split; [reflexivity|].
  cbn [set_sched k_tasks k_sched k_table k_preempt]. split; [|split_and!; [done| |done]].
  - split; cbn [set_sched k_tasks k_sched k_table k_preempt]; [done| |rewrite Hrun; by right| |done|by rewrite Es].
    + rewrite Es. cbn [current needs_reschedule]. destruct (current (k_sched k)) as [c|] eqn:Hc; [|done]. destruct H2 as (tc & Htc & Hst). exists tc.
      rewrite lookup_insert_ne; [done|]. intros ->. apply Hnr. by apply current_runnable.
    + eapply registry_update with (t := t) (run := runnable (k_sched k)); [done|done|done|done|done| |].
      * intros Hn. exfalso. apply Hn. rewrite Hrun. left.
      * intros x Hx. rewrite Hrun, elem_of_cons. split; [by intros [?|?]|by right].
  - intros x u Hu Hs. rewrite lookup_insert_ne; [done|]. intros ->. congruence.
Qed.

Lemma find_pid_Some k p id : find_pid k p = Some id -> exists l t, k_table k !! id = Some l /\ k_tasks k !! l = Some t /\ pid t = p.
Proof.
  unfold find_pid. intros H. apply find_some in H as [_ H]. unfold has_pid in H. destruct (k_table k !! id) as [l|]; [|done]. simpl in H.
  destruct (k_tasks k !! l) as [t|] eqn:Et; [|done]. exists l, t. split_and!; [done|done|lia].
Qed.

Lemma current_tid_ok idle k : kernel_ok idle k ->
  exists c t, current (k_sched k) = Some c /\ k_tasks k !! c = Some t /\ state t = Running /\ current_tid k = Some (tid t) /\ k_table k !! tid t = Some c /\ c ∈ runnable (k_sched k) /\ 0 <= priority t < 8.
Proof.
  intros [[H1 H2 H3 H4 H5 H6] (c & t & Hc & Ht & Hs)]. exists c, t. unfold current_tid. rewrite Hc. cbn [mbind option_bind]. rewrite Ht.
  pose proof (current_runnable _ _ Hc). split_and!; [done|done|done|done|by apply (rg_run _ _ _ H4)|done|..]; by apply (rg_parked _ _ _ H4 c t).
Qed.

Lemma mlfq_ok_current ts s c t : mlfq_ok ts s -> current s = Some c -> 0 <= priority t < 8 -> mlfq_ok (<[c := t]> ts) s.
Proof.
  intros Hok Hc Hp. pose proof (ok_nodup _ _ Hok) as Hnd. unfold runnable in Hnd. rewrite Hc in Hnd. apply NoDup_cons in Hnd as [Hcq _].
  destruct Hok as [A1 A2 A3 A4 A5]. split; [done|done| | |done].
  - intros i q l Hi' Hl. rewrite lookup_insert_ne; [by apply (A3 i q)|]. intros ->. apply Hcq. apply elem_of_concat. eauto.
  - intros l Hl. rewrite Hc in Hl. injection Hl as <-. rewrite lookup_insert_eq. by eexists.
Qed.

(** The running task stops running, for good or until it is woken. *)
Lemma stop_ok idle k c t st code :
  kernel_ok idle k -> current (k_sched k) = Some c -> k_tasks k !! c = Some t -> c <> idle -> st = Blocked \/ st = Zombie ->
  kernel_pre idle (set_tasks k (<[c := with_run t st (priority t) code]> (k_tasks k))).
Proof.
  intros Hok Hc Ht Hi Hst. destruct Hok as [[H1 H2 H3 H4 H5 H6] _]. pose proof (current_runnable _ _ Hc) as Hcr.
  destruct (rg_parked _ _ _ H4 c t Ht) as [Hp _].
  split; cbn [set_tasks k_tasks k_sched k_table k_preempt]; [by apply mlfq_ok_current|rewrite Hc|done| |done|done].
  - rewrite lookup_insert_eq. eexists. split; [done|]. by right.
  - by apply (registry_touch _ _ _ c t).
Qed.

Lemma block_ok idle k c t :
  kernel_ok idle k -> current (k_sched k) = Some c -> k_tasks k !! c = Some t -> c <> idle ->
  exists k', mark_blocked k (tid t) = Some k' /\ kernel_pre idle k'.
Proof.
  intros Hok Hc Ht Hi. destruct (current_tid_ok idle k Hok) as (c' & t' & Hc' & Ht' & _ & _ & Htb & _). rewrite Hc in Hc'. injection Hc' as <-.
  rewrite Ht in Ht'. injection Ht' as <-. unfold mark_blocked. rewrite Htb, Ht. cbn [mbind option_bind]. eexists. split; [reflexivity|].
  apply (stop_ok idle k c t Blocked (exit_code t)); auto.
Qed.

Lemma zombie_not_runnable idle k l t : kernel_ok idle k -> k_tasks k !! l = Some t -> state t = Zombie -> l ∉ runnable (k_sched k).
Proof.
  intros Hok Ht Hz Hr. destruct (current_tid_ok idle k Hok) as (c & tc & Hc & Htc & Hs & _). destruct Hok as [Hpre _].
  unfold runnable in Hr. rewrite Hc in Hr. apply elem_of_app in Hr as [Hr|Hr].
  - apply list_elem_of_singleton in Hr as ->. congruence.
  - apply elem_of_concat in Hr as (i & q & Hi & Hq). destruct (ok_queued _ _ (kp_sched _ _ Hpre) i q l Hi Hq) as (u & Hu & _ & Hsu). congruence.
Qed.

Lemma reap_ok idle k id l t :
  kernel_ok idle k -> k_table k !! id = Some l -> k_tasks k !! l = Some t ->
  exists r k', reap_zombie k id l = Some (r, k') /\ kernel_ok idle k' /\ (r = None -> k' = k).
Proof.
  intros Hok Hid Ht. unfold reap_zombie. rewrite Ht. cbn [mbind option_bind].
  destruct (decide (state t = Zombie)) as [Hz|Hz]; [|exists None, k; by destruct (state t)]. rewrite Hz. eexists _, _. split; [reflexivity|]. split; [|done].
  pose proof (zombie_not_runnable idle k l t Hok Ht Hz) as Hn. destruct Hok as [[H1 H2 H3 H4 H5 H6] Hrun]. split; [|done].
  split; cbn [table_remove k_tasks k_sched k_table k_preempt]; try done. destruct H4 as [R1 R2 R3]. split; [| |done].
  - intros id' x Hx. apply lookup_delete_Some in Hx as [_ Hx]. eauto.
  - intros x u Hu Hx. pose proof (R2 x u Hu Hx) as Hux. rewrite lookup_delete_ne; [done|]. intros ->. congruence.
Qed.

(** ** System steps *)

(** The scheduler's operations, as the timer and the code that runs on behalf of
    a task call them: each runs with interrupts masked, so it is one step; a
    blocking call is one iteration of its loop.  A system call that is a
    sequence of these operations is covered; one that is not, such as the wait
    on a condition variable, which queues the running task a second time, is
    not ([condvar_wait_requeues_running_task] of Sync). *)
Inductive kop :=
  | OTimer | OYield | OSpawn (l : Z) (t : Task) | OUnblock (id : Z) | OBlock | OWait (p : Z) | OJoin (id : Z) | OExit (code : Z).

Definition kstep (k : kernel) (op : kop) : option kernel :=
  match op with
  | OTimer => '(k, _) ← timer_handler k; Some k
  | OYield => '(k, _) ← schedule k; Some k
  | OSpawn l t => spawn k l t
  | OUnblock id => unblock_tid k id
  | OBlock => id ← current_tid k; k ← mark_blocked k id; '(k, _) ← schedule k; Some k
  | OWait p => '(_, k, _) ← wait_iter k p; Some k
  | OJoin id => '(_, k, _) ← wait_tid_iter k id; Some k
  | OExit code => '(k, _) ← exit k code; Some k
  end.

(** Tasks are created at fresh addresses with fresh identifiers, ready and with
    a priority below the number of levels; the tick counter has not reached
    its width; the idle task, which only halts, does not block or exit. *)
Definition op_ok (idle : Z) (k : kernel) (op : kop) : Prop :=
  match op with
  | OTimer => total_ticks (k_sched k) + 1 < 2 ^ 32
  | OYield => True
  | OSpawn l t => k_tasks k !! l = None /\ k_table k !! tid t = None /\ 0 <= priority t < 8 /\ state t = Ready
  | OUnblock _ => True
  | _ => current (k_sched k) <> Some idle
  end.

Lemma exit_ok idle k code : kernel_ok idle k -> current (k_sched k) <> Some idle -> exists k' sw, exit k code = Some (k', sw) /\ kernel_ok idle k'.
Proof.
  intros Hok Hci. destruct (current_tid_ok idle k Hok) as (c & t & Hc & Ht & Hs & Hct & Htb & Hcr & Hp). unfold exit, exit_mark, exit_leave. rewrite Hct. cbn [mbind option_bind].
  rewrite Htb, Ht. cbn [mbind option_bind]. assert (Hne : c <> idle) by congruence. pose proof (stop_ok idle k c t Zombie (Some code) Hok Hc Ht Hne ltac:(auto)) as Hpre.
  set (k1 := set_tasks k _) in *. assert (Hcz : k_tasks k1 !! c = Some (with_run t Zombie (priority t) (Some code))) by apply lookup_insert_eq.
  assert (Hun : exists k2, (match parent t with Some p => unblock_pid k1 p | None => Some k1 end) = Some k2 /\ kernel_pre idle k2 /\ current (k_sched k2) = Some c /\
    k_tasks k2 !! c = Some (with_run t Zombie (priority t) (Some code))).
  { destruct (parent t) as [p|]; [|by exists k1]. unfold unblock_pid. destruct (find_pid k1 p) as [id|]; [|by exists k1].
    destruct (unblock_ok idle k1 id Hpre) as (k2 & E & Hpre2 & Hc2 & Hkeep & _).
    - intros x u Hx Hu. assert (x = c) as -> by (cbn in Hx; congruence). rewrite Hcz in Hu. by injection Hu as <-.
    - exists k2. split_and!; [done|done|by rewrite Hc2|]. by apply Hkeep. }
  destruct Hun as (k2 & -> & Hpre2 & Hc2 & Ht2). cbn [mbind option_bind]. apply schedule_ok. destruct Hpre2 as [A1 A2 A3 A4 A5 A6].
  unfold mlfq_remove_current. rewrite Hc2.
  assert (Hrun : runnable (k_sched k2) = c :: concat (queues (k_sched k2))) by (unfold runnable; by rewrite Hc2).
  pose proof (ok_nodup _ _ A1) as Hnd. rewrite Hrun in Hnd. apply NoDup_cons in Hnd as [Hcq Hnd].
  split; cbn [set_sched k_tasks k_sched k_table k_preempt current needs_reschedule total_ticks]; [|done| | |done|done].
  - destruct A1 as [B1 B2 B3 B4 B5]. split; cbn; [done|done|done|done|lia].
  - unfold runnable. cbn. rewrite Hrun in A3. by apply elem_of_cons in A3 as [->|].
  - assert (Hz : <[c := with_run t Zombie (priority t) (Some code)]> (k_tasks k2) = k_tasks k2) by by apply insert_id.
    rewrite <- Hz. unfold runnable. cbn [current queues option_list app]. eapply registry_update; [exact A4|exact Ht2|done|done|by intros ?|by right|].
    intros x Hx. rewrite Hrun, elem_of_cons. split; [by right|by intros [?|?]].
Qed.

Lemma kstep_ok idle k op : kernel_ok idle k -> op_ok idle k op -> exists k', kstep k op = Some k' /\ kernel_ok idle k'.
Proof.
  intros Hok Hop. pose proof Hok as [Hpre Hrun]. destruct (current_tid_ok idle k Hok) as (c & t & Hc & Ht & Hs & Hct & Htb & Hcr & Hp).
  assert (Hblk : c <> idle -> exists k' sw, (k1 ← mark_blocked k (tid t); schedule k1) = Some (k', sw) /\ kernel_ok idle k').
  { intros Hi. destruct (block_ok idle k c t Hok Hc Ht Hi) as (k1 & -> & Hp1). cbn [mbind option_bind]. by apply schedule_ok. }
  destruct op; cbn [kstep op_ok] in *.
  - destruct (timer_ok idle k Hok Hop) as (k' & sw & -> & ?). eauto.
  - destruct (schedule_ok idle k Hpre) as (k' & sw & -> & ?). eauto.
  - destruct Hop as (H1 & H2 & H3 & H4). by apply spawn_ok.
  - destruct (unblock_ok idle k id Hpre) as (k' & E & Hpre' & Hc' & Hkeep & _); [intros x u Hx Hu; congruence|]. exists k'. split; [done|]. split; [done|].
    exists c, t. split_and!; [congruence|apply Hkeep; [done|congruence]|done].
  - rewrite Hct. cbn [mbind option_bind]. destruct (Hblk ltac:(congruence)) as (k' & sw & E & ?). destruct (mark_blocked k (tid t)) as [k1|]; [|done]. cbn in *. rewrite E. eauto.
  - unfold wait_iter. rewrite Hct. cbn [mbind option_bind]. destruct (find_pid k p) as [id|] eqn:Ef; [|cbn; eauto].
    destruct (find_pid_Some _ _ _ Ef) as (l & u & Hl & Hu & _). rewrite Hl. cbn [mbind option_bind].
    destruct (reap_ok idle k id l u Hok Hl Hu) as (r & k' & -> & Hok' & Hr). cbn [mbind option_bind]. destruct r as [code|]; [cbn; eauto|]. rewrite (Hr eq_refl).
    destruct (Hblk ltac:(congruence)) as (k2 & sw & E & ?). destruct (mark_blocked k (tid t)) as [k1|]; [|done]. cbn in *. rewrite E. cbn. eauto.
  - unfold wait_tid_iter. rewrite Hct. cbn [mbind option_bind]. destruct (k_table k !! id) as [l|] eqn:El; [|cbn; eauto].
    destruct (rg_table _ _ _ (kp_registry _ _ Hpre) id l El) as (u & Hu & _).
    destruct (reap_ok idle k id l u Hok El Hu) as (r & k' & -> & Hok' & Hr). cbn [mbind option_bind]. destruct r as [code|]; [cbn; eauto|]. rewrite (Hr eq_refl).
    destruct (Hblk ltac:(congruence)) as (k2 & sw & E & ?). destruct (mark_blocked k (tid t)) as [k1|]; [|done]. cbn in *. rewrite E. cbn. eauto.
  - destruct (exit_ok idle k code Hok Hop) as (k' & sw & -> & ?). eauto.
Qed.

(** ** Progress of queued tasks *)

Fixpoint run_timer (n : nat) (k : kernel) : option kernel :=
  match n with
  | O => Some k
  | S n => '(k, _) ← timer_handler k; run_timer n k
  end.

(** The exact effect of a timer interrupt on the scheduler. *)
Lemma timer_effect idle k :
  kernel_ok idle k -> total_ticks (k_sched k) + 1 < 2 ^ 32 -> concat (queues (k_sched k)) <> [] ->
  let s := k_sched k in
  let qs := if (total_ticks s + 1) mod BOOST_PERIOD =? 0 then boosted (queues s) else queues s in
  exists k' sw, timer_handler k = Some (k', sw) /\ kernel_ok idle k' /\ total_ticks (k_sched k') = total_ticks s + 1 /\
    length (concat (queues (k_sched k'))) = length (concat (queues s)) /\
    if (ticks_remaining s <=? 1) || needs_reschedule s
    then exists l j q p c, qs !! j = Some (l :: q) /\ (forall j', (j' < j)%nat -> qs !! j' = Some []) /\
      queues (k_sched k') = push_back (<[j := q]> qs) p c /\ current (k_sched k') = Some l /\ ticks_remaining (k_sched k') = (Z.of_nat j + 1) * (Z.of_nat j + 1)
    else queues (k_sched k') = qs /\ ticks_remaining (k_sched k') = ticks_remaining s - 1.
Proof.
  intros Hok Hn Hne s qs. destruct (timer_ok idle k Hok Hn) as (k' & sw & E & Hok'). exists k', sw. split; [done|]. split; [done|]. revert E.
  unfold timer_handler, sched_tick. cbn [k_tasks k_sched]. pose proof Hok as [[H1 H2 H3 H4 H5 H6] (c & t & Hc & Ht & Hst)].
  destruct (tick_ok _ _ c H1 Hc H6 Hn) as (ts & s1 & -> & Hok1 & Hq & Hc1 & Hr1 & Htot & Hnd1 & Hsame & _ & _). fold s qs in Hq, Hr1, Htot, Hnd1.
  cbn [mbind option_bind]. unfold schedule. cbn [set_sched k_preempt k_tasks k_sched k_table]. rewrite H5. cbn [Z.ltb Z.compare].
  assert (Hcs : ts !! c = Some t).
  { rewrite Hsame; [done|]. pose proof (ok_nodup _ _ H1) as Hnd. unfold runnable in Hnd. rewrite Hc in Hnd. by apply NoDup_cons in Hnd as []. }
  assert (Hcq : concat qs = concat (queues s)) by (unfold qs; destruct (_ =? 0); [apply concat_boosted|done]).
  unfold should_reschedule. rewrite Hc1, Hcs. cbn [mbind option_bind]. rewrite Hst. rewrite <- Hnd1. destruct (needs_reschedule s1) eqn:En.
  - destruct (switch_ok ts s1 c t Hok1 Hc1 Hcs En) as (l & j & q & tl & Hj & Hlow & Htl & Hlc & -> & _ & Hrun).
    { by rewrite Hq, Hcq. }
    apply Permutation_length in Hrun. unfold runnable in Hrun. rewrite Hc1, Hq, Hcq, !length_app in Hrun. cbn [queues current] in Hrun. change (length (option_list (Some _))) with 1%nat in Hrun.
    cbn [mbind option_bind]. rewrite lookup_insert_eq. cbn [mbind option_bind]. intros [= <- _]. cbn [k_sched queues total_ticks current ticks_remaining]. split; [done|]. split; [rewrite Hq; lia|]. exists l, j, q, (Z.to_nat (Z.min (priority t + 1) 7)), c. rewrite <- Hq. done.
  - unfold prepare_switch. rewrite En. cbn. intros [= <- _]. cbn. split_and!; [done|by rewrite Hq, Hcq|done|]. rewrite Hr1. symmetry in Hnd1. apply orb_false_iff in Hnd1 as [Hl _]. apply Z.leb_gt in Hl. lia.
Qed.

(** How long a queued task can still wait: [i] is its place in level [p]. *)
Definition wait_bound (s : MlfqScheduler) (p i : nat) : Z :=
  if decide (p = 0%nat) then Z.max 1 (ticks_remaining s) + Z.of_nat i
  else 100 * Z.of_nat p - total_ticks s mod BOOST_PERIOD + 64 + Z.of_nat (length (concat (queues s))).

Lemma push_back_pos qs a c p i q l : qs !! p = Some q -> q !! i = Some l -> exists q', push_back qs a c !! p = Some q' /\ q' !! i = Some l.
Proof.
  intros Hp Hi. unfold push_back. destruct (decide (a = p)) as [->|Hne].
  - rewrite list_lookup_alter_eq, Hp. eexists. split; [done|]. by apply lookup_app_l_Some.
  - rewrite list_lookup_alter_ne by done. eauto.
Qed.

Lemma concat_length_lookup (qs : list (list Z)) p q : qs !! p = Some q -> (length q <= length (concat qs))%nat.
Proof. revert p. induction qs as [|r qs IH]; intros [|p] Hp; simpl in *; [done..| |]; rewrite length_app; [injection Hp as ->; lia|]. apply IH in Hp. lia. Qed.

(** A place in the queues after a boost. *)
Lemma boosted_pos qs p i q l :
  length qs = NUM_QUEUES -> qs !! p = Some q -> q !! i = Some l ->
  exists p' i' q', boosted qs !! p' = Some q' /\ q' !! i' = Some l /\ p' = (p - 1)%nat /\ (p = 0%nat -> i' = i).
Proof.
  intros Hlen Hp Hi. destruct qs as [|q0 [|q1 qs]]; [discriminate|discriminate|]. destruct p as [|[|p]]; simpl in Hp.
  - injection Hp as ->. exists 0%nat, i, (q ++ q1). split_and!; [done|by apply lookup_app_l_Some|done|done].
  - injection Hp as ->. exists 0%nat, (length q0 + i)%nat, (q0 ++ q). split_and!; [done| |done|done].
    rewrite lookup_app_r by lia. by replace (length q0 + i - length q0)%nat with i by lia.
  - exists (S p), i, q. split_and!; [|done|lia|done]. simpl. by apply lookup_app_l_Some.
Qed.

(** One timer interrupt brings a queued task closer to running. *)
Lemma timer_progress idle k p i q l :
  kernel_ok idle k -> total_ticks (k_sched k) + 1 < 2 ^ 32 -> queues (k_sched k) !! p = Some q -> q !! i = Some l ->
  exists k' sw, timer_handler k = Some (k', sw) /\ kernel_ok idle k' /\ total_ticks (k_sched k') = total_ticks (k_sched k) + 1 /\
    (current (k_sched k') = Some l \/ exists p' i' q', queues (k_sched k') !! p' = Some q' /\ q' !! i' = Some l /\ wait_bound (k_sched k') p' i' < wait_bound (k_sched k) p i).
Proof.
  intros Hok Hn Hp Hi. assert (Hl : l ∈ concat (queues (k_sched k))) by (apply elem_of_concat; exists p, q; split; [done|by eapply list_elem_of_lookup_2]).
  assert (Hne : concat (queues (k_sched k)) <> []) by (intros E; rewrite E in Hl; by apply not_elem_of_nil in Hl).
  destruct (timer_effect idle k Hok Hn Hne) as (k' & sw & E & Hok' & Htot & HN & Heff). exists k', sw. split_and!; [done|done|done|].
  pose proof Hok as [[H1 _ _ _ _ H6] _]. pose proof (ok_ticks _ _ H1) as Ht. pose proof (ok_len _ _ H1) as Hlen. set (s := k_sched k) in *.
  set (qs := if (total_ticks s + 1) mod BOOST_PERIOD =? 0 then boosted (queues s) else queues s) in *.
  assert (Hcq : concat qs = concat (queues s)) by (unfold qs; destruct (_ =? 0); [apply concat_boosted|done]).
  assert (Hpos : exists p1 i1 q1, qs !! p1 = Some q1 /\ q1 !! i1 = Some l /\
    ((p1 = 0%nat /\ p = 0%nat /\ i1 = i) \/ (p1 = 0%nat /\ p = 1%nat /\ total_ticks s mod 100 = 99) \/
     (p1 <> 0%nat /\ p <> 0%nat /\ 100 * Z.of_nat p1 - (total_ticks s + 1) mod 100 = 100 * Z.of_nat p - total_ticks s mod 100 - 1))).
  { assert (Hmod : (total_ticks s + 1) mod 100 = if total_ticks s mod 100 =? 99 then 0 else total_ticks s mod 100 + 1).
    { pose proof (Z.mod_pos_bound (total_ticks s) 100 ltac:(lia)). rewrite (Z.div_mod (total_ticks s) 100) at 1 by lia.
      replace (100 * (total_ticks s / 100) + total_ticks s mod 100 + 1) with (total_ticks s mod 100 + 1 + (total_ticks s / 100) * 100) by lia.
      rewrite Z.mod_add by lia. destruct (Z.eqb_spec (total_ticks s mod 100) 99) as [->|]; [done|]. apply Z.mod_small. lia. }
    unfold qs, BOOST_PERIOD. destruct (Z.eqb_spec ((total_ticks s + 1) mod 100) 0) as [Eb|Eb]; rewrite Hmod in Eb; destruct (Z.eqb_spec (total_ticks s mod 100) 99) as [E99|E99]; try lia.
    - destruct (boosted_pos (queues s) p i q l Hlen Hp Hi) as (p' & i' & q' & Hp' & Hi' & Epp & Ei). exists p', i', q'. split_and!; [done|done|].
      destruct p as [|[|p]]; [left; split_and!; [lia|done|by apply Ei]|right; left; split_and!; lia|right; right; split_and!; lia].
    - pose proof (Z.mod_pos_bound (total_ticks s) 100 ltac:(lia)). lia.
    - exists p, i, q. split_and!; [done|done|]. destruct p as [|p]; [by left|]. right. right. split_and!; lia. }
  destruct Hpos as (p1 & i1 & q1 & Hp1 & Hi1 & Hcase).
  assert (Hi1N : (i1 < length (concat (queues s)))%nat) by (rewrite <- Hcq; pose proof (lookup_lt_Some _ _ _ Hi1); pose proof (concat_length_lookup _ _ _ Hp1); lia).
  assert (Hlt : forall i', (p1 = 0%nat -> Z.max 1 (ticks_remaining (k_sched k')) + Z.of_nat i' < Z.max 1 (ticks_remaining s) + Z.of_nat i1) -> (i' <= i1)%nat ->
    (p1 = 0%nat -> ticks_remaining (k_sched k') <= 64) -> wait_bound (k_sched k') p1 i' < wait_bound s p i).
  { intros i' Hd Hle Hs64. unfold wait_bound, BOOST_PERIOD. rewrite HN, Htot.
    destruct Hcase as [(-> & -> & ->)|[(-> & -> & H99)|(Hn1 & Hn2 & Hm)]].
    - rewrite decide_True by done. by apply Hd.
    - rewrite decide_True, decide_False by done. specialize (Hs64 eq_refl). rewrite H99. lia.
    - rewrite !decide_False by done. lia. }
  destruct ((ticks_remaining s <=? 1) || needs_reschedule s) eqn:Eneeds.
  - destruct Heff as (l0 & j & q' & pc & c & Hj & Hlow & Hq & Hcur & Htk).
    destruct (decide (j = p1)) as [->|Hjp].
    + rewrite Hp1 in Hj. injection Hj as ->. destruct i1 as [|i1]; [left; by injection Hi1 as ->|]. right. simpl in Hi1.
      destruct (push_back_pos (<[p1 := q']> qs) pc c p1 i1 q' l) as (q2 & Hq2 & Hl2); [by rewrite list_lookup_insert_eq by eauto using lookup_lt_Some|done|].
      exists p1, i1, q2. rewrite Hq. split_and!; [done|done|]. apply Hlt; [|lia|].
      * intros ->. rewrite Htk. cbn [Z.of_nat]. lia.
      * intros ->. rewrite Htk. cbn [Z.of_nat]. lia.
    + right. assert (p1 <> 0%nat).
      { intros ->. rewrite Hlow in Hp1 by lia. by injection Hp1 as <-. }
      destruct (push_back_pos (<[j := q']> qs) pc c p1 i1 q1 l) as (q2 & Hq2 & Hl2); [by rewrite list_lookup_insert_ne|done|].
      exists p1, i1, q2. rewrite Hq. split_and!; [done|done|]. apply Hlt; [by intros|lia|by intros].
  - destruct Heff as (Hq & Htk). right. exists p1, i1, q1. rewrite Hq. split_and!; [done|done|]. apply orb_false_iff in Eneeds as [Htl _]. apply Z.leb_gt in Htl.
    apply Hlt; [intros _; lia|lia|intros _; lia].
Qed.

Lemma run_to_current idle b k p i q l :
  kernel_ok idle k -> queues (k_sched k) !! p = Some q -> q !! i = Some l -> wait_bound (k_sched k) p i <= Z.of_nat b ->
  total_ticks (k_sched k) + Z.of_nat b < 2 ^ 32 ->
  exists n k', (n <= b)%nat /\ run_timer n k = Some k' /\ current (k_sched k') = Some l.
Proof.
  revert k p i q. induction b as [|b IH]; intros k p i q Hok Hp Hi Hb Hn.
  - exfalso. pose proof Hok as [[H1 _ _ _ _ H6] _]. pose proof (ok_ticks _ _ H1). unfold wait_bound, BOOST_PERIOD in Hb.
    pose proof (Z.mod_pos_bound (total_ticks (k_sched k)) 100). destruct (decide _); lia.
  - destruct (timer_progress idle k p i q l Hok ltac:(lia) Hp Hi) as (k' & sw & E & Hok' & Htot & [Hc|(p' & i' & q' & Hp' & Hi' & Hlt)]).
    + exists 1%nat, k'. split_and!; [lia| |done]. simpl. by rewrite E.
    + destruct (IH k' p' i' q' Hok' Hp' Hi') as (n & k2 & Hle & Hrun & Hc); [lia|lia|]. exists (S n), k2. split_and!; [lia| |done]. simpl. by rewrite E.
Qed.

Lemma wait_bound_max k p i q l :
  mlfq_ok (k_tasks k) (k_sched k) -> queues (k_sched k) !! p = Some q -> q !! i = Some l ->
  wait_bound (k_sched k) p i <= 764 + Z.of_nat (length (concat (queues (k_sched k)))).
Proof.
  intros Hok Hp Hi. pose proof (ok_ticks _ _ Hok). pose proof (lookup_lt_Some _ _ _ Hi). pose proof (concat_length_lookup _ _ _ Hp).
  pose proof (lookup_lt_Some _ _ _ Hp) as Hlt. rewrite (ok_len _ _ Hok) in Hlt. unfold NUM_QUEUES in Hlt. unfold wait_bound, BOOST_PERIOD.
  pose proof (Z.mod_pos_bound (total_ticks (k_sched k)) 100). destruct (decide _); lia.
Qed.

(** C7. No task starves: a task queued at any level becomes the running task
    within 764 timer interrupts plus one for each queued task (at most seven
    boosts of 100 ticks to reach the first level, 64 ticks of the running
    task's slice, then one tick for each task ahead), provided the tick
    counter does not overflow meanwhile. *)
Theorem mlfq_no_starvation idle k l :
  kernel_ok idle k -> l ∈ concat (queues (k_sched k)) ->
  total_ticks (k_sched k) + 764 + Z.of_nat (length (concat (queues (k_sched k)))) < 2 ^ 32 ->
  exists n k', Z.of_nat n <= 764 + Z.of_nat (length (concat (queues (k_sched k)))) /\ run_timer n k = Some k' /\ current (k_sched k') = Some l.
Proof.
  intros Hok Hl Hn. apply elem_of_concat in Hl as (p & q & Hp & Hl). apply list_elem_of_lookup in Hl as [i Hi].
  pose proof (wait_bound_max k p i q l (kp_sched _ _ (proj1 Hok)) Hp Hi) as Hb.
  destruct (run_to_current idle (Z.to_nat (wait_bound (k_sched k) p i)) k p i q l) as (n & k' & Hn' & E & Hc); [done|done|done|lia|lia|].
  exists n, k'. split_and!; [lia|done|done].
Qed.

(** Sequences of steps, with a condition on the operations. *)
Inductive reach (idle : Z) (P : kop -> Prop) (k0 : kernel) : kernel -> Prop :=
  | reach_refl : reach idle P k0 k0
  | reach_step k op k' : reach idle P k0 k -> op_ok idle k op -> P op -> kstep k op = Some k' -> reach idle P k0 k'.

Lemma reach_ok idle P k0 k : kernel_ok idle k0 -> reach idle P k0 k -> kernel_ok idle k.
Proof.
  intros H0. induction 1 as [|k op k' _ IH Hop _ E]; [done|]. destruct (kstep_ok idle k op IH Hop) as (k2 & E2 & Hok). congruence.
Qed.

(** *** Initialisation *)

Lemma task_new_inv tramp base cur_cr3 m c entry prio par t m' c' :
  task_new tramp base cur_cr3 m c entry prio par = Some (t, m', c') ->
  tid t = NEXT_TID c /\ pid t = NEXT_PID c /\ priority t = prio /\ state t = Ready /\ c' = mkCounters (wrap 64 (NEXT_PID c + 1)) (wrap 64 (NEXT_TID c + 1)).
Proof.
  unfold task_new. intros E. apply bind_Some in E as ([ma top] & _ & E). apply bind_Some in E as ([mb r] & _ & E).
  apply (inj Some) in E. apply pair_eq in E as (E & <-). apply pair_eq in E as (<- & _). done.
Qed.

Lemma kernel_ok_idle idle idle' k : kernel_ok idle k -> idle' ∈ runnable (k_sched k) -> kernel_ok idle' k.
Proof.
  intros [[H1 H2 H3 H4 H5 H6] Hr] Hi. split; [|done]. split; try done. destruct Hr as (c & t & Hc & Ht & Hs). rewrite Hc. eauto.
Qed.

Lemma wrap_succ_ne n : fits 64 n -> wrap 64 (n + 1) <> n.
Proof.
  intros [H0 H1] E. unfold wrap in E. destruct (decide (n + 1 = 2 ^ 64)) as [E1|]; [|rewrite Z.mod_small in E; lia].
  rewrite E1, Z.mod_same in E by lia. lia.
Qed.

(** Interrupts are enabled before the scheduler has any task: until then a timer
    interrupt only counts. *)
Definition early_kernel (n ticks : Z) : kernel := mkKernel ∅ ∅ (mkSched (replicate NUM_QUEUES []) None 1 n false) 0 0 ticks.

Lemma early_tick n ticks : 0 <= n -> n + 1 < 2 ^ 32 -> timer_handler (early_kernel n ticks) = Some (early_kernel (n + 1) (wrap 64 (ticks + 1)), None).
Proof.
  intros Hn Hm. unfold timer_handler, sched_tick, mlfq_tick, early_kernel. cbn [k_tasks k_table k_sched k_preempt k_rsp0 k_ticks total_ticks queues current ticks_remaining needs_reschedule].
  unfold uadd. rewrite uchk_fits by (unfold fits; lia). cbn [mbind option_bind total_ticks]. by destruct (_ =? 0).
Qed.

Lemma early_ticks n k : run_timer n kernel_new = Some k -> (Z.of_nat n < 2 ^ 32) -> exists ticks, k = early_kernel (Z.of_nat n) ticks.
Proof.
  assert (Hg : forall j i ticks k, run_timer j (early_kernel i ticks) = Some k -> 0 <= i -> i + Z.of_nat j < 2 ^ 32 -> exists ticks', k = early_kernel (i + Z.of_nat j) ticks').
  { induction j as [|j IH]; intros i ticks k' E Hi Hm; cbn [run_timer] in E.
    - apply (inj Some) in E as <-. exists ticks. f_equal. lia.
    - rewrite early_tick in E by lia. cbn [mbind option_bind] in E. destruct (IH _ _ _ E) as (ticks' & ->); [lia..|]. exists ticks'. f_equal. lia. }
  intros E Hn. apply (Hg n 0 0 k E); lia.
Qed.

Lemma boot_ok l t n ticks s :
  priority t = 0 -> 0 <= n -> s = mkSched (replicate NUM_QUEUES []) (Some l) 1 n false ->
  kernel_ok l (mkKernel {[l := with_state t Running]} {[tid t := l]} s 0 0 ticks).
Proof.
  intros Hp Hn ->. assert (Hr : runnable (mkSched (replicate NUM_QUEUES []) (Some l) 1 n false) = [l]) by reflexivity. split.
  - split; cbn [k_tasks k_sched k_table k_preempt current total_ticks]; rewrite ?Hr; [|rewrite lookup_singleton_eq; eauto|left| |done|done].
    + split; [done|rewrite Hr; apply NoDup_singleton| | |cbn; lia].
      * intros i q x Hi Hx. cbn [queues] in Hi. apply lookup_replicate in Hi as [-> _]. by apply not_elem_of_nil in Hx.
      * intros x [= <-]. rewrite lookup_singleton_eq. eexists. split; [done|]. cbn. lia.
    + split.
      * intros id x Hx. apply lookup_singleton_Some in Hx as [<- <-]. rewrite lookup_singleton_eq. eauto.
      * intros x u Hu Hx. apply lookup_singleton_Some in Hu as [<- <-]. apply lookup_singleton_eq.
      * intros x u Hu. apply lookup_singleton_Some in Hu as [<- <-]. split; [cbn; lia|]. intros Hx. exfalso. apply Hx. left.
  - exists l, (with_state t Running). split_and!; [done| |done]. apply lookup_singleton_eq.
Qed.

Lemma sched_init_ok tramp idle_task base0 base1 cur_cr3 l0 l1 n ticks m c k m' c' :
  sched_init tramp idle_task base0 base1 cur_cr3 l0 l1 (early_kernel n ticks) m c = Some (k, m', c') -> 0 <= n -> l0 <> l1 -> fits 64 (NEXT_TID c) ->
  kernel_ok l1 k /\ concat (queues (k_sched k)) = [l1] /\ current (k_sched k) = Some l0 /\ total_ticks (k_sched k) = n.
Proof.
  intros E Hn Hne Hc. unfold sched_init, early_kernel in E. apply bind_Some in E as ([[t0 m0] c0] & E0 & E). apply task_new_inv in E0 as (Ht0 & _ & Hp0 & Hs0 & ->).
  unfold table_insert in E. cbn [set_tasks k_tasks k_sched k_table] in E. rewrite insert_empty, lookup_singleton_eq in E. cbn [mbind option_bind] in E.
  unfold set_current in E. cbn [k_tasks k_sched] in E. rewrite lookup_singleton_eq in E. cbn [mbind option_bind] in E. rewrite Hp0 in E. change (TIME_SLICES !! Z.to_nat 0) with (Some 1) in E. cbn [mbind option_bind] in E.
  apply bind_Some in E as ([[t1 m1] c1] & E1 & E). apply task_new_inv in E1 as (Ht1 & _ & Hp1 & Hs1 & ->). cbn [NEXT_TID] in Ht1.
  cbn [set_sched k_tasks k_sched k_table k_preempt k_rsp0 k_ticks] in E. rewrite insert_singleton_eq, insert_empty in E. cbn [mlfq_new queues total_ticks needs_reschedule] in E.
  pose proof (boot_ok l0 t0 n ticks _ Hp0 Hn eq_refl) as Hok. set (kb := mkKernel {[l0 := with_state t0 Running]} _ _ _ _ _) in *.
  destruct (spawn_ok l0 kb l1 t1 Hok) as (k' & Es & Hok').
  - by apply lookup_singleton_ne.
  - apply lookup_singleton_ne. rewrite Ht0, Ht1. apply not_eq_sym, wrap_succ_ne, Hc.
  - rewrite Hp1. unfold NUM_QUEUES. lia.
  - done.
  - change (spawn _ l1 t1) with (spawn kb l1 t1) in E. rewrite Es in E. cbn [mbind option_bind] in E. injection E as -> _ _.
    unfold spawn, table_insert in Es. cbn [set_tasks k_tasks k_sched kb] in Es. rewrite lookup_insert_eq in Es. cbn [mbind option_bind] in Es.
    unfold push in Es. cbn [k_tasks] in Es. rewrite lookup_insert_eq in Es. cbn [mbind option_bind] in Es. rewrite Hp1 in Es. injection Es as <-.
    assert (Hq : forall k, k_sched k = mkSched (replicate 7 [] ++ [[l1]]) (Some l0) 1 n false -> concat (queues (k_sched k)) = [l1] /\ current (k_sched k) = Some l0 /\ total_ticks (k_sched k) = n) by (intros k ->; done).
    split; [|by apply Hq]. eapply kernel_ok_idle; [exact Hok'|]. right. cbn. left.
Qed.

(** The boot task and the idle task are all there is. *)
Lemma sched_init_tasks tramp idle_task base0 base1 cur_cr3 l0 l1 n ticks m c k m' c' :
  sched_init tramp idle_task base0 base1 cur_cr3 l0 l1 (early_kernel n ticks) m c = Some (k, m', c') ->
  exists t0 t1, k_tasks k = <[l1 := t1]> {[l0 := t0]} /\ k_table k = <[tid t1 := l1]> {[tid t0 := l0]} /\
    tid t0 = NEXT_TID c /\ pid t0 = NEXT_PID c /\ tid t1 = wrap 64 (NEXT_TID c + 1) /\ pid t1 = wrap 64 (NEXT_PID c + 1) /\
    c' = mkCounters (wrap 64 (wrap 64 (NEXT_PID c + 1) + 1)) (wrap 64 (wrap 64 (NEXT_TID c + 1) + 1)).
Proof.
  unfold sched_init, early_kernel. intros E. apply bind_Some in E as ([[t0 m0] c0] & E0 & E). apply task_new_inv in E0 as (Ht0 & Hpd0 & Hp0 & Hs0 & ->).
  unfold table_insert in E. cbn [set_tasks k_tasks k_sched k_table] in E. rewrite insert_empty, lookup_singleton_eq in E. cbn [mbind option_bind] in E.
  unfold set_current in E. cbn [k_tasks k_sched] in E. rewrite lookup_singleton_eq in E. cbn [mbind option_bind] in E. rewrite Hp0 in E. change (TIME_SLICES !! Z.to_nat 0) with (Some 1) in E. cbn [mbind option_bind] in E.
  apply bind_Some in E as ([[t1 m1] c1] & E1 & E). apply task_new_inv in E1 as (Ht1 & Hpd1 & Hp1 & Hs1 & ->). cbn [NEXT_TID NEXT_PID] in Ht1, Hpd1, E. apply bind_Some in E as (k1 & Es & E). injection E as <- _ <-.
  rewrite insert_singleton_eq, insert_empty in Es. exists (with_state t0 Running), t1. split; [|split; [|by split_and!]].
  - unfold spawn, table_insert in Es. cbn [set_sched set_tasks k_tasks k_sched k_table] in Es. rewrite lookup_insert_eq in Es. cbn [mbind option_bind] in Es. by apply bind_Some in Es as (s & _ & [= <-]).
  - unfold spawn, table_insert in Es. cbn [set_sched set_tasks k_tasks k_sched k_table] in Es. rewrite lookup_insert_eq in Es. cbn [mbind option_bind] in Es. by apply bind_Some in Es as (s & _ & [= <-]).
Qed.


Lemma task_new_some tramp base cur_cr3 m c entry prio par :
  0 < base < 2 ^ 63 -> exists r, task_new tramp base cur_cr3 m c entry prio par = Some r.
Proof.
  intros Hb. unfold task_new. destruct (kernel_stack_some tramp base m entry Hb) as (m1 & top & m2 & r & -> & E). cbn [mbind option_bind]. rewrite E. by eexists.
Qed.

Lemma sched_init_some tramp idle_task base0 base1 cur_cr3 l0 l1 k0 m c :
  0 < base0 < 2 ^ 63 -> 0 < base1 < 2 ^ 63 -> exists k m' c', sched_init tramp idle_task base0 base1 cur_cr3 l0 l1 k0 m c = Some (k, m', c').
Proof.
  intros H0 H1. unfold sched_init. destruct (task_new_some tramp base0 cur_cr3 m c idle_task 0 None H0) as ([[t0 m0] c0] & E0). rewrite E0.
  apply task_new_inv in E0 as (_ & _ & Hp & _). cbn [mbind option_bind]. unfold table_insert. cbn [set_tasks k_tasks]. rewrite lookup_insert_eq. cbn [mbind option_bind k_tasks].
  unfold set_current. rewrite lookup_insert_eq. cbn [mbind option_bind]. rewrite Hp. change (TIME_SLICES !! Z.to_nat 0) with (Some 1). cbn [mbind option_bind].
  destruct (task_new_some tramp base1 cur_cr3 m0 c0 idle_task (Z.of_nat NUM_QUEUES - 1) None H1) as ([[t1 m1] c1] & ->). cbn [mbind option_bind].
  unfold spawn, table_insert. cbn [set_tasks k_tasks]. rewrite lookup_insert_eq. cbn [mbind option_bind k_tasks]. unfold push. rewrite lookup_insert_eq. cbn [mbind option_bind]. by eexists _, _, _.
Qed.


Lemma mlfq_no_starvation_witness :
  exists k0 m' c', sched_init 0x5000 0x6000 0x40000 0x60000 0x1000 0x70000 0x71000 kernel_new ∅ (mkCounters 1 1) = Some (k0, m', c') /\
    exists n k', Z.of_nat n <= 764 + Z.of_nat (length (concat (queues (k_sched k0)))) /\ run_timer n k0 = Some k' /\ current (k_sched k') = Some 0x71000.
Proof.
  destruct (sched_init_some 0x5000 0x6000 0x40000 0x60000 0x1000 0x70000 0x71000 kernel_new ∅ (mkCounters 1 1)) as (k0 & m' & c' & E); [lia..|].
  destruct (sched_init_ok _ _ _ _ _ _ _ 0 0 _ _ _ _ _ E) as (Hok & Hq & Hc & Ht); [lia|lia|unfold fits; cbn; lia|].
  exists k0, m', c'. split; [exact E|]. apply (mlfq_no_starvation 0x71000 k0 0x71000 Hok).
  - rewrite Hq. left.
  - rewrite Hq, Ht. simpl. lia.
Defined.

(** ** Exit and join *)

Lemma prepare_keeps ts s ts' s' sw l : prepare_switch ts s = Some (ts', s', sw) -> l ∉ runnable s -> ts' !! l = ts !! l.
Proof.
  intros E Hl. unfold prepare_switch in E. destruct (negb _); [by injection E as <- _ _|].
  destruct (pick_next (queues s)) as [[x qs]|] eqn:Ep; [|by injection E as <- _ _].
  assert (Hx : x <> l). { intros ->. apply pick_next_Some in Ep as (i & q & Hi & _). apply Hl. eapply queued_runnable; [done|left]. }
  apply bind_Some in E as ([[ts1 qs1] o] & E1 & E). apply bind_Some in E as (t & Ht & E). apply bind_Some in E as (sl & _ & E). injection E as <- _ _.
  rewrite lookup_insert_ne by done. destruct (current s) as [c|] eqn:Ec; [|by injection E1 as <- _ _].
  apply bind_Some in E1 as (tc & _ & E1). apply bind_Some in E1 as (p & _ & E1). injection E1 as <- _ _. apply lookup_insert_ne. intros ->. apply Hl. by apply current_runnable.
Qed.

Lemma schedule_keeps k k' sw l :
  schedule k = Some (k', sw) -> l ∉ runnable (k_sched k) -> k_tasks k' !! l = k_tasks k !! l /\ k_table k' = k_table k.
Proof.
  unfold schedule. intros E Hl. destruct (0 <? k_preempt k); [by injection E as <- _|]. apply bind_Some in E as (s & Es & E). apply bind_Some in E as ([[ts s'] sw'] & Ep & E).
  assert (Hr : runnable s = runnable (k_sched k)).
  { unfold should_reschedule in Es. destruct (current (k_sched k)) as [c|] eqn:Ec; [|by injection Es as <-]. apply bind_Some in Es as (t & _ & Es). unfold runnable.
    destruct (state t); injection Es as <-; cbn; by rewrite ?Ec. }
  pose proof (prepare_keeps _ _ _ _ _ l Ep) as Hk. rewrite Hr in Hk. specialize (Hk Hl).
  destruct sw' as [[o i]|]; [apply bind_Some in E as (t & _ & E)|]; by injection E as <- _.
Qed.

(** What scheduling leaves as it is: the tasks that are queued or running, the
    table, and everything of a task but its state and priority. *)
Definition identity (t : Task) : Task := with_run t Ready 0 (exit_code t).

Record moved (k k' : kernel) : Prop := mkMoved {
  mv_runnable : runnable (k_sched k') ≡ₚ runnable (k_sched k);
  mv_table : k_table k' = k_table k;
  mv_preempt : k_preempt k' = k_preempt k;
  mv_tasks l : identity <$> (k_tasks k' !! l) = identity <$> (k_tasks k !! l);
  mv_parked l : l ∉ runnable (k_sched k) -> k_tasks k' !! l = k_tasks k !! l
}.

#[export] Instance moved_preorder : PreOrder moved.
Proof. split; [by split|]. intros k1 k2 k3 [A1 A2 A3 A4 A5] [B1 B2 B3 B4 B5]. split; [by rewrite B1|congruence|congruence|intros l; by rewrite B4|]. intros l Hl. rewrite B5; [by apply A5|by rewrite A1]. Qed.

Lemma identity_insert (ts : tasks) c t t' l : ts !! c = Some t -> identity t' = identity t -> identity <$> (<[c := t']> ts !! l) = identity <$> (ts !! l).
Proof. intros Ht E. destruct (decide (l = c)) as [->|]; [rewrite lookup_insert_eq, Ht; simpl; congruence|by rewrite lookup_insert_ne]. Qed.

Lemma schedule_moved k :
  mlfq_ok (k_tasks k) (k_sched k) -> k_preempt k = 0 -> concat (queues (k_sched k)) <> [] -> (current (k_sched k) = None -> needs_reschedule (k_sched k) = true) ->
  exists k' sw, schedule k = Some (k', sw) /\ moved k k' /\ mlfq_ok (k_tasks k') (k_sched k') /\ is_Some (current (k_sched k')) /\ total_ticks (k_sched k') = total_ticks (k_sched k).
Proof.
  intros Hok Hp Hne Hnone. unfold schedule. rewrite Hp. cbn [Z.ltb Z.compare]. unfold should_reschedule. destruct (current (k_sched k)) as [c|] eqn:Hc; cbn [mbind option_bind].
  2: { destruct (switch_in_ok _ _ Hok Hc (Hnone eq_refl) Hne) as (l & i & q & tl & _ & Htl & -> & Hok' & Hr). cbn [mbind option_bind]. rewrite lookup_insert_eq. cbn [mbind option_bind].
    eexists _, _. split; [reflexivity|]. split; [|by split_and!]. split; [done|done|done|intros x; by apply (identity_insert _ _ tl)|].
    intros x Hx. apply lookup_insert_ne. intros ->. apply Hx. rewrite <- Hr. by apply current_runnable. }
  destruct (ok_current _ _ Hok c Hc) as (t & Ht & _). rewrite Ht. cbn [mbind option_bind]. set (s1 := match state t with Blocked | Zombie => _ | _ => _ end).
  assert (Hs1 : exists b, s1 = mkSched (queues (k_sched k)) (current (k_sched k)) (ticks_remaining (k_sched k)) (total_ticks (k_sched k)) b) by (exists (needs_reschedule s1); subst s1; destruct (k_sched k), (state t); cbn in *; congruence).
  destruct Hs1 as (b & E1). clearbody s1. subst s1. set (s1 := mkSched _ _ _ _ b). assert (Hok1 : mlfq_ok (k_tasks k) s1) by by apply mlfq_ok_needs. destruct b.
  - destruct (switch_ok _ s1 c t Hok1 Hc Ht eq_refl Hne) as (l & i & q & tl & _ & _ & Htl & Hlc & -> & Hok' & Hr). cbn [mbind option_bind]. rewrite lookup_insert_eq. cbn [mbind option_bind].
    eexists _, _. split; [reflexivity|]. split; [|by split_and!]. split; [exact Hr|done|done| |]; intros x; cbn [k_tasks set_sched].
    + rewrite (identity_insert _ _ tl) by (by rewrite ?lookup_insert_ne). by apply (identity_insert _ _ t).
    + intros Hx. rewrite !lookup_insert_ne; [done|intros ->; apply Hx; by apply current_runnable|intros ->; apply Hx; change (x ∈ runnable s1); rewrite <- Hr; by apply current_runnable].
  - unfold prepare_switch. cbn [needs_reschedule s1 negb mbind option_bind]. eexists _, _. split; [reflexivity|]. split; [by split|]. cbn. rewrite Hc. by split_and!.
Qed.

Lemma timer_moved k c :
  mlfq_ok (k_tasks k) (k_sched k) -> k_preempt k = 0 -> concat (queues (k_sched k)) <> [] -> current (k_sched k) = Some c ->
  0 <= total_ticks (k_sched k) -> total_ticks (k_sched k) + 1 < 2 ^ 32 ->
  exists k' sw, timer_handler k = Some (k', sw) /\ moved k k' /\ mlfq_ok (k_tasks k') (k_sched k') /\ is_Some (current (k_sched k')) /\ total_ticks (k_sched k') = total_ticks (k_sched k) + 1.
Proof.
  intros Hok Hp Hne Hc Hn0 Hn. unfold timer_handler, sched_tick. cbn [k_tasks k_sched].
  destruct (tick_ok _ _ c Hok Hc Hn0 Hn) as (ts & s & -> & Hok1 & Hq & Hc1 & _ & Htot & _ & Hsame & Hpr & Hrun). cbn [mbind option_bind].
  set (k1 := set_sched _ ts s). destruct (schedule_moved k1) as (k' & sw & -> & Hm & Hok' & Hc' & Htot').
  - exact Hok1.
  - exact Hp.
  - cbn. rewrite Hq. destruct (_ =? 0); [by rewrite concat_boosted|done].
  - cbn. by rewrite Hc1.
  - exists k', sw. split; [done|]. split; [|split_and!; [done|done|rewrite Htot'; exact Htot]]. etrans; [|exact Hm]. split; [exact Hrun|done|done| |].
    2: { intros l Hl. apply Hsame. intros Hq'. apply Hl, elem_of_app. by right. }
    intros l. cbn. destruct (k_tasks k !! l) as [t|] eqn:Et; [destruct (Hpr l t Et) as (p & ->); done|].
    rewrite Hsame; [by rewrite Et|]. intros Hl. apply elem_of_concat in Hl as (i & q & Hi & Hl). destruct (ok_queued _ _ Hok i q l Hi Hl) as (u & Hu & _). congruence.
Qed.

(** The running task is neither blocked nor dead. *)
Definition settled (k : kernel) : Prop :=
  forall c t, current (k_sched k) = Some c -> k_tasks k !! c = Some t -> state t <> Blocked /\ state t <> Zombie.

Lemma schedule_settled k k' sw :
  mlfq_ok (k_tasks k) (k_sched k) -> k_preempt k = 0 -> concat (queues (k_sched k)) <> [] -> schedule k = Some (k', sw) -> settled k'.
Proof.
  intros Hok Hp Hne. unfold schedule. rewrite Hp. cbn [Z.ltb Z.compare]. unfold should_reschedule, settled.
  assert (Hin : forall s c1 sw1 (ts : tasks) s', prepare_switch (k_tasks k) s = Some (ts, s', sw1) -> needs_reschedule s = true -> queues s = queues (k_sched k) ->
    current s' = Some c1 -> exists t, ts !! c1 = Some (with_state t Running)).
  { intros s c1 sw1 ts s' E Hn Hq Hc1. unfold prepare_switch in E. rewrite Hn, Hq in E. cbn [negb] in E. destruct (pick_next _) as [[x qs]|] eqn:Ex; [|by apply pick_next_None in Ex].
    apply bind_Some in E as ([[ts1 qs1] o] & _ & E). apply bind_Some in E as (t & _ & E). apply bind_Some in E as (sl & _ & [= <- <- _]). injection Hc1 as ->. exists t. apply lookup_insert_eq. }
  assert (Hend : forall s ts s' sw1 k2, prepare_switch (k_tasks k) s = Some (ts, s', sw1) ->
    match sw1 with Some (_, inc) => t ← ts !! inc; Some (mkKernel ts (k_table k) s' (k_preempt k) (kernel_stack_top t) (k_ticks k), sw1) | None => Some (set_sched k ts s', None) end = Some (k2, sw) ->
    k_tasks k2 = ts /\ k_sched k2 = s').
  { intros s ts s' sw1 k2 _ E. destruct sw1 as [[o i]|]; [apply bind_Some in E as (t & _ & E)|]; by injection E as <- _. }
  destruct (current (k_sched k)) as [c|] eqn:Hc; cbn [mbind option_bind].
  - destruct (ok_current _ _ Hok c Hc) as (t & Ht & _). rewrite Ht. cbn [mbind option_bind]. intros E. apply bind_Some in E as ([[ts s'] sw1] & Ep & E).
    destruct (Hend _ _ _ _ _ Ep E) as [-> ->]. intros c1 t1 Hc1 Ht1.
    set (s1 := match state t with Blocked | Zombie => _ | _ => _ end) in Ep.
    assert (Hs1 : queues s1 = queues (k_sched k) /\ (state t = Blocked \/ state t = Zombie -> needs_reschedule s1 = true) /\ current s1 = Some c).
    { unfold s1. destruct (state t); split_and!; try done; by intros [?|?]. }
    clearbody s1. destruct Hs1 as (Hq1 & Hn1 & Hc2). destruct (needs_reschedule s1) eqn:En.
    + destruct (Hin _ c1 _ _ _ Ep En) as (u & Hu); [done|done|]. rewrite Hu in Ht1. by injection Ht1 as <-.
    + unfold prepare_switch in Ep. rewrite En in Ep. injection Ep as <- <- _. assert (c1 = c) as -> by congruence. assert (t1 = t) as -> by congruence.
      split; intros Es; assert (false = true) by auto; done.
  - intros E. apply bind_Some in E as ([[ts s'] sw1] & Ep & E). destruct (Hend _ _ _ _ _ Ep E) as [-> ->]. intros c1 t1 Hc1 Ht1.
    destruct (needs_reschedule (k_sched k)) eqn:En.
    + destruct (Hin _ c1 _ _ _ Ep En) as (u & Hu); [done|done|]. rewrite Hu in Ht1. by injection Ht1 as <-.
    + unfold prepare_switch in Ep. rewrite En in Ep. injection Ep as <- <- _. congruence.
Qed.

Lemma timer_settled k k' sw c :
  mlfq_ok (k_tasks k) (k_sched k) -> k_preempt k = 0 -> concat (queues (k_sched k)) <> [] -> current (k_sched k) = Some c ->
  0 <= total_ticks (k_sched k) -> total_ticks (k_sched k) + 1 < 2 ^ 32 -> timer_handler k = Some (k', sw) -> settled k'.
Proof.
  intros Hok Hp Hne Hc Hn0 Hn. unfold timer_handler, sched_tick. cbn [k_tasks k_sched].
  destruct (tick_ok _ _ c Hok Hc Hn0 Hn) as (ts & s & -> & Hok1 & Hq & _). cbn [mbind option_bind]. apply schedule_settled; cbn; [done|done|].
  rewrite Hq. destruct (_ =? 0); [by rewrite concat_boosted|done].
Qed.

(** What [exit] leaves behind. *)
Lemma exit_effect idle k code c t k' sw :
  kernel_ok idle k -> current (k_sched k) = Some c -> k_tasks k !! c = Some t -> c <> idle -> exit k code = Some (k', sw) ->
  k_tasks k' !! c = Some (with_run t Zombie (priority t) (Some code)) /\ k_table k' = k_table k /\
  (forall l u, l <> c -> k_tasks k !! l = Some u -> state u = Zombie -> k_tasks k' !! l = Some u).
Proof.
  intros Hok Hc Ht Hi E. destruct (current_tid_ok idle k Hok) as (c' & t' & Hc' & Ht' & _ & Hct & Htb & _). rewrite Hc in Hc'. injection Hc' as <-. rewrite Ht in Ht'. injection Ht' as <-.
  unfold exit, exit_mark, exit_leave in E. rewrite Hct in E. cbn [mbind option_bind] in E. rewrite Htb, Ht in E. cbn [mbind option_bind] in E.
  pose proof (stop_ok idle k c t Zombie (Some code) Hok Hc Ht Hi ltac:(auto)) as Hpre. set (z := with_run t Zombie (priority t) (Some code)) in *. set (k1 := set_tasks k _) in *.
  assert (Hcz : k_tasks k1 !! c = Some z) by apply lookup_insert_eq. apply bind_Some in E as (k2 & Eu & E).
  assert (Hk2 : kernel_pre idle k2 /\ current (k_sched k2) = Some c /\ k_table k2 = k_table k /\ forall l u, k_tasks k1 !! l = Some u -> state u <> Blocked -> k_tasks k2 !! l = Some u).
  { destruct (parent t) as [p|]; [|by injection Eu as <-]. unfold unblock_pid in Eu. destruct (find_pid k1 p) as [id|]; [|by injection Eu as <-].
    destruct (unblock_ok idle k1 id Hpre) as (k3 & E3 & Hpre3 & Hc3 & Hkeep & Htb3); [intros x u Hx Hu; assert (x = c) as -> by (cbn in Hx; congruence); rewrite Hcz in Hu; by injection Hu as <-|].
    rewrite E3 in Eu. injection Eu as <-. rewrite Hc3, Htb3. done. }
  destruct Hk2 as (Hpre2 & Hc2 & Htb2 & Hkeep). pose proof (kp_sched _ _ Hpre2) as Hm.
  assert (Hsch : forall l u, k_tasks k2 !! l = Some u -> state u = Zombie -> k_tasks k' !! l = Some u /\ k_table k' = k_table k).
  { intros l u Hu Hz. destruct (schedule_keeps _ _ _ l E) as [-> ->]; [|done]. unfold mlfq_remove_current. rewrite Hc2. unfold runnable. cbn [set_sched k_sched current queues option_list app].
    intros Hl. apply elem_of_concat in Hl as (i & q & Hq & Hl). destruct (ok_queued _ _ Hm i q l Hq Hl) as (u' & Hu' & _ & Hr). congruence. }
  destruct (Hsch c z) as [Hz Htbk]; [by apply Hkeep|done|]. split_and!; [done|done|]. intros l u Hl Hu Hzu. apply Hsch; [|done]. apply Hkeep; [|congruence]. cbn. by rewrite lookup_insert_ne.
Qed.

(** A zombie stays as it is until somebody waits for it. *)
Lemma kstep_keeps_zombie idle k op k' l t :
  kernel_ok idle k -> op_ok idle k op -> kstep k op = Some k' -> k_tasks k !! l = Some t -> state t = Zombie -> k_table k !! tid t = Some l ->
  (forall p, op = OWait p -> p <> pid t) -> (forall id, op = OJoin id -> id <> tid t) ->
  k_tasks k' !! l = Some t /\ k_table k' !! tid t = Some l.
Proof.
  intros Hok Hop E Ht Hz Htb Hw Hj. pose proof (zombie_not_runnable idle k l t Hok Ht Hz) as Hl. pose proof Hok as [Hpre _].
  destruct (current_tid_ok idle k Hok) as (c & tc & Hc & Htc & Hsc & Hct & Htbc & Hcr & Hpc). assert (Hlc : l <> c) by congruence.
  assert (Hsch : forall k1 sw, k_table k1 = k_table k -> k_tasks k1 !! l = Some t -> l ∉ runnable (k_sched k1) -> forall k2, schedule k1 = Some (k2, sw) -> k_tasks k2 !! l = Some t /\ k_table k2 !! tid t = Some l).
  { intros k1 sw Htb1 Ht1 Hl1 k2 Es. destruct (schedule_keeps _ _ _ _ Es Hl1) as [-> ->]. by rewrite Htb1. }
  assert (Hblk : forall k1 sw, mark_blocked k (tid tc) = Some k1 -> forall k2, schedule k1 = Some (k2, sw) -> k_tasks k2 !! l = Some t /\ k_table k2 !! tid t = Some l).
  { intros k1 sw Em k2 Es. unfold mark_blocked in Em. rewrite Htbc, Htc in Em. cbn [mbind option_bind] in Em. injection Em as <-. eapply Hsch; [| | |exact Es]; [done| |done]. cbn. by rewrite lookup_insert_ne. }
  assert (Hreap : forall id x u r k1, k_table k !! id = Some x -> k_tasks k !! x = Some u -> id <> tid t -> reap_zombie k id x = Some (r, k1) -> k_tasks k1 !! l = Some t /\ k_table k1 !! tid t = Some l).
  { intros id x u r k1 Hid Hu Hne Er. unfold reap_zombie in Er. rewrite Hu in Er. cbn [mbind option_bind] in Er. destruct (state u); injection Er as _ <-; [done..|]. cbn. by rewrite lookup_delete_ne. }
  destruct op; cbn [kstep op_ok] in *.
  - apply bind_Some in E as ([k1 sw] & E & [= <-]). unfold timer_handler, sched_tick in E. cbn [k_tasks k_sched] in E.
    destruct (tick_ok _ _ c (kp_sched _ _ Hpre) Hc (kp_total _ _ Hpre) Hop) as (ts & s & Et & _ & _ & _ & _ & _ & _ & Hsame & _ & Hrun). rewrite Et in E. cbn [mbind option_bind] in E.
    eapply Hsch; [| | |exact E]; [done| |by cbn; rewrite Hrun]. cbn. rewrite Hsame; [done|]. intros Hq. apply Hl. unfold runnable. apply elem_of_app. by right.
  - apply bind_Some in E as ([k1 sw] & E & [= <-]). eapply Hsch; [| | |exact E]; done.
  - destruct Hop as (Hf & Hft & _). unfold spawn in E. apply bind_Some in E as (k1 & E1 & E). apply bind_Some in E as (s & _ & [= <-]).
    unfold table_insert in E1. cbn in E1. rewrite lookup_insert_eq in E1. injection E1 as <-. cbn. rewrite !lookup_insert_ne by congruence. done.
  - destruct (unblock_ok idle k id Hpre) as (k1 & E1 & _ & _ & Hkeep & Htb1); [intros x u Hx Hu; congruence|]. rewrite E1 in E. injection E as <-. rewrite Htb1. split; [|done]. apply Hkeep; [done|congruence].
  - rewrite Hct in E. cbn [mbind option_bind] in E. apply bind_Some in E as (k1 & Em & E). apply bind_Some in E as ([k2 sw] & Es & [= <-]). exact (Hblk _ _ Em _ Es).
  - apply bind_Some in E as ([[r k1] sw] & E & [= <-]). unfold wait_iter in E. rewrite Hct in E. cbn [mbind option_bind] in E. destruct (find_pid k p) as [id|] eqn:Ef; [|by injection E as _ <- _].
    destruct (find_pid_Some _ _ _ Ef) as (x & u & Hx & Hu & Hpu). rewrite Hx in E. cbn [mbind option_bind] in E. apply bind_Some in E as ([r' k2] & Er & E).
    assert (Hne : id <> tid t). { intros ->. apply (Hw p eq_refl). congruence. }
    destruct r' as [code|]; [injection E as _ <- _; exact (Hreap id x u _ _ ltac:(done) Hu Hne Er)|]. destruct (reap_ok idle k id x u Hok Hx Hu) as (? & ? & Er' & _ & Hk). rewrite Er in Er'. injection Er' as <- <-. rewrite (Hk eq_refl) in E.
    apply bind_Some in E as (k3 & Em & E). apply bind_Some in E as ([k4 sw'] & Es & E). injection E as _ <- _. exact (Hblk _ _ Em _ Es).
  - apply bind_Some in E as ([[r k1] sw] & E & [= <-]). unfold wait_tid_iter in E. rewrite Hct in E. cbn [mbind option_bind] in E. destruct (k_table k !! id) as [x|] eqn:Ex; [|by injection E as _ <- _].
    destruct (rg_table _ _ _ (kp_registry _ _ Hpre) id x Ex) as (u & Hu & Hidu). apply bind_Some in E as ([r' k2] & Er & E). pose proof (Hj id eq_refl) as Hne.
    destruct r' as [code|]; [injection E as _ <- _; exact (Hreap id x u _ _ ltac:(done) Hu Hne Er)|]. destruct (reap_ok idle k id x u Hok Ex Hu) as (? & ? & Er' & _ & Hk). rewrite Er in Er'. injection Er' as <- <-. rewrite (Hk eq_refl) in E.
    apply bind_Some in E as (k3 & Em & E). apply bind_Some in E as ([k4 sw'] & Es & E). injection E as _ <- _. exact (Hblk _ _ Em _ Es).
  - apply bind_Some in E as ([k1 sw] & E & [= <-]). destruct (exit_effect idle k code c tc k1 sw Hok Hc Htc ltac:(congruence) E) as (_ & -> & Hkeep). split; [|done]. by apply Hkeep.
Qed.

(** C22. An exit code is delivered exactly once: after a task exits, and whatever
    the system does meanwhile short of waiting for that task, a join on its
    thread identifier returns the exit code at once and removes it from the
    table, and the next join on it returns -1. *)
Theorem exit_code_reaches_join idle k code c t k1 sw k2 :
  kernel_ok idle k -> current (k_sched k) = Some c -> k_tasks k !! c = Some t -> c <> idle ->
  exit k code = Some (k1, sw) ->
  reach idle (fun op => (forall p, op = OWait p -> p <> pid t) /\ (forall id, op = OJoin id -> id <> tid t)) k1 k2 ->
  exists k3, wait_tid_iter k2 (tid t) = Some (Some code, k3, None) /\ k_table k3 = delete (tid t) (k_table k2) /\
    wait_tid_iter k3 (tid t) = Some (Some (-1), k3, None).
Proof.
  intros Hok Hc Ht Hi E Hr. destruct (exit_ok idle k code Hok ltac:(congruence)) as (k1' & sw' & E' & Hok1). rewrite E in E'. injection E' as <- <-.
  destruct (current_tid_ok idle k Hok) as (c' & t' & Hc' & Ht' & _ & _ & Htb & _). rewrite Hc in Hc'. injection Hc' as <-. rewrite Ht in Ht'. injection Ht' as <-.
  destruct (exit_effect idle k code c t k1 sw Hok Hc Ht Hi E) as (Hz & Htb1 & _). set (z := with_run t Zombie (priority t) (Some code)) in *.
  assert (Hz2 : k_tasks k2 !! c = Some z /\ k_table k2 !! tid z = Some c).
  { clear E. induction Hr as [|k2 op k3 Hr IH Hop [Hp1 Hp2] E]; [by rewrite Htb1|]. destruct IH as [Hz2 Htb2].
    eapply kstep_keeps_zombie; [by eapply reach_ok|exact Hop|exact E|done..]. }
  destruct Hz2 as [Hz2 Htb2]. change (tid z) with (tid t) in Htb2. pose proof (reach_ok _ _ _ _ Hok1 Hr) as Hok2.
  destruct (current_tid_ok idle k2 Hok2) as (c2 & t2 & Hc2 & Ht2 & _ & Hct2 & _).
  exists (table_remove k2 (tid t)). unfold wait_tid_iter. rewrite Hct2. cbn [mbind option_bind]. rewrite Htb2. unfold reap_zombie. rewrite Hz2. cbn [mbind option_bind state z with_run exit_code default].
  split_and!; [done|done|]. assert (current_tid (table_remove k2 (tid t)) = Some (tid t2)) as -> by exact Hct2. cbn. by rewrite lookup_delete_eq.
Qed.

Lemma exit_code_reaches_join_witness :
  exists k0 m' c' t k1 sw k3, sched_init 0x5000 0x6000 0x40000 0x60000 0x1000 0x70000 0x71000 kernel_new ∅ (mkCounters 1 1) = Some (k0, m', c') /\
    k_tasks k0 !! 0x70000 = Some t /\ exit k0 7 = Some (k1, sw) /\
    wait_tid_iter k1 (tid t) = Some (Some 7, k3, None) /\ k_table k3 = delete (tid t) (k_table k1) /\ wait_tid_iter k3 (tid t) = Some (Some (-1), k3, None).
Proof.
  destruct (sched_init_some 0x5000 0x6000 0x40000 0x60000 0x1000 0x70000 0x71000 kernel_new ∅ (mkCounters 1 1)) as (k0 & m' & c' & E); [lia..|].
  destruct (sched_init_ok _ _ _ _ _ _ _ 0 0 _ _ _ _ _ E) as (Hok & Hq & Hc & Ht0); [lia|lia|unfold fits; cbn; lia|].
  destruct (current_tid_ok _ _ Hok) as (c & t & Hc' & Ht & _). rewrite Hc in Hc'. injection Hc' as <-.
  destruct (exit_ok 0x71000 k0 7 Hok) as (k1 & sw & Ex & _); [rewrite Hc; congruence|].
  destruct (exit_code_reaches_join 0x71000 k0 7 0x70000 t k1 sw k1 Hok Hc Ht) as (k3 & H); [lia|exact Ex|apply reach_refl|].
  exists k0, m', c', t, k1, sw, k3. split; [exact E|]. split; [exact Ht|]. split; [exact Ex|exact H].
Defined.

(** A priority beyond the last level is accepted and then fatal: [push]
    files such a task in the last queue, and the switch that picks it up
    indexes the table of time slices out of range. *)
Theorem out_of_range_priority_panics ts s l t :
  ts !! l = Some t -> 8 <= priority t -> current s <> Some l -> length (queues s) = NUM_QUEUES -> concat (queues s) = [] ->
  exists s', push ts s l = Some s' /\ concat (queues s') = [l] /\
    (needs_reschedule s = true -> prepare_switch ts s' = None).
Proof.
  intros Ht Hp Hc Hlen He. unfold push. rewrite Ht. cbn [mbind option_bind]. rewrite (proj2 (Z.ltb_ge (priority t) (Z.of_nat NUM_QUEUES))) by (unfold NUM_QUEUES; lia).
  assert (Hq : concat (push_back (queues s) (NUM_QUEUES - 1) l) ≡ₚ [l]) by (rewrite concat_push_back, He; [done|rewrite Hlen; unfold NUM_QUEUES; lia]).
  apply Permutation_singleton_r in Hq. eexists. split; [reflexivity|]. cbn [queues]. split; [done|]. intros Hn. unfold prepare_switch. cbn [needs_reschedule queues current]. rewrite Hn. cbn [negb].
  destruct (pick_next _) as [[x qs]|] eqn:Ep; [|apply pick_next_None in Ep; congruence].
  apply pick_next_Some in Ep as (i & q & Hi & _). assert (x = l) as ->.
  { assert (Hx : x ∈ concat (push_back (queues s) (NUM_QUEUES - 1) l)) by (apply elem_of_concat; eexists _, _; split; [done|left]). rewrite Hq in Hx. by apply list_elem_of_singleton in Hx. }
  assert (Hin : forall (ts' : tasks) qs' (o : Z), ts' !! l = Some t ->
    (t ← ts' !! l; slice ← TIME_SLICES !! Z.to_nat (priority t);
     Some (<[l := with_state t Running]> ts', mkSched qs' (Some l) slice (total_ticks s) false, Some (o, l))) = None).
  { intros ts' qs' o Ht'. rewrite Ht'. cbn [mbind option_bind]. rewrite lookup_ge_None_2; [done|]. change (length TIME_SLICES) with 8%nat. lia. }
  destruct (current s) as [c|]; cbn [mbind option_bind]; [|by apply Hin].
  destruct (ts !! c) as [tc|]; [|done]. cbn [mbind option_bind]. destruct (uadd 8 (priority tc) 1); [|done]. cbn [mbind option_bind]. apply Hin. rewrite lookup_insert_ne; [done|congruence].
Qed.

Lemma out_of_range_priority_panics_witness :
  let t := with_priority (sample_task 5 0) 9 in let s := mkSched (replicate NUM_QUEUES []) None 0 0 true in
  exists s', push {[64 := t]} s 64 = Some s' /\ concat (queues s') = [64] /\ (needs_reschedule s = true -> prepare_switch {[64 := t]} s' = None).
Proof.
  intros t s. apply (out_of_range_priority_panics {[64 := t]} s 64 t); [apply lookup_singleton_eq|cbn; lia|done|reflexivity|reflexivity].
Defined.
