(* ===== verification/Reaper.v ===== *)
(** The page reaper ([reap_to] and what it calls in [kernel/src/memory/swap.rs]):
    victims from all user address spaces, ordered by how much their task
    exceeds its proportional share, and evicted by the enhanced second-chance
    rule until enough frames are free.

    The state is the kernel's task state, the page tables by their top-level
    frame, the frame pool and the swap area; an [Arc] of a task is its location
    in the store.  The spinlocks taken here disable preemption one statement
    at a time; [reap_to] is modelled as running undisturbed. *)

From S2P Require Import Prelude Crc Bytes X86 Frames Disk Swap Vmm Signal Task Sched.

(* memory/swap.rs:21-22 POOL_MIN *)
Definition POOL_MIN : Z := 64.
Definition POOL_MAX : Z := 256.

Record rstate (T : Type) := mkRs {
  rs_k : kernel;
  rs_tables : gmap Z T;
  rs_pool : frame_pool;
  rs_swap : option SwapPartition
}.
Arguments mkRs {T}.
Arguments rs_k {T}.
Arguments rs_tables {T}.
Arguments rs_pool {T}.
Arguments rs_swap {T}.

(* memory/swap.rs:128-132 Candidate *)
Record Candidate := mkCand { ca_arc : Z; ca_cr3 : Z; ca_vaddr : Z }.

(** What [gather_candidates] collects about a task: the task, its root table,
    its virtual size and its resident pages. *)
Record usage := mkUsage { us_arc : Z; us_cr3 : Z; us_vsize : Z; us_resident : list Z }.

(** The stable sort of the standard library, descending by key: [x], which
    precedes [l], stays before its equals. *)
Fixpoint insert_desc {A} (x : Z * A) (l : list (Z * A)) : list (Z * A) :=
  match l with
  | [] => [x]
  | y :: l => if y.1 <=? x.1 then x :: y :: l else y :: insert_desc x l
  end.
Definition sort_desc {A} (l : list (Z * A)) : list (Z * A) := foldr insert_desc [] l.

Section reaper.
Context `{X86Addr} {T : Type} `{PageTables T}.
Implicit Types s : rstate T.

(** The table whose top level is in the given frame. *)
(* arch/paging.rs:74-78 new_from_frame *)
Definition new_from_frame (tables : gmap Z T) (frame : Z) : option T :=
  _ ← VirtAddr_add PHYS_MEM_OFFSET frame;
  tables !! frame.

(* memory/swap.rs:104-104 evict_addr *)
Definition root_frame (root : Z) : option Z := a ← PhysAddr_new root; Some (containing_address a).
Definition mapper_of (tables : gmap Z T) (root : Z) : option T := f ← root_frame root; new_from_frame tables f.

(* memory/swap.rs:155-161 gather_candidates *)
Fixpoint resident_loop (fuel : nat) (a e : Z) (mapper : T) (resident : list Z) : option (list Z) :=
  if a <? e then
    match fuel with
    | O => None
    | S fuel =>
        let resident := match translate_addr mapper a with Some _ => resident ++ [a] | None => resident end in
        a ← VirtAddr_add a PAGE_SIZE;
        resident_loop fuel a e mapper resident
    end
  else Some resident.

(* memory/swap.rs:151-162 gather_candidates *)
Fixpoint areas_loop (l : list VmArea) (mapper : T) (vsize : Z) (resident : list Z) : option (Z * list Z) :=
  match l with
  | [] => Some (vsize, resident)
  | area :: l =>
      len ← usub 64 (end_ area) (start area);
      vsize ← uadd 64 vsize len;
      resident ← resident_loop (page_steps (start area) (end_ area)) (start area) (end_ area) mapper resident;
      areas_loop l mapper vsize resident
  end.

(* memory/swap.rs:142-166 gather_candidates *)
Fixpoint usage_loop (arcs : list Z) (s : rstate T) (total_vsize : Z) (per_task : list usage) : option (Z * list usage) :=
  match arcs with
  | [] => Some (total_vsize, per_task)
  | arc :: arcs =>
      task ← k_tasks (rs_k s) !! arc;
      if user_entry task =? 0 then usage_loop arcs s total_vsize per_task
      else
        mapper ← mapper_of (rs_tables s) (cr3 task);
        '(vsize, resident) ← areas_loop (areas (vmm task)) mapper 0 [];
        total_vsize ← uadd 64 total_vsize vsize;
        usage_loop arcs s total_vsize (per_task ++ [mkUsage arc (cr3 task) vsize resident])
  end.

(* memory/swap.rs:171-176 gather_candidates *)
Definition excess_of (total_vsize total_resident : Z) (u : usage) : option Z :=
  let share := if 0 <? total_vsize then as_signed 64 (us_vsize u * total_resident / total_vsize) else 0 in
  isub 64 (as_signed 64 (Z.of_nat (length (us_resident u)))) share.

(* memory/swap.rs:169-180 gather_candidates *)
Fixpoint score_loop (per_task : list usage) (total_vsize total_resident : Z) (scored : list (Z * Candidate)) : option (list (Z * Candidate)) :=
  match per_task with
  | [] => Some scored
  | u :: per_task =>
      excess ← excess_of total_vsize total_resident u;
      score_loop per_task total_vsize total_resident
        (scored ++ ((fun vaddr => (excess, mkCand (us_arc u) (us_cr3 u) vaddr)) <$> us_resident u))
  end.

Definition total_resident_of (per_task : list usage) : Z := Z.of_nat (sum_list_with (fun u => length (us_resident u)) per_task).

(* memory/swap.rs:135-184 gather_candidates *)
Definition gather_candidates (s : rstate T) : option (list Candidate) :=
  let arcs := omap (fun t => k_table (rs_k s) !! t) (all_tids (rs_k s)) in
  '(total_vsize, per_task) ← usage_loop arcs s 0 [];
  let total_resident := total_resident_of per_task in
  scored ← score_loop per_task total_vsize total_resident [];
  Some (snd <$> sort_desc scored).

(** The outer option is a panic, the inner one the function's result. *)
(* memory/swap.rs:186-191 read_bits *)
Definition read_bits (tables : gmap Z T) (root vaddr : Z) : option (option (bool * bool)) :=
  mapper ← mapper_of tables root;
  va ← VirtAddr_new vaddr;
  Some ((fun fl => (flag_set fl ACCESSED, flag_set fl DIRTY)) <$> page_flags mapper va).

(* memory/swap.rs:193-197 clear_accessed *)
Definition clear_accessed (tables : gmap Z T) (root vaddr : Z) : option (gmap Z T) :=
  f ← root_frame root;
  mapper ← new_from_frame tables f;
  va ← VirtAddr_new vaddr;
  Some (<[f := mapper_clear_accessed mapper (containing_address va)]> tables).

(** The locked task's [Vmm] and its page table handed to [evict_addr]. *)
(* memory/swap.rs:225-226 reap_to *)
Definition evict_candidate (s : rstate T) (c : Candidate) : option (bool * rstate T) :=
  task ← k_tasks (rs_k s) !! ca_arc c;
  f ← root_frame (ca_cr3 c);
  mapper ← new_from_frame (rs_tables s) f;
  '(ok, m) ← evict_addr (mkMm (vmm task) mapper (rs_pool s) (rs_swap s)) (ca_vaddr c);
  let task := with_space task (cr3 task) (mm_vmm m) (heap_start task) (brk task) in
  Some (ok, mkRs (set_tasks (rs_k s) (<[ca_arc c := task]> (k_tasks (rs_k s)))) (<[f := mm_table m]> (rs_tables s)) (mm_pool m) (mm_swap m)).

(* memory/swap.rs:219-223 reap_to *)
Definition take_page (sweep : nat) (accessed dirty : bool) : bool :=
  match sweep with
  | 0%nat => negb accessed && negb dirty
  | 1%nat => negb accessed
  | _ => true
  end.

Definition free_frames (s : rstate T) : Z := free_count (p_fl (rs_pool s)).

(** One sweep.  The result is the count, the progress flag, whether the sweeps
    are left by the [break], and the state. *)
(* memory/swap.rs:217-237 reap_to *)
Fixpoint sweep_loop (sweep : nat) (cs : list Candidate) (target_free reaped : Z) (progress : bool) (s : rstate T)
  : option (Z * bool * bool * rstate T) :=
  match cs with
  | [] => Some (reaped, progress, false, s)
  | c :: cs =>
      bits ← read_bits (rs_tables s) (ca_cr3 c) (ca_vaddr c);
      match bits with
      | None => sweep_loop sweep cs target_free reaped progress s
      | Some (accessed, dirty) =>
          if take_page sweep accessed dirty then
            '(ok, s) ← evict_candidate s c;
            if (ok : bool) then
              reaped ← uadd 64 reaped 1;
              if target_free <=? free_frames s then Some (reaped, true, true, s)
              else sweep_loop sweep cs target_free reaped true s
            else sweep_loop sweep cs target_free reaped progress s
          else if accessed && (1 <=? sweep)%nat then
            tables ← clear_accessed (rs_tables s) (ca_cr3 c) (ca_vaddr c);
            sweep_loop sweep cs target_free reaped progress (mkRs (rs_k s) tables (rs_pool s) (rs_swap s))
          else sweep_loop sweep cs target_free reaped progress s
      end
  end.

(* memory/swap.rs:216-238 reap_to *)
Fixpoint sweeps_loop (ks : list nat) (cs : list Candidate) (target_free reaped : Z) (progress : bool) (s : rstate T)
  : option (Z * bool * rstate T) :=
  match ks with
  | [] => Some (reaped, progress, s)
  | sweep :: ks =>
      '(reaped, progress, stop, s) ← sweep_loop sweep cs target_free reaped progress s;
      if (stop : bool) then Some (reaped, progress, s) else sweeps_loop ks cs target_free reaped progress s
  end.

(* memory/swap.rs:205-243 reap_to *)
Fixpoint reap_loop (fuel : nat) (target_free reaped : Z) (s : rstate T) : option (Z * rstate T) :=
  if target_free <=? free_frames s then Some (reaped, s)
  else
    match fuel with
    | O => None
    | S fuel =>
        candidates ← gather_candidates s;
        match candidates with
        | [] => Some (reaped, s)
        | _ :: _ =>
            '(reaped, progress, s) ← sweeps_loop [0%nat; 1%nat; 2%nat] candidates target_free reaped false s;
            if (progress : bool) then reap_loop fuel target_free reaped s else Some (reaped, s)
        end
    end.

(** Every round but the last frees a frame, so the target bounds the rounds. *)
(* memory/swap.rs:202-246 reap_to *)
Definition reap_to (target_free : Z) (s : rstate T) : option (Z * rstate T) := reap_loop (Z.to_nat target_free) target_free 0 s.

(* memory/swap.rs:248-252 reap_if_needed *)
Definition reap_if_needed (s : rstate T) : option (rstate T) :=
  if free_frames s <? POOL_MIN then '(_, s) ← reap_to POOL_MAX s; Some s else Some s.

(** One turn of the loop of the reaper thread. *)
(* memory/swap.rs:256-261 reaper_main *)
Definition reaper_turn (s : rstate T) : option (rstate T * option (Z * Z)) :=
  s ← reap_if_needed s;
  '(k, sw) ← schedule (rs_k s);
  Some (mkRs k (rs_tables s) (rs_pool s) (rs_swap s), sw).

End reaper.

(** ** The victim list *)

Lemma insert_desc_perm {A} (x : Z * A) l : insert_desc x l ≡ₚ x :: l.
Proof. induction l as [|y l IH]; simpl; [done|]. destruct (y.1 <=? x.1); [done|]. rewrite IH. constructor. Qed.

Lemma sort_desc_perm {A} (l : list (Z * A)) : sort_desc l ≡ₚ l.
Proof. induction l as [|x l IH]; [done|]. simpl. by rewrite insert_desc_perm, IH. Qed.

Definition key_ge {A} (x y : Z * A) : Prop := y.1 <= x.1.

Lemma insert_desc_sorted {A} (x : Z * A) l : StronglySorted key_ge l -> StronglySorted key_ge (insert_desc x l).
Proof.
  induction 1 as [|y l Hs IH Hy]; simpl; [repeat constructor|]. destruct (Z.leb_spec y.1 x.1).
  - constructor; [by constructor|]. constructor; [done|]. eapply Forall_impl; [exact Hy|]. unfold key_ge. intros ? ?; simpl in *; lia.
  - constructor; [done|]. rewrite insert_desc_perm. constructor; [unfold key_ge; lia|done].
Qed.

Lemma sort_desc_sorted {A} (l : list (Z * A)) : StronglySorted key_ge (sort_desc l).
Proof. induction l; simpl; [constructor|by apply insert_desc_sorted]. Qed.

(** Elements with equal keys keep their order. *)
Lemma sort_desc_stable {A} (l : list (Z * A)) k : filter (fun x => x.1 = k) (sort_desc l) = filter (fun x => x.1 = k) l.
Proof.
  assert (Hi : forall x (l : list (Z * A)), filter (fun y => y.1 = k) (insert_desc x l) = filter (fun y => y.1 = k) (x :: l)).
  { intros x l0. induction l0 as [|y l0 IH]; [done|]. simpl. destruct (Z.leb_spec y.1 x.1); [done|].
    rewrite filter_cons, IH, !filter_cons. repeat case_decide; try done. lia. }
  induction l as [|x l IH]; [done|]. simpl sort_desc. rewrite Hi, !filter_cons, IH. done.
Qed.

Section gather.
Context `{X86Addr} {T : Type} `{PageTables T}.
Implicit Types s : rstate T.

Definition page_list (lo hi : Z) : list Z := (fun i => lo + 4096 * Z.of_nat i) <$> seq 0 (page_steps lo hi).
Definition resident_in (tb : T) (q : Z) : Prop := is_Some (entry tb q).
#[local] Instance resident_in_dec tb q : Decision (resident_in tb q).
Proof. unfold resident_in. apply _. Defined.
Definition area_resident (tb : T) (a : VmArea) : list Z := filter (resident_in tb) (page_list (start a) (end_ a)).
Definition space_resident (tb : T) (la : list VmArea) : list Z := la ≫= area_resident tb.
Definition span (la : list VmArea) : Z := foldr (fun a n => end_ a - start a + n) 0 la.
Definition area_fits (a : VmArea) : Prop := low_aligned a /\ start a <= end_ a.


Lemma page_steps_none lo hi : hi <= lo -> page_steps lo hi = 0%nat.
Proof. intros Hle. unfold page_steps. assert ((hi - lo + 4095) / 4096 < 1) by (apply Z.div_lt_upper_bound; lia). lia. Qed.

Lemma page_list_cons lo hi : lo < hi -> page_list lo hi = lo :: page_list (lo + 4096) hi.
Proof.
  intros Hlt. unfold page_list. rewrite page_steps_S by done. simpl seq. rewrite fmap_cons. f_equal; [lia|].
  rewrite <- fmap_S_seq, <- list_fmap_compose. apply list_fmap_ext. intros i x _. simpl. lia.
Qed.

Lemma elem_of_page_list lo hi q : (4096 | lo) -> q ∈ page_list lo hi <-> (4096 | q) /\ lo <= q < hi.
Proof.
  intros Hlo. unfold page_list. rewrite list_elem_of_fmap. setoid_rewrite elem_of_seq. split.
  - intros (i & -> & Hi). split; [apply Z.divide_add_r; [done|by exists (Z.of_nat i); lia]|].
    destruct (decide (hi <= lo)) as [Hle|Hlt]; [rewrite page_steps_none in Hi by done; lia|].
    unfold page_steps in Hi. pose proof (Z.mul_div_le (hi - lo + 4095) 4096). lia.
  - intros [[a Hq] Hb]. destruct Hlo as [b Hlo]. exists (Z.to_nat (a - b)). split; [lia|]. unfold page_steps.
    assert (a - b + 1 <= (hi - lo + 4095) / 4096) by (apply Z.div_le_lower_bound; lia). lia.
Qed.

Lemma NoDup_page_list lo hi : NoDup (page_list lo hi).
Proof. apply NoDup_fmap_2; [intros ???; lia|apply NoDup_seq]. Qed.

Lemma resident_loop_spec fuel a e (tb : T) acc :
  (page_steps a e <= fuel)%nat -> (4096 | a) -> 0 <= a -> e + 4096 < 2 ^ 47 ->
  resident_loop fuel a e tb acc = Some (acc ++ filter (resident_in tb) (page_list a e)).
Proof.
  revert a acc. induction fuel as [|fuel IH]; intros a acc Hf Hal Hnn He; cbn [resident_loop]; destruct (Z.ltb_spec a e) as [Hlt|Hge].
  1: rewrite page_steps_S in Hf by done; lia.
  1, 3: unfold page_list; rewrite page_steps_none by done; simpl; by rewrite app_nil_r.
  rewrite page_steps_S in Hf by done. change PAGE_SIZE with 4096. rewrite VirtAddr_add_low by lia. cbn [mbind option_bind].
  rewrite IH; [|lia|apply Z.divide_add_r; [done|by exists 1]|lia|done].
  rewrite translate_addr_aligned, (page_list_cons a e), filter_cons by done. f_equal.
  destruct (entry tb a) as [[f fl]|] eqn:Ea; simpl.
  - rewrite decide_True by (unfold resident_in; rewrite Ea; eauto). by rewrite <- (assoc_L (++)).
  - rewrite decide_False by (unfold resident_in; rewrite Ea; by intros []). done.
Qed.

Lemma span_nonneg la : Forall area_fits la -> 0 <= span la.
Proof. induction 1 as [|a la [_ ?]]; simpl; lia. Qed.

Lemma areas_loop_spec la (tb : T) vs acc :
  Forall area_fits la -> 0 <= vs -> vs + span la < 2 ^ 64 ->
  areas_loop la tb vs acc = Some (vs + span la, acc ++ space_resident tb la).
Proof.
  intros Hla. revert vs acc. induction Hla as [|a la [(Hal & Hnn & Hmax) Hle] Hla IH]; intros vs acc Hvs Hb; cbn [areas_loop span foldr].
  { simpl. by rewrite Z.add_0_r, app_nil_r. }
  pose proof (span_nonneg la Hla). simpl in Hb. fold (span la) in Hb |- *. unfold usub, uadd.
  rewrite uchk_fits by (unfold fits; lia). cbn [mbind option_bind].
  rewrite uchk_fits by (unfold fits; lia). cbn [mbind option_bind]. rewrite resident_loop_spec by done. cbn [mbind option_bind].
  rewrite IH by lia. unfold space_resident. simpl. f_equal. f_equal; [lia|]. unfold area_resident. by rewrite (assoc_L (++)).
Qed.

Lemma page_list_length lo hi : lo <= hi -> Z.of_nat (length (page_list lo hi)) <= hi - lo.
Proof.
  intros Hle. unfold page_list. rewrite length_fmap, length_seq. unfold page_steps.
  assert ((hi - lo + 4095) / 4096 < hi - lo + 1) by (apply Z.div_lt_upper_bound; lia). lia.
Qed.

Lemma space_resident_length (tb : T) la : Forall area_fits la -> Z.of_nat (length (space_resident tb la)) <= span la.
Proof.
  induction 1 as [|a la [_ Hle] _ IH]; simpl; [lia|]. rewrite length_app. fold (space_resident tb la).
  pose proof (length_filter (resident_in tb) (page_list (start a) (end_ a))) as Hlf. pose proof (page_list_length (start a) (end_ a) Hle).
  unfold area_resident. lia.
Qed.

Lemma elem_of_space_resident (tb : T) la q :
  Forall area_fits la -> q ∈ space_resident tb la <-> (4096 | q) /\ (exists a, a ∈ la /\ in_area q a = true) /\ is_Some (entry tb q).
Proof.
  intros Hla. rewrite Forall_forall in Hla. unfold space_resident, area_resident. rewrite list_elem_of_bind. split.
  - intros (a & Hq & Ha). apply list_elem_of_filter in Hq as [Hr Hq]. destruct (Hla a Ha) as [(Hal & _) _].
    apply elem_of_page_list in Hq as [Hq Hb]; [|done]. split_and!; [done| |done]. exists a. by rewrite in_area_iff.
  - intros (Hq & (a & Ha & Hin) & Hr). exists a. split; [|done]. apply list_elem_of_filter. split; [done|].
    destruct (Hla a Ha) as [(Hal & _) _]. apply elem_of_page_list; [done|]. by rewrite in_area_iff in Hin.
Qed.

(** ** Address spaces *)

Definition arcs_of (k : kernel) : list Z := omap (fun t => k_table k !! t) (all_tids k).

(** The root frame, the page table and the task of a user task. *)
Definition user_space s (l : Z) : option (Z * T * Task) :=
  t ← k_tasks (rs_k s) !! l;
  if user_entry t =? 0 then None
  else f ← root_frame (cr3 t); tb ← new_from_frame (rs_tables s) f; Some (f, tb, t).

Definition usage_of s (l : Z) : option usage :=
  '(_, tb, t) ← user_space s l;
  Some (mkUsage l (cr3 t) (span (areas (vmm t))) (space_resident tb (areas (vmm t)))).

Definition total_span (us : list usage) : Z := foldr (fun u n => us_vsize u + n) 0 us.

(** The areas of a user task are disjoint ranges of pages of the lower half,
    and its root table exists. *)
Record space_fits (tables : gmap Z T) (t : Task) : Prop := mkSpaceFits {
  sf_root : 0 <= cr3 t < 2 ^ 46;
  sf_table : is_Some (tables !! containing_address (cr3 t));
  sf_areas : Forall area_fits (areas (vmm t));
  sf_disjoint : disjoint_areas (areas (vmm t))
}.

Record spaces_ok s : Prop := mkSpacesOk {
  so_tasks : forall l, l ∈ arcs_of (rs_k s) ->
    exists t, k_tasks (rs_k s) !! l = Some t /\ (user_entry t <> 0 -> space_fits (rs_tables s) t);
  so_span : total_span (omap (usage_of s) (arcs_of (rs_k s))) < 2 ^ 63
}.

Lemma root_frame_ok r : 0 <= r < 2 ^ 46 -> root_frame r = Some (containing_address r).
Proof. intros Hr. unfold root_frame. rewrite PhysAddr_new_ok by lia. done. Qed.

Lemma containing_bounds r : containing_address r <= r < containing_address r + 4096.
Proof. rewrite containing_address_spec. pose proof (Z.mod_pos_bound r 4096). pose proof (Z.div_mod r 4096). lia. Qed.

Lemma new_from_frame_ok (tables : gmap Z T) r : 0 <= r < 2 ^ 46 -> new_from_frame tables (containing_address r) = tables !! containing_address r.
Proof.
  intros Hr. unfold new_from_frame. pose proof (containing_bounds r) as Hc.
  assert (0 <= containing_address r) by (rewrite containing_address_spec; apply Z.mul_nonneg_nonneg; [apply Z.div_pos; lia|lia]).
  rewrite VirtAddr_add_high by (unfold PHYS_MEM_OFFSET; lia). done.
Qed.

Lemma user_space_ok s l t :
  k_tasks (rs_k s) !! l = Some t -> user_entry t <> 0 -> space_fits (rs_tables s) t ->
  exists tb, rs_tables s !! containing_address (cr3 t) = Some tb /\ mapper_of (rs_tables s) (cr3 t) = Some tb /\
    user_space s l = Some (containing_address (cr3 t), tb, t).
Proof.
  intros Ht Hu [Hr [tb Htb] _ _]. exists tb. unfold user_space, mapper_of. rewrite Ht. cbn [mbind option_bind].
  rewrite (proj2 (Z.eqb_neq _ _) Hu), root_frame_ok by done. cbn [mbind option_bind]. rewrite new_from_frame_ok by done. rewrite Htb. done.
Qed.

Lemma user_space_Some s l f tb t :
  spaces_ok s -> l ∈ arcs_of (rs_k s) -> user_space s l = Some (f, tb, t) ->
  k_tasks (rs_k s) !! l = Some t /\ user_entry t <> 0 /\ f = containing_address (cr3 t) /\ rs_tables s !! f = Some tb /\
  space_fits (rs_tables s) t.
Proof.
  intros [Hs _] Hl E. destruct (Hs l Hl) as (t' & Ht & Hfit). pose proof E as E0. unfold user_space in E. rewrite Ht in E. cbn [mbind option_bind] in E.
  destruct (Z.eqb_spec (user_entry t') 0) as [|Hu]; [done|]. specialize (Hfit Hu).
  destruct (user_space_ok s l t' Ht Hu Hfit) as (tb' & Htb & _ & E'). rewrite E' in E0. by injection E0 as <- <- <-.
Qed.

Lemma total_span_app us us' : total_span (us ++ us') = total_span us + total_span us'.
Proof. induction us as [|u us IH]; simpl; [done|]. rewrite IH. lia. Qed.

Lemma usage_nonneg s arcs :
  spaces_ok s -> (forall l, l ∈ arcs -> l ∈ arcs_of (rs_k s)) ->
  Forall (fun u => 0 <= Z.of_nat (length (us_resident u)) <= us_vsize u) (omap (usage_of s) arcs).
Proof.
  intros Hok Harcs. apply Forall_forall. intros u Hu. apply list_elem_of_omap in Hu as (l & Hl & E). unfold usage_of in E.
  destruct (user_space s l) as [[[f tb] t]|] eqn:Eu; [|done]. cbn [mbind option_bind] in E. injection E as <-.
  destruct (user_space_Some _ _ _ _ _ Hok (Harcs _ Hl) Eu) as (_ & _ & _ & _ & Hfit). simpl. split; [lia|]. apply space_resident_length, Hfit.
Qed.

Lemma total_span_bound us u :
  Forall (fun u => 0 <= Z.of_nat (length (us_resident u)) <= us_vsize u) us ->
  0 <= total_resident_of us <= total_span us /\ (u ∈ us -> 0 <= us_vsize u <= total_span us).
Proof.
  unfold total_resident_of. induction 1 as [|u' us Hu' Hus [IH1 IH2]]; simpl; [split; [lia|by intros ?%not_elem_of_nil]|].
  split; [lia|]. intros [->|Hin]%elem_of_cons; [lia|]. specialize (IH2 Hin). lia.
Qed.

Lemma usage_loop_spec s arcs tv us :
  spaces_ok s -> (forall l, l ∈ arcs -> l ∈ arcs_of (rs_k s)) -> 0 <= tv -> tv + total_span (omap (usage_of s) arcs) < 2 ^ 63 ->
  usage_loop arcs s tv us = Some (tv + total_span (omap (usage_of s) arcs), us ++ omap (usage_of s) arcs).
Proof.
  intros Hok. revert tv us. induction arcs as [|l arcs IH]; intros tv us Harcs Htv Hb; cbn [usage_loop].
  { simpl. by rewrite Z.add_0_r, app_nil_r. }
  destruct (so_tasks _ Hok l) as (t & Ht & Hfit); [apply Harcs; by constructor|]. rewrite Ht. cbn [mbind option_bind].
  assert (Harcs' : forall l, l ∈ arcs -> l ∈ arcs_of (rs_k s)) by (intros; apply Harcs; by constructor).
  assert (Hus := usage_nonneg s arcs Hok Harcs'). destruct (total_span_bound _ (mkUsage 0 0 0 []) Hus) as [Hsp _].
  destruct (Z.eqb_spec (user_entry t) 0) as [E0|Hu].
  { assert (Hn : usage_of s l = None) by (unfold usage_of, user_space; rewrite Ht; cbn [mbind option_bind]; by rewrite E0).
    assert (Eo : omap (usage_of s) (l :: arcs) = omap (usage_of s) arcs) by (cbn; by rewrite Hn). rewrite Eo in *. by apply IH. }
  specialize (Hfit Hu). destruct (user_space_ok s l t Ht Hu Hfit) as (tb & _ & Em & Es).
  assert (Eu : usage_of s l = Some (mkUsage l (cr3 t) (span (areas (vmm t))) (space_resident tb (areas (vmm t))))) by (unfold usage_of; by rewrite Es).
  assert (Eo : omap (usage_of s) (l :: arcs) = mkUsage l (cr3 t) (span (areas (vmm t))) (space_resident tb (areas (vmm t))) :: omap (usage_of s) arcs)
    by (cbn; by rewrite Eu).
  rewrite Eo in *. simpl in Hb. pose proof (span_nonneg _ (sf_areas _ _ Hfit)). rewrite Em. cbn [mbind option_bind].
  rewrite areas_loop_spec by (try apply Hfit; lia). cbn [mbind option_bind]. unfold uadd. rewrite uchk_fits by (unfold fits; lia). cbn [mbind option_bind].
  rewrite IH by (try done; lia). simpl. rewrite <- (assoc_L (++)). simpl. f_equal. f_equal. lia.
Qed.

(** The resident pages of user tasks, in order of task and address; and by how
    much a task exceeds its share of them. *)
Definition usages s : list usage := omap (usage_of s) (arcs_of (rs_k s)).
Definition usage_pages (u : usage) : list Candidate := mkCand (us_arc u) (us_cr3 u) <$> us_resident u.
Definition all_pages s : list Candidate := usages s ≫= usage_pages.
Definition excess_at s (l : Z) : Z :=
  match usage_of s l with
  | Some u => Z.of_nat (length (us_resident u)) - us_vsize u * total_resident_of (usages s) / total_span (usages s)
  | None => 0
  end.

Lemma usages_bounds s : spaces_ok s ->
  0 <= total_resident_of (usages s) <= total_span (usages s) /\ total_span (usages s) < 2 ^ 63 /\
  forall u, u ∈ usages s -> usage_of s (us_arc u) = Some u /\ 0 <= us_vsize u <= total_span (usages s) /\
    0 <= Z.of_nat (length (us_resident u)) <= us_vsize u.
Proof.
  intros Hok. assert (Hn := usage_nonneg s (arcs_of (rs_k s)) Hok (fun l Hl => Hl)). fold (usages s) in Hn.
  split; [apply (total_span_bound _ (mkUsage 0 0 0 []) Hn)|]. split; [apply Hok|]. intros u Hu. split_and!.
  - pose proof Hu as Hu'. apply list_elem_of_omap in Hu' as (l & _ & E). pose proof E as E'. unfold usage_of in E'.
    destruct (user_space s l) as [[[f tb] t]|]; [|done]. injection E' as <-. exact E.
  - apply (total_span_bound _ u Hn), Hu.
  - apply (total_span_bound _ u Hn), Hu.
  - rewrite Forall_forall in Hn. by apply Hn.
  - rewrite Forall_forall in Hn. by apply Hn.
Qed.

(** No score overflows: a share is at most the number of resident pages. *)
Lemma excess_of_ok s u : spaces_ok s -> u ∈ usages s ->
  excess_of (total_span (usages s)) (total_resident_of (usages s)) u = Some (excess_at s (us_arc u)).
Proof.
  intros Hok Hu. destruct (usages_bounds s Hok) as (Hr & Hs & Hb). destruct (Hb u Hu) as (Eu & Hv & Hl). unfold excess_of, excess_at. rewrite Eu.
  set (tr := total_resident_of _) in *. set (tv := total_span _) in *.
  rewrite as_signed_small by lia. destruct (Z.ltb_spec 0 tv) as [Hpos|Hz].
  - assert (0 <= us_vsize u * tr / tv <= tr).
    { split; [apply Z.div_pos; nia|]. apply Z.div_le_upper_bound; [lia|]. nia. }
    rewrite as_signed_small by lia. apply isub_ok. lia.
  - assert (tv = 0) as -> by lia. rewrite Z.div_0_r. apply isub_ok. lia.
Qed.

Lemma score_loop_spec s us scored : spaces_ok s -> (forall u, u ∈ us -> u ∈ usages s) ->
  score_loop us (total_span (usages s)) (total_resident_of (usages s)) scored =
    Some (scored ++ ((fun c => (excess_at s (ca_arc c), c)) <$> (us ≫= usage_pages))).
Proof.
  intros Hok. revert scored. induction us as [|u us IH]; intros scored Hus; cbn [score_loop].
  { simpl. by rewrite app_nil_r. }
  rewrite excess_of_ok by (done || apply Hus; by constructor). cbn [mbind option_bind].
  rewrite IH by (intros; apply Hus; by constructor). simpl. rewrite fmap_app, (assoc_L (++)). unfold usage_pages at 2.
  by rewrite <- list_fmap_compose.
Qed.

Lemma decorated_keys {A} (g : A -> Z) (l : list A) x : x ∈ sort_desc ((fun c => (g c, c)) <$> l) -> x.1 = g x.2.
Proof. rewrite sort_desc_perm. intros (c & -> & _)%list_elem_of_fmap. done. Qed.

Lemma sorted_by_key {A} (g : A -> Z) (l : list (Z * A)) : (forall x, x ∈ l -> x.1 = g x.2) ->
  StronglySorted key_ge l -> StronglySorted (fun c c' => g c' <= g c) (snd <$> l).
Proof.
  intros Hg. induction 1 as [|x l Hs IH Hx]; simpl; constructor.
  - apply IH. intros; apply Hg; by constructor.
  - apply Forall_fmap, Forall_forall. intros y Hy. rewrite Forall_forall in Hx. specialize (Hx y Hy). unfold key_ge in Hx. simpl.
    rewrite <- !Hg by (by constructor). done.
Qed.

Lemma filter_by_key {A} (g : A -> Z) (l : list (Z * A)) k : (forall x, x ∈ l -> x.1 = g x.2) ->
  filter (fun c => g c = k) (snd <$> l) = snd <$> filter (fun x => x.1 = k) l.
Proof.
  intros Hg. induction l as [|x l IH]; [done|]. rewrite fmap_cons, !filter_cons, IH by (intros; apply Hg; by constructor).
  rewrite (Hg x) by constructor. by case_decide.
Qed.

Lemma gather_spec s : spaces_ok s ->
  exists cs, gather_candidates s = Some cs /\ cs ≡ₚ all_pages s /\
    StronglySorted (fun c c' => excess_at s (ca_arc c') <= excess_at s (ca_arc c)) cs /\
    forall k, filter (fun c => excess_at s (ca_arc c) = k) cs = filter (fun c => excess_at s (ca_arc c) = k) (all_pages s).
Proof.
  intros Hok. unfold gather_candidates. fold (arcs_of (rs_k s)).
  rewrite usage_loop_spec by (done || apply Hok). cbn [mbind option_bind]. rewrite Z.add_0_l. simpl app. fold (usages s).
  rewrite score_loop_spec by done. cbn [mbind option_bind]. simpl app. fold (all_pages s).
  eexists. split; [done|]. assert (Hk := decorated_keys (fun c => excess_at s (ca_arc c)) (all_pages s)). split_and!.
  - rewrite sort_desc_perm, <- list_fmap_compose. apply reflexive_eq. apply list_fmap_id.
  - by apply (sorted_by_key (fun c => excess_at s (ca_arc c))), sort_desc_sorted.
  - intros k. rewrite (filter_by_key (fun c => excess_at s (ca_arc c))), sort_desc_stable by done.
    rewrite <- (filter_by_key (fun c => excess_at s (ca_arc c))), <- list_fmap_compose by (by intros ? (c & -> & _)%list_elem_of_fmap).
    f_equal. apply list_fmap_id.
Qed.

(** ** What the reaper preserves *)

Definition AD : Z := Z.lor ACCESSED DIRTY.

(** [c] names a page of an area of a user task. *)
Definition cand_ok s (c : Candidate) : Prop :=
  ca_arc c ∈ arcs_of (rs_k s) /\ (4096 | ca_vaddr c) /\
  exists t, k_tasks (rs_k s) !! ca_arc c = Some t /\ user_entry t <> 0 /\ cr3 t = ca_cr3 c /\
    exists a, a ∈ areas (vmm t) /\ in_area (ca_vaddr c) a = true.

Definition page_entry s (l q : Z) : option (Z * Z) := '(_, tb, _) ← user_space s l; entry tb q.
Definition page_record s (l q : Z) : option (Z * Z) := '(_, _, t) ← user_space s l; swapped (vmm t) !! q.

(** The bytes and the permissions of a page, wherever they are kept; [pages] are
    the contents of the swap slots. *)
Definition page_view s (pages : gmap nat (list Z)) (l q : Z) : option (list Z * Z) :=
  match page_entry s l q with
  | Some (f, fl) => Some (read_bytes (p_mem (rs_pool s)) (PHYS_MEM_OFFSET + f) PAGE_BYTES, flag_clear fl AD)
  | None => r ← page_record s l q; (fun pg => (pg, flag_clear r.2 AD)) <$> pages !! Z.to_nat r.1
  end.

(** The state the reaper works on: user tasks have distinct root tables, no two
    of their pages share a frame, no page is both resident and in swap, and no
    frame of a page is on the free list. *)
Record reap_ok s (pages : gmap nat (list Z)) (free : list Z) : Prop := mkReapOk {
  ro_spaces : spaces_ok s;
  ro_swap : exists sw, rs_swap s = Some sw /\ swap_rep sw pages;
  ro_pool : pool_at (rs_pool s) free;
  ro_arcs : NoDup (arcs_of (rs_k s));
  ro_roots l l' f tb t f' tb' t' : l ∈ arcs_of (rs_k s) -> l' ∈ arcs_of (rs_k s) ->
    user_space s l = Some (f, tb, t) -> user_space s l' = Some (f', tb', t') -> f = f' -> l = l';
  ro_owned c f fl : cand_ok s c -> page_entry s (ca_arc c) (ca_vaddr c) = Some (f, fl) ->
    (4096 | f) /\ 0 < f < 2 ^ 46 /\ (f ∉ free) /\ page_record s (ca_arc c) (ca_vaddr c) = None;
  ro_apart c c' f fl fl' : cand_ok s c -> cand_ok s c' ->
    page_entry s (ca_arc c) (ca_vaddr c) = Some (f, fl) -> page_entry s (ca_arc c') (ca_vaddr c') = Some (f, fl') ->
    ca_arc c = ca_arc c' /\ ca_vaddr c = ca_vaddr c';
  ro_slots c slot fl : cand_ok s c -> page_record s (ca_arc c) (ca_vaddr c) = Some (slot, fl) ->
    exists n, slot = Z.of_nat n /\ is_Some (pages !! n)
}.

(** Everything of a task but its swap records. *)
Definition static (t : Task) : Task * list VmArea := (with_space t (cr3 t) vmm_new (heap_start t) (brk t), areas (vmm t)).

(** [n] frames are freed and nothing a program can observe changes. *)
Record reap_step s (pages : gmap nat (list Z)) (free : list Z) s' (pages' : gmap nat (list Z)) (free' : list Z) (n : nat) : Prop := mkReapStep {
  rp_kernel : rs_k s' = set_tasks (rs_k s) (k_tasks (rs_k s'));
  rp_static l : static <$> (k_tasks (rs_k s') !! l) = static <$> (k_tasks (rs_k s) !! l);
  rp_ok : reap_ok s' pages' free';
  rp_len : length free' = (length free + n)%nat;
  rp_view c : cand_ok s c -> page_view s' pages' (ca_arc c) (ca_vaddr c) = page_view s pages (ca_arc c) (ca_vaddr c);
  rp_idle : n = 0%nat -> rs_swap s' = rs_swap s /\
    forall c, cand_ok s c -> fst <$> page_entry s' (ca_arc c) (ca_vaddr c) = fst <$> page_entry s (ca_arc c) (ca_vaddr c)
}.

Lemma arcs_of_set_tasks k ts : arcs_of (set_tasks k ts) = arcs_of k.
Proof. done. Qed.

Lemma static_inv t t' : static t = static t' -> user_entry t = user_entry t' /\ cr3 t = cr3 t' /\ areas (vmm t) = areas (vmm t').
Proof. intros E. injection E. done. Qed.

Lemma cand_ok_static s s' c :
  rs_k s' = set_tasks (rs_k s) (k_tasks (rs_k s')) -> (forall l, static <$> k_tasks (rs_k s') !! l = static <$> k_tasks (rs_k s) !! l) ->
  cand_ok s c -> cand_ok s' c.
Proof.
  intros Hk Hst (Hl & Hq & t & Ht & Hu & Hc & Ha). split; [by rewrite Hk|]. split; [done|]. specialize (Hst (ca_arc c)). rewrite Ht in Hst.
  destruct (k_tasks (rs_k s') !! ca_arc c) as [t'|]; [|done]. exists t'. apply (inj Some), static_inv in Hst as (Eu & Ec & Ea).
  rewrite Eu, Ec, Ea. done.
Qed.

Lemma step_cand_ok s pages free s' pages' free' n c : reap_step s pages free s' pages' free' n -> cand_ok s' c <-> cand_ok s c.
Proof.
  intros [Hk Hst _ _ _ _]. split; [|by apply cand_ok_static]. apply cand_ok_static; [|intros; by rewrite Hst].
  rewrite Hk. unfold set_tasks. simpl. by destruct (rs_k s).
Qed.

Lemma reap_step_refl s pages free : reap_ok s pages free -> reap_step s pages free s pages free 0.
Proof. intros Hok. split; try done; first [lia | by destruct s as [[] ? ? ?]]. Qed.

Lemma reap_step_trans s pages free s1 pages1 free1 n1 s2 pages2 free2 n2 :
  reap_step s pages free s1 pages1 free1 n1 -> reap_step s1 pages1 free1 s2 pages2 free2 n2 ->
  reap_step s pages free s2 pages2 free2 (n1 + n2).
Proof.
  intros H1 H2. pose proof (fun c => step_cand_ok _ _ _ _ _ _ _ c H1) as Hc. destruct H1 as [Hk1 Hs1 _ Hl1 Hv1 Hi1], H2 as [Hk2 Hs2 Ho2 Hl2 Hv2 Hi2]. split.
  - rewrite Hk2, Hk1. done.
  - intros l. by rewrite Hs2.
  - done.
  - lia.
  - intros c Hok. rewrite Hv2 by (by apply Hc). by apply Hv1.
  - intros Hz. destruct Hi1 as [Ei1 Hf1], Hi2 as [Ei2 Hf2]; [lia..|]. split; [congruence|]. intros c Hok. rewrite Hf2 by (by apply Hc). by apply Hf1.
Qed.

(** ** Replacing the address space of one task *)

Definition put_space s (l f : Z) (t : Task) (tb : T) (v : Vmm) (p : frame_pool) (sw : option SwapPartition) : rstate T :=
  mkRs (set_tasks (rs_k s) (<[l := with_space t (cr3 t) v (heap_start t) (brk t)]> (k_tasks (rs_k s)))) (<[f := tb]> (rs_tables s)) p sw.

Section put.
Context s pages free (Hok : reap_ok s pages free) l f tb t (Hl : l ∈ arcs_of (rs_k s)) (Hsp : user_space s l = Some (f, tb, t)).
Context (tb' : T) (v' : Vmm) (p' : frame_pool) (sw' : option SwapPartition) (Hv : areas v' = areas (vmm t)).
Let s' := put_space s l f t tb' v' p' sw'.
Let t' := with_space t (cr3 t) v' (heap_start t) (brk t).

Lemma put_facts : k_tasks (rs_k s) !! l = Some t /\ user_entry t <> 0 /\ f = containing_address (cr3 t) /\ rs_tables s !! f = Some tb /\
  space_fits (rs_tables s) t.
Proof. by eapply user_space_Some; [apply Hok| |]. Qed.

Lemma put_fits t0 : space_fits (rs_tables s) t0 -> space_fits (rs_tables s') t0.
Proof. intros [Hr Ht Ha Hd]. split; try done. simpl. destruct (decide (containing_address (cr3 t0) = f)) as [->|]; [rewrite lookup_insert_eq|rewrite lookup_insert_ne]; eauto. Qed.

Lemma put_fits_t' : space_fits (rs_tables s') t'.
Proof. destruct put_facts as (_ & _ & _ & _ & [Hr Ht Ha Hd]). apply put_fits. split; cbn; rewrite ?Hv; done. Qed.

Lemma put_user_space l0 : l0 ∈ arcs_of (rs_k s) -> user_space s' l0 = if decide (l0 = l) then Some (f, tb', t') else user_space s l0.
Proof.
  intros Hl0. destruct put_facts as (Ht & Hu & Ef & Htb & Hfit). case_decide as Ed; [subst l0|].
  - destruct (user_space_ok s' l t') as (tb1 & E1 & _ & ->); [simpl; by rewrite lookup_insert_eq|done|apply put_fits_t'|].
    change (cr3 t') with (cr3 t) in *. rewrite <- Ef in E1 |- *. simpl in E1. rewrite lookup_insert_eq in E1. by injection E1 as <-.
  - destruct (so_tasks _ (ro_spaces _ _ _ Hok) l0 Hl0) as (t0 & Ht0 & Hfit0). destruct (decide (user_entry t0 = 0)) as [E0|Hu0].
    { unfold user_space. simpl. rewrite lookup_insert_ne, Ht0 by done. cbn [mbind option_bind]. by rewrite E0. }
    specialize (Hfit0 Hu0). destruct (user_space_ok s l0 t0 Ht0 Hu0 Hfit0) as (tb0 & Etb & _ & E0). rewrite E0.
    destruct (user_space_ok s' l0 t0) as (tb1 & E1 & _ & ->); [simpl; by rewrite lookup_insert_ne|done|by apply put_fits|].
    simpl in E1. rewrite lookup_insert_ne in E1; [congruence|]. intros Ef0. apply Ed. symmetry.
    by apply (ro_roots _ _ _ Hok l l0 f tb t (containing_address (cr3 t0)) tb0 t0).
Qed.

Lemma put_static l0 : static <$> (k_tasks (rs_k s') !! l0) = static <$> (k_tasks (rs_k s) !! l0).
Proof.
  destruct put_facts as (Ht & _). simpl. destruct (decide (l0 = l)) as [->|]; [|by rewrite lookup_insert_ne].
  rewrite lookup_insert_eq, Ht. simpl. unfold static. simpl. by rewrite Hv.
Qed.

Lemma put_cand_ok c : cand_ok s' c <-> cand_ok s c.
Proof.
  split; apply cand_ok_static; try done; intros; rewrite ?put_static; try done. simpl. by destruct (rs_k s).
Qed.

Lemma put_entry l0 q : l0 ∈ arcs_of (rs_k s) -> page_entry s' l0 q = if decide (l0 = l) then entry tb' q else page_entry s l0 q.
Proof. intros Hl0. unfold page_entry. rewrite put_user_space by done. by case_decide. Qed.

Lemma put_record l0 q : l0 ∈ arcs_of (rs_k s) -> page_record s' l0 q = if decide (l0 = l) then swapped v' !! q else page_record s l0 q.
Proof. intros Hl0. unfold page_record. rewrite put_user_space by done. by case_decide. Qed.

Lemma total_span_ext arcs : (forall l0, l0 ∈ arcs -> l0 ∈ arcs_of (rs_k s)) ->
  total_span (omap (usage_of s') arcs) = total_span (omap (usage_of s) arcs).
Proof.
  induction arcs as [|l0 arcs IH]; intros Ha; [done|]. specialize (IH (fun l1 H1 => Ha l1 ltac:(by constructor))).
  assert (E : us_vsize <$> usage_of s' l0 = us_vsize <$> usage_of s l0).
  { unfold usage_of. rewrite put_user_space by (apply Ha; constructor). case_decide as Ed; [|done]. rewrite Ed, Hsp. cbn. by rewrite Hv. }
  change (omap (usage_of s') (l0 :: arcs)) with (match usage_of s' l0 with Some u => u :: omap (usage_of s') arcs | None => omap (usage_of s') arcs end).
  change (omap (usage_of s) (l0 :: arcs)) with (match usage_of s l0 with Some u => u :: omap (usage_of s) arcs | None => omap (usage_of s) arcs end).
  destruct (usage_of s' l0), (usage_of s l0); try done. injection E as E. cbn [total_span foldr]. rewrite E. by f_equal.
Qed.

Lemma put_spaces_ok : spaces_ok s'.
Proof.
  destruct put_facts as (Ht & Hu & _). split.
  - intros l0 Hl0. destruct (so_tasks _ (ro_spaces _ _ _ Hok) l0 Hl0) as (t0 & Ht0 & Hfit0). simpl. destruct (decide (l0 = l)) as [->|Hne].
    + rewrite lookup_insert_eq. exists t'. split; [done|]. intros _. apply put_fits_t'.
    + rewrite lookup_insert_ne by done. exists t0. split; [done|]. intros Hu0. by apply put_fits, Hfit0.
  - rewrite total_span_ext by done. apply Hok.
Qed.

(** What a change of the page table, the swap records, the pool and the swap
    area must respect: resident pages keep their frames and permissions, freed
    frames come from pages that are no longer resident, and those pages can
    still be found. *)
Record put_respects (pages' : gmap nat (list Z)) (free' : list Z) : Prop := mkPutRespects {
  pr_entry q fr fl : entry tb' q = Some (fr, fl) ->
    (exists fl0, entry tb q = Some (fr, fl0) /\ flag_clear fl AD = flag_clear fl0 AD) /\ swapped v' !! q = swapped (vmm t) !! q;
  pr_free x : x ∈ free' -> x ∈ free \/
    exists c fl, cand_ok s c /\ ca_arc c = l /\ entry tb (ca_vaddr c) = Some (x, fl) /\ entry tb' (ca_vaddr c) = None;
  pr_swap : exists sw, sw' = Some sw /\ swap_rep sw pages';
  pr_pool : pool_at p' free';
  pr_pages n pg : pages !! n = Some pg -> pages' !! n = Some pg;
  pr_mem fr : (4096 | fr) -> 0 < fr -> fr ∉ free' ->
    read_bytes (p_mem p') (PHYS_MEM_OFFSET + fr) PAGE_BYTES = read_bytes (p_mem (rs_pool s)) (PHYS_MEM_OFFSET + fr) PAGE_BYTES;
  pr_gone c : cand_ok s c -> ca_arc c = l -> entry tb' (ca_vaddr c) = None ->
    (r ← swapped v' !! ca_vaddr c; (fun pg => (pg, flag_clear r.2 AD)) <$> pages' !! Z.to_nat r.1) = page_view s pages l (ca_vaddr c);
  pr_slots c slot fl : cand_ok s c -> ca_arc c = l -> swapped v' !! ca_vaddr c = Some (slot, fl) ->
    exists n, slot = Z.of_nat n /\ is_Some (pages' !! n)
}.

Lemma put_old_entry pages' free' c fr fl : put_respects pages' free' -> cand_ok s c ->
  page_entry s' (ca_arc c) (ca_vaddr c) = Some (fr, fl) ->
  exists fl0, page_entry s (ca_arc c) (ca_vaddr c) = Some (fr, fl0) /\ flag_clear fl AD = flag_clear fl0 AD /\
    page_record s' (ca_arc c) (ca_vaddr c) = page_record s (ca_arc c) (ca_vaddr c).
Proof.
  intros Hr [Hc _] E. rewrite put_entry in E by done. rewrite put_record by done. case_decide as Ed; [|by eauto].
  destruct (pr_entry _ _ Hr _ _ _ E) as [(fl0 & E0 & Ec) Es]. exists fl0. rewrite Ed. unfold page_entry, page_record. by rewrite Hsp.
Qed.

Lemma put_owned pages' free' c fr fl : put_respects pages' free' -> cand_ok s c ->
  page_entry s' (ca_arc c) (ca_vaddr c) = Some (fr, fl) ->
  (4096 | fr) /\ 0 < fr < 2 ^ 46 /\ (fr ∉ free') /\ page_record s' (ca_arc c) (ca_vaddr c) = None.
Proof.
  intros Hr Hc E. destruct (put_old_entry _ _ _ _ _ Hr Hc E) as (fl0 & E0 & _ & ->).
  destruct (ro_owned _ _ _ Hok c fr fl0 Hc E0) as (Hal & Hb & Hnin & Hn). split_and!; try done; try lia.
  intros [?|(c0 & fl1 & Hc0 & El & E1 & En)]%(pr_free _ _ Hr); [done|].
  assert (E1' : page_entry s (ca_arc c0) (ca_vaddr c0) = Some (fr, fl1)) by (unfold page_entry; by rewrite El, Hsp).
  destruct (ro_apart _ _ _ Hok c c0 fr fl0 fl1 Hc Hc0 E0 E1') as [Ea Eq].
  rewrite put_entry, Ea, El, decide_True, Eq in E by (done || apply Hc). congruence.
Qed.

Lemma put_ok pages' free' : put_respects pages' free' -> reap_ok s' pages' free'.
Proof.
  intros Hr. split.
  - apply put_spaces_ok.
  - apply Hr.
  - apply Hr.
  - apply Hok.
  - intros l1 l2 f1 tb1 t1 f2 tb2 t2 Hl1 Hl2 E1 E2 Ef. rewrite !put_user_space in * by done.
    repeat case_decide; simplify_eq; try done; [by eapply (ro_roots _ _ _ Hok)..].
  - intros c fr fl Hc. apply (put_owned _ _ _ _ _ Hr). by apply put_cand_ok.
  - intros c c' fr fl fl' Hc Hc' E E'. apply put_cand_ok in Hc, Hc'.
    destruct (put_old_entry _ _ _ _ _ Hr Hc E) as (? & E0 & _), (put_old_entry _ _ _ _ _ Hr Hc' E') as (? & E0' & _). by eapply (ro_apart _ _ _ Hok).
  - intros c slot fl Hc E. apply put_cand_ok in Hc. rewrite put_record in E by apply Hc. case_decide as Ed; [by eapply (pr_slots _ _ Hr)|].
    destruct (ro_slots _ _ _ Hok c slot fl Hc E) as (n & En & pg & Hpg). exists n. split; [done|]. exists pg. by apply Hr.
Qed.

Lemma put_view pages' free' c : put_respects pages' free' -> cand_ok s c ->
  page_view s' pages' (ca_arc c) (ca_vaddr c) = page_view s pages (ca_arc c) (ca_vaddr c).
Proof.
  intros Hr Hc. unfold page_view at 1. destruct (page_entry s' (ca_arc c) (ca_vaddr c)) as [[fr fl]|] eqn:E.
  - destruct (put_owned _ _ _ _ _ Hr Hc E) as (Hal & Hb & Hnin & _). destruct (put_old_entry _ _ _ _ _ Hr Hc E) as (fl0 & E0 & Ecl & _).
    unfold page_view. rewrite E0, Ecl. do 2 f_equal. simpl. apply Hr; [done|lia|done].
  - rewrite put_entry in E by apply Hc. rewrite put_record by apply Hc. case_decide as Ed; [rewrite Ed; by apply Hr|].
    unfold page_view. rewrite E. destruct (page_record s (ca_arc c) (ca_vaddr c)) as [[slot fl]|] eqn:Er; [|done]. cbn [mbind option_bind fst snd].
    destruct (ro_slots _ _ _ Hok c slot fl Hc Er) as (n & -> & pg & Hpg). rewrite Nat2Z.id, Hpg. by rewrite (pr_pages _ _ Hr _ _ Hpg).
Qed.

Lemma put_step pages' free' n : put_respects pages' free' -> length free' = (length free + n)%nat ->
  (n = 0%nat -> sw' = rs_swap s /\ forall q, fst <$> entry tb' q = fst <$> entry tb q) ->
  reap_step s pages free s' pages' free' n.
Proof.
  intros Hr Hlen Hz. split.
  - done.
  - apply put_static.
  - by apply put_ok.
  - done.
  - intros c. by eapply put_view.
  - intros E. destruct (Hz E) as [Esw Hq]. split; [done|]. intros c Hc. rewrite put_entry by apply Hc. case_decide as Ed; [|done].
    unfold page_entry. rewrite Ed, Hsp. apply Hq.
Qed.

End put.

(** ** Single evictions *)

Definition swap_full s : Prop := exists sw, rs_swap s = Some sw /\ Forall (fun b => b = false) (sw_free sw).

Lemma put_space_same s l f t tb :
  k_tasks (rs_k s) !! l = Some t -> rs_tables s !! f = Some tb -> put_space s l f t tb (vmm t) (rs_pool s) (rs_swap s) = s.
Proof.
  intros Ht Hf. unfold put_space. replace (with_space t (cr3 t) (vmm t) (heap_start t) (brk t)) with t by (by destruct t).
  rewrite !insert_id by done. by destruct s as [[] ? ? ?].
Qed.

Lemma cand_space s c : spaces_ok s -> cand_ok s c ->
  exists tb t, user_space s (ca_arc c) = Some (containing_address (ca_cr3 c), tb, t) /\ k_tasks (rs_k s) !! ca_arc c = Some t /\
    cr3 t = ca_cr3 c /\ root_frame (ca_cr3 c) = Some (containing_address (ca_cr3 c)) /\
    rs_tables s !! containing_address (ca_cr3 c) = Some tb /\
    new_from_frame (rs_tables s) (containing_address (ca_cr3 c)) = Some tb /\
    VirtAddr_new (ca_vaddr c) = Some (ca_vaddr c) /\ containing_address (ca_vaddr c) = ca_vaddr c.
Proof.
  intros Hok (Hl & Hq & t & Ht & Hu & Hc & a & Ha & Hin). destruct (so_tasks _ Hok _ Hl) as (t' & Ht' & Hfit).
  assert (t' = t) as -> by congruence. specialize (Hfit Hu). destruct (user_space_ok s _ t Ht Hu Hfit) as (tb & Etb & _ & Es).
  destruct Hfit as [Hr _ Hareas _]. rewrite Forall_forall in Hareas. destruct (Hareas a Ha) as [(_ & Hnn & Hmax) _]. apply in_area_iff in Hin.
  rewrite Hc in *. exists tb, t. split_and!; try done.
  - by apply root_frame_ok.
  - by rewrite new_from_frame_ok.
  - apply VirtAddr_new_low. lia.
  - by apply containing_aligned.
Qed.

Lemma evict_respects s pages free c tb t fr fl slot tb' p' sw' :
  reap_ok s pages free -> cand_ok s c -> user_space s (ca_arc c) = Some (containing_address (ca_cr3 c), tb, t) ->
  entry tb (ca_vaddr c) = Some (fr, fl) -> (4096 | fr) -> pages !! slot = None ->
  swap_rep sw' (<[slot := read_bytes (p_mem (rs_pool s)) (PHYS_MEM_OFFSET + fr) PAGE_BYTES]> pages) ->
  entry tb' (ca_vaddr c) = None -> (forall q, q <> ca_vaddr c -> entry tb' q = entry tb q) ->
  same_outside (PHYS_MEM_OFFSET + fr) 8 (p_mem (rs_pool s)) (p_mem p') -> pool_at p' (fr :: free) ->
  put_respects s pages free (ca_arc c) tb t tb' (record_swapped (vmm t) (ca_vaddr c) (Z.of_nat slot) (flag_clear fl (Z.lor ACCESSED DIRTY))) p' (Some sw')
    (<[slot := read_bytes (p_mem (rs_pool s)) (PHYS_MEM_OFFSET + fr) PAGE_BYTES]> pages) (fr :: free).
Proof.
  intros Hok Hc Es Hent Hal Hfresh Hrep' Hn Hq Hout Hp'. split.
  - intros q fr0 fl0 Eq. destruct (decide (q = ca_vaddr c)) as [->|Hne]; [congruence|]. rewrite Hq in Eq by done. split; [by eauto|]. simpl. by rewrite lookup_insert_ne.
  - intros x [->|Hx]%elem_of_cons; [right; exists c, fl; done|by left].
  - eauto.
  - done.
  - intros n pg Hpg. rewrite lookup_insert_ne; congruence.
  - intros f0 Hal0 Hpos [Hne _]%not_elem_of_cons. apply read_bytes_ext. intros x Hx. apply Hout. rewrite page_bytes_Z in Hx.
    destruct (frames_apart f0 fr Hal0 Hal Hne) as [?|?]; lia.
  - intros c0 Hc0 El Eq. pose proof (ro_slots _ _ _ Hok c0) as Hsl. rewrite El in Hsl. unfold page_view, page_entry, page_record in *. rewrite Es in *.
    cbn [mbind option_bind] in *. simpl. destruct (decide (ca_vaddr c0 = ca_vaddr c)) as [->|Hne].
    + rewrite Hent, lookup_insert_eq. cbn [mbind option_bind fst snd]. rewrite Nat2Z.id, lookup_insert_eq. cbn. do 2 f_equal. unfold flag_clear, AD. bitwise i Hi.
      rewrite !Z.ldiff_spec. by destruct (Z.testbit _ _), (Z.testbit _ _).
    + rewrite <- Hq, Eq, lookup_insert_ne by done. destruct (swapped (vmm t) !! ca_vaddr c0) as [[sl fl0]|] eqn:Er0; [|done]. cbn [mbind option_bind fst snd].
      destruct (Hsl sl fl0 Hc0 eq_refl) as (n & -> & pg & Hpg). rewrite lookup_insert_ne; [done|]. rewrite Nat2Z.id. congruence.
  - intros c0 sl fl0 Hc0 El Er0. simpl in Er0. destruct (decide (ca_vaddr c0 = ca_vaddr c)) as [Eq|Hne].
    + rewrite Eq, lookup_insert_eq in Er0. injection Er0 as <- <-. exists slot. rewrite lookup_insert_eq. eauto.
    + rewrite lookup_insert_ne in Er0 by done. destruct (ro_slots _ _ _ Hok c0 sl fl0 Hc0) as (n & -> & Hn0); [unfold page_record; by rewrite El, Es|].
      exists n. split; [done|]. destruct Hn0 as [pg Hpg]. rewrite lookup_insert_ne; [eauto|congruence].
Qed.

Lemma evict_step s pages free c fr fl :
  reap_ok s pages free -> cand_ok s c -> page_entry s (ca_arc c) (ca_vaddr c) = Some (fr, fl) ->
  (exists s' pages', evict_candidate s c = Some (true, s') /\ reap_step s pages free s' pages' (fr :: free) 1 /\
     page_entry s' (ca_arc c) (ca_vaddr c) = None /\
     forall c', cand_ok s c' -> ca_arc c' <> ca_arc c \/ ca_vaddr c' <> ca_vaddr c ->
       page_entry s' (ca_arc c') (ca_vaddr c') = page_entry s (ca_arc c') (ca_vaddr c')) \/
  (evict_candidate s c = Some (false, s) /\ swap_full s).
Proof.
  intros Hok Hc Hent. destruct (cand_space s c (ro_spaces _ _ _ Hok) Hc) as (tb & t & Es & Ht & Ec & Er & Htb & Enf & Ev & Eva).
  destruct (ro_owned _ _ _ Hok c fr fl Hc Hent) as (Hal & Hb & Hnin & Hrec). unfold page_entry, page_record in Hent, Hrec. rewrite Es in Hent, Hrec.
  cbn [mbind option_bind] in Hent, Hrec. destruct (ro_swap _ _ _ Hok) as (sw & Esw & Hrep).
  unfold evict_candidate. rewrite Ht, Er. cbn [mbind option_bind]. rewrite Enf. cbn [mbind option_bind]. rewrite Esw.
  destruct (evict_addr_spec (mkMm (vmm t) tb (rs_pool s) (Some sw)) (ca_vaddr c) fr fl sw pages free Ev eq_refl Hrep (ro_pool _ _ _ Hok))
    as [(slot & tb' & p' & sw' & E & Hrep' & Hfresh & Hn & Hq & Hout & Hp')|[E Hfull]]; try done; [by rewrite Eva| |]; rewrite E; cbn [mbind option_bind mm_vmm mm_table mm_pool mm_swap].
  2:{ right. split; [|exists sw; split; [done|]].
      - do 2 f_equal. rewrite <- Esw. by apply put_space_same.
      - apply Forall_lookup. intros i b Hi. assert (sw_free sw !! i = Some false) by (apply (sr_used _ _ Hrep), Hfull; by eapply lookup_lt_Some). congruence. }
  rewrite Eva in *. left. set (v' := record_swapped _ _ _ _) in *. cbn [mm_table mm_pool] in *.
  change (set_tasks _ _) with (rs_k (put_space s (ca_arc c) (containing_address (ca_cr3 c)) t tb' v' p' (Some sw'))).
  exists (put_space s (ca_arc c) (containing_address (ca_cr3 c)) t tb' v' p' (Some sw')), (<[slot := read_bytes (p_mem (rs_pool s)) (PHYS_MEM_OFFSET + fr) PAGE_BYTES]> pages). split; [done|]. split; [|split].
  - eapply put_step; [exact Hok|apply Hc|exact Es|done| |simpl; lia|done]. by apply (evict_respects s pages free c tb t fr fl).
  - erewrite put_entry; [|exact Hok|apply Hc|exact Es|done|apply Hc]. by rewrite decide_True.
  - intros c' Hc' Hne. erewrite put_entry; [|exact Hok|apply Hc|exact Es|done|apply Hc']. case_decide as Ed; [|done].
    rewrite Ed. unfold page_entry. rewrite Es. apply Hq. by destruct Hne.
Qed.

Lemma read_bits_spec s c : spaces_ok s -> cand_ok s c ->
  read_bits (rs_tables s) (ca_cr3 c) (ca_vaddr c) =
    Some ((fun e => (flag_set e.2 ACCESSED, flag_set e.2 DIRTY)) <$> page_entry s (ca_arc c) (ca_vaddr c)).
Proof.
  intros Hok Hc. destruct (cand_space s c Hok Hc) as (tb & t & Es & _ & _ & Er & _ & Enf & Ev & Eva).
  unfold read_bits, mapper_of, page_entry. rewrite Er. cbn [mbind option_bind]. rewrite Enf, Ev, Es. cbn [mbind option_bind].
  unfold page_flags. rewrite translate_spec, <- containing_address_spec, Eva. by destruct (entry tb (ca_vaddr c)) as [[f fl]|].
Qed.

Lemma flag_clear_unset fl : flag_set fl ACCESSED = false -> flag_clear fl ACCESSED = fl.
Proof.
  unfold flag_set, flag_clear, ACCESSED. rewrite Z.eqb_neq. intros Hn. bitwise i Hi. rewrite Z.ldiff_spec. destruct (decide (i = 5)) as [->|Hne].
  - destruct (Z.testbit fl 5) eqn:E; [|done]. exfalso. apply Hn. bitwise j Hj. rewrite Z.land_spec. change 32 with (2 ^ 5).
    rewrite Z.pow2_bits_eqb by lia. destruct (Z.eqb_spec 5 j) as [<-|]; [by rewrite E|by rewrite andb_false_r].
  - change 32 with (2 ^ 5). rewrite Z.pow2_bits_eqb by lia. by rewrite (proj2 (Z.eqb_neq 5 i)) by done; rewrite andb_true_r.
Qed.

(** An entry whose reference bit has been reset. *)
Definition unreferenced (e : Z * Z) : Z * Z := (e.1, flag_clear e.2 ACCESSED).

Lemma flag_clear_twice fl f : flag_clear (flag_clear fl f) f = flag_clear fl f.
Proof. unfold flag_clear. bitwise i Hi. rewrite !Z.ldiff_spec. by destruct (Z.testbit fl i), (Z.testbit f i). Qed.

Lemma unreferenced_idem e : unreferenced (unreferenced e) = unreferenced e.
Proof. destruct e as [f fl]. unfold unreferenced. simpl. by rewrite flag_clear_twice. Qed.

Lemma mapper_clear_accessed_spec (tb : T) q f fl : (4096 | q) -> entry tb q = Some (f, fl) ->
  entry (mapper_clear_accessed tb q) q = Some (unreferenced (f, fl)) /\ forall q', q' <> q -> entry (mapper_clear_accessed tb q) q' = entry tb q'.
Proof.
  intros Hq E. unfold mapper_clear_accessed, page_flags, unreferenced. rewrite translate_spec, <- containing_address_spec, containing_aligned, E by done. cbn.
  destruct (flag_set fl ACCESSED) eqn:Ef; [|by rewrite flag_clear_unset].
  destruct (update_flags_ok tb q f fl (flag_clear fl ACCESSED) E) as (t' & -> & E' & Hq'). by split.
Qed.

Lemma flag_clear_accessed_AD fl : flag_clear (flag_clear fl ACCESSED) AD = flag_clear fl AD.
Proof. unfold flag_clear, AD. bitwise i Hi. rewrite !Z.ldiff_spec, Z.lor_spec. by destruct (Z.testbit _ _), (Z.testbit _ _), (Z.testbit _ _). Qed.

Lemma clear_step s pages free c fr fl :
  reap_ok s pages free -> cand_ok s c -> page_entry s (ca_arc c) (ca_vaddr c) = Some (fr, fl) ->
  exists tables, clear_accessed (rs_tables s) (ca_cr3 c) (ca_vaddr c) = Some tables /\
    let s' := mkRs (rs_k s) tables (rs_pool s) (rs_swap s) in
    reap_step s pages free s' pages free 0 /\
    page_entry s' (ca_arc c) (ca_vaddr c) = Some (unreferenced (fr, fl)) /\
    forall c', cand_ok s c' -> ca_arc c' <> ca_arc c \/ ca_vaddr c' <> ca_vaddr c ->
      page_entry s' (ca_arc c') (ca_vaddr c') = page_entry s (ca_arc c') (ca_vaddr c').
Proof.
  intros Hok Hc Hent. destruct (cand_space s c (ro_spaces _ _ _ Hok) Hc) as (tb & t & Es & Ht & _ & Er & Htb & Enf & Ev & Eva).
  unfold page_entry in Hent. rewrite Es in Hent. cbn [mbind option_bind] in Hent. unfold clear_accessed. rewrite Er. cbn [mbind option_bind].
  rewrite Enf, Ev. cbn [mbind option_bind]. rewrite Eva. eexists. split; [done|]. cbv zeta.
  destruct (mapper_clear_accessed_spec tb (ca_vaddr c) fr fl) as (E' & Hq'); [apply Hc|done|]. pose proof (flag_clear_accessed_AD fl) as Ecl. set (tb' := mapper_clear_accessed _ _) in *.
  replace (mkRs _ _ _ _) with (put_space s (ca_arc c) (containing_address (ca_cr3 c)) t tb' (vmm t) (rs_pool s) (rs_swap s)).
  2:{ unfold put_space. replace (with_space t (cr3 t) (vmm t) (heap_start t) (brk t)) with t by (by destruct t).
      rewrite (insert_id (k_tasks _)) by done. by destruct (rs_k s). }
  assert (Hsame : forall q, fst <$> entry tb' q = fst <$> entry tb q).
  { intros q. destruct (decide (q = ca_vaddr c)) as [->|]; [by rewrite E', Hent|by rewrite Hq']. }
  split; [|split].
  - eapply put_step; [exact Hok|apply Hc|exact Es|done| |lia|done]. split; try apply Hok; try done.
    + intros q f0 fl0 Eq. split; [|done]. destruct (decide (q = ca_vaddr c)) as [->|]; [|rewrite Hq' in Eq by done; eauto].
      rewrite E' in Eq. injection Eq as <- <-. eauto.
    + intros x Hx. by left.
    + intros c0 _ El Eq. unfold page_view, page_entry, page_record. rewrite Es. cbn [mbind option_bind]. specialize (Hsame (ca_vaddr c0)). rewrite Eq in Hsame.
      by destruct (entry tb (ca_vaddr c0)).
    + intros c0 sl fl0 Hc0 El Er0. apply (ro_slots _ _ _ Hok c0 sl fl0 Hc0). unfold page_record. by rewrite El, Es.
  - erewrite put_entry; [|exact Hok|apply Hc|exact Es|done|apply Hc]. by rewrite decide_True.
  - intros c' Hc' Hne. erewrite put_entry; [|exact Hok|apply Hc|exact Es|done|apply Hc']. case_decide as Ed; [|done].
    rewrite Ed. unfold page_entry. rewrite Es. apply Hq'. by destruct Hne.
Qed.

(** ** The loops *)

Lemma free_frames_length s pages free : reap_ok s pages free -> free_frames s = Z.of_nat (length free).
Proof. intros Hok. apply flr_count, Hok. Qed.

Lemma cands_step s pages free s' pages' free' n cs :
  reap_step s pages free s' pages' free' n -> Forall (cand_ok s) cs -> Forall (cand_ok s') cs.
Proof. intros Hs Hcs. eapply Forall_impl; [exact Hcs|]. intros c. by apply (step_cand_ok _ _ _ _ _ _ _ c Hs). Qed.

(** The outcome of a pass that has counted [n] evictions. *)
Record pass s pages free (target reaped : Z) (progress : bool) (r : Z * bool) s' (n : nat) : Prop := mkPass {
  pa_result : r = (reaped + Z.of_nat n, progress || (0 <? n)%nat);
  pa_step : exists pages' free', reap_step s pages free s' pages' free' n;
  pa_target : (0 < n)%nat -> free_frames s' <= target
}.

Lemma pass_idle s pages free target reaped progress : reap_ok s pages free -> pass s pages free target reaped progress (reaped, progress) s 0.
Proof. intros Hok. split; [by rewrite Z.add_0_r, orb_false_r|by eauto using reap_step_refl|lia]. Qed.

Lemma pass_trans s pages free s1 pages1 free1 target reaped progress r s2 n1 n2 :
  reap_step s pages free s1 pages1 free1 n1 -> free_frames s1 <= target ->
  pass s1 pages1 free1 target (reaped + Z.of_nat n1) (progress || (0 <? n1)%nat) r s2 n2 ->
  pass s pages free target reaped progress r s2 (n1 + n2).
Proof.
  intros H1 Hf [-> (pages2 & free2 & H2) Ht]. split.
  - f_equal; [lia|]. rewrite <- orb_assoc. f_equal. destruct n1, n2; done.
  - eauto using reap_step_trans.
  - intros Hn. destruct n2; [|apply Ht; lia]. rewrite (free_frames_length _ _ _ (rp_ok _ _ _ _ _ _ _ H2)), (rp_len _ _ _ _ _ _ _ H2), Nat.add_0_r.
    by rewrite <- (free_frames_length _ _ _ (rp_ok _ _ _ _ _ _ _ H1)).
Qed.

Lemma sweep_loop_spec sweep cs target reaped progress s pages free :
  reap_ok s pages free -> Forall (cand_ok s) cs -> free_frames s < target -> 0 <= reaped -> reaped + (target - free_frames s) < 2 ^ 64 ->
  exists r stop s' n, sweep_loop sweep cs target reaped progress s = Some (r, stop, s') /\ pass s pages free target reaped progress r s' n /\
    (stop = true -> (0 < n)%nat /\ free_frames s' = target) /\ (stop = false -> free_frames s' < target) /\
    (sweep = 2%nat -> n = 0%nat -> (exists c, c ∈ cs /\ page_entry s (ca_arc c) (ca_vaddr c) <> None) -> swap_full s).
Proof.
  revert s pages free reaped progress. induction cs as [|c cs IH]; intros s pages free reaped progress Hok Hcs Hf Hr Hb.
  { exists (reaped, progress), false, s, 0%nat. split_and!; [done|by apply pass_idle|done|done|]. intros _ _ (c & Hc & _). by apply not_elem_of_nil in Hc. }
  apply Forall_cons in Hcs as [Hc Hcs]. cbn [sweep_loop]. rewrite read_bits_spec by (apply Hok || done). cbn [mbind option_bind].
  destruct (page_entry s (ca_arc c) (ca_vaddr c)) as [[fr fl]|] eqn:Ee; cbn [fmap option_fmap option_map].
  2:{ destruct (IH s pages free reaped progress) as (r & stop & s' & n & E & Hp & H1 & H2 & H3); try done. exists r, stop, s', n. split_and!; try done.
      intros Hsw Hn (c' & [->|Hin]%elem_of_cons & He); [done|]. eauto. }
  pose proof (free_frames_length _ _ _ Hok) as Hfl. destruct (take_page sweep _ _) eqn:Et.
  - destruct (evict_step s pages free c fr fl Hok Hc Ee) as [(s1 & pages1 & -> & Hs1 & _)|[-> Hfull]]; cbn [mbind option_bind].
    + pose proof (free_frames_length _ _ _ (rp_ok _ _ _ _ _ _ _ Hs1)) as Hf1. simpl in Hf1. unfold uadd. rewrite uchk_fits by (unfold fits; lia). cbn [mbind option_bind].
      destruct (Z.leb_spec target (free_frames s1)) as [Hle|Hgt].
      * exists (reaped + 1, true), true, s1, 1%nat. split_and!; [done| |split; lia|done|done].
        apply (pass_trans s pages free s1 pages1 (fr :: free) target reaped progress _ s1 1 0); [done|lia|]. rewrite orb_true_r. apply pass_idle, Hs1.
      * destruct (IH s1 pages1 (fr :: free) (reaped + 1) true) as (r & stop & s' & n & E & Hp & H1 & H2 & _); [apply Hs1|by eapply cands_step|lia..|].
        exists r, stop, s', (1 + n)%nat. split_and!; [done| |intros Es; split; [lia|by apply H1]|done|done].
        eapply pass_trans; [exact Hs1|lia|]. by rewrite orb_true_r.
    + destruct (IH s pages free reaped progress) as (r & stop & s' & n & E & Hp & H1 & H2 & _); try done. exists r, stop, s', n. by split_and!.
  - destruct (_ && _).
    + destruct (clear_step s pages free c fr fl Hok Hc Ee) as (tables & -> & Hs1 & _). cbn [mbind option_bind].
      destruct (IH _ pages free reaped progress (rp_ok _ _ _ _ _ _ _ Hs1) (cands_step _ _ _ _ _ _ _ _ Hs1 Hcs)) as (r & stop & s' & n & E & Hp & H1 & H2 & _); [done..|].
      exists r, stop, s', n. split_and!; try done; [|by intros ->].
      apply (pass_trans s pages free _ pages free target reaped progress r s' 0 n Hs1); [simpl; unfold free_frames in *; simpl; lia|]. by rewrite Z.add_0_r, orb_false_r.
    + destruct (IH s pages free reaped progress) as (r & stop & s' & n & E & Hp & H1 & H2 & _); try done. exists r, stop, s', n. split_and!; try done. by intros ->.
Qed.

Lemma sweeps_loop_spec ks cs target reaped progress s pages free :
  reap_ok s pages free -> Forall (cand_ok s) cs -> free_frames s < target -> 0 <= reaped -> reaped + (target - free_frames s) < 2 ^ 64 ->
  exists r s' n, sweeps_loop ks cs target reaped progress s = Some (r, s') /\ pass s pages free target reaped progress r s' n /\
    (2%nat ∈ ks -> n = 0%nat -> (exists c, c ∈ cs /\ page_entry s (ca_arc c) (ca_vaddr c) <> None) -> swap_full s).
Proof.
  revert s pages free reaped progress. induction ks as [|k ks IH]; intros s pages free reaped progress Hok Hcs Hf Hr Hb; cbn [sweeps_loop].
  { exists (reaped, progress), s, 0%nat. split_and!; [done|by apply pass_idle|by intros ?%not_elem_of_nil]. }
  destruct (sweep_loop_spec k cs target reaped progress s pages free Hok Hcs Hf Hr Hb) as (r1 & stop & s1 & n1 & -> & Hp1 & Hs1 & Hs2 & Hfull1).
  cbn [mbind option_bind]. destruct r1 as [rd pg]. destruct stop.
  { exists (rd, pg), s1, n1. split_and!; [done|done|]. destruct (Hs1 eq_refl). lia. }
  destruct Hp1 as [[= -> ->] (pages1 & free1 & Hst) _]. pose proof (Hs2 eq_refl) as Hf1.
  pose proof (free_frames_length _ _ _ Hok) as Hfl. pose proof (free_frames_length _ _ _ (rp_ok _ _ _ _ _ _ _ Hst)) as Hfl1. rewrite (rp_len _ _ _ _ _ _ _ Hst) in Hfl1.
  destruct (IH s1 pages1 free1 (reaped + Z.of_nat n1) (progress || (0 <? n1)%nat)) as (r & s' & n & -> & Hp & Hfull2);
    [apply Hst|by eapply cands_step|lia..|].
  exists r, s', (n1 + n)%nat. split; [done|]. split; [by eapply pass_trans; [exact Hst|lia|]|].
  intros Hin Hz (c & Hc & He). destruct (decide (k = 2%nat)) as [->|Hk]; [apply Hfull1; [done|lia|by exists c]|].
  destruct (rp_idle _ _ _ _ _ _ _ Hst) as [Esw Hent]; [lia|]. destruct Hfull2 as (sw & E & Hall); [|lia| |by exists sw; rewrite <- Esw].
  { apply elem_of_cons in Hin as [|?]; [congruence|done]. }
  exists c. split; [done|]. rewrite Forall_forall in Hcs. specialize (Hent c (Hcs c Hc)). by destruct (page_entry s1 _ _), (page_entry s _ _).
Qed.

Lemma elem_of_all_pages s c : spaces_ok s -> c ∈ all_pages s <-> cand_ok s c /\ page_entry s (ca_arc c) (ca_vaddr c) <> None.
Proof.
  intros Hok. unfold all_pages, usages, usage_pages. rewrite list_elem_of_bind. split.
  - intros (u & Hc & Hu). apply list_elem_of_omap in Hu as (l & Hl & E). unfold usage_of in E. destruct (user_space s l) as [[[f tb] t]|] eqn:Es; [|done].
    injection E as <-. simpl in Hc. apply list_elem_of_fmap in Hc as (q & -> & Hq). destruct (user_space_Some _ _ _ _ _ Hok Hl Es) as (Ht & Hu & _ & _ & Hfit).
    apply elem_of_space_resident in Hq as (Hal & Ha & Hr); [|apply Hfit]. unfold cand_ok, page_entry. simpl. rewrite Es. cbn [mbind option_bind].
    split; [split_and!; [done|done|by eauto 6]|]. by destruct Hr as [? ->].
  - intros [Hc He]. pose proof Hc as (Hl & Hq & t & Ht & Hu & Ec & Ha). destruct (cand_space s c Hok Hc) as (tb & t' & Es & Ht' & _).
    assert (t' = t) as -> by congruence. exists (mkUsage (ca_arc c) (cr3 t) (span (areas (vmm t))) (space_resident tb (areas (vmm t)))). split.
    + apply list_elem_of_fmap. exists (ca_vaddr c). simpl. split; [rewrite Ec; by destruct c|]. destruct (user_space_Some _ _ _ _ _ Hok Hl Es) as (_ & _ & _ & _ & Hfit).
      apply elem_of_space_resident; [apply Hfit|]. split_and!; [done|done|]. unfold page_entry in He. rewrite Es in He. cbn [mbind option_bind] in He.
      destruct (entry tb (ca_vaddr c)); [eauto|done].
    + apply list_elem_of_omap. exists (ca_arc c). split; [done|]. unfold usage_of. by rewrite Es.
Qed.

Definition all_evicted s : Prop := forall c, cand_ok s c -> page_entry s (ca_arc c) (ca_vaddr c) = None.

Lemma reap_loop_spec fuel target reaped s pages free :
  reap_ok s pages free -> target - free_frames s <= Z.of_nat fuel -> 0 <= reaped -> reaped + (target - free_frames s) < 2 ^ 64 ->
  exists n s' pages' free', reap_loop fuel target reaped s = Some (reaped + Z.of_nat n, s') /\ reap_step s pages free s' pages' free' n /\
    ((0 < n)%nat -> free_frames s' <= target) /\ (target <= free_frames s' \/ all_evicted s' \/ swap_full s').
Proof.
  revert reaped s pages free. induction fuel as [|fuel IH]; intros reaped s pages free Hok Hfuel Hr Hb; cbn [reap_loop];
    (destruct (Z.leb_spec target (free_frames s)) as [Hle|Hgt]; [exists 0%nat, s, pages, free; rewrite Z.add_0_r; split_and!; [done|by apply reap_step_refl|lia|by left]|]); [lia|].
  destruct (gather_spec s (ro_spaces _ _ _ Hok)) as (cs & -> & Hperm & _). cbn [mbind option_bind].
  assert (Hcs : forall c, c ∈ cs <-> cand_ok s c /\ page_entry s (ca_arc c) (ca_vaddr c) <> None).
  { intros c. rewrite Hperm. apply elem_of_all_pages, Hok. }
  destruct cs as [|c0 cs].
  { exists 0%nat, s, pages, free. rewrite Z.add_0_r. split_and!; [done|by apply reap_step_refl|lia|]. right. left. intros c Hc.
    destruct (page_entry s (ca_arc c) (ca_vaddr c)) eqn:E; [|done]. exfalso. apply (not_elem_of_nil c), Hcs. by rewrite E. }
  destruct (sweeps_loop_spec [0; 1; 2]%nat (c0 :: cs) target reaped false s pages free) as (r & s1 & n1 & -> & [-> (pages1 & free1 & Hst) Hmax] & Hfull);
    [done|apply Forall_forall; intros; by apply Hcs|done..|]. cbn [mbind option_bind].
  pose proof (free_frames_length _ _ _ Hok) as Hfl. pose proof (free_frames_length _ _ _ (rp_ok _ _ _ _ _ _ _ Hst)) as Hfl1. rewrite (rp_len _ _ _ _ _ _ _ Hst) in Hfl1.
  destruct n1 as [|n1]; cbn [orb Nat.ltb Nat.leb].
  - exists 0%nat, s1, pages1, free1. split_and!; [done|done|lia|]. right. right. destruct (rp_idle _ _ _ _ _ _ _ Hst eq_refl) as [Esw _].
    destruct Hfull as (sw & E & Hall); [by do 2 constructor; constructor|done| |by exists sw; rewrite Esw]. exists c0. split; [by constructor|]. apply Hcs. by constructor.
  - destruct (IH (reaped + Z.of_nat (S n1)) s1 pages1 free1) as (n & s' & pages' & free' & -> & Hst' & Hmax' & Hend); [apply Hst|lia..|].
    exists (S n1 + n)%nat, s', pages', free'. split_and!; [do 2 f_equal; lia|by eapply reap_step_trans| |done]. intros _. destruct n; [|apply Hmax'; lia].
    rewrite (free_frames_length _ _ _ (rp_ok _ _ _ _ _ _ _ Hst')), (rp_len _ _ _ _ _ _ _ Hst'), (rp_len _ _ _ _ _ _ _ Hst). specialize (Hmax ltac:(lia)). lia.
Qed.

(** ** The choice of the victim *)

Definition cand_key (c : Candidate) : Z * Z := (ca_arc c, ca_vaddr c).

Lemma NoDup_space_resident (tb : T) la : Forall area_fits la -> disjoint_areas la -> NoDup (space_resident tb la).
Proof.
  intros Hla. induction Hla as [|a la Ha Hla IH]; [constructor|]. intros [Hd Hdis]. unfold space_resident. simpl. apply NoDup_app. split_and!.
  - apply NoDup_filter, NoDup_page_list.
  - intros q Hq Hq'. apply list_elem_of_filter in Hq as [_ Hq]. apply elem_of_page_list in Hq as [_ Hb]; [|apply Ha].
    apply elem_of_space_resident in Hq' as (_ & (b & Hbin & Hqb) & _); [|done]. rewrite (Hd b q) in Hqb; [done|done|by rewrite in_area_iff].
  - by apply IH.
Qed.

Lemma NoDup_all_pages s pages free : reap_ok s pages free -> NoDup (cand_key <$> all_pages s).
Proof.
  intros Hok. unfold all_pages, usages. assert (Hsub : forall l, l ∈ arcs_of (rs_k s) -> l ∈ arcs_of (rs_k s)) by done.
  revert Hsub. pose proof (ro_arcs _ _ _ Hok) as Hnd. revert Hnd. generalize (arcs_of (rs_k s)) at 1 2 4 as arcs.
  induction arcs as [|l arcs IH]; intros Hnd Hsub; [constructor|]. apply NoDup_cons in Hnd as [Hl Hnd].
  change (omap (usage_of s) (l :: arcs)) with (match usage_of s l with Some u => u :: omap (usage_of s) arcs | None => omap (usage_of s) arcs end).
  assert (IH' := IH Hnd (fun l0 H0 => Hsub l0 ltac:(by constructor))). unfold usage_of at 1.
  destruct (user_space s l) as [[[f tb] t]|] eqn:Es; [|done]. cbn [mbind option_bind]. simpl. rewrite fmap_app. apply NoDup_app. split_and!; [| |done].
  - unfold usage_pages. simpl. rewrite <- list_fmap_compose. apply NoDup_fmap_2; [by intros ?? [=]|].
    destruct (user_space_Some _ _ _ _ _ (ro_spaces _ _ _ Hok) (Hsub l ltac:(by constructor)) Es) as (_ & _ & _ & _ & Hfit).
    apply NoDup_space_resident; apply Hfit.
  - intros k Hk Hk'. unfold usage_pages in Hk. simpl in Hk. rewrite <- list_fmap_compose in Hk. apply list_elem_of_fmap in Hk as (q & -> & _).
    apply list_elem_of_fmap in Hk' as (c & Ec & Hc). apply list_elem_of_bind in Hc as (u & Hc & Hu). apply list_elem_of_omap in Hu as (l' & Hl' & E).
    unfold usage_of in E. destruct (user_space s l') as [[[f' tb'] t']|]; [|done]. injection E as <-. apply list_elem_of_fmap in Hc as (q' & -> & _).
    injection Ec as -> _. done.
Qed.

(** Whether a sweep takes a page, by the bits of its entry. *)
Definition taken_by (sweep : nat) s (c : Candidate) : bool :=
  match page_entry s (ca_arc c) (ca_vaddr c) with
  | Some (_, fl) => take_page sweep (flag_set fl ACCESSED) (flag_set fl DIRTY)
  | None => false
  end.

(** The first clean unreferenced page, else the first unreferenced one, else the
    first. *)
Definition victim s (cs : list Candidate) : option Candidate :=
  match List.find (taken_by 0 s) cs with
  | Some c => Some c
  | None => match List.find (taken_by 1 s) cs with Some c => Some c | None => list.head cs end
  end.

Lemma find_ext {A} (p q : A -> bool) l : (forall x, x ∈ l -> p x = q x) -> List.find p l = List.find q l.
Proof.
  induction l as [|x l IH]; intros Hpq; [done|]. simpl. rewrite (Hpq x) by constructor. rewrite IH; [done|]. intros; apply Hpq; by constructor.
Qed.

(** The pages before the first one [p] selects. *)
Fixpoint before {A} (p : A -> bool) (l : list A) : list A :=
  match l with
  | [] => []
  | x :: l => if p x then [] else x :: before p l
  end.

Lemma before_ext {A} (p q : A -> bool) l : (forall x, x ∈ l -> p x = q x) -> before p l = before q l.
Proof.
  induction l as [|x l IH]; intros Hpq; [done|]. simpl. rewrite (Hpq x) by constructor. rewrite IH; [done|]. intros; apply Hpq; by constructor.
Qed.

Lemma before_none {A} (p : A -> bool) l : List.find p l = None -> before p l = l.
Proof. induction l as [|x l IH]; [done|]. simpl. destruct (p x); [done|]. intros E. by rewrite IH. Qed.

(** The pages a sweep passes over with their reference bit reset. *)
Definition passed_over (sweep : nat) s (cs : list Candidate) : list Candidate :=
  if (1 <=? sweep)%nat then before (taken_by sweep s) cs else [].

(** The pages that are given a second chance before the victim is found: none
    if a clean unreferenced page exists, else all those in front of the first
    unreferenced one, which is all of them if there is none. *)
Definition second_chances s (cs : list Candidate) : list Candidate :=
  match List.find (taken_by 0 s) cs with
  | Some _ => []
  | None => before (taken_by 1 s) cs
  end.

(** The entry of page [c] once the pages [l] have had their bit reset. *)
Definition entry_after s (l : list Candidate) (c : Candidate) : option (Z * Z) :=
  if decide (cand_key c ∈ cand_key <$> l) then unreferenced <$> page_entry s (ca_arc c) (ca_vaddr c)
  else page_entry s (ca_arc c) (ca_vaddr c).

(** The reference bits of the pages [l] are reset and nothing else happens. *)
Definition resets_only s (l : list Candidate) s' : Prop :=
  forall c, cand_ok s c -> page_entry s' (ca_arc c) (ca_vaddr c) = entry_after s l c.

(** Exactly the page [c] goes and exactly the pages [l] have their reference bit
    reset; the frame and all the flags of every other page stay. *)
Definition evicts_only s (l : list Candidate) (c : Candidate) s' : Prop :=
  page_entry s' (ca_arc c) (ca_vaddr c) = None /\
  forall c', cand_ok s c' -> cand_key c' <> cand_key c -> page_entry s' (ca_arc c') (ca_vaddr c') = entry_after s l c'.

Lemma key_ne c c' : cand_key c' <> cand_key c -> ca_arc c' <> ca_arc c \/ ca_vaddr c' <> ca_vaddr c.
Proof. unfold cand_key. intros Hne. destruct (decide (ca_arc c' = ca_arc c)) as [E|]; [right|by left]. intros E'. apply Hne. by rewrite E, E'. Qed.

Lemma resets_only_nil s : resets_only s [] s.
Proof. intros c _. unfold entry_after. rewrite decide_False; [done|]. simpl. by intros ?%not_elem_of_nil. Qed.

Lemma entry_after_app s l1 s1 l2 c : resets_only s l1 s1 -> cand_ok s c -> entry_after s1 l2 c = entry_after s (l1 ++ l2) c.
Proof.
  intros Hr Hc. unfold entry_after at 1. rewrite (Hr c Hc). unfold entry_after. rewrite fmap_app.
  destruct (decide (cand_key c ∈ cand_key <$> l2)) as [H2|H2], (decide (cand_key c ∈ cand_key <$> l1)) as [H1|H1];
    rewrite ?(decide_True (P := cand_key c ∈ _ ++ _)) by (apply elem_of_app; auto); try done.
  - destruct (page_entry s _ _); [|done]. simpl. by rewrite unreferenced_idem.
  - rewrite decide_False; [done|]. by intros [?|?]%elem_of_app.
Qed.

Lemma evicts_only_after s pages free l1 s1 pages1 free1 l2 c s' :
  reap_step s pages free s1 pages1 free1 0 -> resets_only s l1 s1 -> evicts_only s1 l2 c s' -> evicts_only s (l1 ++ l2) c s'.
Proof.
  intros Hst Hr [Hn Ho]. split; [done|]. intros c' Hc' Hk. rewrite Ho by (done || by apply (step_cand_ok _ _ _ _ _ _ _ c' Hst)).
  by apply entry_after_app.
Qed.

Lemma resets_only_trans s pages free l1 s1 pages1 free1 l2 s' :
  reap_step s pages free s1 pages1 free1 0 -> resets_only s l1 s1 -> resets_only s1 l2 s' -> resets_only s (l1 ++ l2) s'.
Proof. intros Hst H1 H2 c Hc. rewrite H2 by (by apply (step_cand_ok _ _ _ _ _ _ _ c Hst)). by apply entry_after_app. Qed.

(** An absent page can be listed among those reset. *)
Lemma entry_after_absent s c l c' : page_entry s (ca_arc c) (ca_vaddr c) = None -> entry_after s (c :: l) c' = entry_after s l c'.
Proof.
  intros E. unfold entry_after. rewrite fmap_cons. destruct (decide (cand_key c' = cand_key c)) as [Ek|Hne].
  - injection Ek as E1 E2. rewrite E1, E2, E. by repeat case_decide.
  - destruct (decide (cand_key c' ∈ cand_key <$> l)) as [Hl|Hl].
    + by rewrite decide_True by (by apply elem_of_cons; right).
    + rewrite decide_False; [done|]. by intros [?|?]%elem_of_cons.
Qed.

Lemma clear_resets s pages free c fr fl :
  reap_ok s pages free -> cand_ok s c -> page_entry s (ca_arc c) (ca_vaddr c) = Some (fr, fl) ->
  exists tables, clear_accessed (rs_tables s) (ca_cr3 c) (ca_vaddr c) = Some tables /\
    let s' := mkRs (rs_k s) tables (rs_pool s) (rs_swap s) in
    reap_step s pages free s' pages free 0 /\ resets_only s [c] s'.
Proof.
  intros Hok Hc Ee. destruct (clear_step s pages free c fr fl Hok Hc Ee) as (tables & E & Hst & Hsame & Ho). exists tables. split; [done|]. split; [done|].
  intros c' Hc'. unfold entry_after. simpl. destruct (decide (cand_key c' ∈ [cand_key c])) as [Ek%list_elem_of_singleton|Hn].
  - injection Ek as E1 E2. by rewrite E1, E2, Hsame, Ee.
  - apply Ho; [done|]. apply key_ne. intros Ek. apply Hn. by apply list_elem_of_singleton.
Qed.

Lemma passed_over_cons sweep s c cs : taken_by sweep s c = false ->
  passed_over sweep s (c :: cs) = if (1 <=? sweep)%nat then c :: passed_over sweep s cs else passed_over sweep s cs.
Proof. intros E. unfold passed_over. simpl before. rewrite E. by destruct (1 <=? sweep)%nat. Qed.

(** A sweep that needs one frame: the first page it takes is the only one to go,
    those before it lose their reference bit; if it takes none, the frames stay
    where they are. *)
Definition sweep_result sweep cs reaped (progress : bool) s pages free : Prop :=
  match List.find (taken_by sweep s) cs with
  | Some c => exists s' pages', sweep_loop sweep cs (free_frames s + 1) reaped progress s = Some (reaped + 1, true, true, s') /\
      evicts_only s (passed_over sweep s cs) c s' /\ exists free', reap_step s pages free s' pages' free' 1
  | None => exists s', sweep_loop sweep cs (free_frames s + 1) reaped progress s = Some (reaped, progress, false, s') /\
      reap_step s pages free s' pages free 0 /\ resets_only s (passed_over sweep s cs) s' /\ (sweep = 0%nat -> s' = s)
  end.

Lemma sweep_one_absent sweep c cs reaped progress s pages free :
  page_entry s (ca_arc c) (ca_vaddr c) = None -> sweep_result sweep cs reaped progress s pages free ->
  sweep_loop sweep (c :: cs) (free_frames s + 1) reaped progress s = sweep_loop sweep cs (free_frames s + 1) reaped progress s ->
  sweep_result sweep (c :: cs) reaped progress s pages free.
Proof.
  intros Ee IH El. assert (Et : taken_by sweep s c = false) by (unfold taken_by; by rewrite Ee). unfold sweep_result in *. simpl List.find. rewrite Et, El.
  assert (Ea : forall c', entry_after s (passed_over sweep s (c :: cs)) c' = entry_after s (passed_over sweep s cs) c').
  { intros c'. rewrite passed_over_cons by done. destruct (1 <=? sweep)%nat; [by apply entry_after_absent|done]. }
  destruct (List.find _ cs) as [c'|].
  - destruct IH as (s' & pages' & E & [Hn Ho] & Hst). exists s', pages'. split; [done|]. split; [|done]. split; [done|]. intros. rewrite Ea. by apply Ho.
  - destruct IH as (s' & E & Hst & Hr & Hz). exists s'. split_and!; try done. intros c' Hc'. rewrite Ea. by apply Hr.
Qed.

Lemma taken_by_reset sweep s c cs s1 :
  resets_only s [c] s1 -> Forall (cand_ok s) cs -> cand_key c ∉ cand_key <$> cs -> forall c', c' ∈ cs -> taken_by sweep s1 c' = taken_by sweep s c'.
Proof.
  intros Hr Hcs Hn c' Hin. rewrite Forall_forall in Hcs. unfold taken_by. rewrite (Hr c' (Hcs c' Hin)). unfold entry_after.
  rewrite decide_False; [done|]. simpl. intros Ek%list_elem_of_singleton. apply Hn. rewrite <- Ek. by apply list_elem_of_fmap_2.
Qed.

Lemma passed_over_reset sweep s c cs s1 :
  resets_only s [c] s1 -> Forall (cand_ok s) cs -> cand_key c ∉ cand_key <$> cs -> passed_over sweep s1 cs = passed_over sweep s cs.
Proof. intros Hr Hcs Hn. unfold passed_over. by rewrite (before_ext _ (taken_by sweep s)) by (by eapply taken_by_reset). Qed.

Lemma sweep_one sweep cs reaped progress s pages free :
  reap_ok s pages free -> ~ swap_full s -> Forall (cand_ok s) cs -> NoDup (cand_key <$> cs) -> 0 <= reaped -> reaped + 1 < 2 ^ 64 ->
  sweep_result sweep cs reaped progress s pages free.
Proof.
  revert s. induction cs as [|c cs IH]; intros s Hok Hnf Hcs Hnd Hr Hb.
  { exists s. assert (passed_over sweep s [] = []) as -> by (unfold passed_over; by destruct (1 <=? sweep)%nat).
    split_and!; [done|by apply reap_step_refl|apply resets_only_nil|done]. }
  apply Forall_cons in Hcs as [Hc Hcs]. rewrite fmap_cons in Hnd. apply NoDup_cons in Hnd as [Hck Hnd]. pose proof (read_bits_spec s c (ro_spaces _ _ _ Hok) Hc) as Hbits.
  destruct (page_entry s (ca_arc c) (ca_vaddr c)) as [[fr fl]|] eqn:Ee; cbn [fmap option_fmap option_map snd] in Hbits.
  2:{ apply sweep_one_absent; [done|by apply IH|]. cbn [sweep_loop]. by rewrite Hbits. }
  destruct (taken_by sweep s c) eqn:Et; unfold taken_by in Et; rewrite Ee in Et; unfold sweep_result; cbn [List.find sweep_loop]; rewrite Hbits; cbn [mbind option_bind]; rewrite Et.
  - unfold taken_by at 1. rewrite Ee, Et. destruct (evict_step s pages free c fr fl Hok Hc Ee) as [(s1 & pages1 & -> & Hs1 & Hn & Ho)|[_ Hfull]]; [|done]. cbn [mbind option_bind].
    unfold uadd. rewrite uchk_fits by (unfold fits; lia). cbn [mbind option_bind].
    rewrite (free_frames_length _ _ _ (rp_ok _ _ _ _ _ _ _ Hs1)), (free_frames_length _ _ _ Hok). simpl length. rewrite (proj2 (Z.leb_le _ _)) by lia.
    exists s1, pages1. split; [done|]. split; [|by eauto]. split; [done|]. intros c' Hc' Hk. rewrite Ho by (done || by apply key_ne).
    assert (passed_over sweep s (c :: cs) = []) as -> by (unfold passed_over; cbn [before]; unfold taken_by; rewrite Ee, Et; by destruct (1 <=? sweep)%nat).
    by rewrite <- (resets_only_nil s c' Hc').
  - rewrite passed_over_cons by (unfold taken_by; by rewrite Ee). unfold taken_by at 1. rewrite Ee, Et.
    destruct (1 <=? sweep)%nat eqn:Es; cycle 1.
    { rewrite andb_false_r. by apply (IH s). }
    assert (Ea : flag_set fl ACCESSED = true).
    { destruct sweep as [|[|sweep]]; [done| |done]. simpl in Et. by destruct (flag_set fl ACCESSED). }
    rewrite Ea. cbn [andb]. destruct (clear_resets s pages free c fr fl Hok Hc Ee) as (tables & -> & Hs1 & Hres). cbn [mbind option_bind].
    set (s1 := mkRs _ _ _ _) in *. change (free_frames s) with (free_frames s1).
    assert (Hnf1 : ~ swap_full s1) by done.
    pose proof (IH s1 (rp_ok _ _ _ _ _ _ _ Hs1) Hnf1 (cands_step _ _ _ _ _ _ _ _ Hs1 Hcs) Hnd Hr Hb) as IHs.
    unfold sweep_result in IHs. rewrite passed_over_reset with (s := s) (c := c) in IHs by done. rewrite (find_ext _ (taken_by sweep s)) in IHs by (by apply (taken_by_reset sweep s c)).
    destruct (List.find _ cs) as [c'|].
    + destruct IHs as (s' & pages' & E & Hev & free' & Hst). exists s', pages'. split; [done|]. split; [by apply (evicts_only_after _ _ _ [c] _ _ _ _ _ _ Hs1)|]. exists free'.
      by apply (reap_step_trans _ _ _ _ _ _ 0 _ _ _ 1 Hs1).
    + destruct IHs as (s' & E & Hst & Hres' & _). exists s'. split; [done|]. split; [by apply (reap_step_trans _ _ _ _ _ _ 0 _ _ _ 0 Hs1)|].
      split; [by apply (resets_only_trans _ _ _ [c] _ _ _ _ _ Hs1)|]. by intros ->.
Qed.

Lemma swap_full_idle s pages free s' pages' free' : reap_step s pages free s' pages' free' 0 -> swap_full s' -> swap_full s.
Proof. intros Hst (sw & E & Hall). destruct (rp_idle _ _ _ _ _ _ _ Hst eq_refl) as [Esw _]. exists sw. by rewrite <- Esw. Qed.

Lemma free_frames_idle s pages free s' pages' free' : reap_ok s pages free -> reap_step s pages free s' pages' free' 0 -> free_frames s' = free_frames s.
Proof.
  intros Hok Hst. rewrite (free_frames_length _ _ _ (rp_ok _ _ _ _ _ _ _ Hst)), (free_frames_length _ _ _ Hok), (rp_len _ _ _ _ _ _ _ Hst). lia.
Qed.

Lemma sweeps_one c0 cs s pages free :
  reap_ok s pages free -> ~ swap_full s -> (forall c, c ∈ c0 :: cs -> cand_ok s c /\ page_entry s (ca_arc c) (ca_vaddr c) <> None) ->
  NoDup (cand_key <$> c0 :: cs) ->
  exists c s' pages' free', victim s (c0 :: cs) = Some c /\ evicts_only s (second_chances s (c0 :: cs)) c s' /\ reap_step s pages free s' pages' free' 1 /\
    sweeps_loop [0; 1; 2]%nat (c0 :: cs) (free_frames s + 1) 0 false s = Some (1, true, s').
Proof.
  intros Hok Hnf Hcs Hnd. assert (Hall : Forall (cand_ok s) (c0 :: cs)) by (apply Forall_forall; intros; by apply Hcs).
  unfold victim, second_chances. cbn [sweeps_loop].
  assert (Hw0 := sweep_one 0 (c0 :: cs) 0 false s pages free Hok Hnf Hall Hnd ltac:(lia) ltac:(lia)). unfold sweep_result in Hw0.
  destruct (List.find (taken_by 0 s) (c0 :: cs)) as [c|].
  { destruct Hw0 as (s' & pages' & -> & Hev & free' & Hst). cbn [mbind option_bind]. by exists c, s', pages', free'. }
  destruct Hw0 as (s0 & -> & _ & _ & E0). rewrite (E0 eq_refl). cbn [mbind option_bind].
  assert (Hw1 := sweep_one 1 (c0 :: cs) 0 false s pages free Hok Hnf Hall Hnd ltac:(lia) ltac:(lia)). unfold sweep_result in Hw1.
  destruct (List.find (taken_by 1 s) (c0 :: cs)) as [c|] eqn:E1.
  { destruct Hw1 as (s' & pages' & -> & Hev & free' & Hst). cbn [mbind option_bind]. by exists c, s', pages', free'. }
  destruct Hw1 as (s1 & -> & Hst1 & Hres & _). cbn [mbind option_bind]. rewrite <- (free_frames_idle _ _ _ _ _ _ Hok Hst1).
  assert (Hw2 := sweep_one 2 (c0 :: cs) 0 false s1 pages free (rp_ok _ _ _ _ _ _ _ Hst1) (fun Hf => Hnf (swap_full_idle _ _ _ _ _ _ Hst1 Hf))
    (cands_step _ _ _ _ _ _ _ _ Hst1 Hall) Hnd ltac:(lia) ltac:(lia)). unfold sweep_result in Hw2.
  assert (Ht : taken_by 2 s1 c0 = true).
  { unfold taken_by. destruct (Hcs c0) as [Hc He]; [constructor|]. destruct (rp_idle _ _ _ _ _ _ _ Hst1 eq_refl) as [_ Hent]. specialize (Hent c0 Hc).
    destruct (page_entry s1 _ _) as [[]|]; [done|]. by destruct (page_entry s _ _). }
  unfold passed_over in Hw2. cbn [List.find before Nat.leb] in Hw2. rewrite Ht in Hw2. destruct Hw2 as (s' & pages' & -> & Hev & free' & Hst). cbn [mbind option_bind].
  exists c0, s', pages', free'. split; [done|]. split; [|split; [|done]].
  - rewrite <- (app_nil_r (before _ _)). by eapply evicts_only_after.
  - by apply (reap_step_trans _ _ _ _ _ _ 0 _ _ _ 1 Hst1).
Qed.

(** ** Theorems *)

(** C3. The reaper terminates and loses nothing: [reap_to] returns with exactly as
    many frames freed as it reports, never beyond the target, and stops short
    of it only when every user page has been evicted or the swap area is full;
    every page of every task reads the same before and after, with the same
    permissions, whether it is still resident or now in swap; and nothing else
    of the tasks, the scheduler or the task table changes. *)
Theorem reap_to_frees_without_loss s pages free target :
  reap_ok s pages free -> fits 64 target ->
  exists n s' pages' free', reap_to target s = Some (Z.of_nat n, s') /\ reap_ok s' pages' free' /\
    free_frames s' = free_frames s + Z.of_nat n /\ ((0 < n)%nat -> free_frames s' <= target) /\
    (target <= free_frames s' \/ all_evicted s' \/ swap_full s') /\
    (forall c, cand_ok s c -> page_view s' pages' (ca_arc c) (ca_vaddr c) = page_view s pages (ca_arc c) (ca_vaddr c)) /\
    rs_k s' = set_tasks (rs_k s) (k_tasks (rs_k s')) /\
    (forall l, static <$> (k_tasks (rs_k s') !! l) = static <$> (k_tasks (rs_k s) !! l)).
Proof.
  intros Hok Ht. pose proof (free_frames_length _ _ _ Hok) as Hfl. unfold fits in Ht.
  destruct (reap_loop_spec (Z.to_nat target) target 0 s pages free) as (n & s' & pages' & free' & E & Hst & Hmax & Hend); [done|lia..|].
  exists n, s', pages', free'. unfold reap_to. rewrite E. split; [done|]. split; [apply Hst|]. split.
  { rewrite (free_frames_length _ _ _ (rp_ok _ _ _ _ _ _ _ Hst)), (rp_len _ _ _ _ _ _ _ Hst). lia. }
  split; [done|]. split; [done|]. split; [apply Hst|]. split; apply Hst.
Qed.

(** C30. The replacement policy: the victim list holds exactly the resident pages
    of user tasks, pages of tasks furthest above their proportional share
    first and otherwise in order of task and address; and when one frame is
    wanted and the swap area has room, exactly one page goes, the first clean
    unreferenced one of the list, else the first unreferenced one, else the
    first of all.  A page that was passed over because it is referenced while
    an unreferenced one was looked for has its accessed bit cleared, its
    frame and its other flags unchanged; every page not passed over that way
    keeps its frame and all its flags. *)
Theorem reaper_second_chance s pages free :
  reap_ok s pages free -> ~ swap_full s -> all_pages s <> [] ->
  exists cs c s', gather_candidates s = Some cs /\ cs ≡ₚ all_pages s /\
    StronglySorted (fun c c' => excess_at s (ca_arc c') <= excess_at s (ca_arc c)) cs /\
    (forall k, filter (fun c => excess_at s (ca_arc c) = k) cs = filter (fun c => excess_at s (ca_arc c) = k) (all_pages s)) /\
    victim s cs = Some c /\ reap_to (free_frames s + 1) s = Some (1, s') /\ evicts_only s (second_chances s cs) c s'.
Proof.
  intros Hok Hnf Hne. destruct (gather_spec s (ro_spaces _ _ _ Hok)) as (cs & E & Hperm & Hsort & Hstable). exists cs. pose proof (free_frames_length _ _ _ Hok) as Hfl.
  destruct cs as [|c0 cs]; [by symmetry in Hperm; apply Permutation_nil_r in Hperm|].
  destruct (sweeps_one c0 cs s pages free Hok Hnf) as (c & s' & pages' & free' & Hv & Hev & Hst & Esw).
  { intros c Hc. rewrite Hperm in Hc. by apply elem_of_all_pages in Hc; [|apply Hok]. }
  { rewrite Hperm. by eapply NoDup_all_pages. }
  exists c, s'. do 5 (split; [done|]). split; [|done]. unfold reap_to. rewrite Z2Nat.inj_add, Nat.add_1_r by lia. cbn [reap_loop].
  rewrite (proj2 (Z.leb_gt _ _)) by lia. rewrite E. cbn [mbind option_bind]. rewrite Esw. cbn [mbind option_bind].
  assert (free_frames s + 1 <= free_frames s').
  { rewrite (free_frames_length _ _ _ (rp_ok _ _ _ _ _ _ _ Hst)), (rp_len _ _ _ _ _ _ _ Hst). lia. }
  destruct (Z.to_nat (free_frames s)); cbn [reap_loop]; by rewrite (proj2 (Z.leb_le _ _)).
Qed.
End gather.

(** ** Examples *)

(** One user task with two resident pages, the first referenced and the second
    dirty. *)
Definition reap_task : Task :=
  mkTask 7 7 7 Ready 0 0x7000 0 0 None [] None (mkVmm [mkArea 0x400000 0x402000 7 Anonymous] ∅) 0 (scratch_new 0) 0x400000 0 0 0 0 0 signals_new 0.
Definition reap_table : gmap Z (Z * Z) := {[ 0x400000 := (0x8000, 39); 0x401000 := (0x9000, 71) ]}.
Definition reap_sample : rstate (gmap Z (Z * Z)) :=
  mkRs (mkKernel {[ 1 := reap_task ]} {[ 7 := 1 ]} mlfq_new 0 0 0) {[ 0x7000 := reap_table ]} sample_frames
    (Some (mkSwap (blank_disk RAMDISK_VIRT_REGION_BASE 8) [true] 0)).

Lemma reap_sample_arcs : arcs_of (rs_k reap_sample) = [1].
Proof. vm_compute. reflexivity. Qed.

Lemma reap_sample_space : user_space reap_sample 1 = Some (0x7000, reap_table, reap_task).
Proof. vm_compute. reflexivity. Qed.

Lemma reap_sample_entry q f fl : reap_table !! q = Some (f, fl) -> q = 0x400000 /\ f = 0x8000 /\ fl = 39 \/ q = 0x401000 /\ f = 0x9000 /\ fl = 71.
Proof.
  unfold reap_table. intros [[<- [= <- <-]]|[_ [<- [= <- <-]]%lookup_singleton_Some]]%lookup_insert_Some; [by left|by right].
Qed.

Lemma reap_sample_spaces : spaces_ok reap_sample.
Proof.
  split.
  - rewrite reap_sample_arcs. intros l ->%list_elem_of_singleton. exists reap_task. split; [reflexivity|]. intros _. split.
    + simpl. lia.
    + by exists reap_table.
    + repeat constructor; simpl; try lia. by exists 0x400.
    + split; [|done]. intros b x Hb. by apply not_elem_of_nil in Hb.
  - rewrite reap_sample_arcs. vm_compute. reflexivity.
Qed.

Lemma reap_sample_ok : reap_ok reap_sample ∅ [0x5000; 0x4000; 0x3000; 0x2000; 0x1000].
Proof.
  assert (Hc : forall c, cand_ok reap_sample c -> ca_arc c = 1) by (intros c [Hl _]; rewrite reap_sample_arcs in Hl; by apply list_elem_of_singleton in Hl).
  split.
  - apply reap_sample_spaces.
  - eexists. split; [reflexivity|]. apply (blank_swap_rep RAMDISK_VIRT_REGION_BASE 1). lia.
  - apply sample_frames_pool.
  - rewrite reap_sample_arcs. apply NoDup_singleton.
  - rewrite reap_sample_arcs. by intros l l' f tb t f' tb' t' ->%list_elem_of_singleton ->%list_elem_of_singleton.
  - intros c f fl Hok E. unfold page_entry, page_record in *. rewrite (Hc c Hok), reap_sample_space in *. simpl in E.
    apply reap_sample_entry in E as [(-> & -> & ->)|(-> & -> & ->)]; (split; [first [by exists 8 | by exists 9]|split; [lia|split; [|reflexivity]]]);
      apply (bool_decide_eq_true_1 _); vm_compute; reflexivity.
  - intros c c' f fl fl' Hok Hok' E E'. unfold page_entry in *. rewrite (Hc c Hok), (Hc c' Hok') in *. rewrite reap_sample_space in *. simpl in E, E'.
    apply reap_sample_entry in E as [(-> & -> & ->)|(-> & -> & ->)], E' as [(-> & ? & ->)|(-> & ? & ->)]; done.
  - intros c slot fl Hok E. unfold page_record in E. rewrite (Hc c Hok), reap_sample_space in E. done.
Qed.

Lemma reap_to_frees_without_loss_witness :
  exists n s' pages' free', reap_to 6 reap_sample = Some (Z.of_nat n, s') /\ reap_ok s' pages' free' /\
    free_frames s' = free_frames reap_sample + Z.of_nat n /\ ((0 < n)%nat -> free_frames s' <= 6) /\
    (6 <= free_frames s' \/ all_evicted s' \/ swap_full s') /\
    (forall c, cand_ok reap_sample c -> page_view s' pages' (ca_arc c) (ca_vaddr c) = page_view reap_sample ∅ (ca_arc c) (ca_vaddr c)) /\
    rs_k s' = set_tasks (rs_k reap_sample) (k_tasks (rs_k s')) /\
    (forall l, static <$> (k_tasks (rs_k s') !! l) = static <$> (k_tasks (rs_k reap_sample) !! l)).
Proof. apply (reap_to_frees_without_loss _ ∅ _ 6 reap_sample_ok). split; [lia|reflexivity]. Defined.

Lemma reaper_second_chance_witness :
  exists cs c s', gather_candidates reap_sample = Some cs /\ cs ≡ₚ all_pages reap_sample /\
    StronglySorted (fun c c' => excess_at reap_sample (ca_arc c') <= excess_at reap_sample (ca_arc c)) cs /\
    (forall k, filter (fun c => excess_at reap_sample (ca_arc c) = k) cs = filter (fun c => excess_at reap_sample (ca_arc c) = k) (all_pages reap_sample)) /\
    victim reap_sample cs = Some c /\ reap_to (free_frames reap_sample + 1) reap_sample = Some (1, s') /\ evicts_only reap_sample (second_chances reap_sample cs) c s'.
Proof.
  apply (reaper_second_chance _ ∅ _ reap_sample_ok).
  - intros (sw & [= <-] & Hf). by apply Forall_cons in Hf as [? _].
  - vm_compute. discriminate.
Defined.

(** The unreferenced second page is the one that goes; the first one is given
    its second chance. *)
Lemma reap_sample_victim :
  victim reap_sample (all_pages reap_sample) = Some (mkCand 1 0x7000 0x401000) /\
  second_chances reap_sample (all_pages reap_sample) = [mkCand 1 0x7000 0x400000].
Proof. vm_compute. done. Qed.
