(* ===== verification/Security.v ===== *)
(** Access control ([kernel/src/security/mod.rs]): per-object access lists with
    role rights on top, and the grant and revoke operations of the access
    matrix.  A [BTreeMap] used as a map is a [gmap]; a set of rights is a 32-bit
    mask. *)

From S2P Require Import Prelude.

(* security/mod.rs:15-21 NONE *)
Definition NONE : Z := 0.
Definition RIGHT_READ : Z := 1.
Definition RIGHT_WRITE : Z := 2.
Definition RIGHT_EXECUTE : Z := 4.
Definition COPY : Z := 8.
Definition OWNER : Z := 16.
Definition CONTROL : Z := 32.

(* security/mod.rs:23-25 contains *)
Definition contains (r bits : Z) : bool := Z.land r bits =? bits.

(* security/mod.rs:36-39 AccessEntry *)
Record AccessEntry := mkAccess { domain : Z; rights : Z }.

(** [AccessList]: the entries of each object. *)
Abbreviation AccessList := (gmap Z (list AccessEntry)).

(** ** Access lists *)

Definition find_entry (entries : list AccessEntry) (d : Z) : option AccessEntry := List.find (fun e => domain e =? d) entries.

(* security/mod.rs:50-55 lookup *)
Definition acl_lookup (acl : AccessList) (d o : Z) : Z :=
  match acl !! o with
  | Some entries => match find_entry entries d with Some e => rights e | None => NONE end
  | None => NONE
  end.

(** [iter_mut().find(..)] followed by the store. *)
Fixpoint update_first (entries : list AccessEntry) (d r : Z) : list AccessEntry :=
  match entries with
  | [] => []
  | e :: entries => if domain e =? d then mkAccess (domain e) r :: entries else e :: update_first entries d r
  end.

(* security/mod.rs:57-66 set *)
Definition acl_set (acl : AccessList) (d o r : Z) : AccessList :=
  let entries := default [] (acl !! o) in
  if r =? 0 then <[o := List.filter (fun e => negb (domain e =? d)) entries]> acl
  else match find_entry entries d with
       | Some _ => <[o := update_first entries d r]> acl
       | None => <[o := entries ++ [mkAccess d r]]> acl
       end.

(** ** Roles and the access matrix *)

(* security/mod.rs:70-74 RbacAccessControl *)
Record RbacAccessControl := mkRbac { acl : AccessList; roles : gmap Z Z; user_roles : gmap Z Z }.

(* security/mod.rs:77-83 new *)
Definition rbac_new : RbacAccessControl := mkRbac ∅ ∅ ∅.
(* security/mod.rs:85-87 define_role *)
Definition define_role (s : RbacAccessControl) (role r : Z) : RbacAccessControl := mkRbac (acl s) (<[role := r]> (roles s)) (user_roles s).
(* security/mod.rs:89-91 assign_role *)
Definition assign_role (s : RbacAccessControl) (d role : Z) : RbacAccessControl := mkRbac (acl s) (roles s) (<[d := role]> (user_roles s)).
(* security/mod.rs:93-95 set_rights *)
Definition set_rights (s : RbacAccessControl) (d o r : Z) : RbacAccessControl := mkRbac (acl_set (acl s) d o r) (roles s) (user_roles s).

(* security/mod.rs:97-102 role_rights *)
Definition role_rights (s : RbacAccessControl) (d : Z) : Z := default NONE (user_roles s !! d ≫= fun role => roles s !! role).

(* security/mod.rs:106-110 access *)
Definition access (s : RbacAccessControl) (d o : Z) : Z := Z.lor (acl_lookup (acl s) d o) (role_rights s d).

(* security/mod.rs:112-131 grant *)
Definition grant (s : RbacAccessControl) (grantor target o r : Z) : RbacAccessControl * result unit unit :=
  let g := access s grantor o in
  if contains g OWNER || contains g CONTROL
  then (set_rights s target o (Z.lor (acl_lookup (acl s) target o) r), Ok tt)
  else if contains g COPY && (Z.land g r =? r)
  then (set_rights s target o (Z.lor (acl_lookup (acl s) target o) r), Ok tt)
  else (s, Err tt).

(* security/mod.rs:133-143 revoke *)
Definition revoke (s : RbacAccessControl) (revoker target o r : Z) : RbacAccessControl * result unit unit :=
  let g := access s revoker o in
  if contains g OWNER || contains g CONTROL
  then (set_rights s target o (Z.land (acl_lookup (acl s) target o) (Z.lxor r (Z.ones 32))), Ok tt)
  else (s, Err tt).

(** ** Access lists as a matrix *)

Lemma find_update_first entries d r d' :
  find_entry (update_first entries d r) d' =
  if d' =? d then (fun e => mkAccess (domain e) r) <$> find_entry entries d else find_entry entries d'.
Proof.
  unfold find_entry. induction entries as [|e entries IH]; cbn; [by destruct (d' =? d)|].
  destruct (Z.eqb_spec (domain e) d) as [He|He]; cbn.
  - destruct (Z.eqb_spec d' d) as [Hd|Hd]; [by rewrite Hd, (proj2 (Z.eqb_eq _ _) He)|]. by rewrite (proj2 (Z.eqb_neq (domain e) d')) by congruence.
  - rewrite IH. destruct (Z.eqb_spec d' d) as [Hd|Hd]; [by rewrite Hd, (proj2 (Z.eqb_neq _ _) He)|done].
Qed.

Lemma find_filter entries d d' :
  find_entry (List.filter (fun e => negb (domain e =? d)) entries) d' = if d' =? d then None else find_entry entries d'.
Proof.
  unfold find_entry. induction entries as [|e entries IH]; cbn; [by destruct (d' =? d)|].
  destruct (Z.eqb_spec (domain e) d) as [He|He]; cbn; rewrite IH.
  - destruct (Z.eqb_spec d' d) as [Hd|Hd]; [done|]. by rewrite (proj2 (Z.eqb_neq (domain e) d')) by congruence.
  - destruct (Z.eqb_spec d' d) as [Hd|Hd]; [by rewrite Hd, (proj2 (Z.eqb_neq _ _) He)|done].
Qed.

Lemma find_snoc entries d r d' :
  find_entry entries d = None ->
  find_entry (entries ++ [mkAccess d r]) d' = if d' =? d then Some (mkAccess d r) else find_entry entries d'.
Proof.
  unfold find_entry. induction entries as [|e entries IH]; cbn; intros H.
  - rewrite (Z.eqb_sym d d'). by destruct (d' =? d).
  - destruct (Z.eqb_spec (domain e) d) as [He|He]; [done|]. rewrite IH by done.
    destruct (Z.eqb_spec d' d) as [Hd|Hd]; [by rewrite Hd, (proj2 (Z.eqb_neq _ _) He)|done].
Qed.

(** Setting an entry changes that entry of the matrix and no other. *)
Lemma acl_lookup_set a d o r d' o' :
  acl_lookup (acl_set a d o r) d' o' = if (d' =? d) && (o' =? o) then r else acl_lookup a d' o'.
Proof.
  unfold acl_set, acl_lookup. destruct (Z.eqb_spec o' o) as [->|Ho].
  2: { rewrite andb_false_r. destruct (r =? 0); [|destruct (find_entry _ d)]; by rewrite lookup_insert_ne. }
  rewrite andb_true_r. destruct (Z.eqb_spec r 0) as [->|Hr].
  - rewrite lookup_insert_eq, find_filter. destruct (d' =? d); [done|]. by destruct (a !! o).
  - destruct (find_entry (default [] (a !! o)) d) as [e|] eqn:E; rewrite lookup_insert_eq.
    + rewrite find_update_first, E. destruct (d' =? d); [done|]. by destruct (a !! o).
    + rewrite find_snoc by done. destruct (d' =? d); [done|]. by destruct (a !! o).
Qed.

Lemma set_rights_access s d o r d' o' :
  access (set_rights s d o r) d' o' = if (d' =? d) && (o' =? o) then Z.lor r (role_rights s d') else access s d' o'.
Proof. unfold access, set_rights. cbn [acl]. rewrite acl_lookup_set. by destruct ((d' =? d) && (o' =? o)). Qed.

Lemma contains_testbit r i : 0 <= i -> contains r (2 ^ i) = Z.testbit r i.
Proof.
  intros Hi. unfold contains. destruct (Z.testbit r i) eqn:E.
  - apply Z.eqb_eq. bitwise j Hj. rewrite Z.land_spec, Z.pow2_bits_eqb by done. destruct (Z.eqb_spec i j) as [<-|]; [by rewrite E|by rewrite andb_false_r].
  - apply Z.eqb_neq. intros H. assert (H' : Z.testbit (Z.land r (2 ^ i)) i = Z.testbit (2 ^ i) i) by by rewrite H.
    rewrite Z.land_spec, E, Z.pow2_bits_true in H' by done. done.
Qed.

(** ** Theorems *)

(** Who may grant [r] on an object, from the rights held on it. *)
Definition may_grant (g r : Z) : Prop := Z.testbit g 4 = true \/ Z.testbit g 5 = true \/ (Z.testbit g 3 = true /\ Z.land g r = r).
Definition may_revoke (g : Z) : Prop := Z.testbit g 4 = true \/ Z.testbit g 5 = true.

Lemma authority g : contains g OWNER || contains g CONTROL = true <-> may_revoke g.
Proof. change OWNER with (2 ^ 4). change CONTROL with (2 ^ 5). rewrite orb_true_iff, !contains_testbit by lia. done. Qed.

(** C23. Grant and revoke act on the access matrix: with the required authority
    (owner or control, or for a grant also copy together with every right
    granted) exactly the target's entry for the object gains or loses exactly
    the named rights, and without it the call fails and nothing changes. *)
Theorem access_control_refines_matrix s a target o r d o' :
  (may_grant (access s a o) r ->
     exists s', grant s a target o r = (s', Ok tt) /\
       access s' d o' = if (d =? target) && (o' =? o) then Z.lor (access s d o') r else access s d o') /\
  (~ may_grant (access s a o) r -> grant s a target o r = (s, Err tt)) /\
  (may_revoke (access s a o) ->
     exists s', revoke s a target o r = (s', Ok tt) /\
       access s' d o' = if (d =? target) && (o' =? o)
         then Z.lor (Z.land (acl_lookup (acl s) d o') (Z.lxor r (Z.ones 32))) (role_rights s d) else access s d o') /\
  (~ may_revoke (access s a o) -> revoke s a target o r = (s, Err tt)).
Proof.
  set (g := access s a o).
  assert (Hg : (contains g OWNER || contains g CONTROL) || (contains g COPY && (Z.land g r =? r)) = true <-> may_grant g r).
  { rewrite orb_true_iff, authority, andb_true_iff, Z.eqb_eq. change COPY with (2 ^ 3). rewrite contains_testbit by lia. unfold may_grant, may_revoke. tauto. }
  unfold grant, revoke. fold g. split_and!.
  - intros H. apply Hg in H. destruct (contains g OWNER || contains g CONTROL); [|cbn in H; rewrite H]; eexists; (split; [reflexivity|]); rewrite set_rights_access;
      destruct (d =? target) eqn:Ed, (o' =? o) eqn:Eo; cbn; try done; apply Z.eqb_eq in Ed as ->, Eo as ->; unfold access; rewrite <- !Z.lor_assoc; f_equal; apply Z.lor_comm.
  - intros H. rewrite <- Hg in H. apply not_true_iff_false, orb_false_iff in H as [-> ->]. done.
  - intros H. apply authority in H as ->. eexists. split; [reflexivity|]. rewrite set_rights_access.
    destruct (d =? target) eqn:Ed, (o' =? o) eqn:Eo; cbn; try done. apply Z.eqb_eq in Ed as ->, Eo as ->. done.
  - intros H. rewrite <- authority in H. apply not_true_iff_false in H as ->. done.
Qed.

Lemma access_control_refines_matrix_witness :
  let s := set_rights rbac_new 7 100 OWNER in
  (may_grant (access s 7 100) 3 ->
     exists s', grant s 7 8 100 3 = (s', Ok tt) /\ access s' 8 100 = if (8 =? 8) && (100 =? 100) then Z.lor (access s 8 100) 3 else access s 8 100) /\
  (~ may_grant (access s 7 100) 3 -> grant s 7 8 100 3 = (s, Err tt)) /\
  (may_revoke (access s 7 100) ->
     exists s', revoke s 7 8 100 3 = (s', Ok tt) /\
       access s' 8 100 = if (8 =? 8) && (100 =? 100)
         then Z.lor (Z.land (acl_lookup (acl s) 8 100) (Z.lxor 3 (Z.ones 32))) (role_rights s 8) else access s 8 100) /\
  (~ may_revoke (access s 7 100) -> revoke s 7 8 100 3 = (s, Err tt)).
Proof. intros s. apply (access_control_refines_matrix s 7 8 100 3 8 100). Defined.

(** *** Rights cannot be amplified *)

Inductive acl_op := OpGrant (a target o r : Z) | OpRevoke (a target o r : Z).
Definition run_op (s : RbacAccessControl) (op : acl_op) : RbacAccessControl :=
  match op with OpGrant a t o r => fst (grant s a t o r) | OpRevoke a t o r => fst (revoke s a t o r) end.

(** Nobody holds owner, control or the right [b] on the object. *)
Definition confined (s : RbacAccessControl) (o b : Z) : Prop :=
  forall d i, i = 4 \/ i = 5 \/ i = b -> Z.testbit (access s d o) i = false.

Lemma run_op_confined s op o b : confined s o b -> confined (run_op s op) o b.
Proof.
  intros Hc. assert (Hno : forall a, contains (access s a o) OWNER || contains (access s a o) CONTROL = false).
  { intros a. change OWNER with (2 ^ 4). change CONTROL with (2 ^ 5). rewrite !contains_testbit by lia. rewrite !Hc by auto. done. }
  assert (Hset : forall t o' x, (o' = o -> forall i, i = 4 \/ i = 5 \/ i = b -> Z.testbit (Z.lor x (role_rights s t)) i = false) -> confined (set_rights s t o' x) o b).
  { intros t o' x Hx d i Hi. rewrite set_rights_access. destruct (Z.eqb_spec o o') as [<-|Ho]; [|rewrite andb_false_r; by apply Hc].
    destruct (Z.eqb_spec d t) as [->|]; cbn; [by apply Hx|by apply Hc]. }
  destruct op as [a t o' r|a t o' r]; cbn [run_op].
  - unfold grant. destruct (Z.eq_dec o' o) as [->|Ho].
    + rewrite Hno. destruct (contains _ COPY && _) eqn:E; [|done]. apply andb_true_iff in E as [_ E]. apply Z.eqb_eq in E. apply Hset. intros _ i Hi.
      rewrite !Z.lor_spec, <- E, Z.land_spec, (Hc a i Hi), orb_false_r. pose proof (Hc t i Hi) as Ht. unfold access in Ht. by rewrite Z.lor_spec in Ht.
    + destruct (_ || _); [apply Hset; congruence|]. destruct (_ && _); [apply Hset; congruence|done].
  - unfold revoke. destruct (Z.eq_dec o' o) as [->|Ho]; [by rewrite Hno|]. destruct (_ || _); [apply Hset; congruence|done].
Qed.

(** Rights are not amplified: if no domain holds the owner or control right
    or a right [b] on an object, then after any sequence of grants and revokes
    by any domains still none does; copying alone never creates a right that
    nobody had. *)
Theorem rights_not_amplified s o b ops : confined s o b -> confined (foldl run_op s ops) o b.
Proof. revert s. induction ops as [|op ops IH]; intros s Hc; cbn; [done|]. apply IH. by apply run_op_confined. Qed.

Lemma rights_not_amplified_witness :
  let s := set_rights rbac_new 7 100 (Z.lor COPY RIGHT_READ) in
  confined (foldl run_op s [OpGrant 7 8 100 RIGHT_READ; OpGrant 7 8 100 RIGHT_WRITE; OpGrant 8 9 100 RIGHT_READ]) 100 1.
Proof.
  intros s. apply (rights_not_amplified s 100 1). intros d i Hi. unfold s. rewrite set_rights_access.
  destruct (Z.eqb_spec d 7) as [->|Hd]; cbn; [destruct Hi as [->|[->| ->]]; reflexivity|]. apply Z.bits_0.
Defined.
