(* ===== verification/Console.v ===== *)
(** The keyboard ring buffer ([kernel/src/arch/interrupts.rs]), the console line
    discipline ([io/console.rs]), the device table ([io/device.rs]) and the
    device branch of the read and write system calls
    ([dev_read], [dev_write] of [syscall/dispatch.rs]).

    The serial port is the list of bytes sent to it.  [None] is an index out
    of range. *)

From S2P Require Import Prelude.

(** ** The scancode ring *)

(* arch/interrupts.rs:16-18 SCANCODE_BUF *)
Record ring := mkRing { SCANCODE_BUF : list Z; SCANCODE_HEAD : Z; SCANCODE_TAIL : Z }.

(* arch/interrupts.rs:41-50 push_scancode *)
Definition push_scancode (r : ring) (scancode : Z) : option ring :=
  let tail := SCANCODE_TAIL r in
  t1 ← uadd 64 tail 1;
  let next_tail := t1 mod 256 in
  if next_tail =? SCANCODE_HEAD r then Some r
  else
    _ ← SCANCODE_BUF r !! Z.to_nat tail;
    Some (mkRing (<[Z.to_nat tail := scancode]> (SCANCODE_BUF r)) (SCANCODE_HEAD r) next_tail).

(* arch/interrupts.rs:53-61 pop_scancode *)
Definition pop_scancode (r : ring) : option (option Z * ring) :=
  let head := SCANCODE_HEAD r in
  if head =? SCANCODE_TAIL r then Some (None, r)
  else
    scancode ← SCANCODE_BUF r !! Z.to_nat head;
    h1 ← uadd 64 head 1;
    Some (Some scancode, mkRing (SCANCODE_BUF r) (h1 mod 256) (SCANCODE_TAIL r)).

(** ** The console *)

(* io/console.rs:7-16 SCANCODE_TO_ASCII *)
Definition SCANCODE_TO_ASCII : list Z := [
  0; 0; 49; 50; 51; 52; 53; 54; 55; 56;
  57; 48; 45; 61; 8; 9;
  113; 119; 101; 114; 116; 121; 117; 105; 111; 112;
  91; 93; 10; 0;
  97; 115; 100; 102; 103; 104; 106; 107; 108;
  59; 39; 96; 0; 92;
  122; 120; 99; 118; 98; 110; 109;
  44; 46; 47; 0; 0; 0; 32].

(* io/console.rs:19-25 Console *)
Record Console := mkConsole { line_buf : list Z; line_len : Z; ready_buf : list Z; ready_len : Z; ready_pos : Z }.

(* io/console.rs:28-36 new *)
Definition console_new : Console := mkConsole (replicate 256 0) 0 (replicate 256 0) 0 0.

(* io/console.rs:38-41 decode_scancode *)
Definition decode_scancode (code : Z) : option Z :=
  if negb (Z.land code 0x80 =? 0) then None
  else c ← SCANCODE_TO_ASCII !! Z.to_nat code; if c =? 0 then None else Some c.

(** The console with the ring it drains and the bytes sent to the serial port. *)
Record world := mkWorld { w_ring : ring; w_console : Console; w_serial : list Z }.

(** The body of the drain loop, for one decoded character. *)
(* io/console.rs:45-57 drain_scancodes *)
Definition accept_char (c : Console) (serial : list Z) (ch : Z) : option (Console * list Z) :=
  '(c, serial) ←
    (if line_len c <? 256
     then
       _ ← line_buf c !! Z.to_nat (line_len c);
       Some (mkConsole (<[Z.to_nat (line_len c) := ch]> (line_buf c)) (line_len c + 1) (ready_buf c) (ready_len c) (ready_pos c), serial ++ [ch])
     else Some (c, serial));
  if ch =? 10
  then
    let n := Z.to_nat (line_len c) in
    if (n <=? length (line_buf c))%nat && (n <=? length (ready_buf c))%nat
    then Some (mkConsole (line_buf c) 0 (take n (line_buf c) ++ drop n (ready_buf c)) (line_len c) 0, serial)
    else None
  else Some (c, serial).

(** [fuel] bounds the number of scancodes taken from the ring. *)
(* io/console.rs:43-59 drain_scancodes *)
Fixpoint drain_scancodes (fuel : nat) (w : world) : option world :=
  '(code, r) ← pop_scancode (w_ring w);
  match code with
  | None => Some w
  | Some code =>
      match fuel with
      | O => None
      | S fuel =>
          match decode_scancode code with
          | Some ch => '(c, serial) ← accept_char (w_console w) (w_serial w) ch; drain_scancodes fuel (mkWorld r c serial)
          | None => drain_scancodes fuel (mkWorld r (w_console w) (w_serial w))
          end
      end
  end.

Definition DRAIN_FUEL : nat := 256.

Definition take_ready (w : world) : option (option Z * world) :=
  let c := w_console w in
  if ready_pos c <? ready_len c
  then
    ch ← ready_buf c !! Z.to_nat (ready_pos c);
    Some (Some ch, mkWorld (w_ring w) (mkConsole (line_buf c) (line_len c) (ready_buf c) (ready_len c) (ready_pos c + 1)) (w_serial w))
  else Some (None, w).

(* io/console.rs:63-77 get *)
Definition console_get (w : world) : option (option Z * world) :=
  '(ch, w) ← take_ready w;
  match ch with
  | Some ch => Some (Some ch, w)
  | None => w ← drain_scancodes DRAIN_FUEL w; take_ready w
  end.

(* io/console.rs:79-81 put *)
Definition console_put (w : world) (byte : Z) : world := mkWorld (w_ring w) (w_console w) (w_serial w ++ [byte]).

(** ** Devices *)

Definition EAGAIN : Z := -11.
Definition ENODEV : Z := -19.
(* io/device.rs:26-28 DEV_FD_OFFSET *)
Definition DEV_FD_OFFSET : Z := 0x10000.
Definition IOCTL_SET_NONBLOCK : Z := 1.
Definition IOCTL_SET_BLOCK : Z := 2.

(* io/device.rs:31-34 DeviceStatus *)
Record DeviceStatus := mkDevice { dev_name : string; blocking : bool }.
(** [DeviceTable]: its entries. *)
Abbreviation DeviceTable := (list DeviceStatus).

(* io/device.rs:45-49 register *)
Definition dev_register (t : DeviceTable) (name : string) : nat * DeviceTable := (length t, t ++ [mkDevice name true]).
(* io/device.rs:51-53 find *)
Definition dev_find (t : DeviceTable) (name : string) : option nat := fst <$> list_find (fun e => dev_name e = name) t.
(* io/device.rs:59-61 is_blocking *)
Definition is_blocking (t : DeviceTable) (idx : nat) : bool := default true (blocking <$> t !! idx).

(** The loop of [dev_read] over a buffer of [n] bytes: the bytes stored. *)
Fixpoint dev_read_loop (n : nat) (w : world) : option (list Z * world) :=
  match n with
  | O => Some ([], w)
  | S n =>
      '(ch, w) ← console_get w;
      match ch with
      | Some ch => '(bs, w) ← dev_read_loop n w; Some (ch :: bs, w)
      | None => Some ([], w)
      end
  end.

(* syscall/dispatch.rs:76-90 dev_read *)
Definition dev_read (dev_idx : Z) (len : nat) (w : world) : option (Z * list Z * world) :=
  if dev_idx =? 0
  then
    '(bs, w) ← dev_read_loop len w;
    Some (if (length bs =? 0)%nat then EAGAIN else Z.of_nat (length bs), bs, w)
  else Some (ENODEV, [], w).

(* syscall/dispatch.rs:92-102 dev_write *)
Definition dev_write (dev_idx : Z) (buf : list Z) (w : world) : Z * world :=
  if dev_idx =? 0 then (Z.of_nat (length buf), foldl console_put w buf) else (ENODEV, w).

(** ** The ring as a queue *)

Definition ring_ok (r : ring) : Prop :=
  length (SCANCODE_BUF r) = 256%nat /\ 0 <= SCANCODE_HEAD r < 256 /\ 0 <= SCANCODE_TAIL r < 256.

Definition ring_at (r : ring) (i : nat) : Z := default 0 (SCANCODE_BUF r !! Z.to_nat ((SCANCODE_HEAD r + Z.of_nat i) mod 256)).
Definition ring_count (r : ring) : Z := (SCANCODE_TAIL r - SCANCODE_HEAD r) mod 256.
(** The scancodes waiting, oldest first. *)
Definition ring_contents (r : ring) : list Z := ring_at r <$> seq 0 (Z.to_nat (ring_count r)).

Lemma mod256_step a b : 0 <= a < 256 -> 0 <= b < 256 -> (a - b) mod 256 = if b <=? a then a - b else a - b + 256.
Proof.
  intros Ha Hb. destruct (Z.leb_spec b a); [apply Z.mod_small; lia|]. rewrite <- (Z.mod_add _ 1) by lia. apply Z.mod_small. lia.
Qed.

Lemma mod256_add a n : 0 <= a < 256 -> 0 <= n < 256 -> (a + n) mod 256 = if a + n <? 256 then a + n else a + n - 256.
Proof.
  intros Ha Hn. destruct (Z.ltb_spec (a + n) 256); [apply Z.mod_small; lia|]. rewrite <- (Z.mod_add _ (-1)) by lia. rewrite Z.mod_small; lia.
Qed.

Lemma push_scancode_spec r s :
  ring_ok r -> exists r', push_scancode r s = Some r' /\ ring_ok r' /\
    ring_contents r' = if (length (ring_contents r) <? 255)%nat then ring_contents r ++ [s] else ring_contents r.
Proof.
  intros (Hl & Hh & Ht). unfold push_scancode, uadd. rewrite uchk_fits by (unfold fits; lia). cbn [mbind option_bind].
  unfold ring_contents at 2. rewrite length_fmap, length_seq. unfold ring_count at 1. rewrite mod256_step, mod256_add by lia.
  set (t' := if SCANCODE_TAIL r + 1 <? 256 then SCANCODE_TAIL r + 1 else SCANCODE_TAIL r + 1 - 256).
  assert (Ht' : 0 <= t' < 256) by (unfold t'; destruct (Z.ltb_spec (SCANCODE_TAIL r + 1) 256); lia).
  set (n := if SCANCODE_HEAD r <=? SCANCODE_TAIL r then _ else _).
  assert (Hn : 0 <= n < 256) by (unfold n; destruct (Z.leb_spec (SCANCODE_HEAD r) (SCANCODE_TAIL r)); lia).
  assert (Hfull : t' = SCANCODE_HEAD r <-> n = 255) by (unfold t', n; destruct (Z.ltb_spec (SCANCODE_TAIL r + 1) 256), (Z.leb_spec (SCANCODE_HEAD r) (SCANCODE_TAIL r)); lia).
  destruct (Z.eqb_spec t' (SCANCODE_HEAD r)) as [E|E].
  - exists r. apply Hfull in E. rewrite (proj2 (Nat.ltb_ge _ _)) by lia. done.
  - rewrite (proj2 (Nat.ltb_lt (Z.to_nat n) 255)) by lia. destruct (lookup_lt_is_Some_2 (SCANCODE_BUF r) (Z.to_nat (SCANCODE_TAIL r))) as [x ->]; [lia|]. cbn [mbind option_bind].
    eexists. split; [reflexivity|]. split; [unfold ring_ok; cbn [SCANCODE_BUF SCANCODE_HEAD SCANCODE_TAIL]; by rewrite length_insert|].
    assert (Hc : ring_count r = n) by (unfold ring_count; by rewrite mod256_step).
    unfold ring_contents. rewrite Hc. unfold ring_count. cbn [SCANCODE_TAIL SCANCODE_HEAD]. rewrite mod256_step by lia.
    assert ((if SCANCODE_HEAD r <=? t' then t' - SCANCODE_HEAD r else t' - SCANCODE_HEAD r + 256) = n + 1) as ->.
    { revert E. unfold t', n. destruct (Z.ltb_spec (SCANCODE_TAIL r + 1) 256), (Z.leb_spec (SCANCODE_HEAD r) (SCANCODE_TAIL r)); intros E.
      all: match goal with |- context [if ?a <=? ?b then _ else _] => destruct (Z.leb_spec a b) end; lia. }
    replace (Z.to_nat (n + 1)) with (S (Z.to_nat n)) by lia. rewrite seq_S, fmap_app. cbn [fmap list_fmap Nat.add]. f_equal.
    + apply list_fmap_ext. intros i y Hy. apply lookup_seq in Hy as [-> Hy]. unfold ring_at. cbn [SCANCODE_BUF SCANCODE_HEAD Nat.add].
      rewrite mod256_add by lia. rewrite list_lookup_insert_ne; [done|]. revert Hy. unfold n.
      destruct (Z.leb_spec (SCANCODE_HEAD r) (SCANCODE_TAIL r)), (Z.ltb_spec (SCANCODE_HEAD r + Z.of_nat i) 256); lia.
    + unfold ring_at. cbn [SCANCODE_BUF SCANCODE_HEAD]. rewrite mod256_add by lia.
      assert ((if SCANCODE_HEAD r + Z.of_nat (Z.to_nat n) <? 256 then SCANCODE_HEAD r + Z.of_nat (Z.to_nat n) else SCANCODE_HEAD r + Z.of_nat (Z.to_nat n) - 256) = SCANCODE_TAIL r) as ->.
      { rewrite Z2Nat.id by lia. unfold n. destruct (Z.leb_spec (SCANCODE_HEAD r) (SCANCODE_TAIL r)); match goal with |- context [if ?a <? ?b then _ else _] => destruct (Z.ltb_spec a b) end; lia. }
      by rewrite list_lookup_insert_eq by lia.
Qed.

Lemma pop_scancode_spec r :
  ring_ok r -> exists r', pop_scancode r = Some (head (ring_contents r), r') /\ ring_ok r' /\ ring_contents r' = tail (ring_contents r).
Proof.
  intros (Hl & Hh & Ht). unfold pop_scancode. unfold ring_contents at 1 3, ring_count. rewrite mod256_step by lia.
  destruct (Z.eqb_spec (SCANCODE_HEAD r) (SCANCODE_TAIL r)) as [E|E].
  - rewrite E, Z.leb_refl, Z.sub_diag. exists r. split; [done|]. split; [by split|]. unfold ring_contents, ring_count. rewrite E, Z.sub_diag. done.
  - destruct (lookup_lt_is_Some_2 (SCANCODE_BUF r) (Z.to_nat (SCANCODE_HEAD r))) as [x Hx]; [lia|]. rewrite Hx. cbn [mbind option_bind].
    unfold uadd. rewrite uchk_fits by (unfold fits; lia). cbn [mbind option_bind]. set (n := if SCANCODE_HEAD r <=? SCANCODE_TAIL r then _ else _).
    assert (Hn : 1 <= n < 256) by (unfold n; destruct (Z.leb_spec (SCANCODE_HEAD r) (SCANCODE_TAIL r)); lia).
    destruct (Z.to_nat n) as [|n'] eqn:En; [lia|]. cbn [seq fmap list_fmap head tail]. rewrite mod256_add by lia.
    set (h' := if SCANCODE_HEAD r + 1 <? 256 then _ else _). assert (Hh' : 0 <= h' < 256) by (unfold h'; destruct (Z.ltb_spec (SCANCODE_HEAD r + 1) 256); lia).
    eexists. split; [|split].
    + do 3 f_equal. unfold ring_at. rewrite Z.add_0_r, Z.mod_small, Hx by lia. done.
    + by split.
    + unfold ring_contents, ring_count. cbn [SCANCODE_HEAD SCANCODE_TAIL]. rewrite mod256_step by lia.
      assert ((if h' <=? SCANCODE_TAIL r then SCANCODE_TAIL r - h' else SCANCODE_TAIL r - h' + 256) = Z.of_nat n') as ->.
      { assert (n = Z.of_nat n' + 1) as Hn' by lia. revert Hn'. unfold h', n. destruct (Z.leb_spec (SCANCODE_HEAD r) (SCANCODE_TAIL r)), (Z.ltb_spec (SCANCODE_HEAD r + 1) 256); intros Hn'.
        all: match goal with |- context [if ?a <=? ?b then _ else _] => destruct (Z.leb_spec a b) end; lia. }
      rewrite Nat2Z.id. change (list_fmap nat Z (ring_at r) (seq 1 n')) with (ring_at r <$> seq 1 n'). rewrite <- fmap_S_seq, <- list_fmap_compose. apply list_fmap_ext. intros i y Hy.
      unfold ring_at, compose. cbn [SCANCODE_BUF SCANCODE_HEAD]. do 3 f_equal.
      apply lookup_seq in Hy as [-> Hy]. rewrite !mod256_add by lia. unfold h'.
      destruct (Z.ltb_spec (SCANCODE_HEAD r + 1) 256); repeat match goal with |- context [if ?a <? ?b then _ else _] => destruct (Z.ltb_spec a b) end; lia.
Qed.

(** ** The line discipline *)

(** What the console promises: keys pressed and not yet looked at, the line
    being typed, the part of the last complete line not yet read, and the
    bytes sent to the serial port. *)
Record tty := mkTty { t_keys : list Z; t_line : list Z; t_ready : list Z; t_echo : list Z }.

(** A character joins the line while it has room and is echoed; a newline
    makes the line readable. *)
Definition tty_char (t : tty) (ch : Z) : tty :=
  let room := (length (t_line t) <? 256)%nat in
  let line := if room then t_line t ++ [ch] else t_line t in
  let echo := if room then t_echo t ++ [ch] else t_echo t in
  if ch =? 10 then mkTty (t_keys t) [] line echo else mkTty (t_keys t) line (t_ready t) echo.

Definition tty_drain (t : tty) : tty := foldl tty_char (mkTty [] (t_line t) (t_ready t) (t_echo t)) (omap decode_scancode (t_keys t)).

Definition tty_take (t : tty) : option Z * tty :=
  match t_ready t with
  | x :: xs => (Some x, mkTty (t_keys t) (t_line t) xs (t_echo t))
  | [] => (None, t)
  end.

Definition tty_get (t : tty) : option Z * tty :=
  match t_ready t with [] => tty_take (tty_drain t) | _ => tty_take t end.

(** The console as a terminal. *)
Definition console_ok (c : Console) : Prop :=
  length (line_buf c) = 256%nat /\ length (ready_buf c) = 256%nat /\ 0 <= line_len c <= 256 /\ 0 <= ready_pos c <= ready_len c /\ ready_len c <= 256.
Definition world_ok (w : world) : Prop := ring_ok (w_ring w) /\ console_ok (w_console w).

Definition line_of (c : Console) : list Z := take (Z.to_nat (line_len c)) (line_buf c).
Definition ready_of (c : Console) : list Z := drop (Z.to_nat (ready_pos c)) (take (Z.to_nat (ready_len c)) (ready_buf c)).
Definition tty_of (w : world) : tty := mkTty (ring_contents (w_ring w)) (line_of (w_console w)) (ready_of (w_console w)) (w_serial w).

Lemma accept_char_spec c serial ch keys :
  console_ok c -> exists c' serial', accept_char c serial ch = Some (c', serial') /\ console_ok c' /\
    mkTty keys (line_of c') (ready_of c') serial' = tty_char (mkTty keys (line_of c) (ready_of c) serial) ch.
Proof.
  intros (H1 & H2 & H3 & H4 & H5). unfold accept_char, tty_char. cbn [t_line t_echo t_ready t_keys].
  assert (Hlen : length (line_of c) = Z.to_nat (line_len c)) by (unfold line_of; rewrite length_take; lia). rewrite Hlen.
  destruct (Z.ltb_spec (line_len c) 256) as [Hl|Hl].
  - rewrite (proj2 (Nat.ltb_lt _ _)) by lia. destruct (lookup_lt_is_Some_2 (line_buf c) (Z.to_nat (line_len c))) as [x Hx]; [lia|]. rewrite Hx. cbn [mbind option_bind line_len line_buf ready_buf].
    assert (Hline : take (Z.to_nat (line_len c + 1)) (<[Z.to_nat (line_len c) := ch]> (line_buf c)) = line_of c ++ [ch]).
    { replace (Z.to_nat (line_len c + 1)) with (S (Z.to_nat (line_len c))) by lia. rewrite (take_S_r _ _ ch) by (rewrite list_lookup_insert_eq by lia; done). f_equal. by rewrite take_insert_ge by lia. }
    destruct (ch =? 10).
    + rewrite length_insert, !(proj2 (Nat.leb_le _ _)) by lia. cbn [andb]. eexists _, _. split; [reflexivity|]. split; [unfold console_ok; cbn; rewrite length_insert, length_app, length_take, length_drop, length_insert; lia|].
      f_equal. unfold ready_of. cbn [ready_pos ready_len ready_buf]. rewrite drop_0, take_app_le, take_take, Nat.min_id; [done|]. rewrite length_take, length_insert. lia.
    + eexists _, _. split; [reflexivity|]. split; [unfold console_ok; cbn; rewrite length_insert; lia|]. f_equal. exact Hline.
  - rewrite (proj2 (Nat.ltb_ge _ _)) by lia. cbn [mbind option_bind]. destruct (ch =? 10).
    + rewrite !(proj2 (Nat.leb_le _ _)) by lia. cbn [andb]. eexists _, _. split; [reflexivity|]. split; [unfold console_ok; cbn; rewrite length_app, length_take, length_drop; lia|].
      f_equal. unfold ready_of. cbn [ready_pos ready_len ready_buf]. rewrite drop_0, take_app_le, take_take, Nat.min_id; [done|]. rewrite length_take. lia.
    + eexists _, _. split; [reflexivity|]. split; [done|]. done.
Qed.

Lemma drain_spec fuel w :
  world_ok w -> (length (ring_contents (w_ring w)) <= fuel)%nat ->
  exists w', drain_scancodes fuel w = Some w' /\ world_ok w' /\ tty_of w' = tty_drain (tty_of w).
Proof.
  revert w. induction fuel as [|fuel IH]; intros w [Hr Hc] Hf; cbn [drain_scancodes]; destruct (pop_scancode_spec (w_ring w) Hr) as (r' & -> & Hr' & Hrc); cbn [mbind option_bind].
  - destruct (ring_contents (w_ring w)) as [|x xs] eqn:E; [|cbn in Hf; lia]. exists w. split_and!; [done|by split|]. unfold tty_drain, tty_of. cbn [t_keys t_line t_ready t_echo]. by rewrite E.
  - unfold tty_drain, tty_of in *. cbn [t_keys t_line t_ready t_echo] in *. destruct (ring_contents (w_ring w)) as [|x xs] eqn:E; cbn [head tail] in *.
    + exists w. split_and!; [done|by split|]. by rewrite E.
    + cbn [omap list_omap]. destruct (decode_scancode x) as [ch|]; cbn [foldl].
      * destruct (accept_char_spec (w_console w) (w_serial w) ch [] Hc) as (c' & s' & -> & Hc' & Et). cbn [mbind option_bind]. rewrite <- Et.
        destruct (IH (mkWorld r' c' s')) as (w' & E' & Hok' & Et'); [by split|cbn [w_ring]; rewrite Hrc; cbn in Hf; lia|]. exists w'. split_and!; [done|done|]. rewrite Et'. cbn [w_ring w_console w_serial]. by rewrite Hrc.
      * destruct (IH (mkWorld r' (w_console w) (w_serial w))) as (w' & E' & Hok' & Et'); [by split|cbn [w_ring]; rewrite Hrc; cbn in Hf; lia|]. exists w'. split_and!; [done|done|]. rewrite Et'. cbn [w_ring w_console w_serial]. by rewrite Hrc.
Qed.

Lemma take_ready_spec w : world_ok w -> exists w', take_ready w = Some (fst (tty_take (tty_of w)), w') /\ world_ok w' /\ tty_of w' = snd (tty_take (tty_of w)).
Proof.
  intros [Hr (H1 & H2 & H3 & H4 & H5)]. unfold take_ready, tty_take. cbn [tty_of t_ready]. destruct (Z.ltb_spec (ready_pos (w_console w)) (ready_len (w_console w))) as [Hl|Hl].
  - destruct (lookup_lt_is_Some_2 (ready_buf (w_console w)) (Z.to_nat (ready_pos (w_console w)))) as [x Hx]; [lia|]. rewrite Hx. cbn [mbind option_bind].
    assert (Hd : ready_of (w_console w) = x :: drop (S (Z.to_nat (ready_pos (w_console w)))) (take (Z.to_nat (ready_len (w_console w))) (ready_buf (w_console w)))).
    { unfold ready_of. apply drop_S. rewrite lookup_take_lt by lia. done. }
    rewrite Hd. cbn [fst snd]. eexists. split; [reflexivity|]. split; [split; [done|unfold console_ok; cbn; lia]|]. unfold tty_of. f_equal. unfold ready_of. cbn. f_equal. lia.
  - assert (Hd : ready_of (w_console w) = []) by (unfold ready_of; apply drop_ge; rewrite length_take; lia). rewrite Hd. exists w. done.
Qed.

Lemma ring_contents_bound r : ring_ok r -> (length (ring_contents r) <= DRAIN_FUEL)%nat.
Proof. intros (H1 & H2 & H3). unfold ring_contents, ring_count, DRAIN_FUEL. rewrite length_fmap, length_seq. pose proof (Z.mod_pos_bound (SCANCODE_TAIL r - SCANCODE_HEAD r) 256). lia. Qed.

Lemma console_get_spec w :
  world_ok w -> exists w', console_get w = Some (fst (tty_get (tty_of w)), w') /\ world_ok w' /\ tty_of w' = snd (tty_get (tty_of w)).
Proof.
  intros Hok. unfold console_get, tty_get. destruct (take_ready_spec w Hok) as (w1 & -> & Hok1 & E1). cbn [mbind option_bind]. unfold tty_take in *.
  destruct (t_ready (tty_of w)) as [|x xs] eqn:Er; cbn [fst snd] in *; [|by exists w1].
  destruct (drain_spec DRAIN_FUEL w1 Hok1) as (w2 & -> & Hok2 & E2); [apply ring_contents_bound, Hok1|]. cbn [mbind option_bind].
  destruct (take_ready_spec w2 Hok2) as (w3 & -> & Hok3 & E3). exists w3. rewrite E2, E1 in E3 |- *. done.
Qed.

(** C25. The console implements its line discipline: on any consistent state a
    read neither indexes out of range nor runs out of the 256 scancodes the
    ring can hold, and it returns what the terminal specified by [tty_get]
    returns and leaves the corresponding state; a key press queues the
    scancode unless 255 are waiting, in which case it is dropped. *)
Theorem console_refines_tty w s :
  world_ok w ->
  (exists w', console_get w = Some (fst (tty_get (tty_of w)), w') /\ world_ok w' /\ tty_of w' = snd (tty_get (tty_of w))) /\
  (exists r', push_scancode (w_ring w) s = Some r' /\ ring_ok r' /\
     ring_contents r' = if (length (ring_contents (w_ring w)) <? 255)%nat then ring_contents (w_ring w) ++ [s] else ring_contents (w_ring w)).
Proof. intros Hok. split; [by apply console_get_spec|]. apply push_scancode_spec, Hok. Qed.

Definition empty_world : world := mkWorld (mkRing (replicate 256 0) 250 250) console_new [].

Lemma empty_world_ok : world_ok empty_world.
Proof. split; [|split_and!]; vm_compute; done. Qed.

Lemma console_refines_tty_witness :
  (exists w', console_get empty_world = Some (fst (tty_get (tty_of empty_world)), w') /\ world_ok w' /\ tty_of w' = snd (tty_get (tty_of empty_world))) /\
  (exists r', push_scancode (w_ring empty_world) 0x1E = Some r' /\ ring_ok r' /\
     ring_contents r' = if (length (ring_contents (w_ring empty_world)) <? 255)%nat then ring_contents (w_ring empty_world) ++ [0x1E] else ring_contents (w_ring empty_world)).
Proof. apply (console_refines_tty empty_world 0x1E empty_world_ok). Defined.

Lemma tty_plain t cs :
  Forall (fun c => c <> 10) cs -> (length (t_line t) + length cs <= 256)%nat ->
  foldl tty_char t cs = mkTty (t_keys t) (t_line t ++ cs) (t_ready t) (t_echo t ++ cs).
Proof.
  intros Hcs. revert t. induction Hcs as [|c cs Hc _ IH]; intros t Hl; cbn [foldl length] in *; [rewrite !app_nil_r; by destruct t|].
  rewrite IH; unfold tty_char; rewrite (proj2 (Z.eqb_neq c 10) Hc), (proj2 (Nat.ltb_lt _ _)) by lia; cbn; [by rewrite <- !app_assoc|]. rewrite length_app. cbn. lia.
Qed.

Lemma tty_newline t cs : t_line (foldl tty_char t (cs ++ [10])) = [].
Proof. rewrite foldl_app. reflexivity. Qed.

Lemma tty_keys_char t ch : t_keys (tty_char t ch) = t_keys t.
Proof. unfold tty_char. by destruct (ch =? 10). Qed.

Lemma tty_keys_fold t cs : t_keys (foldl tty_char t cs) = t_keys t.
Proof. revert t. induction cs as [|c cs IH]; intros t; cbn; [done|]. by rewrite IH, tty_keys_char. Qed.

Lemma dev_read_loop_ready n w :
  world_ok w -> t_keys (tty_of w) = [] -> exists w', dev_read_loop n w = Some (take n (t_ready (tty_of w)), w').
Proof.
  revert w. induction n as [|n IH]; intros w Hok Hk; [by exists w|]. cbn [dev_read_loop].
  destruct (console_get_spec w Hok) as (w1 & -> & Hok1 & E1). cbn [mbind option_bind]. unfold tty_get, tty_take in *. destruct (t_ready (tty_of w)) as [|x xs] eqn:Er.
  - unfold tty_drain in *. rewrite Hk in *. cbn [omap list_omap foldl t_ready] in *. rewrite Er in *. cbn. eauto.
  - cbn [fst snd] in *. destruct (IH w1 Hok1) as (w' & E); [by rewrite E1|]. rewrite E, E1. cbn. eauto.
Qed.

(** A read from the console returns the last complete line typed: a line of
    fewer than 256 characters is read back in full and in order, up to the
    size of the buffer; complete lines typed before it and not yet read are
    lost. *)
Theorem console_read_returns_last_line w pre cs len :
  world_ok w -> ready_of (w_console w) = [] ->
  omap decode_scancode (ring_contents (w_ring w)) = pre ++ cs ++ [10] ->
  (pre = [] /\ line_of (w_console w) = [] \/ exists p, pre = p ++ [10]) ->
  Forall (fun c => c <> 10) cs -> (length cs < 256)%nat -> (0 < len)%nat ->
  exists w', dev_read 0 len w = Some (Z.of_nat (length (take len (cs ++ [10]))), take len (cs ++ [10]), w').
Proof.
  intros Hok Hr Hk Hpre Hcs Hlen Hpos. unfold dev_read. cbn [Z.eqb].
  assert (Hd : t_ready (tty_drain (tty_of w)) = cs ++ [10] /\ t_keys (tty_drain (tty_of w)) = []).
  { unfold tty_drain. cbn [tty_of t_keys t_line t_ready t_echo]. rewrite Hk, !foldl_app. set (t1 := foldl tty_char _ pre).
    assert (Hline : t_line t1 = []) by (unfold t1; destruct Hpre as [[-> ->]|[p ->]]; [done|apply tty_newline]).
    assert (Hkeys : t_keys t1 = []) by (unfold t1; by rewrite tty_keys_fold). rewrite (tty_plain t1 cs Hcs) by (rewrite Hline; cbn; lia). rewrite Hline. cbn [foldl app].
    unfold tty_char. cbn [t_line t_keys]. rewrite (proj2 (Nat.ltb_lt _ _)) by lia. done. }
  destruct Hd as [Hd1 Hd2]. destruct len as [|len]; [lia|]. cbn [dev_read_loop].
  destruct (console_get_spec w Hok) as (w1 & -> & Hok1 & E1). cbn [mbind option_bind]. unfold tty_get, tty_take in *. cbn [tty_of t_ready] in E1 |- *. rewrite Hr in *. fold (tty_of w) in *.
  assert (Hcons : exists x xs, cs ++ [10] = x :: xs) by (destruct cs; eauto). destruct Hcons as (x & xs & Ex). rewrite Hd1, Ex in *. cbn [fst snd mbind option_bind] in *.
  destruct (dev_read_loop_ready len w1 Hok1) as (w' & ->); [by rewrite E1|]. rewrite E1. cbn [mbind option_bind t_ready take length Nat.eqb]. eauto.
Qed.

(** The keys [a], [Enter], [b], [Enter]. *)
Definition two_lines : world := mkWorld (mkRing ([0x1E; 0x1C; 0x30; 0x1C] ++ replicate 252 0) 0 4) console_new [].

Lemma console_read_returns_last_line_witness :
  exists w', dev_read 0 16 two_lines = Some (Z.of_nat (length (take 16 ([98] ++ [10]))), take 16 ([98] ++ [10]), w').
Proof.
  apply (console_read_returns_last_line two_lines [97; 10] [98] 16).
  - split; [|split_and!]; vm_compute; done.
  - reflexivity.
  - reflexivity.
  - right. exists [97]. reflexivity.
  - repeat constructor. lia.
  - cbn. lia.
  - lia.
Defined.
