(* ===== verification/Fat.v ===== *)
(** The interface of the FAT file system crate the kernel calls ([fatfs], used
    by [kernel/src/fs/vfs.rs] and [fs/system_domain.rs]): a class of the
    operations the kernel uses on the root directory and on files, a class of
    the behaviour it relies on, and a volume held in a finite map that has
    that behaviour.

    A path is the list of its bytes.  A file handle is a path and a position,
    since the kernel opens a file, uses it and drops it within one call.  An
    operation that fails gives [None] or [false]; one that fails half way may
    have changed the volume. *)

From S2P Require Import Prelude.

Abbreviation path := (list Z).

(** The operations.  [fat_size] is a seek to the end, [fat_seek] one from the
    start, giving the position reached; [fat_read d p pos n] reads at most
    [n] bytes;
    [fat_write_all] also gives the position it leaves the handle at;
    [fat_open_dir] lists the names in a directory with a directory flag. *)
Class FatVolume (D : Type) := {
  fat_open_file : D -> path -> bool;
  fat_size : D -> path -> option Z;
  fat_seek : D -> path -> Z -> option Z;
  fat_read : D -> path -> Z -> nat -> option (list Z);
  fat_write_all : D -> path -> Z -> list Z -> D * Z * bool;
  fat_truncate : D -> path -> Z -> D * bool;
  fat_create_file : D -> path -> D * bool;
  fat_create_dir : D -> path -> D * bool;
  fat_open_dir : D -> path -> option (list (path * bool));
  fat_remove : D -> path -> D * bool;
  fat_rename : D -> path -> path -> D * bool
}.

(** The behaviour relied on: [files d p] is the contents of the file [p].  A
    read returns some bytes from the position, at least one before the end; a
    write within the file overwrites in place; truncation cuts at the
    position; creating a file that exists opens it unchanged. *)
Class FatLaws (D : Type) {F : FatVolume D} := {
  files : D -> path -> option (list Z);
  law_open : forall d p, fat_open_file d p = true <-> is_Some (files d p);
  law_size : forall d p c, files d p = Some c -> fat_size d p = Some (Z.of_nat (length c));
  law_seek : forall d p c pos, files d p = Some c -> 0 <= pos <= Z.of_nat (length c) -> fat_seek d p pos = Some pos;
  law_read : forall d p c pos n, files d p = Some c -> 0 <= pos <= Z.of_nat (length c) ->
    exists k, fat_read d p pos n = Some (take k (drop (Z.to_nat pos) c)) /\ (k <= n)%nat /\
      ((0 < n)%nat -> pos < Z.of_nat (length c) -> (0 < k)%nat);
  law_overwrite : forall d p c pos bs, files d p = Some c -> 0 <= pos -> pos + Z.of_nat (length bs) <= Z.of_nat (length c) ->
    exists d', fat_write_all d p pos bs = (d', pos + Z.of_nat (length bs), true) /\
      files d' p = Some (take (Z.to_nat pos) c ++ bs ++ drop (Z.to_nat pos + length bs) c);
  law_truncate : forall d p c pos, files d p = Some c -> 0 <= pos <= Z.of_nat (length c) ->
    exists d', fat_truncate d p pos = (d', true) /\ files d' p = Some (take (Z.to_nat pos) c);
  law_create_existing : forall d p, is_Some (files d p) -> exists d', fat_create_file d p = (d', true) /\ files d' p = files d p
}.

(** A name of the 8.3 form in lower-case letters.  The volume ignores case and
    has other names for some files, but different names of this form are
    different files. *)
Definition lower_letter (c : Z) : bool := (97 <=? c) && (c <=? 122).
Definition short_part (n : nat) (p : path) : bool := forallb lower_letter p && (1 <=? length p)%nat && (length p <=? n)%nat.
Definition short_name (p : path) : bool :=
  match list_find (fun c => c = 46) p with
  | None => short_part 8 p
  | Some (i, _) => short_part 8 (take i p) && short_part 3 (drop (S i) p)
  end.
Definition different (p q : path) : Prop := short_name p = true /\ short_name q = true /\ p <> q.

(** What is relied on where files are created and grow.  Creating and writing
    may fail, on a full volume, but report it; a read that stays within a
    512-byte sector, the smallest unit the volume allocates, is not cut
    short; an operation on one file leaves the others alone. *)
Class FatGrowth (D : Type) {F : FatVolume D} {L : FatLaws D} := {
  law_created : forall d p d', fat_create_file d p = (d', true) -> files d' p = Some (default [] (files d p));
  law_written : forall d p c pos bs d' pos', files d p = Some c -> 0 <= pos <= Z.of_nat (length c) ->
    fat_write_all d p pos bs = (d', pos', true) ->
    pos' = pos + Z.of_nat (length bs) /\ files d' p = Some (take (Z.to_nat pos) c ++ bs ++ drop (Z.to_nat pos + length bs) c);
  law_read_sector : forall d p c pos n, files d p = Some c -> 0 <= pos <= Z.of_nat (length c) ->
    pos mod 512 + Z.of_nat n <= 512 -> fat_read d p pos n = Some (take n (drop (Z.to_nat pos) c));
  law_create_other : forall d p q, different p q -> files (fst (fat_create_file d p)) q = files d q;
  law_write_other : forall d p q pos bs, different p q -> files (fst (fst (fat_write_all d p pos bs))) q = files d q;
  law_remove_other : forall d p q, different p q -> files (fst (fat_remove d p)) q = files d q
}.

(** The volume can refuse to create a file, or to write to one that is there. *)
Definition fat_refuses (D : Type) {F : FatVolume D} {L : FatLaws D} : Prop :=
  (exists d p, snd (fat_create_file d p) = false) \/ (exists d p c pos bs, files d p = Some c /\ snd (fat_write_all d p pos bs) = false).

Lemma create_refused {D} {F : FatVolume D} {L : FatLaws D} d p d' : fat_create_file d p = (d', false) -> fat_refuses D.
Proof. intros E. left. exists d, p. by rewrite E. Qed.

Lemma write_refused {D} {F : FatVolume D} {L : FatLaws D} d p c pos bs d' pos' : files d p = Some c -> fat_write_all d p pos bs = (d', pos', false) -> fat_refuses D.
Proof. intros Hc E. right. exists d, p, c, pos, bs. by rewrite E. Qed.

(** Storing the blocks [bss] one after the other in a file that is created for
    them; [None] when the volume refuses one of these operations. *)
Fixpoint fat_append {D} {F : FatVolume D} (d : D) (p : path) (pos : Z) (bss : list (list Z)) : option D :=
  match bss with
  | [] => Some d
  | bs :: bss => let '(d, pos, ok) := fat_write_all d p pos bs in if (ok : bool) then fat_append d p pos bss else None
  end.
Definition fat_store {D} {F : FatVolume D} (d : D) (p : path) (bss : list (list Z)) : option D :=
  let '(d, ok) := fat_create_file d p in if (ok : bool) then fat_append d p 0 bss else None.

Lemma append_refused {D} {F : FatVolume D} {L : FatLaws D} {G : FatGrowth D} d p c pos bss :
  files d p = Some c -> 0 <= pos <= Z.of_nat (length c) -> fat_append d p pos bss = None -> fat_refuses D.
Proof.
  revert d c pos. induction bss as [|bs bss IH]; intros d c pos Hc Hpos E; [done|]. cbn [fat_append] in E.
  destruct (fat_write_all d p pos bs) as [[d1 pos1] ok] eqn:Ew. destruct ok; [|by eapply write_refused].
  destruct (law_written d p c pos bs d1 pos1 Hc Hpos Ew) as [-> Hc1]. apply (IH d1 _ (pos + Z.of_nat (length bs)) Hc1); [|done]. rewrite !length_app, length_take, length_drop. lia.
Qed.

Lemma store_refused {D} {F : FatVolume D} {L : FatLaws D} {G : FatGrowth D} d p bss : fat_store d p bss = None -> fat_refuses D.
Proof.
  unfold fat_store. destruct (fat_create_file d p) as [d1 ok] eqn:Ec. destruct ok; [|intros _; by eapply create_refused]. apply law_created in Ec. apply (append_refused d1 p _ 0 bss Ec). lia.
Qed.

(** ** A volume in a map *)

(** Files with their contents, and directories; reads return at most 512
    bytes. *)
Record volume := mkVolume { v_files : gmap path (list Z); v_dirs : gset path }.

(** The name [n] when [p] is [dir/n], or [n] itself in the root. *)
Definition child_name (dir p : path) : option path :=
  let prefix := match dir with [] => [] | _ => dir ++ [47] end in
  if bool_decide (take (length prefix) p = prefix /\ drop (length prefix) p <> [] /\ 47 ∉ drop (length prefix) p)
  then Some (drop (length prefix) p) else None.

Definition volume_list (v : volume) (dir : path) : list (path * bool) :=
  omap (fun p => (fun n => (n, false)) <$> child_name dir p) (elements (dom (v_files v))) ++
  omap (fun p => (fun n => (n, true)) <$> child_name dir p) (elements (v_dirs v)).

#[export] Instance volume_fat : FatVolume volume := {
  fat_open_file v p := bool_decide (is_Some (v_files v !! p));
  fat_size v p := (fun c => Z.of_nat (length c)) <$> v_files v !! p;
  fat_seek v p pos := (fun c => Z.min pos (Z.of_nat (length c))) <$> v_files v !! p;
  fat_read v p pos n := (fun c => take (min n 512) (drop (Z.to_nat pos) c)) <$> v_files v !! p;
  fat_write_all v p pos bs :=
    match v_files v !! p with
    | Some c => (mkVolume (<[p := take (Z.to_nat pos) c ++ bs ++ drop (Z.to_nat pos + length bs) c]> (v_files v)) (v_dirs v), pos + Z.of_nat (length bs), true)
    | None => (v, pos, false)
    end;
  fat_truncate v p pos :=
    match v_files v !! p with
    | Some c => (mkVolume (<[p := take (Z.to_nat pos) c]> (v_files v)) (v_dirs v), true)
    | None => (v, false)
    end;
  fat_create_file v p :=
    match v_files v !! p with
    | Some _ => (v, true)
    | None => if bool_decide (p ∈ v_dirs v) then (v, false) else (mkVolume (<[p := []]> (v_files v)) (v_dirs v), true)
    end;
  fat_create_dir v p := if bool_decide (is_Some (v_files v !! p)) then (v, false) else (mkVolume (v_files v) ({[p]} ∪ v_dirs v), true);
  fat_open_dir v p := if bool_decide (p = [] \/ p ∈ v_dirs v) then Some (volume_list v p) else None;
  fat_remove v p :=
    if bool_decide (is_Some (v_files v !! p)) then (mkVolume (delete p (v_files v)) (v_dirs v), true)
    else if bool_decide (p ∈ v_dirs v /\ volume_list v p = []) then (mkVolume (v_files v) (v_dirs v ∖ {[p]}), true)
    else (v, false);
  fat_rename v p q :=
    match v_files v !! p with
    | Some c => if bool_decide (is_Some (v_files v !! q)) then (v, false) else (mkVolume (<[q := c]> (delete p (v_files v))) (v_dirs v), true)
    | None => (v, false)
    end
}.

#[export, refine] Instance volume_laws : FatLaws volume := { files v p := v_files v !! p }.
Proof.
  - intros d p. cbn. by rewrite bool_decide_eq_true.
  - intros d p c H. cbn. by rewrite H.
  - intros d p c pos H Hpos. cbn. rewrite H. cbn. f_equal. lia.
  - intros d p c pos n H Hpos. cbn. rewrite H. exists (min n 512). split_and!; [done|lia|lia].
  - intros d p c pos bs H Hpos Hl. cbn. rewrite H. eexists. split; [reflexivity|]. cbn. by rewrite lookup_insert_eq.
  - intros d p c pos H Hpos. cbn. rewrite H. eexists. split; [reflexivity|]. cbn. by rewrite lookup_insert_eq.
  - intros d p [c H]. cbn. rewrite H. eexists. split; [reflexivity|]. by rewrite H.
Defined.

#[export, refine] Instance volume_growth : FatGrowth volume := {}.
Proof.
  - intros d p d' E. cbn in *. destruct (v_files d !! p) as [c|] eqn:Hp; [by injection E as <-|]. case_bool_decide; [done|]. injection E as <-. cbn. apply lookup_insert_eq.
  - intros d p c pos bs d' pos' Hp Hpos E. cbn in *. rewrite Hp in E. injection E as <- <-. split; [done|]. cbn. apply lookup_insert_eq.
  - intros d p c pos n Hp Hpos Hn. cbn in *. rewrite Hp. cbn. pose proof (Z.mod_pos_bound pos 512). by rewrite Nat.min_l by lia.
  - intros d p q (_ & _ & Hne). cbn. destruct (v_files d !! p); [done|]. case_bool_decide; [done|]. cbn. by rewrite lookup_insert_ne.
  - intros d p q pos bs (_ & _ & Hne). cbn. destruct (v_files d !! p); [|done]. cbn. by rewrite lookup_insert_ne.
  - intros d p q (_ & _ & Hne). cbn. case_bool_decide; [cbn; by rewrite lookup_delete_ne|]. by case_bool_decide.
Defined.

(** A volume of files only, where every name is also a directory without
    entries; it refuses nothing. *)
Record flat := mkFlat { fl_files : gmap path (list Z) }.

#[export] Instance flat_fat : FatVolume flat := {
  fat_open_file v p := bool_decide (is_Some (fl_files v !! p));
  fat_size v p := (fun c => Z.of_nat (length c)) <$> fl_files v !! p;
  fat_seek v p pos := (fun c => Z.min pos (Z.of_nat (length c))) <$> fl_files v !! p;
  fat_read v p pos n := (fun c => take n (drop (Z.to_nat pos) c)) <$> fl_files v !! p;
  fat_write_all v p pos bs :=
    match fl_files v !! p with
    | Some c => (mkFlat (<[p := take (Z.to_nat pos) c ++ bs ++ drop (Z.to_nat pos + length bs) c]> (fl_files v)), pos + Z.of_nat (length bs), true)
    | None => (v, pos, false)
    end;
  fat_truncate v p pos := (mkFlat (alter (take (Z.to_nat pos)) p (fl_files v)), true);
  fat_create_file v p := (mkFlat (<[p := default [] (fl_files v !! p)]> (fl_files v)), true);
  fat_create_dir v p := (v, true);
  fat_open_dir v p := Some [];
  fat_remove v p := (mkFlat (delete p (fl_files v)), true);
  fat_rename v p q := (v, false)
}.

#[export, refine] Instance flat_laws : FatLaws flat := { files v p := fl_files v !! p }.
Proof.
  - intros d p. cbn. by rewrite bool_decide_eq_true.
  - intros d p c Hp. cbn. by rewrite Hp.
  - intros d p c pos Hp Hpos. cbn. rewrite Hp. cbn. f_equal. lia.
  - intros d p c pos n Hp Hpos. cbn. rewrite Hp. exists n. split_and!; [done|lia|lia].
  - intros d p c pos bs Hp Hpos Hl. cbn. rewrite Hp. eexists. split; [reflexivity|]. cbn. by rewrite lookup_insert_eq.
  - intros d p c pos Hp Hpos. eexists. split; [reflexivity|]. cbn. by rewrite lookup_alter_eq, Hp.
  - intros d p [c Hp]. eexists. split; [reflexivity|]. cbn. by rewrite lookup_insert_eq, Hp.
Defined.

#[export, refine] Instance flat_growth : FatGrowth flat := {}.
Proof.
  - intros d p d' [= <-]. cbn. apply lookup_insert_eq.
  - intros d p c pos bs d' pos' Hp Hpos E. cbn in *. rewrite Hp in E. injection E as <- <-. split; [done|]. cbn. apply lookup_insert_eq.
  - intros d p c pos n Hp Hpos Hn. cbn in *. by rewrite Hp.
  - intros d p q (_ & _ & Hne). cbn. by rewrite lookup_insert_ne.
  - intros d p q pos bs (_ & _ & Hne). cbn. destruct (fl_files d !! p); [|done]. cbn. by rewrite lookup_insert_ne.
  - intros d p q (_ & _ & Hne). cbn. by rewrite lookup_delete_ne.
Defined.

Lemma flat_accepts : ~ fat_refuses flat.
Proof. intros [(d & p & E)|(d & p & c & pos & bs & Hc & E)]; cbn in *; [done|]. by rewrite Hc in E. Qed.
