(* ===== verification/Records.v ===== *)
(** The permission and password overlays ([kernel/src/fs/overlay.rs]) and their
    files in the [/.system/] directory ([fs/system_domain.rs]): the fixed-size
    record formats, loading at boot and the rewrite after an unclean shutdown.

    The SHA-256 function of the [sha2] crate is a parameter.  A [BTreeMap] is a
    [gmap] whose iteration is in key order. *)

From S2P Require Import Prelude Bytes Fat.

(** ** The overlays *)

(** [Rwx] is its byte. *)
(* fs/overlay.rs:11-11 can_read *)
Definition can_read (rwx : Z) : bool := negb (Z.land rwx 4 =? 0).
(* fs/overlay.rs:12-12 can_write *)
Definition can_write (rwx : Z) : bool := negb (Z.land rwx 2 =? 0).
(* fs/overlay.rs:14-14 can_execute *)
Definition can_execute (rwx : Z) : bool := negb (Z.land rwx 1 =? 0).

(* fs/overlay.rs:19-25 PermEntry *)
Record PermEntry := mkPerm { p_uid : Z; p_gid : Z; owner_rwx : Z; group_rwx : Z; world_rwx : Z }.
(** [PermsDb]: the entries by path. *)
Abbreviation PermsDb := (gmap path PermEntry).

(* fs/overlay.rs:64-68 AuthEntry *)
Record AuthEntry := mkAuth { a_uid : Z; salt : list Z; hash : list Z }.
(** [AuthDb]: the entries by user. *)
Abbreviation AuthDb := (gmap Z AuthEntry).

(* fs/overlay.rs:103-105 insert *)
Definition auth_insert (db : AuthDb) (e : AuthEntry) : AuthDb := <[a_uid e := e]> db.

(* fs/overlay.rs:107-109 iter *)
Definition auth_iter (db : AuthDb) : list AuthEntry := omap (fun k => db !! k) (merge_sort Z.le (elements (dom db))).

(** The order of byte strings. *)
Fixpoint lex_leb (a b : path) : bool :=
  match a, b with
  | [], _ => true
  | _ :: _, [] => false
  | x :: a, y :: b => if x <? y then true else if x =? y then lex_leb a b else false
  end.
Definition lex_le (a b : path) : Prop := lex_leb a b = true.
#[export] Instance lex_le_dec : RelDecision lex_le.
Proof. intros a b. unfold lex_le. apply _. Defined.

(* fs/overlay.rs:54-56 iter *)
Definition perms_iter (db : PermsDb) : list (path * PermEntry) :=
  omap (fun k => (fun e => (k, e)) <$> db !! k) (merge_sort lex_le (elements (dom db))).

Section Passwords.

Context (sha256 : list Z -> list Z).

(* fs/overlay.rs:71-80 new *)
Definition auth_new (uid : Z) (password : list Z) : AuthEntry :=
  let salt := replicate 16 0 in mkAuth uid salt (sha256 (salt ++ password)).

(* fs/overlay.rs:92-101 verify *)
Definition auth_verify (db : AuthDb) (uid : Z) (password : list Z) : bool :=
  match db !! uid with
  | None => false
  | Some e => bool_decide (sha256 (salt e ++ password) = hash e)
  end.

End Passwords.

(** ** UTF-8 *)

Definition cont (b : Z) : bool := (0x80 <=? b) && (b <=? 0xBF).

(** [core::str::from_utf8(..).is_ok()]: no overlong form, no surrogate, nothing
    above U+10FFFF. *)
Fixpoint utf8_valid (fuel : nat) (bs : list Z) : bool :=
  match fuel with
  | O => false
  | S fuel =>
      match bs with
      | [] => true
      | b :: bs =>
          if b <=? 0x7F then utf8_valid fuel bs
          else if (0xC2 <=? b) && (b <=? 0xDF) then
            match bs with c :: bs => cont c && utf8_valid fuel bs | _ => false end
          else if (0xE0 <=? b) && (b <=? 0xEF) then
            match bs with
            | c :: d :: bs =>
                (if b =? 0xE0 then (0xA0 <=? c) && (c <=? 0xBF) else if b =? 0xED then (0x80 <=? c) && (c <=? 0x9F) else cont c)
                && cont d && utf8_valid fuel bs
            | _ => false
            end
          else if (0xF0 <=? b) && (b <=? 0xF4) then
            match bs with
            | c :: d :: e :: bs =>
                (if b =? 0xF0 then (0x90 <=? c) && (c <=? 0xBF) else if b =? 0xF4 then (0x80 <=? c) && (c <=? 0x8F) else cont c)
                && cont d && cont e && utf8_valid fuel bs
            | _ => false
            end
          else false
      end
  end.
Definition from_utf8 (bs : list Z) : option path := if utf8_valid (S (length bs)) bs then Some bs else None.

(** ** Records *)

(* fs/system_domain.rs:14-18 PATH_MAX *)
Definition PATH_MAX : nat := 64.
Definition AUTH_RECORD_SIZE : nat := 53.
Definition PERMS_RECORD_SIZE : nat := 76.
Definition STATUS_CLEAN : Z := 0.
Definition STATUS_DIRTY : Z := 1.

(** The whole buffer is overwritten, so its old contents do not matter. *)
(* fs/system_domain.rs:21-26 encode_auth_record *)
Definition encode_auth_record (status : Z) (e : AuthEntry) : list Z := [status] ++ le_encode 4 (a_uid e) ++ salt e ++ hash e.

Definition slice (bs : list Z) (a b : nat) : list Z := take (b - a) (drop a bs).

(* fs/system_domain.rs:29-37 decode_auth_record *)
Definition decode_auth_record (buf : list Z) : Z * AuthEntry :=
  (default 0 (buf !! 0%nat), mkAuth (le_decode (slice buf 1 5)) (slice buf 5 21) (slice buf 21 53)).

(* fs/system_domain.rs:40-56 encode_perms_record *)
Definition encode_perms_record (status : Z) (p : path) (e : PermEntry) : list Z :=
  let n := min (length p) PATH_MAX in
  [status] ++ take n p ++ replicate (PATH_MAX - n) 0 ++ le_encode 4 (p_uid e) ++ le_encode 4 (p_gid e) ++ [owner_rwx e; group_rwx e; world_rwx e].

(** The bytes before the first zero. *)
Fixpoint until_zero (bs : list Z) : list Z :=
  match bs with
  | [] => []
  | b :: bs => if b =? 0 then [] else b :: until_zero bs
  end.

(* fs/system_domain.rs:59-78 decode_perms_record *)
Definition decode_perms_record (buf : list Z) : Z * path * PermEntry :=
  let path_raw := slice buf 1 (1 + PATH_MAX) in
  let p := default [] (from_utf8 (until_zero path_raw)) in
  let off := (1 + PATH_MAX)%nat in
  (default 0 (buf !! 0%nat), p,
   mkPerm (le_decode (slice buf off (off + 4))) (le_decode (slice buf (off + 4) (off + 8)))
          (default 0 (buf !! (off + 8)%nat)) (default 0 (buf !! (off + 9)%nat)) (default 0 (buf !! (off + 10)%nat))).

(** ** Reading and writing the files *)

(** [.system/auth.db] and [.system/perms.db]. *)
(* fs/system_domain.rs:12-13 AUTH_DB_PATH *)
Definition AUTH_DB_PATH : path := [46; 115; 121; 115; 116; 101; 109; 47; 97; 117; 116; 104; 46; 100; 98].
Definition PERMS_DB_PATH : path := [46; 115; 121; 115; 116; 101; 109; 47; 112; 101; 114; 109; 115; 46; 100; 98].

Section Volume.

Context {D : Type} {F : FatVolume D}.

(** [Ok true] is a whole record, [Ok false] the end of the file, [Err] a read
    error or a partial record; with the bytes read and the new position.
    [None] is the end of the fuel: [want + 1] rounds are enough. *)
(* fs/system_domain.rs:210-224 read_exact_or_eof *)
Fixpoint read_exact_or_eof (fuel : nat) (d : D) (p : path) (pos : Z) (want : nat) (got : list Z) : option (result unit bool * list Z * Z) :=
  if (length got <? want)%nat
  then
    match fuel with
    | O => None
    | S fuel =>
        match fat_read d p pos (want - length got) with
        | None => Some (Err tt, got, pos)
        | Some bs =>
            if (length bs =? 0)%nat then Some (if (length got =? 0)%nat then Ok false else Err tt, got, pos)
            else read_exact_or_eof fuel d p (pos + Z.of_nat (length bs)) want (got ++ bs)
        end
    end
  else Some (Ok true, got, pos).

Definition read_record (d : D) (p : path) (pos : Z) (want : nat) : option (result unit bool * list Z * Z) :=
  read_exact_or_eof (S want) d p pos want [].

(** The loop both loaders have, over records of [size] bytes of the file [p]:
    [add] adds a record to the table, or is [None] for a record marked dirty.
    The result is the table and the dirty flag. *)
Fixpoint load_loop {A} (p : path) (size : nat) (add : list Z -> A -> option A) (fuel : nat) (d : D) (pos : Z) (tab : A) (dirty : bool) : option (A * bool) :=
  match fuel with
  | O => None
  | S fuel =>
      '(r, buf, pos) ← read_record d p pos size;
      match r with
      | Ok true =>
          match add buf tab with
          | None => load_loop p size add fuel d pos tab true
          | Some tab => load_loop p size add fuel d pos tab dirty
          end
      | Ok false => Some (tab, dirty)
      | Err _ => Some (tab, true)
      end
  end.

Definition add_auth (buf : list Z) (auth : AuthDb) : option AuthDb :=
  let '(status, e) := decode_auth_record buf in if status =? STATUS_DIRTY then None else Some (auth_insert auth e).

(* fs/system_domain.rs:96-131 load_auth_db *)
Definition load_auth_db (fuel : nat) (d : D) (auth : AuthDb) : option (AuthDb * bool) :=
  if fat_open_file d AUTH_DB_PATH then load_loop AUTH_DB_PATH AUTH_RECORD_SIZE add_auth fuel d 0 auth false else Some (auth, false).

Definition add_perms (buf : list Z) (perms : PermsDb) : option PermsDb :=
  let '(status, p, e) := decode_perms_record buf in if status =? STATUS_DIRTY then None else Some (<[p := e]> perms).

(* fs/system_domain.rs:134-169 load_perms_db *)
Definition load_perms_db (fuel : nat) (d : D) (perms : PermsDb) : option (PermsDb * bool) :=
  if fat_open_file d PERMS_DB_PATH then load_loop PERMS_DB_PATH PERMS_RECORD_SIZE add_perms fuel d 0 perms false else Some (perms, false).

(** Writing records one after the other; a failed write is ignored. *)
Fixpoint write_records (d : D) (p : path) (pos : Z) (recs : list (list Z)) : D * Z :=
  match recs with
  | [] => (d, pos)
  | r :: recs =>
      let '(d, pos, _) := fat_write_all d p pos r in
      write_records d p pos recs
  end.

(** Create if missing, open, rewrite from the start and cut. *)
Definition rewrite_file (d : D) (p : path) (recs : list (list Z)) : D :=
  let '(d, _) := fat_create_file d p in
  if fat_open_file d p
  then let '(d, pos) := write_records d p 0 recs in fst (fat_truncate d p pos)
  else d.

(* fs/system_domain.rs:172-188 repair_auth_db *)
Definition repair_auth_db (d : D) (auth : AuthDb) : D := rewrite_file d AUTH_DB_PATH (encode_auth_record STATUS_CLEAN <$> auth_iter auth).

(* fs/system_domain.rs:191-207 repair_perms_db *)
Definition repair_perms_db (d : D) (perms : PermsDb) : D :=
  rewrite_file d PERMS_DB_PATH ((fun '(p, e) => encode_perms_record STATUS_CLEAN p e) <$> perms_iter perms).

(* fs/system_domain.rs:80-93 load_at_boot *)
Definition load_at_boot (fuel : nat) (d : D) (auth : AuthDb) (perms : PermsDb) : option (D * AuthDb * PermsDb) :=
  '(auth, auth_dirty) ← load_auth_db fuel d auth;
  '(perms, perms_dirty) ← load_perms_db fuel d perms;
  let d := if auth_dirty : bool then repair_auth_db d auth else d in
  let d := if perms_dirty : bool then repair_perms_db d perms else d in
  Some (d, auth, perms).

(* fs/system_domain.rs:266-273 append_auth_entry *)
Definition append_auth_entry (d : D) (e : AuthEntry) : D * result unit unit :=
  let '(d, ok) := fat_create_file d AUTH_DB_PATH in
  if ok
  then match fat_size d AUTH_DB_PATH with
       | Some pos => let '(d, _, ok) := fat_write_all d AUTH_DB_PATH pos (encode_auth_record STATUS_CLEAN e) in (d, if ok then Ok tt else Err tt)
       | None => (d, Err tt)
       end
  else (d, Err tt).

(* fs/system_domain.rs:277-285 append_perms_entry *)
Definition append_perms_entry (d : D) (p : path) (e : PermEntry) : D * result unit unit :=
  let '(d, ok) := fat_create_file d PERMS_DB_PATH in
  if ok
  then match fat_size d PERMS_DB_PATH with
       | Some pos => let '(d, _, ok) := fat_write_all d PERMS_DB_PATH pos (encode_perms_record STATUS_CLEAN p e) in (d, if ok then Ok tt else Err tt)
       | None => (d, Err tt)
       end
  else (d, Err tt).

(** [tauth.db] *)
(* fs/system_domain.rs:227-227 TEST_PATH *)
Definition TEST_PATH : path := [116; 97; 117; 116; 104; 46; 100; 98].

(** The self-test of the loading rule: one clean and one dirty record are
    written, read back and the file removed.  [Err] is an [expect] that the
    volume made fail; [None] a failed assertion, or the end of the fuel. *)
(* fs/system_domain.rs:226-263 test_consistency_repair *)
Definition test_consistency_repair (sha256 : list Z -> list Z) (fuel : nat) (d : D) : option (result unit D) :=
  let '(d, ok) := fat_create_file d TEST_PATH in
  if negb ok then Some (Err tt)
  else if negb (fat_open_file d TEST_PATH) then Some (Err tt)
  else
    let pos := default 0 (fat_seek d TEST_PATH 0) in
    let clean := auth_new sha256 10 [103; 111; 111; 100] in
    let '(d, pos, ok) := fat_write_all d TEST_PATH pos (encode_auth_record STATUS_CLEAN clean) in
    if negb ok then Some (Err tt)
    else
      let dirty := auth_new sha256 99 [98; 97; 100] in
      let '(d, _, ok) := fat_write_all d TEST_PATH pos (encode_auth_record STATUS_DIRTY dirty) in
      if negb ok then Some (Err tt)
      else if negb (fat_open_file d TEST_PATH) then Some (Err tt)
      else
        '(auth, _) ← load_loop TEST_PATH AUTH_RECORD_SIZE add_auth fuel d 0 ∅ false;
        let '(d, _) := fat_remove d TEST_PATH in
        if (size auth =? 1)%nat && auth_verify sha256 auth 10 [103; 111; 111; 100] && negb (auth_verify sha256 auth 99 [98; 97; 100])
        then Some (Ok d) else None.

End Volume.

(** ** Record formats *)

Definition auth_wf (e : AuthEntry) : Prop := fits 32 (a_uid e) /\ length (salt e) = 16%nat /\ length (hash e) = 32%nat.

Lemma slice_app_r (a b : list Z) i j : (length a <= i)%nat -> slice (a ++ b) i j = slice b (i - length a) (j - length a).
Proof. intros H. unfold slice. rewrite drop_app_ge by lia. f_equal. lia. Qed.

Lemma slice_app_l (a b : list Z) i j : (i <= length a)%nat -> (j <= length a)%nat -> slice (a ++ b) i j = slice a i j.
Proof. intros Hi Hj. unfold slice. rewrite drop_app_le by lia. rewrite take_app_le by (rewrite length_drop; lia). done. Qed.

Lemma slice_whole (a : list Z) j : j = length a -> slice a 0 j = a.
Proof. intros ->. unfold slice. rewrite drop_0, Nat.sub_0_r. apply take_ge. lia. Qed.

(** The slice of a concatenation that is exactly its middle part. *)
Lemma slice_mid (a m b : list Z) i j : i = length a -> j = (length a + length m)%nat -> slice (a ++ m ++ b) i j = m.
Proof. intros -> ->. rewrite slice_app_r by lia. rewrite slice_app_l by lia. rewrite Nat.sub_diag. apply slice_whole. lia. Qed.

Lemma encode_auth_length st e : auth_wf e -> length (encode_auth_record st e) = AUTH_RECORD_SIZE.
Proof. intros (_ & H1 & H2). unfold encode_auth_record, AUTH_RECORD_SIZE. rewrite !length_app, le_encode_length, H1, H2. reflexivity. Qed.

Lemma decode_encode_auth st e : auth_wf e -> decode_auth_record (encode_auth_record st e) = (st, e).
Proof.
  intros (Hu & H1 & H2). unfold decode_auth_record, encode_auth_record.
  set (u := le_encode 4 (a_uid e)). assert (Hlu : length u = 4%nat) by apply le_encode_length.
  assert (slice ([st] ++ u ++ salt e ++ hash e) 1 5 = u) as -> by (apply slice_mid; rewrite ?Hlu; reflexivity).
  assert (slice ([st] ++ u ++ salt e ++ hash e) 5 21 = salt e) as -> by (rewrite app_assoc; apply slice_mid; rewrite ?length_app, ?Hlu, ?H1; reflexivity).
  assert (slice ([st] ++ u ++ salt e ++ hash e) 21 53 = hash e) as ->.
  { rewrite <- (app_nil_r (hash e)) at 1. rewrite 2!app_assoc. apply slice_mid; rewrite ?length_app, ?Hlu, ?H1, ?H2; reflexivity. }
  unfold u.
  rewrite le_decode_encode by exact Hu. by destruct e.
Qed.

Definition perm_wf (e : PermEntry) : Prop := fits 32 (p_uid e) /\ fits 32 (p_gid e).
(** Paths that fit a record: at most 64 bytes of UTF-8 without a zero. *)
Definition path_wf (p : path) : Prop := (length p <= PATH_MAX)%nat /\ (0 ∉ p) /\ utf8_valid (S (length p)) p = true.

Lemma encode_perms_length st p e : length (encode_perms_record st p e) = PERMS_RECORD_SIZE.
Proof.
  unfold encode_perms_record, PERMS_RECORD_SIZE. rewrite !length_app, !le_encode_length, length_take, length_replicate. unfold PATH_MAX. cbn [length]. lia.
Qed.

Lemma until_zero_app p n : 0 ∉ p -> until_zero (p ++ replicate n 0) = p.
Proof.
  induction p as [|b p IH]; intros Hp; cbn [app until_zero]; [by destruct n|]. destruct (Z.eqb_spec b 0) as [->|_]; [exfalso; apply Hp; left|].
  f_equal. apply IH. intros H. apply Hp. by right.
Qed.

Lemma decode_encode_perms st p e : path_wf p -> perm_wf e -> decode_perms_record (encode_perms_record st p e) = (st, p, e).
Proof.
  intros (Hl & Hz & Hv) (Hu & Hg). unfold decode_perms_record, encode_perms_record. rewrite Nat.min_l by done. rewrite take_ge by lia.
  set (name := p ++ replicate (PATH_MAX - length p) 0). assert (Hn : length name = PATH_MAX) by (unfold name; rewrite length_app, length_replicate; lia).
  set (rest := le_encode 4 (p_uid e) ++ _). rewrite (app_assoc p). fold name.
  rewrite (slice_mid [st] name rest) by (rewrite ?Hn; reflexivity). assert (until_zero name = p) as -> by (by apply until_zero_app). unfold from_utf8. rewrite Hv. cbn [default].
  assert (Hr : forall i j, (1 + PATH_MAX <= i)%nat -> slice ([st] ++ name ++ rest) i j = slice rest (i - (1 + PATH_MAX)) (j - (1 + PATH_MAX))).
  { intros i j Hi. rewrite app_assoc. rewrite slice_app_r by (rewrite length_app, Hn; change (length [st]) with 1%nat; lia). rewrite length_app, Hn. done. }
  assert (Hlk : forall i, ([st] ++ name ++ rest) !! (1 + PATH_MAX + i)%nat = rest !! i).
  { intros i. rewrite app_assoc, lookup_app_r by (rewrite length_app, Hn; change (length [st]) with 1%nat; lia). rewrite length_app, Hn. f_equal. change (length [st]) with 1%nat. lia. }
  rewrite !Hr, !Hlk by lia. unfold rest.
  assert (slice (le_encode 4 (p_uid e) ++ le_encode 4 (p_gid e) ++ [owner_rwx e; group_rwx e; world_rwx e]) (1 + PATH_MAX - (1 + PATH_MAX)) (1 + PATH_MAX + 4 - (1 + PATH_MAX)) = le_encode 4 (p_uid e)) as ->
    by (apply (slice_mid []); rewrite ?le_encode_length; reflexivity).
  assert (slice (le_encode 4 (p_uid e) ++ le_encode 4 (p_gid e) ++ [owner_rwx e; group_rwx e; world_rwx e]) (1 + PATH_MAX + 4 - (1 + PATH_MAX)) (1 + PATH_MAX + 8 - (1 + PATH_MAX)) = le_encode 4 (p_gid e)) as ->
    by (apply slice_mid; rewrite ?le_encode_length; reflexivity).
  rewrite !le_decode_encode by done. by destruct e.
Qed.

(** ** Tables rebuilt from their entries *)

Section Keyed.

Context {K A V : Type} `{Countable K} (key : V -> K) (val : V -> A).

Definition add_entry (m : gmap K A) (v : V) : gmap K A := <[key v := val v]> m.

(** Entries that agree with [m] rebuild the part of it they cover. *)
Lemma rebuild_lookup (m acc : gmap K A) vs k :
  (forall v, v ∈ vs -> m !! key v = Some (val v)) ->
  foldl add_entry acc vs !! k = if decide (k ∈ key <$> vs) then m !! k else acc !! k.
Proof.
  revert acc. induction vs as [|v vs IH]; intros acc Hvs; cbn [foldl fmap list_fmap]; [by rewrite decide_False by apply not_elem_of_nil|].
  rewrite IH by (intros; apply Hvs; by right). unfold add_entry. destruct (decide (k ∈ key <$> vs)) as [Hk|Hk].
  - by rewrite decide_True by (right; done).
  - destruct (decide (k = key v)) as [->|Hne].
    + rewrite lookup_insert_eq, decide_True by left. symmetry. apply Hvs. left.
    + rewrite lookup_insert_ne by done. rewrite decide_False; [done|]. rewrite elem_of_cons. tauto.
Qed.

Lemma rebuild (m : gmap K A) vs :
  (forall v, v ∈ vs -> m !! key v = Some (val v)) -> (forall k, is_Some (m !! k) -> k ∈ key <$> vs) -> foldl add_entry ∅ vs = m.
Proof.
  intros H1 H2. apply map_eq. intros k. rewrite (rebuild_lookup m) by done. destruct (decide _) as [|Hk]; [done|].
  rewrite lookup_empty. destruct (m !! k) eqn:E; [|done]. exfalso. apply Hk, H2. eauto.
Qed.

End Keyed.

Definition auth_db_wf (db : AuthDb) : Prop := forall k e, db !! k = Some e -> a_uid e = k /\ auth_wf e.

Lemma elem_of_auth_iter db e : e ∈ auth_iter db -> exists k, db !! k = Some e.
Proof. unfold auth_iter. rewrite list_elem_of_omap. intros (k & _ & Hk). eauto. Qed.

Lemma auth_iter_complete db k e : db !! k = Some e -> e ∈ auth_iter db.
Proof.
  intros Hk. unfold auth_iter. apply list_elem_of_omap. exists k. split; [|done]. rewrite merge_sort_Permutation. apply elem_of_elements, elem_of_dom. eauto.
Qed.

Lemma omap_length_le {A B} (f : A -> option B) l : (length (omap f l) <= length l)%nat.
Proof. induction l as [|x l IH]; cbn; [done|]. destruct (f x); cbn; lia. Qed.

Lemma auth_iter_length db : (length (auth_iter db) <= size db)%nat.
Proof.
  unfold auth_iter. etransitivity; [apply omap_length_le|]. rewrite merge_sort_Permutation. by rewrite <- size_dom.
Qed.

Lemma elem_of_perms_iter db p e : (p, e) ∈ perms_iter db -> db !! p = Some e.
Proof. unfold perms_iter. rewrite list_elem_of_omap. intros (k & _ & Hk). destruct (db !! k) eqn:E; [|done]. by injection Hk as -> ->. Qed.

Lemma perms_iter_complete db p e : db !! p = Some e -> (p, e) ∈ perms_iter db.
Proof.
  intros Hp. unfold perms_iter. apply list_elem_of_omap. exists p. rewrite Hp. split; [|done]. rewrite merge_sort_Permutation. apply elem_of_elements, elem_of_dom. eauto.
Qed.

Lemma perms_iter_length db : (length (perms_iter db) <= size db)%nat.
Proof. unfold perms_iter. etransitivity; [apply omap_length_le|]. rewrite merge_sort_Permutation. by rewrite <- size_dom. Qed.

(** ** Files of records *)

Section Files.

Context {D : Type} {F : FatVolume D} {L : FatLaws D}.

Lemma read_exact_spec fuel d p c pos want got :
  files d p = Some c -> 0 <= pos <= Z.of_nat (length c) -> (length got <= want)%nat -> (want - length got < fuel)%nat ->
  let rest := drop (Z.to_nat pos) c in
  if (want - length got <=? length rest)%nat
  then read_exact_or_eof fuel d p pos want got = Some (Ok true, got ++ take (want - length got) rest, pos + Z.of_nat (want - length got))
  else exists b pos', read_exact_or_eof fuel d p pos want got = Some (if (length got + length rest =? 0)%nat then Ok false else Err tt, b, pos').
Proof.
  intros Hf. revert pos got. induction fuel as [|fuel IH]; intros pos got Hpos Hg Hfuel rest; [lia|]. cbn [read_exact_or_eof].
  assert (Hrest : Z.of_nat (length rest) = Z.of_nat (length c) - pos) by (unfold rest; rewrite length_drop; lia).
  destruct (Nat.ltb_spec (length got) want) as [Hw|Hw].
  2: { rewrite (proj2 (Nat.leb_le _ _)) by lia. replace (want - length got)%nat with 0%nat by lia. cbn [take Z.of_nat]. by rewrite app_nil_r, Z.add_0_r. }
  destruct (law_read d p c pos (want - length got) Hf Hpos) as (k & -> & Hk & Hk0). fold rest. rewrite length_take.
  destruct (Nat.eqb_spec (min k (length rest)) 0) as [E|E].
  - assert (length rest = 0%nat) as Hr0 by (destruct (decide (pos < Z.of_nat (length c))); [specialize (Hk0 ltac:(lia) ltac:(lia)); lia|lia]).
    rewrite (proj2 (Nat.leb_gt _ _)) by lia. rewrite Hr0, Nat.add_0_r. eauto.
  - specialize (IH (pos + Z.of_nat (min k (length rest))) (got ++ take k rest)). rewrite length_app, length_take in IH.
    specialize (IH ltac:(lia) ltac:(lia) ltac:(lia)). cbn zeta in IH.
    assert (Hdrop : drop (Z.to_nat (pos + Z.of_nat (min k (length rest)))) c = drop (min k (length rest)) rest) by (unfold rest; rewrite drop_drop; f_equal; lia).
    rewrite Hdrop, length_drop in IH. replace (want - (length got + min k (length rest)))%nat with (want - length got - min k (length rest))%nat in IH by lia.
    destruct (Nat.leb_spec (want - length got) (length rest)) as [Hle|Hgt].
    + rewrite (proj2 (Nat.leb_le _ _)) in IH by lia. rewrite IH. apply f_equal, f_equal2; [apply f_equal|lia]. rewrite <- app_assoc. f_equal.
      rewrite <- (take_drop (min k (length rest)) (take (want - length got) rest)). rewrite take_take, skipn_firstn_comm. f_equal.
      replace (min (min k (length rest)) (want - length got)) with (min k (length rest)) by lia. destruct (decide (k <= length rest)%nat); [by rewrite Nat.min_l|rewrite Nat.min_r, !take_ge by lia; done].
    + rewrite (proj2 (Nat.leb_gt _ _)) in IH by lia. destruct IH as (b & pos' & ->). exists b, pos'. do 3 f_equal.
      rewrite !(proj2 (Nat.eqb_neq _ _)) by lia. done.
Qed.

(** What the loop computes from the records of a file. *)
Fixpoint load_pure {A} (add : list Z -> A -> option A) (recs : list (list Z)) (tab : A) (dirty : bool) : A * bool :=
  match recs with
  | [] => (tab, dirty)
  | r :: recs => match add r tab with None => load_pure add recs tab true | Some tab => load_pure add recs tab dirty end
  end.

(** Loading a file made of records and an incomplete tail. *)
Lemma load_loop_spec {A} p size (add : list Z -> A -> option A) fuel d recs tl c pre tab dirty :
  files d p = Some c -> c = pre ++ concat recs ++ tl -> Forall (fun r => length r = size) recs -> (length tl < size)%nat -> (length recs < fuel)%nat ->
  load_loop p size add fuel d (Z.of_nat (length pre)) tab dirty =
  Some (fst (load_pure add recs tab dirty), snd (load_pure add recs tab dirty) || negb (length tl =? 0)%nat).
Proof.
  intros Hf. revert fuel pre tab dirty. induction recs as [|r recs IH]; intros fuel pre tab dirty Hc Hr Htl Hfuel; (destruct fuel as [|fuel]; [cbn in Hfuel; lia|]); cbn [load_loop load_pure length concat app fst snd] in *; unfold read_record.
  all: pose proof (read_exact_spec (S size) d p c (Z.of_nat (length pre)) size [] Hf) as Hread; cbn [length] in Hread; rewrite Nat.sub_0_r, Nat2Z.id in Hread;
    rewrite Hc, drop_app_length, !length_app in Hread; specialize (Hread ltac:(lia) ltac:(lia) ltac:(lia)); cbn zeta in Hread.
  - rewrite (proj2 (Nat.leb_gt _ _)) in Hread by lia. destruct Hread as (b & pos' & ->). cbn [mbind option_bind]. cbn [Nat.add]. destruct (Nat.eqb_spec (length tl) 0); cbn; [by rewrite orb_false_r|by rewrite orb_true_r].
  - apply Forall_cons in Hr as [Hr1 Hr2]. rewrite (proj2 (Nat.leb_le _ _)), <- app_assoc in Hread by lia. rewrite Hread. cbn [mbind option_bind app].
    rewrite <- Hr1, take_app_length. replace (Z.of_nat (length pre) + Z.of_nat (length r)) with (Z.of_nat (length (pre ++ r))) by (rewrite length_app; lia).
    destruct (add r tab) as [tab'|]; rewrite Hr1; apply IH; try done; try lia; rewrite Hc, <- !app_assoc; done.
Qed.

(** Records written one after the other over an existing file. *)
Lemma write_records_spec d p c pos recs :
  files d p = Some c -> 0 <= pos -> pos + Z.of_nat (length (concat recs)) <= Z.of_nat (length c) ->
  exists d', write_records d p pos recs = (d', pos + Z.of_nat (length (concat recs))) /\
    files d' p = Some (take (Z.to_nat pos) c ++ concat recs ++ drop (Z.to_nat pos + length (concat recs)) c).
Proof.
  revert d c pos. induction recs as [|r recs IH]; intros d c pos Hf Hpos Hl; cbn [write_records concat length] in *.
  - exists d. rewrite Z.add_0_r, Nat.add_0_r. cbn [app]. by rewrite take_drop.
  - rewrite length_app in *. destruct (law_overwrite d p c pos r Hf Hpos ltac:(lia)) as (d1 & -> & Hf1).
    destruct (IH d1 _ (pos + Z.of_nat (length r)) Hf1 ltac:(lia)) as (d2 & -> & Hf2).
    + rewrite !length_app, length_take, length_drop. lia.
    + exists d2. split; [f_equal; lia|]. rewrite Hf2. f_equal. set (a := take (Z.to_nat pos) c).
      assert (Ha : length a = Z.to_nat pos) by (unfold a; rewrite length_take; lia).
      replace (Z.to_nat (pos + Z.of_nat (length r))) with (length (a ++ r)) by (rewrite length_app; lia).
      rewrite (app_assoc a r), take_app_length. rewrite drop_app_ge by lia. rewrite drop_drop, <- !app_assoc. do 4 f_equal. rewrite length_app. lia.
Qed.

Lemma rewrite_file_spec d p c recs :
  files d p = Some c -> (length (concat recs) <= length c)%nat -> files (rewrite_file d p recs) p = Some (concat recs).
Proof.
  intros Hf Hl. unfold rewrite_file. destruct (law_create_existing d p ltac:(eauto)) as (d1 & -> & Hf1). rewrite Hf in Hf1.
  rewrite (proj2 (law_open d1 p)) by (rewrite Hf1; eauto). destruct (write_records_spec d1 p c 0 recs Hf1) as (d2 & -> & Hf2); [lia|lia|]. simpl in Hf2.
  destruct (law_truncate d2 p _ (0 + Z.of_nat (length (concat recs))) Hf2) as (d3 & -> & Hf3); [rewrite length_app; lia|]. cbn [fst]. rewrite Hf3. f_equal.
  rewrite Z.add_0_l, Nat2Z.id. apply take_app_length.
Qed.

(** Record files in general: [enc] writes an entry, [add] reads it back. *)
Section Generic.

Context {V A : Type} (p : path) (sz : nat) (enc : Z -> V -> list Z) (wf : V -> Prop) (ins : A -> V -> A) (add : list Z -> A -> option A).
Hypothesis enc_length : forall st v, wf v -> length (enc st v) = sz.
Hypothesis add_enc : forall st v t, wf v -> add (enc st v) t = if st =? STATUS_DIRTY then None else Some (ins t v).
Hypothesis sz_pos : (0 < sz)%nat.

(** The entries of the records that are not marked dirty. *)
Definition clean (recs : list (Z * V)) : list V := omap (fun '(st, v) => if st =? STATUS_DIRTY then None else Some v) recs.
Definition some_dirty (recs : list (Z * V)) : bool := existsb (fun '(st, _) => st =? STATUS_DIRTY) recs.
Definition record_file (recs : list (Z * V)) : list Z := concat ((fun '(st, v) => enc st v) <$> recs).

Lemma load_pure_recs recs tab dirty :
  Forall (fun r => wf (snd r)) recs ->
  load_pure add ((fun '(st, v) => enc st v) <$> recs) tab dirty = (foldl ins tab (clean recs), dirty || some_dirty recs).
Proof.
  intros Hwf. revert tab dirty. induction Hwf as [|[st v] recs Hv _ IH]; intros tab dirty; cbn [fmap list_fmap load_pure clean omap list_omap some_dirty existsb foldl]; [by rewrite orb_false_r|].
  rewrite add_enc by done. destruct (st =? STATUS_DIRTY); rewrite IH; [|done]. cbn [orb]. by rewrite orb_true_r.
Qed.

Lemma load_recs fuel d recs tl tab :
  files d p = Some (record_file recs ++ tl) -> Forall (fun r => wf (snd r)) recs -> (length tl < sz)%nat -> (length recs < fuel)%nat ->
  load_loop p sz add fuel d 0 tab false = Some (foldl ins tab (clean recs), some_dirty recs || negb (length tl =? 0)%nat).
Proof.
  intros Hf Hwf Htl Hfuel. change 0 with (Z.of_nat (length (@nil Z))). rewrite (load_loop_spec p sz add fuel d ((fun '(st, v) => enc st v) <$> recs) tl _ [] tab false Hf); [by rewrite load_pure_recs|done| |done|by rewrite length_fmap].
  apply Forall_fmap. eapply Forall_impl; [exact Hwf|]. intros [st v] Hv. by apply enc_length.
Qed.

Lemma record_file_length recs : Forall (fun r => wf (snd r)) recs -> length (record_file recs) = (length recs * sz)%nat.
Proof. unfold record_file. induction 1 as [|[st v] recs Hv _ IH]; cbn; [done|]. rewrite length_app, IH, enc_length by done. done. Qed.

(** Rewriting with the entries of the table gives a clean file that loads to
    the same table. *)
Lemma repair_recs fuel d c its tab tab0 :
  files d p = Some c -> Forall wf its -> (length its * sz <= length c)%nat -> foldl ins tab0 its = tab -> (length its < fuel)%nat ->
  let d' := rewrite_file d p (enc STATUS_CLEAN <$> its) in
  files d' p = Some (concat (enc STATUS_CLEAN <$> its)) /\ load_loop p sz add fuel d' 0 tab0 false = Some (tab, false).
Proof.
  intros Hf Hwf Hl Ht Hfuel d'. set (recs := (fun v => (STATUS_CLEAN, v)) <$> its).
  assert (Hrf : concat (enc STATUS_CLEAN <$> its) = record_file recs) by (unfold record_file, recs; by rewrite <- list_fmap_compose).
  assert (Hwf' : Forall (fun r => wf (snd r)) recs) by (unfold recs; by apply Forall_fmap).
  assert (Hlr : length recs = length its) by (unfold recs; by rewrite length_fmap).
  assert (Hf' : files d' p = Some (record_file recs)) by (unfold d'; rewrite <- Hrf; apply (rewrite_file_spec d p c); [done|rewrite Hrf, record_file_length by done; lia]).
  split; [by rewrite Hrf|]. rewrite <- (app_nil_r (record_file recs)) in Hf'. rewrite (load_recs fuel d' recs []) by (done || cbn; lia). cbn [length Nat.eqb negb]. rewrite orb_false_r, <- Ht. f_equal. f_equal.
  - f_equal. unfold recs, clean. clear. induction its as [|v its IH]; cbn; [done|]. by rewrite IH.
  - unfold recs, some_dirty. clear. induction its as [|v its IH]; cbn; [done|]. exact IH.
Qed.

End Generic.

End Files.

Lemma add_auth_encode st e t : auth_wf e -> add_auth (encode_auth_record st e) t = if st =? STATUS_DIRTY then None else Some (auth_insert t e).
Proof. intros He. unfold add_auth. by rewrite decode_encode_auth. Qed.

Lemma clean_length {V} (recs : list (Z * V)) : (length (clean recs) <= length recs)%nat.
Proof. apply omap_length_le. Qed.

Lemma fold_insert_size {K A V} `{Countable K} (key : V -> K) (val : V -> A) (m : gmap K A) vs :
  (size (foldl (add_entry key val) m vs) <= size m + length vs)%nat.
Proof.
  revert m. induction vs as [|v vs IH]; intros m; cbn [foldl length]; [lia|]. etransitivity; [apply IH|]. unfold add_entry. rewrite map_size_insert. destruct (m !! key v); cbn; lia.
Qed.

Lemma clean_elem {V} (recs : list (Z * V)) v : v ∈ clean recs -> exists st, (st, v) ∈ recs.
Proof. unfold clean. rewrite list_elem_of_omap. intros ([st w] & Hr & Hv). destruct (st =? STATUS_DIRTY); [done|]. injection Hv as ->. eauto. Qed.

(** Entries inserted in a table satisfy what they all satisfy. *)
Lemma fold_insert_all {K A V} `{Countable K} (key : V -> K) (val : V -> A) (P : K -> A -> Prop) m vs :
  (forall k a, m !! k = Some a -> P k a) -> (forall v, v ∈ vs -> P (key v) (val v)) -> forall k a, foldl (add_entry key val) m vs !! k = Some a -> P k a.
Proof.
  revert m. induction vs as [|v vs IH]; intros m Hm Hv k a; cbn [foldl]; [apply Hm|]. apply IH; [|intros w Hw; apply Hv; by right].
  intros k' a' Hk. unfold add_entry in Hk. apply lookup_insert_Some in Hk as [[<- <-]|[_ Hk]]; [apply Hv; left|by apply Hm].
Qed.

(** ** Theorems *)

Lemma auth_repair_facts (recs : list (Z * AuthEntry)) :
  Forall (fun r => auth_wf (snd r)) recs ->
  let db := foldl auth_insert ∅ (clean recs) in
  Forall auth_wf (auth_iter db) /\ (length (auth_iter db) <= length recs)%nat /\ foldl auth_insert ∅ (auth_iter db) = db.
Proof.
  intros Hwf db. change (foldl auth_insert) with (foldl (add_entry (A := AuthEntry) a_uid (fun e => e))) in *.
  assert (Hdb : auth_db_wf db).
  { intros k e. apply (fold_insert_all a_uid (fun e => e) (fun k e => a_uid e = k /\ auth_wf e)); [by intros ? ?|]. intros v Hv. split; [done|].
    apply clean_elem in Hv as (st & Hv). rewrite Forall_forall in Hwf. by apply (Hwf (st, v)). }
  split_and!.
  - apply Forall_forall. intros e He. apply elem_of_auth_iter in He as [k Hk]. by destruct (Hdb k e Hk).
  - etransitivity; [apply auth_iter_length|]. etransitivity; [apply fold_insert_size|]. rewrite map_size_empty. apply clean_length.
  - apply rebuild.
    + intros e He. apply elem_of_auth_iter in He as [k Hk]. destruct (Hdb k e Hk) as [-> _]. done.
    + intros k [e Hk]. apply list_elem_of_fmap. exists e. destruct (Hdb k e Hk) as [<- _]. split; [done|]. by eapply auth_iter_complete.
Qed.

(** C26. The password file survives an unclean shutdown: from a file of records,
    some marked dirty, with an incomplete record at the end, boot loads
    exactly the clean records (the last one for each user) and notices the
    damage; the rewritten file holds exactly the loaded entries, in order, and
    loading it again gives the same table with nothing left to repair. *)
Theorem auth_db_repair_round_trip {D} {F : FatVolume D} {L : FatLaws D} (d : D) recs tl fuel :
  files d AUTH_DB_PATH = Some (record_file encode_auth_record recs ++ tl) ->
  Forall (fun r => auth_wf (snd r)) recs -> (length tl < AUTH_RECORD_SIZE)%nat -> (length recs < fuel)%nat ->
  let db := foldl auth_insert ∅ (clean recs) in
  load_auth_db fuel d ∅ = Some (db, some_dirty recs || negb (length tl =? 0)%nat) /\
  let d' := repair_auth_db d db in
  files d' AUTH_DB_PATH = Some (concat (encode_auth_record STATUS_CLEAN <$> auth_iter db)) /\ load_auth_db fuel d' ∅ = Some (db, false).
Proof.
  intros Hf Hwf Htl Hfuel db. destruct (auth_repair_facts recs Hwf) as (H1 & H2 & H3). fold db in H1, H2, H3. unfold load_auth_db.
  rewrite (proj2 (law_open d AUTH_DB_PATH)) by (rewrite Hf; eauto).
  rewrite (load_recs AUTH_DB_PATH AUTH_RECORD_SIZE encode_auth_record auth_wf auth_insert add_auth encode_auth_length add_auth_encode fuel d recs tl ∅ Hf Hwf Htl Hfuel).
  split; [done|]. set (d' := repair_auth_db d db).
  destruct (repair_recs AUTH_DB_PATH AUTH_RECORD_SIZE encode_auth_record auth_wf auth_insert add_auth encode_auth_length add_auth_encode ltac:(unfold AUTH_RECORD_SIZE; lia) fuel d _ (auth_iter db) db ∅ Hf H1) as [Hf' Hl']; [|done|lia|].
  - rewrite length_app, (record_file_length AUTH_RECORD_SIZE encode_auth_record auth_wf encode_auth_length recs Hwf). unfold AUTH_RECORD_SIZE. lia.
  - split; [exact Hf'|]. rewrite (proj2 (law_open d' AUTH_DB_PATH)); [exact Hl'|]. change (files d' AUTH_DB_PATH) with (files (rewrite_file d AUTH_DB_PATH (encode_auth_record STATUS_CLEAN <$> auth_iter db)) AUTH_DB_PATH). rewrite Hf'. eauto.
Qed.

Definition sample_auth (u b : Z) : AuthEntry := mkAuth u (replicate 16 0) (replicate 32 b).
Definition sample_auth_recs : list (Z * AuthEntry) := [(0, sample_auth 1000 7); (1, sample_auth 1001 8); (0, sample_auth 0 9)].

Lemma auth_db_repair_round_trip_witness :
  let d := mkVolume {[AUTH_DB_PATH := record_file encode_auth_record sample_auth_recs ++ [0; 1; 2]]} ∅ in
  let db := foldl auth_insert ∅ (clean sample_auth_recs) in
  load_auth_db 9 d ∅ = Some (db, some_dirty sample_auth_recs || negb (length [0; 1; 2] =? 0)%nat) /\
  let d' := repair_auth_db d db in
  files d' AUTH_DB_PATH = Some (concat (encode_auth_record STATUS_CLEAN <$> auth_iter db)) /\ load_auth_db 9 d' ∅ = Some (db, false).
Proof.
  intros d db. apply (auth_db_repair_round_trip d sample_auth_recs [0; 1; 2] 9); [reflexivity| |unfold AUTH_RECORD_SIZE; cbn; lia|cbn; lia].
  repeat (apply Forall_cons; split; [split; [unfold fits; cbn; lia|by split]|]). apply Forall_nil. exact I.
Defined.

(** *** Permissions *)

Definition perm_rec_wf (r : path * PermEntry) : Prop := path_wf (fst r) /\ perm_wf (snd r).
Definition encode_perm (st : Z) (r : path * PermEntry) : list Z := encode_perms_record st (fst r) (snd r).
Definition perms_insert (db : PermsDb) (r : path * PermEntry) : PermsDb := <[fst r := snd r]> db.

Lemma add_perms_encode st r t : perm_rec_wf r -> add_perms (encode_perm st r) t = if st =? STATUS_DIRTY then None else Some (perms_insert t r).
Proof. intros [Hp He]. unfold add_perms, encode_perm. by rewrite decode_encode_perms. Qed.

Lemma encode_perm_length st r : perm_rec_wf r -> length (encode_perm st r) = PERMS_RECORD_SIZE.
Proof. intros _. apply encode_perms_length. Qed.

Lemma perms_repair_facts (recs : list (Z * (path * PermEntry))) :
  Forall (fun r => perm_rec_wf (snd r)) recs ->
  let db := foldl perms_insert ∅ (clean recs) in
  Forall perm_rec_wf (perms_iter db) /\ (length (perms_iter db) <= length recs)%nat /\ foldl perms_insert ∅ (perms_iter db) = db.
Proof.
  intros Hwf db. change (foldl perms_insert) with (foldl (add_entry (A := PermEntry) (V := path * PermEntry) fst snd)) in *.
  assert (Hdb : forall p e, db !! p = Some e -> perm_rec_wf (p, e)).
  { intros p e. apply (fold_insert_all fst snd (fun p e => perm_rec_wf (p, e))); [by intros ? ?|]. intros [q v] Hv.
    apply clean_elem in Hv as (st & Hv). rewrite Forall_forall in Hwf. by apply (Hwf (st, (q, v))). }
  split_and!.
  - apply Forall_forall. intros [p e] He. by apply Hdb, elem_of_perms_iter.
  - etransitivity; [apply perms_iter_length|]. etransitivity; [apply fold_insert_size|]. rewrite map_size_empty. apply clean_length.
  - apply rebuild.
    + intros [p e] He. by apply elem_of_perms_iter.
    + intros p [e Hp]. apply list_elem_of_fmap. exists (p, e). split; [done|]. by apply perms_iter_complete.
Qed.

(** The permission file survives an unclean shutdown in the same way, for
    entries whose path fits a record (at most 64 bytes without a zero). *)
Theorem perms_db_repair_round_trip {D} {F : FatVolume D} {L : FatLaws D} (d : D) recs tl fuel :
  files d PERMS_DB_PATH = Some (record_file encode_perm recs ++ tl) ->
  Forall (fun r => perm_rec_wf (snd r)) recs -> (length tl < PERMS_RECORD_SIZE)%nat -> (length recs < fuel)%nat ->
  let db := foldl perms_insert ∅ (clean recs) in
  load_perms_db fuel d ∅ = Some (db, some_dirty recs || negb (length tl =? 0)%nat) /\
  let d' := repair_perms_db d db in
  files d' PERMS_DB_PATH = Some (concat (encode_perm STATUS_CLEAN <$> perms_iter db)) /\ load_perms_db fuel d' ∅ = Some (db, false).
Proof.
  intros Hf Hwf Htl Hfuel db. destruct (perms_repair_facts recs Hwf) as (H1 & H2 & H3). fold db in H1, H2, H3. unfold load_perms_db.
  rewrite (proj2 (law_open d PERMS_DB_PATH)) by (rewrite Hf; eauto).
  rewrite (load_recs PERMS_DB_PATH PERMS_RECORD_SIZE encode_perm perm_rec_wf perms_insert add_perms encode_perm_length add_perms_encode fuel d recs tl ∅ Hf Hwf Htl Hfuel).
  split; [done|]. set (d' := repair_perms_db d db).
  assert (Ed : d' = rewrite_file d PERMS_DB_PATH (encode_perm STATUS_CLEAN <$> perms_iter db)) by (unfold d', repair_perms_db; f_equal; apply list_fmap_ext; by intros i [p e]).
  destruct (repair_recs PERMS_DB_PATH PERMS_RECORD_SIZE encode_perm perm_rec_wf perms_insert add_perms encode_perm_length add_perms_encode ltac:(unfold PERMS_RECORD_SIZE; lia) fuel d _ (perms_iter db) db ∅ Hf H1) as [Hf' Hl']; [|done|lia|].
  - rewrite length_app, (record_file_length PERMS_RECORD_SIZE encode_perm perm_rec_wf encode_perm_length recs Hwf). unfold PERMS_RECORD_SIZE. lia.
  - rewrite Ed. split; [exact Hf'|]. rewrite (proj2 (law_open _ PERMS_DB_PATH)); [exact Hl'|]. rewrite Hf'. eauto.
Qed.

(** The path [/a] of user 1000. *)
Definition sample_perm_recs : list (Z * (path * PermEntry)) := [(0, ([47; 97], mkPerm 1000 1000 6 4 0)); (1, ([47; 98], mkPerm 0 0 7 5 5))].

Lemma perms_db_repair_round_trip_witness :
  let d := mkVolume {[PERMS_DB_PATH := record_file encode_perm sample_perm_recs ++ []]} ∅ in
  let db := foldl perms_insert ∅ (clean sample_perm_recs) in
  load_perms_db 9 d ∅ = Some (db, some_dirty sample_perm_recs || negb (length (@nil Z) =? 0)%nat) /\
  let d' := repair_perms_db d db in
  files d' PERMS_DB_PATH = Some (concat (encode_perm STATUS_CLEAN <$> perms_iter db)) /\ load_perms_db 9 d' ∅ = Some (db, false).
Proof.
  intros d db. apply (perms_db_repair_round_trip d sample_perm_recs [] 9); [reflexivity| |unfold PERMS_RECORD_SIZE; cbn; lia|cbn; lia].
  repeat (apply Forall_cons; split; [split; [split_and!; [cbn; unfold PATH_MAX; lia|refine (bool_decide_eq_true_1 _ _); reflexivity|reflexivity]|split; unfold fits; cbn; lia]|]). apply Forall_nil. exact I.
Defined.

(** *** The self-test *)

Lemma auth_new_wf (sha256 : list Z -> list Z) uid pw : (forall m, length (sha256 m) = 32%nat) -> fits 32 uid -> auth_wf (auth_new sha256 uid pw).
Proof. intros Hs Hu. split_and!; [done| |apply Hs]. apply length_replicate. Qed.

(** The two records the self-test stores. *)
Definition test_records (sha256 : list Z -> list Z) : list (list Z) :=
  [encode_auth_record STATUS_CLEAN (auth_new sha256 10 [103; 111; 111; 100]); encode_auth_record STATUS_DIRTY (auth_new sha256 99 [98; 97; 100])].

(** The self-test of the consistency rule never fails an assertion: on a volume
    that does not have the test file, with a hash of 32 bytes, it passes,
    leaving the other files alone, unless the volume refuses the file or a
    write, and then the test stops there. *)
Lemma consistency_test_passes {D} {F : FatVolume D} {L : FatLaws D} {G : FatGrowth D} (sha256 : list Z -> list Z) (d : D) fuel :
  (forall m, length (sha256 m) = 32%nat) -> files d TEST_PATH = None -> (2 < fuel)%nat ->
  exists r, test_consistency_repair sha256 fuel d = Some r /\ (forall e, r = Err e -> fat_store d TEST_PATH (test_records sha256) = None) /\ forall d' q, r = Ok d' -> different TEST_PATH q -> files d' q = files d q.
Proof.
  intros Hsha Hnew Hfuel. unfold test_consistency_repair, fat_store, test_records. cbv zeta.
  set (e1 := auth_new sha256 10 _). set (e2 := auth_new sha256 99 _).
  assert (Hw1 : auth_wf e1) by (apply auth_new_wf; [done|unfold fits; lia]). assert (Hw2 : auth_wf e2) by (apply auth_new_wf; [done|unfold fits; lia]).
  destruct (fat_create_file d TEST_PATH) as [d1 ok1] eqn:Ec. destruct ok1; [|by eexists].
  assert (Ho1 : forall q, different TEST_PATH q -> files d1 q = files d q) by (intros q Hq; by rewrite <- (law_create_other d TEST_PATH q Hq), Ec).
  apply law_created in Ec. rewrite Hnew in Ec. cbn [default negb] in *.
  rewrite (proj2 (law_open d1 TEST_PATH)) by (rewrite Ec; eauto). cbn [negb]. rewrite (law_seek d1 TEST_PATH []) by (done || cbn; lia). cbn [default id].
  destruct (fat_write_all d1 TEST_PATH 0 (encode_auth_record STATUS_CLEAN e1)) as [[d2 pos2] ok2] eqn:Ew1. cbn [fat_append]. rewrite Ew1. destruct ok2; [|by eexists]. cbn [negb].
  assert (Ho2 : forall q, different TEST_PATH q -> files d2 q = files d q) by (intros q Hq; by rewrite <- Ho1, <- (law_write_other d1 TEST_PATH q 0 (encode_auth_record STATUS_CLEAN e1)), Ew1).
  apply (law_written d1 TEST_PATH []) in Ew1 as [-> Hf2]; [|done|cbn; lia]. rewrite drop_nil, app_nil_r in Hf2. change (take (Z.to_nat 0) [] ++ ?x) with x in Hf2.
  set (p2 := 0 + Z.of_nat (length (encode_auth_record STATUS_CLEAN e1))) in *.
  destruct (fat_write_all d2 TEST_PATH p2 (encode_auth_record STATUS_DIRTY e2)) as [[d3 pos3] ok3] eqn:Ew2. destruct ok3; [|by eexists]. cbn [negb].
  assert (Ho3 : forall q, different TEST_PATH q -> files d3 q = files d q) by (intros q Hq; by rewrite <- Ho2, <- (law_write_other d2 TEST_PATH q p2 (encode_auth_record STATUS_DIRTY e2)), Ew2).
  apply (law_written d2 TEST_PATH _ _ _ _ _ Hf2) in Ew2 as [_ Hf3]; [|unfold p2; lia]. unfold p2 in Hf3. rewrite Z.add_0_l, Nat2Z.id, firstn_all, drop_ge, app_nil_r in Hf3 by lia.
  rewrite (proj2 (law_open d3 TEST_PATH)) by (rewrite Hf3; eauto). cbn [negb].
  rewrite (load_recs TEST_PATH AUTH_RECORD_SIZE encode_auth_record auth_wf auth_insert add_auth encode_auth_length add_auth_encode fuel d3 [(STATUS_CLEAN, e1); (STATUS_DIRTY, e2)] []).
  - cbn [mbind option_bind clean omap list_omap STATUS_CLEAN STATUS_DIRTY Z.eqb Pos.eqb foldl]. destruct (fat_remove d3 TEST_PATH) as [d4 ok4] eqn:Er.
    unfold auth_insert. change (a_uid e1) with 10. rewrite map_size_insert_None, map_size_empty by apply lookup_empty. unfold auth_verify.
    rewrite lookup_insert_eq, lookup_insert_ne, lookup_empty by lia. rewrite bool_decide_eq_true_2 by reflexivity. eexists. split; [reflexivity|]. split; [done|]. intros d' q [= <-] Hq.
    by rewrite <- Ho3, <- (law_remove_other d3 TEST_PATH q Hq), Er.
  - unfold record_file. cbn [fmap list_fmap concat]. by rewrite !app_nil_r.
  - apply Forall_cons; split; [exact Hw1|]. apply Forall_cons; split; [exact Hw2|]. apply Forall_nil_2.
  - unfold AUTH_RECORD_SIZE. cbn. lia.
  - cbn. lia.
Qed.
