(* ===== verification/Vfs.v ===== *)
(** The logical file system ([kernel/src/fs/vfs.rs]) with its open-file tables
    ([fs/fcb.rs], [fs/fd_table.rs]) and file metadata ([fs/stat.rs]), over the
    FAT volume of [Fat] and the overlays of [Records].

    The methods are in the state and error monad of [Prelude]: the state is the
    [LogicalFs], an error leaves the state as it was when it was raised, [None]
    is a panic.  The Unicode [to_lowercase] is a parameter. *)

From S2P Require Import Prelude Bytes Fat Records.

(* fs/vfs.rs:14-27 FsError *)
Inductive FsError :=
  | NotFound | AlreadyExists | PermissionDenied | Locked | IsShared | NotOpen | InvalidPath | NotADirectory | IsADirectory | NotMounted.

(** ** Open files *)

(* fs/fcb.rs:6-14 Fcb *)
Record Fcb := mkFcb { f_path : path; f_cursor : Z; open_count : Z; dirty : bool; locked_by : option Z; is_shared : bool }.
(** [FcbTable]: the control blocks by path. *)
Abbreviation FcbTable := (gmap path Fcb).

(** [entry(path).or_insert_with(..)]. *)
(* fs/fcb.rs:25-34 open *)
Definition fcb_open (t : FcbTable) (p : path) : FcbTable * Fcb :=
  match t !! p with
  | Some f => (t, f)
  | None => let f := mkFcb p 0 0 false None false in (<[p := f]> t, f)
  end.

(** An [FdEntry] is its path. *)
(* fs/fd_table.rs:12-15 ProcFdTable *)
Record ProcFdTable := mkFds { next_fd : Z; fd_map : gmap Z path }.
(* fs/fd_table.rs:18-20 new *)
Definition fds_new : ProcFdTable := mkFds 3 ∅.
(** [None] is the overflow of the counter. *)
(* fs/fd_table.rs:22-27 alloc *)
Definition fds_alloc (t : ProcFdTable) (p : path) : option (Z * ProcFdTable) :=
  n ← uadd 64 (next_fd t) 1;
  Some (next_fd t, mkFds n (<[next_fd t := p]> (fd_map t))).

(** [FdRegistry]: the tables by process. *)
Abbreviation FdRegistry := (gmap Z ProcFdTable).
(* fs/fd_table.rs:49-51 table_for *)
Definition table_for (r : FdRegistry) (pid : Z) : ProcFdTable := default fds_new (r !! pid).
(* fs/fd_table.rs:54-56 remove_process *)
Definition remove_process (r : FdRegistry) (pid : Z) : FdRegistry := delete pid r.

(* fs/stat.rs:5-13 Stat *)
Record Stat := mkStat { st_size : Z; st_is_dir : Z; st_owner : Z; st_group : Z; st_world : Z; st_uid : Z; st_gid : Z }.

(** The 24 bytes of the [repr(C)] layout: a 64-bit size, four bytes, two 32-bit
    identifiers and four bytes of padding, whatever those hold. *)
(* fs/stat.rs:18-23 write_to_user *)
Definition stat_bytes (s : Stat) (pad : list Z) : list Z :=
  le_encode 8 (st_size s) ++ [st_is_dir s; st_owner s; st_group s; st_world s] ++ le_encode 4 (st_uid s) ++ le_encode 4 (st_gid s) ++ pad.

Section Vfs.

Context {D : Type} {F : FatVolume D} (to_lowercase : path -> path).

(* fs/vfs.rs:30-36 LogicalFs *)
Record LogicalFs := mkFs { fcbs : FcbTable; fds : FdRegistry; perms : PermsDb; auth : AuthDb; disk : option D }.

(* fs/vfs.rs:39-47 new *)
Definition fs_new : LogicalFs := mkFs ∅ ∅ ∅ ∅ None.
(* fs/vfs.rs:51-53 mount_disk *)
Definition mount_disk (s : LogicalFs) (d : D) : LogicalFs := mkFs (fcbs s) (fds s) (perms s) (auth s) (Some d).

Abbreviation fsm := (kmon LogicalFs FsError).

Definition put_fcbs (t : FcbTable) : fsm unit := fun s => Some (Ok tt, mkFs t (fds s) (perms s) (auth s) (disk s)).
Definition put_fds (r : FdRegistry) : fsm unit := fun s => Some (Ok tt, mkFs (fcbs s) r (perms s) (auth s) (disk s)).
Definition put_perms (p : PermsDb) : fsm unit := fun s => Some (Ok tt, mkFs (fcbs s) (fds s) p (auth s) (disk s)).
Definition put_disk (d : D) : fsm unit := fun s => Some (Ok tt, mkFs (fcbs s) (fds s) (perms s) (auth s) (Some d)).
Definition or_err {A} (e : FsError) (o : option A) : fsm A := klift (ok_or e o).
Definition or_panic {A} (o : option A) : fsm A := match o with Some a => kret a | None => kpanic end.
Definition guard (b : bool) (e : FsError) : fsm unit := if b then kret tt else kerr e.

(* fs/vfs.rs:65-67 disk_mut *)
Definition disk_mut : fsm D := let! s := kget in or_err NotMounted (disk s).

(** [trim_start_matches('/')]. *)
Fixpoint trim_slashes (p : path) : path :=
  match p with
  | b :: q => if b =? 47 then trim_slashes q else p
  | [] => []
  end.

(* fs/vfs.rs:69-74 to_fat_path *)
Definition to_fat_path (p : path) : result FsError path :=
  match p with
  | b :: _ => if b =? 47 then Ok (trim_slashes p) else Err InvalidPath
  | [] => Err InvalidPath
  end.

(* fs/vfs.rs:79-82 case_conflict *)
Definition case_conflict (s : LogicalFs) (p : path) : bool :=
  let lower := to_lowercase p in
  existsb (fun q => negb (bool_decide (q = p)) && bool_decide (to_lowercase q = lower)) (elements (dom (fcbs s))).

(* fs/vfs.rs:84-101 check_perm *)
Definition check_perm (s : LogicalFs) (p : path) (uid gid : Z) (want_write : bool) : result FsError unit :=
  if uid =? 0 then Ok tt
  else match perms s !! p with
       | None => Ok tt
       | Some e =>
           let rwx := if uid =? p_uid e then owner_rwx e else if gid =? p_gid e then group_rwx e else world_rwx e in
           if want_write && negb (can_write rwx) then Err PermissionDenied
           else if negb want_write && negb (can_read rwx) then Err PermissionDenied
           else Ok tt
       end.

(** The common end of [open] and [create]: lock the control block and give out
    a descriptor. *)
Definition claim (p : path) (pid : Z) : fsm Z :=
  let! s := kget in
  let '(t, f) := fcb_open (fcbs s) p in
  put_fcbs t ;;;
  guard (bool_decide (locked_by f = None)) Locked ;;;
  let! n := or_panic (uadd 32 (open_count f) 1) in
  put_fcbs (<[p := mkFcb (f_path f) (f_cursor f) n (dirty f) (Some pid) (is_shared f)]> t) ;;;
  let! s := kget in
  let! r := or_panic (fds_alloc (table_for (fds s) pid) p) in
  put_fds (<[pid := snd r]> (fds s)) ;;;
  kret (fst r).

(* fs/vfs.rs:104-126 open *)
Definition fs_open (p : path) (pid uid gid : Z) : fsm Z :=
  let! s := kget in
  guard (negb (case_conflict s p)) AlreadyExists ;;;
  klift (check_perm s p uid gid false) ;;;
  let! fp := klift (to_fat_path p) in
  let! d := disk_mut in
  guard (fat_open_file d fp) NotFound ;;;
  claim p pid.

(* fs/vfs.rs:128-142 close *)
Definition fs_close (fd pid : Z) : fsm unit :=
  let! s := kget in
  let t := table_for (fds s) pid in
  put_fds (<[pid := mkFds (next_fd t) (delete fd (fd_map t))]> (fds s)) ;;;
  let! p := or_err NotOpen (fd_map t !! fd) in
  match fcbs s !! p with
  | None => kret tt
  | Some f =>
      let n := Z.max 0 (open_count f - 1) in
      let l := if bool_decide (locked_by f = Some pid) then None else locked_by f in
      if n =? 0 then put_fcbs (delete p (fcbs s))
      else put_fcbs (<[p := mkFcb (f_path f) (f_cursor f) n (dirty f) l (is_shared f)]> (fcbs s))
  end.

(** [self.fds.table_for(pid).get(fd)]: the path, creating the table if needed. *)
Definition fd_path (fd pid : Z) : fsm path :=
  let! s := kget in
  let t := table_for (fds s) pid in
  put_fds (<[pid := t]> (fds s)) ;;;
  or_err NotOpen (fd_map t !! fd).

(** The bytes read. *)
(* fs/vfs.rs:144-160 read *)
Definition fs_read (fd pid uid gid : Z) (len : nat) : fsm (list Z) :=
  let! p := fd_path fd pid in
  let! s := kget in
  klift (check_perm s p uid gid false) ;;;
  let! f := or_err NotOpen (fcbs s !! p) in
  let! fp := klift (to_fat_path p) in
  let! d := disk_mut in
  guard (fat_open_file d fp) NotFound ;;;
  let! pos := or_err InvalidPath (fat_seek d fp (f_cursor f)) in
  let! bs := or_err InvalidPath (fat_read d fp pos len) in
  let! c := or_panic (uadd 64 (f_cursor f) (Z.of_nat (length bs))) in
  put_fcbs (<[p := mkFcb (f_path f) c (open_count f) (dirty f) (locked_by f) (is_shared f)]> (fcbs s)) ;;;
  kret bs.

(* fs/vfs.rs:162-187 write *)
Definition fs_write (fd pid uid gid : Z) (buf : list Z) : fsm Z :=
  let! p := fd_path fd pid in
  let! s := kget in
  let! f := or_err NotOpen (fcbs s !! p) in
  guard (negb (is_shared f)) IsShared ;;;
  klift (check_perm s p uid gid true) ;;;
  let! fp := klift (to_fat_path p) in
  let! d := disk_mut in
  guard (fat_open_file d fp) NotFound ;;;
  let! pos := or_err InvalidPath (fat_seek d fp (f_cursor f)) in
  let '(d, _, ok) := fat_write_all d fp pos buf in
  put_disk d ;;;
  guard ok InvalidPath ;;;
  let! c := or_panic (uadd 64 (f_cursor f) (Z.of_nat (length buf))) in
  put_fcbs (<[p := mkFcb (f_path f) c (open_count f) true (locked_by f) (is_shared f)]> (fcbs s)) ;;;
  kret (Z.of_nat (length buf)).

(* fs/vfs.rs:189-194 seek *)
Definition fs_seek (fd pid offset : Z) : fsm unit :=
  let! p := fd_path fd pid in
  let! s := kget in
  let! f := or_err NotOpen (fcbs s !! p) in
  put_fcbs (<[p := mkFcb (f_path f) offset (open_count f) (dirty f) (locked_by f) (is_shared f)]> (fcbs s)).

(* fs/vfs.rs:196-215 create *)
Definition fs_create (p : path) (pid : Z) : fsm Z :=
  let! s := kget in
  guard (negb (case_conflict s p)) AlreadyExists ;;;
  let! fp := klift (to_fat_path p) in
  let! d := disk_mut in
  let '(d, ok) := fat_create_file d fp in
  put_disk d ;;;
  guard ok InvalidPath ;;;
  claim p pid.

Definition not_shared (s : LogicalFs) (p : path) : bool :=
  match fcbs s !! p with Some f => negb (is_shared f) | None => true end.

(* fs/vfs.rs:217-231 delete *)
Definition fs_delete (p : path) : fsm unit :=
  let! s := kget in
  guard (not_shared s p) IsShared ;;;
  let! fp := klift (to_fat_path p) in
  let! d := disk_mut in
  let '(d, ok) := fat_remove d fp in
  put_disk d ;;;
  guard ok NotFound ;;;
  put_fcbs (delete p (fcbs s)) ;;;
  put_perms (delete p (perms s)).

(* fs/vfs.rs:233-237 mark_shared *)
Definition fs_mark_shared (p : path) : fsm unit :=
  let! s := kget in
  let! f := or_err NotFound (fcbs s !! p) in
  put_fcbs (<[p := mkFcb (f_path f) (f_cursor f) (open_count f) (dirty f) (locked_by f) true]> (fcbs s)).

(* fs/vfs.rs:239-246 chmod *)
Definition fs_chmod (p : path) (owner group world : Z) : fsm unit :=
  let! s := kget in
  match perms s !! p with
  | Some e => put_perms (<[p := mkPerm (p_uid e) (p_gid e) owner group world]> (perms s))
  | None => kret tt
  end.

(* fs/vfs.rs:252-269 rename *)
Definition fs_rename (old new : path) : fsm unit :=
  let! s := kget in
  guard (negb (case_conflict s new)) AlreadyExists ;;;
  guard (not_shared s old) IsShared ;;;
  let! old_fat := klift (to_fat_path old) in
  let! new_fat := klift (to_fat_path new) in
  let! d := disk_mut in
  let '(d, ok) := fat_rename d old_fat new_fat in
  put_disk d ;;;
  guard ok NotFound.

(* fs/vfs.rs:271-280 mkdir *)
Definition fs_mkdir (p : path) : fsm unit :=
  let! s := kget in
  guard (negb (case_conflict s p)) AlreadyExists ;;;
  let! fp := klift (to_fat_path p) in
  let! d := disk_mut in
  let '(d, ok) := fat_create_dir d fp in
  put_disk d ;;;
  guard ok AlreadyExists.

(** Directory entries other than [.] and [..]. *)
Definition real_entries (es : list (path * bool)) : list (path * bool) :=
  List.filter (fun '(name, _) => negb (bool_decide (name = [46])) && negb (bool_decide (name = [46; 46]))) es.

Definition remove_entry (fp : path) : fsm unit :=
  let! d := disk_mut in
  let '(d, ok) := fat_remove d fp in
  put_disk d ;;;
  guard ok NotFound.

Definition join_path (dir name : path) : path := match dir with [] => name | _ => dir ++ [47] ++ name end.

(** The loop over the entries of a directory. *)
Fixpoint for_entries (es : list (path * bool)) (body : path * bool -> fsm unit) : fsm unit :=
  match es with
  | [] => kret tt
  | e :: es => body e ;;; for_entries es body
  end.

(** [fuel] bounds the depth of the tree below the directory; [None] when it is
    exceeded. *)
(* fs/vfs.rs:289-318 remove_dir_recursive *)
Fixpoint remove_dir_recursive (fuel : nat) (fp : path) : fsm unit :=
  match fuel with
  | O => kpanic
  | S fuel =>
      let! d := disk_mut in
      let! es := or_err NotFound (fat_open_dir d fp) in
      for_entries (real_entries es) (fun '(name, is_dir) =>
        let child := join_path fp name in
        if is_dir : bool then remove_dir_recursive fuel child else remove_entry child) ;;;
      remove_entry fp
  end.

(* fs/vfs.rs:282-287 rmdir *)
Definition fs_rmdir (fuel : nat) (p : path) : fsm unit :=
  let! fp := klift (to_fat_path p) in
  remove_dir_recursive fuel fp.

(* fs/vfs.rs:321-331 getdents *)
Definition fs_getdents (p : path) : fsm (list (path * bool)) :=
  let! fp := klift (to_fat_path p) in
  let! d := disk_mut in
  let! es := or_err NotFound (fat_open_dir d fp) in
  kret (real_entries es).

(* fs/vfs.rs:335-361 stat *)
Definition fs_stat (p : path) : fsm Stat :=
  let! fp := klift (to_fat_path p) in
  let! d := disk_mut in
  let! sd :=
    (if fat_open_file d fp then let! n := or_err InvalidPath (fat_size d fp) in kret (n, 0)
     else match fat_open_dir d fp with Some _ => kret (0, 1) | None => kerr NotFound end) in
  let! s := kget in
  let '(size, is_dir) := sd in
  kret (match perms s !! p with
        | Some e => mkStat size is_dir (owner_rwx e) (group_rwx e) (world_rwx e) (p_uid e) (p_gid e)
        | None => mkStat size is_dir 0 0 0 0 0
        end).

(* fs/vfs.rs:248-250 verify_password *)
Definition verify_password (sha256 : list Z -> list Z) (s : LogicalFs) (uid : Z) (password : list Z) : bool := auth_verify sha256 (auth s) uid password.


(** ** Descriptors and control blocks *)

(** Process [pid] has descriptor [fd] open on [p]. *)
Definition opened (r : FdRegistry) (pid fd : Z) (p : path) : Prop := fd_map (table_for r pid) !! fd = Some p.

(** Every open file has one descriptor, held by the process that locks its
    control block; control blocks exist only for open files; descriptors not
    yet given out are free. *)
Record fs_ok (t : FcbTable) (r : FdRegistry) : Prop := mkFsOk {
  fo_fcb : forall pid fd p, opened r pid fd p -> exists f, t !! p = Some f /\ open_count f = 1 /\ locked_by f = Some pid;
  fo_unique : forall pid fd fd' p, opened r pid fd p -> opened r pid fd' p -> fd = fd';
  fo_open : forall p f, t !! p = Some f -> exists pid fd, opened r pid fd p;
  fo_next : forall pid fd p, opened r pid fd p -> 3 <= fd < next_fd (table_for r pid);
  fo_min : forall pid, 3 <= next_fd (table_for r pid)
}.

Lemma table_for_insert r pid t pid' : table_for (<[pid := t]> r) pid' = if decide (pid' = pid) then t else table_for r pid'.
Proof. unfold table_for. destruct (decide (pid' = pid)) as [->|Hne]; [by rewrite lookup_insert_eq|by rewrite lookup_insert_ne]. Qed.

(** Creating the table of a process changes nothing. *)
Lemma fs_ok_touch t r pid : fs_ok t r -> fs_ok t (<[pid := table_for r pid]> r).
Proof.
  assert (Ht : forall x, table_for (<[pid := table_for r pid]> r) x = table_for r x) by (intros x; rewrite table_for_insert; by destruct (decide _) as [->|]).
  intros [H1 H2 H3 H4 H5]. split; unfold opened in *; setoid_rewrite Ht; done.
Qed.

(** Updating a control block without its lock and count. *)
Lemma fs_ok_update t r p f f' :
  fs_ok t r -> t !! p = Some f -> open_count f' = open_count f -> locked_by f' = locked_by f -> fs_ok (<[p := f']> t) r.
Proof.
  intros [H1 H2 H3 H4 H5] Hp Hc Hl. split; [|done| |done|done].
  - intros pid fd q Hq. destruct (H1 pid fd q Hq) as (g & Hg & Hg1 & Hg2). destruct (decide (q = p)) as [->|Hne].
    + rewrite Hp in Hg. injection Hg as ->. exists f'. rewrite lookup_insert_eq. split_and!; congruence.
    + exists g. by rewrite lookup_insert_ne.
  - intros q g Hq. destruct (decide (q = p)) as [->|Hne]; [by eapply H3|]. rewrite lookup_insert_ne in Hq by done. by eapply H3.
Qed.

(** A new control block with a new descriptor. *)
Lemma fs_ok_open t r p pid f fd pt :
  fs_ok t r -> t !! p = None -> open_count f = 1 -> locked_by f = Some pid -> fds_alloc (table_for r pid) p = Some (fd, pt) ->
  fs_ok (<[p := f]> t) (<[pid := pt]> r).
Proof.
  intros [H1 H2 H3 H4 H5] Hp Hc Hl Ha. unfold fds_alloc, uadd in Ha. apply bind_Some in Ha as (n & Hn & [= <- <-]). apply uchk_Some in Hn as (-> & Hn).
  pose proof (H5 pid) as Hmin.
  assert (Hop : forall x y q, opened (<[pid := mkFds (next_fd (table_for r pid) + 1) (<[next_fd (table_for r pid) := p]> (fd_map (table_for r pid)))]> r) x y q <->
    (x = pid /\ y = next_fd (table_for r pid) /\ q = p) \/ opened r x y q).
  { intros x y q. unfold opened. rewrite table_for_insert. destruct (decide (x = pid)) as [->|Hne]; [|by split; [right|intros [[-> _]|]]]. cbn [fd_map]. rewrite lookup_insert_Some.
    split; [by intros [[<- <-]|[_ Hq]]; [left|right]|]. intros [(_ & -> & ->)|Hq]; [by left|]. right. split; [|done]. intros <-. apply H4 in Hq. lia. }
  assert (Hnp : forall x y, ~ opened r x y p) by (intros x y Hx; destruct (H1 x y p Hx) as (g & Hg & _); congruence).
  split.
  - intros x y q Hq. apply Hop in Hq as [(-> & -> & ->)|Hq]; [exists f; by rewrite lookup_insert_eq|]. destruct (H1 x y q Hq) as (g & Hg & ?). exists g. rewrite lookup_insert_ne; [done|congruence].
  - intros x y y' q Hq Hq'. apply Hop in Hq as [(-> & -> & ->)|Hq], Hq' as [(? & -> & ?)|Hq']; subst; [done|by apply Hnp in Hq'|by apply Hnp in Hq|by eapply H2].
  - intros q g Hq. apply lookup_insert_Some in Hq as [[<- <-]|[_ Hq]]; [exists pid, (next_fd (table_for r pid)); apply Hop; by left|].
    destruct (H3 q g Hq) as (x & y & Hx). exists x, y. apply Hop. by right.
  - intros x y q Hq. rewrite table_for_insert. apply Hop in Hq as [(-> & -> & ->)|Hq].
    + rewrite decide_True by done. cbn. lia.
    + apply H4 in Hq. destruct (decide (x = pid)) as [->|]; cbn; lia.
  - intros x. rewrite table_for_insert. destruct (decide (x = pid)); [cbn; lia|apply H5].
Qed.

(** Closing a descriptor frees its control block. *)
Lemma fs_ok_close t r pid fd p f :
  fs_ok t r -> opened r pid fd p -> t !! p = Some f ->
  fs_ok (delete p t) (<[pid := mkFds (next_fd (table_for r pid)) (delete fd (fd_map (table_for r pid)))]> r).
Proof.
  intros [H1 H2 H3 H4 H5] Ho Hf. destruct (H1 pid fd p Ho) as (f' & Hf' & _ & Hl). rewrite Hf in Hf'. injection Hf' as <-.
  set (r' := <[pid := _]> r).
  assert (Hop : forall x y q, opened r' x y q <-> opened r x y q /\ ~ (x = pid /\ y = fd)).
  { intros x y q. unfold opened, r'. rewrite table_for_insert. destruct (decide (x = pid)) as [->|Hne]; [|by split; [split; [|intros [-> _]]|intros [? _]]]. cbn [fd_map]. rewrite lookup_delete_Some.
    split; [intros [Hn Hq]; split; [done|by intros [_ ->]]|intros [Hq Hn]; split; [intros <-; by apply Hn|done]]. }
  assert (Hnp : forall x y, opened r' x y p -> False).
  { intros x y Hx. apply Hop in Hx as [Hx Hn]. destruct (H1 x y p Hx) as (g & Hg & _ & Hgl). assert (x = pid) as -> by congruence. apply Hn. split; [done|]. by eapply H2. }
  assert (Hnext : forall x, next_fd (table_for r' x) = next_fd (table_for r x)) by (intros x; unfold r'; rewrite table_for_insert; by destruct (decide _) as [->|]).
  split.
  - intros x y q Hq. destruct (decide (q = p)) as [->|Hne]; [by apply Hnp in Hq|]. apply Hop in Hq as [Hq _]. destruct (H1 x y q Hq) as (g & Hg & ?). exists g. by rewrite lookup_delete_ne.
  - intros x y y' q Hq Hq'. apply Hop in Hq as [Hq _], Hq' as [Hq' _]. by eapply H2.
  - intros q g Hq. apply lookup_delete_Some in Hq as [Hne Hq]. destruct (H3 q g Hq) as (x & y & Hx). exists x, y. apply Hop. split; [done|]. intros [-> ->]. unfold opened in *. congruence.
  - intros x y q Hq. rewrite Hnext. apply Hop in Hq as [Hq _]. by eapply H4.
  - intros x. rewrite Hnext. apply H5.
Qed.

(** A failed close, on a descriptor that is not open. *)
Lemma fs_ok_close_missing t r pid fd :
  fs_ok t r -> fd_map (table_for r pid) !! fd = None -> fs_ok t (<[pid := mkFds (next_fd (table_for r pid)) (delete fd (fd_map (table_for r pid)))]> r).
Proof. intros H Hn. rewrite delete_id by done. pose proof (fs_ok_touch t r pid H) as Ht. by destruct (table_for r pid) eqn:E. Qed.

(** ** The operations *)

(** Runs the monad of a hypothesis, one case for each way it can return. *)
Ltac fs_run H :=
  unfold fd_path, disk_mut, guard, or_err, or_panic, klift, put_fcbs, put_fds, put_perms, put_disk, kret, kerr, kpanic, kget, kbind, ok_or in H;
  repeat (cbn [fcbs fds perms auth disk] in H;
    match type of H with
    | context [match ?x with _ => _ end] => lazymatch x with context [match _ with _ => _ end] => fail | _ => destruct x eqn:?; try discriminate H end
    end); simplify_eq/=.

Inductive fs_op :=
| FsOpen (p : path) (pid uid gid : Z)
| FsClose (fd pid : Z)
| FsRead (fd pid uid gid : Z) (len : nat)
| FsWrite (fd pid uid gid : Z) (buf : list Z)
| FsSeek (fd pid offset : Z)
| FsCreate (p : path) (pid : Z)
| FsDelete (p : path)
| FsMarkShared (p : path)
| FsChmod (p : path) (owner group world : Z)
| FsRename (old new : path)
| FsMkdir (p : path)
| FsRmdir (fuel : nat) (p : path)
| FsGetdents (p : path)
| FsStat (p : path).

(** The file system after an operation, whatever it returned. *)
Definition fs_step (op : fs_op) (s : LogicalFs) : option LogicalFs :=
  match op with
  | FsOpen p pid uid gid => snd <$> fs_open p pid uid gid s
  | FsClose fd pid => snd <$> fs_close fd pid s
  | FsRead fd pid uid gid len => snd <$> fs_read fd pid uid gid len s
  | FsWrite fd pid uid gid buf => snd <$> fs_write fd pid uid gid buf s
  | FsSeek fd pid offset => snd <$> fs_seek fd pid offset s
  | FsCreate p pid => snd <$> fs_create p pid s
  | FsDelete p => snd <$> fs_delete p s
  | FsMarkShared p => snd <$> fs_mark_shared p s
  | FsChmod p owner group world => snd <$> fs_chmod p owner group world s
  | FsRename old new => snd <$> fs_rename old new s
  | FsMkdir p => snd <$> fs_mkdir p s
  | FsRmdir fuel p => snd <$> fs_rmdir fuel p s
  | FsGetdents p => snd <$> fs_getdents p s
  | FsStat p => snd <$> fs_stat p s
  end.

Definition fs_steps (ops : list fs_op) (s : LogicalFs) : option LogicalFs := foldl (fun o op => o ≫= fs_step op) (Some s) ops.

Definition ok (s : LogicalFs) : Prop := fs_ok (fcbs s) (fds s).

Lemma claim_ok p pid s r s' : ok s -> claim p pid s = Some (r, s') -> ok s'.
Proof.
  unfold ok, claim, kbind at 1, kget at 1, fcb_open. cbv beta iota. intros Hok H. destruct (fcbs s !! p) as [f|] eqn:Hf.
  - destruct (fo_open _ _ Hok p f Hf) as (x & y & Hx). destruct (fo_fcb _ _ Hok x y p Hx) as (g & Hg & _ & Hl). rewrite Hf in Hg. injection Hg as <-.
    rewrite (bool_decide_eq_false_2 (locked_by f = None)) in H by congruence. fs_run H. by destruct s.
  - fs_run H. match goal with E : uadd 32 0 1 = Some _ |- _ => injection E as <- end.
    match goal with E : fds_alloc _ _ = Some ?x |- _ => destruct x as [fd pt] end. rewrite insert_insert_eq. by eapply fs_ok_open.
Qed.

Lemma close_ok fd pid s r s' : ok s -> fs_close fd pid s = Some (r, s') -> ok s'.
Proof.
  unfold ok, fs_close, kbind at 1, kget at 1. cbv beta iota zeta. intros Hok H. destruct (fd_map (table_for (fds s) pid) !! fd) as [p|] eqn:Hp.
  - destruct (fo_fcb _ _ Hok pid fd p Hp) as (f & Hf & Hc & Hl). fs_run H; try by eapply fs_ok_close.
    all: match goal with E : (Z.max _ _ =? _) = false |- _ => by rewrite Hc in E end.
  - fs_run H. by apply fs_ok_close_missing.
Qed.

Lemma for_entries_pres (P : LogicalFs -> Prop) es body :
  (forall e s r s', P s -> body e s = Some (r, s') -> P s') -> forall s r s', P s -> for_entries es body s = Some (r, s') -> P s'.
Proof.
  intros Hb. induction es as [|e es IH]; intros s r s' Hs H; cbn in H; [by injection H as <- <-|].
  unfold kbind in H. destruct (body e s) as [[[u|x] s1]|] eqn:E; [|injection H as <- <-|done]; eauto.
Qed.

Lemma remove_entry_ok fp s r s' : ok s -> remove_entry fp s = Some (r, s') -> ok s'.
Proof. unfold ok, remove_entry. intros Hok H. fs_run H; done. Qed.

Lemma remove_dir_recursive_ok fuel : forall fp s r s', ok s -> remove_dir_recursive fuel fp s = Some (r, s') -> ok s'.
Proof.
  induction fuel as [|fuel IH]; intros fp s r s' Hs H; [done|]. cbn [remove_dir_recursive] in H.
  unfold kbind at 1 in H. destruct (disk_mut s) as [[[d|e] s1]|] eqn:Ed; [| |done]; (assert (s1 = s) as -> by (by fs_run Ed)); [|by injection H as <- <-].
  unfold kbind at 1 in H. unfold or_err, klift in H. destruct (ok_or NotFound (fat_open_dir d fp)) as [es|e]; [|by injection H as <- <-].
  unfold kbind at 1 in H. destruct (for_entries _ _ s) as [[[u|e] s1]|] eqn:Ef; [|injection H as <- <-|done].
  all: apply for_entries_pres with (P := ok) in Ef; [|intros [name [|]] ????; [by eapply IH|by eapply remove_entry_ok]|done].
  - by eapply remove_entry_ok.
  - done.
Qed.

(** No descriptor is open on a deleted path. *)
Definition op_quiet (op : fs_op) (s : LogicalFs) : Prop := forall p pid fd, op = FsDelete p -> ~ opened (fds s) pid fd p.

Lemma delete_ok p s r s' : ok s -> op_quiet (FsDelete p) s -> fs_delete p s = Some (r, s') -> ok s'.
Proof.
  unfold ok, fs_delete. intros Hok Hq H. assert (Hn : fcbs s !! p = None).
  { destruct (fcbs s !! p) as [f|] eqn:Hf; [|done]. destruct (fo_open _ _ Hok p f Hf) as (x & y & Hx). by destruct (Hq p x y eq_refl). }
  fs_run H; try done. by rewrite delete_id.
Qed.

Lemma fs_step_ok op s s' : ok s -> op_quiet op s -> fs_step op s = Some s' -> ok s'.
Proof.
  intros Hok Hq H. destruct op; cbn [fs_step] in H; apply fmap_Some in H as ([r x] & H & ->); cbn [snd].
  all: try by eapply close_ok. all: try by eapply delete_ok.
  - unfold fs_open in H. fs_run H; try done; by eapply claim_ok.
  - unfold ok, fs_read in *. fs_run H; try done; try (by apply fs_ok_touch). eapply fs_ok_update; [by apply fs_ok_touch|done..].
  - unfold ok, fs_write in *. fs_run H; try done; try (by apply fs_ok_touch). eapply fs_ok_update; [by apply fs_ok_touch|done..].
  - unfold ok, fs_seek in *. fs_run H; try done; try (by apply fs_ok_touch). eapply fs_ok_update; [by apply fs_ok_touch|done..].
  - unfold fs_create in H. fs_run H; try done; by eapply claim_ok in H.
  - unfold ok, fs_mark_shared in *. fs_run H; try done. by eapply fs_ok_update.
  - unfold ok, fs_chmod in *. fs_run H; done.
  - unfold ok, fs_rename in *. fs_run H; done.
  - unfold ok, fs_mkdir in *. fs_run H; done.
  - unfold fs_rmdir in H. fs_run H; try done; by eapply remove_dir_recursive_ok.
  - unfold ok, fs_getdents in *. fs_run H; done.
  - unfold ok, fs_stat in *. fs_run H; done.
Qed.

Inductive fs_reach (d : D) : LogicalFs -> Prop :=
| fs_reach_mount : fs_reach d (mount_disk fs_new d)
| fs_reach_step op s s' : fs_reach d s -> op_quiet op s -> fs_step op s = Some s' -> fs_reach d s'.

Lemma fs_reach_ok d s : fs_reach d s -> ok s.
Proof.
  induction 1 as [|op s s' _ IH Hq Hs]; [|by eapply fs_step_ok]. assert (Ht : forall pid, table_for ∅ pid = fds_new) by (intros pid; unfold table_for; by rewrite lookup_empty).
  unfold ok, opened. split; cbn [fcbs fds mount_disk fs_new]; intros *; rewrite ?Ht; cbn; lia || done.
Qed.

Lemma claim_locked s p pid fd pid' r s' : ok s -> opened (fds s) pid fd p -> claim p pid' s = Some (r, s') -> r = Err Locked.
Proof.
  intros Hok Ho. destruct (fo_fcb _ _ Hok pid fd p Ho) as (f & Hf & _ & Hl). unfold claim, kbind at 1, kget at 1, fcb_open. cbv beta iota. rewrite Hf.
  rewrite (bool_decide_eq_false_2 (locked_by f = None)) by congruence. by intros [= <- <-].
Qed.

(** A path with one slash in front.  [open] goes by the path as it is written and
    the volume by what is left without the slashes, so only such paths stand for
    one name on the volume each. *)
Definition one_slash (p : path) : Prop := exists q, p = 47 :: q /\ head q <> Some 47.

Lemma to_fat_path_inj p q : one_slash p -> one_slash q -> to_fat_path p = to_fat_path q -> p = q.
Proof.
  assert (Ht : forall r, head r <> Some 47 -> trim_slashes (47 :: r) = r) by (intros [|c r] Hc; [done|]; cbn in *; destruct (Z.eqb_spec c 47); [congruence|done]).
  intros (p' & -> & Hp) (q' & -> & Hq). cbn [to_fat_path]. rewrite Z.eqb_refl, !Ht by done. by intros [= ->].
Qed.

(** C11. Paths are open exclusively.  In every state that operations reach from a
    mounted disk, where only files that are not open are deleted, an open path
    has one descriptor in all processes, the process that holds it is the one
    its control block is locked by, the block counts one open, and another open
    or create of that path, by any process, is an error and gives out no
    descriptor.  Among the paths with one slash in front, no second descriptor
    reads and writes the same name of the volume either. *)
Theorem open_files_exclusive (d : D) (s : LogicalFs) (pid fd : Z) (p : path) :
  fs_reach d s -> opened (fds s) pid fd p ->
  (forall pid' fd', opened (fds s) pid' fd' p -> pid' = pid /\ fd' = fd) /\
  (exists f, fcbs s !! p = Some f /\ open_count f = 1 /\ locked_by f = Some pid) /\
  3 <= fd < next_fd (table_for (fds s) pid) /\
  (forall pid' uid gid r s', fs_open p pid' uid gid s = Some (r, s') -> fds s' = fds s /\ exists e, r = Err e) /\
  (forall pid' r s', fs_create p pid' s = Some (r, s') -> fds s' = fds s /\ exists e, r = Err e) /\
  (forall pid' fd' q, opened (fds s) pid' fd' q -> one_slash p -> one_slash q -> to_fat_path q = to_fat_path p -> pid' = pid /\ fd' = fd).
Proof.
  intros Hr Ho. pose proof (fs_reach_ok d s Hr) as Hok. destruct (fo_fcb _ _ Hok pid fd p Ho) as (f & Hf & Hc & Hl).
  assert (Hone : forall pid' fd', opened (fds s) pid' fd' p -> pid' = pid /\ fd' = fd).
  { intros pid' fd' Ho'. destruct (fo_fcb _ _ Hok pid' fd' p Ho') as (g & Hg & _ & Hgl). assert (pid' = pid) as -> by congruence. split; [done|]. by eapply fo_unique. }
  split; [exact Hone|]. split; [by exists f|]. split; [by eapply fo_next|]. apply and_assoc. split.
  - assert (Hclaim : forall pid' s1 r s', ok s1 -> fds s1 = fds s -> claim p pid' s1 = Some (r, s') -> fds s' = fds s /\ exists e, r = Err e).
    { intros pid' s1 r s' Hok1 Hfds H. assert (r = Err Locked) as -> by (eapply claim_locked; [done|by rewrite Hfds|done]).
      unfold claim in H. fs_run H. split; [done|by eexists]. }
    split; [intros pid' uid gid r s' H; unfold fs_open in H|intros pid' r s' H; unfold fs_create in H]; fs_run H; try (split; [done|by eexists]); (eapply Hclaim; [| |exact H]; done).
  - intros pid' fd' q Hq H1 H2 E. apply Hone. by rewrite <- (to_fat_path_inj q p H2 H1 E).
Qed.

(** The permission bits of the class of a user, when the path has an entry. *)
Definition allowed (s : LogicalFs) (p : path) (uid gid : Z) (can : Z -> bool) : Prop :=
  uid = 0 \/ forall e, perms s !! p = Some e ->
    (uid = p_uid e -> can (owner_rwx e) = true) /\ (uid <> p_uid e -> gid = p_gid e -> can (group_rwx e) = true) /\
    (uid <> p_uid e -> gid <> p_gid e -> can (world_rwx e) = true).

Lemma check_rwx rwx (w : bool) :
  (if w && negb (can_write rwx) then Err PermissionDenied else if negb w && negb (can_read rwx) then Err PermissionDenied else Ok tt) = Ok tt <->
  (if w then can_write else can_read) rwx = true.
Proof. destruct w; cbn; [destruct (can_write rwx)|destruct (can_read rwx)]; done. Qed.

Lemma check_perm_spec s p uid gid w : check_perm s p uid gid w = Ok tt <-> allowed s p uid gid (if w then can_write else can_read).
Proof.
  unfold check_perm, allowed. destruct (Z.eqb_spec uid 0) as [|H0]; [by split; [left|]|]. destruct (perms s !! p) as [e|]; [|by split; [right|]].
  cbv zeta. rewrite check_rwx. destruct (Z.eqb_spec uid (p_uid e)) as [E1|E1]; [|destruct (Z.eqb_spec gid (p_gid e)) as [E2|E2]].
  all: split; [intros H; right; intros e' [= <-]; split_and!; congruence|intros [?|H]; [done|destruct (H e eq_refl) as (?&?&?); auto]].
Qed.

Lemma check_perm_Err s p uid gid w e : check_perm s p uid gid w = Err e -> e = PermissionDenied.
Proof. unfold check_perm. intros H. repeat (case_match; try discriminate); congruence. Qed.

Lemma fs_write_denied s fd pid uid gid buf p f :
  opened (fds s) pid fd p -> fcbs s !! p = Some f -> is_shared f = false -> ~ allowed s p uid gid can_write ->
  exists s', fs_write fd pid uid gid buf s = Some (Err PermissionDenied, s') /\ disk s' = disk s.
Proof.
  intros Ho Hf Hs Ha. unfold fs_write, fd_path, kbind, kget, put_fds, or_err, klift. cbn. unfold opened in Ho. rewrite Ho. cbn. rewrite Hf. cbn. rewrite Hs. cbn.
  destruct (check_perm _ p uid gid true) as [[]|e] eqn:E; [|apply check_perm_Err in E as ->; by eexists]. destruct Ha. by apply (check_perm_spec s p uid gid true).
Qed.

(** C12. Permissions guard the data.  A read that returns bytes is of a file the
    caller has open and whose permission bits, for the caller's class, allow
    reading, and it leaves the disk and the permissions alone; a write that
    changes the disk is to a file the caller has open, that is not marked
    shared, and whose permission bits allow writing.  The root user is not
    restricted, nor is a path without an entry. *)
Theorem access_follows_permissions (s : LogicalFs) (fd pid uid gid : Z) :
  (forall len bs s', fs_read fd pid uid gid len s = Some (Ok bs, s') ->
     disk s' = disk s /\ perms s' = perms s /\ exists p, opened (fds s) pid fd p /\ allowed s p uid gid can_read) /\
  (forall buf r s', fs_write fd pid uid gid buf s = Some (r, s') ->
     perms s' = perms s /\
     (disk s' = disk s \/
      exists p f, opened (fds s) pid fd p /\ fcbs s !! p = Some f /\ is_shared f = false /\ allowed s p uid gid can_write)) /\
  (forall buf p f, opened (fds s) pid fd p -> fcbs s !! p = Some f -> is_shared f = false -> ~ allowed s p uid gid can_write ->
     exists s', fs_write fd pid uid gid buf s = Some (Err PermissionDenied, s') /\ disk s' = disk s) /\
  (forall buf p f, opened (fds s) pid fd p -> fcbs s !! p = Some f -> is_shared f = true ->
     exists s', fs_write fd pid uid gid buf s = Some (Err IsShared, s') /\ disk s' = disk s).
Proof.
  split_and!.
  - intros len bs s' H. unfold fs_read in H. fs_run H. split_and!; [done..|]. eexists. split; [eassumption|]. apply (check_perm_spec s _ uid gid false). by destruct a.
  - intros buf r s' H. unfold fs_write in H. fs_run H; (split; [done|]); try (by left); right; do 2 eexists; (split; [eassumption|]); (split; [eassumption|]).
    all: split; [by apply negb_true_iff|]; apply (check_perm_spec s _ uid gid true); by repeat match goal with u : () |- _ => destruct u end.
  - intros buf p f. apply fs_write_denied.
  - intros buf p f Ho Hf Hs. unfold fs_write, fd_path, kbind, kget, put_fds, or_err, klift. cbn. unfold opened in Ho. rewrite Ho. cbn. rewrite Hf. cbn. rewrite Hs. by eexists.
Qed.

(** What a descriptor that can be written and read sees: its path, its control
    block and the contents of its file. *)
Definition fd_file {L : FatLaws D} (s : LogicalFs) (pid fd : Z) (p fp : path) (f : Fcb) (c : list Z) : Prop :=
  opened (fds s) pid fd p /\ to_fat_path p = Ok fp /\ fcbs s !! p = Some f /\ exists d, disk s = Some d /\ files d fp = Some c.

Lemma fs_write_overwrites {L : FatLaws D} s fd pid uid gid p fp f c buf :
  fd_file s pid fd p fp f c -> is_shared f = false -> allowed s p uid gid can_write ->
  0 <= f_cursor f -> f_cursor f + Z.of_nat (length buf) <= Z.of_nat (length c) -> Z.of_nat (length c) < 2 ^ 64 ->
  exists s', fs_write fd pid uid gid buf s = Some (Ok (Z.of_nat (length buf)), s') /\ perms s' = perms s /\
    fd_file s' pid fd p fp (mkFcb (f_path f) (f_cursor f + Z.of_nat (length buf)) (open_count f) true (locked_by f) (is_shared f))
      (take (Z.to_nat (f_cursor f)) c ++ buf ++ drop (Z.to_nat (f_cursor f) + length buf) c).
Proof.
  intros (Ho & Hp & Hf & d & Hd & Hc) Hs Ha H0 Hn Hc64. apply (check_perm_spec s p uid gid true) in Ha.
  assert (Hopen : fat_open_file d fp = true) by (by apply law_open; rewrite Hc).
  destruct (law_overwrite d fp c (f_cursor f) buf Hc H0 Hn) as (d' & Hw & Hc').
  unfold fs_write, fd_path, kbind, kget, put_fds, put_disk, put_fcbs, disk_mut, or_err, or_panic, klift, kret.
  unfold opened in Ho. rewrite Ho. cbn. rewrite Hf. cbn. rewrite Hs. cbn. change (check_perm _ p uid gid true) with (check_perm s p uid gid true). rewrite Ha. cbn.
  rewrite Hp. cbn. rewrite Hd. cbn. rewrite Hopen. cbn. rewrite (law_seek d fp c) by (done || lia). cbn. rewrite Hw. cbn.
  unfold uadd. rewrite (uchk_fits 64 (f_cursor f + Z.of_nat (length buf))) by (unfold fits; lia). eexists. split; [reflexivity|]. split; [done|].
  unfold fd_file, opened. cbn. rewrite table_for_insert, decide_True, lookup_insert_eq by done. split_and!; [done..|]. by exists d'.
Qed.

Lemma fs_seek_spec {L : FatLaws D} s fd pid p fp f c offset :
  fd_file s pid fd p fp f c ->
  exists s', fs_seek fd pid offset s = Some (Ok tt, s') /\ perms s' = perms s /\
    fd_file s' pid fd p fp (mkFcb (f_path f) offset (open_count f) (dirty f) (locked_by f) (is_shared f)) c.
Proof.
  intros (Ho & Hp & Hf & d & Hd & Hc). unfold fs_seek, fd_path, kbind, kget, put_fds, put_fcbs, or_err, klift, opened in *.
  rewrite Ho. cbn. rewrite Hf. cbn. eexists. split; [reflexivity|]. split; [done|].
  unfold fd_file, opened. cbn. rewrite table_for_insert, decide_True, lookup_insert_eq by done. split_and!; [done..|]. by exists d.
Qed.

Lemma fs_read_spec {L : FatLaws D} s fd pid uid gid p fp f c n :
  fd_file s pid fd p fp f c -> allowed s p uid gid can_read -> 0 <= f_cursor f <= Z.of_nat (length c) -> Z.of_nat (length c) < 2 ^ 64 ->
  exists k s', fs_read fd pid uid gid n s = Some (Ok (take k (drop (Z.to_nat (f_cursor f)) c)), s') /\ (k <= n)%nat /\
    ((0 < n)%nat -> f_cursor f < Z.of_nat (length c) -> (0 < k)%nat) /\
    fcbs s' !! p = Some (mkFcb (f_path f) (f_cursor f + Z.of_nat (length (take k (drop (Z.to_nat (f_cursor f)) c)))) (open_count f) (dirty f) (locked_by f) (is_shared f)).
Proof.
  intros (Ho & Hp & Hf & d & Hd & Hc) Ha H0 Hc64. apply (check_perm_spec s p uid gid false) in Ha.
  assert (Hopen : fat_open_file d fp = true) by (by apply law_open; rewrite Hc).
  destruct (law_read d fp c (f_cursor f) n Hc H0) as (k & Hr & Hk & Hpos). exists k.
  unfold fs_read, fd_path, kbind, kget, put_fds, put_fcbs, disk_mut, or_err, or_panic, klift, kret.
  unfold opened in Ho. rewrite Ho. cbn. change (check_perm _ p uid gid false) with (check_perm s p uid gid false). rewrite Ha. cbn. rewrite Hf. cbn.
  rewrite Hp. cbn. rewrite Hd. cbn. rewrite Hopen. cbn. rewrite (law_seek d fp c) by done. cbn. rewrite Hr. cbn.
  unfold uadd. rewrite (uchk_fits 64 (f_cursor f + _)) by (unfold fits; rewrite length_take, length_drop; lia).
  eexists. split; [reflexivity|]. split; [done|]. split; [done|]. cbn. by rewrite lookup_insert_eq.
Qed.

(** What is written is read back.  Through a descriptor open on a file that
    the caller may read and write and that is not shared, a write that stays
    within the file succeeds whole; after seeking back to where it began, a
    read returns a prefix of the written bytes followed by the rest of the
    file, at least one byte when any is asked for and there, and the cursor
    advances by the number of bytes read. *)
Theorem write_seek_read {L : FatLaws D} (s : LogicalFs) (fd pid uid gid : Z) (p fp : path) (f : Fcb) (c buf : list Z) (n : nat) :
  fd_file s pid fd p fp f c -> is_shared f = false -> allowed s p uid gid can_write -> allowed s p uid gid can_read ->
  0 <= f_cursor f -> f_cursor f + Z.of_nat (length buf) <= Z.of_nat (length c) -> Z.of_nat (length c) < 2 ^ 64 ->
  exists s1 s2 s3 bs,
    fs_write fd pid uid gid buf s = Some (Ok (Z.of_nat (length buf)), s1) /\
    fs_seek fd pid (f_cursor f) s1 = Some (Ok tt, s2) /\
    fs_read fd pid uid gid n s2 = Some (Ok bs, s3) /\
    bs `prefix_of` (buf ++ drop (Z.to_nat (f_cursor f) + length buf) c) /\ (length bs <= n)%nat /\
    ((0 < n)%nat -> f_cursor f < Z.of_nat (length c) -> bs <> []) /\
    f_cursor <$> fcbs s3 !! p = Some (f_cursor f + Z.of_nat (length bs)).
Proof.
  intros Hfd Hs Haw Har H0 Hn Hc64.
  destruct (fs_write_overwrites s fd pid uid gid p fp f c buf Hfd Hs Haw H0 Hn Hc64) as (s1 & Hw & Hp1 & Hfd1).
  destruct (fs_seek_spec s1 fd pid p fp _ _ (f_cursor f) Hfd1) as (s2 & Hk & Hp2 & Hfd2).
  set (c' := take (Z.to_nat (f_cursor f)) c ++ _) in *.
  assert (Hlen : length c' = length c) by (unfold c'; rewrite !length_app, length_take, length_drop; lia).
  assert (Hdrop : drop (Z.to_nat (f_cursor f)) c' = buf ++ drop (Z.to_nat (f_cursor f) + length buf) c) by (unfold c'; rewrite drop_app_length'; [done|rewrite length_take; lia]).
  assert (Har2 : allowed s2 p uid gid can_read) by (unfold allowed in *; by rewrite Hp2, Hp1).
  edestruct (fs_read_spec s2 fd pid uid gid p fp _ c' n Hfd2 Har2) as (k & s3 & Hr & Hkn & Hpos & Hcur); [cbn; lia|lia|]. cbn [f_cursor] in *.
  exists s1, s2, s3. eexists. split; [exact Hw|]. split; [exact Hk|]. split; [exact Hr|]. rewrite Hcur. clear Hcur. rewrite Hdrop in *.
  split; [apply prefix_take|]. split; [rewrite length_take; lia|]. split; [|done].
  intros Hn0 Hlt Hnil. apply (f_equal length) in Hnil. rewrite length_take, length_app, length_drop in Hnil. specialize (Hpos Hn0). cbn in Hnil. lia.
Qed.

(** ** New files *)

(** Creating a file, writing it and closing it, as the kernel does to install a
    program. *)
Definition store_file (p : path) (pid : Z) (bs : list Z) : fsm unit :=
  let! fd := fs_create p pid in
  fs_write fd pid 0 0 bs ;;;
  fs_close fd pid.

Definition fetch_file (p : path) (pid : Z) (n : nat) : fsm (list Z) :=
  let! fd := fs_open p pid 0 0 in
  let! bs := fs_read fd pid 0 0 n in
  fs_close fd pid ;;;
  kret bs.

(** A path that is not open and that no open path differs from only in case,
    with descriptors to spare. *)
Record closed_path (s : LogicalFs) (p fp : path) (pid : Z) : Prop := mkClosedPath {
  cp_fcb : fcbs s !! p = None;
  cp_case : case_conflict s p = false;
  cp_fat : to_fat_path p = Ok fp;
  cp_fd : 0 <= next_fd (table_for (fds s) pid) < 2 ^ 63
}.

(** The state after [claim] on such a path. *)
Definition claimed (s : LogicalFs) (p : path) (pid : Z) : LogicalFs :=
  let t := table_for (fds s) pid in
  mkFs (<[p := mkFcb p 0 1 false (Some pid) false]> (fcbs s)) (<[pid := mkFds (next_fd t + 1) (<[next_fd t := p]> (fd_map t))]> (fds s)) (perms s) (auth s) (disk s).

Lemma claim_fresh s p pid :
  fcbs s !! p = None -> 0 <= next_fd (table_for (fds s) pid) < 2 ^ 63 -> claim p pid s = Some (Ok (next_fd (table_for (fds s) pid)), claimed s p pid).
Proof.
  intros Hp Hn. unfold claim, kbind, kget, put_fcbs, put_fds, or_panic, kret, fcb_open. rewrite Hp. cbn. unfold fds_alloc, uadd.
  rewrite (uchk_fits 32) by (unfold fits; lia). cbn. rewrite uchk_fits by (unfold fits; lia). cbn. by rewrite insert_insert_eq.
Qed.

(** Closing the descriptor of a file that is open once. *)
Lemma fs_close_spec s p pid fd f :
  opened (fds s) pid fd p -> fcbs s !! p = Some f -> open_count f = 1 ->
  fs_close fd pid s = Some (Ok tt, mkFs (delete p (fcbs s))
    (<[pid := mkFds (next_fd (table_for (fds s) pid)) (delete fd (fd_map (table_for (fds s) pid)))]> (fds s)) (perms s) (auth s) (disk s)).
Proof.
  unfold opened. intros Ho Hf Hc. unfold fs_close, kbind, kget, put_fcbs, put_fds, or_err, klift. cbn. rewrite Ho. cbn. by rewrite Hf, Hc.
Qed.

Definition with_disk (s : LogicalFs) (d : D) : LogicalFs := mkFs (fcbs s) (fds s) (perms s) (auth s) (Some d).

Lemma fs_create_fresh s p fp pid d :
  closed_path s p fp pid -> disk s = Some d ->
  fs_create p pid s = let '(d', ok) := fat_create_file d fp in
    if ok then Some (Ok (next_fd (table_for (fds s) pid)), claimed (with_disk s d') p pid) else Some (Err InvalidPath, with_disk s d').
Proof.
  intros [Hp Hcc Hfp Hn] Hd. unfold fs_create, disk_mut, kbind, kget, put_disk, or_err, klift, guard, kret. rewrite Hcc. cbn. rewrite Hfp. cbn. rewrite Hd. cbn.
  destruct (fat_create_file d fp) as [d' ok]. destruct ok; [|done]. cbn. by apply (claim_fresh (with_disk s d')).
Qed.

Lemma fs_open_fresh {L : FatLaws D} s p fp pid d c :
  closed_path s p fp pid -> disk s = Some d -> files d fp = Some c -> fs_open p pid 0 0 s = Some (Ok (next_fd (table_for (fds s) pid)), claimed s p pid).
Proof.
  intros [Hp Hcc Hfp Hn] Hd Hc. unfold fs_open, disk_mut, kbind, kget, or_err, klift, guard, kret. rewrite Hcc. cbn. rewrite Hfp. cbn. rewrite Hd. cbn.
  rewrite (proj2 (law_open d fp)) by (rewrite Hc; eauto). by apply claim_fresh.
Qed.

(** Writing at the cursor, wherever it is in the file. *)
Lemma fs_write_grows {L : FatLaws D} {G : FatGrowth D} s fd pid p fp f c buf d :
  opened (fds s) pid fd p -> to_fat_path p = Ok fp -> fcbs s !! p = Some f -> disk s = Some d -> files d fp = Some c ->
  is_shared f = false -> 0 <= f_cursor f <= Z.of_nat (length c) -> f_cursor f + Z.of_nat (length buf) < 2 ^ 64 ->
  exists d', let s1 := mkFs (fcbs s) (<[pid := table_for (fds s) pid]> (fds s)) (perms s) (auth s) (Some d') in
    fat_append d fp (f_cursor f) [buf] = None /\ fs_write fd pid 0 0 buf s = Some (Err InvalidPath, s1) \/
    fat_append d fp (f_cursor f) [buf] = Some d' /\ files d' fp = Some (take (Z.to_nat (f_cursor f)) c ++ buf ++ drop (Z.to_nat (f_cursor f) + length buf) c) /\
    (forall q, different fp q -> files d' q = files d q) /\
    fs_write fd pid 0 0 buf s = Some (Ok (Z.of_nat (length buf)),
      mkFs (<[p := mkFcb (f_path f) (f_cursor f + Z.of_nat (length buf)) (open_count f) true (locked_by f) (is_shared f)]> (fcbs s)) (fds s1) (perms s) (auth s) (Some d')).
Proof.
  unfold opened. intros Ho Hfp Hf Hd Hc Hs Hcur Hlen. destruct (fat_write_all d fp (f_cursor f) buf) as [[d' pos'] ok] eqn:Ew. exists d'. cbv zeta.
  unfold fs_write, fd_path, kbind, kget, put_fds, put_disk, put_fcbs, disk_mut, or_err, or_panic, klift, kret, guard.
  rewrite Ho. cbn. rewrite Hf. cbn. rewrite Hs. cbn. rewrite Hfp. cbn. rewrite Hd. cbn. rewrite (proj2 (law_open d fp)) by (rewrite Hc; eauto). cbn.
  rewrite (law_seek d fp c) by done. cbn. rewrite Ew. cbn. destruct ok; [|by left]. right. destruct (law_written d fp c _ _ _ _ Hc Hcur Ew) as [_ Hc']. do 2 (split; [done|]).
  split; [intros q Hq; by rewrite <- (law_write_other d fp q (f_cursor f) buf Hq), Ew|]. cbn.
  unfold uadd. by rewrite uchk_fits by (unfold fits; lia).
Qed.

(** Reading within one sector. *)
Lemma fs_read_sector {L : FatLaws D} {G : FatGrowth D} s fd pid p fp f c n d :
  opened (fds s) pid fd p -> to_fat_path p = Ok fp -> fcbs s !! p = Some f -> disk s = Some d -> files d fp = Some c ->
  0 <= f_cursor f <= Z.of_nat (length c) -> f_cursor f mod 512 + Z.of_nat n <= 512 -> Z.of_nat (length c) < 2 ^ 64 ->
  exists f', open_count f' = open_count f /\
    fs_read fd pid 0 0 n s = Some (Ok (take n (drop (Z.to_nat (f_cursor f)) c)),
      mkFs (<[p := f']> (fcbs s)) (<[pid := table_for (fds s) pid]> (fds s)) (perms s) (auth s) (Some d)).
Proof.
  unfold opened. intros Ho Hfp Hf Hd Hc Hcur Hn Hlen.
  unfold fs_read, fd_path, kbind, kget, put_fds, put_fcbs, disk_mut, or_err, or_panic, klift, kret, guard.
  rewrite Ho. cbn. rewrite Hf. cbn. rewrite Hfp. cbn. rewrite Hd. cbn. rewrite (proj2 (law_open d fp)) by (rewrite Hc; eauto). cbn.
  rewrite (law_seek d fp c) by done. cbn. rewrite (law_read_sector d fp c) by done. cbn. unfold uadd.
  rewrite (uchk_fits 64) by (unfold fits; rewrite length_take, length_drop; lia). eexists. split; [|reflexivity]. done.
Qed.

Lemma opened_claimed s p pid : opened (fds (claimed s p pid)) pid (next_fd (table_for (fds s) pid)) p.
Proof. unfold opened, claimed. cbn. rewrite table_for_insert, decide_True by done. cbn. apply lookup_insert_eq. Qed.

Lemma store_file_spec {L : FatLaws D} {G : FatGrowth D} s p fp pid bs d :
  closed_path s p fp pid -> fd_map (table_for (fds s) pid) !! next_fd (table_for (fds s) pid) = None ->
  disk s = Some d -> files d fp = None -> Z.of_nat (length bs) < 2 ^ 64 ->
  exists s', fat_store d fp [bs] = None /\ store_file p pid bs s = Some (Err InvalidPath, s') \/
    store_file p pid bs s = Some (Ok tt, s') /\ fcbs s' = fcbs s /\ perms s' = perms s /\ auth s' = auth s /\
    table_for (fds s') pid = mkFds (next_fd (table_for (fds s) pid) + 1) (fd_map (table_for (fds s) pid)) /\
    exists d', fat_store d fp [bs] = Some d' /\ disk s' = Some d' /\ files d' fp = Some bs /\ forall q, different fp q -> files d' q = files d q.
Proof.
  intros Hcp Hfree Hd Hnew Hlen. unfold fat_store, store_file, kbind. rewrite (fs_create_fresh s p fp pid d Hcp Hd).
  destruct (fat_create_file d fp) as [d1 ok1] eqn:Ec. destruct ok1; [|eexists; by left].
  assert (Ho : forall q, different fp q -> files d1 q = files d q) by (intros q Hq; by rewrite <- (law_create_other d fp q Hq), Ec).
  apply law_created in Ec. rewrite Hnew in Ec. cbn [default] in Ec.
  set (fd := next_fd (table_for (fds s) pid)) in *. set (s1 := claimed (with_disk s d1) p pid).
  assert (Ho1 : opened (fds s1) pid fd p) by apply (opened_claimed (with_disk s d1)).
  destruct (fs_write_grows s1 fd pid p fp (mkFcb p 0 1 false (Some pid) false) [] bs d1) as (d2 & [[Href Ew]|(Hst & Hf2 & Hw & Ew)]); try done; try (cbn; lia).
  { apply Hcp. }
  { cbn. apply lookup_insert_eq. }
  { rewrite Ew. eexists. by left. }
  rewrite Ew. cbn [f_cursor length drop Z.to_nat Nat.add] in *. rewrite drop_nil, app_nil_r in Hf2.
  erewrite fs_close_spec; [|unfold opened; cbn [fds]; rewrite table_for_insert, decide_True by done; exact Ho1|cbn; apply lookup_insert_eq|done].
  eexists. right. split; [reflexivity|]. cbn. rewrite insert_insert_eq, delete_insert_id by apply Hcp. do 3 (split; [done|]). split; [|exists d2; split_and!; [exact Hst|done|done|]; intros q Hq; by rewrite Hw, Ho].
  unfold s1, claimed. cbn. rewrite !table_for_insert, !decide_True by done. cbn. fold fd. by rewrite delete_insert_id.
Qed.

Lemma fetch_file_spec {L : FatLaws D} {G : FatGrowth D} s p fp pid c n d :
  closed_path s p fp pid -> disk s = Some d -> files d fp = Some c -> (n <= 512)%nat -> Z.of_nat (length c) < 2 ^ 64 ->
  exists s', fetch_file p pid n s = Some (Ok (take n c), s') /\ fcbs s' = fcbs s /\ perms s' = perms s /\ auth s' = auth s /\ disk s' = Some d.
Proof.
  intros Hcp Hd Hc Hn Hlen. unfold fetch_file, kbind. rewrite (fs_open_fresh s p fp pid d c Hcp Hd Hc).
  destruct (fs_read_sector (claimed s p pid) (next_fd (table_for (fds s) pid)) pid p fp (mkFcb p 0 1 false (Some pid) false) c n d) as (f' & Hf' & ->);
    [apply opened_claimed|apply Hcp|cbn; apply lookup_insert_eq|done|done|cbn; lia|cbn [f_cursor]; change (0 mod 512) with 0; lia|done|].
  erewrite fs_close_spec; [|unfold opened; cbn [fds]; rewrite table_for_insert, decide_True by done; apply opened_claimed|cbn; apply lookup_insert_eq|done].
  eexists. split; [reflexivity|]. cbn. by rewrite insert_insert_eq, delete_insert_id by apply Hcp.
Qed.

(** A new file keeps what is written to it: creating a file that is not there,
    writing it and closing it succeeds or reports that the volume refused to;
    once it has succeeded, opening the file again and reading within its first
    sector returns exactly the bytes written, up to the number asked for, and
    no file is left open that was not. *)
Theorem file_round_trip {L : FatLaws D} {G : FatGrowth D} (s : LogicalFs) (p fp : path) (pid : Z) (bs : list Z) (n : nat) (d : D) :
  closed_path s p fp pid -> next_fd (table_for (fds s) pid) + 1 < 2 ^ 63 ->
  fd_map (table_for (fds s) pid) !! next_fd (table_for (fds s) pid) = None ->
  disk s = Some d -> files d fp = None -> Z.of_nat (length bs) < 2 ^ 64 -> (n <= 512)%nat ->
  exists s1, fat_store d fp [bs] = None /\ store_file p pid bs s = Some (Err InvalidPath, s1) \/
    store_file p pid bs s = Some (Ok tt, s1) /\ fcbs s1 = fcbs s /\
    exists s2, fetch_file p pid n s1 = Some (Ok (take n bs), s2) /\ fcbs s2 = fcbs s /\ disk s2 = disk s1.
Proof.
  intros Hcp Hfd Hfree Hd Hnew Hlen Hn. destruct (store_file_spec s p fp pid bs d Hcp Hfree Hd Hnew Hlen) as (s1 & [E|(E & Hf1 & _ & _ & Ht1 & d1 & _ & Hd1 & Hc1 & _)]).
  { exists s1. by left. }
  exists s1. right. split; [done|]. split; [done|]. destruct Hcp as [H1 H2 H3 H4].
  assert (Hcp1 : closed_path s1 p fp pid) by (split; [by rewrite Hf1|unfold case_conflict; by rewrite Hf1|done|rewrite Ht1; cbn; lia]).
  destruct (fetch_file_spec s1 p fp pid bs n d1 Hcp1 Hd1 Hc1 Hn Hlen) as (s2 & E2 & Hf2 & _ & _ & Hd2). exists s2. by rewrite Hf2, Hf1, Hd2, Hd1.
Qed.

End Vfs.

(** ** A sample session *)

(** One file of eight bytes, opened by process 5. *)
Definition sample_disk : volume := mkVolume {[ [97] := [1; 2; 3; 4; 5; 6; 7; 8] ]} ∅.
Definition sample_fs : LogicalFs := default fs_new (fs_step id (FsOpen [47; 97] 5 0 0) (mount_disk fs_new sample_disk)).

Lemma sample_fs_opens : fs_step id (FsOpen [47; 97] 5 0 0) (mount_disk fs_new sample_disk) = Some sample_fs.
Proof. vm_compute. reflexivity. Qed.

Lemma sample_fs_reach : fs_reach id sample_disk sample_fs.
Proof. eapply (fs_reach_step id sample_disk (FsOpen [47; 97] 5 0 0)); [apply fs_reach_mount| |apply sample_fs_opens]. by intros ???. Qed.

Definition sample_fcb : Fcb := mkFcb [47; 97] 0 1 false (Some 5) false.

Lemma open_files_exclusive_witness :
  (forall pid' fd', opened (fds sample_fs) pid' fd' [47; 97] -> pid' = 5 /\ fd' = 3) /\
  (forall pid' uid gid r s', fs_open id [47; 97] pid' uid gid sample_fs = Some (r, s') -> fds s' = fds sample_fs /\ exists e, r = Err e).
Proof. assert (H : opened (fds sample_fs) 5 3 [47; 97]) by (vm_compute; reflexivity). destruct (open_files_exclusive id sample_disk sample_fs 5 3 [47; 97] sample_fs_reach H) as (H1 & _ & _ & H2 & _). exact (conj H1 H2). Defined.

(** With a second slash in front the same file is opened once more: while process
    5 has [/a] open, process 6 opens [//a], and what it writes is what process
    5 reads. *)
Definition aliased_fs : LogicalFs := default fs_new (fs_step id (FsOpen [47; 47; 97] 6 0 0) sample_fs).

Lemma second_slash_opens_again :
  fs_open id [47; 47; 97] 6 0 0 sample_fs = Some (Ok 3, aliased_fs) /\ opened (fds aliased_fs) 5 3 [47; 97] /\ opened (fds aliased_fs) 6 3 [47; 47; 97] /\
  to_fat_path [47; 47; 97] = to_fat_path [47; 97] /\
  ('(_, s) ← fs_write 3 6 0 0 [9; 9] aliased_fs; '(r, _) ← fs_read 3 5 0 0 4 s; Some r) = Some (Ok [9; 9; 3; 4]).
Proof. split_and!; vm_compute; reflexivity. Qed.

Lemma write_seek_read_witness :
  exists s1 s2 s3 bs,
    fs_write 3 5 0 0 [9; 9] sample_fs = Some (Ok 2, s1) /\ fs_seek 3 5 0 s1 = Some (Ok tt, s2) /\
    fs_read 3 5 0 0 4 s2 = Some (Ok bs, s3) /\ bs `prefix_of` [9; 9; 3; 4; 5; 6; 7; 8].
Proof.
  assert (Hfd : fd_file sample_fs 5 3 [47; 97] [97] sample_fcb [1; 2; 3; 4; 5; 6; 7; 8]).
  { split; [vm_compute; reflexivity|]. split; [reflexivity|]. split; [vm_compute; reflexivity|]. exists sample_disk. split; vm_compute; reflexivity. }
  destruct (write_seek_read sample_fs 3 5 0 0 [47; 97] [97] sample_fcb [1; 2; 3; 4; 5; 6; 7; 8] [9; 9] 4 Hfd eq_refl) as (s1 & s2 & s3 & bs & H1 & H2 & H3 & H4 & _);
    [by left|by left|done|done|done|]. exists s1, s2, s3, bs. exact (conj H1 (conj H2 (conj H3 H4))).
Defined.

(** The file readable by all and writable by user 1 alone. *)
Definition guarded_fs : LogicalFs := mkFs (fcbs sample_fs) (fds sample_fs) {[ [47; 97] := mkPerm 1 1 6 4 4 ]} ∅ (disk sample_fs).

Lemma access_follows_permissions_witness :
  exists s', fs_write 3 5 2 2 [9] guarded_fs = Some (Err PermissionDenied, s') /\ disk s' = disk guarded_fs.
Proof.
  destruct (access_follows_permissions guarded_fs 3 5 2 2) as (_ & _ & H & _).
  apply (H [9] [47; 97] sample_fcb); [vm_compute; reflexivity..|]. intros [?|Ha]; [done|]. destruct (Ha _ eq_refl) as (_ & _ & Hw). discriminate Hw; done.
Defined.

(** The file [/b] of three bytes. *)
Lemma file_round_trip_witness :
  exists s1 s2, store_file id [47; 98] 5 [7; 8; 9] sample_fs = Some (Ok tt, s1) /\ fetch_file id [47; 98] 5 2 s1 = Some (Ok [7; 8], s2).
Proof.
  destruct (file_round_trip id sample_fs [47; 98] [98] 5 [7; 8; 9] 2 (mkVolume {[ [97] := [1; 2; 3; 4; 5; 6; 7; 8] ]} ∅)) as (s1 & [[_ E]|(E1 & _ & s2 & E2 & _)]).
  - split; [vm_compute; reflexivity..|vm_compute; split; [discriminate|reflexivity]].
  - vm_compute. reflexivity.
  - vm_compute. reflexivity.
  - vm_compute. reflexivity.
  - vm_compute. reflexivity.
  - reflexivity.
  - lia.
  - exfalso. vm_compute in E. discriminate E.
  - exists s1, s2. exact (conj E1 E2).
Defined.
