(* ===== verification/Mount.v ===== *)
(** Mounting the boot volume ([FatFs] of [kernel/src/fs/fat.rs]): formatting a
    device through its byte cursor, mounting it, and making the directory of
    the system's own files.

    Formatting and mounting are functions of the [fatfs] crate; [FatCrate] is
    the interface the kernel uses and what it relies on.  Both ask for the
    storage at position 0. *)

From S2P Require Import Prelude Disk FatIo Fat.

(** The errors the kernel tells apart. *)
Inductive FatError := FatAlreadyExists | FatOther.

(** [formatted] holds of a device that has an empty volume on it.  A directory
    that was created, or was there, is there; no file changes. *)
Class FatCrate (Dev V : Type) {DD : DiskDevice Dev} {F : FatVolume V} {L : FatLaws V} := {
  format_volume : DiskIo Dev -> option (result FatError unit * DiskIo Dev);
  filesystem_new : DiskIo Dev -> option (result FatError V);
  create_dir : V -> path -> V * result FatError unit;
  formatted : Dev -> Prop;
  law_format io : io_pos io = 0 -> exists r io', format_volume io = Some (r, io') /\
    sector_count (dev io') = sector_count (dev io) /\ sector_size (dev io') = sector_size (dev io) /\ (r = Ok tt -> formatted (dev io'));
  law_new io : io_pos io = 0 -> formatted (dev io) -> exists r, filesystem_new io = Some r /\ forall v, r = Ok v -> forall p, files v p = None;
  law_create_dir v p v' r : create_dir v p = (v', r) -> fat_create_dir v p = (v', is_ok r) /\ (forall q, files v' q = files v q) /\
    (r = Ok tt \/ r = Err FatAlreadyExists -> is_Some (fat_open_dir v' p) \/ is_Some (files v' p))
}.

Section Mount.
Context {Dev V : Type} {DD : DiskDevice Dev} {F : FatVolume V} {L : FatLaws V} {C : FatCrate Dev V}.

Definition map_fat_err {A} (r : result FatError A) : result FatIoError A :=
  match r with Ok a => Ok a | Err _ => Err mkFatIoError end.

(* fs/fat.rs:123-127 mount *)
Definition mount (d : Dev) : option (result FatIoError V) :=
  let io := io_new d in
  r ← filesystem_new io;
  Some (map_fat_err r).

(** [.system] *)
Definition SYSTEM_DIR : path := [46; 115; 121; 115; 116; 101; 109].

(* fs/fat.rs:148-154 ensure_system_dir *)
Definition ensure_system_dir (v : V) : V * result FatIoError unit :=
  let '(v, r) := create_dir v SYSTEM_DIR in
  (v, match r with
      | Ok _ => Ok tt
      | Err FatAlreadyExists => Ok tt
      | Err _ => Err mkFatIoError
      end).

(* fs/fat.rs:131-141 format_and_mount *)
Definition format_and_mount (d : Dev) : option (result FatIoError V) :=
  let io := io_new d in
  '(r, io) ← io_seek io (SeekStart 0);
  match r with
  | Err e => Some (Err e)
  | Ok _ =>
      '(r, io) ← format_volume io;
      match map_fat_err r with
      | Err e => Some (Err e)
      | Ok _ =>
          '(r, io) ← io_seek io (SeekStart 0);
          match r with
          | Err e => Some (Err e)
          | Ok _ =>
              r ← filesystem_new io;
              match map_fat_err r with
              | Err e => Some (Err e)
              | Ok v =>
                  let '(v, r) := ensure_system_dir v in
                  Some (match r with Ok _ => Ok v | Err e => Err e end)
              end
          end
      end
  end.

Lemma io_seek_to (io : DiskIo Dev) n :
  fits 64 (sector_count (dev io) * sector_size (dev io)) -> io_seek io (SeekStart n) = Some (Ok n, mkIo (dev io) n (sector_buf io)).
Proof. intros Hf. unfold io_seek, umul. by rewrite uchk_fits. Qed.

Lemma ensure_system_dir_spec v v' :
  (forall p, files v p = None) -> ensure_system_dir v = (v', Ok tt) -> (forall p, files v' p = None) /\ is_Some (fat_open_dir v' SYSTEM_DIR).
Proof.
  intros Hv. unfold ensure_system_dir. destruct (create_dir v SYSTEM_DIR) as [v1 r] eqn:E. apply law_create_dir in E as (_ & Hf & Hd).
  intros [= <- Hr]. assert (Hf' : forall p, files v1 p = None) by (intros p; by rewrite Hf). split; [done|].
  destruct Hd as [Hd|Hd]; [|done|rewrite Hf' in Hd; by destruct Hd]. destruct r as [[]|[]]; [by left|by right|done].
Qed.

(** Formatting and mounting returns on a device whose size fits the cursor; a
    mounted volume has no file, and the directory of the system files is
    there. *)
Lemma format_and_mount_spec (d : Dev) :
  fits 64 (sector_count d * sector_size d) ->
  exists r, format_and_mount d = Some r /\ forall v, r = Ok v -> (forall p, files v p = None) /\ is_Some (fat_open_dir v SYSTEM_DIR).
Proof.
  intros Hfit. unfold format_and_mount. rewrite io_seek_to by done. cbn [mbind option_bind io_new dev sector_buf].
  destruct (law_format (mkIo d 0 (replicate (Z.to_nat (sector_size d)) 0)) eq_refl) as (r & io' & -> & Hc & Hs & Hfmt). cbn [mbind option_bind dev] in *.
  destruct r as [[]|e]; [|by eexists]. cbn [map_fat_err]. rewrite io_seek_to by by rewrite Hc, Hs. cbn [mbind option_bind].
  destruct (law_new (mkIo (dev io') 0 (sector_buf io')) eq_refl (Hfmt eq_refl)) as (r & -> & Hnew). cbn [mbind option_bind].
  destruct r as [v|e]; [|by eexists]. cbn [map_fat_err]. specialize (Hnew v eq_refl).
  destruct (ensure_system_dir v) as [v' r] eqn:E. eexists. split; [reflexivity|]. intros v0 Hv0. destruct r as [[]|]; [|done]. injection Hv0 as <-. by apply (ensure_system_dir_spec v).
Qed.

End Mount.

(** ** A crate whose volumes are maps *)

#[export, refine] Instance map_crate {Dev} {DD : DiskDevice Dev} : FatCrate Dev volume := {
  format_volume io := Some (Ok tt, io);
  filesystem_new io := Some (Ok (mkVolume ∅ ∅));
  create_dir v p := if bool_decide (is_Some (v_files v !! p)) then (v, Err FatOther) else (mkVolume (v_files v) ({[p]} ∪ v_dirs v), Ok tt);
  formatted _ := True
}.
Proof.
  - intros io _. by exists (Ok tt), io.
  - intros io _ _. eexists. split; [reflexivity|]. intros v [= <-] p. apply lookup_empty.
  - intros v p v' r. cbn. case_bool_decide as Hp; intros [= <- <-]; (split_and!; [done|done|]); [by intros [?|?]|]. intros _. left.
    rewrite bool_decide_true by set_solver. eauto.
Defined.

#[export, refine] Instance flat_crate {Dev} {DD : DiskDevice Dev} : FatCrate Dev flat := {
  format_volume io := Some (Ok tt, io);
  filesystem_new io := Some (Ok (mkFlat ∅));
  create_dir v p := (v, Ok tt);
  formatted _ := True
}.
Proof.
  - intros io _. by exists (Ok tt), io.
  - intros io _ _. eexists. split; [reflexivity|]. intros v [= <-] p. apply lookup_empty.
  - intros v p v' r [= <- <-]. split_and!; [done|done|]. intros _. left. cbn. eauto.
Defined.

Lemma flat_mounts {Dev} {DD : DiskDevice Dev} (d : Dev) e : format_and_mount (V := flat) d <> Some (Err e).
Proof. unfold format_and_mount, io_seek. destruct (umul 64 (sector_count (dev (io_new d))) _) eqn:E; [|done]. cbn in *. by rewrite E. Qed.
