(* ===== verification/Loader.v ===== *)
(** New address spaces ([record_kernel_l4_entries] and [clone_kernel_half] of
    [kernel/src/arch/paging.rs]) and the flat-binary loader
    ([process/loader.rs]).

    The top-level table of an address space has 512 entries, of which the
    kernel's are copied into every new space; [TopLevel] is the view of it that
    the code uses.  Copying an entry shares the tables below it, so the copy
    has the mappings the original had under that entry. *)

From S2P Require Import Prelude Bytes X86 Frames Disk Swap Vmm Signal Task Sched Fat Records Vfs.

(** The top-level entry a page is reached through. *)
Definition l4_index (p : Z) : Z := p / 2 ^ 39 mod 512.

(** Top-level entries: which are in use, and a fresh table with some of them
    copied. *)
Class TopLevel (T : Type) `{PageTables T} := {
  l4_used : T -> Z -> bool;
  copy_l4 : (Z -> bool) -> T -> T;
  l4_used_entry t p : entry t p <> None -> l4_used t (l4_index p) = true;
  copy_l4_entry keep t p : entry (copy_l4 keep t) p = if keep (l4_index p) then entry t p else None
}.

#[global] Program Instance map_top : TopLevel (gmap Z (Z * Z)) := {
  l4_used t i := existsb (fun p => l4_index p =? i) (elements (dom t));
  copy_l4 keep t := filter (fun e => keep (l4_index e.1) = true) t
}.
Next Obligation.
  intros t p Hp. cbn in *. apply existsb_exists. exists p. split; [|by apply Z.eqb_eq].
  apply list_elem_of_In, elem_of_elements, elem_of_dom. by destruct (t !! p); [eexists|].
Qed.
Next Obligation.
  intros keep t p. cbn. apply option_eq. intros e. rewrite map_lookup_filter_Some. cbn. destruct (keep (l4_index p)); [by split; [intros [? _]|]|by split; [intros [_ ?]|]].
Qed.

(* process/loader.rs:14-16 USER_CODE_BASE *)
Definition USER_CODE_BASE : Z := 0x400000.
Definition USER_STACK_TOP : Z := 0x00007FFFFFFFF000.
Definition USER_STACK_SIZE : Z := 64 * 1024.
Definition STACK_BOTTOM : Z := USER_STACK_TOP - USER_STACK_SIZE.

Section Loader.
Context `{X86Addr} {T : Type} `{TopLevel T}.

(** [KERNEL_L4_PRESENT], recorded once at boot. *)
(* arch/paging.rs:17-24 record_kernel_l4_entries *)
Definition record_kernel_l4_entries (t : T) : Z -> bool := l4_used t.

(** The new top-level frame, the new space and the frames left. *)
(* arch/paging.rs:80-100 clone_kernel_half *)
Definition clone_kernel_half (kernel_l4 : Z -> bool) (t : T) (p : frame_pool) : option (Z * T * frame_pool) :=
  '(f, p) ← allocate p;
  new_frame ← f;
  dst ← uadd 64 PHYS_MEM_OFFSET new_frame;
  let m := write_bytes (p_mem p) dst (replicate PAGE_BYTES 0) in
  Some (new_frame, copy_l4 kernel_l4 t, mkPool m (p_fl p)).

Definition CODE_FLAGS : Z := 5.

(** The loop over the pages of the program, from offset [off]. *)
(* process/loader.rs:37-50 load_flat *)
Fixpoint load_pages (fuel : nat) (bytes : list Z) (off : Z) (t : T) (p : frame_pool) : option (T * frame_pool) :=
  if off <? Z.of_nat (length bytes) then
    match fuel with
    | O => None
    | S fuel =>
        '(f, p) ← allocate p;
        frame ← f;
        dst ← uadd 64 PHYS_MEM_OFFSET frame;
        let n := Nat.min (length bytes - Z.to_nat off) PAGE_BYTES in
        let m := write_bytes (p_mem p) dst (replicate PAGE_BYTES 0) in
        let m := write_bytes m dst (take n (drop (Z.to_nat off) bytes)) in
        a ← uadd 64 USER_CODE_BASE off;
        v ← VirtAddr_new a;
        '(t, p) ← map_page t (containing_address v) frame CODE_FLAGS (mkPool m (p_fl p));
        off ← uadd 64 off PAGE_SIZE;
        load_pages fuel bytes off t p
    end
  else Some (t, p).

(** [tramp], [utramp] and [base] are those of [Task.new_user]; the kernel stack
    of the task is in [m]. *)
(* process/loader.rs:21-65 load_flat *)
Definition load_flat (tramp utramp base : Z) (kernel_l4 : Z -> bool) (t : T) (p : frame_pool) (m : memory) (c : counters)
    (bytes : list Z) (prio : Z) : option (Task * T * frame_pool * memory * counters) :=
  '(l4, child, p) ← clone_kernel_half kernel_l4 t p;
  '(child, p) ← load_pages (length bytes) bytes 0 child p;
  e1 ← uadd 64 USER_CODE_BASE (Z.of_nat (length bytes));
  e2 ← uadd 64 e1 PAGE_SIZE;
  e3 ← usub 64 e2 1;
  let hs := Z.ldiff e3 (PAGE_SIZE - 1) in
  let v := add_area vmm_new (mkArea (USER_STACK_TOP - USER_STACK_SIZE) USER_STACK_TOP 7 Anonymous) in
  '(task, m, c) ← new_user tramp utramp base m c USER_CODE_BASE USER_STACK_TOP l4 v prio;
  Some (with_space task (cr3 task) (vmm task) hs hs, child, p, m, c).

End Loader.

(** The bytes of a program file: [stat], [open] as root, one [read], [close];
    every failure, and a read shorter than the file, is a panic. *)
(* process/loader.rs:68-80 load_path *)
Definition read_program {D} {F : FatVolume D} (to_lowercase : path -> path) (p : path) (pid : Z) (s : LogicalFs (D := D)) : option (list Z * LogicalFs) :=
  '(r, s) ← fs_stat p s;
  st ← match r with Ok st => Some st | Err _ => None end;
  if st_size st <=? 0 then None
  else
    '(r, s) ← fs_open to_lowercase p pid 0 0 s;
    fd ← match r with Ok fd => Some fd | Err _ => None end;
    '(r, s) ← fs_read fd pid 0 0 (Z.to_nat (st_size st)) s;
    bs ← match r with Ok bs => Some bs | Err _ => None end;
    '(r, s) ← fs_close fd pid s;
    _ ← match r with Ok _ => Some tt | Err _ => None end;
    if Z.of_nat (length bs) =? st_size st then Some (bs, s) else None.

(* process/loader.rs:68-82 load_path *)
Definition load_path `{X86Addr} {T : Type} `{TopLevel T} {D} {F : FatVolume D} (to_lowercase : path -> path) (tramp utramp base : Z) (kernel_l4 : Z -> bool)
    (t : T) (p : frame_pool) (m : memory) (c : counters) (k : kernel) (s : LogicalFs (D := D)) (file : path) (prio : Z)
    : option (Task * T * frame_pool * memory * counters * LogicalFs) :=
  pid ← current_pid k;
  '(bytes, s) ← read_program to_lowercase file pid s;
  r ← load_flat tramp utramp base kernel_l4 t p m c bytes prio;
  Some (r, s).

(** ** The loader *)

(** A page of the program, padded with zeros. *)
Definition page_of (bytes : list Z) (off : Z) : list Z :=
  let bs := take PAGE_BYTES (drop (Z.to_nat off) bytes) in bs ++ replicate (PAGE_BYTES - length bs) 0.

Lemma fill_page m a bs :
  (length bs <= PAGE_BYTES)%nat ->
  let m' := write_bytes (write_bytes m a (replicate PAGE_BYTES 0)) a bs in
  read_bytes m' a PAGE_BYTES = bs ++ replicate (PAGE_BYTES - length bs) 0 /\ same_outside a 4096 m m'.
Proof.
  intros Hb m'. split.
  - replace PAGE_BYTES with (length bs + (PAGE_BYTES - length bs))%nat at 1 by lia. rewrite read_bytes_app. unfold m'. rewrite read_write_bytes. f_equal.
    rewrite (read_bytes_ext (write_bytes m a (replicate PAGE_BYTES 0))) by (intros x Hx; apply get_write_bytes_out; lia).
    apply list_eq. intros i. destruct (decide (i < PAGE_BYTES - length bs)%nat) as [Hi|Hi].
    + rewrite read_bytes_lookup, lookup_replicate_2 by done. f_equal. replace (a + Z.of_nat (length bs) + Z.of_nat i) with (a + Z.of_nat (length bs + i)) by lia.
      apply get_write_bytes_in. apply lookup_replicate_2. lia.
    + rewrite !lookup_ge_None_2; [done|rewrite length_replicate; lia|rewrite read_bytes_length; lia].
  - intros x Hx. pose proof page_bytes_Z. unfold m'. rewrite get_write_bytes_out by lia. apply get_write_bytes_out. rewrite length_replicate. lia.
Qed.

Section LoaderFacts.
Context `{X86Addr} {T : Type} `{TopLevel T}.

Definition code_page (bytes : list Z) (off q : Z) : Prop := (4096 | q) /\ USER_CODE_BASE + off <= q < USER_CODE_BASE + Z.of_nat (length bytes).

(** Outside the frames of a list. *)
Definition clear_of (l : list Z) (x : Z) : Prop := forall f, f ∈ l -> x < PHYS_MEM_OFFSET + f \/ PHYS_MEM_OFFSET + f + 4096 <= x.

Lemma containing_code off : (4096 | off) -> containing_address (USER_CODE_BASE + off) = USER_CODE_BASE + off.
Proof. intros [k ->]. rewrite containing_address_spec. unfold USER_CODE_BASE. replace (4194304 + k * 4096) with ((1024 + k) * 4096) by lia. by rewrite Z.div_mul. Qed.

Lemma pool_at_apart p f l g : pool_at p (f :: l) -> g ∈ l -> g + 4096 <= f \/ f + 4096 <= g.
Proof.
  intros (Hl & _) Hg. pose proof (flr_nodup _ _ Hl) as Hnd. apply NoDup_cons in Hnd as [Hnin _]. pose proof (flr_frames _ _ Hl) as Hfr.
  apply Forall_cons in Hfr as [(Hfa & _) Hfr]. rewrite Forall_forall in Hfr. destruct (Hfr g Hg) as (Hga & _).
  destruct (frames_apart f g Hfa Hga); [by intros ->|by right|by left].
Qed.

(** A new space takes one frame, cleared, and has the kernel's mappings. *)
Lemma clone_kernel_half_spec kernel_l4 (t : T) p f l :
  pool_at p (f :: l) -> exists p1, clone_kernel_half kernel_l4 t p = Some (f, copy_l4 kernel_l4 t, p1) /\ pool_at p1 l.
Proof.
  intros Hp. destruct (pool_at_head _ _ _ Hp) as [_ Hfb]. unfold clone_kernel_half.
  destruct Hp as (Hl & Ho & Hfr). destruct (fl_allocate_spec p (f :: l) Hl) as (p1 & E1 & Hl1 & Hm1 & Ho1). change (allocate p) with (fl_allocate p). rewrite E1. cbn [mbind option_bind].
  rewrite uadd_window by lia. cbn [mbind option_bind]. eexists. split; [reflexivity|]. split; [|split; [cbn; congruence|by apply Forall_cons in Hfr as [_ ?]]].
  apply free_list_new_memory; [done|]. intros g x Hg Hx. rewrite Ho1, Ho in Hx. apply get_write_bytes_out.
  rewrite length_replicate, page_bytes_Z. destruct (pool_at_apart p f l g (conj Hl (conj Ho Hfr)) Hg); lia.
Qed.

Lemma load_pages_spec bytes fuel : forall off (t : T) p l,
  (4096 | off) -> 0 <= off -> Z.of_nat (length bytes) - off <= 4096 * Z.of_nat fuel -> USER_CODE_BASE + Z.of_nat (length bytes) + 4096 < 2 ^ 47 ->
  pool_at p l -> (4 * page_steps off (Z.of_nat (length bytes)) <= length l)%nat -> (forall q, code_page bytes off q -> entry t q = None) ->
  exists t' p' l', load_pages fuel bytes off t p = Some (t', p') /\ pool_at p' l' /\ l' `suffix_of` l /\
    (length l <= length l' + 4 * page_steps off (Z.of_nat (length bytes)))%nat /\
    (forall o, (4096 | o) -> off <= o < Z.of_nat (length bytes) ->
      exists f, f ∈ l /\ entry t' (USER_CODE_BASE + o) = Some (f, CODE_FLAGS) /\ read_bytes (p_mem p') (PHYS_MEM_OFFSET + f) PAGE_BYTES = page_of bytes o) /\
    (forall q, ~ code_page bytes off q -> entry t' q = entry t q) /\
    (forall x, clear_of l x -> get (p_mem p') x = get (p_mem p) x).
Proof.
  induction fuel as [|fuel IH]; intros off t p l Ha Hpos Hf Hend Hp Hn He; cbn [load_pages]; destruct (Z.ltb_spec off (Z.of_nat (length bytes))) as [Hlt|Hge]; try lia.
  1, 3: exists t, p, l; split_and!; done || lia || (intros o _ Ho; lia).
  rewrite page_steps_S in Hn by done. destruct l as [|f l]; [cbn in Hn; lia|]. destruct (pool_at_head _ _ _ Hp) as [_ Hfb].
  set (bs := take PAGE_BYTES (drop (Z.to_nat off) bytes)).
  assert (Hbs : take (Nat.min (length bytes - Z.to_nat off) PAGE_BYTES) (drop (Z.to_nat off) bytes) = bs).
  { unfold bs. destruct (Nat.min_spec (length bytes - Z.to_nat off) PAGE_BYTES) as [[? ->]|[? ->]]; [|done]. rewrite !take_ge; [done|rewrite length_drop; lia..]. }
  destruct (fill_page (p_mem p) (PHYS_MEM_OFFSET + f) bs) as [Hpage Hout]; [unfold bs; rewrite length_take; lia|]. cbv zeta in Hpage, Hout.
  set (m := write_bytes (write_bytes _ _ _) _ bs) in *.
  assert (Hq : entry t (USER_CODE_BASE + off) = None) by (apply He; split; [destruct Ha as [k ->]; exists (1024 + k); unfold USER_CODE_BASE; lia|lia]).
  destruct (fill_and_map_count t p f l m (USER_CODE_BASE + off) CODE_FLAGS Hp) as (p1 & t1 & p2 & l1 & E1 & Hm1 & Em & Hm2 & Hp2 & Hsuf & Hcnt & He1 & Ho1); [cbn in Hn; lia|done|done|].
  destruct (IH (off + 4096) t1 p2 l1) as (t' & p' & l' & El & Hp' & Hsuf' & Hcnt' & Hpages & Hoth & Hmem); [by apply Z.divide_add_r; [|exists 1]|lia|lia|done|done|cbn in Hn; lia| |].
  { intros q [Hqa Hqb]. rewrite Ho1 by lia. apply He. split; [done|lia]. }
  rewrite E1. cbn [mbind option_bind]. rewrite uadd_window by lia. cbn [mbind option_bind]. unfold uadd. rewrite (uchk_fits 64 (USER_CODE_BASE + off)) by (unfold fits, USER_CODE_BASE in *; lia). cbn [mbind option_bind].
  rewrite VirtAddr_new_low by (unfold USER_CODE_BASE in *; lia). cbn [mbind option_bind]. rewrite containing_code by done. rewrite Hm1, Hbs. fold m. rewrite Em. cbn [mbind option_bind].
  rewrite (uchk_fits 64 (off + PAGE_SIZE)) by (unfold fits, PAGE_SIZE, USER_CODE_BASE in *; lia). cbn [mbind option_bind]. change (off + PAGE_SIZE) with (off + 4096). rewrite El.
  assert (Hfl1 : f ∉ l1).
  { intros Hin. destruct Hp as (Hl & _). pose proof (flr_nodup _ _ Hl) as Hnd. apply NoDup_cons in Hnd as [Hnin _]. apply Hnin. destruct Hsuf as [k ->]. apply elem_of_app. by right. }
  assert (Hsub : forall g, g ∈ l1 -> g ∈ l) by (intros g Hg; destruct Hsuf as [k ->]; apply elem_of_app; by right).
  exists t', p', l'. split; [done|]. split; [done|]. split; [etransitivity; [exact Hsuf'|]; by apply suffix_cons_r|]. split; [rewrite page_steps_S by done; cbn [length]; lia|]. split; [|split].
  - intros o Hoa Hob. destruct (decide (o = off)) as [->|Hne].
    + exists f. split; [left|]. split; [rewrite Hoth; [done|intros [_ ?]; lia]|]. transitivity (read_bytes m (PHYS_MEM_OFFSET + f) PAGE_BYTES); [|exact Hpage].
      apply read_bytes_ext. intros x Hx. rewrite <- Hm2. apply Hmem. intros g Hg. pose proof page_bytes_Z. destruct (pool_at_apart p f l g Hp (Hsub g Hg)); lia.
    + assert (off + 4096 <= o) by (destruct Ha as [a ->], Hoa as [b ->]; lia). destruct (Hpages o Hoa) as (g & Hg & Heg & Hrg); [lia|]. exists g. split; [right; auto|]. done.
  - intros q Hq'. rewrite Hoth; [apply Ho1|].
    + intros ->. apply Hq'. split; [destruct Ha as [k ->]; exists (1024 + k); unfold USER_CODE_BASE; lia|lia].
    + intros [Hqa Hqb]. apply Hq'. split; [done|lia].
  - intros x Hx. rewrite Hmem by (intros g Hg; apply Hx; right; auto). rewrite Hm2. apply Hout. destruct (Hx f ltac:(left)); lia.
Qed.

(** What a new user task starts with. *)
Record fresh_user (c : counters) (prio : Z) (task : Task) : Prop := mkFreshUser {
  fu_ids : tid task = NEXT_TID c /\ pid task = NEXT_PID c;
  fu_run : state task = Ready /\ priority task = prio;
  fu_user : uid task = 0 /\ gid task = 0 /\ signals task = signals_new
}.

Lemma new_user_some tramp utramp base m c start ustack l4 v prio :
  0 < base < 2 ^ 63 ->
  exists task m' c', new_user tramp utramp base m c start ustack l4 v prio = Some (task, m', c') /\
    user_entry task = start /\ user_stack task = ustack /\ cr3 task = l4 /\ vmm task = v /\ fresh_user c prio task.
Proof.
  intros Hb. unfold new_user. destruct (kernel_stack_some tramp base m utramp Hb) as (m1 & top & m2 & r & -> & E). cbn [mbind option_bind]. rewrite E. eexists _, _, _. split; [reflexivity|]. by split_and!.
Qed.

Lemma page_of_lookup bytes o r : (r < PAGE_BYTES)%nat -> page_of bytes o !! r = Some (default 0 (bytes !! (Z.to_nat o + r)%nat)).
Proof.
  intros Hr. unfold page_of. set (bs := take _ _). destruct (decide (r < length bs)%nat) as [Hb|Hb].
  - rewrite lookup_app_l by done. unfold bs in *. rewrite length_take, length_drop in Hb. rewrite lookup_take_lt, lookup_drop by lia.
    destruct (lookup_lt_is_Some_2 bytes (Z.to_nat o + r)%nat) as [b ->]; [lia|done].
  - rewrite lookup_app_r, lookup_replicate_2 by lia. unfold bs in Hb. rewrite length_take, length_drop in Hb. by rewrite (lookup_ge_None_2 bytes) by lia.
Qed.

Lemma ldiff_page z : Z.ldiff z (4096 - 1) = z / 4096 * 4096.
Proof. change (4096 - 1) with (Z.ones 12). rewrite Z.ldiff_ones_r, Z.shiftl_mul_pow2, Z.shiftr_div_pow2 by lia. done. Qed.

(** Reading the new space through its table. *)
Lemma code_byte bytes (t : T) m a :
  (forall o, (4096 | o) -> 0 <= o < Z.of_nat (length bytes) ->
     exists f, entry t (USER_CODE_BASE + o) = Some (f, CODE_FLAGS) /\ read_bytes m (PHYS_MEM_OFFSET + f) PAGE_BYTES = page_of bytes o) ->
  USER_CODE_BASE <= a -> a / 4096 * 4096 < USER_CODE_BASE + Z.of_nat (length bytes) ->
  exists phys, translate t a = Some (phys, CODE_FLAGS) /\ get m (PHYS_MEM_OFFSET + phys) = default 0 (bytes !! Z.to_nat (a - USER_CODE_BASE)).
Proof.
  intros Hp Ha Hb. pose proof (Z.div_mod a 4096 ltac:(lia)) as Hdm. pose proof (Z.mod_pos_bound a 4096 ltac:(lia)) as Hm. unfold USER_CODE_BASE in *.
  destruct (Hp (a / 4096 * 4096 - 4194304)) as (f & He & Hr); [exists (a / 4096 - 1024); lia|lia|]. rewrite translate_spec.
  replace (4194304 + (a / 4096 * 4096 - 4194304)) with (a / 4096 * 4096) in He by lia. rewrite He. eexists. split; [reflexivity|]. cbn [fst].
  assert (Hlt : (Z.to_nat (a mod 4096) < PAGE_BYTES)%nat) by (pose proof page_bytes_Z; lia).
  pose proof (read_bytes_lookup m (PHYS_MEM_OFFSET + f) PAGE_BYTES _ Hlt) as Hg. rewrite Hr, page_of_lookup in Hg by done. injection Hg as Hg.
  rewrite Z2Nat.id in Hg by lia. rewrite Z.add_assoc, <- Hg. do 2 f_equal. lia.
Qed.

Lemma load_flat_spec tramp utramp base kernel_l4 (t : T) p l m c bytes prio :
  0 < base < 2 ^ 63 -> kernel_l4 0 = false -> USER_CODE_BASE + Z.of_nat (length bytes) + 4096 < 2 ^ 39 ->
  pool_at p l -> (1 + 4 * page_steps 0 (Z.of_nat (length bytes)) <= length l)%nat ->
  exists task child p' m' c' l', load_flat tramp utramp base kernel_l4 t p m c bytes prio = Some (task, child, p', m', c') /\
    (forall a, USER_CODE_BASE <= a < heap_start task ->
      exists phys, translate child a = Some (phys, CODE_FLAGS) /\ get (p_mem p') (PHYS_MEM_OFFSET + phys) = default 0 (bytes !! Z.to_nat (a - USER_CODE_BASE))) /\
    (forall q, ~ code_page bytes 0 q -> entry child q = if kernel_l4 (l4_index q) then entry t q else None) /\
    user_entry task = USER_CODE_BASE /\ user_stack task = USER_STACK_TOP /\ vmm task = mkVmm [mkArea STACK_BOTTOM USER_STACK_TOP 7 Anonymous] ∅ /\
    brk task = heap_start task /\ (4096 | heap_start task) /\
    USER_CODE_BASE + Z.of_nat (length bytes) <= heap_start task < USER_CODE_BASE + Z.of_nat (length bytes) + 4096 /\ heap_start task < STACK_BOTTOM /\
    pool_at p' l' /\ (length l <= length l' + (1 + 4 * page_steps 0 (Z.of_nat (length bytes))))%nat /\ fresh_user c prio task.
Proof.
  intros Hb Hk Hlen Hp Hn. destruct l as [|f l]; [cbn in Hn; lia|]. unfold load_flat. destruct (clone_kernel_half_spec kernel_l4 t p f l Hp) as (p1 & -> & Hp1). cbn [mbind option_bind].
  destruct (load_pages_spec bytes (length bytes) 0 (copy_l4 kernel_l4 t) p1 l) as (child & p' & l' & El & Hp' & _ & Hcnt & Hpages & Hoth & _);
    [by exists 0|lia|lia|lia|done|cbn in Hn; lia| |].
  { intros q [_ Hq]. rewrite copy_l4_entry. unfold l4_index. rewrite (Z.div_small q) by (unfold USER_CODE_BASE in *; lia). by rewrite Z.mod_0_l, Hk by lia. }
  rewrite El. cbn [mbind option_bind]. unfold uadd, usub, PAGE_SIZE, USER_CODE_BASE in *. set (n := Z.of_nat (length bytes)) in *.
  rewrite (uchk_fits 64 (4194304 + n)) by (unfold fits; lia). cbn [mbind option_bind]. rewrite (uchk_fits 64 (4194304 + n + 4096)) by (unfold fits; lia). cbn [mbind option_bind].
  rewrite (uchk_fits 64 (4194304 + n + 4096 - 1)) by (unfold fits; lia). cbn [mbind option_bind]. rewrite ldiff_page.
  set (hs := (4194304 + n + 4096 - 1) / 4096 * 4096).
  destruct (new_user_some tramp utramp base m c 4194304 USER_STACK_TOP f (add_area vmm_new (mkArea (USER_STACK_TOP - USER_STACK_SIZE) USER_STACK_TOP 7 Anonymous)) prio Hb)
    as (task & m' & c' & -> & Hen & Hst & _ & Hv & Hfresh). cbn [mbind option_bind]. eexists _, child, p', m', c', l'. split; [reflexivity|].
  cbn [with_space heap_start brk user_entry user_stack vmm]. pose proof (Z.div_mod (4194304 + n + 4096 - 1) 4096 ltac:(lia)) as Hdm. pose proof (Z.mod_pos_bound (4194304 + n + 4096 - 1) 4096 ltac:(lia)) as Hmd.
  assert (Hhs : 4194304 + n <= hs < 4194304 + n + 4096) by (unfold hs; lia). split.
  { intros a Ha. apply (code_byte bytes child (p_mem p') a).
    - intros o Hoa Hob. destruct (Hpages o Hoa Hob) as (g & _ & Hg). by exists g.
    - unfold USER_CODE_BASE. lia.
    - unfold USER_CODE_BASE. fold n. assert (hs = (4194304 + n + 4096 - 1) / 4096 * 4096) by done. pose proof (Z.div_mod a 4096 ltac:(lia)). pose proof (Z.mod_pos_bound a 4096 ltac:(lia)). lia. }
  split; [intros q Hq; by rewrite Hoth, copy_l4_entry|]. split; [done|]. split; [done|]. split; [done|]. split; [done|]. split; [by exists ((4194304 + n + 4096 - 1) / 4096)|].
  split; [done|]. split; [unfold STACK_BOTTOM, USER_STACK_TOP, USER_STACK_SIZE; lia|]. split; [done|]. split; [cbn [length]; fold n in Hcnt; lia|]. by destruct Hfresh; split.
Qed.
(** C21. A loaded program is what its task runs: given enough frames, and a
    kernel that does not use the part of the address space where programs go,
    loading succeeds; in the new address space every byte of the program is at
    its place, mapped for user code and not writable, the rest of its last page
    is zero, the kernel's mappings are those of the loader's space and nothing
    else is mapped; the task starts at the program's base with the stack area
    below the top of the user half, and its heap starts empty at the first page
    after the program, below the stack. *)
Theorem program_loaded tramp utramp base kernel_l4 (t : T) p l m c bytes prio :
  0 < base < 2 ^ 63 -> kernel_l4 0 = false -> USER_CODE_BASE + Z.of_nat (length bytes) + 4096 < 2 ^ 39 ->
  pool_at p l -> (1 + 4 * page_steps 0 (Z.of_nat (length bytes)) <= length l)%nat ->
  exists task child p' m' c', load_flat tramp utramp base kernel_l4 t p m c bytes prio = Some (task, child, p', m', c') /\
    (forall a, USER_CODE_BASE <= a < heap_start task ->
      exists phys, translate child a = Some (phys, CODE_FLAGS) /\ get (p_mem p') (PHYS_MEM_OFFSET + phys) = default 0 (bytes !! Z.to_nat (a - USER_CODE_BASE))) /\
    (forall q, ~ code_page bytes 0 q -> entry child q = if kernel_l4 (l4_index q) then entry t q else None) /\
    user_entry task = USER_CODE_BASE /\ user_stack task = USER_STACK_TOP /\ vmm task = mkVmm [mkArea STACK_BOTTOM USER_STACK_TOP 7 Anonymous] ∅ /\
    brk task = heap_start task /\ (4096 | heap_start task) /\
    USER_CODE_BASE + Z.of_nat (length bytes) <= heap_start task < USER_CODE_BASE + Z.of_nat (length bytes) + 4096 /\ heap_start task < STACK_BOTTOM.
Proof.
  intros Hb Hk Hlen Hp Hn. destruct (load_flat_spec tramp utramp base kernel_l4 t p l m c bytes prio Hb Hk Hlen Hp Hn) as (task & child & p' & m' & c' & l' & E & Q1 & Q2 & Q3 & Q4 & Q5 & Q6 & Q7 & Q8 & Q9 & _).
  exists task, child, p', m', c'. by split_and!; try apply Q8.
Qed.
End LoaderFacts.

(** A program file of at most a sector, closed, is read whole. *)
Lemma read_program_spec {D} {F : FatVolume D} {L : FatLaws D} {G : FatGrowth D} to_lowercase (s : LogicalFs (D := D)) p fp pid d c :
  closed_path to_lowercase s p fp pid -> disk s = Some d -> files d fp = Some c -> (0 < length c <= 512)%nat ->
  exists s', read_program to_lowercase p pid s = Some (c, s') /\ fcbs s' = fcbs s /\ auth s' = auth s /\ disk s' = disk s.
Proof.
  intros Hcp Hd Hc Hlen. pose proof Hcp as [Hfcb _ Hfp _]. unfold read_program.
  assert (Est : exists st, fs_stat p s = Some (Ok st, s) /\ st_size st = Z.of_nat (length c)).
  { unfold fs_stat, disk_mut, kbind, kget, or_err, klift, kret. rewrite Hfp. cbn. rewrite Hd. cbn. rewrite (proj2 (law_open d fp)) by (rewrite Hc; eauto). cbn.
    rewrite (law_size d fp c Hc). cbn. destruct (perms s !! p); by eexists. }
  destruct Est as (st & -> & Hst). cbn [mbind option_bind]. rewrite Hst, (proj2 (Z.leb_gt _ 0)) by lia. rewrite (fs_open_fresh to_lowercase s p fp pid d c Hcp Hd Hc). cbn [mbind option_bind].
  destruct (fs_read_sector (claimed s p pid) (next_fd (table_for (fds s) pid)) pid p fp (mkFcb p 0 1 false (Some pid) false) c (Z.to_nat (Z.of_nat (length c))) d) as (f' & Hf' & ->);
    [apply opened_claimed|done|cbn; apply lookup_insert_eq|done|done|cbn; lia|cbn [f_cursor]; rewrite Z.mod_0_l by lia; lia|lia|]. cbn [mbind option_bind].
  erewrite fs_close_spec; [|unfold opened; cbn [fds]; rewrite table_for_insert, decide_True by done; apply opened_claimed|cbn; apply lookup_insert_eq|exact Hf']. cbn [mbind option_bind f_cursor].
  change (Z.to_nat 0) with 0%nat. rewrite Nat2Z.id, drop_0, firstn_all, Z.eqb_refl. eexists. split; [reflexivity|]. cbn. split_and!; [|done|done].
  by rewrite insert_insert_eq, delete_insert_id.
Qed.

Lemma program_loaded_witness :
  exists task child p' m' c', load_flat (T := gmap Z (Z * Z)) 0x5000 0x6000 0x40000 (record_kernel_l4_entries ∅) ∅ sample_frames ∅ (mkCounters 1 1) [0xEB; 0xFE] 3 = Some (task, child, p', m', c') /\
    user_entry task = USER_CODE_BASE /\ brk task = heap_start task.
Proof.
  destruct (program_loaded 0x5000 0x6000 0x40000 (record_kernel_l4_entries (∅ : gmap Z (Z * Z))) ∅ sample_frames [0x5000; 0x4000; 0x3000; 0x2000; 0x1000] ∅ (mkCounters 1 1) [0xEB; 0xFE] 3) as (task & child & p' & m' & c' & E & _ & _ & H1 & _ & _ & H2 & _);
    [lia|reflexivity|reflexivity|exact sample_frames_pool|vm_compute; lia|].
  exists task, child, p', m', c'. exact (conj E (conj H1 H2)).
Defined.

(** A read that stops short of the end of the file, which the volume may do at
    any cluster boundary, is a panic of the loader: here a program of 513
    bytes on a volume that reads at most 512 at a time. *)
Lemma long_program_panics :
  read_program id [47; 112] 1 (mount_disk fs_new (mkVolume {[ [112] := replicate 513 0x90 ]} ∅)) = None.
Proof. vm_compute. reflexivity. Qed.
