(* ===== verification/Sync.v ===== *)
(** Synchronisation ([kernel/src/sync]): atomics, spinlocks with the preemption
    counter, condition variables, monitors, and the mutex with condition
    variable that user tasks reach by a handle.

    The operations that wake or block tasks act on the [kernel] of the
    scheduler.  An operation that gives up the processor is split at the
    switch: what the task does until then is one definition, what it does when
    it runs again is the next iteration. *)

From S2P Require Import Prelude X86 Task Sched.

(** ** Atomics *)

(* sync/atomic.rs:19-21 store *)
Definition atomic_store (a v : Z) : Z := v.
(** Fetch operations give the old value and wrap around. *)
(* sync/atomic.rs:23-25 fetch_add *)
Definition fetch_add (a v : Z) : Z * Z := (a, wrap 64 (a + v)).
(* sync/atomic.rs:28-30 fetch_sub *)
Definition fetch_sub (a v : Z) : Z * Z := (a, wrap 64 (a - v)).
(* sync/atomic.rs:32-34 increment *)
Definition increment (a : Z) : Z := snd (fetch_add a 1).
(* sync/atomic.rs:37-39 decrement *)
Definition decrement (a : Z) : Z := snd (fetch_sub a 1).
(* sync/atomic.rs:42-44 compare_exchange *)
Definition compare_exchange (a expected new : Z) : result Z Z * Z :=
  if a =? expected then (Ok a, new) else (Err a, a).

(** ** Spinlocks *)

(** The preemption counter is a 32-bit atomic, which wraps around. *)
Definition set_preempt (k : kernel) (n : Z) : kernel := mkKernel (k_tasks k) (k_table k) (k_sched k) n (k_rsp0 k) (k_ticks k).
(* process/task.rs:238-240 preempt_disable *)
Definition preempt_disable (k : kernel) : kernel := set_preempt k (wrap 32 (k_preempt k + 1)).
(* process/task.rs:242-244 preempt_enable *)
Definition preempt_enable (k : kernel) : kernel := set_preempt k (wrap 32 (k_preempt k - 1)).

(* sync/spinlock.rs:19-22 Spinlock *)
Record Spinlock (A : Type) := mkSpinlock { sl_locked : bool; sl_data : A }.
Arguments mkSpinlock {A}. Arguments sl_locked {A}. Arguments sl_data {A}.

(* sync/spinlock.rs:36-41 new *)
Definition spinlock_new {A} (a : A) : Spinlock A := mkSpinlock false a.

(* sync/spinlock.rs:54-61 try_lock *)
Definition spin_try_lock {A} (k : kernel) (l : Spinlock A) : option (kernel * Spinlock A) :=
  if sl_locked l then None else Some (preempt_disable k, mkSpinlock true (sl_data l)).

(** One turn of the loop of [lock]: whether the lock was free, and it taken. *)
(* sync/spinlock.rs:46-48 lock *)
Definition spin_cas {A} (l : Spinlock A) : bool * Spinlock A := if sl_locked l then (false, l) else (true, mkSpinlock true (sl_data l)).

(** The loop of [lock], for at most [fuel] turns, and then [preempt_disable];
    [None] while it still spins.  Nothing else runs on the one processor while
    a system call, with interrupts masked, spins or stands between the two: the
    lock is the same in every turn.  A kernel task runs with interrupts on and
    can be switched out between the two; it takes [spin_cas] and
    [preempt_disable] as steps of their own ([ping_pong_task]). *)
(* sync/spinlock.rs:45-51 lock *)
Fixpoint spin_lock {A} (fuel : nat) (k : kernel) (l : Spinlock A) : option (kernel * Spinlock A) :=
  match fuel with
  | O => None
  | S fuel => if sl_locked l then spin_lock fuel k l else Some (preempt_disable k, mkSpinlock true (sl_data l))
  end.

(* sync/spinlock.rs:101-106 drop *)
Definition spin_unlock {A} (k : kernel) (l : Spinlock A) : kernel * Spinlock A := (preempt_enable k, mkSpinlock false (sl_data l)).

(** ** Condition variables *)

(** A condition variable is the queue of the tasks waiting for it. *)
(* sync/condvar.rs:9-11 CondVar *)
Record CondVar := mkCondVar { cv_waiters : list Z }.

(* sync/condvar.rs:14-16 new *)
Definition condvar_new : CondVar := mkCondVar [].

(** [wait] until the guard is dropped: the caller is queued and marked
    blocked. *)
(* sync/condvar.rs:19-30 wait *)
Definition condvar_park {A} (k : kernel) (c : CondVar) (guarded : Spinlock A) : option (kernel * CondVar * Spinlock A) :=
  id ← current_tid k;
  let c := mkCondVar (cv_waiters c ++ [id]) in
  k ← mark_blocked k id;
  let '(k, guarded) := spin_unlock k guarded in
  Some (k, c, guarded).

(** [wait] up to the switch: then the scheduler is called.  When the task runs
    again it takes the lock of the guard. *)
(* sync/condvar.rs:18-34 wait *)
Definition condvar_wait {A} (k : kernel) (c : CondVar) (guarded : Spinlock A) : option (kernel * CondVar * Spinlock A * option (Z * Z)) :=
  '(k, c, guarded) ← condvar_park k c guarded;
  '(k, sw) ← schedule k;
  Some (k, c, guarded, sw).

(* sync/condvar.rs:36-40 signal *)
Definition condvar_signal (k : kernel) (c : CondVar) : option (kernel * CondVar) :=
  match cv_waiters c with
  | id :: ws => k ← unblock_tid k id; Some (k, mkCondVar ws)
  | [] => Some (k, c)
  end.

Fixpoint unblock_all (k : kernel) (ids : list Z) : option kernel :=
  match ids with
  | [] => Some k
  | id :: ids => k ← unblock_tid k id; unblock_all k ids
  end.

(* sync/condvar.rs:42-47 broadcast *)
Definition condvar_broadcast (k : kernel) (c : CondVar) : option (kernel * CondVar) :=
  k ← unblock_all k (cv_waiters c);
  Some (k, mkCondVar []).

(** ** Monitors *)

(* sync/monitor.rs:5-8 Monitor *)
Record Monitor (A : Type) := mkMonitor { mon_lock : Spinlock A; mon_cond : CondVar }.
Arguments mkMonitor {A}. Arguments mon_lock {A}. Arguments mon_cond {A}.

(* sync/monitor.rs:12-17 new *)
Definition monitor_new {A} (a : A) : Monitor A := mkMonitor (spinlock_new a) condvar_new.
(* sync/monitor.rs:19-21 lock *)
Definition monitor_lock {A} (fuel : nat) (k : kernel) (m : Monitor A) : option (kernel * Monitor A) :=
  '(k, l) ← spin_lock fuel k (mon_lock m); Some (k, mkMonitor l (mon_cond m)).
(* sync/monitor.rs:24-26 try_lock *)
Definition monitor_try_lock {A} (k : kernel) (m : Monitor A) : option (kernel * Monitor A) :=
  '(k, l) ← spin_try_lock k (mon_lock m); Some (k, mkMonitor l (mon_cond m)).
(* sync/monitor.rs:28-30 wait *)
Definition monitor_wait {A} (k : kernel) (m : Monitor A) : option (kernel * Monitor A * option (Z * Z)) :=
  '(k, c, l, sw) ← condvar_wait k (mon_cond m) (mon_lock m); Some (k, mkMonitor l c, sw).
(* sync/monitor.rs:33-35 signal *)
Definition monitor_signal {A} (k : kernel) (m : Monitor A) : option (kernel * Monitor A) :=
  '(k, c) ← condvar_signal k (mon_cond m); Some (k, mkMonitor (mon_lock m) c).
(* sync/monitor.rs:37-39 broadcast *)
Definition monitor_broadcast {A} (k : kernel) (m : Monitor A) : option (kernel * Monitor A) :=
  '(k, c) ← condvar_broadcast k (mon_cond m); Some (k, mkMonitor (mon_lock m) c).

(** ** The user-visible mutex *)

(** The flag and the waiters of [MutexState], and the waiters of the condition
    variable.  The inner spinlocks are held only within an operation. *)
(* sync/resource.rs:25-33 QueuedResource *)
Record QueuedResource := mkResource { r_locked : bool; r_waiters : list Z; r_cond_waiters : list Z }.

(* sync/resource.rs:36-41 new *)
Definition resource_new : QueuedResource := mkResource false [] [].

(** One turn of the loop of [lock]: acquired, or queued and switched out. *)
(* sync/resource.rs:45-66 lock *)
Definition resource_lock_iter (k : kernel) (r : QueuedResource) : option (bool * kernel * QueuedResource) :=
  id ← current_tid k;
  if r_locked r then
    let r := mkResource true (r_waiters r ++ [id]) (r_cond_waiters r) in
    k ← mark_blocked k id;
    '(k, _) ← schedule k;
    Some (false, k, r)
  else Some (true, k, mkResource true (r_waiters r) (r_cond_waiters r)).

(* sync/resource.rs:68-76 try_lock *)
Definition resource_try_lock (r : QueuedResource) : bool * QueuedResource :=
  if r_locked r then (false, r) else (true, mkResource true (r_waiters r) (r_cond_waiters r)).

(* sync/resource.rs:78-88 unlock *)
Definition resource_unlock (k : kernel) (r : QueuedResource) : option (kernel * QueuedResource) :=
  match r_waiters r with
  | id :: ws => k ← unblock_tid k id; Some (k, mkResource false ws (r_cond_waiters r))
  | [] => Some (k, mkResource false [] (r_cond_waiters r))
  end.

(** [wait] up to the switch; when the task runs again it calls [lock]. *)
(* sync/resource.rs:90-101 wait *)
Definition resource_wait (k : kernel) (r : QueuedResource) : option (kernel * QueuedResource) :=
  id ← current_tid k;
  let r := mkResource (r_locked r) (r_waiters r) (r_cond_waiters r ++ [id]) in
  k ← mark_blocked k id;
  '(k, r) ← resource_unlock k r;
  '(k, _) ← schedule k;
  Some (k, r).

(* sync/resource.rs:103-107 signal *)
Definition resource_signal (k : kernel) (r : QueuedResource) : option (kernel * QueuedResource) :=
  match r_cond_waiters r with
  | id :: ws => k ← unblock_tid k id; Some (k, mkResource (r_locked r) (r_waiters r) ws)
  | [] => Some (k, r)
  end.

(* sync/resource.rs:109-116 broadcast *)
Definition resource_broadcast (k : kernel) (r : QueuedResource) : option (kernel * QueuedResource) :=
  k ← unblock_all k (r_cond_waiters r);
  Some (k, mkResource (r_locked r) (r_waiters r) []).

(** ** Handles *)

(** [next_handle] and the map; an entry is the resource itself, since every
    holder of a handle reaches the same one. *)
(* sync/resource_table.rs:7-10 ResourceTable *)
Record ResourceTable := mkResourceTable { rt_next : Z; rt_map : gmap Z QueuedResource }.

(* sync/resource_table.rs:13-18 new *)
Definition resource_table_new : ResourceTable := mkResourceTable 0 ∅.

(* sync/resource_table.rs:20-25 insert *)
Definition resource_insert (t : ResourceTable) (r : QueuedResource) : option (Z * ResourceTable) :=
  n ← uadd 64 (rt_next t) 1;
  Some (rt_next t, mkResourceTable n (<[rt_next t := r]> (rt_map t))).
(* sync/resource_table.rs:27-29 get *)
Definition resource_get (t : ResourceTable) (h : Z) : option QueuedResource := rt_map t !! h.
(* sync/resource_table.rs:32-34 remove *)
Definition resource_remove (t : ResourceTable) (h : Z) : ResourceTable := mkResourceTable (rt_next t) (delete h (rt_map t)).

(** ** Mutual exclusion *)

(** What happens to the kernel and one mutex: operations of the running task on
    the mutex, and any other step of the system. *)
Inductive mop := MLock | MTryLock | MUnlock | MSignal | MBroadcast | MSys (op : kop).

(** The kernel, the mutex and the tasks that acquired it and did not release it. *)
Record mstate := mkM { m_kernel : kernel; m_res : QueuedResource; m_holders : list Z }.

Definition mstep (s : mstate) (op : mop) : option mstate :=
  let k := m_kernel s in
  id ← current_tid k;
  match op with
  | MLock => '(got, k, r) ← resource_lock_iter k (m_res s); Some (mkM k r (if got : bool then id :: m_holders s else m_holders s))
  | MTryLock => let '(got, r) := resource_try_lock (m_res s) in Some (mkM k r (if got : bool then id :: m_holders s else m_holders s))
  | MUnlock => '(k, r) ← resource_unlock k (m_res s); Some (mkM k r (List.remove Z.eq_dec id (m_holders s)))
  | MSignal => '(k, r) ← resource_signal k (m_res s); Some (mkM k r (m_holders s))
  | MBroadcast => '(k, r) ← resource_broadcast k (m_res s); Some (mkM k r (m_holders s))
  | MSys op => k ← kstep k op; Some (mkM k (m_res s) (m_holders s))
  end.

(** The contract of the callers: only a holder unlocks, and the idle task does
    not block. *)
Definition mop_ok (idle : Z) (s : mstate) (op : mop) : Prop :=
  match op with
  | MLock => current (k_sched (m_kernel s)) <> Some idle
  | MUnlock => exists id, current_tid (m_kernel s) = Some id /\ id ∈ m_holders s
  | MSys op => op_ok idle (m_kernel s) op
  | _ => True
  end.

Record mutex_ok (idle : Z) (s : mstate) : Prop := mkMutexOk {
  mx_kernel : kernel_ok idle (m_kernel s);
  mx_one : (length (m_holders s) <= 1)%nat;
  mx_locked : r_locked (m_res s) = true <-> m_holders s <> []
}.

Inductive mreach (idle : Z) (k0 : kernel) : mstate -> Prop :=
| mreach_new : mreach idle k0 (mkM k0 resource_new [])
| mreach_step op s s' : mreach idle k0 s -> mop_ok idle s op -> mstep s op = Some s' -> mreach idle k0 s'.

(** Waking tasks while the caller runs. *)
Lemma wake_ok idle k id : kernel_ok idle k -> exists k', unblock_tid k id = Some k' /\ kernel_ok idle k'.
Proof.
  intros Hok. pose proof Hok as [Hpre (c & t & Hc & Ht & Hs)]. destruct (unblock_ok idle k id Hpre) as (k' & E & Hpre' & Hc' & Hkeep & _).
  { intros c' t' Hc' Ht'. rewrite Hc in Hc'. injection Hc' as <-. congruence. }
  exists k'. split; [done|]. split; [done|]. exists c, t. split_and!; [congruence|apply Hkeep; [done|congruence]|done].
Qed.

Lemma unblock_all_ok idle ids : forall k, kernel_ok idle k -> exists k', unblock_all k ids = Some k' /\ kernel_ok idle k'.
Proof.
  induction ids as [|id ids IH]; intros k Hok; cbn [unblock_all]; [by exists k|]. destruct (wake_ok idle k id Hok) as (k1 & -> & Hok1). by apply IH.
Qed.

(** Marking the running task blocked and scheduling. *)
Lemma block_schedule_ok idle k id :
  kernel_ok idle k -> current (k_sched k) <> Some idle -> current_tid k = Some id ->
  exists k1 k' sw, mark_blocked k id = Some k1 /\ schedule k1 = Some (k', sw) /\ kernel_ok idle k'.
Proof.
  intros Hok Hi Hid. destruct (current_tid_ok idle k Hok) as (c & t & Hc & Ht & _ & Hct & _). rewrite Hct in Hid. injection Hid as <-.
  destruct (block_ok idle k c t Hok Hc Ht) as (k1 & E1 & Hpre); [congruence|]. destruct (schedule_ok idle k1 Hpre) as (k' & sw & E2 & Hok'). by exists k1, k', sw.
Qed.

Lemma mstep_ok idle s op : mutex_ok idle s -> mop_ok idle s op -> exists s', mstep s op = Some s' /\ mutex_ok idle s'.
Proof.
  intros [Hk H1 Hl] Hop. destruct (current_tid_ok idle _ Hk) as (c & t & Hc & Ht & _ & Hct & _). unfold mstep. rewrite Hct. cbn [mbind option_bind].
  destruct op as [| | | | |op]; cbn [mop_ok] in Hop.
  - unfold resource_lock_iter. rewrite Hct. cbn [mbind option_bind]. destruct (r_locked (m_res s)) eqn:E.
    + destruct (block_schedule_ok idle _ _ Hk Hop Hct) as (k1 & k' & sw & -> & E2 & Hok'). cbn [mbind option_bind]. rewrite E2. eexists. split; [reflexivity|]. split; [done|done|]. cbn. by rewrite <- Hl.
    + eexists. split; [reflexivity|]. destruct (m_holders s) as [|x hs] eqn:Eh; [|exfalso; by assert (false = true) by by apply Hl]. by split.
  - unfold resource_try_lock. destruct (r_locked (m_res s)) eqn:E; (eexists; split; [reflexivity|]).
    + split; [done|done|]. cbn. by rewrite E.
    + destruct (m_holders s) as [|x hs] eqn:Eh; [|exfalso; by assert (false = true) by by apply Hl]. by split.
  - destruct Hop as (id & Hid & Hin). rewrite Hct in Hid. injection Hid as <-.
    assert (Hh : m_holders s = [tid t]).
    { destruct (m_holders s) as [|x [|y hs]]; [by apply not_elem_of_nil in Hin|by apply list_elem_of_singleton in Hin as ->|cbn in H1; lia]. }
    rewrite Hh. cbn [List.remove]. destruct (Z.eq_dec (tid t) (tid t)) as [_|]; [|done]. unfold resource_unlock. destruct (r_waiters (m_res s)) as [|id ws].
    + eexists. split; [reflexivity|]. split; [done|cbn; lia|done].
    + destruct (wake_ok idle _ id Hk) as (k' & -> & Hk'). eexists. split; [reflexivity|]. split; [done|cbn; lia|done].
  - unfold resource_signal. destruct (r_cond_waiters (m_res s)) as [|id ws]; [by exists s; destruct s|].
    destruct (wake_ok idle _ id Hk) as (k' & -> & Hk'). eexists. split; [reflexivity|]. by split.
  - unfold resource_broadcast. destruct (unblock_all_ok idle (r_cond_waiters (m_res s)) _ Hk) as (k' & -> & Hk'). eexists. split; [reflexivity|]. by split.
  - destruct (kstep_ok idle _ op Hk Hop) as (k' & -> & Hk'). eexists. split; [reflexivity|]. by split.
Qed.

Lemma mreach_ok idle k0 s : kernel_ok idle k0 -> mreach idle k0 s -> mutex_ok idle s.
Proof.
  intros Hk. induction 1 as [|op s s' _ IH Hop Hs]; [split; [done|cbn; lia|done]|]. destruct (mstep_ok idle s op IH Hop) as (s1 & E & Hok). congruence.
Qed.

(** C14. The mutex excludes: from a new mutex, through any interleaving of lock
    turns, attempts, unlocks by holders, signals and other steps of the system
    by whichever task is running, at most one task holds the mutex, the flag is
    set exactly when one does, an attempt succeeds exactly when none does, and
    no such step panics. *)
Theorem mutex_mutual_exclusion idle k0 s :
  kernel_ok idle k0 -> mreach idle k0 s ->
  (length (m_holders s) <= 1)%nat /\
  (r_locked (m_res s) = true <-> exists id, m_holders s = [id]) /\
  (forall op, mop_ok idle s op -> exists s', mstep s op = Some s' /\ (length (m_holders s') <= 1)%nat) /\
  (forall k r, resource_lock_iter (m_kernel s) (m_res s) = Some (true, k, r) <->
    m_holders s = [] /\ k = m_kernel s /\ r = mkResource true (r_waiters (m_res s)) (r_cond_waiters (m_res s))).
Proof.
  intros Hk Hr. pose proof (mreach_ok idle k0 s Hk Hr) as Hok. pose proof Hok as [Hk' H1 Hl]. split_and!.
  - done.
  - rewrite Hl. destruct (m_holders s) as [|x [|y hs]]; [by split; [|intros [? ?]]|by split; [exists x|]|cbn in H1; lia].
  - intros op Hop. destruct (mstep_ok idle s op Hok Hop) as (s' & E & Hok'). exists s'. split; [done|]. by apply (mx_one idle).
  - intros k r. destruct (current_tid_ok idle _ Hk') as (c & t & _ & _ & _ & Hct & _). unfold resource_lock_iter. rewrite Hct. cbn [mbind option_bind].
    destruct (r_locked (m_res s)) eqn:E.
    + assert (m_holders s <> []) as Hn by by apply Hl. split; [|by intros [? _]]. intros H. apply bind_Some in H as (k1 & _ & H). by apply bind_Some in H as ([k2 sw] & _ & H).
    + destruct (m_holders s) as [|x hs]; [|exfalso; by assert (false = true) by by apply Hl]. split; [by intros [= <- <-]|by intros (_ & -> & ->)].
Qed.

(** ** Runs *)

(** Runs a list of steps, checking the contract of each; task creation is not
    among the steps checked. *)
Definition mop_okb (idle : Z) (s : mstate) (op : mop) : bool :=
  match op with
  | MLock => negb (bool_decide (current (k_sched (m_kernel s)) = Some idle))
  | MUnlock => match current_tid (m_kernel s) with Some id => bool_decide (id ∈ m_holders s) | None => false end
  | MSys OTimer => total_ticks (k_sched (m_kernel s)) + 1 <? 2 ^ 32
  | MSys _ => false
  | _ => true
  end.

Fixpoint mrun (idle : Z) (ops : list mop) (s : mstate) : option mstate :=
  match ops with
  | [] => Some s
  | op :: ops => if mop_okb idle s op then mstep s op ≫= mrun idle ops else None
  end.

Lemma mop_okb_ok idle s op : mop_okb idle s op = true -> mop_ok idle s op.
Proof.
  destruct op as [| | | | |[| | | | | | |]]; cbn; try done.
  - intros H. apply negb_true_iff in H. by apply bool_decide_eq_false in H.
  - destruct (current_tid (m_kernel s)) as [id|]; [|done]. intros H. exists id. split; [done|]. by apply bool_decide_eq_true in H.
  - lia.
Qed.

Lemma mrun_reach idle k0 ops : forall s s', mreach idle k0 s -> mrun idle ops s = Some s' -> mreach idle k0 s'.
Proof.
  induction ops as [|op ops IH]; intros s s' Hr H; cbn [mrun] in H; [congruence|]. destruct (mop_okb idle s op) eqn:Eo; [|done].
  apply bind_Some in H as (s1 & Hs & H). eapply IH; [|exact H]. eapply mreach_step; [exact Hr|by apply mop_okb_ok|exact Hs].
Qed.

(** Waiting on the condition variable corrupts the run queues: a task whose
    own identifier is still queued in the mutex, from an earlier turn of its
    lock loop, wakes itself when it releases the mutex in [wait]; it goes on
    running, with nobody having signalled it, and is at the same time in a run
    queue. *)
Theorem condvar_wait_requeues_running_task idle k0 s c t ws :
  kernel_ok idle k0 -> mreach idle k0 s ->
  current (k_sched (m_kernel s)) = Some c -> k_tasks (m_kernel s) !! c = Some t -> m_holders s = [tid t] ->
  r_waiters (m_res s) = tid t :: ws -> needs_reschedule (k_sched (m_kernel s)) = false ->
  exists k r, resource_wait (m_kernel s) (m_res s) = Some (k, r) /\
    current (k_sched k) = Some c /\ c ∈ concat (queues (k_sched k)) /\ ~ kernel_ok idle k /\
    r_locked r = false /\ r_cond_waiters r = r_cond_waiters (m_res s) ++ [tid t].
Proof.
  intros Hk0 Hr Hc Ht Hh Hw Hn. destruct (mreach_ok idle k0 s Hk0 Hr) as [Hk _ _]. destruct (current_tid_ok idle _ Hk) as (c' & t' & Hc' & Ht' & _ & Hct & Htb & _ & Hp).
  rewrite Hc in Hc'. injection Hc' as <-. rewrite Ht in Ht'. injection Ht' as <-. pose proof Hk as [[H1 _ _ _ H5 _] _].
  unfold resource_wait. rewrite Hct. cbn [mbind option_bind]. unfold mark_blocked. rewrite Htb, Ht. cbn [mbind option_bind].
  unfold resource_unlock. cbn [r_waiters r_cond_waiters]. rewrite Hw. unfold unblock_tid. cbn [set_tasks k_table k_tasks k_sched]. rewrite Htb, lookup_insert_eq. cbn [mbind option_bind with_state with_run state].
  unfold push. rewrite lookup_insert_eq. cbn [mbind option_bind priority with_state with_run].
  rewrite (proj2 (Z.ltb_lt (priority t) (Z.of_nat NUM_QUEUES))) by (unfold NUM_QUEUES; lia). cbn [mbind option_bind].
  unfold schedule. cbn [set_sched set_tasks k_preempt k_tasks k_sched]. rewrite H5. cbn [Z.ltb Z.compare].
  unfold should_reschedule. cbn [current]. rewrite Hc, lookup_insert_eq. cbn [mbind option_bind state with_state with_run].
  unfold prepare_switch. cbn [needs_reschedule]. rewrite Hn. cbn [negb mbind option_bind].
  eexists _, _. split; [reflexivity|]. cbn [set_sched k_sched current queues r_locked r_cond_waiters].
  assert (Hin : c ∈ concat (push_back (queues (k_sched (m_kernel s))) (Z.to_nat (priority t)) c)).
  { rewrite concat_push_back by (rewrite (ok_len _ _ H1); unfold NUM_QUEUES; lia). left. }
  split_and!; [done|exact Hin| |done|done]. intros [[[_ Hnd _ _ _] _ _ _ _ _] _]. unfold runnable in Hnd. cbn [set_sched k_sched current queues option_list] in Hnd. cbn in Hnd. apply NoDup_cons in Hnd as [Hnd _]. by apply Hnd.
Qed.

(** *** A sample run *)

(** Task 2 runs, task 1 is ready, task 3 idles. *)
Definition busy_task (id : Z) (st : TaskState) (p : Z) : Task := with_run (sample_task id 0) st p None.
Definition busy_kernel : kernel :=
  mkKernel (<[0x100 := busy_task 1 Ready 0]> (<[0x200 := busy_task 2 Running 0]> {[0x300 := busy_task 3 Ready 7]}))
    (<[1 := 0x100]> (<[2 := 0x200]> {[3 := 0x300]})) (mkSched [[0x100]; []; []; []; []; []; []; [0x300]] (Some 0x200) 1 0 false) 0 0 0.

Lemma busy_tasks l t : k_tasks busy_kernel !! l = Some t -> (l = 0x100 /\ t = busy_task 1 Ready 0) \/ (l = 0x200 /\ t = busy_task 2 Running 0) \/ (l = 0x300 /\ t = busy_task 3 Ready 7).
Proof.
  cbn [k_tasks busy_kernel]. intros H. apply lookup_insert_Some in H as [[<- <-]|[_ H]]; [by left|]. apply lookup_insert_Some in H as [[<- <-]|[_ H]]; [by right; left|].
  apply lookup_singleton_Some in H as [<- <-]. by right; right.
Qed.

Lemma busy_kernel_ok : kernel_ok 0x300 busy_kernel.
Proof.
  split; [split|].
  - split; [done| | | |cbn; lia].
    + apply (bool_decide_eq_true_1 _). vm_compute. reflexivity.
    + intros i q l Hi Hl. cbn in Hi. do 8 (destruct i as [|i]; [cbn in Hi; injection Hi as <-; try (by apply not_elem_of_nil in Hl); (apply list_elem_of_singleton in Hl as ->; eexists; split; [vm_compute; reflexivity|by split])|]). done.
    + intros l [= <-]. eexists. split; [vm_compute; reflexivity|cbn; lia].
  - eexists. split; [vm_compute; reflexivity|]. by left.
  - apply (bool_decide_eq_true_1 _). vm_compute. reflexivity.
  - split.
    + intros id l H. cbn [k_table busy_kernel] in H. apply lookup_insert_Some in H as [[<- <-]|[_ H]]; [eexists; split; [vm_compute; reflexivity|done]|].
      apply lookup_insert_Some in H as [[<- <-]|[_ H]]; [eexists; split; [vm_compute; reflexivity|done]|]. apply lookup_singleton_Some in H as [<- <-]. eexists; split; [vm_compute; reflexivity|done].
    + intros l t Ht _. apply busy_tasks in Ht as [[-> ->]|[[-> ->]|[-> ->]]]; vm_compute; reflexivity.
    + intros l t Ht. apply busy_tasks in Ht as [[-> ->]|[[-> ->]|[-> ->]]]; (split; [cbn; lia|]); intros Hn; exfalso; apply Hn; apply (bool_decide_eq_true_1 _); vm_compute; reflexivity.
  - done.
  - cbn. lia.
  - exists 0x200, (busy_task 2 Running 0). split_and!; [done|vm_compute; reflexivity|done].
Qed.

Lemma mutex_mutual_exclusion_witness : exists s, mrun 0x300 [MLock; MSys OTimer; MLock] (mkM busy_kernel resource_new []) = Some s /\ m_holders s = [2] /\ (length (m_holders s) <= 1)%nat.
Proof.
  destruct (mrun 0x300 [MLock; MSys OTimer; MLock] (mkM busy_kernel resource_new [])) as [s|] eqn:E; [|vm_compute in E; discriminate E].
  exists s. split; [reflexivity|]. split; [vm_compute in E; injection E as <-; reflexivity|].
  exact (proj1 (mutex_mutual_exclusion 0x300 busy_kernel s busy_kernel_ok (mrun_reach _ _ _ _ _ (mreach_new _ _) E))).
Defined.

(** Task 2 takes the mutex; task 1 tries twice before task 2 releases it, then
    takes it. *)
Definition contended : list mop :=
  [MLock; MSys OTimer; MLock] ++ replicate 4 (MSys OTimer) ++ [MLock; MUnlock] ++ replicate 9 (MSys OTimer) ++ [MLock].

Lemma condvar_wait_requeues_running_task_witness :
  exists s k r, mrun 0x300 contended (mkM busy_kernel resource_new []) = Some s /\ resource_wait (m_kernel s) (m_res s) = Some (k, r) /\
    current (k_sched k) = Some 0x100 /\ 0x100 ∈ concat (queues (k_sched k)).
Proof.
  destruct (mrun 0x300 contended (mkM busy_kernel resource_new [])) as [s|] eqn:E; [|vm_compute in E; discriminate E].
  pose proof (mrun_reach _ _ _ _ _ (mreach_new _ _) E) as Hr.
  destruct (k_tasks (m_kernel s) !! 0x100) as [t|] eqn:Ht; [|vm_compute in E; injection E as <-; vm_compute in Ht; discriminate Ht].
  destruct (condvar_wait_requeues_running_task 0x300 busy_kernel s 0x100 t [] busy_kernel_ok Hr) as (k & r & H1 & H2 & H3 & _).
  6: { exists s, k, r. exact (conj eq_refl (conj H1 (conj H2 H3))). }
  all: vm_compute in E; injection E as <-; vm_compute in Ht; injection Ht as <-; reflexivity.
Defined.
