(* ===== verification/Heap.v ===== *)
(** The kernel's global allocator: the buddy allocator behind a spinlock
    ([LockedBuddyAllocator] of [kernel/src/memory/buddy_allocator.rs]), through
    which [Box], [Vec] and [Arc] allocate. *)

From S2P Require Import Prelude Buddy X86 Task Sched Sync.

Abbreviation heap_lock := (Spinlock heap_state).

(* memory/buddy_allocator.rs:132-135 new *)
Definition locked_heap_new (m : gmap Z Z) : heap_lock := spinlock_new (mkHeap m buddy_empty).

(** The guard is a temporary: it is dropped when the call is over. *)
(* memory/buddy_allocator.rs:137-139 init *)
Definition locked_heap_init (fuel : nat) (k : kernel) (h : heap_lock) (start size : Z) : option (kernel * heap_lock) :=
  '(k, h) ← spin_lock fuel k h;
  st ← buddy_init (sl_data h) start size;
  Some (spin_unlock k (mkSpinlock (sl_locked h) st)).

(* memory/buddy_allocator.rs:143-146 alloc *)
Definition global_alloc (fuel : nat) (k : kernel) (h : heap_lock) (layout : Layout) : option (Z * kernel * heap_lock) :=
  '(k, h) ← spin_lock fuel k h;
  let '(p, st) := alloc_inner (sl_data h) layout in
  let '(k, h) := spin_unlock k (mkSpinlock (sl_locked h) st) in
  Some (p, k, h).

(* memory/buddy_allocator.rs:148-150 dealloc *)
Definition global_dealloc (fuel : nat) (k : kernel) (h : heap_lock) (ptr : Z) (layout : Layout) : option (kernel * heap_lock) :=
  '(k, h) ← spin_lock fuel k h;
  st ← dealloc_inner (sl_data h) ptr layout;
  Some (spin_unlock k (mkSpinlock (sl_locked h) st)).

(** ** Histories of the heap *)

(** What the kernel does with its heap: allocate, free the block that is [n]-th
    among those it holds, store a word [off] bytes into it. *)
Inductive heap_op := HAlloc (layout : Layout) | HFree (n : nat) | HStore (n : nat) (off v : Z).

Definition in_block (layout : Layout) (off : Z) : bool := (0 <=? off) && (off <? request_size layout).

(** The kernel, the allocator and the blocks held; a failed allocation gives none. *)
Definition heap_call (fuel : nat) (s : kernel * heap_lock * list (Layout * Z)) (op : heap_op) : option (kernel * heap_lock * list (Layout * Z)) :=
  let '(k, h, live) := s in
  match op with
  | HAlloc layout => '(p, k, h) ← global_alloc fuel k h layout; Some (k, h, if p =? 0 then live else (layout, p) :: live)
  | HFree n =>
      match live !! n with
      | Some (layout, p) => '(k, h) ← global_dealloc fuel k h p layout; Some (k, h, take n live ++ drop (S n) live)
      | None => Some s
      end
  | HStore n off v =>
      match live !! n with
      | Some (layout, p) =>
          if in_block layout off then Some (k, mkSpinlock (sl_locked h) (mkHeap (<[p + off := v]> (h_mem (sl_data h))) (h_buddy (sl_data h))), live) else Some s
      | None => Some s
      end
  end.

Fixpoint heap_calls (fuel : nat) (s : kernel * heap_lock * list (Layout * Z)) (ops : list heap_op) : option (kernel * heap_lock * list (Layout * Z)) :=
  match ops with
  | [] => Some s
  | op :: ops => s ← heap_call fuel s op; heap_calls fuel s ops
  end.

(** ** Facts *)

(** Taking a lock and dropping it leaves the preemption counter as it was. *)
Lemma preempt_restored k : fits 32 (k_preempt k) -> preempt_enable (preempt_disable k) = k.
Proof.
  intros Hk. unfold preempt_enable, preempt_disable, set_preempt. cbn. unfold wrap. rewrite Zminus_mod_idemp_l. replace (k_preempt k + 1 - 1) with (k_preempt k) by lia.
  rewrite Z.mod_small by exact Hk. by destruct k.
Qed.

Lemma global_alloc_free fuel k st layout p st' :
  fits 32 (k_preempt k) -> alloc_inner st layout = (p, st') -> global_alloc (S fuel) k (mkSpinlock false st) layout = Some (p, k, mkSpinlock false st').
Proof. intros Hk E. unfold global_alloc. cbn. rewrite E. cbn. by rewrite preempt_restored. Qed.

Lemma global_dealloc_free fuel k st ptr layout st' :
  fits 32 (k_preempt k) -> dealloc_inner st ptr layout = Some st' -> global_dealloc (S fuel) k (mkSpinlock false st) ptr layout = Some (k, mkSpinlock false st').
Proof. intros Hk E. unfold global_dealloc. cbn. rewrite E. cbn. unfold spin_unlock. by rewrite preempt_restored. Qed.

(** With the lock held, as in an interrupt handler that comes while the interrupted
    code is in the allocator, the call spins. *)
Lemma global_alloc_held fuel k st layout : global_alloc fuel k (mkSpinlock true st) layout = None.
Proof. unfold global_alloc. induction fuel as [|fuel IH]; [done|]. exact IH. Qed.

Lemma heap_call_reachable fuel start size k st live op :
  fits 32 (k_preempt k) -> heap_reachable start size (mkWorld st live) ->
  exists st' live', heap_call (S fuel) (k, mkSpinlock false st, live) op = Some (k, mkSpinlock false st', live') /\ heap_reachable start size (mkWorld st' live').
Proof.
  intros Hk Hr. assert (Hgo : forall st' live', heap_step (mkWorld st live) (mkWorld st' live') -> heap_reachable start size (mkWorld st' live')).
  { intros st' live' Hs. destruct Hr as (w0 & H0 & Hsteps). exists w0. split; [done|]. by eapply rtc_r. }
  destruct op as [layout|n|n off v]; cbn [heap_call].
  - destruct (alloc_inner st layout) as [p st'] eqn:E. rewrite (global_alloc_free fuel k st layout p st' Hk E). cbn [mbind option_bind]. destruct (Z.eqb_spec p 0) as [->|Hp].
    + eexists _, _. split; [reflexivity|]. apply Hgo. by apply (step_alloc_null _ _ layout).
    + eexists _, _. split; [reflexivity|]. apply Hgo. by apply step_alloc.
  - destruct (live !! n) as [[layout p]|] eqn:En; [|by exists st, live]. pose proof (take_drop_middle live n _ En) as Hlive. rewrite <- Hlive in Hr.
    destruct (buddy_dealloc_total start size st _ layout p _ Hr) as (st' & E & _). rewrite (global_dealloc_free fuel k st p layout st' Hk E). cbn [mbind option_bind].
    eexists _, _. split; [reflexivity|]. apply Hgo. rewrite <- Hlive at 1. by apply step_dealloc.
  - destruct (live !! n) as [[layout p]|] eqn:En; [|by exists st, live]. destruct (in_block layout off) eqn:Eb; [|by exists st, live]. eexists _, _. split; [reflexivity|]. apply Hgo.
    unfold in_block in Eb. apply andb_true_iff in Eb as [E1 E2]. apply (step_store _ _ layout p); [by eapply list_elem_of_lookup_2|lia].
Qed.

Lemma heap_calls_reachable fuel start size k st live ops :
  fits 32 (k_preempt k) -> heap_reachable start size (mkWorld st live) ->
  exists st' live', heap_calls (S fuel) (k, mkSpinlock false st, live) ops = Some (k, mkSpinlock false st', live') /\ heap_reachable start size (mkWorld st' live').
Proof.
  intros Hk. revert st live. induction ops as [|op ops IH]; intros st live Hr; [by exists st, live|].
  destruct (heap_call_reachable fuel start size k st live op Hk Hr) as (st1 & live1 & E & Hr1). cbn [heap_calls]. rewrite E. cbn [mbind option_bind]. by apply IH.
Qed.

(** ** Theorem *)

(** The global allocator serves every history: set up over any range, and
    used by any sequence of allocations, frees of held blocks and stores into
    them, it never finds its lock held, never panics and always leaves the
    preemption counter where it was; the blocks held are those of a reachable
    heap, inside the range and pairwise disjoint.  A call that comes while the
    lock is held, from an interrupt handler, does not return. *)
Theorem global_allocator_serves (fuel : nat) (start size : Z) (m : gmap Z Z) (k : kernel) (ops : list heap_op) :
  0 < start -> (32 | start) -> 0 <= size -> start + size + block_size MAX_ORDER < 2 ^ 64 -> fits 32 (k_preempt k) ->
  exists h0 h live, locked_heap_init (S fuel) k (locked_heap_new m) start size = Some (k, h0) /\
    heap_calls (S fuel) (k, h0, []) ops = Some (k, h, live) /\ sl_locked h = false /\ heap_reachable start size (mkWorld (sl_data h) live) /\
    forall n layout, global_alloc n k (mkSpinlock true (sl_data h)) layout = None.
Proof.
  intros Hs Hal Hsz Hov Hk. destruct (init_heap_inv m start size Hs Hal Hsz Hov) as (st & E & _ & _ & _).
  assert (Hr : heap_reachable start size (mkWorld st [])) by (exists (mkWorld st []); split; [split_and!; try done; by exists m|done]).
  destruct (heap_calls_reachable fuel start size k st [] ops Hk Hr) as (st' & live & Ec & Hr').
  exists (mkSpinlock false st), (mkSpinlock false st'), live. split_and!; [|done|done|done|intros; apply global_alloc_held].
  unfold locked_heap_init, locked_heap_new. cbn. rewrite E. cbn. unfold spin_unlock. by rewrite preempt_restored.
Qed.

Lemma global_allocator_serves_witness :
  exists h0 h live, locked_heap_init 1 kernel_new (locked_heap_new ∅) 4096 4096 = Some (kernel_new, h0) /\
    heap_calls 1 (kernel_new, h0, []) [HAlloc (mkLayout 64 8); HAlloc (mkLayout 100 16); HFree 1; HStore 0 8 7] = Some (kernel_new, h, live) /\ sl_locked h = false.
Proof.
  destruct (global_allocator_serves 0 4096 4096 ∅ kernel_new [HAlloc (mkLayout 64 8); HAlloc (mkLayout 100 16); HFree 1; HStore 0 8 7]) as (h0 & h & live & E0 & E & Hl & _);
    [lia|by exists 128|lia|vm_compute; reflexivity|unfold fits; cbn; lia|].
  exists h0, h, live. exact (conj E0 (conj E Hl)).
Defined.
