(* ===== verification/Ipc.v ===== *)
(** Inter-process communication ([kernel/src/ipc]): byte pipes, message queues,
    shared memory objects, and the table of handles.

    [send] and [recv] are loops that may wait on a condition variable.  The
    buffer's lock is held from the start, or from the return of a wait, until
    the operation returns or waits again; that stretch is one definition,
    which ends [Done] with the result or [Waiting] with the number of bytes
    sent so far, having switched away.  [None] is a panic, or a lock that is
    held and for which the task spins forever. *)

From S2P Require Import Prelude X86 Task Sched Sync.

(* ipc/channel.rs:9-9 IpcError *)
Inductive IpcError := Closed | WouldBlock | TooLarge.

Inductive outcome (A : Type) := Done (r : result IpcError A) | Waiting (progress : nat).
Arguments Done {A}. Arguments Waiting {A}.

(** A lock that is free when the system call asks for it, or never. *)
Definition acquire {A} (k : kernel) (l : Spinlock A) : option (kernel * Spinlock A) := spin_lock 1 k l.

(** ** Pipes *)

(* ipc/pipe.rs:8-8 PIPE_BUF *)
Definition PIPE_BUF : nat := 4096.

(* ipc/pipe.rs:11-16 Pipe *)
Record Pipe := mkPipe { p_buf : Spinlock (list Z); p_not_empty : CondVar; p_not_full : CondVar; p_closed : bool }.

(* ipc/pipe.rs:19-26 new *)
Definition pipe_new : Pipe := mkPipe (spinlock_new []) condvar_new condvar_new false.

Definition with_buf (p : Pipe) (b : list Z) : Pipe := mkPipe (mkSpinlock (sl_locked (p_buf p)) b) (p_not_empty p) (p_not_full p) (p_closed p).

(** The guard is dropped on return. *)
Definition pipe_release {A} (k : kernel) (p : Pipe) (r : result IpcError A) : outcome A * kernel * Pipe :=
  let '(k, l) := spin_unlock k (p_buf p) in
  (Done r, k, mkPipe l (p_not_empty p) (p_not_full p) (p_closed p)).

(** The loop of [send] with the guard held, from [written] bytes on. *)
Fixpoint send_loop (fuel : nat) (k : kernel) (p : Pipe) (data : list Z) (written : nat) : option (outcome unit * kernel * Pipe) :=
  match fuel with
  | O => None
  | S fuel =>
      if (length data <=? written)%nat then Some (pipe_release k p (Ok tt))
      else if p_closed p then Some (pipe_release k p (Err Closed))
      else
        if (PIPE_BUF <? length (sl_data (p_buf p)))%nat then None
        else
          let available_space := (PIPE_BUF - length (sl_data (p_buf p)))%nat in
          if (available_space =? 0)%nat then
            '(k, c, l, _) ← condvar_wait k (p_not_full p) (p_buf p);
            Some (Waiting written, k, mkPipe l (p_not_empty p) c (p_closed p))
          else
            let to_write := min (length data - written) available_space in
            let p := with_buf p (sl_data (p_buf p) ++ take to_write (drop written data)) in
            '(k, c) ← condvar_signal k (p_not_empty p);
            send_loop fuel k (mkPipe (p_buf p) c (p_not_full p) (p_closed p)) data (written + to_write)
  end.

(** Every turn sends a byte, so the length of the data bounds them. *)
(* ipc/pipe.rs:31-57 send *)
Definition pipe_send (k : kernel) (p : Pipe) (data : list Z) (written : nat) : option (outcome unit * kernel * Pipe) :=
  '(k, l) ← acquire k (p_buf p);
  send_loop (S (length data)) k (mkPipe l (p_not_empty p) (p_not_full p) (p_closed p)) data written.

(* ipc/pipe.rs:59-83 recv *)
Definition pipe_recv (k : kernel) (p : Pipe) (len : nat) : option (outcome (list Z) * kernel * Pipe) :=
  '(k, l) ← acquire k (p_buf p);
  let p := mkPipe l (p_not_empty p) (p_not_full p) (p_closed p) in
  match sl_data l with
  | [] =>
      if p_closed p then Some (pipe_release k p (Ok []))
      else
        '(k, c, l, _) ← condvar_wait k (p_not_empty p) l;
        Some (Waiting 0, k, mkPipe l c (p_not_full p) (p_closed p))
  | _ =>
      let to_read := min len (length (sl_data l)) in
      let out := take to_read (sl_data l) in
      let p := with_buf p (drop to_read (sl_data l)) in
      '(k, c) ← (if (0 <? to_read)%nat then condvar_signal k (p_not_full p) else Some (k, p_not_full p));
      Some (pipe_release k (mkPipe (p_buf p) (p_not_empty p) c (p_closed p)) (Ok out))
  end.

(* ipc/pipe.rs:85-90 close *)
Definition pipe_close (k : kernel) (p : Pipe) : option (kernel * Pipe) :=
  '(k, l) ← acquire k (p_buf p);
  '(k, ne) ← condvar_broadcast k (p_not_empty p);
  '(k, nf) ← condvar_broadcast k (p_not_full p);
  let '(k, l) := spin_unlock k l in
  Some (k, mkPipe l ne nf true).

(** ** Message queues *)

(* ipc/msg_queue.rs:9-9 MSG_SIZE *)
Definition MSG_SIZE : nat := 256.
(* ipc/msg_queue.rs:11-11 MAX_MESSAGES *)
Definition MAX_MESSAGES : nat := 128.

(* ipc/msg_queue.rs:15-20 MsgQueue *)
Record MsgQueue := mkMsgQueue { q_queue : Spinlock (list (list Z)); q_not_empty : CondVar; q_not_full : CondVar; q_closed : bool }.

(* ipc/msg_queue.rs:24-31 new *)
Definition msg_queue_new : MsgQueue := mkMsgQueue (spinlock_new []) condvar_new condvar_new false.

Definition msg_release {A} (k : kernel) (q : MsgQueue) (r : result IpcError A) : outcome A * kernel * MsgQueue :=
  let '(k, l) := spin_unlock k (q_queue q) in
  (Done r, k, mkMsgQueue l (q_not_empty q) (q_not_full q) (q_closed q)).

(* ipc/msg_queue.rs:36-60 send *)
Definition msg_send (k : kernel) (q : MsgQueue) (data : list Z) : option (outcome unit * kernel * MsgQueue) :=
  if (MSG_SIZE <? length data)%nat then Some (Done (Err TooLarge), k, q)
  else
    let msg := data ++ replicate (MSG_SIZE - length data) 0 in
    '(k, l) ← acquire k (q_queue q);
    let q := mkMsgQueue l (q_not_empty q) (q_not_full q) (q_closed q) in
    if q_closed q then Some (msg_release k q (Err Closed))
    else if (length (sl_data l) <? MAX_MESSAGES)%nat then
      let l := mkSpinlock (sl_locked l) (sl_data l ++ [msg]) in
      '(k, c) ← condvar_signal k (q_not_empty q);
      Some (msg_release k (mkMsgQueue l c (q_not_full q) (q_closed q)) (Ok tt))
    else
      '(k, c, l, _) ← condvar_wait k (q_not_full q) l;
      Some (Waiting 0, k, mkMsgQueue l (q_not_empty q) c (q_closed q)).

(* ipc/msg_queue.rs:62-81 recv *)
Definition msg_recv (k : kernel) (q : MsgQueue) (len : nat) : option (outcome (list Z) * kernel * MsgQueue) :=
  '(k, l) ← acquire k (q_queue q);
  let q := mkMsgQueue l (q_not_empty q) (q_not_full q) (q_closed q) in
  match sl_data l with
  | msg :: ms =>
      let out := take (min len MSG_SIZE) msg in
      '(k, c) ← condvar_signal k (q_not_full q);
      Some (msg_release k (mkMsgQueue (mkSpinlock (sl_locked l) ms) (q_not_empty q) c (q_closed q)) (Ok out))
  | [] =>
      if q_closed q then Some (msg_release k q (Ok []))
      else
        '(k, c, l, _) ← condvar_wait k (q_not_empty q) l;
        Some (Waiting 0, k, mkMsgQueue l c (q_not_full q) (q_closed q))
  end.

(* ipc/msg_queue.rs:83-88 close *)
Definition msg_close (k : kernel) (q : MsgQueue) : option (kernel * MsgQueue) :=
  '(k, l) ← acquire k (q_queue q);
  '(k, ne) ← condvar_broadcast k (q_not_empty q);
  '(k, nf) ← condvar_broadcast k (q_not_full q);
  let '(k, l) := spin_unlock k l in
  Some (k, mkMsgQueue l ne nf true).

(** ** Channels and handles *)

(* ipc/shm.rs:6-11 SharedMem *)
Record SharedMem := mkShm { shm_name : list Z; shm_data : list Z }.

(* ipc/shm.rs:15-21 new *)
Definition shm_new (name : list Z) (size : nat) : SharedMem := mkShm name (replicate size 0).

(* ipc/channel.rs:1-5 IpcChannel *)
Inductive IpcChannel := ChPipe (p : Pipe) | ChMsgQueue (q : MsgQueue) | ChShm (s : SharedMem).

(** The methods of the trait; those of a shared memory object are in the last
    branch. *)
(* ipc/shm.rs:27-30 send *)
Definition ch_send (k : kernel) (ch : IpcChannel) (data : list Z) (written : nat) : option (outcome unit * kernel * IpcChannel) :=
  match ch with
  | ChPipe p => '(o, k, p) ← pipe_send k p data written; Some (o, k, ChPipe p)
  | ChMsgQueue q => '(o, k, q) ← msg_send k q data; Some (o, k, ChMsgQueue q)
  | ChShm s => Some (Done (Err WouldBlock), k, ch)
  end.

(* ipc/shm.rs:32-35 recv *)
Definition ch_recv (k : kernel) (ch : IpcChannel) (len : nat) : option (outcome (list Z) * kernel * IpcChannel) :=
  match ch with
  | ChPipe p => '(o, k, p) ← pipe_recv k p len; Some (o, k, ChPipe p)
  | ChMsgQueue q => '(o, k, q) ← msg_recv k q len; Some (o, k, ChMsgQueue q)
  | ChShm s => Some (Done (Err WouldBlock), k, ch)
  end.

(* ipc/shm.rs:37-39 close *)
Definition ch_close (k : kernel) (ch : IpcChannel) : option (kernel * IpcChannel) :=
  match ch with
  | ChPipe p => '(k, p) ← pipe_close k p; Some (k, ChPipe p)
  | ChMsgQueue q => '(k, q) ← msg_close k q; Some (k, ChMsgQueue q)
  | ChShm s => Some (k, ch)
  end.

(* ipc/table.rs:7-10 IpcTable *)
Record IpcTable := mkIpcTable { it_next : Z; it_map : gmap Z IpcChannel }.

(* ipc/table.rs:13-18 new *)
Definition ipc_table_new : IpcTable := mkIpcTable 0 ∅.

(* ipc/table.rs:20-25 insert *)
Definition ipc_insert (t : IpcTable) (ch : IpcChannel) : option (Z * IpcTable) :=
  n ← uadd 64 (it_next t) 1;
  Some (it_next t, mkIpcTable n (<[it_next t := ch]> (it_map t))).
(* ipc/table.rs:27-29 get *)
Definition ipc_get (t : IpcTable) (h : Z) : option IpcChannel := it_map t !! h.
(* ipc/table.rs:31-33 remove *)
Definition ipc_remove (t : IpcTable) (h : Z) : IpcTable := mkIpcTable (it_next t) (delete h (it_map t)).

(** ** Locks and the kernel's invariant *)

(** A task running with [n] spinlocks held. *)
Definition held (n idle : Z) (k : kernel) : Prop := k_preempt k = n /\ kernel_ok idle (set_preempt k 0).

Lemma unblock_preempt k n id : unblock_tid (set_preempt k n) id = (fun k' => set_preempt k' n) <$> unblock_tid k id.
Proof.
  unfold unblock_tid. cbn [set_preempt k_table k_tasks k_sched]. destruct (k_table k !! id) as [l|]; [|done]. destruct (k_tasks k !! l) as [t|]; [|done]. cbn [mbind option_bind].
  destruct (state t); try done. by destruct (push _ _ _).
Qed.

Lemma set_preempt_id k : set_preempt k (k_preempt k) = k.
Proof. by destruct k. Qed.

Lemma wake_held n idle k id : held n idle k -> exists k', unblock_tid k id = Some k' /\ held n idle k' /\ current (k_sched k') = current (k_sched k).
Proof.
  intros [Hp Hok]. pose proof Hok as [Hpre (c & t & Hc & Ht & Hs)]. destruct (unblock_ok idle _ id Hpre) as (k' & E & Hpre' & Hc' & Hkeep & _).
  { intros c' t' Hc' Ht'. rewrite Hc in Hc'. injection Hc' as <-. congruence. }
  rewrite unblock_preempt in E. apply fmap_Some in E as (k1 & E1 & ->). exists k1. split; [done|]. split; [|done]. split.
  - unfold unblock_tid in E1. repeat (case_match; simplify_eq/=); try done; apply bind_Some in E1 as (? & ? & E1); repeat (case_match; simplify_eq/=); try done.
    apply bind_Some in E1 as (? & ? & [= <-]). done.
  - split; [done|]. exists c, t. split_and!; [by rewrite Hc'|apply Hkeep; [done|congruence]|done].
Qed.

Lemma signal_held n idle k c : held n idle k -> exists k' c', condvar_signal k c = Some (k', c') /\ held n idle k' /\ current (k_sched k') = current (k_sched k).
Proof.
  intros Hh. unfold condvar_signal. destruct (cv_waiters c) as [|id ws]; [by exists k, c|]. destruct (wake_held n idle k id Hh) as (k' & -> & H). by eexists k', _.
Qed.

Lemma broadcast_held n idle k c : held n idle k -> exists k' c', condvar_broadcast k c = Some (k', c') /\ held n idle k' /\ current (k_sched k') = current (k_sched k).
Proof.
  intros Hh. unfold condvar_broadcast. assert (H : exists k', unblock_all k (cv_waiters c) = Some k' /\ held n idle k' /\ current (k_sched k') = current (k_sched k)).
  { revert k Hh. induction (cv_waiters c) as [|id ids IH]; intros k Hh; cbn [unblock_all]; [by exists k|]. destruct (wake_held n idle k id Hh) as (k1 & -> & Hh1 & Hc1).
    destruct (IH k1 Hh1) as (k2 & E & Hh2 & Hc2). exists k2. by rewrite Hc2, Hc1. }
  destruct H as (k' & -> & H). by eexists k', _.
Qed.

Lemma acquire_deeper {A} n idle k (l : Spinlock A) :
  held n idle k -> 0 <= n -> n + 1 < 2 ^ 32 -> sl_locked l = false ->
  exists k', acquire k l = Some (k', mkSpinlock true (sl_data l)) /\ held (n + 1) idle k' /\ current (k_sched k') = current (k_sched k).
Proof.
  intros [Hp Hok] Hn Hn' Hl. unfold acquire, spin_lock. rewrite Hl. eexists. split; [reflexivity|]. split; [|done]. split; [|done].
  cbn. rewrite Hp. unfold wrap. apply Z.mod_small. lia.
Qed.

Lemma kernel_held idle k : kernel_ok idle k -> held 0 idle k.
Proof. intros Hok. pose proof Hok as [[_ _ _ _ Hp _] _]. split; [done|]. by rewrite <- Hp, set_preempt_id. Qed.

Lemma acquire_held {A} idle k (l : Spinlock A) :
  kernel_ok idle k -> sl_locked l = false -> exists k', acquire k l = Some (k', mkSpinlock true (sl_data l)) /\ held 1 idle k' /\ current (k_sched k') = current (k_sched k).
Proof. intros Hok Hl. apply (acquire_deeper 0); [by apply kernel_held|lia|lia|done]. Qed.

Lemma release_held {A} idle k (l : Spinlock A) : held 1 idle k -> kernel_ok idle (fst (spin_unlock k l)).
Proof. intros [Hp Hok]. cbn. unfold preempt_enable. by rewrite Hp. Qed.

Lemma wait_held {A} idle k c (l : Spinlock A) :
  held 1 idle k -> current (k_sched k) <> Some idle ->
  exists k' c' sw, condvar_wait k c l = Some (k', c', mkSpinlock false (sl_data l), sw) /\ kernel_ok idle k'.
Proof.
  intros [Hp Hok] Hi. unfold condvar_wait, condvar_park. destruct (current_tid_ok idle _ Hok) as (x & t & Hc & Ht & _ & Hct & _).
  destruct (block_schedule_ok idle _ _ Hok Hi Hct) as (k1 & k' & sw & E1 & E2 & Hok').
  change (current_tid (set_preempt k 0)) with (current_tid k) in Hct. rewrite Hct. cbn [mbind option_bind].
  assert (Em : exists k2, mark_blocked k (tid t) = Some k2 /\ preempt_enable k2 = k1).
  { unfold mark_blocked in *. cbn [set_preempt k_table k_tasks] in E1. destruct (k_table k !! tid t) as [y|]; [|injection E1 as <-; exists k; split; [done|]; unfold preempt_enable; by rewrite Hp].
    destruct (k_tasks k !! y) as [u|]; [|done]. cbn in *. injection E1 as <-. eexists. split; [reflexivity|]. unfold preempt_enable. cbn. by rewrite Hp. }
  destruct Em as (k2 & -> & Hk2). cbn. rewrite Hk2, E2. by eexists k', _, sw.
Qed.

(** ** Pipes carry streams *)

Definition buffered (p : Pipe) : list Z := sl_data (p_buf p).

(** Between operations: the lock is free and the buffer within its bound. *)
Definition pipe_ok (p : Pipe) : Prop := sl_locked (p_buf p) = false /\ (length (buffered p) <= PIPE_BUF)%nat.

(** How far a sender got in its data. *)
Definition progress {A} (o : outcome A) (data : list Z) (written : nat) : nat :=
  match o with
  | Done (Ok _) => length data
  | Done (Err _) => written
  | Waiting w => w
  end.

Lemma send_loop_spec idle data fuel k p written :
  held 1 idle k -> current (k_sched k) <> Some idle -> (length (buffered p) <= PIPE_BUF)%nat ->
  (written <= length data)%nat -> (length data - written < fuel)%nat ->
  exists o k' p', send_loop fuel k p data written = Some (o, k', p') /\ kernel_ok idle k' /\ pipe_ok p' /\ p_closed p' = p_closed p /\ (p_closed p = false -> forall e, o <> Done (Err e)) /\
    (written <= progress o data written <= length data)%nat /\ buffered p' = buffered p ++ take (progress o data written - written) (drop written data).
Proof.
  revert k p written. induction fuel as [|fuel IH]; intros k p written Hh Hi Hb Hw Hf; [lia|]. cbn [send_loop]. unfold buffered in *.
  destruct (Nat.leb_spec (length data) written) as [Hd|Hd].
  { eexists _, _, _. split; [reflexivity|]. split; [by apply (release_held idle k (p_buf p))|]. split; [by split|]. split; [done|]. split; [done|]. cbn.
    split; [lia|]. rewrite (proj2 (Nat.sub_0_le (length data) written)) by lia. by rewrite app_nil_r. }
  destruct (p_closed p) eqn:Ec.
  { eexists _, _, _. split; [reflexivity|]. split; [by apply (release_held idle k (p_buf p))|]. split; [by split|]. split; [done|]. split; [done|]. cbn.
    split; [lia|]. rewrite Nat.sub_diag. by rewrite app_nil_r. }
  destruct (Nat.ltb_spec PIPE_BUF (length (sl_data (p_buf p)))); [lia|]. destruct (Nat.eqb_spec (PIPE_BUF - length (sl_data (p_buf p))) 0) as [Ha|Ha].
  { destruct (wait_held idle k (p_not_full p) (p_buf p) Hh Hi) as (k' & c' & sw & -> & Hok). eexists _, _, _. split; [reflexivity|]. split; [done|]. split; [by split|].
    split; [done|]. split; [done|]. cbn. split; [lia|]. rewrite Nat.sub_diag. by rewrite app_nil_r. }
  destruct (signal_held 1 idle k (p_not_empty p) Hh) as (k1 & c1 & E1 & Hh1 & Hc1). cbn [with_buf p_not_empty p_buf sl_data]. rewrite E1. cbn [mbind option_bind].
  set (n := min (length data - written) (PIPE_BUF - length (sl_data (p_buf p)))). set (p1 := mkPipe _ _ _ _).
  assert (Hn : length (take n (drop written data)) = n) by (rewrite length_take, length_drop; lia).
  destruct (IH k1 p1 (written + n)%nat Hh1) as (o & k' & p' & E & Hok & Hp & Hcl & Herr & Hpr & Hbuf); [by rewrite Hc1|cbn; rewrite length_app, Hn; lia|lia|lia|].
  assert (Hpe : progress o data (written + n) = progress o data written) by (destruct o as [[u|e]|w]; [done|by destruct (Herr Ec e)|done]).
  rewrite Hpe in *. exists o, k', p'. rewrite E. split; [done|]. split; [done|]. split; [done|]. split; [rewrite Hcl; exact Ec|]. split; [intros _; by apply Herr|]. split; [lia|].
  rewrite Hbuf. cbn. rewrite <- app_assoc. f_equal. replace (progress o data written - written)%nat with (n + (progress o data written - (written + n)))%nat by lia.
  by rewrite <- take_take_drop, drop_drop.
Qed.

Lemma pipe_send_spec idle k p data written :
  kernel_ok idle k -> current (k_sched k) <> Some idle -> pipe_ok p -> (written <= length data)%nat ->
  exists o k' p', pipe_send k p data written = Some (o, k', p') /\ kernel_ok idle k' /\ pipe_ok p' /\ (p_closed p = false -> forall e, o <> Done (Err e)) /\
    (written <= progress o data written <= length data)%nat /\ buffered p' = buffered p ++ take (progress o data written - written) (drop written data).
Proof.
  intros Hk Hi [Hl Hb] Hw. unfold pipe_send. destruct (acquire_held idle k (p_buf p) Hk Hl) as (k1 & -> & Hh & Hc). cbn [mbind option_bind].
  destruct (send_loop_spec idle data (S (length data)) k1 (mkPipe (mkSpinlock true (sl_data (p_buf p))) (p_not_empty p) (p_not_full p) (p_closed p)) written)
    as (o & k' & p' & E & H1 & H2 & _ & H3 & H4 & H5); [done|by rewrite Hc|done|done|lia|]. by exists o, k', p'.
Qed.

(** The bytes an operation delivers. *)
Definition delivered (o : outcome (list Z)) : list Z := match o with Done (Ok bs) => bs | _ => [] end.

Lemma pipe_recv_spec idle k p len :
  kernel_ok idle k -> current (k_sched k) <> Some idle -> pipe_ok p ->
  exists o k' p', pipe_recv k p len = Some (o, k', p') /\ kernel_ok idle k' /\ pipe_ok p' /\ p_closed p' = p_closed p /\
    buffered p = delivered o ++ buffered p' /\ (length (delivered o) <= len)%nat /\
    (buffered p <> [] -> delivered o = take len (buffered p)) /\ (buffered p = [] -> o = if p_closed p then Done (Ok []) else Waiting 0).
Proof.
  intros Hk Hi [Hl Hb]. unfold pipe_recv. destruct (acquire_held idle k (p_buf p) Hk Hl) as (k1 & -> & Hh & Hc). cbn [mbind option_bind sl_data p_closed p_not_empty p_not_full p_buf].
  unfold buffered in *. destruct (sl_data (p_buf p)) as [|x xs] eqn:Eb.
  - destruct (p_closed p) eqn:Ec.
    + eexists _, _, _. split; [reflexivity|]. split; [by apply (release_held idle k1 (mkSpinlock true ([] : list Z)))|]. repeat split; done || (cbn; lia).
    + destruct (wait_held idle k1 (p_not_empty p) (mkSpinlock true ([] : list Z)) Hh) as (k' & c' & sw & -> & Hok); [by rewrite Hc|]. eexists _, _, _. split; [reflexivity|]. split; [done|]. repeat split; done || (cbn; lia).
  - set (b := x :: xs) in *. set (n := min len (length b)). cbn [with_buf p_buf p_not_full p_not_empty p_closed sl_locked].
    assert (Hsig : exists k2 c2, (if (0 <? n)%nat then condvar_signal k1 (p_not_full p) else Some (k1, p_not_full p)) = Some (k2, c2) /\ held 1 idle k2).
    { destruct (0 <? n)%nat; [|by exists k1, (p_not_full p)]. destruct (signal_held 1 idle k1 (p_not_full p) Hh) as (k2 & c2 & E2 & Hh2 & _). by exists k2, c2. }
    destruct Hsig as (k2 & c2 & -> & Hh2). cbn [mbind option_bind]. eexists _, _, _. split; [reflexivity|].
    split; [by apply (release_held idle k2 (mkSpinlock true (drop n b)))|]. cbn [delivered buffered p_buf spin_unlock sl_data p_closed].
    split; [split; [done|cbn; rewrite length_drop; lia]|]. split; [done|]. split; [by rewrite take_drop|]. split; [rewrite length_take; lia|]. split; [|done].
    intros _. destruct (decide (len <= length b)%nat) as [H|H]; [by replace n with len by lia|]. by rewrite !take_ge by lia.
Qed.

Lemma pipe_close_spec idle k p : kernel_ok idle k -> pipe_ok p ->
  exists k' p', pipe_close k p = Some (k', p') /\ kernel_ok idle k' /\ pipe_ok p' /\ buffered p' = buffered p /\ p_closed p' = true.
Proof.
  intros Hk [Hl Hb]. unfold pipe_close. destruct (acquire_held idle k (p_buf p) Hk Hl) as (k1 & -> & Hh & _). cbn [mbind option_bind].
  destruct (broadcast_held 1 idle k1 (p_not_empty p) Hh) as (k2 & c2 & -> & Hh2 & _). cbn [mbind option_bind]. destruct (broadcast_held 1 idle k2 (p_not_full p) Hh2) as (k3 & c3 & -> & Hh3 & _).
  eexists _, _. split; [reflexivity|]. split; [by apply (release_held idle k3 (mkSpinlock true (sl_data (p_buf p))))|]. by repeat split.
Qed.

(** Senders with their data, a pipe, what was received, and the rest of the
    system. *)
Inductive pop := PSend (i : nat) | PRecv (len : nat) | PClose | PSys (op : kop).

Record pstate := mkP { ps_kernel : kernel; ps_pipe : Pipe; ps_sent : list nat; ps_received : list Z }.

Definition pstep (datas : list (list Z)) (s : pstate) (op : pop) : option pstate :=
  match op with
  | PSend i =>
      data ← datas !! i;
      w ← ps_sent s !! i;
      '(o, k, p) ← pipe_send (ps_kernel s) (ps_pipe s) data w;
      Some (mkP k p (<[i := progress o data w]> (ps_sent s)) (ps_received s))
  | PRecv len => '(o, k, p) ← pipe_recv (ps_kernel s) (ps_pipe s) len; Some (mkP k p (ps_sent s) (ps_received s ++ delivered o))
  | PClose => '(k, p) ← pipe_close (ps_kernel s) (ps_pipe s); Some (mkP k p (ps_sent s) (ps_received s))
  | PSys op => k ← kstep (ps_kernel s) op; Some (mkP k (ps_pipe s) (ps_sent s) (ps_received s))
  end.

Definition pop_ok (idle : Z) (datas : list (list Z)) (s : pstate) (op : pop) : Prop :=
  match op with
  | PSend i => (i < length datas)%nat /\ current (k_sched (ps_kernel s)) <> Some idle
  | PRecv _ => current (k_sched (ps_kernel s)) <> Some idle
  | PClose => True
  | PSys op => op_ok idle (ps_kernel s) op
  end.

Inductive preach (idle : Z) (datas : list (list Z)) (k0 : kernel) : pstate -> Prop :=
| preach_new : preach idle datas k0 (mkP k0 pipe_new (replicate (length datas) 0%nat) [])
| preach_step op s s' : preach idle datas k0 s -> pop_ok idle datas s op -> pstep datas s op = Some s' -> preach idle datas k0 s'.

(** The pieces of the stream that sender [i] put in. *)
Definition pieces (i : nat) (chunks : list (nat * list Z)) : list Z := concat (snd <$> List.filter (fun c => (c.1 =? i)%nat) chunks).

Lemma pieces_app i c1 c2 : pieces i (c1 ++ c2) = pieces i c1 ++ pieces i c2.
Proof. unfold pieces. by rewrite List.filter_app, fmap_app, concat_app. Qed.

Lemma pieces_one i j bs : pieces i [(j, bs)] = if (j =? i)%nat then bs else [].
Proof. unfold pieces. cbn. destruct (j =? i)%nat; cbn; [by rewrite app_nil_r|done]. Qed.

Record stream_ok (idle : Z) (datas : list (list Z)) (s : pstate) : Prop := mkStreamOk {
  st_kernel : kernel_ok idle (ps_kernel s);
  st_pipe : pipe_ok (ps_pipe s);
  st_sent : length (ps_sent s) = length datas;
  st_bound : forall i data w, datas !! i = Some data -> ps_sent s !! i = Some w -> (w <= length data)%nat;
  st_chunks : exists chunks, ps_received s ++ buffered (ps_pipe s) = concat (snd <$> chunks) /\
    Forall (fun c => (c.1 < length datas)%nat) chunks /\
    forall i data w, datas !! i = Some data -> ps_sent s !! i = Some w -> pieces i chunks = take w data
}.

Lemma stream_send idle datas s i : stream_ok idle datas s -> pop_ok idle datas s (PSend i) -> exists s', pstep datas s (PSend i) = Some s' /\ stream_ok idle datas s'.
Proof.
  intros [Hk Hp Hs Hw (chunks & Hc & Hf & Hpc)] [Hi Hid]. cbn [pstep]. destruct (lookup_lt_is_Some_2 datas i Hi) as [data Ed]. destruct (lookup_lt_is_Some_2 (ps_sent s) i ltac:(lia)) as [w Ew].
  rewrite Ed, Ew. cbn [mbind option_bind]. destruct (pipe_send_spec idle (ps_kernel s) (ps_pipe s) data w Hk Hid Hp (Hw i data w Ed Ew)) as (o & k' & p' & -> & Hk' & Hp' & _ & Hpr & Hb).
  cbn [mbind option_bind]. eexists. split; [reflexivity|]. set (w' := progress o data w) in *.
  assert (Hlk : forall j x, <[i := w']> (ps_sent s) !! j = Some x -> (j = i /\ x = w') \/ (j <> i /\ ps_sent s !! j = Some x)).
  { intros j x Hj. apply list_lookup_insert_Some in Hj as [(-> & -> & _)|[Hne Hj]]; [by left|]. right. split; [congruence|done]. }
  split; cbn [ps_kernel ps_pipe ps_sent ps_received]; [done|done|by rewrite length_insert| |].
  - intros j d x Hd Hx. apply Hlk in Hx as [[-> ->]|[_ Hx]]; [|by eapply Hw]. rewrite Ed in Hd. injection Hd as <-. lia.
  - exists (chunks ++ [(i, take (w' - w) (drop w data))]). split; [|split].
    + rewrite Hb, app_assoc, Hc, fmap_app, concat_app. cbn. by rewrite app_nil_r.
    + apply Forall_app. split; [done|]. by apply Forall_singleton.
    + intros j d x Hd Hx. rewrite pieces_app, pieces_one. apply Hlk in Hx as [[-> ->]|[Hne Hx]].
      * rewrite Ed in Hd. injection Hd as <-. rewrite Nat.eqb_refl, (Hpc i data w Ed Ew), take_take_drop. by replace (w + (w' - w))%nat with w' by lia.
      * destruct (Nat.eqb_spec i j); [congruence|]. rewrite app_nil_r. by eapply Hpc.
Qed.

Lemma pstep_ok idle datas s op : stream_ok idle datas s -> pop_ok idle datas s op -> exists s', pstep datas s op = Some s' /\ stream_ok idle datas s'.
Proof.
  intros Hok Hop. destruct op as [i|len| |op]; [by apply stream_send| | |]; destruct Hok as [Hk Hp Hs Hw (chunks & Hc & Hf & Hpc)]; cbn [pop_ok pstep] in *.
  - destruct (pipe_recv_spec idle (ps_kernel s) (ps_pipe s) len Hk Hop Hp) as (o & k' & p' & -> & Hk' & Hp' & _ & Hb & _). eexists. split; [reflexivity|].
    split; [done|done|done|done|]. exists chunks. cbn. by rewrite <- app_assoc, <- Hb.
  - destruct (pipe_close_spec idle (ps_kernel s) (ps_pipe s) Hk Hp) as (k' & p' & -> & Hk' & Hp' & Hb & _). eexists. split; [reflexivity|].
    split; [done|done|done|done|]. exists chunks. cbn. by rewrite Hb.
  - destruct (kstep_ok idle _ op Hk Hop) as (k' & -> & Hk'). eexists. split; [reflexivity|]. split; [done|done|done|done|]. by exists chunks.
Qed.

Lemma preach_ok idle datas k0 s : kernel_ok idle k0 -> preach idle datas k0 s -> stream_ok idle datas s.
Proof.
  intros Hk. induction 1 as [|op s s' _ IH Hop Hs].
  - split; cbn [ps_kernel ps_pipe ps_sent ps_received]; [done|split; [done|cbn; lia]|by rewrite length_replicate| |].
    + intros i data w _ Hw. apply lookup_replicate in Hw as [-> _]. lia.
    + exists []. split_and!; [done|constructor|]. intros i data w _ Hw. apply lookup_replicate in Hw as [-> _]. done.
  - destruct (pstep_ok idle datas s op IH Hop) as (s1 & E & Hok). congruence.
Qed.

Lemma pieces_all i chunks : Forall (fun c : nat * list Z => c.1 = i) chunks -> pieces i chunks = concat (snd <$> chunks).
Proof. unfold pieces. induction 1 as [|[j bs] chunks Hj _ IH]; [done|]. cbn in *. subst. rewrite Nat.eqb_refl. cbn. by rewrite IH. Qed.

(** C13. A pipe carries the senders' bytes in order: through any interleaving of
    sends that may wait for room, receives that may wait for data, closing,
    and other steps of the system, what was received followed by what is
    buffered is made of pieces of which those of each sender, in order, are
    exactly the part of its data it has sent so far, so nothing is lost,
    duplicated or reordered; the buffer never exceeds its bound, no step
    panics, and a receive from a pipe that is not empty returns its front at
    once. *)
Theorem pipe_carries_streams idle datas k0 s :
  kernel_ok idle k0 -> preach idle datas k0 s ->
  (length (buffered (ps_pipe s)) <= PIPE_BUF)%nat /\
  (exists chunks, ps_received s ++ buffered (ps_pipe s) = concat (snd <$> chunks) /\
    forall i data w, datas !! i = Some data -> ps_sent s !! i = Some w -> (w <= length data)%nat /\ pieces i chunks = take w data) /\
  (forall data, datas = [data] -> exists w, ps_sent s = [w] /\ ps_received s ++ buffered (ps_pipe s) = take w data) /\
  (forall op, pop_ok idle datas s op -> is_Some (pstep datas s op)) /\
  (forall len, current (k_sched (ps_kernel s)) <> Some idle -> buffered (ps_pipe s) <> [] ->
    exists o k p, pipe_recv (ps_kernel s) (ps_pipe s) len = Some (o, k, p) /\ delivered o = take len (buffered (ps_pipe s)) /\ buffered p = drop len (buffered (ps_pipe s))).
Proof.
  intros Hk Hr. pose proof (preach_ok idle datas k0 s Hk Hr) as Hok. pose proof Hok as [Hk' Hp Hs Hw (chunks & Hc & Hf & Hpc)]. split_and!.
  - apply Hp.
  - exists chunks. split; [done|]. intros i data w Hd Hsi. split; [by eapply Hw|by eapply Hpc].
  - intros data ->. destruct (ps_sent s) as [|w [|? ?]] eqn:Es; try done. exists w. split; [done|]. rewrite Hc, <- (pieces_all 0); [by apply (Hpc 0%nat data w)|].
    apply (Forall_impl _ _ _ Hf). intros c. cbn. lia.
  - intros op Hop. destruct (pstep_ok idle datas s op Hok Hop) as (s' & E & _). by exists s'.
  - intros len Hi Hn. destruct (pipe_recv_spec idle _ _ len Hk' Hi Hp) as (o & k' & p' & E & _ & _ & _ & Hb & _ & Hd & _). exists o, k', p'. split; [done|]. split; [by apply Hd|].
    rewrite (Hd Hn) in Hb. rewrite <- (take_drop len (buffered (ps_pipe s))) in Hb at 1. by apply app_inv_head in Hb.
Qed.

Lemma pipe_carries_streams_witness : exists s, pstep [[1; 2; 3]] (mkP busy_kernel pipe_new [0%nat] []) (PSend 0) = Some s /\ ps_received s ++ buffered (ps_pipe s) = [1; 2; 3].
Proof.
  destruct (pstep [[1; 2; 3]] (mkP busy_kernel pipe_new [0%nat] []) (PSend 0)) as [s|] eqn:E; [|vm_compute in E; discriminate E]. exists s. split; [reflexivity|].
  assert (Hr : preach 0x300 [[1; 2; 3]] busy_kernel s) by (eapply preach_step; [apply preach_new| |exact E]; split; [cbn; lia|done]).
  destruct (pipe_carries_streams 0x300 [[1; 2; 3]] busy_kernel s busy_kernel_ok Hr) as (_ & _ & H & _). destruct (H _ eq_refl) as (w & Hw & ->).
  vm_compute in E. injection E as <-. cbn in Hw. injection Hw as <-. reflexivity.
Defined.
