(* ===== verification/PingPong.v ===== *)
(** The scheduler and monitor self-test ([ping_pong_task] of
    [kernel/src/main.rs]): two kernel tasks hand a turn back and forth through a
    monitor until a number of handoffs is reached, then exit.

    The two tasks run on top of the scheduler and of the monitor, with
    interrupts on.  A task's step runs until the next point at which the timer
    can take the processor from it: after the compare-and-exchange that takes
    the lock and before preemption is disabled, after the guard is dropped in a
    wait and before the scheduler is called, after the guard is dropped at the
    end of a handoff, and between the two halves of [exit].  From disabling
    preemption to dropping the guard [schedule] returns at once, so that stretch
    is one step; a timer interrupt that falls into it is taken to come at its
    end.  A step is taken only by the task the scheduler has made current.
    [None] is a panic. *)

From S2P Require Import Prelude X86 Task Sched Sync.

(* main.rs:49-49 PING_PONG_HANDOFFS *)
Definition PING_PONG_HANDOFFS : Z := 20.

(* main.rs:70-70 PingPongState *)
Record PingPongState := mkPing { turn : Z; count : Z }.

(* main.rs:71-71 PING_PONG *)
Definition PING_PONG : Monitor PingPongState := monitor_new (mkPing 0 0).

(** Where a task is: at the lock, with the lock taken and preemption not yet
    disabled, in a wait with the guard dropped, with the guard dropped after
    its last handoff, between the halves of [exit], or gone. *)
Inductive ping_pc := PingLock | PingEnter | PingYield | PingExit | PingLeave (parent_pid : option Z) | PingGone.

(** What a step does that can be seen: the task waits, makes a handoff, or
    prints the number of handoffs. *)
Inductive ping_event := PingWaited (my_turn : Z) | PingHanded (my_turn : Z) | PingPrinted (my_turn n : Z).

(** [wait] of the monitor until the guard is dropped. *)
(* sync/monitor.rs:28-30 wait *)
Definition monitor_park {A} (k : kernel) (m : Monitor A) : option (kernel * Monitor A) :=
  '(k, c, l) ← condvar_park k (mon_cond m) (mon_lock m); Some (k, mkMonitor l c).

(** With the lock taken: the test of the loop, and a wait or a handoff. *)
(* main.rs:397-403 ping_pong_task *)
Definition ping_pong_guarded (my_turn : Z) (k : kernel) (m : Monitor PingPongState)
    : option (ping_pc * kernel * Monitor PingPongState * list ping_event) :=
  let k := preempt_disable k in
  let guard := sl_data (mon_lock m) in
  if negb (turn guard =? my_turn) then '(k, m) ← monitor_park k m; Some (PingYield, k, m, [PingWaited my_turn])
  else
    n ← uadd 32 (count guard) 1;
    let done := PING_PONG_HANDOFFS <=? n in
    other ← usub 8 1 my_turn;
    let m := mkMonitor (mkSpinlock (sl_locked (mon_lock m)) (mkPing other n)) (mon_cond m) in
    '(k, m) ← monitor_broadcast k m;
    let '(k, l) := spin_unlock k (mon_lock m) in
    Some (if done then PingExit else PingLock, k, mkMonitor l (mon_cond m), PingHanded my_turn :: if done then [PingPrinted my_turn n] else []).

(** One step of a task.  A turn of the loop on a lock that is held changes
    nothing. *)
(* main.rs:394-406 ping_pong_task *)
Definition ping_pong_task (my_turn : Z) (pc : ping_pc) (k : kernel) (m : Monitor PingPongState)
    : option (ping_pc * kernel * Monitor PingPongState * list ping_event) :=
  match pc with
  | PingLock =>
      let '(taken, l) := spin_cas (mon_lock m) in
      Some (if (taken : bool) then PingEnter else PingLock, k, mkMonitor l (mon_cond m), [])
  | PingEnter => ping_pong_guarded my_turn k m
  | PingYield => '(k, _) ← schedule k; Some (PingLock, k, m, [])
  | PingExit => '(k, parent_pid) ← exit_mark k 0; Some (PingLeave parent_pid, k, m, [])
  | PingLeave parent_pid => '(k, _) ← exit_leave k parent_pid; Some (PingGone, k, m, [])
  | PingGone => Some (PingGone, k, m, [])
  end.

(** ** Runs *)

Inductive side := PingA | PingB.
#[export] Instance side_eq : EqDecision side.
Proof. solve_decision. Defined.

(* main.rs:408-409 ping_pong_a *)
Definition my_turn_of (i : side) : Z := match i with PingA => 0 | PingB => 1 end.

(** The kernel, the monitor, where the two tasks are, and what they did. *)
Record ppstate := mkPp { pp_kernel : kernel; pp_mon : Monitor PingPongState; pp_pc : side -> ping_pc; pp_events : list ping_event }.

(** The processor takes a timer interrupt, or the current task makes a step. *)
Inductive ppevent := PpTick | PpRun.
#[export] Instance ppevent_eq : EqDecision ppevent.
Proof. solve_decision. Defined.

Section runs.
(** The addresses of the two tasks. *)
Context (la lb : Z).

Definition addr (i : side) : Z := match i with PingA => la | PingB => lb end.

Definition set_pc (f : side -> ping_pc) (i : side) (pc : ping_pc) : side -> ping_pc := fun j => if decide (j = i) then pc else f j.

Definition side_step (s : ppstate) (i : side) : option ppstate :=
  '(pc, k, m, evs) ← ping_pong_task (my_turn_of i) (pp_pc s i) (pp_kernel s) (pp_mon s);
  Some (mkPp k m (set_pc (pp_pc s) i pc) (pp_events s ++ evs)).

(** The other tasks halt, or yield as the reaper does. *)
Definition ppstep (s : ppstate) (e : ppevent) : option ppstate :=
  match e with
  | PpTick => '(k, _) ← timer_handler (pp_kernel s); Some (mkPp k (pp_mon s) (pp_pc s) (pp_events s))
  | PpRun =>
      l ← current (k_sched (pp_kernel s));
      if l =? la then side_step s PingA else if l =? lb then side_step s PingB
      else '(k, _) ← schedule (pp_kernel s); Some (mkPp k (pp_mon s) (pp_pc s) (pp_events s))
  end.

Fixpoint ppruns (s : ppstate) (es : list ppevent) : option ppstate :=
  match es with
  | [] => Some s
  | e :: es => s ← ppstep s e; ppruns s es
  end.

Definition ppstart (k : kernel) : ppstate := mkPp k PING_PONG (fun _ => PingLock) [].

Definition ppticks (es : list ppevent) : Z := Z.of_nat (length (filter (fun e => e = PpTick) es)).

(** ** What the events say *)

Definition handed (evs : list ping_event) : list Z := omap (fun e => match e with PingHanded i => Some i | _ => None end) evs.
Definition printed (evs : list ping_event) : list (Z * Z) := omap (fun e => match e with PingPrinted i n => Some (i, n) | _ => None end) evs.

(** Who has waited since the last handoff. *)
Definition waiting (evs : list ping_event) : list Z :=
  foldl (fun ws e => match e with PingWaited i => ws ++ [i] | PingHanded _ => [] | PingPrinted _ _ => ws end) [] evs.

Definition alternating (n : nat) : list Z := (fun j => Z.of_nat j mod 2) <$> seq 0 n.

(** What has been printed after [n] handoffs. *)
Definition printed_after (n : nat) : list (Z * Z) := (if (20 <=? n)%nat then [(1, 20)] else []) ++ (if (21 <=? n)%nat then [(0, 21)] else []).

(** Whether a task has made its last handoff. *)
Definition last_made (i : side) (n : nat) : bool := match i with PingA => (21 <=? n)%nat | PingB => (20 <=? n)%nat end.

Definition leaving (pc : ping_pc) : bool := match pc with PingExit | PingLeave _ | PingGone => true | _ => false end.
Definition entered (pc : ping_pc) : bool := match pc with PingEnter => true | _ => false end.

(** ** The kernel around the two tasks *)

(** The boot task and the idle task, which are always runnable, and the
    identifiers of the two tasks. *)
Context (l0 l1 ta tb : Z).

Definition id_of (i : side) : Z := match i with PingA => ta | PingB => tb end.

(** What holds at every switch: the two tasks are registered, nobody waits for
    them, and a task that has not exited is queued or running. *)
Record frame (pcs : side -> ping_pc) (k : kernel) : Prop := mkFrame {
  fr_sched : mlfq_ok (k_tasks k) (k_sched k);
  fr_preempt : k_preempt k = 0;
  fr_ticks : 0 <= total_ticks (k_sched k);
  fr_others : l0 ∈ runnable (k_sched k) /\ l1 ∈ runnable (k_sched k);
  fr_task i : exists t, k_tasks k !! addr i = Some t /\ tid t = id_of i /\ parent t = None;
  fr_table i : k_table k !! id_of i = Some (addr i);
  fr_live i : pcs i <> PingGone -> addr i ∈ runnable (k_sched k);
  fr_parked i t : addr i ∉ runnable (k_sched k) -> k_tasks k !! addr i = Some t -> state t <> Blocked;
  fr_parent i p : pcs i = PingLeave p -> p = None
}.

(** A task is marked blocked only while it runs, between marking itself and the
    switch. *)
Record world (pcs : side -> ping_pc) (k : kernel) : Prop := mkWorld {
  wo_frame : frame pcs k;
  wo_current : is_Some (current (k_sched k));
  wo_blocked i t : k_tasks k !! addr i = Some t -> state t = Blocked -> pcs i = PingYield /\ current (k_sched k) = Some (addr i)
}.

Context (Hl01 : l0 <> l1) (Hab : la <> lb) (H0a : l0 <> la) (H0b : l0 <> lb) (H1a : l1 <> la) (H1b : l1 <> lb).

Lemma addr_inj i j : addr i = addr j -> i = j.
Proof. destruct i, j; simpl; congruence. Qed.

Lemma frame_queued pcs k : frame pcs k -> concat (queues (k_sched k)) <> [].
Proof.
  intros Hf E. destruct (fr_others _ _ Hf) as [Ho0 Ho1]. unfold runnable in Ho0, Ho1. rewrite E, app_nil_r in Ho0, Ho1.
  destruct (current (k_sched k)) as [c|]; [|by apply not_elem_of_nil in Ho0]. apply list_elem_of_singleton in Ho0, Ho1. congruence.
Qed.

(** After a switch, or a call of the scheduler that found none necessary. *)
Lemma frame_settles pcs k k' :
  frame pcs k -> moved k k' -> mlfq_ok (k_tasks k') (k_sched k') -> is_Some (current (k_sched k')) -> settled k' ->
  total_ticks (k_sched k) <= total_ticks (k_sched k') -> world pcs k'.
Proof.
  intros [A1 A2 A3 [A4 A4'] A5 A6 A7 A8 A9] [M1 M2 M3 M4 M5] Hok Hcur Hset Ht.
  assert (Hnb : forall i t, k_tasks k' !! addr i = Some t -> state t <> Blocked).
  { intros i t Hti. destruct (decide (addr i ∈ runnable (k_sched k'))) as [Hin|Hin].
    - unfold runnable in Hin. apply elem_of_app in Hin as [Hin|Hin].
      + destruct (current (k_sched k')) as [c|] eqn:Hc; [|by apply not_elem_of_nil in Hin]. apply list_elem_of_singleton in Hin as <-. by apply (Hset _ t Hc).
      + apply elem_of_concat in Hin as (j & q & Hj & Hq). destruct (ok_queued _ _ Hok j q _ Hj Hq) as (u & Hu & _ & Hs). congruence.
    - rewrite M1 in Hin. rewrite M5 in Hti by done. by apply (A8 i). }
  split; [|done|intros i t Hti Hs; by apply Hnb in Hti]. split; [done|congruence|lia|by rewrite M1| |by rewrite M2|intros i; rewrite M1; apply A7| |done].
  - intros i. destruct (A5 i) as (t & Hti & Hid & Hpa). specialize (M4 (addr i)). rewrite Hti in M4. destruct (k_tasks k' !! addr i) as [t'|]; [|done].
    exists t'. split; [done|]. apply (inj Some) in M4. destruct t, t'. unfold identity, with_run in M4. cbn in *. injection M4. intros. by subst.
  - intros i t _. apply Hnb.
Qed.

Lemma frame_schedules pcs k : frame pcs k -> (current (k_sched k) = None -> needs_reschedule (k_sched k) = true) ->
  exists k' sw, schedule k = Some (k', sw) /\ world pcs k' /\ total_ticks (k_sched k') = total_ticks (k_sched k).
Proof.
  intros Hf Hn. pose proof (frame_queued _ _ Hf) as Hq. destruct (schedule_moved k (fr_sched _ _ Hf) (fr_preempt _ _ Hf) Hq Hn) as (k' & sw & E & Hm & Hok & Hc & Ht).
  exists k', sw. split; [done|]. split; [|done]. apply (frame_settles pcs k); try done; [|lia]. eapply schedule_settled; [| | |exact E]; [apply Hf|apply Hf|done].
Qed.

Lemma world_schedules pcs k : world pcs k -> exists k' sw, schedule k = Some (k', sw) /\ world pcs k' /\ total_ticks (k_sched k') = total_ticks (k_sched k).
Proof. intros [Hf [c Hc] _]. apply frame_schedules; [done|by rewrite Hc]. Qed.

Lemma world_ticks pcs k : world pcs k -> total_ticks (k_sched k) + 1 < 2 ^ 32 ->
  exists k' sw, timer_handler k = Some (k', sw) /\ world pcs k' /\ total_ticks (k_sched k') = total_ticks (k_sched k) + 1.
Proof.
  intros [Hf [c Hc] _] Hn. pose proof (frame_queued _ _ Hf) as Hq. destruct (timer_moved k c (fr_sched _ _ Hf) (fr_preempt _ _ Hf) Hq Hc (fr_ticks _ _ Hf) Hn) as (k' & sw & E & Hm & Hok & Hc' & Ht).
  exists k', sw. split; [done|]. split; [|done]. apply (frame_settles pcs k); try done; [|lia]. eapply timer_settled; [| | | | | |exact E]; try done; apply Hf.
Qed.

Lemma frame_pc pcs k i pc :
  frame pcs k -> (pc <> PingGone -> pcs i <> PingGone) -> (forall p, pc = PingLeave p -> p = None) -> frame (set_pc pcs i pc) k.
Proof.
  intros [A1 A2 A3 A4 A5 A6 A7 A8 A9] Hg Hp. split; try done; unfold set_pc.
  - intros j Hj. apply A7. case_decide; [by subst; auto|done].
  - intros j p Hj. case_decide; [by apply Hp|by eapply A9].
Qed.

(** The place of a task that is not in the middle of a wait changes. *)
Lemma world_pc pcs k i pc :
  world pcs k -> (pc <> PingGone -> pcs i <> PingGone) -> (pcs i = PingYield -> pc = PingYield) -> (forall p, pc = PingLeave p -> p = None) -> world (set_pc pcs i pc) k.
Proof.
  intros [Hf Hc Hb] Hg Hy Hp. split; [by apply frame_pc|done|].
  intros j t Ht Hs. destruct (Hb j t Ht Hs) as [Hj Hcj]. split; [|done]. unfold set_pc. case_decide as Ej; [|done]. subst j. auto.
Qed.

(** The running task marks itself. *)
Lemma world_marks pcs k i t st code pc :
  world pcs k -> current (k_sched k) = Some (addr i) -> k_tasks k !! addr i = Some t -> pcs i <> PingGone ->
  (st = Blocked -> pc = PingYield) -> (forall p, pc = PingLeave p -> p = None) ->
  world (set_pc pcs i pc) (set_tasks k (<[addr i := with_run t st (priority t) code]> (k_tasks k))).
Proof.
  intros [Hf [c Hc] Hb] Hci Hti Hg Hst Hp. destruct Hf as [A1 A2 A3 A4 A5 A6 A7 A8 A9]. destruct (ok_current _ _ A1 _ Hci) as (t' & Ht' & Hpr).
  rewrite Hti in Ht'. injection Ht' as <-. assert (Hin : addr i ∈ runnable (k_sched k)) by by apply current_runnable. split; [split|done|]; cbn [set_tasks k_tasks k_sched k_table k_preempt]; try done.
  - by apply mlfq_ok_current.
  - intros j. destruct (A5 j) as (u & Hu & Hid & Hpa). destruct (decide (j = i)) as [->|Hj]; [|rewrite lookup_insert_ne by (intros E; by apply addr_inj in E; subst); eauto].
    rewrite lookup_insert_eq. eexists. split; [done|]. rewrite Hti in Hu. by injection Hu as <-.
  - intros j Hj. apply A7. unfold set_pc in Hj. case_decide; [by subst|done].
  - intros j u Hn Hu. rewrite lookup_insert_ne in Hu by (intros E; apply Hn; by rewrite <- E). by apply (A8 j).
  - intros j p Hj. unfold set_pc in Hj. case_decide; [by apply Hp|by eapply A9].
  - intros j u Hu Hs. unfold set_pc. destruct (decide (j = i)) as [->|Hj].
    + rewrite lookup_insert_eq in Hu. injection Hu as <-. auto.
    + rewrite lookup_insert_ne in Hu by (intros E; by apply addr_inj in E; subst). destruct (Hb j u Hu Hs) as [_ Hcj]. rewrite Hci in Hcj. injection Hcj as E. by apply addr_inj in E; subst.
Qed.

Lemma set_pc_eq f i pc : set_pc f i pc i = pc.
Proof. unfold set_pc. by rewrite decide_True. Qed.
Lemma set_pc_ne f i pc j : j <> i -> set_pc f i pc j = f j.
Proof. intros. unfold set_pc. by rewrite decide_False. Qed.

(** ** Who holds the lock *)

Definition holders (pcs : side -> ping_pc) : bool := entered (pcs PingA) || entered (pcs PingB).
Definition alone (pcs : side -> ping_pc) : bool := negb (entered (pcs PingA) && entered (pcs PingB)).

Lemma holders_keep pcs i pc : entered pc = entered (pcs i) -> holders (set_pc pcs i pc) = holders pcs /\ alone (set_pc pcs i pc) = alone pcs.
Proof. intros E. unfold holders, alone. destruct i; rewrite set_pc_eq, set_pc_ne by done; by rewrite E. Qed.

Lemma holders_take pcs i pc : holders pcs = false -> entered pc = true -> holders (set_pc pcs i pc) = true /\ alone (set_pc pcs i pc) = true.
Proof.
  unfold holders, alone. intros [Ea Eb]%orb_false_iff E. destruct i; rewrite set_pc_eq, set_pc_ne, E by done; [by rewrite Eb|by rewrite Ea, orb_true_r].
Qed.

Lemma holders_release pcs i pc : alone pcs = true -> entered (pcs i) = true -> entered pc = false -> holders (set_pc pcs i pc) = false /\ alone (set_pc pcs i pc) = true.
Proof.
  unfold holders, alone. intros Ha%negb_true_iff Ei E. destruct i; rewrite set_pc_eq, set_pc_ne, E by done; rewrite Ei in Ha; [cbn in Ha; by rewrite Ha|rewrite andb_true_r in Ha; by rewrite Ha].
Qed.

(** ** Counting *)

Lemma alternating_S n : alternating (S n) = alternating n ++ [Z.of_nat n mod 2].
Proof. unfold alternating. by rewrite seq_S, fmap_app. Qed.

Lemma alternating_length n : length (alternating n) = n.
Proof. unfold alternating. by rewrite length_fmap, length_seq. Qed.

Lemma handoff_counts i n :
  (n <= 21)%nat -> Z.of_nat n mod 2 = my_turn_of i -> last_made i n = false ->
  (n < 21)%nat /\ 1 - my_turn_of i = Z.of_nat (S n) mod 2 /\
  leaving (if PING_PONG_HANDOFFS <=? Z.of_nat n + 1 then PingExit else PingLock) = last_made i (S n) /\
  (forall j, j <> i -> last_made j (S n) = last_made j n) /\
  printed_after (S n) = printed_after n ++ (if PING_PONG_HANDOFFS <=? Z.of_nat n + 1 then [(my_turn_of i, Z.of_nat n + 1)] else []).
Proof.
  intros Hn Ht Hl. assert (Hlt : (n < 21)%nat) by (destruct (decide (n = 21%nat)) as [->|]; [by destruct i|lia]). split; [done|]. clear Hn.
  do 21 (destruct n as [|n]; [destruct i; try (vm_compute in Ht; discriminate Ht); try (vm_compute in Hl; discriminate Hl);
    (split; [reflexivity|]; split; [reflexivity|]; split; [by intros []|reflexivity])|]). lia.
Qed.

Lemma handed_app evs evs' : handed (evs ++ evs') = handed evs ++ handed evs'.
Proof. apply omap_app. Qed.
Lemma printed_app evs evs' : printed (evs ++ evs') = printed evs ++ printed evs'.
Proof. apply omap_app. Qed.

(** ** The invariant *)

(** The waiter a turn stands for. *)
Definition turn_id (t : Z) : Z := if t =? 0 then ta else tb.

Lemma turn_id_of i : turn_id (my_turn_of i) = id_of i.
Proof. by destruct i. Qed.

Record pp_ok (s : ppstate) (n : nat) : Prop := mkPpOk {
  ppk_world : world (pp_pc s) (pp_kernel s);
  ppk_lock : sl_locked (mon_lock (pp_mon s)) = holders (pp_pc s);
  ppk_alone : alone (pp_pc s) = true;
  ppk_bound : (n <= 21)%nat;
  ppk_data : sl_data (mon_lock (pp_mon s)) = mkPing (Z.of_nat n mod 2) (Z.of_nat n);
  ppk_handed : handed (pp_events s) = alternating n;
  ppk_printed : printed (pp_events s) = printed_after n;
  ppk_waiting : cv_waiters (mon_cond (pp_mon s)) = turn_id <$> waiting (pp_events s);
  ppk_leaving i : leaving (pp_pc s i) = last_made i n
}.

(** A step that neither waits nor hands over, nor takes or frees the lock. *)
Lemma quiet_step s n i pc k' :
  pp_ok s n -> entered pc = entered (pp_pc s i) -> leaving pc = leaving (pp_pc s i) -> world (set_pc (pp_pc s) i pc) k' ->
  pp_ok (mkPp k' (pp_mon s) (set_pc (pp_pc s) i pc) (pp_events s ++ [])) n.
Proof.
  intros [A1 A2 A3 A4 A5 A6 A7 A8 A9] He Hl Hw. destruct (holders_keep (pp_pc s) i pc He) as [Eh Ea]. rewrite app_nil_r.
  split; cbn [pp_kernel pp_mon pp_pc pp_events]; try done; [congruence|congruence|].
  intros j. destruct (decide (j = i)) as [->|Hj]; [by rewrite set_pc_eq, Hl|by rewrite set_pc_ne].
Qed.

Lemma lock_step s n i : pp_ok s n -> pp_pc s i = PingLock ->
  exists s', side_step s i = Some s' /\ pp_ok s' n /\ pp_kernel s' = pp_kernel s /\ (sl_locked (mon_lock (pp_mon s)) = false -> pp_pc s' i = PingEnter).
Proof.
  intros Hok Hpc. unfold side_step. rewrite Hpc. cbn [ping_pong_task]. unfold spin_cas. destruct (sl_locked (mon_lock (pp_mon s))) eqn:El; cbn [mbind option_bind]; eexists; (split; [reflexivity|]).
  - split; [|by split]. replace (mkMonitor (mon_lock (pp_mon s)) (mon_cond (pp_mon s))) with (pp_mon s) by (by destruct (pp_mon s)).
    apply quiet_step; [done|by rewrite Hpc|by rewrite Hpc|]. apply world_pc; [apply Hok|by rewrite Hpc|by rewrite Hpc|done].
  - split; [|split; [done|intros _; cbn; by rewrite set_pc_eq]]. destruct Hok as [A1 A2 A3 A4 A5 A6 A7 A8 A9]. rewrite El in A2. symmetry in A2.
    destruct (holders_take (pp_pc s) i PingEnter A2 eq_refl) as [Eh Ea]. rewrite app_nil_r.
    split; cbn [pp_kernel pp_mon pp_pc pp_events mon_lock mon_cond sl_locked sl_data]; try done.
    + apply world_pc; [done|by rewrite Hpc|by rewrite Hpc|done].
    + intros j. destruct (decide (j = i)) as [->|Hj]; [rewrite set_pc_eq, <- A9; by rewrite Hpc|by rewrite set_pc_ne].
Qed.

(** Nobody is blocked, so the broadcast only empties the queue. *)
Lemma broadcast_wakes_nobody pcs k i ids :
  world pcs k -> current (k_sched k) = Some (addr i) -> pcs i <> PingYield -> unblock_all (preempt_disable k) (turn_id <$> ids) = Some (preempt_disable k).
Proof.
  intros [Hf _ Hb] Hc Hy. induction ids as [|t ids IH]; [done|]. cbn [fmap list_fmap unblock_all].
  assert (Hu : unblock_tid (preempt_disable k) (turn_id t) = Some (preempt_disable k)); [|by rewrite Hu].
  assert (exists j, turn_id t = id_of j) as [j ->] by (unfold turn_id; destruct (t =? 0); [by exists PingA|by exists PingB]).
  unfold unblock_tid. cbn [preempt_disable set_preempt k_table k_tasks]. rewrite (fr_table _ _ Hf j). destruct (fr_task _ _ Hf j) as (u & Hu & _). rewrite Hu. cbn [mbind option_bind].
  destruct (state u) eqn:Es; try done. destruct (Hb j u Hu Es) as [Hy' Hc']. rewrite Hc in Hc'. injection Hc' as E. apply addr_inj in E. subst. done.
Qed.

Lemma preempt_round k : k_preempt k = 0 -> preempt_enable (preempt_disable k) = k.
Proof. intros Hp. unfold preempt_enable, preempt_disable, set_preempt. cbn. rewrite Hp. destruct k. cbn in *. by subst. Qed.

Lemma world_running pcs k i : world pcs k -> current (k_sched k) = Some (addr i) ->
  exists t, k_tasks k !! addr i = Some t /\ current_tid k = Some (id_of i) /\ tid t = id_of i /\ parent t = None.
Proof.
  intros [Hf _ _] Hc. destruct (fr_task _ _ Hf i) as (t & Ht & Hid & Hp). exists t. split; [done|]. split; [|done]. unfold current_tid. rewrite Hc. cbn [mbind option_bind]. rewrite Ht. cbn. by rewrite Hid.
Qed.

Lemma wait_step s n i : pp_ok s n -> pp_pc s i = PingEnter -> current (k_sched (pp_kernel s)) = Some (addr i) -> Z.of_nat n mod 2 <> my_turn_of i ->
  exists s', side_step s i = Some s' /\ pp_ok s' n /\ k_sched (pp_kernel s') = k_sched (pp_kernel s).
Proof.
  intros Hok Hpc Hc Ht. pose proof Hok as [A1 A2 A3 A4 A5 A6 A7 A8 A9]. destruct (world_running _ _ i A1 Hc) as (t & Hti & Hct & Hid & _).
  unfold side_step. rewrite Hpc. cbn [ping_pong_task]. unfold ping_pong_guarded. rewrite A5. cbn [turn]. rewrite (proj2 (Z.eqb_neq _ _) Ht). cbn [negb].
  unfold monitor_park, condvar_park. change (current_tid (preempt_disable _)) with (current_tid (pp_kernel s)). rewrite Hct. cbn [mbind option_bind].
  unfold mark_blocked. cbn [preempt_disable set_preempt k_table k_tasks]. rewrite (fr_table _ _ (wo_frame _ _ A1) i), Hti. cbn [mbind option_bind spin_unlock].
  set (k' := preempt_enable _). assert (Hk : k' = set_tasks (pp_kernel s) (<[addr i := with_run t Blocked (priority t) (exit_code t)]> (k_tasks (pp_kernel s)))).
  { unfold k', preempt_enable, set_tasks, set_preempt. cbn. by rewrite (fr_preempt _ _ (wo_frame _ _ A1)). }
  clearbody k'. subst k'. destruct (holders_release (pp_pc s) i PingYield A3 ltac:(by rewrite Hpc) eq_refl) as [Eh Ea].
  eexists. split; [reflexivity|]. split; [|done]. split; cbn [pp_kernel pp_mon pp_pc pp_events mon_lock mon_cond sl_locked sl_data]; try done.
  - apply world_marks; try done; by rewrite Hpc.
  - rewrite handed_app, A6. apply app_nil_r.
  - rewrite printed_app, A7. apply app_nil_r.
  - cbn [cv_waiters]. unfold waiting. rewrite foldl_app. cbn. rewrite fmap_app. cbn. by rewrite A8, turn_id_of.
  - intros j. destruct (decide (j = i)) as [->|Hj]; [rewrite set_pc_eq, <- A9; by rewrite Hpc|by rewrite set_pc_ne].
Qed.

Lemma handoff_step s n i : pp_ok s n -> pp_pc s i = PingEnter -> current (k_sched (pp_kernel s)) = Some (addr i) -> Z.of_nat n mod 2 = my_turn_of i ->
  exists s', side_step s i = Some s' /\ pp_ok s' (S n) /\ pp_kernel s' = pp_kernel s.
Proof.
  intros Hok Hpc Hc Ht. pose proof Hok as [A1 A2 A3 A4 A5 A6 A7 A8 A9].
  destruct (handoff_counts i n A4 Ht) as (Hlt & Hturn & Hlv & Hoth & Hpr); [rewrite <- A9; by rewrite Hpc|]. pose proof (fr_preempt _ _ (wo_frame _ _ A1)) as Hp0.
  unfold side_step. rewrite Hpc. cbn [ping_pong_task]. unfold ping_pong_guarded. rewrite A5. cbn [turn count]. rewrite Ht, Z.eqb_refl. cbn [negb].
  unfold uadd, usub. rewrite (uchk_fits 32) by (unfold fits; lia). cbn [mbind option_bind]. rewrite (uchk_fits 8) by (unfold fits; destruct i; cbn; lia). cbn [mbind option_bind].
  unfold monitor_broadcast, condvar_broadcast. cbn [mon_cond mon_lock]. rewrite A8, (broadcast_wakes_nobody _ _ i _ A1 Hc) by (by rewrite Hpc). cbn [mbind option_bind spin_unlock mon_lock mon_cond sl_data].
  rewrite (preempt_round _ Hp0). set (pc := if PING_PONG_HANDOFFS <=? Z.of_nat n + 1 then PingExit else PingLock) in *.
  assert (Hpe : entered pc = false /\ (forall p, pc <> PingLeave p)) by (unfold pc; by destruct (_ <=? _)). destruct Hpe as [Hpe Hpl].
  destruct (holders_release (pp_pc s) i pc A3 ltac:(by rewrite Hpc) Hpe) as [Eh Ea].
  eexists. split; [reflexivity|]. split; [|done]. split; cbn [pp_kernel pp_mon pp_pc pp_events mon_lock mon_cond sl_locked sl_data]; try done.
  - apply world_pc; [done|by rewrite Hpc|by rewrite Hpc|]. intros p E. by apply Hpl in E.
  - rewrite Hturn. f_equal. lia.
  - rewrite handed_app, A6, alternating_S, Ht. f_equal. cbn. by destruct (_ <=? _).
  - rewrite printed_app, A7, Hpr. f_equal. cbn. by destruct (_ <=? _).
  - cbn [cv_waiters]. unfold waiting. rewrite foldl_app. cbn. by destruct (_ <=? _).
  - intros j. destruct (decide (j = i)) as [->|Hj]; [by rewrite set_pc_eq|by rewrite set_pc_ne, Hoth].
Qed.

(** Leaving the scheduler: everybody else stays where they are. *)
Lemma leave_step s n i : pp_ok s n -> pp_pc s i = PingLeave None -> current (k_sched (pp_kernel s)) = Some (addr i) ->
  exists k' sw, exit_leave (pp_kernel s) None = Some (k', sw) /\ world (set_pc (pp_pc s) i PingGone) k' /\ total_ticks (k_sched k') = total_ticks (k_sched (pp_kernel s)).
Proof.
  intros Hok Hpc Hc. destruct (ppk_world _ _ Hok) as [[A1 A2 A3 [A4 A4'] A5 A6 A7 A8 A9] _ Hb]. unfold exit_leave. cbn [mbind option_bind]. set (k1 := set_sched _ _ _).
  assert (Ks : k_sched k1 = mkSched (queues (k_sched (pp_kernel s))) None 0 (total_ticks (k_sched (pp_kernel s))) true) by (cbn; unfold mlfq_remove_current; by rewrite Hc).
  assert (Hr : forall l, l ∈ runnable (k_sched (pp_kernel s)) -> l <> addr i -> l ∈ runnable (k_sched k1)).
  { intros l Hl Hne. rewrite Ks. unfold runnable in *. rewrite Hc in Hl. cbn in *. apply elem_of_cons in Hl as [?|Hl]; done. }
  destruct (frame_schedules (set_pc (pp_pc s) i PingGone) k1) as (k' & sw & E & Hw & Ht).
  - split; rewrite ?Ks; try done.
    + destruct A1 as [B1 B2 B3 B4 B5]. split; [done| |done|done|cbn; lia]. unfold runnable in *. rewrite Hc in B2. by apply NoDup_cons in B2 as [].
    + split; rewrite <- Ks; apply Hr; try done; destruct i; cbn; congruence.
    + intros j Hj. rewrite <- Ks. destruct (decide (j = i)) as [->|Hne]; [by rewrite set_pc_eq in Hj|]. rewrite set_pc_ne in Hj by done. apply Hr; [by apply A7|]. intros Ej. by apply addr_inj in Ej.
    + intros j t _ Ht Hs. destruct (Hb j t Ht Hs) as [Hy Hcj]. rewrite Hc in Hcj. injection Hcj as Ej. apply addr_inj in Ej. subst. congruence.
    + intros j p Hj. destruct (decide (j = i)) as [->|Hne]; [by rewrite set_pc_eq in Hj|]. rewrite set_pc_ne in Hj by done. by eapply A9.
  - rewrite Ks. done.
  - exists k', sw. split; [done|]. split; [done|]. by rewrite Ht, Ks.
Qed.

Lemma side_ok s n i : pp_ok s n -> current (k_sched (pp_kernel s)) = Some (addr i) ->
  exists s' n', side_step s i = Some s' /\ pp_ok s' n' /\ total_ticks (k_sched (pp_kernel s')) = total_ticks (k_sched (pp_kernel s)).
Proof.
  intros Hok Hc. pose proof (ppk_world _ _ Hok) as Hw. destruct (pp_pc s i) as [| | | |p|] eqn:Hpc.
  - destruct (lock_step s n i Hok Hpc) as (s' & E & Hok' & Hk & _). exists s', n. by rewrite Hk.
  - destruct (decide (Z.of_nat n mod 2 = my_turn_of i)) as [Ht|Ht].
    + destruct (handoff_step s n i Hok Hpc Hc Ht) as (s' & E & Hok' & Hk). exists s', (S n). by rewrite Hk.
    + destruct (wait_step s n i Hok Hpc Hc Ht) as (s' & E & Hok' & Hk). exists s', n. by rewrite Hk.
  - unfold side_step. rewrite Hpc. cbn [ping_pong_task].
    destruct (frame_schedules (set_pc (pp_pc s) i PingLock) (pp_kernel s)) as (k' & sw & -> & Hw' & Ht); [apply frame_pc; [apply Hw|by rewrite Hpc|done]|by rewrite Hc|].
    eexists _, n. split; [reflexivity|]. split; [|done]. by apply quiet_step; rewrite ?Hpc.
  - unfold side_step. rewrite Hpc. cbn [ping_pong_task]. destruct (world_running _ _ i Hw Hc) as (t & Hti & Hct & _ & Hpa). unfold exit_mark. rewrite Hct. cbn [mbind option_bind].
    rewrite (fr_table _ _ (wo_frame _ _ Hw) i), Hti. cbn [mbind option_bind]. rewrite Hpa. eexists _, n. split; [reflexivity|]. split; [|done].
    apply quiet_step; rewrite ?Hpc; try done. apply world_marks; try done; [by rewrite Hpc|by intros ? [= ->]].
  - assert (p = None) as -> by (by eapply (fr_parent _ _ (wo_frame _ _ Hw))). destruct (leave_step s n i Hok Hpc Hc) as (k' & sw & E & Hw' & Ht).
    unfold side_step. rewrite Hpc. cbn [ping_pong_task]. rewrite E. eexists _, n. split; [reflexivity|]. split; [|done]. by apply quiet_step; rewrite ?Hpc.
  - unfold side_step. rewrite Hpc. cbn [ping_pong_task]. eexists _, n. split; [reflexivity|]. split; [|done]. apply quiet_step; rewrite ?Hpc; try done. by apply world_pc; rewrite ?Hpc.
Qed.

Lemma run_side s i : current (k_sched (pp_kernel s)) = Some (addr i) -> ppstep s PpRun = side_step s i.
Proof. intros Hc. cbn [ppstep]. rewrite Hc. cbn [mbind option_bind]. destruct i; cbn [addr]; [by rewrite Z.eqb_refl|]. by rewrite (proj2 (Z.eqb_neq lb la)), Z.eqb_refl. Qed.

Lemma other_step s n k' : pp_ok s n -> world (pp_pc s) k' -> pp_ok (mkPp k' (pp_mon s) (pp_pc s) (pp_events s)) n.
Proof. intros [A1 A2 A3 A4 A5 A6 A7 A8 A9] Hw. by split. Qed.

Lemma ppstep_ok s n e : pp_ok s n -> (e = PpTick -> total_ticks (k_sched (pp_kernel s)) + 1 < 2 ^ 32) ->
  exists s' n', ppstep s e = Some s' /\ pp_ok s' n' /\ total_ticks (k_sched (pp_kernel s')) = total_ticks (k_sched (pp_kernel s)) + ppticks [e].
Proof.
  intros Hok Hn. pose proof (ppk_world _ _ Hok) as Hw. destruct e.
  - destruct (world_ticks _ _ Hw (Hn eq_refl)) as (k' & sw & E & Hw' & Ht). cbn [ppstep]. rewrite E. eexists _, n. split; [reflexivity|]. split; [by apply other_step|exact Ht].
  - change (ppticks [PpRun]) with 0. setoid_rewrite Z.add_0_r. destruct (wo_current _ _ Hw) as [c Hc]. destruct (decide (c = la)) as [->|Ha].
    { rewrite (run_side s PingA Hc). by apply (side_ok s n PingA). }
    destruct (decide (c = lb)) as [->|Hb]; [rewrite (run_side s PingB Hc); by apply (side_ok s n PingB)|].
    cbn [ppstep]. rewrite Hc. cbn [mbind option_bind]. rewrite !(proj2 (Z.eqb_neq c _)) by done.
    destruct (world_schedules _ _ Hw) as (k' & sw & -> & Hw' & Ht). eexists _, n. split; [reflexivity|]. split; [by apply other_step|exact Ht].
Qed.

Lemma ppticks_cons e es : ppticks (e :: es) = ppticks [e] + ppticks es.
Proof. unfold ppticks. rewrite !filter_cons, filter_nil. case_decide; cbn [length]; lia. Qed.

Lemma ppruns_ok s n es : pp_ok s n -> total_ticks (k_sched (pp_kernel s)) + ppticks es < 2 ^ 32 -> exists s' n', ppruns s es = Some s' /\ pp_ok s' n'.
Proof.
  revert s n. induction es as [|e es IH]; intros s n Hok Hn; [by exists s, n|]. rewrite ppticks_cons in Hn. assert (0 <= ppticks es) by (unfold ppticks; lia).
  destruct (ppstep_ok s n e Hok) as (s1 & n1 & E & Hok1 & Ht); [intros ->; change (ppticks [PpTick]) with 1 in Hn; lia|]. cbn [ppruns]. rewrite E. cbn [mbind option_bind]. apply (IH s1 n1 Hok1). lia.
Qed.

Lemma kernel_ok_state idle k l t : kernel_ok idle k -> l ∈ runnable (k_sched k) -> k_tasks k !! l = Some t -> state t <> Blocked.
Proof.
  intros [Hpre (c & u & Hc & Hu & Hs)] Hl Ht. unfold runnable in Hl. rewrite Hc in Hl. apply elem_of_app in Hl as [Hl|Hl].
  - apply list_elem_of_singleton in Hl as ->. congruence.
  - apply elem_of_concat in Hl as (i & q & Hi & Hq). destruct (ok_queued _ _ (kp_sched _ _ Hpre) i q l Hi Hq) as (v & Hv & _ & Hr). congruence.
Qed.

Lemma ppstart_ok k ua ub :
  kernel_ok l1 k -> (forall l, l ∈ [l0; la; lb] -> l ∈ runnable (k_sched k)) ->
  k_tasks k !! la = Some ua -> tid ua = ta -> parent ua = None -> k_tasks k !! lb = Some ub -> tid ub = tb -> parent ub = None -> pp_ok (ppstart k) 0.
Proof.
  intros Hk Hr Ea Ia Pa Eb Ib Pb. pose proof Hk as [[B1 B2 B3 B4 B5 B6] (c & u & Hc & _)].
  assert (Hlive : forall i, addr i ∈ runnable (k_sched k)) by (intros []; apply Hr; rewrite !elem_of_cons; auto).
  assert (Hnb : forall i t, k_tasks k !! addr i = Some t -> state t <> Blocked) by (intros i t; by eapply kernel_ok_state).
  split; cbn [ppstart pp_kernel pp_mon pp_pc pp_events]; try done; [|lia|by intros []]. split; [split; try done|by rewrite Hc|intros i t Ht Hs; by apply Hnb in Ht].
  - split; [apply Hr; left|done].
  - intros []; [by exists ua|by exists ub].
  - intros []; cbn; [rewrite <- Ia|rewrite <- Ib]; apply (rg_run _ _ _ B4); try done; apply Hr; rewrite !elem_of_cons; auto.
  - intros i t _. apply Hnb.
Qed.
End runs.

(** C15. The monitor test alternates, whatever the timer does.  Start the two tasks
    beside a boot task and an idle task, and let any sequence of timer
    interrupts and steps follow, each step by the task the scheduler has made
    current.  No step panics.  The handoffs alternate, starting with the first
    task; their number is the count in the monitor, the second task prints 20
    and leaves after the 20th, the first prints 21 and leaves after the 21st,
    and there are no more.  The lock is held exactly while one of the tasks is
    between taking it and releasing it.  The queue of the condition variable
    holds exactly the tasks that have waited since the last handoff, so every
    handoff empties it; a task that has not exited is always queued or running,
    so none is lost in a wait.  And the task whose turn it is makes the next
    handoff at its next step once it has the lock, and in two steps if the lock
    is free. *)
Theorem ping_pong_alternates (la lb l0 l1 : Z) (k : kernel) (ua ub : Task) (es : list ppevent) :
  NoDup [l0; l1; la; lb] -> kernel_ok l1 k -> (forall l, l ∈ [l0; la; lb] -> l ∈ runnable (k_sched k)) ->
  k_tasks k !! la = Some ua -> parent ua = None -> k_tasks k !! lb = Some ub -> parent ub = None ->
  total_ticks (k_sched k) + ppticks es < 2 ^ 32 ->
  exists s, ppruns la lb (ppstart k) es = Some s /\
    let n := length (handed (pp_events s)) in
    handed (pp_events s) = alternating n /\ (n <= 21)%nat /\ printed (pp_events s) = printed_after n /\
    (forall i, leaving (pp_pc s i) = last_made i n) /\
    sl_data (mon_lock (pp_mon s)) = mkPing (Z.of_nat n mod 2) (Z.of_nat n) /\
    sl_locked (mon_lock (pp_mon s)) = holders (pp_pc s) /\ alone (pp_pc s) = true /\
    cv_waiters (mon_cond (pp_mon s)) = turn_id (tid ua) (tid ub) <$> waiting (pp_events s) /\
    (forall i, pp_pc s i <> PingGone -> addr la lb i ∈ runnable (k_sched (pp_kernel s))) /\
    (forall i, Z.of_nat n mod 2 = my_turn_of i -> current (k_sched (pp_kernel s)) = Some (addr la lb i) ->
       (pp_pc s i = PingEnter -> exists s', ppstep la lb s PpRun = Some s' /\ handed (pp_events s') = alternating (S n)) /\
       (pp_pc s i = PingLock -> sl_locked (mon_lock (pp_mon s)) = false ->
          exists s', ppruns la lb s [PpRun; PpRun] = Some s' /\ handed (pp_events s') = alternating (S n))).
Proof.
  intros Hnd Hk Hr Ea Pa Eb Pb Hn. rewrite !NoDup_cons, !not_elem_of_cons in Hnd. destruct Hnd as ((D1 & D2 & D3 & _) & (D4 & D5 & _) & (D6 & _) & _).
  pose proof (ppstart_ok la lb l0 l1 (tid ua) (tid ub) k ua ub Hk Hr Ea eq_refl Pa Eb eq_refl Pb) as H0.
  destruct (ppruns_ok la lb l0 l1 (tid ua) (tid ub) D1 D6 D2 D3 D4 D5 _ 0 es H0 Hn) as (s & n & E & Hok). exists s. split; [done|].
  pose proof Hok as [A1 A2 A3 A4 A5 A6 A7 A8 A9]. cbv zeta. rewrite A6, alternating_length. split_and!; try done; [intros i; apply (fr_live _ _ _ _ _ _ _ _ (wo_frame _ _ _ _ _ _ _ _ A1))|].
  assert (Hstep : forall s1 i, pp_ok la lb l0 l1 (tid ua) (tid ub) s1 n -> Z.of_nat n mod 2 = my_turn_of i -> current (k_sched (pp_kernel s1)) = Some (addr la lb i) -> pp_pc s1 i = PingEnter ->
    exists s', ppstep la lb s1 PpRun = Some s' /\ handed (pp_events s') = alternating (S n)).
  { intros s1 i Hok1 Ht Hc Hpc. rewrite (run_side la lb D6 s1 i Hc). destruct (handoff_step la lb l0 l1 (tid ua) (tid ub) D6 s1 n i Hok1 Hpc Hc Ht) as (s' & E' & Hok' & _). exists s'. split; [done|]. apply Hok'. }
  intros i Ht Hc. split; [by apply Hstep|]. intros Hpc Hl. destruct (lock_step la lb l0 l1 (tid ua) (tid ub) s n i Hok Hpc) as (s1 & E1 & Hok1 & Hk1 & Hp1).
  cbn [ppruns]. rewrite (run_side la lb D6 s i Hc), E1. cbn [mbind option_bind]. destruct (Hstep s1 i Hok1 Ht) as (s' & E' & Hh); [by rewrite Hk1|by apply Hp1|]. rewrite E'. cbn [mbind option_bind]. by exists s'.
Qed.

(** The two tasks beside a running boot task: with four steps to a timer
    interrupt, 600 interrupts take the test to its end. *)
Definition ping_kernel : kernel := default busy_kernel (spawn busy_kernel 0x400 (busy_task 4 Ready 0)).
Definition ping_run : list ppevent := concat (replicate 600 [PpTick; PpRun; PpRun; PpRun; PpRun]).

Lemma ping_kernel_ok : kernel_ok 0x300 ping_kernel.
Proof.
  destruct (spawn_ok 0x300 busy_kernel 0x400 (busy_task 4 Ready 0) busy_kernel_ok) as (k & E & Hk); [reflexivity|reflexivity|cbn; lia|reflexivity|]. unfold ping_kernel. by rewrite E.
Qed.

Lemma ping_pong_alternates_witness :
  exists s, ppruns 0x100 0x400 (ppstart ping_kernel) ping_run = Some s /\ handed (pp_events s) = alternating 21 /\ printed (pp_events s) = [(1, 20); (0, 21)] /\
    cv_waiters (mon_cond (pp_mon s)) = [] /\ pp_pc s PingA = PingGone /\ pp_pc s PingB = PingGone.
Proof.
  destruct (ping_pong_alternates 0x100 0x400 0x200 0x300 ping_kernel (busy_task 1 Ready 0) (busy_task 4 Ready 0) ping_run) as (s & E & H1 & _ & H2 & _ & _ & _ & _ & H3 & _).
  - apply (bool_decide_unpack _). vm_compute. exact I.
  - exact ping_kernel_ok.
  - intros l Hl. rewrite !elem_of_cons in Hl. destruct Hl as [->|[->|[->|Hl]]]; [..|exact (False_ind _ (not_elem_of_nil _ Hl))]; apply (bool_decide_unpack _); vm_compute; exact I.
  - reflexivity.
  - reflexivity.
  - reflexivity.
  - reflexivity.
  - vm_compute. reflexivity.
  - assert (Hf : (fun s => (length (handed (pp_events s)), waiting (pp_events s), pp_pc s PingA, pp_pc s PingB)) <$> ppruns 0x100 0x400 (ppstart ping_kernel) ping_run = Some (21%nat, [], PingGone, PingGone)) by (vm_compute; reflexivity).
    rewrite E in Hf. injection Hf as F1 F2 F3 F4. rewrite F1 in H1, H2. rewrite F2 in H3. exists s. split; [exact E|]. exact (conj H1 (conj H2 (conj H3 (conj F3 F4)))).
Defined.
