(* ===== verification/Syscall.v ===== *)
(** System calls ([kernel/src/syscall]): the numbers, the conversions of
    [dispatch.rs], and the handler of every call, composed from the
    components: processes and scheduling, mutexes, channels, files,
    devices, users and rights, signals, and the address space; and the page
    fault and keyboard interrupts ([arch/idt.rs]).

    A handler takes the state and the argument registers and gives a [reply]:
    a value, or a switch away from the task in the middle of the call, after
    which the loop of the handler continues, or the end of the task.  System
    calls run with interrupts masked, so a handler is one step.  [None] is a
    panic.  Memory is what the caller's address space shows at each address;
    page faults taken by the handler on the caller's buffers are not part of
    the step. *)

From S2P Require Import Prelude Bytes X86 Frames Swap Vmm Signal Task Sched Sync Ipc Security Console Fat Records Vfs Loader.

(* syscall/numbers.rs:4-4 SYS_FORK *)
Definition SYS_FORK : Z := 0.
(* syscall/numbers.rs:5-5 SYS_EXIT *)
Definition SYS_EXIT : Z := 1.
(* syscall/numbers.rs:6-6 SYS_WAITPID *)
Definition SYS_WAITPID : Z := 2.
(* syscall/numbers.rs:7-7 SYS_GETPID *)
Definition SYS_GETPID : Z := 3.
(* syscall/numbers.rs:8-8 SYS_GETPPID *)
Definition SYS_GETPPID : Z := 4.
(* syscall/numbers.rs:11-11 SYS_CLONE *)
Definition SYS_CLONE : Z := 5.
(* syscall/numbers.rs:12-12 SYS_GETTID *)
Definition SYS_GETTID : Z := 6.
(* syscall/numbers.rs:13-13 SYS_JOIN *)
Definition SYS_JOIN : Z := 7.
(* syscall/numbers.rs:16-16 SYS_YIELD *)
Definition SYS_YIELD : Z := 8.
(* syscall/numbers.rs:19-19 SYS_MUTEX_LOCK *)
Definition SYS_MUTEX_LOCK : Z := 9.
(* syscall/numbers.rs:20-20 SYS_MUTEX_TRYLOCK *)
Definition SYS_MUTEX_TRYLOCK : Z := 10.
(* syscall/numbers.rs:21-21 SYS_MUTEX_UNLOCK *)
Definition SYS_MUTEX_UNLOCK : Z := 11.
(* syscall/numbers.rs:22-22 SYS_CONDVAR_WAIT *)
Definition SYS_CONDVAR_WAIT : Z := 12.
(* syscall/numbers.rs:23-23 SYS_CONDVAR_SIGNAL *)
Definition SYS_CONDVAR_SIGNAL : Z := 13.
(* syscall/numbers.rs:24-24 SYS_CONDVAR_BROADCAST *)
Definition SYS_CONDVAR_BROADCAST : Z := 14.
(* syscall/numbers.rs:27-27 SYS_TRYLOCK *)
Definition SYS_TRYLOCK : Z := 15.
(* syscall/numbers.rs:28-28 SYS_GETRESOURCE *)
Definition SYS_GETRESOURCE : Z := 16.
(* syscall/numbers.rs:31-31 SYS_BRK *)
Definition SYS_BRK : Z := 17.
(* syscall/numbers.rs:32-32 SYS_MPROTECT *)
Definition SYS_MPROTECT : Z := 18.
(* syscall/numbers.rs:35-35 SYS_READ *)
Definition SYS_READ : Z := 19.
(* syscall/numbers.rs:36-36 SYS_WRITE *)
Definition SYS_WRITE : Z := 20.
(* syscall/numbers.rs:37-37 SYS_IOCTL *)
Definition SYS_IOCTL : Z := 21.
(* syscall/numbers.rs:38-38 SYS_OPEN_DEV *)
Definition SYS_OPEN_DEV : Z := 22.
(* syscall/numbers.rs:39-39 SYS_CLOSE_DEV *)
Definition SYS_CLOSE_DEV : Z := 23.
(* syscall/numbers.rs:42-42 SYS_OPEN *)
Definition SYS_OPEN : Z := 24.
(* syscall/numbers.rs:43-43 SYS_CLOSE *)
Definition SYS_CLOSE : Z := 25.
(* syscall/numbers.rs:44-44 SYS_SEEK *)
Definition SYS_SEEK : Z := 26.
(* syscall/numbers.rs:45-45 SYS_CREATE *)
Definition SYS_CREATE : Z := 27.
(* syscall/numbers.rs:46-46 SYS_DELETE *)
Definition SYS_DELETE : Z := 28.
(* syscall/numbers.rs:49-49 SYS_RENAME *)
Definition SYS_RENAME : Z := 30.
(* syscall/numbers.rs:50-50 SYS_MKDIR *)
Definition SYS_MKDIR : Z := 31.
(* syscall/numbers.rs:51-51 SYS_RMDIR *)
Definition SYS_RMDIR : Z := 32.
(* syscall/numbers.rs:52-52 SYS_GETDENTS *)
Definition SYS_GETDENTS : Z := 33.
(* syscall/numbers.rs:53-53 SYS_STAT *)
Definition SYS_STAT : Z := 34.
(* syscall/numbers.rs:54-54 SYS_CHMOD *)
Definition SYS_CHMOD : Z := 35.
(* syscall/numbers.rs:55-55 SYS_CHOWN *)
Definition SYS_CHOWN : Z := 36.
(* syscall/numbers.rs:60-60 SYS_MARK_SHARED *)
Definition SYS_MARK_SHARED : Z := 39.
(* syscall/numbers.rs:63-63 SYS_MSG_SEND *)
Definition SYS_MSG_SEND : Z := 40.
(* syscall/numbers.rs:64-64 SYS_MSG_RECV *)
Definition SYS_MSG_RECV : Z := 41.
(* syscall/numbers.rs:65-65 SYS_SHM_OPEN *)
Definition SYS_SHM_OPEN : Z := 42.
(* syscall/numbers.rs:66-66 SYS_SHM_CLOSE *)
Definition SYS_SHM_CLOSE : Z := 43.
(* syscall/numbers.rs:67-67 SYS_PIPE_CREATE *)
Definition SYS_PIPE_CREATE : Z := 44.
(* syscall/numbers.rs:68-68 SYS_PIPE_READ *)
Definition SYS_PIPE_READ : Z := 45.
(* syscall/numbers.rs:69-69 SYS_PIPE_WRITE *)
Definition SYS_PIPE_WRITE : Z := 46.
(* syscall/numbers.rs:70-70 SYS_PIPE_CLOSE *)
Definition SYS_PIPE_CLOSE : Z := 47.
(* syscall/numbers.rs:73-73 SYS_LOGIN *)
Definition SYS_LOGIN : Z := 48.
(* syscall/numbers.rs:74-74 SYS_LOGOUT *)
Definition SYS_LOGOUT : Z := 49.
(* syscall/numbers.rs:75-75 SYS_ACCESS *)
Definition SYS_ACCESS : Z := 50.
(* syscall/numbers.rs:76-76 SYS_GRANT *)
Definition SYS_GRANT : Z := 51.
(* syscall/numbers.rs:77-77 SYS_REVOKE *)
Definition SYS_REVOKE : Z := 52.
(* syscall/numbers.rs:80-80 SYS_KILL *)
Definition SYS_KILL : Z := 53.
(* syscall/numbers.rs:81-81 SYS_SIGRETURN *)
Definition SYS_SIGRETURN : Z := 54.
(* syscall/numbers.rs:82-82 SYS_SIGNAL *)
Definition SYS_SIGNAL : Z := 55.

(** ** Conversions *)

(* syscall/dispatch.rs:26-38 ENOSYS *)
Definition ENOSYS : Z := -38.
Definition EBADF : Z := -9.
Definition EFAULT : Z := -14.
Definition EPIPE : Z := -32.
Definition EMSGSIZE : Z := -90.
Definition ENOENT : Z := -2.
Definition EACCES : Z := -13.
Definition EEXIST : Z := -17.
Definition ENOTDIR : Z := -20.
Definition EISDIR : Z := -21.
Definition EBUSY : Z := -16.
Definition EROFS : Z := -30.

(* syscall/dispatch.rs:45-58 fs_err *)
Definition fs_err (e : FsError) : Z :=
  match e with
  | NotFound => ENOENT
  | AlreadyExists => EEXIST
  | PermissionDenied => EACCES
  | Locked => EBUSY
  | IsShared => EROFS
  | NotOpen => EBADF
  | InvalidPath => EFAULT
  | NotADirectory => ENOTDIR
  | IsADirectory => EISDIR
  | NotMounted => ENODEV
  end.

(** The errors of [SYS_PIPE_READ] and [SYS_PIPE_WRITE]. *)
(* syscall/dispatch.rs:208-212 syscall_handler *)
Definition ipc_err (e : IpcError) : Z :=
  match e with
  | Closed => EPIPE
  | WouldBlock => EAGAIN
  | TooLarge => EMSGSIZE
  end.

(** [as isize] on a 64-bit value. *)
Definition to_isize (v : Z) : Z := as_signed 64 v.

(* syscall/dispatch.rs:61-71 current_uid_gid *)
Definition current_uid_gid (k : kernel) : option (Z * Z) :=
  id ← current_tid k;
  match k_table k !! id with
  | Some l => t ← k_tasks k !! l; Some (uid t, gid t)
  | None => Some (0, 0)
  end.

(* syscall/dispatch.rs:104-108 str_from_user *)
Definition str_from_user (m : memory) (ptr len : Z) : option path :=
  if (ptr =? 0) || (len =? 0) then None else from_utf8 (read_bytes m ptr (Z.to_nat len)).

(** An update of the caller's task, when the table has it. *)
Definition update_current (k : kernel) (f : Task -> Task) : option kernel :=
  id ← current_tid k;
  match k_table k !! id with
  | Some l => t ← k_tasks k !! l; Some (set_tasks k (<[l := f t]> (k_tasks k)))
  | None => Some k
  end.

Definition string_of_bytes (bs : list Z) : string := String.string_of_list_ascii ((fun b => Ascii.ascii_of_N (Z.to_N b)) <$> bs).

Inductive reply := Ret (v : Z) | Switched | Halted | Running_on.

Section Syscalls.
Context {D : Type} {F : FatVolume D}.
(** [str::to_lowercase] and [String::from_utf8_lossy], SHA-256, and what the
    padding of a [Stat] holds. *)
Context (to_lowercase from_utf8_lossy : list Z -> list Z) (sha256 : list Z -> list Z) (stat_pad : list Z).

(** The global state the handlers share. *)
Record sys := mkSys {
  sy_k : kernel;
  sy_mem : memory;
  sy_fs : LogicalFs (D := D);
  sy_ipc : Spinlock IpcTable;
  sy_shm : gmap (list Z) SharedMem;
  sy_res : ResourceTable;
  sy_ac : RbacAccessControl;
  sy_tty : world;
  sy_dev : DeviceTable;
  sy_counters : counters
}.

Definition put_k (s : sys) (k : kernel) : sys := mkSys k (sy_mem s) (sy_fs s) (sy_ipc s) (sy_shm s) (sy_res s) (sy_ac s) (sy_tty s) (sy_dev s) (sy_counters s).
Definition put_mem (s : sys) (m : memory) : sys := mkSys (sy_k s) m (sy_fs s) (sy_ipc s) (sy_shm s) (sy_res s) (sy_ac s) (sy_tty s) (sy_dev s) (sy_counters s).
Definition put_fs (s : sys) (f : LogicalFs) : sys := mkSys (sy_k s) (sy_mem s) f (sy_ipc s) (sy_shm s) (sy_res s) (sy_ac s) (sy_tty s) (sy_dev s) (sy_counters s).
Definition put_ipc (s : sys) (t : Spinlock IpcTable) : sys := mkSys (sy_k s) (sy_mem s) (sy_fs s) t (sy_shm s) (sy_res s) (sy_ac s) (sy_tty s) (sy_dev s) (sy_counters s).
Definition put_shm (s : sys) (r : gmap (list Z) SharedMem) : sys := mkSys (sy_k s) (sy_mem s) (sy_fs s) (sy_ipc s) r (sy_res s) (sy_ac s) (sy_tty s) (sy_dev s) (sy_counters s).
Definition put_res (s : sys) (r : ResourceTable) : sys := mkSys (sy_k s) (sy_mem s) (sy_fs s) (sy_ipc s) (sy_shm s) r (sy_ac s) (sy_tty s) (sy_dev s) (sy_counters s).
Definition put_ac (s : sys) (a : RbacAccessControl) : sys := mkSys (sy_k s) (sy_mem s) (sy_fs s) (sy_ipc s) (sy_shm s) (sy_res s) a (sy_tty s) (sy_dev s) (sy_counters s).
Definition put_tty (s : sys) (w : world) : sys := mkSys (sy_k s) (sy_mem s) (sy_fs s) (sy_ipc s) (sy_shm s) (sy_res s) (sy_ac s) w (sy_dev s) (sy_counters s).
Definition put_dev (s : sys) (t : DeviceTable) : sys := mkSys (sy_k s) (sy_mem s) (sy_fs s) (sy_ipc s) (sy_shm s) (sy_res s) (sy_ac s) (sy_tty s) t (sy_counters s).
Definition put_counters (s : sys) (c : counters) : sys := mkSys (sy_k s) (sy_mem s) (sy_fs s) (sy_ipc s) (sy_shm s) (sy_res s) (sy_ac s) (sy_tty s) (sy_dev s) c.

Definition answer : Type := option (reply * sys).
Definition ret (v : Z) (s : sys) : answer := Some (Ret v, s).

(** *** Processes and scheduling *)

(* syscall/dispatch.rs:125-125 SYS_GETPID *)
Definition sys_getpid (s : sys) : answer := p ← current_pid (sy_k s); ret (to_isize p) s.
(* syscall/dispatch.rs:126-126 SYS_GETPPID *)
Definition sys_getppid (s : sys) : answer := p ← current_ppid (sy_k s); ret (match p with Some p => to_isize p | None => -1 end) s.
(* syscall/dispatch.rs:127-127 SYS_GETTID *)
Definition sys_gettid (s : sys) : answer := t ← current_tid (sy_k s); ret (to_isize t) s.
(** The call returns 0 when the task runs again. *)
(* syscall/dispatch.rs:128-131 SYS_YIELD *)
Definition sys_yield (s : sys) : answer := '(k, _) ← schedule (sy_k s); ret 0 (put_k s k).
(* syscall/dispatch.rs:132-132 SYS_EXIT *)
Definition sys_exit (s : sys) (code : Z) : answer := '(k, _) ← exit (sy_k s) (as_signed 32 (wrap 32 code)); Some (Halted, put_k s k).
(* syscall/dispatch.rs:133-133 SYS_WAITPID *)
Definition sys_waitpid (s : sys) (p : Z) : answer :=
  '(r, k, _) ← wait_iter (sy_k s) p;
  Some (match r with Some code => Ret code | None => Switched end, put_k s k).
(* syscall/dispatch.rs:594-596 SYS_JOIN *)
Definition sys_join (s : sys) (id : Z) : answer :=
  '(r, k, _) ← wait_tid_iter (sy_k s) id;
  Some (match r with Some code => Ret code | None => Switched end, put_k s k).

Definition CLONE_VM : Z := 0x100.
Definition CLONE_SIGHAND : Z := 0x800.

(** [tramp] is the address of [task_trampoline], [base] that of the new kernel
    stack and [l] that of the new task. *)
(* syscall/dispatch.rs:567-593 SYS_CLONE *)
Definition sys_clone (tramp base l : Z) (s : sys) (fl entry prio : Z) : answer :=
  if Z.land fl CLONE_VM =? 0 then ret ENOSYS s
  else
    id ← current_tid (sy_k s);
    match k_table (sy_k s) !! id with
    | None => ret EBADF s
    | Some pl =>
        parent ← k_tasks (sy_k s) !! pl;
        '(t, m, c) ← clone_thread tramp parent base (sy_mem s) (sy_counters s) entry (wrap 8 prio);
        let t := if Z.land fl CLONE_SIGHAND =? 0 then t else with_signals t (mkSignals (pending_mask (signals t)) (handlers (signals parent))) in
        k ← spawn (sy_k s) l t;
        ret (to_isize (tid t)) (put_counters (put_mem (put_k s k) m) c)
    end.

(** *** Signals *)

(** The first task of the process gets the signal and is woken if blocked. *)
(* syscall/dispatch.rs:632-661 SYS_KILL *)
Definition sys_kill (s : sys) (target signum : Z) : answer :=
  let signum := wrap 8 signum in
  if MAX_SIGNALS <=? signum then ret EFAULT s
  else
    let k := sy_k s in
    match find_pid k target with
    | None => ret ENOENT s
    | Some id =>
        l ← k_table k !! id;
        t ← k_tasks k !! l;
        let k := set_tasks k (<[l := with_signals t (set_pending (signals t) signum)]> (k_tasks k)) in
        k ← match state t with Blocked => unblock_tid k id | _ => Some k end;
        ret 0 (put_k s k)
    end.

(* syscall/dispatch.rs:668-681 SYS_SIGNAL *)
Definition sys_signal (s : sys) (signum handler : Z) : answer :=
  let signum := wrap 8 signum in
  if MAX_SIGNALS <=? signum then ret EFAULT s
  else
    id ← current_tid (sy_k s);
    match k_table (sy_k s) !! id with
    | None => ret EBADF s
    | Some _ => k ← update_current (sy_k s) (fun t => with_signals t (set_handler (signals t) signum handler)); ret 0 (put_k s k)
    end.

(** *** Mutexes *)

(* syscall/dispatch.rs:134-137 SYS_GETRESOURCE *)
Definition sys_getresource (s : sys) : answer := '(h, t) ← resource_insert (sy_res s) resource_new; ret (to_isize h) (put_res s t).

Definition put_resource (s : sys) (h : Z) (r : QueuedResource) : sys :=
  put_res s (mkResourceTable (rt_next (sy_res s)) (<[h := r]> (rt_map (sy_res s)))).

(** One turn of the lock loop. *)
(* syscall/dispatch.rs:138-144 SYS_MUTEX_LOCK *)
Definition sys_mutex_lock (s : sys) (h : Z) : answer :=
  match resource_get (sy_res s) h with
  | Some r => '(got, k, r) ← resource_lock_iter (sy_k s) r; Some (if got : bool then Ret 0 else Switched, put_resource (put_k s k) h r)
  | None => ret EBADF s
  end.
(* syscall/dispatch.rs:145-151 SYS_MUTEX_TRYLOCK *)
Definition sys_mutex_trylock (s : sys) (h : Z) : answer :=
  match resource_get (sy_res s) h with
  | Some r => let '(got, r) := resource_try_lock r in ret (if got : bool then 0 else EAGAIN) (put_resource s h r)
  | None => ret EBADF s
  end.
(* syscall/dispatch.rs:152-158 SYS_MUTEX_UNLOCK *)
Definition sys_mutex_unlock (s : sys) (h : Z) : answer :=
  match resource_get (sy_res s) h with
  | Some r => '(k, r) ← resource_unlock (sy_k s) r; ret 0 (put_resource (put_k s k) h r)
  | None => ret EBADF s
  end.
(** Up to the switch; the lock loop follows. *)
(* syscall/dispatch.rs:159-165 SYS_CONDVAR_WAIT *)
Definition sys_condvar_wait (s : sys) (h : Z) : answer :=
  match resource_get (sy_res s) h with
  | Some r => '(k, r) ← resource_wait (sy_k s) r; Some (Switched, put_resource (put_k s k) h r)
  | None => ret EBADF s
  end.
(* syscall/dispatch.rs:166-172 SYS_CONDVAR_SIGNAL *)
Definition sys_condvar_signal (s : sys) (h : Z) : answer :=
  match resource_get (sy_res s) h with
  | Some r => '(k, r) ← resource_signal (sy_k s) r; ret 0 (put_resource (put_k s k) h r)
  | None => ret EBADF s
  end.
(* syscall/dispatch.rs:173-179 SYS_CONDVAR_BROADCAST *)
Definition sys_condvar_broadcast (s : sys) (h : Z) : answer :=
  match resource_get (sy_res s) h with
  | Some r => '(k, r) ← resource_broadcast (sy_k s) r; ret 0 (put_resource (put_k s k) h r)
  | None => ret EBADF s
  end.

(** *** Channels *)

(** [IPC_TABLE.lock().insert(ch)]: the guard is dropped at once. *)
Definition ipc_add (s : sys) (ch : IpcChannel) : answer :=
  match acquire (sy_k s) (sy_ipc s) with
  | None => Some (Running_on, s)
  | Some (k, l) =>
      '(h, t) ← ipc_insert (sl_data l) ch;
      let '(k, l) := spin_unlock k (mkSpinlock (sl_locked l) t) in
      ret (to_isize h) (put_ipc (put_k s k) l)
  end.

(* syscall/dispatch.rs:180-184 SYS_PIPE_CREATE *)
Definition sys_pipe_create (s : sys) : answer := ipc_add s (ChPipe pipe_new).

(** The table's guard, a temporary of the condition of the [if let], lives to
    the end of its first branch.  The second [lock] spins for at most [fuel]
    turns. *)
(* syscall/dispatch.rs:185-194 SYS_PIPE_CLOSE *)
Definition sys_pipe_close (fuel : nat) (s : sys) (h : Z) : answer :=
  match acquire (sy_k s) (sy_ipc s) with
  | None => Some (Running_on, s)
  | Some (k, l) =>
      match ipc_get (sl_data l) h with
      | None => let '(k, l) := spin_unlock k l in ret EBADF (put_ipc (put_k s k) l)
      | Some ch =>
          '(k, ch) ← ch_close k ch;
          let l := mkSpinlock (sl_locked l) (mkIpcTable (it_next (sl_data l)) (<[h := ch]> (it_map (sl_data l)))) in
          match spin_lock fuel k l with
          | None => Some (Running_on, put_ipc (put_k s k) l)
          | Some (k, l) =>
              let '(k, l) := spin_unlock k (mkSpinlock (sl_locked l) (ipc_remove (sl_data l) h)) in
              let '(k, l) := spin_unlock k l in
              ret 0 (put_ipc (put_k s k) l)
          end
      end
  end.

(** [ch.recv] and [ch.send] under the table's guard: the preemption counter is
    not zero, so a wait returns without a switch and the loop goes on.  [Some
    None] when [fuel] turns were not enough. *)
Fixpoint recv_turns (fuel : nat) (k : kernel) (ch : IpcChannel) (len : nat) : option (option (result IpcError (list Z)) * kernel * IpcChannel) :=
  match fuel with
  | O => Some (None, k, ch)
  | S fuel =>
      '(o, k, ch) ← ch_recv k ch len;
      match o with
      | Done r => Some (Some r, k, ch)
      | Waiting _ => recv_turns fuel k ch len
      end
  end.

Fixpoint send_turns (fuel : nat) (k : kernel) (ch : IpcChannel) (data : list Z) (written : nat) : option (option (result IpcError unit) * kernel * IpcChannel) :=
  match fuel with
  | O => Some (None, k, ch)
  | S fuel =>
      '(o, k, ch) ← ch_send k ch data written;
      match o with
      | Done r => Some (Some r, k, ch)
      | Waiting w => send_turns fuel k ch data w
      end
  end.

(** The channel is shared with the table's entry. *)
Definition ipc_finish (s : sys) (k : kernel) (l : Spinlock IpcTable) (h : Z) (ch : IpcChannel) (r : option Z) : answer :=
  let l := mkSpinlock (sl_locked l) (mkIpcTable (it_next (sl_data l)) (<[h := ch]> (it_map (sl_data l)))) in
  match r with
  | None => Some (Running_on, put_ipc (put_k s k) l)
  | Some v => let '(k, l) := spin_unlock k l in ret v (put_ipc (put_k s k) l)
  end.

(* syscall/dispatch.rs:195-217 SYS_PIPE_READ *)
Definition sys_pipe_read (fuel : nat) (s : sys) (h ptr len : Z) : answer :=
  if (0 <? len) && (ptr =? 0) then ret EFAULT s
  else
    match acquire (sy_k s) (sy_ipc s) with
    | None => Some (Running_on, s)
    | Some (k, l) =>
        match ipc_get (sl_data l) h with
        | None => let '(k, l) := spin_unlock k l in ret EBADF (put_ipc (put_k s k) l)
        | Some ch =>
            '(r, k, ch) ← recv_turns fuel k ch (Z.to_nat len);
            match r with
            | Some (Ok bs) => ipc_finish (put_mem s (write_bytes (sy_mem s) ptr bs)) k l h ch (Some (Z.of_nat (length bs)))
            | Some (Err e) => ipc_finish s k l h ch (Some (ipc_err e))
            | None => ipc_finish s k l h ch None
            end
        end
    end.

(* syscall/dispatch.rs:218-240 SYS_PIPE_WRITE *)
Definition sys_pipe_write (fuel : nat) (s : sys) (h ptr len : Z) : answer :=
  if (0 <? len) && (ptr =? 0) then ret EFAULT s
  else
    match acquire (sy_k s) (sy_ipc s) with
    | None => Some (Running_on, s)
    | Some (k, l) =>
        match ipc_get (sl_data l) h with
        | None => let '(k, l) := spin_unlock k l in ret EBADF (put_ipc (put_k s k) l)
        | Some ch =>
            '(r, k, ch) ← send_turns fuel k ch (read_bytes (sy_mem s) ptr (Z.to_nat len)) 0;
            ipc_finish s k l h ch ((fun r => match r with Ok _ => 0 | Err e => ipc_err e end) <$> r)
        end
    end.

(** A name opened before gives the object it named then. *)
(* syscall/dispatch.rs:241-260 SYS_SHM_OPEN *)
Definition sys_shm_open (s : sys) (ptr len size : Z) : answer :=
  if (ptr =? 0) || (len =? 0) then ret EFAULT s
  else
    let name := from_utf8_lossy (read_bytes (sy_mem s) ptr (Z.to_nat len)) in
    let shm := match sy_shm s !! name with Some shm => shm | None => shm_new name (Z.to_nat size) end in
    ipc_add (put_shm s (<[name := shm]> (sy_shm s))) (ChShm shm).

(* syscall/dispatch.rs:261-265 SYS_SHM_CLOSE *)
Definition sys_shm_close (s : sys) (h : Z) : answer :=
  match acquire (sy_k s) (sy_ipc s) with
  | None => Some (Running_on, s)
  | Some (k, l) => let '(k, l) := spin_unlock k (mkSpinlock (sl_locked l) (ipc_remove (sl_data l) h)) in ret 0 (put_ipc (put_k s k) l)
  end.

(** *** Devices *)

(* syscall/dispatch.rs:328-342 SYS_IOCTL *)
Definition sys_ioctl (s : sys) (fd cmd : Z) : answer :=
  if fd <? DEV_FD_OFFSET then ret ENODEV s
  else
    let idx := Z.to_nat (fd - DEV_FD_OFFSET) in
    match sy_dev s !! idx with
    | None => ret ENODEV s
    | Some d =>
        if cmd =? IOCTL_SET_NONBLOCK then ret 0 (put_dev s (<[idx := mkDevice (dev_name d) false]> (sy_dev s)))
        else if cmd =? IOCTL_SET_BLOCK then ret 0 (put_dev s (<[idx := mkDevice (dev_name d) true]> (sy_dev s)))
        else ret ENOSYS s
    end.
(* syscall/dispatch.rs:343-352 SYS_OPEN_DEV *)
Definition sys_open_dev (s : sys) (ptr len : Z) : answer :=
  match str_from_user (sy_mem s) ptr len with
  | None => ret EFAULT s
  | Some n => ret (match dev_find (sy_dev s) (string_of_bytes n) with Some idx => Z.of_nat idx + DEV_FD_OFFSET | None => ENODEV end) s
  end.
(* syscall/dispatch.rs:353-353 SYS_CLOSE_DEV *)
Definition sys_close_dev (s : sys) : answer := ret 0 s.

(** *** Files *)

(** [match FS.lock().op(..) { Ok(v) => .., Err(e) => fs_err(e) }]. *)
Definition fs_call {A} (op : kmon LogicalFs FsError A) (ok : A -> Z) (s : sys) : answer :=
  '(r, f) ← op (sy_fs s);
  ret (match r with Ok a => ok a | Err e => fs_err e end) (put_fs s f).

(** The calls whose arguments begin with a path. *)
Definition with_path (s : sys) (ptr len : Z) (f : path -> answer) : answer :=
  match str_from_user (sy_mem s) ptr len with
  | None => ret EFAULT s
  | Some p => f p
  end.

(* syscall/dispatch.rs:266-279 SYS_OPEN *)
Definition sys_open (s : sys) (ptr len : Z) : answer :=
  with_path s ptr len (fun p =>
    pid ← current_pid (sy_k s);
    '(uid, gid) ← current_uid_gid (sy_k s);
    fs_call (fs_open to_lowercase p pid uid gid) to_isize s).
(* syscall/dispatch.rs:280-286 SYS_CLOSE *)
Definition sys_close (s : sys) (fd : Z) : answer := pid ← current_pid (sy_k s); fs_call (fs_close fd pid) (fun _ => 0) s.

(* syscall/dispatch.rs:287-303 SYS_READ *)
Definition sys_read (s : sys) (fd ptr len : Z) : answer :=
  if (0 <? len) && (ptr =? 0) then ret EFAULT s
  else if DEV_FD_OFFSET <=? fd then
    '(n, bs, w) ← dev_read (fd - DEV_FD_OFFSET) (Z.to_nat len) (sy_tty s);
    ret n (put_mem (put_tty s w) (write_bytes (sy_mem s) ptr bs))
  else
    pid ← current_pid (sy_k s);
    '(uid, gid) ← current_uid_gid (sy_k s);
    '(r, f) ← fs_read fd pid uid gid (Z.to_nat len) (sy_fs s);
    match r with
    | Ok bs => ret (Z.of_nat (length bs)) (put_mem (put_fs s f) (write_bytes (sy_mem s) ptr bs))
    | Err e => ret (fs_err e) (put_fs s f)
    end.

(* syscall/dispatch.rs:304-320 SYS_WRITE *)
Definition sys_write (s : sys) (fd ptr len : Z) : answer :=
  if (0 <? len) && (ptr =? 0) then ret EFAULT s
  else
    let buf := read_bytes (sy_mem s) ptr (Z.to_nat len) in
    if DEV_FD_OFFSET <=? fd then let '(n, w) := dev_write (fd - DEV_FD_OFFSET) buf (sy_tty s) in ret n (put_tty s w)
    else
      pid ← current_pid (sy_k s);
      '(uid, gid) ← current_uid_gid (sy_k s);
      fs_call (fs_write fd pid uid gid buf) (fun n => n) s.

(* syscall/dispatch.rs:321-327 SYS_SEEK *)
Definition sys_seek (s : sys) (fd offset : Z) : answer := pid ← current_pid (sy_k s); fs_call (fs_seek fd pid offset) (fun _ => 0) s.
(* syscall/dispatch.rs:354-366 SYS_CREATE *)
Definition sys_create (s : sys) (ptr len : Z) : answer :=
  with_path s ptr len (fun p => pid ← current_pid (sy_k s); fs_call (fs_create to_lowercase p pid) to_isize s).
(* syscall/dispatch.rs:367-376 SYS_DELETE *)
Definition sys_delete (s : sys) (ptr len : Z) : answer := with_path s ptr len (fun p => fs_call (fs_delete p) (fun _ => 0) s).
(* syscall/dispatch.rs:377-387 SYS_RENAME *)
Definition sys_rename (s : sys) (ptr len ptr' len' : Z) : answer :=
  match str_from_user (sy_mem s) ptr len, str_from_user (sy_mem s) ptr' len' with
  | Some o, Some n => fs_call (fs_rename to_lowercase o n) (fun _ => 0) s
  | _, _ => ret EFAULT s
  end.
(* syscall/dispatch.rs:388-397 SYS_MKDIR *)
Definition sys_mkdir (s : sys) (ptr len : Z) : answer := with_path s ptr len (fun p => fs_call (fs_mkdir to_lowercase p) (fun _ => 0) s).
(** [fuel] bounds the depth of the tree. *)
(* syscall/dispatch.rs:398-407 SYS_RMDIR *)
Definition sys_rmdir (fuel : nat) (s : sys) (ptr len : Z) : answer := with_path s ptr len (fun p => fs_call (fs_rmdir fuel p) (fun _ => 0) s).

(** The mode is cut to eight bits. *)
(* syscall/dispatch.rs:408-423 SYS_CHMOD *)
Definition sys_chmod (s : sys) (ptr len mode : Z) : answer :=
  with_path s ptr len (fun p =>
    let bits := wrap 8 mode in
    fs_call (fs_chmod p (Z.land (Z.shiftr bits 6) 7) (Z.land (Z.shiftr bits 3) 7) (Z.land bits 7)) (fun _ => 0) s).

(* syscall/dispatch.rs:424-447 SYS_CHOWN *)
Definition sys_chown (s : sys) (ptr len new_uid new_gid : Z) : answer :=
  with_path s ptr len (fun p =>
    let f := sy_fs s in
    let e := match perms f !! p with
             | Some e => mkPerm (wrap 32 new_uid) (wrap 32 new_gid) (owner_rwx e) (group_rwx e) (world_rwx e)
             | None => mkPerm (wrap 32 new_uid) (wrap 32 new_gid) 7 5 5
             end in
    ret 0 (put_fs s (mkFs (fcbs f) (fds f) (<[p := e]> (perms f)) (auth f) (disk f)))).

(* syscall/dispatch.rs:448-457 SYS_MARK_SHARED *)
Definition sys_mark_shared (s : sys) (ptr len : Z) : answer := with_path s ptr len (fun p => fs_call (fs_mark_shared p) (fun _ => 0) s).

Definition NAME_MAX : nat := 64.
Definition DIRENT_SIZE : nat := 65.

(** A directory record: the name, cut or padded with zeros to 64 bytes, and the
    directory flag. *)
Definition dirent (e : path * bool) : list Z := take NAME_MAX e.1 ++ replicate (NAME_MAX - length e.1) 0 ++ [if e.2 then 1 else 0].

(* syscall/dispatch.rs:458-492 SYS_GETDENTS *)
Definition sys_getdents (s : sys) (ptr len out out_len : Z) : answer :=
  with_path s ptr len (fun p =>
    if (0 <? out_len) && (out =? 0) then ret EFAULT s
    else
      '(r, f) ← fs_getdents p (sy_fs s);
      match r with
      | Ok es =>
          let n := min (length es) (Z.to_nat out_len / DIRENT_SIZE) in
          ret (Z.of_nat n) (put_mem (put_fs s f) (write_bytes (sy_mem s) out (concat (dirent <$> take n es))))
      | Err e => ret (fs_err e) (put_fs s f)
      end).

(* syscall/dispatch.rs:493-510 SYS_STAT *)
Definition sys_stat (s : sys) (ptr len out : Z) : answer :=
  with_path s ptr len (fun p =>
    if out =? 0 then ret EFAULT s
    else
      '(r, f) ← fs_stat p (sy_fs s);
      match r with
      | Ok st => ret 0 (put_mem (put_fs s f) (write_bytes (sy_mem s) out (stat_bytes st stat_pad)))
      | Err e => ret (fs_err e) (put_fs s f)
      end).

(** *** Users and rights *)

(* syscall/dispatch.rs:511-530 SYS_LOGIN *)
Definition sys_login (s : sys) (user ptr len : Z) : answer :=
  if (ptr =? 0) || (len =? 0) then ret EFAULT s
  else
    let user := wrap 32 user in
    if verify_password sha256 (sy_fs s) user (read_bytes (sy_mem s) ptr (Z.to_nat len))
    then k ← update_current (sy_k s) (fun t => with_ids t user user); ret 0 (put_k s k)
    else ret EACCES s.
(* syscall/dispatch.rs:531-540 SYS_LOGOUT *)
Definition sys_logout (s : sys) : answer := k ← update_current (sy_k s) (fun t => with_ids t 0 0); ret 0 (put_k s k).
(* syscall/dispatch.rs:541-546 SYS_ACCESS *)
Definition sys_access (s : sys) (domain object : Z) : answer := ret (access (sy_ac s) (wrap 32 domain) object) s.
(* syscall/dispatch.rs:547-556 SYS_GRANT *)
Definition sys_grant (s : sys) (target object r : Z) : answer :=
  '(uid, _) ← current_uid_gid (sy_k s);
  let '(a, res) := grant (sy_ac s) uid (wrap 32 target) object (wrap 32 r) in
  ret (if is_ok res then 0 else EACCES) (put_ac s a).
(* syscall/dispatch.rs:557-566 SYS_REVOKE *)
Definition sys_revoke (s : sys) (target object r : Z) : answer :=
  '(uid, _) ← current_uid_gid (sy_k s);
  let '(a, res) := revoke (sy_ac s) uid (wrap 32 target) object (wrap 32 r) in
  ret (if is_ok res then 0 else EACCES) (put_ac s a).

(** *** The handler *)

(** The calls on the address space, defined below over its page tables, are
    given as [vm_call]; [tramp], [base] and [l] are those of [sys_clone].  The
    frame is what [SYS_SIGRETURN] replaces. *)
(* syscall/dispatch.rs:117-124 syscall_handler *)
Definition syscall_handler (fuel : nat) (tramp base l : Z) (vm_call : Z -> sys -> Z -> Z -> Z -> answer)
    (nr : Z) (frame : TrapFrame) (s : sys) : option (reply * sys * TrapFrame) :=
  let a0 := rdi frame in
  let a1 := rsi frame in
  let a2 := rdx frame in
  let a3 := r10 frame in
  if nr =? SYS_SIGRETURN then '(f, v) ← sigreturn frame (sy_mem s); Some (Ret (to_isize v), s, f)
  else
    '(r, s) ←
      (if nr =? SYS_GETPID then sys_getpid s
       else if nr =? SYS_GETPPID then sys_getppid s
       else if nr =? SYS_GETTID then sys_gettid s
       else if nr =? SYS_YIELD then sys_yield s
       else if nr =? SYS_EXIT then sys_exit s a0
       else if nr =? SYS_WAITPID then sys_waitpid s a0
       else if nr =? SYS_GETRESOURCE then sys_getresource s
       else if nr =? SYS_MUTEX_LOCK then sys_mutex_lock s a0
       else if (nr =? SYS_MUTEX_TRYLOCK) || (nr =? SYS_TRYLOCK) then sys_mutex_trylock s a0
       else if nr =? SYS_MUTEX_UNLOCK then sys_mutex_unlock s a0
       else if nr =? SYS_CONDVAR_WAIT then sys_condvar_wait s a0
       else if nr =? SYS_CONDVAR_SIGNAL then sys_condvar_signal s a0
       else if nr =? SYS_CONDVAR_BROADCAST then sys_condvar_broadcast s a0
       else if nr =? SYS_PIPE_CREATE then sys_pipe_create s
       else if nr =? SYS_PIPE_CLOSE then sys_pipe_close fuel s a0
       else if (nr =? SYS_PIPE_READ) || (nr =? SYS_MSG_RECV) then sys_pipe_read fuel s a0 a1 a2
       else if (nr =? SYS_PIPE_WRITE) || (nr =? SYS_MSG_SEND) then sys_pipe_write fuel s a0 a1 a2
       else if nr =? SYS_SHM_OPEN then sys_shm_open s a0 a1 a2
       else if nr =? SYS_SHM_CLOSE then sys_shm_close s a0
       else if nr =? SYS_OPEN then sys_open s a0 a1
       else if nr =? SYS_CLOSE then sys_close s a0
       else if nr =? SYS_READ then sys_read s a0 a1 a2
       else if nr =? SYS_WRITE then sys_write s a0 a1 a2
       else if nr =? SYS_SEEK then sys_seek s a0 a1
       else if nr =? SYS_IOCTL then sys_ioctl s a0 a1
       else if nr =? SYS_OPEN_DEV then sys_open_dev s a0 a1
       else if nr =? SYS_CLOSE_DEV then sys_close_dev s
       else if nr =? SYS_CREATE then sys_create s a0 a1
       else if nr =? SYS_DELETE then sys_delete s a0 a1
       else if nr =? SYS_RENAME then sys_rename s a0 a1 a2 a3
       else if nr =? SYS_MKDIR then sys_mkdir s a0 a1
       else if nr =? SYS_RMDIR then sys_rmdir fuel s a0 a1
       else if nr =? SYS_CHMOD then sys_chmod s a0 a1 a2
       else if nr =? SYS_CHOWN then sys_chown s a0 a1 a2 a3
       else if nr =? SYS_MARK_SHARED then sys_mark_shared s a0 a1
       else if nr =? SYS_GETDENTS then sys_getdents s a0 a1 a2 a3
       else if nr =? SYS_STAT then sys_stat s a0 a1 a2
       else if nr =? SYS_LOGIN then sys_login s a0 a1 a2
       else if nr =? SYS_LOGOUT then sys_logout s
       else if nr =? SYS_ACCESS then sys_access s a0 a1
       else if nr =? SYS_GRANT then sys_grant s a0 a1 a2
       else if nr =? SYS_REVOKE then sys_revoke s a0 a1 a2
       else if nr =? SYS_CLONE then sys_clone tramp base l s a0 a1 a2
       else if nr =? SYS_JOIN then sys_join s a0
       else if nr =? SYS_KILL then sys_kill s a0 a1
       else if nr =? SYS_SIGNAL then sys_signal s a0 a1
       else if (nr =? SYS_FORK) || (nr =? SYS_BRK) || (nr =? SYS_MPROTECT) then vm_call nr s a0 a1 a2
       else ret ENOSYS s);
    Some (r, s, frame).

(** On the way back to user mode. *)
(* process/signal.rs:56-79 deliver_pending_signal *)
Definition deliver_pending_signal (frame : TrapFrame) (s : sys) : option (reply * sys * TrapFrame) :=
  id ← current_tid (sy_k s);
  match k_table (sy_k s) !! id with
  | None => Some (Ret (rax frame), s, frame)
  | Some l =>
      t ← k_tasks (sy_k s) !! l;
      d ← deliver (signals t) frame (sy_mem s);
      match d with
      | NoSignal => Some (Ret (rax frame), s, frame)
      | Killed code sg =>
          let k := set_tasks (sy_k s) (<[l := with_signals t sg]> (k_tasks (sy_k s))) in
          '(k, _) ← exit k code;
          Some (Halted, put_k s k, frame)
      | Handled f m sg =>
          let k := set_tasks (sy_k s) (<[l := with_signals t sg]> (k_tasks (sy_k s))) in
          Some (Ret (rax f), put_mem (put_k s k) m, f)
      end
  end.

(** The lock of [SCANCODE_BUF] is free when the handler takes it: the buffer is
    read only by system calls, which run with interrupts off, and they hold the
    lock for one load. *)
(* arch/idt.rs:87-92 keyboard_handler *)
Definition keyboard_handler (s : sys) (scancode : Z) : option sys :=
  r ← push_scancode (w_ring (sy_tty s)) scancode;
  Some (put_tty s (mkWorld r (w_console (sy_tty s)) (w_serial (sy_tty s)))).

End Syscalls.

(** ** The address space *)

Section Space.
Context `{X86Addr} {T : Type} `{TopLevel T}.

Definition HEAP_FLAGS : Z := 7.

(** [(v + 0xFFF) & !0xFFF], which overflows near the top of the range. *)
Definition align_up (v : Z) : option Z := e ← uadd 64 v 0xFFF; Some (Z.ldiff e 0xFFF).

Definition put_task (k : kernel) (l : Z) (t : Task) : kernel := set_tasks k (<[l := t]> (k_tasks k)).

(** The break, the kernel, the page table and the frames after the call. *)
(* syscall/dispatch.rs:682-718 SYS_BRK *)
Definition sys_brk (k : kernel) (t : T) (p : frame_pool) (sw : option SwapPartition) (new_brk : Z) : option (Z * kernel * T * frame_pool) :=
  id ← current_tid k;
  match k_table k !! id with
  | None => Some (EBADF, k, t, p)
  | Some l =>
      task ← k_tasks k !! l;
      if new_brk =? 0 then Some (to_isize (brk task), k, t, p)
      else
        aligned ← align_up new_brk;
        if (aligned <? heap_start task) || (STACK_BOTTOM <=? aligned) then Some (to_isize (brk task), k, t, p)
        else
          '(v, t, p) ←
            (if brk task <? aligned then
               hs ← VirtAddr_new (heap_start task);
               e ← VirtAddr_new aligned;
               Some (set_heap_end (vmm task) hs e HEAP_FLAGS, t, p)
             else if aligned <? brk task then
               hs ← VirtAddr_new (heap_start task);
               e ← VirtAddr_new aligned;
               old ← VirtAddr_new (brk task);
               m ← shrink_heap (mkMm (vmm task) t p sw) hs e old HEAP_FLAGS;
               Some (mm_vmm m, mm_table m, mm_pool m)
             else Some (vmm task, t, p));
          Some (to_isize aligned, put_task k l (with_space task (cr3 task) v (heap_start task) aligned), t, p)
  end.

Definition PROT_WRITE : Z := 2.

(* syscall/dispatch.rs:719-751 SYS_MPROTECT *)
Definition sys_mprotect (k : kernel) (t : T) (addr len prot : Z) : option (Z * kernel * T) :=
  if negb (Z.land addr 0xFFF =? 0) || (len =? 0) then Some (EFAULT, k, t)
  else
    aligned_len ← align_up len;
    let fl := if Z.land prot PROT_WRITE =? 0 then 5 else 7 in
    id ← current_tid k;
    match k_table k !! id with
    | None => Some (EBADF, k, t)
    | Some l =>
        task ← k_tasks k !! l;
        a ← VirtAddr_new addr;
        '(r, v, t) ← mprotect (vmm task) t a aligned_len fl;
        Some (if is_ok r then 0 else EFAULT, put_task k l (with_space task (cr3 task) v (heap_start task) (brk task)), t)
    end.

(** The addresses are those of [sys_clone].  The result, the kernel, the tables of
    the parent and of the child if there is one, the frames, the kernel memory
    and the identifiers. *)
(* syscall/dispatch.rs:597-631 SYS_FORK *)
Definition sys_fork (tramp base l : Z) (kernel_l4 : Z -> bool) (k : kernel) (t : T) (p : frame_pool) (m : memory) (c : counters) (start : Z)
    : option (Z * kernel * T * option T * frame_pool * memory * counters) :=
  id ← current_tid k;
  '(l4, child, p) ← clone_kernel_half kernel_l4 t p;
  match k_table k !! id with
  | None => Some (EBADF, k, t, None, p, m, c)
  | Some pl =>
      parent ← k_tasks k !! pl;
      '(v, t, child, p) ← fork_cow (vmm parent) t child p;
      '(ct, m, c) ← fork_kernel tramp parent base m c start (priority parent);
      let ct := with_space ct l4 v (heap_start ct) (brk ct) in
      k ← spawn k l ct;
      Some (to_isize (pid ct), k, t, Some child, p, m, c)
  end.

(** An access that the areas of the task do not explain is a panic. *)
(* arch/idt.rs:45-72 page_fault_handler *)
Definition page_fault_handler (k : kernel) (t : T) (p : frame_pool) (sw : option SwapPartition) (fault_addr : Z) (is_write : bool)
    : option (kernel * T * frame_pool * option SwapPartition) :=
  id ← current_tid k;
  l ← k_table k !! id;
  task ← k_tasks k !! l;
  '(r, m) ← handle_fault (mkMm (vmm task) t p sw) fault_addr is_write;
  if is_ok r then Some (put_task k l (with_space task (cr3 task) (mm_vmm m) (heap_start task) (brk task)), mm_table m, mm_pool m, mm_swap m)
  else None.

End Space.

(** ** Logging out *)

Section Users.
Context {D : Type} {F : FatVolume D} {L : FatLaws D}.

(** The task that runs, as the table has it. *)
Definition running_task (k : kernel) (c : Z) (t : Task) : Prop := current (k_sched k) = Some c /\ k_tasks k !! c = Some t /\ k_table k !! tid t = Some c.

Lemma running_ids k c t : running_task k c t -> current_tid k = Some (tid t) /\ current_pid k = Some (pid t) /\ current_uid_gid k = Some (uid t, gid t).
Proof.
  intros (Hc & Ht & Hb). assert (Hid : current_tid k = Some (tid t)) by (unfold current_tid; rewrite Hc; cbn; by rewrite Ht). split; [done|]. split; [unfold current_pid; rewrite Hc; cbn; by rewrite Ht|].
  unfold current_uid_gid. rewrite Hid. cbn. rewrite Hb, Ht. done.
Qed.

Lemma update_running k c t f : running_task k c t -> tid (f t) = tid t -> exists k', update_current k f = Some k' /\ running_task k' c (f t).
Proof.
  intros Hr Hf. pose proof (running_ids k c t Hr) as (Hid & _). destruct Hr as (Hc & Ht & Hb). unfold update_current. rewrite Hid. cbn. rewrite Hb, Ht. cbn.
  eexists. split; [reflexivity|]. split; [done|]. cbn [set_tasks k_tasks k_table]. rewrite lookup_insert_eq, Hf. done.
Qed.

(** A write that reaches the file system. *)
Lemma sys_write_file (s : sys) c t fd ptr len :
  running_task (sy_k s) c t -> 0 < len -> ptr <> 0 -> fd < DEV_FD_OFFSET ->
  sys_write s fd ptr len = fs_call (fs_write fd (pid t) (uid t) (gid t) (read_bytes (sy_mem s) ptr (Z.to_nat len))) (fun n => n) s.
Proof.
  intros Hr Hl Hp Hfd. destruct (running_ids _ _ _ Hr) as (_ & Hpid & Hug). unfold sys_write.
  rewrite (proj2 (Z.eqb_neq ptr 0)), andb_false_r, (proj2 (Z.leb_gt DEV_FD_OFFSET fd)) by done. by rewrite Hpid, Hug.
Qed.

(** C36. Logging out makes the caller root: a process that may not write a file
    it has open, and whose write is refused with [EACCES], can log out, with no
    password, and then write it. *)
Theorem logout_grants_root (s : sys) c t fd p fp f contents ptr len :
  running_task (sy_k s) c t -> fd < DEV_FD_OFFSET -> 0 < len -> ptr <> 0 ->
  fd_file (sy_fs s) (pid t) fd p fp f contents -> is_shared f = false -> ~ allowed (sy_fs s) p (uid t) (gid t) can_write ->
  0 <= f_cursor f -> f_cursor f + len <= Z.of_nat (length contents) -> Z.of_nat (length contents) < 2 ^ 64 ->
  (exists s', sys_write s fd ptr len = Some (Ret EACCES, s')) /\
  (exists s1 s2, sys_logout s = Some (Ret 0, s1) /\ sys_write s1 fd ptr len = Some (Ret len, s2) /\
    exists d, disk (sy_fs s2) = Some d /\
      files d fp = Some (take (Z.to_nat (f_cursor f)) contents ++ read_bytes (sy_mem s) ptr (Z.to_nat len) ++ drop (Z.to_nat (f_cursor f) + Z.to_nat len) contents)).
Proof.
  intros Hr Hfd Hl Hp Hf Hs Ha H0 Hn Hc. assert (Hlen : length (read_bytes (sy_mem s) ptr (Z.to_nat len)) = Z.to_nat len) by apply read_bytes_length. split.
  - destruct (fs_write_denied (sy_fs s) fd (pid t) (uid t) (gid t) (read_bytes (sy_mem s) ptr (Z.to_nat len)) p f) as (f' & E & _); [apply Hf|apply Hf|done|done|].
    rewrite (sys_write_file s c t) by done. unfold fs_call. rewrite E. cbn. by eexists.
  - destruct (update_running (sy_k s) c t (fun t => with_ids t 0 0) Hr eq_refl) as (k1 & Ek & Hr1). unfold sys_logout. rewrite Ek. cbn. eexists _.
    destruct (fs_write_overwrites (sy_fs s) fd (pid t) 0 0 p fp f contents (read_bytes (sy_mem s) ptr (Z.to_nat len)) Hf Hs) as (f1 & E & _ & Hf1);
      [by left|done|rewrite Hlen; lia|done|].
    eexists. split; [reflexivity|]. rewrite (sys_write_file _ c (with_ids t 0 0)) by done. unfold fs_call. cbn [sy_fs put_k sy_mem with_ids pid uid gid]. rewrite E. cbn.
    rewrite Hlen, Z2Nat.id by lia. split; [reflexivity|]. destruct Hf1 as (_ & _ & _ & d & Hd & Hfiles). exists d. split; [done|]. by rewrite Hlen in Hfiles.
Qed.

End Users.

(** A task whose stack [setup_stack] prepared starts at its entry point, on its
    own kernel stack. *)
Lemma first_run tramp base start m m1 m2 top r off cpu0 m' ts out inc nt :
  fits 64 tramp -> fits 64 start -> 0 < base -> alloc_kernel_stack base m = Some (m1, top) -> setup_stack tramp m1 start top = Some (m2, r) -> rsp nt = r ->
  out <> inc -> (out <> 0 -> is_Some (ts !! out)) -> ts !! inc = Some nt -> 0 <= inc -> fits 64 (inc + off) -> Forall (fits 64) (saved_regs cpu0) ->
  48 <= c_rsp cpu0 < 2 ^ 64 -> (c_rsp cpu0 <= base \/ base + KERNEL_STACK_SIZE + GUARD_SIZE <= c_rsp cpu0 - 48) ->
  (forall x, base <= x < base + KERNEL_STACK_SIZE + GUARD_SIZE -> get m' x = get m2 x) ->
  exists c1 m3 ts', switch_to off cpu0 m' ts out inc = Some (c1, m3, ts') /\ let c2 := run_task_trampoline c1 m3 in
    c_rip c2 = start /\ c_rsp c2 = top /\ c_if c2 = true /\ c_cr3 c2 = (if cr3 nt =? 0 then c_cr3 cpu0 else cr3 nt).
Proof.
  intros Ht He Hb Ha Hs Hr Hne Hout Hinc Hi Hoff Hregs Hc Hd Hsame. destruct (fresh_stack _ _ _ _ _ _ _ _ Ht He Hb Ha Hs) as (Hr' & Htop & Htop2 & _ & Hent & Htr & Hz & _ & _).
  unfold KERNEL_STACK_SIZE, GUARD_SIZE in *. assert (Hrd : forall i, 1 <= i <= 8 -> read_u64 m' (top - 8 * i) = read_u64 m2 (top - 8 * i)) by (intros i Hi'; apply read_u64_ext; intros x Hx; apply Hsame; lia).
  destruct (switch_to_fresh off cpu0 m' ts out inc nt base top tramp Hne Hout Hinc Hi Hoff Hregs) as (m3 & ts' & E & _ & Hm3); unfold KERNEL_STACK_SIZE, GUARD_SIZE in *; try done; try congruence.
  - rewrite (Hrd 2 ltac:(lia) : read_u64 m' (top - 16) = _). exact Htr.
  - intros i Hi'. rewrite Hrd by lia. by apply Hz.
  - eexists _, m3, ts'. split; [exact E|]. cbn [run_task_trampoline c_rip c_rsp c_if c_cr3]. rewrite wrap_small by (unfold fits; lia). split_and!; [|lia|done|done].
    rewrite <- Hent. apply read_u64_ext. intros x Hx. rewrite Hm3, Hsame by lia. done.
Qed.

Section Clone.
Context {D : Type}.

(** C35. A user program can run code of its choice in the kernel: [SYS_CLONE] takes the
    thread's entry point from a register and prepares the new thread like a
    kernel task.  Whatever address the program passes, the call succeeds, and the
    first switch to the thread goes through [task_trampoline], which has no
    [iretq] and only enables interrupts and returns, to that address, in kernel
    mode, on a kernel stack and in the address space of the program. *)
Theorem clone_runs_caller_address_in_kernel (tramp base l : Z) (s : sys (D := D)) c t fl start prio :
  running_task (sy_k s) c t -> Z.land fl CLONE_VM <> 0 -> 0 < base < 2 ^ 63 -> 0 <= l -> fits 64 tramp -> fits 64 start ->
  exists s' nt, sys_clone tramp base l s fl start prio = Some (Ret (to_isize (tid nt)), s') /\ k_tasks (sy_k s') !! l = Some nt /\ uid nt = uid t /\
    forall off cpu0 m ts out,
      ts !! l = Some nt -> out <> l -> (out <> 0 -> is_Some (ts !! out)) -> fits 64 (l + off) -> Forall (fits 64) (saved_regs cpu0) ->
      48 <= c_rsp cpu0 < 2 ^ 64 -> (c_rsp cpu0 <= base \/ base + KERNEL_STACK_SIZE + GUARD_SIZE <= c_rsp cpu0 - 48) ->
      (forall x, base <= x < base + KERNEL_STACK_SIZE + GUARD_SIZE -> get m x = get (sy_mem s') x) ->
      exists c1 m1 ts1, switch_to off cpu0 m ts out l = Some (c1, m1, ts1) /\ let c2 := run_task_trampoline c1 m1 in
        c_rip c2 = start /\ c_rsp c2 = kernel_stack_top nt /\ c_if c2 = true /\ c_cr3 c2 = (if cr3 t =? 0 then c_cr3 cpu0 else cr3 t).
Proof.
  intros Hr Hfl Hb Hl Ht He. destruct (running_ids _ _ _ Hr) as (Hid & _). destruct Hr as (Hc & Htk & Htb). unfold sys_clone. rewrite (proj2 (Z.eqb_neq _ _) Hfl), Hid. cbn [mbind option_bind]. rewrite Htb, Htk. cbn [mbind option_bind].
  unfold clone_thread. destruct (kernel_stack_some tramp base (sy_mem s) start Hb) as (m1 & top & m2 & r & Ea & Es). rewrite Ea. cbn [mbind option_bind]. rewrite Es. cbn [mbind option_bind]. unfold tid_next. cbn [mbind option_bind].
  set (nt := if Z.land fl CLONE_SIGHAND =? 0 then _ else _). unfold spawn, table_insert. cbn [set_tasks k_tasks k_sched k_table]. rewrite lookup_insert_eq. cbn [mbind option_bind k_tasks k_sched].
  unfold push. rewrite lookup_insert_eq. cbn [mbind option_bind set_sched k_tasks].
  assert (Hnt : rsp nt = r /\ uid nt = uid t /\ kernel_stack_top nt = top /\ cr3 nt = cr3 t) by (unfold nt; by destruct (_ =? 0)). destruct Hnt as (H1 & H2 & H3 & H4).
  eexists _, nt. split; [reflexivity|]. cbn [sy_k put_counters put_mem put_k k_tasks sy_mem]. split; [apply lookup_insert_eq|]. split; [done|].
  intros off cpu0 m ts out Hnt Hne Hout Hoff Hregs Hsp Hd Hsame. rewrite H3, <- H4. apply (first_run tramp base start (sy_mem s) m1 m2 top r); try done. lia.
Qed.
End Clone.

(** User 2 runs process 5, which has the file of [guarded_fs] open. *)
Definition user_kernel : kernel :=
  mkKernel {[0x500 := with_ids (sample_task 5 0) 2 2]} {[5 := 0x500]} (mkSched (replicate 8 []) (Some 0x500) 1 0 false) 0 0 0.
Definition user_sys : sys :=
  mkSys user_kernel ∅ guarded_fs (spinlock_new ipc_table_new) ∅ resource_table_new rbac_new empty_world [] (mkCounters 6 6).

Lemma logout_grants_root_witness :
  (exists s', sys_write user_sys 3 0x1000 2 = Some (Ret EACCES, s')) /\
  (exists s1 s2, sys_logout user_sys = Some (Ret 0, s1) /\ sys_write s1 3 0x1000 2 = Some (Ret 2, s2)).
Proof.
  assert (Hr : running_task (sy_k user_sys) 0x500 (with_ids (sample_task 5 0) 2 2)) by (split; [reflexivity|split; vm_compute; reflexivity]).
  assert (Hfd : fd_file (sy_fs user_sys) 5 3 [47; 97] [97] sample_fcb [1; 2; 3; 4; 5; 6; 7; 8]).
  { split; [vm_compute; reflexivity|]. split; [reflexivity|]. split; [vm_compute; reflexivity|]. exists sample_disk. split; vm_compute; reflexivity. }
  destruct (logout_grants_root user_sys 0x500 (with_ids (sample_task 5 0) 2 2) 3 [47; 97] [97] sample_fcb [1; 2; 3; 4; 5; 6; 7; 8] 0x1000 2 Hr) as (H1 & s1 & s2 & H2 & H3 & _);
    [reflexivity|reflexivity|discriminate|exact Hfd|reflexivity| |cbn; lia|cbn; lia|cbn; lia|].
  - intros [Hu|Ha]; [discriminate Hu|]. destruct (Ha _ eq_refl) as (_ & _ & Hw). discriminate Hw; discriminate.
  - split; [exact H1|]. exists s1, s2. exact (conj H2 H3).
Defined.

(** ** Blocking under the table's lock *)

(** With the preemption counter up the scheduler does not switch, so marking
    the caller blocked and waiting leaves it running. *)
Definition pinned (k : kernel) (c t : Z) : Prop :=
  k_preempt k = 1 /\ current (k_sched k) = Some c /\ (exists u, k_tasks k !! c = Some u /\ tid u = t) /\ k_table k !! t = Some c.

Lemma pinned_wait {A} k c t cv (l : Spinlock A) :
  pinned k c t -> sl_locked l = false ->
  exists k1 l1, acquire k l = Some (k1, l1) /\ l1 = mkSpinlock true (sl_data l) /\
    exists k2 cv', condvar_wait k1 cv l1 = Some (k2, cv', mkSpinlock false (sl_data l), None) /\ pinned k2 c t.
Proof.
  intros (Hp & Hc & (u & Hu & Ht) & Hb) Hl. unfold acquire, spin_lock. rewrite Hl. eexists _, _. split; [reflexivity|]. split; [done|].
  unfold condvar_wait, condvar_park. assert (current_tid (preempt_disable k) = Some t) as -> by (unfold current_tid; cbn; rewrite Hc; cbn; rewrite Hu; cbn; by rewrite Ht).
  cbn [mbind option_bind]. unfold mark_blocked. cbn [preempt_disable set_preempt k_table k_tasks]. rewrite Hb, Hu. cbn [mbind option_bind spin_unlock].
  unfold schedule. cbn [preempt_enable set_preempt set_tasks preempt_disable k_preempt]. rewrite Hp. cbn. eexists _, _. split; [reflexivity|].
  split; [cbn; rewrite ?Hp; reflexivity|]. split; [exact Hc|]. split; [|exact Hb]. cbn. rewrite lookup_insert_eq. by eexists.
Qed.

Lemma recv_turns_hang fuel : forall k c t p len,
  pinned k c t -> sl_locked (p_buf p) = false -> buffered p = [] -> p_closed p = false -> exists k' p', recv_turns fuel k (ChPipe p) len = Some (None, k', ChPipe p').
Proof.
  induction fuel as [|fuel IH]; intros k c t p len Hk Hl Hb Hc; cbn [recv_turns ch_recv]; [by eexists _, _|].
  destruct (pinned_wait k c t (p_not_empty p) (p_buf p) Hk Hl) as (k1 & l1 & E1 & -> & k2 & cv & E2 & Hk2).
  unfold pipe_recv. rewrite E1. cbn [mbind option_bind sl_data]. unfold buffered in Hb. rewrite Hb in *. cbn [p_closed]. rewrite Hc. cbn [p_not_empty]. rewrite E2. cbn [mbind option_bind].
  apply (IH k2 c t); done.
Qed.

Lemma send_turns_hang fuel : forall k c t p data written,
  pinned k c t -> sl_locked (p_buf p) = false -> length (buffered p) = PIPE_BUF -> p_closed p = false -> (written < length data)%nat ->
  exists k' p', send_turns fuel k (ChPipe p) data written = Some (None, k', ChPipe p').
Proof.
  induction fuel as [|fuel IH]; intros k c t p data written Hk Hl Hb Hc Hw; cbn [send_turns ch_send]; [by eexists _, _|].
  destruct (pinned_wait k c t (p_not_full p) (p_buf p) Hk Hl) as (k1 & l1 & E1 & -> & k2 & cv & E2 & Hk2).
  unfold pipe_send. rewrite E1. cbn [mbind option_bind send_loop]. rewrite (proj2 (Nat.leb_gt (length data) written)) by lia. cbn [p_closed]. rewrite Hc.
  unfold buffered in Hb. cbn [p_buf sl_data]. rewrite Hb, Nat.ltb_irrefl, Nat.sub_diag, Nat.eqb_refl. cbn [p_not_full]. rewrite E2. cbn [mbind option_bind].
  by apply (IH k2 c t).
Qed.

Lemma spin_lock_held {A} fuel k (l : Spinlock A) : sl_locked l = true -> spin_lock fuel k l = None.
Proof. intros Hl. induction fuel as [|fuel IH]; [done|]. cbn. by rewrite Hl. Qed.

Lemma close_under_lock n idle k p : held n idle k -> 0 <= n -> n + 1 < 2 ^ 32 -> sl_locked (p_buf p) = false -> exists k' p', pipe_close k p = Some (k', p').
Proof.
  intros Hh Hn Hn' Hl. unfold pipe_close. destruct (acquire_deeper n idle k (p_buf p) Hh Hn Hn' Hl) as (k1 & -> & Hh1 & _). cbn [mbind option_bind].
  destruct (broadcast_held (n + 1) idle k1 (p_not_empty p) Hh1) as (k2 & c2 & -> & Hh2 & _). cbn [mbind option_bind].
  destruct (broadcast_held (n + 1) idle k2 (p_not_full p) Hh2) as (k3 & c3 & -> & _). by eexists _, _.
Qed.

(** C37. The pipe calls do not return where they should wait, and closing never
    returns: the handle table stays locked during the operation, so a read
    from an empty pipe and a write to a full one turn in their loops without
    ever switching to a task that could change the pipe, and [SYS_PIPE_CLOSE]
    asks a second time for the lock it holds.  None of them returns within any
    number of turns. *)
Theorem pipe_calls_never_return {D} (s : sys (D := D)) idle h p ptr len :
  kernel_ok idle (sy_k s) -> sl_locked (sy_ipc s) = false -> ipc_get (sl_data (sy_ipc s)) h = Some (ChPipe p) -> pipe_ok p -> p_closed p = false ->
  0 < len -> ptr <> 0 ->
  (forall fuel, exists s', sys_pipe_close fuel s h = Some (Running_on, s')) /\
  (buffered p = [] -> forall fuel, exists s', sys_pipe_read fuel s h ptr len = Some (Running_on, s')) /\
  (length (buffered p) = PIPE_BUF -> forall fuel, exists s', sys_pipe_write fuel s h ptr len = Some (Running_on, s')).
Proof.
  intros Hk Hl Hg [Hpl _] Hc Hlen Hptr. destruct (acquire_held idle (sy_k s) (sy_ipc s) Hk Hl) as (k1 & Ea & Hh & _).
  assert (Hpin : exists c t, pinned k1 c t).
  { destruct Hh as [Hp1 Hok]. destruct (current_tid_ok idle _ Hok) as (c & t & Hcc & Ht & _ & _ & Hb & _). exists c, (tid t). split_and!; [done|done|by exists t|done]. }
  destruct Hpin as (c & t & Hpin). unfold sys_pipe_read, sys_pipe_write, sys_pipe_close. rewrite (proj2 (Z.eqb_neq ptr 0)), andb_false_r by done. rewrite Ea. cbn [sl_data]. rewrite Hg. split_and!.
  - intros fuel. cbn [ch_close]. destruct (close_under_lock 1 idle k1 p Hh) as (k2 & p2 & ->); [lia|lia|done|]. cbn [mbind option_bind sl_locked]. rewrite spin_lock_held by done. by eexists.
  - intros Hb fuel. destruct (recv_turns_hang fuel k1 c t p (Z.to_nat len) Hpin Hpl Hb Hc) as (k2 & p2 & ->). by eexists.
  - intros Hb fuel. destruct (send_turns_hang fuel k1 c t p (read_bytes (sy_mem s) ptr (Z.to_nat len)) 0 Hpin Hpl Hb Hc) as (k2 & p2 & ->); [rewrite read_bytes_length; lia|]. by eexists.
Qed.

Definition pipe_sys : sys (D := volume) :=
  mkSys busy_kernel ∅ fs_new (spinlock_new (mkIpcTable 1 {[0 := ChPipe pipe_new]})) ∅ resource_table_new rbac_new empty_world [] (mkCounters 4 4).

Lemma pipe_calls_never_return_witness :
  (forall fuel, exists s', sys_pipe_close fuel pipe_sys 0 = Some (Running_on, s')) /\
  (forall fuel, exists s', sys_pipe_read fuel pipe_sys 0 0x1000 8 = Some (Running_on, s')).
Proof.
  destruct (pipe_calls_never_return pipe_sys 0x300 0 pipe_new 0x1000 8 busy_kernel_ok) as (H1 & H2 & _); [reflexivity|vm_compute; reflexivity|split; [reflexivity|cbn; lia]|reflexivity|reflexivity|discriminate|].
  split; [exact H1|exact (H2 eq_refl)].
Defined.

Lemma clone_runs_caller_address_in_kernel_witness :
  exists s' nt c1 m1 ts1, sys_clone 0x5000 0x40000 0x600 user_sys CLONE_VM 0x400000 0 = Some (Ret (to_isize (tid nt)), s') /\ k_tasks (sy_k s') !! 0x600 = Some nt /\ uid nt = 2 /\
    switch_to 96 sample_cpu (sy_mem s') {[0x600 := nt]} 0 0x600 = Some (c1, m1, ts1) /\ c_rip (run_task_trampoline c1 m1) = 0x400000.
Proof.
  destruct (clone_runs_caller_address_in_kernel 0x5000 0x40000 0x600 user_sys 0x500 (with_ids (sample_task 5 0) 2 2) CLONE_VM 0x400000 0) as (s' & nt & E & Hk & Hu & Hrun);
    [split_and!; reflexivity|discriminate|lia|lia|unfold fits; lia|unfold fits; lia|].
  destruct (Hrun 96 sample_cpu (sy_mem s') {[0x600 := nt]} 0) as (c1 & m1 & ts1 & Es & Hrip & _);
    [apply lookup_singleton_eq|lia|congruence|unfold fits; lia|unfold saved_regs; all_fit|cbn; lia|left; cbn; lia|reflexivity|].
  exists s', nt, c1, m1, ts1. exact (conj E (conj Hk (conj Hu (conj Es Hrip)))).
Defined.
