(* ===== verification/Interrupts.v ===== *)
(** Interrupts ([kernel/src/arch/idt.rs], [arch/interrupts.rs], [init] of
    [arch/mod.rs]): the interrupt descriptor table, the two interrupt
    controllers, and the way from a line of a controller to its handler and
    back.

    The controllers, driven by the [pic8259] crate, are a class with their
    documented behaviour.  How the processor finds a gate, and what it does
    when there is none, is that of the architecture manual.  Handlers run with
    interrupts masked. *)

From S2P Require Import Prelude Bytes X86 Vmm Signal Task Gdt Sched Sync Ipc Security Console Fat Records Vfs Syscall.

(** ** The controllers *)

(** Lines 0 to 7 belong to the first controller and 8 to 15 to the second, which
    is attached to line 2 of the first.  [in_service] lists the lines the
    processor has taken and not acknowledged; [pics_raise] gives the vector of
    a line, [None] when the line has to wait for one in service. *)
Class Pics (P : Type) := {
  pics_new : Z -> Z -> P;
  pics_initialize : P -> P;
  notify_end_of_interrupt : P -> Z -> P;
  pics_offsets : P -> option (Z * Z);
  in_service : P -> list Z;
  pics_raise : P -> Z -> option (Z * P);
  pics_initialize_offsets a b : pics_offsets (pics_initialize (pics_new a b)) = Some (a, b);
  pics_initialize_idle a b : in_service (pics_initialize (pics_new a b)) = [];
  pics_raise_idle p a b i : pics_offsets p = Some (a, b) -> in_service p = [] -> 0 <= i < 16 ->
    exists p', pics_raise p i = Some (if i <? 8 then a + i else b + (i - 8), p') /\ pics_offsets p' = Some (a, b) /\
      in_service p' = if i <? 8 then [i] else [i; 2];
  (** A line in service holds back itself and the lines after it. *)
  pics_raise_held p i j : in_service p = [i] -> i <= j < 8 -> pics_raise p j = None;
  notify_one p a b i : pics_offsets p = Some (a, b) -> in_service p = [i] -> 0 <= i < 8 ->
    pics_offsets (notify_end_of_interrupt p (a + i)) = Some (a, b) /\ in_service (notify_end_of_interrupt p (a + i)) = []
}.

(* arch/interrupts.rs:6-7 PIC1_OFFSET *)
Definition PIC1_OFFSET : Z := 0x20.
Definition PIC2_OFFSET : Z := PIC1_OFFSET + 8.

(** ** The descriptor table *)

(* arch/idt.rs:9-14 InterruptIndex *)
Definition TIMER_VECTOR : Z := 0x20.
Definition KEYBOARD_VECTOR : Z := 0x21.

Inductive handler := BreakpointHandler | DoubleFaultHandler | PageFaultHandler | GpfHandler | TimerHandler | KeyboardHandler.

(** A gate has a handler and perhaps an interrupt stack. *)
Record gate := mkGate { g_handler : handler; g_stack : option nat }.

(** The vectors the processor gives to the exceptions the table names. *)
Definition BREAKPOINT : Z := 3.
Definition DOUBLE_FAULT : Z := 8.
Definition SEGMENT_NOT_PRESENT : Z := 11.
Definition GENERAL_PROTECTION : Z := 13.
Definition PAGE_FAULT : Z := 14.

(* arch/idt.rs:17-28 IDT *)
Definition IDT : gmap Z gate :=
  let idt := ∅ in
  let idt := <[BREAKPOINT := mkGate BreakpointHandler None]> idt in
  let idt := <[DOUBLE_FAULT := mkGate DoubleFaultHandler (Some DOUBLE_FAULT_IST_INDEX)]> idt in
  let idt := <[PAGE_FAULT := mkGate PageFaultHandler None]> idt in
  let idt := <[GENERAL_PROTECTION := mkGate GpfHandler None]> idt in
  let idt := <[TIMER_VECTOR := mkGate TimerHandler None]> idt in
  <[KEYBOARD_VECTOR := mkGate KeyboardHandler None]> idt.

(** The gate that is entered for a vector: a vector without a gate raises
    [SEGMENT_NOT_PRESENT], and if that has no gate either the processor
    enters the double fault's. *)
Definition vector_gate (idt : gmap Z gate) (v : Z) : option gate :=
  match idt !! v with
  | Some g => Some g
  | None => match idt !! SEGMENT_NOT_PRESENT with Some g => Some g | None => idt !! DOUBLE_FAULT end
  end.

Section Board.
Context {D P G : Type} {F : FatVolume D} `{Pics P} `{SegmentTable G}.

(** The controllers, the table the processor has loaded, the interrupt flag, the
    segment registers, the lock word of [SCHEDULER] and the kernel. *)
Record board := mkBoard {
  bd_pics : P;
  bd_idt : gmap Z gate;
  bd_if : bool;
  bd_segs : segment_regs;
  bd_lock : Spinlock unit;
  bd_sys : sys (D := D)
}.

Definition put_board (b : board) (p : P) (l : Spinlock unit) (s : sys) : board := mkBoard p (bd_idt b) (bd_if b) (bd_segs b) l s.

(** ** Start-up *)

(* arch/idt.rs:31-33 init *)
Definition idt_init (b : board) : board := mkBoard (bd_pics b) IDT (bd_if b) (bd_segs b) (bd_lock b) (bd_sys b).

(* arch/interrupts.rs:21-26 init *)
Definition interrupts_init (b : board) : board :=
  mkBoard (pics_initialize (bd_pics b)) (bd_idt b) true (bd_segs b) (bd_lock b) (bd_sys b).

(** [boot_scratch] and [entry] are the addresses of [BOOT_SCRATCH] and
    [syscall_entry]. *)
(* arch/mod.rs:13-18 init *)
Definition arch_init (boot_scratch entry : Z) (b : board) : option board :=
  '(_, sel) ← GDT (G := G);
  let b := mkBoard (bd_pics b) (bd_idt b) (bd_if b) (gdt_init sel boot_scratch (bd_segs b)) (bd_lock b) (bd_sys b) in
  let b := interrupts_init (idt_init b) in
  r ← syscall_init entry sel (bd_segs b);
  Some (mkBoard (bd_pics b) (bd_idt b) (bd_if b) r (bd_lock b) (bd_sys b)).

(** ** Handlers *)

(* arch/interrupts.rs:34-38 end_of_interrupt *)
Definition end_of_interrupt (b : board) (vector : Z) : board :=
  put_board b (notify_end_of_interrupt (bd_pics b) vector) (bd_lock b) (bd_sys b).

(* arch/interrupts.rs:29-31 tick *)
Definition tick (k : kernel) : kernel :=
  mkKernel (k_tasks k) (k_table k) (k_sched k) (k_preempt k) (k_rsp0 k) (increment (k_ticks k)).

(** The handler returns, or spins for the lock after [fuel] turns. *)
Inductive outcome := Returned (b : board) | Spinning.

(** With the lock of [SCHEDULER] taken around [tick]; the locks [schedule] takes
    after that are free. *)
(* arch/idt.rs:80-85 timer_handler *)
Definition timer_isr (fuel : nat) (b : board) : option outcome :=
  let k := tick (sy_k (bd_sys b)) in
  let b := end_of_interrupt b TIMER_VECTOR in
  match spin_lock fuel k (bd_lock b) with
  | None => Some Spinning
  | Some (k, l) =>
      k ← sched_tick k;
      let '(k, l) := spin_unlock k l in
      '(k, _) ← schedule k;
      Some (Returned (put_board b (bd_pics b) l (put_k (bd_sys b) k)))
  end.

(** [scancode] is what port 0x60 reads. *)
(* arch/idt.rs:87-92 keyboard_handler *)
Definition keyboard_isr (scancode : Z) (b : board) : option outcome :=
  s ← keyboard_handler (bd_sys b) scancode;
  Some (Returned (end_of_interrupt (put_board b (bd_pics b) (bd_lock b) s) KEYBOARD_VECTOR)).

(** Messages to the serial port are left out; [None] is the panic. *)
(* arch/idt.rs:37-39 breakpoint_handler *)
Definition breakpoint_isr (b : board) : option outcome := Some (Returned b).
(* arch/idt.rs:41-43 double_fault_handler *)
Definition double_fault_isr (b : board) : option outcome := None.
(* arch/idt.rs:74-76 gpf_handler *)
Definition gpf_isr (b : board) : option outcome := None.

(** A line is raised while interrupts are enabled. *)
Definition interrupt (fuel : nat) (line scancode : Z) (b : board) : option outcome :=
  if negb (bd_if b) then Some (Returned b)
  else
    match pics_raise (bd_pics b) line with
    | None => Some (Returned b)
    | Some (v, p) =>
        let b := put_board b p (bd_lock b) (bd_sys b) in
        g ← vector_gate (bd_idt b) v;
        match g_handler g with
        | TimerHandler => timer_isr fuel b
        | KeyboardHandler => keyboard_isr scancode b
        | BreakpointHandler => breakpoint_isr b
        | DoubleFaultHandler => double_fault_isr b
        | GpfHandler => gpf_isr b
        | PageFaultHandler => None
        end
    end.

(** A sequence of interrupts: the timer, or a key. *)
Inductive irq := IrqTimer | IrqKey (scancode : Z).
Definition irq_line (i : irq) : Z := match i with IrqTimer => 0 | IrqKey _ => 1 end.
Definition irq_code (i : irq) : Z := match i with IrqTimer => 0 | IrqKey c => c end.

Fixpoint run_irqs (fuel : nat) (b : board) (irqs : list irq) : option outcome :=
  match irqs with
  | [] => Some (Returned b)
  | i :: irqs =>
      o ← interrupt fuel (irq_line i) (irq_code i) b;
      match o with Returned b => run_irqs fuel b irqs | Spinning => Some Spinning end
  end.

(** ** Counting *)

Lemma boost_total ts s ts' s' : boost_priorities ts s = Some (ts', s') -> total_ticks s' = total_ticks s.
Proof. unfold boost_priorities. destruct (boost_take _ _ _ _) as [[[? ?] ?]|]; [|discriminate]. by intros [= <- <-]. Qed.

Lemma tick_total k k' : sched_tick k = Some k' -> total_ticks (k_sched k') = total_ticks (k_sched k) + 1 /\ k_ticks k' = k_ticks k.
Proof.
  unfold sched_tick, mlfq_tick. intros E. apply bind_Some in E as ([ts s] & E & [= <-]). apply bind_Some in E as (n & En & E). apply bind_Some in E as ([ts1 s1] & E1 & E).
  assert (n = total_ticks (k_sched k) + 1) as -> by (unfold uadd, uchk in En; destruct (_ && _); congruence).
  assert (total_ticks s1 = total_ticks (k_sched k) + 1) by (destruct (_ =? 0); [by apply boost_total in E1|by injection E1 as <- <-]). cbn.
  split; [|done]. destruct (current s1); injection E as _ <-; done.
Qed.

Lemma schedule_total k k' sw : schedule k = Some (k', sw) -> total_ticks (k_sched k') = total_ticks (k_sched k) /\ k_ticks k' = k_ticks k.
Proof.
  unfold schedule. destruct (0 <? k_preempt k); [by intros [= <- <-]|]. intros E. apply bind_Some in E as (s & Es & E). apply bind_Some in E as ([[ts s1] sw1] & Ep & E).
  assert (Hs : total_ticks s = total_ticks (k_sched k)).
  { unfold should_reschedule in Es. destruct (current (k_sched k)); [|by injection Es as <-]. apply bind_Some in Es as (t & _ & [= <-]). by destruct (state t). }
  assert (Hs1 : total_ticks s1 = total_ticks s).
  { unfold prepare_switch in Ep. destruct (negb _); [by injection Ep as _ <- _|]. destruct (pick_next _) as [[? ?]|]; [|by injection Ep as _ <- _].
    apply bind_Some in Ep as ([[? ?] ?] & _ & Ep). apply bind_Some in Ep as (? & _ & Ep). apply bind_Some in Ep as (? & _ & [= _ <- _]). done. }
  destruct sw1 as [[? ?]|]; [apply bind_Some in E as (? & _ & [= <- <-])|injection E as <- <-]; cbn; split; congruence.
Qed.

(** ** Interrupts *)

(** Both handlers can run: the controllers are idle, the table is loaded and the
    scheduler's lock is free. *)
Record board_ok (idle : Z) (b : board) : Prop := mkBoardOk {
  bo_offsets : pics_offsets (bd_pics b) = Some (PIC1_OFFSET, PIC2_OFFSET);
  bo_idle : in_service (bd_pics b) = [];
  bo_idt : bd_idt b = IDT;
  bo_if : bd_if b = true;
  bo_lock : sl_locked (bd_lock b) = false;
  bo_kernel : kernel_ok idle (sy_k (bd_sys b));
  bo_ring : ring_ok (w_ring (sy_tty (bd_sys b)))
}.

Lemma raise_ok idle b i : board_ok idle b -> 0 <= i < 8 ->
  exists p, pics_raise (bd_pics b) i = Some (0x20 + i, p) /\ pics_offsets p = Some (PIC1_OFFSET, PIC2_OFFSET) /\ in_service p = [i].
Proof.
  intros [A1 A2 _ _ _ _ _] Hi. destruct (pics_raise_idle (bd_pics b) _ _ i A1 A2) as (p & E & Ho & Hs); [lia|].
  rewrite (proj2 (Z.ltb_lt i 8)) in E, Hs by lia. by exists p.
Qed.

Lemma timer_locked_handler idle fuel k (l : Spinlock unit) :
  kernel_ok idle k -> sl_locked l = false ->
  (match spin_lock (S fuel) (tick k) l with
   | None => None
   | Some (k, l) => k ← sched_tick k; let '(k, l) := spin_unlock k l in '(k, _) ← schedule k; Some (k, l)
   end) = ('(k, _) ← timer_handler k; Some (k, mkSpinlock false (sl_data l))).
Proof.
  intros [[_ _ _ _ Hp _] _] Hl. cbn [spin_lock]. rewrite Hl. unfold timer_handler, tick, increment, fetch_add. cbn [snd].
  unfold sched_tick. cbn [preempt_disable set_preempt k_tasks k_sched]. destruct (mlfq_tick _ _) as [[ts s]|]; [|done]. cbn [mbind option_bind spin_unlock preempt_enable preempt_disable set_preempt set_sched k_preempt k_tasks k_table k_sched k_rsp0 k_ticks sl_data].
  rewrite Hp. reflexivity.
Qed.

Lemma timer_interrupt_ok idle fuel code b :
  board_ok idle b -> total_ticks (k_sched (sy_k (bd_sys b))) + 1 < 2 ^ 32 ->
  exists b', interrupt (S fuel) 0 code b = Some (Returned b') /\ board_ok idle b' /\
    (exists sw, timer_handler (sy_k (bd_sys b)) = Some (sy_k (bd_sys b'), sw)) /\ sy_tty (bd_sys b') = sy_tty (bd_sys b).
Proof.
  intros Hb Hn. pose proof Hb as [A1 A2 A3 A4 A5 A6 A7]. destruct (raise_ok idle b 0 Hb ltac:(lia)) as (p & E & Ho & Hs).
  destruct (timer_ok idle _ A6 Hn) as (k' & sw & Et & Hok). pose proof (timer_locked_handler idle fuel _ _ A6 A5) as El. rewrite Et in El.
  unfold interrupt. rewrite A4, E. cbn [negb put_board bd_idt]. rewrite A3. change (vector_gate IDT (0x20 + 0)) with (Some (mkGate TimerHandler None)). cbn [mbind option_bind g_handler].
  unfold timer_isr. cbn [put_board bd_sys end_of_interrupt bd_lock]. destruct (spin_lock _ _ _) as [[k1 l1]|]; [|discriminate El].
  destruct (sched_tick k1) as [k2|]; [|discriminate El]. cbn [mbind option_bind] in *. destruct (spin_unlock k2 l1) as [k3 l3]. destruct (schedule k3) as [[k4 ?]|]; [|discriminate El]. injection El as -> ->.
  destruct (notify_one p _ _ 0 Ho Hs ltac:(lia)) as [Ho' Hs']. eexists. split; [reflexivity|]. split; [by split|]. split; [by eexists|done].
Qed.

Lemma key_interrupt_ok idle fuel code b :
  board_ok idle b ->
  exists b', interrupt fuel 1 code b = Some (Returned b') /\ board_ok idle b' /\ sy_k (bd_sys b') = sy_k (bd_sys b) /\
    let keys := ring_contents (w_ring (sy_tty (bd_sys b))) in
    ring_contents (w_ring (sy_tty (bd_sys b'))) = if (length keys <? 255)%nat then keys ++ [code] else keys.
Proof.
  intros Hb. pose proof Hb as [A1 A2 A3 A4 A5 A6 A7]. destruct (raise_ok idle b 1 Hb ltac:(lia)) as (p & E & Ho & Hs).
  destruct (push_scancode_spec _ code A7) as (r & Er & Hr & Hc).
  unfold interrupt. rewrite A4, E. cbn [negb put_board bd_idt]. rewrite A3. change (vector_gate IDT (0x20 + 1)) with (Some (mkGate KeyboardHandler None)). cbn [mbind option_bind g_handler].
  unfold keyboard_isr, keyboard_handler. cbn [put_board bd_sys]. rewrite Er. cbn [mbind option_bind].
  destruct (notify_one p _ _ 1 Ho Hs ltac:(lia)) as [Ho' Hs']. eexists. split; [reflexivity|]. split; [by split|done].
Qed.

Definition timers (irqs : list irq) : Z := Z.of_nat (length (filter (fun i => irq_line i = 0) irqs)).
Definition keys_of (irqs : list irq) : list Z := omap (fun i => match i with IrqKey c => Some c | IrqTimer => None end) irqs.
(** The ring keeps 255 scancodes and drops the rest. *)
Definition kept (old keys : list Z) : list Z := foldl (fun r c => if (length r <? 255)%nat then r ++ [c] else r) old keys.

Lemma timer_counts k k' sw :
  timer_handler k = Some (k', sw) -> total_ticks (k_sched k') = total_ticks (k_sched k) + 1 /\ k_ticks k' = wrap 64 (k_ticks k + 1).
Proof.
  unfold timer_handler. intros E. apply bind_Some in E as (k1 & E1 & E2). apply tick_total in E1 as [A1 A2]. apply schedule_total in E2 as [B1 B2]. cbn in *. split; congruence.
Qed.

Lemma run_irqs_ok idle fuel irqs : forall b,
  board_ok idle b -> fits 64 (k_ticks (sy_k (bd_sys b))) -> total_ticks (k_sched (sy_k (bd_sys b))) + timers irqs < 2 ^ 32 ->
  exists b', run_irqs (S fuel) b irqs = Some (Returned b') /\ board_ok idle b' /\
    k_ticks (sy_k (bd_sys b')) = wrap 64 (k_ticks (sy_k (bd_sys b)) + timers irqs) /\
    total_ticks (k_sched (sy_k (bd_sys b'))) = total_ticks (k_sched (sy_k (bd_sys b))) + timers irqs /\
    ring_contents (w_ring (sy_tty (bd_sys b'))) = kept (ring_contents (w_ring (sy_tty (bd_sys b)))) (keys_of irqs).
Proof.
  induction irqs as [|i irqs IH]; intros b Hb Hf Hn.
  { exists b. change (timers []) with 0 in *. rewrite !Z.add_0_r, wrap_small by done. by split_and!. }
  cbn [run_irqs]. destruct i as [|c].
  - assert (Et : timers (IrqTimer :: irqs) = 1 + timers irqs) by (unfold timers; rewrite filter_cons_True by done; cbn [length]; lia). rewrite Et in *.
    assert (0 <= timers irqs) by (unfold timers; lia).
    destruct (timer_interrupt_ok idle fuel 0 b Hb ltac:(lia)) as (b1 & E & Hb1 & (sw & Eh) & Htty). destruct (timer_counts _ _ _ Eh) as [Hc1 Hc2].
    destruct (IH b1 Hb1) as (b' & E' & Hb' & Q1 & Q2 & Q3); [rewrite Hc2; apply wrap_fits; lia|lia|]. exists b'. cbn [irq_line irq_code]. rewrite E. cbn [mbind option_bind].
    split_and!; [done|done| |lia|by rewrite Q3, Htty]. rewrite Q1, Hc2. unfold wrap. rewrite Zplus_mod_idemp_l. f_equal. lia.
  - assert (Et : timers (IrqKey c :: irqs) = timers irqs) by (unfold timers; by rewrite filter_cons_False by done). rewrite Et in *.
    destruct (key_interrupt_ok idle (S fuel) c b Hb) as (b1 & E & Hb1 & Hk & Hr). cbv zeta in Hr. rewrite <- Hk in Hf, Hn.
    destruct (IH b1 Hb1 Hf Hn) as (b' & E' & Hb' & Q1 & Q2 & Q3). exists b'. cbn [irq_line irq_code]. rewrite E. cbn [mbind option_bind]. rewrite Hk in Q1, Q2.
    split_and!; [done|done|done|done|]. rewrite Q3, Hr. reflexivity.
Qed.

(** C20. Interrupts reach their handlers and leave the machine ready for the next
    ones: after start-up, whatever sequence of timer and keyboard interrupts
    comes while the scheduler's lock is free, every one is delivered through
    the descriptor table to its own handler, none panics, and each is
    acknowledged, so that none is ever held back; every timer interrupt is
    counted once by [TICKS] and by the scheduler, and the keys are in the ring
    in the order in which they were pressed, up to its capacity.  [s] is the
    kernel's state once the scheduler runs. *)
Theorem interrupts_delivered boot_scratch entry idle fuel (b0 : board) (s : sys) (irqs : list irq) :
  bd_pics b0 = pics_new PIC1_OFFSET PIC2_OFFSET -> sl_locked (bd_lock b0) = false -> kernel_ok idle (sy_k s) -> ring_ok (w_ring (sy_tty s)) ->
  fits 64 (k_ticks (sy_k s)) -> total_ticks (k_sched (sy_k s)) + timers irqs < 2 ^ 32 ->
  exists b b', arch_init boot_scratch entry b0 = Some b /\ run_irqs (S fuel) (put_board b (bd_pics b) (bd_lock b) s) irqs = Some (Returned b') /\ board_ok idle b' /\
    k_ticks (sy_k (bd_sys b')) = wrap 64 (k_ticks (sy_k s) + timers irqs) /\
    total_ticks (k_sched (sy_k (bd_sys b'))) = total_ticks (k_sched (sy_k s)) + timers irqs /\
    ring_contents (w_ring (sy_tty (bd_sys b'))) = kept (ring_contents (w_ring (sy_tty s))) (keys_of irqs).
Proof.
  intros Hp Hl Hk Hr Hf Hn. unfold arch_init. destruct (gdt_layout (G := G)) as (g & ->). cbn [mbind option_bind]. unfold syscall_init. cbn [syscall_selectors kernel_code user_code].
  change (star_value 0x8 0x23) with (Some 0x13000800000000). cbn [mbind option_bind].
  match goal with |- context [Some ?b = Some _] => destruct (run_irqs_ok idle fuel irqs (put_board b (bd_pics b) (bd_lock b) s)) as (b' & E & Hrest) end; [|done|done|by eexists _, b'].
  split; cbn; rewrite ?Hp; [apply pics_initialize_offsets|apply pics_initialize_idle|done|done|done|done|done].
Qed.

(** The timer interrupt does not respect the scheduler's lock: taking the lock
    disables preemption but not interrupts, and the handler takes the lock
    itself, so a timer interrupt that comes while the interrupted code holds
    it never returns, for any number of turns of its loop; and until it
    returns no other code runs that could release the lock. *)
Theorem timer_spins_on_held_lock idle code (b : board) :
  board_ok idle (put_board b (bd_pics b) (mkSpinlock false tt) (bd_sys b)) -> sl_locked (bd_lock b) = true ->
  forall fuel, interrupt fuel 0 code b = Some Spinning.
Proof.
  intros Hb Hl fuel. pose proof Hb as [A1 A2 A3 A4 _ _ _]. destruct (raise_ok idle _ 0 Hb ltac:(lia)) as (p & E & _ & _). cbn [put_board bd_pics bd_idt bd_if] in *.
  unfold interrupt. rewrite A4, E. cbn [negb put_board bd_idt]. rewrite A3. change (vector_gate IDT (0x20 + 0)) with (Some (mkGate TimerHandler None)). cbn [mbind option_bind g_handler].
  unfold timer_isr. cbn [put_board end_of_interrupt bd_lock]. by rewrite spin_lock_held.
Qed.

(** A line without a gate, any but the timer's and the keyboard's, ends in the
    double-fault handler, which panics. *)
Lemma other_line_panics idle fuel code line (b : board) :
  board_ok idle b -> 2 <= line < 16 -> interrupt fuel line code b = None.
Proof.
  intros [A1 A2 A3 A4 _ _ _] Hi. destruct (pics_raise_idle (bd_pics b) _ _ line A1 A2) as (p & E & _ & _); [lia|].
  unfold interrupt. rewrite A4, E. cbn [negb put_board bd_idt]. rewrite A3.
  assert (Hv : (if line <? 8 then PIC1_OFFSET + line else PIC2_OFFSET + (line - 8)) = 0x20 + line) by (unfold PIC1_OFFSET, PIC2_OFFSET; destruct (line <? 8); unfold PIC1_OFFSET; lia). rewrite Hv.
  assert (vector_gate IDT (0x20 + line) = Some (mkGate DoubleFaultHandler (Some DOUBLE_FAULT_IST_INDEX))) as ->; [|done].
  unfold vector_gate. assert (IDT !! (0x20 + line) = None) as ->; [|reflexivity]. unfold IDT, BREAKPOINT, DOUBLE_FAULT, PAGE_FAULT, GENERAL_PROTECTION, TIMER_VECTOR, KEYBOARD_VECTOR. cbv zeta. rewrite !lookup_insert_ne by lia. done.
Qed.

End Board.

(** Initialisation of the scheduler leaves [TICKS] alone. *)
Lemma sched_init_ticks tramp idle_task base0 base1 cur_cr3 l0 l1 k m c k' m' c' :
  sched_init tramp idle_task base0 base1 cur_cr3 l0 l1 k m c = Some (k', m', c') -> k_ticks k' = k_ticks k.
Proof.
  unfold sched_init. intros E. apply bind_Some in E as ([[t0 m0] c0] & _ & E). apply bind_Some in E as (k1 & E1 & E). apply bind_Some in E as ([ts s] & _ & E).
  apply bind_Some in E as ([[t1 m1] c1] & _ & E). apply bind_Some in E as (k2 & E2 & [= <- _ _]).
  unfold table_insert in E1. apply bind_Some in E1 as (? & _ & [= <-]). unfold spawn, table_insert in E2. apply bind_Some in E2 as (k3 & E3 & E2). apply bind_Some in E3 as (? & _ & [= <-]).
  apply bind_Some in E2 as (? & _ & [= <-]). done.
Qed.

(** ** Example *)

(** The offsets given and programmed, and the lines in service. *)
Record pic_pair := mkPicPair { pp_given : Z * Z; pp_set : option (Z * Z); pp_service : list Z }.

#[export, refine] Instance pic_pair_pics : Pics pic_pair := {
  pics_new a b := mkPicPair (a, b) None [];
  pics_initialize p := mkPicPair (pp_given p) (Some (pp_given p)) [];
  notify_end_of_interrupt p v :=
    match pp_set p with
    | Some (a, b) => mkPicPair (pp_given p) (pp_set p) (if (a <=? v) && (v <? a + 8) then tail (pp_service p) else if (b <=? v) && (v <? b + 8) then drop 2 (pp_service p) else pp_service p)
    | None => p
    end;
  pics_offsets := pp_set;
  in_service := pp_service;
  pics_raise p i :=
    match pp_set p with
    | Some (a, b) =>
        if forallb (fun s => i <? s) (pp_service p)
        then Some (if i <? 8 then a + i else b + (i - 8), mkPicPair (pp_given p) (pp_set p) (if i <? 8 then i :: pp_service p else i :: 2 :: pp_service p))
        else None
    | None => None
    end
}.
Proof.
  - done.
  - done.
  - intros [g o s] a b i Ho Hs Hi. cbn in *. subst. cbn. eexists. split; [reflexivity|]. split; [done|]. cbn. by destruct (i <? 8).
  - intros [g o s] i j Hs Hij. cbn in *. subst. cbn. rewrite (proj2 (Z.ltb_ge j i)) by lia. by destruct o as [[? ?]|].
  - intros [g o s] a b i Ho Hs Hi. cbn in *. subst. cbn. by rewrite (proj2 (Z.leb_le a (a + i))), (proj2 (Z.ltb_lt (a + i) (a + 8))) by lia.
Defined.

Definition sample_board (k : kernel) (locked : bool) : board (D := volume) (P := pic_pair) :=
  mkBoard (pics_new PIC1_OFFSET PIC2_OFFSET) ∅ false (mkSegs 0 0 0 0 0 0 0 0) (mkSpinlock locked tt)
    (mkSys k ∅ fs_new (spinlock_new ipc_table_new) ∅ resource_table_new rbac_new empty_world [] (mkCounters 3 3)).

Lemma interrupts_delivered_witness :
  exists (s : sys (D := volume)) b b', arch_init (G := Z) 0x1000 0x2000 (sample_board kernel_new false) = Some b /\
    run_irqs 1 (put_board b (bd_pics b) (bd_lock b) s) [IrqTimer; IrqKey 0x1E; IrqTimer] = Some (Returned b') /\
    ring_contents (w_ring (sy_tty (bd_sys b'))) = [0x1E].
Proof.
  destruct (sched_init_some 0x5000 0x6000 0x40000 0x60000 0x1000 0x70000 0x71000 kernel_new ∅ (mkCounters 1 1)) as (k & m & c & E); [lia..|].
  change kernel_new with (early_kernel 0 0) in E. destruct (sched_init_ok _ _ _ _ _ _ _ _ _ _ _ _ _ _ E) as (Hok & _ & _ & Ht); [lia|lia|unfold fits; cbn; lia|].
  pose proof (sched_init_ticks _ _ _ _ _ _ _ _ _ _ _ _ _ E) as Hk. change (k_ticks (early_kernel 0 0)) with 0 in Hk. exists (bd_sys (sample_board k false)).
  destruct (interrupts_delivered (G := Z) 0x1000 0x2000 0x71000 0 (sample_board kernel_new false) (bd_sys (sample_board k false)) [IrqTimer; IrqKey 0x1E; IrqTimer]) as (b & b' & E1 & E2 & _ & _ & _ & Hr);
    [done|done|exact Hok|apply empty_world_ok|cbn; rewrite Hk; unfold fits; lia|cbn; rewrite Ht; vm_compute; reflexivity|].
  exists b, b'. split; [exact E1|]. split; [exact E2|exact Hr].
Defined.

Lemma timer_spins_on_held_lock_witness :
  exists b : board (D := volume) (P := pic_pair), sl_locked (bd_lock b) = true /\ forall fuel, interrupt fuel 0 0 b = Some Spinning.
Proof.
  destruct (sched_init_some 0x5000 0x6000 0x40000 0x60000 0x1000 0x70000 0x71000 kernel_new ∅ (mkCounters 1 1)) as (k & m & c & E); [lia..|].
  change kernel_new with (early_kernel 0 0) in E. destruct (sched_init_ok _ _ _ _ _ _ _ _ _ _ _ _ _ _ E) as (Hok & _ & _ & Ht); [lia|lia|unfold fits; cbn; lia|].
  exists (interrupts_init (idt_init (sample_board k true))). split; [reflexivity|].
  apply (timer_spins_on_held_lock 0x71000); [|reflexivity]. split; [done|done|done|done|done|exact Hok|apply empty_world_ok].
Defined.
