(* ===== verification/Boot.v ===== *)
(** Start-up and the self-tests ([kernel/src/main.rs]): the order in which the
    kernel brings its services up once memory is set, and the self-tests that
    follow and that need one task only.

    Every service is one of the components; here they act on one [machine].
    [Err] is an [expect] on an answer of the file system; a failed assertion,
    or any other panic, is [None].  Messages to the serial port, which nothing
    reads back, are left out. *)

From S2P Require Import Prelude Bytes Crc X86 Frames Disk DiskSched FatIo Fat Mount Swap Vmm Signal Task Sched Sync Ipc Security Console Records Vfs Loader Syscall.

(* main.rs:47-48 BOOT_DISK_SECTOR_SIZE *)
Definition BOOT_DISK_SECTOR_SIZE : Z := 512.
Definition BOOT_DISK_SECTOR_COUNT : Z := (64 * 1024 * 1024) / BOOT_DISK_SECTOR_SIZE.

(** [/init], [/hello.txt] and what they are on the volume. *)
Definition INIT_PATH : path := [47; 105; 110; 105; 116].
Definition INIT_FILE : path := [105; 110; 105; 116].
Definition HELLO_PATH : path := [47; 104; 101; 108; 108; 111; 46; 116; 120; 116].
Definition HELLO_FILE : path := [104; 101; 108; 108; 111; 46; 116; 120; 116].
(** [hi], [test] *)
Definition HI : list Z := [104; 105].
Definition TEST_PASSWORD : list Z := [116; 101; 115; 116].

(** What an [expect] on the file system can fail with. *)
Inductive boot_failure := MountFailed | DiskNotMounted | FileFailed (e : FsError) | TestFileFailed.

(** Only the boot task and the idle task exist, with the first identifiers. *)
Record two_tasks (l0 l1 : Z) (k : kernel) (c : counters) : Prop := mkTwoTasks {
  tt_run : runnable (k_sched k) ≡ₚ [l0; l1];
  tt_table id l : k_table k !! id = Some l -> id < 3 /\ l ∈ [l0; l1] /\ forall u, k_tasks k !! l = Some u -> pid u < 3;
  tt_tasks l : l ∉ [l0; l1] -> k_tasks k !! l = None;
  tt_next : c = mkCounters 3 3
}.

Lemma sched_init_two_tasks tramp idle_task base0 base1 cur_cr3 l0 l1 n ticks m k m' c' :
  sched_init tramp idle_task base0 base1 cur_cr3 l0 l1 (early_kernel n ticks) m (mkCounters 1 1) = Some (k, m', c') -> 0 <= n -> l0 <> l1 -> two_tasks l0 l1 k c'.
Proof.
  intros E Hn Hl. destruct (sched_init_ok _ _ _ _ _ _ _ _ _ _ _ _ _ _ E Hn Hl) as (_ & Hq & Hc & _); [unfold fits; cbn; lia|].
  destruct (sched_init_tasks _ _ _ _ _ _ _ _ _ _ _ _ _ _ E) as (t0 & t1 & Et & Etb & A1 & A2 & A3 & A4 & ->).
  change (wrap 64 (NEXT_TID (mkCounters 1 1) + 1)) with 2 in *. change (wrap 64 (NEXT_PID (mkCounters 1 1) + 1)) with 2 in *. cbn [NEXT_TID NEXT_PID] in A1, A2. split.
  - unfold runnable. by rewrite Hq, Hc.
  - rewrite Etb, Et. intros id l Hid. apply lookup_insert_Some in Hid as [[<- <-]|[_ Hid]].
    + split; [lia|]. split; [right; left|]. rewrite lookup_insert_eq. intros u [= <-]. lia.
    + apply lookup_singleton_Some in Hid as [<- <-]. split; [lia|]. split; [left|]. rewrite lookup_insert_ne, lookup_singleton_eq by congruence. intros u [= <-]. lia.
  - intros l Hnin. rewrite !elem_of_cons in Hnin. rewrite Et, lookup_insert_ne, lookup_singleton_ne; [done|intros ->; tauto..].
  - done.
Qed.

Section Boot.
Context `{X86Addr} {T : Type} `{TopLevel T}.
Context {V : Type} {F : FatVolume V} {L : FatLaws V} {C : FatCrate RamDisk V}.
(** Those of the system calls. *)
Context (to_lowercase from_utf8_lossy : list Z -> list Z) (sha256 : list Z -> list Z) (stat_pad : list Z).
(** The addresses of the code, of the tasks and of their stacks, and the program
    the build embeds. *)
Context (tramp idle_task base0 base1 cur_cr3 l0 l1 : Z) (INIT_BIN : list Z).

(** The state the system calls share, the kernel's page table, the free frames,
    the cursor of the RAM-disk region, the swap area, and the top-level entries
    recorded for new address spaces. *)
Record machine := mkMachine {
  bm_sys : sys (D := V);
  bm_table : T;
  bm_pool : frame_pool;
  bm_virt : Z;
  bm_swap : option SwapPartition;
  bm_l4 : Z -> bool
}.

Abbreviation bootm := (kmon machine boot_failure).

Definition need {A} (o : option A) : bootm A := match o with Some a => kret a | None => kpanic end.
Definition assert_that (b : bool) : bootm unit := if b then kret tt else kpanic.

Definition set_sys (b : machine) (s : sys) : machine := mkMachine s (bm_table b) (bm_pool b) (bm_virt b) (bm_swap b) (bm_l4 b).
Definition set_memory (b : machine) (t : T) (p : frame_pool) (virt : Z) : machine := mkMachine (bm_sys b) t p virt (bm_swap b) (bm_l4 b).

(** An operation on the file system, with [expect]. *)
Definition on_fs {A} (m : kmon LogicalFs FsError A) : bootm A := fun b =>
  '(r, f) ← m (sy_fs (bm_sys b));
  Some (match r with Ok a => Ok a | Err e => Err (FileFailed e) end, set_sys b (put_fs (bm_sys b) f)).

(** ** Services *)

(** [RamDisk::new]. *)
Definition new_disk (count size : Z) : bootm RamDisk :=
  let! b := kget in
  let! r := need (ramdisk_new (bm_virt b) (bm_table b) (bm_pool b) count size) in
  let '(d, virt, t, p) := r in
  kput (set_memory b t p virt) ;;;
  kret d.

(* main.rs:154-158 mount_boot_disk *)
Definition mount_boot_disk : bootm unit :=
  let! d := new_disk BOOT_DISK_SECTOR_COUNT BOOT_DISK_SECTOR_SIZE in
  let! r := need (format_and_mount d) in
  match r with
  | Ok fatfs => let! b := kget in kput (set_sys b (put_fs (bm_sys b) (mount_disk (sy_fs (bm_sys b)) fatfs)))
  | Err _ => kerr MountFailed
  end.

(* fs/vfs.rs:60-63 disk_and_overlays_mut *)
Definition disk_and_overlays_mut (s : LogicalFs) : option (V * AuthDb * PermsDb) := d ← disk s; Some (d, auth s, perms s).

(** [fuel] bounds the number of records read. *)
(* main.rs:160-164 load_system_domain *)
Definition load_system_domain (fuel : nat) : bootm unit :=
  let! b := kget in
  let s := sy_fs (bm_sys b) in
  match disk_and_overlays_mut s with
  | None => kerr DiskNotMounted
  | Some (d, a, p) =>
      let! r := need (load_at_boot fuel d a p) in
      let '(d, a, p) := r in
      kput (set_sys b (put_fs (bm_sys b) (mkFs (fcbs s) (fds s) p a (Some d))))
  end.

(* main.rs:166-168 init_devices *)
Definition init_devices : bootm unit :=
  let! b := kget in
  kput (set_sys b (put_dev (bm_sys b) (snd (dev_register (sy_dev (bm_sys b)) "console")))).

(* main.rs:170-173 seed_test_user *)
Definition seed_test_user : bootm unit :=
  let entry := auth_new sha256 1 TEST_PASSWORD in
  let! b := kget in
  let s := sy_fs (bm_sys b) in
  kput (set_sys b (put_fs (bm_sys b) (mkFs (fcbs s) (fds s) (perms s) (auth_insert (auth s) entry) (disk s)))).

(* main.rs:175-182 install_init_binary *)
Definition install_init_binary : bootm unit :=
  let! b := kget in
  let! pid := need (current_pid (sy_k (bm_sys b))) in
  let! fd := on_fs (fs_create to_lowercase INIT_PATH pid) in
  on_fs (fs_write fd pid 0 0 INIT_BIN) ;;;
  on_fs (fs_close fd pid).

Definition swap_start : bootm unit :=
  let! b := kget in
  let! r := need (swap_init (bm_virt b) (bm_table b) (bm_pool b)) in
  let '(sw, virt, t, p) := r in
  kput (mkMachine (bm_sys b) t p virt sw (bm_l4 b)).

Definition record_l4 : bootm unit :=
  let! b := kget in
  kput (mkMachine (bm_sys b) (bm_table b) (bm_pool b) (bm_virt b) (bm_swap b) (record_kernel_l4_entries (bm_table b))).

Definition scheduler_start : bootm unit :=
  let! b := kget in
  let s := bm_sys b in
  let! r := need (sched_init tramp idle_task base0 base1 cur_cr3 l0 l1 (sy_k s) (sy_mem s) (sy_counters s)) in
  let '(k, m, c) := r in
  kput (set_sys b (put_counters (put_mem (put_k s k) m) c)).

(* main.rs:118-125 kernel_main *)
Definition start_services (fuel : nat) : bootm unit :=
  mount_boot_disk ;;;
  load_system_domain fuel ;;;
  swap_start ;;;
  record_l4 ;;;
  init_devices ;;;
  scheduler_start ;;;
  seed_test_user ;;;
  install_init_binary.

(** ** Self-tests *)

(* main.rs:184-193 io_smoke_test *)
Definition io_smoke_test : bootm unit :=
  let! d := new_disk 16 512 in
  let buf := (fun i => Z.of_nat i mod 256) <$> seq 0 512 in
  let! w := need (write_sector d 3 buf) in
  assert_that (is_ok (fst w)) ;;;
  let! r := need (read_sector (snd w) 3 (replicate 512 0)) in
  let '(r, rbuf, _) := r in
  assert_that (is_ok r) ;;;
  assert_that (bool_decide (buf = rbuf)).

(** A system call with only its first argument, which returns to its caller. *)
Definition call1 (vm_call : Z -> sys -> Z -> Z -> Z -> answer) (nr a0 : Z) : bootm Z := fun b =>
  match syscall_handler to_lowercase from_utf8_lossy sha256 stat_pad 1 tramp 0 0 vm_call nr (mkFrame 0 0 0 0 0 0 0 0 0 0 a0 0 0 0 0 0) (bm_sys b) with
  | Some (Ret v, s, _) => Some (Ok v, set_sys b s)
  | _ => None
  end.

(* main.rs:195-205 sync_syscall_smoke_test *)
Definition sync_syscall_smoke_test (vm_call : Z -> sys -> Z -> Z -> Z -> answer) : bootm unit :=
  let! h := call1 vm_call SYS_GETRESOURCE 0 in
  let h := wrap 64 h in
  let! r := call1 vm_call SYS_MUTEX_LOCK h in
  assert_that (r =? 0) ;;;
  let! r := call1 vm_call SYS_MUTEX_TRYLOCK h in
  assert_that (r =? -11) ;;;
  let! r := call1 vm_call SYS_MUTEX_UNLOCK h in
  assert_that (r =? 0) ;;;
  let! r := call1 vm_call SYS_MUTEX_TRYLOCK h in
  assert_that (r =? 0).

(* main.rs:207-219 fs_smoke_test *)
Definition fs_smoke_test : bootm unit :=
  let! b := kget in
  let! pid := need (current_pid (sy_k (bm_sys b))) in
  let! fd := on_fs (fs_create to_lowercase HELLO_PATH pid) in
  on_fs (fs_write fd pid 0 0 HI) ;;;
  on_fs (fs_close fd pid) ;;;
  let! fd := on_fs (fs_open to_lowercase HELLO_PATH pid 0 0) in
  let! bs := on_fs (fs_read fd pid 0 0 2) in
  let buf := bs ++ drop (length bs) [0; 0] in
  assert_that (bool_decide (buf = HI)) ;;;
  on_fs (fs_close fd pid).

(* main.rs:221-245 security_smoke_test *)
Definition security_smoke_test : bootm unit :=
  let! b := kget in
  let ac := set_rights (sy_ac (bm_sys b)) 1 42 (Z.lor (Z.lor RIGHT_READ RIGHT_WRITE) OWNER) in
  let r := access ac 1 42 in
  assert_that (contains r RIGHT_READ) ;;;
  assert_that (contains r RIGHT_WRITE) ;;;
  assert_that (contains r OWNER) ;;;
  let '(ac, res) := grant ac 1 2 42 RIGHT_READ in
  assert_that (is_ok res) ;;;
  assert_that (contains (access ac 2 42) RIGHT_READ) ;;;
  let '(ac, res) := revoke ac 1 2 42 RIGHT_READ in
  assert_that (is_ok res) ;;;
  assert_that (negb (contains (access ac 2 42) RIGHT_READ)) ;;;
  let ac := define_role ac 1 (Z.lor RIGHT_READ RIGHT_EXECUTE) in
  let ac := assign_role ac 3 1 in
  let r3 := access ac 3 99 in
  assert_that (contains r3 RIGHT_READ) ;;;
  assert_that (contains r3 RIGHT_EXECUTE) ;;;
  kput (set_sys b (put_ac (bm_sys b) ac)).

Definition read_req (l : Z) : DiskRequest := mkReq l 1 false.
Definition write_req (l : Z) : DiskRequest := mkReq l 1 true.
Definition ALAPHIOS : list Z := [65; 108; 97; 112; 104; 105; 79; 83].

(* main.rs:247-280 disk_scheduling_smoke_test *)
Definition disk_scheduling_smoke_test : bootm unit :=
  let c := crc32 ALAPHIOS in
  assert_that (crc32 ALAPHIOS =? c) ;;;
  assert_that (negb (c =? 0)) ;;;
  let! r := need (drain (submit cscan_new (read_req 5))) in
  let! r := need (drain (foldl submit (snd r) (read_req <$> [2; 8; 3; 10; 1]))) in
  assert_that (bool_decide (lba <$> fst r = [8; 10; 1; 2; 3])) ;;;
  let! r := need (drain (foldl submit fcfs_new [write_req 5; write_req 6; write_req 7; read_req 3; write_req 10])) in
  assert_that (bool_decide ((fun q => (lba q, count q, is_write q)) <$> fst r = [(5, 3, true); (3, 1, false); (10, 1, true)])).

(* main.rs:282-288 consistency_smoke_test *)
Definition consistency_smoke_test (fuel : nat) : bootm unit :=
  let! b := kget in
  let s := sy_fs (bm_sys b) in
  match disk s with
  | None => kerr DiskNotMounted
  | Some d =>
      let! r := need (test_consistency_repair sha256 fuel d) in
      match r with
      | Ok d => kput (set_sys b (put_fs (bm_sys b) (mount_disk s d)))
      | Err _ => kerr TestFileFailed
      end
  end.

(* main.rs:290-300 device_smoke_test *)
Definition device_smoke_test : bootm unit :=
  let! b := kget in
  assert_that (bool_decide (dev_find (sy_dev (bm_sys b)) "console" = Some 0%nat)) ;;;
  assert_that (is_blocking (sy_dev (bm_sys b)) 0) ;;;
  kput (set_sys b (put_tty (bm_sys b) (console_put (sy_tty (bm_sys b)) 33))).

Definition SWAP_TEST_VA : Z := 0x55550000.
(** The byte pattern of the test page. *)
Definition swap_pattern : list Z := (fun i => Z.land (Z.of_nat i) 0xFF) <$> seq 0 PAGE_BYTES.

(* main.rs:302-339 swap_smoke_test *)
Definition swap_smoke_test : bootm unit :=
  let! b := kget in
  let! r := need (clone_kernel_half (bm_l4 b) (bm_table b) (bm_pool b)) in
  let '(_, mapper, fa) := r in
  let flags := Z.lor (Z.lor PRESENT WRITABLE) USER_ACCESSIBLE in
  let! e := need (VirtAddr_add SWAP_TEST_VA 4096) in
  let vmm := add_area vmm_new (mkArea SWAP_TEST_VA e flags Anonymous) in
  let! r := need (allocate fa) in
  let '(f, fa) := r in
  let! frame := need f in
  let! p := need (uadd 64 PHYS_MEM_OFFSET frame) in
  let fa := mkPool (write_bytes (p_mem fa) p swap_pattern) (p_fl fa) in
  let! r := need (map_page mapper (containing_address SWAP_TEST_VA) frame flags fa) in
  let '(mapper, fa) := r in
  let! r := need (evict_addr (mkMm vmm mapper fa (bm_swap b)) SWAP_TEST_VA) in
  let '(evicted, m) := r in
  assert_that evicted ;;;
  assert_that (bool_decide (translate_addr (mm_table m) SWAP_TEST_VA = None)) ;;;
  let! r := need (handle_fault m SWAP_TEST_VA false) in
  let '(r, m) := r in
  assert_that (is_ok r) ;;;
  let! phys := need (translate_addr (mm_table m) SWAP_TEST_VA) in
  let! p := need (uadd 64 PHYS_MEM_OFFSET phys) in
  assert_that (bool_decide (read_bytes (p_mem (mm_pool m)) p PAGE_BYTES = swap_pattern)) ;;;
  kput (mkMachine (bm_sys b) (bm_table b) (mm_pool m) (bm_virt b) (mm_swap m) (bm_l4 b)).

(** The tests that need one task. *)
(* main.rs:139-146 all_the_freaking_tests *)
Definition single_tests (vm_call : Z -> sys -> Z -> Z -> Z -> answer) (fuel : nat) : list (bootm unit) :=
  [io_smoke_test;
   sync_syscall_smoke_test vm_call;
   fs_smoke_test;
   security_smoke_test;
   device_smoke_test;
   disk_scheduling_smoke_test;
   consistency_smoke_test fuel;
   swap_smoke_test].

Fixpoint in_order (ts : list (bootm unit)) : bootm unit :=
  match ts with
  | [] => kret tt
  | [t] => t
  | t :: ts => t ;;; in_order ts
  end.

(** One after the other, with no interrupt. *)
(* main.rs:139-146 all_the_freaking_tests *)
Definition single_task_tests (vm_call : Z -> sys -> Z -> Z -> Z -> answer) (fuel : nat) : bootm unit := in_order (single_tests vm_call fuel).

(** What the tests store on the volume: the file of [fs_smoke_test], and the one
    of [consistency_smoke_test], which is removed again. *)
Definition tests_volume (d : V) : option V := d ← fat_store d HELLO_FILE [HI]; fat_store d TEST_PATH (test_records sha256).

(** ** Running to the end *)

(** The failures possible: the volume cannot be formatted and mounted, or refuses
    to create or write a file. *)
Definition refused (e : boot_failure) : Prop :=
  match e with
  | MountFailed => exists d : RamDisk, format_and_mount d = Some (Err mkFatIoError)
  | FileFailed InvalidPath | TestFileFailed => fat_refuses V
  | _ => False
  end.

(** [m] does not panic from [b]; it ends in a state that has [Q], or in a failure
    that has [R]. *)
Definition wpr {A} (R : boot_failure -> Prop) (m : bootm A) (Q : A -> machine -> Prop) (b : machine) : Prop :=
  exists r b', m b = Some (r, b') /\ match r with Ok a => Q a b' | Err e => R e end.
Abbreviation wp := (wpr refused).

Lemma wp_ret {R} {A} (a : A) (Q : A -> machine -> Prop) b : Q a b -> wpr R (kret a) Q b.
Proof. intros Hq. by exists (Ok a), b. Qed.

Lemma wp_put {R} (b' : machine) (Q : unit -> machine -> Prop) b : Q tt b' -> wpr R (kput b') Q b.
Proof. intros Hq. by exists (Ok tt), b'. Qed.

Lemma wp_bind {R} {A B} (m : bootm A) (f : A -> bootm B) Q b : wpr R m (fun a => wpr R (f a) Q) b -> wpr R (kbind m f) Q b.
Proof. intros (r & b1 & E & Hr). unfold wpr, kbind. rewrite E. destruct r as [a|e]; [|by exists (Err e), b1]. destruct Hr as (r & b2 & E2 & H2). by exists r, b2. Qed.

Lemma wp_mono {R} {A} (m : bootm A) (P Q : A -> machine -> Prop) b : wpr R m P b -> (forall a b', P a b' -> Q a b') -> wpr R m Q b.
Proof. intros (r & b1 & E & Hr) HPQ. exists r, b1. split; [done|]. destruct r; [by apply HPQ|done]. Qed.

Lemma wp_get {R} (Q : machine -> machine -> Prop) b : Q b b -> wpr R kget Q b.
Proof. intros Hq. by exists (Ok b), b. Qed.

Lemma wp_need {R} {A} (o : option A) (a : A) (Q : A -> machine -> Prop) b : o = Some a -> Q a b -> wpr R (need o) Q b.
Proof. intros -> Hq. by apply wp_ret. Qed.

Lemma wp_assert {R} (x : bool) (Q : unit -> machine -> Prop) b : x = true -> Q tt b -> wpr R (assert_that x) Q b.
Proof. intros -> Hq. by apply wp_ret. Qed.

Lemma wp_fs {R} {A} (m : kmon LogicalFs FsError A) (a : A) f (Q : A -> machine -> Prop) b :
  m (sy_fs (bm_sys b)) = Some (Ok a, f) -> Q a (set_sys b (put_fs (bm_sys b) f)) -> wpr R (on_fs m) Q b.
Proof. intros E Hq. unfold wpr, on_fs. rewrite E. by eexists _, _. Qed.

(** Operations on the file system one after the other are one operation. *)
Lemma on_fs_bind {A B} (m : kmon LogicalFs FsError A) (f : A -> kmon LogicalFs FsError B) b :
  on_fs (kbind m f) b = kbind (on_fs m) (fun a => on_fs (f a)) b.
Proof.
  unfold on_fs, kbind. destruct (m (sy_fs (bm_sys b))) as [[r s]|]; [|done]. destruct r as [a|e]; [|done]. cbn [mbind option_bind].
  change (sy_fs (bm_sys (set_sys b (put_fs (bm_sys b) s)))) with s. by destruct (f a s) as [[r s']|].
Qed.

Lemma wp_ext {R} {A} (m m' : bootm A) Q b : m b = m' b -> wpr R m' Q b -> wpr R m Q b.
Proof. intros E (r & b' & E' & Hr). exists r, b'. by rewrite E. Qed.

(** ** Memory *)

Definition REGION_END : Z := RAMDISK_VIRT_REGION_BASE + 2 ^ 32.

(** [n] frames are free, the RAM-disk region is used up to [v], and the page of
    the swap test is not mapped. *)
Record memory_ready (n v : Z) (b : machine) : Prop := mkMemoryReady {
  mr_pool : exists l, pool_at (bm_pool b) l /\ n <= Z.of_nat (length l);
  mr_virt : bm_virt b = RAMDISK_VIRT_REGION_BASE + v;
  mr_aligned : (4096 | v) /\ 0 <= v;
  mr_free : forall q, bm_virt b <= q -> q < REGION_END -> entry (bm_table b) q = None;
  mr_test_page : entry (bm_table b) SWAP_TEST_VA = None
}.

Lemma region_aligned v : (4096 | v) -> (4096 | RAMDISK_VIRT_REGION_BASE + v).
Proof. intros Hv. apply Z.divide_add_r; [|done]. by exists (RAMDISK_VIRT_REGION_BASE / 4096). Qed.

Lemma elem_of_disk_pages start len q : (4096 | start) -> 0 < len -> q ∈ disk_pages start len -> start <= q < start + (len + 4095) / 4096 * 4096.
Proof.
  intros Hs Hl Hq. pose proof (disk_pages_length start len Hs Hl) as Hn. unfold disk_pages in *. rewrite length_fmap, length_seqZ in Hn.
  apply list_elem_of_fmap in Hq as (i & -> & Hi). apply elem_of_seqZ in Hi. lia.
Qed.

Lemma pool_at_drawn p l used p' l' : pool_at p l -> l = used ++ l' -> drawn allocate p used p' -> free_list p' l' -> pool_at p' l'.
Proof.
  intros (Hl & Ho & Hf) -> Hd Hl'. destruct (fl_drawn_mem _ _ _ _ Hl Hd) as [_ Ho']. split_and!; [done|congruence|by apply Forall_app in Hf as [_ ?]].
Qed.

(** What stays the same when only memory is taken. *)
Definition same_services (b b' : machine) : Prop := bm_sys b' = bm_sys b /\ bm_swap b' = bm_swap b /\ bm_l4 b' = bm_l4 b.

Lemma new_disk_wp {R} count size n v b (Q : RamDisk -> machine -> Prop) :
  let pages := (count * size + 4095) / 4096 in
  0 < count -> 0 < size -> memory_ready (n + 4 * pages) v b -> 0 <= n -> v + count * size + 4096 < 2 ^ 32 ->
  (forall d b', disk_ok d (replicate (Z.to_nat count) (replicate (Z.to_nat size) 0)) -> rd_sector_size d = size ->
    memory_ready n (v + pages * 4096) b' -> same_services b b' -> Q d b') ->
  wpr R (new_disk count size) Q b.
Proof.
  intros pages Hc Hs [(l & Hp & Hn) Hv [Ha Hv0] Hfree Htp] Hn0 Hbound HQ. assert (Hpos : 0 < count * size) by nia.
  assert (Hal : (4096 | bm_virt b)) by (rewrite Hv; by apply region_aligned).
  assert (Hpg : 0 <= pages /\ pages * 4096 <= count * size + 4095) by (unfold pages; split; [apply Z.div_pos; lia|rewrite Z.mul_comm; apply Z.mul_div_le; lia]).
  assert (Hin : forall q, q ∈ disk_pages (bm_virt b) (count * size) -> bm_virt b <= q < bm_virt b + pages * 4096) by (intros q Hq; by apply elem_of_disk_pages).
  unfold new_disk. apply wp_bind, wp_get, wp_bind.
  destruct (ramdisk_new_full (bm_virt b) (bm_table b) (bm_pool b) l count size) as (d & t' & p' & used & l' & E & Hd & Hsz & Hdr & Hl & Hl' & Hul & Ho).
  - done.
  - rewrite Hv. unfold RAMDISK_VIRT_REGION_BASE. lia.
  - done.
  - done.
  - rewrite Hv. unfold RAMDISK_VIRT_REGION_BASE. lia.
  - apply Hp.
  - unfold pages in *. lia.
  - apply Forall_forall. intros q Hq. apply Hin in Hq. apply Hfree; [lia|]. rewrite Hv in Hq. unfold REGION_END. lia.
  - eapply wp_need; [exact E|]. cbv beta iota. apply wp_bind, wp_put, wp_ret. apply HQ; [done|done| |by split_and!]. split; cbn [set_memory bm_pool bm_virt bm_table].
    + exists l'. split; [by eapply pool_at_drawn|]. rewrite Hl, length_app in Hn. unfold pages in *. lia.
    + rewrite Hv. unfold pages. lia.
    + split; [|lia]. apply Z.divide_add_r; [done|apply Z.divide_factor_r].
    + intros q Hq1 Hq2. rewrite Ho; [apply Hfree; lia|]. intros Hq. apply Hin in Hq. unfold pages in *. lia.
    + rewrite Ho; [done|]. intros Hq. apply Hin in Hq. rewrite Hv in Hq. unfold RAMDISK_VIRT_REGION_BASE, SWAP_TEST_VA in Hq. lia.
Qed.

(** ** Services come up *)

(** Frames for the boot disk and for the swap area, and those the self-tests
    take. *)
Definition DISK_FRAMES : Z := 65536.
Definition SWAP_FRAMES : Z := 4096.
Definition TEST_FRAMES : Z := 64.
(** The RAM-disk region after the boot disk and the swap area. *)
Definition SERVICES_END : Z := 0x4400000.

(** The state at power-on, once memory is set up and after the interrupts that
    came since. *)
Record powered_on (b : machine) : Prop := mkPoweredOn {
  po_memory : memory_ready (DISK_FRAMES + SWAP_FRAMES + TEST_FRAMES) 0 b;
  po_fs : sy_fs (bm_sys b) = fs_new;
  po_dev : sy_dev (bm_sys b) = [];
  po_ac : sy_ac (bm_sys b) = rbac_new;
  po_res : sy_res (bm_sys b) = resource_table_new;
  po_kernel : exists n, run_timer n kernel_new = Some (sy_k (bm_sys b)) /\ Z.of_nat n < 2 ^ 32;
  po_counters : sy_counters (bm_sys b) = mkCounters 1 1
}.

(** The state the services leave. *)
Record booted (b : machine) : Prop := mkBooted {
  bt_memory : memory_ready TEST_FRAMES SERVICES_END b;
  bt_kernel : kernel_ok l1 (sy_k (bm_sys b)) /\ current (k_sched (sy_k (bm_sys b))) = Some l0;
  bt_tasks : two_tasks l0 l1 (sy_k (bm_sys b)) (sy_counters (bm_sys b));
  bt_files : exists d, disk (sy_fs (bm_sys b)) = Some d /\ files d INIT_FILE = Some INIT_BIN /\
    forall q, different INIT_FILE q -> files d q = None;
  bt_closed : fcbs (sy_fs (bm_sys b)) = ∅;
  bt_fds : forall pid, current_pid (sy_k (bm_sys b)) = Some pid -> table_for (fds (sy_fs (bm_sys b))) pid = mkFds 4 ∅;
  bt_auth : auth (sy_fs (bm_sys b)) = {[1 := auth_new sha256 1 TEST_PASSWORD]};
  bt_dev : sy_dev (bm_sys b) = [mkDevice "console" true];
  bt_ac : sy_ac (bm_sys b) = rbac_new;
  bt_res : sy_res (bm_sys b) = resource_table_new;
  bt_swap : exists part, bm_swap b = Some part /\ swap_rep part ∅ /\ length (sw_free part) = 1024%nat;
  bt_l4 : forall q, entry (bm_table b) q <> None -> bm_l4 b (l4_index q) = true
}.

Lemma mount_boot_disk_wp n b Q :
  memory_ready (n + DISK_FRAMES) 0 b -> 0 <= n ->
  (forall b' v, (forall p, files v p = None) -> memory_ready n 0x4000000 b' -> bm_sys b' = put_fs (bm_sys b) (mount_disk (sy_fs (bm_sys b)) v) -> Q tt b') ->
  wp mount_boot_disk Q b.
Proof.
  intros Hm Hn HQ. unfold mount_boot_disk. apply wp_bind. apply (new_disk_wp _ _ n 0); [done|done|exact Hm|done|done|].
  intros d b' Hd Hs Hm' (Hsys & _ & _). assert (Hfit : fits 64 (sector_count d * sector_size d)).
  { destruct (@rep_size RamDisk _ ramdisk_laws d _ Hd) as (Hsz & -> & _ & Hmax). unfold fits. lia. }
  destruct (format_and_mount_spec d Hfit) as (r & E & Hr). apply wp_bind. eapply wp_need; [exact E|]. destruct r as [v|e].
  - destruct (Hr v eq_refl) as [Hv _]. apply wp_bind, wp_get, wp_put. apply (HQ _ v); [done| |cbn; by rewrite Hsys]. by destruct Hm'; split.
  - eexists _, _. split; [reflexivity|]. destruct e. by exists d.
Qed.

Lemma load_system_domain_wp fuel b d Q :
  disk (sy_fs (bm_sys b)) = Some d -> (forall p, files d p = None) -> Q tt b -> wp (load_system_domain fuel) Q b.
Proof.
  intros Hd Hf HQ. unfold load_system_domain. apply wp_bind, wp_get. unfold disk_and_overlays_mut. rewrite Hd. cbn [mbind option_bind]. apply wp_bind.
  assert (Hno : forall p, fat_open_file d p = false) by (intros p; destruct (fat_open_file d p) eqn:E; [|done]; apply law_open in E; rewrite Hf in E; by destruct E).
  eapply wp_need; [unfold load_at_boot, load_auth_db, load_perms_db; rewrite !Hno; reflexivity|]. cbv beta iota. apply wp_put.
  destruct b as [s ? ? ? ? ?]. destruct s as [? ? f ? ? ? ? ? ? ?]. destruct f. cbn in *. by subst.
Qed.

Lemma swap_start_wp n b Q :
  memory_ready (n + SWAP_FRAMES) 0x4000000 b -> 0 <= n ->
  (forall b' part, memory_ready n SERVICES_END b' -> bm_sys b' = bm_sys b -> bm_swap b' = Some part -> swap_rep part ∅ -> length (sw_free part) = 1024%nat -> Q tt b') ->
  wp swap_start Q b.
Proof.
  intros [(l & Hp & Hl) Hv [Ha Hv0] Hfree Htp] Hn HQ. unfold swap_start. apply wp_bind, wp_get, wp_bind.
  assert (Hal : (4096 | bm_virt b)) by (rewrite Hv; by apply region_aligned).
  assert (Hin : forall q, q ∈ disk_pages (bm_virt b) 0x400000 -> bm_virt b <= q < bm_virt b + 0x400000) by (intros q Hq; by apply elem_of_disk_pages in Hq).
  unfold SWAP_FRAMES in Hl. destruct (swap_init_spec (bm_virt b) (bm_table b) (bm_pool b) l) as (part & t' & p' & used & l' & E & Hrep & Hfr & Hdr & Hul & Hl' & Hu & Ho).
  - done.
  - rewrite Hv. unfold RAMDISK_VIRT_REGION_BASE. lia.
  - rewrite Hv. unfold RAMDISK_VIRT_REGION_BASE. lia.
  - apply Hp.
  - lia.
  - apply Forall_forall. intros q Hq. apply Hin in Hq. apply Hfree; [lia|]. rewrite Hv in Hq. unfold REGION_END. lia.
  - eapply wp_need; [exact E|]. cbv beta iota. apply wp_put. apply (HQ _ part); [|done..]. split; cbn [bm_pool bm_virt bm_table].
    + exists l'. split; [by eapply pool_at_drawn|]. rewrite Hul, length_app in Hl. lia.
    + rewrite Hv. unfold SERVICES_END. lia.
    + split; [|done]. by exists (SERVICES_END / 4096).
    + intros q Hq1 Hq2. rewrite Ho; [apply Hfree; lia|]. intros Hq. apply Hin in Hq. lia.
    + rewrite Ho; [done|]. intros Hq. apply Hin in Hq. rewrite Hv in Hq. unfold RAMDISK_VIRT_REGION_BASE, SWAP_TEST_VA in Hq. lia.
Qed.

Lemma current_pid_ok idle k : kernel_ok idle k -> exists pid, current_pid k = Some pid.
Proof. intros [_ (c & t & Hc & Ht & _)]. exists (pid t). unfold current_pid. rewrite Hc. cbn. by rewrite Ht. Qed.

(** Storing a file that is not there while no file is open. *)
Lemma store_closed (s : LogicalFs) p fp pid bs d {G : FatGrowth V} :
  fcbs s = ∅ -> to_fat_path p = Ok fp -> 3 <= next_fd (table_for (fds s) pid) < 2 ^ 32 -> fd_map (table_for (fds s) pid) = ∅ ->
  disk s = Some d -> files d fp = None -> Z.of_nat (length bs) < 2 ^ 64 ->
  exists s', fat_store d fp [bs] = None /\ store_file to_lowercase p pid bs s = Some (Err InvalidPath, s') \/
    store_file to_lowercase p pid bs s = Some (Ok tt, s') /\ fcbs s' = ∅ /\ perms s' = perms s /\ auth s' = auth s /\
    table_for (fds s') pid = mkFds (next_fd (table_for (fds s) pid) + 1) ∅ /\
    exists d', fat_store d fp [bs] = Some d' /\ disk s' = Some d' /\ files d' fp = Some bs /\ forall q, different fp q -> files d' q = files d q.
Proof.
  intros Hc Hfp Hn Hm Hd Hnew Hlen. assert (Hcp : closed_path to_lowercase s p fp pid).
  { split; [by rewrite Hc| |done|lia]. unfold case_conflict. by rewrite Hc, dom_empty_L, elements_empty. }
  destruct (store_file_spec to_lowercase s p fp pid bs d Hcp ltac:(by rewrite Hm) Hd Hnew Hlen) as (s' & Hs). rewrite Hc, Hm in Hs. by exists s'.
Qed.

Lemma table_for_empty pid : table_for ∅ pid = fds_new.
Proof. unfold table_for. by rewrite lookup_empty. Qed.

Lemma on_fs_store p pid bs b :
  (let! fd := on_fs (fs_create to_lowercase p pid) in on_fs (fs_write fd pid 0 0 bs) ;;; on_fs (fs_close fd pid)) b = on_fs (store_file to_lowercase p pid bs) b.
Proof. unfold store_file. rewrite on_fs_bind. unfold kbind at 1 3. destruct (on_fs _ b) as [[[fd|e] b1]|]; [|done|done]. by rewrite on_fs_bind. Qed.

(** The same with a continuation. *)
Lemma wp_store {R} {A} p pid bs (k : bootm A) Q b :
  wpr R (on_fs (store_file to_lowercase p pid bs)) (fun _ => wpr R k Q) b ->
  wpr R (let! fd := on_fs (fs_create to_lowercase p pid) in on_fs (fs_write fd pid 0 0 bs) ;;; on_fs (fs_close fd pid) ;;; k) Q b.
Proof.
  intros Hw. apply wp_ext with (kbind (on_fs (store_file to_lowercase p pid bs)) (fun _ => k)); [|by apply wp_bind].
  unfold kbind at 4. rewrite <- on_fs_store. unfold kbind. destruct (on_fs (fs_create to_lowercase p pid) b) as [[[fd|e] b1]|]; [|done|done].
  by destruct (on_fs (fs_write fd pid 0 0 bs) b1) as [[[n|e] b2]|].
Qed.

Lemma wp_store_closed {G : FatGrowth V} {R} b p fp pid bs d Q :
  let s := sy_fs (bm_sys b) in
  fcbs s = ∅ -> to_fat_path p = Ok fp -> 3 <= next_fd (table_for (fds s) pid) < 2 ^ 32 -> fd_map (table_for (fds s) pid) = ∅ ->
  disk s = Some d -> files d fp = None -> Z.of_nat (length bs) < 2 ^ 64 ->
  (fat_store d fp [bs] = None -> R (FileFailed InvalidPath)) ->
  (forall s', fcbs s' = ∅ -> perms s' = perms s -> auth s' = auth s -> table_for (fds s') pid = mkFds (next_fd (table_for (fds s) pid) + 1) ∅ ->
    (exists d', fat_store d fp [bs] = Some d' /\ disk s' = Some d' /\ files d' fp = Some bs /\ forall q, different fp q -> files d' q = files d q) -> Q tt (set_sys b (put_fs (bm_sys b) s'))) ->
  wpr R (on_fs (store_file to_lowercase p pid bs)) Q b.
Proof.
  intros s Hc Hfp Hn Hm Hd Hnew Hlen HR HQ. destruct (store_closed s p fp pid bs d Hc Hfp Hn Hm Hd Hnew Hlen) as (s' & [[Href E]|(E & Hc' & Hp' & Ha' & Ht' & Hd')]).
  - unfold wpr, on_fs. fold s. rewrite E. eexists _, _. split; [done|by apply HR].
  - eapply wp_fs; [exact E|]. by apply HQ.
Qed.

Lemma start_services_wp {G : FatGrowth V} fuel b :
  powered_on b -> l0 <> l1 -> 0 < base0 < 2 ^ 63 -> 0 < base1 < 2 ^ 63 -> Z.of_nat (length INIT_BIN) < 2 ^ 64 ->
  wp (start_services fuel) (fun _ => booted) b.
Proof.
  intros [Hm Hfs Hdev Hac Hres (n & Hk & Hn) Hcnt] Hl Hb0 Hb1 Hlen. unfold start_services.
  apply wp_bind. apply (mount_boot_disk_wp (SWAP_FRAMES + TEST_FRAMES)); [exact Hm|done|].
  intros b1 v Hv Hm1 Hs1. rewrite Hfs in Hs1. apply wp_bind. apply (load_system_domain_wp fuel b1 v); [by rewrite Hs1|done|].
  apply wp_bind. apply (swap_start_wp TEST_FRAMES); [by rewrite Z.add_comm|done|]. intros b2 part Hm2 Hs2 Hsw Hrep Hfree. rewrite Hs1 in Hs2.
  apply wp_bind. unfold record_l4. apply wp_bind, wp_get, wp_put. apply wp_bind. unfold init_devices. apply wp_bind, wp_get, wp_put.
  apply wp_bind. unfold scheduler_start. apply wp_bind, wp_get, wp_bind. cbn [bm_sys set_sys bm_table bm_pool bm_virt bm_swap bm_l4]. rewrite Hs2. cbn [put_fs put_dev sy_k sy_mem sy_counters sy_fs sy_dev].
  destruct (early_ticks n _ Hk Hn) as (ticks & Ek). destruct (sched_init_some tramp idle_task base0 base1 cur_cr3 l0 l1 (sy_k (bm_sys b)) (sy_mem (bm_sys b)) (sy_counters (bm_sys b)) Hb0 Hb1) as (k & m & c & E).
  eapply wp_need; [exact E|]. cbv beta iota. rewrite Ek in E. rewrite Hcnt in E. pose proof (sched_init_two_tasks _ _ _ _ _ _ _ _ _ _ _ _ _ E ltac:(lia) Hl) as Htwo. destruct (sched_init_ok _ _ _ _ _ _ _ _ _ _ _ _ _ _ E ltac:(lia) Hl) as (Hok & _ & Hcur & _); [unfold fits; cbn; lia|].
  apply wp_put. apply wp_bind. unfold seed_test_user. apply wp_bind, wp_get, wp_put. unfold install_init_binary. apply wp_bind, wp_get.
  cbn [bm_sys set_sys sy_k put_fs put_counters put_mem put_k]. destruct (current_pid_ok _ _ Hok) as (pid & Hpid). apply wp_bind. eapply wp_need; [exact Hpid|].
  eapply wp_ext; [apply on_fs_store|]. apply (wp_store_closed _ INIT_PATH INIT_FILE pid INIT_BIN v); try done; cbn [bm_sys set_sys sy_fs put_fs put_counters put_mem put_k put_dev mount_disk fds fcbs disk auth perms fs_new]; [by apply store_refused|].
  intros s' Hc' _ Ha' Ht' (d' & _ & Hd' & Hi' & Ho').
  split; [by destruct Hm2; split|..]; cbn [bm_sys set_sys sy_fs put_fs put_counters put_mem put_k put_dev sy_k sy_dev sy_ac sy_res bm_swap bm_table bm_l4]; try done.
  - exists d'. split; [done|]. split; [done|]. intros q Hq. by rewrite Ho'.
  - intros pid' Hpid'. rewrite Hpid in Hpid'. injection Hpid' as <-. by rewrite Ht', table_for_empty.
  - by rewrite Hdev.
  - by exists part.
  - intros q Hq. by apply l4_used_entry.
Qed.

(** ** The self-tests pass *)

Lemma io_smoke_test_wp {R} n v b Q :
  memory_ready (n + 8) v b -> 0 <= n -> v + 0x3000 < 2 ^ 32 ->
  (forall b', memory_ready n (v + 0x2000) b' -> same_services b b' -> Q tt b') -> wpr R io_smoke_test Q b.
Proof.
  intros Hm Hn Hv HQ. unfold io_smoke_test. apply wp_bind. apply (new_disk_wp 16 512 n v); [done|done|exact Hm|done|lia|].
  intros d b' Hd Hs Hm' Hb'. set (buf := (fun i => Z.of_nat i mod 256) <$> seq 0 512).
  assert (Hbuf : Z.of_nat (length buf) = sector_size d) by (unfold buf; rewrite length_fmap, length_seq; symmetry; exact Hs).
  destruct (@rep_write RamDisk _ ramdisk_laws d _ 3 buf Hd Hbuf) as (d' & Ew & Hd' & Hs'); [done|cbn; rewrite Hs; done|].
  apply wp_bind. eapply wp_need; [exact Ew|]. rewrite length_replicate, decide_True by done. apply wp_bind, wp_assert; [done|].
  apply wp_bind. eapply wp_need; [apply (@rep_read RamDisk _ ramdisk_laws d' _ 3 (replicate 512 0) Hd'); [by rewrite Hs', <- Hbuf|done|rewrite Hs', <- Hbuf; done]|].
  rewrite list_lookup_insert_eq by (rewrite length_replicate; cbn; lia). cbv beta iota. apply wp_bind, wp_assert; [done|]. apply wp_assert; [by apply bool_decide_eq_true|].
  apply HQ; [exact Hm'|done].
Qed.

Lemma sync_syscall_smoke_test_wp {R} vm_call idle b Q :
  kernel_ok idle (sy_k (bm_sys b)) -> sy_res (bm_sys b) = resource_table_new ->
  (forall r, Q tt (set_sys b (put_res (bm_sys b) r))) -> wpr R (sync_syscall_smoke_test vm_call) Q b.
Proof.
  intros Hk Hr HQ. destruct (current_tid_ok idle _ Hk) as (x & t & _ & _ & _ & Hct & _).
  destruct b as [s tb p vi sw l4]. destruct s as [k m f ipc shm res ac tty dv cs]. cbn [bm_sys sy_res sy_k] in *. subst res.
  set (mk := fun r => mkMachine (mkSys k m f ipc shm r ac tty dv cs) tb p vi sw l4).
  pose (t1 := mkResourceTable 1 {[0 := resource_new]}). pose (t2 := mkResourceTable 1 (<[0 := mkResource true [] []]> {[0 := resource_new]})).
  unfold sync_syscall_smoke_test. apply wp_bind. exists (Ok 0), (mk t1). split; [reflexivity|]. change (wrap 64 0) with 0.
  apply wp_bind. exists (Ok 0), (mk t2). split.
  { unfold call1, syscall_handler. cbn -[current_tid]. unfold sys_mutex_lock, resource_get, resource_lock_iter. cbn -[current_tid]. rewrite Hct. reflexivity. }
  apply wp_bind, wp_assert; [done|]. apply wp_bind. eexists (Ok _), _. split; [reflexivity|]. apply wp_bind, wp_assert; [done|].
  apply wp_bind. eexists (Ok _), _. split; [reflexivity|]. apply wp_bind, wp_assert; [done|]. apply wp_bind. eexists (Ok _), _. split; [reflexivity|]. apply wp_assert; [done|]. apply HQ.
Qed.

Lemma security_smoke_test_wp {R} b Q : sy_ac (bm_sys b) = rbac_new -> (forall ac, Q tt (set_sys b (put_ac (bm_sys b) ac))) -> wpr R security_smoke_test Q b.
Proof.
  intros Hac HQ. unfold security_smoke_test. apply wp_bind, wp_get. rewrite Hac. do 3 (apply wp_bind, wp_assert; [vm_compute; reflexivity|]).
  destruct (grant _ _ _ _ _) as [ac2 res2] eqn:E2. vm_compute in E2. injection E2 as <- <-. do 2 (apply wp_bind, wp_assert; [vm_compute; reflexivity|]).
  destruct (revoke _ _ _ _ _) as [ac3 res3] eqn:E3. vm_compute in E3. injection E3 as <- <-. do 2 (apply wp_bind, wp_assert; [vm_compute; reflexivity|]).
  do 2 (apply wp_bind, wp_assert; [vm_compute; reflexivity|]). apply wp_put, HQ.
Qed.

Lemma device_smoke_test_wp {R} b Q :
  sy_dev (bm_sys b) = [mkDevice "console" true] -> Q tt (set_sys b (put_tty (bm_sys b) (console_put (sy_tty (bm_sys b)) 33))) -> wpr R device_smoke_test Q b.
Proof. intros Hd HQ. unfold device_smoke_test. apply wp_bind, wp_get. rewrite Hd. do 2 (apply wp_bind, wp_assert; [done|]). by apply wp_put. Qed.

Lemma disk_scheduling_smoke_test_wp {R} b (Q : unit -> machine -> Prop) : Q tt b -> wpr R disk_scheduling_smoke_test Q b.
Proof. intros HQ. exists (Ok tt), b. split; [|done]. vm_compute. reflexivity. Qed.

Lemma consistency_smoke_test_wp {G : FatGrowth V} {R} fuel b d Q :
  (forall m, length (sha256 m) = 32%nat) -> (2 < fuel)%nat -> disk (sy_fs (bm_sys b)) = Some d -> files d TEST_PATH = None ->
  (fat_store d TEST_PATH (test_records sha256) = None -> R TestFileFailed) ->
  (forall d', (forall q, different TEST_PATH q -> files d' q = files d q) -> Q tt (set_sys b (put_fs (bm_sys b) (mount_disk (sy_fs (bm_sys b)) d')))) ->
  wpr R (consistency_smoke_test fuel) Q b.
Proof.
  intros Hsha Hf Hd Hnew HR HQ. unfold consistency_smoke_test. apply wp_bind, wp_get. rewrite Hd. destruct (consistency_test_passes sha256 d fuel Hsha Hnew Hf) as (r & E & He & Hr).
  apply wp_bind. eapply wp_need; [exact E|]. destruct r as [d'|e]; [|eexists _, _; split; [reflexivity|]; by apply HR, (He e)]. apply wp_put, HQ. intros q Hq. by apply Hr.
Qed.

Lemma fs_smoke_test_wp {G : FatGrowth V} {R} b pid d Q :
  let s := sy_fs (bm_sys b) in
  current_pid (sy_k (bm_sys b)) = Some pid -> fcbs s = ∅ -> table_for (fds s) pid = mkFds 4 ∅ -> disk s = Some d -> files d HELLO_FILE = None ->
  (fat_store d HELLO_FILE [HI] = None -> R (FileFailed InvalidPath)) ->
  (forall s' d', fcbs s' = ∅ -> auth s' = auth s -> fat_store d HELLO_FILE [HI] = Some d' -> disk s' = Some d' -> (forall q, different HELLO_FILE q -> files d' q = files d q) ->
    0 <= next_fd (table_for (fds s') pid) < 2 ^ 63 -> Q tt (set_sys b (put_fs (bm_sys b) s'))) ->
  wpr R fs_smoke_test Q b.
Proof.
  intros s Hpid Hc Ht Hd Hnew HR HQ. unfold fs_smoke_test. apply wp_bind, wp_get, wp_bind. eapply wp_need; [exact Hpid|]. apply wp_store.
  apply (wp_store_closed b HELLO_PATH HELLO_FILE pid HI d); fold s; rewrite ?Ht; try done.
  intros s1 Hc1 _ Ha1 Ht1 (d1 & Hst & Hd1 & Hf1 & Ho1).
  assert (Hcp : closed_path to_lowercase s1 HELLO_PATH HELLO_FILE pid).
  { split; [by rewrite Hc1| |done|rewrite Ht1; cbn; lia]. unfold case_conflict. by rewrite Hc1, dom_empty_L, elements_empty. }
  apply wp_bind. eapply wp_fs; [apply (fs_open_fresh to_lowercase s1 HELLO_PATH HELLO_FILE pid d1 HI Hcp Hd1 Hf1)|].
  destruct (fs_read_sector (claimed s1 HELLO_PATH pid) (next_fd (table_for (fds s1) pid)) pid HELLO_PATH HELLO_FILE (mkFcb HELLO_PATH 0 1 false (Some pid) false) HI 2 d1) as (f' & Hf' & Er);
    [apply opened_claimed|done|cbn; apply lookup_insert_eq|done|done|cbn; lia|done|done|].
  apply wp_bind. eapply wp_fs; [exact Er|]. apply wp_bind, wp_assert; [done|].
  eapply wp_fs; [eapply fs_close_spec; [unfold opened; cbn [sy_fs put_fs bm_sys set_sys fds]; rewrite table_for_insert, decide_True by done; apply opened_claimed|cbn; apply lookup_insert_eq|done]|].
  cbn [sy_fs put_fs bm_sys set_sys fcbs fds perms auth disk claimed]. rewrite insert_insert_eq, Hc1, delete_insert_id by apply lookup_empty. apply (HQ _ d1); try done.
  cbn [fds]. rewrite !table_for_insert, !decide_True by done. cbn. rewrite Ht1. cbn. lia.
Qed.

Lemma pattern_length : length swap_pattern = PAGE_BYTES.
Proof. unfold swap_pattern. by rewrite length_fmap, length_seq. Qed.

Lemma test_page : containing_address SWAP_TEST_VA = SWAP_TEST_VA.
Proof. by rewrite containing_address_spec. Qed.

Lemma translate_test_page (t : T) : translate_addr t SWAP_TEST_VA = fst <$> entry t SWAP_TEST_VA.
Proof.
  unfold translate_addr. rewrite translate_spec. change (SWAP_TEST_VA / 4096 * 4096) with SWAP_TEST_VA. change (SWAP_TEST_VA mod 4096) with 0.
  destruct (entry t SWAP_TEST_VA) as [[f fl]|]; [|done]. cbn. by rewrite Z.add_0_r.
Qed.

(** Evicting the page from an empty swap area and bringing it back. *)
Lemma evict_and_return (vm : Vmm) (t : T) p part f fl l :
  swap_rep part ∅ -> (0 < length (sw_free part))%nat -> pool_at p l -> (3 <= length l)%nat -> entry t SWAP_TEST_VA = Some (f, fl) -> (4096 | f) -> 0 < f < 2 ^ 46 -> (f ∉ l) ->
  exists m1 m2 sw l2, evict_addr (mkMm vm t p (Some part)) SWAP_TEST_VA = Some (true, m1) /\ translate_addr (mm_table m1) SWAP_TEST_VA = None /\
    handle_fault m1 SWAP_TEST_VA false = Some (Ok tt, m2) /\ translate_addr (mm_table m2) SWAP_TEST_VA = Some f /\
    read_bytes (p_mem (mm_pool m2)) (PHYS_MEM_OFFSET + f) PAGE_BYTES = read_bytes (p_mem p) (PHYS_MEM_OFFSET + f) PAGE_BYTES /\
    pool_at (mm_pool m2) l2 /\ (length l <= length l2 + 3)%nat /\ mm_swap m2 = Some sw /\ swap_rep sw ∅.
Proof.
  intros Hrep Hfree Hp Hl He Hfa Hfb Hnin. rewrite <- test_page in He.
  destruct (evict_addr_spec (mkMm vm t p (Some part)) SWAP_TEST_VA f fl part ∅ l (VirtAddr_new_low SWAP_TEST_VA ltac:(done)) eq_refl Hrep Hp He Hfa Hfb Hnin)
    as [(slot & t1 & p1 & sw1 & E & Hrep1 & Hfresh & Hn1 & _ & _ & Hp1)|[_ Hfull]]; [|by destruct (Hfull 0%nat Hfree)].
  destruct (fault_swap_in_spec (mkMm (record_swapped vm (containing_address SWAP_TEST_VA) (Z.of_nat slot) (flag_clear fl (Z.lor ACCESSED DIRTY))) t1 p1 (Some sw1))
    (containing_address SWAP_TEST_VA) slot (flag_clear fl (Z.lor ACCESSED DIRTY)) _ sw1 _ f l eq_refl Hrep1 (lookup_insert_eq _ _ _) Hp1 Hl Hn1)
    as (t2 & p2 & sw2 & l2 & E2 & Hrep2 & He2 & _ & Hrd & _ & Hp2 & _ & Hcnt). rewrite delete_insert_id in Hrep2 by done.
  eexists _, _, sw2, l2. split; [exact E|]. cbn [mm_table mm_vmm]. rewrite !translate_test_page. rewrite test_page in Hn1, He2. rewrite Hn1. split; [done|].
  split; [unfold handle_fault; cbn [mm_vmm record_swapped swapped]; rewrite lookup_insert_eq; exact E2|]. cbn [mm_table mm_pool mm_swap]. rewrite He2.
  split; [reflexivity|]. split; [exact Hrd|]. split; [exact Hp2|]. split; [exact Hcnt|]. split; [reflexivity|exact Hrep2].
Qed.

Lemma swap_smoke_test_wp {R} n v b part Q :
  memory_ready n v b -> 16 <= n -> bm_swap b = Some part -> swap_rep part ∅ -> length (sw_free part) = 1024%nat ->
  (forall p l sw, pool_at p l -> n <= Z.of_nat (length l) + 8 -> swap_rep sw ∅ -> Q tt (mkMachine (bm_sys b) (bm_table b) p (bm_virt b) (Some sw) (bm_l4 b))) ->
  wpr R swap_smoke_test Q b.
Proof.
  intros [(l & Hp & Hl) _ _ _ Htp] Hn Hsw Hrep Hfree HQ. destruct l as [|f0 [|f l]]; [cbn in Hl; lia..|]. cbn [length] in Hl. unfold swap_smoke_test. apply wp_bind, wp_get, wp_bind.
  destruct (clone_kernel_half_spec (bm_l4 b) (bm_table b) (bm_pool b) f0 (f :: l) Hp) as (p1 & E1 & Hp1). eapply wp_need; [exact E1|]. cbv beta iota zeta.
  apply wp_bind. eapply wp_need; [apply VirtAddr_add_low; unfold SWAP_TEST_VA; lia|]. apply wp_bind. destruct (pool_at_head _ _ _ Hp1) as [Hfa Hfb].
  set (t1 := copy_l4 (bm_l4 b) (bm_table b)). assert (Ht1 : entry t1 SWAP_TEST_VA = None) by (unfold t1; rewrite copy_l4_entry; by destruct (bm_l4 b _)).
  set (m1 := write_bytes (p_mem p1) (PHYS_MEM_OFFSET + f) swap_pattern).
  destruct (fill_and_map_count t1 p1 f l m1 SWAP_TEST_VA 7 Hp1 ltac:(lia) Ht1 ltac:(by apply write_page_outside, pattern_length)) as (p2 & t2 & p3 & l3 & E2 & Hm2 & E3 & Hm3 & Hp3 & Hsuf & Hl3 & He & _).
  eapply wp_need; [exact E2|]. cbv beta iota. apply wp_bind. eapply wp_need; [done|]. apply wp_bind. eapply wp_need; [apply uadd_window; lia|].
  rewrite test_page, Hm2. fold m1. apply wp_bind. eapply wp_need; [exact E3|]. cbv beta iota. rewrite Hsw.
  assert (Hnin : f ∉ l3). { destruct Hp1 as [Hfl _]. pose proof (flr_nodup _ _ Hfl) as Hnd. apply NoDup_cons in Hnd as [Hnd _]. destruct Hsuf as [u ->]. intros Hf. apply Hnd, elem_of_app. by right. }
  destruct (evict_and_return (add_area vmm_new (mkArea SWAP_TEST_VA (SWAP_TEST_VA + 4096) 7 Anonymous)) t2 p3 part f 7 l3 Hrep ltac:(lia) Hp3 ltac:(lia) He Hfa Hfb Hnin)
    as (x1 & x2 & sw & l4 & E4 & Hn4 & E5 & Ht5 & Hrd & Hp5 & Hcnt5 & Hsw5 & Hrep5).
  apply wp_bind. eapply wp_need; [exact E4|]. cbv beta iota. apply wp_bind, wp_assert; [done|]. apply wp_bind, wp_assert; [by apply bool_decide_eq_true|].
  apply wp_bind. eapply wp_need; [exact E5|]. cbv beta iota. apply wp_bind, wp_assert; [done|]. apply wp_bind. eapply wp_need; [exact Ht5|]. apply wp_bind. eapply wp_need; [apply uadd_window; lia|].
  apply wp_bind, wp_assert. { apply bool_decide_eq_true. rewrite Hrd, Hm3. unfold m1. rewrite <- pattern_length. apply read_write_bytes. }
  apply wp_put. rewrite Hsw5. apply (HQ _ l4); [done|lia|done].
Qed.

(** ** Theorems *)

(** C8. The kernel comes up: from power-on, with enough free frames and the RAM-disk
    region unmapped, bringing up the services does not panic; it ends with the
    state [booted] describes, or stops because the volume refused.  After it
    the scheduler's invariant holds and the boot task runs; the test user's
    password, and no other user's, is accepted; the console is device 0;
    [/init] holds the embedded program and no file is open; the swap area is
    empty; and a new address space has all the kernel's mappings, those of the
    two RAM disks included. *)
Theorem services_come_up {G : FatGrowth V} (fuel : nat) (b : machine) :
  powered_on b -> l0 <> l1 -> 0 < base0 < 2 ^ 63 -> 0 < base1 < 2 ^ 63 -> Z.of_nat (length INIT_BIN) < 2 ^ 64 ->
  exists r b', start_services fuel b = Some (r, b') /\ (forall e, r = Err e -> refused e) /\
    (r = Ok tt ->
      kernel_ok l1 (sy_k (bm_sys b')) /\ current (k_sched (sy_k (bm_sys b'))) = Some l0 /\
      (forall uid, verify_password sha256 (sy_fs (bm_sys b')) uid TEST_PASSWORD = (uid =? 1)) /\
      dev_find (sy_dev (bm_sys b')) "console" = Some 0%nat /\
      (exists d, disk (sy_fs (bm_sys b')) = Some d /\ files d INIT_FILE = Some INIT_BIN) /\ fcbs (sy_fs (bm_sys b')) = ∅ /\
      (exists part, bm_swap b' = Some part /\ swap_rep part ∅) /\
      forall q e, entry (bm_table b') q = Some e -> entry (copy_l4 (bm_l4 b') (bm_table b')) q = Some e).
Proof.
  intros Hpo Hl Hb0 Hb1 Hlen. destruct (start_services_wp fuel b Hpo Hl Hb0 Hb1 Hlen) as (r & b' & E & Hr). exists r, b'. split; [done|].
  destruct r as [u|e]; [|split; [by intros e' [= <-]|done]]. split; [done|]. intros _. destruct Hr as [_ [Hk Hc] _ (d & Hd & Hi & _) Hf _ Ha Hdev _ _ (part & Hsw & Hrep & _) Hl4].
  split_and!; try done.
  - intros uid. unfold verify_password, auth_verify. rewrite Ha. destruct (Z.eqb_spec uid 1) as [->|Hne].
    + rewrite lookup_singleton_eq. by apply bool_decide_eq_true.
    + by rewrite lookup_singleton_ne.
  - by rewrite Hdev.
  - by exists d.
  - by exists part.
  - intros q e He. rewrite copy_l4_entry, Hl4; [done|congruence].
Qed.

Lemma single_task_tests_wp {G : FatGrowth V} vm_call fuel b :
  booted b -> (forall m, length (sha256 m) = 32%nat) -> (2 < fuel)%nat ->
  wp (single_task_tests vm_call fuel) (fun _ b' => sy_k (bm_sys b') = sy_k (bm_sys b) /\ sy_counters (bm_sys b') = sy_counters (bm_sys b) /\
    (exists d, disk (sy_fs (bm_sys b')) = Some d /\ files d INIT_FILE = Some INIT_BIN) /\ fcbs (sy_fs (bm_sys b')) = ∅ /\
    auth (sy_fs (bm_sys b')) = auth (sy_fs (bm_sys b)) /\ (exists part, bm_swap b' = Some part /\ swap_rep part ∅) /\
    sy_dev (bm_sys b') = sy_dev (bm_sys b) /\ bm_l4 b' = bm_l4 b /\
    (forall pid, current_pid (sy_k (bm_sys b)) = Some pid -> 0 <= next_fd (table_for (fds (sy_fs (bm_sys b'))) pid) < 2 ^ 63) /\
    exists l, pool_at (bm_pool b') l /\ TEST_FRAMES <= Z.of_nat (length l) + 16) b.
Proof.
  intros Hb Hsha Hfuel.
  destruct Hb as [Hm [Hk _] _ (d & Hd & Hi & Ho) Hf Hfd _ Hdev Hac Hres (part & Hsw & Hrep & Hfree) _]. destruct (current_pid_ok _ _ Hk) as (pid & Hpid).
  unfold single_task_tests, single_tests. cbn [in_order]. apply wp_bind. apply (io_smoke_test_wp (TEST_FRAMES - 8) SERVICES_END); [by destruct Hm as [(l & ? & Hl) ? ? ? ?]; split; [exists l; split; [done|lia]|..]|done|done|].
  intros b1 Hm1 (Hs1 & Hsw1 & Hl1). apply wp_bind. apply (sync_syscall_smoke_test_wp vm_call l1); [by rewrite Hs1|by rewrite Hs1|]. intros res.
  apply wp_bind. apply (fs_smoke_test_wp _ pid d); cbn [bm_sys set_sys put_res sy_k sy_fs]; rewrite ?Hs1; [done|done|by apply Hfd|done|by apply Ho|by apply store_refused|].
  intros s2 d2 Hc2 Ha2 _ Hd2 Ho2 Hfd2. apply wp_bind. apply security_smoke_test_wp; [cbn; rewrite ?Hs1; done|]. intros ac.
  apply wp_bind. apply device_smoke_test_wp; [cbn; rewrite ?Hs1; done|]. apply wp_bind. apply disk_scheduling_smoke_test_wp.
  apply wp_bind. apply (consistency_smoke_test_wp fuel _ d2); [done|done|done|rewrite Ho2; [by apply Ho|by split_and!]|by apply store_refused|].
  intros d3 Ho3. apply (swap_smoke_test_wp (TEST_FRAMES - 8) (SERVICES_END + 0x2000) _ part); [by destruct Hm1; split|done|cbn; rewrite ?Hsw1; done|done|done|].
  intros p l sw Hp Hl Hrep'. cbn. rewrite ?Hs1. split_and!; [done|done| |done|done|by exists sw|done|done|intros pid' E; rewrite Hpid in E; injection E as <-; exact Hfd2|exists l; split; [done|lia]]. exists d3. split; [done|]. rewrite Ho3, Ho2 by (by split_and!). done.
Qed.

(** The self-tests pass: started on the state the services leave, the eight tests
    that need one task (RAM disk, mutex system calls, files, access control,
    devices, disk scheduling, repair of the password file, swapping) fail no
    assertion and do not panic; they run to the end, or stop because the volume
    refused.  Afterwards the kernel and the program in [/init] are as before, no
    file is open and the swap area is empty again. *)
Theorem self_tests_pass {G : FatGrowth V} vm_call (fuel : nat) (b : machine) :
  booted b -> (forall m, length (sha256 m) = 32%nat) -> (2 < fuel)%nat ->
  exists r b', single_task_tests vm_call fuel b = Some (r, b') /\ (forall e, r = Err e -> refused e) /\
    (r = Ok tt ->
      sy_k (bm_sys b') = sy_k (bm_sys b) /\
      (exists d, disk (sy_fs (bm_sys b')) = Some d /\ files d INIT_FILE = Some INIT_BIN) /\ fcbs (sy_fs (bm_sys b')) = ∅ /\
      auth (sy_fs (bm_sys b')) = auth (sy_fs (bm_sys b)) /\
      (exists part, bm_swap b' = Some part /\ swap_rep part ∅)).
Proof.
  intros Hb Hsha Hfuel. destruct (single_task_tests_wp vm_call fuel b Hb Hsha Hfuel) as (r & b' & E & Hr). exists r, b'. split; [done|].
  destruct r as [u|e]; [|split; [by intros e' [= <-]|done]]. split; [done|]. intros _. by destruct Hr as (Q1 & _ & Q2 & Q3 & Q4 & Q5 & _).
Qed.

End Boot.

(** ** A machine with half a gigabyte *)

Definition power_on (p : frame_pool) : machine (T := gmap Z (Z * Z)) (V := flat) :=
  mkMachine (mkSys kernel_new ∅ fs_new (spinlock_new ipc_table_new) ∅ resource_table_new rbac_new (mkWorld (mkRing (replicate 256 0) 0 0) console_new []) [] (mkCounters 1 1))
    ∅ p RAMDISK_VIRT_REGION_BASE None (fun _ => false).

Lemma usable_one lo hi : usable_frames [mkRegion lo hi true] = frames_between lo hi.
Proof. rewrite usable_frames_cons. unfold region_frames. cbn [region_usable region_start region_end usable_frames mbind list_bind]. apply app_nil_r. Qed.

Lemma frames_between_NoDup lo hi : NoDup (frames_between lo hi).
Proof. unfold frames_between. apply NoDup_fmap_2_strong; [intros; lia|apply NoDup_seqZ]. Qed.

(** The free frames of one region. *)
Lemma region_pool lo hi :
  (4096 | lo) -> (4096 | hi) -> 0 < lo <= hi -> hi < 2 ^ 46 -> exists p l, pool_at p l /\ Z.of_nat (length l) = (hi - lo) / 4096.
Proof.
  intros Hlo Hhi Hlt Hmax. destruct (fl_init_spec ∅ [mkRegion lo hi true] PHYS_MEM_OFFSET 0) as (p & _ & Hp & Ho).
  - apply Forall_singleton. intros _. cbn. split_and!; (done || lia).
  - rewrite usable_one. apply frames_between_NoDup.
  - rewrite usable_one. intros H0. apply elem_of_frames_between in H0; [lia|done..].
  - rewrite usable_one, length_frames_between. assert (0 <= (hi - lo) / 4096 <= hi - lo) by (split; [apply Z.div_pos; lia|apply Z.div_le_upper_bound; lia]). lia.
  - unfold PHYS_MEM_OFFSET. lia.
  - apply Forall_singleton. cbn. unfold PHYS_MEM_OFFSET. lia.
  - lia.
  - rewrite usable_one in Hp. cbn [Z.to_nat drop] in Hp. exists p, (reverse (frames_between lo hi)). split.
    + split_and!; [exact Hp|done|]. apply Forall_forall. intros f Hf. rewrite elem_of_reverse in Hf. apply elem_of_frames_between in Hf; [lia|done..].
    + rewrite length_reverse, length_frames_between. apply Z2Nat.id, Z.div_pos; lia.
Qed.

Lemma power_on_ready : exists p, powered_on (power_on p).
Proof.
  destruct (region_pool 0x1000000 0x21000000) as (p & l & Hp & Hl); [by exists 0x1000|by exists 0x21000|lia|lia|]. exists p.
  change ((0x21000000 - 0x1000000) / 4096) with 131072 in Hl. split; try done.
  - split; [exists l; split; [exact Hp|unfold DISK_FRAMES, SWAP_FRAMES, TEST_FRAMES; lia]|reflexivity|split; [by exists 0|done]|intros; apply lookup_empty|apply lookup_empty].
  - exists 0%nat. split; [reflexivity|lia].
Qed.

(** A hash of 32 bytes. *)
Definition sample_hash (m : list Z) : list Z := replicate 32 (Z.of_nat (length m) mod 256).

Lemma nothing_refused e : ~ refused (V := flat) e.
Proof. destruct e as [| |[]|]; cbn; intros H; try done; try (by apply flat_accepts). destruct H as [d Hd]. by apply flat_mounts in Hd. Qed.

Lemma services_come_up_witness :
  exists b b', start_services (T := gmap Z (Z * Z)) (V := flat) id sample_hash 0x5000 0x6000 0x40000 0x60000 0x1000 0x70000 0x71000 [0xEB; 0xFE] 9 b = Some (Ok tt, b') /\
    verify_password sample_hash (sy_fs (bm_sys b')) 1 TEST_PASSWORD = true /\
    exists d, disk (sy_fs (bm_sys b')) = Some d /\ files d INIT_FILE = Some [0xEB; 0xFE].
Proof.
  destruct power_on_ready as (p & Hp).
  destruct (services_come_up id sample_hash 0x5000 0x6000 0x40000 0x60000 0x1000 0x70000 0x71000 [0xEB; 0xFE] 9 (power_on p) Hp) as (r & b' & E & Herr & Hok); [lia|lia|lia|cbn; lia|].
  destruct r as [[]|e]; [|exfalso; exact (nothing_refused e (Herr e eq_refl))]. destruct (Hok eq_refl) as (_ & _ & Hv & _ & Hd & _).
  exists (power_on p), b'. split; [exact E|]. split; [exact (Hv 1)|exact Hd].
Defined.

Lemma self_tests_pass_witness :
  exists b b', single_task_tests (T := gmap Z (Z * Z)) (V := flat) id id sample_hash [] 0x5000 (fun _ s _ _ _ => ret 0 s) 9 b = Some (Ok tt, b') /\ sy_k (bm_sys b') = sy_k (bm_sys b).
Proof.
  destruct power_on_ready as (p & Hp).
  destruct (start_services_wp id sample_hash 0x5000 0x6000 0x40000 0x60000 0x1000 0x70000 0x71000 [0xEB; 0xFE] 9 (power_on p) Hp) as (r & b & E & Hr); [lia|lia|lia|cbn; lia|].
  destruct r as [[]|e]; [|exfalso; exact (nothing_refused e Hr)].
  destruct (self_tests_pass id id sample_hash [] 0x5000 0x70000 0x71000 [0xEB; 0xFE] (fun _ s _ _ _ => ret 0 s) 9 b Hr) as (r & b' & E' & Herr & Hok); [intros m; apply length_replicate|lia|].
  destruct r as [[]|e]; [|exfalso; exact (nothing_refused e (Herr e eq_refl))]. exists b, b'. split; [exact E'|]. exact (proj1 (Hok eq_refl)).
Defined.
