(* ===== verification/Children.v ===== *)
(** The self-tests that start a second task ([kernel/src/main.rs]): the boot task
    clones a thread or forks a process and joins it, while the timer interrupts
    wherever it likes.

    The tests are a step system over [Boot.machine]: the processor either takes
    a timer interrupt or runs the current task to its next step.  A step of
    the boot task is starting the child or one turn of the joining loop; the
    steps of the child are its store, and the two halves of [exit].  The idle
    task halts.  A panic, or an assertion of the test that fails, is [None]. *)

From S2P Require Import Prelude Bytes X86 Frames Disk Swap Vmm Signal Task Sched Sync Ipc Security Console Fat Mount Records Vfs Loader Syscall Boot.

Inductive child_test := CloneTest | ForkTest.

(** Where the boot task and the child are. *)
Inductive boot_pc := BStart | BJoin (id : Z) | BDone (code : Z).
Inductive child_pc := CEnter | CStored | CExit (parent_pid : option Z) | CGone.

Inductive tevent := Tick | Run.
#[export] Instance tevent_eq : EqDecision tevent.
Proof. solve_decision. Defined.

Section Children.
Context `{X86Addr} {T : Type} `{TopLevel T}.
Context {V : Type} {F : FatVolume V}.
(** The addresses of the trampoline and of the children's code; the stack of the
    child; the tasks: boot, idle and child. *)
Context (tramp clone_child_task fork_child_task base l0 l1 lc : Z).

Abbreviation machine := (Boot.machine (T := T) (V := V)).
Abbreviation bootm := (kmon machine boot_failure).

Definition kern (b : machine) : kernel := sy_k (bm_sys b).
Definition set_kern (b : machine) (k : kernel) : machine := set_sys b (put_k (bm_sys b) k).

(** ** The tests *)

(** The running task, as [TASK_TABLE] has it. *)
Definition current_task (k : kernel) : option Task := curr ← current_tid k; l ← k_table k !! curr; k_tasks k !! l.

(** Starting a child: the task table and the scheduler get the new task. *)
Definition start_child (mk : memory -> counters -> option (Task * memory * counters)) : bootm Task :=
  let! b := kget in
  let s := bm_sys b in
  let! r := need (mk (sy_mem s) (sy_counters s)) in
  let '(t, m, c) := r in
  let! k := need (spawn (sy_k s) lc t) in
  kput (set_sys b (put_counters (put_mem (put_k s k) m) c)) ;;;
  kret t.

(** Up to the join; the answer is the thread to join. *)
(* main.rs:343-346 clone_smoke_test *)
Definition clone_spawn : bootm Z :=
  let! b := kget in
  let! self := need (current_task (kern b)) in
  let! t := start_child (fun m c => clone_thread tramp self base m c clone_child_task 0) in
  kret (tid t).

(** Up to the wait; the answer is the process to wait for. *)
(* main.rs:354-366 fork_smoke_test *)
Definition fork_spawn : bootm Z :=
  let! b := kget in
  let! r := need (clone_kernel_half (bm_l4 b) (bm_table b) (bm_pool b)) in
  let '(child_l4, _, fa) := r in
  kput (set_memory b (bm_table b) fa (bm_virt b)) ;;;
  let! self := need (current_task (kern b)) in
  let! t := start_child (fun m c =>
    '(child, m, c) ← fork_kernel tramp self base m c fork_child_task 0;
    Some (with_space child child_l4 (vmm child) (heap_start child) (brk child), m, c)) in
  kret (pid t).

Definition spawn_child (t : child_test) : bootm Z := match t with CloneTest => clone_spawn | ForkTest => fork_spawn end.

(** One turn of the loop of [wait_tid] or [wait]. *)
Definition join_iter (t : child_test) (k : kernel) (id : Z) : option (option Z * kernel * option (Z * Z)) :=
  match t with CloneTest => wait_tid_iter k id | ForkTest => wait_iter k id end.

(** What the child stores. *)
Definition flag_value (t : child_test) : Z := match t with CloneTest => 1 | ForkTest => 42 end.

(** The assertions after the join. *)
Definition assertions (t : child_test) (code flag : Z) : bool :=
  match t with CloneTest => flag =? 1 | ForkTest => (code =? 0) && (flag =? 42) end.

(** The flag is [CLONE_FLAG] or [FORK_FLAG]. *)
Record trun := mkTrun { tr_b : machine; tr_flag : Z; tr_boot : boot_pc; tr_child : child_pc }.

Definition with_kern (r : trun) (k : kernel) : trun := mkTrun (set_kern (tr_b r) k) (tr_flag r) (tr_boot r) (tr_child r).

(* main.rs:341-371 clone_smoke_test *)
Definition boot_step (t : child_test) (r : trun) : option trun :=
  match tr_boot r with
  | BStart =>
      '(res, b) ← spawn_child t (tr_b r);
      match res with Ok id => Some (mkTrun b 0 (BJoin id) (tr_child r)) | Err _ => None end
  | BJoin id =>
      '(res, k, _) ← join_iter t (kern (tr_b r)) id;
      match res with
      | None => Some (with_kern r k)
      | Some code =>
          if assertions t code (tr_flag r) then Some (mkTrun (set_kern (tr_b r) k) (tr_flag r) (BDone code) (tr_child r)) else None
      end
  | BDone _ => Some r
  end.

(* main.rs:384-392 clone_child_task *)
Definition child_step (t : child_test) (r : trun) : option trun :=
  match tr_child r with
  | CEnter => Some (mkTrun (tr_b r) (flag_value t) (tr_boot r) CStored)
  | CStored =>
      '(k, parent_pid) ← exit_mark (kern (tr_b r)) 0;
      Some (mkTrun (set_kern (tr_b r) k) (tr_flag r) (tr_boot r) (CExit parent_pid))
  | CExit parent_pid =>
      '(k, _) ← exit_leave (kern (tr_b r)) parent_pid;
      Some (mkTrun (set_kern (tr_b r) k) (tr_flag r) (tr_boot r) CGone)
  | CGone => Some r
  end.

Definition trstep (t : child_test) (r : trun) (e : tevent) : option trun :=
  match e with
  | Tick => '(k, _) ← timer_handler (kern (tr_b r)); Some (with_kern r k)
  | Run =>
      l ← current (k_sched (kern (tr_b r)));
      if l =? l0 then boot_step t r else if l =? lc then child_step t r else Some r
  end.

Fixpoint run_events (t : child_test) (r : trun) (es : list tevent) : option trun :=
  match es with
  | [] => Some r
  | e :: es => r ← trstep t r e; run_events t r es
  end.

Definition ticks (es : list tevent) : Z := Z.of_nat (length (filter (fun e => e = Tick) es)).

(** ** The scheduler around the three tasks *)

Context (Hl01 : l0 <> l1) (Hl0c : l0 <> lc) (Hl1c : l1 <> lc) (Hbase : 0 < base < 2 ^ 63).

(** The scheduler's own invariant, with the tasks that are queued or running, when
    the table holds no other tasks than the three. *)
Record core (run : list Z) (k : kernel) : Prop := mkCore {
  co_sched : mlfq_ok (k_tasks k) (k_sched k);
  co_run : runnable (k_sched k) ≡ₚ run;
  co_preempt : k_preempt k = 0;
  co_ticks : 0 <= total_ticks (k_sched k);
  co_table id l : k_table k !! id = Some l -> l ∈ [l0; l1; lc] /\ exists t, k_tasks k !! l = Some t /\ tid t = id;
  co_listed l t : l ∈ run -> k_tasks k !! l = Some t -> k_table k !! tid t = Some l
}.

Lemma in_three l : l ∈ [l0; l1] -> l ∈ [l0; l1; lc].
Proof. rewrite !elem_of_cons. tauto. Qed.

Lemma child_not_in : lc ∉ [l0; l1].
Proof. rewrite !elem_of_cons, elem_of_nil. intros [?|[?|?]]; congruence. Qed.

Lemma child_in_three : lc ∈ [l0; l1; lc].
Proof. rewrite !elem_of_cons. tauto. Qed.

Lemma identity_tid t t' : identity t = identity t' -> tid t = tid t' /\ pid t = pid t' /\ exit_code t = exit_code t'.
Proof. destruct t, t'. unfold identity, with_run. cbn. intros [=]. by subst. Qed.

Lemma same_task (ts ts' : tasks) l t : identity <$> (ts' !! l) = identity <$> (ts !! l) -> ts !! l = Some t ->
  exists t', ts' !! l = Some t' /\ tid t' = tid t /\ pid t' = pid t /\ exit_code t' = exit_code t.
Proof. intros E Ht. rewrite Ht in E. destruct (ts' !! l) as [t'|]; [|done]. exists t'. split; [done|]. apply identity_tid. exact (inj Some _ _ E). Qed.

Lemma core_moved run k k' :
  core run k -> moved k k' -> mlfq_ok (k_tasks k') (k_sched k') -> total_ticks (k_sched k) <= total_ticks (k_sched k') -> core run k'.
Proof.
  intros [A1 A2 A3 A4 A5 A6] [B1 B2 B3 B4 B5] Hok Ht. split; [done|by rewrite B1|congruence|lia| |].
  - intros id l Hid. rewrite B2 in Hid. destruct (A5 id l Hid) as (Hl & t & Hlt & <-). split; [done|]. destruct (same_task _ _ _ _ (B4 l) Hlt) as (t' & ? & ? & _). eauto.
  - intros l t Hl Hlt. rewrite B2. destruct (same_task _ _ _ _ (eq_sym (B4 l)) Hlt) as (t' & Ht' & <- & _). by apply A6.
Qed.

(** With two tasks one of them is queued. *)
Lemma core_queued run k : core run k -> (2 <= length run)%nat -> concat (queues (k_sched k)) <> [].
Proof.
  intros Hco Hlen E. pose proof (co_run _ _ Hco) as Hr. apply Permutation_length in Hr. unfold runnable in Hr. rewrite E, app_nil_r in Hr.
  destruct (current (k_sched k)); cbn in Hr; lia.
Qed.

Lemma core_timer run k c :
  core run k -> (2 <= length run)%nat -> current (k_sched k) = Some c -> total_ticks (k_sched k) + 1 < 2 ^ 32 ->
  exists k' sw, timer_handler k = Some (k', sw) /\ moved k k' /\ core run k' /\ is_Some (current (k_sched k')) /\ total_ticks (k_sched k') = total_ticks (k_sched k) + 1.
Proof.
  intros Hco Hlen Hc Hn. pose proof Hco as [A1 A2 A3 A4 A5 A6].
  destruct (timer_moved k c A1 A3 (core_queued _ _ Hco Hlen) Hc A4 Hn) as (k' & sw & E & Hm & Hok & Hc' & Ht). exists k', sw. split_and!; [done|done| |done|done].
  eapply core_moved; [done|done|done|lia].
Qed.

(** ** The child in the table *)

(** The child is the task the test waits for. *)
Record child_at (t : child_test) (id : Z) (k : kernel) (tc : Task) : Prop := mkChildAt {
  ca_task : k_tasks k !! lc = Some tc;
  ca_table : k_table k !! tid tc = Some lc;
  ca_name : match t with
            | CloneTest => id = tid tc
            | ForkTest => id = pid tc /\ forall i l u, k_table k !! i = Some l -> k_tasks k !! l = Some u -> pid u = id -> l = lc
            end
}.

Lemma child_at_same t id k k' tc :
  child_at t id k tc -> k_table k' = k_table k -> (forall l, identity <$> (k_tasks k' !! l) = identity <$> (k_tasks k !! l)) ->
  exists tc', child_at t id k' tc' /\ exit_code tc' = exit_code tc.
Proof.
  intros [A1 A2 A3] Htb Hid. destruct (same_task _ _ _ _ (Hid lc) A1) as (tc' & Htc & Ht & Hp & He). exists tc'. split; [|done].
  split; [done|by rewrite Ht, Htb|]. destruct t; [by rewrite Ht|]. destruct A3 as [-> A3]. split; [done|]. intros i l u Hi Hu Hpu. rewrite Htb in Hi.
  destruct (same_task _ _ _ _ (eq_sym (Hid l)) Hu) as (u' & Hu' & _ & Hpu' & _). apply (A3 i l u'); congruence.
Qed.

Lemma find_child k id tc run : core run k -> child_at ForkTest id k tc -> find_pid k id = Some (tid tc).
Proof.
  intros Hco [A1 A2 [-> A3]]. destruct (find_pid k (pid tc)) as [i|] eqn:E.
  - destruct (find_pid_Some _ _ _ E) as (l & u & Hl & Hu & Hp). pose proof (A3 i l u Hl Hu Hp) as ->. destruct (co_table _ _ Hco i lc Hl) as (_ & u' & Hu' & <-). congruence.
  - exfalso. unfold find_pid in E. assert (Hin : In (tid tc) (all_tids k)).
    { apply list_elem_of_In. unfold all_tids. rewrite merge_sort_Permutation. apply elem_of_elements, elem_of_dom. eauto. }
    apply (find_none _ _ E) in Hin. unfold has_pid in Hin. rewrite A2 in Hin. cbn [mbind option_bind] in Hin. rewrite A1 in Hin. lia.
Qed.

Lemma core_current run k c : core run k -> current (k_sched k) = Some c ->
  exists t, k_tasks k !! c = Some t /\ 0 <= priority t < 8 /\ current_tid k = Some (tid t) /\ k_table k !! tid t = Some c.
Proof.
  intros Hco Hc. destruct (ok_current _ _ (co_sched _ _ Hco) c Hc) as (t & Ht & Hp). exists t. split_and!; [done|lia|lia| |].
  - unfold current_tid. rewrite Hc. cbn [mbind option_bind]. by rewrite Ht.
  - apply (co_listed _ _ Hco); [|done]. rewrite <- (co_run _ _ Hco). by apply current_runnable.
Qed.

(** A zombie is reaped. *)
Lemma join_zombie t id run k c tc :
  core run k -> current (k_sched k) = Some c -> child_at t id k tc -> state tc = Zombie ->
  join_iter t k id = Some (Some (default (-1) (exit_code tc)), table_remove k (tid tc), None).
Proof.
  intros Hco Hc Hca Hz. pose proof Hca as [A1 A2 A3]. destruct (core_current _ _ _ Hco Hc) as (u & _ & _ & Hct & _).
  assert (Hr : reap_zombie k (tid tc) lc = Some (Some (default (-1) (exit_code tc)), table_remove k (tid tc))) by (unfold reap_zombie; rewrite A1; cbn [mbind option_bind]; by rewrite Hz).
  destruct t; unfold join_iter, wait_tid_iter, wait_iter; rewrite Hct; cbn [mbind option_bind].
  - rewrite A3, A2, Hr. done.
  - rewrite (find_child k id tc run Hco Hca), A2. cbn [mbind option_bind]. by rewrite Hr.
Qed.

(** Until then the joining task gives up the processor. *)
Lemma join_live t id run k c tc :
  core run k -> (2 <= length run)%nat -> current (k_sched k) = Some c -> child_at t id k tc -> state tc <> Zombie ->
  exists k' sw, join_iter t k id = Some (None, k', sw) /\ moved k k' /\ core run k' /\ is_Some (current (k_sched k')) /\ total_ticks (k_sched k') = total_ticks (k_sched k).
Proof.
  intros Hco Hlen Hc Hca Hz. pose proof Hca as [A1 A2 A3]. destruct (core_current _ _ _ Hco Hc) as (u & Hu & Hp & Hct & Htb).
  assert (Hr : reap_zombie k (tid tc) lc = Some (None, k)) by (unfold reap_zombie; rewrite A1; cbn [mbind option_bind]; by destruct (state tc)).
  set (k1 := set_tasks k (<[c := with_state u Blocked]> (k_tasks k))).
  assert (Hb : mark_blocked k (tid u) = Some k1) by (unfold mark_blocked; rewrite Htb, Hu; done).
  assert (Hm1 : moved k k1). { split; [done|done|done|intros l; by apply (identity_insert _ _ u)|]. intros l Hl. apply lookup_insert_ne. intros ->. by apply Hl, current_runnable. }
  assert (Hco1 : core run k1) by (eapply core_moved; [done|done|by apply mlfq_ok_current; [apply (co_sched _ _ Hco)|..]|cbn; lia]).
  destruct (schedule_moved k1) as (k' & sw & E & Hm & Hok & Hc' & Ht); [apply (co_sched _ _ Hco1)|apply (co_preempt _ _ Hco1)|by eapply core_queued|by cbn; rewrite Hc|].
  exists k', sw. split; [|split_and!; [by etrans|eapply core_moved; [exact Hco1|exact Hm|done|lia]|done|done]].
  destruct t; unfold join_iter, wait_tid_iter, wait_iter; rewrite Hct; cbn [mbind option_bind].
  - rewrite A3, A2, Hr. cbn [mbind option_bind]. rewrite Hb. cbn [mbind option_bind]. by rewrite E.
  - rewrite (find_child k id tc run Hco Hca), A2. cbn [mbind option_bind]. rewrite Hr. cbn [mbind option_bind]. rewrite Hb. cbn [mbind option_bind]. by rewrite E.
Qed.

(** Nobody is blocked, so waking does nothing. *)
Lemma unblock_nobody k c tc p :
  core [l0; l1; lc] k -> current (k_sched k) = Some c -> k_tasks k !! c = Some tc -> state tc <> Blocked -> unblock_pid k p = Some k.
Proof.
  intros Hco Hc Htc Hb. unfold unblock_pid. destruct (find_pid k p) as [id|] eqn:E; [|done]. destruct (find_pid_Some _ _ _ E) as (l & t & Hl & Ht & _).
  unfold unblock_tid. rewrite Hl, Ht. cbn [mbind option_bind]. assert (Hs : state t <> Blocked); [|by destruct (state t)].
  destruct (co_table _ _ Hco id l Hl) as [Hin _]. rewrite <- (co_run _ _ Hco) in Hin. unfold runnable in Hin. rewrite Hc in Hin. apply elem_of_app in Hin as [Hin|Hin].
  - apply list_elem_of_singleton in Hin as ->. congruence.
  - apply elem_of_concat in Hin as (i & q & Hi & Hq). destruct (ok_queued _ _ (co_sched _ _ Hco) i q l Hi Hq) as (u & Hu & _ & Hs). congruence.
Qed.

(** The second half of [exit] takes the child off the scheduler and leaves its
    record as it is. *)
Lemma leave_core k tc p :
  core [l0; l1; lc] k -> current (k_sched k) = Some lc -> k_tasks k !! lc = Some tc -> state tc <> Blocked ->
  exists k' sw, exit_leave k p = Some (k', sw) /\ core [l0; l1] k' /\ is_Some (current (k_sched k')) /\ total_ticks (k_sched k') = total_ticks (k_sched k) /\
    k_table k' = k_table k /\ (forall l, identity <$> (k_tasks k' !! l) = identity <$> (k_tasks k !! l)) /\ k_tasks k' !! lc = Some tc.
Proof.
  intros Hco Hc Htc Hb. assert (Eu : (match p with Some p => unblock_pid k p | None => Some k end) = Some k) by (destruct p; [by eapply unblock_nobody|done]).
  unfold exit_leave. rewrite Eu. cbn [mbind option_bind]. set (k1 := set_sched k _ _). pose proof Hco as [A1 A2 A3 A4 A5 A6].
  assert (Hr1 : runnable (k_sched k1) ≡ₚ [l0; l1]).
  { unfold runnable in A2. rewrite Hc in A2. cbn in *. unfold mlfq_remove_current. rewrite Hc. unfold runnable. cbn. apply (Permutation_cons_inv (a := lc)). rewrite A2. solve_Permutation. }
  assert (Hco1 : core [l0; l1] k1).
  { split; [|done|done|cbn; unfold mlfq_remove_current; by rewrite Hc|done|intros l t Hl; apply A6; by apply in_three]. cbn. unfold mlfq_remove_current. rewrite Hc.
    destruct A1 as [B1 B2 B3 B4 B5]. split; [done| |done|done|cbn; lia]. unfold runnable in *. rewrite Hc in B2. by apply NoDup_cons in B2 as []. }
  destruct (schedule_moved k1) as (k' & sw & E & [M1 M2 M3 M4 M5] & Hok & Hc' & Ht); [apply (co_sched _ _ Hco1)|apply (co_preempt _ _ Hco1)|eapply core_queued; [done|cbn; lia]|cbn; unfold mlfq_remove_current; by rewrite Hc|].
  assert (Ht1 : total_ticks (k_sched k1) = total_ticks (k_sched k)) by (cbn; unfold mlfq_remove_current; by rewrite Hc).
  exists k', sw. split_and!; [done|eapply core_moved; [done|by split|done|lia]|done|lia|done|done|]. rewrite M5; [done|]. rewrite Hr1. apply child_not_in.
Qed.

(** ** Starting the child *)

(** The state a test starts in: only the boot task and the idle task exist, the
    child's address and identifiers are not in use, and there is a frame for
    the child's page table. *)
Record ready (t : child_test) (b : machine) : Prop := mkReady {
  rd_kernel : kernel_ok l1 (kern b);
  rd_run : runnable (k_sched (kern b)) ≡ₚ [l0; l1];
  rd_table id l : k_table (kern b) !! id = Some l -> l ∈ [l0; l1] /\ forall u, k_tasks (kern b) !! l = Some u -> pid u <> NEXT_PID (sy_counters (bm_sys b));
  rd_child : k_tasks (kern b) !! lc = None;
  rd_tid : k_table (kern b) !! NEXT_TID (sy_counters (bm_sys b)) = None;
  rd_frame : t = ForkTest -> exists f l, pool_at (bm_pool b) (f :: l)
}.

Lemma ready_core t b : ready t b -> core [l0; l1] (kern b).
Proof.
  intros [[[A1 A2 A3 A4 A5 A6] _] R2 R3 _ _ _]. split; [done|done|done|done| |].
  - intros id l Hid. destruct (R3 id l Hid) as [Hl _]. split; [by apply in_three|]. by apply (rg_table _ _ _ A4).
  - intros l u Hl Hu. apply (rg_run _ _ _ A4); [done|]. by rewrite R2.
Qed.

Lemma start_child_spec t b mk tk m' c' :
  ready t b -> mk (sy_mem (bm_sys b)) (sy_counters (bm_sys b)) = Some (tk, m', c') ->
  tid tk = NEXT_TID (sy_counters (bm_sys b)) -> priority tk = 0 -> state tk = Ready ->
  exists b', start_child mk b = Some (Ok tk, b') /\ kernel_ok l1 (kern b') /\ core [l0; l1; lc] (kern b') /\ current (k_sched (kern b')) = current (k_sched (kern b)) /\
    total_ticks (k_sched (kern b')) = total_ticks (k_sched (kern b)) /\
    k_tasks (kern b') = <[lc := tk]> (k_tasks (kern b)) /\ k_table (kern b') = <[tid tk := lc]> (k_table (kern b)) /\
    b' = set_sys b (put_counters (put_mem (put_k (bm_sys b) (kern b')) m') c').
Proof.
  intros Hrd Hmk Htid Hp Hs. pose proof (ready_core _ _ Hrd) as [C1 C2 C3 C4 C5 C6]. destruct Hrd as [R1 R2 R3 R4 R5 _].
  assert (Hp8 : 0 <= priority tk < 8) by lia.
  destruct (spawn_ok l1 (kern b) lc tk R1 R4) as (k' & E & Hok); [by rewrite Htid|done|done|].
  destruct (spawn_effect _ _ _ _ C1 Hp8 E) as (Et & Etb & Epr & Ecur & Etot & Erun).
  unfold start_child, kbind, kget, need. rewrite Hmk. cbn. fold (kern b). rewrite E. cbn. eexists. split; [reflexivity|]. unfold kern at 1 2 3 4 5 6. cbn.
  split_and!; [done| |done|done|done|done|done]. split; [apply Hok|rewrite Erun, R2; solve_Permutation|by rewrite Epr|lia| |].
  - rewrite Etb, Et. intros id l Hid. apply lookup_insert_Some in Hid as [[<- <-]|[Hne Hid]]; [split; [apply child_in_three|]; rewrite lookup_insert_eq; eauto|].
    destruct (C5 id l Hid) as (Hl & u & Hu & Hu'). split; [done|]. exists u. rewrite lookup_insert_ne; [done|congruence].
  - intros l u Hl Hu. destruct Hok as [[_ _ _ Hrg _ _] _]. apply (rg_run _ _ _ Hrg); [done|]. rewrite Erun, R2. revert Hl. rewrite !elem_of_cons. tauto.
Qed.

Lemma clone_thread_some self m c :
  exists tk m' c', clone_thread tramp self base m c clone_child_task 0 = Some (tk, m', c') /\ tid tk = NEXT_TID c /\ priority tk = 0 /\ state tk = Ready.
Proof. unfold clone_thread. destruct (kernel_stack_some tramp base m clone_child_task Hbase) as (m1 & top & m2 & r & -> & E). cbn [mbind option_bind]. rewrite E. by eexists _, _, _. Qed.

Lemma fork_kernel_some self m c :
  exists tk m' c', fork_kernel tramp self base m c fork_child_task 0 = Some (tk, m', c') /\ tid tk = NEXT_TID c /\ pid tk = NEXT_PID c /\ priority tk = 0 /\ state tk = Ready.
Proof. unfold fork_kernel. destruct (kernel_stack_some tramp base m fork_child_task Hbase) as (m1 & top & m2 & r & -> & E). cbn [mbind option_bind]. rewrite E. by eexists _, _, _. Qed.

Lemma current_task_some run k c : core run k -> current (k_sched k) = Some c -> exists u, current_task k = Some u.
Proof.
  intros Hco Hc. destruct (core_current _ _ _ Hco Hc) as (u & Hu & _ & Hct & Htb). exists u. unfold current_task. rewrite Hct. cbn [mbind option_bind]. by rewrite Htb.
Qed.

(** The child is queued and is the only task with the name the test waits for. *)
Lemma spawn_child_spec t b :
  ready t b -> current (k_sched (kern b)) = Some l0 ->
  exists id b' tc, spawn_child t b = Some (Ok id, b') /\ kernel_ok l1 (kern b') /\ core [l0; l1; lc] (kern b') /\ child_at t id (kern b') tc /\
    is_Some (current (k_sched (kern b'))) /\ total_ticks (k_sched (kern b')) = total_ticks (k_sched (kern b)).
Proof.
  intros Hrd Hc. destruct (current_task_some _ _ _ (ready_core _ _ Hrd) Hc) as (self & Hself). destruct t; cbn [spawn_child].
  - destruct (clone_thread_some self (sy_mem (bm_sys b)) (sy_counters (bm_sys b))) as (tk & m' & c' & E & Ht & Hp & Hs).
    destruct (start_child_spec CloneTest b (fun m c => clone_thread tramp self base m c clone_child_task 0) tk m' c' Hrd E Ht Hp Hs) as (b' & Es & Hok & Hco & Hc' & Htot & Etk & Etb & _).
    exists (tid tk), b', tk. split_and!; [|done|done| |by rewrite Hc', Hc|done].
    + unfold clone_spawn, kbind at 1 2, kget, need. cbn. rewrite Hself. cbn. unfold kbind. by rewrite Es.
    + split; [rewrite Etk; apply lookup_insert_eq|rewrite Etb; apply lookup_insert_eq|done].
  - destruct (rd_frame _ _ Hrd eq_refl) as (f & l & Hpool). destruct (clone_kernel_half_spec (bm_l4 b) (bm_table b) (bm_pool b) f l Hpool) as (p1 & Ep & Hp1).
    set (b1 := set_memory b (bm_table b) p1 (bm_virt b)). destruct (fork_kernel_some self (sy_mem (bm_sys b)) (sy_counters (bm_sys b))) as (tk & m' & c' & E & Ht & Hpd & Hp & Hs).
    set (mk := fun m c => '(child, m, c) ← fork_kernel tramp self base m c fork_child_task 0; Some (with_space child f (vmm child) (heap_start child) (brk child), m, c)).
    set (tk' := with_space tk f (vmm tk) (heap_start tk) (brk tk)).
    assert (Hrd1 : ready CloneTest b1) by (by destruct Hrd as [R1 R2 R3 R4 R5 _]; split).
    destruct (start_child_spec CloneTest b1 mk tk' m' c' Hrd1) as (b' & Es & Hok & Hco & Hc' & Htot & Etk & Etb & _); [unfold mk; cbn; by rewrite E|done..|].
    exists (pid tk'), b', tk'. split_and!; [|done|done| |rewrite Hc'; by exists l0|done].
    + unfold fork_spawn, kbind at 1 2 3 4, kget, kput, need. rewrite Ep. cbn. rewrite Hself. cbn. unfold kbind. fold mk b1. by rewrite Es.
    + change (kern b1) with (kern b) in *. split; [rewrite Etk; apply lookup_insert_eq|rewrite Etb; apply lookup_insert_eq|]. split; [done|]. intros i x u Hi Hu Hpu.
      rewrite Etb in Hi. apply lookup_insert_Some in Hi as [[_ <-]|[_ Hi]]; [done|]. destruct (decide (x = lc)) as [|Hne]; [done|]. rewrite Etk, lookup_insert_ne in Hu by congruence.
      destruct (rd_table _ _ Hrd i x Hi) as [_ Hpid]. exfalso. apply (Hpid u Hu). rewrite Hpu. exact Hpd.
Qed.

(** ** The states of a run *)

(** Where the child is, against its record and the scheduler. *)
Inductive phase (t : child_test) (k : kernel) (flag : Z) (tc : Task) : child_pc -> Prop :=
  | ph_enter : core [l0; l1; lc] k -> kernel_ok l1 k -> phase t k flag tc CEnter
  | ph_stored : core [l0; l1; lc] k -> kernel_ok l1 k -> flag = flag_value t -> phase t k flag tc CStored
  | ph_marked p : core [l0; l1; lc] k -> kernel_pre l1 k -> flag = flag_value t -> current (k_sched k) = Some lc -> state tc = Zombie -> exit_code tc = Some 0 ->
      (forall k' sw, exit_leave k p = Some (k', sw) -> kernel_ok l1 k') -> phase t k flag tc (CExit p)
  | ph_resumed p : core [l0; l1; lc] k -> kernel_ok l1 k -> flag = flag_value t -> phase t k flag tc (CExit p)
  | ph_zombie : core [l0; l1] k -> kernel_ok l1 k -> flag = flag_value t -> state tc = Zombie -> exit_code tc = Some 0 -> phase t k flag tc CGone
  | ph_lost : core [l0; l1] k -> flag = flag_value t -> state tc <> Zombie -> phase t k flag tc CGone.

Definition inv (t : child_test) (r : trun) : Prop :=
  let k := kern (tr_b r) in
  is_Some (current (k_sched k)) /\
  match tr_boot r with
  | BStart => ready t (tr_b r) /\ tr_child r = CEnter
  | BJoin id => exists tc, child_at t id k tc /\ phase t k (tr_flag r) tc (tr_child r)
  | BDone code => code = 0 /\ tr_flag r = flag_value t /\ core [l0; l1] k /\ tr_child r = CGone /\ kernel_ok l1 k /\ forall id l, k_table k !! id = Some l -> l <> lc
  end.

(** A runnable task is no zombie. *)
Lemma runnable_alive k tc : core [l0; l1; lc] k -> kernel_ok l1 k -> k_tasks k !! lc = Some tc -> state tc <> Zombie /\ state tc <> Blocked.
Proof.
  intros Hco [_ (c & u & Hc & Hu & Hs)] Htc. assert (Hin : lc ∈ runnable (k_sched k)) by (rewrite (co_run _ _ Hco); apply child_in_three).
  unfold runnable in Hin. rewrite Hc in Hin. apply elem_of_app in Hin as [Hin|Hin].
  - apply list_elem_of_singleton in Hin as ->. split; congruence.
  - apply elem_of_concat in Hin as (i & q & Hi & Hq). destruct (ok_queued _ _ (co_sched _ _ Hco) i q lc Hi Hq) as (v & Hv & _ & Hr). split; congruence.
Qed.

(** The child has marked itself and its mark is gone. *)
Definition unmarked (c : child_pc) (tc : Task) : Prop :=
  match c with CExit _ | CGone => state tc <> Zombie | _ => False end.

(** Scheduling keeps the phase, except that a switch away from a marked child
    takes the mark off. *)
Lemma phase_moved t id k k' flag tc c :
  child_at t id k tc -> phase t k flag tc c -> moved k k' -> (forall run, (2 <= length run)%nat -> core run k -> core run k') ->
  (kernel_ok l1 k -> kernel_ok l1 k') -> (kernel_pre l1 k -> current (k_sched k) = Some lc -> kernel_ok l1 k') ->
  exists tc', child_at t id k' tc' /\ phase t k' flag tc' c /\ (unmarked c tc -> unmarked c tc') /\ ((exists p, c = CExit p) -> unmarked c tc') /\
    ((forall p, c <> CExit p) -> unmarked c tc' -> unmarked c tc).
Proof.
  intros Hca Hph Hm Hcore Hok Hmk. destruct (child_at_same t id k k' tc Hca (mv_table _ _ Hm) (mv_tasks _ _ Hm)) as (tc' & Hca' & He). exists tc'. split; [done|].
  assert (Q3 : core [l0; l1; lc] k -> core [l0; l1; lc] k') by (apply Hcore; cbn; lia). assert (Q2 : core [l0; l1] k -> core [l0; l1] k') by (apply Hcore; cbn; lia).
  assert (Halive : core [l0; l1; lc] k -> kernel_ok l1 k' -> state tc' <> Zombie) by (intros Hco Hok'; by destruct (runnable_alive k' tc' (Q3 Hco) Hok' (ca_task _ _ _ _ Hca'))).
  assert (Hsame : core [l0; l1] k -> tc' = tc).
  { intros Hco. pose proof (ca_task _ _ _ _ Hca') as Ht. rewrite (mv_parked _ _ Hm), (ca_task _ _ _ _ Hca) in Ht; [congruence|]. rewrite (co_run _ _ Hco). apply child_not_in. }
  destruct Hph as [Hco Hk|Hco Hk Hf|p Hco Hk Hf Hc Hz Hx Hl|p Hco Hk Hf|Hco Hk Hf Hz Hx|Hco Hf Hz]; cbn [unmarked].
  - split; [apply ph_enter; auto|]. split_and!; [done|by intros [? [=]]|done].
  - split; [apply ph_stored; auto|]. split_and!; [done|by intros [? [=]]|done].
  - split; [apply ph_resumed; auto|]. split_and!; [auto|auto|]. intros Hne. by destruct (Hne p).
  - split; [apply ph_resumed; auto|]. split_and!; [auto|auto|]. intros Hne. by destruct (Hne p).
  - rewrite (Hsame Hco). split; [apply ph_zombie; auto|]. split_and!; [done|by intros [? [=]]|done].
  - rewrite (Hsame Hco). split; [apply ph_lost; auto|]. split_and!; [done|by intros [? [=]]|done].
Qed.

Lemma join_kernel_ok t id k res k' sw : kernel_ok l1 k -> current (k_sched k) = Some l0 -> join_iter t k id = Some (res, k', sw) -> kernel_ok l1 k'.
Proof.
  intros Hok Hc E. assert (Hi : current (k_sched k) <> Some l1) by congruence.
  destruct t; cbn [join_iter] in E; [destruct (kstep_ok l1 k (OJoin id) Hok Hi) as (k2 & E2 & Hok2)|destruct (kstep_ok l1 k (OWait id) Hok Hi) as (k2 & E2 & Hok2)];
    cbn [kstep] in E2; rewrite E in E2; cbn in E2; congruence.
Qed.

Lemma core_reaped t id k tc : core [l0; l1] k -> child_at t id k tc -> core [l0; l1] (table_remove k (tid tc)).
Proof.
  intros [A1 A2 A3 A4 A5 A6] [B1 B2 _]. split; [done|done|done|done| |].
  - intros i l Hi. cbn in Hi. apply lookup_delete_Some in Hi as [_ Hi]. by apply A5.
  - intros l u Hl Hu. cbn. rewrite lookup_delete_ne; [by apply A6|]. intros E. pose proof (A6 l u Hl Hu) as Hu'. rewrite <- E, B2 in Hu'. injection Hu' as <-. by apply child_not_in.
Qed.

(** One turn of the join. *)
Lemma phase_join t id k flag tc c :
  child_at t id k tc -> phase t k flag tc c -> current (k_sched k) = Some l0 ->
  (exists k' sw tc', state tc <> Zombie /\ join_iter t k id = Some (None, k', sw) /\ child_at t id k' tc' /\ phase t k' flag tc' c /\ is_Some (current (k_sched k')) /\
    total_ticks (k_sched k') = total_ticks (k_sched k) /\ (unmarked c tc -> unmarked c tc')) \/
  (state tc = Zombie /\ c = CGone /\ flag = flag_value t /\ join_iter t k id = Some (Some 0, table_remove k (tid tc), None) /\ core [l0; l1] (table_remove k (tid tc)) /\
    kernel_ok l1 (table_remove k (tid tc)) /\ forall i l, k_table (table_remove k (tid tc)) !! i = Some l -> l <> lc).
Proof.
  intros Hca Hph Hc.
  assert (Hlive : forall run, core run k -> (2 <= length run)%nat -> state tc <> Zombie ->
    exists k' sw tc', state tc <> Zombie /\ join_iter t k id = Some (None, k', sw) /\ child_at t id k' tc' /\ phase t k' flag tc' c /\ is_Some (current (k_sched k')) /\
      total_ticks (k_sched k') = total_ticks (k_sched k) /\ (unmarked c tc -> unmarked c tc')).
  { intros run Hco Hlen Hz. destruct (join_live t id run k l0 tc Hco Hlen Hc Hca Hz) as (k' & sw & E & Hm & Hco' & Hc' & Ht).
    destruct (phase_moved t id k k' flag tc c Hca Hph Hm) as (tc' & Q1 & Q2 & Q3 & _).
    - intros run' _ Hr. eapply core_moved; [done|done|apply (co_sched _ _ Hco')|lia].
    - intros Hok. by eapply join_kernel_ok.
    - intros _ Hc2. congruence.
    - exists k', sw, tc'. by split_and!. }
  pose proof (ca_task _ _ _ _ Hca) as Htc. pose proof Hph as Hph'. destruct Hph' as [Hco Hk|Hco Hk Hf|p Hco Hk Hf Hc2 Hz Hx Hl|p Hco Hk Hf|Hco Hk Hf Hz Hx|Hco Hf Hz].
  1-2, 4: left; apply (Hlive _ Hco); [cbn; lia|by destruct (runnable_alive k tc Hco Hk Htc)].
  - congruence.
  - right. assert (E : join_iter t k id = Some (Some 0, table_remove k (tid tc), None)) by (by rewrite (join_zombie t id _ k l0 tc Hco Hc Hca Hz), Hx).
    split_and!; [done|done|done|done|by eapply core_reaped|by eapply join_kernel_ok|]. intros i l Hi ->. cbn in Hi. apply lookup_delete_Some in Hi as [Hne Hi].
    destruct (co_table _ _ Hco i lc Hi) as (_ & u & Hu & <-). rewrite Htc in Hu. by injection Hu as <-.
  - left. apply (Hlive _ Hco); [cbn; lia|done].
Qed.

(** The first half of [exit]. *)
Lemma mark_child k tc code :
  kernel_ok l1 k -> core [l0; l1; lc] k -> current (k_sched k) = Some lc -> k_tasks k !! lc = Some tc ->
  let k' := set_tasks k (<[lc := with_run tc Zombie (priority tc) (Some code)]> (k_tasks k)) in
  exit_mark k code = Some (k', parent tc) /\ core [l0; l1; lc] k' /\ kernel_pre l1 k' /\ forall k2 sw, exit_leave k' (parent tc) = Some (k2, sw) -> kernel_ok l1 k2.
Proof.
  intros Hok Hco Hc Htc k'. destruct (core_current _ _ _ Hco Hc) as (u & Hu & Hp & Hct & Htb). rewrite Htc in Hu. injection Hu as <-.
  assert (E : exit_mark k code = Some (k', parent tc)) by (unfold exit_mark; rewrite Hct; cbn [mbind option_bind]; rewrite Htb, Htc; done).
  split; [done|]. split; [|split; [by apply stop_ok; auto|]].
  - destruct Hco as [A1 A2 A3 A4 A5 A6]. split; [by apply mlfq_ok_current|done|done|done| |]; cbn.
    + intros id l Hid. destruct (A5 id l Hid) as (Hl & v & Hv & Hvid). split; [done|]. destruct (decide (l = lc)) as [->|]; [rewrite lookup_insert_eq; eexists; split; [done|]; cbn; congruence|].
      rewrite lookup_insert_ne by done. eauto.
    + intros l v Hl Hv. destruct (decide (l = lc)) as [->|]; [rewrite lookup_insert_eq in Hv; injection Hv as <-; exact Htb|]. rewrite lookup_insert_ne in Hv by done. by apply A6.
  - intros k2 sw E2. destruct (exit_ok l1 k code Hok ltac:(congruence)) as (k3 & sw3 & E3 & Hok3). unfold exit in E3. rewrite E in E3. cbn [mbind option_bind] in E3. congruence.
Qed.

(** The child's mark has been taken off and the boot task still waits. *)
Definition hanging (r : trun) : Prop :=
  exists id tc, tr_boot r = BJoin id /\ k_tasks (kern (tr_b r)) !! lc = Some tc /\ unmarked (tr_child r) tc.

Definition now (r : trun) : Z := total_ticks (k_sched (kern (tr_b r))).

Lemma ready_moved t b k' : ready t b -> moved (kern b) k' -> kernel_ok l1 k' -> ready t (set_kern b k').
Proof.
  intros [R1 R2 R3 R4 R5 R6] [M1 M2 M3 M4 M5] Hok. split; unfold set_kern; cbn [kern set_sys bm_sys put_k sy_k sy_counters bm_pool].
  - done.
  - by rewrite M1.
  - intros id l Hid. rewrite M2 in Hid. destruct (R3 id l Hid) as [Hl Hp]. split; [done|]. intros u Hu. destruct (same_task _ _ _ _ (eq_sym (M4 l)) Hu) as (u' & Hu' & _ & <- & _). by apply Hp.
  - rewrite M5; [done|]. rewrite R2. apply child_not_in.
  - by rewrite M2.
  - exact R6.
Qed.

Lemma inv_tick t r :
  inv t r -> now r + 1 < 2 ^ 32 ->
  exists r', trstep t r Tick = Some r' /\ inv t r' /\ now r' = now r + 1 /\ (hanging r -> hanging r') /\ ((exists p, tr_child r = CExit p) -> hanging r') /\
    ((forall p, tr_child r <> CExit p) -> hanging r' -> hanging r) /\ tr_boot r' = tr_boot r /\ tr_child r' = tr_child r.
Proof.
  intros [[c Hc] Hinv] Hn. unfold trstep. set (k := kern (tr_b r)) in *.
  assert (Hgo : forall run, core run k -> (2 <= length run)%nat -> exists k' sw, timer_handler k = Some (k', sw) /\ moved k k' /\ core run k' /\ is_Some (current (k_sched k')) /\ total_ticks (k_sched k') = now r + 1)
    by (intros run Hco Hlen; by apply (core_timer run k c)).
  assert (Hpre : forall k' sw, timer_handler k = Some (k', sw) -> kernel_pre l1 k -> kernel_ok l1 k').
  { intros k' sw E Hp. destruct (timer_pre l1 k c Hp Hc Hn) as (k2 & sw2 & E2 & Hok). congruence. }
  destruct (tr_boot r) as [|id|code] eqn:Eb.
  - destruct Hinv as [Hrd Hch]. destruct (Hgo _ (ready_core _ _ Hrd) ltac:(cbn; lia)) as (k' & sw & E & Hm & Hco & Hc' & Ht). rewrite E. cbn [mbind option_bind]. eexists. split; [reflexivity|].
    assert (Hok : kernel_ok l1 k') by (apply (Hpre _ _ E), (rd_kernel _ _ Hrd)).
    split; [split; cbn [with_kern tr_b tr_boot tr_child]; [done|]; rewrite Eb; split; [by apply ready_moved|done]|]. split_and!; [exact Ht| | | |done|done].
    + intros (id & tc & E1 & _). congruence.
    + intros [p Hp]. congruence.
    + intros _ (id & tc & E1 & _). cbn in E1. congruence.
  - destruct Hinv as (tc & Hca & Hph).
    assert (Hrun : exists run, core run k /\ (2 <= length run)%nat) by (destruct Hph; eexists; (split; [eassumption|cbn; lia])). destruct Hrun as (run & Hco & Hlen).
    destruct (Hgo run Hco Hlen) as (k' & sw & E & Hm & Hco' & Hc' & Ht). rewrite E. cbn [mbind option_bind]. eexists. split; [reflexivity|].
    destruct (phase_moved t id k k' (tr_flag r) tc (tr_child r) Hca Hph Hm) as (tc' & Q1 & Q2 & Q3 & Q4 & Q5).
    + intros run' _ Hr. eapply core_moved; [done|done|apply (co_sched _ _ Hco')|]. unfold now in Ht. fold k in Ht. lia.
    + intros [Hp _]. by eapply Hpre.
    + intros Hp _. by eapply Hpre.
    + split; [split; cbn [with_kern tr_b tr_boot tr_child tr_flag]; [done|]; rewrite Eb; by exists tc'|]. split_and!; [exact Ht| | | |done|done].
      * intros (id' & tc2 & _ & Htc & Hu). exists id, tc'. split_and!; [done|apply (ca_task _ _ _ _ Q1)|]. apply Q3. fold k in Htc. rewrite (ca_task _ _ _ _ Hca) in Htc. by injection Htc as ->.
      * intros Hp. exists id, tc'. split_and!; [done|apply (ca_task _ _ _ _ Q1)|by apply Q4].
      * intros Hne (id' & tc2 & _ & Htc & Hu). exists id, tc. split_and!; [done|apply (ca_task _ _ _ _ Hca)|]. apply (Q5 Hne). pose proof (ca_task _ _ _ _ Q1) as Ht1. cbn in Htc, Hu. rewrite Ht1 in Htc. by injection Htc as ->.
  - destruct Hinv as (-> & Hf & Hco & Hch & Hok & Hlc). destruct (Hgo _ Hco ltac:(cbn; lia)) as (k' & sw & E & Hm & Hco' & Hc' & Ht). rewrite E. cbn [mbind option_bind]. eexists. split; [reflexivity|].
    split; [split; cbn [with_kern tr_b tr_boot tr_child tr_flag]; [done|]; rewrite Eb; split_and!; [done|done|done|done|exact (Hpre _ _ E (proj1 Hok))|cbn; rewrite (mv_table _ _ Hm); exact Hlc]|]. split_and!; [exact Ht| | | |done|done].
    + intros (id & tc & E1 & _). congruence.
    + intros [p Hp]. congruence.
    + intros _ (id & tc & E1 & _). cbn in E1. congruence.
Qed.

Lemma inv_boot t r :
  inv t r -> current (k_sched (kern (tr_b r))) = Some l0 ->
  exists r', boot_step t r = Some r' /\ inv t r' /\ now r' = now r /\ (hanging r -> hanging r') /\ tr_child r' = tr_child r /\
    (tr_boot r = BStart -> exists id, tr_boot r' = BJoin id) /\ (tr_child r = CGone -> ~ hanging r -> exists code, tr_boot r' = BDone code).
Proof.
  intros [_ Hinv] Hc. unfold boot_step. destruct (tr_boot r) as [|id|code] eqn:Eb.
  - destruct Hinv as [Hrd Hch]. destruct (spawn_child_spec t (tr_b r) Hrd Hc) as (id & b' & tc & -> & Hok & Hco & Hca & Hc' & Ht). cbn [mbind option_bind]. eexists. split; [reflexivity|].
    split; [split; cbn [tr_b tr_boot tr_child tr_flag]; [done|]; exists tc; rewrite Hch; split; [done|by apply ph_enter]|]. split_and!; [exact Ht| |done|by eexists|congruence].
    intros (id' & tc' & E & _). congruence.
  - destruct Hinv as (tc & Hca & Hph). destruct (phase_join t id _ _ _ _ Hca Hph Hc) as [(k' & sw & tc' & Hz & -> & Hca' & Hph' & Hc' & Ht & Hu)|(Hz & Hch & Hf & -> & Hco & Hok & Hlc)]; cbn [mbind option_bind].
    + eexists. split; [reflexivity|]. split; [split; cbn [with_kern tr_b tr_boot tr_child tr_flag]; [done|]; rewrite Eb; by exists tc'|]. split_and!; [exact Ht| |done|congruence|].
      * intros (id' & tc2 & _ & Htc & Hum). exists id, tc'. split_and!; [done|apply (ca_task _ _ _ _ Hca')|]. apply Hu. rewrite (ca_task _ _ _ _ Hca) in Htc. by injection Htc as ->.
      * intros Hch Hnh. exfalso. apply Hnh. exists id, tc. split_and!; [done|apply (ca_task _ _ _ _ Hca)|]. by rewrite Hch.
    + rewrite Hch. assert (assertions t 0 (tr_flag r) = true) as -> by (rewrite Hf; by destruct t). eexists. split; [reflexivity|].
      split; [split; cbn [tr_b tr_boot tr_child tr_flag]; [by exists l0|by split_and!]|]. split_and!; [done| |done|congruence|by eexists].
      intros (id' & tc' & _ & Htc & Hum). rewrite Hch in Hum. rewrite (ca_task _ _ _ _ Hca) in Htc. injection Htc as <-. by destruct Hum.
  - exists r. split; [done|]. split; [split; [by exists l0|by rewrite Eb]|]. split_and!; [done|done|done|congruence|by eexists].
Qed.

Lemma hanging_iff r id tc : tr_boot r = BJoin id -> k_tasks (kern (tr_b r)) !! lc = Some tc -> hanging r <-> unmarked (tr_child r) tc.
Proof. intros Eb Htc. split; [intros (id' & tc' & _ & Ht' & Hu); congruence|]. intros Hu. by exists id, tc. Qed.

Lemma child_at_mark t id k tc st p code :
  child_at t id k tc -> child_at t id (set_tasks k (<[lc := with_run tc st p code]> (k_tasks k))) (with_run tc st p code).
Proof.
  intros [A1 A2 A3]. split; [apply lookup_insert_eq|done|]. destruct t; [done|]. destruct A3 as [-> A3]. split; [done|]. intros i l u Hi Hu Hpu. cbn in Hi, Hu.
  destruct (decide (l = lc)) as [|Hne]; [done|]. rewrite lookup_insert_ne in Hu by congruence. by apply (A3 i l u).
Qed.

Lemma child_runs run k : core run k -> current (k_sched k) = Some lc -> lc ∈ run.
Proof. intros Hco Hc. rewrite <- (co_run _ _ Hco). by apply current_runnable. Qed.

Lemma inv_child t r :
  inv t r -> current (k_sched (kern (tr_b r))) = Some lc ->
  exists r', child_step t r = Some r' /\ inv t r' /\ now r' = now r /\ (hanging r <-> hanging r') /\ tr_boot r' = tr_boot r /\ is_Some (current (k_sched (kern (tr_b r')))) /\
    match tr_child r with
    | CEnter => tr_child r' = CStored /\ current (k_sched (kern (tr_b r'))) = Some lc
    | CStored => (exists p, tr_child r' = CExit p) /\ current (k_sched (kern (tr_b r'))) = Some lc
    | CExit _ => tr_child r' = CGone
    | CGone => False
    end.
Proof.
  intros [_ Hinv] Hc. unfold child_step. destruct (tr_boot r) as [|id|code] eqn:Eb.
  - exfalso. destruct Hinv as [Hrd _]. by apply child_not_in, (child_runs _ _ (ready_core _ _ Hrd)).
  - destruct Hinv as (tc & Hca & Hph). pose proof (ca_task _ _ _ _ Hca) as Htc.
    assert (Hleave : forall p, core [l0; l1; lc] (kern (tr_b r)) -> state tc <> Blocked ->
      exists k' sw, exit_leave (kern (tr_b r)) p = Some (k', sw) /\ core [l0; l1] k' /\ is_Some (current (k_sched k')) /\ total_ticks (k_sched k') = now r /\ child_at t id k' tc).
    { intros p Hco Hb. destruct (leave_core _ tc p Hco Hc Htc Hb) as (k' & sw & E & Hco' & Hc' & Ht & Htb & Hid & Htc'). exists k', sw. split_and!; try done.
      destruct (child_at_same t id _ k' tc Hca Htb Hid) as (tc' & Hca' & _). pose proof (ca_task _ _ _ _ Hca') as Ht2. rewrite Htc' in Ht2. by injection Ht2 as <-. }
    setoid_rewrite (hanging_iff r id tc Eb Htc).
    destruct (tr_child r) as [| |p|] eqn:Ech; inversion Hph as [Hco Hk|Hco Hk Hf|p' Hco Hk Hf Hcm Hz Hx Hl Ep|p' Hco Hk Hf Ep|Hco Hk Hf Hz Hx|Hco Hf Hz]; subst.
    + eexists. split; [reflexivity|]. split; [split; [by exists lc|]; exists tc; split; [done|by apply ph_stored]|].
      split; [done|]. rewrite (hanging_iff _ id tc); [|done|exact Htc]. cbn. by split_and!; try eexists.
    + destruct (mark_child _ tc 0 Hk Hco Hc Htc) as (-> & Hco' & Hpre & Hl). cbn [mbind option_bind]. eexists. split; [reflexivity|]. pose proof (child_at_mark t id _ tc Zombie (priority tc) (Some 0) Hca) as Hca'.
      split; [split; [by exists lc|]; eexists; split; [exact Hca'|by apply ph_marked]|]. split; [done|].
      rewrite (hanging_iff _ id (with_run tc Zombie (priority tc) (Some 0))); [|done|apply (ca_task _ _ _ _ Hca')]. cbn. split_and!; try done; by eexists.
    + destruct (Hleave p Hco ltac:(congruence)) as (k' & sw & E & Hco' & Hc' & Ht & Hca'). rewrite E. cbn [mbind option_bind]. eexists. split; [reflexivity|].
      split; [split; [done|]; exists tc; split; [done|]; apply ph_zombie; try done; by eapply Hl|]. split; [exact Ht|]. rewrite (hanging_iff _ id tc); [|done|apply (ca_task _ _ _ _ Hca')]. done.
    + destruct (runnable_alive _ tc Hco Hk Htc) as [Hz Hb]. destruct (Hleave p Hco Hb) as (k' & sw & E & Hco' & Hc' & Ht & Hca'). rewrite E. cbn [mbind option_bind]. eexists. split; [reflexivity|].
      split; [split; [done|]; exists tc; split; [done|]; by apply ph_lost|]. split; [exact Ht|]. rewrite (hanging_iff _ id tc); [|done|apply (ca_task _ _ _ _ Hca')]. done.
    + exfalso. by apply child_not_in, (child_runs _ _ Hco).
    + exfalso. by apply child_not_in, (child_runs _ _ Hco).
  - exfalso. destruct Hinv as (_ & _ & Hco & _). by apply child_not_in, (child_runs _ _ Hco).
Qed.

Lemma inv_step t r e :
  inv t r -> (e = Tick -> now r + 1 < 2 ^ 32) ->
  exists r', trstep t r e = Some r' /\ inv t r' /\ now r' = now r + ticks [e] /\ (hanging r -> hanging r').
Proof.
  intros Hinv Hn. destruct e.
  - destruct (inv_tick t r Hinv (Hn eq_refl)) as (r' & E & Hinv' & Ht & Hh & _). by exists r'.
  - pose proof Hinv as [[c Hc] _]. unfold trstep. rewrite Hc. cbn [mbind option_bind]. change (ticks [Run]) with 0. rewrite Z.add_0_r.
    destruct (Z.eqb_spec c l0) as [->|Hne0]; [destruct (inv_boot t r Hinv Hc) as (r' & E & Hinv' & Ht & Hh & _); by exists r'|].
    destruct (Z.eqb_spec c lc) as [->|Hnec]; [destruct (inv_child t r Hinv Hc) as (r' & E & Hinv' & Ht & Hh & _); exists r'; by rewrite Hh|]. by exists r.
Qed.

Lemma ticks_cons e es : ticks (e :: es) = ticks [e] + ticks es.
Proof. unfold ticks. rewrite (filter_app _ [e] es : filter _ (e :: es) = _), length_app. lia. Qed.

Lemma ticks_nonneg es : 0 <= ticks es.
Proof. unfold ticks. lia. Qed.

(** No run panics, and hanging is for good. *)
Lemma inv_events t r es :
  inv t r -> now r + ticks es < 2 ^ 32 ->
  exists r', run_events t r es = Some r' /\ inv t r' /\ now r' = now r + ticks es /\ (hanging r -> hanging r').
Proof.
  revert r. induction es as [|e es IH]; intros r Hinv Hn; [exists r; split_and!; try done; change (ticks []) with 0; lia|].
  rewrite ticks_cons in *. pose proof (ticks_nonneg es). destruct (inv_step t r e Hinv) as (r1 & E & Hinv1 & Ht & Hh); [intros ->; change (ticks [Tick]) with 1 in Hn; lia|].
  destruct (IH r1 Hinv1 ltac:(lia)) as (r2 & E2 & Hinv2 & Ht2 & Hh2). exists r2. cbn [run_events]. rewrite E. cbn [mbind option_bind]. split_and!; [done|done|lia|tauto].
Qed.

(** ** Reaching the end *)

Lemma run_events_app t r es es' : run_events t r (es ++ es') = (r' ← run_events t r es; run_events t r' es').
Proof. revert r. induction es as [|e es IH]; intros r; [done|]. cbn [run_events app]. destruct (trstep t r e); [apply IH|done]. Qed.

(** Timer interrupts alone, while the child is not in the middle of [exit]. *)
Lemma inv_ticks t r n :
  inv t r -> now r + Z.of_nat n < 2 ^ 32 -> (forall p, tr_child r <> CExit p) ->
  exists r', run_events t r (replicate n Tick) = Some r' /\ inv t r' /\ now r' = now r + Z.of_nat n /\ tr_boot r' = tr_boot r /\ tr_child r' = tr_child r /\
    (hanging r' -> hanging r) /\ run_timer n (kern (tr_b r)) = Some (kern (tr_b r')).
Proof.
  revert r. induction n as [|n IH]; intros r Hinv Hn Hch; [exists r; split_and!; try done; lia|].
  destruct (inv_tick t r Hinv ltac:(lia)) as (r1 & E & Hinv1 & Ht & _ & _ & Hh & Eb & Ec). destruct (IH r1 Hinv1 ltac:(lia) ltac:(by rewrite Ec)) as (r2 & E2 & Hinv2 & Ht2 & Eb2 & Ec2 & Hh2 & Er).
  exists r2. cbn [replicate run_events run_timer]. rewrite E. cbn [mbind option_bind]. split_and!; [done|done|lia|congruence|congruence|auto|].
  unfold trstep in E. apply bind_Some in E as ([k sw] & -> & [= <-]). exact Er.
Qed.

Definition finishes (t : child_test) (n : Z) (r : trun) : Prop :=
  exists es r' code, ticks es <= n /\ run_events t r es = Some r' /\ tr_boot r' = BDone code.

Lemma finishes_run t n r r' : trstep t r Run = Some r' -> finishes t n r' -> finishes t n r.
Proof. intros E (es & r2 & code & Hn & Er & Hd). exists (Run :: es), r2, code. split; [by rewrite ticks_cons|]. split; [|done]. cbn [run_events]. by rewrite E. Qed.

Lemma ticks_replicate n : ticks (replicate n Tick) = Z.of_nat n.
Proof. induction n as [|n IH]; [done|]. cbn [replicate]. rewrite ticks_cons, IH. change (ticks [Tick]) with 1. lia. Qed.

(** Every task that can run does, within 766 timer interrupts. *)
Lemma turn_comes run k c l :
  kernel_ok l1 k -> core run k -> current (k_sched k) = Some c -> l ∈ run -> (length run <= 3)%nat -> total_ticks (k_sched k) + 766 < 2 ^ 32 ->
  exists m k', (m <= 766)%nat /\ run_timer m k = Some k' /\ current (k_sched k') = Some l.
Proof.
  intros Hok Hco Hc Hl Hlen Hn. destruct (decide (c = l)) as [->|Hne]; [exists 0%nat, k; split_and!; [lia|done|done]|]. pose proof (co_run _ _ Hco) as Hp. rewrite <- Hp in Hl. unfold runnable in Hl. rewrite Hc in Hl.
  apply elem_of_app in Hl as [Hl|Hl]; [apply list_elem_of_singleton in Hl as ->; done|]. apply elem_of_concat in Hl as (p & q & Hpq & Hl). apply list_elem_of_lookup in Hl as [i Hi].
  pose proof (wait_bound_max k p i q l (co_sched _ _ Hco) Hpq Hi) as Hb. apply Permutation_length in Hp. unfold runnable in Hp. rewrite Hc in Hp. cbn in Hp.
  apply (run_to_current l1 766 k p i q l Hok Hpq Hi); lia.
Qed.

(** Waiting for a task to run. *)
Lemma finishes_wait t n r l run :
  inv t r -> kernel_ok l1 (kern (tr_b r)) -> core run (kern (tr_b r)) -> l ∈ run -> (length run <= 3)%nat -> now r + 766 < 2 ^ 32 -> (forall p, tr_child r <> CExit p) ->
  (forall r', inv t r' -> now r' <= now r + 766 -> tr_boot r' = tr_boot r -> tr_child r' = tr_child r -> (hanging r' -> hanging r) -> current (k_sched (kern (tr_b r'))) = Some l -> finishes t n r') ->
  finishes t (n + 766) r.
Proof.
  intros Hinv Hok Hco Hl Hlen Hn Hch HQ. set (k := kern (tr_b r)) in *. pose proof Hinv as [[c Hc] _].
  pose proof (turn_comes run k c l Hok Hco Hc Hl Hlen Hn) as Hrun.
  destruct Hrun as (m & k' & Hm & Er & Hcl). destruct (inv_ticks t r m Hinv ltac:(lia) Hch) as (r' & E & Hinv' & Ht & Eb & Ec & Hh & Er'). fold k in Er'. rewrite Er in Er'. injection Er' as ->.
  destruct (HQ r' Hinv' ltac:(lia) Eb Ec Hh Hcl) as (es & r2 & code & Hes & E2 & Hd). exists (replicate m Tick ++ es), r2, code.
  split; [|split; [rewrite run_events_app, E; exact E2|done]]. assert (Happ : forall a b, ticks (a ++ b) = ticks a + ticks b) by (intros a b; unfold ticks; rewrite filter_app, length_app; lia).
  rewrite Happ, ticks_replicate. lia.
Qed.

Lemma run_boot t r : current (k_sched (kern (tr_b r))) = Some l0 -> trstep t r Run = boot_step t r.
Proof. intros Hc. unfold trstep. rewrite Hc. cbn [mbind option_bind]. by rewrite Z.eqb_refl. Qed.

Lemma run_child t r : current (k_sched (kern (tr_b r))) = Some lc -> trstep t r Run = child_step t r.
Proof. intros Hc. unfold trstep. rewrite Hc. cbn [mbind option_bind]. rewrite Z.eqb_refl. by rewrite (proj2 (Z.eqb_neq lc l0)). Qed.

(** A child that is gone and still marked is joined. *)
Lemma gone_finishes t r id :
  inv t r -> tr_boot r = BJoin id -> tr_child r = CGone -> ~ hanging r -> now r + 766 < 2 ^ 32 -> finishes t 766 r.
Proof.
  intros Hinv Hb Hch Hnh Hn. pose proof Hinv as [_ Hph]. rewrite Hb in Hph. destruct Hph as (tc & Hca & Hph). rewrite Hch in Hph. inversion Hph as [| | | |Hco Hk Hf Hz Hx|Hco Hf Hz].
  2: { exfalso. apply Hnh. apply (hanging_iff r id tc Hb (ca_task _ _ _ _ Hca)). by rewrite Hch. }
  apply (finishes_wait t 0 r l0 [l0; l1]); [done|done|done|left|cbn; lia|lia|by rewrite Hch|]. intros r' Hinv' _ Eb Ec Hh Hc.
  destruct (inv_boot t r' Hinv' Hc) as (r2 & E & _ & _ & _ & _ & _ & Hd). destruct (Hd ltac:(congruence) ltac:(tauto)) as (code & Hdone).
  apply (finishes_run t 0 r' r2); [by rewrite run_boot|]. by exists [], r2, code.
Qed.

(** A child about to leave. *)
Lemma marked_finishes t r id p :
  inv t r -> tr_boot r = BJoin id -> tr_child r = CExit p -> ~ hanging r -> now r + 766 < 2 ^ 32 -> finishes t 766 r.
Proof.
  intros Hinv Hb Hch Hnh Hn. pose proof Hinv as [_ Hph]. rewrite Hb in Hph. destruct Hph as (tc & Hca & Hph). rewrite Hch in Hph. inversion Hph as [| |p' Hco Hk Hf Hcm Hz Hx Hl Ep|p' Hco Hk Hf Ep| |].
  2: { exfalso. apply Hnh. apply (hanging_iff r id tc Hb (ca_task _ _ _ _ Hca)). rewrite Hch. by destruct (runnable_alive _ tc Hco Hk (ca_task _ _ _ _ Hca)). }
  destruct (inv_child t r Hinv Hcm) as (r2 & E & Hinv2 & Ht & Hh & Eb & _ & Hc2). rewrite Hch in Hc2. apply (finishes_run t 766 r r2); [by rewrite run_child|].
  apply (gone_finishes t r2 id); [done|congruence|done|tauto|lia].
Qed.

(** A child that has not yet begun to exit. *)
Lemma live_finishes t r id :
  inv t r -> tr_boot r = BJoin id -> tr_child r = CEnter \/ tr_child r = CStored -> now r + 1532 < 2 ^ 32 -> finishes t 1532 r.
Proof.
  intros Hinv Hb Hch Hn. pose proof Hinv as [_ Hph]. rewrite Hb in Hph. destruct Hph as (tc & Hca & Hph).
  assert (Hk : core [l0; l1; lc] (kern (tr_b r)) /\ kernel_ok l1 (kern (tr_b r))) by (destruct Hch as [Ec|Ec]; rewrite Ec in Hph; by inversion Hph). destruct Hk as [Hco Hk].
  apply (finishes_wait t 766 r lc [l0; l1; lc]); [done|done|done|apply child_in_three|cbn; lia|lia|by destruct Hch as [->| ->]|]. intros r' Hinv' Ht' Eb Ec _ Hc.
  assert (Hstored : forall r1, inv t r1 -> tr_boot r1 = BJoin id -> tr_child r1 = CStored -> now r1 <= now r + 766 -> current (k_sched (kern (tr_b r1))) = Some lc -> finishes t 766 r1).
  { intros r1 Hinv1 Hb1 Hc1 Hn1 Hcur. destruct (inv_child t r1 Hinv1 Hcur) as (r2 & E & Hinv2 & Ht & Hh & Eb2 & _ & Hc2). rewrite Hc1 in Hc2. destruct Hc2 as [[p Hp] _].
    apply (finishes_run t 766 r1 r2); [by rewrite run_child|]. apply (marked_finishes t r2 id p); [done|congruence|done| |lia].
    intros Hh2. apply Hh in Hh2. destruct Hh2 as (? & ? & _ & _ & Hu). by rewrite Hc1 in Hu. }
  destruct Hch as [Hch|Hch]; [|apply Hstored; [done|congruence|congruence|lia|done]].
  destruct (inv_child t r' Hinv' Hc) as (r2 & E & Hinv2 & Ht & _ & Eb2 & _ & Hc2). rewrite Ec, Hch in Hc2. destruct Hc2 as [Hc2 Hcur].
  apply (finishes_run t 766 r' r2); [by rewrite run_child|]. apply Hstored; [done|congruence|done|lia|done].
Qed.

Lemma start_finishes t r : inv t r -> tr_boot r = BStart -> now r + 2298 < 2 ^ 32 -> finishes t 2298 r.
Proof.
  intros Hinv Hb Hn. pose proof Hinv as [_ Hrd]. rewrite Hb in Hrd. destruct Hrd as [Hrd Hch].
  apply (finishes_wait t 1532 r l0 [l0; l1]); [done|apply (rd_kernel _ _ Hrd)|by eapply ready_core|left|cbn; lia|lia|by rewrite Hch|]. intros r' Hinv' Ht' Eb Ec _ Hc.
  destruct (inv_boot t r' Hinv' Hc) as (r2 & E & Hinv2 & Ht & _ & Ec2 & Hs & _). destruct (Hs ltac:(congruence)) as (id & Hid).
  apply (finishes_run t 1532 r' r2); [by rewrite run_boot|]. apply (live_finishes t r2 id); [done|done|left; congruence|lia].
Qed.

Lemma finishes_mono t n m r : finishes t n r -> n <= m -> finishes t m r.
Proof. intros (es & r' & code & Hn & E & Hd) Hle. exists es, r', code. split_and!; [lia|done|done]. Qed.

(** Every state that does not hang can still finish. *)
Lemma inv_finishes t r : inv t r -> ~ hanging r -> now r + 2298 < 2 ^ 32 -> finishes t 2298 r.
Proof.
  intros Hinv Hnh Hn. destruct (tr_boot r) as [|id|code] eqn:Eb; [by apply start_finishes| |exists [], r, code; split_and!; [done|done|done]].
  destruct (tr_child r) as [| |p|] eqn:Ec.
  - apply (finishes_mono t 1532); [eapply live_finishes; eauto; lia|lia].
  - apply (finishes_mono t 1532); [eapply live_finishes; eauto; lia|lia].
  - apply (finishes_mono t 766); [eapply marked_finishes; eauto; lia|lia].
  - apply (finishes_mono t 766); [eapply gone_finishes; eauto; lia|lia].
Qed.

Definition test_start (b : machine) (flag : Z) : trun := mkTrun b flag BStart CEnter.

Lemma start_inv t b flag : ready t b -> inv t (test_start b flag).
Proof. intros Hrd. split; [|by split]. destruct (rd_kernel _ _ Hrd) as [_ (c & _ & Hc & _)]. by exists c. Qed.

(** ** Theorems *)

(** C24. The clone test and the fork test pass: whatever the timer does, no step of
    the boot task or of the child panics, and no assertion of the test fails;
    if the join returns it returns 0, the child's exit code, and the child has
    stored its value.  From every state of the test, unless a timer interrupt
    has come between the two halves of the child's [exit], the join can still
    return, with at most 2298 further timer interrupts (three times the longest
    wait of a queued task). *)
Theorem child_tests_pass (t : child_test) (b : machine) (flag : Z) (es : list tevent) :
  ready t b -> total_ticks (k_sched (kern b)) + ticks es + 2298 < 2 ^ 32 ->
  exists r, run_events t (test_start b flag) es = Some r /\
    (forall code, tr_boot r = BDone code -> code = 0 /\ tr_flag r = flag_value t) /\
    (~ hanging r -> exists es' r', ticks es' <= 2298 /\ run_events t r es' = Some r' /\ tr_boot r' = BDone 0 /\ tr_flag r' = flag_value t).
Proof.
  intros Hrd Hn. assert (Hdone : forall r code, inv t r -> tr_boot r = BDone code -> code = 0 /\ tr_flag r = flag_value t) by (intros r code [_ Hi] Hd; rewrite Hd in Hi; tauto).
  pose proof (start_inv t b flag Hrd) as Hinv. change (total_ticks (k_sched (kern b))) with (now (test_start b flag)) in Hn.
  destruct (inv_events t _ es Hinv ltac:(lia)) as (r & E & Hinv' & Ht & _). exists r. split; [done|]. split; [by eauto|]. intros Hnh.
  destruct (inv_finishes t r Hinv' Hnh ltac:(lia)) as (es' & r' & code & Hn' & E' & Hd). exists es', r'. split; [done|]. split; [done|].
  destruct (inv_events t r es' Hinv' ltac:(lia)) as (r2 & E2 & Hinv2 & _). rewrite E' in E2. injection E2 as <-. destruct (Hdone r' code Hinv2 Hd) as [-> Hf]. done.
Qed.

(** C33. A timer interrupt inside [exit] loses the child: kernel tasks run with
    interrupts enabled, and if the timer comes after the child has marked
    itself a zombie and before it has left the scheduler, the switch makes it
    ready again; it then leaves without the mark, and the join never returns,
    however long the system runs. *)
Theorem exit_interrupted_hangs_join (t : child_test) (b : machine) (flag : Z) (es es' : list tevent) (r : trun) (p : option Z) :
  ready t b -> total_ticks (k_sched (kern b)) + ticks es + 1 + ticks es' < 2 ^ 32 ->
  run_events t (test_start b flag) es = Some r -> tr_child r = CExit p ->
  exists r' id, run_events t r (Tick :: es') = Some r' /\ tr_boot r' = BJoin id.
Proof.
  intros Hrd Hn E Hch. pose proof (start_inv t b flag Hrd) as Hinv. change (total_ticks (k_sched (kern b))) with (now (test_start b flag)) in Hn. pose proof (ticks_nonneg es').
  destruct (inv_events t _ es Hinv ltac:(lia)) as (r0 & E0 & Hinv0 & Ht0 & _). rewrite E in E0. injection E0 as <-.
  destruct (inv_tick t r Hinv0 ltac:(lia)) as (r1 & E1 & Hinv1 & Ht1 & _ & Hh & _). destruct (inv_events t r1 es' Hinv1 ltac:(lia)) as (r2 & E2 & _ & _ & Hh2).
  destruct (Hh2 (Hh ltac:(eauto))) as (id & tc & Hb & _). exists r2, id. cbn [run_events]. rewrite E1. done.
Qed.

Lemma two_tasks_ready t b :
  kernel_ok l1 (kern b) -> two_tasks l0 l1 (kern b) (sy_counters (bm_sys b)) -> (t = ForkTest -> exists f l, pool_at (bm_pool b) (f :: l)) -> ready t b.
Proof.
  intros Hok [A1 A2 A3 A4] Hp. split; rewrite ?A4; [done|done| |apply A3, child_not_in| |done].
  - intros id l Hid. destruct (A2 id l Hid) as (_ & Hl & Hu). split; [done|]. intros u Et. apply Hu in Et. cbn. lia.
  - cbn. destruct (k_table (kern b) !! 3) as [l|] eqn:E; [|done]. apply A2 in E as (? & _). lia.
Qed.

End Children.

(** The other self-tests, run on the state the services leave, end in a state in
    which both tests can start. *)
Lemma self_tests_leave_ready `{X86Addr} {T : Type} `{TopLevel T} {V : Type} `{FatLaws V} {C : FatCrate RamDisk V} {G : FatGrowth V}
    to_lowercase from_utf8_lossy sha256 stat_pad tramp l0 l1 lc INIT_BIN vm_call fuel (b b' : Boot.machine (T := T) (V := V)) t :
  booted sha256 l0 l1 INIT_BIN b -> (forall m, length (sha256 m) = 32%nat) -> (2 < fuel)%nat -> l0 <> lc -> l1 <> lc ->
  single_task_tests to_lowercase from_utf8_lossy sha256 stat_pad tramp vm_call fuel b = Some (Ok tt, b') -> ready l0 l1 lc t b'.
Proof.
  intros Hb Hsha Hfuel H0c H1c E. destruct (single_task_tests_wp to_lowercase from_utf8_lossy sha256 stat_pad tramp l0 l1 INIT_BIN vm_call fuel b Hb Hsha Hfuel) as (r & b2 & E2 & Hr).
  rewrite E in E2. injection E2 as <- <-. destruct Hr as (Hk & Hcnt & _ & _ & _ & _ & _ & _ & _ & l & Hp & Hl). destruct l as [|f l]; [unfold TEST_FRAMES in Hl; cbn in Hl; lia|].
  apply (two_tasks_ready l0 l1 lc H0c H1c t b'); [|unfold kern; rewrite Hk, Hcnt; apply (bt_tasks _ _ _ _ _ Hb)|by eauto]. unfold kern. rewrite Hk. apply (bt_kernel _ _ _ _ _ Hb).
Qed.

(** A machine just after the scheduler's initialisation. *)
Definition small_machine (k : kernel) (m : memory) (c : counters) (p : frame_pool) : Boot.machine (T := gmap Z (Z * Z)) (V := flat) :=
  mkMachine (mkSys k m fs_new (spinlock_new ipc_table_new) ∅ resource_table_new rbac_new (mkWorld (mkRing (replicate 256 0) 0 0) console_new []) [] c)
    ∅ p RAMDISK_VIRT_REGION_BASE None (fun _ => false).

Lemma small_machine_ready k m c p t :
  sched_init 0x5000 0x6000 0x40000 0x60000 0x1000 0x70000 0x71000 kernel_new ∅ (mkCounters 1 1) = Some (k, m, c) -> (t = ForkTest -> exists f l, pool_at p (f :: l)) ->
  ready 0x70000 0x71000 0x72000 t (small_machine k m c p) /\ total_ticks (k_sched k) = 0.
Proof.
  intros E Hp. change kernel_new with (early_kernel 0 0) in E. destruct (sched_init_ok _ _ _ _ _ _ _ _ _ _ _ _ _ _ E) as (Hok & _ & _ & Ht); [lia|lia|unfold fits; cbn; lia|].
  split; [|done]. eapply two_tasks_ready; [lia|lia|exact Hok| |exact Hp]. eapply sched_init_two_tasks; [exact E|lia|lia].
Qed.

Lemma child_tests_pass_witness :
  exists b : Boot.machine (T := gmap Z (Z * Z)) (V := flat), ready 0x70000 0x71000 0x72000 ForkTest b /\
    exists r, run_events 0x5000 0x7000 0x8000 0x80000 0x70000 0x72000 ForkTest (test_start b 0) [Run; Tick; Run] = Some r.
Proof.
  destruct (sched_init_some 0x5000 0x6000 0x40000 0x60000 0x1000 0x70000 0x71000 kernel_new ∅ (mkCounters 1 1)) as (k & m & c & E); [lia..|].
  destruct (region_pool 0x1000000 0x2000000) as (p & l & Hp & Hl); [by exists 0x1000|by exists 0x2000|lia|lia|]. destruct l as [|f l]; [exfalso; cbn in Hl; discriminate|].
  destruct (small_machine_ready k m c p ForkTest E ltac:(by eauto)) as [Hrd Ht]. exists (small_machine k m c p). split; [exact Hrd|].
  destruct (child_tests_pass 0x5000 0x7000 0x8000 0x80000 0x70000 0x71000 0x72000 ltac:(lia) ltac:(lia) ltac:(lia) ltac:(lia) ForkTest (small_machine k m c p) 0 [Run; Tick; Run] Hrd) as (r & Er & _).
  - change (kern (small_machine k m c p)) with k. rewrite Ht. vm_compute. reflexivity.
  - by exists r.
Defined.

(** The boot task starts the child and joins, the child stores its value and marks
    itself. *)
Definition up_to_mark : list tevent := [Run; Run; Run; Run].

Definition no_frames : frame_pool := mkPool ∅ (mkFreeList None 0 PHYS_MEM_OFFSET).

Lemma marked_state :
  match sched_init 0x5000 0x6000 0x40000 0x60000 0x1000 0x70000 0x71000 kernel_new ∅ (mkCounters 1 1) with
  | Some (k, m, c) =>
      match run_events 0x5000 0x7000 0x8000 0x80000 0x70000 0x72000 CloneTest (test_start (small_machine k m c no_frames) 0) up_to_mark with
      | Some r => match tr_child r with CExit _ => true | _ => false end
      | None => false
      end
  | None => false
  end = true.
Proof. vm_compute. reflexivity. Qed.

Lemma exit_interrupted_hangs_join_witness :
  exists (b : Boot.machine (T := gmap Z (Z * Z)) (V := flat)) r r' id,
    run_events 0x5000 0x7000 0x8000 0x80000 0x70000 0x72000 CloneTest (test_start b 0) up_to_mark = Some r /\
    run_events 0x5000 0x7000 0x8000 0x80000 0x70000 0x72000 CloneTest r (Tick :: concat (replicate 100 [Run; Tick])) = Some r' /\ tr_boot r' = BJoin id.
Proof.
  destruct (sched_init_some 0x5000 0x6000 0x40000 0x60000 0x1000 0x70000 0x71000 kernel_new ∅ (mkCounters 1 1)) as (k & m & c & E); [lia..|].
  pose proof marked_state as Hm. rewrite E in Hm. set (b := small_machine k m c no_frames) in *.
  destruct (small_machine_ready k m c no_frames CloneTest E ltac:(discriminate)) as [Hrd Ht]. exists b.
  destruct (run_events _ _ _ _ _ _ CloneTest (test_start b 0) up_to_mark) as [r|] eqn:Er; [|discriminate Hm]. destruct (tr_child r) as [| |p|] eqn:Ec; [discriminate Hm|discriminate Hm| |discriminate Hm].
  destruct (exit_interrupted_hangs_join 0x5000 0x7000 0x8000 0x80000 0x70000 0x71000 0x72000 ltac:(lia) ltac:(lia) ltac:(lia) ltac:(lia) CloneTest b 0 up_to_mark (concat (replicate 100 [Run; Tick])) r p Hrd) as (r' & id & H).
  - change (kern b) with k. rewrite Ht. vm_compute. reflexivity.
  - exact Er.
  - exact Ec.
  - exists r, r', id. split; [done|exact H].
Defined.
