(* ===== verification/User.v ===== *)
(** A user task at work: the processor fetches, decodes and executes the bytes its
    address space shows, takes page faults, and enters the kernel by [syscall]
    ([kernel/src/arch/syscall.rs], [arch/idt.rs], [process/task.rs]).

    The bytes at user addresses are those of the [sys] state's memory; a page
    that is not accessible is first brought in by [page_fault_handler] and then
    shows the contents of its frame.  A fault in user mode is a step of its own,
    after which the instruction is tried again; the kernel's faults on the
    buffers of a call, and on the stack a signal is delivered to, are part of
    the call, which runs with interrupts masked.  The buffers a call fills have
    to be accessible.  [None] is a panic of the kernel: an access that no area
    of the task explains, or bytes that are no instruction. *)

From S2P Require Import Prelude Bytes X86 Frames Swap Vmm Signal Task Cpu Sched Sync Ipc Security Console Fat Records Vfs Mount Loader Syscall Boot Children.

Section User.
Context `{X86Addr} {T : Type} `{TopLevel T}.
Context {V : Type} {F : FatVolume V}.
Context (to_lowercase from_utf8_lossy : list Z -> list Z) (sha256 : list Z -> list Z) (stat_pad : list Z).
(** The trampoline of new tasks; the stack and the address of a task a call makes. *)
Context (tramp base l : Z).

Abbreviation machine := (Boot.machine (T := T) (V := V)).

(** The machine, the address space of the task and its registers. *)
Record uthread := mkUthread { ut_b : machine; ut_table : T; ut_f : TrapFrame; ut_rip : Z; ut_rflags : Z }.

(** ** Memory *)

Definition accessible (t : T) (w : bool) (a : Z) : bool :=
  match entry t (containing_address a) with
  | Some (_, fl) => flag_set fl USER_ACCESSIBLE && (negb w || flag_set fl WRITABLE)
  | None => false
  end.

(** The contents of the frame a page is mapped to become visible. *)
Definition show_page (t : T) (p : frame_pool) (m : memory) (page : Z) : memory :=
  match entry t page with
  | Some (f, _) => write_bytes m page (read_bytes (p_mem p) (PHYS_MEM_OFFSET + f) PAGE_BYTES)
  | None => m
  end.

Definition set_space (b : machine) (k : kernel) (p : frame_pool) (sw : option SwapPartition) (m : memory) (c : counters) : machine :=
  mkMachine (put_counters (put_mem (put_k (bm_sys b) k) m) c) (bm_table b) p (bm_virt b) sw (bm_l4 b).

Definition space : Type := machine * T.

(** A page fault on [a]. *)
Definition fault (w : bool) (a : Z) (x : space) : option space :=
  let '(b, t) := x in
  '(k, t, p, sw) ← page_fault_handler (kern b) t (bm_pool b) (bm_swap b) a w;
  Some (set_space b k p sw (show_page t p (sy_mem (bm_sys b)) (containing_address a)) (sy_counters (bm_sys b)), t).

Definition touch (w : bool) (x : space) (a : Z) : option space := if accessible (snd x) w a then Some x else fault w a x.

(** The kernel's access to a range of the user's memory, page by page. *)
Definition touch_range (w : bool) (x : space) (r : Z * Z) : option space :=
  let '(a, len) := r in
  if len <=? 0 then Some x
  else foldl (fun x i => x ← x; touch w x (Z.max a ((a / 4096 + i) * 4096))) (Some x) (seqZ 0 ((a + len - 1) / 4096 - a / 4096 + 1)).

Definition touch_all (w : bool) (x : space) (rs : list (Z * Z)) : option space :=
  foldl (fun x r => x ← x; touch_range w x r) (Some x) rs.

(** ** System calls *)

(** The buffers a call reads. *)
Definition call_buffers (f : TrapFrame) : list (Z * Z) :=
  let nr := rax f in
  let given (a len : Z) := if (a =? 0) || (len =? 0) then [] else [(a, len)] in
  if nr =? SYS_SIGRETURN then [(user_rsp f + 16, FRAME_SIZE)]
  else if (nr =? SYS_LOGIN) || (nr =? SYS_WRITE) || (nr =? SYS_PIPE_WRITE) || (nr =? SYS_MSG_SEND) then given (rsi f) (rdx f)
  else if nr =? SYS_RENAME then given (rdi f) (rsi f) ++ given (rdx f) (r10 f)
  else if bool_decide (nr ∈ [SYS_OPEN_DEV; SYS_OPEN; SYS_CREATE; SYS_DELETE; SYS_MKDIR; SYS_RMDIR; SYS_CHMOD; SYS_CHOWN; SYS_MARK_SHARED; SYS_GETDENTS; SYS_STAT; SYS_SHM_OPEN])
  then given (rdi f) (rsi f)
  else [].

(** The calls on the address space; the space of a forked child is the child's. *)
Definition space_call (x : space) (f : TrapFrame) : option (Z * space) :=
  let '(b, t) := x in
  let s := bm_sys b in
  if rax f =? SYS_BRK then
    '(v, k, t, p) ← sys_brk (sy_k s) t (bm_pool b) (bm_swap b) (rdi f);
    Some (v, (set_space b k p (bm_swap b) (sy_mem s) (sy_counters s), t))
  else if rax f =? SYS_MPROTECT then
    '(v, k, t) ← sys_mprotect (sy_k s) t (rdi f) (rsi f) (rdx f);
    Some (v, (set_space b k (bm_pool b) (bm_swap b) (sy_mem s) (sy_counters s), t))
  else
    '(v, k, t, _, p, m, c) ← sys_fork tramp base l (bm_l4 b) (sy_k s) t (bm_pool b) (sy_mem s) (sy_counters s) (rdi f);
    Some (v, (set_space b k p (bm_swap b) m c, t)).

Definition is_space_call (nr : Z) : bool := (nr =? SYS_FORK) || (nr =? SYS_BRK) || (nr =? SYS_MPROTECT).

(** What is written when the call returns into a signal handler: from the new stack
    pointer to the old one. *)
Definition signal_writes (k : kernel) (f : TrapFrame) : list (Z * Z) :=
  match current_task k with
  | Some t =>
      match next_pending (signals t) with
      | Some (Some (_, handler)) =>
          let rsp := Z.ldiff (user_rsp f - FRAME_SIZE - TRAMPOLINE_PAD - 8) 0xF in
          if handler =? 0 then [] else [(rsp, user_rsp f - rsp)]
      | _ => []
      end
  | None => []
  end.

(** After a step the task goes on, is inside a call that waits, or is gone. *)
Inductive uresult := UNext (u : uthread) | UWait (b : machine) | UExit (b : machine).

(** [fuel] bounds the loops of the handler.  The way in and out of the kernel is
    that of [Task.syscall_entry].  A call in which the task was switched out is
    one that waits. *)
(* arch/syscall.rs:89-144 syscall_entry *)
Definition user_syscall (fuel : nat) (x : space) (f : TrapFrame) : option uresult :=
  '(b, t) ← touch_all false x (call_buffers f);
  let self := current (k_sched (kern b)) in
  '(r, b, t, f) ←
    (if is_space_call (rax f) then '(v, (b, t)) ← space_call (b, t) f; Some (Ret v, b, t, f)
     else '(r, s, f) ← syscall_handler to_lowercase from_utf8_lossy sha256 stat_pad fuel tramp base l (fun _ s _ _ _ => ret ENOSYS s) (rax f) f (bm_sys b);
          Some (r, set_sys b s, t, f));
  match r with
  | Halted => Some (UExit b)
  | Switched | Running_on => Some (UWait b)
  | Ret v =>
      if negb (bool_decide (current (k_sched (kern b)) = self)) then Some (UWait b)
      else
      let f := set_rax f (wrap 64 v) in
      '(b, t) ← touch_all true (b, t) (signal_writes (kern b) f);
      '(r, s, f) ← deliver_pending_signal f (bm_sys b);
      match r with
      | Ret _ => Some (UNext (mkUthread (set_sys b s) t f (rcx f) (r11 f)))
      | _ => Some (UExit (set_sys b s))
      end
  end.

(** ** Instructions *)

Definition put_bytes (b : machine) (a : Z) (bs : list Z) : machine := set_sys b (put_mem (bm_sys b) (write_bytes (sy_mem (bm_sys b)) a bs)).

(** The memory an instruction reads or writes: whether it writes, and the bytes. *)
Definition operand (f : TrapFrame) (i : instr) : option (bool * Z * Z) :=
  match i with
  | StoreImm b _ => Some (true, rget f b, 4)
  | RetQ => Some (false, user_rsp f, 8)
  | _ => None
  end.

(** With its memory accessible; [next] is the address of the following
    instruction. *)
Definition exec (fuel : nat) (u : uthread) (i : instr) (next : Z) : option uresult :=
  let f := ut_f u in
  let go (f : TrapFrame) (rip : Z) := Some (UNext (mkUthread (ut_b u) (ut_table u) f (wrap 64 rip) (ut_rflags u))) in
  match i with
  | MovImm r imm => go (rset f r imm) next
  | LeaRip r disp => go (rset f r (wrap 64 (next + disp))) next
  | LeaDisp r b disp => go (rset f r (wrap 64 (rget f b + disp))) next
  | Mov64 d s => go (rset f d (rget f s)) next
  | Mov32 d s => go (rset f d (wrap 32 (rget f s))) next
  | Xor32 d s => go (rset f d (Z.lxor (wrap 32 (rget f d)) (wrap 32 (rget f s)))) next
  | SubRax imm => go (rset f RAX (wrap 64 (rax f - imm))) next
  | StoreImm b imm => Some (UNext (mkUthread (put_bytes (ut_b u) (rget f b) (le_encode 4 imm)) (ut_table u) f (wrap 64 next) (ut_rflags u)))
  | SysCall => user_syscall fuel (ut_b u, ut_table u) (rset (rset f RCX (wrap 64 next)) R11 (ut_rflags u))
  | RetQ => go (rset f RSP (wrap 64 (user_rsp f + 8))) (read_u64 (sy_mem (bm_sys (ut_b u))) (user_rsp f))
  | Jmp rel => go f (next + rel)
  | Nop => go f next
  end.

(** A page fault, after which the instruction is tried again. *)
Definition user_fault (u : uthread) (w : bool) (a : Z) : option uresult :=
  '(b, t) ← fault w a (ut_b u, ut_table u);
  Some (UNext (mkUthread b t (ut_f u) (ut_rip u) (ut_rflags u))).

Definition user_step (fuel : nat) (u : uthread) : option uresult :=
  let t := ut_table u in
  let rip := ut_rip u in
  if negb (accessible t false rip) then user_fault u false rip
  else
    '(i, n) ← decode (read_bytes (sy_mem (bm_sys (ut_b u))) rip 15);
    let last := rip + Z.of_nat n - 1 in
    if negb (accessible t false last) then user_fault u false last
    else
      match operand (ut_f u) i with
      | Some (w, a, len) =>
          if negb (accessible t w a) then user_fault u w a
          else if negb (accessible t w (a + len - 1)) then user_fault u w (a + len - 1)
          else exec fuel u i (rip + Z.of_nat n)
      | None => exec fuel u i (rip + Z.of_nat n)
      end.

(** ** The first entry *)

(** The pages of the program that the new address space shows. *)
Definition show_program (t : T) (p : frame_pool) (m : memory) (e : Z) : memory :=
  foldl (fun m i => show_page t p m (USER_CODE_BASE + i * 4096)) m (seqZ 0 ((e - USER_CODE_BASE) / 4096)).

(** The task's registers hold what the kernel left in them, [f], except for those
    that [iretq] loads. *)
(* process/task.rs:223-234 user_trampoline *)
Definition user_enter (b : machine) (t : T) (f : TrapFrame) : option uthread :=
  task ← current_task (kern b);
  let m := show_program t (bm_pool b) (sy_mem (bm_sys b)) (heap_start task) in
  Some (mkUthread (set_sys b (put_mem (bm_sys b) m)) t (rset f RSP (user_stack task)) (user_entry task) 0x202).

(** ** Accesses *)

Lemma accessible_entry t w a f fl :
  entry t (containing_address a) = Some (f, fl) -> flag_set fl USER_ACCESSIBLE = true -> (w = true -> flag_set fl WRITABLE = true) -> accessible t w a = true.
Proof. intros He Hu Hw. unfold accessible. rewrite He, Hu. destruct w; [by rewrite Hw|done]. Qed.

Lemma touch_accessible w x a : accessible (snd x) w a = true -> touch w x a = Some x.
Proof. intros Ha. unfold touch. by rewrite Ha. Qed.

(** A range within one page. *)
Lemma touch_range_page w x a len : 0 < len -> (a + len - 1) / 4096 = a / 4096 -> touch_range w x (a, len) = touch w x a.
Proof.
  intros Hl Hp. unfold touch_range. rewrite (proj2 (Z.leb_gt len 0)) by lia. rewrite Hp, Z.sub_diag. change (seqZ 0 (0 + 1)) with [0]. cbn [foldl mbind option_bind].
  rewrite Z.add_0_r, Z.max_l; [done|]. pose proof (Z.div_mod a 4096). pose proof (Z.mod_pos_bound a 4096). lia.
Qed.

(** The first access to a page of an area: a zeroed page appears, and the rest of
    memory and of the table stays. *)
Lemma fault_area w a (b : machine) (t : T) c tc area f fs :
  running_task (kern b) c tc -> swapped (vmm tc) !! containing_address a = None -> find_area a (areas (vmm tc)) = Some area ->
  entry t (containing_address a) = None -> pool_at (bm_pool b) (f :: fs) -> (3 <= length fs)%nat ->
  exists t' p' fs' m', let k' := set_tasks (kern b) (<[c := tc]> (k_tasks (kern b))) in
    fault w a (b, t) = Some (set_space b k' p' (bm_swap b) m' (sy_counters (bm_sys b)), t') /\
    entry t' (containing_address a) = Some (f, flags area) /\ (forall q, q <> containing_address a -> entry t' q = entry t q) /\
    pool_at p' fs' /\ (length fs <= length fs' + 3)%nat /\
    (forall x, x < containing_address a \/ containing_address a + 4096 <= x -> get m' x = get (sy_mem (bm_sys b)) x).
Proof.
  intros Hr Hs Ha He Hp Hl. destruct (running_ids _ _ _ Hr) as (Hid & _). destruct Hr as (Hc & Ht & Hb).
  destruct (fault_zero_fill_spec (mkMm (vmm tc) t (bm_pool b) (bm_swap b)) a w area f fs Hp Hl Hs Ha He) as (t' & p' & fs' & E & He' & Ho & _ & _ & Hp' & _ & Hcnt). cbn [mm_vmm mm_swap mm_table] in *.
  unfold fault, page_fault_handler. rewrite Hid. cbn [mbind option_bind]. rewrite Hb. cbn [mbind option_bind]. rewrite Ht. cbn [mbind option_bind]. rewrite E. cbn [mbind option_bind is_ok mm_vmm mm_table mm_pool mm_swap].
  assert (with_space tc (cr3 tc) (vmm tc) (heap_start tc) (brk tc) = tc) as -> by by destruct tc.
  eexists t', p', fs', _. cbv zeta. split; [reflexivity|]. split; [done|]. split; [done|]. split; [done|]. split; [done|].
  intros x Hx. unfold show_page. rewrite He'. apply get_write_bytes_out. rewrite read_bytes_length, page_bytes_Z. lia.
Qed.

(** ** Calls that return *)

Lemma no_signal_writes k c tc f : running_task k c tc -> pending_mask (signals tc) = 0 -> signal_writes k f = [].
Proof.
  intros Hr Hp. destruct (running_ids _ _ _ Hr) as (Hid & _). destruct Hr as (Hc & Ht & Hb). unfold signal_writes, current_task. rewrite Hid. cbn [mbind option_bind]. rewrite Hb. cbn [mbind option_bind].
  rewrite Ht. unfold next_pending. by rewrite Hp.
Qed.

Lemma no_delivery (s : sys (D := V)) c tc f : running_task (sy_k s) c tc -> pending_mask (signals tc) = 0 -> deliver_pending_signal f s = Some (Ret (rax f), s, f).
Proof.
  intros Hr Hp. destruct (running_ids _ _ _ Hr) as (Hid & _). destruct Hr as (Hc & Ht & Hb). unfold deliver_pending_signal. rewrite Hid. cbn [mbind option_bind]. rewrite Hb, Ht. cbn [mbind option_bind].
  unfold deliver, next_pending. by rewrite Hp.
Qed.

(** The registers a call that answers [v] returns with. *)
Definition returned (f : TrapFrame) (v : Z) : TrapFrame := set_rax f (wrap 64 v).

(** No signal is pending after the call. *)
Lemma user_syscall_returns fuel (b : machine) (t : T) c tc f v s' :
  touch_all false (b, t) (call_buffers f) = Some (b, t) -> is_space_call (rax f) = false ->
  syscall_handler to_lowercase from_utf8_lossy sha256 stat_pad fuel tramp base l (fun _ s _ _ _ => ret ENOSYS s) (rax f) f (bm_sys b) = Some (Ret v, s', f) ->
  current (k_sched (kern b)) = Some c -> running_task (sy_k s') c tc -> pending_mask (signals tc) = 0 ->
  user_syscall fuel (b, t) f = Some (UNext (mkUthread (set_sys b s') t (returned f v) (rcx f) (r11 f))).
Proof.
  intros Ht Hn Hh Hc Hr Hp. unfold user_syscall. rewrite Ht. cbn [mbind option_bind]. rewrite Hn, Hh. cbn [mbind option_bind].
  pose proof Hr as [Hc' _]. change (kern (set_sys b s')) with (sy_k s'). rewrite Hc', Hc, bool_decide_true by done. cbn [negb].
  rewrite (no_signal_writes _ _ _ _ Hr Hp). cbn [touch_all foldl mbind option_bind]. change (bm_sys (set_sys b s')) with s'. rewrite (no_delivery _ _ _ _ Hr Hp). cbn [mbind option_bind]. done.
Qed.

Lemma user_space_call_returns fuel (b b' : machine) (t t' : T) c tc f v :
  call_buffers f = [] -> is_space_call (rax f) = true -> space_call (b, t) f = Some (v, (b', t')) ->
  current (k_sched (kern b)) = Some c -> running_task (kern b') c tc -> pending_mask (signals tc) = 0 ->
  user_syscall fuel (b, t) f = Some (UNext (mkUthread b' t' (returned f v) (rcx f) (r11 f))).
Proof.
  intros Ht Hn Hh Hc Hr Hp. unfold user_syscall. rewrite Ht. cbn [touch_all foldl mbind option_bind]. rewrite Hn, Hh. cbn [mbind option_bind].
  pose proof Hr as [Hc' _]. rewrite Hc', Hc, bool_decide_true by done. cbn [negb].
  rewrite (no_signal_writes _ _ _ _ Hr Hp). cbn [touch_all foldl mbind option_bind]. rewrite (no_delivery _ _ _ _ Hr Hp). cbn [mbind option_bind].
  assert (set_sys b' (bm_sys b') = b') as -> by by destruct b'. done.
Qed.

End User.
