(* ===== verification/Init.v ===== *)
(** The run of [user/init/init.S] ([Cpu.init_bin]) as a user task: logging in,
    opening, setting and closing the console device, growing the heap and
    storing to it, sending itself a signal it handles, and exiting with its
    process identifier.

    The run is described by a table of points, one before each instruction (and
    one more for the page fault of the store to the heap), with the registers
    whose values matter there; [step_point] shows that each step of the
    processor goes from one point to the next.  The timer may interrupt
    between any two of them. *)

From S2P Require Import Prelude Bytes X86 Frames Swap Vmm Signal Task Cpu Sched Sync Ipc Security Console Fat Records Vfs Mount Loader Syscall Boot Children User.

(** ** Addresses *)

Definition HANDLER : Z := USER_CODE_BASE + label_at sig_handler 0 init_S.
Definition PASSWORD : Z := USER_CODE_BASE + label_at password 0 init_S.
Definition DEVNAME : Z := USER_CODE_BASE + label_at devname 0 init_S.
Definition HEAP : Z := 0x401000.
Definition STACK_PAGE : Z := 0x7FFFFFFFE000.
(** The stack pointer in the signal handler. *)
Definition SIGNAL_SP : Z := 0x7FFFFFFFEF60.
(** [kill] returns here. *)
Definition AFTER_KILL : Z := USER_CODE_BASE + 152.
Definition CONSOLE_FD : Z := 0x10000.

(** ** The points *)

Definition code_at (off : Z) (rs : list (reg * Z)) : Z * list (reg * Z) := (USER_CODE_BASE + off, (RSP, USER_STACK_TOP) :: rs).

(** [me] is the process identifier. *)
Definition points (me : Z) : list (Z * list (reg * Z)) := [
  code_at 0 []; code_at 5 [(RDI, 1)]; code_at 12 [(RDI, 1); (RSI, PASSWORD)]; code_at 17 [(RDI, 1); (RSI, PASSWORD); (RDX, 4)];
  code_at 22 [(RDI, 1); (RSI, PASSWORD); (RDX, 4); (RAX, 48)];
  code_at 24 []; code_at 31 [(RDI, DEVNAME)]; code_at 36 [(RDI, DEVNAME); (RSI, 7)]; code_at 41 [(RDI, DEVNAME); (RSI, 7); (RAX, 22)];
  code_at 43 [(RAX, CONSOLE_FD)]; code_at 46 [(R13, CONSOLE_FD)]; code_at 49 [(R13, CONSOLE_FD); (RDI, CONSOLE_FD)];
  code_at 54 [(R13, CONSOLE_FD); (RDI, CONSOLE_FD); (RSI, 1)]; code_at 56 [(R13, CONSOLE_FD); (RDI, CONSOLE_FD); (RSI, 1)];
  code_at 61 [(R13, CONSOLE_FD); (RDI, CONSOLE_FD); (RSI, 1); (RAX, 21)];
  code_at 63 []; code_at 66 []; code_at 71 [(RAX, 23)];
  code_at 73 []; code_at 75 [(RDI, 0)]; code_at 80 [(RDI, 0); (RAX, 17)];
  code_at 82 [(RAX, HEAP)]; code_at 89 [(RDI, HEAP + 4096)]; code_at 94 [(RDI, HEAP + 4096); (RAX, 17)];
  code_at 96 [(RAX, HEAP + 4096)]; code_at 102 [(RAX, HEAP)]; code_at 102 [(RAX, HEAP)];
  code_at 108 []; code_at 113 [(RDI, 10)]; code_at 120 [(RDI, 10); (RSI, HANDLER)]; code_at 125 [(RDI, 10); (RSI, HANDLER); (RAX, 55)];
  code_at 127 []; code_at 132 [(RAX, 3)]; code_at 134 [(RAX, me)];
  code_at 137 [(R12, me)]; code_at 140 [(R12, me); (RDI, me)]; code_at 145 [(R12, me); (RDI, me); (RSI, 10)];
  code_at 150 [(R12, me); (RDI, me); (RSI, 10); (RAX, 53)];
  (HANDLER, [(RSP, SIGNAL_SP)]); (SIGNAL_SP + 8, [(RSP, SIGNAL_SP + 8)]); (SIGNAL_SP + 13, [(RSP, SIGNAL_SP + 8); (RAX, 54)]);
  code_at 152 [(R12, me)]; code_at 155 [(R12, me); (RDI, me)]; code_at 160 [(R12, me); (RDI, me); (RAX, 1)] ].

Definition knows (f : TrapFrame) (rs : list (reg * Z)) : Prop := Forall (fun p => rget f p.1 = p.2) rs.

(** What has been done by a point. *)
Record stage := mkStage { g_login : bool; g_nonblock : bool; g_grown : bool; g_heap : bool; g_word : bool; g_handler : bool; g_stack : bool }.

Definition stage_of (i : nat) : stage :=
  mkStage (5 <=? i)%nat (15 <=? i)%nat (24 <=? i)%nat (26 <=? i)%nat (27 <=? i)%nat (31 <=? i)%nat (38 <=? i)%nat.

(** From the entry into the handler on, the frame of the signal is on the stack. *)
Definition signalled (i : nat) : bool := (38 <=? i)%nat.

Definition STACK_AREA : VmArea := mkArea STACK_BOTTOM USER_STACK_TOP 7 Anonymous.
Definition HEAP_AREA : VmArea := mkArea HEAP (HEAP + 4096) 7 Anonymous.

(** The task. *)
Record task_at (me : Z) (g : stage) (tc : Task) : Prop := mkTaskAt {
  ta_pid : pid tc = me;
  ta_ids : uid tc = (if g_login g then 1 else 0) /\ gid tc = (if g_login g then 1 else 0);
  ta_vmm : vmm tc = mkVmm (STACK_AREA :: if g_grown g then [HEAP_AREA] else []) ∅;
  ta_heap : heap_start tc = HEAP /\ brk tc = (if g_grown g then HEAP + 4096 else HEAP);
  ta_signals : signals tc = if g_handler g then set_handler signals_new 10 HANDLER else signals_new
}.

Definition same_run (t t' : Task) : Prop :=
  tid t' = tid t /\ pid t' = pid t /\ state t' = state t /\ priority t' = priority t /\ parent t' = parent t /\ exit_code t' = exit_code t.

(** ** Instructions that only change registers *)

Definition plain (f : TrapFrame) (i : instr) (next : Z) : option TrapFrame :=
  match i with
  | MovImm r imm => Some (rset f r imm)
  | LeaRip r disp => Some (rset f r (wrap 64 (next + disp)))
  | LeaDisp r b disp => Some (rset f r (wrap 64 (rget f b + disp)))
  | Mov64 d s => Some (rset f d (rget f s))
  | Mov32 d s => Some (rset f d (wrap 32 (rget f s)))
  | Xor32 d s => Some (rset f d (Z.lxor (wrap 32 (rget f d)) (wrap 32 (rget f s))))
  | SubRax imm => Some (rset f RAX (wrap 64 (rax f - imm)))
  | Nop => Some f
  | _ => None
  end.

Lemma rset_fits f r v : frame_fits f -> fits 64 v -> frame_fits (rset f r v).
Proof.
  intros Hf Hv. unfold frame_fits, frame_words in *. rewrite !Forall_cons in *. destruct Hf as (A1 & A2 & A3 & A4 & A5 & A6 & A7 & A8 & A9 & B1 & B2 & B3 & B4 & B5 & B6 & B7 & _).
  destruct r; cbn; split_and!; done.
Qed.

Lemma rget_fits f r : frame_fits f -> fits 64 (rget f r).
Proof.
  intros Hf. unfold frame_fits, frame_words in *. rewrite !Forall_cons in *. destruct Hf as (A1 & A2 & A3 & A4 & A5 & A6 & A7 & A8 & A9 & B1 & B2 & B3 & B4 & B5 & B6 & B7 & _).
  by destruct r.
Qed.

Lemma fits_32_64 v : fits 32 v -> fits 64 v.
Proof. unfold fits. lia. Qed.

Lemma plain_fits f i next f' : frame_fits f -> encodable i = true -> plain f i next = Some f' -> frame_fits f'.
Proof.
  intros Hf He E. destruct i; cbn [plain] in E; try discriminate E; injection E as <-; try exact Hf; apply rset_fits; try done.
  - unfold encodable in He. apply andb_true_iff in He as [He _]. unfold fits. lia.
  - apply wrap_fits. lia.
  - apply wrap_fits. lia.
  - by apply rget_fits.
  - apply fits_32_64, wrap_fits. lia.
  - apply fits_32_64, lxor_fits; [lia|apply wrap_fits; lia|apply wrap_fits; lia].
  - apply wrap_fits. lia.
Qed.

Lemma push_handler_frame_rsp f m signum h f' m' : push_handler_frame f m signum h = Some (f', m') -> user_rsp f' = Z.ldiff (user_rsp f - FRAME_SIZE - TRAMPOLINE_PAD - 8) 0xF.
Proof.
  unfold push_handler_frame. intros E. do 3 (apply bind_Some in E as (? & ?%uchk_Some & E)). destruct_and!. subst. do 3 (apply bind_Some in E as (? & _ & E)). by injection E as <- _.
Qed.

Section Init.
Context `{X86Addr} {T : Type} `{TopLevel T}.
Context {V : Type} {F : FatVolume V}.
Context (to_lowercase from_utf8_lossy : list Z -> list Z) (sha256 : list Z -> list Z) (stat_pad : list Z).
Context (tramp base l lc : Z).

Abbreviation machine := (Boot.machine (T := T) (V := V)).
Abbreviation uthread := (User.uthread (T := T) (V := V)).
Abbreviation step := (user_step to_lowercase from_utf8_lossy sha256 stat_pad tramp base l).

Definition umem (u : uthread) : memory := sy_mem (bm_sys (ut_b u)).

(** The code page, the pages that have been touched, the frames left, the device
    and the user the program logs in as. *)
Record space_at (g : stage) (b : machine) (t : T) : Prop := mkSpaceAt {
  sa_code : exists f, entry t USER_CODE_BASE = Some (f, CODE_FLAGS);
  sa_shown : read_bytes (sy_mem (bm_sys b)) USER_CODE_BASE (length init_bin) = init_bin;
  sa_pool : exists fs, pool_at (bm_pool b) fs /\ ((if g_heap g then 0 else 4) + (if g_stack g then 0 else 4) <= length fs)%nat;
  sa_heap : if g_heap g then exists f, entry t HEAP = Some (f, 7) else entry t HEAP = None;
  sa_word : g_word g = true -> read_bytes (sy_mem (bm_sys b)) HEAP 4 = le_encode 4 0xCAFEBABE;
  sa_stack : if g_stack g then exists f, entry t STACK_PAGE = Some (f, 7) else entry t STACK_PAGE = None;
  sa_dev : sy_dev (bm_sys b) = [mkDevice "console" (negb (g_nonblock g))];
  sa_auth : verify_password sha256 (sy_fs (bm_sys b)) 1 TEST_PASSWORD = true
}.

(** The frame the signal left on the stack, and the code below it. *)
Definition signal_frame (me : Z) (m : memory) : Prop :=
  read_u64 m SIGNAL_SP = SIGNAL_SP + 8 /\ read_bytes m (SIGNAL_SP + 8) 7 = encode (MovImm RAX 54) ++ encode SysCall /\
  let f := read_frame m (SIGNAL_SP + 24) in
  frame_fits f /\ rcx f = AFTER_KILL /\ knows f [(RSP, USER_STACK_TOP); (R12, me)].

Record at_point (me : Z) (i : nat) (u : uthread) (tc : Task) : Prop := mkAtPoint {
  ap_regs : exists rs, points me !! i = Some (ut_rip u, rs) /\ knows (ut_f u) rs;
  ap_fits : frame_fits (ut_f u) /\ fits 64 (ut_rflags u);
  ap_space : space_at (stage_of i) (ut_b u) (ut_table u);
  ap_signal : signalled i = true -> signal_frame me (umem u);
  ap_task : task_at me (stage_of i) tc
}.

(** ** Fetching *)

Lemma exec_plain fuel (u : uthread) i next f' :
  plain (ut_f u) i next = Some f' ->
  exec to_lowercase from_utf8_lossy sha256 stat_pad tramp base l fuel u i next = Some (UNext (mkUthread (ut_b u) (ut_table u) f' (wrap 64 next) (ut_rflags u))).
Proof. destruct i; intros E; try discriminate E; injection E as <-; reflexivity. Qed.

(** An instruction whose bytes are at the instruction pointer, within a page. *)
Lemma step_fetched fuel (u : uthread) i f fl :
  entry (ut_table u) (ut_rip u / 4096 * 4096) = Some (f, fl) -> flag_set fl USER_ACCESSIBLE = true ->
  read_bytes (umem u) (ut_rip u) (length (encode i)) = encode i -> encodable i = true ->
  (ut_rip u + Z.of_nat (length (encode i)) - 1) / 4096 = ut_rip u / 4096 ->
  step fuel u =
    match operand (ut_f u) i with
    | Some (w, a, len) =>
        if negb (accessible (ut_table u) w a) then user_fault u w a
        else if negb (accessible (ut_table u) w (a + len - 1)) then user_fault u w (a + len - 1)
        else exec to_lowercase from_utf8_lossy sha256 stat_pad tramp base l fuel u i (ut_rip u + Z.of_nat (length (encode i)))
    | None => exec to_lowercase from_utf8_lossy sha256 stat_pad tramp base l fuel u i (ut_rip u + Z.of_nat (length (encode i)))
    end.
Proof.
  intros He Hu Hb Hi Hp. unfold user_step.
  assert (Hacc : forall a, a / 4096 = ut_rip u / 4096 -> accessible (ut_table u) false a = true) by (intros a Ha; apply (accessible_entry _ _ _ f fl); [by rewrite containing_address_spec, Ha|done|discriminate]).
  rewrite (Hacc _ eq_refl). cbn [negb]. fold (umem u).
  assert (Hlen : (length (encode i) <= 15)%nat) by (destruct i; cbn [encode]; rewrite ?length_app, ?imm_bytes_length; unfold rex; repeat case_match; cbn; lia).
  replace 15%nat with (length (encode i) + (15 - length (encode i)))%nat by lia. rewrite read_bytes_app, Hb, decode_encoded by done. cbn [mbind option_bind].
  by rewrite (Hacc _ Hp).
Qed.

Lemma code_bytes g (b : machine) t off n :
  space_at g b t -> (off + n <= length init_bin)%nat -> read_bytes (sy_mem (bm_sys b)) (USER_CODE_BASE + Z.of_nat off) n = take n (drop off init_bin).
Proof.
  intros Hs Hn. rewrite <- (sa_shown _ _ _ Hs). apply list_eq. intros i. destruct (decide (i < n)%nat) as [Hi|Hi].
  - rewrite read_bytes_lookup, lookup_take_lt, lookup_drop, read_bytes_lookup by lia. do 2 f_equal. lia.
  - rewrite !lookup_ge_None_2; [done| |]; rewrite ?length_take, ?length_drop, ?read_bytes_length; lia.
Qed.

(** An instruction of the program. *)
Lemma step_code fuel g (u : uthread) off i :
  space_at g (ut_b u) (ut_table u) -> ut_rip u = USER_CODE_BASE + Z.of_nat off -> take (length (encode i)) (drop off init_bin) = encode i -> encodable i = true ->
  (off + length (encode i) <= length init_bin)%nat ->
  step fuel u =
    match operand (ut_f u) i with
    | Some (w, a, len) =>
        if negb (accessible (ut_table u) w a) then user_fault u w a
        else if negb (accessible (ut_table u) w (a + len - 1)) then user_fault u w (a + len - 1)
        else exec to_lowercase from_utf8_lossy sha256 stat_pad tramp base l fuel u i (ut_rip u + Z.of_nat (length (encode i)))
    | None => exec to_lowercase from_utf8_lossy sha256 stat_pad tramp base l fuel u i (ut_rip u + Z.of_nat (length (encode i)))
    end.
Proof.
  intros Hs Hr Hb Hi Hn. change (length init_bin) with 176%nat in *. destruct (sa_code _ _ _ Hs) as [f Hf].
  assert (Hpage : forall a, USER_CODE_BASE <= a < USER_CODE_BASE + 4096 -> a / 4096 = 1024) by (unfold USER_CODE_BASE; intros a Ha; symmetry; apply (Z.div_unique a 4096 1024 (a - 4194304)); lia).
  assert (Hl : (0 < length (encode i))%nat) by (destruct i; cbn [encode]; rewrite ?length_app; cbn; lia).
  apply (step_fetched fuel u i f CODE_FLAGS); [|done| |done|].
  - rewrite Hpage by lia. exact Hf.
  - unfold umem. rewrite Hr. etransitivity; [exact (code_bytes g _ _ off _ Hs Hn)|exact Hb].
  - rewrite !Hpage; lia.
Qed.

(** ** Steps *)

(** A step from point [i] to the next; of the kernel only the record of the task
    may change, and not what the scheduler uses of it. *)
Definition stepped (fuel : nat) (me : Z) (i : nat) (u : uthread) (tc : Task) : Prop :=
  exists u' tc', step fuel u = Some (UNext u') /\ at_point me (S i) u' tc' /\ same_run tc tc' /\
    kern (ut_b u') = set_tasks (kern (ut_b u)) (<[lc := tc']> (k_tasks (kern (ut_b u)))).

Lemma same_run_refl t : same_run t t.
Proof. by split_and!. Qed.

Lemma set_same k tc : running_task k lc tc -> set_tasks k (<[lc := tc]> (k_tasks k)) = k.
Proof. intros (_ & Ht & _). rewrite insert_id by done. by destruct k. Qed.

Lemma point_regs me i (u : uthread) tc rip rs : at_point me i u tc -> points me !! i = Some (rip, rs) -> ut_rip u = rip /\ knows (ut_f u) rs.
Proof. intros [(rs' & Hp & Hk) _ _ _ _] E. rewrite E in Hp. injection Hp as -> ->. done. Qed.

Lemma step_plain fuel me i (u : uthread) tc off ins rs rs' :
  at_point me i u tc -> running_task (kern (ut_b u)) lc tc -> points me !! i = Some (USER_CODE_BASE + Z.of_nat off, rs) ->
  take (length (encode ins)) (drop off init_bin) = encode ins -> encodable ins = true -> operand (ut_f u) ins = None -> (off + length (encode ins) <=? length init_bin)%nat = true ->
  stage_of (S i) = stage_of i -> points me !! S i = Some (USER_CODE_BASE + Z.of_nat (off + length (encode ins)), rs') ->
  (knows (ut_f u) rs -> exists f', plain (ut_f u) ins (USER_CODE_BASE + Z.of_nat off + Z.of_nat (length (encode ins))) = Some f' /\ knows f' rs') ->
  stepped fuel me i u tc.
Proof.
  intros Hat Hr Hp Hb He Hop Hn Hst Hp' Hkn. destruct (point_regs _ _ _ _ _ _ Hat Hp) as [Hrip Hk]. destruct Hat as [_ [Hf Hrf] Hs Hsg Ht]. apply Nat.leb_le in Hn. destruct (Hkn Hk) as (f' & Ef & Hk').
  change (length init_bin) with 176%nat in *.
  eexists _, tc. split; [rewrite (step_code fuel _ u off ins Hs Hrip Hb He Hn), Hop, Hrip; by apply exec_plain|]. split; [|split; [apply same_run_refl|symmetry; by apply set_same]].
  rewrite wrap_small by (unfold fits, USER_CODE_BASE; lia). split; cbn [ut_rip ut_f ut_rflags ut_b ut_table].
  - exists rs'. rewrite Hp'. split; [do 2 f_equal; lia|done].
  - split; [by eapply plain_fits|done].
  - by rewrite Hst.
  - intros Hi. apply Hsg. change (g_stack (stage_of i) = true). by rewrite <- Hst.
  - by rewrite Hst.
Qed.

(** The registers at a point, one by one. *)
Ltac known := match goal with H : knows _ _ |- _ => unfold knows in H; rewrite !Forall_cons in H; cbn [fst snd rget] in H; destruct_and? H end.

(** The values left to check after an instruction. *)
Ltac check_value :=
  first [ assumption | reflexivity
        | (rewrite Z.lxor_nilpotent; reflexivity)
        | (match goal with E : ?y = ?v |- _ = ?v => change (wrap 32 y = v); rewrite E; apply wrap_small; unfold fits; lia end)
        | (match goal with E : rax _ = _ |- _ => rewrite E end; reflexivity) ].

Ltac plain_step off ins :=
  eapply (step_plain _ _ _ _ _ off ins); [eassumption|eassumption|reflexivity|vm_compute; reflexivity|reflexivity|reflexivity|vm_compute; reflexivity|reflexivity|reflexivity|];
  intros Hkn; known; eexists; split; [reflexivity|]; unfold knows, code_at; rewrite !Forall_cons; cbn [fst snd rget]; split_and!; try exact (Forall_nil_2 _); check_value.

(** The points before an instruction that only changes registers. *)
Definition plain_points : list nat := [0; 1; 2; 3; 5; 6; 7; 9; 10; 11; 12; 13; 15; 16; 18; 19; 21; 22; 24; 27; 28; 29; 31; 33; 34; 35; 36; 41; 42]%nat.

Lemma step_plain_point fuel me i (u : uthread) tc :
  fits 31 me -> i ∈ plain_points -> at_point me i u tc -> running_task (kern (ut_b u)) lc tc -> stepped fuel me i u tc.
Proof.
  intros [Hme0 Hme1] Hi Hat Hr. assert (me < 2 ^ 32) by lia. unfold plain_points in Hi.
  repeat (apply elem_of_cons in Hi as [->|Hi]); [..|by apply not_elem_of_nil in Hi].
  - plain_step 0%nat (MovImm RDI 1).
  - plain_step 5%nat (LeaRip RSI 0x99).
  - plain_step 12%nat (MovImm RDX 4).
  - plain_step 17%nat (MovImm RAX 48).
  - plain_step 24%nat (LeaRip RDI 0x8a).
  - plain_step 31%nat (MovImm RSI 7).
  - plain_step 36%nat (MovImm RAX 22).
  - plain_step 43%nat (Mov64 R13 RAX).
  - plain_step 46%nat (Mov64 RDI R13).
  - plain_step 49%nat (MovImm RSI 1).
  - plain_step 54%nat (Xor32 RDX RDX).
  - plain_step 56%nat (MovImm RAX 21).
  - plain_step 63%nat (Mov64 RDI R13).
  - plain_step 66%nat (MovImm RAX 23).
  - plain_step 73%nat (Xor32 RDI RDI).
  - plain_step 75%nat (MovImm RAX 17).
  - plain_step 82%nat (LeaDisp RDI RAX 0x1000).
  - plain_step 89%nat (MovImm RAX 17).
  - plain_step 96%nat (SubRax 0x1000).
  - plain_step 108%nat (MovImm RDI 10).
  - plain_step 113%nat (LeaRip RSI 0x2c).
  - plain_step 120%nat (MovImm RAX 55).
  - plain_step 127%nat (MovImm RAX 3).
  - plain_step 134%nat (Mov32 R12 RAX).
  - plain_step 137%nat (Mov32 RDI R12).
  - plain_step 140%nat (MovImm RSI 10).
  - plain_step 145%nat (MovImm RAX 53).
  - plain_step 152%nat (Mov32 RDI R12).
  - plain_step 155%nat (MovImm RAX 1).
Qed.

(** ** System calls *)

(** The registers as [syscall] leaves them. *)
Definition entering (u : uthread) (off : nat) : TrapFrame := rset (rset (ut_f u) RCX (USER_CODE_BASE + Z.of_nat (off + 2))) R11 (ut_rflags u).

Lemma entering_fits (u : uthread) off : frame_fits (ut_f u) -> fits 64 (ut_rflags u) -> (off <= 176)%nat -> frame_fits (entering u off).
Proof. intros Hf Hr Ho. apply rset_fits; [apply rset_fits; [done|unfold fits, USER_CODE_BASE; lia]|done]. Qed.

Lemma step_call fuel me i (u : uthread) tc off rs :
  at_point me i u tc -> points me !! i = Some (USER_CODE_BASE + Z.of_nat off, rs) -> take 2 (drop off init_bin) = encode SysCall -> (off + 2 <=? length init_bin)%nat = true ->
  step fuel u = user_syscall to_lowercase from_utf8_lossy sha256 stat_pad tramp base l fuel (ut_b u, ut_table u) (entering u off).
Proof.
  intros Hat Hp Hb Hn. apply Nat.leb_le in Hn. destruct (point_regs _ _ _ _ _ _ Hat Hp) as [Hrip _]. destruct Hat as [_ _ Hs _ _].
  rewrite (step_code fuel _ u off SysCall Hs Hrip Hb eq_refl Hn). cbn [operand exec]. rewrite Hrip. unfold entering. change (Z.of_nat (length (encode SysCall))) with 2. change (length init_bin) with 176%nat in Hn.
  rewrite wrap_small by (unfold fits, USER_CODE_BASE; lia). do 3 f_equal. lia.
Qed.

(** A call that returns to the next instruction. *)
Lemma call_point fuel me i (u : uthread) tc tc' off rs rs' b' t' v :
  at_point me i u tc -> points me !! i = Some (USER_CODE_BASE + Z.of_nat off, rs) -> take 2 (drop off init_bin) = encode SysCall -> (off + 2 <=? length init_bin)%nat = true ->
  user_syscall to_lowercase from_utf8_lossy sha256 stat_pad tramp base l fuel (ut_b u, ut_table u) (entering u off) =
    Some (UNext (mkUthread b' t' (returned (entering u off) v) (rcx (entering u off)) (r11 (entering u off)))) ->
  points me !! S i = Some (USER_CODE_BASE + Z.of_nat (off + 2), rs') -> knows (returned (entering u off) v) rs' ->
  space_at (stage_of (S i)) b' t' -> task_at me (stage_of (S i)) tc' -> signalled (S i) = false -> same_run tc tc' ->
  kern b' = set_tasks (kern (ut_b u)) (<[lc := tc']> (k_tasks (kern (ut_b u)))) -> stepped fuel me i u tc.
Proof.
  intros Hat Hp Hb Hn Hc Hp' Hk Hs Ht Hih Hsr Hkern. eexists _, tc'. split; [rewrite (step_call fuel me i u tc off rs Hat Hp Hb Hn); exact Hc|]. split; [|by split]. apply Nat.leb_le in Hn. destruct Hat as [_ [Hf Hr] _ _ _].
  split; cbn [ut_rip ut_f ut_rflags ut_b ut_table]; [by exists rs'| |done|congruence|done].
  split; [|exact Hr]. unfold returned. change (set_rax (entering u off) (wrap 64 v)) with (rset (entering u off) RAX (wrap 64 v)). apply rset_fits; [apply entering_fits; [done|done|change (length init_bin) with 176%nat in Hn; lia]|apply wrap_fits; lia].
Qed.

Lemma update_current_eq k tc g : running_task k lc tc -> update_current k g = Some (set_tasks k (<[lc := g tc]> (k_tasks k))).
Proof. intros Hr. destruct (running_ids _ _ _ Hr) as (Hid & _). destruct Hr as (_ & Ht & Hb). unfold update_current. rewrite Hid. cbn [mbind option_bind]. by rewrite Hb, Ht. Qed.

Lemma running_updated k tc tc' : running_task k lc tc -> tid tc' = tid tc -> running_task (set_tasks k (<[lc := tc']> (k_tasks k))) lc tc'.
Proof. intros (Hc & Ht & Hb) Hid. split; [done|]. split; [apply lookup_insert_eq|]. by rewrite Hid. Qed.

Lemma pending_none me g tc : task_at me g tc -> pending_mask (signals tc) = 0.
Proof. intros Ht. rewrite (ta_signals _ _ _ Ht). by destruct (g_handler g). Qed.

(** Reading within the program. *)
Lemma touch_code g (b : machine) t off len :
  space_at g b t -> 0 <= off -> 0 < len -> off + len <= 4096 -> touch_all false (b, t) [(USER_CODE_BASE + off, len)] = Some (b, t).
Proof.
  intros Hs Ho Hl He. cbn [touch_all foldl mbind option_bind]. destruct (sa_code _ _ _ Hs) as [f Hf].
  assert (Hpage : forall a, USER_CODE_BASE <= a < USER_CODE_BASE + 4096 -> a / 4096 = 1024) by (unfold USER_CODE_BASE; intros a Ha; symmetry; apply (Z.div_unique a 4096 1024 (a - 4194304)); lia).
  rewrite touch_range_page by (rewrite ?Hpage; lia). apply touch_accessible. apply (accessible_entry _ _ _ f CODE_FLAGS); [|done|discriminate]. rewrite containing_address_spec, Hpage by lia. exact Hf.
Qed.

(** Only the record of the task and the devices change. *)
Lemma space_at_sys g g' (b : machine) t s' :
  space_at g b t -> sy_mem s' = sy_mem (bm_sys b) -> sy_fs s' = sy_fs (bm_sys b) -> sy_dev s' = [mkDevice "console" (negb (g_nonblock g'))] ->
  g_heap g' = g_heap g -> g_word g' = g_word g -> g_stack g' = g_stack g -> space_at g' (set_sys b s') t.
Proof. intros [A1 A2 A3 A4 A5 A6 A7 A8] Hm Hf Hd E1 E2 E3. split; cbn [set_sys bm_sys bm_pool]; rewrite ?Hm, ?Hf, ?E1, ?E2, ?E3; done. Qed.

(** A call that only uses the [sys] state. *)
Lemma sys_call_point fuel me i (u : uthread) tc tc' off rs rs' v s' :
  at_point me i u tc -> running_task (kern (ut_b u)) lc tc -> points me !! i = Some (USER_CODE_BASE + Z.of_nat off, rs) ->
  take 2 (drop off init_bin) = encode SysCall -> (off + 2 <=? length init_bin)%nat = true -> is_space_call (rax (entering u off)) = false ->
  touch_all false (ut_b u, ut_table u) (call_buffers (entering u off)) = Some (ut_b u, ut_table u) ->
  syscall_handler to_lowercase from_utf8_lossy sha256 stat_pad fuel tramp base l (fun _ s _ _ _ => ret ENOSYS s) (rax (entering u off)) (entering u off) (bm_sys (ut_b u)) = Some (Ret v, s', entering u off) ->
  points me !! S i = Some (USER_CODE_BASE + Z.of_nat (off + 2), rs') -> knows (returned (entering u off) v) rs' ->
  sy_mem s' = umem u -> sy_fs s' = sy_fs (bm_sys (ut_b u)) -> sy_dev s' = [mkDevice "console" (negb (g_nonblock (stage_of (S i))))] ->
  (g_heap (stage_of (S i)), g_word (stage_of (S i)), g_stack (stage_of (S i))) = (g_heap (stage_of i), g_word (stage_of i), g_stack (stage_of i)) ->
  task_at me (stage_of (S i)) tc' -> signalled (S i) = false -> same_run tc tc' -> sy_k s' = set_tasks (kern (ut_b u)) (<[lc := tc']> (k_tasks (kern (ut_b u)))) ->
  stepped fuel me i u tc.
Proof.
  intros Hat Hr Hp Hb Hn Hsp Htch Hh Hp' Hk Hm Hf Hd Hg Ht Hih Hsr Hkern. injection Hg as E1 E2 E3. pose proof (ap_space _ _ _ _ Hat) as Hs.
  eapply (call_point fuel me i u tc tc' off _ _ (set_sys (ut_b u) s') (ut_table u) v); [exact Hat|exact Hp|exact Hb|exact Hn| |exact Hp'|exact Hk| |exact Ht|exact Hih|exact Hsr|exact Hkern].
  - eapply (user_syscall_returns _ _ _ _ _ _ _ _ _ _ lc tc'); [exact Htch|exact Hsp|exact Hh|apply Hr| |by eapply pending_none]. rewrite Hkern. apply running_updated with tc; [done|apply Hsr].
  - by apply (space_at_sys (stage_of i)).
Qed.

Ltac call_regs := unfold knows, code_at, returned; rewrite !Forall_cons; cbn [fst snd rget]; split_and!; try exact (Forall_nil_2 _); first [assumption|reflexivity].

(** The call at point [i], at offset [off]. *)
Ltac at_call i off :=
  match goal with Hat : at_point ?me _ ?u ?tc |- _ =>
    pose proof (ap_space _ _ _ _ Hat) as Hs; pose proof (ap_task _ _ _ _ Hat) as Ht; destruct (point_regs me i u tc _ _ Hat eq_refl) as [_ Hkn]; known;
    pose (f := entering u off); pose (k := kern (ut_b u)); pose (s := bm_sys (ut_b u))
  end.

Ltac call tc' off v s' :=
  eapply (sys_call_point _ _ _ _ _ tc' off _ _ v s'); [eassumption|eassumption|reflexivity|vm_compute; reflexivity|vm_compute; reflexivity| | | |reflexivity| |reflexivity|reflexivity| |reflexivity| |reflexivity|by split_and!|].

Lemma step_login fuel me (u : uthread) tc :
  at_point me 4 u tc -> running_task (kern (ut_b u)) lc tc -> stepped fuel me 4 u tc.
Proof.
  intros Hat Hr. at_call 4%nat 22%nat.
  assert (E1 : rax f = 48) by done. assert (E2 : rdi f = 1) by done. assert (E3 : rsi f = PASSWORD) by done. assert (E4 : rdx f = 4) by done.
  assert (Hpw : read_bytes (sy_mem s) PASSWORD 4 = TEST_PASSWORD) by (change PASSWORD with (USER_CODE_BASE + Z.of_nat 165); unfold s; rewrite (code_bytes _ _ _ 165 4 Hs) by (change (length init_bin) with 176%nat; lia); reflexivity).
  call (with_ids tc 1 1) 22%nat 0 (put_k s (set_tasks k (<[lc := with_ids tc 1 1]> (k_tasks k)))); fold f.
  - by rewrite E1.
  - unfold call_buffers. rewrite E1, E3, E4. exact (touch_code _ _ _ 165 4 Hs ltac:(lia) ltac:(lia) ltac:(lia)).
  - rewrite E1. change (syscall_handler to_lowercase from_utf8_lossy sha256 stat_pad fuel tramp base l _ 48 f (bm_sys (ut_b u))) with ('(r, s) ← sys_login sha256 s (rdi f) (rsi f) (rdx f); Some (r, s, f)).
    rewrite E2, E3, E4. unfold sys_login. change (Z.to_nat 4) with 4%nat. rewrite Hpw. change (wrap 32 1) with 1. unfold s. rewrite (sa_auth _ _ _ Hs). change ((PASSWORD =? 0) || (4 =? 0)) with false. cbv iota.
    fold (kern (ut_b u)). rewrite (update_current_eq _ _ _ Hr). reflexivity.
  - call_regs.
  - apply (sa_dev _ _ _ Hs).
  - destruct Ht as [A1 A2 A3 A4 A5]. by split.
  - reflexivity.
Qed.

Lemma step_open_dev fuel me (u : uthread) tc :
  at_point me 8 u tc -> running_task (kern (ut_b u)) lc tc -> stepped fuel me 8 u tc.
Proof.
  intros Hat Hr. at_call 8%nat 41%nat. assert (E1 : rax f = 22) by done. assert (E2 : rdi f = DEVNAME) by done. assert (E3 : rsi f = 7) by done.
  assert (Hname : read_bytes (sy_mem s) DEVNAME 7 = [99; 111; 110; 115; 111; 108; 101]) by (change DEVNAME with (USER_CODE_BASE + Z.of_nat 169); unfold s; rewrite (code_bytes _ _ _ 169 7 Hs) by (change (length init_bin) with 176%nat; lia); reflexivity).
  call tc 41%nat CONSOLE_FD s; fold f.
  - by rewrite E1.
  - unfold call_buffers. rewrite E1, E2, E3. exact (touch_code _ _ _ 169 7 Hs ltac:(lia) ltac:(lia) ltac:(lia)).
  - rewrite E1. change (syscall_handler to_lowercase from_utf8_lossy sha256 stat_pad fuel tramp base l _ 22 f (bm_sys (ut_b u))) with ('(r, s) ← sys_open_dev s (rdi f) (rsi f); Some (r, s, f)).
    rewrite E2, E3. unfold sys_open_dev, str_from_user. change ((DEVNAME =? 0) || (7 =? 0)) with false. cbv iota. change (Z.to_nat 7) with 7%nat. rewrite Hname. unfold s. rewrite (sa_dev _ _ _ Hs). vm_compute. reflexivity.
  - call_regs.
  - apply (sa_dev _ _ _ Hs).
  - exact Ht.
  - symmetry. by apply set_same.
Qed.

Lemma step_ioctl fuel me (u : uthread) tc :
  at_point me 14 u tc -> running_task (kern (ut_b u)) lc tc -> stepped fuel me 14 u tc.
Proof.
  intros Hat Hr. at_call 14%nat 61%nat. assert (E1 : rax f = 21) by done. assert (E2 : rdi f = CONSOLE_FD) by done. assert (E3 : rsi f = 1) by done.
  call tc 61%nat 0 (put_dev s [mkDevice "console" false]); fold f.
  - by rewrite E1.
  - unfold call_buffers. rewrite E1. reflexivity.
  - rewrite E1. change (syscall_handler to_lowercase from_utf8_lossy sha256 stat_pad fuel tramp base l _ 21 f (bm_sys (ut_b u))) with ('(r, s) ← sys_ioctl s (rdi f) (rsi f); Some (r, s, f)).
    rewrite E2, E3. unfold sys_ioctl, s. rewrite (sa_dev _ _ _ Hs). reflexivity.
  - call_regs.
  - reflexivity.
  - by destruct Ht; split.
  - symmetry. by apply set_same.
Qed.

Lemma step_close_dev fuel me (u : uthread) tc :
  at_point me 17 u tc -> running_task (kern (ut_b u)) lc tc -> stepped fuel me 17 u tc.
Proof.
  intros Hat Hr. at_call 17%nat 71%nat. assert (E1 : rax f = 23) by done. call tc 71%nat 0 s; fold f.
  - by rewrite E1.
  - unfold call_buffers. rewrite E1. reflexivity.
  - rewrite E1. reflexivity.
  - call_regs.
  - apply (sa_dev _ _ _ Hs).
  - by destruct Ht; split.
  - symmetry. by apply set_same.
Qed.

Lemma step_signal fuel me (u : uthread) tc :
  at_point me 30 u tc -> running_task (kern (ut_b u)) lc tc -> stepped fuel me 30 u tc.
Proof.
  intros Hat Hr. at_call 30%nat 125%nat. assert (E1 : rax f = 55) by done. assert (E2 : rdi f = 10) by done. assert (E3 : rsi f = HANDLER) by done.
  pose (tc' := with_signals tc (set_handler (signals tc) 10 HANDLER)). call tc' 125%nat 0 (put_k s (set_tasks k (<[lc := tc']> (k_tasks k)))); fold f.
  - by rewrite E1.
  - unfold call_buffers. rewrite E1. reflexivity.
  - rewrite E1. change (syscall_handler to_lowercase from_utf8_lossy sha256 stat_pad fuel tramp base l _ 55 f (bm_sys (ut_b u))) with ('(r, s) ← sys_signal s (rdi f) (rsi f); Some (r, s, f)).
    rewrite E2, E3. unfold sys_signal. change (wrap 8 10) with 10. change (MAX_SIGNALS <=? 10) with false. cbv iota. destruct (running_ids _ _ _ Hr) as (Hid & _). fold k in Hid. change (sy_k s) with k. rewrite Hid. cbn [mbind option_bind].
    rewrite (update_current_eq k tc _ Hr). pose proof Hr as (_ & _ & Hb). fold k in Hb. rewrite Hb. reflexivity.
  - call_regs.
  - apply (sa_dev _ _ _ Hs).
  - destruct Ht as [A1 A2 A3 A4 A5]. split; [done|done|done|done|]. cbn [tc' with_signals signals]. by rewrite A5.
  - reflexivity.
Qed.

Lemma step_getpid fuel me (u : uthread) tc :
  fits 31 me -> at_point me 32 u tc -> running_task (kern (ut_b u)) lc tc -> stepped fuel me 32 u tc.
Proof.
  intros [Hm0 Hm1] Hat Hr. at_call 32%nat 132%nat. assert (E1 : rax f = 3) by done. destruct (running_ids _ _ _ Hr) as (_ & Hpid & _). call tc 132%nat me s; fold f.
  - by rewrite E1.
  - unfold call_buffers. rewrite E1. reflexivity.
  - rewrite E1. change (syscall_handler to_lowercase from_utf8_lossy sha256 stat_pad fuel tramp base l _ 3 f (bm_sys (ut_b u))) with ('(r, s) ← sys_getpid s; Some (r, s, f)).
    unfold sys_getpid. change (sy_k s) with (kern (ut_b u)). rewrite Hpid, (ta_pid _ _ _ Ht). cbn [mbind option_bind]. unfold to_isize. rewrite as_signed_small by lia. reflexivity.
  - unfold knows, code_at, returned. rewrite !Forall_cons. cbn [fst snd rget]. split_and!; [assumption| |exact (Forall_nil_2 _)]. cbn. apply wrap_small. unfold fits. lia.
  - apply (sa_dev _ _ _ Hs).
  - by destruct Ht; split.
  - symmetry. by apply set_same.
Qed.

(** *** The heap *)

Lemma brk_call fuel me i (u : uthread) tc tc' off rs rs' v t' p' :
  at_point me i u tc -> running_task (kern (ut_b u)) lc tc -> points me !! i = Some (USER_CODE_BASE + Z.of_nat off, rs) ->
  take 2 (drop off init_bin) = encode SysCall -> (off + 2 <=? length init_bin)%nat = true -> rax (entering u off) = SYS_BRK ->
  sys_brk (kern (ut_b u)) (ut_table u) (bm_pool (ut_b u)) (bm_swap (ut_b u)) (rdi (entering u off)) =
    Some (v, set_tasks (kern (ut_b u)) (<[lc := tc']> (k_tasks (kern (ut_b u)))), t', p') -> t' = ut_table u -> p' = bm_pool (ut_b u) ->
  points me !! S i = Some (USER_CODE_BASE + Z.of_nat (off + 2), rs') -> knows (returned (entering u off) v) rs' ->
  g_heap (stage_of (S i)) = g_heap (stage_of i) -> g_word (stage_of (S i)) = g_word (stage_of i) -> g_stack (stage_of (S i)) = g_stack (stage_of i) -> g_nonblock (stage_of (S i)) = g_nonblock (stage_of i) ->
  task_at me (stage_of (S i)) tc' -> signalled (S i) = false -> same_run tc tc' -> stepped fuel me i u tc.
Proof.
  intros Hat Hr Hp Hb Hn E1 Hbrk -> -> Hp' Hk G1 G2 G3 G4 Ht Hih Hsr. pose proof (ap_space _ _ _ _ Hat) as Hs. set (f := entering u off) in *.
  set (k' := set_tasks (kern (ut_b u)) _) in *. pose (b' := set_space (ut_b u) k' (bm_pool (ut_b u)) (bm_swap (ut_b u)) (umem u) (sy_counters (bm_sys (ut_b u)))).
  eapply (call_point fuel me i u tc tc' off _ _ b' (ut_table u) v); [exact Hat|exact Hp|exact Hb|exact Hn| |exact Hp'|exact Hk| |exact Ht|exact Hih|exact Hsr|reflexivity]; fold f.
  - eapply (user_space_call_returns _ _ _ _ _ _ _ _ _ _ _ _ lc tc'); [unfold call_buffers; by rewrite E1|by rewrite E1| |apply Hr|apply running_updated with tc; [done|apply Hsr]|by eapply pending_none].
    unfold space_call. rewrite E1. change (SYS_BRK =? SYS_BRK) with true. cbv iota. fold (kern (ut_b u)). rewrite Hbrk. reflexivity.
  - destruct Hs as [A1 A2 A3 A4 A5 A6 A7 A8]. split; cbn [b' set_space bm_sys put_counters put_mem put_k sy_mem sy_dev sy_fs bm_pool]; rewrite ?G1, ?G2, ?G3, ?G4; [exact A1|exact A2|exact A3|exact A4|exact A5|exact A6|exact A7|exact A8].
Qed.

Lemma step_brk_query fuel me (u : uthread) tc :
  at_point me 20 u tc -> running_task (kern (ut_b u)) lc tc -> stepped fuel me 20 u tc.
Proof.
  intros Hat Hr. at_call 20%nat 80%nat. assert (E1 : rax f = 17) by done. assert (E2 : rdi f = 0) by done. destruct (running_ids _ _ _ Hr) as (Hid & _). pose proof Hr as (_ & Htk & Hb).
  eapply (brk_call fuel me 20 u tc tc 80 _ _ HEAP); [exact Hat|exact Hr|reflexivity|vm_compute; reflexivity|vm_compute; reflexivity|exact E1| |reflexivity|reflexivity|reflexivity|call_regs|reflexivity|reflexivity|reflexivity|reflexivity|exact Ht|reflexivity|apply same_run_refl].
  fold f. rewrite E2. unfold sys_brk. rewrite Hid. cbn [mbind option_bind]. rewrite Hb, Htk. cbn [mbind option_bind]. rewrite (proj2 (ta_heap _ _ _ Ht)), set_same by done. reflexivity.
Qed.

Lemma step_brk_grow fuel me (u : uthread) tc :
  at_point me 23 u tc -> running_task (kern (ut_b u)) lc tc -> stepped fuel me 23 u tc.
Proof.
  intros Hat Hr. at_call 23%nat 94%nat. assert (E1 : rax f = 17) by done. assert (E2 : rdi f = HEAP + 4096) by done. destruct (running_ids _ _ _ Hr) as (Hid & _). pose proof Hr as (_ & Htk & Hb).
  pose (tc' := with_space tc (cr3 tc) (mkVmm [STACK_AREA; HEAP_AREA] ∅) HEAP (HEAP + 4096)).
  eapply (brk_call fuel me 23 u tc tc' 94 _ _ (HEAP + 4096)); [exact Hat|exact Hr|reflexivity|vm_compute; reflexivity|vm_compute; reflexivity|exact E1| |reflexivity|reflexivity|reflexivity|call_regs|reflexivity|reflexivity|reflexivity|reflexivity| |reflexivity|by split_and!].
  - fold f. rewrite E2. unfold sys_brk. rewrite Hid. cbn [mbind option_bind]. rewrite Hb, Htk. cbn [mbind option_bind]. destruct Ht as [A1 A2 A3 [A4 A4'] A5]. rewrite A4, A4', A3.
    change (HEAP + 4096 =? 0) with false. cbv iota. change (align_up (HEAP + 4096)) with (Some (HEAP + 4096)). cbn [mbind option_bind].
    change ((HEAP + 4096 <? HEAP) || (STACK_BOTTOM <=? HEAP + 4096)) with false. change (g_grown (stage_of 23)) with false. cbv iota. change (HEAP <? HEAP + 4096) with true. cbv iota.
    rewrite !VirtAddr_new_low by (unfold HEAP; lia). reflexivity.
  - destruct Ht as [A1 A2 A3 [A4 A4'] A5]. by split.
Qed.

(** The first store to the heap faults. *)
Lemma step_heap_fault fuel me (u : uthread) tc :
  at_point me 25 u tc -> running_task (kern (ut_b u)) lc tc -> stepped fuel me 25 u tc.
Proof.
  intros Hat Hr. at_call 25%nat 102%nat. destruct (point_regs me 25 u tc _ _ Hat eq_refl) as [Hrip Hkn].
  pose proof (sa_heap _ _ _ Hs) as Hh. change (entry (ut_table u) HEAP = None) in Hh. destruct (sa_pool _ _ _ Hs) as ([|fr fs] & Hp & Hn); [cbn in Hn; lia|]. change (8 <= S (length fs))%nat in Hn.
  assert (Hca : containing_address HEAP = HEAP) by by rewrite containing_address_spec.
  destruct (fault_area true HEAP (ut_b u) (ut_table u) lc tc HEAP_AREA fr fs Hr) as (t' & p' & fs' & m' & E & He & Ho & Hp' & Hcnt & Hm);
    [by rewrite (ta_vmm _ _ _ Ht)|by rewrite (ta_vmm _ _ _ Ht)|by rewrite Hca|done|lia|]. rewrite Hca in *. assert (Hrax : rax (ut_f u) = HEAP) by assumption.
  eexists (mkUthread (set_space (ut_b u) _ p' (bm_swap (ut_b u)) m' (sy_counters (bm_sys (ut_b u)))) t' (ut_f u) (ut_rip u) (ut_rflags u)), tc. split; [|split; [|split; [apply same_run_refl|reflexivity]]].
  - rewrite (step_code fuel _ u 102 (StoreImm RAX 0xCAFEBABE) Hs Hrip ltac:(vm_compute; reflexivity) eq_refl ltac:(apply Nat.leb_le; vm_compute; reflexivity)). cbn [operand rget]. rewrite Hrax.
    assert (accessible (ut_table u) true HEAP = false) as -> by (unfold accessible; by rewrite Hca, Hh). cbn [negb]. unfold user_fault. rewrite E. reflexivity.
  - assert (Hcode : forall x, USER_CODE_BASE <= x < USER_CODE_BASE + 176 -> get m' x = get (umem u) x) by (intros x Hx; apply Hm; unfold HEAP, USER_CODE_BASE in *; lia).
    destruct Hs as [A1 A2 A3 A4 A5 A6 A7 A8]. split; cbn [ut_rip ut_f ut_rflags ut_b ut_table].
    + eexists. split; [rewrite Hrip; reflexivity|exact Hkn].
    + apply (ap_fits _ _ _ _ Hat).
    + split; cbn [set_space bm_sys put_counters put_mem put_k sy_mem sy_dev sy_fs bm_pool].
      * destruct A1 as [g Hg]. exists g. by rewrite Ho.
      * rewrite <- A2 at 2. apply read_bytes_ext. exact Hcode.
      * exists fs'. split; [done|]. cbn. lia.
      * by exists fr.
      * done.
      * change (entry t' STACK_PAGE = None). by rewrite Ho.
      * done.
      * done.
    + done.
    + by destruct Ht; split.
Qed.

Lemma step_store fuel me (u : uthread) tc :
  at_point me 26 u tc -> running_task (kern (ut_b u)) lc tc -> stepped fuel me 26 u tc.
Proof.
  intros Hat Hr. at_call 26%nat 102%nat. destruct (point_regs me 26 u tc _ _ Hat eq_refl) as [Hrip Hkn]. pose proof (sa_heap _ _ _ Hs) as [fr Hh].
  assert (Hacc : forall a, a / 4096 * 4096 = HEAP -> accessible (ut_table u) true a = true) by (intros a Ha; apply (accessible_entry _ _ _ fr 7); [by rewrite containing_address_spec, Ha|done|done]). assert (Hrax : rax (ut_f u) = HEAP) by assumption.
  eexists (mkUthread (put_bytes (ut_b u) HEAP (le_encode 4 0xCAFEBABE)) (ut_table u) (ut_f u) (USER_CODE_BASE + 108) (ut_rflags u)), tc. split; [|split; [|split; [apply same_run_refl|]]].
  - rewrite (step_code fuel _ u 102 (StoreImm RAX 0xCAFEBABE) Hs Hrip ltac:(vm_compute; reflexivity) eq_refl ltac:(apply Nat.leb_le; vm_compute; reflexivity)). cbn [operand rget]. rewrite Hrax.
    rewrite !Hacc by done. cbn [negb exec rget]. rewrite Hrax, Hrip. reflexivity.
  - assert (Hcode : forall x, USER_CODE_BASE <= x < USER_CODE_BASE + 176 -> get (write_bytes (umem u) HEAP (le_encode 4 0xCAFEBABE)) x = get (umem u) x)
      by (intros x Hx; apply get_write_bytes_out; unfold HEAP, USER_CODE_BASE in *; lia).
    destruct Hs as [A1 A2 A3 A4 A5 A6 A7 A8]. split; cbn [ut_rip ut_f ut_rflags ut_b ut_table].
    + eexists. split; [reflexivity|]. unfold knows. rewrite Forall_cons. split; [by match goal with E : user_rsp _ = _ |- _ => exact E end|apply Forall_nil_2].
    + apply (ap_fits _ _ _ _ Hat).
    + split; cbn [put_bytes set_sys put_mem bm_sys sy_mem sy_dev sy_fs bm_pool]; [exact A1| |exact A3|exact A4| |exact A6|exact A7|exact A8].
      * rewrite <- A2 at 2. apply read_bytes_ext. exact Hcode.
      * intros _. apply (read_write_bytes (umem u) HEAP (le_encode 4 0xCAFEBABE)).
    + done.
    + by destruct Ht; split.
  - symmetry. cbn. by apply set_same.
Qed.

(** *** The signal *)

(** Delivering the signal to a task whose stack has not been used. *)
Lemma deliver_handler me (b : machine) t tc f fr fs :
  running_task (kern b) lc tc -> vmm tc = mkVmm [STACK_AREA; HEAP_AREA] ∅ -> signals tc = set_pending (set_handler signals_new 10 HANDLER) 10 ->
  entry t STACK_PAGE = None -> pool_at (bm_pool b) (fr :: fs) -> (3 <= length fs)%nat ->
  frame_fits f -> rcx f = AFTER_KILL -> knows f [(RSP, USER_STACK_TOP); (R12, me)] ->
  exists t' p' m', let tc' := with_signals tc (set_handler signals_new 10 HANDLER) in let k' := set_tasks (kern b) (<[lc := tc']> (k_tasks (kern b))) in
    ('(b, t) ← touch_all true (b, t) (signal_writes (kern b) f);
     '(r, s, f) ← deliver_pending_signal f (bm_sys b);
     match r with Ret _ => Some (UNext (mkUthread (set_sys b s) t f (rcx f) (r11 f))) | _ => Some (UExit (set_sys b s)) end) =
    Some (UNext (mkUthread (set_space b k' p' (bm_swap b) m' (sy_counters (bm_sys b))) t' (rset (rset (rset f RDI 10) RCX HANDLER) RSP SIGNAL_SP) HANDLER (r11 f))) /\
    (exists g, entry t' STACK_PAGE = Some (g, 7)) /\ (forall q, q <> STACK_PAGE -> entry t' q = entry t q) /\ (exists fs', pool_at p' fs') /\
    signal_frame me m' /\ (forall x, x < STACK_PAGE -> get m' x = get (sy_mem (bm_sys b)) x).
Proof.
  intros Hr Hv Hsg He Hp Hl Hf Hrcx Hkn. pose proof Hkn as Hkn'. known. assert (Hsp : user_rsp f = USER_STACK_TOP) by assumption.
  destruct (running_ids _ _ _ Hr) as (Hid & _). pose proof Hr as (Hc & Htk & Hb).
  assert (Hnp : next_pending (signals tc) = Some (Some (10, HANDLER))) by (rewrite Hsg; vm_compute; reflexivity).
  assert (Hw : signal_writes (kern b) f = [(SIGNAL_SP, 160)]) by (unfold signal_writes, current_task; rewrite Hid; cbn [mbind option_bind]; rewrite Hb; cbn [mbind option_bind]; rewrite Htk, Hnp, Hsp; reflexivity).
  assert (Hca : containing_address SIGNAL_SP = STACK_PAGE) by by rewrite containing_address_spec.
  destruct (fault_area true SIGNAL_SP b t lc tc STACK_AREA fr fs Hr) as (t' & p' & fs' & m1 & Ef & He' & Ho & Hp' & _ & Hm1); [by rewrite Hv, Hca|by rewrite Hv|by rewrite Hca|done|done|]. rewrite Hca in *. cbv zeta in Ef.
  rewrite Hw. cbn [touch_all foldl mbind option_bind]. rewrite touch_range_page by (try lia; reflexivity). unfold touch. cbn [snd].
  assert (accessible t true SIGNAL_SP = false) as -> by (unfold accessible; by rewrite Hca, He). rewrite Ef. cbn [mbind option_bind].
  destruct (push_handler_frame_spec f m1 10 HANDLER Hf) as (f' & m' & E & Ef' & _ & _ & _ & _ & Htop & Hcode & Hsaved & Hout); [rewrite Hsp; done|]. cbv zeta in *.
  assert (Hrsp : user_rsp f' = SIGNAL_SP) by (rewrite (push_handler_frame_rsp _ _ _ _ _ _ E), Hsp; reflexivity). rewrite Hrsp in *.
  exists t', p', m'. cbv zeta. split_and!; [|by exists fr|done|by exists fs'| |].
  - rewrite set_same in * by done. unfold deliver_pending_signal. cbn [set_space bm_sys put_counters put_mem put_k sy_k sy_mem]. rewrite Hid. cbn [mbind option_bind]. rewrite Hb, Htk. cbn [mbind option_bind].
    unfold deliver. rewrite Hnp. cbn [mbind option_bind]. change (HANDLER =? 0) with false. cbv iota. rewrite E. cbn [mbind option_bind]. rewrite Hsg.
    change (clear_pending (set_pending (set_handler signals_new 10 HANDLER) 10) 10) with (set_handler signals_new 10 HANDLER). rewrite Ef'. reflexivity.
  - split; [done|]. split; [done|]. cbv zeta. by rewrite Hsaved.
  - intros x Hx. rewrite Hout, Hm1; [done|lia|]. left. unfold STACK_PAGE, SIGNAL_SP in *. lia.
Qed.

Lemma step_kill fuel me (u : uthread) tc :
  fits 31 me -> at_point me 37 u tc -> running_task (kern (ut_b u)) lc tc -> state tc <> Blocked -> find_pid (kern (ut_b u)) me = Some (tid tc) -> stepped fuel me 37 u tc.
Proof.
  intros [Hm0 Hm1] Hat Hr Hst Hfind. at_call 37%nat 150%nat. destruct (ap_fits _ _ _ _ Hat) as [Hfits Hrf].
  assert (E1 : rax f = 53) by done. assert (E2 : rdi f = me) by done. assert (E3 : rsi f = 10) by done. pose proof Hr as (_ & Htk & Hb). fold k in Htk, Hb, Hfind.
  pose (tc1 := with_signals tc (set_pending (signals tc) 10)). pose (s1 := put_k s (set_tasks k (<[lc := tc1]> (k_tasks k)))). pose (b1 := set_sys (ut_b u) s1).
  assert (Hr1 : running_task (kern b1) lc tc1) by by apply running_updated with tc.
  destruct (sa_pool _ _ _ Hs) as ([|fr fs] & Hp & Hn); [cbn in Hn; lia|]. change (4 <= S (length fs))%nat in Hn. pose proof (sa_stack _ _ _ Hs) as Hk. change (entry (ut_table u) STACK_PAGE = None) in Hk.
  destruct (deliver_handler me b1 (ut_table u) tc1 (returned f 0) fr fs Hr1) as (t' & p' & m' & E & Hstk & Ho & Hp' & Hsf & Hm); cbv zeta in *;
    [apply (ta_vmm _ _ _ Ht)|cbn; by rewrite (ta_signals _ _ _ Ht)|done|done|lia|apply (rset_fits _ RAX); [by apply entering_fits; [..|lia]|done]|done|unfold knows; rewrite !Forall_cons; by split_and!|].
  eexists _, _. split; [|split; [|split; [|]]].
  - rewrite (step_call fuel me 37 u tc 150 _ Hat eq_refl) by (vm_compute; reflexivity). fold f. unfold user_syscall. assert (call_buffers f = []) as -> by (unfold call_buffers; by rewrite E1). cbn [touch_all foldl mbind option_bind].
    rewrite E1. change (is_space_call 53) with false. cbv iota. change (syscall_handler to_lowercase from_utf8_lossy sha256 stat_pad fuel tramp base l _ 53 f (bm_sys (ut_b u))) with ('(r, s) ← sys_kill s (rdi f) (rsi f); Some (r, s, f)).
    rewrite E2, E3. unfold sys_kill. change (wrap 8 10) with 10. change (MAX_SIGNALS <=? 10) with false. cbv iota. change (sy_k s) with k. rewrite Hfind. rewrite Hb. cbn [mbind option_bind]. rewrite Htk. cbn [mbind option_bind].
    assert (Hnb : forall k1 : kernel, (match state tc with Blocked => unblock_tid k1 (tid tc) | _ => Some k1 end) = Some k1) by (intros k1; by destruct (state tc)). rewrite Hnb. cbn [mbind option_bind ret].
    rewrite bool_decide_true by done. cbn [negb]. fold tc1 s1 b1. exact E.
  - destruct Hs as [A1 A2 A3 A4 A5 A6 A7 A8]. split; cbn [ut_rip ut_f ut_rflags ut_b ut_table].
    + eexists. split; [reflexivity|]. unfold knows. rewrite Forall_cons. by split; [|apply Forall_nil_2].
    + split; [|done]. do 3 (apply rset_fits; [|done]). apply (rset_fits _ RAX); [by apply entering_fits; [..|lia]|done].
    + split; cbn [set_space bm_sys put_counters put_mem put_k sy_mem sy_dev sy_fs bm_pool].
      * destruct A1 as [g Hg]. exists g. by rewrite Ho.
      * rewrite <- A2 at 2. apply read_bytes_ext. intros x Hx. apply Hm. change (length init_bin) with 176%nat in Hx. unfold STACK_PAGE, USER_CODE_BASE in *. lia.
      * destruct Hp' as [fs' Hp']. exists fs'. split; [done|]. cbn. lia.
      * destruct A4 as [g Hg]. exists g. by rewrite Ho.
      * intros _. rewrite <- (A5 eq_refl). apply read_bytes_ext. intros x Hx. apply Hm. unfold STACK_PAGE, HEAP in *. lia.
      * exact Hstk.
      * exact A7.
      * exact A8.
    + intros _. exact Hsf.
    + instantiate (1 := with_signals tc1 (set_handler signals_new 10 HANDLER)). by destruct Ht as [B1 B2 B3 B4 B5]; split.
  - by split_and!.
  - cbn. by rewrite insert_insert_eq.
Qed.

Lemma stack_accessible g (b : machine) t w a : space_at g b t -> g_stack g = true -> a / 4096 * 4096 = STACK_PAGE -> accessible t w a = true.
Proof.
  intros Hs Hg Ha. pose proof (sa_stack _ _ _ Hs) as Hk. rewrite Hg in Hk. destruct Hk as [f Hf]. apply (accessible_entry _ _ _ f 7); [by rewrite containing_address_spec, Ha|done|done].
Qed.

(** The handler returns into the trampoline. *)
Lemma step_handler fuel me (u : uthread) tc :
  at_point me 38 u tc -> running_task (kern (ut_b u)) lc tc -> stepped fuel me 38 u tc.
Proof.
  intros Hat Hr. destruct (point_regs me 38 u tc _ _ Hat eq_refl) as [Hrip Hkn]. known. assert (Hsp : user_rsp (ut_f u) = SIGNAL_SP) by assumption.
  pose proof (ap_space _ _ _ _ Hat) as Hs. pose proof (ap_task _ _ _ _ Hat) as Ht. destruct (ap_fits _ _ _ _ Hat) as [Hfits Hrf]. destruct (ap_signal _ _ _ _ Hat eq_refl) as (Htop & Hrest).
  exists (mkUthread (ut_b u) (ut_table u) (rset (ut_f u) RSP (SIGNAL_SP + 8)) (SIGNAL_SP + 8) (ut_rflags u)), tc. split; [|split; [|split; [apply same_run_refl|symmetry; by apply set_same]]].
  - change HANDLER with (USER_CODE_BASE + Z.of_nat 164) in Hrip. rewrite (step_code fuel _ u 164 RetQ Hs Hrip ltac:(vm_compute; reflexivity) eq_refl ltac:(apply Nat.leb_le; vm_compute; reflexivity)). cbn [operand]. rewrite Hsp.
    rewrite !(stack_accessible _ _ _ _ _ Hs) by done. cbn [negb exec]. fold (umem u). rewrite Hsp, Htop. reflexivity.
  - split; cbn [ut_rip ut_f ut_rflags ut_b ut_table]; [|by split; [apply rset_fits|]|exact Hs|by intros _; split|exact Ht].
    eexists. split; [reflexivity|]. unfold knows. rewrite Forall_cons. by split; [|apply Forall_nil_2].
Qed.

Lemma trampoline_bytes m : read_bytes m (SIGNAL_SP + 8) 7 = encode (MovImm RAX 54) ++ encode SysCall ->
  read_bytes m (SIGNAL_SP + 8) 5 = encode (MovImm RAX 54) /\ read_bytes m (SIGNAL_SP + 13) 2 = encode SysCall.
Proof.
  intros E. change 7%nat with (5 + 2)%nat in E. rewrite (read_bytes_app m (SIGNAL_SP + 8) 5 2) in E. apply app_inj_1 in E; [exact E|by rewrite read_bytes_length].
Qed.

Lemma step_trampoline fuel me (u : uthread) tc :
  at_point me 39 u tc -> running_task (kern (ut_b u)) lc tc -> stepped fuel me 39 u tc.
Proof.
  intros Hat Hr. destruct (point_regs me 39 u tc _ _ Hat eq_refl) as [Hrip Hkn]. known.
  pose proof (ap_space _ _ _ _ Hat) as Hs. pose proof (ap_task _ _ _ _ Hat) as Ht. destruct (ap_fits _ _ _ _ Hat) as [Hfits Hrf]. pose proof (ap_signal _ _ _ _ Hat eq_refl) as Hsf. pose proof Hsf as (_ & Hcode & _).
  destruct (trampoline_bytes _ Hcode) as [Hb _]. pose proof (sa_stack _ _ _ Hs) as [fr Hfr].
  exists (mkUthread (ut_b u) (ut_table u) (rset (ut_f u) RAX 54) (SIGNAL_SP + 13) (ut_rflags u)), tc. split; [|split; [|split; [apply same_run_refl|symmetry; by apply set_same]]].
  - rewrite (step_fetched fuel u (MovImm RAX 54) fr 7); rewrite ?Hrip; [|exact Hfr|done|exact Hb|done|done]. cbn [operand]. rewrite (exec_plain fuel u (MovImm RAX 54) _ (rset (ut_f u) RAX 54)) by done. reflexivity.
  - split; cbn [ut_rip ut_f ut_rflags ut_b ut_table]; [|by split; [apply rset_fits|]|exact Hs|done|exact Ht].
    eexists. split; [reflexivity|]. unfold knows. rewrite !Forall_cons. by split_and!; [..|apply Forall_nil_2].
Qed.

Lemma step_sigreturn fuel me (u : uthread) tc :
  at_point me 40 u tc -> running_task (kern (ut_b u)) lc tc -> stepped fuel me 40 u tc.
Proof.
  intros Hat Hr. destruct (point_regs me 40 u tc _ _ Hat eq_refl) as [Hrip Hkn]. known. assert (Hsp : user_rsp (ut_f u) = SIGNAL_SP + 8) by assumption. assert (Hrax : rax (ut_f u) = 54) by assumption.
  pose proof (ap_space _ _ _ _ Hat) as Hs. pose proof (ap_task _ _ _ _ Hat) as Ht. pose proof (ap_signal _ _ _ _ Hat eq_refl) as Hsig. pose proof Hsig as (_ & Hcode & Hsf & Hret & Hks). set (saved := read_frame (umem u) (SIGNAL_SP + 24)) in *.
  destruct (trampoline_bytes _ Hcode) as [_ Hb]. pose proof (sa_stack _ _ _ Hs) as [fr Hfr]. pose proof (pending_none _ _ _ Ht) as Hpn.
  exists (mkUthread (ut_b u) (ut_table u) (rset saved RAX (wrap 64 (to_isize (rax saved)))) AFTER_KILL (r11 saved)), tc. split; [|split; [|split; [apply same_run_refl|symmetry; by apply set_same]]].
  - rewrite (step_fetched fuel u SysCall fr 7); rewrite ?Hrip; [|exact Hfr|done|exact Hb|done|done]. cbn [operand exec]. set (f := rset (rset _ _ _) _ _). assert (E1 : rax f = 54) by done. assert (E2 : user_rsp f = SIGNAL_SP + 8) by done.
    unfold user_syscall. assert (call_buffers f = [(SIGNAL_SP + 24, 128)]) as -> by (unfold call_buffers; by rewrite E1, E2). cbn [touch_all foldl mbind option_bind].
    rewrite touch_range_page, touch_accessible by (try lia; try reflexivity; apply (stack_accessible _ _ _ _ _ Hs); reflexivity). cbn [mbind option_bind]. rewrite E1. change (is_space_call 54) with false. cbv iota.
    unfold syscall_handler. change (54 =? SYS_SIGRETURN) with true. cbv iota. unfold sigreturn. rewrite E2. change (uadd 64 (SIGNAL_SP + 8) 16) with (Some (SIGNAL_SP + 24)). cbn [mbind option_bind]. fold (umem u) saved.
    rewrite bool_decide_true by done. cbn [negb]. assert (set_sys (ut_b u) (bm_sys (ut_b u)) = ut_b u) as -> by by destruct (ut_b u).
    rewrite (no_signal_writes _ _ _ _ Hr Hpn). cbn [touch_all foldl mbind option_bind]. rewrite (no_delivery _ _ _ _ Hr Hpn). cbn [mbind option_bind]. assert (set_sys (ut_b u) (bm_sys (ut_b u)) = ut_b u) as -> by by destruct (ut_b u).
    cbn [rcx r11 set_rax]. by rewrite Hret.
  - known. split; cbn [ut_rip ut_f ut_rflags ut_b ut_table]; [| |exact Hs|by intros _|exact Ht].
    + eexists. split; [reflexivity|]. unfold knows. rewrite !Forall_cons. split_and!; [assumption|assumption|apply Forall_nil_2].
    + split; [apply rset_fits; [done|apply wrap_fits; lia]|by apply (rget_fits saved R11)].
Qed.

(** ** The whole run *)

(** The running task is not blocked and has its identifier for itself. *)
Definition runs_as (k : kernel) (tc : Task) : Prop := running_task k lc tc /\ state tc <> Blocked /\ find_pid k (pid tc) = Some (tid tc).

Lemma step_point fuel me i (u : uthread) tc : fits 31 me -> (i < 43)%nat -> at_point me i u tc -> runs_as (kern (ut_b u)) tc -> stepped fuel me i u tc.
Proof.
  intros Hme Hi Hat (Hr & Hst & Hfind). rewrite (ta_pid _ _ _ (ap_task _ _ _ _ Hat)) in Hfind.
  destruct (decide (i ∈ plain_points)) as [Hp|Hp]; [by apply step_plain_point|].
  assert (Hin : i ∈ [4; 8; 14; 17; 20; 23; 25; 26; 30; 32; 37; 38; 39; 40]%nat).
  { assert (Hall : forall j, j ∈ seq 0 43 -> j ∈ plain_points \/ j ∈ [4; 8; 14; 17; 20; 23; 25; 26; 30; 32; 37; 38; 39; 40]%nat).
    { apply Forall_forall. refine (bool_decide_eq_true_1 _ _). vm_compute. reflexivity. }
    destruct (Hall i); [apply elem_of_seq; lia|done|done]. }
  repeat (apply elem_of_cons in Hin as [->|Hin]); [..|by apply not_elem_of_nil in Hin].
  - by apply step_login.
  - by apply step_open_dev.
  - by apply step_ioctl.
  - by apply step_close_dev.
  - by apply step_brk_query.
  - by apply step_brk_grow.
  - by apply step_heap_fault.
  - by apply step_store.
  - by apply step_signal.
  - by apply step_getpid.
  - by apply step_kill.
  - by apply step_handler.
  - by apply step_trampoline.
  - by apply step_sigreturn.
Qed.

(** The last call ends the task with its identifier as exit code. *)
Lemma step_exit fuel me (u : uthread) tc k' sw :
  fits 31 me -> at_point me 43 u tc -> exit (kern (ut_b u)) me = Some (k', sw) -> step fuel u = Some (UExit (set_kern (ut_b u) k')).
Proof.
  intros [Hm0 Hm1] Hat E. at_call 43%nat 160%nat. assert (E1 : rax f = 1) by done. assert (E2 : rdi f = me) by done.
  rewrite (step_call fuel me 43 u tc 160 _ Hat eq_refl) by (vm_compute; reflexivity). fold f. unfold user_syscall. assert (call_buffers f = []) as -> by (unfold call_buffers; by rewrite E1). cbn [touch_all foldl mbind option_bind].
  rewrite E1. change (is_space_call 1) with false. cbv iota. change (syscall_handler to_lowercase from_utf8_lossy sha256 stat_pad fuel tramp base l _ 1 f (bm_sys (ut_b u))) with ('(r, s) ← sys_exit s (rdi f); Some (r, s, f)).
  rewrite E2. unfold sys_exit. rewrite (wrap_small 32) by (unfold fits; lia). rewrite as_signed_small by lia. unfold s. fold (kern (ut_b u)). rewrite E. reflexivity.
Qed.

End Init.
