(* ===== verification/UserTest.v ===== *)
(** The self-test that runs a program in user mode ([user_mode_smoke_test] of
    [kernel/src/main.rs]): the boot task loads [/init], spawns it and waits for
    it, while the timer interrupts wherever it likes.

    As in [Children], the test is a step system over [Boot.machine]: the
    processor takes a timer interrupt or runs the current task to its next
    step.  A step of the boot task is starting the program or one turn of
    [wait]; a step of the program is its first entry into user mode, one
    instruction, or one page fault ([User.user_step]).  A system call runs with
    interrupts masked and is part of its instruction.  A panic, an assertion
    that fails, or a call of the program that would wait, is [None]. *)

From S2P Require Import Prelude Bytes X86 Frames Disk Swap Vmm Signal Task Cpu Sched Sync Ipc Security Console Fat Mount Records Vfs Loader Syscall Boot Children User Init.

Definition with_parent (t : Task) (p : option Z) : Task :=
  mkTask (pid t) (tid t) (thread_group t) (state t) (rsp t) (cr3 t) (preempt_count t) (priority t) p (children t) (exit_code t) (vmm t)
    (kernel_stack_top t) (scratch t) (user_entry t) (user_stack t) (uid t) (gid t) (heap_start t) (brk t) (signals t) (kernel_stack t).

(** Where the program is: not yet started, queued with its address space, or in
    user mode with its registers. *)
Inductive user_pc {T : Type} := PNone | PLoaded (t : T) | PUser (t : T) (f : TrapFrame) (rip rflags : Z) | PGone.
Arguments user_pc : clear implicits.

Section UserTest.
Context `{X86Addr} {T : Type} `{TopLevel T}.
Context {V : Type} {F : FatVolume V} {L : FatLaws V} {G : FatGrowth V}.
Context (to_lowercase from_utf8_lossy : list Z -> list Z) (sha256 : list Z -> list Z) (stat_pad : list Z).
(** The trampolines; the stack of the program's task, and the stack and address a
    task made by one of its calls would get; the tasks: boot, idle, program. *)
Context (tramp utramp base base' l' l0 l1 lc : Z).
(** The registers the kernel leaves at the first entry; the fuel of the handler's loops. *)
Context (regs0 : TrapFrame) (fuel : nat).

Abbreviation machine := (Boot.machine (T := T) (V := V)).
Abbreviation bootm := (kmon machine boot_failure).

(** ** The test *)

(** Up to the wait; the answer is the process to wait for, and its space. *)
(* main.rs:373-377 user_mode_smoke_test *)
Definition user_spawn : bootm (Z * T) :=
  let! b := kget in
  let s := bm_sys b in
  let! r := need (load_path to_lowercase tramp utramp base (bm_l4 b) (bm_table b) (bm_pool b) (sy_mem s) (sy_counters s) (sy_k s) (sy_fs s) INIT_PATH 0) in
  let '(task, child, p, m, c, f) := r in
  let! ppid := need (current_pid (sy_k s)) in
  kput (set_memory (set_sys b (put_fs s f)) (bm_table b) p (bm_virt b)) ;;;
  let! t := start_child lc (fun _ _ => Some (with_parent task (Some ppid), m, c)) in
  kret (pid t, child).

Record urun := mkUrun { ur_b : machine; ur_boot : boot_pc; ur_user : user_pc T }.

Definition with_ukern (r : urun) (k : kernel) : urun := mkUrun (set_kern (ur_b r) k) (ur_boot r) (ur_user r).

(* main.rs:373-382 user_mode_smoke_test *)
Definition user_test_step (r : urun) : option urun :=
  match ur_boot r with
  | BStart =>
      '(res, b) ← user_spawn (ur_b r);
      match res with Ok (id, t) => Some (mkUrun b (BJoin id) (PLoaded t)) | Err _ => None end
  | BJoin id =>
      '(res, k, _) ← wait_iter (kern (ur_b r)) id;
      match res with
      | None => Some (with_ukern r k)
      | Some code => if wrap 64 code =? id then Some (mkUrun (set_kern (ur_b r) k) (BDone code) (ur_user r)) else None
      end
  | BDone _ => Some r
  end.

Definition program_step (r : urun) : option urun :=
  match ur_user r with
  | PNone | PGone => Some r
  | PLoaded t =>
      u ← user_enter (ur_b r) t regs0;
      Some (mkUrun (ut_b u) (ur_boot r) (PUser (ut_table u) (ut_f u) (ut_rip u) (ut_rflags u)))
  | PUser t f rip rflags =>
      res ← user_step to_lowercase from_utf8_lossy sha256 stat_pad tramp base' l' fuel (mkUthread (ur_b r) t f rip rflags);
      match res with
      | UNext u => Some (mkUrun (ut_b u) (ur_boot r) (PUser (ut_table u) (ut_f u) (ut_rip u) (ut_rflags u)))
      | UExit b => Some (mkUrun b (ur_boot r) PGone)
      | UWait _ => None
      end
  end.

Definition urstep (r : urun) (e : tevent) : option urun :=
  match e with
  | Tick => '(k, _) ← timer_handler (kern (ur_b r)); Some (with_ukern r k)
  | Run =>
      l ← current (k_sched (kern (ur_b r)));
      if l =? l0 then user_test_step r else if l =? lc then program_step r else Some r
  end.

Fixpoint run_user_events (r : urun) (es : list tevent) : option urun :=
  match es with
  | [] => Some r
  | e :: es => r ← urstep r e; run_user_events r es
  end.

(** ** Starting the program *)

Context (Hl01 : l0 <> l1) (Hl0c : l0 <> lc) (Hl1c : l1 <> lc) (Hbase : 0 < base < 2 ^ 63) (Hregs : frame_fits regs0).

Abbreviation core := (Children.core l0 l1 lc).
Abbreviation child_at := (Children.child_at lc ForkTest).

(** The state the test starts in: as for the other tests, with the program in its
    file, the console, the test user and the frames the program needs; the
    kernel has nothing where the program's code and stack will be. *)
Record user_ready (me : Z) (b : machine) : Prop := mkUserReady {
  us_ready : ready l0 l1 lc CloneTest b;
  us_pid : NEXT_PID (sy_counters (bm_sys b)) = me /\ fits 31 me;
  us_file : exists d, disk (sy_fs (bm_sys b)) = Some d /\ files d INIT_FILE = Some init_bin;
  us_closed : fcbs (sy_fs (bm_sys b)) = ∅;
  us_fds : forall t, k_tasks (kern b) !! l0 = Some t -> 0 <= next_fd (table_for (fds (sy_fs (bm_sys b))) (pid t)) < 2 ^ 63;
  us_dev : sy_dev (bm_sys b) = [mkDevice "console" true];
  us_auth : verify_password sha256 (sy_fs (bm_sys b)) 1 TEST_PASSWORD = true;
  us_pool : exists fs, pool_at (bm_pool b) fs /\ (13 <= length fs)%nat;
  us_l4 : bm_l4 b (l4_index USER_CODE_BASE) = false /\ bm_l4 b (l4_index STACK_PAGE) = false
}.

(** The program is loaded and has not run. *)
Record loaded (me : Z) (b : machine) (t : T) (tc : Task) : Prop := mkLoaded {
  ld_code : exists f, entry t USER_CODE_BASE = Some (f, CODE_FLAGS) /\ read_bytes (p_mem (bm_pool b)) (PHYS_MEM_OFFSET + f) (length init_bin) = init_bin;
  ld_pool : exists fs, pool_at (bm_pool b) fs /\ (8 <= length fs)%nat;
  ld_free : entry t HEAP = None /\ entry t STACK_PAGE = None;
  ld_dev : sy_dev (bm_sys b) = [mkDevice "console" true];
  ld_auth : verify_password sha256 (sy_fs (bm_sys b)) 1 TEST_PASSWORD = true;
  ld_task : task_at me (stage_of 0) tc;
  ld_entry : user_entry tc = USER_CODE_BASE /\ user_stack tc = USER_STACK_TOP
}.

Lemma load_init (b : machine) me fs m :
  user_ready me b -> pool_at (bm_pool b) fs -> (13 <= length fs)%nat ->
  exists task child p' m' c', load_flat tramp utramp base (bm_l4 b) (bm_table b) (bm_pool b) m (sy_counters (bm_sys b)) init_bin 0 = Some (task, child, p', m', c') /\
    tid task = NEXT_TID (sy_counters (bm_sys b)) /\ state task = Ready /\ priority task = 0 /\
    forall b' ppid, bm_pool b' = p' -> sy_dev (bm_sys b') = sy_dev (bm_sys b) -> auth (sy_fs (bm_sys b')) = auth (sy_fs (bm_sys b)) -> loaded me b' child (with_parent task ppid).
Proof.
  intros [_ [Hid Hme] _ _ _ Hdev Ha _ [Hk0 Hk255]] Hp Hn. change (l4_index USER_CODE_BASE) with 0 in Hk0.
  destruct (load_flat_spec tramp utramp base (bm_l4 b) (bm_table b) (bm_pool b) fs m (sy_counters (bm_sys b)) init_bin 0 Hbase Hk0) as
    (task & child & p' & m' & c' & fs' & E & Hcode & Hoth & Hen & Hst & Hv & Hbrk & Hal & Hhs & _ & Hp' & Hcnt & [[Htid Hpid] [Hs Hpr] (Hu & Hg & Hsig)]);
    [reflexivity|done|change (page_steps 0 (Z.of_nat (length init_bin))) with 1%nat; lia|].
  change (page_steps 0 (Z.of_nat (length init_bin))) with 1%nat in Hcnt. change (Z.of_nat (length init_bin)) with 176 in Hhs.
  assert (Hheap : heap_start task = HEAP) by (destruct Hal as [z Hz]; unfold HEAP, USER_CODE_BASE in *; lia).
  exists task, child, p', m', c'. split_and!; [done..|]. intros b' ppid Ep Ed Ea. split.
  - destruct (Hcode USER_CODE_BASE) as (ph & Ht & _); [unfold USER_CODE_BASE in *; lia|]. rewrite translate_spec in Ht. change (USER_CODE_BASE / 4096 * 4096) with USER_CODE_BASE in Ht.
    destruct (entry child USER_CODE_BASE) as [[f fl]|] eqn:Ef; [|done]. injection Ht as _ Hfl. subst fl. exists f. split; [done|]. rewrite Ep.
    apply list_eq. intros i. destruct (decide (i < length init_bin)%nat) as [Hi|Hi]; [|rewrite !lookup_ge_None_2; [done|lia|rewrite read_bytes_length; lia]].
    rewrite read_bytes_lookup by done. destruct (lookup_lt_is_Some_2 init_bin i Hi) as [x Hx]. rewrite Hx. f_equal. change (length init_bin) with 176%nat in Hi.
    destruct (Hcode (USER_CODE_BASE + Z.of_nat i)) as (ph2 & Ht2 & Hg2); [unfold USER_CODE_BASE, HEAP in *; lia|]. rewrite translate_spec in Ht2.
    replace ((USER_CODE_BASE + Z.of_nat i) / 4096 * 4096) with USER_CODE_BASE in Ht2 by (unfold USER_CODE_BASE; rewrite <- (Z.div_unique (4194304 + Z.of_nat i) 4096 1024 (Z.of_nat i)); lia).
    replace ((USER_CODE_BASE + Z.of_nat i) mod 4096) with (Z.of_nat i) in Ht2 by (unfold USER_CODE_BASE; apply (Z.mod_unique _ _ 1024); lia).
    rewrite Ef in Ht2. injection Ht2 as <-. cbn [fst] in Hg2. replace (Z.to_nat (USER_CODE_BASE + Z.of_nat i - USER_CODE_BASE)) with i in Hg2 by lia. rewrite Hx in Hg2. cbn in Hg2.
    rewrite <- Hg2. f_equal. lia.
  - rewrite Ep. exists fs'. split; [done|lia].
  - assert (Hnc : forall q, HEAP <= q -> ~ code_page init_bin 0 q) by (intros q Hq [_ Hc]; change (Z.of_nat (length init_bin)) with 176 in Hc; unfold HEAP, USER_CODE_BASE in *; lia).
    rewrite !Hoth by (apply Hnc; unfold HEAP, STACK_PAGE; lia). change (l4_index HEAP) with 0. by rewrite Hk0, Hk255.
  - by rewrite Ed.
  - unfold verify_password in *. by rewrite Ea.
  - split; cbn; [congruence|done|exact Hv|by rewrite Hbrk, Hheap|exact Hsig].
  - done.
Qed.

Lemma user_spawn_spec me (b : machine) :
  user_ready me b -> current (k_sched (kern b)) = Some l0 ->
  exists b' t tc, user_spawn b = Some (Ok (me, t), b') /\ kernel_ok l1 (kern b') /\ core [l0; l1; lc] (kern b') /\ child_at me (kern b') tc /\ loaded me b' t tc /\
    is_Some (current (k_sched (kern b'))) /\ total_ticks (k_sched (kern b')) = total_ticks (k_sched (kern b)).
Proof.
  intros Hus Hc. pose proof Hus as [Hrd [Hid _] (d & Hd & Hfile) Hfcb Hfds _ _ (fs & Hp & Hn) _]. pose proof (ready_core base _ _ _ Hbase _ _ Hrd) as Hco.
  destruct (core_current _ _ _ _ _ _ Hco Hc) as (u & Hu & _ & _ & _). assert (Hpid : current_pid (sy_k (bm_sys b)) = Some (pid u)) by (unfold current_pid; fold (kern b); rewrite Hc; cbn; by rewrite Hu).
  assert (Hcp : closed_path to_lowercase (sy_fs (bm_sys b)) INIT_PATH INIT_FILE (pid u)).
  { split; [by rewrite Hfcb| |done|by apply Hfds]. unfold case_conflict. by rewrite Hfcb, dom_empty_L, elements_empty. }
  destruct (read_program_spec to_lowercase (sy_fs (bm_sys b)) INIT_PATH INIT_FILE (pid u) d init_bin Hcp Hd Hfile) as (f & Er & Hf1 & Hf2 & Hf3); [change (length init_bin) with 176%nat; lia|].
  destruct (load_init b me fs (sy_mem (bm_sys b)) Hus Hp Hn) as (task & child & p' & m' & c' & El & Htid & Hst & Hpr & Hld).
  set (task' := with_parent task (Some (pid u))). set (b1 := set_memory (set_sys b (put_fs (bm_sys b) f)) (bm_table b) p' (bm_virt b)).
  assert (Hrd1 : ready l0 l1 lc CloneTest b1) by (destruct Hrd as [R1 R2 R3 R4 R5 _]; by split).
  destruct (start_child_spec base l0 l1 lc Hl01 Hl0c Hl1c Hbase CloneTest b1 (fun _ _ => Some (task', m', c')) task' m' c' Hrd1 eq_refl) as (b' & Es & Hok & Hco' & Hc' & Htot & Etk & Etb & Eb); [done..|].
  change (kern b1) with (kern b) in *. assert (Hl : loaded me b' child task') by (apply Hld; rewrite Eb; [done|done|exact Hf2]).
  assert (Hme : pid task' = me) by exact (ta_pid _ _ _ (ld_task _ _ _ _ Hl)).
  exists b', child, task'. split_and!; [|done|done| |done|rewrite Hc'; by eexists|done].
  - unfold user_spawn, kbind at 1 2 3 4, kget, kput, need, load_path. rewrite Hpid. cbn [mbind option_bind]. rewrite Er. cbn [mbind option_bind]. rewrite El. cbn [mbind option_bind kbind].
    cbn [mbind option_bind]. unfold kbind, kret. fold task' b1. rewrite Es. by rewrite Hme.
  - split; [rewrite Etk; apply lookup_insert_eq|rewrite Etb; apply lookup_insert_eq|]. split; [done|]. intros i x v Hi Hv Hpv.
    rewrite Etb in Hi. apply lookup_insert_Some in Hi as [[_ <-]|[_ Hi]]; [done|]. destruct (decide (x = lc)) as [|Hne]; [done|]. rewrite Etk, lookup_insert_ne in Hv by congruence.
    destruct (rd_table _ _ _ _ _ Hrd i x Hi) as [_ Hx]. exfalso. apply (Hx v Hv). congruence.
Qed.
(** ** The program at work *)

Lemma identity_task_at me g t t' : identity t = identity t' -> task_at me g t -> task_at me g t' /\ user_entry t' = user_entry t /\ user_stack t' = user_stack t.
Proof.
  intros E [A1 A2 A3 A4 A5]. destruct t, t'. unfold identity, with_run in E. cbn in *. injection E as ? ? ? ? ? ? ? ? ? ? ? ? ? ? ? ? ? ? ?. subst. split; [|done]. by split.
Qed.

(** A change to the record of the running program that the scheduler does not see. *)
Section Touched.
Context (k : kernel) (tc tc' : Task) (Hc : current (k_sched k) = Some lc) (Hr : same_run tc tc').

Lemma core_touched run me : core run k -> child_at me k tc -> core run (set_tasks k (<[lc := tc']> (k_tasks k))).
Proof.
  intros [A1 A2 A3 A4 A5 A6] [B1 B2 _]. destruct Hr as (Q1 & _ & _ & Q4 & _). destruct (ok_current _ _ A1 lc Hc) as (u & Hu & Hp).
  assert (u = tc) as -> by congruence. split; [apply mlfq_ok_current; [done|done|rewrite Q4; lia]|done|done|done| |]; cbn.
  - intros id x Hx. destruct (A5 id x Hx) as (Hin & v & Hv & Hid). split; [done|]. destruct (decide (x = lc)) as [->|]; [|rewrite lookup_insert_ne by done; eauto].
    rewrite lookup_insert_eq. exists tc'. split; [done|]. congruence.
  - intros x v Hx Hv. destruct (decide (x = lc)) as [->|]; [|rewrite lookup_insert_ne in Hv by done; by apply A6]. rewrite lookup_insert_eq in Hv. injection Hv as <-. by rewrite Q1.
Qed.

Lemma kernel_touched me : kernel_ok l1 k -> child_at me k tc -> kernel_ok l1 (set_tasks k (<[lc := tc']> (k_tasks k))).
Proof.
  intros [[A1 A2 A3 A4 A5 A6] (c & u & Ec & Eu & Es)] [B1 B2 _]. destruct Hr as (Q1 & _ & Q3 & Q4 & _). assert (c = lc) as -> by congruence. assert (u = tc) as -> by congruence.
  destruct (ok_current _ _ A1 lc Hc) as (u & Hu & Hp). assert (u = tc) as -> by congruence. split.
  - split; cbn; [apply mlfq_ok_current; [done|done|rewrite Q4; lia]| |done| |done|done].
    + rewrite Hc. exists tc'. rewrite lookup_insert_eq. split; [done|]. left. congruence.
    + apply (registry_touch _ _ _ lc tc); [done|done|by apply current_runnable|done|rewrite Q4; lia].
  - exists lc, tc'. cbn. rewrite lookup_insert_eq. split_and!; [done|done|congruence].
Qed.

Lemma child_touched me : child_at me k tc -> child_at me (set_tasks k (<[lc := tc']> (k_tasks k))) tc'.
Proof.
  intros [B1 B2 [B3 B4]]. destruct Hr as (Q1 & Q2 & _). split; cbn; [apply lookup_insert_eq|by rewrite Q1|]. split; [congruence|]. intros i x u Hi Hu Hp.
  destruct (decide (x = lc)) as [|]; [done|]. rewrite lookup_insert_ne in Hu by congruence. by apply (B4 i x u).
Qed.
End Touched.

(** What the program leaves behind: the task as its calls have set it (logged in,
    heap grown, handler installed and nothing pending), the console's mode, the
    word in its heap, and on its stack the frame of the signal it has taken:
    the address its handler returns to, the trampoline, and the registers saved
    at the return from [kill]. *)
Record finished (me : Z) (b : machine) (tc : Task) : Prop := mkFinished {
  fi_task : task_at me (stage_of 43) tc;
  fi_dev : sy_dev (bm_sys b) = [mkDevice "console" false];
  fi_word : read_bytes (sy_mem (bm_sys b)) HEAP 4 = le_encode 4 0xCAFEBABE;
  fi_signal : signal_frame me (sy_mem (bm_sys b))
}.

(** Where the program is, against its record and the scheduler, and the number of
    steps it has to go. *)
Inductive uphase (me : Z) (b : machine) (tc : Task) : nat -> user_pc T -> Prop :=
  | up_loaded t : core [l0; l1; lc] (kern b) -> kernel_ok l1 (kern b) -> loaded me b t tc -> uphase me b tc 45 (PLoaded t)
  | up_user t f rip rflags i : core [l0; l1; lc] (kern b) -> kernel_ok l1 (kern b) -> (i <= 43)%nat -> at_point sha256 me i (mkUthread b t f rip rflags) tc ->
      uphase me b tc (44 - i) (PUser t f rip rflags)
  | up_gone : core [l0; l1] (kern b) -> kernel_ok l1 (kern b) -> state tc = Zombie -> exit_code tc = Some me -> finished me b tc -> uphase me b tc 0 PGone.

Lemma uphase_moved me (b : machine) k' tc n pc :
  child_at me (kern b) tc -> uphase me b tc n pc -> moved (kern b) k' -> (forall run, (2 <= length run)%nat -> core run (kern b) -> core run k') ->
  (kernel_ok l1 (kern b) -> kernel_ok l1 k') -> exists tc', child_at me k' tc' /\ uphase me (set_kern b k') tc' n pc.
Proof.
  intros Hca Hph Hm Hcore Hok. destruct (child_at_same lc ForkTest me (kern b) k' tc Hca (mv_table _ _ Hm) (mv_tasks _ _ Hm)) as (tc' & Hca' & _). exists tc'. split; [done|].
  assert (Hid : identity tc = identity tc') by (pose proof (mv_tasks _ _ Hm lc) as E; rewrite (ca_task _ _ _ _ _ Hca), (ca_task _ _ _ _ _ Hca') in E; exact (inj Some _ _ (eq_sym E))).
  destruct Hph as [t Hco Hk [D1 D2 D3 D4 D5 D6 D7]|t f rip rflags i Hco Hk Hi [P1 P2 [S1 S2 S3 S4 S5 S6 S7 S8] P4 P5]|Hco Hk Hz Hx [F1 F2 F3 F4]].
  - destruct (identity_task_at _ _ _ _ Hid D6) as (Ht & E1 & E2). apply up_loaded; [apply (Hcore [l0; l1; lc]); [cbn; lia|done]|by apply Hok|]. split; try done. by rewrite E1, E2.
  - destruct (identity_task_at _ _ _ _ Hid P5) as (Ht & _ & _). apply (up_user _ _ _ _ _ _ _ i); [apply (Hcore [l0; l1; lc]); [cbn; lia|done]|by apply Hok|done|]. by split.
  - assert (tc' = tc) as ->.
    { pose proof (ca_task _ _ _ _ _ Hca') as Ht. rewrite (mv_parked _ _ Hm), (ca_task _ _ _ _ _ Hca) in Ht; [congruence|]. rewrite (co_run _ _ _ _ _ Hco). by apply (child_not_in l0 l1 lc). }
    apply up_gone; [apply (Hcore [l0; l1]); [cbn; lia|done]|by apply Hok|done|done|by split].
Qed.
(** The first entry into user mode is the first point. *)
Lemma enter_point me (b : machine) t tc :
  child_at me (kern b) tc -> core [l0; l1; lc] (kern b) -> current (k_sched (kern b)) = Some lc -> loaded me b t tc ->
  exists u, user_enter b t regs0 = Some u /\ kern (ut_b u) = kern b /\ at_point sha256 me 0 u tc.
Proof.
  intros Hca Hco Hc [(f & Hf & Hbytes) D2 [D3 D4] D5 D6 D7 [E1 E2]]. destruct (core_current _ _ _ _ _ _ Hco Hc) as (u & Hu & _ & Hct & Htb).
  assert (u = tc) as -> by (pose proof (ca_task _ _ _ _ _ Hca); congruence). unfold user_enter, current_task. rewrite Hct. cbn [mbind option_bind]. rewrite Htb. cbn [mbind option_bind]. rewrite Hu. cbn [mbind option_bind].
  eexists. split; [reflexivity|]. split; [done|]. destruct (ta_heap _ _ _ D7) as [-> _]. rewrite E1, E2. split; cbn [ut_rip ut_f ut_rflags ut_b ut_table].
  - eexists. split; [reflexivity|]. unfold knows, code_at. rewrite Forall_cons. split; [done|apply Forall_nil_2].
  - split; [apply rset_fits; [done|unfold fits, USER_STACK_TOP; lia]|unfold fits; lia].
  - split; cbn [bm_sys set_sys sy_mem put_mem sy_dev sy_fs bm_pool]; try done; [by exists f|].
    unfold show_program. change (seqZ 0 ((HEAP - USER_CODE_BASE) / 4096)) with [0]. cbn [foldl].
    change (USER_CODE_BASE + 0 * 4096) with USER_CODE_BASE. unfold show_page. rewrite Hf.
    apply list_eq. intros i. destruct (decide (i < length init_bin)%nat) as [Hi|Hi]; [|rewrite !lookup_ge_None_2; [done|lia|rewrite read_bytes_length; lia]].
    apply (f_equal (lookup i)) in Hbytes. rewrite read_bytes_lookup in Hbytes by done. rewrite read_bytes_lookup, <- Hbytes by done. f_equal. apply get_write_bytes_in. apply read_bytes_lookup. change (length init_bin) with 176%nat in Hi. pose proof page_bytes_Z. lia.
  - discriminate.
  - done.
Qed.

(** One step of the program in user mode. *)
Lemma point_runs me (b : machine) t f rip rflags tc i :
  fits 31 me -> child_at me (kern b) tc -> core [l0; l1; lc] (kern b) -> kernel_ok l1 (kern b) -> current (k_sched (kern b)) = Some lc ->
  (i <= 43)%nat -> at_point sha256 me i (mkUthread b t f rip rflags) tc ->
  let res := user_step to_lowercase from_utf8_lossy sha256 stat_pad tramp base' l' fuel (mkUthread b t f rip rflags) in
  ((i < 43)%nat /\ exists u tc', res = Some (UNext u) /\ child_at me (kern (ut_b u)) tc' /\ core [l0; l1; lc] (kern (ut_b u)) /\ kernel_ok l1 (kern (ut_b u)) /\
    k_sched (kern (ut_b u)) = k_sched (kern b) /\ at_point sha256 me (S i) u tc') \/
  i = 43%nat /\ exists b' tc', res = Some (UExit b') /\ child_at me (kern b') tc' /\ uphase me b' tc' 0 PGone /\ is_Some (current (k_sched (kern b'))) /\
    total_ticks (k_sched (kern b')) = total_ticks (k_sched (kern b)).
Proof.
  intros Hme Hca Hco Hok Hc Hi Hat res. set (u0 := mkUthread b t f rip rflags) in *. destruct (runnable_alive base l0 l1 lc Hl0c Hl1c Hbase (kern b) tc Hco Hok (ca_task _ _ _ _ _ Hca)) as [Hz Hb].
  destruct (decide (i < 43)%nat) as [Hlt|Hge].
  - left. split; [done|]. destruct (step_point to_lowercase from_utf8_lossy sha256 stat_pad tramp base' l' lc fuel me i u0 tc Hme Hlt Hat) as (u & tc' & E & Hat' & Hsr & Hk).
    { split; [split_and!; [done|apply (ca_task _ _ _ _ _ Hca)|apply (ca_table _ _ _ _ _ Hca)]|]. split; [done|]. pose proof (ca_name _ _ _ _ _ Hca) as [<- _]. by apply (find_child l0 l1 lc _ _ _ [l0; l1; lc]). }
    exists u, tc'. change (ut_b u0) with b in Hk. rewrite Hk. split_and!; [done|by eapply child_touched|by eapply core_touched|by eapply kernel_touched|done|done].
  - right. assert (i = 43)%nat as -> by lia. split; [done|]. destruct (mark_child l0 l1 lc Hl1c (kern b) tc me Hok Hco Hc (ca_task _ _ _ _ _ Hca)) as (Em & Hco1 & _ & Hl). cbv zeta in *.
    set (tz := with_run tc Zombie (priority tc) (Some me)) in *. set (k1 := set_tasks (kern b) (<[lc := tz]> (k_tasks (kern b)))) in *.
    destruct (leave_core base l0 l1 lc Hl01 Hl0c Hl1c Hbase k1 tz (parent tc) Hco1 Hc) as (k' & sw & El & Hco' & Hc' & Ht & Htb & Hid & Htc'); [apply lookup_insert_eq|done|].
    pose proof (child_at_mark lc ForkTest me (kern b) tc Zombie (priority tc) (Some me) Hca) as Hca1. fold tz k1 in Hca1.
    destruct (child_at_same lc ForkTest me k1 k' tz Hca1 Htb Hid) as (tz' & Hca' & _). assert (tz' = tz) as -> by (pose proof (ca_task _ _ _ _ _ Hca'); congruence).
    assert (E : exit (kern b) me = Some (k', sw)) by (unfold exit; rewrite Em; cbn [mbind option_bind]; exact El).
    exists (set_kern b k'), tz. unfold res. rewrite (step_exit to_lowercase from_utf8_lossy sha256 stat_pad tramp base' l' fuel me u0 tc k' sw Hme Hat E).
    split_and!; [done|done| |done|exact Ht]. destruct Hat as [_ _ [S1 S2 S3 S4 S5 S6 S7 S8] Hsg [P1 P2 P3 P4 P5]]. apply up_gone; [done|by eapply Hl|done|done|]. split; [by split|exact S7|by apply S5|exact (Hsg eq_refl)].
Qed.

(** ** The states of a run *)

Definition uinv (me : Z) (r : urun) : Prop :=
  is_Some (current (k_sched (kern (ur_b r)))) /\
  match ur_boot r with
  | BStart => user_ready me (ur_b r) /\ ur_user r = PNone
  | BJoin id => id = me /\ fits 31 me /\ exists tc n, child_at me (kern (ur_b r)) tc /\ uphase me (ur_b r) tc n (ur_user r)
  | BDone code => code = me /\ core [l0; l1] (kern (ur_b r)) /\ exists tc, k_tasks (kern (ur_b r)) !! lc = Some tc /\ finished me (ur_b r) tc
  end.

Definition unow (r : urun) : Z := total_ticks (k_sched (kern (ur_b r))).

Lemma user_ready_moved me (b : machine) k' : user_ready me b -> moved (kern b) k' -> kernel_ok l1 k' -> user_ready me (set_kern b k').
Proof.
  intros [U1 U2 U3 U4 U5 U6 U7 U8 U9] Hm Hok. split; try done; [by apply ready_moved|]. intros t Ht. destruct (same_task _ _ _ _ (eq_sym (mv_tasks _ _ Hm l0)) Ht) as (t0 & Ht0 & _ & <- & _). by apply U5.
Qed.

Lemma uinv_tick me r : uinv me r -> unow r + 1 < 2 ^ 32 ->
  exists r' sw, timer_handler (kern (ur_b r)) = Some (kern (ur_b r'), sw) /\ r' = with_ukern r (kern (ur_b r')) /\ uinv me r' /\ unow r' = unow r + 1.
Proof.
  intros [[c Hc] Hinv] Hn. set (k := kern (ur_b r)) in *.
  assert (Hgo : forall run, core run k -> (2 <= length run)%nat -> exists k' sw, timer_handler k = Some (k', sw) /\ moved k k' /\ core run k' /\ is_Some (current (k_sched k')) /\ total_ticks (k_sched k') = unow r + 1)
    by (intros run Hco Hlen; by apply (core_timer l0 l1 lc Hl01 Hl0c Hl1c run k c)).
  assert (Hpre : forall k' sw, timer_handler k = Some (k', sw) -> kernel_ok l1 k -> kernel_ok l1 k') by (intros k' sw E [Hp _]; destruct (timer_pre l1 k c Hp Hc Hn) as (k2 & sw2 & E2 & Hok); congruence).
  destruct (ur_boot r) as [|id|code] eqn:Eb.
  - destruct Hinv as [Hrd Hch]. pose proof (us_ready _ _ Hrd) as Hrd0. destruct (Hgo _ (ready_core base _ _ _ Hbase _ _ Hrd0) ltac:(cbn; lia)) as (k' & sw & E & Hm & Hco & Hc' & Ht).
    exists (with_ukern r k'), sw. split_and!; [done|done| |exact Ht]. split; [done|]. cbn [with_ukern ur_boot ur_b ur_user]. rewrite Eb. split; [|done]. apply user_ready_moved; [done|done|]. apply (Hpre _ _ E), (rd_kernel _ _ _ _ _ Hrd0).
  - destruct Hinv as (-> & Hme & tc & n & Hca & Hph). assert (Hrun : exists run, core run k /\ (2 <= length run)%nat) by (destruct Hph; eexists; (split; [eassumption|cbn; lia])). destruct Hrun as (run & Hco & Hlen).
    destruct (Hgo run Hco Hlen) as (k' & sw & E & Hm & Hco' & Hc' & Ht). exists (with_ukern r k'), sw. split_and!; [done|done| |exact Ht]. split; [done|]. cbn [with_ukern ur_boot ur_b ur_user]. rewrite Eb. split; [done|]. split; [done|].
    destruct (uphase_moved me (ur_b r) k' tc n (ur_user r)) as (tc' & Hca' & Hph'); [done|done|done| |by apply (Hpre _ sw)|by exists tc', n]. intros run' _ Hr. eapply (core_moved l0 l1 lc Hl01 Hl0c Hl1c); [done|done|apply (co_sched _ _ _ _ _ Hco')|]. unfold unow in Ht. fold k in Ht. fold k. lia.
  - destruct Hinv as (-> & Hco & tc & Htc & [F1 F2 F3 F4]). destruct (Hgo _ Hco ltac:(cbn; lia)) as (k' & sw & E & Hm & Hco' & Hc' & Ht). exists (with_ukern r k'), sw. split_and!; [done|done| |exact Ht].
    split; [done|]. cbn [with_ukern ur_boot ur_b ur_user]. rewrite Eb. split_and!; [done|done|]. exists tc. split; [|by split]. cbn. rewrite (mv_parked _ _ Hm); [done|]. rewrite (co_run _ _ _ _ _ Hco). by apply (child_not_in l0 l1 lc).
Qed.
Lemma uinv_boot me r : uinv me r -> current (k_sched (kern (ur_b r))) = Some l0 ->
  exists r', user_test_step r = Some r' /\ uinv me r' /\ unow r' = unow r /\
    (ur_boot r = BStart -> ur_boot r' = BJoin me) /\ (ur_boot r = BJoin me -> ur_user r = PGone -> ur_boot r' = BDone me).
Proof.
  intros [Hcur Hinv] Hc. unfold user_test_step. destruct (ur_boot r) as [|id|code] eqn:Eb.
  - destruct Hinv as [Hus Hp]. destruct (user_spawn_spec me (ur_b r) Hus Hc) as (b' & t & tc & -> & Hok & Hco & Hca & Hld & Hc' & Ht). cbn [mbind option_bind]. eexists. split; [reflexivity|].
    split; [|split_and!; [exact Ht|done|done]]. split; [done|]. cbn. split_and!; [done|apply (us_pid _ _ Hus)..|]. exists tc, 45%nat. split; [done|by apply up_loaded].
  - destruct Hinv as (-> & Hme & tc & n & Hca & Hph). set (k := kern (ur_b r)) in *. change (wait_iter k me) with (join_iter ForkTest k me).
    assert (Hlive : core [l0; l1; lc] k -> kernel_ok l1 k -> exists k' sw tc', join_iter ForkTest k me = Some (None, k', sw) /\ child_at me k' tc' /\ uphase me (set_kern (ur_b r) k') tc' n (ur_user r) /\
      is_Some (current (k_sched k')) /\ total_ticks (k_sched k') = total_ticks (k_sched k)).
    { intros Hco Hok. destruct (runnable_alive base l0 l1 lc Hl0c Hl1c Hbase k tc Hco Hok (ca_task _ _ _ _ _ Hca)) as [Hz _].
      destruct (join_live l0 l1 lc Hl01 Hl0c Hl1c ForkTest me _ k l0 tc Hco ltac:(cbn; lia) Hc Hca Hz) as (k' & sw & E & Hm & Hco' & Hc' & Ht).
      destruct (uphase_moved me (ur_b r) k' tc n (ur_user r) Hca Hph Hm) as (tc' & Hca' & Hph'); [|intros _; by eapply (join_kernel_ok l0 l1 Hl01)|by exists k', sw, tc'].
      intros run _ Hr. eapply (core_moved l0 l1 lc Hl01 Hl0c Hl1c); [done|done|apply (co_sched _ _ _ _ _ Hco')|]. fold k. lia. }
    pose proof Hph as Hph'. inversion Hph' as [t Hco Hok Hld E1 E2|t f rip rflags i Hco Hok Hi Hat E1 E2|Hco Hok Hz Hx Hfi E1 E2].
    1, 2: destruct (Hlive Hco Hok) as (k' & sw & tc' & -> & Hca' & Hph2 & Hc' & Ht); cbn [mbind option_bind]; eexists; (split; [reflexivity|]);
      (split; [|split_and!; [exact Ht|congruence|congruence]]); (split; [done|]); cbn [with_ukern ur_boot ur_b ur_user]; rewrite Eb; split_and!; [done|apply Hme..|]; by exists tc', n.
    rewrite (join_zombie l0 l1 lc ForkTest me _ k l0 tc Hco Hc Hca Hz), Hx. cbn [mbind option_bind default id].
    rewrite wrap_small, Z.eqb_refl by (unfold fits in *; lia). eexists. split; [reflexivity|]. split; [|split_and!; done]. split; [done|]. cbn [ur_boot ur_b]. split; [done|].
    split; [by apply (core_reaped l0 l1 lc Hl0c Hl1c ForkTest me)|]. exists tc. split; [exact (ca_task _ _ _ _ _ Hca)|by destruct Hfi; split].
  - exists r. split; [done|]. split; [split; [done|by rewrite Eb]|]. split_and!; [done|congruence|congruence].
Qed.

(** A step of the program. *)
Lemma program_advances me r tc n :
  fits 31 me -> child_at me (kern (ur_b r)) tc -> uphase me (ur_b r) tc n (ur_user r) -> current (k_sched (kern (ur_b r))) = Some lc ->
  exists r' tc' n', program_step r = Some r' /\ n = S n' /\ child_at me (kern (ur_b r')) tc' /\ uphase me (ur_b r') tc' n' (ur_user r') /\
    is_Some (current (k_sched (kern (ur_b r')))) /\ ((0 < n')%nat -> current (k_sched (kern (ur_b r'))) = Some lc) /\ unow r' = unow r /\ ur_boot r' = ur_boot r.
Proof.
  intros Hme Hca Hph Hc. unfold program_step. inversion Hph as [t Hco Hok Hld E1 E2|t f rip rflags i Hco Hok Hi Hat E1 E2|Hco Hok Hz Hx Hfi E1 E2].
  - destruct (enter_point me (ur_b r) t tc Hca Hco Hc Hld) as (u & -> & Hk & Hat). cbn [mbind option_bind]. eexists _, tc, 44%nat. split; [reflexivity|]. unfold unow. cbn [ur_b ur_user ur_boot]. rewrite Hk.
    split_and!; [done|done|destruct Hca; done..| |by eexists|done|done|done]. change 44%nat with (44 - 0)%nat. apply up_user; [by rewrite Hk|by rewrite Hk|lia|by destruct u].
  - destruct (point_runs me (ur_b r) t f rip rflags tc i Hme Hca Hco Hok Hc Hi Hat) as [(Hlt & u & tc' & -> & Hca' & Hco' & Hok' & Hk & Hat')|(-> & b' & tc' & -> & Hca' & Hgone & Hc' & Ht)]; cbn [mbind option_bind].
    + eexists _, tc', (44 - S i)%nat. split; [reflexivity|]. unfold unow. cbn [ur_b ur_user ur_boot]. rewrite Hk. split; [lia|]. split; [done|]. split; [|split_and!; [by eexists|done|done|done]].
      apply up_user; [done|done|lia|by destruct u].
    + eexists _, tc', 0%nat. split; [reflexivity|]. split_and!; [done|done|done|done|lia|exact Ht|done].
  - exfalso. apply (child_not_in l0 l1 lc Hl0c Hl1c). by apply (child_runs l0 l1 lc _ _ Hco).
Qed.
Lemma run_user r : current (k_sched (kern (ur_b r))) = Some lc -> urstep r Run = program_step r.
Proof. intros Hc. unfold urstep. rewrite Hc. cbn [mbind option_bind]. rewrite Z.eqb_refl. by rewrite (proj2 (Z.eqb_neq lc l0)). Qed.

Lemma run_test r : current (k_sched (kern (ur_b r))) = Some l0 -> urstep r Run = user_test_step r.
Proof. intros Hc. unfold urstep. rewrite Hc. cbn [mbind option_bind]. by rewrite Z.eqb_refl. Qed.

Lemma not_child_alone k : core [l0; l1] k -> current (k_sched k) <> Some lc.
Proof. intros Hco Hc. apply (child_not_in l0 l1 lc Hl0c Hl1c). by apply (child_runs l0 l1 lc _ _ Hco). Qed.

Lemma uinv_step me r e : uinv me r -> (e = Tick -> unow r + 1 < 2 ^ 32) -> exists r', urstep r e = Some r' /\ uinv me r' /\ unow r' = unow r + ticks [e].
Proof.
  intros Hinv Hn. destruct e.
  - destruct (uinv_tick me r Hinv (Hn eq_refl)) as (r' & sw & E & Er & Hinv' & Ht). exists r'. unfold urstep. rewrite E. cbn [mbind option_bind]. by rewrite <- Er.
  - pose proof Hinv as [[c Hc] Hb]. change (ticks [Run]) with 0. rewrite Z.add_0_r. destruct (decide (c = l0)) as [->|Hne0].
    { rewrite run_test by done. destruct (uinv_boot me r Hinv Hc) as (r' & E & Hinv' & Ht & _). by exists r'. }
    destruct (decide (c = lc)) as [->|Hnec]; [|exists r; split_and!; try done; unfold urstep; rewrite Hc; cbn [mbind option_bind]; by rewrite !(proj2 (Z.eqb_neq _ _))].
    rewrite run_user by done. destruct (ur_boot r) as [|id|code] eqn:Eb.
    + exfalso. destruct Hb as [Hus _]. by apply (not_child_alone _ (ready_core base _ _ _ Hbase _ _ (us_ready _ _ Hus))).
    + destruct Hb as (-> & Hme & tc & n & Hca & Hph). destruct (program_advances me r tc n Hme Hca Hph Hc) as (r' & tc' & n' & E & _ & Hca' & Hph' & Hc' & _ & Ht & Eb').
      exists r'. split_and!; [done| |done]. split; [done|]. rewrite Eb', Eb. split; [done|]. split; [done|]. by exists tc', n'.
    + exfalso. destruct Hb as (_ & Hco & _). by apply (not_child_alone _ Hco).
Qed.

(** No run panics. *)
Lemma uinv_events me r es : uinv me r -> unow r + ticks es < 2 ^ 32 -> exists r', run_user_events r es = Some r' /\ uinv me r' /\ unow r' = unow r + ticks es.
Proof.
  revert r. induction es as [|e es IH]; intros r Hinv Hn; [exists r; split_and!; try done; change (ticks []) with 0; lia|]. rewrite ticks_cons in *. pose proof (ticks_nonneg es).
  destruct (uinv_step me r e Hinv) as (r1 & E & Hinv1 & Ht); [intros ->; change (ticks [Tick]) with 1 in Hn; lia|]. destruct (IH r1 Hinv1 ltac:(lia)) as (r2 & E2 & Hinv2 & Ht2).
  exists r2. cbn [run_user_events]. rewrite E. cbn [mbind option_bind]. split_and!; [done|done|lia].
Qed.

(** ** Reaching the end *)

Lemma run_user_events_app r es es' : run_user_events r (es ++ es') = (r' ← run_user_events r es; run_user_events r' es').
Proof. revert r. induction es as [|e es IH]; intros r; [done|]. cbn [run_user_events app]. destruct (urstep r e); [apply IH|done]. Qed.

Lemma uinv_ticks me r n : uinv me r -> unow r + Z.of_nat n < 2 ^ 32 ->
  exists r', run_user_events r (replicate n Tick) = Some r' /\ uinv me r' /\ unow r' = unow r + Z.of_nat n /\ ur_boot r' = ur_boot r /\ ur_user r' = ur_user r /\
    run_timer n (kern (ur_b r)) = Some (kern (ur_b r')).
Proof.
  revert r. induction n as [|n IH]; intros r Hinv Hn; [exists r; split_and!; try done; lia|]. destruct (uinv_tick me r Hinv ltac:(lia)) as (r1 & sw & E & Er & Hinv1 & Ht).
  destruct (IH r1 Hinv1 ltac:(lia)) as (r2 & E2 & Hinv2 & Ht2 & Eb2 & Eu2 & Er2). exists r2. cbn [replicate run_user_events run_timer]. unfold urstep. rewrite E. cbn [mbind option_bind]. rewrite <- Er.
  split_and!; [done|done|lia|rewrite Eb2, Er; done|rewrite Eu2, Er; done|done].
Qed.

Lemma turn_taken me r run l :
  uinv me r -> kernel_ok l1 (kern (ur_b r)) -> core run (kern (ur_b r)) -> l ∈ run -> (length run <= 3)%nat -> unow r + 766 < 2 ^ 32 ->
  exists m r', (m <= 766)%nat /\ run_user_events r (replicate m Tick) = Some r' /\ uinv me r' /\ unow r' <= unow r + 766 /\ ur_boot r' = ur_boot r /\ ur_user r' = ur_user r /\
    current (k_sched (kern (ur_b r'))) = Some l.
Proof.
  intros Hinv Hok Hco Hl Hlen Hn. pose proof Hinv as [[c Hc] _]. destruct (turn_comes l0 l1 lc run (kern (ur_b r)) c l Hok Hco Hc Hl Hlen Hn) as (m & k' & Hm & Er & Hcl).
  destruct (uinv_ticks me r m Hinv ltac:(lia)) as (r' & E & Hinv' & Ht & Eb & Eu & Er'). rewrite Er in Er'. injection Er' as ->. exists m, r'. split_and!; [done|done|done|lia|done|done|done].
Qed.

(** Left alone the program runs to its end. *)
Lemma program_ends me n r tc :
  fits 31 me -> ur_boot r = BJoin me -> child_at me (kern (ur_b r)) tc -> uphase me (ur_b r) tc n (ur_user r) -> is_Some (current (k_sched (kern (ur_b r)))) ->
  ((0 < n)%nat -> current (k_sched (kern (ur_b r))) = Some lc) ->
  exists r', run_user_events r (replicate n Run) = Some r' /\ uinv me r' /\ ur_boot r' = BJoin me /\ ur_user r' = PGone /\ unow r' = unow r.
Proof.
  intros Hme. revert r tc. induction n as [|n IH]; intros r tc Hb Hca Hph Hcur Hc.
  - exists r. split; [done|]. split; [split; [done|]; rewrite Hb; split; [done|]; split; [done|]; by exists tc, 0%nat|]. split; [done|]. split; [|done]. inversion Hph as [| t f rip rflags i _ _ Hi _ E |]; [lia|done].
  - destruct (program_advances me r tc (S n) Hme Hca Hph (Hc ltac:(lia))) as (r1 & tc1 & n1 & E & [= <-] & Hca1 & Hph1 & Hcur1 & Hc1 & Ht & Eb). destruct (IH r1 tc1 ltac:(congruence) Hca1 Hph1 Hcur1 Hc1) as (r' & E' & Hinv' & Q1 & Q2 & Q3).
    exists r'. cbn [replicate run_user_events]. rewrite run_user, E by (apply Hc; lia). cbn [mbind option_bind]. split_and!; [done|done|done|done|lia].
Qed.
Definition ufinishes (me n : Z) (r : urun) : Prop := exists es r', ticks es <= n /\ run_user_events r es = Some r' /\ ur_boot r' = BDone me.

Lemma ufinishes_after me n m r es r' : run_user_events r es = Some r' -> ticks es <= m -> ufinishes me n r' -> ufinishes me (n + m) r.
Proof.
  intros E Hm (es' & r2 & Hn & E2 & Hd). exists (es ++ es'), r2. split; [unfold ticks in *; rewrite filter_app, length_app; lia|]. split; [|done]. rewrite run_user_events_app, E. done.
Qed.

Lemma ticks_runs n : ticks (replicate n Run) = 0.
Proof. induction n as [|n IH]; [done|]. cbn [replicate]. by rewrite ticks_cons, IH. Qed.

Lemma gone_ufinishes me r : uinv me r -> ur_boot r = BJoin me -> ur_user r = PGone -> unow r + 766 < 2 ^ 32 -> ufinishes me 766 r.
Proof.
  intros Hinv Hb Hg Hn. pose proof Hinv as [_ Hi]. rewrite Hb in Hi. destruct Hi as (_ & _ & tc & n & _ & Hph). rewrite Hg in Hph. inversion Hph as [| |Hco Hok _ _ _].
  destruct (turn_taken me r [l0; l1] l0 Hinv Hok Hco) as (m & r1 & Hm & E1 & Hinv1 & _ & Eb1 & Eu1 & Hc1); [left|cbn; lia|done|].
  destruct (uinv_boot me r1 Hinv1 Hc1) as (r2 & E2 & _ & _ & _ & Hd). change 766 with (0 + 766). apply (ufinishes_after me 0 766 r _ r1 E1); [rewrite ticks_replicate; lia|].
  exists [Run], r2. split; [done|]. split; [|by apply Hd; congruence]. cbn [run_user_events]. rewrite run_test by done. by rewrite E2.
Qed.

Lemma live_ufinishes me r tc n :
  uinv me r -> ur_boot r = BJoin me -> fits 31 me -> child_at me (kern (ur_b r)) tc -> uphase me (ur_b r) tc (S n) (ur_user r) -> unow r + 1532 < 2 ^ 32 -> ufinishes me 1532 r.
Proof.
  intros Hinv Hb Hme Hca Hph Hn. assert (Hk : core [l0; l1; lc] (kern (ur_b r)) /\ kernel_ok l1 (kern (ur_b r))) by by inversion Hph. destruct Hk as [Hco Hok].
  destruct (turn_taken me r _ lc Hinv Hok Hco) as (m & r1 & Hm & E1 & Hinv1 & Ht1 & Eb1 & Eu1 & Hc1); [right; right; left|cbn; lia|lia|].
  change 1532 with (766 + 766). apply (ufinishes_after me 766 766 r _ r1 E1); [rewrite ticks_replicate; lia|].
  pose proof Hinv1 as [Hcur1 Hi]. rewrite Eb1, Hb in Hi. destruct Hi as (_ & _ & tc1 & n1 & Hca1 & Hph1). destruct (program_ends me n1 r1 tc1 Hme ltac:(congruence) Hca1 Hph1 Hcur1 ltac:(done)) as (r2 & E2 & Hinv2 & Hb2 & Hg2 & Ht2).
  change 766 with (766 + 0). apply (ufinishes_after me 766 0 r1 _ r2 E2); [by rewrite ticks_runs|]. apply gone_ufinishes; [done|done|done|lia].
Qed.

Lemma ufinishes_mono me n m r : ufinishes me n r -> n <= m -> ufinishes me m r.
Proof. intros (es & r' & Hn & E & Hd) Hle. exists es, r'. split_and!; [lia|done|done]. Qed.

(** Every state can still finish. *)
Lemma uinv_finishes me r : uinv me r -> unow r + 2298 < 2 ^ 32 -> ufinishes me 2298 r.
Proof.
  assert (Hjoin : forall r, uinv me r -> ur_boot r = BJoin me -> unow r + 1532 < 2 ^ 32 -> ufinishes me 1532 r).
  { intros r0 Hinv Hb Hn. pose proof Hinv as [_ Hi]. rewrite Hb in Hi. destruct Hi as (_ & Hme & tc & [|n] & Hca & Hph); [|by eapply live_ufinishes].
    apply (ufinishes_mono me 766); [|lia]. apply gone_ufinishes; [done|done| |lia]. inversion Hph as [|t f rip rflags i _ _ Hi _ E|]; [lia|done]. }
  intros Hinv Hn. pose proof Hinv as [_ Hi]. destruct (ur_boot r) as [|id|code] eqn:Eb.
  - destruct Hi as [Hus _]. pose proof (us_ready _ _ Hus) as Hrd. destruct (turn_taken me r _ l0 Hinv (rd_kernel _ _ _ _ _ Hrd) (ready_core base _ _ _ Hbase _ _ Hrd)) as (m & r1 & Hm & E1 & Hinv1 & Ht1 & Eb1 & _ & Hc1); [left|cbn; lia|lia|].
    destruct (uinv_boot me r1 Hinv1 Hc1) as (r2 & E2 & Hinv2 & Ht2 & Hs & _). change 2298 with (1532 + 766). apply (ufinishes_after me 1532 766 r (replicate m Tick ++ [Run]) r2).
    + rewrite run_user_events_app, E1. cbn [mbind option_bind run_user_events]. rewrite run_test by done. by rewrite E2.
    + unfold ticks. rewrite filter_app, length_app. change (length (filter _ [Run])) with 0%nat. pose proof (ticks_replicate m) as Hr. unfold ticks in Hr. lia.
    + apply Hjoin; [done|apply Hs; congruence|lia].
  - assert (id = me) as -> by apply Hi. apply (ufinishes_mono me 1532); [|lia]. apply Hjoin; [done|done|lia].
  - destruct Hi as [-> _]. by exists [], r.
Qed.

Definition user_test_start (b : machine) : urun := mkUrun b BStart PNone.

Lemma user_start_inv me b : user_ready me b -> uinv me (user_test_start b).
Proof. intros Hus. split; [|by split]. destruct (rd_kernel _ _ _ _ _ (us_ready _ _ Hus)) as [_ (c & _ & Hc & _)]. by exists c. Qed.

(** ** The theorem *)

(** C10. The user-mode test passes: whatever the timer does and whatever the registers
    hold at the first entry, no step of the boot task, of the program or of its
    system calls panics, none of its calls waits, and the assertion of the test
    does not fail.  When the wait returns, it returns the program's process
    identifier, as the assertion demands; by then the program has logged in as
    user 1, set the console to non-blocking, grown its heap by a page and stored
    to it, installed a signal handler, and taken the signal it sent itself: the
    frame the kernel pushed for it, which resumes after the [kill], is on its
    stack and the signal is no longer pending.  From every state of the test the
    wait can still return, with at most 2298 further timer interrupts: the
    program cannot be caught in [exit], as the kernel tasks of the clone and
    fork tests can, since its call runs with interrupts masked. *)
Theorem user_test_passes (me : Z) (b : machine) (es : list tevent) :
  user_ready me b -> total_ticks (k_sched (kern b)) + ticks es + 2298 < 2 ^ 32 ->
  exists r, run_user_events (user_test_start b) es = Some r /\
    (forall code, ur_boot r = BDone code -> code = me /\ exists tc, k_tasks (kern (ur_b r)) !! lc = Some tc /\ finished me (ur_b r) tc) /\
    exists es' r', ticks es' <= 2298 /\ run_user_events r es' = Some r' /\ ur_boot r' = BDone me.
Proof.
  intros Hus Hn. pose proof (user_start_inv me b Hus) as Hinv. change (total_ticks (k_sched (kern b))) with (unow (user_test_start b)) in Hn.
  destruct (uinv_events me _ es Hinv ltac:(lia)) as (r & E & Hinv' & Ht). exists r. split; [done|]. split; [|by apply uinv_finishes; [done|lia]].
  intros code Hd. destruct Hinv' as [_ Hi]. rewrite Hd in Hi. destruct Hi as (-> & _ & Hf). done.
Qed.
End UserTest.

(** A machine with two tasks, the program's file, the console and the test user. *)
Definition program_machine (k : kernel) (m : memory) (c : counters) (p : frame_pool) : Boot.machine (T := gmap Z (Z * Z)) (V := flat) :=
  mkMachine (mkSys k m (mkFs ∅ ∅ ∅ {[1 := auth_new sample_hash 1 TEST_PASSWORD]} (Some (mkFlat {[INIT_FILE := init_bin]}))) (spinlock_new ipc_table_new) ∅ resource_table_new rbac_new
      (mkWorld (mkRing (replicate 256 0) 0 0) console_new []) [mkDevice "console" true] c)
    ∅ p RAMDISK_VIRT_REGION_BASE None (fun _ => false).

Lemma next_after_start : (fun x => NEXT_PID x.2) <$> sched_init 0x5000 0x6000 0x40000 0x60000 0x1000 0x70000 0x71000 kernel_new ∅ (mkCounters 1 1) = Some 3.
Proof. vm_compute. reflexivity. Qed.

Lemma program_machine_ready k m c p l :
  sched_init 0x5000 0x6000 0x40000 0x60000 0x1000 0x70000 0x71000 kernel_new ∅ (mkCounters 1 1) = Some (k, m, c) -> pool_at p l -> (13 <= length l)%nat ->
  user_ready sample_hash 0x70000 0x71000 0x72000 3 (program_machine k m c p) /\ total_ticks (k_sched k) = 0.
Proof.
  intros E Hp Hl. pose proof next_after_start as Hn. rewrite E in Hn. injection Hn as Hn. destruct (small_machine_ready k m c p CloneTest E ltac:(discriminate)) as [[R1 R2 R3 R4 R5 R6] Ht]. split; [|done]. split.
  - by split.
  - split; [exact Hn|unfold fits; lia].
  - eexists. split; [reflexivity|]. apply lookup_singleton_eq.
  - done.
  - intros t _. cbn [program_machine bm_sys sy_fs fds]. unfold table_for. rewrite lookup_empty. cbn. lia.
  - done.
  - vm_compute. reflexivity.
  - exists l. split; [exact Hp|exact Hl].
  - split; reflexivity.
Qed.

Lemma user_test_passes_witness :
  exists b : Boot.machine (T := gmap Z (Z * Z)) (V := flat), user_ready sample_hash 0x70000 0x71000 0x72000 3 b /\
    exists r r' es', run_user_events id id sample_hash [] 0x5000 0x6000 0x80000 0x90000 0x73000 0x70000 0x72000 sample_frame 9 (user_test_start b) [Tick; Run; Tick; Run] = Some r /\
      run_user_events id id sample_hash [] 0x5000 0x6000 0x80000 0x90000 0x73000 0x70000 0x72000 sample_frame 9 r es' = Some r' /\ ur_boot r' = BDone 3.
Proof.
  destruct (sched_init_some 0x5000 0x6000 0x40000 0x60000 0x1000 0x70000 0x71000 kernel_new ∅ (mkCounters 1 1)) as (k & m & c & E); [lia..|].
  destruct (region_pool 0x1000000 0x2000000) as (p & l & Hp & Hl); [by exists 0x1000|by exists 0x2000|lia|lia|]. change ((0x2000000 - 0x1000000) / 4096) with 4096 in Hl.
  destruct (program_machine_ready k m c p l E Hp ltac:(lia)) as [Hus Ht]. exists (program_machine k m c p). split; [exact Hus|].
  destruct (user_test_passes id id sample_hash [] 0x5000 0x6000 0x80000 0x90000 0x73000 0x70000 0x71000 0x72000 sample_frame 9 ltac:(lia) ltac:(lia) ltac:(lia) ltac:(lia) ltac:(apply (bool_decide_unpack _); vm_compute; exact I)
    3 (program_machine k m c p) [Tick; Run; Tick; Run] Hus) as (r & Er & _ & es' & r' & _ & Er' & Hd).
  - change (kern (program_machine k m c p)) with k. rewrite Ht. vm_compute. reflexivity.
  - exists r, r', es'. exact (conj Er (conj Er' Hd)).
Defined.
