(* ===== verification/Tests.v ===== *)
(** The self-tests in the order [kernel/src/main.rs] runs them, on the state the
    services leave: the eight that need one task ([Boot]), then clone and fork
    ([Children]) and user mode ([UserTest]).

    The three step systems are put in sequence, after steps that run one of the
    first eight tests each, between timer interrupts: when a test is over and the
    boot task runs, the next one starts on the machine the last one left, with
    its own child. *)

From S2P Require Import Prelude Bytes X86 Frames Disk Swap Vmm Signal Task Cpu Sched Sync Ipc Security Console Fat Mount Records Vfs Loader Syscall Boot Children User Init UserTest.

(** ** What a step of a test leaves alone *)

(** No task appears, and those there are keep their identifiers. *)
Definition names (t : Task) : Z * Z := (tid t, pid t).
Definition kept (k k' : kernel) : Prop :=
  (forall id l, k_table k' !! id = Some l -> k_table k !! id = Some l) /\ forall l, names <$> (k_tasks k' !! l) = names <$> (k_tasks k !! l).

Lemma kept_refl k : kept k k.
Proof. done. Qed.

Lemma identity_names t t' : identity t = identity t' -> names t = names t'.
Proof. intros E. destruct (identity_tid _ _ E) as (E1 & E2 & _). unfold names. congruence. Qed.

Lemma identities_names (ts ts' : tasks) l : identity <$> (ts' !! l) = identity <$> (ts !! l) -> names <$> (ts' !! l) = names <$> (ts !! l).
Proof. intros E. destruct (ts' !! l) as [t'|], (ts !! l) as [t|]; try done. cbn. f_equal. apply identity_names. exact (inj Some _ _ E). Qed.

Lemma moved_kept k k' : moved k k' -> kept k k'.
Proof. intros [_ M2 _ M4 _]. split; [by rewrite M2|]. intros l. apply identities_names, M4. Qed.

Lemma removed_kept k id : kept k (table_remove k id).
Proof. split; [|done]. intros i l Hi. cbn in Hi. by apply lookup_delete_Some in Hi as [_ Hi]. Qed.

Section Kept.
Context `{X86Addr} {T : Type} `{TopLevel T} {V : Type} {F : FatVolume V}.
Context (tramp clone_child_task fork_child_task base l0 l1 lc : Z).
Context (Hl01 : l0 <> l1) (Hl0c : l0 <> lc) (Hl1c : l1 <> lc) (Hbase : 0 < base < 2 ^ 63).

Abbreviation trun := (Children.trun (T := T) (V := V)).
Abbreviation inv := (Children.inv l0 l1 lc).
Abbreviation step := (trstep tramp clone_child_task fork_child_task base l0 lc).

(** Only the kernel changes, and not the names in it. *)
Definition same_names (r r' : trun) : Prop := tr_b r' = set_kern (tr_b r) (kern (tr_b r')) /\ kept (kern (tr_b r)) (kern (tr_b r')).

Lemma same_names_refl r : same_names r r.
Proof. split; [by destruct r as [[[] ? ? ? ? ?] ? ? ?]|apply kept_refl]. Qed.

Lemma tick_same_names t r r' : inv t r -> step t r Tick = Some r' -> same_names r r'.
Proof.
  intros [[c Hc] Hinv] E. unfold trstep in E. apply bind_Some in E as ([k' sw] & E & [= <-]). split; [done|]. cbn. apply moved_kept.
  assert (Hrun : exists run, core l0 l1 lc run (kern (tr_b r)) /\ (2 <= length run)%nat).
  { destruct (tr_boot r) as [|id|code]; [exists [l0; l1]; split; [eapply ready_core; [exact Hbase|apply Hinv]|cbn; lia]| |exists [l0; l1]; split; [apply Hinv|cbn; lia]].
    destruct Hinv as (tc & _ & Hph). destruct Hph; eexists; (split; [eassumption|cbn; lia]). }
  destruct Hrun as (run & Hco & Hlen). pose proof Hco as [A1 A2 A3 A4 A5 A6].
  destruct (decide (total_ticks (k_sched (kern (tr_b r))) + 1 < 2 ^ 32)) as [Hn|Hn].
  - destruct (timer_moved _ c A1 A3 (core_queued _ _ _ _ _ Hco Hlen) Hc A4 Hn) as (k2 & sw2 & E2 & Hm & _). rewrite E in E2. by injection E2 as <- _.
  - exfalso. unfold timer_handler, sched_tick, mlfq_tick in E. cbn [k_sched k_tasks] in E. do 3 (apply bind_Some in E as (? & E & _)). apply uchk_Some in E as [_ Hf]. unfold fits in Hf. lia.
Qed.

Lemma boot_same_names t r r' : inv t r -> tr_boot r <> BStart -> boot_step tramp clone_child_task fork_child_task base lc t r = Some r' -> current (k_sched (kern (tr_b r))) = Some l0 -> same_names r r'.
Proof.
  intros [_ Hinv] Hns E Hc. unfold boot_step in E. destruct (tr_boot r) as [|id|code] eqn:Eb; [done| |injection E as <-; apply same_names_refl].
  destruct Hinv as (tc & Hca & Hph). destruct (decide (state tc = Zombie)) as [Hz|Hz].
  - assert (Hco : exists run, core l0 l1 lc run (kern (tr_b r))) by (destruct Hph; eauto). destruct Hco as (run & Hco). rewrite (join_zombie l0 l1 lc t id run _ l0 tc Hco Hc Hca Hz) in E. cbn [mbind option_bind] in E.
    case_match; [|done]. injection E as <-. split; [done|]. apply removed_kept.
  - assert (Hco : exists run, core l0 l1 lc run (kern (tr_b r)) /\ (2 <= length run)%nat) by (destruct Hph; eexists; (split; [eassumption|cbn; lia])). destruct Hco as (run & Hco & Hlen).
    destruct (join_live l0 l1 lc Hl01 Hl0c Hl1c t id run _ l0 tc Hco Hlen Hc Hca Hz) as (k' & sw & Ej & Hm & _). rewrite Ej in E. cbn [mbind option_bind] in E. injection E as <-. split; [done|]. by apply moved_kept.
Qed.

Lemma child_same_names t r r' : inv t r -> child_step t r = Some r' -> current (k_sched (kern (tr_b r))) = Some lc -> same_names r r'.
Proof.
  intros [_ Hinv] E Hc. unfold child_step in E.
  assert (Hall : exists run tc, core l0 l1 lc run (kern (tr_b r)) /\ k_tasks (kern (tr_b r)) !! lc = Some tc) by
    (destruct (tr_boot r) as [|id|code]; [exfalso; destruct Hinv as [Hrd _]; by apply (child_not_in l0 l1 lc Hl0c Hl1c), (child_runs _ _ _ _ _ (ready_core base _ _ _ Hbase _ _ Hrd))
      |destruct Hinv as (tc & [A1 _ _] & Hph); destruct Hph; eauto|exfalso; destruct Hinv as (_ & _ & Hco & _); by apply (child_not_in l0 l1 lc Hl0c Hl1c), (child_runs _ _ _ _ _ Hco)]).
  destruct Hall as (run & tc & Hco & Htc). destruct (core_current _ _ _ _ _ _ Hco Hc) as (u & Hu & _ & Hct & Htb). assert (u = tc) as -> by congruence.
  destruct (tr_child r) as [| |p|] eqn:Ech; [injection E as <-; exact (same_names_refl r)| | |by injection E as <-; apply same_names_refl].
  - unfold exit_mark in E. rewrite Hct in E. cbn [mbind option_bind] in E. rewrite Htb, Htc in E. cbn [mbind option_bind] in E. injection E as <-. split; [done|]. split; [done|]. intros l. cbn.
    destruct (decide (l = lc)) as [->|]; [by rewrite lookup_insert_eq, Htc|by rewrite lookup_insert_ne].
  - destruct (tr_boot r) as [|id|code] eqn:Eb; [destruct Hinv as [_ Hch]; congruence| |destruct Hinv as (_ & _ & _ & Hch & _); congruence]. destruct Hinv as (tc' & Hca & Hph). try rewrite Ech in Hph.
    assert (tc' = tc) as -> by (pose proof (ca_task _ _ _ _ _ Hca); congruence).
    assert (Hn : core l0 l1 lc [l0; l1; lc] (kern (tr_b r)) /\ state tc <> Blocked).
    { inversion Hph as [| |p' Hco3 Hk Hf Hcm Hz Hx Hl Ep|p' Hco3 Hk Hf Ep| |]; (split; [done|]); [congruence|]. by destruct (runnable_alive base l0 l1 lc Hl0c Hl1c Hbase _ tc Hco3 Hk Htc). }
    destruct Hn as [Hco3 Hnb]. destruct (leave_core base l0 l1 lc Hl01 Hl0c Hl1c Hbase _ tc p Hco3 Hc Htc Hnb) as (k' & sw & El & _ & _ & _ & Hktb & Hid & _). rewrite El in E. cbn [mbind option_bind] in E. injection E as <-.
    split; [done|]. split; [cbn; by rewrite Hktb|]. intros l. apply identities_names, Hid.
Qed.

(** Every step but the one that starts the child. *)
Lemma step_same_names t r r' e :
  inv t r -> step t r e = Some r' -> (tr_boot r = BStart -> e = Run -> current (k_sched (kern (tr_b r))) <> Some l0) -> same_names r r'.
Proof.
  intros Hinv E Hns. destruct e; [by apply (tick_same_names t)|]. pose proof Hinv as [[c Hc] Hi]. unfold trstep in E. rewrite Hc in E. cbn [mbind option_bind] in E.
  destruct (Z.eqb_spec c l0) as [Heq|Hne]; [rewrite Heq in Hc; eapply boot_same_names; [done|intros Hb; by apply Hns|done|done]|]. destruct (Z.eqb_spec c lc) as [Heq|Hne2]; [rewrite Heq in Hc; by eapply child_same_names|]. injection E as <-. apply same_names_refl.
Qed.

(** Only that step changes where the boot task is from [BStart]. *)
Lemma step_started t (r r' : trun) e :
  step t r e = Some r' -> (tr_boot r = BStart -> e = Run -> current (k_sched (kern (tr_b r))) <> Some l0) -> tr_boot r = BStart <-> tr_boot r' = BStart.
Proof.
  intros E Hns. unfold trstep in E. destruct e; [by apply bind_Some in E as ([k sw] & _ & [= <-])|]. apply bind_Some in E as (c & Hc & E).
  destruct (Z.eqb_spec c l0) as [Heq|Hne].
  - rewrite Heq in Hc. unfold boot_step in E. destruct (tr_boot r) as [|id|code] eqn:Eb; [by destruct (Hns eq_refl eq_refl)| |injection E as <-; by rewrite Eb].
    apply bind_Some in E as ([[res k] sw] & _ & E). destruct res; [case_match; [|done]|]; injection E as <-; cbn; by rewrite ?Eb.
  - destruct (Z.eqb_spec c lc) as [Heq|Hne2]; [|by injection E as <-]. unfold child_step in E. destruct (tr_child r); [by injection E as <-|..|by injection E as <-]; by apply bind_Some in E as ([k q] & _ & [= <-]).
Qed.

(** A test carries [P] until its child starts and [Q] from then on. *)
Lemma stage_step t (P Q : Boot.machine (T := T) (V := V) -> Prop) (r : trun) e :
  (forall b b', P b -> b' = set_kern b (kern b') -> kept (kern b) (kern b') -> P b') -> (forall b b', Q b -> b' = set_kern b (kern b') -> kept (kern b) (kern b') -> Q b') ->
  (forall b b' id, P b -> ready l0 l1 lc t b -> spawn_child tramp clone_child_task fork_child_task base lc t b = Some (Ok id, b') -> Q b') ->
  let C (r : trun) := match tr_boot r with BStart => P (tr_b r) | _ => Q (tr_b r) end in
  inv t r -> C r -> (e = Tick -> now r + 1 < 2 ^ 32) ->
  exists r', step t r e = Some r' /\ inv t r' /\ C r' /\ now r' = now r + ticks [e] /\ (hanging lc r -> hanging lc r').
Proof.
  intros HP HQ Hsp C Hinv HC Hn. destruct (inv_step tramp clone_child_task fork_child_task base l0 l1 lc Hl01 Hl0c Hl1c Hbase t r e Hinv Hn) as (r' & E & Hinv' & Ht & Hh). exists r'. split_and!; try done.
  assert (Hdec : (tr_boot r = BStart /\ e = Run /\ current (k_sched (kern (tr_b r))) = Some l0) \/ (tr_boot r = BStart -> e = Run -> current (k_sched (kern (tr_b r))) <> Some l0)).
  { destruct (decide (current (k_sched (kern (tr_b r))) = Some l0)); [|by right]. destruct e; [by right|]. destruct (tr_boot r); [by left|by right..]. }
  destruct Hdec as [(Eb & -> & Hc)|Hns].
  - unfold C in HC. rewrite Eb in HC. pose proof Hinv as [_ Hi]. rewrite Eb in Hi. destruct Hi as [Hrd _]. rewrite run_boot in E by done. unfold boot_step in E. rewrite Eb in E.
    apply bind_Some in E as ([[id|e] b'] & Es & E); [|done]. injection E as <-. exact (Hsp _ _ _ HC Hrd Es).
  - destruct (step_same_names t r r' e Hinv E Hns) as [Hb Hk]. pose proof (step_started t r r' e E Hns) as Hst. unfold C in *. destruct (tr_boot r) as [|id|code] eqn:Eb, (tr_boot r') as [|id'|code'] eqn:Eb'; try (by eauto); destruct Hst as [Q1 Q2]; (discriminate (Q1 eq_refl) || discriminate (Q2 eq_refl)).
Qed.

End Kept.

(** ** What the tests pass on *)

Section Carry.
Context `{X86Addr} {T : Type} `{TopLevel T}.
Context {V : Type} {F : FatVolume V} {L : FatLaws V} {G : FatGrowth V}.
Context (sha256 : list Z -> list Z) (l0 l1 : Z).

Abbreviation machine := (Boot.machine (T := T) (V := V)).

(** What the tests to come need of the machine: the addresses of their tasks are
    [free], there are [n] frames, the next process is [p], [j] more threads can
    be numbered, and the program, the console and the test user are there. *)
Record carry (free : list Z) (n : nat) (p j : Z) (b : machine) : Prop := mkCarry {
  cy_ids id l : k_table (kern b) !! id = Some l -> id < NEXT_TID (sy_counters (bm_sys b)) /\ forall u, k_tasks (kern b) !! l = Some u -> pid u < p;
  cy_free l : l ∈ free -> k_tasks (kern b) !! l = None;
  cy_next : NEXT_PID (sy_counters (bm_sys b)) = p /\ 0 <= p /\ 0 <= NEXT_TID (sy_counters (bm_sys b)) /\ NEXT_TID (sy_counters (bm_sys b)) + j < 2 ^ 64;
  cy_pool : exists fs, pool_at (bm_pool b) fs /\ (n <= length fs)%nat;
  cy_file : exists d, disk (sy_fs (bm_sys b)) = Some d /\ files d INIT_FILE = Some init_bin;
  cy_closed : fcbs (sy_fs (bm_sys b)) = ∅;
  cy_fds : forall t, k_tasks (kern b) !! l0 = Some t -> 0 <= next_fd (table_for (fds (sy_fs (bm_sys b))) (pid t)) < 2 ^ 63;
  cy_dev : sy_dev (bm_sys b) = [mkDevice "console" true];
  cy_auth : verify_password sha256 (sy_fs (bm_sys b)) 1 TEST_PASSWORD = true;
  cy_l4 : bm_l4 b (l4_index USER_CODE_BASE) = false /\ bm_l4 b (l4_index STACK_PAGE) = false
}.

Lemma names_some (ts ts' : tasks) l t' : names <$> (ts' !! l) = names <$> (ts !! l) -> ts' !! l = Some t' -> exists t, ts !! l = Some t /\ pid t' = pid t.
Proof. intros E Ht. rewrite Ht in E. destruct (ts !! l) as [t|]; [|done]. exists t. split; [done|]. injection E as _ E. done. Qed.

Lemma carry_kept free n p j (b b' : machine) : carry free n p j b -> b' = set_kern b (kern b') -> kept (kern b) (kern b') -> carry free n p j b'.
Proof.
  intros [C1 C2 C3 C4 C5 C6 C7 C8 C9 C10] -> [K1 K2]. set (k := kern b') in *. change (kern (set_kern b k)) with k in *. split; try done.
  - intros id l Hid. destruct (C1 id l (K1 _ _ Hid)) as [Q1 Q2]. split; [done|]. intros u Hu. destruct (names_some _ _ _ _ (K2 l) Hu) as (u0 & Hu0 & ->). by apply Q2.
  - intros l Hl. specialize (K2 l). rewrite (C2 l Hl) in K2. change (kern (set_kern b k)) with k. by destruct (k_tasks k !! l).
  - intros t Ht. destruct (names_some _ _ _ _ (K2 l0) Ht) as (t0 & Ht0 & ->). by apply C7.
Qed.

Lemma carry_sub free free' n p j (b : machine) : (forall l, l ∈ free' -> l ∈ free) -> carry free n p j b -> carry free' n p j b.
Proof. intros Hs [C1 C2 C3 C4 C5 C6 C7 C8 C9 C10]. split; auto. Qed.

(** A test is over: the next can start. *)
Lemma done_ready lc lc' t free n p j (b : machine) :
  core l0 l1 lc [l0; l1] (kern b) -> kernel_ok l1 (kern b) -> (forall id l, k_table (kern b) !! id = Some l -> l <> lc) -> carry free (S n) p j b -> lc' ∈ free -> ready l0 l1 lc' t b.
Proof.
  intros Hco Hok Hne [C1 C2 C3 C4 _ _ _ _ _ _] Hf. split; [done|apply (co_run _ _ _ _ _ Hco)| |by apply C2| |].
  - intros id l Hid. destruct (co_table _ _ _ _ _ Hco id l Hid) as [Hl _]. specialize (Hne id l Hid). rewrite !elem_of_cons, elem_of_nil in *. split; [tauto|].
    intros u Hu. destruct (C1 id l Hid) as [_ Hp]. specialize (Hp u Hu). lia.
  - destruct (k_table (kern b) !! NEXT_TID _) as [l|] eqn:E; [|done]. apply C1 in E as [E _]. lia.
  - intros _. destruct C4 as ([|f fs] & Hp & Hl); [cbn in Hl; lia|]. by exists f, fs.
Qed.

Lemma start_child_inv lc mk (b b' : machine) t :
  start_child lc mk b = Some (Ok t, b') -> exists m c, mk (sy_mem (bm_sys b)) (sy_counters (bm_sys b)) = Some (t, m, c) /\
    k_tasks (kern b') = <[lc := t]> (k_tasks (kern b)) /\ k_table (kern b') = <[tid t := lc]> (k_table (kern b)) /\ b' = set_sys b (put_counters (put_mem (put_k (bm_sys b) (kern b')) m) c).
Proof.
  unfold start_child, kbind, kget, need. destruct (mk _ _) as [[[t0 m] c]|]; [|done]. cbn. unfold spawn, table_insert. cbn [set_tasks k_tasks k_table k_sched]. rewrite lookup_insert_eq. cbn [mbind option_bind k_tasks k_sched].
  unfold push. rewrite lookup_insert_eq. cbn. intros [= -> <-]. by exists m, c.
Qed.

(** The new task is the next thread; its process is an old one or the next. *)
Lemma carry_started lc free n p p' j (b b' : machine) t m c :
  carry free n p (j + 1) b -> lc ∉ free -> lc <> l0 -> k_tasks (kern b') = <[lc := t]> (k_tasks (kern b)) -> k_table (kern b') = <[tid t := lc]> (k_table (kern b)) ->
  b' = set_sys b (put_counters (put_mem (put_k (bm_sys b) (kern b')) m) c) -> tid t = NEXT_TID (sy_counters (bm_sys b)) -> 0 <= j ->
  NEXT_TID c = NEXT_TID (sy_counters (bm_sys b)) + 1 -> NEXT_PID c = p' -> p <= p' -> pid t < p' -> (forall i, k_table (kern b) !! i <> Some lc) -> carry free n p' j b'.
Proof.
  intros [C1 C2 (C3 & C3a & C3b & C3c) C4 C5 C6 C7 C8 C9 C10] Hf Hl0 Etk Etb Eb Ht Hj Hc1 Hc2 Hpp Hpt Hnl. assert (Ec : sy_counters (bm_sys b') = c) by (by rewrite Eb). assert (Efs : sy_fs (bm_sys b') = sy_fs (bm_sys b)) by (by rewrite Eb).
  split; rewrite ?Ec, ?Efs; try (by rewrite Eb); try done.
  - rewrite Etb, Etk. intros id l Hid. apply lookup_insert_Some in Hid as [[<- <-]|[Hne Hid]].
    + split; [lia|]. rewrite lookup_insert_eq. by intros u [= <-].
    + destruct (C1 id l Hid) as [Q1 Q2]. split; [lia|]. intros u Hu. rewrite lookup_insert_ne in Hu by (intros <-; by apply (Hnl id)). apply Q2 in Hu. lia.
  - intros l Hl. rewrite Etk, lookup_insert_ne by (intros ->; done). by apply C2.
  - split_and!; [done|lia|lia|lia].
  - rewrite Etk, lookup_insert_ne by done. exact C7.
Qed.

Section Spawned.
Context (tramp clone_child_task fork_child_task base lc : Z) (Hl0c : l0 <> lc) (Hl1c : l1 <> lc).

Lemma ready_not_listed t (b : machine) i : ready l0 l1 lc t b -> k_table (kern b) !! i <> Some lc.
Proof. intros Hrd E. destruct (rd_table _ _ _ _ _ Hrd i lc E) as [Hl _]. by apply (child_not_in l0 l1 lc). Qed.

Lemma current_task_pid free n p j (b : machine) self : carry free n p j b -> current_task (kern b) = Some self -> pid self < p.
Proof. intros Hcy E. unfold current_task in E. apply bind_Some in E as (id & _ & E). apply bind_Some in E as (l & Hl & E). destruct (cy_ids _ _ _ _ _ Hcy id l Hl) as [_ Hp]. by apply Hp. Qed.

Lemma clone_carry free n p j (b b' : machine) id :
  carry free n p (j + 1) b -> 0 <= j -> lc ∉ free -> ready l0 l1 lc CloneTest b -> clone_spawn tramp clone_child_task base lc b = Some (Ok id, b') -> carry free n p j b'.
Proof.
  intros Hcy Hj Hf Hrd E. unfold clone_spawn, kbind, kget, need, kret in E. cbv beta iota in E. destruct (current_task (kern b)) as [self|] eqn:Es; [|done]. cbv beta iota in E.
  destruct (start_child lc _ b) as [[[t|e] b2]|] eqn:Est; [|done|done]. injection E as _ <-.
  destruct (start_child_inv lc _ b b2 t Est) as (m & c & Em & Etk & Etb & Eb). unfold clone_thread in Em. apply bind_Some in Em as ([m1 top] & _ & Em). apply bind_Some in Em as ([m2 r] & _ & Em). unfold tid_next in Em.
  injection Em as Et _ Ec. pose proof (cy_next _ _ _ _ _ Hcy) as (N1 & N2 & N3 & N4).
  eapply (carry_started lc free n p p j b b2 t m c); [done|done|congruence|exact Etk|exact Etb|exact Eb| |done| | |lia| |intros i; by apply (ready_not_listed CloneTest)]; subst t c; cbn; [done| |done|].
  - rewrite wrap_small; [done|]. unfold fits. lia.
  - by eapply current_task_pid.
Qed.

Lemma fork_carry free n p j (b b' : machine) id :
  carry free (S n) p (j + 1) b -> 0 <= j -> p < 2 ^ 31 -> lc ∉ free -> ready l0 l1 lc ForkTest b -> fork_spawn tramp fork_child_task base lc b = Some (Ok id, b') -> carry free n (p + 1) j b'.
Proof.
  intros Hcy Hj Hp Hf Hrd E. destruct (cy_pool _ _ _ _ _ Hcy) as ([|f fs] & Hpool & Hn); [cbn in Hn; lia|]. destruct (clone_kernel_half_spec (bm_l4 b) (bm_table b) (bm_pool b) f fs Hpool) as (p1 & Ep & Hp1).
  unfold fork_spawn, kbind, kget, kput, need, kret in E. rewrite Ep in E. cbv beta iota in E. destruct (current_task (kern b)) as [self|] eqn:Es; [|done]. cbv beta iota in E.
  set (b1 := set_memory b (bm_table b) p1 (bm_virt b)) in *. destruct (start_child lc _ b1) as [[[t|e] b2]|] eqn:Est; [|done|done]. injection E as _ <-.
  assert (Hcy1 : carry free n p (j + 1) b1) by (destruct Hcy as [C1 C2 C3 C4 C5 C6 C7 C8 C9 C10]; split; try done; exists fs; split; [exact Hp1|cbn in Hn; lia]).
  destruct (start_child_inv lc _ b1 b2 t Est) as (m & c & Em & Etk & Etb & Eb). apply bind_Some in Em as ([[t0 m0] c0] & Em & Em2). injection Em2 as <- <- <-.
  unfold fork_kernel in Em. apply bind_Some in Em as ([m1 top] & _ & Em). apply bind_Some in Em as ([m2 r] & _ & Em). unfold pid_next, tid_next in Em.
  injection Em as Et _ Ec. pose proof (cy_next _ _ _ _ _ Hcy1) as (N1 & N2 & N3 & N4).
  eapply (carry_started lc free n p (p + 1) j b1 b2 _ _ c0); [done|done|congruence|exact Etk|exact Etb|exact Eb| |done| | |lia| |exact (fun i => ready_not_listed ForkTest b i Hrd)]; subst t0 c0; cbn; [done| | |].
  - rewrite wrap_small; [done|]. change (sy_counters (bm_sys b1)) with (sy_counters (bm_sys b)) in *. unfold fits. lia.
  - change (sy_counters (bm_sys b1)) with (sy_counters (bm_sys b)) in *. rewrite wrap_small by (unfold fits; lia). lia.
  - change (sy_counters (bm_sys b1)) with (sy_counters (bm_sys b)) in *. lia.
Qed.
End Spawned.
End Carry.

(** ** The tests that need one task *)

Section First.
Context `{X86Addr} {T : Type} `{TopLevel T}.
Context {V : Type} {F : FatVolume V} {L : FatLaws V} {G : FatGrowth V}.
Context (to_lowercase from_utf8_lossy : list Z -> list Z) (sha256 : list Z -> list Z) (stat_pad : list Z).
Context (tramp l0 l1 : Z).

Abbreviation machine := (Boot.machine (T := T) (V := V)).
(** The first and the last test take frames. *)
Definition frames_left (n : nat) : Z := match n with 0%nat => TEST_FRAMES | 8%nat => TEST_FRAMES - 16 | _ => TEST_FRAMES - 8 end.

(** The machine before the [n]-th test, counted from 0. *)
Record at_test (n : nat) (b : machine) : Prop := mkAtTest {
  at_memory : exists v, memory_ready (frames_left n) v b /\ (n = 0%nat -> v + 0x3000 < 2 ^ 32);
  at_disk : exists d, disk (sy_fs (bm_sys b)) = Some d /\ files d INIT_FILE = Some init_bin /\
    ((n <= 2)%nat -> files d HELLO_FILE = None /\ is_Some (tests_volume sha256 d)) /\
    ((n <= 6)%nat -> files d TEST_PATH = None /\ ((2 < n)%nat -> is_Some (fat_store d TEST_PATH (test_records sha256))));
  at_closed : fcbs (sy_fs (bm_sys b)) = ∅;
  at_fds t : k_tasks (kern b) !! l0 = Some t -> let ft := table_for (fds (sy_fs (bm_sys b))) (pid t) in ((n <= 2)%nat -> ft = mkFds 4 ∅) /\ 0 <= next_fd ft < 2 ^ 63;
  at_dev : sy_dev (bm_sys b) = [mkDevice "console" true];
  at_auth : verify_password sha256 (sy_fs (bm_sys b)) 1 TEST_PASSWORD = true;
  at_res : (n <= 1)%nat -> sy_res (bm_sys b) = resource_table_new;
  at_ac : (n <= 3)%nat -> sy_ac (bm_sys b) = rbac_new;
  at_swap : (n <= 7)%nat -> exists part, bm_swap b = Some part /\ swap_rep part ∅ /\ length (sw_free part) = 1024%nat
}.

(** The tests leave the scheduler alone. *)
Definition quiet (b b' : machine) : Prop := kern b' = kern b /\ sy_counters (bm_sys b') = sy_counters (bm_sys b) /\ bm_l4 b' = bm_l4 b.

Lemma booted_at (b : machine) d :
  booted sha256 l0 l1 init_bin b -> disk (sy_fs (bm_sys b)) = Some d -> is_Some (tests_volume sha256 d) -> at_test 0 b.
Proof.
  intros [Hm [Hk Hc] _ (d' & Hd & Hi & Ho) Hf Hfd Ha Hdev Hac Hres Hsw _] Hd' Hv. assert (d' = d) as -> by congruence. split; try done.
  - exists SERVICES_END. by split.
  - exists d. split_and!; [done|done|intros _; split; [by apply Ho|done]|intros _; split; [by apply Ho|lia]].
  - intros t Ht. rewrite (Hfd (pid t)); [cbn; split; [done|lia]|]. unfold current_pid. rewrite Hc. cbn [mbind option_bind]. unfold kern in Ht. by rewrite Ht.
  - unfold verify_password, auth_verify. rewrite Ha, lookup_singleton_eq. by apply bool_decide_eq_true.
Qed.

Lemma at_kept n (b b' : machine) : at_test n b -> b' = set_kern b (kern b') -> kept (kern b) (kern b') -> at_test n b'.
Proof.
  intros [A1 A2 A3 A4 A5 A6 A7 A8 A9] -> [_ K2]. set (k := kern b') in *. change (kern (set_kern b k)) with k in *. split; try done.
  - destruct A1 as (v & Hm & Hv). exists v. split; [|done]. by destruct Hm; split.
  - intros t Ht. destruct (names_some _ _ _ _ (K2 l0) Ht) as (t0 & Ht0 & ->). by apply A4.
Qed.

Context (vm_call : Z -> sys (D := V) -> Z -> Z -> Z -> answer (D := V)) (fuel : nat).
Context (Hsha : forall m, length (sha256 m) = 32%nat) (Hfuel : (2 < fuel)%nat).

Abbreviation tests := (single_tests to_lowercase from_utf8_lossy sha256 stat_pad tramp vm_call fuel).
Abbreviation never := (fun _ : boot_failure => False).

(** A test that touches neither memory nor files. *)
Lemma at_next n (b b' : machine) :
  at_test n b -> (0 < n < 7)%nat -> n <> 2%nat -> n <> 6%nat -> set_sys b' (bm_sys b) = b -> kern b' = kern b -> sy_fs (bm_sys b') = sy_fs (bm_sys b) -> sy_dev (bm_sys b') = sy_dev (bm_sys b) ->
  ((n <= 2)%nat -> sy_ac (bm_sys b') = sy_ac (bm_sys b)) -> at_test (S n) b'.
Proof.
  intros [A1 A2 A3 A4 A5 A6 A7 A8 A9] Hn H2 H6 Eb Ek Ef Ed Ea. assert (Hm : bm_table b' = bm_table b /\ bm_pool b' = bm_pool b /\ bm_virt b' = bm_virt b /\ bm_swap b' = bm_swap b) by (by rewrite <- Eb).
  destruct Hm as (M1 & M2 & M3 & M4). split; rewrite ?Ef, ?Ed, ?Ek, ?M4; try done.
  - destruct A1 as (v & [Q1 Q2 Q3 Q4 Q5] & Hv). exists v. split; [|done]. assert (frames_left (S n) = frames_left n) as -> by (destruct n as [|[|[|[|[|[|[|n]]]]]]]; (done || lia)). split; rewrite ?M1, ?M2, ?M3; done.
  - destruct A2 as (d & Hd & Hi & Hh & Ht). exists d. split_and!; [done|done|intros ?; apply Hh; lia|]. intros ?. destruct (Ht ltac:(lia)) as [Q1 Q2]. split; [done|]. intros ?. apply Q2. lia.
  - intros t Et. destruct (A4 t Et) as [Q1 Q2]. split; [|done]. intros ?. apply Q1. lia.
  - intros ?. lia.
  - intros ?. rewrite Ea by lia. apply A8. lia.
  - intros ?. apply A9. lia.
Qed.

Lemma io_at (b : machine) : at_test 0 b -> wpr never io_smoke_test (fun _ b' => at_test 1 b' /\ quiet b b') b.
Proof.
  intros [(v & Hm & Hv) A2 A3 A4 A5 A6 A7 A8 A9]. apply (io_smoke_test_wp (TEST_FRAMES - 8) v); [exact Hm|done|by apply Hv|]. intros b' Hm' (Es & Esw & El). unfold quiet, kern. rewrite Es. split; [|by split_and!].
  split; unfold kern; rewrite ?Es, ?Esw; try done.
  - exists (v + 0x2000). by split.
  - destruct A2 as (d & Hd & Hi & Hh & Ht). exists d. split_and!; [done|done|intros _; apply Hh; lia|]. intros _. split; [apply Ht; lia|lia].
  - intros t Et. destruct (A4 t Et) as [Q1 Q2]. split; [|done]. intros _. apply Q1. lia.
  - intros _. apply A7. lia.
  - intros _. apply A8. lia.
  - intros _. apply A9. lia.
Qed.

Lemma fs_at (b : machine) t :
  at_test 2 b -> current (k_sched (kern b)) = Some l0 -> k_tasks (kern b) !! l0 = Some t -> wpr never (fs_smoke_test to_lowercase) (fun _ b' => at_test 3 b' /\ quiet b b') b.
Proof.
  intros [(v & Hm & _) (d & Hd & Hi & Hh & Ht) A3 A4 A5 A6 A7 A8 A9] Hc Et. destruct (Hh (le_n 2)) as [Hnew [d3 Hv]]. destruct (A4 t Et) as [Hfd _]. apply bind_Some in Hv as (d2 & Hs1 & Hs2).
  apply (fs_smoke_test_wp to_lowercase b (pid t) d); [|done|by apply Hfd|done|done|congruence|].
  - unfold current_pid. fold (kern b). rewrite Hc. cbn [mbind option_bind]. by rewrite Et.
  - intros s' d' Hc' Ha Hst Hd' Ho Hfd'. assert (d' = d2) as -> by congruence. split; [|done]. split; cbn [bm_sys set_sys put_fs sy_fs sy_dev sy_res sy_ac bm_swap]; try done.
    + exists v. split; [|done]. by destruct Hm; split.
    + exists d2. split_and!; [done|rewrite Ho; [done|by split_and!]|lia|]. intros _. rewrite Ho by (by split_and!). split; [apply Ht; lia|by eexists].
    + intros t' Et'. change (k_tasks (kern b) !! l0 = Some t') in Et'. assert (t' = t) as -> by congruence. split; [lia|done].
    + unfold verify_password. by rewrite Ha.
    + lia.
    + intros _. apply A8. lia.
    + intros _. apply A9. lia.
Qed.

Lemma consistency_at (b : machine) : at_test 6 b -> wpr never (consistency_smoke_test sha256 fuel) (fun _ b' => at_test 7 b' /\ quiet b b') b.
Proof.
  intros [(v & Hm & _) (d & Hd & Hi & Hh & Ht) A3 A4 A5 A6 A7 A8 A9]. destruct (Ht (le_n 6)) as [Hnew [d2 Hs]]; [lia|].
  apply (consistency_smoke_test_wp sha256 fuel b d); [done|done|done|done|congruence|]. intros d' Ho. split; [|done]. split; cbn [bm_sys set_sys put_fs sy_fs sy_dev bm_swap mount_disk fcbs fds auth disk]; try done.
  - exists v. split; [|done]. by destruct Hm; split.
  - exists d'. split_and!; [done|rewrite Ho; [done|by split_and!]|lia|lia].
  - intros t Et. destruct (A4 t Et) as [_ Q2]. split; [lia|done].
  - lia.
  - lia.
  - intros _. apply A9. lia.
Qed.

Lemma swap_at (b : machine) : at_test 7 b -> wpr never swap_smoke_test (fun _ b' => at_test 8 b' /\ quiet b b') b.
Proof.
  intros [(v & Hm & _) (d & Hd & Hi & Hh & Ht) A3 A4 A5 A6 A7 A8 A9]. destruct (A9 (le_n 7)) as (part & Hsw & Hrep & Hfree).
  apply (swap_smoke_test_wp (TEST_FRAMES - 8) v b part); [exact Hm|done|done|done|done|]. intros p l sw Hp Hl Hrep'. split; [|done]. split; cbn [bm_sys]; try done; try lia.
  - exists v. split; [|done]. destruct Hm as [_ Q2 Q3 Q4 Q5]. split; [exists l; split; [done|cbn [frames_left]; lia]|done..].
  - exists d. split_and!; [done|done|lia|lia].
  - intros t Et. destruct (A4 t Et) as [_ Q2]. split; [lia|done].
Qed.

(** Each test does its work without a failure and leaves the machine for the next
    one. *)
Lemma test_passes n (b : machine) m t :
  at_test n b -> kernel_ok l1 (kern b) -> current (k_sched (kern b)) = Some l0 -> k_tasks (kern b) !! l0 = Some t -> tests !! n = Some m ->
  wpr never m (fun _ b' => at_test (S n) b' /\ quiet b b') b.
Proof.
  intros Hat Hok Hc Ht Em. destruct n as [|[|[|[|[|[|[|[|n]]]]]]]]; cbn in Em; try (injection Em as <-); try done.
  - by apply io_at.
  - apply (sync_syscall_smoke_test_wp _ _ _ _ _ vm_call l1); [done|by apply Hat, le_n|]. intros r. split; [|done]. apply (at_next 1 b); [done|lia|lia|lia|by destruct b|done|done|done|done].
  - by apply (fs_at b t).
  - apply security_smoke_test_wp; [by apply Hat|]. intros ac. split; [|done]. apply (at_next 3 b); [done|lia|lia|lia|by destruct b|done|done|done|lia].
  - apply device_smoke_test_wp; [by apply Hat|]. split; [|done]. apply (at_next 4 b); [done|lia|lia|lia|by destruct b|done|done|done|done].
  - apply disk_scheduling_smoke_test_wp. split; [|done]. apply (at_next 5 b); [done|lia|lia|lia|by destruct b|done|done|done|done].
  - by apply consistency_at.
  - by apply swap_at.
Qed.
End First.

(** ** The tests in order *)

Section Tests.
Context `{X86Addr} {T : Type} `{TopLevel T}.
Context {V : Type} {F : FatVolume V} {L : FatLaws V} {G : FatGrowth V}.
Context (to_lowercase from_utf8_lossy : list Z -> list Z) (sha256 : list Z -> list Z) (stat_pad : list Z).
(** The trampolines and the code of the two kernel children; the stacks of the
    three children, and what a task made by the program would get; the tasks:
    boot, idle and the three children. *)
Context (tramp utramp clone_child_task fork_child_task base1 base2 base3 base' l' l0 l1 lc1 lc2 lc3 : Z).
Context (regs0 : TrapFrame) (fuel : nat) (vm_call : Z -> sys (D := V) -> Z -> Z -> Z -> answer (D := V)).

Abbreviation machine := (Boot.machine (T := T) (V := V)).
Abbreviation first_tests := (single_tests to_lowercase from_utf8_lossy sha256 stat_pad tramp vm_call fuel).
Abbreviation trun := (Children.trun (T := T) (V := V)).
Abbreviation urun := (UserTest.urun (T := T) (V := V)).
Abbreviation clone_step := (trstep tramp clone_child_task fork_child_task base1 l0 lc1 CloneTest).
Abbreviation fork_step := (trstep tramp clone_child_task fork_child_task base2 l0 lc2 ForkTest).
Abbreviation user_step' := (urstep to_lowercase from_utf8_lossy sha256 stat_pad tramp utramp base3 base' l' l0 lc3 regs0 fuel).

(** The test in progress; of those that need one task, how many are over. *)
Inductive tests_run := RFirst (n : nat) (b : machine) | RClone (r : trun) | RFork (r : trun) | RUser (r : urun).

(** The boot task runs and its test is over. *)
Definition goes_on (b : machine) (pc : boot_pc) (e : tevent) : bool :=
  match pc, e with BDone _, Run => bool_decide (current (k_sched (kern b)) = Some l0) | _, _ => false end.

(** The tests that need one task: the timer interrupts between them, and each runs
    in one step when the processor is back with the boot task.  A failed
    [expect] is a panic. *)
(* main.rs:139-146 all_the_freaking_tests *)
Definition first_step (n : nat) (b : machine) (e : tevent) : option tests_run :=
  match e with
  | Tick => '(k, _) ← timer_handler (kern b); Some (RFirst n (set_kern b k))
  | Run =>
      l ← current (k_sched (kern b));
      if l =? l0 then
        match first_tests !! n with
        | Some test =>
            '(r, b) ← test b;
            match r with Ok _ => Some (RFirst (S n) b) | Err _ => None end
        | None => Some (RClone (test_start b 0))
        end
      else Some (RFirst n b)
  end.

(* main.rs:138-150 all_the_freaking_tests *)
Definition tests_step (s : tests_run) (e : tevent) : option tests_run :=
  match s with
  | RFirst n b => first_step n b e
  | RClone r => if goes_on (tr_b r) (tr_boot r) e then Some (RFork (test_start (tr_b r) 0)) else RClone <$> clone_step r e
  | RFork r => if goes_on (tr_b r) (tr_boot r) e then Some (RUser (user_test_start (tr_b r))) else RFork <$> fork_step r e
  | RUser r => RUser <$> user_step' r e
  end.

Fixpoint run_tests (s : tests_run) (es : list tevent) : option tests_run :=
  match es with
  | [] => Some s
  | e :: es => s ← tests_step s e; run_tests s es
  end.

Definition tests_now (s : tests_run) : Z := match s with RFirst _ b => total_ticks (k_sched (kern b)) | RClone r | RFork r => now r | RUser r => unow r end.

(** A child has been caught in [exit] and the boot task still waits for it. *)
Definition tests_hang (s : tests_run) : Prop := match s with RClone r => hanging lc1 r | RFork r => hanging lc2 r | RFirst _ _ | RUser _ => False end.

(** ** No test panics *)

Context (Hnd : NoDup [l0; l1; lc1; lc2; lc3]) (Hb1 : 0 < base1 < 2 ^ 63) (Hb2 : 0 < base2 < 2 ^ 63) (Hb3 : 0 < base3 < 2 ^ 63) (Hregs : frame_fits regs0).
Context (Hsha : forall m, length (sha256 m) = 32%nat) (Hfuel : (2 < fuel)%nat).

Lemma apart : l0 <> l1 /\ l0 <> lc1 /\ l1 <> lc1 /\ l0 <> lc2 /\ l1 <> lc2 /\ l0 <> lc3 /\ l1 <> lc3 /\ lc1 <> lc2 /\ lc1 <> lc3 /\ lc2 <> lc3.
Proof. clear -Hnd. rewrite !NoDup_cons, !not_elem_of_cons in Hnd. tauto. Qed.

Abbreviation carry := (Tests.carry sha256 l0).

(** [p] is the number of the first process the tests make. *)
Definition tests_inv (p : Z) (s : tests_run) : Prop :=
  match s with
  | RFirst n b => inv l0 l1 lc1 CloneTest (test_start b 0) /\ carry [lc2; lc3] 14 p 2 b /\ at_test sha256 l0 n b /\ (n <= 8)%nat
  | RClone r => inv l0 l1 lc1 CloneTest r /\ carry [lc2; lc3] 14 p (match tr_boot r with BStart => 2 | _ => 1 end) (tr_b r)
  | RFork r => inv l0 l1 lc2 ForkTest r /\ match tr_boot r with BStart => carry [lc3] 14 p 1 (tr_b r) | _ => carry [lc3] 13 (p + 1) 0 (tr_b r) end
  | RUser r => uinv sha256 l0 l1 lc3 (p + 1) r
  end.
Lemma stays r e : goes_on r BStart e = false.
Proof. by destruct e. Qed.

(** The boot task goes on only when the test is over. *)
Lemma goes_on_done b pc e : goes_on b pc e = true -> (exists code, pc = BDone code) /\ e = Run /\ current (k_sched (kern b)) = Some l0.
Proof. unfold goes_on. destruct pc, e; try done. intros Hc. apply bool_decide_eq_true in Hc. eauto. Qed.

Lemma carry_quiet free p j n (b b' : machine) : carry free 14 p j b -> quiet b b' -> at_test sha256 l0 n b' -> carry free 14 p j b'.
Proof.
  intros [C1 C2 C3 C4 C5 C6 C7 C8 C9 C10] (Ek & Ec & El) [(v & [(l & Hp & Hl) _ _ _ _] & _) (d & Hd & Hi & _) A3 A4 A5 A6 _ _ _]. split; rewrite ?Ek, ?Ec, ?El; try done.
  - exists l. split; [done|]. unfold TEST_FRAMES, frames_left in Hl. destruct n as [|[|[|[|[|[|[|[|[|n]]]]]]]]]; unfold TEST_FRAMES in Hl; lia.
  - by exists d.
  - intros t Ht. rewrite <- Ek in Ht. by apply A4.
Qed.

Lemma inv_quiet (b b' : machine) : inv l0 l1 lc1 CloneTest (test_start b 0) -> quiet b b' -> inv l0 l1 lc1 CloneTest (test_start b' 0).
Proof.
  intros [Hc [[R1 R2 R3 R4 R5 _] _]] (Ek & Ec & El). cbn [test_start tr_b] in *. apply start_inv. split; rewrite ?Ek, ?Ec; done.
Qed.

(** A test runs while the boot task does. *)
Lemma first_test_runs p n (b : machine) :
  tests_inv p (RFirst n b) -> (n < 8)%nat -> current (k_sched (kern b)) = Some l0 ->
  exists b', tests_step (RFirst n b) Run = Some (RFirst (S n) b') /\ tests_inv p (RFirst (S n) b') /\ quiet b b'.
Proof.
  intros (Hinv & Hcy & Hat & _) Hn Hc. pose proof Hinv as [_ [Hrd _]]. cbn [test_start tr_b] in Hrd. pose proof (rd_kernel _ _ _ _ _ Hrd) as Hok. pose proof Hok as [_ (c & t & Hc' & Ht & _)]. assert (c = l0) as -> by congruence.
  destruct (first_tests !! n) as [m|] eqn:Em; [|apply lookup_ge_None in Em; cbn in Em; lia].
  destruct (test_passes to_lowercase from_utf8_lossy sha256 stat_pad tramp l0 l1 vm_call fuel Hsha Hfuel n b m t Hat Hok Hc Ht Em) as (r & b' & E & Hr). destruct r as [[]|e]; [|done]. destruct Hr as [Hat' Hq].
  exists b'. cbn [tests_step first_step]. rewrite Hc. cbn [mbind option_bind]. rewrite Z.eqb_refl. match goal with |- context [match ?o with Some _ => _ | None => _ end] => change o with (first_tests !! n) end. rewrite Em, E. split; [done|]. split; [|done]. split_and!; [by eapply inv_quiet|by eapply carry_quiet|done|lia].
Qed.

Lemma first_inv_step p n (b : machine) e :
  tests_inv p (RFirst n b) -> (e = Tick -> tests_now (RFirst n b) + 1 < 2 ^ 32) ->
  exists s', tests_step (RFirst n b) e = Some s' /\ tests_inv p s' /\ tests_now s' = tests_now (RFirst n b) + ticks [e].
Proof.
  intros Hall Hn. pose proof Hall as (Hinv & Hcy & Hat & H8). destruct apart as (D1 & D2 & D3 & _). destruct e.
  - destruct (inv_tick tramp clone_child_task fork_child_task base1 l0 l1 lc1 D1 D2 D3 Hb1 CloneTest _ Hinv (Hn eq_refl)) as (r' & E & Hinv' & Ht & _). 
    destruct (tick_same_names tramp clone_child_task fork_child_task base1 l0 l1 lc1 Hb1 CloneTest _ r' Hinv E) as [Eb Hk]. cbn [trstep test_start tr_b] in E, Eb, Hk. cbn [tests_step first_step].
    apply bind_Some in E as ([k sw] & -> & [= <-]). eexists. split; [reflexivity|]. split; [|exact Ht]. split_and!; [exact Hinv'|by eapply carry_kept|by eapply at_kept|done].
  - change (ticks [Run]) with 0. rewrite Z.add_0_r. pose proof Hinv as [[c Hc] _]. cbn [test_start tr_b] in Hc. destruct (decide (c = l0)) as [->|Hne].
    + destruct (decide (n = 8%nat)) as [->|]; [|destruct (first_test_runs p n b Hall ltac:(lia) Hc) as (b' & E & Hinv' & Ek & _); exists (RFirst (S n) b'); split_and!; [done|done|cbn; by rewrite Ek]].
      exists (RClone (test_start b 0)). cbn [tests_step first_step]. rewrite Hc. cbn [mbind option_bind]. rewrite Z.eqb_refl. done.
    + exists (RFirst n b). cbn [tests_step first_step]. rewrite Hc. cbn [mbind option_bind]. rewrite (proj2 (Z.eqb_neq c l0) Hne). done.
Qed.

Lemma tests_inv_step p s e :
  p + 1 < 2 ^ 31 -> tests_inv p s -> (e = Tick -> tests_now s + 1 < 2 ^ 32) ->
  exists s', tests_step s e = Some s' /\ tests_inv p s' /\ tests_now s' = tests_now s + ticks [e] /\ (tests_hang s -> tests_hang s').
Proof.
  intros Hp Hinv Hn. destruct apart as (D1 & D2 & D3 & D4 & D5 & D6 & D7 & D8 & D9 & D10).
  assert (Hnh : forall lc (r : trun) code, tr_boot r = BDone code -> ~ hanging lc r) by (intros lc r code Hd (id & tc & E & _); congruence).
  destruct s as [n b|r|r|r]; [destruct (first_inv_step p n b e Hinv Hn) as (s' & E & Hinv' & Ht); by exists s'|..]; cbn [tests_step tests_inv tests_now tests_hang] in *.
  - destruct Hinv as [Hinv Hcy]. destruct (goes_on (tr_b r) (tr_boot r) e) eqn:Eg.
    + apply goes_on_done in Eg as ([code Hd] & -> & Hc). eexists. split; [reflexivity|]. cbn [tests_inv tests_now]. split_and!; [|rewrite Hd in Hcy; apply (carry_sub sha256 l0 [lc2; lc3]); [by right|exact Hcy]|change (ticks [Run]) with 0; by rewrite Z.add_0_r|intros Hh; by destruct (Hnh _ _ _ Hd Hh)].
      apply (start_inv l0 l1 lc2). pose proof Hinv as [_ Hi]. rewrite Hd in *. destruct Hi as (_ & _ & Hco & _ & Hok & Hlc). apply (done_ready sha256 l0 l1 lc1 lc2 ForkTest [lc2; lc3] 13 p 1); [done|done|done|done|left].
    + destruct (stage_step tramp clone_child_task fork_child_task base1 l0 l1 lc1 D1 D2 D3 Hb1 CloneTest (carry [lc2; lc3] 14 p 2) (carry [lc2; lc3] 14 p 1) r e) as (r' & E & Hinv' & Hcy' & Ht & Hh); try done.
      * intros b b'. apply carry_kept.
      * intros b b'. apply carry_kept.
      * intros b b' id Hcb Hrd Es. apply (clone_carry sha256 l0 l1 tramp clone_child_task base1 lc1 D2 D3 [lc2; lc3] 14 p 1 b b' id); [done|lia|by rewrite !not_elem_of_cons; split_and!; [..|apply not_elem_of_nil]|done|done].
      * by destruct (tr_boot r).
      * exists (RClone r'). rewrite E. split; [done|]. split; [split; [done|]; by destruct (tr_boot r')|]. done.
  - destruct Hinv as [Hinv Hcy]. destruct (goes_on (tr_b r) (tr_boot r) e) eqn:Eg.
    + apply goes_on_done in Eg as ([code Hd] & -> & Hc). eexists. split; [reflexivity|]. cbn [tests_inv tests_now]. split_and!; [|change (ticks [Run]) with 0; by rewrite Z.add_0_r|intros Hh; by destruct (Hnh _ _ _ Hd Hh)].
      apply (user_start_inv sha256 l0 l1 lc3). pose proof Hinv as [_ Hi]. rewrite Hd in *. destruct Hi as (_ & _ & Hco & _ & Hok & Hlc).
      split; [apply (done_ready sha256 l0 l1 lc2 lc3 CloneTest [lc3] 12 (p + 1) 0); [done|done|done|done|left]|..]; destruct Hcy as [C1 C2 (C3 & C3a & _) C4 C5 C6 C7 C8 C9 C10]; try done.
    + destruct (stage_step tramp clone_child_task fork_child_task base2 l0 l1 lc2 D1 D4 D5 Hb2 ForkTest (carry [lc3] 14 p 1) (carry [lc3] 13 (p + 1) 0) r e) as (r' & E & Hinv' & Hcy' & Ht & Hh); try done.
      * intros b b'. apply carry_kept.
      * intros b b'. apply carry_kept.
      * intros b b' id Hcb Hrd Es. apply (fork_carry sha256 l0 l1 tramp fork_child_task base2 lc2 D4 D5 [lc3] 13 p 0 b b' id); [done|lia|lia|by rewrite !not_elem_of_cons; split_and!; [..|apply not_elem_of_nil]|done|done].
      * exists (RFork r'). rewrite E. done.
  - destruct (uinv_step to_lowercase from_utf8_lossy sha256 stat_pad tramp utramp base3 base' l' l0 l1 lc3 regs0 fuel D1 D6 D7 Hb3 Hregs (p + 1) r e Hinv Hn) as (r' & E & Hinv' & Ht). exists (RUser r'). rewrite E. done.
Qed.

Lemma tests_inv_events p s es :
  p + 1 < 2 ^ 31 -> tests_inv p s -> tests_now s + ticks es < 2 ^ 32 ->
  exists s', run_tests s es = Some s' /\ tests_inv p s' /\ tests_now s' = tests_now s + ticks es /\ (tests_hang s -> tests_hang s').
Proof.
  intros Hp. revert s. induction es as [|e es IH]; intros s Hinv Hn; [exists s; split_and!; try done; change (ticks []) with 0; lia|]. rewrite ticks_cons in *. pose proof (ticks_nonneg es).
  destruct (tests_inv_step p s e Hp Hinv) as (s1 & E & Hinv1 & Ht & Hh); [intros ->; change (ticks [Tick]) with 1 in Hn; lia|]. destruct (IH s1 Hinv1 ltac:(lia)) as (s2 & E2 & Hinv2 & Ht2 & Hh2).
  exists s2. cbn [run_tests]. rewrite E. cbn [mbind option_bind]. split_and!; [done|done|lia|tauto].
Qed.
(** ** Reaching the end *)

Lemma run_tests_app s es es' : run_tests s (es ++ es') = (s' ← run_tests s es; run_tests s' es').
Proof. revert s. induction es as [|e es IH]; intros s; [done|]. cbn [run_tests app]. destruct (tests_step s e); [apply IH|done]. Qed.

Lemma ticks_app es es' : ticks (es ++ es') = ticks es + ticks es'.
Proof. unfold ticks. rewrite filter_app, length_app. lia. Qed.

(** One of the first two tests, and how it goes on. *)
Section Stage.
Context (C : trun -> tests_run) (t : child_test) (base lc : Z) (next : machine -> tests_run).
Abbreviation step := (trstep tramp clone_child_task fork_child_task base l0 lc t).
Abbreviation steps := (run_events tramp clone_child_task fork_child_task base l0 lc t).
Context (Hstep : forall r e, goes_on (tr_b r) (tr_boot r) e = false -> tests_step (C r) e = C <$> step r e).
Context (Hnext : forall r e, goes_on (tr_b r) (tr_boot r) e = true -> tests_step (C r) e = Some (next (tr_b r))).
Context (D1 : l0 <> l1) (D2 : l0 <> lc) (D3 : l1 <> lc) (Hb : 0 < base < 2 ^ 63).

Lemma lift_done r es r' code :
  steps r es = Some r' -> tr_boot r' = BDone code -> exists es1 r1 code1, run_tests (C r) es1 = Some (C r1) /\ steps r es1 = Some r1 /\ tr_boot r1 = BDone code1 /\ ticks es1 <= ticks es.
Proof.
  revert r. induction es as [|e es IH]; intros r E Hd; [injection E as ->; exists [], r', code; split_and!; done|]. pose proof (ticks_nonneg es). rewrite ticks_cons. pose proof (ticks_nonneg [e]).
  destruct (tr_boot r) as [|id|code0] eqn:Eb; [| |exists [], r, code0; split_and!; [done|done|done|change (ticks []) with 0; lia]].
  all: cbn [run_events] in E; apply bind_Some in E as (r0 & E0 & E); destruct (IH r0 E Hd) as (es1 & r1 & code1 & E1 & E2 & Hd1 & Ht1); exists (e :: es1), r1, code1; cbn [run_tests run_events].
  all: rewrite Hstep by (rewrite Eb; by destruct e); rewrite E0; cbn [fmap option_fmap option_map mbind option_bind]; rewrite (ticks_cons e es1); split_and!; [done|done|done|lia].
Qed.

Lemma lift_ticks n r r' : steps r (replicate n Tick) = Some r' -> run_tests (C r) (replicate n Tick) = Some (C r').
Proof.
  revert r. induction n as [|n IH]; intros r E; [by injection E as ->|]. cbn [replicate run_events run_tests] in *. apply bind_Some in E as (r0 & E0 & E).
  rewrite Hstep by (by destruct (tr_boot r)). rewrite E0. cbn [fmap option_fmap option_map mbind option_bind]. by apply IH.
Qed.

Lemma stage_over r :
  inv l0 l1 lc t r -> ~ hanging lc r -> now r + 3064 < 2 ^ 32 -> exists es b, run_tests (C r) es = Some (next b) /\ ticks es <= 3064.
Proof.
  intros Hinv Hnh Hn. destruct (inv_finishes tramp clone_child_task fork_child_task base l0 l1 lc D1 D2 D3 Hb t r Hinv Hnh ltac:(lia)) as (es & r' & code & Ht & E & Hd).
  destruct (lift_done r es r' code E Hd) as (es1 & r1 & code1 & E1 & E2 & Hd1 & Ht1).
  destruct (inv_events tramp clone_child_task fork_child_task base l0 l1 lc D1 D2 D3 Hb t r es1 Hinv ltac:(lia)) as (r1' & E2' & Hinv1 & Hnow1 & _). rewrite E2 in E2'. injection E2' as <-.
  pose proof Hinv1 as [[c Hc] Hi]. rewrite Hd1 in Hi. destruct Hi as (_ & _ & Hco & Hch & Hok & _).
  destruct (turn_comes l0 l1 lc _ _ c l0 Hok Hco Hc) as (m & k' & Hm & Er & Hcl); [left|cbn; lia|unfold now in *; lia|].
  destruct (inv_ticks tramp clone_child_task fork_child_task base l0 l1 lc D1 D2 D3 Hb t r1 m Hinv1 ltac:(lia) ltac:(by rewrite Hch)) as (r2 & E3 & _ & _ & Eb2 & _ & _ & Er'). rewrite Er in Er'. injection Er' as ->.
  exists (es1 ++ replicate m Tick ++ [Run]), (tr_b r2). split.
  - rewrite run_tests_app, E1. cbn [mbind option_bind]. rewrite run_tests_app, (lift_ticks m r1 r2 E3). cbn [mbind option_bind run_tests]. rewrite Hnext; [done|]. rewrite Eb2, Hd1. by apply bool_decide_eq_true.
  - rewrite !ticks_app, ticks_replicate. change (ticks [Run]) with 0. lia.
Qed.
End Stage.

Lemma lift_user r es : run_tests (RUser r) es = RUser <$> run_user_events to_lowercase from_utf8_lossy sha256 stat_pad tramp utramp base3 base' l' l0 lc3 regs0 fuel r es.
Proof. revert r. induction es as [|e es IH]; intros r; [done|]. cbn [run_tests run_user_events tests_step]. destruct (user_step' r e); [apply IH|done]. Qed.

Definition tests_finish (p n : Z) (s : tests_run) : Prop := exists es r, ticks es <= n /\ run_tests s es = Some (RUser r) /\ ur_boot r = BDone (p + 1).

Lemma user_tests_finish p r : tests_inv p (RUser r) -> unow r + 2298 < 2 ^ 32 -> tests_finish p 2298 (RUser r).
Proof.
  intros Hinv Hn. destruct apart as (D1 & D2 & D3 & D4 & D5 & D6 & D7 & _).
  destruct (uinv_finishes to_lowercase from_utf8_lossy sha256 stat_pad tramp utramp base3 base' l' l0 l1 lc3 regs0 fuel D1 D6 D7 Hb3 Hregs (p + 1) r Hinv Hn) as (es & r' & Ht & E & Hd).
  exists es, r'. rewrite lift_user, E. done.
Qed.

Lemma tests_finish_after p n m s es s' : run_tests s es = Some s' -> ticks es <= m -> tests_finish p n s' -> tests_finish p (n + m) s.
Proof. intros E Hm (es' & r & Hn & E' & Hd). exists (es ++ es'), r. split; [rewrite ticks_app; lia|]. split; [|done]. rewrite run_tests_app, E. done. Qed.

Lemma fork_tests_finish p r : p + 1 < 2 ^ 31 -> tests_inv p (RFork r) -> ~ tests_hang (RFork r) -> now r + 5362 < 2 ^ 32 -> tests_finish p 5362 (RFork r).
Proof.
  intros Hp Hinv Hnh Hn. destruct apart as (D1 & D2 & D3 & D4 & D5 & _).
  destruct (stage_over RFork ForkTest base2 lc2 (fun b => RUser (user_test_start b))) with (r := r) as (es & b & E & Ht); [intros r0 e Hg; cbn; by rewrite Hg|intros r0 e Hg; cbn; by rewrite Hg|done|done|done|done|apply Hinv|done|lia|].
  destruct (tests_inv_events p (RFork r) es Hp Hinv ltac:(cbn; lia)) as (s' & E' & Hinv' & Hnow & _). rewrite E in E'. injection E' as <-. change 5362 with (2298 + 3064). apply (tests_finish_after p 2298 3064 _ es _ E Ht). apply user_tests_finish; [done|]. cbn in Hnow. lia.
Qed.

Lemma clone_tests_finish p r : p + 1 < 2 ^ 31 -> tests_inv p (RClone r) -> ~ tests_hang (RClone r) -> now r + 8426 < 2 ^ 32 -> tests_finish p 8426 (RClone r).
Proof.
  intros Hp Hinv Hnh Hn. destruct apart as (D1 & D2 & D3 & _).
  destruct (stage_over RClone CloneTest base1 lc1 (fun b => RFork (test_start b 0))) with (r := r) as (es & b & E & Ht); [intros r0 e Hg; cbn; by rewrite Hg|intros r0 e Hg; cbn; by rewrite Hg|done|done|done|done|apply Hinv|done|lia|].
  destruct (tests_inv_events p (RClone r) es Hp Hinv ltac:(cbn; lia)) as (s' & E' & Hinv' & Hnow & _). rewrite E in E'. injection E' as <-. change 8426 with (5362 + 3064). apply (tests_finish_after p 5362 3064 _ es _ E Ht).
  apply fork_tests_finish; [done|done| |cbn in Hnow; lia]. intros (id & tc & Eb & _). discriminate Eb.
Qed.

(** While the boot task runs, the tests that need one task follow each other. *)
Lemma first_runs p k n (b : machine) :
  tests_inv p (RFirst n b) -> (n + k = 8)%nat -> current (k_sched (kern b)) = Some l0 -> exists b', run_tests (RFirst n b) (replicate (S k) Run) = Some (RClone (test_start b' 0)).
Proof.
  revert n b. induction k as [|k IH]; intros n b Hinv Hk Hc.
  - exists b. assert (n = 8%nat) as -> by lia. cbn [replicate run_tests tests_step first_step]. rewrite Hc. cbn [mbind option_bind]. rewrite Z.eqb_refl. done.
  - destruct (first_test_runs p n b Hinv ltac:(lia) Hc) as (b1 & E & Hinv1 & Ek & _). destruct (IH (S n) b1 Hinv1 ltac:(lia) ltac:(by rewrite Ek)) as (b' & E'). exists b'.
    change (replicate (S (S k)) Run) with (Run :: replicate (S k) Run). cbn [run_tests]. rewrite E. exact E'.
Qed.

Lemma first_ticks m n (b : machine) k : run_timer m (kern b) = Some k -> run_tests (RFirst n b) (replicate m Tick) = Some (RFirst n (set_kern b k)).
Proof.
  revert b. induction m as [|m IH]; intros b E; cbn [run_timer] in E; [injection E as <-; by destruct b as [[] ? ? ? ? ?]|].
  apply bind_Some in E as ([k1 sw] & E1 & E). cbn [replicate run_tests tests_step first_step]. rewrite E1. cbn [mbind option_bind]. by rewrite (IH (set_kern b k1) E).
Qed.

Lemma first_tests_finish p n (b : machine) : p + 1 < 2 ^ 31 -> tests_inv p (RFirst n b) -> tests_now (RFirst n b) + 9192 < 2 ^ 32 -> tests_finish p 9192 (RFirst n b).
Proof.
  intros Hp Hinv Hn. destruct apart as (D1 & D2 & D3 & _). pose proof Hinv as ([[c Hc] [Hrd _]] & _ & _ & H8). cbn [test_start tr_b] in Hc, Hrd. cbn [tests_now] in Hn.
  destruct (turn_comes l0 l1 lc1 [l0; l1] (kern b) c l0) as (m & k' & Hm & Er & Hcl); [apply (rd_kernel _ _ _ _ _ Hrd)|by apply (ready_core base1 _ _ _ Hb1 _ _ Hrd)|done|left|cbn; lia|lia|].
  pose proof (first_ticks m n b k' Er) as E1. destruct (tests_inv_events p _ (replicate m Tick) Hp Hinv ltac:(rewrite ticks_replicate; cbn; lia)) as (s1 & E1' & Hinv1 & Ht1 & _). rewrite E1 in E1'. injection E1' as <-.
  destruct (first_runs p (8 - n) n _ Hinv1 ltac:(lia) Hcl) as (b' & E2). destruct (tests_inv_events p _ (replicate (S (8 - n)) Run) Hp Hinv1 ltac:(rewrite ticks_runs; rewrite ticks_replicate in Ht1; cbn in *; lia)) as (s2 & E2' & Hinv2 & Ht2 & _).
  rewrite E2 in E2'. injection E2' as <-. rewrite ticks_runs, Ht1, ticks_replicate in Ht2. cbn in Ht2. change 9192 with (8426 + 766).
  apply (tests_finish_after p 8426 766 _ (replicate m Tick ++ replicate (S (8 - n)) Run) (RClone (test_start b' 0))); [rewrite run_tests_app, E1; exact E2|rewrite ticks_app, ticks_replicate, ticks_runs; lia|].
  apply clone_tests_finish; [done|done|intros (id & tc & Eb & _); discriminate Eb|lia].
Qed.

Lemma tests_can_finish p s : p + 1 < 2 ^ 31 -> tests_inv p s -> ~ tests_hang s -> tests_now s + 9192 < 2 ^ 32 -> tests_finish p 9192 s.
Proof.
  intros Hp Hinv Hnh Hn. assert (Hmono : forall n, tests_finish p n s -> n <= 9192 -> tests_finish p 9192 s) by (intros n (es & r & Ht & E & Hd) Hle; exists es, r; split_and!; [lia|done|done]).
  destruct s as [n b|r|r|r]; cbn [tests_now] in Hn; [by apply first_tests_finish|apply (Hmono 8426); [apply clone_tests_finish; [done|done|done|lia]|lia]|apply (Hmono 5362); [apply fork_tests_finish; [done|done|done|lia]|lia]|apply (Hmono 2298); [apply user_tests_finish; [done|lia]|lia]].
Qed.

(** ** From the services to the end of the tests *)

(** The boot task and the idle task are the processes 1 and 2. *)
Lemma first_tests_start (b : machine) d :
  booted sha256 l0 l1 init_bin b -> disk (sy_fs (bm_sys b)) = Some d -> is_Some (tests_volume sha256 d) ->
  bm_l4 b (l4_index USER_CODE_BASE) = false -> bm_l4 b (l4_index STACK_PAGE) = false -> tests_inv 3 (RFirst 0 b).
Proof.
  intros Hb Hd Hv Hl0 Hl255. destruct apart as (D1 & D2 & D3 & D4 & D5 & D6 & D7 & _). pose proof (booted_at sha256 l0 l1 b d Hb Hd Hv) as Hat.
  pose proof (bt_kernel _ _ _ _ _ Hb) as [Hok Hc]. pose proof (bt_tasks _ _ _ _ _ Hb) as Htwo. pose proof Htwo as [T1 T2 T3 T4]. fold (kern b) in *.
  split_and!; [apply (start_inv l0 l1 lc1), (two_tasks_ready l0 l1 lc1 D2 D3); [done|done|discriminate]| |done|lia].
  split; rewrite ?T4; try done.
  - intros id x Hid. by destruct (T2 id x Hid) as (Q1 & _ & Q2).
  - intros x Hx. apply T3. rewrite !elem_of_cons, elem_of_nil in *. intuition congruence.
  - destruct Hat as [(v & [(l & Hp & Hl) _ _ _ _] & _) _ _ _ _ _ _ _ _]. exists l. split; [done|]. unfold frames_left, TEST_FRAMES in Hl. lia.
  - destruct Hat as [_ (d' & Hd' & Hi & _) _ _ _ _ _ _ _]. by exists d'.
  - apply Hat.
  - intros t Ht. by apply Hat.
  - apply Hat.
  - apply Hat.
Qed.

(** C9. All the self-tests pass, in the order the kernel runs them.  On the state the
    services leave, with nothing of the kernel's where the program will be, a
    hash of 32 bytes and a volume that takes the two small files the tests
    store, and whatever the timer does before, between and after the first
    eight tests and anywhere in the last three: the eight tests that need one
    task and then the clone test, the fork test and the user-mode test, each on
    what the last left, do not panic, no [expect] of theirs fails, and no
    assertion does.  If the last one ends, the program was process 4, its exit
    code, it had logged in, set the console to non-blocking and stored to its
    heap.  From every state, unless a timer interrupt has come inside the
    [exit] of the child of the clone or fork test, all tests can still end, with
    at most 9192 further timer interrupts. *)
Theorem all_self_tests_pass (b : machine) (d : V) (es : list tevent) :
  booted sha256 l0 l1 init_bin b -> disk (sy_fs (bm_sys b)) = Some d -> is_Some (tests_volume sha256 d) ->
  bm_l4 b (l4_index USER_CODE_BASE) = false -> bm_l4 b (l4_index STACK_PAGE) = false ->
  total_ticks (k_sched (kern b)) + ticks es + 9192 < 2 ^ 32 ->
  exists s, run_tests (RFirst 0 b) es = Some s /\
    (forall r code, s = RUser r -> ur_boot r = BDone code -> code = 4 /\ exists tc, k_tasks (kern (ur_b r)) !! lc3 = Some tc /\ finished 4 (ur_b r) tc) /\
    (~ tests_hang s -> exists es' r, ticks es' <= 9192 /\ run_tests s es' = Some (RUser r) /\ ur_boot r = BDone 4).
Proof.
  intros Hb Hd Hv Hl0 Hl255 Hn. pose proof (first_tests_start b d Hb Hd Hv Hl0 Hl255) as Hinv.
  destruct (tests_inv_events 3 _ es ltac:(lia) Hinv ltac:(cbn; lia)) as (s & Es & Hinv' & Ht & _). cbn in Ht. exists s. split; [done|]. split; [|intros Hnh; apply (tests_can_finish 3 s ltac:(lia) Hinv' Hnh); lia].
  intros r code -> Hdn. destruct Hinv' as [_ Hi]. rewrite Hdn in Hi. by destruct Hi as (-> & _ & Hf).
Qed.
End Tests.

(** A machine as the services leave it. *)
Definition served_machine (k : kernel) (m : memory) (c : counters) (p : frame_pool) (part : SwapPartition) : Boot.machine (T := gmap Z (Z * Z)) (V := flat) :=
  mkMachine (mkSys k m (mkFs ∅ {[1 := mkFds 4 ∅]} ∅ {[1 := auth_new sample_hash 1 TEST_PASSWORD]} (Some (mkFlat {[INIT_FILE := init_bin]}))) (spinlock_new ipc_table_new) ∅ resource_table_new rbac_new
      (mkWorld (mkRing (replicate 256 0) 0 0) console_new []) [mkDevice "console" true] c)
    ∅ p (RAMDISK_VIRT_REGION_BASE + SERVICES_END) (Some part) (fun _ => false).

Lemma served_machine_booted : exists b, booted sample_hash 0x70000 0x71000 init_bin b /\ bm_l4 b = (fun _ => false) /\ total_ticks (k_sched (kern b)) = 0.
Proof.
  destruct power_on_ready as (p0 & Hp0).
  destruct (start_services_wp id sample_hash 0x5000 0x6000 0x40000 0x60000 0x1000 0x70000 0x71000 init_bin 9 (power_on p0) Hp0) as (r & b0 & _ & Hr); [lia|lia|lia|reflexivity|].
  destruct r as [[]|e]; [|exfalso; exact (nothing_refused e Hr)]. destruct (bt_swap _ _ _ _ _ Hr) as (part & _ & Hrep & Hfree).
  destruct (sched_init_some 0x5000 0x6000 0x40000 0x60000 0x1000 0x70000 0x71000 kernel_new ∅ (mkCounters 1 1)) as (k & m & c & E); [lia..|].
  destruct (region_pool 0x1000000 0x2000000) as (p & l & Hp & Hl); [by exists 0x1000|by exists 0x2000|lia|lia|].
  assert (Hpid : (fun x => current_pid x.1.1) <$> sched_init 0x5000 0x6000 0x40000 0x60000 0x1000 0x70000 0x71000 kernel_new ∅ (mkCounters 1 1) = Some (Some 1)) by (vm_compute; reflexivity).
  rewrite E in Hpid. injection Hpid as Hpid. change kernel_new with (early_kernel 0 0) in E. destruct (sched_init_ok _ _ _ _ _ _ _ _ _ _ _ _ _ _ E) as (Hok & _ & Hcur & Ht); [lia|lia|unfold fits; cbn; lia|].
  exists (served_machine k m c p part). split; [|split; [reflexivity|exact Ht]]. split.
  - split; [exists l; split; [exact Hp|rewrite Hl; discriminate]|reflexivity|split; [by exists (SERVICES_END / 4096)|discriminate]|intros; apply lookup_empty|apply lookup_empty].
  - exact (conj Hok Hcur).
  - eapply sched_init_two_tasks; [exact E|lia|lia].
  - eexists. split; [reflexivity|]. split; [apply lookup_singleton_eq|]. intros q (_ & _ & Hq). apply lookup_singleton_ne. exact Hq.
  - reflexivity.
  - intros pid E1. change (current_pid k = Some pid) in E1. rewrite Hpid in E1. injection E1 as <-. reflexivity.
  - reflexivity.
  - reflexivity.
  - reflexivity.
  - reflexivity.
  - exists part. exact (conj eq_refl (conj Hrep Hfree)).
  - intros q Hq. exfalso. apply Hq. apply lookup_empty.
Qed.

(** A volume that refuses nothing takes the files. *)
Lemma flat_takes (h : list Z -> list Z) (d : flat) : is_Some (tests_volume h d).
Proof.
  unfold tests_volume. destruct (fat_store d HELLO_FILE [HI]) as [d1|] eqn:E1; [|apply store_refused, flat_accepts in E1; done]. cbn [mbind option_bind].
  destruct (fat_store d1 TEST_PATH (test_records h)) as [d2|] eqn:E2; [by eexists|apply store_refused, flat_accepts in E2; done].
Qed.

Lemma all_self_tests_pass_witness :
  exists b s, booted sample_hash 0x70000 0x71000 init_bin b /\
    run_tests id id sample_hash [] 0x5000 0x6000 0x7000 0x8000 0x80000 0xA0000 0xC0000 0xE0000 0x75000 0x70000 0x72000 0x73000 0x74000 sample_frame 9 (fun _ s _ _ _ => ret 0 s) (RFirst 0 b) [Run; Tick; Run; Tick; Tick] = Some s.
Proof.
  destruct served_machine_booted as (b & Hb & Hl4 & Ht). exists b. destruct (bt_files _ _ _ _ _ Hb) as (d & Hd & _).
  destruct (all_self_tests_pass id id sample_hash [] 0x5000 0x6000 0x7000 0x8000 0x80000 0xA0000 0xC0000 0xE0000 0x75000 0x70000 0x71000 0x72000 0x73000 0x74000 sample_frame 9) with (vm_call := fun (_ : Z) (s : sys (D := flat)) (_ _ _ : Z) => ret 0 s) (b := b) (d := d) (es := [Run; Tick; Run; Tick; Tick]) as (s & Es & _).
  - apply (bool_decide_unpack _). vm_compute. exact I.
  - lia.
  - lia.
  - lia.
  - apply (bool_decide_unpack _). vm_compute. exact I.
  - intros m. apply length_replicate.
  - lia.
  - exact Hb.
  - exact Hd.
  - apply flat_takes.
  - by rewrite Hl4.
  - by rewrite Hl4.
  - rewrite Ht. reflexivity.
  - exists s. exact (conj Hb Es).
Defined.
