(* ===== verification/Main.v ===== *)
(** The end of [kernel_main] ([kernel/src/main.rs]): after the self-tests the boot
    task spawns the page reaper and the two monitor tasks, and halts in a loop;
    from then on the timer schedules them. *)

From S2P Require Import Prelude Bytes X86 Frames Swap Vmm Task Sched Sync Ipc Security Console Fat Records Vfs Mount Loader Syscall Boot Children.

Section Main.
Context {T V : Type}.
(** The trampoline, the code of the three tasks, their stacks and addresses, and
    the address space of the boot task. *)
Context (tramp reaper_main ping_pong_a ping_pong_b base_r base_a base_b cur_cr3 lr la lb : Z).

Abbreviation machine := (Boot.machine (T := T) (V := V)).
Abbreviation bootm := (kmon machine boot_failure).

Definition spawn_new (base start prio l : Z) : bootm unit :=
  start_child l (fun m c => task_new tramp base cur_cr3 m c start prio None) ;;;
  kret tt.

(* main.rs:129-131 kernel_main *)
Definition start_background : bootm unit :=
  spawn_new base_r reaper_main (Z.of_nat NUM_QUEUES - 1) lr ;;;
  spawn_new base_a ping_pong_a 0 la ;;;
  spawn_new base_b ping_pong_b 0 lb.

(** ** Spawning *)

(** No identifier from the counter on is in use. *)
Definition ids_below (b : machine) : Prop := forall id l, k_table (kern b) !! id = Some l -> id < NEXT_TID (sy_counters (bm_sys b)).

Lemma spawn_new_spec idle (b : machine) base start prio l :
  kernel_ok idle (kern b) -> ids_below b -> fits 64 (NEXT_TID (sy_counters (bm_sys b)) + 1) -> k_tasks (kern b) !! l = None -> 0 <= prio < 8 -> 0 < base < 2 ^ 63 ->
  exists b' t, spawn_new base start prio l b = Some (Ok tt, b') /\ kernel_ok idle (kern b') /\ ids_below b' /\
    NEXT_TID (sy_counters (bm_sys b')) = NEXT_TID (sy_counters (bm_sys b)) + 1 /\ k_tasks (kern b') = <[l := t]> (k_tasks (kern b)) /\
    current (k_sched (kern b')) = current (k_sched (kern b)) /\ total_ticks (k_sched (kern b')) = total_ticks (k_sched (kern b)) /\
    runnable (k_sched (kern b')) ≡ₚ l :: runnable (k_sched (kern b)).
Proof.
  intros Hok Hids Hfit Hl Hp Hb. unfold spawn_new, start_child, kbind, kget, need, task_new. destruct (kernel_stack_some tramp base (sy_mem (bm_sys b)) start Hb) as (m1 & top & m2 & r & -> & Es). cbn [mbind option_bind]. rewrite Es. cbn [mbind option_bind].
  unfold pid_next, tid_next. cbn [NEXT_PID NEXT_TID]. set (t := mkTask _ _ _ _ _ _ _ _ _ _ _ _ _ _ _ _ _ _ _ _ _ _). fold (kern b).
  assert (Hfree : k_table (kern b) !! tid t = None) by (destruct (k_table (kern b) !! tid t) as [x|] eqn:E; [|done]; apply Hids in E; cbn in E; lia).
  destruct (spawn_ok idle (kern b) l t Hok Hl Hfree Hp eq_refl) as (k' & E & Hok'). destruct (spawn_effect _ _ _ _ (kp_sched _ _ (proj1 Hok)) (Hp : 0 <= priority t < 8) E) as (Et & Etb & _ & Ecur & Etot & Erun).
  unfold kret, kput. cbv beta iota zeta. change (sy_k (bm_sys b)) with (kern b). rewrite E. cbn. eexists _, t. split; [reflexivity|]. unfold ids_below. cbn [kern set_sys bm_sys put_counters put_mem put_k sy_k sy_counters NEXT_TID].
  rewrite (wrap_small 64 (_ + 1)) by exact Hfit. split_and!; [done| |done|done|done|done|done].
  intros id x Hx. rewrite Etb in Hx. apply lookup_insert_Some in Hx as [[<- _]|[_ Hx]]; [cbn; lia|]. apply Hids in Hx. lia.
Qed.

(** A runnable task that is not running is queued, and gets its turn. *)
Lemma runnable_runs idle k l :
  kernel_ok idle k -> l ∈ runnable (k_sched k) -> current (k_sched k) <> Some l -> total_ticks (k_sched k) + 764 + Z.of_nat (length (runnable (k_sched k))) < 2 ^ 32 ->
  exists n k', Z.of_nat n <= 764 + Z.of_nat (length (runnable (k_sched k))) /\ run_timer n k = Some k' /\ current (k_sched k') = Some l.
Proof.
  intros Hok Hl Hne Hn. destruct Hok as [Hpre (c & u & Hc & Hu & Hs)]. unfold runnable in *. rewrite Hc in *. apply elem_of_app in Hl as [Hl|Hl]; [apply list_elem_of_singleton in Hl as ->; done|].
  apply elem_of_concat in Hl as (p & q & Hp & Hl). apply list_elem_of_lookup in Hl as [i Hi]. pose proof (wait_bound_max k p i q l (kp_sched _ _ Hpre) Hp Hi) as Hb. rewrite length_app in *. cbn in Hn |- *.
  destruct (run_to_current idle (Z.to_nat (764 + Z.of_nat (length (concat (queues (k_sched k)))))) k p i q l) as (n & k' & Hn' & E & Hcl); [by split; [|exists c, u]|done|done|lia|lia|].
  exists n, k'. split_and!; [lia|done|done].
Qed.

(** ** Theorem *)

(** The background tasks run: on any state of the scheduler in which their addresses
    and identifiers are unused, spawning the reaper and the two monitor tasks
    does not panic, keeps the scheduler's invariant and the boot task running;
    and each of the three, the reaper on the lowest level included, gets the
    processor within 764 timer interrupts and one for each runnable task. *)
Theorem background_tasks_run (idle : Z) (b : machine) :
  kernel_ok idle (kern b) -> ids_below b -> fits 64 (NEXT_TID (sy_counters (bm_sys b)) + 3) ->
  NoDup [lr; la; lb] -> (forall l, l ∈ [lr; la; lb] -> k_tasks (kern b) !! l = None) ->
  0 < base_r < 2 ^ 63 -> 0 < base_a < 2 ^ 63 -> 0 < base_b < 2 ^ 63 -> 0 <= NEXT_TID (sy_counters (bm_sys b)) ->
  exists b', start_background b = Some (Ok tt, b') /\ kernel_ok idle (kern b') /\ current (k_sched (kern b')) = current (k_sched (kern b)) /\
    let n := Z.of_nat (length (runnable (k_sched (kern b)))) in
    total_ticks (k_sched (kern b)) + 767 + n < 2 ^ 32 ->
    forall l, l ∈ [lr; la; lb] -> exists m k', Z.of_nat m <= 767 + n /\ run_timer m (kern b') = Some k' /\ current (k_sched k') = Some l.
Proof.
  intros Hok Hids Hfit Hnd Hfree Hbr Hba Hbb H0. assert (Hd : lr <> la /\ lr <> lb /\ la <> lb) by (rewrite !NoDup_cons, !not_elem_of_cons in Hnd; tauto). destruct Hd as (D1 & D2 & D3).
  assert (F : forall l, l ∈ [lr; la; lb] -> k_tasks (kern b) !! l = None) by exact Hfree. unfold fits in Hfit.
  destruct (spawn_new_spec idle b base_r reaper_main (Z.of_nat NUM_QUEUES - 1) lr Hok Hids ltac:(unfold fits; lia) (F lr ltac:(left)) ltac:(unfold NUM_QUEUES; lia) Hbr) as (b1 & t1 & E1 & Hok1 & Hids1 & Hn1 & Et1 & Ec1 & Ett1 & Er1).
  destruct (spawn_new_spec idle b1 base_a ping_pong_a 0 la Hok1 Hids1 ltac:(unfold fits; lia)) as (b2 & t2 & E2 & Hok2 & Hids2 & Hn2 & Et2 & Ec2 & Ett2 & Er2); [rewrite Et1, lookup_insert_ne by done; apply F; right; left|lia|done|].
  destruct (spawn_new_spec idle b2 base_b ping_pong_b 0 lb Hok2 Hids2 ltac:(unfold fits; lia)) as (b3 & t3 & E3 & Hok3 & _ & _ & _ & Ec3 & Ett3 & Er3); [rewrite Et2, lookup_insert_ne, Et1, lookup_insert_ne by done; apply F; right; right; left|lia|done|].
  exists b3. split; [unfold start_background, kbind; by rewrite E1, E2, E3|]. split; [done|]. split; [congruence|]. intros n Hn l Hl.
  assert (Hrun : runnable (k_sched (kern b3)) ≡ₚ [lb; la; lr] ++ runnable (k_sched (kern b))) by (rewrite Er3, Er2, Er1; done). pose proof (Permutation_length Hrun) as Hlen. rewrite length_app in Hlen. cbn [length] in Hlen.
  destruct (runnable_runs idle (kern b3) l Hok3) as (m & k' & Hm & E & Hc).
  - rewrite Hrun. apply elem_of_app. left. revert Hl. rewrite !elem_of_cons. tauto.
  - rewrite Ec3, Ec2, Ec1. intros Hcl. destruct Hok as [_ (c & u & Hcu & Hu & _)]. rewrite Hcu in Hcl. injection Hcl as ->. rewrite F in Hu by done. done.
  - rewrite Ett3, Ett2, Ett1, Hlen. unfold n in Hn. lia.
  - exists m, k'. rewrite Hlen in Hm. unfold n. split_and!; [lia|done|done].
Qed.
End Main.

Lemma background_tasks_run_witness :
  exists (b b' : Boot.machine (T := gmap Z (Z * Z)) (V := flat)), start_background 0x5000 0x7000 0x8000 0x9000 0x100000 0x120000 0x140000 0x1000 0x80000 0x81000 0x82000 b = Some (Ok tt, b') /\
    exists n k', Z.of_nat n <= 769 /\ run_timer n (kern b') = Some k' /\ current (k_sched k') = Some 0x80000.
Proof.
  destruct (sched_init_some 0x5000 0x6000 0x40000 0x60000 0x1000 0x70000 0x71000 kernel_new ∅ (mkCounters 1 1)) as (k & m & c & E); [lia..|].
  destruct (small_machine_ready k m c no_frames CloneTest E ltac:(discriminate)) as [[R1 R2 R3 _ _ _] Ht]. set (b := small_machine k m c no_frames) in *.
  assert (Hc : c = mkCounters 3 3) by (assert (snd <$> sched_init 0x5000 0x6000 0x40000 0x60000 0x1000 0x70000 0x71000 kernel_new ∅ (mkCounters 1 1) = Some (mkCounters 3 3)) as Hs by (vm_compute; reflexivity); rewrite E in Hs; by injection Hs).
  assert (Hk : (fun x => (elements (dom (k_table x.1.1)), bool_decide (k_tasks x.1.1 !! 0x80000 = None /\ k_tasks x.1.1 !! 0x81000 = None /\ k_tasks x.1.1 !! 0x82000 = None))) <$>
     sched_init 0x5000 0x6000 0x40000 0x60000 0x1000 0x70000 0x71000 kernel_new ∅ (mkCounters 1 1) = Some ([2; 1], true)).
  { vm_compute. reflexivity. }
  rewrite E in Hk. injection Hk as Hdom Hfree. apply bool_decide_eq_true in Hfree as (F1 & F2 & F3).
  exists b. destruct (background_tasks_run 0x5000 0x7000 0x8000 0x9000 0x100000 0x120000 0x140000 0x1000 0x80000 0x81000 0x82000 0x71000 b) as (b' & Eb & _ & _ & Hrun).
  - exact R1.
  - intros id l Hl. apply elem_of_dom_2, elem_of_elements in Hl. change (k_table (kern b)) with (k_table k) in Hl. rewrite Hdom in Hl. change (sy_counters (bm_sys b)) with c. rewrite Hc. cbn. rewrite !elem_of_cons in Hl. destruct Hl as [->|[->|Hl]]; [reflexivity|reflexivity|exact (False_ind _ (not_elem_of_nil _ Hl))].
  - change (sy_counters (bm_sys b)) with c. rewrite Hc. split; [discriminate|reflexivity].
  - apply (bool_decide_unpack _). vm_compute. exact I.
  - intros l Hl. change (kern b) with k. rewrite !elem_of_cons in Hl. destruct Hl as [->|[->|[->|Hl]]]; [exact F1|exact F2|exact F3|exact (False_ind _ (not_elem_of_nil _ Hl))].
  - split; reflexivity.
  - split; reflexivity.
  - split; reflexivity.
  - change (sy_counters (bm_sys b)) with c. rewrite Hc. discriminate.
  - exists b'. split; [exact Eb|]. pose proof (Permutation_length R2) as Hlen. change (kern b) with k in *. cbv zeta in Hrun. rewrite Hlen, Ht in Hrun. destruct (Hrun eq_refl 0x80000 ltac:(left)) as (n & k' & Hn & Er & Hcur). exists n, k'. exact (conj Hn (conj Er Hcur)).
Defined.
